(* ===== verification/_CoqProject ===== *)
-Q . S2P
Prelude.v
Utf8.v
Machine.v
Exec.v
Bindings.v
Layout.v
Utils.v
Version.v
Newtypes.v
Locals.v
UtilsTests.v
Primitives.v
Secretbox.v
Aead.v
Box.v
Sealer.v
Tests.v
Streaming.v
Auth.v
Hash.v
Secretstream.v
Channel.v
StreamTests.v
Sign.v
Stream.v
Hashes.v
Ciphers.v
Curve.v
MacroTests.v
SignTests.v
Keys.v
Padding.v
Codec.v
CodecTests.v
Pwhash.v
Standards.v
KeyTests.v
HashTests.v
CipherTests.v
CurveTests.v
PwhashTests.v
SerdeTests.v
VectorFiles.v
SysBindings.v
SysTests.v
AesTests.v
Tamper.v
SealTamper.v
TagTamper.v
Build.v
