(* ===== verification/Prelude.v ===== *)
(** * sodiumoxide: a verification library for the Rust bindings to libsodium

    ** The program

    sodiumoxide (src/src/) is a safe interface to libsodium.  Nearly all of its
    functions have the same shape: check the lengths of the arguments, allocate
    a result (a [Vec], an array on the stack, a value of a [new_type!] type),
    call an [extern "C"] function with raw pointers in an [unsafe] block, look
    at its status, and fix up lengths ([set_len], [truncate], [pop]).  What can
    go wrong is what the wrapper does around the call: a buffer one byte too
    small, a length that overflows, an ignored status, uninitialised or
    overlapping memory, a secret that is not erased, a state that is used after
    it was finished.  That is what the development models and proves.

    libsodium is a git submodule and not part of the repository: its functions
    are parameters, and what libsodium documents about each of them is a
    hypothesis of the theorems that need it.  Nothing is assumed or proved about
    the strength of a cipher.

    ** The machine (Machine.v, Exec.v)

    A program is a value of the monad [M]: from a [world] (allocations of
    possibly uninitialised bytes; the entropy, the final contents of dropped
    allocations, breaches of [Vec::set_len]'s contract) to an [outcome]:
    [Done], [Panicked], [Aborted] (libsodium's [sodium_misuse]) or [UB].
    Memory is a finite map from allocation to cells, and pointers are an
    allocation and an offset, so that aliasing, overlap, out-of-bounds and
    uninitialised accesses are visible.  A theorem "the wrapper is [Done]" hence
    includes that no access is out of bounds.  [usize] is an integer of 32 or 64
    bits ([Target]); additions that overflow panic, allocations above
    [isize::MAX] panic.  Exec.v is the symbolic executor: [bytes_at], [is_slice],
    [is_ref], [is_vec] describe the memory, one [_run] lemma per primitive
    computes its outcome, [step] and [steps] apply them, and the hint databases
    [mem] and [zlen] discharge the side conditions.  There is no fuel: every
    definition is total, loops are structural on the data they go through or on
    the number of their rounds.

    ** The files, and the code they model

    - Prelude.v: bytes, lengths, little-endian numbers, [Result].
    - Machine.v, Exec.v: see above.
    - Bindings.v: libsodium-sys/src/sodium_bindings.rs, the constants the
      wrappers use and the foreign functions they call (a class per family);
      SysBindings.v: the other constants, and the functions that report
      constants at run time.
    - Utils.v: utils.rs, randombytes.rs, crypto/verify.rs, [init()], version
      numbers; the reference functions and process used in examples ([Ref]).
    - Newtypes.v: newtype_macros.rs and crypto/nonce.rs; every trait
      implementation [new_type!] generates, serde's visitors included.
    - Primitives.v: authenticated ciphers, as a record of functions with the
      laws libsodium documents, and the programs its functions are documented
      to be; Streaming.v: the same for multi-part computations.
    - Secretbox.v: crypto/secretbox; Aead.v: crypto/aead; Box.v: crypto/box_ and
      crypto/sealedbox; Secretstream.v: crypto/secretstream, with the state
      machine of [Stream] (the flag [finalized]); Stream.v: crypto/stream;
      Auth.v: crypto/auth and crypto/onetimeauth; Hash.v: crypto/hash and
      crypto/generichash; Sign.v: crypto/sign; Pwhash.v: crypto/pwhash; Keys.v:
      crypto/kdf, kx, scalarmult, shorthash; Padding.v: padding.rs; Codec.v:
      hex.rs and base64.rs.
    - Utf8.v and Version.v: [version_string()] and the decoding of the C string
      it reads; Layout.v: the memory layout of the [repr(C)] types, computed
      from their fields, and the layout tests of the generated bindings.
    - Channel.v: a sender and a receiver of a secret stream that interleave, as
      a step relation with a step for every call at either end, and the
      simulation of the two wrappers and the network between them by it.
    - Build.v: libsodium-sys/build.rs and testcrate/build.rs as programs over the
      trace of what they printed, ran, made and copied; the environment, the file
      system, the exit statuses and what pkg-config did are given by the machine.
    - Locals.v: programs over locals and vectors, and the rules that run them;
      Sealer.v: the interface of the modules that seal messages, and the test
      programs written against it; Tests.v (secretbox, aead, box_, sealedbox),
      StreamTests.v (secretstream), MacroTests.v (auth, stream), SignTests.v,
      UtilsTests.v (utils, verify, randombytes), CodecTests.v (padding, hex,
      base64), KeyTests.v (kx, kdf, scalarmult, pwhash, generichash),
      AesTests.v ([Aes256Gcm]): the [mod test] of these modules as programs, and
      the proof that they pass.
    - Hashes.v, Ciphers.v, Curve.v: executable definitions of the published
      algorithms libsodium implements (SHA-2, HMAC, BLAKE2b, SipHash; Salsa20,
      ChaCha20, Poly1305, AES-GCM and the constructions from them; X25519);
      Standards.v: a libsodium whose functions compute them, in memory, with the
      proof that it satisfies the documentation classes.  HashTests.v,
      CipherTests.v and CurveTests.v say for any documented implementation when a
      test with vectors passes, and run the vectors against this one;
      PwhashTests.v has those of Argon2 and scrypt.
    - VectorFiles.v: the tests that read their vectors from files (SHA-2, BLAKE2b,
      Ed25519), over the lines of the files.  SerdeTests.v: test_utils.rs and the
      serialisation tests, over an abstract serde with JSON and MessagePack.
    - Tamper.v, SealTamper.v, TagTamper.v: the tests that flip a bit of every byte
      of a ciphertext, tag, signature or password.
    - SysTests.v: libsodium-sys/tests, as a list of comparisons for each file, and
      the tests that call functions of libsodium directly.

    Each component file has the same order: a Module with the wrappers, named as
    in the code (a macro is a Section over a Record of the macro's arguments,
    and the modules the code generates with it are instances of the Record); a
    class [...Doc] with the documented behaviour of the foreign functions (an
    equation between the function and a program of [M]); a [_run] lemma per
    wrapper, which computes its outcome on every branch; a Module [Ref...] with
    a concrete implementation that satisfies the documentation, so that the
    hypotheses are known to be satisfiable; the programs clients write with the
    wrappers, the properties about them, and an instance of each property at a
    concrete input ([..._witness]).

    ** What the theorems show

    - Functional behaviour on every branch: [secretbox_seal_spec],
      [secretbox_open_spec], [aead_open_spec], [sign_verify_spec],
      [generichash_spec], [secretstream_push_spec], [hex_decode_exact],
      [base64_decode_exact], [unpad_spec], [kdf_spec], [decoding]: which inputs
      are accepted, the exact bytes and lengths of the result, what else in
      memory changes (nothing), and when the call panics.
    - Round trips: [secretbox_roundtrip], [aead_roundtrip], [box_roundtrip],
      [sealedbox_roundtrip], [sign_roundtrip], [hex_roundtrip],
      [base64_roundtrip], [pad_roundtrip]; in place, with the whole memory
      restored: [secretbox_detached_inverse], [aead_detached_inverse],
      [stream_involution].
    - Equivalence of interfaces: combined and detached mode
      ([secretbox_modes_agree], [aead_modes_agree], [sign_detached_agrees]),
      precomputed keys ([box_precompute_agrees]), one-shot and streaming
      ([hash_streaming_agrees], [generichash_streaming_agrees],
      [auth_streaming_agrees], [sign_prehashed_exchange]), [stream_xor_is_stream],
      [stream_seek].
    - State machines: [secretstream_session] (every message of a session is
      received, in order, until the final one, and nothing else, closes both
      ends), [finalized_absorbing], [secretstream_unknown_tag].
    - Refinement: [channel_refines] (the two ends and the ciphertexts between
      them are an abstract channel, for every sequence of calls, whether or not
      the ends stay in step), [channel_fifo] (the accepted messages are those
      taken off the network and those in flight; a receiver that is in step has
      delivered exactly those taken), [channel_closes] (after every sequence of
      calls the sender can be closed and the network emptied, and when the
      receiver is in step everything is delivered and both ends finish).
      [out_of_step_loses] is a run out of step that loses a message.
    - The build script: [build_strategies], [build_links_what_it_installed],
      [testcrate_accepts_build]; the bindings: [state_layouts],
      [version_string_spec].
    - The tests ([box_tests_pass], [aead_tests_pass], [secretstream_tests_pass],
      [sign_tests_pass], [auth_tests_pass], [stream_tests_pass],
      [utils_tests_pass], [codec_tests_pass], [kx_tests_pass], ...): every loop
      ends, nothing panics and no assertion fails, for every entropy and every
      implementation with the documented behaviour.  Where a test relies on more
      (that initialisation succeeds, that a computation completes, that two
      random keys differ), the theorem has it as a hypothesis.
    - Vectors: with any documented libsodium, a test with vectors, whatever they
      are, passes exactly when the documented functions give the values it states
      and panics otherwise ([hash_vectors_settle], [digest_vectors_settle],
      [cipher_vectors_settle], [point_vectors_settle], [argon2_tests_settle],
      [scrypt_tests_settle], [vector_files_settle]); and with a libsodium that
      computes the algorithms as they are published, the tests of the source pass
      ([hash_vectors_pass], [auth_vectors_pass], [digest_vectors_pass],
      [stream_vectors_pass], [seal_vectors_pass], [point_vectors_pass],
      [kx_vectors_pass]).  The same for tests whose outcome is up to the system
      or the processor ([utils_tests_settle], [aes_tests_settle]).
    - Tests that modify what is protected: they pass when nothing the test makes
      keeps its tag with one byte changed, a statement about the algorithm and
      the bytes the rounds of the test draw from the generator, from where it is
      when the test starts ([secretbox_rejects_tampered],
      [box_rejects_tampered], [aead_tests_pass], [auth_rejects_tampered],
      [sign_rejects_tampered], [pwhash_rejects_tampered]); one of them cannot
      pass with a constructor of signatures that checks its argument
      ([detached_tamper_test_panics]).
    - [serde_round_trip] (which leaves the memory as it was) and
      [serialisation_tests_pass]; [sys_tests_settle] and
      [sys_calls_settle]: the tests of libsodium-sys pass exactly when the linked
      library reports the constants of the bindings.
    - Secrets and nonces: [drop_zeroes], [nonce_sequence], [kx_agreement].
    - Where the code does less than a caller may expect, the theorem says what
      it does: [box_rejected_key] (what is returned for public keys libsodium
      rejects), [unpad_spec] and [pwhash_verify_stored] (lengths and terminators
      that are passed on unchecked), [decoding] (sequences of the wrong length).

    ** What is not modelled

    The module roots (re-exports), the foreign functions neither a wrapper nor a
    test calls, and how [pkg_config], [cc] and the file system come to their
    answers for the build script (what [pkg_config] runs and prints is recorded,
    what [cc] runs to find a compiler is not).  Of the tests: the file of
    libsodium-sys/tests that no module declares, and the benchmarks.  In the tests
    that are modelled, [round_trip] apart, the locals are not dropped at the end
    of their scope.
    serde, the crate [ed25519] and the standard library's [Hasher] are
    parameters.  Threads are not modelled: no wrapper keeps global state.
    [mlock()] and [munlock()] are modelled as calls; what the operating system
    does with the pages is not.  Copies the compiler may leave on the stack when
    a value moves are not modelled, so [drop_zeroes] is about the value itself. *)

From Stdlib Require Export ZArith Lia Strings.Byte.
From stdpp Require Export base gmap list strings.

Declare Scope ffi_scope.
Delimit Scope ffi_scope with ffi.
#[global] Open Scope Z_scope.

(** ** Bytes *)

Abbreviation byte := Corelib.Init.Byte.byte.
Abbreviation bytes := (list byte).

#[export] Instance byte_eq_dec : EqDecision byte := Byte.byte_eq_dec.

#[export] Instance byte_inhabited : Inhabited byte := populate x00.

(** The unsigned value of a byte, [b as u64] in the code. *)
Definition byte_val (b : byte) : Z := Z.of_N (Byte.to_N b).

(** The byte of an integer, [z as u8]: truncation to the low eight bits. *)
Definition byte_of_Z (z : Z) : byte :=
  default x00 (Byte.of_N (Z.to_N (z mod 256))).

(** The length of a list as the integer the code computes with. *)
Definition zlen {A} (l : list A) : Z := Z.of_nat (length l).

(** [[0u8; n]] *)
Definition zeros (n : Z) : bytes := replicate (Z.to_nat n) x00.

Lemma byte_val_range b : 0 <= byte_val b < 256.
Proof.
  unfold byte_val. pose proof (Byte.to_N_bounded b).
  split; [apply N2Z.is_nonneg|]. lia.
Qed.

Lemma byte_val_of_Z z : byte_val (byte_of_Z z) = z mod 256.
Proof.
  unfold byte_val, byte_of_Z.
  pose proof (Z.mod_pos_bound z 256 eq_refl) as Hb.
  destruct (Byte.of_N (Z.to_N (z mod 256))) as [b|] eqn:E; cbn.
  - apply Byte.to_of_N in E. rewrite E. lia.
  - apply Byte.of_N_None_iff in E. lia.
Qed.

Lemma byte_val_inj a b : byte_val a = byte_val b -> a = b.
Proof.
  unfold byte_val. intros H%N2Z.inj.
  pose proof (Byte.of_to_N a) as Ha. rewrite H, Byte.of_to_N in Ha. congruence.
Qed.

#[export] Instance byte_val_Inj : Inj (=) (=) byte_val := byte_val_inj.

Lemma byte_of_Z_val b : byte_of_Z (byte_val b) = b.
Proof.
  apply byte_val_inj. rewrite byte_val_of_Z.
  apply Z.mod_small, byte_val_range.
Qed.

(** [a ^ b] on [u8] *)
Definition byte_xor (a b : byte) : byte := byte_of_Z (Z.lxor (byte_val a) (byte_val b)).

Lemma byte_xor_cancel a b : byte_xor (byte_xor a b) b = a.
Proof.
  apply byte_val_inj. unfold byte_xor. rewrite !byte_val_of_Z.
  change 256 with (2 ^ 8). rewrite <- !Z.land_ones by lia.
  rewrite <- (Z.mod_small (byte_val a) (2 ^ 8)) at 2 by apply byte_val_range.
  rewrite <- Z.land_ones by lia. apply Z.bits_inj'. intros i Hi.
  rewrite !Z.land_spec, !Z.lxor_spec, Z.land_spec, Z.lxor_spec.
  destruct (Z.testbit (byte_val a) i) eqn:Ea, (Z.testbit (byte_val b) i) eqn:Eb,
    (Z.testbit (Z.ones 8) i) eqn:Eo; cbn; try done.
Qed.

(** ** Lengths *)

Lemma zlen_nonneg {A} (l : list A) : 0 <= zlen l.
Proof. unfold zlen. lia. Qed.

Lemma zlen_nil {A} : zlen (@nil A) = 0.
Proof. reflexivity. Qed.

Lemma zlen_cons {A} (x : A) l : zlen (x :: l) = 1 + zlen l.
Proof. unfold zlen. cbn [length]. lia. Qed.

Lemma zlen_app {A} (a b : list A) : zlen (a ++ b) = zlen a + zlen b.
Proof. unfold zlen. rewrite length_app. lia. Qed.

Lemma zlen_fmap {A B} (f : A -> B) (l : list A) : zlen (f <$> l) = zlen l.
Proof. unfold zlen. by rewrite length_fmap. Qed.

Lemma zlen_replicate {A} n (x : A) : 0 <= n -> zlen (replicate (Z.to_nat n) x) = n.
Proof. unfold zlen. rewrite length_replicate. lia. Qed.

Lemma zlen_zeros n : 0 <= n -> zlen (zeros n) = n.
Proof. apply zlen_replicate. Qed.

Lemma zlen_take {A} n (l : list A) : 0 <= n <= zlen l -> zlen (take (Z.to_nat n) l) = n.
Proof. unfold zlen. rewrite length_take. lia. Qed.

Lemma zlen_drop {A} n (l : list A) :
  0 <= n <= zlen l -> zlen (drop (Z.to_nat n) l) = zlen l - n.
Proof. unfold zlen. rewrite length_drop. lia. Qed.

Lemma zlen_0_nil {A} (l : list A) : zlen l = 0 -> l = [].
Proof. unfold zlen. destruct l; cbn; [done|lia]. Qed.

Lemma to_nat_zlen {A} (l : list A) : Z.to_nat (zlen l) = length l.
Proof. unfold zlen. lia. Qed.

Create Rewrite HintDb zlen.
#[export] Hint Rewrite @zlen_cons @zlen_app @zlen_fmap : zlen.
#[export] Hint Rewrite @zlen_replicate @zlen_zeros using lia : zlen.

(** Linear arithmetic about lengths. *)
Ltac zlen_facts :=
  repeat match goal with
  | |- context [@zlen ?A []] => change (@zlen A []) with 0
  | H : context [@zlen ?A []] |- _ => change (@zlen A []) with 0 in H
  | |- context [zlen ?l] =>
      lazymatch goal with
      | _ : 0 <= zlen l |- _ => fail
      | _ => pose proof (zlen_nonneg l)
      end
  | _ : context [zlen ?l] |- _ =>
      lazymatch goal with
      | _ : 0 <= zlen l |- _ => fail
      | _ => pose proof (zlen_nonneg l)
      end
  end.
Ltac zlia := zlen_facts; autorewrite with zlen in *; zlen_facts; lia.

(** ** Little-endian numbers *)

(** The number a byte string denotes, least significant byte first. *)
Fixpoint le_val (bs : bytes) : Z :=
  match bs with
  | [] => 0
  | b :: bs => byte_val b + 256 * le_val bs
  end.

(** The [n] low bytes of a number. *)
Fixpoint le_bytes (n : nat) (z : Z) : bytes :=
  match n with
  | O => []
  | S n => byte_of_Z z :: le_bytes n (z / 256)
  end.

Lemma length_le_bytes n z : length (le_bytes n z) = n.
Proof. revert z. induction n; cbn; intros; [done|by rewrite IHn]. Qed.

Lemma le_val_range bs : 0 <= le_val bs < 256 ^ zlen bs.
Proof.
  induction bs as [|b bs IH]; cbn [le_val]; [by split|].
  rewrite zlen_cons, Z.pow_add_r by (pose proof (zlen_nonneg bs); lia). change (256 ^ 1) with 256.
  pose proof (byte_val_range b). lia.
Qed.

Lemma le_val_le_bytes n z : le_val (le_bytes n z) = z mod 256 ^ Z.of_nat n.
Proof.
  revert z. induction n as [|n IH]; intros z; cbn [le_bytes le_val].
  - by rewrite Z.mod_1_r.
  - rewrite IH, byte_val_of_Z.
    rewrite Nat2Z.inj_succ, Z.pow_succ_r by lia.
    rewrite (Z.rem_mul_r z) by (try apply Z.pow_nonzero; lia). done.
Qed.

Lemma le_bytes_le_val bs : le_bytes (length bs) (le_val bs) = bs.
Proof.
  induction bs as [|b bs IH]; cbn [length le_bytes le_val]; [done|].
  pose proof (byte_val_range b).
  rewrite (Z.mul_comm 256), Z.div_add by lia.
  rewrite (Z.div_small (byte_val b)), Z.add_0_l by lia.
  rewrite IH. f_equal. apply byte_val_inj.
  rewrite byte_val_of_Z, Z.mod_add by lia. by apply Z.mod_small.
Qed.

(** Only the low bytes of the number matter. *)
Lemma le_bytes_mod n z : le_bytes n (z mod 256 ^ Z.of_nat n) = le_bytes n z.
Proof.
  rewrite <- le_val_le_bytes. rewrite <- (length_le_bytes n z) at 1. apply le_bytes_le_val.
Qed.

Lemma le_bytes_inj n y z :
  le_bytes n y = le_bytes n z <-> y mod 256 ^ Z.of_nat n = z mod 256 ^ Z.of_nat n.
Proof.
  split; intros Hyz.
  - rewrite <- !le_val_le_bytes. by rewrite Hyz.
  - rewrite <- (le_bytes_mod n y), <- (le_bytes_mod n z). by rewrite Hyz.
Qed.

Lemma add_mod_cancel a i j m : (a + i) mod m = (a + j) mod m <-> i mod m = j mod m.
Proof.
  split; intros Hm.
  - replace i with ((a + i) - a) by lia. replace j with ((a + j) - a) by lia.
    by rewrite Zminus_mod, Hm, <- Zminus_mod.
  - by rewrite Zplus_mod, Hm, <- Zplus_mod.
Qed.

Lemma le_val_inj a b : length a = length b -> le_val a = le_val b -> a = b.
Proof.
  intros Hl Hv. rewrite <- (le_bytes_le_val a), <- (le_bytes_le_val b).
  by rewrite Hl, Hv.
Qed.

(** ** Results *)

(** [Result<T, ()>] *)
Inductive result (A : Type) : Type :=
| Ok (a : A)
| Err.
Arguments Ok {A} a.
Arguments Err {A}.

Definition is_ok {A} (r : result A) : bool := match r with Ok _ => true | Err => false end.

(** [Option::ok_or(())] *)
Definition ok_or {A} (o : option A) : result A :=
  match o with Some a => Ok a | None => Err end.

#[export] Instance result_eq_dec {A} `{EqDecision A} : EqDecision (result A).
Proof. solve_decision. Defined.

(** The exit status of a C function, as the wrappers test it. *)
Definition rc_ok (rc : Z) : result unit := if Z.eqb rc 0 then Ok tt else Err.
