(* ===== verification/Utf8.v ===== *)
(** * Text

    What the code uses of Rust's [str]: which byte strings are text
    ([str::from_utf8], and [to_str()] and [into_string()] of the operating
    system's strings), and the searching and trimming of text. *)

From S2P Require Export Prelude.

(** [lo <= b <= hi], as numbers *)
Definition byte_in (lo hi : Z) (b : byte) : bool := (lo <=? byte_val b) && (byte_val b <=? hi).

(** A continuation byte *)
Definition cont (b : byte) : bool := byte_in 128 191 b.

(** Well-formed UTF-8: no overlong forms, no surrogates, nothing above U+10FFFF. *)
Fixpoint utf8 (bs : bytes) : bool :=
  match bs with
  | [] => true
  | b0 :: r0 =>
    if byte_in 0 127 b0 then utf8 r0
    else match r0 with
    | [] => false
    | b1 :: r1 =>
      if byte_in 194 223 b0 then cont b1 && utf8 r1
      else match r1 with
      | [] => false
      | b2 :: r2 =>
        if byte_in 224 239 b0 then
          (if byte_val b0 =? 224 then byte_in 160 191 b1
           else if byte_val b0 =? 237 then byte_in 128 159 b1
           else cont b1) && cont b2 && utf8 r2
        else match r2 with
        | [] => false
        | b3 :: r3 =>
          byte_in 240 244 b0 &&
          (if byte_val b0 =? 240 then byte_in 144 191 b1
           else if byte_val b0 =? 244 then byte_in 128 143 b1
           else cont b1) && cont b2 && cont b3 && utf8 r3
        end
      end
    end
  end.

Lemma utf8_cons b0 r0 : utf8 (b0 :: r0) =
  if byte_in 0 127 b0 then utf8 r0
  else match r0 with
  | [] => false
  | b1 :: r1 =>
    if byte_in 194 223 b0 then cont b1 && utf8 r1
    else match r1 with
    | [] => false
    | b2 :: r2 =>
      if byte_in 224 239 b0 then
        (if byte_val b0 =? 224 then byte_in 160 191 b1
         else if byte_val b0 =? 237 then byte_in 128 159 b1
         else cont b1) && cont b2 && utf8 r2
      else match r2 with
      | [] => false
      | b3 :: r3 =>
        byte_in 240 244 b0 &&
        (if byte_val b0 =? 240 then byte_in 144 191 b1
         else if byte_val b0 =? 244 then byte_in 128 143 b1
         else cont b1) && cont b2 && cont b3 && utf8 r3
      end
    end
  end.
Proof. reflexivity. Qed.

(** Text after text is text. *)
Lemma utf8_app a b : utf8 a = true -> utf8 b = true -> utf8 (a ++ b) = true.
Proof.
  intros Ha Hb. remember (length a) as n eqn:Hn. revert a Hn Ha.
  induction n as [n IH] using lt_wf_ind. intros a -> Ha.
  assert (Hr : forall r, (length r < length a)%nat -> utf8 r = true -> utf8 (r ++ b) = true)
    by (intros; by eapply IH).
  destruct a as [|b0 r0]; [done|]. rewrite utf8_cons in Ha. cbn [app]. rewrite utf8_cons.
  destruct (byte_in 0 127 b0); [apply Hr; [cbn; lia|done]|].
  destruct r0 as [|b1 r1]; [done|]. cbn [app].
  destruct (byte_in 194 223 b0).
  { apply andb_true_iff in Ha as [-> Ha]. apply Hr; [cbn; lia|done]. }
  destruct r1 as [|b2 r2]; [done|]. cbn [app].
  destruct (byte_in 224 239 b0).
  { apply andb_true_iff in Ha as [-> Ha]. apply Hr; [cbn; lia|done]. }
  destruct r2 as [|b3 r3]; [done|]. cbn [app].
  apply andb_true_iff in Ha as [-> Ha]. apply Hr; [cbn; lia|done].
Qed.

(** Text that goes on with an ASCII character was text up to there. *)
Lemma utf8_app_inv a x b : byte_val x < 128 -> utf8 (a ++ x :: b) = true -> utf8 a = true.
Proof.
  intros Hx Ha. remember (length a) as n eqn:Hn. revert a Hn Ha.
  induction n as [n IH] using lt_wf_ind. intros a -> Ha.
  assert (Hr : forall r, (length r < length a)%nat -> utf8 (r ++ x :: b) = true -> utf8 r = true)
    by (intros; by eapply IH).
  assert (Hc : cont x = false).
  { unfold cont, byte_in. destruct (Z.leb_spec 128 (byte_val x)); [lia|done]. }
  assert (Hi : forall lo hi, 128 <= lo -> byte_in lo hi x = false).
  { intros lo hi ?. unfold byte_in. destruct (Z.leb_spec lo (byte_val x)); [lia|done]. }
  destruct a as [|b0 r0]; [done|]. cbn [app] in Ha. rewrite utf8_cons in Ha |- *.
  destruct (byte_in 0 127 b0); [apply Hr; [cbn; lia|done]|].
  destruct r0 as [|b1 r1]; cbn [app] in Ha.
  { rewrite Hc, !Hi in Ha by lia. destruct (byte_in 194 223 b0); [done|]. destruct b as [|b2 b]; [done|].
    destruct (byte_in 224 239 b0); [by destruct (byte_val b0 =? 224), (byte_val b0 =? 237)|].
    destruct b as [|b3 b]; [done|].
    by destruct (byte_in 240 244 b0), (byte_val b0 =? 240), (byte_val b0 =? 244). }
  destruct (byte_in 194 223 b0).
  { apply andb_true_iff in Ha as [-> Ha]. apply Hr; [cbn; lia|done]. }
  destruct r1 as [|b2 r2]; cbn [app] in Ha.
  { rewrite Hc, !andb_false_r in Ha. destruct (byte_in 224 239 b0); [done|]. destruct b as [|b3 b]; [done|].
    by rewrite !andb_false_l in Ha. }
  destruct (byte_in 224 239 b0).
  { apply andb_true_iff in Ha as [-> Ha]. apply Hr; [cbn; lia|done]. }
  destruct r2 as [|b3 r3]; cbn [app] in Ha; [by rewrite Hc, andb_false_r in Ha|].
  apply andb_true_iff in Ha as [-> Ha]. apply Hr; [cbn; lia|done].
Qed.

(** ** Strings *)

Definition string_bytes (s : string) : bytes := String.list_byte_of_string s.

Lemma string_cons_app c a b : String c a +:+ b = String c (a +:+ b).
Proof. reflexivity. Qed.

Lemma string_app_assoc a b c : (a +:+ b) +:+ c = a +:+ b +:+ c.
Proof. induction a as [|x a IH]; [done|]. rewrite !string_cons_app. by rewrite IH. Qed.

Lemma string_bytes_app a b : string_bytes (a +:+ b) = string_bytes a ++ string_bytes b.
Proof.
  unfold string_bytes, String.list_byte_of_string.
  induction a as [|c a IH]; [done|]. rewrite string_cons_app. cbn. f_equal. exact IH.
Qed.

(** The bytes of an operating system's string are text. *)
Definition is_text (s : string) : bool := utf8 (string_bytes s).

Lemma is_text_app a b : is_text a = true -> is_text b = true -> is_text (a +:+ b) = true.
Proof. unfold is_text. rewrite string_bytes_app. apply utf8_app. Qed.

Lemma is_text_app_inv a x b :
  byte_val (Ascii.byte_of_ascii x) < 128 -> is_text (a +:+ String x b) = true -> is_text a = true.
Proof. unfold is_text. rewrite string_bytes_app. apply utf8_app_inv. Qed.

(** [s.contains(pat)], [s.starts_with(pat)], [s.ends_with(c)] *)
Fixpoint contains (pat s : string) : bool :=
  String.prefix pat s ||
  match s with EmptyString => false | String _ s => contains pat s end.

Definition starts_with (pat s : string) : bool := String.prefix pat s.

Fixpoint ends_with (c : Ascii.ascii) (s : string) : bool :=
  match s with
  | EmptyString => false
  | String d EmptyString => Ascii.eqb c d
  | String _ s => ends_with c s
  end.

Lemma ends_with_app c a b :
  b <> EmptyString -> ends_with c (a +:+ b) = ends_with c b.
Proof.
  intros Hb. induction a as [|d a IH]; [done|]. rewrite string_cons_app. cbn. rewrite IH.
  destruct a; cbn; [|done]. by destruct b.
Qed.

(** A single character is in a string that is put together if it is in a part. *)
Lemma contains_char_app c a b :
  contains (String c EmptyString) (a +:+ b) =
    contains (String c EmptyString) a || contains (String c EmptyString) b.
Proof.
  induction a as [|d a IH]; [done|]. rewrite string_cons_app. cbn.
  destruct (Ascii.ascii_dec c d); cbn; [by destruct (a +:+ b), a|]. exact IH.
Qed.

(** The encodings of the characters with the property White_Space, which
    [trim()] removes. *)
Definition white_space : list bytes :=
  ((fun n => [byte_of_Z (Z.of_nat n)]) <$> [9; 10; 11; 12; 13; 32]%nat) ++
  [[xc2; x85]; [xc2; xa0]; [xe1; x9a; x80]] ++
  ((fun n => [xe2; x80; byte_of_Z (Z.of_nat n)]) <$> seq 128 11) ++
  [[xe2; x80; xa8]; [xe2; x80; xa9]; [xe2; x80; xaf]; [xe2; x81; x9f]; [xe3; x80; x80]].

Fixpoint strip_one (pats : list bytes) (bs : bytes) : option bytes :=
  match pats with
  | [] => None
  | p :: pats =>
    if decide (p <> [] /\ take (length p) bs = p) then Some (drop (length p) bs)
    else strip_one pats bs
  end.

(** At most [n] of the patterns are removed from the front. *)
Fixpoint strip (n : nat) (pats : list bytes) (bs : bytes) : bytes :=
  match n with
  | O => bs
  | S n => match strip_one pats bs with Some bs => strip n pats bs | None => bs end
  end.

(** [s.trim()]: a string of [n] bytes has at most [n] characters. *)
Definition trim (s : string) : string :=
  let bs := strip (length (string_bytes s)) white_space (string_bytes s) in
  String.string_of_list_byte (reverse (strip (length bs) (reverse <$> white_space) (reverse bs))).

Lemma strip_one_length pats bs bs' : strip_one pats bs = Some bs' -> (length bs' < length bs)%nat.
Proof.
  induction pats as [|p pats IH]; cbn; [done|]. case_decide as Hp; [|done]. intros; simplify_eq.
  destruct Hp as [Hne Ht]. assert (Hl : length (take (length p) bs) = length p) by (by rewrite Ht).
  rewrite length_take in Hl. rewrite length_drop.
  assert (0 < length p)%nat by (destruct p; cbn; [done|lia]). lia.
Qed.

(** The fuel of [trim] is enough: no white space is left in front. *)
Lemma strip_enough pats n bs : (length bs <= n)%nat -> strip_one pats (strip n pats bs) = None.
Proof.
  revert bs. induction n as [|n IH]; intros bs Hl; cbn.
  - destruct (strip_one pats bs) eqn:E; [|done]. apply strip_one_length in E. lia.
  - destruct (strip_one pats bs) as [bs'|] eqn:E; [|done]. apply IH.
    apply strip_one_length in E. lia.
Qed.
