(* ===== verification/Machine.v ===== *)
(** * The machine the bindings run on

    A small model of what an [unsafe] Rust function and a C function can see of
    the process: allocations of possibly uninitialised bytes, pointers into
    them, a source of entropy, and the ways an execution can end.  Every
    wrapper of src/ is a program of the monad [M] of this file; so is the
    documented behaviour of each libsodium function (the files of the
    components state it as hypotheses).  Reading out of range, through a null
    pointer or reading uninitialised bytes, and handing C overlapping buffers
    it does not accept, are the outcome [UB]: a theorem that says what a
    wrapper returns therefore also says that none of these happens.

    The lemmas that run these programs are in Exec.v. *)

From S2P Require Export Prelude.

(** ** Integers of the target *)

(** The bindings are compiled for 32- and 64-bit targets. *)
Class Target := {
  usize_bits : Z;
  usize_bits_cases : usize_bits = 32 \/ usize_bits = 64
}.

Definition target64 : Target := {| usize_bits := 64; usize_bits_cases := or_intror eq_refl |}.

Definition usize_max `{Target} : Z := 2 ^ usize_bits - 1.
Definition isize_max `{Target} : Z := 2 ^ (usize_bits - 1) - 1.

Lemma isize_max_bounds `{Target} : 2 ^ 31 - 1 <= isize_max <= 2 ^ 63 - 1.
Proof. unfold isize_max. destruct usize_bits_cases as [-> | ->]; lia. Qed.

Lemma usize_max_isize `{Target} : usize_max = 2 * isize_max + 1.
Proof. unfold usize_max, isize_max. destruct usize_bits_cases as [-> | ->]; lia. Qed.

(** [x as usize] for an unsigned [x]. *)
Definition as_usize `{Target} (z : Z) : Z := z mod (usize_max + 1).

Lemma as_usize_small `{Target} z : 0 <= z <= isize_max -> as_usize z = z.
Proof.
  intros Hz. unfold as_usize. apply Z.mod_small.
  pose proof usize_max_isize. lia.
Qed.

(** [usize::checked_mul], [usize::checked_add] *)
Definition checked_mul `{Target} (a b : Z) : option Z :=
  if decide (a * b <= usize_max) then Some (a * b) else None.
Definition checked_add `{Target} (a b : Z) : option Z :=
  if decide (a + b <= usize_max) then Some (a + b) else None.

(** ** Memory *)

(** An allocation: one cell per byte, [None] where nothing was stored yet. *)
Abbreviation cells := (list (option byte)).

Inductive ptr :=
| Null
| At (b : positive) (off : nat).

#[export] Instance ptr_eq_dec : EqDecision ptr.
Proof. solve_decision. Defined.

(** A breach of the documented contract of [Vec::set_len]: the elements it
    exposes have not been initialised. *)
Inductive breach := ExposedUninit.

(** What a process has beside its memory: the entropy libsodium's generator
    will hand out, how much of it was used, whether [sodium_init] ran, the
    final contents of every allocation that was dropped, and the breaches of
    [Vec::set_len]'s contract. *)
Record env := Env {
  e_entropy : nat -> byte;
  e_pos : nat;
  e_init : bool;
  e_dropped : list cells;
  e_breaches : list breach
}.

Record world := World { w_mem : gmap positive cells; w_env : env }.

Inductive ub := OutOfBounds | Uninitialised | Overlap | BadSetLen | BadFree.

(** How an execution ends: normally, by a panic, by libsodium's
    [sodium_misuse] (which aborts), or in undefined behaviour. *)
Inductive outcome (A : Type) : Type :=
| Done (a : A) (w : world)
| Panicked
| Aborted
| UB (why : ub).
Arguments Done {A} a w.
Arguments Panicked {A}.
Arguments Aborted {A}.
Arguments UB {A} why.

Definition M (A : Type) : Type := world -> outcome A.

Definition ret {A} (a : A) : M A := fun w => Done a w.

Definition bind {A B} (m : M A) (f : A -> M B) : M B := fun w =>
  match m w with
  | Done a w' => f a w'
  | Panicked => Panicked
  | Aborted => Aborted
  | UB why => UB why
  end.

Notation "'let*' x := m 'in' k" := (bind m (fun x => k))
  (at level 10, x name, m at level 200, k at level 200) : ffi_scope.
Notation "'let*' ' x := m 'in' k" := (bind m (fun x => k))
  (at level 10, x pattern, m at level 200, k at level 200) : ffi_scope.
Notation "m ;;; k" := (bind m (fun _ => k))
  (at level 100, right associativity) : ffi_scope.
#[global] Open Scope ffi_scope.

Definition panic {A} : M A := fun _ => Panicked.
Definition abort {A} : M A := fun _ => Aborted.
Definition undefined {A} (why : ub) : M A := fun _ => UB why.

(** [w] with the allocation [b] holding [c], and without the allocation [b]. *)
Definition w_put (b : positive) (c : cells) (w : world) : world :=
  World (<[b := c]> (w_mem w)) (w_env w).
Definition w_del (b : positive) (w : world) : world :=
  World (delete b (w_mem w)) (w_env w).
Definition w_with (e : env) (w : world) : world := World (w_mem w) e.

(** An allocation that is not in use. *)
Definition fresh_block (w : world) : positive := fresh (dom (w_mem w)).

Definition alloc (c : cells) : M positive := fun w =>
  Done (fresh_block w) (w_put (fresh_block w) c w).

(** The end of an allocation's life; its last contents are recorded. *)
Definition env_drop (c : cells) (e : env) : env :=
  Env (e_entropy e) (e_pos e) (e_init e) (c :: e_dropped e) (e_breaches e).

Definition free (b : positive) : M unit := fun w =>
  match w_mem w !! b with
  | Some c => Done tt (w_with (env_drop c (w_env w)) (w_del b w))
  | None => UB BadFree
  end.

(** The cells of the range of [n] bytes at [p]; a range of no bytes may be
    anywhere, the null pointer included. *)
Definition read_cells (w : world) (p : ptr) (n : nat) : option cells :=
  match n with
  | O => Some []
  | _ =>
    match p with
    | Null => None
    | At b off =>
      match w_mem w !! b with
      | Some c => if decide (off + n <= length c)%nat then Some (take n (drop off c)) else None
      | None => None
      end
    end
  end.

Fixpoint all_init (c : cells) : option bytes :=
  match c with
  | [] => Some []
  | Some x :: c => match all_init c with Some bs => Some (x :: bs) | None => None end
  | None :: _ => None
  end.

Definition read (p : ptr) (n : Z) : M bytes := fun w =>
  match read_cells w p (Z.to_nat n) with
  | Some c => match all_init c with Some bs => Done bs w | None => UB Uninitialised end
  | None => UB OutOfBounds
  end.

Definition splice (c : cells) (off : nat) (bs : bytes) : cells :=
  take off c ++ (Some <$> bs) ++ drop (off + length bs) c.

(** The world after [bs] was stored at [p]. *)
Definition w_write (p : ptr) (bs : bytes) (w : world) : world :=
  match bs, p with
  | _ :: _, At b off =>
    match w_mem w !! b with
    | Some c => w_put b (splice c off bs) w
    | None => w
    end
  | _, _ => w
  end.

Definition write (p : ptr) (bs : bytes) : M unit := fun w =>
  match read_cells w p (length bs) with
  | Some _ => Done tt (w_write p bs w)
  | None => UB OutOfBounds
  end.

(** [n] bytes of entropy. *)
Definition env_take (n : nat) (e : env) : env :=
  Env (e_entropy e) (e_pos e + n) (e_init e) (e_dropped e) (e_breaches e).
Definition entropy (n : Z) (w : world) : bytes :=
  e_entropy (w_env w) <$> seq (e_pos (w_env w)) (Z.to_nat n).
Definition w_consume (n : Z) (w : world) : world :=
  w_with (env_take (Z.to_nat n) (w_env w)) w.
Definition rand (n : Z) : M bytes := fun w => Done (entropy n w) (w_consume n w).

(** ** Ranges handed to C *)

(** Two ranges share no byte. *)
Definition apart (p : ptr) (n : Z) (q : ptr) (m : Z) : bool :=
  (n <=? 0) || (m <=? 0) ||
  match p, q with
  | At b1 o1, At b2 o2 =>
    negb (bool_decide (b1 = b2)) ||
    (Z.of_nat o1 + n <=? Z.of_nat o2) || (Z.of_nat o2 + m <=? Z.of_nat o1)
  | _, _ => true
  end.

(** The C function requires the two ranges not to overlap. *)
Definition restrict (p : ptr) (n : Z) (q : ptr) (m : Z) : M unit :=
  if apart p n q m then ret tt else undefined Overlap.

(** The C function also accepts the two ranges to start at the same place. *)
Definition restrict_inplace (p : ptr) (n : Z) (q : ptr) (m : Z) : M unit :=
  if bool_decide (p = q) then ret tt else restrict p n q m.

(** ** Slices, vectors and arrays *)

(** [&[u8]] and [&mut [u8]] *)
Record slice := Slice { s_ptr : ptr; s_len : Z }.

(** The address [n] bytes further on. *)
Definition ptr_add (p : ptr) (n : Z) : ptr :=
  match p with Null => Null | At b off => At b (off + Z.to_nat n) end.

(** [dst.copy_from_slice(src)] panics when the lengths differ. *)
Definition copy_from_slice (dst src : slice) : M unit :=
  if s_len dst =? s_len src then
    let* bs := read (s_ptr src) (s_len src) in write (s_ptr dst) bs
  else panic.

(** [&s[a..b]] panics when the range is not within the slice. *)
Definition slice_index (s : slice) (a b : Z) : M slice :=
  if (a <=? b) && (b <=? s_len s) then ret (Slice (ptr_add (s_ptr s) a) (b - a)) else panic.

(** [Vec<u8>] *)
Record vec := Vec { v_block : positive; v_len : Z; v_cap : Z }.

Definition v_ptr (v : vec) : ptr := At (v_block v) 0.
Definition v_slice (v : vec) : slice := Slice (v_ptr v) (v_len v).

(** [[0u8; n]] and [MaybeUninit::uninit()] of size [n], on the stack. *)
Definition stack_array (n : Z) : M positive := alloc (Some <$> zeros n).
Definition stack_uninit (n : Z) : M positive := alloc (replicate (Z.to_nat n) None).

(** A value leaves the place [b], which is not read again. *)
Definition move_out (b : positive) : M bytes := fun w =>
  match w_mem w !! b with
  | Some c => match all_init c with Some bs => Done bs (w_del b w) | None => UB Uninitialised end
  | None => UB OutOfBounds
  end.

(** A value is stored in a new place. *)
Definition place (bs : bytes) : M positive := alloc (Some <$> bs).

Section WithTarget.
Context `{Target}.

(** Addition of [usize] values, in a build with overflow checks. *)
Definition usize_add (a b : Z) : M Z :=
  match checked_add a b with Some c => ret c | None => panic end.

(** [Vec::with_capacity(n)] and [vec![0u8; n]] panic with "capacity overflow"
    above [isize::MAX] bytes. *)
Definition vec_with_capacity (n : Z) : M vec :=
  if decide (n <= isize_max) then
    let* b := alloc (replicate (Z.to_nat n) None) in ret (Vec b 0 n)
  else panic.

Definition vec_zeroed (n : Z) : M vec :=
  if decide (n <= isize_max) then
    let* b := alloc (Some <$> zeros n) in ret (Vec b n n)
  else panic.

(** [Vec::new()] *)
Definition vec_new : M vec := let* b := alloc [] in ret (Vec b 0 0).

Definition env_breach (e : env) : env :=
  Env (e_entropy e) (e_pos e) (e_init e) (e_dropped e) (ExposedUninit :: e_breaches e).

(** [v.set_len(n)]: above the capacity it is undefined behaviour; exposing
    elements that are not initialised breaches its documented contract, which
    is recorded. *)
Definition vec_set_len (v : vec) (n : Z) : M vec := fun w =>
  if decide (v_cap v < n) then UB BadSetLen
  else
    let exposed := read_cells w (At (v_block v) (Z.to_nat (v_len v))) (Z.to_nat (n - v_len v)) in
    let v' := Vec (v_block v) n (v_cap v) in
    match exposed with
    | Some c =>
      match all_init c with
      | Some _ => Done v' w
      | None => Done v' (w_with (env_breach (w_env w)) w)
      end
    | None => UB OutOfBounds
    end.

(** [v.truncate(n)], [v.pop()], [v.clear()] *)
Definition vec_truncate (v : vec) (n : Z) : vec :=
  if decide (n < v_len v) then Vec (v_block v) n (v_cap v) else v.
Definition vec_pop (v : vec) : vec :=
  if decide (0 < v_len v) then Vec (v_block v) (v_len v - 1) (v_cap v) else v.
Definition vec_clear (v : vec) : vec := Vec (v_block v) 0 (v_cap v).

(** [v.reserve(n)]: room for [n] more elements, moving the vector to a new
    allocation when its capacity is short. *)
Definition vec_reserve (v : vec) (n : Z) : M vec :=
  if decide (n <= v_cap v - v_len v) then ret v
  else if decide (v_len v + n <= isize_max) then
    let* bs := read (v_ptr v) (v_len v) in
    let* b := alloc (replicate (Z.to_nat (v_len v + n)) None) in
    let* _ := write (At b 0) bs in
    let* _ := free (v_block v) in
    ret (Vec b (v_len v) (v_len v + n))
  else panic.

End WithTarget.

(** The end of a vector's life. *)
Definition vec_drop (v : vec) : M unit := free (v_block v).
