(* ===== verification/Exec.v ===== *)
(** * Symbolic execution of wrapper programs

    [bytes_at w p bs]: the bytes [bs] are stored, initialised, at [p].  One
    [_run] lemma per primitive of Machine.v computes the outcome of the
    primitive from such facts; the tactic [step] applies them through [bind].
    Allocations a program makes are a layer [w_put b c] over the caller's
    world, and the [_under] lemmas run a primitive below such a layer. *)

From S2P Require Export Machine.

(** ** Worlds *)

Lemma world_eta w : World (w_mem w) (w_env w) = w.
Proof. by destruct w. Qed.

Lemma fresh_block_spec w : w_mem w !! fresh_block w = None.
Proof. apply not_elem_of_dom. unfold fresh_block. apply is_fresh. Qed.

Lemma w_del_put b c w : w_mem w !! b = None -> w_del b (w_put b c w) = w.
Proof.
  intros Hb. unfold w_del, w_put. cbn. rewrite delete_insert_eq.
  rewrite delete_id by done. apply world_eta.
Qed.

Lemma w_put_put b c c' w : w_put b c (w_put b c' w) = w_put b c w.
Proof. unfold w_put. cbn. by rewrite insert_insert_eq. Qed.

Lemma w_put_comm a b c d w : a <> b -> w_put a c (w_put b d w) = w_put b d (w_put a c w).
Proof. intros Hab. unfold w_put. cbn. by rewrite insert_insert_ne. Qed.

Lemma w_del_put_ne a b c w : a <> b -> w_del a (w_put b c w) = w_put b c (w_del a w).
Proof. intros Hab. unfold w_del, w_put. cbn. by rewrite delete_insert_ne. Qed.

Lemma mem_put_None b b' c w :
  w_mem (w_put b c w) !! b' = None <-> b <> b' /\ w_mem w !! b' = None.
Proof. unfold w_put. cbn. rewrite lookup_insert_None. tauto. Qed.

Lemma mem_write_None p bs b w : w_mem (w_write p bs w) !! b = None <-> w_mem w !! b = None.
Proof.
  unfold w_write. destruct bs as [|x bs], p as [|b' o]; try done.
  destruct (w_mem w !! b') as [c|] eqn:E; [|done].
  rewrite mem_put_None. split; [by intros [_ ?]|].
  intros Hb. split; [congruence|done].
Qed.

Lemma env_write p bs w : w_env (w_write p bs w) = w_env w.
Proof.
  unfold w_write. destruct bs, p; try done. by destruct (w_mem w !! b0).
Qed.

Create HintDb mem discriminated.

Lemma mem_put_intro b b' c w : b <> b' -> w_mem w !! b' = None -> w_mem (w_put b c w) !! b' = None.
Proof. intros. by apply mem_put_None. Qed.
Lemma mem_put_fst b b' c w : w_mem (w_put b c w) !! b' = None -> b <> b'.
Proof. intros Hb. by apply mem_put_None in Hb as [? ?]. Qed.
Lemma mem_put_snd b b' c w : w_mem (w_put b c w) !! b' = None -> w_mem w !! b' = None.
Proof. intros Hb. by apply mem_put_None in Hb as [? ?]. Qed.
Lemma mem_write_intro p bs b w : w_mem w !! b = None -> w_mem (w_write p bs w) !! b = None.
Proof. intros. by apply mem_write_None. Qed.
Lemma mem_with_intro e b w : w_mem w !! b = None -> w_mem (w_with e w) !! b = None.
Proof. done. Qed.

#[export] Hint Resolve fresh_block_spec mem_put_intro mem_write_intro mem_with_intro : mem.
#[export] Hint Resolve not_eq_sym : mem.

(** ** Reading *)

Lemma all_init_fmap bs : all_init (Some <$> bs) = Some bs.
Proof. induction bs as [|b bs IH]; cbn; [done|]. by rewrite IH. Qed.

Lemma all_init_Some c bs : all_init c = Some bs -> c = Some <$> bs.
Proof.
  revert bs. induction c as [|[x|] c IH]; cbn; intros bs Hc; simplify_eq; [done|].
  destruct (all_init c) as [bs'|]; simplify_eq. cbn. by rewrite (IH bs').
Qed.

(** The bytes [bs] are stored at [p], all of them initialised. *)
Definition bytes_at (w : world) (p : ptr) (bs : bytes) : Prop :=
  read_cells w p (length bs) = Some (Some <$> bs).

#[export] Instance bytes_at_dec w p bs : Decision (bytes_at w p bs).
Proof. unfold bytes_at. apply _. Defined.

(** The range of [n] bytes at [p] lies within one allocation. *)
Definition in_range (w : world) (p : ptr) (n : Z) : Prop :=
  is_Some (read_cells w p (Z.to_nat n)).

Lemma read_cells_length w p n c : read_cells w p n = Some c -> length c = n.
Proof.
  unfold read_cells. destruct n as [|n]; [intros; by simplify_eq|].
  destruct p as [|b o]; [done|].
  destruct (w_mem w !! b) as [d|]; [|done].
  case_decide; intros; simplify_eq. rewrite length_take, length_drop. lia.
Qed.

Lemma bytes_at_nil w p : bytes_at w p [].
Proof. done. Qed.

Lemma bytes_at_fun w p bs bs' :
  bytes_at w p bs -> bytes_at w p bs' -> length bs = length bs' -> bs = bs'.
Proof.
  unfold bytes_at. intros H1 H2 Hl. rewrite Hl, H2 in H1.
  assert (E : all_init (Some <$> bs') = all_init (Some <$> bs)) by congruence.
  rewrite !all_init_fmap in E. congruence.
Qed.

(** What a lookup in a nonempty range says. *)
Lemma read_cells_S w p n c :
  read_cells w p (S n) = Some c <->
  exists b o d, p = At b o /\ w_mem w !! b = Some d /\ (o + S n <= length d)%nat /\
                c = take (S n) (drop o d).
Proof.
  unfold read_cells. destruct p as [|b o]; [split; [done|intros (?&?&?&?&_); done]|].
  split.
  - destruct (w_mem w !! b) as [d|] eqn:E; [|done].
    case_decide; intros; simplify_eq. eauto 10.
  - intros (b' & o' & d & ? & E & ? & ->). simplify_eq. rewrite E.
    by rewrite decide_True by done.
Qed.

(** A range read below a layer that does not own it. *)
Lemma read_cells_put_fresh w b c p n d :
  w_mem w !! b = None -> read_cells w p n = Some d -> read_cells (w_put b c w) p n = Some d.
Proof.
  intros Hb. destruct n as [|n]; [done|].
  rewrite !read_cells_S. intros (b' & o & e & -> & E & ? & ->).
  exists b', o, e. repeat split; try done. cbn.
  rewrite lookup_insert_ne; [done|]. congruence.
Qed.

Lemma bytes_at_put_fresh w b c p bs :
  w_mem w !! b = None -> bytes_at w p bs -> bytes_at (w_put b c w) p bs.
Proof. apply read_cells_put_fresh. Qed.

Lemma bytes_at_put_same w b bs : bytes_at (w_put b (Some <$> bs) w) (At b 0) bs.
Proof.
  unfold bytes_at. destruct bs as [|x bs]; [done|]. cbn [length].
  rewrite read_cells_S. exists b, O, (Some <$> x :: bs). cbn.
  rewrite lookup_insert_eq, length_fmap. repeat split; [lia|].
  f_equal. rewrite take_ge; [done|]. by rewrite length_fmap.
Qed.

Lemma in_range_put_same w b c n : n = zlen c -> in_range (w_put b c w) (At b 0) n.
Proof.
  intros ->. unfold in_range. rewrite to_nat_zlen.
  destruct c as [|x c]; cbn [length]; [by eexists|].
  eexists. apply read_cells_S. exists b, O, (x :: c). cbn.
  rewrite lookup_insert_eq. repeat split; lia.
Qed.

Lemma in_range_put_fresh w b c p n :
  w_mem w !! b = None -> in_range w p n -> in_range (w_put b c w) p n.
Proof. intros Hb [d Hd]. eexists. by eapply read_cells_put_fresh. Qed.

Lemma in_range_bytes w p bs n : bytes_at w p bs -> n = zlen bs -> in_range w p n.
Proof. intros Hb ->. unfold in_range. rewrite to_nat_zlen. eexists. exact Hb. Qed.

(** A prefix of the bytes at an address is at that address. *)
Lemma bytes_at_app_l w p a b : bytes_at w p (a ++ b) -> bytes_at w p a.
Proof.
  unfold bytes_at. destruct a as [|x a]; [done|]. cbn [app length].
  rewrite !read_cells_S. intros (bl & o & d & -> & E & Hl & Hd).
  exists bl, o, d. rewrite length_app in Hl. repeat split; [done|lia|].
  assert (Ht : take (S (length a)) (Some <$> x :: a ++ b) = take (S (length a)) (drop o d)).
  { rewrite Hd, take_take. f_equal. rewrite length_app. lia. }
  rewrite <- Ht. cbn. f_equal. rewrite fmap_app, take_app_length'; [done|]. by rewrite length_fmap.
Qed.

Lemma bytes_at_with e w p bs : bytes_at w p bs -> bytes_at (w_with e w) p bs.
Proof. done. Qed.
Lemma in_range_with e w p n : in_range w p n -> in_range (w_with e w) p n.
Proof. done. Qed.

#[export] Hint Extern 1 (bytes_at _ _ []) => apply bytes_at_nil : mem.
#[export] Hint Resolve bytes_at_put_same bytes_at_with in_range_with : mem.
#[export] Hint Resolve bytes_at_put_fresh in_range_put_fresh | 3 : mem.
#[export] Hint Extern 1 (in_range (w_put ?b _ _) (At ?b 0) _) =>
  apply in_range_put_same; zlia : mem.
#[export] Hint Extern 2 (in_range _ ?p _) =>
  match goal with H : bytes_at ?w p ?bs |- in_range ?w p _ =>
    apply (in_range_bytes w p bs _ H); first [reflexivity | eassumption | zlia] end : mem.

(** ** Writing *)

Lemma write_in_range w p bs : in_range w p (zlen bs) -> write p bs w = Done tt (w_write p bs w).
Proof. unfold in_range, write. rewrite to_nat_zlen. by intros [c ->]. Qed.

Lemma splice_all c bs : length c = length bs -> splice c 0 bs = Some <$> bs.
Proof.
  intros Hl. unfold splice. cbn. rewrite drop_ge by lia. apply app_nil_r.
Qed.

Lemma length_splice c o bs : (o + length bs <= length c)%nat -> length (splice c o bs) = length c.
Proof. intros. unfold splice. rewrite !length_app, length_fmap, length_take, length_drop. lia. Qed.

Lemma splice_lookup_in c o bs i :
  (o <= length c)%nat -> (o <= i)%nat -> (i < o + length bs)%nat ->
  splice c o bs !! i = Some <$> (bs !! (i - o)%nat).
Proof.
  intros. unfold splice. rewrite lookup_app_r; rewrite length_take; [|lia].
  rewrite Nat.min_l by lia. rewrite lookup_app_l by (rewrite length_fmap; lia).
  by rewrite list_lookup_fmap.
Qed.

Lemma splice_lookup_out c o bs i :
  (o + length bs <= length c)%nat -> (i < o \/ o + length bs <= i)%nat ->
  splice c o bs !! i = c !! i.
Proof.
  intros ? [Hi|Hi]; unfold splice.
  - rewrite lookup_app_l by (rewrite length_take; lia). by rewrite lookup_take_lt.
  - rewrite lookup_app_r; rewrite length_take; [|lia].
    rewrite lookup_app_r; rewrite length_fmap; [|lia].
    rewrite lookup_drop. f_equal. lia.
Qed.

(** Storing a whole allocation. *)
Lemma w_write_put w b c bs :
  length c = length bs -> w_write (At b 0) bs (w_put b c w) = w_put b (Some <$> bs) w.
Proof.
  intros Hl. unfold w_write. destruct bs as [|x bs]; [by destruct c|].
  cbn -[w_put splice]. unfold w_put at 1. cbn -[w_put splice].
  rewrite lookup_insert_eq. cbn -[w_put]. rewrite w_put_put. f_equal. by apply splice_all.
Qed.

Lemma w_write_put_fresh w b c p bs :
  w_mem w !! b = None -> in_range w p (zlen bs) ->
  w_write p bs (w_put b c w) = w_put b c (w_write p bs w).
Proof.
  intros Hb. unfold in_range. rewrite to_nat_zlen. intros [d Hd].
  unfold w_write. destruct bs as [|x bs]; [done|]. cbn [length] in Hd.
  apply read_cells_S in Hd as (b' & o & e & -> & E & ? & ->).
  assert (b <> b') by congruence.
  unfold w_put at 1. cbn -[w_put]. rewrite lookup_insert_ne by done.
  rewrite E. by apply w_put_comm.
Qed.

(** Reading back a written range, and one it leaves alone. *)
Lemma bytes_at_write_same w p bs : in_range w p (zlen bs) -> bytes_at (w_write p bs w) p bs.
Proof.
  unfold in_range. rewrite to_nat_zlen. intros [d Hd]. unfold bytes_at, w_write.
  destruct bs as [|x bs]; [done|]. cbn [length] in Hd.
  apply read_cells_S in Hd as (b & o & e & -> & E & Hl & _). rewrite E.
  cbn [length]. apply read_cells_S. exists b, o, (splice e o (x :: bs)).
  cbn [w_put w_mem]. rewrite lookup_insert_eq. rewrite length_splice by (cbn; lia).
  repeat split; [lia|].
  apply list_eq. intros i.
  destruct (decide (i < S (length bs))%nat) as [Hi|Hi].
  - rewrite lookup_take_lt, lookup_drop by lia.
    rewrite splice_lookup_in by (cbn; lia).
    rewrite list_lookup_fmap. do 2 f_equal. lia.
  - rewrite lookup_take_ge by lia. apply lookup_ge_None_2.
    rewrite length_fmap. cbn [length]. lia.
Qed.

Lemma apart_spec p n b1 o1 m b2 o2 :
  0 < n -> 0 < m -> p = At b1 o1 ->
  apart p n (At b2 o2) m = true <->
  b1 <> b2 \/ Z.of_nat o1 + n <= Z.of_nat o2 \/ Z.of_nat o2 + m <= Z.of_nat o1.
Proof.
  intros Hn Hm ->. unfold apart.
  rewrite !orb_true_iff, negb_true_iff, !Z.leb_le, bool_decide_eq_false.
  intuition lia.
Qed.

Lemma read_cells_write_apart w p bs q n c :
  in_range w p (zlen bs) -> apart p (zlen bs) q (Z.of_nat n) = true ->
  read_cells w q n = Some c -> read_cells (w_write p bs w) q n = Some c.
Proof.
  unfold in_range. rewrite to_nat_zlen. intros [d Hd] Hap.
  destruct n as [|n]; [done|]. unfold w_write.
  destruct bs as [|x bs]; [done|].
  cbn [length] in Hd. apply read_cells_S in Hd as (b & o & e & -> & E & Hl & _).
  rewrite E. rewrite !read_cells_S. intros (b' & o' & f & -> & F & Hl' & ->).
  apply (apart_spec (At b o) (zlen (x :: bs)) b o) in Hap; [|zlia|lia|done].
  destruct (decide (b = b')) as [<-|Hne].
  - assert (e = f) as <- by congruence. exists b, o', (splice e o (x :: bs)).
    rewrite length_splice by (cbn; lia).
    cbn [w_put w_mem]. rewrite lookup_insert_eq. repeat split; [done|].
    apply list_eq. intros i.
    destruct (decide (i < S n)%nat); [|by rewrite !lookup_take_ge by lia].
    rewrite !lookup_take_lt, !lookup_drop by lia.
    rewrite splice_lookup_out; [done|cbn; lia|].
    cbn. unfold zlen in Hap. cbn in Hap. lia.
  - exists b', o', f. cbn. by rewrite lookup_insert_ne by done.
Qed.

Lemma bytes_at_write_apart w p bs q cs :
  in_range w p (zlen bs) -> apart p (zlen bs) q (zlen cs) = true ->
  bytes_at w q cs -> bytes_at (w_write p bs w) q cs.
Proof. intros. by apply read_cells_write_apart. Qed.

Lemma in_range_write_same w p bs q n :
  in_range w q n -> in_range (w_write p bs w) q n.
Proof.
  unfold in_range. destruct (Z.to_nat n) as [|m]; [intros; by eexists|].
  intros [c Hc]. apply read_cells_S in Hc as (b & o & d & -> & E & Hl & _).
  unfold w_write. destruct bs as [|x bs]; [eexists; apply read_cells_S; by eauto 10|].
  destruct p as [|b' o']; [eexists; apply read_cells_S; by eauto 10|].
  destruct (w_mem w !! b') as [e|] eqn:E'; [|eexists; apply read_cells_S; by eauto 10].
  destruct (decide (b' = b)) as [->|Hne].
  - assert (e = d) as -> by congruence.
    eexists. apply read_cells_S. exists b, o, (splice d o' (x :: bs)).
    cbn [w_put w_mem]. rewrite lookup_insert_eq. split_and!; [done|done| |done].
    unfold splice. rewrite !length_app, length_fmap, length_take, length_drop. cbn. lia.
  - eexists. apply read_cells_S. exists b, o, d. cbn.
    rewrite lookup_insert_ne by done. eauto.
Qed.

(** Parts of a range. *)
Lemma bytes_at_app_r w p a b : bytes_at w p (a ++ b) -> bytes_at w (ptr_add p (zlen a)) b.
Proof.
  unfold bytes_at. destruct b as [|y b]; [done|]. rewrite length_app. cbn [length].
  rewrite Nat.add_succ_r, read_cells_S. intros (bl & o & d & -> & E & Hl & Hd).
  cbn [ptr_add]. rewrite to_nat_zlen, read_cells_S.
  exists bl, (o + length a)%nat, d. split_and!; [done|done|lia|].
  assert (Ht : drop (length a) (Some <$> a ++ y :: b) = drop (length a) (take (S (length a + length b)) (drop o d)))
    by (by rewrite Hd).
  rewrite fmap_app, drop_app_length' in Ht by (by rewrite length_fmap).
  rewrite Ht, <- Nat.add_succ_r, <- take_drop_commute, drop_drop. done.
Qed.

(** Storing the middle of a range. *)
Lemma bytes_at_write_sub w p a b c x :
  bytes_at w p (a ++ b ++ c) -> length x = length b ->
  bytes_at (w_write (ptr_add p (zlen a)) x w) p (a ++ x ++ c).
Proof.
  unfold bytes_at. intros Hb Hx. destruct x as [|y x]; [by destruct b|].
  destruct b as [|z b]; [done|]. revert Hb. rewrite !length_app. cbn [length] in *.
  set (n := (length a + (length x + length c))%nat).
  replace (length a + (S (length b) + length c))%nat with (S n) by lia.
  replace (length a + (S (length x) + length c))%nat with (S n) by lia.
  rewrite read_cells_S. intros (bl & o & d & -> & E & Hl & Hd).
  cbn [ptr_add]. rewrite to_nat_zlen. unfold w_write. rewrite E, read_cells_S.
  eexists bl, o, _. cbn [w_put w_mem]. rewrite lookup_insert_eq.
  split_and!; [done|done|rewrite length_splice by (cbn; lia); lia|].
  apply list_eq. intros i.
  destruct (decide (i < S n)%nat) as [Hi|Hi].
  - rewrite lookup_take_lt, lookup_drop by lia.
    destruct (decide (length a <= i < length a + S (length x))%nat) as [Hm|Hm].
    + rewrite splice_lookup_in by (cbn; lia). rewrite list_lookup_fmap. f_equal.
      rewrite lookup_app_r by lia. rewrite lookup_app_l by (cbn; lia). f_equal. lia.
    + rewrite splice_lookup_out by (cbn; lia).
      assert (Ht : (Some <$> a ++ (z :: b) ++ c) !! i = d !! (o + i)%nat).
      { rewrite Hd, lookup_take_lt, lookup_drop by lia. done. }
      rewrite <- Ht. rewrite !list_lookup_fmap. f_equal.
      destruct (decide (i < length a)%nat); [by rewrite !lookup_app_l by done|].
      rewrite !lookup_app_r by (cbn; lia). f_equal. cbn. lia.
  - rewrite lookup_take_ge by lia. apply lookup_ge_None_2.
    rewrite length_fmap, !length_app. cbn. lia.
Qed.

(** Writing twice, and writing what is there already. *)
Lemma splice_splice c o a b :
  length a = length b -> (o + length a <= length c)%nat ->
  splice (splice c o a) o b = splice c o b.
Proof.
  intros Hl Hc. apply list_eq. intros i.
  destruct (decide (o <= i /\ i < o + length a)%nat) as [Hi|Hi].
  - rewrite !splice_lookup_in; rewrite ?length_splice; try lia. done.
  - rewrite !splice_lookup_out; rewrite ?length_splice; try lia. done.
Qed.

Lemma splice_id c o bs :
  (o + length bs <= length c)%nat -> take (length bs) (drop o c) = Some <$> bs -> splice c o bs = c.
Proof.
  intros Hl Hc. unfold splice. rewrite <- Hc, <- (drop_drop c (length bs) o).
  by rewrite take_drop, take_drop.
Qed.

Lemma bytes_at_put_splice b c bs w :
  (length bs <= length c)%nat -> bytes_at (w_put b (splice c 0 bs) w) (At b 0) bs.
Proof.
  intros Hl. unfold bytes_at. destruct bs as [|x bs]; [done|]. cbn [length] in *.
  apply read_cells_S. eexists _, _, _. cbn [w_put w_mem]. rewrite lookup_insert_eq.
  split_and!; [done|done|rewrite length_splice; cbn; lia|].
  unfold splice. rewrite take_0, drop_0. cbn [app].
  rewrite take_app_length'; [done|]. by rewrite length_fmap.
Qed.

Lemma w_put_id b c w : w_mem w !! b = Some c -> w_put b c w = w.
Proof. intros Hb. unfold w_put. rewrite insert_id by done. apply world_eta. Qed.

Lemma w_write_write p a b w :
  in_range w p (zlen a) -> zlen a = zlen b -> w_write p b (w_write p a w) = w_write p b w.
Proof.
  unfold in_range. rewrite to_nat_zlen. intros [d Hd] Hl.
  assert (Hl' : length a = length b) by (unfold zlen in Hl; lia).
  destruct a as [|x a], b as [|y b]; try done. cbn [length] in Hd.
  apply read_cells_S in Hd as (bl & o & e & -> & E & ? & ->).
  unfold w_write at 1 2. rewrite E. cbn [w_put w_mem]. rewrite lookup_insert_eq.
  fold (w_put bl (splice e o (x :: a)) w). rewrite splice_splice by (cbn in *; lia).
  unfold w_write. rewrite E. apply w_put_put.
Qed.

Lemma w_write_id p bs w : bytes_at w p bs -> w_write p bs w = w.
Proof.
  unfold bytes_at. destruct bs as [|x bs]; [done|]. cbn [length]. intros Hd.
  apply read_cells_S in Hd as (b & o & e & -> & E & ? & Hb).
  unfold w_write. rewrite E, splice_id by done. by apply w_put_id.
Qed.

#[export] Hint Resolve bytes_at_write_same in_range_write_same : mem.

(** ** Running primitives *)

Create HintDb run discriminated.

Lemma bind_done {A B} (m : M A) (f : A -> M B) w a w' :
  m w = Done a w' -> bind m f w = f a w'.
Proof. intros Hm. unfold bind. by rewrite Hm. Qed.

Lemma bind_panicked {A B} (m : M A) (f : A -> M B) w : m w = Panicked -> bind m f w = Panicked.
Proof. intros Hm. unfold bind. by rewrite Hm. Qed.

Lemma bind_assoc {A B C} (m : M A) (f : A -> M B) (g : B -> M C) w :
  bind (bind m f) g w = bind m (fun a => bind (f a) g) w.
Proof. unfold bind. by destruct (m w). Qed.

Lemma ret_bind {A B} (a : A) (f : A -> M B) w : bind (ret a) f w = f a w.
Proof. done. Qed.

Lemma alloc_run c w : alloc c w = Done (fresh_block w) (w_put (fresh_block w) c w).
Proof. done. Qed.

Lemma read_run p n w bs : bytes_at w p bs -> zlen bs = n -> read p n w = Done bs w.
Proof.
  intros Hb <-. unfold read. rewrite to_nat_zlen, Hb. by rewrite all_init_fmap.
Qed.

Lemma write_run p bs w : in_range w p (zlen bs) -> write p bs w = Done tt (w_write p bs w).
Proof. apply write_in_range. Qed.

Lemma write_put_run b c bs w :
  zlen c = zlen bs -> write (At b 0) bs (w_put b c w) = Done tt (w_put b (Some <$> bs) w).
Proof.
  intros Hl. rewrite write_in_range by (apply in_range_put_same; lia).
  rewrite w_write_put; [done|]. unfold zlen in Hl. lia.
Qed.

(** Storing a part of an allocation of the program. *)
Lemma write_put_splice b o c bs w :
  (o + length bs <= length c)%nat ->
  write (At b o) bs (w_put b c w) = Done tt (w_put b (splice c o bs) w).
Proof.
  intros Hl. unfold write. destruct bs as [|x bs].
  - cbn [length read_cells w_write]. do 2 f_equal. unfold splice. cbn [length fmap list_fmap app].
    by rewrite Nat.add_0_r, take_drop.
  - cbn [length] in *. unfold read_cells. cbn [w_put w_mem]. rewrite lookup_insert_eq.
    rewrite decide_True by lia. unfold w_write. cbn [w_put w_mem]. rewrite lookup_insert_eq.
    f_equal. apply w_put_put.
Qed.

Lemma splice_app (a b c : bytes) x :
  length x = length b ->
  splice (Some <$> a ++ b ++ c) (length a) x = Some <$> a ++ x ++ c.
Proof.
  intros Hl. unfold splice. rewrite !fmap_app. f_equal; [|f_equal].
  - apply take_app_length'. by rewrite length_fmap.
  - rewrite drop_app_ge, drop_app_ge; rewrite ?length_fmap; [|lia|lia].
    rewrite Hl. by replace (_ - _ - _)%nat with O by lia.
Qed.

(** Storing less than a zeroed allocation holds. *)
Lemma write_prefix b n bs w :
  zlen bs <= n ->
  write (At b 0) bs (w_put b (Some <$> zeros n) w) =
    Done tt (w_put b (Some <$> bs ++ zeros (n - zlen bs)) w).
Proof.
  intros Hl. rewrite write_put_splice.
  - do 2 f_equal. replace (zeros n) with ([] ++ zeros (zlen bs) ++ zeros (n - zlen bs)).
    + apply (splice_app [] (zeros (zlen bs))). unfold zeros. by rewrite length_replicate, to_nat_zlen.
    + cbn [app]. unfold zeros. rewrite <- replicate_add. f_equal. pose proof (zlen_nonneg bs). lia.
  - unfold zeros. rewrite length_fmap, length_replicate. unfold zlen in Hl. lia.
Qed.

Lemma write_under p bs b c w w' :
  w_mem w !! b = None -> write p bs w = Done tt w' ->
  write p bs (w_put b c w) = Done tt (w_put b c w').
Proof.
  intros Hb Hw. assert (Hr : in_range w p (zlen bs)).
  { unfold in_range. rewrite to_nat_zlen. unfold write in Hw.
    destruct (read_cells w p (length bs)); [by eexists|done]. }
  rewrite write_in_range in Hw by done. simplify_eq.
  rewrite write_in_range by (by apply in_range_put_fresh).
  by rewrite w_write_put_fresh.
Qed.

Lemma free_put_run b c w :
  w_mem w !! b = None ->
  free b (w_put b c w) = Done tt (w_with (env_drop c (w_env w)) w).
Proof.
  intros Hb. unfold free. cbn. rewrite lookup_insert_eq.
  unfold w_with. rewrite w_del_put by done. done.
Qed.

Lemma free_under a b c w w' :
  a <> b -> free a w = Done tt w' -> free a (w_put b c w) = Done tt (w_put b c w').
Proof.
  intros Hab. unfold free. cbn. rewrite lookup_insert_ne by done.
  destruct (w_mem w !! a) as [d|]; [|done]. intros. simplify_eq.
  unfold w_with, w_put, w_del. cbn. by rewrite delete_insert_ne.
Qed.

Lemma move_out_put_run b bs w :
  w_mem w !! b = None -> move_out b (w_put b (Some <$> bs) w) = Done bs w.
Proof.
  intros Hb. unfold move_out. cbn. rewrite lookup_insert_eq, all_init_fmap.
  by rewrite w_del_put.
Qed.

Lemma move_out_under a b c w w' bs :
  a <> b -> move_out a w = Done bs w' -> move_out a (w_put b c w) = Done bs (w_put b c w').
Proof.
  intros Hab. unfold move_out. cbn. rewrite lookup_insert_ne by done.
  destruct (w_mem w !! a) as [d|]; [|done].
  destruct (all_init d); [|done]. intros. simplify_eq.
  unfold w_put, w_del. cbn. by rewrite delete_insert_ne.
Qed.

Lemma rand_run n w : rand n w = Done (entropy n w) (w_consume n w).
Proof. done. Qed.

Lemma rand_under n b c w w' r :
  rand n w = Done r w' -> rand n (w_put b c w) = Done r (w_put b c w').
Proof. unfold rand. intros. by simplify_eq. Qed.

Lemma mem_consume_intro n b w : w_mem w !! b = None -> w_mem (w_consume n w) !! b = None.
Proof. done. Qed.
Lemma bytes_at_consume n w p bs : bytes_at w p bs -> bytes_at (w_consume n w) p bs.
Proof. done. Qed.

Lemma entropy_zlen n w : 0 <= n -> zlen (entropy n w) = n.
Proof. intros. unfold entropy, zlen. rewrite length_fmap, length_seq. lia. Qed.

#[export] Hint Resolve mem_consume_intro bytes_at_consume : mem.
#[export] Hint Rewrite entropy_zlen using lia : zlen.

Lemma restrict_run p n q m w : apart p n q m = true -> restrict p n q m w = Done tt w.
Proof. unfold restrict. by intros ->. Qed.

Lemma restrict_inplace_run p n q m w :
  p = q \/ apart p n q m = true -> restrict_inplace p n q m w = Done tt w.
Proof.
  unfold restrict_inplace. intros Hor. case_bool_decide as Hd; [done|].
  destruct Hor; [done|]. by apply restrict_run.
Qed.

(** Ranges of different allocations are apart; an allocation the program has
    just made is different from the caller's. *)
Lemma apart_sym p n q m : apart p n q m = apart q m p n.
Proof.
  unfold apart. f_equal; [apply orb_comm|].
  destruct p as [|b1 o1], q as [|b2 o2]; try done.
  destruct (decide (b1 = b2)) as [->|Hne].
  - rewrite !bool_decide_eq_true_2 by done. cbn. apply orb_comm.
  - rewrite !bool_decide_eq_false_2 by congruence. done.
Qed.

Lemma apart_fresh w b o n p bs m :
  w_mem w !! b = None -> bytes_at w p bs -> zlen bs = m -> apart (At b o) n p m = true.
Proof.
  intros Hb Hp <-. unfold apart. destruct bs as [|x bs].
  { rewrite (proj2 (Z.leb_le (zlen []) 0)) by done. by rewrite orb_true_r. }
  unfold bytes_at in Hp. cbn [length] in Hp.
  apply read_cells_S in Hp as (b' & o' & d & -> & E & _).
  rewrite (bool_decide_eq_false_2 (b = b')) by congruence. cbn. by rewrite !orb_true_r.
Qed.

Lemma apart_blocks a b o1 o2 n m : a <> b -> apart (At a o1) n (At b o2) m = true.
Proof.
  intros Hab. unfold apart. rewrite (bool_decide_eq_false_2 (a = b)) by done.
  cbn. by rewrite !orb_true_r.
Qed.

Lemma apart_empty_l p q m : apart p 0 q m = true.
Proof. done. Qed.
Lemma apart_empty_r p n q : apart p n q 0 = true.
Proof. by rewrite apart_sym. Qed.

#[export] Hint Resolve apart_blocks apart_empty_l apart_empty_r | 1 : mem.

Ltac apart_tac :=
  match goal with
  | H : w_mem ?w !! ?b = None, H' : bytes_at ?w ?p ?bs |- apart (At ?b _) _ ?p _ = true =>
      apply (apart_fresh w b _ _ p bs _ H H'); first [reflexivity | eassumption | zlia]
  | H : w_mem ?w !! ?b = None, H' : bytes_at ?w ?p ?bs |- apart ?p _ (At ?b _) _ = true =>
      rewrite apart_sym; apply (apart_fresh w b _ _ p bs _ H H');
      first [reflexivity | eassumption | zlia]
  end.
#[export] Hint Extern 1 (apart _ _ _ _ = true) => apart_tac : mem.

(** Side conditions: freshness, ranges, lengths. *)
Ltac mem_tac :=
  solve [ eassumption | reflexivity | eauto 12 with mem | zlia | done ].

(** The outcome of the first primitive of the program, through the layers of
    the program's own allocations. *)
Ltac run_prim :=
  lazymatch goal with
  | |- ret _ _ = _ => reflexivity
  | |- alloc _ _ = _ => apply alloc_run
  | |- rand _ (w_put _ _ _) = _ => eapply rand_under; run_prim
  | |- rand _ _ = _ => apply rand_run
  | |- restrict _ _ _ _ _ = _ => apply restrict_run; mem_tac
  | |- restrict_inplace _ _ _ _ _ = _ =>
      apply restrict_inplace_run; first [left; reflexivity | right; mem_tac | by left]
  | |- read _ _ _ = _ => eapply read_run; [ mem_tac | mem_tac ]
  | |- write (At ?b 0) _ (w_put ?b _ _) = _ => apply write_put_run; mem_tac
  | |- write _ _ (w_put _ _ _) = _ => eapply write_under; [ mem_tac | run_prim ]
  | |- write _ _ _ = _ => apply write_run; mem_tac
  | |- free ?b (w_put ?b _ _) = _ => apply free_put_run; mem_tac
  | |- free _ (w_put _ _ _) = _ => eapply free_under; [ mem_tac | run_prim ]
  | |- move_out ?b (w_put ?b _ _) = _ => apply move_out_put_run; mem_tac
  | |- move_out _ (w_put _ _ _) = _ => eapply move_out_under; [ mem_tac | run_prim ]
  | |- _ => solve [ eauto with run ]
  end.

Lemma bind_step {A B} (m : M A) (f : A -> M B) w a w' r :
  m w = Done a w' -> f a w' = r -> bind m f w = r.
Proof. intros Hm <-. by apply bind_done. Qed.

Lemma alloc_bind {B} c (f : positive -> M B) w r :
  (forall b, b = fresh_block w -> w_mem w !! b = None -> f b (w_put b c w) = r) ->
  bind (alloc c) f w = r.
Proof. intros Hf. apply (Hf (fresh_block w) eq_refl), fresh_block_spec. Qed.

(** Facts about a new allocation, layer by layer. *)
Ltac split_fresh H :=
  lazymatch type of H with
  | w_mem (w_put _ _ _) !! _ = None =>
      let H1 := fresh "Hne" in let H2 := fresh "Hfr" in
      pose proof (mem_put_fst _ _ _ _ H) as H1;
      pose proof (mem_put_snd _ _ _ _ H) as H2; split_fresh H2
  | _ => idtac
  end.

Section Vectors.
Context `{Target}.

Lemma usize_add_run a b w : 0 <= a -> 0 <= b -> a + b <= 2 * isize_max + 1 -> usize_add a b w = Done (a + b) w.
Proof.
  intros. unfold usize_add, checked_add. pose proof usize_max_isize.
  by rewrite decide_True by lia.
Qed.

Lemma vec_with_capacity_eq n : n <= isize_max ->
  vec_with_capacity n = (let* b := alloc (replicate (Z.to_nat n) None) in ret (Vec b 0 n)).
Proof. intros. unfold vec_with_capacity. by rewrite decide_True. Qed.

Lemma vec_zeroed_eq n : n <= isize_max ->
  vec_zeroed n = (let* b := alloc (Some <$> zeros n) in ret (Vec b n n)).
Proof. intros. unfold vec_zeroed. by rewrite decide_True. Qed.

Lemma vec_with_capacity_panic n w : isize_max < n -> vec_with_capacity n w = Panicked.
Proof. intros. unfold vec_with_capacity. by rewrite decide_False by lia. Qed.

Lemma vec_zeroed_panic n w : isize_max < n -> vec_zeroed n w = Panicked.
Proof. intros. unfold vec_zeroed. by rewrite decide_False by lia. Qed.

Lemma vec_set_len_run v n w bs :
  bytes_at w (At (v_block v) (Z.to_nat (v_len v))) bs ->
  n <= v_cap v -> zlen bs = n - v_len v ->
  vec_set_len v n w = Done (Vec (v_block v) n (v_cap v)) w.
Proof.
  intros Hb Hcap Hlen. unfold vec_set_len.
  rewrite decide_False by lia. rewrite <- Hlen, to_nat_zlen, Hb. by rewrite all_init_fmap.
Qed.

(** The two ends of a function that fills a vector of the right capacity. *)
Lemma w_write_uninit b n bs w :
  zlen bs = n ->
  w_write (At b 0) bs (w_put b (replicate (Z.to_nat n) None) w) = w_put b (Some <$> bs) w.
Proof. intros <-. apply w_write_put. by rewrite length_replicate, to_nat_zlen. Qed.

Lemma w_write_zeroed b n bs w :
  zlen bs = n ->
  w_write (At b 0) bs (w_put b (Some <$> zeros n) w) = w_put b (Some <$> bs) w.
Proof.
  intros <-. apply w_write_put. unfold zeros. by rewrite length_fmap, length_replicate, to_nat_zlen.
Qed.

Lemma vec_set_len_filled b n bs w :
  zlen bs = n ->
  vec_set_len (Vec b 0 n) n (w_put b (Some <$> bs) w) = Done (Vec b n n) (w_put b (Some <$> bs) w).
Proof.
  intros Hl. apply (vec_set_len_run (Vec b 0 n) n _ bs); cbn; [apply bytes_at_put_same|lia..].
Qed.

(** A cleared vector [Vec b 0 cap] with room made for [n] bytes: it stays where
    it is, or moves to a new allocation. *)
Lemma vec_reserve_cleared b cap n c w :
  w_mem w !! b = None -> zlen c = cap -> cap <= isize_max -> 0 <= n <= isize_max ->
  exists b' cap' c' e', w_mem w !! b' = None /\ zlen c' = cap' /\ n <= cap' <= isize_max /\
    vec_reserve (Vec b 0 cap) n (w_put b c w) = Done (Vec b' 0 cap') (w_put b' c' (w_with e' w)).
Proof.
  intros Hb Hc Hcap Hn. unfold vec_reserve. cbn [v_cap v_len v_block].
  rewrite Z.sub_0_r, Z.add_0_l. case_decide.
  - exists b, cap, c, (w_env w). split_and!; [done|done|lia|lia|].
    unfold w_with. by rewrite world_eta.
  - rewrite decide_True by lia. set (w1 := w_put b c w).
    pose proof (fresh_block_spec w1) as Hf. unfold w1 in Hf at 1. apply mem_put_None in Hf as [Hne Hf].
    exists (fresh_block w1), n, (replicate (Z.to_nat n) None), (env_drop c (w_env w)).
    split_and!; [done|apply zlen_replicate; lia|lia|lia|].
    eapply bind_step; [by apply (read_run _ _ _ [])|].
    eapply bind_step; [apply alloc_run|].
    eapply bind_step; [by apply write_run; eexists|]. cbn [w_write].
    eapply bind_step; [|reflexivity]. apply free_under; [done|]. by apply free_put_run.
Qed.

(** [set_len] before anything is stored: the contract of [Vec::set_len] is
    breached unless the vector stays empty. *)
Definition w_breach (n : Z) (w : world) : world :=
  if decide (0 < n) then w_with (env_breach (w_env w)) w else w.

Lemma all_init_uninit n : all_init (replicate (S n) None) = None.
Proof. done. Qed.

Lemma vec_set_len_early b n w :
  0 <= n ->
  vec_set_len (Vec b 0 n) n (w_put b (replicate (Z.to_nat n) None) w) =
    Done (Vec b n n) (w_put b (replicate (Z.to_nat n) None) (w_breach n w)).
Proof.
  intros Hn. unfold vec_set_len, w_breach. cbn [v_cap v_block v_len]. rewrite decide_False by lia.
  rewrite Z.sub_0_r. change (Z.to_nat 0) with O.
  destruct (Z.to_nat n) as [|k] eqn:Ek.
  - rewrite decide_False by lia. done.
  - rewrite decide_True by lia. cbn [read_cells w_put w_mem]. rewrite lookup_insert_eq.
    rewrite decide_True by (rewrite length_replicate; lia).
    rewrite drop_0, take_ge by (rewrite length_replicate; lia). done.
Qed.

Lemma mem_breach n w : w_mem (w_breach n w) = w_mem w.
Proof. unfold w_breach. by case_decide. Qed.

Lemma bytes_at_breach n w p bs : bytes_at w p bs -> bytes_at (w_breach n w) p bs.
Proof. unfold w_breach. by case_decide. Qed.

Lemma mem_breach_intro n w b : w_mem w !! b = None -> w_mem (w_breach n w) !! b = None.
Proof. by rewrite mem_breach. Qed.

Lemma vec_truncate_run b n k cap :
  k <= n -> vec_truncate (Vec b n cap) k = Vec b k cap.
Proof.
  intros Hk. unfold vec_truncate. cbn [v_len v_block v_cap].
  case_decide; [done|]. f_equal. lia.
Qed.

Lemma vec_set_len_above v n w : v_cap v < n -> vec_set_len v n w = UB BadSetLen.
Proof. intros. unfold vec_set_len. by rewrite decide_True. Qed.

(** [&[u8]]: the slice [s] holds [bs]; no slice is longer than [isize::MAX]. *)
Definition is_slice (w : world) (s : slice) (bs : bytes) : Prop :=
  bytes_at w (s_ptr s) bs /\ s_len s = zlen bs /\ zlen bs <= isize_max.

(** [Vec<u8>]: the vector [v] holds [bs]. *)
Definition is_vec (w : world) (v : vec) (bs : bytes) : Prop :=
  bytes_at w (v_ptr v) bs /\ v_len v = zlen bs /\ zlen bs <= v_cap v <= isize_max.

Lemma is_vec_slice w v bs : is_vec w v bs -> is_slice w (v_slice v) bs.
Proof. unfold is_vec, is_slice. cbn. intuition lia. Qed.

End Vectors.

(** [&[u8; N]]: the reference [p] points to the [n] bytes [bs]. *)
Definition is_ref (w : world) (p : ptr) (n : Z) (bs : bytes) : Prop :=
  bytes_at w p bs /\ zlen bs = n.

Lemma is_slice_put_fresh `{Target} w b c s bs :
  w_mem w !! b = None -> is_slice w s bs -> is_slice (w_put b c w) s bs.
Proof. unfold is_slice. intros ? [? ?]. eauto with mem. Qed.

Lemma is_ref_put_fresh w b c p n bs :
  w_mem w !! b = None -> is_ref w p n bs -> is_ref (w_put b c w) p n bs.
Proof. unfold is_ref. intros ? [? ?]. eauto with mem. Qed.

Lemma is_vec_put `{Target} b bs w :
  zlen bs <= isize_max -> is_vec (w_put b (Some <$> bs) w) (Vec b (zlen bs) (zlen bs)) bs.
Proof. intros. split; [apply bytes_at_put_same|]. cbn. lia. Qed.

Lemma is_ref_write_apart w p bs q n cs :
  in_range w p (zlen bs) -> apart p (zlen bs) q n = true -> is_ref w q n cs ->
  is_ref (w_write p bs w) q n cs.
Proof. intros ? ? [? <-]. split; [|done]. by apply bytes_at_write_apart. Qed.

Lemma is_slice_write_same `{Target} w s a b :
  is_slice w s a -> zlen b = zlen a -> is_slice (w_write (s_ptr s) b w) s b.
Proof.
  intros (? & ? & ?) Hl. repeat split; [|lia..]. apply bytes_at_write_same.
  by eapply in_range_bytes.
Qed.

#[export] Hint Resolve is_slice_put_fresh is_ref_put_fresh : mem.

Lemma is_ref_breach k w p n bs : is_ref w p n bs -> is_ref (w_breach k w) p n bs.
Proof. unfold w_breach. by case_decide. Qed.

#[export] Hint Resolve bytes_at_breach mem_breach_intro is_ref_breach : mem.

Lemma is_ref_slice `{Target} w p n bs : n <= isize_max -> is_ref w p n bs -> is_slice w (Slice p n) bs.
Proof. intros ? [? <-]. by repeat split. Qed.

Lemma is_ref_place b bs w : is_ref (w_put b (Some <$> bs) w) (At b 0) (zlen bs) bs.
Proof. split; [apply bytes_at_put_same|done]. Qed.

Lemma zlen_le_bytes n z : zlen (le_bytes n z) = Z.of_nat n.
Proof. unfold zlen. by rewrite length_le_bytes. Qed.
#[export] Hint Rewrite zlen_le_bytes : zlen.

(** Take apart the hypotheses about the caller's arguments. *)
Ltac open_args :=
  repeat match goal with
  | H : is_slice _ _ _ |- _ => destruct H as (? & ? & ?)
  | H : is_ref _ _ _ _ |- _ => destruct H as (? & ?)
  end.

(** Goals about lengths, with the bounds of the target at hand. *)
Ltac len_tac :=
  solve [ zlia | pose proof isize_max_bounds; zlia | pose proof isize_max_bounds; cbn in *; zlia ].

(** The parts of a vector or slice the program has just made. *)
Ltac simpl_vec := unfold v_slice, v_ptr; cbn [v_block v_len v_cap s_ptr s_len].

(** One step of the program. *)
Ltac step :=
  cbv beta;
  lazymatch goal with
  | |- bind (bind _ _) _ _ = _ => rewrite bind_assoc; step
  | |- bind (ret _) _ _ = _ => rewrite ret_bind
  | |- bind (alloc _) _ _ = _ =>
      let b := fresh "b" in let E := fresh "Eb" in let H := fresh "Hfr" in
      apply alloc_bind; intros b E H; split_fresh H
  | |- bind (stack_array _) _ _ = _ => unfold stack_array at 1; step
  | |- bind (stack_uninit _) _ _ = _ => unfold stack_uninit at 1; step
  | |- bind (place _) _ _ = _ => unfold place at 1; step
  | |- bind (vec_with_capacity _) _ _ = _ => rewrite vec_with_capacity_eq by len_tac; step; step
  | |- bind (vec_zeroed _) _ _ = _ => rewrite vec_zeroed_eq by len_tac; step; step
  | |- bind (usize_add _ _) _ _ = _ =>
      eapply bind_step; [apply usize_add_run; len_tac|]
  | |- bind (vec_set_len _ _) _ _ = _ =>
      eapply bind_step; [eapply vec_set_len_run; cbn [v_block v_len v_cap]; [mem_tac | len_tac | len_tac]|]
  | |- bind _ _ _ = _ => eapply bind_step; [run_prim|]
  | |- ret _ _ = _ => reflexivity
  | |- move_out _ _ = _ => run_prim
  end; cbv beta.

Ltac steps := repeat step.

(** Put a value in a place of the program. *)
Ltac place_step :=
  lazymatch goal with
  | |- context [bind (place ?bs) ?f ?w] =>
      change (bind (place bs) f w) with (f (fresh_block w) (w_put (fresh_block w) (Some <$> bs) w));
      cbv beta;
      let b := fresh "b" in let H := fresh "Hfr" in
      pose proof (fresh_block_spec w) as H; set (b := fresh_block w) in *; split_fresh H
  end.

(** ** Memory by blocks *)

Lemma read_cells_mono w0 w p n c :
  w_mem w0 ⊆ w_mem w -> read_cells w0 p n = Some c -> read_cells w p n = Some c.
Proof.
  intros Hsub. destruct n as [|n]; [done|]. rewrite !read_cells_S.
  intros (b & o & d & -> & E & ? & ->). exists b, o, d. repeat split; try done.
  by eapply lookup_weaken.
Qed.

Lemma bytes_at_mono w0 w p bs : w_mem w0 ⊆ w_mem w -> bytes_at w0 p bs -> bytes_at w p bs.
Proof. apply read_cells_mono. Qed.
Lemma is_ref_mono w0 w p n bs : w_mem w0 ⊆ w_mem w -> is_ref w0 p n bs -> is_ref w p n bs.
Proof. intros Hsub [? ?]. split; [by eapply bytes_at_mono|done]. Qed.
Lemma is_slice_mono `{Target} w0 w s bs : w_mem w0 ⊆ w_mem w -> is_slice w0 s bs -> is_slice w s bs.
Proof. intros Hsub (? & ? & ?). split_and!; [by eapply bytes_at_mono|done..]. Qed.
Lemma is_ref_block w b bs : w_mem w !! b = Some (Some <$> bs) -> is_ref w (At b 0) (zlen bs) bs.
Proof. intros Hb. rewrite <- (w_put_id b (Some <$> bs) w Hb). apply is_ref_place. Qed.

Lemma mem_write_block w b c bs :
  w_mem w !! b = Some c -> length c = length bs ->
  w_mem (w_write (At b 0) bs w) = <[b := Some <$> bs]> (w_mem w).
Proof. intros Hb Hl. rewrite <- (w_put_id b c w Hb) at 1. by rewrite w_write_put. Qed.

Lemma free_run b c w :
  w_mem w !! b = Some c -> free b w = Done tt (w_with (env_drop c (w_env w)) (w_del b w)).
Proof. intros Hb. unfold free. by rewrite Hb. Qed.

(** ** Memory that grows

    [grows w w']: the allocations of [w] are in [w'], with the same contents.
    [does w m Q]: from [w], [m] ends normally and with [Q]. *)

Definition grows (w w' : world) : Prop := w_mem w ⊆ w_mem w'.

#[export] Instance grows_preorder : PreOrder grows.
Proof. unfold grows. split; [intros w; reflexivity|intros a b c; by apply transitivity]. Qed.

Lemma grows_put b c w : w_mem w !! b = None -> grows w (w_put b c w).
Proof. intros Hb. by apply insert_subseteq. Qed.

Lemma grows_mem w w' w'' : grows w w' -> w_mem w'' = w_mem w' -> grows w w''.
Proof. unfold grows. by intros ? ->. Qed.

(** Storing in an allocation that is newer than [w] *)
Lemma grows_write w w' b o bs :
  grows w w' -> w_mem w !! b = None -> grows w (w_write (At b o) bs w').
Proof.
  intros Hg Hb. unfold w_write. destruct bs; [done|]. destruct (w_mem w' !! b); [|done].
  unfold grows. cbn. by apply insert_subseteq_r.
Qed.

Definition does {A} (w : world) (m : M A) (Q : A -> world -> Prop) : Prop :=
  exists a w', m w = Done a w' /\ Q a w'.

Lemma does_ret {A} w (a : A) (Q : A -> world -> Prop) : Q a w -> does w (ret a) Q.
Proof. intros Hq. by exists a, w. Qed.

Lemma does_bind {A B} w (m : M A) (f : A -> M B) (Q : A -> world -> Prop) R :
  does w m Q -> (forall a w', Q a w' -> does w' (f a) R) -> does w (bind m f) R.
Proof.
  intros (a & w' & Hm & Hq) Hf. destruct (Hf a w' Hq) as (b & w'' & Hb & Hr).
  exists b, w''. split; [|done]. by eapply bind_step.
Qed.

Lemma does_eq {A} w (m : M A) a w' (Q : A -> world -> Prop) : m w = Done a w' -> Q a w' -> does w m Q.
Proof. intros. by exists a, w'. Qed.

Lemma does_mono {A} w (m : M A) (Q R : A -> world -> Prop) :
  does w m Q -> (forall a w', Q a w' -> R a w') -> does w m R.
Proof. intros (a & w' & ? & ?) Hr. exists a, w'. auto. Qed.

(** [for i in a..b { f(i) }], [n] being [b - a] *)
Fixpoint for_range (a : Z) (n : nat) (f : Z -> M unit) : M unit :=
  match n with
  | O => ret tt
  | S n => let* _ := f a in for_range (a + 1) n f
  end.

Lemma does_for (I : world -> Prop) f n : forall a w,
  (forall i w, a <= i < a + Z.of_nat n -> I w -> does w (f i) (fun _ => I)) ->
  I w -> does w (for_range a n f) (fun _ => I).
Proof.
  induction n as [|n IH]; intros a w Hf Hi; [by apply does_ret|].
  cbn [for_range]. eapply does_bind; [apply Hf; [lia|done]|]. intros [] w' Hi'.
  apply IH; [|done]. intros i w'' ? ?. apply Hf; [lia|done].
Qed.

(** ** Results that are compared *)

(** [assert!(b)], [assert_eq!(a, b)] *)
Definition assert (b : bool) : M unit := if b then ret tt else panic.
Definition assert_eq (a b : bytes) : M unit := assert (bool_decide (a = b)).

(** [v == w] on vectors and slices, by their contents *)
Definition slice_bytes (s : slice) : M bytes := read (s_ptr s) (s_len s).

(** [result.unwrap()] *)
Definition unwrap {A} (r : result A) : M A := match r with Ok a => ret a | Err => panic end.

(** [v.clone()] on vectors *)
Definition vec_clone (v : vec) : M vec :=
  let* bs := slice_bytes (v_slice v) in
  let* b := alloc (Some <$> bs) in
  ret (Vec b (zlen bs) (zlen bs)).

Lemma does_assert_eq w a b (Q : unit -> world -> Prop) : a = b -> Q tt w -> does w (assert_eq a b) Q.
Proof. intros -> Hq. exists tt, w. split; [|done]. unfold assert_eq, assert. by rewrite bool_decide_true. Qed.

Section Growing.
Context `{Target}.

Lemma slice_bytes_run w s bs : is_slice w s bs -> slice_bytes s w = Done bs w.
Proof. intros (Hb & Hl & _). apply read_run; [done|]. by rewrite Hl. Qed.

Lemma does_place w bs :
  does w (place bs) (fun b w' => grows w w' /\ is_ref w' (At b 0) (zlen bs) bs /\ w_mem w !! b = None).
Proof.
  eapply does_eq; [apply alloc_run|]. pose proof (fresh_block_spec w).
  split; [by apply grows_put|]. split; [apply is_ref_place|done].
Qed.

Lemma does_vec_clone w v bs :
  is_vec w v bs ->
  does w (vec_clone v) (fun v' w' => grows w w' /\ is_vec w' v' bs /\ w_mem w !! v_block v' = None).
Proof.
  intros Hv. pose proof (is_vec_slice _ _ _ Hv) as Hs. unfold vec_clone.
  eapply does_bind; [eapply (does_eq _ _ bs w (fun a w' => a = bs /\ w' = w)); [by apply slice_bytes_run|done]|].
  intros _ _ [-> ->]. eapply does_eq; [reflexivity|]. pose proof (fresh_block_spec w).
  split; [by apply grows_put|]. split; [|done]. apply is_vec_put. destruct Hs as (_ & ? & ?). lia.
Qed.

End Growing.
