(* ===== verification/Bindings.v ===== *)
(** * libsodium-sys: the constants and the foreign functions

    The constants of libsodium-sys/src/sodium_bindings.rs the wrappers use,
    with their values, and the [extern "C"] functions they call, grouped in one
    class per family: libsodium itself is not part of the repository (its
    submodule), so its functions are parameters of the development. *)

From S2P Require Export Exec.
From Stdlib Require Import Strings.Ascii Strings.String.

(** A byte-string literal [b"...\0"], its terminating nul included. *)
Definition c_string (s : string) : bytes := (byte_of_ascii <$> list_ascii_of_string s) ++ [x00].

(** ** Constants *)

Definition crypto_aead_aes256gcm_KEYBYTES : Z := 32.
Definition crypto_aead_aes256gcm_NPUBBYTES : Z := 12.
Definition crypto_aead_aes256gcm_ABYTES : Z := 16.
Definition crypto_aead_chacha20poly1305_ietf_KEYBYTES : Z := 32.
Definition crypto_aead_chacha20poly1305_ietf_NPUBBYTES : Z := 12.
Definition crypto_aead_chacha20poly1305_ietf_ABYTES : Z := 16.
Definition crypto_aead_chacha20poly1305_KEYBYTES : Z := 32.
Definition crypto_aead_chacha20poly1305_NPUBBYTES : Z := 8.
Definition crypto_aead_chacha20poly1305_ABYTES : Z := 16.
Definition crypto_aead_xchacha20poly1305_ietf_KEYBYTES : Z := 32.
Definition crypto_aead_xchacha20poly1305_ietf_NPUBBYTES : Z := 24.
Definition crypto_aead_xchacha20poly1305_ietf_ABYTES : Z := 16.
Definition crypto_hash_sha512_BYTES : Z := 64.
Definition crypto_auth_hmacsha512_BYTES : Z := 64.
Definition crypto_auth_hmacsha512_KEYBYTES : Z := 32.
Definition crypto_auth_hmacsha512256_BYTES : Z := 32.
Definition crypto_auth_hmacsha512256_KEYBYTES : Z := 32.
Definition crypto_hash_sha256_BYTES : Z := 32.
Definition crypto_auth_hmacsha256_BYTES : Z := 32.
Definition crypto_auth_hmacsha256_KEYBYTES : Z := 32.
Definition crypto_stream_xsalsa20_KEYBYTES : Z := 32.
Definition crypto_stream_xsalsa20_NONCEBYTES : Z := 24.
Definition crypto_box_curve25519xsalsa20poly1305_SEEDBYTES : Z := 32.
Definition crypto_box_curve25519xsalsa20poly1305_PUBLICKEYBYTES : Z := 32.
Definition crypto_box_curve25519xsalsa20poly1305_SECRETKEYBYTES : Z := 32.
Definition crypto_box_curve25519xsalsa20poly1305_BEFORENMBYTES : Z := 32.
Definition crypto_box_curve25519xsalsa20poly1305_NONCEBYTES : Z := 24.
Definition crypto_box_curve25519xsalsa20poly1305_MACBYTES : Z := 16.
Definition crypto_box_SEEDBYTES : Z := 32.
Definition crypto_box_SEALBYTES : Z := 48.
Definition crypto_generichash_BYTES_MIN : Z := 16.
Definition crypto_generichash_BYTES_MAX : Z := 64.
Definition crypto_generichash_BYTES : Z := 32.
Definition crypto_generichash_KEYBYTES_MIN : Z := 16.
Definition crypto_generichash_KEYBYTES_MAX : Z := 64.
Definition crypto_kdf_blake2b_BYTES_MIN : Z := 16.
Definition crypto_kdf_blake2b_BYTES_MAX : Z := 64.
Definition crypto_kdf_blake2b_CONTEXTBYTES : Z := 8.
Definition crypto_kdf_blake2b_KEYBYTES : Z := 32.
Definition crypto_kx_PUBLICKEYBYTES : Z := 32.
Definition crypto_kx_SECRETKEYBYTES : Z := 32.
Definition crypto_kx_SEEDBYTES : Z := 32.
Definition crypto_kx_SESSIONKEYBYTES : Z := 32.
Definition crypto_onetimeauth_poly1305_BYTES : Z := 16.
Definition crypto_onetimeauth_poly1305_KEYBYTES : Z := 32.
Definition crypto_pwhash_argon2i_SALTBYTES : Z := 16.
Definition crypto_pwhash_argon2i_STRBYTES : Z := 128.
Definition crypto_pwhash_argon2i_STRPREFIX : bytes := c_string "$argon2i$".
Definition crypto_pwhash_argon2i_OPSLIMIT_INTERACTIVE : Z := 4.
Definition crypto_pwhash_argon2i_MEMLIMIT_INTERACTIVE : Z := 33554432.
Definition crypto_pwhash_argon2i_OPSLIMIT_MODERATE : Z := 6.
Definition crypto_pwhash_argon2i_MEMLIMIT_MODERATE : Z := 134217728.
Definition crypto_pwhash_argon2i_OPSLIMIT_SENSITIVE : Z := 8.
Definition crypto_pwhash_argon2i_MEMLIMIT_SENSITIVE : Z := 536870912.
Definition crypto_pwhash_argon2id_SALTBYTES : Z := 16.
Definition crypto_pwhash_argon2id_STRBYTES : Z := 128.
Definition crypto_pwhash_argon2id_STRPREFIX : bytes := c_string "$argon2id$".
Definition crypto_pwhash_argon2id_OPSLIMIT_INTERACTIVE : Z := 2.
Definition crypto_pwhash_argon2id_MEMLIMIT_INTERACTIVE : Z := 67108864.
Definition crypto_pwhash_argon2id_OPSLIMIT_MODERATE : Z := 3.
Definition crypto_pwhash_argon2id_MEMLIMIT_MODERATE : Z := 268435456.
Definition crypto_pwhash_argon2id_OPSLIMIT_SENSITIVE : Z := 4.
Definition crypto_pwhash_argon2id_MEMLIMIT_SENSITIVE : Z := 1073741824.
Definition crypto_pwhash_ALG_ARGON2I13 : Z := 1.
Definition crypto_pwhash_ALG_ARGON2ID13 : Z := 2.
Definition crypto_scalarmult_curve25519_BYTES : Z := 32.
Definition crypto_scalarmult_curve25519_SCALARBYTES : Z := 32.
Definition crypto_secretbox_xsalsa20poly1305_KEYBYTES : Z := 32.
Definition crypto_secretbox_xsalsa20poly1305_NONCEBYTES : Z := 24.
Definition crypto_secretbox_xsalsa20poly1305_MACBYTES : Z := 16.
Definition crypto_stream_chacha20_KEYBYTES : Z := 32.
Definition crypto_stream_chacha20_NONCEBYTES : Z := 8.
Definition crypto_secretstream_xchacha20poly1305_ABYTES : Z := 17.
Definition crypto_secretstream_xchacha20poly1305_HEADERBYTES : Z := 24.
Definition crypto_secretstream_xchacha20poly1305_KEYBYTES : Z := 32.
Definition crypto_secretstream_xchacha20poly1305_TAG_MESSAGE : Z := 0.
Definition crypto_secretstream_xchacha20poly1305_TAG_PUSH : Z := 1.
Definition crypto_secretstream_xchacha20poly1305_TAG_REKEY : Z := 2.
Definition crypto_secretstream_xchacha20poly1305_TAG_FINAL : Z := 3.
Definition crypto_shorthash_siphash24_BYTES : Z := 8.
Definition crypto_shorthash_siphash24_KEYBYTES : Z := 16.
Definition crypto_sign_ed25519_BYTES : Z := 64.
Definition crypto_sign_ed25519_SEEDBYTES : Z := 32.
Definition crypto_sign_ed25519_PUBLICKEYBYTES : Z := 32.
Definition crypto_sign_ed25519_SECRETKEYBYTES : Z := 64.
Definition crypto_stream_salsa20_KEYBYTES : Z := 32.
Definition crypto_stream_salsa20_NONCEBYTES : Z := 8.
Definition randombytes_SEEDBYTES : Z := 32.
Definition sodium_base64_VARIANT_ORIGINAL : Z := 1.
Definition sodium_base64_VARIANT_ORIGINAL_NO_PADDING : Z := 3.
Definition sodium_base64_VARIANT_URLSAFE : Z := 5.
Definition sodium_base64_VARIANT_URLSAFE_NO_PADDING : Z := 7.
Definition crypto_stream_xchacha20_KEYBYTES : Z := 32.
Definition crypto_stream_xchacha20_NONCEBYTES : Z := 24.
Definition crypto_pwhash_scryptsalsa208sha256_SALTBYTES : Z := 32.
Definition crypto_pwhash_scryptsalsa208sha256_STRBYTES : Z := 102.
Definition crypto_pwhash_scryptsalsa208sha256_STRPREFIX : bytes := c_string "$7$".
Definition crypto_pwhash_scryptsalsa208sha256_OPSLIMIT_INTERACTIVE : Z := 524288.
Definition crypto_pwhash_scryptsalsa208sha256_MEMLIMIT_INTERACTIVE : Z := 16777216.
Definition crypto_pwhash_scryptsalsa208sha256_OPSLIMIT_SENSITIVE : Z := 33554432.
Definition crypto_pwhash_scryptsalsa208sha256_MEMLIMIT_SENSITIVE : Z := 1073741824.

(** ** Sizes of the [#[repr(C)]] states, as [mem::size_of_val] gives them *)

Definition crypto_hash_sha512_state : Z := 8 * 8 + 2 * 8 + 128.
Definition crypto_auth_hmacsha512_state : Z := crypto_hash_sha512_state + crypto_hash_sha512_state.
Definition crypto_auth_hmacsha512256_state : Z := crypto_auth_hmacsha512_state.
Definition crypto_hash_sha256_state : Z := 8 * 4 + 8 + 64.
Definition crypto_auth_hmacsha256_state : Z := crypto_hash_sha256_state + crypto_hash_sha256_state.
Definition crypto_generichash_blake2b_state : Z := 384.
Definition crypto_secretstream_xchacha20poly1305_state : Z := 32 + 12 + 8.
Definition crypto_sign_ed25519ph_state : Z := crypto_hash_sha512_state.

(** ** Function types shared by the instances of a macro

    A C function is a program of [M] that returns its status.  A [*mut] to an
    integer that the wrappers always fill with the address of a local variable
    ([&mut clen]) is passed as the variable's value and returned as its new
    value, next to the status. *)

Definition aead_encrypt_fn : Type :=
  ptr (* c *) -> Z (* *clen_p *) -> ptr (* m *) -> Z (* mlen *) -> ptr (* ad *) -> Z (* adlen *) ->
  ptr (* nsec *) -> ptr (* npub *) -> ptr (* k *) -> M (Z * Z).
Definition aead_decrypt_fn : Type :=
  ptr (* m *) -> Z (* *mlen_p *) -> ptr (* nsec *) -> ptr (* c *) -> Z (* clen *) ->
  ptr (* ad *) -> Z (* adlen *) -> ptr (* npub *) -> ptr (* k *) -> M (Z * Z).
Definition aead_encrypt_detached_fn : Type :=
  ptr (* c *) -> ptr (* mac *) -> Z (* *maclen_p *) -> ptr (* m *) -> Z (* mlen *) ->
  ptr (* ad *) -> Z (* adlen *) -> ptr (* nsec *) -> ptr (* npub *) -> ptr (* k *) -> M (Z * Z).
Definition aead_decrypt_detached_fn : Type :=
  ptr (* m *) -> ptr (* nsec *) -> ptr (* c *) -> Z (* clen *) -> ptr (* mac *) ->
  ptr (* ad *) -> Z (* adlen *) -> ptr (* npub *) -> ptr (* k *) -> M Z.

Definition auth_fn : Type := ptr (* out *) -> ptr (* in *) -> Z (* inlen *) -> ptr (* k *) -> M Z.
Definition auth_verify_fn : Type := ptr (* h *) -> ptr (* in *) -> Z (* inlen *) -> ptr (* k *) -> M Z.
Definition auth_init_fn : Type := ptr (* state *) -> ptr (* key *) -> Z (* keylen *) -> M Z.
Definition update_fn : Type := ptr (* state *) -> ptr (* in *) -> Z (* inlen *) -> M Z.
Definition final_fn : Type := ptr (* state *) -> ptr (* out *) -> M Z.

Definition hash_fn : Type := ptr (* out *) -> ptr (* in *) -> Z (* inlen *) -> M Z.
Definition hash_init_fn : Type := ptr (* state *) -> M Z.

Definition stream_fn : Type := ptr (* c *) -> Z (* clen *) -> ptr (* n *) -> ptr (* k *) -> M Z.
Definition stream_xor_fn : Type :=
  ptr (* c *) -> ptr (* m *) -> Z (* mlen *) -> ptr (* n *) -> ptr (* k *) -> M Z.
Definition stream_xor_ic_fn : Type :=
  ptr (* c *) -> ptr (* m *) -> Z (* mlen *) -> ptr (* n *) -> Z (* ic *) -> ptr (* k *) -> M Z.

Definition pwhash_fn : Type :=
  ptr (* out *) -> Z (* outlen *) -> ptr (* passwd *) -> Z (* passwdlen *) -> ptr (* salt *) ->
  Z (* opslimit *) -> Z (* memlimit *) -> Z (* alg *) -> M Z.
Definition pwhash_str_fn : Type :=
  ptr (* out *) -> ptr (* passwd *) -> Z (* passwdlen *) -> Z (* opslimit *) -> Z (* memlimit *) -> M Z.
Definition pwhash_str_verify_fn : Type := ptr (* str *) -> ptr (* passwd *) -> Z (* passwdlen *) -> M Z.

(** ** The [extern "C"] declarations, family by family *)

Class CoreExterns := {
  sodium_library_version_major : M Z;
  sodium_library_version_minor : M Z;
  sodium_init : M Z
}.

Class RandombytesExterns := {
  randombytes_buf : ptr (* buf *) -> Z (* size *) -> M unit;
  randombytes_buf_deterministic : ptr (* buf *) -> Z (* size *) -> ptr (* seed *) -> M unit;
  randombytes_uniform : Z (* upper_bound *) -> M Z
}.

Class UtilsExterns := {
  sodium_memzero : ptr -> Z -> M unit;
  sodium_memcmp : ptr -> ptr -> Z -> M Z;
  sodium_increment : ptr (* n *) -> Z (* nlen *) -> M unit;
  sodium_add : ptr (* a *) -> ptr (* b *) -> Z (* len *) -> M unit
}.

Class MlockExterns := {
  sodium_mlock : ptr -> Z -> M Z;
  sodium_munlock : ptr -> Z -> M Z
}.

Class PadExterns := {
  sodium_pad : Z (* *padded_buflen_p *) -> ptr (* buf *) -> Z (* unpadded_buflen *) ->
    Z (* blocksize *) -> Z (* max_buflen *) -> M (Z * Z);
  sodium_unpad : Z (* *unpadded_buflen_p *) -> ptr (* buf *) -> Z (* padded_buflen *) ->
    Z (* blocksize *) -> M (Z * Z)
}.

Class CodecExterns := {
  sodium_bin2hex : ptr (* hex *) -> Z (* hex_maxlen *) -> ptr (* bin *) -> Z (* bin_len *) -> M ptr;
  sodium_hex2bin : ptr (* bin *) -> Z (* bin_maxlen *) -> ptr (* hex *) -> Z (* hex_len *) ->
    ptr (* ignore *) -> Z (* *bin_len *) -> ptr (* hex_end *) -> M (Z * Z);
  sodium_base64_encoded_len : Z (* bin_len *) -> Z (* variant *) -> M Z;
  sodium_bin2base64 : ptr (* b64 *) -> Z (* b64_maxlen *) -> ptr (* bin *) -> Z (* bin_len *) ->
    Z (* variant *) -> M ptr;
  sodium_base642bin : ptr (* bin *) -> Z (* bin_maxlen *) -> ptr (* b64 *) -> Z (* b64_len *) ->
    ptr (* ignore *) -> Z (* *bin_len *) -> ptr (* b64_end *) -> Z (* variant *) -> M (Z * Z)
}.

Class VerifyExterns := {
  crypto_verify_16 : ptr -> ptr -> M Z;
  crypto_verify_32 : ptr -> ptr -> M Z;
  crypto_verify_64 : ptr -> ptr -> M Z
}.

Class Aes256GcmExterns := {
  crypto_aead_aes256gcm_is_available : M Z;
  crypto_aead_aes256gcm_encrypt : aead_encrypt_fn;
  crypto_aead_aes256gcm_decrypt : aead_decrypt_fn;
  crypto_aead_aes256gcm_encrypt_detached : aead_encrypt_detached_fn;
  crypto_aead_aes256gcm_decrypt_detached : aead_decrypt_detached_fn
}.

Class Chacha20Poly1305IetfExterns := {
  crypto_aead_chacha20poly1305_ietf_encrypt : aead_encrypt_fn;
  crypto_aead_chacha20poly1305_ietf_decrypt : aead_decrypt_fn;
  crypto_aead_chacha20poly1305_ietf_encrypt_detached : aead_encrypt_detached_fn;
  crypto_aead_chacha20poly1305_ietf_decrypt_detached : aead_decrypt_detached_fn
}.

Class Chacha20Poly1305Externs := {
  crypto_aead_chacha20poly1305_encrypt : aead_encrypt_fn;
  crypto_aead_chacha20poly1305_decrypt : aead_decrypt_fn;
  crypto_aead_chacha20poly1305_encrypt_detached : aead_encrypt_detached_fn;
  crypto_aead_chacha20poly1305_decrypt_detached : aead_decrypt_detached_fn
}.

Class Xchacha20Poly1305IetfExterns := {
  crypto_aead_xchacha20poly1305_ietf_encrypt : aead_encrypt_fn;
  crypto_aead_xchacha20poly1305_ietf_decrypt : aead_decrypt_fn;
  crypto_aead_xchacha20poly1305_ietf_encrypt_detached : aead_encrypt_detached_fn;
  crypto_aead_xchacha20poly1305_ietf_decrypt_detached : aead_decrypt_detached_fn
}.

Class Sha512Externs := {
  crypto_hash_sha512 : hash_fn;
  crypto_hash_sha512_init : hash_init_fn;
  crypto_hash_sha512_update : update_fn;
  crypto_hash_sha512_final : final_fn
}.

Class Sha256Externs := {
  crypto_hash_sha256 : hash_fn;
  crypto_hash_sha256_init : hash_init_fn;
  crypto_hash_sha256_update : update_fn;
  crypto_hash_sha256_final : final_fn
}.

Class HmacSha512Externs := {
  crypto_auth_hmacsha512 : auth_fn;
  crypto_auth_hmacsha512_verify : auth_verify_fn;
  crypto_auth_hmacsha512_init : auth_init_fn;
  crypto_auth_hmacsha512_update : update_fn;
  crypto_auth_hmacsha512_final : final_fn
}.

Class HmacSha512256Externs := {
  crypto_auth_hmacsha512256 : auth_fn;
  crypto_auth_hmacsha512256_verify : auth_verify_fn;
  crypto_auth_hmacsha512256_init : auth_init_fn;
  crypto_auth_hmacsha512256_update : update_fn;
  crypto_auth_hmacsha512256_final : final_fn
}.

Class HmacSha256Externs := {
  crypto_auth_hmacsha256 : auth_fn;
  crypto_auth_hmacsha256_verify : auth_verify_fn;
  crypto_auth_hmacsha256_init : auth_init_fn;
  crypto_auth_hmacsha256_update : update_fn;
  crypto_auth_hmacsha256_final : final_fn
}.

Class OnetimeauthExterns := {
  crypto_onetimeauth_poly1305 : auth_fn;
  crypto_onetimeauth_poly1305_verify : auth_verify_fn
}.

Class BoxExterns := {
  crypto_box_curve25519xsalsa20poly1305_seed_keypair : ptr (* pk *) -> ptr (* sk *) -> ptr (* seed *) -> M Z;
  crypto_box_curve25519xsalsa20poly1305_keypair : ptr (* pk *) -> ptr (* sk *) -> M Z;
  crypto_box_curve25519xsalsa20poly1305_beforenm : ptr (* k *) -> ptr (* pk *) -> ptr (* sk *) -> M Z;
  crypto_box_easy : ptr (* c *) -> ptr (* m *) -> Z (* mlen *) -> ptr (* n *) ->
    ptr (* pk *) -> ptr (* sk *) -> M Z;
  crypto_box_open_easy : ptr (* m *) -> ptr (* c *) -> Z (* clen *) -> ptr (* n *) ->
    ptr (* pk *) -> ptr (* sk *) -> M Z;
  crypto_box_detached : ptr (* c *) -> ptr (* mac *) -> ptr (* m *) -> Z (* mlen *) ->
    ptr (* n *) -> ptr (* pk *) -> ptr (* sk *) -> M Z;
  crypto_box_open_detached : ptr (* m *) -> ptr (* c *) -> ptr (* mac *) -> Z (* clen *) ->
    ptr (* n *) -> ptr (* pk *) -> ptr (* sk *) -> M Z;
  crypto_box_easy_afternm : ptr (* c *) -> ptr (* m *) -> Z (* mlen *) -> ptr (* n *) -> ptr (* k *) -> M Z;
  crypto_box_open_easy_afternm : ptr (* m *) -> ptr (* c *) -> Z (* clen *) -> ptr (* n *) ->
    ptr (* k *) -> M Z;
  crypto_box_detached_afternm : ptr (* c *) -> ptr (* mac *) -> ptr (* m *) -> Z (* mlen *) ->
    ptr (* n *) -> ptr (* k *) -> M Z;
  crypto_box_open_detached_afternm : ptr (* m *) -> ptr (* c *) -> ptr (* mac *) -> Z (* clen *) ->
    ptr (* n *) -> ptr (* k *) -> M Z
}.

Class SealedboxExterns := {
  crypto_box_seal : ptr (* c *) -> ptr (* m *) -> Z (* mlen *) -> ptr (* pk *) -> M Z;
  crypto_box_seal_open : ptr (* m *) -> ptr (* c *) -> Z (* clen *) -> ptr (* pk *) -> ptr (* sk *) -> M Z
}.

Class GenerichashExterns := {
  crypto_generichash : ptr (* out *) -> Z (* outlen *) -> ptr (* in *) -> Z (* inlen *) ->
    ptr (* key *) -> Z (* keylen *) -> M Z;
  crypto_generichash_init : ptr (* state *) -> ptr (* key *) -> Z (* keylen *) -> Z (* outlen *) -> M Z;
  crypto_generichash_update : update_fn;
  crypto_generichash_final : ptr (* state *) -> ptr (* out *) -> Z (* outlen *) -> M Z
}.

Class KdfExterns := {
  crypto_kdf_blake2b_derive_from_key : ptr (* subkey *) -> Z (* subkey_len *) -> Z (* subkey_id *) ->
    ptr (* ctx *) -> ptr (* key *) -> M Z
}.

Class KxExterns := {
  crypto_kx_seed_keypair : ptr (* pk *) -> ptr (* sk *) -> ptr (* seed *) -> M Z;
  crypto_kx_keypair : ptr (* pk *) -> ptr (* sk *) -> M Z;
  crypto_kx_client_session_keys : ptr (* rx *) -> ptr (* tx *) -> ptr (* client_pk *) ->
    ptr (* client_sk *) -> ptr (* server_pk *) -> M Z;
  crypto_kx_server_session_keys : ptr (* rx *) -> ptr (* tx *) -> ptr (* server_pk *) ->
    ptr (* server_sk *) -> ptr (* client_pk *) -> M Z
}.

Class Argon2iExterns := {
  crypto_pwhash_argon2i : pwhash_fn;
  crypto_pwhash_argon2i_str : pwhash_str_fn;
  crypto_pwhash_argon2i_str_verify : pwhash_str_verify_fn
}.

Class Argon2idExterns := {
  crypto_pwhash_argon2id : pwhash_fn;
  crypto_pwhash_argon2id_str : pwhash_str_fn;
  crypto_pwhash_argon2id_str_verify : pwhash_str_verify_fn
}.

Class ScryptExterns := {
  crypto_pwhash_scryptsalsa208sha256 : ptr (* out *) -> Z (* outlen *) -> ptr (* passwd *) ->
    Z (* passwdlen *) -> ptr (* salt *) -> Z (* opslimit *) -> Z (* memlimit *) -> M Z;
  crypto_pwhash_scryptsalsa208sha256_str : pwhash_str_fn;
  crypto_pwhash_scryptsalsa208sha256_str_verify : pwhash_str_verify_fn
}.

Class ScalarmultExterns := {
  crypto_scalarmult_curve25519 : ptr (* q *) -> ptr (* n *) -> ptr (* p *) -> M Z;
  crypto_scalarmult_curve25519_base : ptr (* q *) -> ptr (* n *) -> M Z;
  crypto_scalarmult_base : ptr (* q *) -> ptr (* n *) -> M Z
}.

Class SecretboxExterns := {
  crypto_secretbox_easy : ptr (* c *) -> ptr (* m *) -> Z (* mlen *) -> ptr (* n *) -> ptr (* k *) -> M Z;
  crypto_secretbox_open_easy : ptr (* m *) -> ptr (* c *) -> Z (* clen *) -> ptr (* n *) ->
    ptr (* k *) -> M Z;
  crypto_secretbox_detached : ptr (* c *) -> ptr (* mac *) -> ptr (* m *) -> Z (* mlen *) ->
    ptr (* n *) -> ptr (* k *) -> M Z;
  crypto_secretbox_open_detached : ptr (* m *) -> ptr (* c *) -> ptr (* mac *) -> Z (* clen *) ->
    ptr (* n *) -> ptr (* k *) -> M Z
}.

Class SecretstreamExterns := {
  crypto_secretstream_xchacha20poly1305_messagebytes_max : M Z;
  crypto_secretstream_xchacha20poly1305_init_push : ptr (* state *) -> ptr (* header *) -> ptr (* k *) -> M Z;
  crypto_secretstream_xchacha20poly1305_push : ptr (* state *) -> ptr (* c *) -> Z (* *clen_p *) ->
    ptr (* m *) -> Z (* mlen *) -> ptr (* ad *) -> Z (* adlen *) -> Z (* tag *) -> M (Z * Z);
  crypto_secretstream_xchacha20poly1305_init_pull : ptr (* state *) -> ptr (* header *) -> ptr (* k *) -> M Z;
  crypto_secretstream_xchacha20poly1305_pull : ptr (* state *) -> ptr (* m *) -> Z (* *mlen_p *) ->
    Z (* *tag_p *) -> ptr (* c *) -> Z (* clen *) -> ptr (* ad *) -> Z (* adlen *) -> M (Z * Z * Z);
  crypto_secretstream_xchacha20poly1305_rekey : ptr (* state *) -> M unit
}.

Class ShorthashExterns := {
  crypto_shorthash_siphash24 : ptr (* out *) -> ptr (* in *) -> Z (* inlen *) -> ptr (* k *) -> M Z
}.

Class SignExterns := {
  crypto_sign_ed25519 : ptr (* sm *) -> Z (* *smlen_p *) -> ptr (* m *) -> Z (* mlen *) ->
    ptr (* sk *) -> M (Z * Z);
  crypto_sign_ed25519_open : ptr (* m *) -> Z (* *mlen_p *) -> ptr (* sm *) -> Z (* smlen *) ->
    ptr (* pk *) -> M (Z * Z);
  crypto_sign_ed25519_detached : ptr (* sig *) -> Z (* *siglen_p *) -> ptr (* m *) -> Z (* mlen *) ->
    ptr (* sk *) -> M (Z * Z);
  crypto_sign_ed25519_verify_detached : ptr (* sig *) -> ptr (* m *) -> Z (* mlen *) -> ptr (* pk *) -> M Z;
  crypto_sign_ed25519_keypair : ptr (* pk *) -> ptr (* sk *) -> M Z;
  crypto_sign_ed25519_seed_keypair : ptr (* pk *) -> ptr (* sk *) -> ptr (* seed *) -> M Z;
  crypto_sign_ed25519_pk_to_curve25519 : ptr -> ptr -> M Z;
  crypto_sign_ed25519_sk_to_curve25519 : ptr -> ptr -> M Z;
  crypto_sign_ed25519_sk_to_pk : ptr (* pk *) -> ptr (* sk *) -> M Z;
  crypto_sign_ed25519ph_init : ptr (* state *) -> M Z;
  crypto_sign_ed25519ph_update : update_fn;
  crypto_sign_ed25519ph_final_create : ptr (* state *) -> ptr (* sig *) -> Z (* *siglen_p *) ->
    ptr (* sk *) -> M (Z * Z);
  crypto_sign_ed25519ph_final_verify : ptr (* state *) -> ptr (* sig *) -> ptr (* pk *) -> M Z
}.

Class StreamXsalsa20Externs := {
  crypto_stream_xsalsa20 : stream_fn;
  crypto_stream_xsalsa20_xor : stream_xor_fn;
  crypto_stream_xsalsa20_xor_ic : stream_xor_ic_fn
}.

Class StreamChacha20Externs := {
  crypto_stream_chacha20 : stream_fn;
  crypto_stream_chacha20_xor : stream_xor_fn;
  crypto_stream_chacha20_xor_ic : stream_xor_ic_fn
}.

Class StreamSalsa20Externs := {
  crypto_stream_salsa20 : stream_fn;
  crypto_stream_salsa20_xor : stream_xor_fn;
  crypto_stream_salsa20_xor_ic : stream_xor_ic_fn
}.

Class StreamXchacha20Externs := {
  crypto_stream_xchacha20 : stream_fn;
  crypto_stream_xchacha20_xor : stream_xor_fn;
  crypto_stream_xchacha20_xor_ic : stream_xor_ic_fn
}.
