(* ===== verification/Layout.v ===== *)
(** * The state structures of libsodium-sys: their layout in memory

    The [repr(C)] structures of libsodium-sys/src/sodium_bindings.rs, and the
    rules Rust lays such structures out by: fields in order, each at the next
    multiple of its alignment, the size rounded up to the alignment of the
    whole.  The rest of the development moves states around as byte strings;
    where Bindings.v has a constant for the size of a state it is shown to be the
    size the declaration gives, on every target, and for the other structures the
    size is written here; none has padding between or after the fields. *)

From S2P Require Export Bindings.

(** The types that occur in the structures *)
Inductive ctype :=
| c_uchar
| c_u8
| c_u32
| c_u64
| c_fn
| c_array (t : ctype) (n : Z)
| c_struct (align_attr : Z) (fields : list (string * ctype)).

(** The alignment of a [u64] is 8, or 4 on 32-bit x86; a pointer is as wide as
    a [usize]. *)
Class Abi `{Target} := {
  u64_align : Z;
  u64_align_cases : u64_align = 4 \/ u64_align = 8
}.

(** The least multiple of [a] that is at least [n] *)
Definition round_up (n a : Z) : Z := (n + a - 1) / a * a.

Section Layout.
Context `{Abi}.

Fixpoint align_of (t : ctype) : Z :=
  match t with
  | c_uchar | c_u8 => 1
  | c_u32 => 4
  | c_u64 => u64_align
  | c_fn => usize_bits / 8
  | c_array t _ => align_of t
  | c_struct a fs =>
    (fix go fs := match fs with [] => a | (_, t) :: fs => Z.max (align_of t) (go fs) end) fs
  end.

(** [size_of] and, for the fields of a structure, where each begins and ends *)
Fixpoint size_of (t : ctype) : Z :=
  match t with
  | c_uchar | c_u8 => 1
  | c_u32 => 4
  | c_u64 => 8
  | c_fn => usize_bits / 8
  | c_array t n => n * size_of t
  | c_struct a fs =>
    round_up
      ((fix go off fs :=
          match fs with
          | [] => off
          | (_, t) :: fs => go (round_up off (align_of t) + size_of t) fs
          end) 0 fs)
      (align_of (c_struct a fs))
  end.

Fixpoint field_ranges (off : Z) (fs : list (string * ctype)) : list (string * Z * Z) :=
  match fs with
  | [] => []
  | (x, t) :: fs =>
    let start := round_up off (align_of t) in
    (x, start, start + size_of t) :: field_ranges (start + size_of t) fs
  end.

(** Each range begins where the one before it ends, from [off] to [stop]. *)
Fixpoint contiguous (off stop : Z) (rs : list (string * Z * Z)) : bool :=
  match rs with
  | [] => off =? stop
  | (_, a, b) :: rs => (a =? off) && (off <=? b) && contiguous b stop rs
  end.

(** No byte of the type is padding. *)
Fixpoint no_padding (t : ctype) : bool :=
  match t with
  | c_array t _ => no_padding t
  | c_struct a fs =>
    contiguous 0 (size_of (c_struct a fs)) (field_ranges 0 fs) &&
    (fix go fs := match fs with [] => true | (_, t) :: fs => no_padding t && go fs end) fs
  | _ => true
  end.

End Layout.

(** ** The declarations *)

Module types.

#[local] Open Scope string_scope.

Definition crypto_aead_aes256gcm_state_ : ctype :=
  c_struct 16 [("opaque", c_array c_uchar 512)].
Definition crypto_hash_sha512_state : ctype :=
  c_struct 1 [("state", c_array c_u64 8); ("count", c_array c_u64 2); ("buf", c_array c_u8 128)].
Definition crypto_auth_hmacsha512_state : ctype :=
  c_struct 1 [("ictx", crypto_hash_sha512_state); ("octx", crypto_hash_sha512_state)].
Definition crypto_hash_sha256_state : ctype :=
  c_struct 1 [("state", c_array c_u32 8); ("count", c_u64); ("buf", c_array c_u8 64)].
Definition crypto_auth_hmacsha256_state : ctype :=
  c_struct 1 [("ictx", crypto_hash_sha256_state); ("octx", crypto_hash_sha256_state)].
Definition crypto_generichash_blake2b_state : ctype :=
  c_struct 64 [("opaque", c_array c_uchar 384)].
Definition crypto_onetimeauth_poly1305_state : ctype :=
  c_struct 16 [("opaque", c_array c_uchar 256)].
Definition crypto_secretstream_xchacha20poly1305_state : ctype :=
  c_struct 1 [("k", c_array c_uchar 32); ("nonce", c_array c_uchar 12); ("_pad", c_array c_uchar 8)].
Definition crypto_sign_ed25519ph_state : ctype :=
  c_struct 1 [("hs", crypto_hash_sha512_state)].
Definition randombytes_implementation : ctype :=
  c_struct 1 [("implementation_name", c_fn); ("random", c_fn); ("stir", c_fn); ("uniform", c_fn);
              ("buf", c_fn); ("close", c_fn)].

(** The structures, with the size and the alignment expected of each *)
Definition states `{Abi} : list (ctype * Z * Z) :=
  [(crypto_aead_aes256gcm_state_, 512, 16);
   (crypto_hash_sha512_state, Bindings.crypto_hash_sha512_state, u64_align);
   (crypto_auth_hmacsha512_state, Bindings.crypto_auth_hmacsha512_state, u64_align);
   (crypto_hash_sha256_state, Bindings.crypto_hash_sha256_state, u64_align);
   (crypto_auth_hmacsha256_state, Bindings.crypto_auth_hmacsha256_state, u64_align);
   (crypto_generichash_blake2b_state, Bindings.crypto_generichash_blake2b_state, 64);
   (crypto_onetimeauth_poly1305_state, 256, 16);
   (crypto_secretstream_xchacha20poly1305_state, Bindings.crypto_secretstream_xchacha20poly1305_state, 1);
   (crypto_sign_ed25519ph_state, Bindings.crypto_sign_ed25519ph_state, u64_align);
   (randombytes_implementation, 6 * (usize_bits / 8), usize_bits / 8)].

End types.

(** ** Facts about the layout rules *)

Lemma round_up_spec n a : 0 < a -> n <= round_up n a < n + a /\ (a | round_up n a).
Proof.
  intros Ha. unfold round_up. split; [|apply Z.divide_factor_r].
  pose proof (Z.div_mod (n + a - 1) a ltac:(lia)). pose proof (Z.mod_pos_bound (n + a - 1) a Ha). lia.
Qed.

(** ** Properties *)

(** The structures of the bindings have the sizes stated with them (the
    constants of Bindings.v where there is one), the alignments their attributes
    and fields ask for, and not a single byte of padding, neither between two
    fields nor at the end, on 32- and 64-bit targets and whether [u64] is aligned
    to 4 or to 8 bytes: a state is exactly its bytes, so moving it, comparing it
    and handing its address to libsodium involves no byte that was never
    initialised. *)
Theorem state_layouts `{T : Target} `{B : @Abi T} :
  Forall (fun '(t, n, a) =>
    size_of t = n /\ align_of t = a /\ no_padding t = true /\ (a | n)) types.states.
Proof.
  destruct T as [b [-> | ->]], B as [u [-> | ->]].
  all: repeat (apply Forall_cons; split);
    [split; [vm_compute; reflexivity|split; [vm_compute; reflexivity|split; [vm_compute; reflexivity|]]]..|constructor].
  all: apply Z.mod_divide; [done|vm_compute; reflexivity].
Qed.
