(* ===== verification/Utils.v ===== *)
(** * src/utils.rs, src/crypto/verify.rs, src/randombytes.rs, src/lib.rs,
      src/version.rs: the functions every other module is built on

    The wrappers, the documented behaviour of the libsodium functions they
    call ([UtilsDoc], [RandombytesDoc], ...), and what follows. *)

From S2P Require Export Bindings.

(** ** Documented behaviour of libsodium *)

(** Zeroing, comparison and little-endian arithmetic. *)
Class UtilsDoc (E : UtilsExterns) : Prop := {
  sodium_memzero_doc p n : sodium_memzero p n = write p (zeros n);
  sodium_memcmp_doc p q n :
    sodium_memcmp p q n =
      (let* a := read p n in
       let* b := read q n in
       ret (if decide (a = b) then 0 else -1));
  sodium_increment_doc p n :
    sodium_increment p n =
      (let* a := read p n in write p (le_bytes (Z.to_nat n) (le_val a + 1)));
  sodium_add_doc p q n :
    sodium_add p q n =
      (let* a := read p n in
       let* b := read q n in
       write p (le_bytes (Z.to_nat n) (le_val a + le_val b)))
}.

(** Page locking may fail; unlocking zeroes the region first. *)
Class MlockDoc (E : MlockExterns) : Prop := {
  sodium_mlock_doc p n w : exists rc, sodium_mlock p n w = Done rc w;
  sodium_munlock_doc p n w : exists rc,
    sodium_munlock p n w = (let* _ := write p (zeros n) in ret rc) w
}.

Class VerifyDoc (E : VerifyExterns) : Prop := {
  crypto_verify_16_doc x y :
    crypto_verify_16 x y =
      (let* a := read x 16 in let* b := read y 16 in ret (if decide (a = b) then 0 else -1));
  crypto_verify_32_doc x y :
    crypto_verify_32 x y =
      (let* a := read x 32 in let* b := read y 32 in ret (if decide (a = b) then 0 else -1));
  crypto_verify_64_doc x y :
    crypto_verify_64 x y =
      (let* a := read x 64 in let* b := read y 64 in ret (if decide (a = b) then 0 else -1))
}.

(** The generator fills the buffer with the next bytes of the entropy; the
    deterministic generator expands its seed, and shorter outputs are prefixes
    of longer ones; [randombytes_uniform] stays below its bound. *)
Class RandombytesDoc (E : RandombytesExterns) := {
  expand_seed : bytes -> nat -> byte;
  randombytes_buf_doc p n :
    randombytes_buf p n = (let* r := rand n in write p r);
  randombytes_buf_deterministic_doc p n seed :
    randombytes_buf_deterministic p n seed =
      (let* s := read seed 32 in write p (expand_seed s <$> seq 0 (Z.to_nat n)));
  randombytes_uniform_doc bound w :
    exists r n, randombytes_uniform bound w = Done r (w_consume n w) /\
      (if decide (bound < 2) then r = 0 else 0 <= r < bound)
}.

(** ** src/utils.rs *)

Section Utils.
Context `{UtilsExterns}.

Definition memzero (x : slice) : M unit :=
  sodium_memzero (s_ptr x) (s_len x).

Definition memcmp (x y : slice) : M bool :=
  if negb (s_len x =? s_len y) then ret false
  else
    let* rc := sodium_memcmp (s_ptr x) (s_ptr y) (s_len x) in
    ret (rc =? 0).

Definition increment_le (x : slice) : M unit :=
  sodium_increment (s_ptr x) (s_len x).

Definition add_le (x y : slice) : M (result unit) :=
  if s_len x =? s_len y then
    let* _ := sodium_add (s_ptr x) (s_ptr y) (s_len x) in
    ret (Ok tt)
  else ret Err.

Context `{MlockExterns}.

Definition mlock (x : slice) : M (result unit) :=
  let* rc := sodium_mlock (s_ptr x) (s_len x) in
  if rc =? 0 then ret (Ok tt) else ret Err.

Definition munlock (x : slice) : M (result unit) :=
  let* rc := sodium_munlock (s_ptr x) (s_len x) in
  if rc =? 0 then ret (Ok tt) else ret Err.

End Utils.

(** ** src/crypto/verify.rs *)

Section Verify.
Context `{VerifyExterns}.

Definition verify_16 (x y : ptr) : M bool := let* rc := crypto_verify_16 x y in ret (rc =? 0).
Definition verify_32 (x y : ptr) : M bool := let* rc := crypto_verify_32 x y in ret (rc =? 0).
Definition verify_64 (x y : ptr) : M bool := let* rc := crypto_verify_64 x y in ret (rc =? 0).

End Verify.

(** ** src/randombytes.rs *)

Definition SEEDBYTES : Z := randombytes_SEEDBYTES.

Section Randombytes.
Context `{Target} `{RandombytesExterns}.

Definition randombytes (size : Z) : M vec :=
  let* buf := vec_zeroed size in
  let* _ := randombytes_buf (v_ptr buf) size in
  ret buf.

Definition randombytes_into (buf : slice) : M unit :=
  randombytes_buf (s_ptr buf) (s_len buf).

Definition randombytes_uniform (upper_bound : Z) : M Z :=
  Bindings.randombytes_uniform upper_bound.

Definition randombytes_buf_deterministic (size : Z) (seed : ptr) : M vec :=
  let* buf := vec_zeroed size in
  let* _ := Bindings.randombytes_buf_deterministic (v_ptr buf) size seed in
  ret buf.

Definition randombytes_buf_deterministic_into (buf : slice) (seed : ptr) : M unit :=
  Bindings.randombytes_buf_deterministic (s_ptr buf) (s_len buf) seed.

End Randombytes.

(** ** src/lib.rs, src/version.rs *)

Section Core.
Context `{CoreExterns}.

Definition init : M (result unit) :=
  let* rc := sodium_init in
  if rc >=? 0 then ret (Ok tt) else ret Err.

Context `{Target}.

Definition version_major : M Z := let* v := sodium_library_version_major in ret (as_usize v).
Definition version_minor : M Z := let* v := sodium_library_version_minor in ret (as_usize v).

End Core.

(** ** What the wrappers do *)

Section UtilsFacts.
Context `{Target} `{E : UtilsExterns} {D : UtilsDoc E}.

Lemma memcmp_run w x y a b :
  is_slice w x a -> is_slice w y b -> memcmp x y w = Done (bool_decide (a = b)) w.
Proof.
  intros Hx Hy. open_args. unfold memcmp.
  replace (s_len x) with (zlen a) by done. replace (s_len y) with (zlen b) by done.
  destruct (Z.eqb_spec (zlen a) (zlen b)) as [Hl|Hl]; cbn [negb].
  - rewrite sodium_memcmp_doc. steps. f_equal.
    case_decide; [by rewrite bool_decide_eq_true_2|by rewrite bool_decide_eq_false_2].
  - rewrite bool_decide_eq_false_2; [done|]. by intros ->.
Qed.

Lemma memzero_run w x a :
  is_slice w x a -> memzero x w = Done tt (w_write (s_ptr x) (zeros (s_len x)) w).
Proof.
  intros Hx. open_args. unfold memzero. rewrite sodium_memzero_doc.
  apply write_run. eapply in_range_bytes; [eassumption|].
  rewrite zlen_zeros; [done|]. len_tac.
Qed.

Lemma memzero_put_run w b c n :
  0 <= n -> zlen c = n -> memzero (Slice (At b 0) n) (w_put b c w) =
    Done tt (w_put b (Some <$> zeros n) w).
Proof.
  intros Hn <-. unfold memzero. cbn. rewrite sodium_memzero_doc. apply write_put_run.
  rewrite zlen_zeros; lia.
Qed.

Lemma increment_le_run w x a :
  is_slice w x a ->
  increment_le x w = Done tt (w_write (s_ptr x) (le_bytes (length a) (le_val a + 1)) w).
Proof.
  intros Hx. open_args. unfold increment_le. rewrite sodium_increment_doc.
  step. replace (s_len x) with (zlen a) by done. rewrite to_nat_zlen. apply write_run.
  eapply in_range_bytes; [eassumption|]. unfold zlen. by rewrite length_le_bytes.
Qed.

Lemma add_le_run w x y a b :
  is_slice w x a -> is_slice w y b ->
  add_le x y w =
    if decide (zlen a = zlen b)
    then Done (Ok tt) (w_write (s_ptr x) (le_bytes (length a) (le_val a + le_val b)) w)
    else Done Err w.
Proof.
  intros Hx Hy. open_args. unfold add_le.
  replace (s_len x) with (zlen a) by done. replace (s_len y) with (zlen b) by done.
  case_decide as Hl.
  - rewrite Hl, Z.eqb_refl. rewrite sodium_add_doc, <- Hl. steps.
    by rewrite to_nat_zlen.
  - by rewrite (proj2 (Z.eqb_neq _ _)) by done.
Qed.

End UtilsFacts.

Section RandombytesFacts.
Context `{Target} `{E : RandombytesExterns} {D : RandombytesDoc E}.

Lemma randombytes_into_put_run w b c n :
  0 <= n -> zlen c = n ->
  randombytes_into (Slice (At b 0) n) (w_put b c w) =
    Done tt (w_put b (Some <$> entropy n w) (w_consume n w)).
Proof.
  intros Hn <-. unfold randombytes_into. cbn. rewrite randombytes_buf_doc. step.
  apply write_put_run. by rewrite entropy_zlen.
Qed.

Lemma randombytes_run w n :
  0 <= n <= isize_max ->
  randombytes n w =
    Done (Vec (fresh_block w) n n)
         (w_put (fresh_block w) (Some <$> entropy n w) (w_consume n w)).
Proof.
  intros Hn. unfold randombytes. step. cbn [v_ptr v_block].
  eapply bind_step.
  { apply (randombytes_into_put_run _ b _ n); [lia|]. rewrite zlen_fmap. apply zlen_zeros. lia. }
  by subst.
Qed.

End RandombytesFacts.

(** ** A reference libsodium

    The simplest functions with the documented behaviour; the examples of the
    development run the wrappers on them. *)

Module Ref.

Definition utils : UtilsExterns := {|
  sodium_memzero p n := write p (zeros n);
  sodium_memcmp p q n :=
    let* a := read p n in let* b := read q n in ret (if decide (a = b) then 0 else -1);
  sodium_increment p n := let* a := read p n in write p (le_bytes (Z.to_nat n) (le_val a + 1));
  sodium_add p q n :=
    let* a := read p n in let* b := read q n in
    write p (le_bytes (Z.to_nat n) (le_val a + le_val b))
|}.

Lemma utils_doc : UtilsDoc utils.
Proof. by split. Qed.

Definition randombytes : RandombytesExterns := {|
  randombytes_buf p n := let* r := rand n in write p r;
  Bindings.randombytes_buf_deterministic p n seed :=
    let* s := read seed 32 in write p ((fun i => nth (i mod 32) s x00) <$> seq 0 (Z.to_nat n));
  Bindings.randombytes_uniform bound := fun w => Done 0 (w_consume 4 w)
|}.

#[refine] Definition randombytes_doc : RandombytesDoc randombytes := {|
  expand_seed s i := nth (i mod 32) s x00
|}.
Proof.
  - reflexivity.
  - reflexivity.
  - intros bound w. exists 0, 4. split; [reflexivity|]. case_decide; lia.
Defined.

(** Facts about a concrete process. *)
Ltac concrete := vm_compute; repeat split; done.

(** A process with the allocations 1, 2, ... holding [ms]. *)
Definition world (ms : list bytes) : world :=
  World (list_to_map (imap (fun i bs => (Pos.of_succ_nat i, Some <$> bs)) ms))
        (Env (fun i => byte_of_Z (Z.of_nat i)) 0 true [] []).

End Ref.
