(* ===== verification/Version.v ===== *)
(** * src/version.rs: the version string

    [version_string()] makes a [&'static str] of a C string that libsodium
    owns: its length is found with [strlen], the bytes are borrowed, and they
    must be text. *)

From S2P Require Export Utils Utf8.

(** The foreign functions: libsodium's, and libc's [strlen] *)
Class VersionExterns := {
  sodium_version_string : M ptr;
  strlen : ptr -> M Z
}.

(** [cstring] is the text libsodium's string holds, without its terminator. *)
Class VersionDoc (E : VersionExterns) := {
  version_block : positive;
  version_bytes : bytes;
  version_no_nul : x00 ∉ version_bytes;
  sodium_version_string_doc : sodium_version_string = ret (At version_block 0);
  strlen_doc p bs w : bytes_at w p (bs ++ [x00]) -> x00 ∉ bs -> strlen p w = Done (zlen bs) w
}.

Section Version.
Context `{VersionExterns} `{Target}.

Definition version_string : M slice :=
  let* version_ptr := sodium_version_string in
  let* version_len := strlen version_ptr in
  let version := Slice version_ptr (as_usize version_len) in
  let* bs := read (s_ptr version) (s_len version) in
  if utf8 bs then ret version else panic.

End Version.

(** ** A reference implementation *)

Module RefVersion.

(** The offset of the first null byte *)
Fixpoint find_nul (c : cells) : option Z :=
  match c with
  | Some x00 :: _ => Some 0
  | Some _ :: c => Z.succ <$> find_nul c
  | _ => None
  end.

Definition strlen (p : ptr) : M Z := fun w =>
  match p with
  | At b off =>
    match w_mem w !! b with
    | Some c => match find_nul (drop off c) with Some n => Done n w | None => UB OutOfBounds end
    | None => UB OutOfBounds
    end
  | Null => UB OutOfBounds
  end.

Lemma find_nul_run bs c : x00 ∉ bs -> find_nul ((Some <$> bs ++ [x00]) ++ c) = Some (zlen bs).
Proof.
  induction bs as [|b bs IH]; intros Hn; [done|]. apply not_elem_of_cons in Hn as [Hb Hn].
  rewrite zlen_cons. cbn -[Z.add]. rewrite (IH Hn). destruct b; try done; cbn -[Z.add]; f_equal; lia.
Qed.

Lemma strlen_run p bs w : bytes_at w p (bs ++ [x00]) -> x00 ∉ bs -> strlen p w = Done (zlen bs) w.
Proof.
  intros Hb Hn. unfold bytes_at in Hb. rewrite length_app, Nat.add_comm in Hb. cbn [length Nat.add] in Hb.
  apply read_cells_S in Hb as (b & o & d & -> & Hd & Hl & Hc). unfold strlen. rewrite Hd.
  rewrite <- (take_drop (S (length bs)) (drop o d)), <- Hc. by rewrite find_nul_run.
Qed.

Definition text : bytes := [x31; x2e; x30; x2e; x31; x38].

Definition externs : VersionExterns := {|
  sodium_version_string := ret (At 1 0);
  Version.strlen := strlen
|}.

#[refine] Definition doc : VersionDoc externs := {| version_block := 1; version_bytes := text |}.
Proof.
  - unfold text. rewrite !not_elem_of_cons. repeat split; try done. apply not_elem_of_nil.
  - reflexivity.
  - apply strlen_run.
Defined.

End RefVersion.

(** ** Properties *)

(** [version_string()] is the C string libsodium owns, without its
    terminator: a slice of exactly the bytes before the first null byte, over
    libsodium's own memory, which is not changed; it panics exactly when these
    bytes are not text, and it reads nothing beyond the terminator. *)
Theorem version_string_spec `{T : Target} `{E : VersionExterns} {D : VersionDoc E} w
    (Hv : bytes_at w (At version_block 0) (version_bytes ++ [x00])) (Hl : zlen version_bytes <= isize_max) :
  version_string w =
    if utf8 version_bytes then Done (Slice (At version_block 0) (zlen version_bytes)) w else Panicked.
Proof.
  unfold version_string. rewrite sodium_version_string_doc, ret_bind.
  eapply bind_step; [by apply strlen_doc, version_no_nul|].
  rewrite as_usize_small by zlia. cbn [s_ptr s_len].
  eapply bind_step; [apply (read_run _ _ _ version_bytes); [by eapply bytes_at_app_l|done]|].
  by destruct (utf8 version_bytes).
Qed.

Lemma version_string_spec_witness :
  @version_string RefVersion.externs target64 (Ref.world [RefVersion.text ++ [x00]]) =
    Done (Slice (At 1 0) 6) (Ref.world [RefVersion.text ++ [x00]]).
Proof.
  rewrite (@version_string_spec target64 RefVersion.externs RefVersion.doc
    (Ref.world [RefVersion.text ++ [x00]])); [reflexivity|Ref.concrete..].
Defined.
