(* ===== verification/Newtypes.v ===== *)
(** * src/newtype_macros.rs, src/crypto/nonce.rs: the types of byte arrays

    [new_type!] generates one type per key, nonce, tag, digest...; the
    arguments of the macro are the record [newtype], and each function of the
    generated code takes it.  A value of such a type is its byte string; a
    reference to one is a pointer. *)

From S2P Require Export Utils.
From stdpp Require Import pretty.
#[local] Open Scope Z_scope.

(** ** The macro's arguments *)

Inductive kind := secret | public | nonce.

#[export] Instance kind_eq_dec : EqDecision kind.
Proof. solve_decision. Defined.

Record newtype := NewType { nt_kind : kind; nt_name : string; nt_bytes : Z }.

(** [derive(Copy)], and an [impl Drop] or not *)
Definition nt_copy (n : newtype) : bool := negb (bool_decide (nt_kind n = secret)).

(** ** The standard library's comparison of byte slices *)

Fixpoint bytes_cmp (a b : bytes) : comparison :=
  match a, b with
  | [], [] => Eq
  | [], _ :: _ => Lt
  | _ :: _, [] => Gt
  | x :: a, y :: b =>
    match byte_val x ?= byte_val y with Eq => bytes_cmp a b | c => c end
  end.

(** Formatting a byte slice with [{:?}] *)
Fixpoint debug_elems (bs : bytes) : string :=
  match bs with
  | [] => ""
  | [b] => pretty (Byte.to_N b)
  | b :: bs => (pretty (Byte.to_N b) ++ ", " ++ debug_elems bs)%string
  end.
Definition debug_bytes (bs : bytes) : string := ("[" ++ debug_elems bs ++ "]")%string.

(** ** The generated code *)

Module NewType.

Section Generated.
Context (n : newtype).

(** [newtype_from_slice!] *)
Definition from_slice (bs : slice) : M (option bytes) :=
  if negb (s_len bs =? nt_bytes n) then ret None
  else
    let* v := stack_array (nt_bytes n) in
    let* _ := copy_from_slice (Slice (At v 0) (nt_bytes n)) bs in
    let* r := move_out v in
    ret (Some r).

(** [newtype_clone!] *)
Definition clone (self : ptr) : M bytes := read self (nt_bytes n).

(** [AsRef<[u8]>] *)
Definition as_ref (self : ptr) : slice := Slice self (nt_bytes n).

(** The four [Index] instances *)
Definition index_range (self : ptr) (a b : Z) : M slice := slice_index (as_ref self) a b.
Definition index_range_to (self : ptr) (b : Z) : M slice := slice_index (as_ref self) 0 b.
Definition index_range_from (self : ptr) (a : Z) : M slice :=
  slice_index (as_ref self) a (nt_bytes n).
Definition index_range_full (self : ptr) : M slice := ret (as_ref self).

(** [PartialEq] *)
Definition eq `{UtilsExterns} (self other : ptr) : M bool :=
  memcmp (as_ref self) (as_ref other).

(** [Ord] and [PartialOrd] of the public types *)
Definition cmp (self other : ptr) : M comparison :=
  let* a := read (s_ptr (as_ref self)) (s_len (as_ref self)) in
  let* b := read (s_ptr (as_ref other)) (s_len (as_ref other)) in
  ret (bytes_cmp a b).
Definition partial_cmp (self other : ptr) : M (option comparison) :=
  let* c := cmp self other in ret (Some c).
Definition lt (self other : ptr) : M bool :=
  let* c := partial_cmp self other in ret (match c with Some Lt => true | _ => false end).
Definition le (self other : ptr) : M bool :=
  let* c := partial_cmp self other in ret (match c with Some (Lt | Eq) => true | _ => false end).
Definition gt (self other : ptr) : M bool :=
  let* c := partial_cmp self other in ret (match c with Some Gt => true | _ => false end).
Definition ge (self other : ptr) : M bool :=
  let* c := partial_cmp self other in ret (match c with Some (Gt | Eq) => true | _ => false end).

(** [Hash]: a hasher is fed the length and the bytes. *)
Definition hash {Hasher} (write_usize : Z -> Hasher -> Hasher) (write_bytes : bytes -> Hasher -> Hasher)
    (self : ptr) (state : Hasher) : M Hasher :=
  let* bs := read (s_ptr (as_ref self)) (s_len (as_ref self)) in
  ret (write_bytes bs (write_usize (s_len (as_ref self)) state)).

(** [Debug] *)
Definition fmt (self : ptr) : M string :=
  match nt_kind n with
  | secret => ret (nt_name n ++ "(****)")%string
  | public | nonce =>
    let* bs := read (s_ptr (as_ref self)) (s_len (as_ref self)) in
    ret (nt_name n ++ "(" ++ debug_bytes bs ++ ")")%string
  end.

(** The end of the life of the value in the place [self]: [Drop] of the secret
    types zeroes it first. *)
Definition drop `{UtilsExterns} (self : positive) : M unit :=
  match nt_kind n with
  | secret => let* _ := memzero (Slice (At self 0) (nt_bytes n)) in free self
  | public | nonce => free self
  end.

(** *** serde

    serde is not part of the repository: a serializer is the function
    [serialize_bytes] it provides, a deserializer is the function that calls a
    visitor, a sequence is the function [next_element]. *)

Definition serialize {S} (serialize_bytes : slice -> M S) (self : ptr) : M S :=
  serialize_bytes (as_ref self).

Section Serde.
Context `{UtilsExterns} {Er V : Type}.
Context (next_element : V -> (Er + option byte) * V) (invalid_length : Z -> Er).

(** [for r in res.0.iter_mut() { ... }], [i] being the offset of [r] and [k]
    the number of elements still to visit *)
Fixpoint visit_loop (res : positive) (i k : nat) (visitor : V) : M (Er + bytes) :=
  match k with
  | O => let* r := move_out res in ret (inr r)
  | S k =>
    match next_element visitor with
    | (inl e, _) => let* _ := drop res in ret (inl e)
    | (inr (Some value), visitor) =>
      let* _ := write (At res i) [value] in visit_loop res (S i) k visitor
    | (inr None, visitor) => visit_loop res (S i) k visitor
    end
  end.

Definition visit_seq (visitor : V) : M (Er + bytes) :=
  let* res := stack_array (nt_bytes n) in
  visit_loop res 0 (Z.to_nat (nt_bytes n)) visitor.

Definition visit_bytes (v : slice) : M (Er + bytes) :=
  let* r := from_slice v in
  ret (match r with Some r => inr r | None => inl (invalid_length (s_len v)) end).

Definition deserialize
    (deserialize_bytes : (V -> M (Er + bytes)) -> (slice -> M (Er + bytes)) -> M (Er + bytes)) :
    M (Er + bytes) :=
  deserialize_bytes visit_seq visit_bytes.

End Serde.

(** *** Nonces *)

Definition increment_le_inplace `{UtilsExterns} (self : ptr) : M unit :=
  Utils.increment_le (Slice self (nt_bytes n)).

Definition increment_le `{UtilsExterns} (self : ptr) : M bytes :=
  let* v := clone self in
  let* res := place v in
  let* _ := increment_le_inplace (At res 0) in
  move_out res.

(** [crate::crypto::nonce::Nonce] and [gen_random_nonce()] *)
Definition from_bytes (bs : bytes) : bytes := bs.

Definition gen_random_nonce `{Target} `{RandombytesExterns} : M bytes :=
  let* v := stack_array (nt_bytes n) in
  let* _ := randombytes_into (Slice (At v 0) (nt_bytes n)) in
  let* r := move_out v in
  ret (from_bytes r).

End Generated.

(** ** What the generated code does *)

Section Facts.
Context `{Target} `{E : UtilsExterns} {D : UtilsDoc E}.
Context (n : newtype).
Hypothesis Hlen : 0 <= nt_bytes n <= isize_max.

(** [from_slice()] accepts exactly the slices of the type's length, and keeps
    their bytes. *)
Lemma from_slice_run w s bs :
  is_slice w s bs ->
  from_slice n s w = Done (if decide (zlen bs = nt_bytes n) then Some bs else None) w.
Proof.
  intros Hs. open_args. unfold from_slice.
  replace (s_len s) with (zlen bs) by done.
  case_decide as Hl; [|by rewrite (proj2 (Z.eqb_neq _ _) Hl)].
  rewrite <- Hl, Z.eqb_refl. cbn [negb]. step.
  unfold copy_from_slice. cbn [s_len s_ptr]. rewrite (proj2 (Z.eqb_eq _ _)) by done.
  step. replace (s_len s) with (zlen bs) by done. steps.
Qed.

Lemma as_ref_slice w p bs : is_ref w p (nt_bytes n) bs -> is_slice w (as_ref n p) bs.
Proof. apply is_ref_slice. lia. Qed.

Lemma clone_run w p bs : is_ref w p (nt_bytes n) bs -> clone n p w = Done bs w.
Proof. intros [? ?]. by eapply read_run. Qed.

Lemma eq_run w p q a b :
  is_ref w p (nt_bytes n) a -> is_ref w q (nt_bytes n) b ->
  eq n p q w = Done (bool_decide (a = b)) w.
Proof. intros ? ?. apply memcmp_run; by apply as_ref_slice. Qed.

Lemma cmp_run w p q a b :
  is_ref w p (nt_bytes n) a -> is_ref w q (nt_bytes n) b ->
  cmp n p q w = Done (bytes_cmp a b) w.
Proof. intros [? ?] [? ?]. unfold cmp. cbn. steps. Qed.

(** What is left of a value when its life ends. *)
Lemma drop_run w b c :
  w_mem w !! b = None -> zlen c = nt_bytes n ->
  drop n b (w_put b c w) =
    Done tt (w_with (env_drop (if decide (nt_kind n = secret) then Some <$> zeros (nt_bytes n) else c)
                       (w_env w)) w).
Proof.
  intros Hb Hc. unfold drop. destruct (nt_kind n); [|apply free_put_run; done..].
  eapply bind_step; [apply memzero_put_run; lia|]. by apply free_put_run.
Qed.

Lemma increment_le_inplace_run w p bs :
  is_ref w p (nt_bytes n) bs ->
  increment_le_inplace n p w = Done tt (w_write p (le_bytes (length bs) (le_val bs + 1)) w).
Proof.
  intros Hp. unfold increment_le_inplace.
  rewrite (increment_le_run _ _ bs); [done|]. by apply as_ref_slice.
Qed.

Lemma nt_increment_le_run w p bs :
  is_ref w p (nt_bytes n) bs ->
  increment_le n p w = Done (le_bytes (length bs) (le_val bs + 1)) w.
Proof.
  intros Hp. unfold increment_le. eapply bind_step; [by apply clone_run|]. step.
  eapply bind_step.
  - apply increment_le_inplace_run. destruct Hp as [_ <-]. apply is_ref_place.
  - rewrite w_write_put by (by rewrite length_fmap, length_le_bytes). by apply move_out_put_run.
Qed.

(** *** Reading a sequence *)

Section Serde.
Context {Er : Type} (invalid_length : Z -> Er).

(** A sequence whose elements may fail. *)
Definition next_item (items : list (Er + byte)) : (Er + option byte) * list (Er + byte) :=
  match items with
  | [] => (inr None, [])
  | inl e :: items => (inl e, items)
  | inr b :: items => (inr (Some b), items)
  end.

Lemma write_item w b pre x y suf :
  write (At b (length pre)) [y] (w_put b (Some <$> pre ++ x :: suf) w) =
    Done tt (w_put b (Some <$> (pre ++ [y]) ++ suf) w).
Proof.
  rewrite write_put_splice by (rewrite length_fmap, length_app; cbn; lia).
  rewrite <- app_assoc. do 2 f_equal. by apply (splice_app pre [x] suf [y]).
Qed.

Lemma visit_loop_none w b pre :
  w_mem w !! b = None -> forall k i,
  visit_loop n next_item b i k [] (w_put b (Some <$> pre) w) = Done (inr pre) w.
Proof.
  intros Hb k. induction k as [|k IH]; intros i; cbn [visit_loop next_item]; [|apply IH].
  eapply bind_step; [by apply move_out_put_run|done].
Qed.

(** The loop stores the elements it is given, and leaves the rest zero. *)
Lemma visit_loop_run w b : w_mem w !! b = None -> forall k l pre tl,
  (tl = [] \/ k <= length l)%nat ->
  visit_loop n next_item b (length pre) k ((inr <$> l) ++ tl)
    (w_put b (Some <$> pre ++ replicate k x00) w) =
  Done (inr (pre ++ take k l ++ replicate (k - length l) x00)) w.
Proof.
  intros Hb k. induction k as [|k IH]; intros l pre tl Hl; cbn [visit_loop].
  { eapply bind_step; [by apply move_out_put_run|]. by rewrite take_0. }
  destruct l as [|x l].
  - destruct Hl as [->|Hl]; [|cbn in Hl; lia]. cbn [fmap list_fmap app next_item].
    by rewrite visit_loop_none, take_nil.
  - cbn [fmap list_fmap app next_item replicate].
    eapply bind_step; [apply write_item|].
    replace (S (length pre)) with (length (pre ++ [x])) by (rewrite length_app; cbn; lia).
    rewrite (IH l (pre ++ [x])) by (cbn in Hl; destruct Hl; [by left|right; lia]).
    cbn. by rewrite <- app_assoc.
Qed.

(** A failing element ends the life of the value being read. *)
Lemma visit_loop_fail w b e : w_mem w !! b = None -> forall k l pre tl,
  (length l < k)%nat -> zlen pre + Z.of_nat k = nt_bytes n ->
  visit_loop n next_item b (length pre) k ((inr <$> l) ++ inl e :: tl)
    (w_put b (Some <$> pre ++ replicate k x00) w) =
  Done (inl e)
    (w_with (env_drop (Some <$> if decide (nt_kind n = secret) then zeros (nt_bytes n)
                                else pre ++ l ++ replicate (k - length l) x00) (w_env w)) w).
Proof.
  intros Hb k. induction k as [|k IH]; intros l pre tl Hl Hk; cbn [visit_loop]; [lia|].
  destruct l as [|x l]; cbn [fmap list_fmap app next_item replicate].
  - eapply bind_step.
    { apply drop_run; [done|]. autorewrite with zlen. unfold zlen. rewrite length_replicate.
      unfold zlen in Hk. lia. }
    by destruct (decide (nt_kind n = secret)).
  - eapply bind_step; [apply write_item|].
    replace (S (length pre)) with (length (pre ++ [x])) by (rewrite length_app; cbn; lia).
    rewrite (IH l (pre ++ [x]) tl); [|cbn in Hl; lia|zlia].
    cbn. by rewrite <- app_assoc.
Qed.

Lemma visit_bytes_run w s bs :
  is_slice w s bs ->
  visit_bytes n invalid_length s w =
    Done (if decide (zlen bs = nt_bytes n) then inr bs else inl (invalid_length (zlen bs))) w.
Proof.
  intros Hs. unfold visit_bytes. eapply bind_step; [by apply from_slice_run|].
  destruct Hs as (_ & -> & _). unfold ret. by case_decide.
Qed.

End Serde.

End Facts.

(** *** The ordering *)

Lemma bytes_cmp_refl a : bytes_cmp a a = Eq.
Proof. induction a as [|x a IH]; cbn; [done|]. by rewrite Z.compare_refl. Qed.

Lemma bytes_cmp_eq a b : bytes_cmp a b = Eq <-> a = b.
Proof.
  split; [|intros ->; apply bytes_cmp_refl].
  revert b. induction a as [|x a IH]; intros [|y b]; cbn; try done.
  destruct (Z.compare_spec (byte_val x) (byte_val y)) as [He| |]; try done.
  intros Hc. apply byte_val_inj in He as ->. by rewrite (IH b).
Qed.

Lemma bytes_cmp_antisym a b : bytes_cmp b a = CompOpp (bytes_cmp a b).
Proof.
  revert b. induction a as [|x a IH]; intros [|y b]; cbn; try done.
  rewrite (Z.compare_antisym (byte_val x) (byte_val y)).
  destruct (Z.compare (byte_val x) (byte_val y)); cbn; [apply IH|done|done].
Qed.

Lemma bytes_cmp_trans a b c :
  bytes_cmp a b = Lt -> bytes_cmp b c = Lt -> bytes_cmp a c = Lt.
Proof.
  revert b c. induction a as [|x a IH]; intros [|y b] [|z c]; cbn; try done.
  destruct (Z.compare_spec (byte_val x) (byte_val y)), (Z.compare_spec (byte_val y) (byte_val z));
    try done; intros; destruct (Z.compare_spec (byte_val x) (byte_val z)); try lia; try done; eauto.
Qed.

(** *** Random nonces *)

Lemma gen_random_nonce_run `{Target} `{R : RandombytesExterns} {RD : RandombytesDoc R} n w :
  0 <= nt_bytes n ->
  gen_random_nonce n w = Done (entropy (nt_bytes n) w) (w_consume (nt_bytes n) w).
Proof.
  intros Hn. unfold gen_random_nonce. step.
  eapply bind_step; [apply randombytes_into_put_run; [done|zlia]|].
  eapply bind_step; [by apply move_out_put_run|done].
Qed.

End NewType.

(** ** Properties *)

Section Nonces.
Context `{Target} `{E : UtilsExterns} {D : UtilsDoc E}.

(** A client that uses the same nonce [k] times, incrementing it after each use. *)
Fixpoint increments (n : newtype) (k : nat) (p : ptr) : M unit :=
  match k with
  | O => ret tt
  | S k => let* _ := NewType.increment_le_inplace n p in increments n k p
  end.

Lemma increments_run n p : 0 <= nt_bytes n <= isize_max -> forall k w bs,
  is_ref w p (nt_bytes n) bs ->
  exists w', increments n k p w = Done tt w' /\
    is_ref w' p (nt_bytes n) (le_bytes (length bs) (le_val bs + Z.of_nat k)).
Proof.
  intros Hn k. induction k as [|k IH]; intros w bs Hp; cbn [increments].
  - exists w. rewrite Z.add_0_r, le_bytes_le_val. by split.
  - pose proof Hp as [Hb Hl].
    destruct (IH (w_write p (le_bytes (length bs) (le_val bs + 1)) w)
                 (le_bytes (length bs) (le_val bs + 1))) as (w' & Hw' & Hp').
    + split; [|by rewrite zlen_le_bytes]. apply bytes_at_write_same.
      eapply in_range_bytes; [exact Hb|]. by rewrite zlen_le_bytes.
    + exists w'. split.
      * eapply bind_step; [by apply NewType.increment_le_inplace_run|done].
      * rewrite length_le_bytes, le_val_le_bytes in Hp'.
        rewrite <- (le_bytes_mod _ (_ + _)) in Hp'.
        rewrite Zplus_mod_idemp_l, le_bytes_mod in Hp'.
        by replace (le_val bs + Z.of_nat (S k)) with (le_val bs + 1 + Z.of_nat k) by lia.
Qed.

End Nonces.

(** C12. A client that increments one nonce after each use meets, after [i] and
    after [j] increments, the same nonce if and only if [i] and [j] differ by a
    multiple of 256^length: [increment_le_inplace()] never repeats a nonce
    before the counter wraps around, and then silently does. *)
Theorem nonce_sequence `{Target} `{E : UtilsExterns} {D : UtilsDoc E} n w p bs
    (Hlen : 0 <= nt_bytes n <= isize_max) (Hp : is_ref w p (nt_bytes n) bs) (i j : nat) :
  exists wi wj a b,
    increments n i p w = Done tt wi /\ is_ref wi p (nt_bytes n) a /\
    increments n j p w = Done tt wj /\ is_ref wj p (nt_bytes n) b /\
    (a = b <-> Z.of_nat i mod 256 ^ nt_bytes n = Z.of_nat j mod 256 ^ nt_bytes n).
Proof.
  destruct (increments_run n p Hlen i w bs Hp) as (wi & Hi & Hpi).
  destruct (increments_run n p Hlen j w bs Hp) as (wj & Hj & Hpj).
  exists wi, wj. do 2 eexists. split_and!; [done|done|done|done|].
  rewrite le_bytes_inj. destruct Hp as [_ Hl]. fold (zlen bs). rewrite Hl.
  apply add_mod_cancel.
Qed.

Lemma nonce_sequence_witness :
  let n := NewType nonce "Nonce" 1 in
  exists wi wj a b,
    @increments Ref.utils n 1 (At 1 0) (Ref.world [[xff]]) = Done tt wi /\
    is_ref wi (At 1 0) 1 a /\
    @increments Ref.utils n 257 (At 1 0) (Ref.world [[xff]]) = Done tt wj /\
    is_ref wj (At 1 0) 1 b /\
    (a = b <-> Z.of_nat 1 mod 256 ^ 2 = Z.of_nat 257 mod 256 ^ 1).
Proof.
  apply (@nonce_sequence target64 Ref.utils Ref.utils_doc (NewType nonce "Nonce" 1)
           (Ref.world [[xff]]) (At 1 0) [xff]).
  - vm_compute. split; discriminate.
  - by split.
Defined.

(** [from_slice()], and deserialisation from a byte buffer, accept exactly
    the byte strings of the type's length and return them; a sequence (the way
    self-describing formats hand over a byte array) is accepted when it is
    shorter, the missing bytes being zero, and when it is longer, the excess
    being ignored.  None of them touches the caller's memory. *)
Theorem decoding `{Target} n w s bs {Er : Type} (invalid_length : Z -> Er)
    (Hlen : 0 <= nt_bytes n <= isize_max) (Hs : is_slice w s bs) :
  NewType.from_slice n s w = Done (if decide (zlen bs = nt_bytes n) then Some bs else None) w /\
  NewType.visit_bytes n invalid_length s w =
    Done (if decide (zlen bs = nt_bytes n) then inr bs else inl (invalid_length (zlen bs))) w /\
  forall U : UtilsExterns,
  NewType.visit_seq n (@NewType.next_item Er) (inr <$> bs) w =
    Done (inr (take (Z.to_nat (nt_bytes n)) bs ++ zeros (nt_bytes n - zlen bs))) w.
Proof.
  split_and!; [by apply NewType.from_slice_run|by apply NewType.visit_bytes_run|].
  intros ?. unfold NewType.visit_seq. step.
  rewrite <- (app_nil_r (inr <$> bs)).
  rewrite (NewType.visit_loop_run n w b Hfr (Z.to_nat (nt_bytes n)) bs []) by by left.
  unfold zeros, zlen. by rewrite Z2Nat.inj_sub, Nat2Z.id by lia.
Qed.

Lemma decoding_witness :
  let n := NewType secret "Key" 4 in
  let w := Ref.world [[x01; x02]] in
  let s := Slice (At 1 0) 2 in
  NewType.from_slice n s w = Done None w /\
  NewType.visit_bytes n (fun l => l) s w = Done (inl 2) w /\
  forall U : UtilsExterns,
  NewType.visit_seq n (@NewType.next_item Z) (inr <$> [x01; x02]) w =
    Done (inr [x01; x02; x00; x00]) w.
Proof.
  apply (@decoding target64 (NewType secret "Key" 4) (Ref.world [[x01; x02]])
           (Slice (At 1 0) 2) [x01; x02] Z (fun l => l)).
  - vm_compute. split; discriminate.
  - repeat split. vm_compute. discriminate.
Defined.

(** C4. What the process keeps of a value whose life ends: zeroes for the
    secret types, also when the value was being deserialised and an element
    failed; all of its bytes for the public and nonce types. *)
Theorem drop_zeroes `{Target} `{E : UtilsExterns} {D : UtilsDoc E} n w b bs
    {Er : Type} (e : Er) l rest
    (Hlen : 0 <= nt_bytes n <= isize_max) (Hb : w_mem w !! b = None)
    (Hbs : zlen bs = nt_bytes n) (Hl : zlen l < nt_bytes n) :
  let left v := Some <$> if decide (nt_kind n = secret) then zeros (nt_bytes n) else v in
  NewType.drop n b (w_put b (Some <$> bs) w) =
    Done tt (w_with (env_drop (left bs) (w_env w)) w) /\
  NewType.visit_seq n (@NewType.next_item Er) ((inr <$> l) ++ inl e :: rest) w =
    Done (inl e) (w_with (env_drop (left (l ++ zeros (nt_bytes n - zlen l))) (w_env w)) w).
Proof.
  intros left. split.
  - rewrite NewType.drop_run by (rewrite ?zlen_fmap; done || lia).
    unfold left. by case_decide.
  - unfold NewType.visit_seq. step.
    rewrite (NewType.visit_loop_fail n Hlen w b0 e Hfr (Z.to_nat (nt_bytes n)) l [] rest)
      by (unfold zlen in *; cbn; lia).
    unfold left, zeros, zlen. cbn [app]. by rewrite Z2Nat.inj_sub, Nat2Z.id by lia.
Qed.

Lemma drop_zeroes_witness :
  let n := NewType secret "Key" 2 in
  let w := Ref.world [] in
  @NewType.drop n Ref.utils 1%positive (w_put 1 (Some <$> [x07; x08]) w) =
    Done tt (w_with (env_drop (Some <$> [x00; x00]) (w_env w)) w) /\
  @NewType.visit_seq n Ref.utils bool _ (@NewType.next_item bool) ((inr <$> [x07]) ++ [inl true]) w =
    Done (inl true) (w_with (env_drop (Some <$> [x00; x00]) (w_env w)) w).
Proof.
  apply (@drop_zeroes target64 Ref.utils Ref.utils_doc (NewType secret "Key" 2)
           (Ref.world []) 1%positive [x07; x08] bool true [x07] []);
    by vm_compute.
Defined.

(** The comparisons of the public types: [cmp()] is a total order on the
    byte strings, [==] agrees with it (so the types may be keys of ordered
    maps), and [<], [<=], [>], [>=] are the comparisons of that order. *)
Theorem ordering `{Target} `{E : UtilsExterns} {D : UtilsDoc E} n w p q r a b c
    (Hlen : 0 <= nt_bytes n <= isize_max)
    (Hp : is_ref w p (nt_bytes n) a) (Hq : is_ref w q (nt_bytes n) b)
    (Hr : is_ref w r (nt_bytes n) c) :
  (exists o, NewType.cmp n p q w = Done o w /\
     NewType.cmp n q p w = Done (CompOpp o) w /\
     NewType.eq n p q w = Done (bool_decide (o = Eq)) w /\
     NewType.partial_cmp n p q w = Done (Some o) w /\
     NewType.lt n p q w = Done (bool_decide (o = Lt)) w /\
     NewType.le n p q w = Done (bool_decide (o <> Gt)) w /\
     NewType.gt n p q w = Done (bool_decide (o = Gt)) w /\
     NewType.ge n p q w = Done (bool_decide (o <> Lt)) w) /\
  (NewType.cmp n p q w = Done Lt w -> NewType.cmp n q r w = Done Lt w ->
   NewType.cmp n p r w = Done Lt w).
Proof.
  pose proof (NewType.cmp_run n w p q a b Hp Hq) as Hpq.
  pose proof (NewType.cmp_run n w q p b a Hq Hp) as Hqp.
  pose proof (NewType.cmp_run n w q r b c Hq Hr) as Hqr.
  pose proof (NewType.cmp_run n w p r a c Hp Hr) as Hpr.
  split.
  - exists (bytes_cmp a b). rewrite <- NewType.bytes_cmp_antisym.
    split_and!; [done|done| | | | | |];
      try (unfold NewType.lt, NewType.le, NewType.gt, NewType.ge, NewType.partial_cmp, bind;
           rewrite Hpq; unfold ret; by destruct (bytes_cmp a b)).
    rewrite (NewType.eq_run n Hlen w p q a b Hp Hq). f_equal.
    apply bool_decide_ext. by rewrite NewType.bytes_cmp_eq.
  - rewrite Hpq, Hqr, Hpr. intros Hab Hbc. simplify_eq. f_equal.
    apply (NewType.bytes_cmp_trans a b c); congruence.
Qed.

Lemma ordering_witness :
  let n := NewType public "Tag" 2 in
  let w := Ref.world [[x01; x09]; [x02; x00]; [x02; x03]] in
  (exists o, NewType.cmp n (At 1 0) (At 2 0) w = Done o w /\
     NewType.cmp n (At 2 0) (At 1 0) w = Done (CompOpp o) w /\
     @NewType.eq n Ref.utils (At 1 0) (At 2 0) w = Done (bool_decide (o = Eq)) w /\
     NewType.partial_cmp n (At 1 0) (At 2 0) w = Done (Some o) w /\
     NewType.lt n (At 1 0) (At 2 0) w = Done (bool_decide (o = Lt)) w /\
     NewType.le n (At 1 0) (At 2 0) w = Done (bool_decide (o <> Gt)) w /\
     NewType.gt n (At 1 0) (At 2 0) w = Done (bool_decide (o = Gt)) w /\
     NewType.ge n (At 1 0) (At 2 0) w = Done (bool_decide (o <> Lt)) w) /\
  (NewType.cmp n (At 1 0) (At 2 0) w = Done Lt w -> NewType.cmp n (At 2 0) (At 3 0) w = Done Lt w ->
   NewType.cmp n (At 1 0) (At 3 0) w = Done Lt w).
Proof.
  apply (@ordering target64 Ref.utils Ref.utils_doc (NewType public "Tag" 2)
           (Ref.world [[x01; x09]; [x02; x00]; [x02; x03]]) (At 1 0) (At 2 0) (At 3 0)
           [x01; x09] [x02; x00] [x02; x03]).
  - vm_compute. split; discriminate.
  - by split.
  - by split.
  - by split.
Defined.
