(* ===== verification/Locals.v ===== *)
(** * Programs and their locals

    The tests in the source are programs over locals and vectors; this file is
    how they are run symbolically.  [local g] is [let x = g();] for a value that
    is borrowed afterwards, [holds w m] says what the allocations in [m] contain,
    and the [local_...] rules say how the statements change [m].  [passes t] is
    what is proved of a test. *)

From S2P Require Export Newtypes.

(** ** Passing a test *)

(** Whatever the process has in memory and whatever entropy it draws *)
Definition passes (t : M unit) : Prop := forall w, does w t (fun _ _ => True).

(** ** Growing memory *)

Lemma grows_consume n w : grows w (w_consume n w).
Proof. unfold grows. reflexivity. Qed.

Lemma is_ref_grows w w' p n bs : grows w w' -> is_ref w p n bs -> is_ref w' p n bs.
Proof. apply is_ref_mono. Qed.

(** ** Values in locals *)

Section Generate.
Context `{T : Target} `{R : RandombytesExterns} {RD : RandombytesDoc R}.

(** [g] computes [n] bytes; [let x = g();] then puts them in a new local. *)
Definition makes (n : Z) (g : M bytes) : Prop :=
  forall w, does w g (fun bs w' => grows w w' /\ zlen bs = n).

Definition local (g : M bytes) : M ptr :=
  let* bs := g in
  let* b := place bs in
  ret (At b 0).

Lemma does_local w n g :
  makes n g -> does w (local g) (fun p w' => grows w w' /\ exists bs, is_ref w' p n bs).
Proof.
  intros Hg. eapply does_bind; [apply Hg|]. intros bs w1 [Hg1 <-].
  eapply does_bind; [apply does_place|]. intros b w2 (Hg2 & Hr & _). apply does_ret.
  split; [by transitivity w1|eauto].
Qed.

Lemma makes_random n : 0 <= nt_bytes n -> makes (nt_bytes n) (NewType.gen_random_nonce n).
Proof.
  intros Hn w. eapply does_eq; [by apply NewType.gen_random_nonce_run|]. split; [apply grows_consume|].
  by apply entropy_zlen.
Qed.

(** The body of the [gen_key()] functions *)
Lemma makes_key n :
  0 <= n ->
  makes n (let* key := stack_array n in
           let* _ := randombytes_into (Slice (At key 0) n) in move_out key).
Proof.
  intros Hn w. eapply does_eq; [|split; [apply (grows_consume n)|by apply (entropy_zlen n w)]].
  step. eapply bind_step; [apply randombytes_into_put_run; [done|zlia]|]. by apply move_out_put_run.
Qed.

End Generate.

(** ** Appending to a vector *)

Section Extend.
Context `{T : Target}.

(** Elements after the others, as [extend_from_slice()] and [push()] do it *)
Definition vec_append (v : vec) (bs : bytes) : M vec :=
  let* v := vec_reserve v (zlen bs) in
  let* _ := write (At (v_block v) (Z.to_nat (v_len v))) bs in
  vec_set_len v (v_len v + zlen bs).

(** [v.extend_from_slice(s)], [v.push(x)] *)
Definition extend_from_slice (v : vec) (s : slice) : M vec :=
  let* bs := slice_bytes s in vec_append v bs.
Definition vec_push (v : vec) (x : byte) : M vec := vec_append v [x].

Lemma splice_twice (old bs : bytes) c :
  length c = (length old + length bs)%nat ->
  splice (splice c 0 old) (length old) bs = Some <$> old ++ bs.
Proof.
  intros Hc. rewrite fmap_app. unfold splice at 1. f_equal; [|rewrite drop_ge, app_nil_r; [done|]].
  - unfold splice. rewrite take_0. cbn [app]. apply take_app_length'. by rewrite length_fmap.
  - rewrite length_splice by lia. lia.
Qed.

(** A full vector above the memory [w]: it is extended in place when there is
    nothing to add, and moves to a new allocation otherwise. *)
Lemma does_append w b old bs :
  w_mem w !! b = None -> zlen old + zlen bs <= isize_max ->
  does (w_put b (Some <$> old) w) (vec_append (Vec b (zlen old) (zlen old)) bs)
    (fun v w' => v = Vec (v_block v) (zlen old + zlen bs) (zlen old + zlen bs) /\
       w_mem w !! v_block v = None /\ w_mem w' = <[v_block v := Some <$> old ++ bs]> (w_mem w)).
Proof.
  intros Hb Hsz. pose proof (zlen_nonneg old). pose proof (zlen_nonneg bs).
  set (w1 := w_put b (Some <$> old) w). unfold vec_append.
  destruct (decide (zlen bs <= 0)) as [Hnil|Hnil].
  - assert (bs = []) as -> by (apply length_zero_iff_nil; unfold zlen in *; lia).
    rewrite app_nil_r. exists (Vec b (zlen old) (zlen old)), w1. split.
    + unfold vec_reserve. cbn [v_cap v_len].
      rewrite decide_True by lia. eapply bind_step; [reflexivity|].
      eapply bind_step; [apply write_run; by eexists|]. cbn [w_write v_len]. rewrite Z.add_0_r.
      apply (vec_set_len_run (Vec b (zlen old) (zlen old)) _ _ []); cbn; [done|lia|zlia].
    + cbn. rewrite Z.add_0_r. done.
  - pose proof (fresh_block_spec w1) as Hf. set (c := fresh_block w1) in *.
    apply mem_put_None in Hf as [Hne Hf]. set (n := zlen old + zlen bs) in *.
    set (w2 := w_with (env_drop (Some <$> old) (w_env w)) w).
    exists (Vec c n n), (w_put c (Some <$> old ++ bs) w2). split.
    + unfold vec_reserve. cbn [v_cap v_len].
      rewrite decide_False, decide_True by lia. rewrite bind_assoc. fold n. unfold v_ptr. cbn [v_block].
      eapply bind_step; [apply (read_run _ _ _ old); [apply bytes_at_put_same|done]|].
      rewrite bind_assoc. eapply bind_step; [apply alloc_run|]. fold c. rewrite bind_assoc.
      eapply bind_step; [apply write_put_splice; rewrite length_replicate; unfold n, zlen; lia|].
      rewrite bind_assoc. eapply bind_step; [apply free_under; [done|by apply free_put_run]|].
      fold w2. eapply bind_step; [reflexivity|]. cbn [v_block v_len].
      eapply bind_step.
      { apply write_put_splice. rewrite length_splice by (rewrite length_replicate; unfold n, zlen; lia).
        rewrite length_replicate. unfold n, zlen. lia. }
      rewrite to_nat_zlen, splice_twice by (rewrite length_replicate; unfold n, zlen; lia).
      apply (vec_set_len_run (Vec c (zlen old) n) _ _ bs); cbn [v_block v_len v_cap]; [|lia|lia].
      apply (bytes_at_app_r _ (At c 0) old bs), bytes_at_put_same.
    + done.
Qed.

Lemma does_extend w b old s bs :
  w_mem w !! b = None -> is_slice w s bs -> zlen old + zlen bs <= isize_max ->
  does (w_put b (Some <$> old) w) (extend_from_slice (Vec b (zlen old) (zlen old)) s)
    (fun v w' => w_mem w !! v_block v = None /\ grows w w' /\ is_vec w' v (old ++ bs)).
Proof.
  intros Hb Hs Hsz. destruct (does_append w b old bs Hb Hsz) as (v & w' & Hv & Ev & Hf & Em).
  exists v, w'. split.
  - eapply bind_step; [|exact Hv]. by apply slice_bytes_run, is_slice_put_fresh.
  - split; [done|]. split; [apply (grows_mem w (w_put (v_block v) (Some <$> old ++ bs) w)); [by apply grows_put|done]|].
    rewrite Ev, <- zlen_app. pose proof (is_vec_put (v_block v) (old ++ bs) w) as (Hp & ? & ?); [by rewrite zlen_app|].
    split; [|done]. unfold bytes_at, v_ptr, read_cells, w_put in *. cbn in *. by rewrite Em.
Qed.

End Extend.

(** [vec![...]] with these elements *)
Definition vec_of (bs : bytes) : M vec :=
  let* b := alloc (Some <$> bs) in ret (Vec b (zlen bs) (zlen bs)).

(** The contents of a vector *)
Definition contents (v : vec) : M bytes := slice_bytes (v_slice v).

(** [assert!(v == expected)] *)
Definition vec_is (v : vec) (expected : bytes) : M unit :=
  let* b := contents v in assert (bool_decide (b = expected)).

(** ** Locals *)

Lemma zeros_S i : 1 <= i -> zeros i = x00 :: zeros (i - 1).
Proof. intros Hi. unfold zeros. by replace (Z.to_nat i) with (S (Z.to_nat (i - 1))) by lia. Qed.

(** The allocations of [m] are live and hold these bytes. *)
Definition holds (w : world) (m : gmap positive bytes) : Prop :=
  map_Forall (fun b bs => w_mem w !! b = Some (Some <$> bs)) m.

Lemma holds_empty w : holds w ∅.
Proof. apply map_Forall_empty. Qed.

Lemma holds_None w m b : holds w m -> w_mem w !! b = None -> m !! b = None.
Proof.
  intros Hw Hb. destruct (m !! b) as [bs|] eqn:E; [|done]. by rewrite (Hw b bs E) in Hb.
Qed.

Lemma holds_insert w m b bs w' :
  holds w m -> w_mem w' = <[b := Some <$> bs]> (w_mem w) -> holds w' (<[b := bs]> m).
Proof.
  intros Hw E c cs [[-> ->]|[Hne Hc]]%lookup_insert_Some; rewrite E.
  - apply lookup_insert_eq.
  - rewrite lookup_insert_ne by done. by apply Hw.
Qed.

Lemma holds_same w m w' : holds w m -> w_mem w' = w_mem w -> holds w' m.
Proof. intros Hw E b bs Hb. rewrite E. by apply Hw. Qed.

Lemma holds_ref w m b bs : holds w m -> m !! b = Some bs -> is_ref w (At b 0) (zlen bs) bs.
Proof. intros Hw Hb. by apply is_ref_block, Hw. Qed.

Section Rules.
Context `{T : Target}.
Context {B : Type} (Q : B -> world -> Prop).

Lemma holds_slice w m b bs n :
  holds w m -> m !! b = Some bs -> n = zlen bs -> n <= isize_max -> is_slice w (Slice (At b 0) n) bs.
Proof.
  intros Hw Hb -> Hn. apply is_ref_slice; [done|]. by eapply holds_ref.
Qed.

(** *** Rules of the statements every test uses *)

Lemma local_alloc w m bs (f : positive -> M B) :
  holds w m ->
  (forall b w', m !! b = None -> holds w' (<[b := bs]> m) -> does w' (f b) Q) ->
  does w (bind (alloc (Some <$> bs)) f) Q.
Proof.
  intros Hw Hf. pose proof (fresh_block_spec w) as Hb. set (b := fresh_block w) in *.
  destruct (Hf b (w_put b (Some <$> bs) w)) as (r & w' & Hr & Hq).
  - by eapply holds_None.
  - by eapply holds_insert.
  - exists r, w'. split; [|done]. by eapply bind_step; [apply alloc_run|].
Qed.

Lemma local_place w m bs (f : positive -> M B) :
  holds w m ->
  (forall b w', m !! b = None -> holds w' (<[b := bs]> m) -> does w' (f b) Q) ->
  does w (bind (place bs) f) Q.
Proof. apply local_alloc. Qed.

Lemma local_array w m n (f : positive -> M B) :
  holds w m ->
  (forall b w', m !! b = None -> holds w' (<[b := zeros n]> m) -> does w' (f b) Q) ->
  does w (bind (stack_array n) f) Q.
Proof. apply local_alloc. Qed.

Lemma local_read w m b bs n (f : bytes -> M B) :
  holds w m -> m !! b = Some bs -> n = zlen bs -> does w (f bs) Q ->
  does w (bind (slice_bytes (Slice (At b 0) n)) f) Q.
Proof.
  intros Hw Hb -> (r & w' & Hf & Hq). exists r, w'. split; [|done].
  eapply bind_step; [|exact Hf]. destruct (holds_ref w m b bs Hw Hb) as [Hr _]. by apply read_run.
Qed.

Lemma local_unwrap {A} w (r : result A) (a : A) (f : A -> M B) :
  r = Ok a -> does w (f a) Q -> does w (bind (unwrap r) f) Q.
Proof. intros -> (x & w' & Hf & Hq). exists x, w'. split; [|done]. by eapply bind_step. Qed.

Lemma local_assert w (b : bool) (f : unit -> M B) :
  b = true -> does w (f tt) Q -> does w (bind (assert b) f) Q.
Proof. intros -> (x & w' & Hf & Hq). exists x, w'. split; [|done]. by eapply bind_step. Qed.

Lemma local_run {A} w (p : M A) a w1 (f : A -> M B) :
  p w = Done a w1 -> does w1 (f a) Q -> does w (bind p f) Q.
Proof. intros Hp (x & w' & Hf & Hq). exists x, w'. split; [|done]. by eapply bind_step. Qed.

Lemma local_ret {A} w (a : A) (f : A -> M B) : does w (f a) Q -> does w (bind (ret a) f) Q.
Proof. done. Qed.

(** The last statement of a block *)
Lemma local_last w (p : M B) : does w (bind p ret) Q -> does w p Q.
Proof.
  intros (x & w' & Hp & Hq). exists x, w'. split; [|done]. rewrite <- Hp. unfold bind.
  by destruct (p w).
Qed.

Lemma local_assoc {A C} w (p : M A) (q : A -> M C) (f : C -> M B) :
  does w (bind p (fun a => bind (q a) f)) Q -> does w (bind (bind p q) f) Q.
Proof. intros (x & w' & Hf & Hq). exists x, w'. split; [|done]. by rewrite bind_assoc. Qed.

(** *** Vectors *)

Lemma local_vec w m bs n (f : vec -> M B) :
  holds w m -> n = zlen bs ->
  (forall b w', m !! b = None -> holds w' (<[b := bs]> m) -> does w' (f (Vec b n n)) Q) ->
  does w (bind (vec_of bs) f) Q.
Proof.
  intros Hw -> Hf. unfold vec_of.
  destruct (local_alloc w m bs (fun b => f (Vec b (zlen bs) (zlen bs))) Hw Hf) as (r & w' & Hr & Hq).
  by exists r, w'.
Qed.

Lemma local_clone w m b bs n (f : vec -> M B) :
  holds w m -> m !! b = Some bs -> n = zlen bs ->
  (forall c w', m !! c = None -> holds w' (<[c := bs]> m) -> does w' (f (Vec c n n)) Q) ->
  does w (bind (vec_clone (Vec b n n)) f) Q.
Proof.
  intros Hw Hb -> Hf. destruct (local_vec w m bs (zlen bs) f Hw eq_refl Hf) as (r & w' & Hr & Hq).
  exists r, w'. split; [|done]. unfold vec_clone. rewrite bind_assoc.
  eapply bind_step; [|exact Hr]. destruct (holds_ref w m b bs Hw Hb) as [Hp _].
  unfold slice_bytes. cbn. by apply read_run.
Qed.

(** [drop(v)], [v.push(x)] *)
Lemma local_drop w m b bs n (f : unit -> M B) :
  holds w m -> m !! b = Some bs ->
  (forall w', holds w' (delete b m) -> does w' (f tt) Q) ->
  does w (bind (vec_drop (Vec b n n)) f) Q.
Proof.
  intros Hw Hb Hf. pose proof (Hw b bs Hb) as E.
  destruct (Hf (w_with (env_drop (Some <$> bs) (w_env w)) (w_del b w))) as (r & w' & Hr & Hq).
  { intros c cs [Hne Hc]%lookup_delete_Some. cbn. rewrite lookup_delete_ne by done. by apply Hw. }
  exists r, w'. split; [|done]. eapply bind_step; [exact (free_run b _ w E)|exact Hr].
Qed.

Lemma local_push w m b bs x n (f : vec -> M B) :
  holds w m -> m !! b = Some bs -> n = zlen bs -> n + 1 <= isize_max ->
  (forall c w', delete b m !! c = None -> holds w' (<[c := bs ++ [x]]> (delete b m)) ->
     does w' (f (Vec c (n + 1) (n + 1))) Q) ->
  does w (bind (vec_push (Vec b n n) x) f) Q.
Proof.
  intros Hw Hb -> Hn Hf. pose proof (Hw b bs Hb) as E. cbn in E.
  assert (Hrest : holds (w_del b w) (delete b m)).
  { intros c cs [Hne Hc]%lookup_delete_Some. cbn. rewrite lookup_delete_ne by done. by apply Hw. }
  destruct (does_append (w_del b w) b bs [x]) as (v & w' & Hv & Ev & Hc & Em).
  { cbn. apply lookup_delete_eq. }
  { exact Hn. }
  destruct (Hf (v_block v) w') as (r & w'' & Hr & Hq).
  { by eapply holds_None. }
  { by eapply holds_insert. }
  exists r, w''. split; [|done]. rewrite Ev in Hv. eapply bind_step; [|exact Hr]. unfold vec_push.
  etransitivity; [|exact Hv]. f_equal. unfold w_put, w_del. cbn. rewrite insert_delete_eq, insert_id by done. by destruct w.
Qed.

Lemma local_contents w m b bs n (f : bytes -> M B) :
  holds w m -> m !! b = Some bs -> n = zlen bs -> does w (f bs) Q ->
  does w (bind (contents (Vec b n n)) f) Q.
Proof. apply local_read. Qed.

Lemma local_vec_is w m b x n e (f : unit -> M B) :
  holds w m -> m !! b = Some x -> n = zlen x -> x = e ->
  does w (f tt) Q -> does w (bind (vec_is (Vec b n n) e) f) Q.
Proof.
  intros Hw Hb Hn <- Hf. apply local_assoc. eapply local_contents; [exact Hw|exact Hb|exact Hn|].
  apply local_assert; [by apply bool_decide_true|done].
Qed.

(** Storing all of a local *)
Lemma holds_store w m b bs cs :
  holds w m -> m !! b = Some bs -> zlen cs = zlen bs -> holds (w_write (At b 0) cs w) (<[b := cs]> m).
Proof.
  intros Hw Hb Hl. eapply holds_insert; [done|]. eapply mem_write_block; [by apply Hw|].
  rewrite length_fmap. unfold zlen in Hl. lia.
Qed.

(** Storing the end of a local *)
Lemma holds_store_tail w m b pre old cs :
  holds w m -> m !! b = Some (pre ++ old) -> length cs = length old ->
  holds (w_write (At b (length pre)) cs w) (<[b := pre ++ cs]> m).
Proof.
  intros Hw Hb Hl. pose proof (Hw _ _ Hb) as E. cbn in E. destruct cs as [|c cs].
  - apply symmetry, length_zero_iff_nil in Hl as ->. cbn [w_write]. by rewrite insert_id.
  - eapply holds_insert; [exact Hw|]. unfold w_write.
    rewrite E. cbn [w_mem w_put]. f_equal. unfold splice. rewrite !fmap_app, take_app_length' by (by rewrite length_fmap).
    rewrite drop_ge, app_nil_r; [done|]. rewrite length_app, !length_fmap. lia.
Qed.

(** Loading and storing one byte of a local *)
Lemma holds_byte w m b pre x post :
  holds w m -> m !! b = Some (pre ++ x :: post) -> bytes_at w (At b (length pre)) [x].
Proof.
  intros Hw Hb. destruct (holds_ref w m b _ Hw Hb) as [Hp _].
  apply (bytes_at_app_r w (At b 0)) in Hp. apply (bytes_at_app_l w _ [x]) in Hp.
  unfold ptr_add in Hp. by rewrite to_nat_zlen in Hp.
Qed.

Lemma holds_store_byte w m b pre x y post :
  holds w m -> m !! b = Some (pre ++ x :: post) ->
  holds (w_write (At b (length pre)) [y] w) (<[b := pre ++ y :: post]> m).
Proof.
  intros Hw Hb. eapply holds_insert; [exact Hw|]. pose proof (Hw _ _ Hb) as E. cbn in E. unfold w_write.
  rewrite E. cbn [w_mem]. f_equal. unfold splice. rewrite !fmap_app, take_app_length' by (by rewrite length_fmap).
  cbn. do 2 f_equal. rewrite drop_app_ge by (rewrite length_fmap; lia). rewrite length_fmap.
  replace (_ - _)%nat with 1%nat by lia. done.
Qed.

Lemma local_read_byte w m b pre x post o (f : bytes -> M B) :
  holds w m -> m !! b = Some (pre ++ x :: post) -> o = length pre -> does w (f [x]) Q ->
  does w (bind (read (At b o) 1) f) Q.
Proof.
  intros Hw Hb -> Hf. eapply local_run; [|exact Hf]. apply (read_run _ _ _ [x]); [|done]. by eapply holds_byte.
Qed.

Lemma local_write_byte w m b pre x y post o (f : unit -> M B) :
  holds w m -> m !! b = Some (pre ++ x :: post) -> o = length pre ->
  (forall w', holds w' (<[b := pre ++ y :: post]> m) -> does w' (f tt) Q) ->
  does w (bind (write (At b o) [y]) f) Q.
Proof.
  intros Hw Hb -> Hf. eapply local_run; [|by eapply Hf, holds_store_byte].
  apply write_run. apply (in_range_bytes w _ [x]); [by eapply holds_byte|done].
Qed.

(** [a == b] on values of a [new_type!] type *)
Lemma local_eq `{U : UtilsExterns} {UD : UtilsDoc U} n w m a b x y (f : bool -> M B) :
  holds w m -> m !! a = Some x -> m !! b = Some y -> zlen x = nt_bytes n -> zlen y = nt_bytes n ->
  nt_bytes n <= 4096 -> does w (f (bool_decide (x = y))) Q ->
  does w (bind (NewType.eq n (At a 0) (At b 0)) f) Q.
Proof.
  intros Hw Ha Hb Hx Hy Hn Hf. pose proof isize_max_bounds. pose proof (zlen_nonneg x).
  eapply local_run; [|exact Hf]. apply NewType.eq_run; [lia| |].
  - rewrite <- Hx. by eapply holds_ref.
  - rewrite <- Hy. by eapply holds_ref.
Qed.

(** *** Values *)

Lemma local_made w m n g (f : ptr -> M B) :
  holds w m -> makes n g ->
  (forall b bs w', m !! b = None -> zlen bs = n -> holds w' (<[b := bs]> m) -> does w' (f (At b 0)) Q) ->
  does w (bind (local g) f) Q.
Proof.
  intros Hw Hg Hf. destruct (Hg w) as (bs & w1 & Hr & Hg1 & Hl).
  assert (Hw1 : holds w1 m) by (intros c cs Hc; eapply lookup_weaken; [by apply Hw|done]).
  apply local_assoc. eapply local_run; [exact Hr|]. apply local_assoc.
  eapply local_place; [exact Hw1|]. intros b w2 Hb Hw2. by apply local_ret, (Hf b bs).
Qed.

(** A computation that leaves the memory as it was *)
Lemma local_value w m g bs w1 (f : ptr -> M B) :
  holds w m -> g w = Done bs w1 -> w_mem w1 = w_mem w ->
  (forall b w', m !! b = None -> holds w' (<[b := bs]> m) -> does w' (f (At b 0)) Q) ->
  does w (bind (local g) f) Q.
Proof.
  intros Hw Hr Em Hf. apply local_assoc. eapply local_run; [exact Hr|]. apply local_assoc.
  eapply local_place; [by eapply holds_same|]. intros b w2 Hb Hw2. by apply local_ret, Hf.
Qed.

(** A new vector *)
Lemma local_new w m p bs n w1 (f : vec -> M B) :
  holds w m -> p w = Done (Vec (fresh_block w) n n) (w_put (fresh_block w) (Some <$> bs) w1) ->
  w_mem w1 = w_mem w ->
  (forall b w', m !! b = None -> holds w' (<[b := bs]> m) -> does w' (f (Vec b n n)) Q) ->
  does w (bind p f) Q.
Proof.
  intros Hw Hr Em Hf. eapply local_run; [exact Hr|]. apply Hf.
  - eapply holds_None; [exact Hw|]. apply fresh_block_spec.
  - eapply holds_insert; [exact Hw|]. cbn. by rewrite Em.
Qed.

Lemma local_new_ok w m p bs n w1 (f : result vec -> M B) :
  holds w m -> p w = Done (Ok (Vec (fresh_block w) n n)) (w_put (fresh_block w) (Some <$> bs) w1) ->
  w_mem w1 = w_mem w ->
  (forall b w', m !! b = None -> holds w' (<[b := bs]> m) -> does w' (f (Ok (Vec b n n))) Q) ->
  does w (bind p f) Q.
Proof.
  intros Hw Hr Em Hf. eapply local_run; [exact Hr|]. apply Hf.
  - eapply holds_None; [exact Hw|]. apply fresh_block_spec.
  - eapply holds_insert; [exact Hw|]. cbn. by rewrite Em.
Qed.

Context `{R : RandombytesExterns} {RD : RandombytesDoc R}.

Lemma local_random w m n (f : vec -> M B) :
  holds w m -> 0 <= n <= isize_max ->
  (forall b bs w', m !! b = None -> zlen bs = n -> holds w' (<[b := bs]> m) -> does w' (f (Vec b n n)) Q) ->
  does w (bind (randombytes n) f) Q.
Proof.
  intros Hw Hn Hf. pose proof (fresh_block_spec w) as Hb.
  destruct (Hf (fresh_block w) (entropy n w) (w_put (fresh_block w) (Some <$> entropy n w) (w_consume n w)))
    as (r & w' & Hr & Hq).
  - by eapply holds_None.
  - apply entropy_zlen. lia.
  - by eapply holds_insert.
  - exists r, w'. split; [|done]. eapply bind_step; [by apply randombytes_run|exact Hr].
Qed.

Lemma local_fill w m b bs n (f : unit -> M B) :
  holds w m -> m !! b = Some bs -> n = zlen bs ->
  (forall bs' w', zlen bs' = n -> holds w' (<[b := bs']> m) -> does w' (f tt) Q) ->
  does w (bind (randombytes_into (Slice (At b 0) n)) f) Q.
Proof.
  intros Hw Hb -> Hf. pose proof (zlen_nonneg bs) as Hn.
  destruct (Hf (entropy (zlen bs) w) (w_put b (Some <$> entropy (zlen bs) w) (w_consume (zlen bs) w)))
    as (r & w' & Hr & Hq).
  - by apply entropy_zlen.
  - by eapply holds_insert.
  - exists r, w'. split; [|done]. eapply bind_step; [|exact Hr].
    rewrite <- (w_put_id b (Some <$> bs) w) at 1 by (by apply Hw).
    rewrite (randombytes_into_put_run w b _ (zlen bs)); [|done|by rewrite zlen_fmap]. done.
Qed.

End Rules.

(** ** Tactics *)

Ltac fresh_facts :=
  repeat match goal with
  | H : <[_ := _]> _ !! _ = None |- _ => apply lookup_insert_None in H as [H ?]
  end.

(** The contents of a local *)
Lemma lookup_other (m : gmap positive bytes) a b x y :
  a <> b -> m !! b = Some x -> <[a := y]> m !! b = Some x.
Proof. intros. by rewrite lookup_insert_ne. Qed.

Lemma lookup_apart (m : gmap positive bytes) a b x : m !! a = Some x -> m !! b = None -> a <> b.
Proof. congruence. Qed.

Ltac ne_tac :=
  first [ assumption | apply not_eq_sym; assumption
        | eapply lookup_apart; eassumption | apply not_eq_sym; eapply lookup_apart; eassumption ].

Ltac local_tac :=
  lazymatch goal with
  | |- <[?a := _]> _ !! ?a = Some _ => apply lookup_insert_eq
  | |- <[_ := _]> _ !! _ = Some _ => apply lookup_other; [ne_tac|local_tac]
  | |- _ => eassumption
  end.

(** The parts of a postcondition *)
Ltac take_apart H :=
  lazymatch type of H with
  | exists _, _ => destruct H as [? H]; take_apart H
  | _ /\ _ => let H' := fresh in destruct H as [H' H]; take_apart H'; take_apart H
  | ?r = _ => tryif is_var r then subst r else idtac
  | _ => idtac
  end.

Ltac check := apply local_assert; [done|].

Lemma does_assert w (b : bool) : b = true -> does w (assert b) (fun _ _ => True).
Proof. intros ->. by exists tt, w. Qed.

Lemma does_eq' {A} w (p q : M A) Q : p w = q w -> does w q Q -> does w p Q.
Proof. unfold does. by intros ->. Qed.

(** *** Tests of values that are not computed here

    The test passes if [P] holds, and panics if not. *)

Definition settles_at (w : world) (t : M unit) (P : Prop) : Prop :=
  (P -> does w t (fun _ _ => True)) /\ (~ P -> t w = Panicked).
Definition settles (t : M unit) (P : Prop) : Prop := forall w, settles_at w t P.

(** Whether a test passes, as a value: the rules apply to it.  Nothing is left
    of the world of a test that panicked. *)
Definition dead : world := World ∅ (Env (fun _ => x00) 0 false [] []).
Definition catch (t : M unit) : M bool := fun w =>
  match t w with
  | Done _ w' => Done true w'
  | Panicked => Done false dead
  | Aborted => Aborted
  | UB why => UB why
  end.

Lemma catch_settles w t P : does w (catch t) (fun b _ => b = true <-> P) -> settles_at w t P.
Proof.
  intros (b & w' & Hr & Hb). unfold catch in Hr. destruct (t w) as [[] w1| | |] eqn:Ht; try done; injection Hr as <- <-.
  - split; [intros _; by exists tt, w1|]. intros Hp. destruct Hp. by apply Hb.
  - split; [|done]. intros Hp. apply Hb in Hp. done.
Qed.

Section Catch.
Context (Q : bool -> world -> Prop).

Lemma catch_bind {A} w (p : M A) f :
  does w (bind p (fun a => catch (f a))) Q -> does w (catch (bind p f)) Q.
Proof.
  intros (b & w' & Hr & Hq). exists b, w'. split; [|done]. revert Hr. unfold catch, bind. by destruct (p w).
Qed.

Lemma catch_assoc {A C} w (p : M A) (q : A -> M C) f :
  does w (catch (bind p (fun a => bind (q a) f))) Q -> does w (catch (bind (bind p q) f)) Q.
Proof. intros (b & w' & Hf & Hq). exists b, w'. split; [|done]. unfold catch. by rewrite bind_assoc. Qed.

Lemma catch_ret w : Q true w -> does w (catch (ret tt)) Q.
Proof. intros Hq. by exists true, w. Qed.

Lemma catch_assert w b : (forall w', Q b w') -> does w (catch (assert b)) Q.
Proof. intros Hq. by destruct b; eexists _, _. Qed.

Lemma catch_assert_bind w b f :
  (b = true -> does w (catch (f tt)) Q) -> (b = false -> forall w', Q false w') -> does w (catch (bind (assert b) f)) Q.
Proof. destruct b; intros Ht Hf; [by apply Ht|]. exists false, dead. split; [done|by apply Hf]. Qed.

Lemma catch_unwrap {A} w (r : result A) f :
  match r with Ok a => does w (catch (f a)) Q | Err => Q false dead end ->
  does w (catch (bind (unwrap r) f)) Q.
Proof. destruct r as [a|]; [done|]. intros Hq. by exists false, dead. Qed.

Lemma catch_vec_is w m b x n e :
  holds w m -> m !! b = Some x -> n = zlen x ->
  (forall w', Q (bool_decide (x = e)) w') -> does w (catch (vec_is (Vec b n n) e)) Q.
Proof.
  intros Hw Hb Hn Hq. unfold vec_is. apply catch_bind.
  eapply local_contents; [exact Hw|exact Hb|exact Hn|]. by apply catch_assert.
Qed.

Lemma catch_vec_is_bind w m b x n e f :
  holds w m -> m !! b = Some x -> n = zlen x ->
  (x = e -> does w (catch (f tt)) Q) -> (x <> e -> forall w', Q false w') ->
  does w (catch (bind (vec_is (Vec b n n) e) f)) Q.
Proof.
  intros Hw Hb Hn Ht Hf. unfold vec_is. apply catch_assoc, catch_bind.
  eapply local_contents; [exact Hw|exact Hb|exact Hn|]. cbv beta.
  apply catch_assert_bind; [intros He%bool_decide_eq_true|intros He%bool_decide_eq_false]; auto.
Qed.

End Catch.

Lemma settles_passes t P : settles t P -> P -> passes t.
Proof. intros Ht Hp w. by apply Ht. Qed.

Lemma settles_eq {X} `{EqDecision X} (p : M X) v e :
  (forall w, does w p (fun x _ => x = v)) -> settles (bind p (fun x => assert (bool_decide (x = e)))) (v = e).
Proof.
  intros Hp w. apply catch_settles, catch_bind. eapply does_bind; [apply Hp|]. cbv beta. intros x w' ->.
  apply catch_assert. intros _. by rewrite bool_decide_eq_true.
Qed.

(** *** What a computation leaves as it was *)

Definition keeps {X A} (obs : env -> X) (p : M A) : Prop :=
  forall w a w', p w = Done a w' -> obs (w_env w') = obs (w_env w).

Section Keeps.
Context {X : Type} (obs : env -> X).

Lemma keeps_ret {A} (a : A) : keeps obs (ret a).
Proof. by intros w ? ? [= <- <-]. Qed.
Lemma keeps_bind {A B} (p : M A) (f : A -> M B) : keeps obs p -> (forall a, keeps obs (f a)) -> keeps obs (bind p f).
Proof.
  intros Hp Hf w b w'. unfold bind. destruct (p w) as [a w1| | |] eqn:Hr; [|done..]. intros Hb.
  etransitivity; [by eapply Hf|by eapply Hp].
Qed.
Lemma keeps_panic {A} : keeps obs (@panic A).
Proof. done. Qed.
Lemma keeps_assert b : keeps obs (assert b).
Proof. destruct b; [apply keeps_ret|apply keeps_panic]. Qed.
Lemma keeps_unwrap {A} (r : result A) : keeps obs (unwrap r).
Proof. destruct r; [apply keeps_ret|apply keeps_panic]. Qed.
Lemma keeps_alloc c : keeps obs (alloc c).
Proof. by intros w ? ? [= <- <-]. Qed.
Lemma keeps_read p n : keeps obs (read p n).
Proof. intros w a w'. unfold read. destruct (read_cells _ _ _); [|done]. destruct (all_init _); [|done]. by intros [= <- <-]. Qed.
Lemma keeps_write p bs : keeps obs (write p bs).
Proof.
  intros w a w'. unfold write. destruct (read_cells _ _ _); [|done]. intros [= <- <-]. unfold w_write.
  by repeat case_match.
Qed.
Lemma keeps_move_out b : keeps obs (move_out b).
Proof. intros w a w'. unfold move_out. destruct (w_mem w !! b); [|done]. destruct (all_init _); [|done]. by intros [= <- <-]. Qed.
Lemma keeps_for f : (forall i, keeps obs (f i)) -> forall n a, keeps obs (for_range a n f).
Proof. intros Hf n. induction n as [|n IH]; intros a; cbn [for_range]; [apply keeps_ret|]. by apply keeps_bind. Qed.

Lemma local_keeps {A B} (Q : B -> world -> Prop) w (p : M A) (P : A -> world -> Prop) (f : A -> M B) :
  keeps obs p -> does w p P ->
  (forall a w', P a w' -> obs (w_env w') = obs (w_env w) -> does w' (f a) Q) -> does w (bind p f) Q.
Proof. intros Hp (a & w' & Hr & Ha) Hf. eapply local_run; [exact Hr|]. apply Hf; [done|by eapply Hp]. Qed.

End Keeps.

Create HintDb keeps.
#[export] Hint Resolve keeps_ret keeps_panic keeps_assert keeps_unwrap keeps_alloc keeps_read keeps_write
  keeps_move_out keeps_for : keeps.

Ltac keeps_tac :=
  repeat first
    [ progress auto with keeps | apply keeps_bind; [|intros ?] | progress intros
    | match goal with |- keeps _ (match ?x with _ => _ end) => destruct x end ].

Lemma place_does w m bs :
  holds w m -> does w (place bs) (fun b w' => m !! b = None /\ holds w' (<[b := bs]> m)).
Proof. intros Hw. apply local_last. eapply local_place; [exact Hw|]. intros b w1 Hb Hw1. by apply does_ret. Qed.

Lemma vec_of_does `{Target} w m bs n :
  holds w m -> n = zlen bs ->
  does w (vec_of bs) (fun v w' => exists b, v = Vec b n n /\ m !! b = None /\ holds w' (<[b := bs]> m)).
Proof.
  intros Hw Hn. apply local_last. eapply local_vec; [exact Hw|exact Hn|]. intros b w1 Hb Hw1. apply does_ret. by exists b.
Qed.
Lemma keeps_vec_of {X} (obs : env -> X) bs : keeps obs (vec_of bs).
Proof. apply keeps_bind; [apply keeps_alloc|intros b; apply keeps_ret]. Qed.

Lemma holds_mono w m m' : m ⊆ m' -> holds w m' -> holds w m.
Proof. intros Hs Hw b bs Hb. apply Hw. by eapply lookup_weaken. Qed.

(** A loop with an invariant of the index *)
Lemma does_for_index (I : Z -> world -> Prop) f n : forall a w,
  (forall i w, a <= i < a + Z.of_nat n -> I i w -> does w (f i) (fun _ => I (i + 1))) ->
  I a w -> does w (for_range a n f) (fun _ => I (a + Z.of_nat n)).
Proof.
  induction n as [|n IH]; intros a w Hf Hi; [apply does_ret; by rewrite Z.add_0_r|].
  cbn [for_range]. eapply does_bind; [apply Hf; [lia|done]|]. intros [] w' Hi'.
  replace (a + Z.of_nat (S n)) with (a + 1 + Z.of_nat n) by lia.
  apply IH; [|done]. intros i w'' ? ?. apply Hf; [lia|done].
Qed.

(** A loop whose rounds use locals of their own *)
Lemma local_loop a n f w :
  (forall i w, a <= i < a + Z.of_nat n -> holds w ∅ -> does w (f i) (fun _ _ => True)) ->
  does w (for_range a n f) (fun _ _ => True).
Proof.
  intros Hf. apply (does_for (fun _ => True)); [|done]. intros i w' Hi _. apply Hf; [done|apply holds_empty].
Qed.

Ltac sl := unfold v_slice, v_ptr; cbn [v_block v_len].
Ltac len_eq := first [done | symmetry; by auto with zarith | unfold zlen in *; rewrite ?length_le_bytes; lia].

(** A loop that copies the bytes of one local to the start of another *)
Lemma does_copy `{T : Target} (f : Z -> M unit) w m p s b n :
  holds w m -> m !! p = Some s -> m !! b = Some (zeros n) -> zlen s <= n -> p <> b ->
  (forall i w', 0 <= i < zlen s ->
     f i w' = (let* val := read (At p (Z.to_nat i)) 1 in write (At b (Z.to_nat i)) val) w') ->
  does w (for_range 0 (Z.to_nat (zlen s)) f) (fun _ w' => holds w' (<[b := s ++ zeros (n - zlen s)]> m)).
Proof.
  intros Hw Hp Hb Hl Hne Hf. pose proof (zlen_nonneg s).
  pose (at_ i := <[b := take (Z.to_nat i) s ++ zeros (n - i)]> m).
  eapply does_mono; [apply (does_for_index (fun i w' => holds w' (at_ i)))|].
  - intros i w2 Hi Hw2. rewrite Z.add_0_l, Z2Nat.id in Hi by lia.
    destruct (lookup_lt_is_Some_2 s (Z.to_nat i)) as [x Hx]; [unfold zlen in *; lia|].
    pose proof (take_drop_middle s (Z.to_nat i) x Hx) as Hs. eapply does_eq'; [by apply Hf|].
    eapply (local_read_byte _ _ _ p (take (Z.to_nat i) s) x); [exact Hw2| |rewrite length_take; unfold zlen in *; lia|].
    { unfold at_. rewrite lookup_insert_ne by congruence. by rewrite Hs. }
    apply local_last.
    eapply (local_write_byte _ _ _ b (take (Z.to_nat i) s) x00 x (zeros (n - (i + 1)))); [exact Hw2| | |].
    + unfold at_. rewrite lookup_insert_eq. rewrite (zeros_S (n - i)) by lia. do 3 f_equal. f_equal. lia.
    + rewrite length_take. unfold zlen in *. lia.
    + intros w3 Hw3. apply does_ret. unfold at_ in *. rewrite insert_insert_eq in Hw3.
      replace (Z.to_nat (i + 1)) with (S (Z.to_nat i)) by lia. rewrite (take_S_r s _ x Hx), <- app_assoc. exact Hw3.
  - unfold at_. rewrite Z.sub_0_r. cbn [Z.to_nat take app]. by rewrite insert_id.
  - intros [] w2 Hw2. rewrite Z.add_0_l, Z2Nat.id in Hw2 by lia. unfold at_ in Hw2.
    by rewrite to_nat_zlen, firstn_all in Hw2.
Qed.

(** ** Parts of a slice *)

Lemma slice_index_run (s : slice) a b w :
  0 <= a <= b -> b <= s_len s -> slice_index s a b w = Done (Slice (ptr_add (s_ptr s) a) (b - a)) w.
Proof.
  intros Ha Hb. unfold slice_index. by rewrite (proj2 (Z.leb_le _ _)), (proj2 (Z.leb_le _ _)) by lia.
Qed.

(** The bytes of [&s[a..b]] *)
Lemma local_part `{Target} {B} (Q : B -> world -> Prop) w s bs a b (f : bytes -> M B) :
  is_slice w s bs -> 0 <= a <= b -> b <= zlen bs ->
  does w (f (take (Z.to_nat (b - a)) (drop (Z.to_nat a) bs))) Q ->
  does w (bind (slice_index s a b) (fun s' => bind (slice_bytes s') f)) Q.
Proof.
  intros (Hp & Hl & Hm) Ha Hb Hf. eapply local_run; [apply slice_index_run; lia|]. eapply local_run; [|exact Hf].
  assert (Hd : zlen (take (Z.to_nat a) bs) = a) by (unfold zlen in *; rewrite length_take; lia).
  assert (Ht : zlen (take (Z.to_nat (b - a)) (drop (Z.to_nat a) bs)) = b - a)
    by (unfold zlen in *; rewrite length_take, length_drop; lia).
  apply slice_bytes_run. split_and!; cbn [s_ptr s_len]; [|done|lia].
  rewrite <- (take_drop (Z.to_nat a) bs) in Hp. apply bytes_at_app_r in Hp. rewrite Hd in Hp.
  rewrite <- (take_drop (Z.to_nat (b - a)) (drop (Z.to_nat a) bs)) in Hp. by apply bytes_at_app_l in Hp.
Qed.

(** ** The chunks of a slice *)

(** [s.chunks(k)], of a slice of [n] bytes at [p]; [fuel] bounds their number *)
Fixpoint chunks_from (fuel k : nat) (p : ptr) (n : Z) : list slice :=
  match fuel with
  | O => []
  | S fuel =>
    if n <=? 0 then []
    else Slice p (Z.min (Z.of_nat k) n) :: chunks_from fuel k (ptr_add p (Z.of_nat k)) (n - Z.of_nat k)
  end.
Definition slice_chunks (k : nat) (s : slice) : list slice :=
  chunks_from (Z.to_nat (s_len s)) k (s_ptr s) (s_len s).

Lemma chunks_from_cut `{Target} w k : (0 < k)%nat -> forall fuel bs p,
  (length bs <= fuel)%nat -> bytes_at w p bs -> zlen bs <= isize_max ->
  exists ms, Forall2 (is_slice w) (chunks_from fuel k p (zlen bs)) ms /\ concat ms = bs.
Proof.
  intros Hk fuel. induction fuel as [|fuel IH]; intros bs p Hf Hp Hn; cbn [chunks_from].
  { exists []. apply Nat.le_0_r, length_zero_iff_nil in Hf as ->. split; [constructor|done]. }
  destruct (Z.leb_spec (zlen bs) 0) as [Hz|Hz].
  { exists []. rewrite (zlen_0_nil bs) by (pose proof (zlen_nonneg bs); lia). split; [constructor|done]. }
  destruct (decide (length bs <= k)%nat) as [Hs|Hs].
  - exists [bs]. split; [|cbn; apply app_nil_r]. rewrite Z.min_r by (unfold zlen; lia).
    constructor; [done|]. destruct fuel; cbn [chunks_from]; [constructor|].
    rewrite (proj2 (Z.leb_le _ _)) by (unfold zlen; lia). constructor.
  - assert (Hc : bs = take k bs ++ drop k bs) by (by rewrite take_drop).
    assert (Hl : zlen (take k bs) = Z.of_nat k) by (unfold zlen; rewrite length_take; lia).
    rewrite Hc in Hp. pose proof (bytes_at_app_l w p _ _ Hp) as Hp1. apply bytes_at_app_r in Hp. rewrite Hl in Hp.
    destruct (IH (drop k bs) (ptr_add p (Z.of_nat k))) as (ms & Hms & Hcat).
    + rewrite length_drop. lia.
    + done.
    + unfold zlen in *. rewrite length_drop. lia.
    + exists (take k bs :: ms). split; [|cbn; by rewrite Hcat, take_drop].
      rewrite Z.min_l by (unfold zlen; lia). constructor; [split_and!; [done|done|cbn; unfold zlen in *; lia]|].
      replace (zlen bs - Z.of_nat k) with (zlen (drop k bs)); [done|]. unfold zlen. rewrite length_drop. lia.
Qed.

(** The chunks make up the slice. *)
Lemma slice_chunks_cut `{Target} w k s bs :
  (0 < k)%nat -> is_slice w s bs ->
  exists ms, Forall2 (is_slice w) (slice_chunks k s) ms /\ concat ms = bs.
Proof.
  intros Hk (Hp & Hl & Hn). unfold slice_chunks. rewrite Hl in *. apply chunks_from_cut; [done| |done|done].
  rewrite to_nat_zlen. done.
Qed.
