(* ===== verification/UtilsTests.v ===== *)
(** * src/utils.rs, src/crypto/verify.rs, src/randombytes.rs: mod test

    The tests of the comparison, of the little-endian arithmetic, of the
    constant-time verification and of the random bytes, and the proof that they
    pass for every implementation with the documented behaviour.  Whether the
    tests that lock memory, and the one that expects two seeds to give different
    bytes, pass is up to the system and to the generator: the theorems say when
    they do. *)

From S2P Require Export Locals.

(** ** Vectors of the tests *)

(** [x.iter().all(|x| *x == 0)] *)
Definition all_zero (bs : bytes) : bool := forallb (fun x => bool_decide (x = x00)) bs.

Section Elements.

(** [v[0] = x], [v[0] += k], [v[0] -= k]: out of bounds and overflows panic. *)
Definition set_first (v : vec) (x : byte) : M unit :=
  if v_len v <? 1 then panic else write (v_ptr v) [x].

Definition add_first (v : vec) (k : Z) : M unit :=
  if v_len v <? 1 then panic
  else
    let* b := read (v_ptr v) 1 in
    let z := le_val b + k in
    if (0 <=? z) && (z <? 256) then write (v_ptr v) [byte_of_Z z] else panic.

End Elements.

(** ** src/utils.rs *)

Section UtilsTests.
Context `{T : Target} `{E : UtilsExterns} `{R : RandombytesExterns}.

Definition test_memcmp : M unit :=
  for_range 0 256 (fun i =>
    let* x := randombytes i in
    let* r := memcmp (v_slice x) (v_slice x) in
    let* _ := assert r in
    let* y := vec_clone x in
    let* r := memcmp (v_slice x) (v_slice y) in
    let* _ := assert r in
    let* y := vec_push y x00 in
    let* r := memcmp (v_slice x) (v_slice y) in
    let* _ := assert (negb r) in
    let* r := memcmp (v_slice y) (v_slice x) in
    let* _ := assert (negb r) in
    let* y' := randombytes i in
    let* _ := vec_drop y in
    let* a := contents x in
    let* b := contents y' in
    let* r := memcmp (v_slice x) (v_slice y') in
    if bool_decide (a = b) then assert r else assert (negb r)).

Definition test_increment_le_zero : M unit :=
  for_range 1 255 (fun i =>
    let* x := vec_of (zeros i) in
    let* _ := increment_le (v_slice x) in
    let* a := contents x in
    let* _ := assert (negb (all_zero a)) in
    let* y := vec_of (zeros i) in
    let* _ := add_first y 1 in
    let* b := contents y in
    assert_eq a b).

(** [let mut x = ...; increment_le(&mut x);] and the two assertions *)
Definition increments_to (x y : bytes) (zero : bool) : M unit :=
  let* p := place x in
  let* _ := increment_le (Slice (At p 0) (zlen x)) in
  let* a := slice_bytes (Slice (At p 0) (zlen x)) in
  let* _ := assert (if zero then all_zero a else negb (all_zero a)) in
  assert_eq a y.

Definition test_increment_le_vectors : M unit :=
  let* _ := increments_to [xff; x02; x03; x04; x05] [x00; x03; x03; x04; x05] false in
  let* _ := increments_to [xff; xff; x03; x04; x05] [x00; x00; x04; x04; x05] false in
  let* _ := increments_to [xff; xff; xff; x04; x05] [x00; x00; x00; x05; x05] false in
  let* _ := increments_to [xff; xff; xff; xff; x05] [x00; x00; x00; x00; x06] false in
  increments_to [xff; xff; xff; xff; xff] [x00; x00; x00; x00; x00] true.

Definition test_increment_le_overflow : M unit :=
  for_range 1 255 (fun i =>
    let* x := vec_of (replicate (Z.to_nat i) xff) in
    let* _ := increment_le (v_slice x) in
    let* a := contents x in
    assert (all_zero a)).

Definition test_add_le_zero : M unit :=
  for_range 1 255 (fun i =>
    let* x := vec_of (zeros i) in
    let* y := vec_of (zeros i) in
    let* _ := set_first y x2a in
    let* r := add_le (v_slice x) (v_slice y) in
    let* _ := assert (is_ok r) in
    let* a := contents x in
    let* _ := assert (negb (all_zero a)) in
    let* b := contents y in
    assert_eq a b).

(** [let mut x = ...; assert!(add_le(&mut x, &y).is_ok());] and the assertions *)
Definition adds_to (x : bytes) (y : slice) (z : bytes) : M unit :=
  let* p := place x in
  let* r := add_le (Slice (At p 0) (zlen x)) y in
  let* _ := assert (is_ok r) in
  let* a := slice_bytes (Slice (At p 0) (zlen x)) in
  let* _ := assert (negb (all_zero a)) in
  assert_eq a z.

Definition test_add_le_vectors : M unit :=
  let* y := place [x2a; x00; x00; x00; x00] in
  let y := Slice (At y 0) 5 in
  let* _ := adds_to [xff; x02; x03; x04; x05] y [x29; x03; x03; x04; x05] in
  let* _ := adds_to [xff; xff; x03; x04; x05] y [x29; x00; x04; x04; x05] in
  let* _ := adds_to [xff; xff; xff; x04; x05] y [x29; x00; x00; x05; x05] in
  let* _ := adds_to [xff; xff; xff; xff; x05] y [x29; x00; x00; x00; x06] in
  adds_to [xff; xff; xff; xff; xff] y [x29; x00; x00; x00; x00].

Definition test_add_le_overflow : M unit :=
  for_range 1 255 (fun i =>
    let* x := vec_of (replicate (Z.to_nat i) xff) in
    let* y := vec_of (zeros i) in
    let* _ := set_first y x2a in
    let* r := add_le (v_slice x) (v_slice y) in
    let* _ := assert (is_ok r) in
    let* a := contents x in
    let* _ := assert (negb (all_zero a)) in
    let* _ := add_first y (-1) in
    let* a := contents x in
    let* b := contents y in
    assert_eq a b).

Definition test_add_le_different_lengths : M unit :=
  for_range 1 255 (fun i =>
    let ones := replicate (Z.to_nat i) x01 in
    let* x := vec_of ones in
    let* y := vec_of (replicate (Z.to_nat (i + 1)) x2a) in
    let* z := vec_of (replicate (Z.to_nat (i - 1)) x2a) in
    let* r := add_le (v_slice x) (v_slice y) in
    let* _ := assert (negb (is_ok r)) in
    let* a := contents x in
    let* _ := assert_eq a ones in
    let* r := add_le (v_slice x) (v_slice z) in
    let* _ := assert (negb (is_ok r)) in
    let* a := contents x in
    assert_eq a ones).

End UtilsTests.

(** ** src/crypto/verify.rs *)

Section VerifyTests.
Context `{R : RandombytesExterns} `{V : VerifyExterns}.

(** The three tests differ in the length and the function. *)
Definition verify_test (n : Z) (verify : ptr -> ptr -> M bool) : M unit :=
  for_range 0 256 (fun _ =>
    let* x := stack_array n in
    let* y := stack_array n in
    let* r := verify (At x 0) (At y 0) in
    let* _ := assert r in
    let* _ := randombytes_into (Slice (At x 0) n) in
    let* _ := randombytes_into (Slice (At y 0) n) in
    let* a := slice_bytes (Slice (At x 0) n) in
    let* b := slice_bytes (Slice (At y 0) n) in
    let* r := verify (At x 0) (At y 0) in
    if bool_decide (a = b) then assert r else assert (negb r)).

Definition test_verify_16 : M unit := verify_test 16 verify_16.
Definition test_verify_32 : M unit := verify_test 32 verify_32.
Definition test_verify_64 : M unit := verify_test 64 verify_64.

End VerifyTests.

(** ** src/randombytes.rs *)

Section RandombytesTests.
Context `{T : Target} `{C : CoreExterns} `{R : RandombytesExterns}.

(** [::init().unwrap();] *)
Definition init_ok : M unit := let* r := init in unwrap r.

Definition test_randombytes_uniform_0 : M unit :=
  let* _ := init_ok in let* r := randombytes_uniform 0 in assert (r =? 0).
Definition test_randombytes_uniform_1 : M unit :=
  let* _ := init_ok in let* r := randombytes_uniform 1 in assert (r =? 0).
Definition test_randombytes_uniform_7 : M unit :=
  let* _ := init_ok in let* r := randombytes_uniform 7 in assert (r <? 7).

Definition test_randombytes_buf_deterministic : M unit :=
  let* _ := init_ok in
  let* seed := place (zeros SEEDBYTES) in
  let* res_1 := randombytes_buf_deterministic 10 (At seed 0) in
  let* res_2 := randombytes_buf_deterministic 10 (At seed 0) in
  let* a := contents res_1 in
  let* b := contents res_2 in
  assert_eq a b.

Definition test_randombytes_buf_deterministic_into : M unit :=
  let* _ := init_ok in
  let* seed := place (zeros SEEDBYTES) in
  let* buf_1 := vec_of (zeros 10) in
  let* buf_2 := vec_of (zeros 10) in
  let* _ := randombytes_buf_deterministic_into (v_slice buf_1) (At seed 0) in
  let* _ := randombytes_buf_deterministic_into (v_slice buf_2) (At seed 0) in
  let* a := contents buf_1 in
  let* b := contents buf_2 in
  assert_eq a b.

(** [n, n + 1, ..., n + 31] *)
Definition seed_from (n : Z) : bytes := (fun i => byte_of_Z (n + Z.of_nat i)) <$> seq 0 32.

Definition test_randombytes_buf_deterministic_unique_given_seed : M unit :=
  let* _ := init_ok in
  let* seed_1 := place (seed_from 0) in
  let* seed_2 := place (seed_from 32) in
  let* res_1 := randombytes_buf_deterministic 1024 (At seed_1 0) in
  let* res_2 := randombytes_buf_deterministic 1024 (At seed_2 0) in
  let* a := contents res_1 in
  let* b := contents res_2 in
  assert (bool_decide (a <> b)).

End RandombytesTests.

(** ** Locked memory *)

Section MlockTests.
Context `{T : Target} `{K : MlockExterns}.

(** [assert!(r.is_ok())] *)
Definition assert_ok {A} (r : result A) : M unit := assert (match r with Ok _ => true | Err => false end).

Definition mlock_t : bytes := [x68; x65; x6c; x6c; x6f; x20; x77; x6f; x72; x6c; x64].

Definition test_mlock_munlock : M unit :=
  let* x := vec_of mlock_t in
  let* r := mlock (v_slice x) in
  let* _ := assert_ok r in
  let* a := contents x in
  let* _ := assert_eq a mlock_t in
  let* r := munlock (v_slice x) in
  let* _ := assert_ok r in
  let* b := contents x in
  assert (bool_decide (b <> mlock_t)).

(** libc: the status and the limits for [RLIMIT_MEMLOCK], the current and the
    maximal one *)
Class RlimitExterns := {
  getrlimit : Z * Z -> M (Z * (Z * Z));
  setrlimit : Z * Z -> M Z
}.
Context `{L : RlimitExterns}.

Definition LOCK_LIMIT : Z := 16384.
Definition lowered (limit : Z * Z) : Z * Z := if limit.1 >? LOCK_LIMIT then (LOCK_LIMIT, limit.2) else limit.

Definition test_mlock_fail : M unit :=
  let* '(ret, limit) := getrlimit (0, 0) in
  let* _ := assert (ret =? 0) in
  let* ret := setrlimit (lowered limit) in
  let* _ := assert (ret =? 0) in
  let* x := vec_zeroed (5 * LOCK_LIMIT) in
  let* r := mlock (v_slice x) in
  assert (match r with Ok _ => false | Err => true end).

(** Where memory can be locked: the call succeeds for a vector of those bytes
    that is allocated next, and so does the one that unlocks it. *)
Definition lockable (w : world) (n : Z) (bs : bytes) : Prop :=
  let b := fresh_block w in
  let w' := w_put b (Some <$> bs) w in sodium_mlock (At b 0) n w' = Done 0 w'.
Definition unlockable (w : world) (n : Z) (bs : bytes) : Prop :=
  let b := fresh_block w in
  let w' := w_put b (Some <$> bs) w in sodium_munlock (At b 0) n w' = Done 0 (w_write (At b 0) (zeros n) w').

Context {KD : MlockDoc K}.

Lemma mlock_settles w n bs Q f (b := fresh_block w) (w' := w_put b (Some <$> bs) w) :
  (forall rc, (rc = 0 <-> lockable w n bs) -> does w' (f (if rc =? 0 then Ok tt else Err)) Q) ->
  does w' (bind (mlock (Slice (At b 0) n)) f) (Q : bool -> world -> Prop).
Proof.
  intros Hf. destruct (sodium_mlock_doc (At b 0) n w') as [rc Hrc]. specialize (Hf rc).
  eapply (local_run Q w' (mlock (Slice (At b 0) n)) (if rc =? 0 then Ok tt else Err) w').
  - unfold mlock. eapply bind_step; [exact Hrc|]. by destruct (rc =? 0).
  - apply Hf. unfold lockable. fold b w'. rewrite Hrc. split; congruence.
Qed.

(** The test passes where the vector can be locked and unlocked. *)
Lemma test_mlock_munlock_settles w :
  settles_at w test_mlock_munlock (lockable w 11 mlock_t /\ unlockable w 11 mlock_t).
Proof.
  apply catch_settles, catch_bind. unfold unlockable. pose proof (fresh_block_spec w) as Hb. set (b := fresh_block w) in *.
  set (w1 := w_put b (Some <$> mlock_t) w). pose proof isize_max_bounds.
  assert (Hw1 : holds w1 {[b := mlock_t]}) by (apply (holds_insert w ∅ b mlock_t); [apply holds_empty|done]).
  eapply (local_run _ w _ (Vec b 11 11) w1); [reflexivity|]. apply catch_bind. sl.
  apply (mlock_settles w 11 mlock_t). intros rc Hrc. fold b w1.
  destruct (Z.eqb_spec rc 0) as [Hz|Hz]; (apply catch_assert_bind; [intros E|intros E w']; try done); [|split; [done|tauto]].
  apply catch_bind. eapply (local_contents _ w1 {[b := mlock_t]} b mlock_t); [exact Hw1|apply lookup_insert_eq|done|].
  apply catch_bind. apply local_assert; [by apply bool_decide_true|].
  destruct (sodium_munlock_doc (At b 0) 11 w1) as [rc2 Hrc2].
  assert (Hwr : write (At b 0) (zeros 11) w1 = Done tt (w_write (At b 0) (zeros 11) w1)).
  { apply write_run. destruct (holds_ref w1 {[b := mlock_t]} b mlock_t Hw1 (lookup_insert_eq _ _ _)) as [Hr _]. by eapply in_range_bytes. }
  assert (Hm : sodium_munlock (At b 0) 11 w1 = Done rc2 (w_write (At b 0) (zeros 11) w1)).
  { rewrite Hrc2. by eapply bind_step. }
  set (w2 := w_write (At b 0) (zeros 11) w1) in *.
  assert (Hw2 : holds w2 (<[b := zeros 11]> {[b := mlock_t]})) by (eapply holds_store; [exact Hw1|apply lookup_insert_eq|done]).
  apply catch_bind. eapply (local_run _ w1 (munlock (Slice (At b 0) 11)) (if rc2 =? 0 then Ok tt else Err) w2).
  { unfold munlock. eapply bind_step; [exact Hm|]. by destruct (rc2 =? 0). }
  fold b w1. rewrite Hm. destruct (Z.eqb_spec rc2 0) as [Hz2|Hz2];
    (apply catch_assert_bind; [intros E2|intros E2 w']; try done); [|split; [done|intros [_ [=]]; done]].
  apply catch_bind. eapply local_contents; [exact Hw2|apply lookup_insert_eq|done|].
  apply catch_assert. intros _. subst. rewrite bool_decide_true by (by vm_compute). tauto.
Qed.

(** What the system must answer: the limit can be read and lowered, and after
    that a vector five times as long cannot be locked. *)
Definition limited (w : world) : Prop :=
  exists limit w1 w2, getrlimit (0, 0) w = Done (0, limit) w1 /\ setrlimit (lowered limit) w1 = Done 0 w2 /\
    ~ lockable w2 (5 * LOCK_LIMIT) (zeros (5 * LOCK_LIMIT)).

(** Both calls return. *)
Class RlimitDoc (L : RlimitExterns) : Prop := {
  getrlimit_doc l w : exists r w', getrlimit l w = Done r w';
  setrlimit_doc l w : exists r w', setrlimit l w = Done r w'
}.

Lemma test_mlock_fail_settles {LD : RlimitDoc L} w : settles_at w test_mlock_fail (limited w).
Proof.
  apply catch_settles, catch_bind. unfold limited. destruct (getrlimit_doc (0, 0) w) as ([r limit] & w1 & Hg). rewrite Hg.
  eapply local_run; [exact Hg|]. cbn beta iota.
  apply catch_assert_bind; [intros ->%Z.eqb_eq|intros Hr%Z.eqb_neq w'; split; [done|]; intros (? & ? & ? & [=] & _); done].
  destruct (setrlimit_doc (lowered limit) w1) as (r & w2 & Hs). apply catch_bind. eapply local_run; [exact Hs|].
  assert (Hiff : (exists l v1 v2, Done (0, limit) w1 = Done (0, l) v1 /\ setrlimit (lowered l) v1 = Done 0 v2 /\
      ~ lockable v2 (5 * LOCK_LIMIT) (zeros (5 * LOCK_LIMIT))) <->
    r = 0 /\ ~ lockable w2 (5 * LOCK_LIMIT) (zeros (5 * LOCK_LIMIT))).
  { split; [|intros [-> Hn]; by exists limit, w1, w2]. intros (l & v1 & v2 & [= <- <-] & Hs' & Hn). rewrite Hs in Hs'. by simplify_eq. }
  apply catch_assert_bind; [intros ->%Z.eqb_eq|intros Hr%Z.eqb_neq w'; split; [done|]; intros Hx%Hiff; by destruct Hx].
  apply catch_bind. pose proof isize_max_bounds.
  eapply (local_run _ w2 _ (Vec (fresh_block w2) (5 * LOCK_LIMIT) (5 * LOCK_LIMIT))); [rewrite vec_zeroed_eq by (unfold LOCK_LIMIT; lia); reflexivity|].
  apply catch_bind. sl. apply (mlock_settles w2 (5 * LOCK_LIMIT) (zeros (5 * LOCK_LIMIT))). intros rc Hrc.
  apply catch_assert. intros _. rewrite Hiff, <- Hrc. destruct (Z.eqb_spec rc 0); naive_solver.
Qed.

End MlockTests.

(** ** Numbers *)

Lemma le_val_zeros_nat n : le_val (replicate n x00) = 0.
Proof. induction n as [|n IH]; [done|]. cbn [replicate le_val]. by rewrite IH. Qed.

Lemma le_bytes_zero n : le_bytes n 0 = replicate n x00.
Proof. induction n as [|n IH]; [done|]. cbn [le_bytes replicate]. change (0 / 256) with 0. by rewrite IH. Qed.

(** Small numbers, and numbers above the largest one *)
Lemma le_bytes_small n z : 0 <= z < 256 -> le_bytes (S n) z = byte_of_Z z :: replicate n x00.
Proof. intros Hz. cbn [le_bytes]. rewrite Z.div_small by done. by rewrite le_bytes_zero. Qed.

Lemma le_val_ff n : le_val (replicate n xff) = 256 ^ Z.of_nat n - 1.
Proof.
  induction n as [|n IH]; [done|]. cbn [replicate le_val]. rewrite IH, Nat2Z.inj_succ, Z.pow_succ_r by lia.
  change (byte_val xff) with 255. lia.
Qed.

Lemma le_bytes_carry n z : le_bytes n (256 ^ Z.of_nat n + z) = le_bytes n z.
Proof. apply le_bytes_inj. replace (256 ^ Z.of_nat n + z) with (z + 1 * 256 ^ Z.of_nat n) by lia. apply Z_mod_plus_full. Qed.

Lemma all_zero_replicate n : all_zero (replicate n x00) = true.
Proof. induction n as [|n IH]; [done|]. cbn [replicate all_zero forallb]. by rewrite bool_decide_true. Qed.

Lemma all_zero_cons x bs : x <> x00 -> all_zero (x :: bs) = false.
Proof. intros Hx. cbn. by rewrite bool_decide_false. Qed.

(** ** Rules *)

Section Rules.
Context `{T : Target} {B : Type} (Q : B -> world -> Prop).

Lemma local_set_first w m b x y bs n (f : unit -> M B) :
  holds w m -> m !! b = Some (x :: bs) -> n = zlen (x :: bs) ->
  (forall w', holds w' (<[b := y :: bs]> m) -> does w' (f tt) Q) ->
  does w (bind (set_first (Vec b n n) y) f) Q.
Proof.
  intros Hw Hb -> Hf. unfold set_first. cbn [v_len]. pose proof (zlen_nonneg bs).
  rewrite (proj2 (Z.ltb_ge _ _)) by zlia. by apply (local_write_byte Q w m b [] x y bs).
Qed.

Lemma local_add_first w m b x k bs n (f : unit -> M B) :
  holds w m -> m !! b = Some (x :: bs) -> n = zlen (x :: bs) -> 0 <= byte_val x + k < 256 ->
  (forall w', holds w' (<[b := byte_of_Z (byte_val x + k) :: bs]> m) -> does w' (f tt) Q) ->
  does w (bind (add_first (Vec b n n) k) f) Q.
Proof.
  intros Hw Hb -> Hk Hf. unfold add_first. cbn [v_len]. pose proof (zlen_nonneg bs).
  rewrite (proj2 (Z.ltb_ge _ _)) by zlia. apply local_assoc.
  apply (local_read_byte Q w m b [] x bs); [done..|]. cbv zeta.
  replace (le_val [x] + k) with (byte_val x + k) by (cbn; lia).
  rewrite (proj2 (Z.leb_le _ _)), (proj2 (Z.ltb_lt _ _)) by lia. cbn [andb].
  by apply (local_write_byte Q w m b [] x _ bs).
Qed.

Context `{E : UtilsExterns} {D : UtilsDoc E}.

Lemma local_increment w m b bs n (f : unit -> M B) :
  holds w m -> m !! b = Some bs -> n = zlen bs -> n <= isize_max ->
  (forall w', holds w' (<[b := le_bytes (length bs) (le_val bs + 1)]> m) -> does w' (f tt) Q) ->
  does w (bind (increment_le (Slice (At b 0) n)) f) Q.
Proof.
  intros Hw Hb -> Hn Hf. eapply local_run; [eapply increment_le_run; by eapply holds_slice|].
  apply Hf. eapply holds_store; [done..|]. unfold zlen. by rewrite length_le_bytes.
Qed.

Lemma local_add w m b c bs cs n (f : result unit -> M B) :
  holds w m -> m !! b = Some bs -> m !! c = Some cs -> n = zlen bs -> n = zlen cs -> n <= isize_max ->
  (forall w', holds w' (<[b := le_bytes (length bs) (le_val bs + le_val cs)]> m) -> does w' (f (Ok tt)) Q) ->
  does w (bind (add_le (Slice (At b 0) n) (Slice (At c 0) n)) f) Q.
Proof.
  intros Hw Hb Hc -> Hl Hn Hf. eapply local_run.
  - erewrite add_le_run by (eapply holds_slice; done || lia). by rewrite decide_True.
  - apply Hf. eapply holds_store; [done..|]. unfold zlen. by rewrite length_le_bytes.
Qed.

End Rules.

(** ** The tests pass *)

Section Pass.
Context `{T : Target} `{E : UtilsExterns} {D : UtilsDoc E} `{R : RandombytesExterns} {RD : RandombytesDoc R}.

Lemma test_increment_le_zero_passes : passes test_increment_le_zero.
Proof.
  intros w. apply local_loop. intros i w0 Hi Hw0. pose proof isize_max_bounds.
  change (1 + Z.of_nat 255) with 256 in Hi. rewrite (zeros_S i) by lia.
  assert (Hlen : zlen (x00 :: zeros (i - 1)) = i) by (rewrite zlen_cons, zlen_zeros; lia).
  assert (Hinc : le_bytes (length (x00 :: zeros (i - 1))) (le_val (x00 :: zeros (i - 1)) + 1) =
                 x01 :: zeros (i - 1)).
  { unfold zeros. cbn [length le_val]. rewrite le_val_zeros_nat, length_replicate. by apply le_bytes_small. }
  eapply local_vec; [exact Hw0|reflexivity|]. intros x w1 _ Hw1. rewrite Hlen.
  sl. eapply (local_increment _ (D := D)); [exact Hw1|local_tac|len_eq|lia|]. rewrite Hinc. intros w2 Hw2.
  eapply local_contents; [exact Hw2|local_tac|by rewrite zlen_cons, zlen_zeros; lia|].
  apply local_assert; [by rewrite all_zero_cons|].
  eapply local_vec; [exact Hw2|reflexivity|]. intros y w3 Hy Hw3. rewrite Hlen.
  eapply local_add_first; [exact Hw3|local_tac|len_eq|cbn; lia|]. intros w4 Hw4.
  eapply local_contents; [exact Hw4|local_tac|by rewrite zlen_cons, zlen_zeros; lia|].
  apply does_assert. by apply bool_decide_true.
Qed.

Lemma increments_to_does (x y : bytes) (zero : bool) w :
  zlen x <= 1000 -> le_bytes (length x) (le_val x + 1) = y ->
  (if zero then all_zero y else negb (all_zero y)) = true ->
  does w (increments_to x y zero) (fun _ _ => True).
Proof.
  intros Hl <- Hz. pose proof isize_max_bounds. unfold increments_to.
  eapply local_place; [apply holds_empty|]. intros p w1 _ Hw1.
  sl. eapply (local_increment _ (D := D)); [exact Hw1|local_tac|len_eq|lia|]. intros w2 Hw2.
  eapply local_read; [exact Hw2|local_tac|unfold zlen; by rewrite length_le_bytes|].
  apply local_assert; [done|]. apply does_assert. by apply bool_decide_true.
Qed.

Lemma test_increment_le_vectors_passes : passes test_increment_le_vectors.
Proof.
  intros w. unfold test_increment_le_vectors.
  do 4 (eapply does_bind; [apply increments_to_does; by vm_compute|intros [] ? _]).
  apply increments_to_does; by vm_compute.
Qed.

Lemma test_increment_le_overflow_passes : passes test_increment_le_overflow.
Proof.
  intros w. apply local_loop. intros i w0 Hi Hw0. pose proof isize_max_bounds.
  change (1 + Z.of_nat 255) with 256 in Hi.
  assert (Hlen : zlen (replicate (Z.to_nat i) xff) = i) by (apply zlen_replicate; lia).
  eapply local_vec; [exact Hw0|reflexivity|]. intros x w1 _ Hw1. rewrite Hlen.
  sl. eapply (local_increment _ (D := D)); [exact Hw1|local_tac|len_eq|lia|].
  rewrite length_replicate, le_val_ff. replace (256 ^ _ - 1 + 1) with (256 ^ Z.of_nat (Z.to_nat i) + 0) by lia.
  rewrite le_bytes_carry, le_bytes_zero. intros w2 Hw2.
  eapply local_contents; [exact Hw2|local_tac|symmetry; apply zlen_replicate; lia|].
  apply does_assert, all_zero_replicate.
Qed.

Lemma test_add_le_zero_passes : passes test_add_le_zero.
Proof.
  intros w. apply local_loop. intros i w0 Hi Hw0. pose proof isize_max_bounds.
  change (1 + Z.of_nat 255) with 256 in Hi. rewrite (zeros_S i) by lia.
  assert (Hlen : forall x, zlen (x :: zeros (i - 1)) = i) by (intros; rewrite zlen_cons, zlen_zeros; lia).
  assert (Hadd : le_bytes (length (x00 :: zeros (i - 1))) (le_val (x00 :: zeros (i - 1)) + le_val (x2a :: zeros (i - 1))) =
                 x2a :: zeros (i - 1)).
  { unfold zeros. cbn [length le_val]. rewrite le_val_zeros_nat, length_replicate. by apply le_bytes_small. }
  eapply local_vec; [exact Hw0|reflexivity|]. intros x w1 _ Hw1. rewrite Hlen.
  eapply local_vec; [exact Hw1|reflexivity|]. intros y w2 Hy Hw2. rewrite Hlen. fresh_facts.
  eapply local_set_first; [exact Hw2|local_tac|len_eq|]. intros w3 Hw3.
  sl. eapply (local_add _ (D := D)); [exact Hw3|local_tac|local_tac|len_eq|len_eq|lia|]. rewrite Hadd. intros w4 Hw4.
  apply local_assert; [done|]. eapply local_contents; [exact Hw4|local_tac|len_eq|].
  apply local_assert; [by rewrite all_zero_cons|]. eapply local_contents; [exact Hw4|local_tac|len_eq|].
  apply does_assert. by apply bool_decide_true.
Qed.

Lemma adds_to_does w m (x y : bytes) b n (z : bytes) :
  holds w m -> m !! b = Some y -> n = zlen y -> n = zlen x -> n <= 1000 ->
  le_bytes (length x) (le_val x + le_val y) = z -> negb (all_zero z) = true ->
  does w (adds_to x (Slice (At b 0) n) z) (fun _ w' => exists m', holds w' m' /\ m' !! b = Some y).
Proof.
  intros Hw Hb Hy Hx Hn <- Hz. pose proof isize_max_bounds. unfold adds_to. rewrite <- Hx.
  eapply local_place; [exact Hw|]. intros p w1 Hp Hw1. assert (Hne : p <> b) by congruence.
  sl. eapply (local_add _ (D := D)); [exact Hw1|local_tac|local_tac|len_eq|len_eq|lia|]. intros w2 Hw2.
  apply local_assert; [done|].
  eapply local_read; [exact Hw2|local_tac|unfold zlen in *; by rewrite length_le_bytes|].
  apply local_assert; [done|]. exists tt, w2. split.
  - unfold assert_eq, assert. by rewrite bool_decide_true.
  - eexists. split; [exact Hw2|local_tac].
Qed.

Lemma test_add_le_vectors_passes : passes test_add_le_vectors.
Proof.
  intros w. unfold test_add_le_vectors. eapply local_place; [apply holds_empty|]. intros b w1 _ Hw1. cbv zeta.
  set (has := fun w' => exists m, holds w' m /\ m !! b = Some [x2a; x00; x00; x00; x00]).
  assert (Hb : has w1) by (eexists; split; [exact Hw1|apply lookup_insert_eq]).
  assert (Hstep : forall (x z : bytes) w1, has w1 -> zlen x = 5 ->
    le_bytes (length x) (le_val x + 42) = z -> negb (all_zero z) = true ->
    does w1 (adds_to x (Slice (At b 0) 5) z) (fun _ => has)).
  { intros x z w2 (m & Hm & Hm') Hx Hz Hnz. by eapply adds_to_does. }
  do 4 (eapply does_bind; [apply Hstep; [eassumption|by vm_compute..]|intros [] ? ?]).
  eapply does_mono; [apply Hstep; [eassumption|by vm_compute..]|done].
Qed.

Lemma test_add_le_overflow_passes : passes test_add_le_overflow.
Proof.
  intros w. apply local_loop. intros i w0 Hi Hw0. pose proof isize_max_bounds.
  change (1 + Z.of_nat 255) with 256 in Hi. rewrite (zeros_S i) by lia.
  assert (Hff : zlen (replicate (Z.to_nat i) xff) = i) by (apply zlen_replicate; lia).
  assert (Hlen : forall x, zlen (x :: zeros (i - 1)) = i) by (intros; rewrite zlen_cons, zlen_zeros; lia).
  set (n := Z.to_nat (i - 1)).
  assert (Hadd : le_bytes (length (replicate (Z.to_nat i) xff)) (le_val (replicate (Z.to_nat i) xff) + le_val (x2a :: zeros (i - 1))) =
                 x29 :: zeros (i - 1)).
  { rewrite length_replicate, le_val_ff. unfold zeros. cbn [le_val]. rewrite le_val_zeros_nat.
    change (byte_val x2a + 256 * 0) with 42.
    replace (256 ^ Z.of_nat (Z.to_nat i) - 1 + 42) with (256 ^ Z.of_nat (Z.to_nat i) + 41) by lia.
    rewrite le_bytes_carry. replace (Z.to_nat i) with (S n) by (unfold n; lia). by apply le_bytes_small. }
  eapply local_vec; [exact Hw0|reflexivity|]. intros x w1 _ Hw1. rewrite Hff.
  eapply local_vec; [exact Hw1|reflexivity|]. intros y w2 Hy Hw2. rewrite Hlen. fresh_facts.
  eapply local_set_first; [exact Hw2|local_tac|len_eq|]. intros w3 Hw3.
  sl. eapply (local_add _ (D := D)); [exact Hw3|local_tac|local_tac|len_eq|len_eq|lia|]. rewrite Hadd. intros w4 Hw4.
  apply local_assert; [done|]. eapply local_contents; [exact Hw4|local_tac|len_eq|].
  apply local_assert; [by rewrite all_zero_cons|].
  eapply local_add_first; [exact Hw4|local_tac|len_eq|cbn; lia|]. intros w5 Hw5.
  eapply local_contents; [exact Hw5|local_tac|len_eq|]. eapply local_contents; [exact Hw5|local_tac|len_eq|].
  apply does_assert. by apply bool_decide_true.
Qed.

Lemma test_add_le_different_lengths_passes : passes test_add_le_different_lengths.
Proof.
  intros w. apply local_loop. intros i w0 Hi Hw0. pose proof isize_max_bounds. cbv zeta.
  change (1 + Z.of_nat 255) with 256 in Hi.
  assert (Hlen : forall k (b : byte), 0 <= k -> zlen (replicate (Z.to_nat k) b) = k)
    by (intros; by apply zlen_replicate).
  eapply local_vec; [exact Hw0|reflexivity|]. intros x w1 _ Hw1. rewrite Hlen by lia.
  eapply local_vec; [exact Hw1|reflexivity|]. intros y w2 Hy Hw2. rewrite Hlen by lia.
  eapply local_vec; [exact Hw2|reflexivity|]. intros z w3 Hz Hw3. rewrite Hlen by lia. fresh_facts.
  assert (Hx : is_slice w3 (Slice (At x 0) i) (replicate (Z.to_nat i) x01))
    by (eapply holds_slice; [exact Hw3|local_tac|by rewrite Hlen by lia|lia]).
  assert (Hno : forall b k, k <> i -> 0 <= k <= 256 -> is_slice w3 (Slice (At b 0) k) (replicate (Z.to_nat k) x2a) ->
    add_le (Slice (At x 0) i) (Slice (At b 0) k) w3 = Done Err w3).
  { intros b k Hk ? Hs. erewrite add_le_run by (exact Hx || exact Hs).
    rewrite !Hlen by lia. by rewrite decide_False by done. }
  assert (Hread : forall b k, 0 <= k <= 256 -> (<[z:=replicate (Z.to_nat (i - 1)) x2a]>
    (<[y:=replicate (Z.to_nat (i + 1)) x2a]> (<[x:=replicate (Z.to_nat i) x01]> ∅)) : gmap positive bytes) !! b =
      Some (replicate (Z.to_nat k) x2a) -> is_slice w3 (Slice (At b 0) k) (replicate (Z.to_nat k) x2a)).
  { intros b k ? Hb. eapply holds_slice; [exact Hw3|exact Hb|by rewrite Hlen by lia|lia]. }
  eapply local_run; [apply (Hno y (i + 1)); [lia|lia|apply Hread; [lia|local_tac]]|].
  apply local_assert; [done|]. eapply local_run; [apply slice_bytes_run, Hx|].
  eapply local_run; [unfold assert_eq, assert; by rewrite bool_decide_true|].
  eapply local_run; [apply (Hno z (i - 1)); [lia|lia|apply Hread; [lia|local_tac]]|].
  apply local_assert; [done|]. eapply local_run; [apply slice_bytes_run, Hx|].
  apply does_assert. by apply bool_decide_true.
Qed.

(** *** The comparisons *)

Lemma local_memcmp {B} (Q : B -> world -> Prop) w m b c bs cs n k (f : bool -> M B) :
  holds w m -> m !! b = Some bs -> m !! c = Some cs -> n = zlen bs -> k = zlen cs ->
  n <= isize_max -> k <= isize_max -> does w (f (bool_decide (bs = cs))) Q ->
  does w (bind (memcmp (Slice (At b 0) n) (Slice (At c 0) k)) f) Q.
Proof.
  intros Hw Hb Hc -> -> Hn Hk Hf. eapply local_run; [|exact Hf]. apply memcmp_run; by eapply holds_slice.
Qed.

(** [if x == y { assert!(r) } else { assert!(!r) }] *)
Lemma does_assert_iff w (a b : bytes) :
  does w (if bool_decide (a = b) then assert (bool_decide (a = b)) else assert (negb (bool_decide (a = b))))
    (fun _ _ => True).
Proof. case_bool_decide; by apply does_assert. Qed.

Lemma test_memcmp_passes : passes test_memcmp.
Proof.
  intros w. apply local_loop. intros i w0 Hi Hw0. pose proof isize_max_bounds.
  change (0 + Z.of_nat 256) with 256 in Hi.
  eapply (local_random _ (RD := RD)); [exact Hw0|lia|]. intros x a w1 _ Ha Hw1. sl.
  eapply local_memcmp; [exact Hw1|local_tac|local_tac|len_eq|len_eq|lia|lia|]. apply local_assert; [by apply bool_decide_true|].
  eapply local_clone; [exact Hw1|local_tac|len_eq|]. intros y w2 Hy Hw2.
  pose proof (delete_insert_id _ _ a Hy) as Hdel. fresh_facts. sl.
  eapply local_memcmp; [exact Hw2|local_tac|local_tac|len_eq|len_eq|lia|lia|]. apply local_assert; [by apply bool_decide_true|].
  assert (Ha' : zlen (a ++ [x00]) = i + 1) by (rewrite zlen_app; unfold zlen in *; cbn; lia).
  assert (Hne : a <> a ++ [x00]) by (intros E'%(f_equal zlen); lia).
  eapply local_push; [exact Hw2|local_tac|len_eq|lia|]. intros z w3 Hz Hw3. sl.
  rewrite Hdel in Hz, Hw3. fresh_facts.
  eapply local_memcmp; [exact Hw3|local_tac|local_tac|len_eq|len_eq|lia|lia|].
  apply local_assert; [by rewrite bool_decide_false|].
  eapply local_memcmp; [exact Hw3|local_tac|local_tac|len_eq|len_eq|lia|lia|].
  apply local_assert; [by rewrite (bool_decide_false _ (not_eq_sym Hne))|].
  eapply (local_random _ (RD := RD)); [exact Hw3|lia|]. intros y' b w4 Hy' Hb Hw4. fresh_facts.
  eapply local_drop; [exact Hw4|local_tac|]. intros w5 Hw5.
  assert (Hx5 : delete z (<[y':=b]> (<[z:=a ++ [x00]]> (<[x:=a]> ∅)) : gmap positive bytes) !! x = Some a)
    by (rewrite lookup_delete_ne by ne_tac; local_tac).
  assert (Hy5 : delete z (<[y':=b]> (<[z:=a ++ [x00]]> (<[x:=a]> ∅)) : gmap positive bytes) !! y' = Some b)
    by (rewrite lookup_delete_ne by ne_tac; local_tac).
  eapply local_contents; [exact Hw5|exact Hx5|len_eq|]. eapply local_contents; [exact Hw5|exact Hy5|len_eq|]. sl.
  eapply local_memcmp; [exact Hw5|exact Hx5|exact Hy5|len_eq|len_eq|lia|lia|]. apply does_assert_iff.
Qed.

(** ** src/crypto/verify.rs *)

Context `{V : VerifyExterns} {VD : VerifyDoc V}.

(** A verification compares the [n] bytes it is given. *)
Lemma verify_test_passes n verify :
  0 <= n <= 1000 ->
  (forall x y, verify x y =
     (let* rc := (let* a := read x n in let* b := read y n in ret (if decide (a = b) then 0 else -1)) in
      ret (rc =? 0))) ->
  passes (verify_test n verify).
Proof.
  intros Hn Hv w. apply local_loop. intros i w0 _ Hw0.
  assert (Hz : zlen (zeros n) = n) by (apply zlen_zeros; lia).
  assert (Hcmp : forall w m x y a b (f : bool -> M unit), holds w m -> m !! x = Some a -> m !! y = Some b ->
    zlen a = n -> zlen b = n -> does w (f (bool_decide (a = b))) (fun _ _ => True) ->
    does w (bind (verify (At x 0) (At y 0)) f) (fun _ _ => True)).
  { intros w1 m x y a b f Hw Hx Hy Ha Hb Hf. eapply local_run; [|exact Hf]. rewrite Hv.
    destruct (holds_ref w1 m x a Hw Hx) as [Hxr _], (holds_ref w1 m y b Hw Hy) as [Hyr _].
    rewrite bind_assoc. eapply bind_step; [by apply (read_run _ _ _ a)|].
    rewrite bind_assoc. eapply bind_step; [by apply (read_run _ _ _ b)|].
    rewrite ret_bind. unfold ret. f_equal. case_decide; [by rewrite bool_decide_true|by rewrite bool_decide_false]. }
  eapply local_array; [exact Hw0|]. intros x w1 _ Hw1.
  eapply local_array; [exact Hw1|]. intros y w2 Hy Hw2. fresh_facts.
  eapply Hcmp; [exact Hw2|local_tac|local_tac|done|done|]. apply local_assert; [by apply bool_decide_true|].
  eapply (local_fill _ (RD := RD)); [exact Hw2|local_tac|done|]. intros a w3 Ha Hw3.
  eapply (local_fill _ (RD := RD)); [exact Hw3|local_tac|done|]. intros b w4 Hb Hw4.
  eapply local_read; [exact Hw4|local_tac|len_eq|]. eapply local_read; [exact Hw4|local_tac|len_eq|].
  eapply Hcmp; [exact Hw4|local_tac|local_tac|done|done|]. apply does_assert_iff.
Qed.

Lemma test_verify_16_passes : passes test_verify_16.
Proof. apply verify_test_passes; [lia|]. intros x y. unfold verify_16. by rewrite crypto_verify_16_doc. Qed.
Lemma test_verify_32_passes : passes test_verify_32.
Proof. apply verify_test_passes; [lia|]. intros x y. unfold verify_32. by rewrite crypto_verify_32_doc. Qed.
Lemma test_verify_64_passes : passes test_verify_64.
Proof. apply verify_test_passes; [lia|]. intros x y. unfold verify_64. by rewrite crypto_verify_64_doc. Qed.

(** ** src/randombytes.rs *)

(** [init()] succeeds, now and whenever it is called again. *)
Context `{C : CoreExterns}.
Hypothesis Hinit : forall w, does w init (fun r _ => r = Ok tt).

Lemma local_init w (f : unit -> M unit) :
  (forall w', does w' (f tt) (fun _ _ => True)) -> does w (bind init_ok f) (fun _ _ => True).
Proof.
  intros Hf. destruct (Hinit w) as (r & w1 & Hr & ->).
  eapply local_run; [unfold init_ok; by eapply bind_step|apply Hf].
Qed.

Lemma uniform_passes bound (ok : Z -> bool) :
  (forall r, (if decide (bound < 2) then r = 0 else 0 <= r < bound) -> ok r = true) ->
  passes (let* _ := init_ok in let* r := randombytes_uniform bound in assert (ok r)).
Proof.
  intros Hok w. apply local_init. intros w1.
  destruct (randombytes_uniform_doc bound w1) as (r & n & Hr & Hb).
  eapply local_run; [exact Hr|]. apply does_assert. by apply Hok.
Qed.

Lemma test_randombytes_uniform_0_passes : passes test_randombytes_uniform_0.
Proof. apply (uniform_passes 0 (fun r => r =? 0)). intros r. by intros ->. Qed.
Lemma test_randombytes_uniform_1_passes : passes test_randombytes_uniform_1.
Proof. apply (uniform_passes 1 (fun r => r =? 0)). intros r. by intros ->. Qed.
Lemma test_randombytes_uniform_7_passes : passes test_randombytes_uniform_7.
Proof. apply (uniform_passes 7 (fun r => r <? 7)). intros r [_ Hr]. by apply Z.ltb_lt. Qed.

(** The bytes the seed determines go to a local. *)
Lemma local_expand {B} {Q : B -> world -> Prop} w m b bs s sb n (f : unit -> M B) :
  holds w m -> m !! b = Some bs -> n = zlen bs -> m !! s = Some sb -> zlen sb = SEEDBYTES ->
  (forall w', holds w' (<[b := expand_seed sb <$> seq 0 (Z.to_nat n)]> m) -> does w' (f tt) Q) ->
  does w (bind (randombytes_buf_deterministic_into (Slice (At b 0) n) (At s 0)) f) Q.
Proof.
  intros Hw Hb -> Hs Hsl Hf. eapply local_run; [|apply Hf; eapply holds_store; [exact Hw|exact Hb|]].
  - unfold randombytes_buf_deterministic_into. cbn [s_ptr s_len]. rewrite randombytes_buf_deterministic_doc.
    destruct (holds_ref w m s sb Hw Hs) as [Hp _], (holds_ref w m b bs Hw Hb) as [Hbp _].
    eapply bind_step; [by apply (read_run _ _ _ sb)|]. apply write_run. eapply in_range_bytes; [exact Hbp|].
    unfold zlen. rewrite length_fmap, length_seq. lia.
  - unfold zlen. rewrite length_fmap, length_seq. lia.
Qed.

Lemma test_randombytes_buf_deterministic_into_passes : passes test_randombytes_buf_deterministic_into.
Proof.
  intros w. apply local_init. intros w0.
  eapply local_place; [apply holds_empty|]. intros s w1 _ Hw1.
  eapply local_vec; [exact Hw1|reflexivity|]. intros x w2 Hx Hw2. fresh_facts.
  eapply local_vec; [exact Hw2|reflexivity|]. intros y w3 Hy Hw3. fresh_facts. sl.
  eapply local_expand; [exact Hw3|local_tac|done|local_tac|done|]. intros w4 Hw4.
  eapply local_expand; [exact Hw4|local_tac|done|local_tac|done|]. intros w5 Hw5.
  eapply local_contents; [exact Hw5|local_tac|unfold zlen; by rewrite length_fmap|].
  eapply local_contents; [exact Hw5|local_tac|unfold zlen; by rewrite length_fmap|].
  apply does_assert. by apply bool_decide_true.
Qed.

(** [randombytes_buf_deterministic()] fills a new vector. *)
Lemma local_deterministic {B} {Q : B -> world -> Prop} w m s sb n (f : vec -> M B) :
  holds w m -> m !! s = Some sb -> zlen sb = SEEDBYTES -> 0 <= n <= isize_max ->
  (forall b w', m !! b = None -> holds w' (<[b := expand_seed sb <$> seq 0 (Z.to_nat n)]> m) ->
     does w' (f (Vec b n n)) Q) ->
  does w (bind (randombytes_buf_deterministic n (At s 0)) f) Q.
Proof.
  intros Hw Hs Hsl Hn Hf. unfold randombytes_buf_deterministic, vec_zeroed. rewrite decide_True by lia.
  do 2 apply local_assoc. eapply local_alloc; [exact Hw|]. intros b w1 Hb Hw1. apply local_ret, local_assoc.
  assert (Hlen : n = zlen (zeros n)) by (rewrite zlen_zeros; lia).
  apply (local_expand w1 _ b (zeros n) s sb n (fun _ => bind (ret (Vec b n n)) f) Hw1);
    [local_tac|done|local_tac|done|].
  intros w2 Hw2. rewrite insert_insert_eq in Hw2. by apply local_ret, Hf.
Qed.

Lemma test_randombytes_buf_deterministic_passes : passes test_randombytes_buf_deterministic.
Proof.
  intros w. apply local_init. intros w0. pose proof isize_max_bounds.
  eapply local_place; [apply holds_empty|]. intros s w1 _ Hw1.
  eapply local_deterministic; [exact Hw1|local_tac|done|lia|]. intros x w2 Hx Hw2. fresh_facts.
  eapply local_deterministic; [exact Hw2|local_tac|done|lia|]. intros y w3 Hy Hw3. fresh_facts.
  eapply local_contents; [exact Hw3|local_tac|unfold zlen; by rewrite length_fmap|].
  eapply local_contents; [exact Hw3|local_tac|unfold zlen; by rewrite length_fmap|].
  apply does_assert. by apply bool_decide_true.
Qed.

(** The two seeds give the same bytes, or not. *)
Lemma test_randombytes_unique_settles :
  settles test_randombytes_buf_deterministic_unique_given_seed
    (expand_seed (seed_from 0) <$> seq 0 1024 <> expand_seed (seed_from 32) <$> seq 0 1024).
Proof.
  intros w. apply catch_settles, catch_bind. pose proof isize_max_bounds.
  destruct (Hinit w) as (r & w0 & Hr & ->). eapply local_run; [unfold init_ok; by eapply bind_step|].
  apply catch_bind. eapply local_place; [apply holds_empty|]. intros s w1 _ Hw1.
  apply catch_bind. eapply local_place; [exact Hw1|]. intros s2 w2 Hs2 Hw2. fresh_facts.
  apply catch_bind. eapply local_deterministic; [exact Hw2|local_tac|done|lia|]. intros x w3 Hx Hw3. fresh_facts.
  apply catch_bind. eapply local_deterministic; [exact Hw3|local_tac|done|lia|]. intros y w4 Hy Hw4. fresh_facts.
  apply catch_bind. eapply local_contents; [exact Hw4|local_tac|unfold zlen; by rewrite length_fmap|].
  apply catch_bind. eapply local_contents; [exact Hw4|local_tac|unfold zlen; by rewrite length_fmap|].
  apply catch_assert. intros _. by rewrite bool_decide_eq_true.
Qed.

End Pass.

(** ** The theorems *)

(** The tests of utils.rs that do not lock memory pass, for every implementation
    with the documented behaviour and every entropy. *)
Theorem utils_tests_pass `{T : Target} `{E : UtilsExterns} {D : UtilsDoc E}
    `{R : RandombytesExterns} {RD : RandombytesDoc R} :
  passes test_memcmp /\ passes test_increment_le_zero /\ passes test_increment_le_vectors /\
  passes test_increment_le_overflow /\ passes test_add_le_zero /\ passes test_add_le_vectors /\
  passes test_add_le_overflow /\ passes test_add_le_different_lengths.
Proof.
  split_and!.
  - exact test_memcmp_passes.
  - exact test_increment_le_zero_passes.
  - exact test_increment_le_vectors_passes.
  - exact test_increment_le_overflow_passes.
  - exact test_add_le_zero_passes.
  - exact test_add_le_vectors_passes.
  - exact test_add_le_overflow_passes.
  - exact test_add_le_different_lengths_passes.
Qed.

Lemma utils_tests_pass_witness :
  let E := Ref.utils in
  let R := Ref.randombytes in
  passes (@test_memcmp target64 E R) /\ passes (@test_increment_le_zero E) /\
  passes (@test_increment_le_vectors E) /\ passes (@test_increment_le_overflow E) /\
  passes (@test_add_le_zero E) /\ passes (@test_add_le_vectors E) /\
  passes (@test_add_le_overflow E) /\ passes (@test_add_le_different_lengths E).
Proof. apply (@utils_tests_pass target64 Ref.utils Ref.utils_doc Ref.randombytes Ref.randombytes_doc). Defined.

(** The tests of verify.rs pass, and those of randombytes.rs when libsodium can
    be initialised. *)
Theorem verify_randombytes_tests_pass `{T : Target} `{V : VerifyExterns} {VD : VerifyDoc V}
    `{R : RandombytesExterns} {RD : RandombytesDoc R} `{C : CoreExterns}
    (Hinit : forall w, does w init (fun r _ => r = Ok tt)) :
  passes test_verify_16 /\ passes test_verify_32 /\ passes test_verify_64 /\
  passes test_randombytes_uniform_0 /\ passes test_randombytes_uniform_1 /\
  passes test_randombytes_uniform_7 /\ passes test_randombytes_buf_deterministic /\
  passes test_randombytes_buf_deterministic_into.
Proof.
  split_and!.
  - exact test_verify_16_passes.
  - exact test_verify_32_passes.
  - exact test_verify_64_passes.
  - by apply test_randombytes_uniform_0_passes.
  - by apply test_randombytes_uniform_1_passes.
  - by apply test_randombytes_uniform_7_passes.
  - by apply test_randombytes_buf_deterministic_passes.
  - by apply test_randombytes_buf_deterministic_into_passes.
Qed.

(** A reference implementation of the other functions *)
Module RefCore.

Definition core : CoreExterns := {|
  sodium_library_version_major := ret 10;
  sodium_library_version_minor := ret 3;
  sodium_init := ret 0
|}.

Definition verify_bytes (n : Z) (x y : ptr) : M Z :=
  let* a := read x n in let* b := read y n in ret (if decide (a = b) then 0 else -1).

Definition verify : VerifyExterns := {|
  crypto_verify_16 := verify_bytes 16;
  crypto_verify_32 := verify_bytes 32;
  crypto_verify_64 := verify_bytes 64
|}.

Lemma verify_doc : VerifyDoc verify.
Proof. by split. Qed.

End RefCore.

Lemma verify_randombytes_tests_pass_witness :
  let V := RefCore.verify in
  let R := Ref.randombytes in
  let C := RefCore.core in
  passes (@test_verify_16 R V) /\ passes (@test_verify_32 R V) /\ passes (@test_verify_64 R V) /\
  passes (@test_randombytes_uniform_0 C R) /\ passes (@test_randombytes_uniform_1 C R) /\
  passes (@test_randombytes_uniform_7 C R) /\
  passes (@test_randombytes_buf_deterministic target64 C R) /\
  passes (@test_randombytes_buf_deterministic_into C R).
Proof.
  apply (@verify_randombytes_tests_pass target64 RefCore.verify RefCore.verify_doc Ref.randombytes
    Ref.randombytes_doc RefCore.core). intros w. by exists (Ok tt), w.
Defined.

(** The tests whose outcome is up to the generator and to the system pass exactly
    when two seeds give different bytes, when the vector can be locked and
    unlocked, and when memory above a limit that was lowered cannot be locked. *)
Theorem utils_tests_settle `{T : Target} `{R : RandombytesExterns} {RD : RandombytesDoc R} `{C : CoreExterns}
    `{K : MlockExterns} {KD : MlockDoc K} `{L : RlimitExterns} {LD : RlimitDoc L}
    (Hinit : forall w, does w init (fun r _ => r = Ok tt)) :
  settles test_randombytes_buf_deterministic_unique_given_seed
    (expand_seed (seed_from 0) <$> seq 0 1024 <> expand_seed (seed_from 32) <$> seq 0 1024) /\
  forall w, settles_at w test_mlock_munlock (lockable w 11 mlock_t /\ unlockable w 11 mlock_t) /\
    settles_at w test_mlock_fail (limited w).
Proof.
  split; [by apply test_randombytes_unique_settles|]. intros w.
  split; [apply test_mlock_munlock_settles|apply (test_mlock_fail_settles (LD := LD))].
Qed.

(** A system on which memory can be locked up to the limit *)
Module RefLock.

Definition mlock : MlockExterns := {|
  sodium_mlock p n := ret (if n <=? 16384 then 0 else -1);
  sodium_munlock p n := let* _ := write p (zeros n) in ret 0
|}.
Lemma mlock_doc : MlockDoc mlock.
Proof. split; [intros p n w; eauto|intros p n w; by exists 0]. Qed.

Definition rlimit : RlimitExterns := {| getrlimit _ := ret (0, (65536, 65536)); setrlimit _ := ret 0 |}.
Lemma rlimit_doc : RlimitDoc rlimit.
Proof. split; intros; eauto. Qed.

End RefLock.

Lemma utils_tests_settle_witness :
  let seeds := @expand_seed _ Ref.randombytes_doc in
  let K := RefLock.mlock in
  let L := RefLock.rlimit in
  settles (@test_randombytes_buf_deterministic_unique_given_seed target64 RefCore.core Ref.randombytes)
    (seeds (seed_from 0) <$> seq 0 1024 <> seeds (seed_from 32) <$> seq 0 1024) /\
  forall w, settles_at w (@test_mlock_munlock K) (lockable w 11 mlock_t /\ unlockable w 11 mlock_t) /\
    settles_at w (@test_mlock_fail target64 K L) (@limited K L w).
Proof.
  apply (@utils_tests_settle target64 Ref.randombytes Ref.randombytes_doc RefCore.core RefLock.mlock RefLock.mlock_doc
    RefLock.rlimit RefLock.rlimit_doc).
  intros w. by exists (Ok tt), w.
Defined.
