(* ===== verification/Primitives.v ===== *)
(** * The primitives libsodium implements, as the wrappers rely on them

    An authenticated cipher is a record of functions on byte strings with the
    laws libsodium documents (decryption inverts encryption, lengths).  The
    documented behaviour of libsodium's combined and detached functions is
    written once, as programs of [M] over such a cipher; the files of the
    components say which foreign function is which of these programs.

    Nothing here says how a cipher works or that it is secure: the wrappers'
    theorems hold for every cipher with these laws. *)

From S2P Require Export Newtypes.

Record cipher := Cipher {
  c_nonce : Z;
  c_tag : Z;
  c_enc : bytes (* key *) -> bytes (* nonce *) -> bytes -> bytes;
  c_dec : bytes (* key *) -> bytes (* nonce *) -> bytes -> bytes;
  c_mac : bytes (* key *) -> bytes (* nonce *) -> bytes (* additional data *) ->
          bytes (* ciphertext *) -> bytes
}.

Class CipherLaws (C : cipher) : Prop := {
  c_tag_range : 0 <= c_tag C <= 64;
  c_enc_zlen k n m : zlen (c_enc C k n m) = zlen m;
  c_dec_zlen k n c : zlen (c_dec C k n c) = zlen c;
  c_mac_zlen k n ad c : zlen (c_mac C k n ad c) = c_tag C;
  c_dec_enc k n m : c_dec C k n (c_enc C k n m) = m
}.

(** ** Combined and detached modes of [crypto_secretbox] and [crypto_box]:
    the tag comes first *)

Section Easy.
Context (C : cipher).

Definition easy_ct (kb nb mb : bytes) : bytes :=
  c_mac C kb nb [] (c_enc C kb nb mb) ++ c_enc C kb nb mb.

(** [crypto_*_easy(c, m, mlen, n, key)]: [m] and [c] may be the same. *)
Definition encrypt_easy (kb : bytes) (c m : ptr) (mlen : Z) (n : ptr) : M Z :=
  let* _ := restrict_inplace c (mlen + c_tag C) m mlen in
  let* mb := read m mlen in
  let* nb := read n (c_nonce C) in
  let* _ := write c (easy_ct kb nb mb) in
  ret 0.

(** [crypto_*_detached(c, mac, m, mlen, n, key)] *)
Definition encrypt_detached (kb : bytes) (c mac m : ptr) (mlen : Z) (n : ptr) : M Z :=
  let* _ := restrict_inplace c mlen m mlen in
  let* _ := restrict mac (c_tag C) c mlen in
  let* mb := read m mlen in
  let* nb := read n (c_nonce C) in
  let* _ := write c (c_enc C kb nb mb) in
  let* _ := write mac (c_mac C kb nb [] (c_enc C kb nb mb)) in
  ret 0.

(** What [crypto_*_open_easy] makes of a ciphertext. *)
Definition easy_open (kb nb cb : bytes) : option bytes :=
  let tag := take (Z.to_nat (c_tag C)) cb in
  let ct := drop (Z.to_nat (c_tag C)) cb in
  if decide (c_tag C <= zlen cb /\ tag = c_mac C kb nb [] ct) then Some (c_dec C kb nb ct) else None.

(** [crypto_*_open_easy(m, c, clen, n, key)]: nothing is written when the tag
    is wrong. *)
Definition decrypt_easy (kb : bytes) (m c : ptr) (clen : Z) (n : ptr) : M Z :=
  let* _ := restrict_inplace m (clen - c_tag C) c clen in
  let* cb := read c clen in
  let* nb := read n (c_nonce C) in
  match easy_open kb nb cb with
  | Some mb => let* _ := write m mb in ret 0
  | None => ret (-1)
  end.

(** [crypto_*_open_detached(m, c, mac, clen, n, key)] *)
Definition decrypt_detached (kb : bytes) (m c mac : ptr) (clen : Z) (n : ptr) : M Z :=
  let* _ := restrict_inplace m clen c clen in
  let* cb := read c clen in
  let* tag := read mac (c_tag C) in
  let* nb := read n (c_nonce C) in
  if decide (tag = c_mac C kb nb [] cb) then
    let* _ := write m (c_dec C kb nb cb) in ret 0
  else ret (-1).

Context {L : CipherLaws C}.

Lemma easy_ct_zlen kb nb mb : zlen (easy_ct kb nb mb) = zlen mb + c_tag C.
Proof. unfold easy_ct. rewrite zlen_app, c_mac_zlen, c_enc_zlen. lia. Qed.

Lemma easy_open_ct kb nb mb : easy_open kb nb (easy_ct kb nb mb) = Some mb.
Proof.
  unfold easy_open, easy_ct. pose proof c_tag_range.
  assert (Hl : length (c_mac C kb nb [] (c_enc C kb nb mb)) = Z.to_nat (c_tag C)).
  { rewrite <- to_nat_zlen, c_mac_zlen. done. }
  rewrite take_app_length', drop_app_length' by done.
  rewrite decide_True; [by rewrite c_dec_enc|].
  rewrite zlen_app, c_mac_zlen. split; [|done]. pose proof (zlen_nonneg (c_enc C kb nb mb)). lia.
Qed.

Lemma easy_open_zlen kb nb cb mb : easy_open kb nb cb = Some mb -> zlen mb = zlen cb - c_tag C.
Proof.
  unfold easy_open. pose proof c_tag_range. case_decide as Hd; [|done].
  intros; simplify_eq. rewrite c_dec_zlen. apply zlen_drop. lia.
Qed.

(** Opening in combined mode is opening the two parts in detached mode. *)
Lemma easy_open_app kb nb tag ct :
  zlen tag = c_tag C ->
  easy_open kb nb (tag ++ ct) =
    if decide (tag = c_mac C kb nb [] ct) then Some (c_dec C kb nb ct) else None.
Proof.
  intros Ht. unfold easy_open. assert (Hl : length tag = Z.to_nat (c_tag C)).
  { by rewrite <- Ht, to_nat_zlen. }
  rewrite take_app_length', drop_app_length' by done. pose proof (zlen_nonneg ct).
  destruct (decide (tag = _)) as [He|He]; [rewrite decide_True|rewrite decide_False]; try done.
  - split; [|done]. rewrite zlen_app. lia.
  - tauto.
Qed.

Lemma encrypt_easy_run kb c m mlen n w mb nb :
  bytes_at w m mb -> zlen mb = mlen -> is_ref w n (c_nonce C) nb ->
  c = m \/ apart c (mlen + c_tag C) m mlen = true -> in_range w c (mlen + c_tag C) ->
  encrypt_easy kb c m mlen n w = Done 0 (w_write c (easy_ct kb nb mb) w).
Proof.
  intros Hm Hl [Hn Hnl] Hap Hc. unfold encrypt_easy.
  eapply bind_step; [by apply restrict_inplace_run|].
  do 2 step. eapply bind_step; [|done].
  apply write_run. by rewrite easy_ct_zlen, Hl.
Qed.

Lemma encrypt_detached_run kb c mac m mlen n w mb nb :
  bytes_at w m mb -> zlen mb = mlen -> is_ref w n (c_nonce C) nb ->
  c = m \/ apart c mlen m mlen = true -> apart mac (c_tag C) c mlen = true ->
  in_range w c mlen -> in_range w mac (c_tag C) ->
  encrypt_detached kb c mac m mlen n w =
    Done 0 (w_write mac (c_mac C kb nb [] (c_enc C kb nb mb)) (w_write c (c_enc C kb nb mb) w)).
Proof.
  intros Hm Hl [Hn Hnl] Hap Hap' Hc Hmac. unfold encrypt_detached.
  eapply bind_step; [by apply restrict_inplace_run|].
  do 3 step. eapply bind_step; [apply write_run; by rewrite c_enc_zlen, Hl|].
  eapply bind_step; [|done]. apply write_run. rewrite c_mac_zlen. by apply in_range_write_same.
Qed.

Lemma decrypt_easy_run kb m c clen n w cb nb :
  bytes_at w c cb -> zlen cb = clen -> is_ref w n (c_nonce C) nb ->
  m = c \/ apart m (clen - c_tag C) c clen = true -> in_range w m (clen - c_tag C) ->
  decrypt_easy kb m c clen n w =
    match easy_open kb nb cb with
    | Some mb => Done 0 (w_write m mb w)
    | None => Done (-1) w
    end.
Proof.
  intros Hc Hl [Hn Hnl] Hap Hm. unfold decrypt_easy.
  eapply bind_step; [by apply restrict_inplace_run|].
  do 2 step. destruct (easy_open kb nb cb) as [mb|] eqn:E; [|done].
  eapply bind_step; [|done]. apply write_run. by rewrite (easy_open_zlen _ _ _ _ E), Hl.
Qed.

Lemma decrypt_detached_run kb m c mac clen n w cb tag nb :
  bytes_at w c cb -> zlen cb = clen -> is_ref w mac (c_tag C) tag -> is_ref w n (c_nonce C) nb ->
  m = c \/ apart m clen c clen = true -> in_range w m clen ->
  decrypt_detached kb m c mac clen n w =
    if decide (tag = c_mac C kb nb [] cb) then Done 0 (w_write m (c_dec C kb nb cb) w)
    else Done (-1) w.
Proof.
  intros Hc Hl [Ht Htl] [Hn Hnl] Hap Hm. unfold decrypt_detached.
  eapply bind_step; [by apply restrict_inplace_run|].
  do 3 step. case_decide; [|done].
  eapply bind_step; [|done]. apply write_run. by rewrite c_dec_zlen, Hl.
Qed.

(** The same programs on the wrappers' own buffers: a new vector of the
    right capacity, or the caller's buffer and a tag on the stack. *)
Lemma encrypt_easy_fresh kb b m mlen n cap w mb nb :
  w_mem w !! b = None -> bytes_at w m mb -> zlen mb = mlen -> is_ref w n (c_nonce C) nb ->
  cap = mlen + c_tag C ->
  encrypt_easy kb (At b 0) m mlen n (w_put b (replicate (Z.to_nat cap) None) w) =
    Done 0 (w_put b (Some <$> easy_ct kb nb mb) w).
Proof.
  intros Hb Hm Hl Hn ->. pose proof c_tag_range.
  rewrite (encrypt_easy_run kb (At b 0) m mlen n _ mb nb) by
    (first [done | by right; mem_tac | by apply is_ref_put_fresh | mem_tac]).
  by rewrite w_write_uninit by (by rewrite easy_ct_zlen, Hl).
Qed.

Lemma decrypt_easy_fresh kb b c clen n cap w cb nb :
  w_mem w !! b = None -> bytes_at w c cb -> zlen cb = clen -> is_ref w n (c_nonce C) nb ->
  cap = clen - c_tag C -> 0 <= cap ->
  decrypt_easy kb (At b 0) c clen n (w_put b (replicate (Z.to_nat cap) None) w) =
    match easy_open kb nb cb with
    | Some mb => Done 0 (w_put b (Some <$> mb) w)
    | None => Done (-1) (w_put b (replicate (Z.to_nat cap) None) w)
    end.
Proof.
  intros Hb Hc Hl Hn -> Hcap. pose proof c_tag_range.
  rewrite (decrypt_easy_run kb (At b 0) c clen n _ cb nb) by
    (first [done | by right; mem_tac | by apply is_ref_put_fresh | mem_tac]).
  destruct (easy_open kb nb cb) as [mb|] eqn:E; [|done].
  by rewrite w_write_uninit by (by rewrite (easy_open_zlen _ _ _ _ E), Hl).
Qed.

Lemma encrypt_detached_stack kb m mlen n tagb b w mb nb :
  w_mem w !! b = None -> bytes_at w m mb -> zlen mb = mlen -> is_ref w n (c_nonce C) nb ->
  tagb = c_tag C ->
  encrypt_detached kb m (At b 0) m mlen n (w_put b (Some <$> zeros tagb) w) =
    Done 0 (w_put b (Some <$> c_mac C kb nb [] (c_enc C kb nb mb)) (w_write m (c_enc C kb nb mb) w)).
Proof.
  intros Hb Hm Hl Hn ->. pose proof c_tag_range.
  rewrite (encrypt_detached_run kb m (At b 0) m mlen n _ mb nb) by
    (first [done | by left | by apply is_ref_put_fresh | mem_tac]).
  rewrite w_write_put_fresh by (rewrite ?c_enc_zlen; mem_tac).
  by rewrite w_write_zeroed by apply c_mac_zlen.
Qed.

End Easy.

(** ** [crypto_aead]: the tag comes last *)

Section Aead.
Context (C : cipher).

(** What a failed decryption leaves in the output buffer is not documented:
    it is a parameter. *)
Context (junk : bytes -> bytes).

Definition aead_ct (kb nb ad mb : bytes) : bytes :=
  c_enc C kb nb mb ++ c_mac C kb nb ad (c_enc C kb nb mb).

Definition aead_encrypt (keybytes : Z) : aead_encrypt_fn := fun c clen m mlen ad adlen nsec npub k =>
  let* _ := restrict_inplace c (mlen + c_tag C) m mlen in
  let* mb := read m mlen in
  let* adb := read ad adlen in
  let* nb := read npub (c_nonce C) in
  let* kb := read k keybytes in
  let* _ := write c (aead_ct kb nb adb mb) in
  ret (0, mlen + c_tag C).

Definition aead_open (kb nb ad cb : bytes) : option bytes :=
  let mlen := Z.to_nat (zlen cb - c_tag C) in
  let ct := take mlen cb in
  let tag := drop mlen cb in
  if decide (c_tag C <= zlen cb /\ tag = c_mac C kb nb ad ct) then Some (c_dec C kb nb ct) else None.

Definition aead_decrypt (keybytes : Z) : aead_decrypt_fn := fun m mlen nsec c clen ad adlen npub k =>
  if decide (clen < c_tag C) then ret (-1, 0)
  else
    let* _ := restrict_inplace m (clen - c_tag C) c clen in
    let* cb := read c clen in
    let* adb := read ad adlen in
    let* nb := read npub (c_nonce C) in
    let* kb := read k keybytes in
    match aead_open kb nb adb cb with
    | Some mb => let* _ := write m mb in ret (0, clen - c_tag C)
    | None => let* _ := write m (junk (take (Z.to_nat (clen - c_tag C)) cb)) in ret (-1, 0)
    end.

Definition aead_encrypt_detached (keybytes : Z) : aead_encrypt_detached_fn :=
  fun c mac maclen m mlen ad adlen nsec npub k =>
  let* _ := restrict_inplace c mlen m mlen in
  let* _ := restrict mac (c_tag C) c mlen in
  let* mb := read m mlen in
  let* adb := read ad adlen in
  let* nb := read npub (c_nonce C) in
  let* kb := read k keybytes in
  let* _ := write c (c_enc C kb nb mb) in
  let* _ := write mac (c_mac C kb nb adb (c_enc C kb nb mb)) in
  ret (0, c_tag C).

Definition aead_decrypt_detached (keybytes : Z) : aead_decrypt_detached_fn :=
  fun m nsec c clen mac ad adlen npub k =>
  let* _ := restrict_inplace m clen c clen in
  let* cb := read c clen in
  let* tag := read mac (c_tag C) in
  let* adb := read ad adlen in
  let* nb := read npub (c_nonce C) in
  let* kb := read k keybytes in
  if decide (tag = c_mac C kb nb adb cb) then
    let* _ := write m (c_dec C kb nb cb) in ret 0
  else
    let* _ := write m (junk cb) in ret (-1).

Context {L : CipherLaws C}.

Lemma aead_ct_zlen kb nb ad mb : zlen (aead_ct kb nb ad mb) = zlen mb + c_tag C.
Proof. unfold aead_ct. by rewrite zlen_app, c_mac_zlen, c_enc_zlen. Qed.

Lemma aead_open_app kb nb ad ct tag :
  zlen tag = c_tag C ->
  aead_open kb nb ad (ct ++ tag) =
    if decide (tag = c_mac C kb nb ad ct) then Some (c_dec C kb nb ct) else None.
Proof.
  clear junk. intros Ht. unfold aead_open. pose proof (zlen_nonneg ct).
  replace (Z.to_nat (zlen (ct ++ tag) - c_tag C)) with (length ct)
    by (rewrite zlen_app, Ht, <- to_nat_zlen; f_equal; lia).
  rewrite take_app_length, drop_app_length.
  destruct (decide (tag = _)) as [He|He]; [rewrite decide_True|rewrite decide_False]; try done.
  - split; [|done]. rewrite zlen_app. lia.
  - tauto.
Qed.

Lemma aead_open_ct kb nb ad mb : aead_open kb nb ad (aead_ct kb nb ad mb) = Some mb.
Proof.
  unfold aead_ct. rewrite aead_open_app by apply c_mac_zlen.
  by rewrite decide_True, c_dec_enc.
Qed.

Lemma aead_open_zlen kb nb ad cb mb :
  aead_open kb nb ad cb = Some mb -> zlen mb = zlen cb - c_tag C.
Proof.
  unfold aead_open. pose proof c_tag_range. case_decide as Hd; [|done].
  intros; simplify_eq. rewrite c_dec_zlen. apply zlen_take. lia.
Qed.

Lemma aead_encrypt_run kl c cl m mlen ad adlen nsec n k w mb adb nb kb :
  bytes_at w m mb -> zlen mb = mlen -> bytes_at w ad adb -> zlen adb = adlen ->
  is_ref w n (c_nonce C) nb -> is_ref w k kl kb ->
  c = m \/ apart c (mlen + c_tag C) m mlen = true -> in_range w c (mlen + c_tag C) ->
  aead_encrypt kl c cl m mlen ad adlen nsec n k w =
    Done (0, mlen + c_tag C) (w_write c (aead_ct kb nb adb mb) w).
Proof.
  intros Hm Hl Had Hadl [Hn Hnl] [Hk Hkl] Hap Hc. unfold aead_encrypt.
  eapply bind_step; [by apply restrict_inplace_run|].
  do 4 step. eapply bind_step; [|done].
  apply write_run. by rewrite aead_ct_zlen, Hl.
Qed.

Lemma aead_encrypt_detached_run kl c mac macl m mlen ad adlen nsec n k w mb adb nb kb :
  bytes_at w m mb -> zlen mb = mlen -> bytes_at w ad adb -> zlen adb = adlen ->
  is_ref w n (c_nonce C) nb -> is_ref w k kl kb ->
  c = m \/ apart c mlen m mlen = true -> apart mac (c_tag C) c mlen = true ->
  in_range w c mlen -> in_range w mac (c_tag C) ->
  aead_encrypt_detached kl c mac macl m mlen ad adlen nsec n k w =
    Done (0, c_tag C)
      (w_write mac (c_mac C kb nb adb (c_enc C kb nb mb)) (w_write c (c_enc C kb nb mb) w)).
Proof.
  intros Hm Hl Had Hadl [Hn Hnl] [Hk Hkl] Hap Hap' Hc Hmac. unfold aead_encrypt_detached.
  eapply bind_step; [by apply restrict_inplace_run|].
  do 5 step. eapply bind_step; [apply write_run; by rewrite c_enc_zlen, Hl|].
  eapply bind_step; [|done]. apply write_run. rewrite c_mac_zlen. by apply in_range_write_same.
Qed.

Hypothesis junk_zlen : forall c, zlen (junk c) = zlen c.

Lemma aead_decrypt_run kl m ml nsec c clen ad adlen n k w cb adb nb kb :
  c_tag C <= clen -> bytes_at w c cb -> zlen cb = clen -> bytes_at w ad adb -> zlen adb = adlen ->
  is_ref w n (c_nonce C) nb -> is_ref w k kl kb ->
  m = c \/ apart m (clen - c_tag C) c clen = true -> in_range w m (clen - c_tag C) ->
  aead_decrypt kl m ml nsec c clen ad adlen n k w =
    match aead_open kb nb adb cb with
    | Some mb => Done (0, clen - c_tag C) (w_write m mb w)
    | None => Done (-1, 0) (w_write m (junk (take (Z.to_nat (clen - c_tag C)) cb)) w)
    end.
Proof.
  intros Htag Hc Hl Had Hadl [Hn Hnl] [Hk Hkl] Hap Hm. unfold aead_decrypt.
  rewrite decide_False by lia. pose proof c_tag_range.
  eapply bind_step; [by apply restrict_inplace_run|].
  do 4 step. destruct (aead_open kb nb adb cb) as [mb|] eqn:Eo;
    (eapply bind_step; [|done]); apply write_run.
  - by rewrite (aead_open_zlen _ _ _ _ _ Eo), Hl.
  - rewrite junk_zlen, zlen_take by lia. done.
Qed.

Lemma aead_decrypt_detached_run kl m nsec c clen mac ad adlen n k w cb tag adb nb kb :
  bytes_at w c cb -> zlen cb = clen -> is_ref w mac (c_tag C) tag ->
  bytes_at w ad adb -> zlen adb = adlen ->
  is_ref w n (c_nonce C) nb -> is_ref w k kl kb ->
  m = c \/ apart m clen c clen = true -> in_range w m clen ->
  aead_decrypt_detached kl m nsec c clen mac ad adlen n k w =
    if decide (tag = c_mac C kb nb adb cb) then Done 0 (w_write m (c_dec C kb nb cb) w)
    else Done (-1) (w_write m (junk cb) w).
Proof.
  intros Hc Hl [Ht Htl] Had Hadl [Hn Hnl] [Hk Hkl] Hap Hm. unfold aead_decrypt_detached.
  eapply bind_step; [by apply restrict_inplace_run|].
  do 5 step. case_decide; (eapply bind_step; [|done]); apply write_run.
  - by rewrite c_dec_zlen, Hl.
  - by rewrite junk_zlen, Hl.
Qed.

End Aead.

(** ** A reference cipher, for examples *)

Module RefCipher.

Definition pad (k n : bytes) : byte := byte_xor (default x00 (head k)) (default x00 (head n)).
Definition sum (bs : bytes) : Z := foldr (fun b s => byte_val b + 3 * s) 1 bs.

Definition cipher (nonce tag : Z) : cipher := {|
  c_nonce := nonce;
  c_tag := tag;
  c_enc k n m := (fun b => byte_xor b (pad k n)) <$> m;
  c_dec k n c := (fun b => byte_xor b (pad k n)) <$> c;
  c_mac k n ad c := le_bytes (Z.to_nat tag) (sum k + 5 * sum n + 7 * sum ad + 11 * sum c)
|}.

Lemma laws nonce tag : 0 <= tag <= 64 -> CipherLaws (cipher nonce tag).
Proof.
  intros Ht. split; [done|intros; cbn; zlia..|].
  intros k n m. cbn. rewrite <- list_fmap_compose.
  rewrite <- (list_fmap_id m) at 2. apply list_fmap_ext. intros i b _. cbn.
  apply byte_xor_cancel.
Qed.

End RefCipher.
