(* ===== verification/Secretbox.v ===== *)
(** * src/crypto/secretbox/xsalsa20poly1305.rs: secret-key authenticated encryption

    The wrappers in combined and detached mode, the documented behaviour of the
    foreign functions ([SecretboxDoc]), one [_run] lemma per wrapper, and the
    properties of the programs clients write with them. *)

From S2P Require Export Primitives.

(** What libsodium documents of [crypto_secretbox]: an authenticated cipher,
    in combined mode (tag first) and in detached mode. *)
Class SecretboxDoc (E : SecretboxExterns) := {
  secretbox_cipher : cipher;
  secretbox_nonce : c_nonce secretbox_cipher = 24;
  secretbox_tag : c_tag secretbox_cipher = 16;
  secretbox_laws :: CipherLaws secretbox_cipher;
  crypto_secretbox_easy_doc c m mlen n k :
    crypto_secretbox_easy c m mlen n k =
      (let* kb := read k 32 in encrypt_easy secretbox_cipher kb c m mlen n);
  crypto_secretbox_detached_doc c mac m mlen n k :
    crypto_secretbox_detached c mac m mlen n k =
      (let* kb := read k 32 in encrypt_detached secretbox_cipher kb c mac m mlen n);
  crypto_secretbox_open_easy_doc m c clen n k :
    crypto_secretbox_open_easy m c clen n k =
      (let* kb := read k 32 in decrypt_easy secretbox_cipher kb m c clen n);
  crypto_secretbox_open_detached_doc m c mac clen n k :
    crypto_secretbox_open_detached m c mac clen n k =
      (let* kb := read k 32 in decrypt_detached secretbox_cipher kb m c mac clen n)
}.

Module secretbox.

Definition KEYBYTES : Z := crypto_secretbox_xsalsa20poly1305_KEYBYTES.
Definition NONCEBYTES : Z := crypto_secretbox_xsalsa20poly1305_NONCEBYTES.
Definition MACBYTES : Z := crypto_secretbox_xsalsa20poly1305_MACBYTES.

Definition Key : newtype := NewType secret "Key" KEYBYTES.
Definition Tag : newtype := NewType public "Tag" MACBYTES.
Definition Nonce : newtype := NewType nonce "Nonce" NONCEBYTES.

Section Functions.
Context `{Target}.

Definition gen_key `{RandombytesExterns} : M bytes :=
  let* key := stack_array KEYBYTES in
  let* _ := randombytes_into (Slice (At key 0) KEYBYTES) in
  move_out key.

Definition gen_nonce `{RandombytesExterns} : M bytes := NewType.gen_random_nonce Nonce.

Context `{SecretboxExterns}.

Definition seal (m : slice) (n k : ptr) : M vec :=
  let* clen := usize_add (s_len m) MACBYTES in
  let* c := vec_with_capacity clen in
  let* _ := crypto_secretbox_easy (v_ptr c) (s_ptr m) (s_len m) n k in
  vec_set_len c clen.

Definition seal_detached (m : slice) (n k : ptr) : M bytes :=
  let* tag := stack_array MACBYTES in
  let* _ := crypto_secretbox_detached (s_ptr m) (At tag 0) (s_ptr m) (s_len m) n k in
  move_out tag.

Definition open (c : slice) (n k : ptr) : M (result vec) :=
  if s_len c <? MACBYTES then ret Err
  else
    let mlen := s_len c - MACBYTES in
    let* m := vec_with_capacity mlen in
    let* rc := crypto_secretbox_open_easy (v_ptr m) (s_ptr c) (s_len c) n k in
    if rc =? 0 then let* m := vec_set_len m mlen in ret (Ok m)
    else let* _ := vec_drop m in ret Err.

Definition open_detached (c : slice) (tag n k : ptr) : M (result unit) :=
  let* rc := crypto_secretbox_open_detached (s_ptr c) (s_ptr c) tag (s_len c) n k in
  if rc =? 0 then ret (Ok tt) else ret Err.

End Functions.

(** ** What the wrappers do *)

Section Facts.
Context `{T : Target} `{E : SecretboxExterns} {D : SecretboxDoc E}.

Abbreviation C := secretbox_cipher.

Lemma secretbox_seal_run w m n k mb nb kb :
  is_slice w m mb -> zlen mb + 16 <= isize_max -> is_ref w n 24 nb -> is_ref w k 32 kb ->
  seal m n k w =
    Done (Vec (fresh_block w) (zlen mb + 16) (zlen mb + 16))
         (w_put (fresh_block w) (Some <$> easy_ct C kb nb mb) w).
Proof.
  intros Hm Hsz Hn Hk. open_args. unfold seal.
  replace (s_len m) with (zlen mb) by done. change MACBYTES with 16.
  step. step. simpl_vec. eapply bind_step.
  { rewrite crypto_secretbox_easy_doc. step.
    apply (encrypt_easy_fresh C kb b _ _ _ _ w mb nb); [done..| |by rewrite secretbox_tag].
    by rewrite secretbox_nonce. }
  rewrite vec_set_len_filled; [by subst|]. by rewrite (easy_ct_zlen C), secretbox_tag.
Qed.

Lemma secretbox_open_run w c n k cb nb kb :
  is_slice w c cb -> is_ref w n 24 nb -> is_ref w k 32 kb ->
  open c n k w =
    if decide (zlen cb < 16) then Done Err w
    else match easy_open C kb nb cb with
    | Some mb => Done (Ok (Vec (fresh_block w) (zlen cb - 16) (zlen cb - 16)))
                      (w_put (fresh_block w) (Some <$> mb) w)
    | None => Done Err (w_with (env_drop (replicate (Z.to_nat (zlen cb - 16)) None) (w_env w)) w)
    end.
Proof.
  intros Hc Hn Hk. open_args. unfold open.
  replace (s_len c) with (zlen cb) by done. change MACBYTES with 16.
  case_decide as Hs; [by rewrite (proj2 (Z.ltb_lt _ _))|].
  rewrite (proj2 (Z.ltb_ge _ _)) by lia. step. simpl_vec.
  rewrite crypto_secretbox_open_easy_doc. step.
  unfold bind. rewrite (decrypt_easy_fresh C kb b _ _ _ _ w cb nb) by
    (rewrite ?secretbox_nonce, ?secretbox_tag; done || lia).
  destruct (easy_open C kb nb cb) as [mb|] eqn:Eo; cbn [Z.eqb].
  - pose proof (easy_open_zlen C _ _ _ _ Eo) as Hl. rewrite secretbox_tag in Hl.
    rewrite vec_set_len_filled by done. by subst.
  - unfold vec_drop. cbn [v_block]. by rewrite free_put_run.
Qed.

Lemma secretbox_seal_detached_run w m n k mb nb kb :
  is_slice w m mb -> is_ref w n 24 nb -> is_ref w k 32 kb ->
  seal_detached m n k w =
    Done (c_mac C kb nb [] (c_enc C kb nb mb)) (w_write (s_ptr m) (c_enc C kb nb mb) w).
Proof.
  intros Hm Hn Hk. open_args. unfold seal_detached.
  replace (s_len m) with (zlen mb) by done. change MACBYTES with 16. step.
  rewrite crypto_secretbox_detached_doc. step.
  eapply bind_step.
  { apply (encrypt_detached_stack C kb _ _ _ _ b w mb nb); [done..| |by rewrite secretbox_tag].
    by rewrite secretbox_nonce. }
  apply move_out_put_run. mem_tac.
Qed.

Lemma secretbox_open_detached_run w c t n k cb tb nb kb :
  is_slice w c cb -> is_ref w t 16 tb -> is_ref w n 24 nb -> is_ref w k 32 kb ->
  open_detached c t n k w =
    if decide (tb = c_mac C kb nb [] cb) then Done (Ok tt) (w_write (s_ptr c) (c_dec C kb nb cb) w)
    else Done Err w.
Proof.
  intros Hc Ht Hn Hk. open_args. unfold open_detached.
  replace (s_len c) with (zlen cb) by done.
  rewrite crypto_secretbox_open_detached_doc. step. unfold bind.
  rewrite (decrypt_detached_run C kb _ (s_ptr c) t (zlen cb) n w cb tb nb).
  - by case_decide.
  - done.
  - done.
  - by rewrite secretbox_tag.
  - by rewrite secretbox_nonce.
  - by left.
  - mem_tac.
Qed.

End Facts.

End secretbox.

(** ** A reference [crypto_secretbox], and a process that uses it *)

Module RefSecretbox.

Definition C : cipher := RefCipher.cipher 24 16.

Definition externs : SecretboxExterns := {|
  crypto_secretbox_easy c m mlen n k := let* kb := read k 32 in encrypt_easy C kb c m mlen n;
  crypto_secretbox_open_easy m c clen n k := let* kb := read k 32 in decrypt_easy C kb m c clen n;
  crypto_secretbox_detached c mac m mlen n k :=
    let* kb := read k 32 in encrypt_detached C kb c mac m mlen n;
  crypto_secretbox_open_detached m c mac clen n k :=
    let* kb := read k 32 in decrypt_detached C kb m c mac clen n
|}.

#[refine] Definition doc : SecretboxDoc externs := {| secretbox_cipher := C |}.
Proof. all: try reflexivity. apply RefCipher.laws. lia. Defined.

Definition msg : bytes := [x48; x69; x21].
Definition nb : bytes := replicate 24 x05.
Definition kb : bytes := replicate 32 x2a.
Definition w : world := Ref.world [msg; nb; kb].
Definition m : slice := Slice (At 1 0) 3.

End RefSecretbox.

(** ** Properties *)

Section Programs.
Context `{T : Target} `{E : SecretboxExterns}.

(** The two round trips of a client. *)
Definition secretbox_seal_open (m : slice) (n k : ptr) : M (result vec) :=
  let* c := secretbox.seal m n k in secretbox.open (v_slice c) n k.

Definition secretbox_detached_roundtrip (m : slice) (n k : ptr) : M (result unit) :=
  let* t := secretbox.seal_detached m n k in
  let* tp := place t in
  let* r := secretbox.open_detached m (At tp 0) n k in
  let* _ := move_out tp in
  ret r.

End Programs.

(** C18. [seal()] returns a vector of exactly [m.len() + MACBYTES] initialised
    bytes holding the tag and then the ciphertext, changes nothing else, and
    never reads or writes out of bounds; it panics, instead of allocating too
    little, exactly when that length is not a possible allocation. *)
Theorem secretbox_seal_spec `{T : Target} `{E : SecretboxExterns} {D : SecretboxDoc E} w m n k mb nb kb
    (Hm : is_slice w m mb) (Hn : is_ref w n 24 nb) (Hk : is_ref w k 32 kb) :
  secretbox.seal m n k w =
    if decide (zlen mb + secretbox.MACBYTES <= isize_max) then
      Done (Vec (fresh_block w) (zlen mb + 16) (zlen mb + 16))
           (w_put (fresh_block w)
              (Some <$> c_mac secretbox_cipher kb nb [] (c_enc secretbox_cipher kb nb mb) ++
                        c_enc secretbox_cipher kb nb mb) w)
    else Panicked.
Proof.
  change secretbox.MACBYTES with 16. case_decide as Hd.
  - rewrite (secretbox.secretbox_seal_run w m n k mb nb kb) by done. done.
  - pose proof isize_max_bounds. destruct Hm as (_ & Hl & Hle).
    unfold secretbox.seal. change secretbox.MACBYTES with 16.
    eapply bind_step; [apply usize_add_run; zlia|].
    apply bind_panicked, vec_with_capacity_panic. lia.
Qed.

Lemma secretbox_seal_spec_witness :
  @secretbox.seal target64 RefSecretbox.externs RefSecretbox.m (At 2 0) (At 3 0) RefSecretbox.w =
    Done (Vec 4 19 19)
      (w_put 4 (Some <$> easy_ct RefSecretbox.C RefSecretbox.kb RefSecretbox.nb RefSecretbox.msg)
         RefSecretbox.w).
Proof.
  rewrite (@secretbox_seal_spec target64 RefSecretbox.externs RefSecretbox.doc RefSecretbox.w
    RefSecretbox.m (At 2 0) (At 3 0) RefSecretbox.msg RefSecretbox.nb RefSecretbox.kb);
    [reflexivity|Ref.concrete..].
Defined.

(** C1. Opening what [seal()] returned gives back the message, in a vector of
    its length; nothing the caller had in memory changes. *)
Theorem secretbox_roundtrip `{T : Target} `{E : SecretboxExterns} {D : SecretboxDoc E} w m n k mb nb kb
    (Hm : is_slice w m mb) (Hsz : zlen mb + 16 <= isize_max)
    (Hn : is_ref w n 24 nb) (Hk : is_ref w k 32 kb) :
  exists v w', secretbox_seal_open m n k w = Done (Ok v) w' /\ is_vec w' v mb /\
    forall p bs, bytes_at w p bs -> bytes_at w' p bs.
Proof.
  set (b := fresh_block w). pose proof (fresh_block_spec w) as Hb.
  set (w1 := w_put b (Some <$> easy_ct secretbox_cipher kb nb mb) w).
  pose proof (easy_ct_zlen secretbox_cipher kb nb mb) as Hl. rewrite secretbox_tag in Hl.
  exists (Vec (fresh_block w1) (zlen mb) (zlen mb)), (w_put (fresh_block w1) (Some <$> mb) w1).
  split_and!.
  - unfold secretbox_seal_open.
    eapply bind_step; [by apply (secretbox.secretbox_seal_run w m n k mb nb kb)|]. fold b w1.
    rewrite (secretbox.secretbox_open_run w1 _ n k (easy_ct secretbox_cipher kb nb mb) nb kb).
    + rewrite decide_False by zlia. rewrite easy_open_ct by apply _. do 3 f_equal; lia.
    + apply is_vec_slice. rewrite <- Hl. apply is_vec_put. lia.
    + by apply is_ref_put_fresh.
    + by apply is_ref_put_fresh.
  - apply is_vec_put. zlia.
  - intros p bs Hp. apply bytes_at_put_fresh; [apply fresh_block_spec|].
    by apply bytes_at_put_fresh.
Qed.

Lemma secretbox_roundtrip_witness :
  exists v w', @secretbox_seal_open target64 RefSecretbox.externs RefSecretbox.m (At 2 0) (At 3 0)
                 RefSecretbox.w = Done (Ok v) w' /\ @is_vec target64 w' v RefSecretbox.msg /\
    forall p bs, bytes_at RefSecretbox.w p bs -> bytes_at w' p bs.
Proof.
  apply (@secretbox_roundtrip target64 RefSecretbox.externs RefSecretbox.doc RefSecretbox.w
    RefSecretbox.m (At 2 0) (At 3 0) RefSecretbox.msg RefSecretbox.nb RefSecretbox.kb);
    Ref.concrete.
Defined.

(** C2. Every branch of [open()]: a ciphertext shorter than the tag is
    rejected before anything is allocated; otherwise the call succeeds if and
    only if the first [MACBYTES] bytes are the tag of the rest, and returns
    the decryption of the rest; when it is rejected, the buffer that is
    dropped never held a byte of plaintext. *)
Theorem secretbox_open_spec `{T : Target} `{E : SecretboxExterns} {D : SecretboxDoc E} w c n k tb cb nb kb
    (Hc : is_slice w c (tb ++ cb)) (Ht : zlen tb = Z.min 16 (zlen (tb ++ cb)))
    (Hn : is_ref w n 24 nb) (Hk : is_ref w k 32 kb) :
  secretbox.open c n k w =
    if decide (zlen (tb ++ cb) < secretbox.MACBYTES) then Done Err w
    else if decide (tb = c_mac secretbox_cipher kb nb [] cb) then
      Done (Ok (Vec (fresh_block w) (zlen cb) (zlen cb)))
           (w_put (fresh_block w) (Some <$> c_dec secretbox_cipher kb nb cb) w)
    else Done Err (w_with (env_drop (replicate (length cb) None) (w_env w)) w).
Proof.
  rewrite (secretbox.secretbox_open_run w c n k (tb ++ cb) nb kb) by done.
  change secretbox.MACBYTES with 16. case_decide as Hs; [done|].
  assert (Hl : zlen (tb ++ cb) - 16 = zlen cb) by (rewrite zlen_app in *; lia).
  rewrite Hl, easy_open_app by (rewrite ?secretbox_tag; apply _ || lia).
  case_decide; [done|]. by rewrite to_nat_zlen.
Qed.

Lemma secretbox_open_spec_witness :
  let w := Ref.world [replicate 16 x00 ++ [x01; x02]; RefSecretbox.nb; RefSecretbox.kb] in
  @secretbox.open target64 RefSecretbox.externs (Slice (At 1 0) 18) (At 2 0) (At 3 0) w =
    Done Err (w_with (env_drop [None; None] (w_env w)) w).
Proof.
  intros w.
  rewrite (@secretbox_open_spec target64 RefSecretbox.externs RefSecretbox.doc w
    (Slice (At 1 0) 18) (At 2 0) (At 3 0) (replicate 16 x00) [x01; x02]
    RefSecretbox.nb RefSecretbox.kb); [reflexivity|Ref.concrete..].
Defined.

(** The detached mode computes the same bytes as the combined mode, in
    place: after [seal_detached()] the buffer holds [ct] and the tag is [t]
    where [seal()] returns [t ++ ct]. *)
Theorem secretbox_modes_agree `{T : Target} `{E : SecretboxExterns} {D : SecretboxDoc E} w m n k mb nb kb
    (Hm : is_slice w m mb) (Hsz : zlen mb + 16 <= isize_max)
    (Hn : is_ref w n 24 nb) (Hk : is_ref w k 32 kb) :
  exists v t ct w1 w2,
    secretbox.seal m n k w = Done v w1 /\ is_vec w1 v (t ++ ct) /\
    secretbox.seal_detached m n k w = Done t w2 /\ is_slice w2 m ct /\ w2 = w_write (s_ptr m) ct w.
Proof.
  set (ct := c_enc secretbox_cipher kb nb mb).
  eexists _, (c_mac secretbox_cipher kb nb [] ct), ct, _, _. split_and!.
  - by apply (secretbox.secretbox_seal_run w m n k mb nb kb).
  - pose proof (easy_ct_zlen secretbox_cipher kb nb mb) as Hl. rewrite secretbox_tag in Hl.
    rewrite <- Hl. apply (is_vec_put _ (easy_ct _ _ _ _)). lia.
  - by apply secretbox.secretbox_seal_detached_run.
  - apply (is_slice_write_same w m mb); [done|]. apply c_enc_zlen.
  - done.
Qed.

Lemma secretbox_modes_agree_witness :
  exists v t ct w1 w2,
    @secretbox.seal target64 RefSecretbox.externs RefSecretbox.m (At 2 0) (At 3 0) RefSecretbox.w = Done v w1 /\
    @is_vec target64 w1 v (t ++ ct) /\
    @secretbox.seal_detached RefSecretbox.externs RefSecretbox.m (At 2 0) (At 3 0) RefSecretbox.w = Done t w2 /\
    @is_slice target64 w2 RefSecretbox.m ct /\ w2 = w_write (At 1 0) ct RefSecretbox.w.
Proof.
  apply (@secretbox_modes_agree target64 RefSecretbox.externs RefSecretbox.doc RefSecretbox.w
    RefSecretbox.m (At 2 0) (At 3 0) RefSecretbox.msg RefSecretbox.nb RefSecretbox.kb);
    Ref.concrete.
Defined.

(** Encrypting a buffer in place and decrypting it again with the tag
    leaves the whole memory as it was. *)
Theorem secretbox_detached_inverse `{T : Target} `{E : SecretboxExterns} {D : SecretboxDoc E}
    w m n k mb nb kb
    (Hm : is_slice w m mb) (Hn : is_ref w n 24 nb) (Hk : is_ref w k 32 kb)
    (Hmn : apart (s_ptr m) (s_len m) n 24 = true) (Hmk : apart (s_ptr m) (s_len m) k 32 = true) :
  secretbox_detached_roundtrip m n k w = Done (Ok tt) w.
Proof.
  set (C := secretbox_cipher). set (ct := c_enc C kb nb mb).
  assert (Hct : zlen ct = s_len m) by (unfold ct; rewrite c_enc_zlen; symmetry; apply Hm).
  assert (Hr : in_range w (s_ptr m) (zlen ct)).
  { apply (in_range_bytes w (s_ptr m) mb); [apply Hm|]. rewrite Hct. apply Hm. }
  unfold secretbox_detached_roundtrip.
  eapply bind_step; [by apply (secretbox.secretbox_seal_detached_run w m n k mb nb kb)|]. fold C ct.
  step. assert (Hb : w_mem w !! b = None) by (by apply mem_write_None in Hfr).
  assert (Ht : is_ref (w_put b (Some <$> c_mac C kb nb [] ct) (w_write (s_ptr m) ct w)) (At b 0) 16
                 (c_mac C kb nb [] ct)).
  { pose proof (c_mac_zlen (C := C) kb nb [] ct) as Hl. unfold C in Hl at 2.
    rewrite secretbox_tag in Hl. rewrite <- Hl. apply is_ref_place. }
  rewrite <- Hct in Hmn, Hmk.
  eapply bind_step.
  { rewrite (secretbox.secretbox_open_detached_run _ m (At b 0) n k ct (c_mac C kb nb [] ct) nb kb).
    - rewrite decide_True by done. fold C. unfold ct at 1. rewrite c_dec_enc by apply _. reflexivity.
    - apply is_slice_put_fresh; [done|]. apply (is_slice_write_same w m mb); [done|].
      unfold ct. apply c_enc_zlen.
    - done.
    - apply is_ref_put_fresh; [done|]. by apply is_ref_write_apart.
    - apply is_ref_put_fresh; [done|]. by apply is_ref_write_apart. }
  assert (Hlen : zlen mb = zlen ct) by (unfold ct; by rewrite c_enc_zlen).
  rewrite w_write_put_fresh; [|done|apply in_range_write_same; by rewrite Hlen].
  rewrite w_write_write, w_write_id by (done || apply Hm).
  eapply bind_step; [by apply move_out_put_run|done].
Qed.

Lemma secretbox_detached_inverse_witness :
  @secretbox_detached_roundtrip RefSecretbox.externs RefSecretbox.m (At 2 0) (At 3 0)
    RefSecretbox.w = Done (Ok tt) RefSecretbox.w.
Proof.
  apply (@secretbox_detached_inverse target64 RefSecretbox.externs RefSecretbox.doc RefSecretbox.w
    RefSecretbox.m (At 2 0) (At 3 0) RefSecretbox.msg RefSecretbox.nb RefSecretbox.kb);
    Ref.concrete.
Defined.
