(* ===== verification/Aead.v ===== *)
(** * src/crypto/aead: authenticated encryption with additional data

    [aead_module!] is a section over the record of its arguments; the four
    modules the repository generates with it are the records at the end, and
    [Aes256Gcm] the object that guards the AES one.  The theorems are proved
    for every instance whose foreign functions behave as documented. *)

From S2P Require Export Primitives.

(** The arguments of [aead_module!] *)
Record aead_module := AeadModule {
  seal_name : aead_encrypt_fn;
  open_name : aead_decrypt_fn;
  seal_detached_name : aead_encrypt_detached_fn;
  open_detached_name : aead_decrypt_detached_fn;
  keybytes : Z;
  noncebytes : Z;
  tagbytes : Z
}.

Module aead.

Section Macro.
Context (A : aead_module).

Definition KEYBYTES : Z := keybytes A.
Definition NONCEBYTES : Z := noncebytes A.
Definition TAGBYTES : Z := tagbytes A.

Definition Key : newtype := NewType secret "Key" KEYBYTES.
Definition Nonce : newtype := NewType nonce "Nonce" NONCEBYTES.
Definition Tag : newtype := NewType public "Tag" TAGBYTES.

Definition gen_key `{Target} `{RandombytesExterns} : M bytes :=
  let* k := stack_array KEYBYTES in
  let* _ := randombytes_into (Slice (At k 0) KEYBYTES) in
  move_out k.

(** [ad.map(|ad| (ad.as_ptr(), ad.len())).unwrap_or((ptr::null(), 0))] *)
Definition ad_parts (ad : option slice) : ptr * Z :=
  match ad with Some ad => (s_ptr ad, s_len ad) | None => (Null, 0) end.

Definition seal `{Target} (m : slice) (ad : option slice) (n k : ptr) : M vec :=
  let '(ad_p, ad_len) := ad_parts ad in
  let* cap := usize_add (s_len m) TAGBYTES in
  let* c := vec_with_capacity cap in
  let* '(_, clen) := seal_name A (v_ptr c) (v_len c) (s_ptr m) (s_len m) ad_p ad_len Null n k in
  vec_set_len c (as_usize clen).

Definition seal_detached (m : slice) (ad : option slice) (n k : ptr) : M bytes :=
  let '(ad_p, ad_len) := ad_parts ad in
  let* tag := stack_array TAGBYTES in
  let* '(_, maclen) :=
    seal_detached_name A (s_ptr m) (At tag 0) TAGBYTES (s_ptr m) (s_len m) ad_p ad_len Null n k in
  move_out tag.

Definition open `{Target} (c : slice) (ad : option slice) (n k : ptr) : M (result vec) :=
  if s_len c <? TAGBYTES then ret Err
  else
    let '(ad_p, ad_len) := ad_parts ad in
    let* m := vec_with_capacity (s_len c - TAGBYTES) in
    let* '(rc, mlen) := open_name A (v_ptr m) (v_len m) Null (s_ptr c) (s_len c) ad_p ad_len n k in
    if negb (rc =? 0) then let* _ := vec_drop m in ret Err
    else let* m := vec_set_len m (as_usize mlen) in ret (Ok m).

Definition open_detached (c : slice) (ad : option slice) (t n k : ptr) : M (result unit) :=
  let '(ad_p, ad_len) := ad_parts ad in
  let* rc := open_detached_name A (s_ptr c) Null (s_ptr c) (s_len c) t ad_p ad_len n k in
  if rc =? 0 then ret (Ok tt) else ret Err.

End Macro.

End aead.

(** ** The modules *)

Definition aes_impl `{Aes256GcmExterns} : aead_module :=
  AeadModule crypto_aead_aes256gcm_encrypt crypto_aead_aes256gcm_decrypt
    crypto_aead_aes256gcm_encrypt_detached crypto_aead_aes256gcm_decrypt_detached
    crypto_aead_aes256gcm_KEYBYTES crypto_aead_aes256gcm_NPUBBYTES crypto_aead_aes256gcm_ABYTES.

Definition chacha20poly1305 `{Chacha20Poly1305Externs} : aead_module :=
  AeadModule crypto_aead_chacha20poly1305_encrypt crypto_aead_chacha20poly1305_decrypt
    crypto_aead_chacha20poly1305_encrypt_detached crypto_aead_chacha20poly1305_decrypt_detached
    crypto_aead_chacha20poly1305_KEYBYTES crypto_aead_chacha20poly1305_NPUBBYTES
    crypto_aead_chacha20poly1305_ABYTES.

Definition chacha20poly1305_ietf `{Chacha20Poly1305IetfExterns} : aead_module :=
  AeadModule crypto_aead_chacha20poly1305_ietf_encrypt crypto_aead_chacha20poly1305_ietf_decrypt
    crypto_aead_chacha20poly1305_ietf_encrypt_detached
    crypto_aead_chacha20poly1305_ietf_decrypt_detached
    crypto_aead_chacha20poly1305_ietf_KEYBYTES crypto_aead_chacha20poly1305_ietf_NPUBBYTES
    crypto_aead_chacha20poly1305_ietf_ABYTES.

Definition xchacha20poly1305_ietf `{Xchacha20Poly1305IetfExterns} : aead_module :=
  AeadModule crypto_aead_xchacha20poly1305_ietf_encrypt crypto_aead_xchacha20poly1305_ietf_decrypt
    crypto_aead_xchacha20poly1305_ietf_encrypt_detached
    crypto_aead_xchacha20poly1305_ietf_decrypt_detached
    crypto_aead_xchacha20poly1305_ietf_KEYBYTES crypto_aead_xchacha20poly1305_ietf_NPUBBYTES
    crypto_aead_xchacha20poly1305_ietf_ABYTES.

(** The module whose functions [crypto::aead] re-exports *)
Definition aead_default `{Xchacha20Poly1305IetfExterns} : aead_module := xchacha20poly1305_ietf.

(** [gen_nonce()] of the xchacha20poly1305_ietf module *)
Definition gen_nonce `{Target} `{RandombytesExterns} `{Xchacha20Poly1305IetfExterns} : M bytes :=
  NewType.gen_random_nonce (aead.Nonce xchacha20poly1305_ietf).

Definition is_available `{Aes256GcmExterns} : M bool :=
  let* rc := crypto_aead_aes256gcm_is_available in ret (rc =? 1).

(** [Aes256Gcm] has no fields: a value of it is the proof that [new()]
    succeeded. *)
Module Aes256Gcm.

Inductive Aes256Gcm := Self.

Section API.
Context `{Aes256GcmExterns}.

Definition new : M (result Aes256Gcm) :=
  let* rc := crypto_aead_aes256gcm_is_available in
  if rc =? 1 then ret (Ok Self) else ret Err.

Definition gen_initial_nonce `{Target} `{RandombytesExterns} (self : Aes256Gcm) : M bytes :=
  NewType.gen_random_nonce (aead.Nonce aes_impl).
Definition gen_key `{Target} `{RandombytesExterns} (self : Aes256Gcm) : M bytes :=
  aead.gen_key aes_impl.
Definition open `{Target} (self : Aes256Gcm) (c : slice) (ad : option slice) (n k : ptr) :
    M (result vec) := aead.open aes_impl c ad n k.
Definition open_detached (self : Aes256Gcm) (c : slice) (ad : option slice) (t n k : ptr) :
    M (result unit) := aead.open_detached aes_impl c ad t n k.
Definition seal `{Target} (self : Aes256Gcm) (m : slice) (ad : option slice) (n k : ptr) :
    M vec := aead.seal aes_impl m ad n k.
Definition seal_detached (self : Aes256Gcm) (m : slice) (ad : option slice) (n k : ptr) :
    M bytes := aead.seal_detached aes_impl m ad n k.

End API.
End Aes256Gcm.

(** ** Documented behaviour *)

Class AeadDoc (A : aead_module) := {
  aead_cipher : cipher;
  aead_junk : bytes -> bytes;
  aead_nonce : c_nonce aead_cipher = noncebytes A;
  aead_tag : c_tag aead_cipher = tagbytes A;
  aead_laws :: CipherLaws aead_cipher;
  aead_junk_zlen c : zlen (aead_junk c) = zlen c;
  seal_name_doc : seal_name A = aead_encrypt aead_cipher (keybytes A);
  open_name_doc : open_name A = aead_decrypt aead_cipher aead_junk (keybytes A);
  seal_detached_name_doc : seal_detached_name A = aead_encrypt_detached aead_cipher (keybytes A);
  open_detached_name_doc :
    open_detached_name A = aead_decrypt_detached aead_cipher aead_junk (keybytes A)
}.

(** ** What the generated functions do *)

Definition is_opt_slice `{Target} (w : world) (ad : option slice) (adb : bytes) : Prop :=
  match ad with Some s => is_slice w s adb | None => adb = [] end.

Section AeadFacts.
Context `{T : Target} {A : aead_module} {D : AeadDoc A}.

#[local] Abbreviation C := aead_cipher.

Lemma tagbytes_range : 0 <= tagbytes A <= 64.
Proof. rewrite <- aead_tag. apply c_tag_range. Qed.

Lemma ad_parts_at w ad adb :
  is_opt_slice w ad adb ->
  bytes_at w (aead.ad_parts ad).1 adb /\ zlen adb = (aead.ad_parts ad).2.
Proof. destruct ad as [s|]; cbn; [intros (? & ? & ?)|intros ->]; done. Qed.

(** Splits the optional argument into its pointer and its length. *)
Ltac open_ad H :=
  apply ad_parts_at in H; destruct (aead.ad_parts _) as [adp adl]; cbn [fst snd] in H;
  destruct H as [? ?].

Lemma aead_seal_run w m ad n k mb adb nb kb :
  is_slice w m mb -> zlen mb + tagbytes A <= isize_max -> is_opt_slice w ad adb ->
  is_ref w n (noncebytes A) nb -> is_ref w k (keybytes A) kb ->
  aead.seal A m ad n k w =
    Done (Vec (fresh_block w) (zlen mb + tagbytes A) (zlen mb + tagbytes A))
         (w_put (fresh_block w) (Some <$> aead_ct C kb nb adb mb) w).
Proof.
  intros Hm Hsz Had Hn Hk. pose proof tagbytes_range.
  unfold aead.seal. open_ad Had. open_args. unfold aead.TAGBYTES.
  replace (s_len m) with (zlen mb) by done.
  step. step. simpl_vec. rewrite seal_name_doc. eapply bind_step.
  { apply (aead_encrypt_run C _ _ _ _ _ _ _ _ _ _ _ mb adb nb kb).
    - mem_tac.
    - done.
    - mem_tac.
    - done.
    - rewrite aead_nonce. split; [mem_tac|done].
    - split; [mem_tac|done].
    - right. mem_tac.
    - rewrite aead_tag. mem_tac. }
  pose proof (aead_ct_zlen C kb nb adb mb) as Hl. rewrite aead_tag in *.
  rewrite as_usize_small by zlia.
  rewrite w_write_uninit, vec_set_len_filled by done. by subst.
Qed.

Lemma aead_open_run w c ad n k cb adb nb kb :
  is_slice w c cb -> is_opt_slice w ad adb ->
  is_ref w n (noncebytes A) nb -> is_ref w k (keybytes A) kb ->
  aead.open A c ad n k w =
    if decide (zlen cb < tagbytes A) then Done Err w
    else match aead_open C kb nb adb cb with
    | Some mb =>
        Done (Ok (Vec (fresh_block w) (zlen cb - tagbytes A) (zlen cb - tagbytes A)))
             (w_put (fresh_block w) (Some <$> mb) w)
    | None =>
        Done Err (w_with (env_drop
          (Some <$> aead_junk (take (Z.to_nat (zlen cb - tagbytes A)) cb)) (w_env w)) w)
    end.
Proof.
  intros Hc Had Hn Hk. pose proof tagbytes_range.
  unfold aead.open. open_ad Had. open_args. unfold aead.TAGBYTES.
  replace (s_len c) with (zlen cb) by done.
  case_decide as Hs; [by rewrite (proj2 (Z.ltb_lt _ _))|].
  rewrite (proj2 (Z.ltb_ge _ _)) by lia.
  step. simpl_vec. rewrite open_name_doc. unfold bind at 1.
  rewrite (aead_decrypt_run C aead_junk aead_junk_zlen _ _ _ _ _ _ _ _ _ _ _ cb adb nb kb).
  - rewrite aead_tag. destruct (aead_open C kb nb adb cb) as [mb|] eqn:Eo.
    + pose proof (aead_open_zlen C _ _ _ _ _ Eo) as Hl. rewrite aead_tag in Hl.
      cbn [Z.eqb negb]. rewrite as_usize_small, w_write_uninit by (done || lia). unfold bind.
      rewrite vec_set_len_filled by done. by subst.
    + cbn [Z.eqb negb]. rewrite w_write_uninit by (rewrite aead_junk_zlen, zlen_take; lia).
      unfold bind, vec_drop. cbn [v_block]. by rewrite free_put_run.
  - rewrite aead_tag. lia.
  - mem_tac.
  - done.
  - mem_tac.
  - done.
  - rewrite aead_nonce. split; [mem_tac|done].
  - split; [mem_tac|done].
  - right. mem_tac.
  - rewrite aead_tag. mem_tac.
Qed.

Lemma aead_seal_detached_run w m ad n k mb adb nb kb :
  is_slice w m mb -> is_opt_slice w ad adb ->
  is_ref w n (noncebytes A) nb -> is_ref w k (keybytes A) kb ->
  aead.seal_detached A m ad n k w =
    Done (c_mac C kb nb adb (c_enc C kb nb mb)) (w_write (s_ptr m) (c_enc C kb nb mb) w).
Proof.
  intros Hm Had Hn Hk. pose proof tagbytes_range.
  unfold aead.seal_detached. open_ad Had. open_args. unfold aead.TAGBYTES.
  replace (s_len m) with (zlen mb) by done. step. rewrite seal_detached_name_doc.
  eapply bind_step.
  { apply (aead_encrypt_detached_run C _ _ _ _ _ _ _ _ _ _ _ _ mb adb nb kb).
    - mem_tac.
    - done.
    - mem_tac.
    - done.
    - rewrite aead_nonce. split; [mem_tac|done].
    - split; [mem_tac|done].
    - by left.
    - mem_tac.
    - mem_tac.
    - rewrite aead_tag. mem_tac. }
  rewrite w_write_put_fresh by (rewrite ?c_enc_zlen; mem_tac).
  rewrite w_write_zeroed by (rewrite c_mac_zlen; apply aead_tag).
  apply move_out_put_run. mem_tac.
Qed.

Lemma aead_open_detached_run w c ad t n k cb adb tb nb kb :
  is_slice w c cb -> is_opt_slice w ad adb -> is_ref w t (tagbytes A) tb ->
  is_ref w n (noncebytes A) nb -> is_ref w k (keybytes A) kb ->
  aead.open_detached A c ad t n k w =
    if decide (tb = c_mac C kb nb adb cb)
    then Done (Ok tt) (w_write (s_ptr c) (c_dec C kb nb cb) w)
    else Done Err (w_write (s_ptr c) (aead_junk cb) w).
Proof.
  intros Hc Had Ht Hn Hk. unfold aead.open_detached. open_ad Had. open_args.
  replace (s_len c) with (zlen cb) by done. rewrite open_detached_name_doc. unfold bind.
  rewrite (aead_decrypt_detached_run C aead_junk aead_junk_zlen _ _ _ _ _ _ _ _ _ _ _ cb tb adb nb kb).
  - by case_decide.
  - done.
  - done.
  - by rewrite aead_tag.
  - done.
  - done.
  - by rewrite aead_nonce.
  - done.
  - by left.
  - mem_tac.
Qed.

End AeadFacts.

(** ** A reference instance, and a process that uses it *)

Module RefAead.

Definition C : cipher := RefCipher.cipher 24 16.

(** A failed decryption zeroes the output. *)
Definition junk (c : bytes) : bytes := zeros (zlen c).

Definition externs : Xchacha20Poly1305IetfExterns := {|
  crypto_aead_xchacha20poly1305_ietf_encrypt := aead_encrypt C 32;
  crypto_aead_xchacha20poly1305_ietf_decrypt := aead_decrypt C junk 32;
  crypto_aead_xchacha20poly1305_ietf_encrypt_detached := aead_encrypt_detached C 32;
  crypto_aead_xchacha20poly1305_ietf_decrypt_detached := aead_decrypt_detached C junk 32
|}.

Definition A : aead_module := @aead_default externs.

#[refine] Definition doc : AeadDoc A := {| aead_cipher := C; aead_junk := junk |}.
Proof.
  all: try reflexivity.
  - apply RefCipher.laws. lia.
  - intros c. unfold junk. apply zlen_zeros, zlen_nonneg.
Defined.

Definition msg : bytes := [x61; x62; x63; x64].
Definition ad : bytes := [x01; x02].
Definition nb : bytes := replicate 24 x07.
Definition kb : bytes := replicate 32 x33.
Definition w : world := Ref.world [msg; nb; kb; ad].
Definition m : slice := Slice (At 1 0) 4.
Definition ads : option slice := Some (Slice (At 4 0) 2).

End RefAead.

(** ** Properties *)

Section AeadPrograms.
Context `{T : Target} (A : aead_module).

Definition aead_seal_open (m : slice) (ad : option slice) (n k : ptr) : M (result vec) :=
  let* c := aead.seal A m ad n k in aead.open A (v_slice c) ad n k.

Definition aead_detached_roundtrip (m : slice) (ad : option slice) (n k : ptr) : M (result unit) :=
  let* t := aead.seal_detached A m ad n k in
  let* tp := place t in
  let* r := aead.open_detached A m ad (At tp 0) n k in
  let* _ := move_out tp in
  ret r.

End AeadPrograms.

Lemma is_opt_slice_put_fresh `{Target} w b c s bs :
  w_mem w !! b = None -> is_opt_slice w s bs -> is_opt_slice (w_put b c w) s bs.
Proof. destruct s; cbn; [apply is_slice_put_fresh|done]. Qed.

Lemma is_opt_slice_mono `{Target} w0 w s bs :
  w_mem w0 ⊆ w_mem w -> is_opt_slice w0 s bs -> is_opt_slice w s bs.
Proof. destruct s; [apply is_slice_mono|done]. Qed.

#[export] Hint Resolve is_opt_slice_put_fresh : mem.

(** The borrow rules: a [&mut] slice overlaps no other argument. *)
Definition apart_opt (s : slice) (ad : option slice) : bool :=
  match ad with Some ad => apart (s_ptr s) (s_len s) (s_ptr ad) (s_len ad) | None => true end.

Lemma is_opt_slice_write_apart `{Target} w s b ad adb :
  in_range w (s_ptr s) (zlen b) -> zlen b = s_len s -> apart_opt s ad = true ->
  is_opt_slice w ad adb -> is_opt_slice (w_write (s_ptr s) b w) ad adb.
Proof.
  intros Hr Hl. destruct ad as [a|]; cbn; [|done]. intros Hap (? & Ha & ?).
  split; [|done]. apply bytes_at_write_apart; [done| |done]. by rewrite Hl, <- Ha.
Qed.

(** C19. For each of the AEAD modules, [open()] of what [seal()] returned, with
    the same additional data, nonce and key, gives back the message; both the
    present and the absent additional data are covered; nothing the caller had
    in memory changes. *)
Theorem aead_roundtrip `{T : Target} A {D : AeadDoc A} w m ad n k mb adb nb kb
    (Hm : is_slice w m mb) (Hsz : zlen mb + aead.TAGBYTES A <= isize_max) (Had : is_opt_slice w ad adb)
    (Hn : is_ref w n (aead.NONCEBYTES A) nb) (Hk : is_ref w k (aead.KEYBYTES A) kb) :
  exists v w', aead_seal_open A m ad n k w = Done (Ok v) w' /\ is_vec w' v mb /\
    forall p bs, bytes_at w p bs -> bytes_at w' p bs.
Proof.
  unfold aead.TAGBYTES, aead.NONCEBYTES, aead.KEYBYTES in *. pose proof (tagbytes_range (A := A)).
  set (b := fresh_block w). pose proof (fresh_block_spec w) as Hb.
  set (ct := aead_ct aead_cipher kb nb adb mb). set (w1 := w_put b (Some <$> ct) w).
  pose proof (aead_ct_zlen aead_cipher kb nb adb mb) as Hl. fold ct in Hl. rewrite aead_tag in Hl.
  exists (Vec (fresh_block w1) (zlen mb) (zlen mb)), (w_put (fresh_block w1) (Some <$> mb) w1).
  split_and!.
  - eapply bind_step; [by apply (aead_seal_run w m ad n k mb adb nb kb)|]. fold ct b w1.
    rewrite (aead_open_run w1 _ ad n k ct adb nb kb).
    + rewrite decide_False by zlia. unfold ct at 1. rewrite aead_open_ct by apply _. do 3 f_equal; lia.
    + apply is_vec_slice. rewrite <- Hl. apply is_vec_put. lia.
    + by apply is_opt_slice_put_fresh.
    + by apply is_ref_put_fresh.
    + by apply is_ref_put_fresh.
  - apply is_vec_put. zlia.
  - intros p bs Hp. apply bytes_at_put_fresh; [apply fresh_block_spec|].
    by apply bytes_at_put_fresh.
Qed.

Lemma aead_roundtrip_witness :
  exists v w', @aead_seal_open target64 RefAead.A RefAead.m RefAead.ads (At 2 0) (At 3 0) RefAead.w =
      Done (Ok v) w' /\ @is_vec target64 w' v RefAead.msg /\
    forall p bs, bytes_at RefAead.w p bs -> bytes_at w' p bs.
Proof.
  apply (@aead_roundtrip target64 RefAead.A RefAead.doc RefAead.w RefAead.m RefAead.ads
    (At 2 0) (At 3 0) RefAead.msg RefAead.ad RefAead.nb RefAead.kb); Ref.concrete.
Defined.

(** C3. Every branch of the [open()] of an AEAD module: an input shorter than
    the tag is rejected without a call; otherwise the call succeeds if and only
    if the last [TAGBYTES] bytes authenticate the rest and the additional data,
    and returns the decryption of the rest; when it is rejected the buffer
    that was allocated is released and only the error is returned. *)
Theorem aead_open_spec `{T : Target} A {D : AeadDoc A} w c ad n k cb tb adb nb kb
    (Hc : is_slice w c (cb ++ tb)) (Ht : zlen tb = Z.min (aead.TAGBYTES A) (zlen (cb ++ tb)))
    (Had : is_opt_slice w ad adb)
    (Hn : is_ref w n (aead.NONCEBYTES A) nb) (Hk : is_ref w k (aead.KEYBYTES A) kb) :
  aead.open A c ad n k w =
    if decide (zlen (cb ++ tb) < aead.TAGBYTES A) then Done Err w
    else if decide (tb = c_mac aead_cipher kb nb adb cb) then
      Done (Ok (Vec (fresh_block w) (zlen cb) (zlen cb)))
           (w_put (fresh_block w) (Some <$> c_dec aead_cipher kb nb cb) w)
    else Done Err (w_with (env_drop (Some <$> aead_junk cb) (w_env w)) w).
Proof.
  unfold aead.TAGBYTES, aead.NONCEBYTES, aead.KEYBYTES in *.
  rewrite (aead_open_run w c ad n k (cb ++ tb) adb nb kb) by done.
  case_decide as Hs; [done|].
  assert (Hl : zlen (cb ++ tb) - tagbytes A = zlen cb) by (rewrite zlen_app in *; lia).
  rewrite Hl, aead_open_app by (rewrite ?aead_tag; apply _ || lia).
  case_decide; [done|]. by rewrite to_nat_zlen, take_app_length.
Qed.

Lemma aead_open_spec_witness :
  let w := Ref.world [[x09; x08] ++ replicate 16 x00; RefAead.nb; RefAead.kb] in
  @aead.open RefAead.A target64 (Slice (At 1 0) 18) None (At 2 0) (At 3 0) w =
    Done Err (w_with (env_drop (Some <$> [x00; x00]) (w_env w)) w).
Proof.
  intros w.
  rewrite (@aead_open_spec target64 RefAead.A RefAead.doc w (Slice (At 1 0) 18) None (At 2 0)
    (At 3 0) [x09; x08] (replicate 16 x00) [] RefAead.nb RefAead.kb); [reflexivity|Ref.concrete..].
Defined.

(** The detached mode of an AEAD module computes in place the ciphertext,
    and returns the tag, that [seal()] returns one after the other. *)
Theorem aead_modes_agree `{T : Target} A {D : AeadDoc A} w m ad n k mb adb nb kb
    (Hm : is_slice w m mb) (Hsz : zlen mb + aead.TAGBYTES A <= isize_max) (Had : is_opt_slice w ad adb)
    (Hn : is_ref w n (aead.NONCEBYTES A) nb) (Hk : is_ref w k (aead.KEYBYTES A) kb) :
  exists v t ct w1 w2,
    aead.seal A m ad n k w = Done v w1 /\ is_vec w1 v (ct ++ t) /\ zlen t = aead.TAGBYTES A /\
    aead.seal_detached A m ad n k w = Done t w2 /\ is_slice w2 m ct /\ w2 = w_write (s_ptr m) ct w.
Proof.
  unfold aead.TAGBYTES, aead.NONCEBYTES, aead.KEYBYTES in *.
  set (ct := c_enc aead_cipher kb nb mb).
  eexists _, (c_mac aead_cipher kb nb adb ct), ct, _, _. split_and!.
  - by apply (aead_seal_run w m ad n k mb adb nb kb).
  - pose proof (aead_ct_zlen aead_cipher kb nb adb mb) as Hl. rewrite aead_tag in Hl.
    rewrite <- Hl. apply (is_vec_put _ (aead_ct _ _ _ _ _)). lia.
  - rewrite c_mac_zlen. apply aead_tag.
  - by apply aead_seal_detached_run.
  - apply (is_slice_write_same w m mb); [done|]. apply c_enc_zlen.
  - done.
Qed.

Lemma aead_modes_agree_witness :
  exists v t ct w1 w2,
    @aead.seal RefAead.A target64 RefAead.m RefAead.ads (At 2 0) (At 3 0) RefAead.w = Done v w1 /\
    @is_vec target64 w1 v (ct ++ t) /\ zlen t = 16 /\
    aead.seal_detached RefAead.A RefAead.m RefAead.ads (At 2 0) (At 3 0) RefAead.w = Done t w2 /\
    @is_slice target64 w2 RefAead.m ct /\ w2 = w_write (At 1 0) ct RefAead.w.
Proof.
  apply (@aead_modes_agree target64 RefAead.A RefAead.doc RefAead.w RefAead.m RefAead.ads
    (At 2 0) (At 3 0) RefAead.msg RefAead.ad RefAead.nb RefAead.kb); Ref.concrete.
Defined.

(** In-place encryption followed by in-place decryption with the returned
    tag succeeds and leaves the whole memory as it was; with any other tag the
    result is [Err] and the buffer holds whatever the foreign function left of
    it, so the ciphertext is kept only if that function leaves its output
    alone. *)
Theorem aead_detached_inverse `{T : Target} A {D : AeadDoc A} w m ad n k mb adb nb kb
    (Hm : is_slice w m mb) (Had : is_opt_slice w ad adb)
    (Hn : is_ref w n (aead.NONCEBYTES A) nb) (Hk : is_ref w k (aead.KEYBYTES A) kb)
    (Hma : apart_opt m ad = true) (Hmn : apart (s_ptr m) (s_len m) n (aead.NONCEBYTES A) = true)
    (Hmk : apart (s_ptr m) (s_len m) k (aead.KEYBYTES A) = true) :
  aead_detached_roundtrip A m ad n k w = Done (Ok tt) w /\
  forall t tb, is_ref w t (aead.TAGBYTES A) tb -> tb <> c_mac aead_cipher kb nb adb mb ->
    aead.open_detached A m ad t n k w = Done Err (w_write (s_ptr m) (aead_junk mb) w).
Proof.
  unfold aead.TAGBYTES, aead.NONCEBYTES, aead.KEYBYTES in *. split.
  2: { intros t tb Ht Hne. rewrite (aead_open_detached_run w m ad t n k mb adb tb nb kb) by done.
       by rewrite decide_False. }
  set (C := aead_cipher). set (ct := c_enc C kb nb mb). set (t := c_mac C kb nb adb ct).
  assert (Hct : zlen ct = s_len m) by (unfold ct; rewrite c_enc_zlen; symmetry; apply Hm).
  assert (Hr : in_range w (s_ptr m) (zlen ct)).
  { apply (in_range_bytes w (s_ptr m) mb); [apply Hm|]. rewrite Hct. apply Hm. }
  eapply bind_step; [by apply (aead_seal_detached_run w m ad n k mb adb nb kb)|]. fold C ct t.
  step. assert (Hb : w_mem w !! b = None) by (by apply mem_write_None in Hfr).
  rewrite <- Hct in Hmn, Hmk.
  eapply bind_step.
  { rewrite (aead_open_detached_run _ m ad (At b 0) n k ct adb t nb kb).
    - rewrite decide_True by done. fold C. unfold ct at 1. rewrite c_dec_enc by apply _. reflexivity.
    - apply is_slice_put_fresh; [done|]. apply (is_slice_write_same w m mb); [done|].
      unfold ct. apply c_enc_zlen.
    - apply is_opt_slice_put_fresh; [done|]. by apply is_opt_slice_write_apart.
    - replace (tagbytes A) with (zlen t); [apply is_ref_place|].
      unfold t. rewrite c_mac_zlen. apply aead_tag.
    - apply is_ref_put_fresh; [done|]. by apply is_ref_write_apart.
    - apply is_ref_put_fresh; [done|]. by apply is_ref_write_apart. }
  assert (Hlen : zlen mb = zlen ct) by (unfold ct; by rewrite c_enc_zlen).
  rewrite w_write_put_fresh; [|done|apply in_range_write_same; by rewrite Hlen].
  rewrite w_write_write, w_write_id by (done || apply Hm).
  eapply bind_step; [by apply move_out_put_run|done].
Qed.

Lemma aead_detached_inverse_witness :
  aead_detached_roundtrip RefAead.A RefAead.m RefAead.ads (At 2 0) (At 3 0) RefAead.w =
    Done (Ok tt) RefAead.w /\
  forall t tb, is_ref RefAead.w t 16 tb ->
    tb <> c_mac RefAead.C RefAead.kb RefAead.nb RefAead.ad RefAead.msg ->
    aead.open_detached RefAead.A RefAead.m RefAead.ads t (At 2 0) (At 3 0) RefAead.w =
      Done Err (w_write (At 1 0) (RefAead.junk RefAead.msg) RefAead.w).
Proof.
  apply (@aead_detached_inverse target64 RefAead.A RefAead.doc RefAead.w RefAead.m RefAead.ads
    (At 2 0) (At 3 0) RefAead.msg RefAead.ad RefAead.nb RefAead.kb); Ref.concrete.
Defined.
