(* ===== verification/Box.v ===== *)
(** * src/crypto/box_/curve25519xsalsa20poly1305.rs,
      src/crypto/sealedbox/curve25519blake2bxsalsa20poly1305.rs

    Public-key authenticated encryption.  The wrappers ignore the status of
    the foreign functions when they encrypt and when they precompute a shared
    key; libsodium rejects some public keys (those with no secure shared
    secret), and the theorems about rejected keys say what the callers get. *)

From S2P Require Export Primitives.

Module box_.

Definition SEEDBYTES : Z := crypto_box_curve25519xsalsa20poly1305_SEEDBYTES.
Definition PUBLICKEYBYTES : Z := crypto_box_curve25519xsalsa20poly1305_PUBLICKEYBYTES.
Definition SECRETKEYBYTES : Z := crypto_box_curve25519xsalsa20poly1305_SECRETKEYBYTES.
Definition NONCEBYTES : Z := crypto_box_curve25519xsalsa20poly1305_NONCEBYTES.
Definition PRECOMPUTEDKEYBYTES : Z := crypto_box_curve25519xsalsa20poly1305_BEFORENMBYTES.
Definition MACBYTES : Z := crypto_box_curve25519xsalsa20poly1305_MACBYTES.

Definition Seed : newtype := NewType secret "Seed" SEEDBYTES.
Definition SecretKey : newtype := NewType secret "SecretKey" SECRETKEYBYTES.
Definition PublicKey : newtype := NewType public "PublicKey" PUBLICKEYBYTES.
Definition Tag : newtype := NewType public "Tag" MACBYTES.
Definition Nonce : newtype := NewType nonce "Nonce" NONCEBYTES.
Definition PrecomputedKey : newtype := NewType secret "PrecomputedKey" PRECOMPUTEDKEYBYTES.

Section Functions.
Context `{T : Target} `{E : BoxExterns}.

(** [SecretKey::public_key()] *)
Definition public_key `{ScalarmultExterns} (self : ptr) : M bytes :=
  let* pk := stack_array PUBLICKEYBYTES in
  let* _ := crypto_scalarmult_base (At pk 0) self in
  move_out pk.

Definition gen_keypair : M (bytes * bytes) :=
  let* pk := stack_array PUBLICKEYBYTES in
  let* sk := stack_array SECRETKEYBYTES in
  let* _ := crypto_box_curve25519xsalsa20poly1305_keypair (At pk 0) (At sk 0) in
  let* skb := move_out sk in
  let* pkb := move_out pk in
  ret (pkb, skb).

Definition keypair_from_seed (seed : ptr) : M (bytes * bytes) :=
  let* pk := stack_array PUBLICKEYBYTES in
  let* sk := stack_array SECRETKEYBYTES in
  let* _ := crypto_box_curve25519xsalsa20poly1305_seed_keypair (At pk 0) (At sk 0) seed in
  let* skb := move_out sk in
  let* pkb := move_out pk in
  ret (pkb, skb).

Definition gen_nonce `{RandombytesExterns} : M bytes := NewType.gen_random_nonce Nonce.

Definition seal (m : slice) (n pk sk : ptr) : M vec :=
  let* clen := usize_add (s_len m) MACBYTES in
  let* c := vec_with_capacity clen in
  let* c := vec_set_len c clen in
  let* _ := crypto_box_easy (v_ptr c) (s_ptr m) (s_len m) n pk sk in
  ret c.

Definition seal_detached (m : slice) (n pk sk : ptr) : M bytes :=
  let* tag := stack_array MACBYTES in
  let* _ := crypto_box_detached (s_ptr m) (At tag 0) (s_ptr m) (s_len m) n pk sk in
  move_out tag.

Definition open (c : slice) (n pk sk : ptr) : M (result vec) :=
  if s_len c <? MACBYTES then ret Err
  else
    let mlen := s_len c - MACBYTES in
    let* m := vec_with_capacity mlen in
    let* m := vec_set_len m mlen in
    let* rc := crypto_box_open_easy (v_ptr m) (s_ptr c) (s_len c) n pk sk in
    if rc =? 0 then ret (Ok m) else let* _ := vec_drop m in ret Err.

Definition open_detached (c : slice) (mac n pk sk : ptr) : M (result unit) :=
  let* rc := crypto_box_open_detached (s_ptr c) (s_ptr c) mac (s_len c) n pk sk in
  if rc =? 0 then ret (Ok tt) else ret Err.

Definition precompute (pk sk : ptr) : M bytes :=
  let* k := stack_array PRECOMPUTEDKEYBYTES in
  let* _ := crypto_box_curve25519xsalsa20poly1305_beforenm (At k 0) pk sk in
  move_out k.

Definition seal_precomputed (m : slice) (n k : ptr) : M vec :=
  let* clen := usize_add (s_len m) MACBYTES in
  let* c := vec_with_capacity clen in
  let* _ := crypto_box_easy_afternm (v_ptr c) (s_ptr m) (s_len m) n k in
  vec_set_len c clen.

Definition seal_detached_precomputed (m : slice) (n k : ptr) : M bytes :=
  let* tag := stack_array MACBYTES in
  let* _ := crypto_box_detached_afternm (s_ptr m) (At tag 0) (s_ptr m) (s_len m) n k in
  move_out tag.

Definition open_precomputed (c : slice) (n k : ptr) : M (result vec) :=
  if s_len c <? MACBYTES then ret Err
  else
    let mlen := s_len c - MACBYTES in
    let* m := vec_with_capacity mlen in
    let* rc := crypto_box_open_easy_afternm (v_ptr m) (s_ptr c) (s_len c) n k in
    if rc =? 0 then let* m := vec_set_len m mlen in ret (Ok m)
    else let* _ := vec_drop m in ret Err.

Definition open_detached_precomputed (c : slice) (mac n k : ptr) : M (result unit) :=
  let* rc := crypto_box_open_detached_afternm (s_ptr c) (s_ptr c) mac (s_len c) n k in
  if rc =? 0 then ret (Ok tt) else ret Err.

End Functions.

End box_.

Module sealedbox.

Definition SEALBYTES : Z := crypto_box_SEALBYTES.

Section Functions.
Context `{T : Target} `{E : SealedboxExterns}.

Definition seal (m : slice) (pk : ptr) : M vec :=
  let* len := usize_add (s_len m) SEALBYTES in
  let* c := vec_zeroed len in
  let* _ := crypto_box_seal (v_ptr c) (s_ptr m) (s_len m) pk in
  ret c.

Definition open (c : slice) (pk sk : ptr) : M (result vec) :=
  if s_len c <? SEALBYTES then ret Err
  else
    let* m := vec_zeroed (s_len c - SEALBYTES) in
    let* rc := crypto_box_seal_open (v_ptr m) (s_ptr c) (s_len c) pk sk in
    if rc =? 0 then ret (Ok m) else let* _ := vec_drop m in ret Err.

End Functions.

End sealedbox.

(** ** Documented behaviour *)

(** [crypto_box]: the key of the cipher is the secret two key pairs share;
    [box_shared pk sk] is [None] for the public keys libsodium rejects, and
    then the functions return -1 without writing anything. *)
Class BoxDoc (E : BoxExterns) := {
  box_cipher : cipher;
  box_public : bytes -> bytes;
  box_seeded : bytes -> bytes;
  box_shared : bytes (* pk *) -> bytes (* sk *) -> option bytes;
  box_nonce : c_nonce box_cipher = 24;
  box_tag : c_tag box_cipher = 16;
  box_laws :: CipherLaws box_cipher;
  box_public_zlen sk : zlen (box_public sk) = 32;
  box_seeded_zlen seed : zlen (box_seeded seed) = 32;
  box_shared_zlen pk sk k : box_shared pk sk = Some k -> zlen k = 32;
  keypair_doc pk sk :
    crypto_box_curve25519xsalsa20poly1305_keypair pk sk =
      (let* r := rand 32 in
       let* _ := write sk r in let* _ := write pk (box_public r) in ret 0);
  seed_keypair_doc pk sk seed :
    crypto_box_curve25519xsalsa20poly1305_seed_keypair pk sk seed =
      (let* s := read seed 32 in
       let* _ := write sk (box_seeded s) in
       let* _ := write pk (box_public (box_seeded s)) in ret 0);
  beforenm_doc k pk sk :
    crypto_box_curve25519xsalsa20poly1305_beforenm k pk sk =
      (let* pkb := read pk 32 in
       let* skb := read sk 32 in
       match box_shared pkb skb with
       | Some kb => let* _ := write k kb in ret 0
       | None => ret (-1)
       end);
  crypto_box_easy_doc c m mlen n pk sk :
    crypto_box_easy c m mlen n pk sk =
      (let* pkb := read pk 32 in
       let* skb := read sk 32 in
       match box_shared pkb skb with
       | Some kb => encrypt_easy box_cipher kb c m mlen n
       | None => ret (-1)
       end);
  crypto_box_detached_doc c mac m mlen n pk sk :
    crypto_box_detached c mac m mlen n pk sk =
      (let* pkb := read pk 32 in
       let* skb := read sk 32 in
       match box_shared pkb skb with
       | Some kb => encrypt_detached box_cipher kb c mac m mlen n
       | None => ret (-1)
       end);
  crypto_box_open_easy_doc m c clen n pk sk :
    crypto_box_open_easy m c clen n pk sk =
      (let* pkb := read pk 32 in
       let* skb := read sk 32 in
       match box_shared pkb skb with
       | Some kb => decrypt_easy box_cipher kb m c clen n
       | None => ret (-1)
       end);
  crypto_box_open_detached_doc m c mac clen n pk sk :
    crypto_box_open_detached m c mac clen n pk sk =
      (let* pkb := read pk 32 in
       let* skb := read sk 32 in
       match box_shared pkb skb with
       | Some kb => decrypt_detached box_cipher kb m c mac clen n
       | None => ret (-1)
       end);
  crypto_box_easy_afternm_doc c m mlen n k :
    crypto_box_easy_afternm c m mlen n k =
      (let* kb := read k 32 in encrypt_easy box_cipher kb c m mlen n);
  crypto_box_detached_afternm_doc c mac m mlen n k :
    crypto_box_detached_afternm c mac m mlen n k =
      (let* kb := read k 32 in encrypt_detached box_cipher kb c mac m mlen n);
  crypto_box_open_easy_afternm_doc m c clen n k :
    crypto_box_open_easy_afternm m c clen n k =
      (let* kb := read k 32 in decrypt_easy box_cipher kb m c clen n);
  crypto_box_open_detached_afternm_doc m c mac clen n k :
    crypto_box_open_detached_afternm m c mac clen n k =
      (let* kb := read k 32 in decrypt_detached box_cipher kb m c mac clen n)
}.

(** The agreement of Diffie and Hellman: two key pairs have one secret. *)
Class BoxAgreement (E : BoxExterns) (D : BoxDoc E) : Prop :=
  box_shared_sym a b : box_shared (box_public a) b = box_shared (box_public b) a.

(** [crypto_box_seal]: an ephemeral key pair [e] is drawn for each message; the
    ciphertext is its public key and the box of the message; [None] when the
    recipient's public key is rejected, and then the ephemeral public key is
    written all the same. *)
Class SealedboxDoc (E : SealedboxExterns) := {
  sealed_public : bytes -> bytes;
  sealed_ephemeral : bytes (* ephemeral *) -> bytes;
  sealed_box : bytes (* ephemeral *) -> bytes (* pk *) -> bytes -> option bytes;
  sealed_open : bytes (* pk *) -> bytes (* sk *) -> bytes -> option bytes;
  sealed_ephemeral_zlen e : zlen (sealed_ephemeral e) = 32;
  sealed_box_zlen e pk m c : sealed_box e pk m = Some c -> zlen c = zlen m + 48;
  sealed_box_ephemeral e pk m c : sealed_box e pk m = Some c -> take 32 c = sealed_ephemeral e;
  sealed_open_zlen pk sk c m : sealed_open pk sk c = Some m -> zlen m = zlen c - 48;
  sealed_open_box e sk m c :
    sealed_box e (sealed_public sk) m = Some c -> sealed_open (sealed_public sk) sk c = Some m;
  crypto_box_seal_doc c m mlen pk :
    crypto_box_seal c m mlen pk =
      (let* _ := restrict c (mlen + 48) m mlen in
       let* mb := read m mlen in
       let* pkb := read pk 32 in
       let* e := rand 32 in
       match sealed_box e pkb mb with
       | Some cb => let* _ := write c cb in ret 0
       | None => let* _ := write c (sealed_ephemeral e) in ret (-1)
       end);
  crypto_box_seal_open_doc m c clen pk sk :
    crypto_box_seal_open m c clen pk sk =
      (let* _ := restrict m (clen - 48) c clen in
       let* cb := read c clen in
       let* pkb := read pk 32 in
       let* skb := read sk 32 in
       match sealed_open pkb skb cb with
       | Some mb => let* _ := write m mb in ret 0
       | None => ret (-1)
       end)
}.

(** ** What the wrappers do *)

Section BoxFacts.
Context `{T : Target} `{E : BoxExterns} {D : BoxDoc E}.

#[local] Abbreviation C := box_cipher.

(** The shared secret is computed first. *)
Lemma shared_key_step {B} pk sk pkb skb (some : bytes -> M B) none w :
  is_ref w pk 32 pkb -> is_ref w sk 32 skb ->
  (let* pkb := read pk 32 in
   let* skb := read sk 32 in
   match box_shared pkb skb with Some kb => some kb | None => none end) w =
    match box_shared pkb skb with Some kb => some kb w | None => none w end.
Proof. intros [? ?] [? ?]. do 2 step. by destruct (box_shared pkb skb). Qed.

Lemma box_precompute_run w pk sk pkb skb :
  is_ref w pk 32 pkb -> is_ref w sk 32 skb ->
  box_.precompute pk sk w = Done (default (zeros 32) (box_shared pkb skb)) w.
Proof.
  intros Hpk Hsk. unfold box_.precompute. change box_.PRECOMPUTEDKEYBYTES with 32. step.
  rewrite beforenm_doc. unfold bind at 1.
  rewrite (shared_key_step pk sk pkb skb) by (by apply is_ref_put_fresh).
  destruct (box_shared pkb skb) as [kb|] eqn:Es; cbn [default].
  - rewrite (bind_done _ _ _ tt (w_put b (Some <$> kb) w)).
    + by apply move_out_put_run.
    + apply write_put_run. rewrite zlen_fmap, (box_shared_zlen _ _ _ Es). done.
  - by apply move_out_put_run.
Qed.

Lemma box_seal_run w m n pk sk mb nb pkb skb :
  is_slice w m mb -> zlen mb + 16 <= isize_max -> is_ref w n 24 nb ->
  is_ref w pk 32 pkb -> is_ref w sk 32 skb ->
  box_.seal m n pk sk w =
    Done (Vec (fresh_block w) (zlen mb + 16) (zlen mb + 16))
         (w_put (fresh_block w)
            (match box_shared pkb skb with
             | Some kb => Some <$> easy_ct C kb nb mb
             | None => replicate (Z.to_nat (zlen mb + 16)) None
             end) (w_breach 1 w)).
Proof.
  intros Hm Hsz Hn Hpk Hsk. unfold box_.seal. destruct Hm as (Hm & Hml & ?).
  rewrite Hml. change box_.MACBYTES with 16. step. step. simpl_vec.
  eapply bind_step; [apply vec_set_len_early; zlia|]. simpl_vec.
  replace (w_breach (zlen mb + 16) w) with (w_breach 1 w)
    by (unfold w_breach; by rewrite !decide_True by zlia).
  rewrite crypto_box_easy_doc. unfold bind at 1.
  rewrite (shared_key_step pk sk pkb skb) by mem_tac.
  destruct (box_shared pkb skb) as [kb|]; [|by subst].
  rewrite (encrypt_easy_fresh C kb b _ _ _ _ (w_breach 1 w) mb nb); [by subst|mem_tac..| |].
  - rewrite box_nonce. mem_tac.
  - by rewrite box_tag.
Qed.

Lemma box_open_run w c n pk sk cb nb pkb skb :
  is_slice w c cb -> is_ref w n 24 nb -> is_ref w pk 32 pkb -> is_ref w sk 32 skb ->
  box_.open c n pk sk w =
    if decide (zlen cb < 16) then Done Err w
    else match box_shared pkb skb ≫= fun kb => easy_open C kb nb cb with
    | Some mb => Done (Ok (Vec (fresh_block w) (zlen cb - 16) (zlen cb - 16)))
                      (w_put (fresh_block w) (Some <$> mb) (w_breach (zlen cb - 16) w))
    | None =>
        let w' := w_breach (zlen cb - 16) w in
        Done Err (w_with (env_drop (replicate (Z.to_nat (zlen cb - 16)) None) (w_env w')) w')
    end.
Proof.
  intros Hc Hn Hpk Hsk. unfold box_.open. destruct Hc as (Hc & Hcl & ?).
  rewrite Hcl. change box_.MACBYTES with 16.
  case_decide as Hs; [by rewrite (proj2 (Z.ltb_lt _ _))|].
  rewrite (proj2 (Z.ltb_ge _ _)) by lia. step. simpl_vec.
  eapply bind_step; [apply vec_set_len_early; zlia|]. simpl_vec.
  set (w' := w_breach (zlen cb - 16) w).
  assert (Hb : w_mem w' !! b = None) by mem_tac.
  rewrite crypto_box_open_easy_doc. unfold bind at 1.
  rewrite (shared_key_step pk sk pkb skb) by mem_tac.
  destruct (box_shared pkb skb) as [kb|]; cbn [mbind option_bind].
  - rewrite (decrypt_easy_fresh C kb b _ _ _ _ w' cb nb);
      [|done|mem_tac|done| |by rewrite box_tag|lia].
    + destruct (easy_open C kb nb cb) as [mb|]; cbn [Z.eqb]; [by subst|].
      unfold bind, vec_drop. cbn [v_block]. by rewrite free_put_run.
    + rewrite box_nonce. mem_tac.
  - unfold ret at 1. cbn [Z.eqb]. unfold bind, vec_drop. cbn [v_block]. by rewrite free_put_run.
Qed.

Lemma box_seal_detached_run w m n pk sk mb nb pkb skb :
  is_slice w m mb -> is_ref w n 24 nb -> is_ref w pk 32 pkb -> is_ref w sk 32 skb ->
  box_.seal_detached m n pk sk w =
    match box_shared pkb skb with
    | Some kb =>
        Done (c_mac C kb nb [] (c_enc C kb nb mb)) (w_write (s_ptr m) (c_enc C kb nb mb) w)
    | None => Done (zeros 16) w
    end.
Proof.
  intros Hm Hn Hpk Hsk. unfold box_.seal_detached. destruct Hm as (Hm & Hml & ?).
  rewrite Hml. change box_.MACBYTES with 16. step.
  rewrite crypto_box_detached_doc. unfold bind at 1.
  rewrite (shared_key_step pk sk pkb skb) by (by apply is_ref_put_fresh).
  destruct (box_shared pkb skb) as [kb|].
  - rewrite (encrypt_detached_stack C kb _ _ _ _ b w mb nb);
      [|done..|by rewrite box_nonce|by rewrite box_tag].
    apply move_out_put_run. mem_tac.
  - by apply move_out_put_run.
Qed.

Lemma box_open_detached_run w c t n pk sk cb tb nb pkb skb :
  is_slice w c cb -> is_ref w t 16 tb -> is_ref w n 24 nb ->
  is_ref w pk 32 pkb -> is_ref w sk 32 skb ->
  box_.open_detached c t n pk sk w =
    match box_shared pkb skb with
    | Some kb =>
        if decide (tb = c_mac C kb nb [] cb)
        then Done (Ok tt) (w_write (s_ptr c) (c_dec C kb nb cb) w) else Done Err w
    | None => Done Err w
    end.
Proof.
  intros Hc Ht Hn Hpk Hsk. unfold box_.open_detached. destruct Hc as (Hc & Hcl & ?).
  rewrite Hcl, crypto_box_open_detached_doc. unfold bind at 1.
  rewrite (shared_key_step pk sk pkb skb) by done.
  destruct (box_shared pkb skb) as [kb|]; [|done].
  rewrite (decrypt_detached_run C kb _ (s_ptr c) t (zlen cb) n w cb tb nb).
  - by case_decide.
  - done.
  - done.
  - by rewrite box_tag.
  - by rewrite box_nonce.
  - by left.
  - mem_tac.
Qed.

Lemma box_seal_precomputed_run w m n k mb nb kb :
  is_slice w m mb -> zlen mb + 16 <= isize_max -> is_ref w n 24 nb -> is_ref w k 32 kb ->
  box_.seal_precomputed m n k w =
    Done (Vec (fresh_block w) (zlen mb + 16) (zlen mb + 16))
         (w_put (fresh_block w) (Some <$> easy_ct C kb nb mb) w).
Proof.
  intros Hm Hsz Hn Hk. unfold box_.seal_precomputed. destruct Hm as (Hm & Hml & ?).
  destruct Hk as [? ?]. rewrite Hml. change box_.MACBYTES with 16. step. step. simpl_vec.
  eapply bind_step.
  { rewrite crypto_box_easy_afternm_doc. step.
    apply (encrypt_easy_fresh C kb b _ _ _ _ w mb nb); [done..| |by rewrite box_tag].
    by rewrite box_nonce. }
  rewrite vec_set_len_filled; [by subst|]. by rewrite (easy_ct_zlen C), box_tag.
Qed.

Lemma box_open_precomputed_run w c n k cb nb kb :
  is_slice w c cb -> is_ref w n 24 nb -> is_ref w k 32 kb ->
  box_.open_precomputed c n k w =
    if decide (zlen cb < 16) then Done Err w
    else match easy_open C kb nb cb with
    | Some mb => Done (Ok (Vec (fresh_block w) (zlen cb - 16) (zlen cb - 16)))
                      (w_put (fresh_block w) (Some <$> mb) w)
    | None => Done Err (w_with (env_drop (replicate (Z.to_nat (zlen cb - 16)) None) (w_env w)) w)
    end.
Proof.
  intros Hc Hn Hk. unfold box_.open_precomputed. destruct Hc as (Hc & Hcl & ?).
  destruct Hk as [? ?]. rewrite Hcl. change box_.MACBYTES with 16.
  case_decide as Hs; [by rewrite (proj2 (Z.ltb_lt _ _))|].
  rewrite (proj2 (Z.ltb_ge _ _)) by lia. step. simpl_vec.
  rewrite crypto_box_open_easy_afternm_doc. step.
  unfold bind. rewrite (decrypt_easy_fresh C kb b _ _ _ _ w cb nb) by
    (rewrite ?box_nonce, ?box_tag; done || lia).
  destruct (easy_open C kb nb cb) as [mb|] eqn:Eo; cbn [Z.eqb].
  - pose proof (easy_open_zlen C _ _ _ _ Eo) as Hl. rewrite box_tag in Hl.
    rewrite vec_set_len_filled by done. by subst.
  - unfold vec_drop. cbn [v_block]. by rewrite free_put_run.
Qed.

Lemma box_seal_detached_precomputed_run w m n k mb nb kb :
  is_slice w m mb -> is_ref w n 24 nb -> is_ref w k 32 kb ->
  box_.seal_detached_precomputed m n k w =
    Done (c_mac C kb nb [] (c_enc C kb nb mb)) (w_write (s_ptr m) (c_enc C kb nb mb) w).
Proof.
  intros Hm Hn Hk. unfold box_.seal_detached_precomputed. destruct Hm as (Hm & Hml & ?).
  destruct Hk as [? ?]. rewrite Hml. change box_.MACBYTES with 16. step.
  rewrite crypto_box_detached_afternm_doc. step. eapply bind_step.
  { apply (encrypt_detached_stack C kb _ _ _ _ b w mb nb); [done..| |by rewrite box_tag].
    by rewrite box_nonce. }
  apply move_out_put_run. mem_tac.
Qed.

Lemma box_open_detached_precomputed_run w c t n k cb tb nb kb :
  is_slice w c cb -> is_ref w t 16 tb -> is_ref w n 24 nb -> is_ref w k 32 kb ->
  box_.open_detached_precomputed c t n k w =
    if decide (tb = c_mac C kb nb [] cb) then Done (Ok tt) (w_write (s_ptr c) (c_dec C kb nb cb) w)
    else Done Err w.
Proof.
  intros Hc Ht Hn Hk. unfold box_.open_detached_precomputed. destruct Hc as (Hc & Hcl & ?).
  destruct Hk as [? ?]. rewrite Hcl, crypto_box_open_detached_afternm_doc. step. unfold bind.
  rewrite (decrypt_detached_run C kb _ (s_ptr c) t (zlen cb) n w cb tb nb).
  - by case_decide.
  - done.
  - done.
  - by rewrite box_tag.
  - by rewrite box_nonce.
  - by left.
  - mem_tac.
Qed.

(** *** Key pairs *)

Lemma box_keypair_from_seed_run w seed sb :
  is_ref w seed 32 sb ->
  box_.keypair_from_seed seed w = Done (box_public (box_seeded sb), box_seeded sb) w.
Proof.
  intros [? ?]. unfold box_.keypair_from_seed. do 2 step. rewrite seed_keypair_doc. step.
  pose proof (box_seeded_zlen sb). pose proof (box_public_zlen (box_seeded sb)).
  steps.
Qed.

Lemma box_gen_keypair_run w :
  box_.gen_keypair w = Done (box_public (entropy 32 w), entropy 32 w) (w_consume 32 w).
Proof.
  unfold box_.gen_keypair. do 2 step. rewrite keypair_doc.
  pose proof (box_public_zlen (entropy 32 w)). steps.
Qed.

(** *** Sealed boxes *)

Context `{SE : SealedboxExterns} {SD : SealedboxDoc SE}.

(** What [seal()] returns for a rejected key *)
Definition sealed_nothing (e : bytes) (n : Z) : bytes := sealed_ephemeral e ++ zeros (n + 16).

Lemma sealed_nothing_zlen e n : 0 <= n -> zlen (sealed_nothing e n) = n + 48.
Proof. intros Hn. unfold sealed_nothing. rewrite zlen_app, sealed_ephemeral_zlen, zlen_zeros by lia. lia. Qed.

Lemma splice_zeros bs n : zlen bs <= n -> splice (Some <$> zeros n) 0 bs = Some <$> bs ++ zeros (n - zlen bs).
Proof.
  intros Hn. pose proof (zlen_nonneg bs). unfold splice, zeros. rewrite fmap_app, !fmap_replicate, drop_replicate.
  cbn [take app Nat.add]. replace (Z.to_nat (n - zlen bs)) with (Z.to_nat n - length bs)%nat; [done|]. unfold zlen in *. lia.
Qed.

Lemma sealedbox_seal_run w m pk mb pkb :
  is_slice w m mb -> zlen mb + 48 <= isize_max -> is_ref w pk 32 pkb ->
  sealedbox.seal m pk w =
    Done (Vec (fresh_block w) (zlen mb + 48) (zlen mb + 48))
         (w_put (fresh_block w)
            (Some <$> default (sealed_nothing (entropy 32 w) (zlen mb)) (sealed_box (entropy 32 w) pkb mb))
            (w_consume 32 w)).
Proof.
  intros (Hm & Hml & ?) Hsz [Hpk Hpkl]. unfold sealedbox.seal. rewrite Hml.
  change sealedbox.SEALBYTES with 48. step. step. simpl_vec.
  rewrite crypto_box_seal_doc. do 4 step.
  destruct (sealed_box (entropy 32 w) pkb mb) as [cb|] eqn:Es; cbn [default].
  - pose proof (sealed_box_zlen _ _ _ _ Es). steps. by subst.
  - pose proof (sealed_ephemeral_zlen (entropy 32 w)) as He. pose proof (zlen_nonneg mb).
    eapply bind_step.
    { eapply bind_step; [apply write_put_splice; rewrite ?length_fmap; autorewrite with zlen; unfold zlen, zeros in *; rewrite ?length_replicate; lia|reflexivity]. }
    rewrite splice_zeros by lia. rewrite He. unfold sealed_nothing.
    replace (zlen mb + 48 - 32) with (zlen mb + 16) by lia. by subst.
Qed.

Lemma sealedbox_open_run w c pk sk cb pkb skb :
  is_slice w c cb -> is_ref w pk 32 pkb -> is_ref w sk 32 skb ->
  sealedbox.open c pk sk w =
    if decide (zlen cb < 48) then Done Err w
    else match sealed_open pkb skb cb with
    | Some mb => Done (Ok (Vec (fresh_block w) (zlen cb - 48) (zlen cb - 48)))
                      (w_put (fresh_block w) (Some <$> mb) w)
    | None => Done Err (w_with (env_drop (Some <$> zeros (zlen cb - 48)) (w_env w)) w)
    end.
Proof.
  intros (Hc & Hcl & ?) [Hpk Hpkl] [Hsk Hskl]. unfold sealedbox.open. rewrite Hcl.
  change sealedbox.SEALBYTES with 48.
  case_decide as Hs; [by rewrite (proj2 (Z.ltb_lt _ _))|].
  rewrite (proj2 (Z.ltb_ge _ _)) by lia. step. simpl_vec.
  rewrite crypto_box_seal_open_doc. do 4 step.
  destruct (sealed_open pkb skb cb) as [mb|] eqn:Es.
  - pose proof (sealed_open_zlen _ _ _ _ Es). steps. cbn [Z.eqb]. by subst.
  - step. cbn [Z.eqb]. unfold bind, vec_drop. cbn [v_block]. by rewrite free_put_run.
Qed.

End BoxFacts.

(** ** Reference [crypto_box] and [crypto_box_seal] *)

Module RefBox.

Definition C : cipher := RefCipher.cipher 24 16.

Definition fit (bs : bytes) : bytes := le_bytes 32 (le_val bs).

(** The public key is the secret key with the highest bit set; the shared secret
    is the bytewise exclusive or of the two public keys, and the zero public
    key is rejected. *)
Definition pub (sk : bytes) : bytes := le_bytes 32 (2 ^ 255 + le_val sk mod 2 ^ 255).

Definition shared (pk sk : bytes) : option bytes :=
  if decide (zlen pk = 32 /\ pk <> zeros 32) then Some (zip_with byte_xor pk (pub sk)) else None.

Definition with_key (pk sk : ptr) (f : bytes -> M Z) : M Z :=
  let* pkb := read pk 32 in
  let* skb := read sk 32 in
  match shared pkb skb with Some kb => f kb | None => ret (-1) end.

Definition externs : BoxExterns := {|
  crypto_box_curve25519xsalsa20poly1305_seed_keypair pk sk seed :=
    let* s := read seed 32 in
    let* _ := write sk (fit s) in let* _ := write pk (pub (fit s)) in ret 0;
  crypto_box_curve25519xsalsa20poly1305_keypair pk sk :=
    let* r := rand 32 in let* _ := write sk r in let* _ := write pk (pub r) in ret 0;
  crypto_box_curve25519xsalsa20poly1305_beforenm k pk sk :=
    with_key pk sk (fun kb => let* _ := write k kb in ret 0);
  crypto_box_easy c m mlen n pk sk := with_key pk sk (fun kb => encrypt_easy C kb c m mlen n);
  crypto_box_open_easy m c clen n pk sk := with_key pk sk (fun kb => decrypt_easy C kb m c clen n);
  crypto_box_detached c mac m mlen n pk sk :=
    with_key pk sk (fun kb => encrypt_detached C kb c mac m mlen n);
  crypto_box_open_detached m c mac clen n pk sk :=
    with_key pk sk (fun kb => decrypt_detached C kb m c mac clen n);
  crypto_box_easy_afternm c m mlen n k := let* kb := read k 32 in encrypt_easy C kb c m mlen n;
  crypto_box_open_easy_afternm m c clen n k := let* kb := read k 32 in decrypt_easy C kb m c clen n;
  crypto_box_detached_afternm c mac m mlen n k :=
    let* kb := read k 32 in encrypt_detached C kb c mac m mlen n;
  crypto_box_open_detached_afternm m c mac clen n k :=
    let* kb := read k 32 in decrypt_detached C kb m c mac clen n
|}.

Lemma byte_xor_comm a b : byte_xor a b = byte_xor b a.
Proof. unfold byte_xor. by rewrite Z.lxor_comm. Qed.

Lemma zip_xor_comm a b : zip_with byte_xor a b = zip_with byte_xor b a.
Proof.
  revert b. induction a as [|x a IH]; intros [|y b]; cbn; [done..|].
  by rewrite byte_xor_comm, IH.
Qed.

Lemma fit_zlen a : zlen (fit a) = 32.
Proof. apply zlen_le_bytes. Qed.

Lemma pub_zlen a : zlen (pub a) = 32.
Proof. apply zlen_le_bytes. Qed.

(** The public key of a secret key is not zero. *)
Lemma pub_nonzero a : pub a <> zeros 32.
Proof.
  intros Hz. assert (Hv : le_val (pub a) = 0) by (by rewrite Hz).
  unfold pub in Hv. rewrite le_val_le_bytes in Hv.
  pose proof (Z.mod_pos_bound (le_val a) (2 ^ 255) ltac:(lia)).
  rewrite Z.mod_small in Hv; [lia|]. change (256 ^ Z.of_nat 32) with (2 * 2 ^ 255). lia.
Qed.

Lemma shared_pub a b : shared (pub a) b = Some (zip_with byte_xor (pub a) (pub b)).
Proof. unfold shared. rewrite decide_True; [done|]. split; [apply pub_zlen|apply pub_nonzero]. Qed.

Lemma shared_zlen pk sk k : shared pk sk = Some k -> zlen k = 32.
Proof.
  unfold shared. case_decide as Hd; [|done]. intros; simplify_eq.
  pose proof (pub_zlen sk). unfold zlen in *. rewrite length_zip_with. lia.
Qed.

Lemma shared_sym a b : shared (pub a) b = shared (pub b) a.
Proof. rewrite !shared_pub. f_equal. apply zip_xor_comm. Qed.

#[refine] Definition doc : BoxDoc externs := {|
  box_cipher := C; box_public := pub; box_seeded := fit; box_shared := shared
|}.
Proof.
  all: try reflexivity.
  - apply RefCipher.laws. lia.
  - apply shared_zlen.
Defined.

Definition agreement : BoxAgreement externs doc := shared_sym.

Definition msg : bytes := [x10; x20; x30].
Definition nb : bytes := replicate 24 x01.
Definition ska : bytes := replicate 32 x11.
Definition skb : bytes := replicate 32 x22.

(** Message, nonce, the secret and public keys of the two parties, the zero
    public key. *)
Definition w : world := Ref.world [msg; nb; ska; pub ska; skb; pub skb; zeros 32].
Definition m : slice := Slice (At 1 0) 3.

(** A sealed box with 32 bytes of ephemeral public key and a 16-byte tag. *)
Definition sealed (e pk m : bytes) : option bytes :=
  match shared pk e with
  | Some kb => Some (pub e ++ easy_ct C kb (zeros 24) m)
  | None => None
  end.
Definition unseal (pk sk c : bytes) : option bytes :=
  if decide (48 <= zlen c) then
    match shared (take 32 c) sk with
    | Some kb => easy_open C kb (zeros 24) (drop 32 c)
    | None => None
    end
  else None.

Definition sealed_externs : SealedboxExterns := {|
  crypto_box_seal c m mlen pk :=
    let* _ := restrict c (mlen + 48) m mlen in
    let* mb := read m mlen in
    let* pkb := read pk 32 in
    let* e := rand 32 in
    match sealed e pkb mb with
    | Some cb => let* _ := write c cb in ret 0
    | None => let* _ := write c (pub e) in ret (-1)
    end;
  crypto_box_seal_open m c clen pk sk :=
    let* _ := restrict m (clen - 48) c clen in
    let* cb := read c clen in
    let* pkb := read pk 32 in
    let* skb := read sk 32 in
    match unseal pkb skb cb with Some mb => let* _ := write m mb in ret 0 | None => ret (-1) end
|}.

Lemma sealed_zlen e pk m c : sealed e pk m = Some c -> zlen c = zlen m + 48.
Proof.
  unfold sealed. destruct (shared pk e); [|done]. intros; simplify_eq.
  assert (CipherLaws C) by (apply RefCipher.laws; lia).
  rewrite zlen_app, pub_zlen, (easy_ct_zlen C). cbn. lia.
Qed.

Lemma unseal_zlen pk sk c m : unseal pk sk c = Some m -> zlen m = zlen c - 48.
Proof.
  unfold unseal. case_decide; [|done]. destruct (shared (take 32 c) sk); [|done].
  assert (CipherLaws C) by (apply RefCipher.laws; lia).
  intros Ho. apply (easy_open_zlen C) in Ho. rewrite Ho. change (drop 32 c) with (drop (Z.to_nat 32) c).
  rewrite zlen_drop by lia. cbn. lia.
Qed.

Lemma unseal_sealed e sk m c : sealed e (pub sk) m = Some c -> unseal (pub sk) sk c = Some m.
Proof.
  assert (CipherLaws C) by (apply RefCipher.laws; lia).
  intros Hs. pose proof (sealed_zlen _ _ _ _ Hs). pose proof (zlen_nonneg m).
  unfold unseal. rewrite decide_True by lia. unfold sealed in Hs.
  destruct (shared (pub sk) e) as [kb|] eqn:Ek; [|done]. simplify_eq.
  assert (Hl : length (pub e) = 32%nat) by apply length_le_bytes.
  rewrite take_app_length', drop_app_length' by done.
  rewrite <- shared_sym, Ek. by apply (easy_open_ct C).
Qed.

#[refine] Definition sealed_doc : SealedboxDoc sealed_externs := {|
  sealed_public := pub; sealed_ephemeral := pub; sealed_box := sealed; sealed_open := unseal
|}.
Proof.
  - apply pub_zlen.
  - apply sealed_zlen.
  - intros e pk m c. unfold sealed. destruct (shared pk e); [|done].
    intros Hc; apply (inj Some) in Hc as <-. apply take_app_length'. symmetry. apply length_le_bytes.
  - apply unseal_zlen.
  - apply unseal_sealed.
  - reflexivity.
  - reflexivity.
Defined.

End RefBox.

(** ** Properties *)

Section BoxPrograms.
Context `{T : Target} `{E : BoxExterns}.

(** One party seals with its secret key for the other, who opens. *)
Definition box_exchange (m : slice) (n pk_b sk_a pk_a sk_b : ptr) : M (result vec) :=
  let* c := box_.seal m n pk_b sk_a in box_.open (v_slice c) n pk_a sk_b.

(** The two-step interface: the key is precomputed, then used. *)
Definition box_seal_in_two_steps (m : slice) (n pk sk : ptr) : M vec :=
  let* k := box_.precompute pk sk in
  let* kp := place k in
  let* c := box_.seal_precomputed m n (At kp 0) in
  let* _ := move_out kp in
  ret c.

Definition box_open_in_two_steps (c : slice) (n pk sk : ptr) : M (result vec) :=
  let* k := box_.precompute pk sk in
  let* kp := place k in
  let* m := box_.open_precomputed c n (At kp 0) in
  let* _ := move_out kp in
  ret m.

End BoxPrograms.

Section TwoSteps.
Context `{T : Target} `{E : BoxExterns} {D : BoxDoc E}.
Context (w : world) (n pk sk : ptr) (nb pkb skb kb : bytes).
Context (Hn : is_ref w n 24 nb) (Hpk : is_ref w pk 32 pkb) (Hsk : is_ref w sk 32 skb).
Context (Hkb : box_shared pkb skb = Some kb).

(** The process while the precomputed key is in its place. *)
Let w1 : world := w_put (fresh_block w) (Some <$> kb) w.

Lemma box_two_steps {B} (f : ptr -> M B) r w' w'' :
  f (At (fresh_block w) 0) w1 = Done r w' -> move_out (fresh_block w) w' = Done kb w'' ->
  (let* k := box_.precompute pk sk in
   let* kp := place k in
   let* c := f (At kp 0) in
   let* _ := move_out kp in ret c) w = Done r w''.
Proof.
  intros Hf Hmo. eapply bind_step; [by apply (box_precompute_run w pk sk pkb skb)|].
  rewrite Hkb. eapply bind_step; [apply alloc_run|]. eapply bind_step; [exact Hf|].
  eapply bind_step; [exact Hmo|reflexivity].
Qed.

Lemma key_in_place : is_ref w1 (At (fresh_block w) 0) 32 kb.
Proof. rewrite <- (box_shared_zlen _ _ _ Hkb). apply is_ref_place. Qed.

Lemma fresh_twice : fresh_block w1 <> fresh_block w.
Proof. pose proof (fresh_block_spec w1) as Hf. apply mem_put_fst in Hf. done. Qed.

Lemma box_seal_two_steps_run m mb :
  is_slice w m mb -> zlen mb + 16 <= isize_max ->
  box_seal_in_two_steps m n pk sk w =
    Done (Vec (fresh_block w1) (zlen mb + 16) (zlen mb + 16))
         (w_put (fresh_block w1) (Some <$> easy_ct box_cipher kb nb mb) w).
Proof.
  intros Hm Hsz. pose proof (fresh_block_spec w) as Hb.
  eapply (box_two_steps (box_.seal_precomputed m n)).
  - apply (box_seal_precomputed_run w1 m n _ mb nb kb); [|done| |apply key_in_place].
    + by apply is_slice_put_fresh.
    + by apply is_ref_put_fresh.
  - eapply move_out_under; [apply not_eq_sym, fresh_twice|]. by apply move_out_put_run.
Qed.

Lemma box_open_two_steps_run c cb :
  is_slice w c cb ->
  box_open_in_two_steps c n pk sk w =
    if decide (zlen cb < 16) then Done Err w
    else match easy_open box_cipher kb nb cb with
    | Some mb => Done (Ok (Vec (fresh_block w1) (zlen cb - 16) (zlen cb - 16)))
                      (w_put (fresh_block w1) (Some <$> mb) w)
    | None => Done Err (w_with (env_drop (replicate (Z.to_nat (zlen cb - 16)) None) (w_env w)) w)
    end.
Proof.
  intros Hc. pose proof (fresh_block_spec w) as Hb.
  pose proof (box_open_precomputed_run w1 c n _ cb nb kb
    (is_slice_put_fresh _ _ _ _ _ Hb Hc) (is_ref_put_fresh _ _ _ _ _ _ Hb Hn) key_in_place) as Ho.
  case_decide; [|destruct (easy_open box_cipher kb nb cb) as [mb|]];
    eapply (box_two_steps (box_.open_precomputed c n)); [exact Ho| |exact Ho| |exact Ho|].
  - by apply move_out_put_run.
  - eapply move_out_under; [apply not_eq_sym, fresh_twice|]. by apply move_out_put_run.
  - apply (move_out_put_run _ kb (w_with (env_drop _ (w_env w)) w)). done.
Qed.

End TwoSteps.

(** C20. A message one party seals with its secret key and the other's public
    key is opened by the other with the first one's public key: [open()]
    returns the message, and nothing either had in memory changes. *)
Theorem box_roundtrip `{T : Target} `{E : BoxExterns} {D : BoxDoc E} {A : BoxAgreement E D}
    w m n pk_a sk_a pk_b sk_b mb nb ska skb
    (Hm : is_slice w m mb) (Hsz : zlen mb + box_.MACBYTES <= isize_max) (Hn : is_ref w n 24 nb)
    (Hska : is_ref w sk_a 32 ska) (Hskb : is_ref w sk_b 32 skb)
    (Hpka : is_ref w pk_a 32 (box_public ska)) (Hpkb : is_ref w pk_b 32 (box_public skb))
    (Hok : is_Some (box_shared (box_public skb) ska)) :
  exists v w', box_exchange m n pk_b sk_a pk_a sk_b w = Done (Ok v) w' /\ is_vec w' v mb /\
    forall p bs, bytes_at w p bs -> bytes_at w' p bs.
Proof.
  change box_.MACBYTES with 16 in Hsz. destruct Hok as [kb Hkb].
  set (b := fresh_block w). set (ct := easy_ct box_cipher kb nb mb).
  set (w1 := w_put b (Some <$> ct) (w_breach 1 w)).
  assert (Hb : w_mem (w_breach 1 w) !! b = None) by (apply mem_breach_intro, fresh_block_spec).
  pose proof (easy_ct_zlen box_cipher kb nb mb) as Hl. fold ct in Hl. rewrite box_tag in Hl.
  eexists _, _. split_and!.
  - eapply bind_step; [by apply (box_seal_run w m n pk_b sk_a mb nb (box_public skb) ska)|].
    rewrite Hkb. fold ct b w1.
    rewrite (box_open_run w1 _ n pk_a sk_b ct nb (box_public ska) skb).
    + rewrite decide_False by zlia. rewrite <- box_shared_sym, Hkb. cbn [mbind option_bind].
      unfold ct at 1. rewrite easy_open_ct by apply _. reflexivity.
    + apply is_vec_slice. rewrite <- Hl. apply is_vec_put. lia.
    + apply is_ref_put_fresh; [done|by apply is_ref_breach].
    + apply is_ref_put_fresh; [done|by apply is_ref_breach].
    + apply is_ref_put_fresh; [done|by apply is_ref_breach].
  - replace (zlen ct - 16) with (zlen mb) by lia. apply is_vec_put. zlia.
  - intros p bs Hp. apply bytes_at_put_fresh; [apply mem_breach_intro, fresh_block_spec|].
    apply bytes_at_breach, bytes_at_put_fresh; [done|by apply bytes_at_breach].
Qed.

Lemma box_roundtrip_witness :
  exists v w', @box_exchange target64 RefBox.externs RefBox.m (At 2 0) (At 6 0) (At 3 0) (At 4 0) (At 5 0)
                 RefBox.w = Done (Ok v) w' /\ @is_vec target64 w' v RefBox.msg /\
    forall p bs, bytes_at RefBox.w p bs -> bytes_at w' p bs.
Proof.
  apply (@box_roundtrip target64 RefBox.externs RefBox.doc RefBox.agreement RefBox.w RefBox.m (At 2 0) (At 4 0) (At 3 0)
    (At 6 0) (At 5 0) RefBox.msg RefBox.nb RefBox.ska RefBox.skb); try Ref.concrete.
  eexists. vm_compute. reflexivity.
Defined.

(** [precompute()] followed by [seal_precomputed()] or
    [open_precomputed()] gives what [seal()] and [open()] give, for every
    public key libsodium accepts: the same ciphertext in a vector of the same
    length, and the same answer to every ciphertext. *)
Theorem box_precompute_agrees `{T : Target} `{E : BoxExterns} {D : BoxDoc E}
    w m c n pk sk mb cb nb pkb skb
    (Hm : is_slice w m mb) (Hsz : zlen mb + box_.MACBYTES <= isize_max) (Hc : is_slice w c cb)
    (Hn : is_ref w n 24 nb) (Hpk : is_ref w pk 32 pkb) (Hsk : is_ref w sk 32 skb)
    (Hok : is_Some (box_shared pkb skb)) :
  (exists v1 v2 ct w1 w2,
     box_.seal m n pk sk w = Done v1 w1 /\ is_vec w1 v1 ct /\
     box_seal_in_two_steps m n pk sk w = Done v2 w2 /\ is_vec w2 v2 ct) /\
  (exists r1 r2 w1 w2,
     box_.open c n pk sk w = Done r1 w1 /\ box_open_in_two_steps c n pk sk w = Done r2 w2 /\
     match r1, r2 with
     | Ok v1, Ok v2 => exists pt, is_vec w1 v1 pt /\ is_vec w2 v2 pt
     | Err, Err => True
     | _, _ => False
     end).
Proof.
  change box_.MACBYTES with 16 in *. destruct Hok as [kb Hkb]. split.
  - pose proof (easy_ct_zlen box_cipher kb nb mb) as Hl. rewrite box_tag in Hl.
    eexists _, _, (easy_ct box_cipher kb nb mb), _, _. split_and!.
    + by apply (box_seal_run w m n pk sk mb nb pkb skb).
    + rewrite Hkb, <- Hl. apply is_vec_put. lia.
    + by apply (box_seal_two_steps_run w n pk sk nb pkb skb kb).
    + rewrite <- Hl. apply is_vec_put. lia.
  - rewrite (box_open_run w c n pk sk cb nb pkb skb), Hkb by done. cbn [mbind option_bind].
    rewrite (box_open_two_steps_run w n pk sk nb pkb skb kb Hn Hpk Hsk Hkb c cb Hc).
    case_decide as Hs; [by eexists _, _, _, _|].
    destruct (easy_open box_cipher kb nb cb) as [pt|] eqn:Eo; [|by eexists _, _, _, _].
    pose proof (easy_open_zlen _ _ _ _ _ Eo) as Hl. rewrite box_tag in Hl.
    destruct Hc as (_ & _ & ?). eexists _, _, _, _. split_and!; [done|done|].
    exists pt. rewrite <- Hl. split; apply is_vec_put; lia.
Qed.

Lemma box_precompute_agrees_witness :
  let c := Slice (At 3 0) 32 in
  (exists v1 v2 ct w1 w2,
     @box_.seal target64 RefBox.externs RefBox.m (At 2 0) (At 6 0) (At 3 0) RefBox.w = Done v1 w1 /\
     @is_vec target64 w1 v1 ct /\
     @box_seal_in_two_steps target64 RefBox.externs RefBox.m (At 2 0) (At 6 0) (At 3 0) RefBox.w =
       Done v2 w2 /\ @is_vec target64 w2 v2 ct) /\
  (exists r1 r2 w1 w2,
     @box_.open target64 RefBox.externs c (At 2 0) (At 6 0) (At 3 0) RefBox.w = Done r1 w1 /\
     @box_open_in_two_steps target64 RefBox.externs c (At 2 0) (At 6 0) (At 3 0) RefBox.w = Done r2 w2 /\
     match r1, r2 with
     | Ok v1, Ok v2 => exists pt, @is_vec target64 w1 v1 pt /\ @is_vec target64 w2 v2 pt
     | Err, Err => True
     | _, _ => False
     end).
Proof.
  apply (@box_precompute_agrees target64 RefBox.externs RefBox.doc RefBox.w RefBox.m
    (Slice (At 3 0) 32) (At 2 0) (At 6 0) (At 3 0) RefBox.msg RefBox.ska RefBox.nb (RefBox.pub RefBox.skb) RefBox.ska);
    try Ref.concrete.
  eexists. vm_compute. reflexivity.
Defined.

(** C26. What a caller gets for a public key libsodium rejects, because the
    status of the foreign functions is ignored: [seal()] returns a vector of
    [m.len() + MACBYTES] bytes none of which was ever written,
    [seal_detached()] leaves the plaintext in the buffer and returns a tag of
    zeroes, [precompute()] returns the key of zeroes.  [open()] fails. *)
Theorem box_rejected_key `{T : Target} `{E : BoxExterns} {D : BoxDoc E}
    w m n pk sk mb nb pkb skb
    (Hm : is_slice w m mb) (Hsz : zlen mb + box_.MACBYTES <= isize_max) (Hn : is_ref w n 24 nb)
    (Hpk : is_ref w pk 32 pkb) (Hsk : is_ref w sk 32 skb) (Hrej : box_shared pkb skb = None) :
  (exists v w', box_.seal m n pk sk w = Done v w' /\ v_len v = zlen mb + 16 /\
     read_cells w' (v_ptr v) (Z.to_nat (v_len v)) = Some (replicate (Z.to_nat (v_len v)) None)) /\
  box_.seal_detached m n pk sk w = Done (zeros 16) w /\
  box_.precompute pk sk w = Done (zeros 32) w /\
  (exists w', box_.open m n pk sk w = Done Err w').
Proof.
  change box_.MACBYTES with 16 in *. split_and!.
  - eexists _, _. split; [by apply (box_seal_run w m n pk sk mb nb pkb skb)|].
    rewrite Hrej. cbn [v_len]. split; [done|]. simpl_vec.
    destruct (Z.to_nat (zlen mb + 16)) as [|k] eqn:Ek; [done|].
    apply read_cells_S. eexists _, _, _. split; [done|]. cbn [w_put w_mem].
    rewrite lookup_insert_eq. split; [done|]. rewrite length_replicate. split; [lia|].
    rewrite drop_0, take_ge; [done|]. by rewrite length_replicate.
  - rewrite (box_seal_detached_run w m n pk sk mb nb pkb skb) by done. by rewrite Hrej.
  - rewrite (box_precompute_run w pk sk pkb skb) by done. by rewrite Hrej.
  - rewrite (box_open_run w m n pk sk mb nb pkb skb) by done. rewrite Hrej. cbn [mbind option_bind].
    case_decide; eauto.
Qed.

Lemma box_rejected_key_witness :
  let e := RefBox.externs in
  let w := RefBox.w in
  (exists v w', @box_.seal target64 e RefBox.m (At 2 0) (At 7 0) (At 3 0) w = Done v w' /\
     v_len v = 19 /\
     read_cells w' (v_ptr v) (Z.to_nat (v_len v)) = Some (replicate (Z.to_nat (v_len v)) None)) /\
  @box_.seal_detached e RefBox.m (At 2 0) (At 7 0) (At 3 0) w = Done (zeros 16) w /\
  @box_.precompute e (At 7 0) (At 3 0) w = Done (zeros 32) w /\
  (exists w', @box_.open target64 e RefBox.m (At 2 0) (At 7 0) (At 3 0) w = Done Err w').
Proof.
  apply (@box_rejected_key target64 RefBox.externs RefBox.doc RefBox.w RefBox.m (At 2 0) (At 7 0)
    (At 3 0) RefBox.msg RefBox.nb (zeros 32) RefBox.ska); Ref.concrete.
Defined.

(** C27. Sealed boxes.  [seal()] for a recipient whose public key libsodium
    accepts returns [SEALBYTES + m.len()] bytes that start with the public key of
    an ephemeral key pair, each call using new entropy, and whoever has the secret
    key opens them to the message.  For a rejected public key [seal()] does not
    fail: it returns the ephemeral public key and zeroes.  [open()] rejects an
    input shorter than [SEALBYTES] whatever the keys, and changes nothing. *)
Theorem sealedbox_roundtrip `{T : Target} `{E : SealedboxExterns} {D : SealedboxDoc E}
    w m pk mb pkb (Hm : is_slice w m mb) (Hsz : zlen mb + sealedbox.SEALBYTES <= isize_max)
    (Hpk : is_ref w pk 32 pkb) :
  let e := entropy 32 w in
  (exists v w1, sealedbox.seal m pk w = Done v w1 /\ e_pos (w_env w1) = (e_pos (w_env w) + 32)%nat /\
     v_len v = zlen mb + sealedbox.SEALBYTES /\
     match sealed_box e pkb mb with
     | Some c => is_vec w1 v c /\ take 32 c = sealed_ephemeral e /\
         forall sk skb, is_ref w sk 32 skb -> pkb = sealed_public skb ->
           exists v' w2, sealedbox.open (v_slice v) pk sk w1 = Done (Ok v') w2 /\ is_vec w2 v' mb
     | None => is_vec w1 v (sealed_ephemeral e ++ zeros (zlen mb + 16))
     end) /\
  (forall c cb sk skb, is_slice w c cb -> is_ref w sk 32 skb -> zlen cb < sealedbox.SEALBYTES ->
     sealedbox.open c pk sk w = Done Err w).
Proof.
  change sealedbox.SEALBYTES with 48 in *. pose proof (zlen_nonneg mb). intros e. split.
  2: { intros c cb sk skb Hc Hsk Hlen. rewrite (sealedbox_open_run w c pk sk cb pkb skb) by done. by rewrite decide_True. }
  eexists _, _. split; [by apply (sealedbox_seal_run w m pk mb pkb)|].
  split; [done|]. split; [done|]. fold e. destruct (sealed_box e pkb mb) as [c|] eqn:Es; cbn [default].
  - pose proof (sealed_box_zlen _ _ _ _ Es) as Hl.
    assert (Hv : is_vec (w_put (fresh_block w) (Some <$> c) (w_consume 32 w))
                   (Vec (fresh_block w) (zlen mb + 48) (zlen mb + 48)) c).
    { rewrite <- Hl. apply is_vec_put. lia. }
    split; [done|]. split; [by eapply sealed_box_ephemeral|]. intros sk skb Hsk ->. eexists _, _.
    rewrite (sealedbox_open_run _ _ pk sk c (sealed_public skb) skb).
    + rewrite decide_False by lia. rewrite (sealed_open_box _ _ _ _ Es). split; [done|].
      replace (zlen c - 48) with (zlen mb) by lia. apply is_vec_put. lia.
    + by apply is_vec_slice.
    + apply is_ref_put_fresh; [apply mem_consume_intro, fresh_block_spec|done].
    + apply is_ref_put_fresh; [apply mem_consume_intro, fresh_block_spec|done].
  - pose proof (sealed_nothing_zlen e (zlen mb) ltac:(lia)) as Hz. unfold sealed_nothing in *.
    rewrite <- Hz. apply is_vec_put. lia.
Qed.

(** A key that is accepted, and the zero key, which is rejected *)
Lemma sealedbox_roundtrip_witness :
  let w := RefBox.w in
  let e := entropy 32 w in
  (exists v w1 c v' w2, @sealedbox.seal target64 RefBox.sealed_externs RefBox.m (At 6 0) w = Done v w1 /\
     @is_vec target64 w1 v c /\ take 32 c = RefBox.pub e /\
     @sealedbox.open target64 RefBox.sealed_externs (v_slice v) (At 6 0) (At 5 0) w1 = Done (Ok v') w2 /\
     @is_vec target64 w2 v' RefBox.msg) /\
  (exists v w1, @sealedbox.seal target64 RefBox.sealed_externs RefBox.m (At 7 0) w = Done v w1 /\
     @is_vec target64 w1 v (RefBox.pub e ++ zeros 19)) /\
  @sealedbox.open target64 RefBox.sealed_externs RefBox.m (At 6 0) (At 5 0) w = Done Err w.
Proof.
  destruct (@sealedbox_roundtrip target64 RefBox.sealed_externs RefBox.sealed_doc RefBox.w RefBox.m
    (At 6 0) RefBox.msg (RefBox.pub RefBox.skb)) as [(v & w1 & Hr & _ & _ & Hv & He & Ho) Hs]; [Ref.concrete..|].
  destruct (@sealedbox_roundtrip target64 RefBox.sealed_externs RefBox.sealed_doc RefBox.w RefBox.m
    (At 7 0) RefBox.msg (zeros 32)) as [(v2 & w2 & Hr2 & _ & _ & Hv2) _]; [Ref.concrete..|].
  split_and!.
  - destruct (Ho (At 5 0) RefBox.skb) as (v' & w3 & Hr3 & Hv3); [Ref.concrete|done|].
    eexists v, w1, _, v', w3. split; [exact Hr|]. split; [exact Hv|]. split; [exact He|]. split; [exact Hr3|exact Hv3].
  - exists v2, w2. split; [exact Hr2|exact Hv2].
  - apply (Hs RefBox.m RefBox.msg (At 5 0) RefBox.skb); Ref.concrete.
Defined.
