(* ===== verification/Sealer.v ===== *)
(** * Sealing and opening messages: the interface of the modules that do it

    crypto/secretbox, crypto/box_ (with and without precomputation),
    crypto/sealedbox and crypto/aead offer the same operations on different
    keys.  [Sealer] and [DetachedSealer] are these operations, [SealerLaws] and
    [DetachedLaws] what a client may rely on, and [ModesAgree] what it may rely
    on when it mixes the two modes.  The instances discharge the laws with the
    lemmas of the components; the clients are the test programs in the source
    ([mod test] of the modules), which are proved to pass for every entropy,
    every message length they try and every implementation with the documented
    behaviour, against the interface alone.

    A test is modelled up to its last assertion: the locals that go out of scope
    then are not dropped. *)

From S2P Require Export Box Locals.

(** ** The interface *)

(** [ctx]: where the keys, nonces and additional data of a call are. *)
Class Sealer := {
  sl_ctx : Type;
  sl_seal : slice -> sl_ctx -> M vec;
  sl_open : slice -> sl_ctx -> M (result vec)
}.

(** [key]: what the context holds; [sl_ready w c k]: the context [c] holds [k]. *)
Class SealerLaws `{Target} (S : Sealer) := {
  sl_key : Type;
  sl_overhead : Z;
  sl_ready : world -> sl_ctx -> sl_key -> Prop;
  sl_overhead_range : 0 <= sl_overhead <= 128;
  sl_ready_grows w w' c k : grows w w' -> sl_ready w c k -> sl_ready w' c k;
  sl_opens (k : sl_key) (cb mb : bytes) : Prop :=
    forall w x c, sl_ready w c k -> is_slice w x cb ->
      does w (sl_open x c) (fun r w' => grows w w' /\ exists v, r = Ok v /\ is_vec w' v mb);
  sl_seal_law w m mb c k :
    is_slice w m mb -> zlen mb + sl_overhead <= isize_max -> sl_ready w c k ->
    does w (sl_seal m c) (fun v w' => grows w w' /\
      exists cb, is_vec w' v cb /\ zlen cb = zlen mb + sl_overhead /\ sl_opens k cb mb)
}.

Class DetachedSealer (S : Sealer) := {
  sl_tag : newtype;
  sl_seal_detached : slice -> sl_ctx -> M bytes;
  sl_open_detached : slice -> ptr -> sl_ctx -> M (result unit)
}.

Class DetachedLaws `{Target} {S : Sealer} (L : SealerLaws S) (D : DetachedSealer S) := {
  sl_tag_bytes : nt_bytes sl_tag = sl_overhead;
  sl_opens_detached (k : sl_key) (t ct mb : bytes) : Prop :=
    forall w x tp c, sl_ready w c k -> is_slice w x ct -> is_ref w tp sl_overhead t ->
      sl_open_detached x tp c w = Done (Ok tt) (w_write (s_ptr x) mb w);
  sl_seal_detached_law w m mb c k :
    is_slice w m mb -> sl_ready w c k ->
    exists t ct, sl_seal_detached m c w = Done t (w_write (s_ptr m) ct w) /\
      zlen t = sl_overhead /\ zlen ct = zlen mb /\ sl_opens_detached k t ct mb
}.

(** The combined ciphertext is a tag and then a ciphertext that the detached mode
    opens, and a tag and a ciphertext of the detached mode make a combined one. *)
Class ModesAgree `{Target} {S : Sealer} {L : SealerLaws S} {D : DetachedSealer S}
    (DL : DetachedLaws L D) : Prop := {
  sl_seal_parts w m mb c k :
    is_slice w m mb -> zlen mb + sl_overhead <= isize_max -> sl_ready w c k ->
    does w (sl_seal m c) (fun v w' => grows w w' /\ w_mem w !! v_block v = None /\
      exists t ct, is_vec w' v (t ++ ct) /\ zlen t = sl_overhead /\ zlen ct = zlen mb /\
        sl_opens_detached k t ct mb);
  sl_detached_parts w m mb c k :
    is_slice w m mb -> sl_ready w c k ->
    exists t ct, sl_seal_detached m c w = Done t (w_write (s_ptr m) ct w) /\
      zlen t = sl_overhead /\ zlen ct = zlen mb /\ sl_opens k (t ++ ct) mb
}.

(** ** The clients *)

Section Tests.
Context `{Target} `{RandombytesExterns} `{S : Sealer}.

(** [before i]: what a test generates before the message, [after] what it
    generates after it. *)
Context {K : Type} (before : Z -> M K) (after : K -> M sl_ctx).

(** [assert!(Ok(m) == opened)] *)
Definition assert_ok_eq (m : vec) (opened : result vec) : M unit :=
  let* v := unwrap opened in
  let* a := slice_bytes (v_slice m) in
  let* b := slice_bytes (v_slice v) in
  assert_eq a b.

Definition test_seal_open (n : nat) : M unit :=
  for_range 0 n (fun i =>
    let* k := before i in
    let* m := randombytes i in
    let* c := after k in
    let* ct := sl_seal (v_slice m) c in
    let* opened := sl_open (v_slice ct) c in
    assert_ok_eq m opened).

Context {D : DetachedSealer S}.

(** A buffer is encrypted in place and decrypted again. *)
Definition seal_open_in_place (buf : vec) (c : sl_ctx) : M unit :=
  let* tag := sl_seal_detached (v_slice buf) c in
  let* tp := place tag in
  let* r := sl_open_detached (v_slice buf) (At tp 0) c in
  unwrap r.

Definition test_seal_open_detached (n : nat) : M unit :=
  for_range 0 n (fun i =>
    let* k := before i in
    let* m := randombytes i in
    let* c := after k in
    let* buf := vec_clone m in
    let* _ := seal_open_in_place buf c in
    let* a := slice_bytes (v_slice m) in
    let* b := slice_bytes (v_slice buf) in
    assert_eq a b).

(** The variant of the AEAD modules: the context comes first, the original is
    sealed and the copy is kept. *)
Definition test_seal_open_detached_original (ready : Z -> M sl_ctx) (n : nat) : M unit :=
  for_range 0 n (fun i =>
    let* c := ready i in
    let* m := randombytes i in
    let* m2 := vec_clone m in
    let* _ := seal_open_in_place m c in
    let* a := slice_bytes (v_slice m) in
    let* b := slice_bytes (v_slice m2) in
    assert_eq a b).

Definition test_seal_combined_then_open_detached (n : nat) : M unit :=
  for_range 0 n (fun i =>
    let* k := before i in
    let* m := randombytes i in
    let* c := after k in
    let* ct := sl_seal (v_slice m) c in
    let* head := slice_index (v_slice ct) 0 (nt_bytes sl_tag) in
    let* tag := NewType.from_slice sl_tag head in
    let* tag := unwrap (ok_or tag) in
    let* tp := place tag in
    let* buf := slice_index (v_slice ct) (nt_bytes sl_tag) (v_len ct) in
    let* r := sl_open_detached buf (At tp 0) c in
    let* _ := unwrap r in
    let* a := slice_bytes buf in
    let* b := slice_bytes (v_slice m) in
    assert_eq a b).

Definition test_seal_detached_then_open_combined (n : nat) : M unit :=
  for_range 0 n (fun i =>
    let* k := before i in
    let* m := randombytes i in
    let* c := after k in
    let* buf := vec_zeroed (nt_bytes sl_tag) in
    let* buf := extend_from_slice buf (v_slice m) in
    let* body := slice_index (v_slice buf) (nt_bytes sl_tag) (v_len buf) in
    let* tag := sl_seal_detached body c in
    let* tp := place tag in
    let* head := slice_index (v_slice buf) 0 (nt_bytes sl_tag) in
    let* _ := copy_from_slice head (Slice (At tp 0) (nt_bytes sl_tag)) in
    let* opened := sl_open (v_slice buf) c in
    assert_ok_eq m opened).

End Tests.

(** ** The tests pass *)

Section Pass.
Context `{T : Target} `{R : RandombytesExterns} {RD : RandombytesDoc R} `{S : Sealer} {L : SealerLaws S}.

(** The keys, nonces and additional data a test generates make a context. *)
Definition prepares {K : Type} (before : Z -> M K) (after : K -> M sl_ctx) (n : nat) : Prop :=
  forall i w, 0 <= i < Z.of_nat n ->
    does w (before i) (fun a w1 => grows w w1 /\
      forall w2, grows w1 w2 -> does w2 (after a) (fun c w3 => grows w2 w3 /\ exists k, sl_ready w3 c k)).

Lemma does_randombytes w n :
  0 <= n <= isize_max ->
  does w (randombytes n) (fun v w' => grows w w' /\ exists bs, is_vec w' v bs /\ zlen bs = n /\
    w_mem w !! v_block v = None).
Proof.
  intros Hn. eapply does_eq; [by apply randombytes_run|]. split.
  - exact (grows_put _ _ (w_consume n w) (fresh_block_spec w)).
  - exists (entropy n w). pose proof (entropy_zlen n w ltac:(lia)) as Hl. split_and!; [|done|apply fresh_block_spec].
    pose proof (is_vec_put (fresh_block w) (entropy n w) (w_consume n w)) as Hv. rewrite Hl in Hv. apply Hv. lia.
Qed.

Lemma is_vec_mono w w' v bs : grows w w' -> is_vec w v bs -> is_vec w' v bs.
Proof. intros Hg [Hb ?]. split; [by eapply bytes_at_mono|done]. Qed.

(** An allocation that is not empty is live. *)
Lemma is_vec_live w v bs : is_vec w v bs -> bs <> [] -> w_mem w !! v_block v <> None.
Proof.
  intros [Hb _] Hne. destruct bs as [|x bs]; [done|]. unfold bytes_at in Hb. cbn [length] in Hb.
  apply read_cells_S in Hb as (b & o & d & [= <- <-] & E & _). by rewrite E.
Qed.

(** Everything that is not in the allocation [b] is kept. *)
Definition grows_but (b : positive) (w w' : world) : Prop := grows (w_del b w) w'.

Lemma grows_grows_but b w w' : grows w w' -> grows_but b w w'.
Proof. intros Hg. unfold grows_but, grows. cbn. etrans; [apply delete_subseteq|exact Hg]. Qed.

Lemma grows_but_trans b w1 w2 w3 : grows_but b w1 w2 -> grows_but b w2 w3 -> grows_but b w1 w3.
Proof.
  unfold grows_but, grows. cbn. intros H1 H2. rewrite <- (delete_delete_eq (w_mem w1) b).
  transitivity (delete b (w_mem w2)); [by apply delete_mono|done].
Qed.

Lemma grows_but_write b o bs w : grows_but b w (w_write (At b o) bs w).
Proof.
  unfold grows_but. apply grows_write; [|apply lookup_delete_eq]. apply grows_grows_but. reflexivity.
Qed.

Lemma grows_from_but b w w1 w2 :
  grows w w1 -> w_mem w !! b = None -> grows_but b w1 w2 -> grows w w2.
Proof.
  unfold grows_but, grows. cbn. intros Hg Hb H2. rewrite <- (delete_id _ _ Hb).
  transitivity (delete b (w_mem w1)); [by apply delete_mono|done].
Qed.

Lemma is_vec_but b w w' v bs :
  (bs <> [] -> v_block v <> b) -> is_vec w v bs -> grows_but b w w' -> is_vec w' v bs.
Proof.
  intros Hne [Hb ?] Hg. split; [|done]. destruct bs as [|x bs]; [done|].
  apply (bytes_at_mono (w_del b w)); [exact Hg|]. revert Hb. unfold bytes_at. cbn [length].
  rewrite !read_cells_S. intros (b' & o & d & [= <- <-] & E & ? & ?). eexists _, _, d.
  split; [reflexivity|]. cbn. rewrite lookup_delete_ne; [done|]. symmetry. by apply Hne.
Qed.

Context {K : Type} (before : Z -> M K) (after : K -> M sl_ctx).

(** The part the tests share: a context that is ready, and a message. *)
Lemma prepared n i w (f : vec -> sl_ctx -> M unit) :
  prepares before after n -> 0 <= i < Z.of_nat n -> Z.of_nat n <= 256 ->
  (forall w m c k mb, is_vec w m mb -> zlen mb = i -> sl_ready w c k ->
     does w (f m c) (fun _ _ => True)) ->
  does w (let* k := before i in let* m := randombytes i in let* c := after k in f m c) (fun _ _ => True).
Proof.
  intros Hp Hi Hn Hf. pose proof isize_max_bounds.
  eapply does_bind; [by apply (Hp i w)|]. intros a w1 [Hg1 Ha].
  eapply does_bind; [apply does_randombytes; lia|]. intros m w2 (Hg2 & mb & Hm & Hl & _).
  eapply does_bind; [by apply Ha|]. intros c w3 (Hg3 & k & Hk).
  eapply Hf; [by eapply is_vec_mono|done|exact Hk].
Qed.

Lemma assert_ok_eq_run w m v mb (Q : unit -> world -> Prop) :
  is_vec w m mb -> is_vec w v mb -> Q tt w -> does w (assert_ok_eq m (Ok v)) Q.
Proof.
  intros Hm%is_vec_slice Hv%is_vec_slice Hq. unfold assert_ok_eq. exists tt, w. split; [|done].
  eapply bind_step; [reflexivity|].
  do 2 (eapply bind_step; [by apply slice_bytes_run|]). unfold assert_eq, assert. by rewrite bool_decide_true.
Qed.

Lemma test_seal_open_passes n w :
  prepares before after n -> Z.of_nat n <= 256 -> does w (test_seal_open before after n) (fun _ _ => True).
Proof.
  intros Hp Hn. apply (does_for (fun _ => True)); [|done]. intros i w0 Hi _. cbv beta.
  pose proof isize_max_bounds. pose proof sl_overhead_range.
  apply (prepared n i w0 (fun m c => let* ct := sl_seal (v_slice m) c in
    let* opened := sl_open (v_slice ct) c in assert_ok_eq m opened) Hp); [lia|done|].
  intros w1 m c k mb Hm Hl Hk.
  eapply does_bind; [apply (sl_seal_law w1 (v_slice m) mb c k); [by apply is_vec_slice|lia|done]|].
  intros ct w2 (Hg & cb & Hcb & _ & Ho).
  eapply does_bind.
  { apply (Ho w2 (v_slice ct) c); [by eapply sl_ready_grows|by apply is_vec_slice]. }
  intros r w3 (Hg' & v & -> & Hv). apply (assert_ok_eq_run w3 m v mb); [|done..].
  eapply is_vec_mono; [|exact Hm]. by etrans.
Qed.

Context {D : DetachedSealer S} {DL : DetachedLaws L D}.

(** The buffer is newer than the context it is sealed with: it is restored, and
    nothing else is touched. *)
Lemma seal_open_in_place_run w0 w buf c k mb :
  grows w0 w -> sl_ready w0 c k -> w_mem w0 !! v_block buf = None -> is_vec w buf mb ->
  does w (seal_open_in_place buf c) (fun _ w' => is_vec w' buf mb /\ grows_but (v_block buf) w w').
Proof.
  intros Hg Hk Hfresh Hbuf. pose proof (is_vec_slice _ _ _ Hbuf) as Hs.
  destruct (sl_seal_detached_law w (v_slice buf) mb c k Hs) as (t & ct & Hseal & Ht & Hct & Ho);
    [by eapply sl_ready_grows|].
  set (w3 := w_write (v_ptr buf) ct w).
  assert (Hg3 : grows w0 w3) by (by apply grows_write).
  eapply does_bind; [eapply (does_eq _ _ t w3 (fun a w' => a = t /\ w' = w3)); [exact Hseal|done]|].
  intros _ _ [-> ->]. eapply does_bind; [apply does_place|]. intros tp w4 (Hg4 & Htp & Htf).
  assert (Hs4 : is_slice w4 (v_slice buf) ct).
  { eapply is_slice_mono; [exact Hg4|]. by apply (is_slice_write_same w (v_slice buf) mb). }
  rewrite Ht in Htp. set (w5 := w_write (v_ptr buf) mb w4).
  eapply does_bind.
  { eapply (does_eq _ _ (Ok tt) w5 (fun a w' => a = Ok tt /\ w' = w5)); [|done].
    apply (Ho w4 (v_slice buf) (At tp 0) c); [|done..]. eapply sl_ready_grows; [|exact Hk].
    by transitivity w3. }
  intros _ _ [-> ->]. apply does_ret. split.
  - destruct (is_slice_write_same w4 (v_slice buf) ct mb Hs4) as (? & _); [by rewrite Hct|].
    destruct Hbuf as [_ ?]. by split.
  - apply (grows_but_trans _ _ w3); [apply grows_but_write|].
    apply (grows_but_trans _ _ w4); [by apply grows_grows_but|apply grows_but_write].
Qed.

Lemma test_seal_open_detached_passes n w :
  prepares before after n -> Z.of_nat n <= 256 ->
  does w (test_seal_open_detached before after n) (fun _ _ => True).
Proof.
  intros Hp Hn. apply (does_for (fun _ => True)); [|done]. intros i w0 Hi _. cbv beta.
  apply (prepared n i w0 (fun m c => let* buf := vec_clone m in
    let* _ := seal_open_in_place buf c in let* a := slice_bytes (v_slice m) in
    let* b := slice_bytes (v_slice buf) in assert_eq a b) Hp); [lia|done|].
  intros w1 m c k mb Hm _ Hk.
  eapply does_bind; [by apply does_vec_clone|]. intros buf w2 (Hg & Hbuf & Hfresh).
  eapply does_bind; [by apply (seal_open_in_place_run w1 w2 buf c k mb)|]. intros [] w3 [Hbuf' Hbut].
  exists tt, w3. split; [|done].
  eapply bind_step; [apply (slice_bytes_run _ _ mb), is_vec_slice|].
  { eapply is_vec_mono; [|exact Hm]. by apply (grows_from_but (v_block buf) w1 w2). }
  eapply bind_step; [by apply (slice_bytes_run _ _ mb), is_vec_slice|].
  unfold assert_eq, assert. by rewrite bool_decide_true.
Qed.

Lemma test_seal_open_detached_original_passes (ready : Z -> M sl_ctx) n w :
  (forall i w, 0 <= i < Z.of_nat n ->
     does w (ready i) (fun c w1 => grows w w1 /\ exists k, sl_ready w1 c k)) ->
  Z.of_nat n <= 256 -> does w (test_seal_open_detached_original ready n) (fun _ _ => True).
Proof.
  intros Hp Hn. apply (does_for (fun _ => True)); [|done]. intros i w0 Hi _. cbv beta.
  pose proof isize_max_bounds.
  eapply does_bind; [apply (Hp i w0); lia|]. intros c w1 (_ & k & Hk).
  eapply does_bind; [apply does_randombytes; lia|]. intros m w2 (Hg & mb & Hm & _ & Hfresh).
  eapply does_bind; [by apply does_vec_clone|]. intros m2 w3 (Hg3 & Hm2 & Hfresh2).
  eapply does_bind.
  { apply (seal_open_in_place_run w1 w3 m c k mb); [by transitivity w2|done..|by eapply is_vec_mono]. }
  intros [] w4 [Hm' Hbut]. exists tt, w4. split; [|done].
  eapply bind_step; [by apply (slice_bytes_run _ _ mb), is_vec_slice|].
  eapply bind_step; [apply (slice_bytes_run _ _ mb), is_vec_slice|].
  { apply (is_vec_but (v_block m) w3); [|done..]. intros Hne Hb. rewrite Hb in Hfresh2.
    by destruct (is_vec_live w2 m mb). }
  unfold assert_eq, assert. by rewrite bool_decide_true.
Qed.

(** A vector that holds two parts, seen as two slices *)
Lemma is_vec_split w v a b :
  is_vec w v (a ++ b) ->
  is_slice w (Slice (v_ptr v) (zlen a)) a /\ is_slice w (Slice (ptr_add (v_ptr v) (zlen a)) (zlen b)) b.
Proof.
  intros (Hb & Hl & Hc). pose proof (zlen_nonneg a). pose proof (zlen_nonneg b). rewrite zlen_app in *.
  split; (split; [|cbn; lia]); cbn [s_ptr].
  - by eapply bytes_at_app_l.
  - by apply bytes_at_app_r.
Qed.

Context {MA : ModesAgree DL}.

Lemma test_seal_combined_then_open_detached_passes n w :
  prepares before after n -> Z.of_nat n <= 256 ->
  does w (test_seal_combined_then_open_detached before after n) (fun _ _ => True).
Proof.
  intros Hp Hn. apply (does_for (fun _ => True)); [|done]. intros i w0 Hi _. cbv beta.
  pose proof isize_max_bounds. pose proof sl_overhead_range.
  apply (prepared n i w0 (fun m c => let* ct := sl_seal (v_slice m) c in
    let* head := slice_index (v_slice ct) 0 (nt_bytes sl_tag) in
    let* tag := NewType.from_slice sl_tag head in let* tag := unwrap (ok_or tag) in
    let* tp := place tag in let* buf := slice_index (v_slice ct) (nt_bytes sl_tag) (v_len ct) in
    let* r := sl_open_detached buf (At tp 0) c in let* _ := unwrap r in
    let* a := slice_bytes buf in let* b := slice_bytes (v_slice m) in assert_eq a b) Hp); [lia|done|].
  intros w1 m c k mb Hm Hl Hk.
  eapply does_bind; [apply (sl_seal_parts w1 (v_slice m) mb c k); [by apply is_vec_slice|lia|done]|].
  intros v w2 (Hg & Hfresh & t & ct & Hv & Ht & Hct & Ho). pose proof (is_vec_split _ _ _ _ Hv) as [Hs1 Hs2].
  destruct Hv as (_ & Hvl & Hvc). rewrite zlen_app in *. pose proof (zlen_nonneg ct).
  rewrite sl_tag_bytes, <- Ht in *.
  set (w3 := w_put (fresh_block w2) (Some <$> t) w2).
  assert (Hg3 : grows w2 w3) by (apply grows_put, fresh_block_spec).
  set (buf := Slice (ptr_add (v_ptr v) (zlen t)) (zlen ct)) in *.
  set (w4 := w_write (s_ptr buf) mb w3).
  assert (Hg4 : grows w1 w4) by (apply grows_write; [by transitivity w2|done]).
  assert (Hopen : sl_open_detached buf (At (fresh_block w2) 0) c w3 = Done (Ok tt) w4).
  { apply (Ho w3 buf _ c).
    - eapply sl_ready_grows; [|exact Hk]. by transitivity w2.
    - by eapply is_slice_mono.
    - rewrite <- Ht. apply is_ref_place. }
  exists tt, w4. split; [|done].
  eapply bind_step; [apply slice_index_run; cbn; lia|].
  eapply bind_step.
  { rewrite Z.sub_0_r. apply (NewType.from_slice_run sl_tag w2 _ t). exact Hs1. }
  rewrite sl_tag_bytes, decide_True by done. eapply bind_step; [reflexivity|].
  eapply bind_step; [apply alloc_run|]. fold w3.
  eapply bind_step; [apply slice_index_run; cbn; lia|].
  replace (v_len v - zlen t) with (zlen ct) by lia. change (s_ptr (v_slice v)) with (v_ptr v). fold buf.
  eapply bind_step; [exact Hopen|]. eapply bind_step; [reflexivity|].
  eapply bind_step; [apply (slice_bytes_run _ _ mb), (is_slice_write_same w3 buf ct); [by eapply is_slice_mono|done]|].
  eapply bind_step; [apply (slice_bytes_run _ _ mb), is_vec_slice; by eapply is_vec_mono|].
  unfold assert_eq, assert. by rewrite bool_decide_true.
Qed.

(** Storing the middle of a vector *)
Lemma is_vec_fill w v a b c x :
  is_vec w v (a ++ b ++ c) -> zlen x = zlen b ->
  is_vec (w_write (ptr_add (v_ptr v) (zlen a)) x w) v (a ++ x ++ c).
Proof.
  intros (Hb & Hl & Hc) Hx. rewrite !zlen_app in *. split.
  - apply (bytes_at_write_sub w _ a b c x); [done|]. unfold zlen in Hx. lia.
  - rewrite !zlen_app. lia.
Qed.

Lemma test_seal_detached_then_open_combined_passes n w :
  prepares before after n -> Z.of_nat n <= 256 ->
  does w (test_seal_detached_then_open_combined before after n) (fun _ _ => True).
Proof.
  intros Hp Hn. apply (does_for (fun _ => True)); [|done]. intros i w0 Hi _. cbv beta.
  pose proof isize_max_bounds. pose proof sl_overhead_range.
  apply (prepared n i w0 (fun m c => let* buf := vec_zeroed (nt_bytes sl_tag) in
    let* buf := extend_from_slice buf (v_slice m) in
    let* body := slice_index (v_slice buf) (nt_bytes sl_tag) (v_len buf) in
    let* tag := sl_seal_detached body c in let* tp := place tag in
    let* head := slice_index (v_slice buf) 0 (nt_bytes sl_tag) in
    let* _ := copy_from_slice head (Slice (At tp 0) (nt_bytes sl_tag)) in
    let* opened := sl_open (v_slice buf) c in assert_ok_eq m opened) Hp); [lia|done|].
  intros w1 m c k mb Hm Hl Hk. rewrite sl_tag_bytes. set (o := sl_overhead) in *.
  assert (Hz : zlen (zeros o) = o) by (apply zlen_zeros; lia).
  eapply local_run; [rewrite vec_zeroed_eq by lia; eapply bind_step; [apply alloc_run|reflexivity]|].
  pose proof (does_extend w1 (fresh_block w1) (zeros o) (v_slice m) mb (fresh_block_spec w1)
    (is_vec_slice _ _ _ Hm) ltac:(lia)) as Hext. rewrite Hz in Hext.
  eapply does_bind; [exact Hext|].
  intros buf w2 (Hfresh & Hg2 & Hbuf). pose proof (is_vec_split _ _ _ _ Hbuf) as [_ Hbody].
  pose proof Hbuf as (_ & Hbl & _). rewrite zlen_app, Hz in Hbl. rewrite Hz in Hbody.
  eapply local_run; [apply slice_index_run; cbn; lia|].
  cbn [v_slice s_ptr]. replace (v_len buf - o) with (zlen mb) by lia.
  destruct (sl_detached_parts w2 _ mb c k Hbody) as (t & ct & Hseal & Ht & Hct & Ho);
    [by eapply sl_ready_grows|].
  eapply local_run; [exact Hseal|]. cbn [s_ptr].
  set (w3 := w_write (ptr_add (v_ptr buf) o) ct w2).
  assert (Hbuf3 : is_vec w3 buf (zeros o ++ ct)).
  { pose proof (is_vec_fill w2 buf (zeros o) mb [] ct) as Hf. rewrite !app_nil_r, Hz in Hf. by apply Hf. }
  assert (Hg3 : grows w1 w3) by (by apply grows_write).
  eapply does_bind; [apply does_place|]. intros tp w4 (Hg4 & Htp & _).
  eapply local_run; [apply slice_index_run; cbn; lia|]. rewrite Z.sub_0_r.
  set (w5 := w_write (v_ptr buf) t w4).
  assert (Hbuf5 : is_vec w5 buf (t ++ ct)).
  { apply (is_vec_fill w4 buf [] (zeros o) ct t); [by eapply is_vec_mono|lia]. }
  assert (Hg5 : grows w1 w5) by (apply grows_write; [by transitivity w3|done]).
  eapply (local_run _ _ _ tt w5).
  { unfold copy_from_slice. cbn [s_len s_ptr]. rewrite Z.eqb_refl. destruct Htp as [Htp _].
    eapply bind_step; [apply (read_run _ _ _ t); [done|by rewrite Ht]|].
    apply write_in_range. apply (in_range_bytes w4 _ (zeros o)); [|lia].
    apply (bytes_at_app_l _ _ _ ct). apply (is_vec_mono w3 w4) in Hbuf3; [|done]. apply Hbuf3. }
  eapply does_bind.
  { apply (Ho w5 (v_slice buf) c); [by eapply sl_ready_grows|by apply is_vec_slice]. }
  intros r w6 (Hg6 & v & -> & Hv). apply (assert_ok_eq_run w6 m v mb); [|done..].
  eapply is_vec_mono; [|exact Hm]. by transitivity w5.
Qed.

End Pass.
