(* ===== verification/Tests.v ===== *)
(** * The modules that seal messages, and their tests

    crypto/secretbox, crypto/box_ (with the keys and with a precomputed key),
    crypto/sealedbox and the modules of crypto/aead are [Sealer]s; the laws are
    discharged with the lemmas of the components.  The [test_...] programs of
    their [mod test] are the clients of Sealer.v with the keys, nonces and
    additional data each module generates, and they pass: no assertion fails,
    nothing panics and the loops end, for every entropy. *)

From S2P Require Export Locals Secretbox Aead Sealer.

(** ** Results in a new allocation *)

Section Fresh.
Context `{Target}.

Lemma fresh_vec_does w w' (p : M vec) n bs :
  p w = Done (Vec (fresh_block w) n n) (w_put (fresh_block w) (Some <$> bs) w') ->
  w_mem w' = w_mem w -> zlen bs = n -> n <= isize_max ->
  does w p (fun v w2 => grows w w2 /\ w_mem w !! v_block v = None /\ is_vec w2 v bs).
Proof.
  intros Hp Hw <- Hn. eapply does_eq; [exact Hp|]. split; [|split; [apply fresh_block_spec|]].
  - unfold grows. cbn. rewrite Hw. apply insert_subseteq, fresh_block_spec.
  - by apply is_vec_put.
Qed.

Lemma fresh_ok_does w w' (p : M (result vec)) n bs :
  p w = Done (Ok (Vec (fresh_block w) n n)) (w_put (fresh_block w) (Some <$> bs) w') ->
  w_mem w' = w_mem w -> zlen bs = n -> n <= isize_max ->
  does w p (fun r w2 => grows w w2 /\ exists v, r = Ok v /\ is_vec w2 v bs).
Proof.
  intros Hp Hw Hl Hn. eapply does_eq; [exact Hp|].
  destruct (fresh_vec_does w w' (fun _ => Done (Vec (fresh_block w) n n)
    (w_put (fresh_block w) (Some <$> bs) w')) n bs eq_refl Hw Hl Hn) as (_ & _ & [= <- <-] & Hg & _ & Hv).
  eauto.
Qed.

End Fresh.

(** ** The modules that seal with a nonce and a shared key

    secretbox, box_ and box_ with a precomputed key compute the same ciphertexts
    from the nonce and the (shared) key: the laws follow from what is common to
    their lemmas. *)

Record easy_module `{Target} (S : Sealer) (D : DetachedSealer S) := EasyModule {
  ea_cipher : cipher;
  ea_laws : CipherLaws ea_cipher;
  ea_tag : c_tag ea_cipher = 16;
  ea_tag_bytes : nt_bytes sl_tag = 16;
  ea_ready : world -> sl_ctx -> bytes * bytes -> Prop;
  ea_grows w w' c k : grows w w' -> ea_ready w c k -> ea_ready w' c k;
  ea_seal w m mb c k :
    is_slice w m mb -> zlen mb + 16 <= isize_max -> ea_ready w c k ->
    exists w', w_mem w' = w_mem w /\
      sl_seal m c w = Done (Vec (fresh_block w) (zlen mb + 16) (zlen mb + 16))
        (w_put (fresh_block w) (Some <$> easy_ct ea_cipher k.2 k.1 mb) w');
  ea_open w x mb c k :
    is_slice w x (easy_ct ea_cipher k.2 k.1 mb) -> ea_ready w c k ->
    exists w', w_mem w' = w_mem w /\
      sl_open x c w = Done (Ok (Vec (fresh_block w) (zlen mb) (zlen mb)))
        (w_put (fresh_block w) (Some <$> mb) w');
  ea_seal_detached w m mb c k :
    is_slice w m mb -> ea_ready w c k ->
    sl_seal_detached m c w =
      Done (c_mac ea_cipher k.2 k.1 [] (c_enc ea_cipher k.2 k.1 mb))
           (w_write (s_ptr m) (c_enc ea_cipher k.2 k.1 mb) w);
  ea_open_detached w x tp mb c k :
    is_slice w x (c_enc ea_cipher k.2 k.1 mb) -> ea_ready w c k ->
    is_ref w tp 16 (c_mac ea_cipher k.2 k.1 [] (c_enc ea_cipher k.2 k.1 mb)) ->
    sl_open_detached x tp c w = Done (Ok tt) (w_write (s_ptr x) mb w)
}.

Section Easy.
Context `{T : Target} {S : Sealer} {D : DetachedSealer S} (A : easy_module S D).

#[local] Abbreviation C := (ea_cipher S D A).

#[local] Instance easy_cipher_laws : CipherLaws C := ea_laws S D A.

Lemma easy_zlen k mb : zlen (easy_ct C k.2 k.1 mb) = zlen mb + 16.
Proof. by rewrite (easy_ct_zlen C), ea_tag. Qed.

Lemma easy_seal_does w m mb c k :
  is_slice w m mb -> zlen mb + 16 <= isize_max -> ea_ready S D A w c k ->
  does w (sl_seal m c) (fun v w2 => grows w w2 /\ w_mem w !! v_block v = None /\
    is_vec w2 v (easy_ct C k.2 k.1 mb)).
Proof.
  intros Hm Hl Hk. destruct (ea_seal S D A w m mb c k Hm Hl Hk) as (w' & Hw & Hs).
  by eapply fresh_vec_does; [exact Hs|exact Hw|apply easy_zlen|].
Qed.

Lemma easy_opens k mb w x c :
  ea_ready S D A w c k -> is_slice w x (easy_ct C k.2 k.1 mb) ->
  does w (sl_open x c) (fun r w' => grows w w' /\ exists v, r = Ok v /\ is_vec w' v mb).
Proof.
  intros Hk Hx. destruct (ea_open S D A w x mb c k Hx Hk) as (w' & Hw & Ho).
  destruct Hx as (_ & _ & Hl). rewrite easy_zlen in Hl.
  eapply fresh_ok_does; [exact Ho|exact Hw|done|lia].
Qed.

#[refine] Definition easy_laws : SealerLaws S := {|
  sl_key := bytes * bytes; sl_overhead := 16; sl_ready := ea_ready S D A
|}.
Proof.
  - lia.
  - apply ea_grows.
  - intros w m mb c k Hm Hl Hk. eapply does_mono; [by apply easy_seal_does|].
    intros v w2 (Hg & _ & Hv). split; [done|]. eexists. split; [exact Hv|].
    split; [apply easy_zlen|]. intros w3 x c' Hk' Hx. by apply easy_opens with (k := k).
Defined.

(** The tag and the ciphertext of a message can be opened. *)
Lemma easy_opens_detached k mb w x tp c :
  ea_ready S D A w c k -> is_slice w x (c_enc C k.2 k.1 mb) ->
  is_ref w tp 16 (c_mac C k.2 k.1 [] (c_enc C k.2 k.1 mb)) ->
  sl_open_detached x tp c w = Done (Ok tt) (w_write (s_ptr x) mb w).
Proof. intros. by apply (ea_open_detached S D A w x tp mb c k). Qed.

#[refine] Definition easy_detached_laws : DetachedLaws easy_laws D := {| sl_tag_bytes := _ |}.
Proof.
  { exact (ea_tag_bytes S D A). }
  intros w m mb c k Hm Hk. eexists _, _. split; [by apply (ea_seal_detached S D A)|].
  rewrite c_mac_zlen, c_enc_zlen. split; [apply ea_tag|]. split; [done|].
  intros w' x tp c'. apply easy_opens_detached.
Defined.

#[refine] Definition easy_modes_agree : ModesAgree easy_detached_laws := {| sl_seal_parts := _ |}.
Proof.
  2:{ intros w m mb c k Hm Hk. eexists _, _. split; [by apply (ea_seal_detached S D A)|].
      rewrite c_mac_zlen, c_enc_zlen. split; [apply ea_tag|]. split; [done|].
      intros w' x c' Hk' Hx. by apply easy_opens with (k := k). }
  intros w m mb c k Hm Hl Hk. eapply does_mono; [by apply easy_seal_does|].
  intros v w2 (Hg & Hf & Hv). split; [done|]. split; [done|]. eexists _, _. split; [exact Hv|].
  rewrite c_mac_zlen, c_enc_zlen. split; [apply ea_tag|]. split; [done|].
  intros w' x tp c'. apply easy_opens_detached.
Defined.

End Easy.

(** ** crypto/secretbox *)

(** A nonce and a key *)
Definition nonce_key_ready (w : world) (c : ptr * ptr) (k : bytes * bytes) : Prop :=
  is_ref w c.1 24 k.1 /\ is_ref w c.2 32 k.2.

Lemma nonce_key_ready_grows w w' c k : grows w w' -> nonce_key_ready w c k -> nonce_key_ready w' c k.
Proof. intros Hg [? ?]. by split; eapply is_ref_grows. Qed.

Lemma easy_open_fits C `{CipherLaws C} k mb :
  c_tag C = 16 -> zlen (easy_ct C k.2 k.1 mb) - 16 = zlen mb /\ ~ zlen (easy_ct C k.2 k.1 mb) < 16.
Proof. intros Ht. pose proof (zlen_nonneg mb). rewrite (easy_ct_zlen C), Ht. lia. Qed.

Section Secretbox.
Context `{T : Target} `{E : SecretboxExterns}.

#[global] Instance secretbox_sealer : Sealer := {|
  sl_ctx := ptr * ptr;
  sl_seal m c := secretbox.seal m c.1 c.2;
  sl_open x c := secretbox.open x c.1 c.2
|}.

#[global] Instance secretbox_detached : DetachedSealer secretbox_sealer := {|
  sl_tag := secretbox.Tag;
  sl_seal_detached m c := secretbox.seal_detached m c.1 c.2;
  sl_open_detached x t c := secretbox.open_detached x t c.1 c.2
|}.

Context {D : SecretboxDoc E}.

#[refine] Definition secretbox_easy : easy_module secretbox_sealer secretbox_detached := {|
  ea_cipher := secretbox_cipher; ea_ready := nonce_key_ready
|}.
Proof.
  - apply secretbox_tag.
  - done.
  - apply nonce_key_ready_grows.
  - intros w m mb c k Hm Hl [Hn Hk]. exists w. split; [done|]. by apply secretbox.secretbox_seal_run.
  - intros w x mb c k Hx [Hn Hk]. exists w. split; [done|].
    destruct (easy_open_fits secretbox_cipher k mb secretbox_tag) as [Hz Hge].
    cbn [sl_open secretbox_sealer]. erewrite secretbox.secretbox_open_run by done.
    rewrite decide_False by done. rewrite easy_open_ct by apply _. by rewrite Hz.
  - intros w m mb c k Hm [Hn Hk]. by apply secretbox.secretbox_seal_detached_run.
  - intros w x tp mb c k Hx [Hn Hk] Ht. cbn [sl_open_detached secretbox_detached].
    erewrite secretbox.secretbox_open_detached_run by done. rewrite decide_True by done. by rewrite c_dec_enc by apply _.
Defined.

#[global] Instance secretbox_sealer_laws : SealerLaws secretbox_sealer := easy_laws secretbox_easy.
#[global] Instance secretbox_detached_laws : DetachedLaws secretbox_sealer_laws secretbox_detached :=
  easy_detached_laws secretbox_easy.
#[global] Instance secretbox_modes : ModesAgree secretbox_detached_laws :=
  easy_modes_agree secretbox_easy.

End Secretbox.

(** ** crypto/box_ *)

(** Two parties with a key pair each, and a nonce: [pk1, sk2] are what the one
    seals with, [pk2, sk1] what the other opens with. *)
Record box_parties := BoxParties { bp_n : ptr; bp_pk1 : ptr; bp_sk1 : ptr; bp_pk2 : ptr; bp_sk2 : ptr }.

Section Box.
Context `{T : Target} `{E : BoxExterns}.

#[global] Instance box_sealer : Sealer := {|
  sl_ctx := box_parties;
  sl_seal m c := box_.seal m (bp_n c) (bp_pk1 c) (bp_sk2 c);
  sl_open x c := box_.open x (bp_n c) (bp_pk2 c) (bp_sk1 c)
|}.

#[global] Instance box_detached : DetachedSealer box_sealer := {|
  sl_tag := box_.Tag;
  sl_seal_detached m c := box_.seal_detached m (bp_n c) (bp_pk1 c) (bp_sk2 c);
  sl_open_detached x t c := box_.open_detached x t (bp_n c) (bp_pk2 c) (bp_sk1 c)
|}.

Context {D : BoxDoc E}.

(** The parties share the key. *)
Definition box_ready (w : world) (c : box_parties) (k : bytes * bytes) : Prop :=
  is_ref w (bp_n c) 24 k.1 /\
  exists pk1 sk1 pk2 sk2,
    is_ref w (bp_pk1 c) 32 pk1 /\ is_ref w (bp_sk1 c) 32 sk1 /\
    is_ref w (bp_pk2 c) 32 pk2 /\ is_ref w (bp_sk2 c) 32 sk2 /\
    box_shared pk1 sk2 = Some k.2 /\ box_shared pk2 sk1 = Some k.2.

#[refine] Definition box_easy : easy_module box_sealer box_detached := {|
  ea_cipher := box_cipher; ea_ready := box_ready
|}.
Proof.
  - apply box_tag.
  - done.
  - intros w w' c k Hg (Hn & pk1 & sk1 & pk2 & sk2 & ? & ? & ? & ? & ? & ?).
    split; [by eapply is_ref_grows|]. exists pk1, sk1, pk2, sk2.
    split_and!; first [done|by eapply is_ref_grows].
  - intros w m mb c k Hm Hl (Hn & pk1 & sk1 & pk2 & sk2 & Hp1 & Hs1 & Hp2 & Hs2 & Hk & Hk').
    exists (w_breach 1 w). split; [apply mem_breach|]. cbn [sl_seal box_sealer].
    erewrite box_seal_run by done. by rewrite Hk.
  - intros w x mb c k Hx (Hn & pk1 & sk1 & pk2 & sk2 & Hp1 & Hs1 & Hp2 & Hs2 & Hk & Hk').
    destruct (easy_open_fits box_cipher k mb box_tag) as [Hz Hge].
    exists (w_breach (zlen mb) w). split; [apply mem_breach|]. cbn [sl_open box_sealer].
    erewrite box_open_run by done. rewrite decide_False, Hz, Hk' by done. cbn [mbind option_bind].
    by rewrite easy_open_ct by apply _.
  - intros w m mb c k Hm (Hn & pk1 & sk1 & pk2 & sk2 & Hp1 & Hs1 & Hp2 & Hs2 & Hk & Hk').
    cbn [sl_seal_detached box_detached]. erewrite box_seal_detached_run by done. by rewrite Hk.
  - intros w x tp mb c k Hx (Hn & pk1 & sk1 & pk2 & sk2 & Hp1 & Hs1 & Hp2 & Hs2 & Hk & Hk') Ht.
    cbn [sl_open_detached box_detached]. erewrite box_open_detached_run by done.
    rewrite Hk', decide_True by done. by rewrite c_dec_enc by apply _.
Defined.

#[global] Instance box_sealer_laws : SealerLaws box_sealer := easy_laws box_easy.
#[global] Instance box_detached_laws : DetachedLaws box_sealer_laws box_detached :=
  easy_detached_laws box_easy.
#[global] Instance box_modes : ModesAgree box_detached_laws := easy_modes_agree box_easy.

End Box.

Section Precomputed.
Context `{T : Target} `{E : BoxExterns}.

(** A nonce and the two copies of the precomputed key *)
#[global] Instance precomputed_sealer : Sealer := {|
  sl_ctx := ptr * (ptr * ptr);
  sl_seal m c := box_.seal_precomputed m c.1 c.2.1;
  sl_open x c := box_.open_precomputed x c.1 c.2.2
|}.

#[global] Instance precomputed_detached : DetachedSealer precomputed_sealer := {|
  sl_tag := box_.Tag;
  sl_seal_detached m c := box_.seal_detached_precomputed m c.1 c.2.1;
  sl_open_detached x t c := box_.open_detached_precomputed x t c.1 c.2.2
|}.

Context {D : BoxDoc E}.

Definition precomputed_ready (w : world) (c : ptr * (ptr * ptr)) (k : bytes * bytes) : Prop :=
  is_ref w c.1 24 k.1 /\ is_ref w c.2.1 32 k.2 /\ is_ref w c.2.2 32 k.2.

#[refine] Definition precomputed_easy : easy_module precomputed_sealer precomputed_detached := {|
  ea_cipher := box_cipher; ea_ready := precomputed_ready
|}.
Proof.
  - apply box_tag.
  - done.
  - intros w w' c k Hg (? & ? & ?). by split_and!; eapply is_ref_grows.
  - intros w m mb c k Hm Hl (Hn & Hk & _). exists w. split; [done|]. by apply box_seal_precomputed_run.
  - intros w x mb c k Hx (Hn & _ & Hk). exists w. split; [done|].
    destruct (easy_open_fits box_cipher k mb box_tag) as [Hz Hge].
    cbn [sl_open precomputed_sealer]. erewrite box_open_precomputed_run by done.
    rewrite decide_False by done. rewrite easy_open_ct by apply _. by rewrite Hz.
  - intros w m mb c k Hm (Hn & Hk & _). by apply box_seal_detached_precomputed_run.
  - intros w x tp mb c k Hx (Hn & _ & Hk) Ht. cbn [sl_open_detached precomputed_detached].
    erewrite box_open_detached_precomputed_run by done. rewrite decide_True by done. by rewrite c_dec_enc by apply _.
Defined.

#[global] Instance precomputed_sealer_laws : SealerLaws precomputed_sealer := easy_laws precomputed_easy.
#[global] Instance precomputed_detached_laws : DetachedLaws precomputed_sealer_laws precomputed_detached :=
  easy_detached_laws precomputed_easy.
#[global] Instance precomputed_modes : ModesAgree precomputed_detached_laws :=
  easy_modes_agree precomputed_easy.

End Precomputed.

(** ** crypto/aead *)

Record aead_args := AeadArgs { aa_ad : option slice; aa_n : ptr; aa_k : ptr }.

Section Aead.
Context `{T : Target} (A : aead_module).

#[global] Instance aead_sealer : Sealer := {|
  sl_ctx := aead_args;
  sl_seal m c := aead.seal A m (aa_ad c) (aa_n c) (aa_k c);
  sl_open x c := aead.open A x (aa_ad c) (aa_n c) (aa_k c)
|}.

#[global] Instance aead_detached : DetachedSealer aead_sealer := {|
  sl_tag := aead.Tag A;
  sl_seal_detached m c := aead.seal_detached A m (aa_ad c) (aa_n c) (aa_k c);
  sl_open_detached x t c := aead.open_detached A x (aa_ad c) t (aa_n c) (aa_k c)
|}.

Context {D : AeadDoc A}.

(** The key: additional data, nonce and key *)
Definition aead_ready (w : world) (c : aead_args) (k : bytes * bytes * bytes) : Prop :=
  is_opt_slice w (aa_ad c) k.1.1 /\ is_ref w (aa_n c) (noncebytes A) k.1.2 /\
  is_ref w (aa_k c) (keybytes A) k.2.

#[global, refine] Instance aead_sealer_laws : SealerLaws aead_sealer := {|
  sl_key := bytes * bytes * bytes; sl_overhead := tagbytes A; sl_ready := aead_ready
|}.
Proof.
  - pose proof (@tagbytes_range A D). lia.
  - intros w w' c k Hg (? & ? & ?). split_and!; [by eapply is_opt_slice_mono|by eapply is_ref_grows..].
  - intros w m mb c k Hm Hl (Had & Hn & Hk).
    pose proof (aead_ct_zlen aead_cipher k.2 k.1.2 k.1.1 mb) as Hz. rewrite aead_tag in Hz.
    eapply does_mono.
    { eapply fresh_vec_does; [by apply (aead_seal_run w m (aa_ad c) (aa_n c) (aa_k c) mb k.1.1 k.1.2 k.2)|done|exact Hz|done]. }
    intros v w2 (Hg & _ & Hv). split; [done|]. eexists. split; [exact Hv|]. split; [done|].
    intros w3 x c' (Had' & Hn' & Hk') Hx. destruct Hm as (_ & ? & ?).
    eapply fresh_ok_does; [|reflexivity|reflexivity|lia]. cbn [sl_open aead_sealer].
    erewrite aead_open_run by done. rewrite decide_False by (pose proof (zlen_nonneg mb); lia).
    rewrite aead_open_ct by apply _. by replace (_ - tagbytes A) with (zlen mb) by lia.
Defined.

#[global, refine] Instance aead_detached_laws : DetachedLaws aead_sealer_laws aead_detached := {|
  sl_tag_bytes := eq_refl
|}.
Proof.
  intros w m mb c k Hm (Had & Hn & Hk).
  eexists _, _. split; [by apply (aead_seal_detached_run w m _ _ _ mb k.1.1 k.1.2 k.2)|].
  rewrite c_mac_zlen, c_enc_zlen. split; [apply (@aead_tag A D)|]. split; [done|].
  intros w' x tp c' (Had' & Hn' & Hk') Hx Ht. cbn [sl_open_detached aead_detached].
  erewrite aead_open_detached_run by done. rewrite decide_True by done.
  by rewrite c_dec_enc by apply _.
Defined.

End Aead.

(** ** crypto/sealedbox *)

(** The key pairs of [box_] are the ones sealed boxes are for, and the public
    key of a key pair is never one libsodium rejects. *)
Class KeyPairs (E : BoxExterns) (D : BoxDoc E) : Prop := {
  key_pairs_agree :: BoxAgreement E D;
  generated_key_accepted a b : is_Some (box_shared (box_public a) b)
}.

Class SealedKeyPairs (E : BoxExterns) (D : BoxDoc E) (SE : SealedboxExterns) (SD : SealedboxDoc SE) : Prop := {
  sealed_public_key sk : sealed_public sk = box_public sk;
  sealed_key_accepted e sk m : is_Some (sealed_box e (sealed_public sk) m)
}.

Section Sealedbox.
Context `{T : Target} `{SE : SealedboxExterns}.

(** The public and the secret key of the receiver *)
#[global] Instance sealedbox_sealer : Sealer := {|
  sl_ctx := ptr * ptr;
  sl_seal m c := sealedbox.seal m c.1;
  sl_open x c := sealedbox.open x c.1 c.2
|}.

Context `{E : BoxExterns} {D : BoxDoc E} {SD : SealedboxDoc SE} {SK : SealedKeyPairs E D SE SD}.

Definition sealedbox_ready (w : world) (c : ptr * ptr) (k : bytes) : Prop :=
  is_ref w c.1 32 (sealed_public k) /\ is_ref w c.2 32 k.

#[refine] Definition sealedbox_laws : SealerLaws sealedbox_sealer := {|
  sl_key := bytes; sl_overhead := 48; sl_ready := sealedbox_ready
|}.
Proof.
  - lia.
  - intros w w' c k Hg [? ?]. by split; eapply is_ref_grows.
  - intros w m mb c k Hm Hl [Hp Hs]. destruct (sealed_key_accepted (entropy 32 w) k mb) as [cb Hcb].
    pose proof (sealed_box_zlen _ _ _ _ Hcb) as Hz. eapply does_mono.
    { eapply (fresh_vec_does w (w_consume 32 w)); [|reflexivity|exact Hz|done]. cbn [sl_seal sealedbox_sealer].
      erewrite sealedbox_seal_run by done. rewrite Hcb. reflexivity. }
    intros v w2 (Hg & _ & Hv). split; [exact Hg|]. exists cb. split; [done|]. split; [done|].
    intros w3 x c' [Hp' Hs'] Hx. destruct Hm as (_ & ? & ?).
    eapply fresh_ok_does; [|reflexivity|reflexivity|lia]. cbn [sl_open sealedbox_sealer].
    erewrite sealedbox_open_run by done. rewrite decide_False by (pose proof (zlen_nonneg mb); lia).
    rewrite (sealed_open_box _ _ _ _ Hcb). by replace (_ - 48) with (zlen mb) by lia.
Defined.

End Sealedbox.

(** ** secretbox/xsalsa20poly1305.rs: mod test *)

Section SecretboxTests.
Context `{T : Target} `{R : RandombytesExterns} `{E : SecretboxExterns}.

(** [let k = gen_key();], and after the message [let n = gen_nonce();] *)
Definition secretbox_before (i : Z) : M ptr := local secretbox.gen_key.
Definition secretbox_after (k : ptr) : M (ptr * ptr) :=
  let* n := local secretbox.gen_nonce in ret (n, k).

Definition secretbox_test_seal_open : M unit :=
  test_seal_open (S := secretbox_sealer) secretbox_before secretbox_after 256.
Definition secretbox_test_seal_open_detached : M unit :=
  test_seal_open_detached (S := secretbox_sealer) secretbox_before secretbox_after 256.
Definition secretbox_test_seal_combined_then_open_detached : M unit :=
  test_seal_combined_then_open_detached (S := secretbox_sealer) secretbox_before secretbox_after 256.
Definition secretbox_test_seal_detached_then_open_combined : M unit :=
  test_seal_detached_then_open_combined (S := secretbox_sealer) secretbox_before secretbox_after 256.

Context {RD : RandombytesDoc R} {D : SecretboxDoc E}.

Lemma secretbox_prepares n :
  prepares (L := secretbox_sealer_laws) secretbox_before secretbox_after n.
Proof.
  intros i w _. eapply does_mono; [apply (does_local w 32), (makes_key 32); done|].
  intros k w1 (Hg & kb & Hk). split; [done|]. intros w2 Hg2.
  eapply does_bind; [apply (does_local w2 24), (makes_random secretbox.Nonce); done|].
  intros p w3 (Hg3 & nb & Hn). apply does_ret. split; [done|]. exists (nb, kb). split; [done|].
  eapply is_ref_grows; [|exact Hk]. by transitivity w2.
Qed.

End SecretboxTests.

(** ** box_/curve25519xsalsa20poly1305.rs: mod test *)

Section BoxTests.
Context `{T : Target} `{R : RandombytesExterns} `{E : BoxExterns}.

(** [let (pk, sk) = pair;] *)
Definition local_pair (g : M (bytes * bytes)) : M (ptr * ptr) :=
  let* '(pk, sk) := g in
  let* pk := local (ret pk) in
  let* sk := local (ret sk) in
  ret (pk, sk).

Definition box_before (i : Z) : M ((ptr * ptr) * (ptr * ptr)) :=
  let* p1 := local_pair box_.gen_keypair in
  let* p2 := local_pair box_.gen_keypair in
  ret (p1, p2).

(** The first pair from a seed *)
Definition box_seeded_before (i : Z) : M ((ptr * ptr) * (ptr * ptr)) :=
  let* seedbuf := stack_array 32 in
  let* _ := randombytes_into (Slice (At seedbuf 0) 32) in
  let* p1 := local_pair (box_.keypair_from_seed (At seedbuf 0)) in
  let* p2 := local_pair box_.gen_keypair in
  ret (p1, p2).

Definition box_after (k : (ptr * ptr) * (ptr * ptr)) : M box_parties :=
  let '((pk1, sk1), (pk2, sk2)) := k in
  let* n := local box_.gen_nonce in
  ret (BoxParties n pk1 sk1 pk2 sk2).

(** The two parties precompute their keys; [compare]: the test asserts that they
    are equal. *)
Definition box_precompute_before (compare : bool) (i : Z) : M (ptr * ptr) :=
  let* '((pk1, sk1), (pk2, sk2)) := box_before i in
  let* k1 := local (box_.precompute pk1 sk2) in
  let* k2 := local (box_.precompute pk2 sk1) in
  let* _ :=
    if compare then
      let* k1buf := read k1 box_.PRECOMPUTEDKEYBYTES in
      let* k2buf := read k2 box_.PRECOMPUTEDKEYBYTES in
      assert_eq k1buf k2buf
    else ret tt in
  ret (k1, k2).

Definition box_precompute_after (k : ptr * ptr) : M (ptr * (ptr * ptr)) :=
  let* n := local box_.gen_nonce in ret (n, k).

Definition box_test_seal_open : M unit :=
  test_seal_open (S := box_sealer) box_before box_after 256.
Definition box_test_seal_open_seed : M unit :=
  test_seal_open (S := box_sealer) box_seeded_before box_after 256.
Definition box_test_seal_open_precomputed : M unit :=
  test_seal_open (S := precomputed_sealer) (box_precompute_before true) box_precompute_after 256.
Definition box_test_seal_open_detached : M unit :=
  test_seal_open_detached (S := box_sealer) box_before box_after 256.
Definition box_test_seal_combined_then_open_detached : M unit :=
  test_seal_combined_then_open_detached (S := box_sealer) box_before box_after 256.
Definition box_test_seal_open_detached_precomputed : M unit :=
  test_seal_open_detached (S := precomputed_sealer)
    (box_precompute_before false) box_precompute_after 256.
Definition box_test_seal_combined_then_open_detached_precomputed : M unit :=
  test_seal_combined_then_open_detached (S := precomputed_sealer)
    (box_precompute_before false) box_precompute_after 256.
Definition box_test_seal_detached_then_open_combined : M unit :=
  test_seal_detached_then_open_combined (S := box_sealer) box_before box_after 256.
Definition box_test_seal_detached_precomputed_then_open_combined : M unit :=
  test_seal_detached_then_open_combined (S := precomputed_sealer)
    (box_precompute_before false) box_precompute_after 256.

Context {RD : RandombytesDoc R} {D : BoxDoc E} {KP : KeyPairs E D}.

(** A key pair in two locals *)
Definition is_pair (w : world) (p : ptr * ptr) (sk : bytes) : Prop :=
  is_ref w p.1 32 (box_public sk) /\ is_ref w p.2 32 sk.

Lemma is_pair_mono w w' p sk : grows w w' -> is_pair w p sk -> is_pair w' p sk.
Proof. intros Hg [? ?]. by split; eapply is_ref_grows. Qed.

Lemma does_local_pair w w' g sk :
  g w = Done (box_public sk, sk) w' -> grows w w' -> zlen sk = 32 ->
  does w (local_pair g) (fun p w2 => grows w w2 /\ is_pair w2 p sk).
Proof.
  intros Hgen Hg Hl. eapply does_bind;
    [eapply (does_eq _ _ _ _ (fun r w2 => r = (box_public sk, sk) /\ w2 = w')); [exact Hgen|done]|].
  intros _ _ [-> ->]. pose proof (fresh_block_spec w') as Hf.
  set (w1 := w_put (fresh_block w') (Some <$> box_public sk) w').
  pose proof (fresh_block_spec w1) as Hf1.
  exists (At (fresh_block w') 0, At (fresh_block w1) 0), (w_put (fresh_block w1) (Some <$> sk) w1).
  split; [reflexivity|].
  split; [transitivity w'; [done|transitivity w1; by apply grows_put]|]. split; cbn [fst snd].
  - apply is_ref_put_fresh; [done|]. rewrite <- (box_public_zlen sk). apply is_ref_place.
  - rewrite <- Hl. apply is_ref_place.
Qed.

Lemma does_gen_keypair w :
  does w (local_pair box_.gen_keypair) (fun p w' => grows w w' /\ exists sk, is_pair w' p sk).
Proof.
  eapply does_mono.
  - eapply does_local_pair; [apply box_gen_keypair_run|apply grows_consume|by apply entropy_zlen].
  - intros p w' [? ?]. eauto.
Qed.

(** The two parties of a test *)
Definition is_two_pairs (w : world) (k : (ptr * ptr) * (ptr * ptr)) : Prop :=
  exists sk1 sk2, is_pair w k.1 sk1 /\ is_pair w k.2 sk2.

Lemma box_before_does i w : does w (box_before i) (fun k w' => grows w w' /\ is_two_pairs w' k).
Proof.
  eapply does_bind; [apply does_gen_keypair|]. intros p1 w1 (Hg1 & sk1 & H1).
  eapply does_bind; [apply does_gen_keypair|]. intros p2 w2 (Hg2 & sk2 & H2).
  apply does_ret. split; [by transitivity w1|]. exists sk1, sk2. split; [by eapply is_pair_mono|done].
Qed.

Lemma box_seeded_before_does i w :
  does w (box_seeded_before i) (fun k w' => grows w w' /\ is_two_pairs w' k).
Proof.
  pose proof (fresh_block_spec w) as Hf. set (b := fresh_block w) in *.
  set (w0 := w_put b (Some <$> entropy 32 w) (w_consume 32 w)).
  assert (Hg0 : grows w w0) by exact (grows_put b _ (w_consume 32 w) Hf).
  unfold box_seeded_before. eapply does_bind;
    [eapply (does_eq _ _ b _ (fun r w' => r = b /\ w' = w_put b (Some <$> zeros 32) w)); [reflexivity|done]|].
  intros _ _ [-> ->]. eapply does_bind;
    [eapply (does_eq _ _ tt w0 (fun _ w' => w' = w0)); [|done]; by apply randombytes_into_put_run|].
  intros _ _ ->.
  assert (Hseed : is_ref w0 (At b 0) 32 (entropy 32 w)).
  { pose proof (is_ref_place b (entropy 32 w) (w_consume 32 w)) as Hp. by rewrite entropy_zlen in Hp. }
  eapply does_bind.
  { eapply does_local_pair; [by apply (box_keypair_from_seed_run w0 _ (entropy 32 w))|reflexivity|].
    apply box_seeded_zlen. }
  intros p1 w1 (Hg1 & H1). eapply does_bind; [apply does_gen_keypair|].
  intros p2 w2 (Hg2 & sk2 & H2). apply does_ret.
  split; [transitivity w0; [done|by transitivity w1]|]. eexists _, sk2. split; [|done].
  by eapply is_pair_mono.
Qed.

Lemma box_after_does w w2 k :
  is_two_pairs w k -> grows w w2 ->
  does w2 (box_after k) (fun c w3 => grows w2 w3 /\ exists key, sl_ready (SealerLaws := box_sealer_laws) w3 c key).
Proof.
  destruct k as [[pk1 s1] [pk2 s2]]. intros (sk1 & sk2 & [Hp1 Hs1] & [Hp2 Hs2]) Hg.
  cbn [fst snd] in *. destruct (generated_key_accepted sk1 sk2) as [kb Hkb].
  eapply does_bind; [apply (does_local w2 24), (makes_random box_.Nonce); done|].
  intros n w3 (Hg3 & nb & Hn). apply does_ret. split; [done|]. exists (nb, kb). split; [done|].
  assert (Hg' : grows w w3) by (by transitivity w2).
  exists (box_public sk1), sk1, (box_public sk2), sk2.
  split_and!; try (by eapply is_ref_grows); [done|]. by rewrite box_shared_sym.
Qed.

Lemma box_prepares n : prepares (L := box_sealer_laws) box_before box_after n.
Proof.
  intros i w _. eapply does_mono; [apply box_before_does|]. intros k w1 [Hg Hk].
  split; [done|]. intros w2 Hg2. by eapply box_after_does.
Qed.

Lemma box_seeded_prepares n : prepares (L := box_sealer_laws) box_seeded_before box_after n.
Proof.
  intros i w _. eapply does_mono; [apply box_seeded_before_does|]. intros k w1 [Hg Hk].
  split; [done|]. intros w2 Hg2. by eapply box_after_does.
Qed.

Lemma does_precompute w pk sk a b kb :
  is_ref w pk 32 (box_public a) -> is_ref w sk 32 b -> box_shared (box_public a) b = Some kb ->
  does w (local (box_.precompute pk sk)) (fun p w' => grows w w' /\ is_ref w' p 32 kb).
Proof.
  intros Hp Hs Hk. pose proof (box_precompute_run w pk sk _ _ Hp Hs) as Hrun. rewrite Hk in Hrun.
  eapply does_bind; [eapply (does_eq _ _ kb w (fun r w' => r = kb /\ w' = w)); [exact Hrun|done]|].
  intros _ _ [-> ->]. eapply does_bind; [apply does_place|]. intros p w1 (Hg & Hr & _).
  apply does_ret. split; [done|]. by rewrite <- (box_shared_zlen _ _ _ Hk).
Qed.

Lemma box_precompute_prepares compare n :
  prepares (L := precomputed_sealer_laws) (box_precompute_before compare) box_precompute_after n.
Proof.
  intros i w _. eapply does_bind; [apply box_before_does|].
  intros [[pk1 s1] [pk2 s2]] w1 (Hg1 & sk1 & sk2 & [Hp1 Hs1] & [Hp2 Hs2]). cbn [fst snd] in *.
  destruct (generated_key_accepted sk1 sk2) as [kb Hkb].
  eapply does_bind; [by apply (does_precompute w1 pk1 s2 sk1 sk2 kb)|]. intros k1 w2 [Hg2 Hk1].
  eapply does_bind; [apply (does_precompute w2 pk2 s1 sk2 sk1 kb); [by eapply is_ref_grows..|]|].
  { by rewrite box_shared_sym. }
  intros k2 w3 [Hg3 Hk2]. apply (is_ref_grows w2 w3) in Hk1; [|done].
  eapply (does_bind _ _ _ (fun _ w' => w' = w3)).
  { destruct compare; [|by apply does_ret]. exists tt, w3. split; [|done].
    destruct Hk1 as [Hk1 Hl1], Hk2 as [Hk2 Hl2].
    eapply bind_step; [by apply read_run|]. eapply bind_step; [by apply read_run|].
    unfold assert_eq, assert. by rewrite bool_decide_true. }
  intros _ _ ->. apply does_ret. split; [transitivity w1; [done|by transitivity w2]|].
  intros w4 Hg4. eapply does_bind; [apply (does_local w4 24), (makes_random box_.Nonce); done|].
  intros p w5 (Hg5 & nb & Hn). apply does_ret. split; [done|]. exists (nb, kb).
  split_and!; [done|..]; (eapply is_ref_grows; [|done]); by transitivity w4.
Qed.

End BoxTests.

(** ** sealedbox/curve25519blake2bxsalsa20poly1305.rs: mod test *)

Section SealedboxTests.
Context `{T : Target} `{R : RandombytesExterns} `{E : BoxExterns} `{SE : SealedboxExterns}.

Definition sealedbox_before (i : Z) : M (ptr * ptr) := local_pair box_.gen_keypair.

Definition sealedbox_test_seal_open : M unit :=
  test_seal_open (S := sealedbox_sealer) sealedbox_before ret 256.

Context {RD : RandombytesDoc R} {D : BoxDoc E} {SD : SealedboxDoc SE} {SK : SealedKeyPairs E D SE SD}.

Lemma sealedbox_prepares n : prepares (L := sealedbox_laws) sealedbox_before ret n.
Proof.
  intros i w _. eapply does_mono; [apply does_gen_keypair|].
  intros p w1 (Hg & sk & Hp & Hs). split; [done|]. intros w2 Hg2. apply does_ret.
  split; [reflexivity|]. exists sk. split.
  - rewrite sealed_public_key. by eapply is_ref_grows.
  - by eapply is_ref_grows.
Qed.

End SealedboxTests.

(** ** aead/aead_macros.rs: mod test_m *)

Section AeadTests.
Context `{T : Target} `{R : RandombytesExterns} (A : aead_module).

(** [$test_gate]: whether the tests of the module are run at all *)
Context (test_gate : M bool).

Definition aead_before (i : Z) : M aead_args :=
  let* k := local (aead.gen_key A) in
  let* n := local (NewType.gen_random_nonce (aead.Nonce A)) in
  let* ad := randombytes i in
  ret (AeadArgs (Some (v_slice ad)) n k).

Definition aead_test_seal_open : M unit :=
  let* run := test_gate in
  if negb run then ret tt else test_seal_open (S := aead_sealer A) aead_before ret 256.

Definition aead_test_seal_open_detached : M unit :=
  let* run := test_gate in
  if negb run then ret tt else test_seal_open_detached_original (S := aead_sealer A) aead_before 256.

(** The two modes on the same message: the ciphertexts are compared, and both are
    opened. *)
Definition aead_same (x : aead_args) (m : vec) : M unit :=
  let* c := aead.seal A (v_slice m) (aa_ad x) (aa_n x) (aa_k x) in
  let* t := aead.seal_detached A (v_slice m) (aa_ad x) (aa_n x) (aa_k x) in
  let* t := place t in
  let* body := slice_index (v_slice c) 0 (v_len c - aead.TAGBYTES A) in
  let* body := slice_bytes body in
  let* mb := slice_bytes (v_slice m) in
  let* _ := assert_eq body mb in
  let* tail := slice_index (v_slice c) (v_len c - aead.TAGBYTES A) (v_len c) in
  let* tail := slice_bytes tail in
  let* tb := slice_bytes (Slice (At t 0) (aead.TAGBYTES A)) in
  let* _ := assert_eq tail tb in
  let* m2 := aead.open A (v_slice c) (aa_ad x) (aa_n x) (aa_k x) in
  let* m2 := unwrap m2 in
  let* r := aead.open_detached A (v_slice m) (aa_ad x) (At t 0) (aa_n x) (aa_k x) in
  let* _ := unwrap r in
  let* a := slice_bytes (v_slice m2) in
  let* b := slice_bytes (v_slice m) in
  assert_eq a b.

Definition aead_test_seal_open_detached_same : M unit :=
  let* run := test_gate in
  if negb run then ret tt else
  for_range 0 256 (fun i =>
    let* x := aead_before i in
    let* m := randombytes i in
    aead_same x m).

Context {RD : RandombytesDoc R} {D : AeadDoc A}.

Lemma aead_before_does i w :
  0 <= i <= 256 -> 0 <= keybytes A -> 0 <= noncebytes A ->
  does w (aead_before i) (fun c w1 => grows w w1 /\ exists k, sl_ready (SealerLaws := aead_sealer_laws A) w1 c k).
Proof.
  intros Hi Hkb Hnb. pose proof isize_max_bounds.
  eapply does_bind; [by apply (does_local w (keybytes A)), makes_key|]. intros k w1 (Hg1 & kb & Hk).
  eapply does_bind; [by apply (does_local w1 (noncebytes A)), makes_random|]. intros n w2 (Hg2 & nb & Hn).
  eapply does_bind; [apply does_randombytes; lia|]. intros ad w3 (Hg3 & adb & Had & _).
  apply does_ret. split; [transitivity w1; [done|by transitivity w2]|]. exists (adb, nb, kb). split_and!.
  - by apply is_vec_slice.
  - by eapply is_ref_grows.
  - eapply is_ref_grows; [|exact Hk]. by transitivity w2.
Qed.

Lemma aead_prepares n :
  Z.of_nat n <= 256 -> 0 <= keybytes A -> 0 <= noncebytes A ->
  prepares (L := aead_sealer_laws A) aead_before ret n.
Proof.
  intros Hn ? ? i w Hi. eapply does_mono; [apply aead_before_does; lia|].
  intros c w1 (Hg & k & Hk). split; [done|]. intros w2 Hg2. apply does_ret. split; [reflexivity|].
  exists k. by eapply sl_ready_grows.
Qed.

(** A vector is not touched by a write to an older one. *)
Lemma is_vec_write_other w w' m mb c cb x :
  is_vec w m mb -> w_mem w !! v_block c = None -> zlen x = zlen mb -> is_vec w' c cb ->
  is_vec (w_write (v_ptr m) x w') c cb.
Proof.
  intros Hm Hc Hx Hcb. destruct mb as [|y mb].
  - assert (x = []) as -> by (apply length_zero_iff_nil; unfold zlen in Hx; cbn in Hx; lia). done.
  - apply (is_vec_but (v_block m) w'); [|done|apply grows_but_write].
    intros _ E. rewrite E in Hc. by destruct (is_vec_live w m (y :: mb)).
Qed.

Lemma aead_ready_grows w w' x k : grows w w' -> aead_ready A w x k -> aead_ready A w' x k.
Proof. intros Hg Hk. by apply (sl_ready_grows (SealerLaws := aead_sealer_laws A) w w' x k). Qed.

(** Both ciphertexts are opened. *)
Lemma aead_same_opened w1 w x k c m tp mb :
  let ct := c_enc aead_cipher k.2 k.1.2 mb in
  let t := c_mac aead_cipher k.2 k.1.2 k.1.1 ct in
  grows w1 w -> aead_ready A w1 x k -> w_mem w1 !! v_block m = None -> zlen mb <= 256 ->
  is_vec w c (ct ++ t) -> is_vec w m ct -> is_ref w (At tp 0) (tagbytes A) t ->
  does w (let* m2 := aead.open A (v_slice c) (aa_ad x) (aa_n x) (aa_k x) in
          let* m2 := unwrap m2 in
          let* r := aead.open_detached A (v_slice m) (aa_ad x) (At tp 0) (aa_n x) (aa_k x) in
          let* _ := unwrap r in
          let* a := slice_bytes (v_slice m2) in
          let* b := slice_bytes (v_slice m) in
          assert_eq a b) (fun _ _ => True).
Proof.
  intros ct t Hg Hk Hf Hl Hc Hm Htp. pose proof isize_max_bounds. pose proof (zlen_nonneg mb).
  assert (Hct : zlen ct = zlen mb) by apply c_enc_zlen.
  assert (Ht : zlen t = tagbytes A) by (unfold t; rewrite c_mac_zlen; apply (@aead_tag A D)).
  pose proof (fresh_block_spec w) as Hfv. set (b := fresh_block w) in *. set (n := zlen mb).
  set (v := Vec b n n). set (w6 := w_put b (Some <$> mb) w).
  assert (Hg6 : grows w w6) by (by apply grows_put).
  eapply (local_run _ _ _ (Ok v) w6).
  { destruct (aead_ready_grows w1 w x k Hg Hk) as (? & ? & ?).
    erewrite aead_open_run by (first [by apply is_vec_slice|done]).
    rewrite decide_False by (rewrite zlen_app; lia).
    pose proof (aead_open_ct aead_cipher k.2 k.1.2 k.1.1 mb) as Ho. unfold aead_ct in Ho. fold ct t in Ho.
    rewrite Ho, zlen_app. by replace (zlen ct + zlen t - tagbytes A) with n by lia. }
  eapply local_unwrap; [reflexivity|].
  pose proof (is_vec_mono w w6 m ct Hg6 Hm) as Hm6.
  set (w7 := w_write (v_ptr m) mb w6).
  eapply (local_run _ _ _ (Ok tt) w7).
  { destruct (aead_ready_grows w1 w6 x k ltac:(by transitivity w) Hk) as (? & ? & ?).
    rewrite (aead_open_detached_run w6 (v_slice m) _ _ _ _ ct k.1.1 t k.1.2 k.2);
      [|by apply is_vec_slice|done|by eapply is_ref_grows|done|done].
    rewrite decide_True by done. unfold ct. by rewrite c_dec_enc by apply _. }
  eapply local_unwrap; [reflexivity|].
  assert (Hm7 : is_slice w7 (v_slice m) mb).
  { by apply (is_slice_write_same w6 (v_slice m) ct); [apply is_vec_slice|]. }
  assert (Hv7 : is_vec w7 v mb).
  { apply (is_vec_write_other w w6 m ct); [done..|by rewrite Hct|]. apply is_vec_put. lia. }
  exists tt, w7. split; [|done].
  eapply bind_step; [by apply slice_bytes_run, is_vec_slice|].
  eapply bind_step; [by apply slice_bytes_run|]. unfold assert_eq, assert. by rewrite bool_decide_true.
Qed.

Lemma aead_same_body w1 w2 x k m mb :
  grows w1 w2 -> aead_ready A w1 x k -> w_mem w1 !! v_block m = None -> is_vec w2 m mb -> zlen mb <= 256 ->
  does w2 (aead_same x m) (fun _ _ => True).
Proof.
  intros Hg Hk Hf Hm Hl. pose proof isize_max_bounds. pose proof (@tagbytes_range A D).
  pose proof (zlen_nonneg mb). set (C := aead_cipher (A := A)).
  set (ct := c_enc C k.2 k.1.2 mb). set (t := c_mac C k.2 k.1.2 k.1.1 ct).
  assert (Hct : zlen ct = zlen mb) by apply c_enc_zlen.
  assert (Ht : zlen t = tagbytes A) by (unfold t; rewrite c_mac_zlen; apply (@aead_tag A D)).
  assert (Hready : forall w, grows w1 w -> aead_ready A w x k)
    by (intros w Hw; by apply (sl_ready_grows (SealerLaws := aead_sealer_laws A) w1 w x k)).
  pose proof (fresh_block_spec w2) as Hfc. set (c := fresh_block w2) in *. set (n := zlen mb + tagbytes A).
  set (w3 := w_put c (Some <$> ct ++ t) w2). set (cv := Vec c n n).
  assert (Hn : zlen (ct ++ t) = n) by (rewrite zlen_app; lia).
  assert (Hc3 : is_vec w3 cv (ct ++ t)) by (unfold cv; rewrite <- Hn; apply is_vec_put; lia).
  assert (Hg3 : grows w2 w3) by (by apply grows_put).
  set (w4 := w_write (v_ptr m) ct w3). set (tp := fresh_block w4). set (w5 := w_put tp (Some <$> t) w4).
  assert (Hg4 : grows w1 w4) by (apply grows_write; [by transitivity w2|done]).
  assert (Hg45 : grows w4 w5) by apply grows_put, fresh_block_spec.
  assert (Hg5 : grows w1 w5) by (by transitivity w4).
  assert (Hc5 : is_vec w5 cv (ct ++ t)).
  { apply (is_vec_mono w4); [done|]. by apply (is_vec_write_other w2 w3 m mb). }
  pose proof (is_vec_mono w2 w3 m mb Hg3 Hm) as Hm3. pose proof Hm3 as (_ & Hml & Hmc).
  assert (Hm5 : is_slice w5 (v_slice m) ct).
  { apply (is_slice_mono w4); [done|]. by apply (is_slice_write_same w3 (v_slice m) mb); [apply is_vec_slice|]. }
  destruct (is_vec_split _ _ _ _ Hc5) as [Hbody Htail].
  unfold aead_same.
  eapply local_run; [destruct (Hready w2 Hg) as (? & ? & ?); apply (aead_seal_run w2 _ _ _ _ mb k.1.1 k.1.2 k.2);
    [by apply is_vec_slice|lia|done..]|]. fold C ct t c n w3 cv.
  eapply local_run; [destruct (Hready w3 ltac:(by transitivity w2)) as (? & ? & ?);
    apply (aead_seal_detached_run w3 _ _ _ _ mb k.1.1 k.1.2 k.2); [by apply is_vec_slice|done..]|].
  fold C ct t. cbn [v_slice s_ptr]. fold w4.
  eapply local_run; [apply alloc_run|]. fold tp w5. unfold aead.TAGBYTES. cbn [v_len].
  assert (Htp : is_ref w5 (At tp 0) (tagbytes A) t) by (rewrite <- Ht; apply is_ref_place).
  change (v_len cv) with n. replace (n - tagbytes A) with (zlen ct) by lia.
  eapply local_run; [apply slice_index_run; cbn; lia|].
  change (ptr_add (s_ptr (v_slice cv)) 0) with (v_ptr cv). rewrite Z.sub_0_r.
  eapply local_run; [by apply slice_bytes_run|]. eapply local_run; [by apply slice_bytes_run|].
  eapply local_run; [unfold assert_eq, assert; by rewrite bool_decide_true|].
  eapply local_run; [apply slice_index_run; cbn; lia|].
  replace (n - zlen ct) with (zlen t) by lia.
  eapply local_run; [by apply slice_bytes_run|].
  eapply local_run; [apply slice_bytes_run, is_ref_slice; [lia|exact Htp]|].
  eapply local_run; [unfold assert_eq, assert; by rewrite bool_decide_true|].
  apply (aead_same_opened w1 w5 x k cv m tp mb); try done.
  fold C ct. destruct Hm5 as (? & ? & ?). split; [done|]. split; [done|]. lia.
Qed.

End AeadTests.

(** ** The tests pass *)

(** The tests of secretbox that seal and open pass, for every
    implementation with the documented behaviour and every entropy: they
    terminate, nothing panics or is out of bounds, and no assertion fails. *)
Theorem secretbox_tests_pass `{T : Target} `{R : RandombytesExterns} {RD : RandombytesDoc R}
    `{E : SecretboxExterns} {D : SecretboxDoc E} :
  passes secretbox_test_seal_open /\
  passes secretbox_test_seal_open_detached /\
  passes secretbox_test_seal_combined_then_open_detached /\
  passes secretbox_test_seal_detached_then_open_combined.
Proof.
  split_and!; intros w.
  - apply (test_seal_open_passes (L := secretbox_sealer_laws)); [apply secretbox_prepares|done].
  - apply (test_seal_open_detached_passes (DL := secretbox_detached_laws) _ _); [apply secretbox_prepares|done].
  - apply (test_seal_combined_then_open_detached_passes (MA := secretbox_modes) _ _);
      [apply secretbox_prepares|done].
  - apply (test_seal_detached_then_open_combined_passes (MA := secretbox_modes) _ _);
      [apply secretbox_prepares|done].
Qed.

Lemma secretbox_tests_pass_witness :
  passes (@secretbox_test_seal_open target64 Ref.randombytes RefSecretbox.externs) /\
  passes (@secretbox_test_seal_open_detached target64 Ref.randombytes RefSecretbox.externs) /\
  passes (@secretbox_test_seal_combined_then_open_detached target64 Ref.randombytes RefSecretbox.externs) /\
  passes (@secretbox_test_seal_detached_then_open_combined target64 Ref.randombytes RefSecretbox.externs).
Proof.
  apply (@secretbox_tests_pass target64 Ref.randombytes Ref.randombytes_doc RefSecretbox.externs
    RefSecretbox.doc).
Defined.

(** C9. The tests of box_ and sealedbox that seal and open pass, with key pairs
    from entropy and from a seed, with and without precomputation, combined and
    detached: the two keys the parties precompute are equal, and every message
    is recovered. *)
Theorem box_tests_pass `{T : Target} `{R : RandombytesExterns} {RD : RandombytesDoc R}
    `{E : BoxExterns} {D : BoxDoc E} {KP : KeyPairs E D}
    `{SE : SealedboxExterns} {SD : SealedboxDoc SE} {SK : SealedKeyPairs E D SE SD} :
  passes box_test_seal_open /\ passes box_test_seal_open_seed /\
  passes box_test_seal_open_precomputed /\ passes box_test_seal_open_detached /\
  passes box_test_seal_combined_then_open_detached /\
  passes box_test_seal_open_detached_precomputed /\
  passes box_test_seal_combined_then_open_detached_precomputed /\
  passes box_test_seal_detached_then_open_combined /\
  passes box_test_seal_detached_precomputed_then_open_combined /\
  passes sealedbox_test_seal_open.
Proof.
  split_and!; intros w.
  - apply (test_seal_open_passes (L := box_sealer_laws)); [apply box_prepares|done].
  - apply (test_seal_open_passes (L := box_sealer_laws)); [apply box_seeded_prepares|done].
  - apply (test_seal_open_passes (L := precomputed_sealer_laws)); [apply box_precompute_prepares|done].
  - apply (test_seal_open_detached_passes (DL := box_detached_laws) _ _); [apply box_prepares|done].
  - apply (test_seal_combined_then_open_detached_passes (MA := box_modes) _ _);
      [apply box_prepares|done].
  - apply (test_seal_open_detached_passes (DL := precomputed_detached_laws) _ _);
      [apply box_precompute_prepares|done].
  - apply (test_seal_combined_then_open_detached_passes (MA := precomputed_modes) _ _); [apply box_precompute_prepares|done].
  - apply (test_seal_detached_then_open_combined_passes (MA := box_modes) _ _);
      [apply box_prepares|done].
  - apply (test_seal_detached_then_open_combined_passes (MA := precomputed_modes) _ _);
      [apply box_precompute_prepares|done].
  - apply (test_seal_open_passes (L := sealedbox_laws)); [apply sealedbox_prepares|done].
Qed.

Module RefPairs.

#[refine] Definition pairs : KeyPairs RefBox.externs RefBox.doc := {| key_pairs_agree := RefBox.agreement; generated_key_accepted := _ |}.
Proof. intros a b. eexists. apply RefBox.shared_pub. Defined.

#[refine] Definition sealed : SealedKeyPairs RefBox.externs RefBox.doc RefBox.sealed_externs RefBox.sealed_doc := {|
  sealed_public_key := _
|}.
Proof.
  { reflexivity. }
  intros e sk m. change (is_Some (RefBox.sealed e (RefBox.pub sk) m)). unfold RefBox.sealed.
  rewrite RefBox.shared_pub. eauto.
Defined.

End RefPairs.

Lemma box_tests_pass_witness :
  let B := RefBox.externs in
  let r := Ref.randombytes in
  passes (@box_test_seal_open target64 r B) /\ passes (@box_test_seal_open_seed target64 r B) /\
  passes (@box_test_seal_open_precomputed target64 r B) /\
  passes (@box_test_seal_open_detached target64 r B) /\
  passes (@box_test_seal_combined_then_open_detached target64 r B) /\
  passes (@box_test_seal_open_detached_precomputed target64 r B) /\
  passes (@box_test_seal_combined_then_open_detached_precomputed target64 r B) /\
  passes (@box_test_seal_detached_then_open_combined target64 r B) /\
  passes (@box_test_seal_detached_precomputed_then_open_combined target64 r B) /\
  passes (@sealedbox_test_seal_open target64 r B RefBox.sealed_externs).
Proof.
  apply (@box_tests_pass target64 Ref.randombytes Ref.randombytes_doc RefBox.externs RefBox.doc
    RefPairs.pairs RefBox.sealed_externs RefBox.sealed_doc RefPairs.sealed).
Defined.

(** The three tests the AEAD macro generates that open what they sealed pass in
    each of its modules, whether or not the gate of the module lets them run. *)
Theorem aead_sealing_tests_pass `{T : Target} `{R : RandombytesExterns} {RD : RandombytesDoc R}
    (A : aead_module) {D : AeadDoc A} (test_gate : M bool)
    (Hk : 0 <= keybytes A) (Hn : 0 <= noncebytes A) (Hgate : forall w, does w test_gate (fun _ _ => True)) :
  passes (aead_test_seal_open A test_gate) /\ passes (aead_test_seal_open_detached A test_gate) /\
  passes (aead_test_seal_open_detached_same A test_gate).
Proof.
  split_and!; intros w; (eapply does_bind; [apply Hgate|]); intros [|] w' _; try by apply does_ret.
  - apply (test_seal_open_passes (L := aead_sealer_laws A)); [by apply aead_prepares|done].
  - apply (test_seal_open_detached_original_passes (DL := aead_detached_laws A) _); [|done].
    intros i w0 Hi. change (Z.of_nat 256) with 256 in Hi. by apply (aead_before_does A); try lia.
  - apply (does_for (fun _ => True)); [|done]. intros i w0 Hi _.
    change (0 + Z.of_nat 256) with 256 in Hi. pose proof isize_max_bounds. cbv beta.
    eapply does_bind; [apply (aead_before_does A i w0); [lia|done|done]|]. intros x w1 (_ & k & Hr).
    eapply does_bind; [apply (does_randombytes w1 i); lia|]. intros m w2 (Hg & mb & Hm & Hl & Hf).
    apply (aead_same_body A w1 w2 x k m mb); done || lia.
Qed.

Lemma aead_sealing_tests_pass_witness :
  passes (@aead_test_seal_open target64 Ref.randombytes RefAead.A (ret true)) /\
  passes (@aead_test_seal_open_detached target64 Ref.randombytes RefAead.A (ret true)) /\
  passes (@aead_test_seal_open_detached_same target64 Ref.randombytes RefAead.A (ret true)).
Proof.
  apply (@aead_sealing_tests_pass target64 Ref.randombytes Ref.randombytes_doc RefAead.A RefAead.doc (ret true));
    [by vm_compute|by vm_compute|intros w; by exists true, w].
Defined.
