(* ===== verification/Streaming.v ===== *)
(** * Multi-part computations

    Hashes, authenticators and pre-hashed signatures have the same streaming
    interface: a state is initialised, updated with the chunks of a message
    and finalised.  The record [streaming] is what libsodium computes on the
    bytes of the state, [StreamingLaws] what it documents: only the
    concatenation of the chunks matters.  What finalising leaves in the state
    is not documented and is a parameter. *)

From S2P Require Export Primitives.

Record streaming (P : Type) := Streaming {
  st_size : Z;
  st_out : Z;
  st_init : P -> bytes;
  st_update : bytes -> bytes -> bytes;
  st_final : bytes -> bytes;
  st_spent : bytes -> bytes
}.
Arguments Streaming {P}.
Arguments st_size {P}.
Arguments st_out {P}.
Arguments st_init {P}.
Arguments st_update {P}.
Arguments st_final {P}.
Arguments st_spent {P}.

Class StreamingLaws {P} (S : streaming P) : Prop := {
  st_size_range : 0 <= st_size S <= 4096;
  st_out_range : 0 <= st_out S <= 4096;
  st_init_zlen p : zlen (st_init S p) = st_size S;
  st_update_zlen s m : zlen (st_update S s m) = st_size S;
  st_final_zlen s : zlen (st_final S s) = st_out S;
  st_spent_zlen s : zlen (st_spent S s) = st_size S;
  st_update_nil s : zlen s = st_size S -> st_update S s [] = s;
  st_update_app s a b : st_update S (st_update S s a) b = st_update S s (a ++ b)
}.

(** ** The documented programs *)

Section Programs.
Context {P : Type} (S : streaming P).

(** The digest or tag of a whole message *)
Definition st_digest (p : P) (m : bytes) : bytes := st_final S (st_update S (st_init S p) m).

Definition stream_init (st : ptr) (p : P) : M Z :=
  let* _ := write st (st_init S p) in ret 0.

Definition stream_update : update_fn := fun st m mlen =>
  let* s := read st (st_size S) in
  let* mb := read m mlen in
  let* _ := write st (st_update S s mb) in
  ret 0.

Definition stream_final : final_fn := fun st out =>
  let* s := read st (st_size S) in
  let* _ := restrict st (st_size S) out (st_out S) in
  let* _ := write out (st_final S s) in
  let* _ := write st (st_spent S s) in
  ret 0.

(** One call for the whole message *)
Definition stream_oneshot (out : ptr) (m : ptr) (mlen : Z) (p : P) : M Z :=
  let* mb := read m mlen in
  let* _ := write out (st_digest p mb) in
  ret 0.

Context {L : StreamingLaws S}.

Lemma stream_init_put_run st b p w :
  st = At b 0 ->
  stream_init st p (w_put b (replicate (Z.to_nat (st_size S)) None) w) =
    Done 0 (w_put b (Some <$> st_init S p) w).
Proof.
  intros ->. pose proof st_size_range. pose proof (st_init_zlen p).
  unfold stream_init. steps.
Qed.

Lemma stream_update_put_run `{Target} b s m mb w :
  w_mem w !! b = None -> zlen s = st_size S -> is_slice w m mb ->
  stream_update (At b 0) (s_ptr m) (s_len m) (w_put b (Some <$> s) w) =
    Done 0 (w_put b (Some <$> st_update S s mb) w).
Proof.
  intros Hb Hs (Hm & Hl & ?). pose proof (st_update_zlen s mb). unfold stream_update. steps.
Qed.

(** The state and the output are two places of the wrapper. *)
Lemma stream_final_put_run b o s w :
  w_mem w !! b = None -> w_mem w !! o = None -> b <> o -> zlen s = st_size S ->
  stream_final (At b 0) (At o 0) (w_put o (Some <$> zeros (st_out S)) (w_put b (Some <$> s) w)) =
    Done 0 (w_put o (Some <$> st_final S s) (w_put b (Some <$> st_spent S s) w)).
Proof.
  intros Hb Ho Hne Hs. pose proof st_out_range.
  pose proof (st_final_zlen s). pose proof (st_spent_zlen s).
  unfold stream_final. steps.
Qed.

Lemma stream_oneshot_put_run `{Target} b m mb p w :
  w_mem w !! b = None -> is_slice w m mb ->
  stream_oneshot (At b 0) (s_ptr m) (s_len m) p (w_put b (Some <$> zeros (st_out S)) w) =
    Done 0 (w_put b (Some <$> st_digest p mb) w).
Proof.
  intros Hb (Hm & Hl & ?). pose proof st_out_range.
  pose proof (st_final_zlen (st_update S (st_init S p) mb)).
  unfold stream_oneshot, st_digest. steps.
Qed.

(** ** Chunks *)

Lemma st_update_chunks s ms :
  zlen s = st_size S -> foldl (st_update S) s ms = st_update S s (concat ms).
Proof.
  revert s. induction ms as [|m ms IH]; intros s Hs; cbn.
  - by rewrite st_update_nil.
  - rewrite IH by apply st_update_zlen. apply st_update_app.
Qed.

End Programs.

Arguments st_digest {P}.
Arguments stream_init {P}.
Arguments stream_update {P}.
Arguments stream_final {P}.
Arguments stream_oneshot {P}.

(** Two lists of chunks are the same message. *)
Definition same_message (a b : list bytes) : Prop := concat a = concat b.

#[export] Instance same_message_equivalence : Equivalence same_message.
Proof. split; [done|by intros a b|]. intros a b c. unfold same_message. congruence. Qed.

#[export] Instance st_chunks_proper {P} (S : streaming P) {L : StreamingLaws S} p :
  Proper (same_message ==> (=)) (fun ms => st_final S (foldl (st_update S) (st_init S p) ms)).
Proof.
  intros a b Hab. rewrite !(st_update_chunks S) by apply st_init_zlen. by rewrite Hab.
Qed.

(** A client updates the state in the place [p] with each chunk. *)
Fixpoint update_all (update : ptr -> slice -> M unit) (p : ptr) (chunks : list slice) : M unit :=
  match chunks with
  | [] => ret tt
  | c :: cs => let* _ := update p c in update_all update p cs
  end.

Lemma update_all_run `{Target} {P} (S : streaming P) {L : StreamingLaws S} update b :
  (forall w s c cb, w_mem w !! b = None -> zlen s = st_size S -> is_slice w c cb ->
     update (At b 0) c (w_put b (Some <$> s) w) =
       Done tt (w_put b (Some <$> st_update S s cb) w)) ->
  forall chunks ms w s, w_mem w !! b = None -> zlen s = st_size S -> Forall2 (is_slice w) chunks ms ->
  update_all update (At b 0) chunks (w_put b (Some <$> s) w) =
    Done tt (w_put b (Some <$> st_update S s (concat ms)) w).
Proof.
  intros Hu chunks ms w s Hb Hs Hf. rewrite <- (st_update_chunks S s ms Hs). revert s Hs.
  induction Hf as [|c cb cs ms Hc Hf IH]; intros s Hs; cbn [update_all foldl]; [done|].
  eapply bind_step; [by apply Hu|]. apply IH, st_update_zlen.
Qed.

(** ** A reference computation, for examples

    The state is a little-endian number: the sum of the key and of the bytes
    of the message. *)

Module RefStreaming.

Definition sum (bs : bytes) : Z := foldr (fun b s => byte_val b + s) 0 bs.

Definition S (size out : nat) : streaming bytes := {|
  st_size := Z.of_nat size;
  st_out := Z.of_nat out;
  st_init key := le_bytes size (sum key);
  st_update s m := le_bytes size (le_val s + sum m);
  st_final s := le_bytes out (le_val s);
  st_spent s := zeros (Z.of_nat size)
|}.

Lemma sum_app a b : sum (a ++ b) = sum a + sum b.
Proof. unfold sum. induction a as [|x a IH]; cbn; [done|]. rewrite IH. lia. Qed.

Lemma ref_streaming_laws size out :
  Z.of_nat size <= 4096 -> Z.of_nat out <= 4096 -> StreamingLaws (S size out).
Proof.
  intros Hs Ho. split; cbn; try (intros; zlia).
  - intros s Hl. rewrite Z.add_0_r. replace size with (length s) by (unfold zlen in Hl; lia).
    apply le_bytes_le_val.
  - intros s a b. apply le_bytes_inj. rewrite le_val_le_bytes, Zplus_mod_idemp_l, sum_app.
    by rewrite Z.add_assoc.
Qed.

End RefStreaming.
