(* ===== verification/Auth.v ===== *)
(** * src/crypto/auth, src/crypto/onetimeauth: secret-key authentication

    [auth_module!] (one-shot) and [auth_state!] (streaming) are sections over
    the records of their arguments; the modules hmacsha256, hmacsha512,
    hmacsha512256 and poly1305 are the instances. *)

From S2P Require Export Streaming.

(** ** The macros *)

Record auth_module := AuthModule {
  auth_name : auth_fn;
  verify_name : auth_verify_fn;
  auth_keybytes : Z;
  auth_tagbytes : Z
}.

Record auth_state := AuthState {
  state_size : Z;
  init_name : auth_init_fn;
  update_name : update_fn;
  final_name : final_fn;
  state_tagbytes : Z
}.

Module auth.

Section Macro.
Context (A : auth_module).

Definition KEYBYTES : Z := auth_keybytes A.
Definition TAGBYTES : Z := auth_tagbytes A.

Definition Key : newtype := NewType secret "Key" KEYBYTES.
Definition Tag : newtype := NewType public "Tag" TAGBYTES.

Definition gen_key `{Target} `{RandombytesExterns} : M bytes :=
  let* k := stack_array KEYBYTES in
  let* _ := randombytes_into (Slice (At k 0) KEYBYTES) in
  move_out k.

Definition authenticate (m : slice) (k : ptr) : M bytes :=
  let* tag := stack_array TAGBYTES in
  let* _ := auth_name A (At tag 0) (s_ptr m) (s_len m) k in
  move_out tag.

Definition verify (tag : ptr) (m : slice) (k : ptr) : M bool :=
  let* rc := verify_name A tag (s_ptr m) (s_len m) k in
  ret (rc =? 0).

End Macro.

Module State.

Section Macro.
Context (St : auth_state) `{UtilsExterns}.

(** The [State] in the place [self] goes out of scope. *)
Definition drop (self : positive) : M unit :=
  let* _ := sodium_memzero (At self 0) (state_size St) in
  free self.

Definition init (k : slice) : M bytes :=
  let* s := stack_uninit (state_size St) in
  let* _ := init_name St (At s 0) (s_ptr k) (s_len k) in
  move_out s.

Definition update (self : ptr) (in_ : slice) : M unit :=
  let* _ := update_name St self (s_ptr in_) (s_len in_) in
  ret tt.

(** [finalize] consumes the state, which is dropped at its end. *)
Definition finalize (self : bytes) : M bytes :=
  let* s := place self in
  let* tag := stack_array (state_tagbytes St) in
  let* _ := final_name St (At s 0) (At tag 0) in
  let* t := move_out tag in
  let* _ := drop s in
  ret t.

End Macro.

End State.

End auth.

(** ** The instances *)

Definition hmacsha256 `{HmacSha256Externs} : auth_module :=
  AuthModule crypto_auth_hmacsha256 crypto_auth_hmacsha256_verify
    crypto_auth_hmacsha256_KEYBYTES crypto_auth_hmacsha256_BYTES.
Definition hmacsha256_state `{HmacSha256Externs} : auth_state :=
  AuthState crypto_auth_hmacsha256_state crypto_auth_hmacsha256_init crypto_auth_hmacsha256_update
    crypto_auth_hmacsha256_final crypto_auth_hmacsha256_BYTES.

Definition hmacsha512 `{HmacSha512Externs} : auth_module :=
  AuthModule crypto_auth_hmacsha512 crypto_auth_hmacsha512_verify
    crypto_auth_hmacsha512_KEYBYTES crypto_auth_hmacsha512_BYTES.
Definition hmacsha512_state `{HmacSha512Externs} : auth_state :=
  AuthState crypto_auth_hmacsha512_state crypto_auth_hmacsha512_init crypto_auth_hmacsha512_update
    crypto_auth_hmacsha512_final crypto_auth_hmacsha512_BYTES.

Definition hmacsha512256 `{HmacSha512256Externs} : auth_module :=
  AuthModule crypto_auth_hmacsha512256 crypto_auth_hmacsha512256_verify
    crypto_auth_hmacsha512256_KEYBYTES crypto_auth_hmacsha512256_BYTES.
Definition hmacsha512256_state `{HmacSha512256Externs} : auth_state :=
  AuthState crypto_auth_hmacsha512256_state crypto_auth_hmacsha512256_init
    crypto_auth_hmacsha512256_update crypto_auth_hmacsha512256_final crypto_auth_hmacsha512256_BYTES.

Definition poly1305 `{OnetimeauthExterns} : auth_module :=
  AuthModule crypto_onetimeauth_poly1305 crypto_onetimeauth_poly1305_verify
    crypto_onetimeauth_poly1305_KEYBYTES crypto_onetimeauth_poly1305_BYTES.

(** ** Documented behaviour *)

Class AuthDoc (A : auth_module) := {
  auth_mac : bytes -> bytes -> bytes;
  auth_tag_range : 0 <= auth_tagbytes A <= 4096;
  auth_mac_zlen k m : zlen (auth_mac k m) = auth_tagbytes A;
  auth_name_doc out m mlen k :
    auth_name A out m mlen k =
      (let* mb := read m mlen in
       let* kb := read k (auth_keybytes A) in
       let* _ := write out (auth_mac kb mb) in ret 0);
  verify_name_doc h m mlen k :
    verify_name A h m mlen k =
      (let* tag := read h (auth_tagbytes A) in
       let* mb := read m mlen in
       let* kb := read k (auth_keybytes A) in
       ret (if decide (tag = auth_mac kb mb) then 0 else -1))
}.

Class AuthStateDoc (St : auth_state) := {
  auth_streaming : streaming bytes;
  auth_streaming_laws :: StreamingLaws auth_streaming;
  auth_state_size : st_size auth_streaming = state_size St;
  auth_state_tag : st_out auth_streaming = state_tagbytes St;
  init_name_doc st k klen :
    init_name St st k klen = (let* kb := read k klen in stream_init auth_streaming st kb);
  update_name_doc : update_name St = stream_update auth_streaming;
  final_name_doc : final_name St = stream_final auth_streaming
}.

(** The streaming interface computes the authenticator of the simple one. *)
Class AuthAgree (A : auth_module) (St : auth_state) {DA : AuthDoc A} {DS : AuthStateDoc St} : Prop :=
  auth_agree k m : zlen k = auth_keybytes A -> auth_mac k m = st_digest auth_streaming k m.

(** ** What the generated functions do *)

Section AuthFacts.
Context `{T : Target} {A : auth_module} {D : AuthDoc A}.

Lemma authenticate_run w m k mb kb :
  is_slice w m mb -> is_ref w k (auth_keybytes A) kb ->
  auth.authenticate A m k w = Done (auth_mac kb mb) w.
Proof.
  intros (? & ? & ?) [? ?]. unfold auth.authenticate. pose proof auth_tag_range.
  unfold auth.TAGBYTES. step. rewrite auth_name_doc. pose proof (auth_mac_zlen kb mb). steps.
Qed.

Lemma verify_run w t m k tb mb kb :
  is_ref w t (auth_tagbytes A) tb -> is_slice w m mb -> is_ref w k (auth_keybytes A) kb ->
  auth.verify A t m k w = Done (bool_decide (tb = auth_mac kb mb)) w.
Proof.
  intros [? ?] (? & ? & ?) [? ?]. unfold auth.verify. rewrite verify_name_doc. steps. f_equal.
  case_decide; [by rewrite bool_decide_eq_true_2|by rewrite bool_decide_eq_false_2].
Qed.

End AuthFacts.

Section StateFacts.
Context `{T : Target} {St : auth_state} {D : AuthStateDoc St} `{U : UtilsExterns} {UD : UtilsDoc U}.

#[local] Abbreviation S := auth_streaming.

Lemma auth_state_range : 0 <= state_size St <= 4096.
Proof. rewrite <- auth_state_size. apply st_size_range. Qed.

Lemma auth_init_run w k kb :
  is_slice w k kb -> auth.State.init St k w = Done (st_init S kb) w.
Proof.
  intros (? & ? & ?). unfold auth.State.init. pose proof auth_state_range. step.
  rewrite init_name_doc. step. rewrite <- auth_state_size.
  eapply bind_step; [by apply (stream_init_put_run S)|]. by apply move_out_put_run.
Qed.

Lemma auth_update_run b w s c cb :
  w_mem w !! b = None -> zlen s = st_size S -> is_slice w c cb ->
  auth.State.update St (At b 0) c (w_put b (Some <$> s) w) =
    Done tt (w_put b (Some <$> st_update S s cb) w).
Proof.
  intros Hb Hs Hc. unfold auth.State.update. rewrite update_name_doc.
  eapply bind_step; [by apply (stream_update_put_run S)|done].
Qed.

(** The state is zeroed before it is released. *)
Lemma auth_finalize_run w s :
  zlen s = st_size S ->
  auth.State.finalize St s w =
    Done (st_final S s) (w_with (env_drop (Some <$> zeros (state_size St)) (w_env w)) w).
Proof.
  intros Hs. unfold auth.State.finalize, auth.State.drop. rewrite <- auth_state_tag.
  do 2 step. rewrite final_name_doc.
  eapply bind_step; [by apply (stream_final_put_run S)|].
  pose proof (st_spent_zlen (S := S) s) as Hl. pose proof auth_state_range.
  rewrite auth_state_size in *. eapply bind_step; [apply move_out_put_run; mem_tac|].
  rewrite sodium_memzero_doc. steps.
Qed.

End StateFacts.

(** ** A reference HMAC, and a process that uses it *)

Module RefAuth.

Definition S : streaming bytes := RefStreaming.S 208 32.

Definition externs : HmacSha256Externs := {|
  crypto_auth_hmacsha256 out m mlen k :=
    let* mb := read m mlen in
    let* kb := read k 32 in
    let* _ := write out (st_digest S kb mb) in ret 0;
  crypto_auth_hmacsha256_verify h m mlen k :=
    let* tag := read h 32 in
    let* mb := read m mlen in
    let* kb := read k 32 in
    ret (if decide (tag = st_digest S kb mb) then 0 else -1);
  crypto_auth_hmacsha256_init st k klen := let* kb := read k klen in stream_init S st kb;
  crypto_auth_hmacsha256_update := stream_update S;
  crypto_auth_hmacsha256_final := stream_final S
|}.

Definition A : auth_module := @hmacsha256 externs.
Definition St : auth_state := @hmacsha256_state externs.

Definition doc : AuthDoc A.
Proof.
  refine {| auth_mac := st_digest S |}; try reflexivity; try done.
Defined.

Definition state_doc : AuthStateDoc St.
Proof. refine {| auth_streaming := S |}; try reflexivity. by apply RefStreaming.ref_streaming_laws. Defined.

Lemma agree : @AuthAgree A St doc state_doc.
Proof. done. Qed.

Definition kb : bytes := replicate 32 x03.
Definition msg : bytes := [x01; x02; x03; x04; x05].
Definition w : world := Ref.world [msg; kb; zeros 32].

End RefAuth.

(** ** Properties *)

Section AuthPrograms.
Context `{T : Target} (A : auth_module) (St : auth_state) `{UtilsExterns}.

Definition auth_roundtrip (m : slice) (k : ptr) : M bool :=
  let* t := auth.authenticate A m k in
  let* tp := place t in
  let* r := auth.verify A (At tp 0) m k in
  let* _ := move_out tp in
  ret r.

(** A message authenticated in chunks *)
Definition auth_in_chunks (k : slice) (chunks : list slice) : M bytes :=
  let* s := auth.State.init St k in
  let* sp := place s in
  let* _ := update_all (auth.State.update St) (At sp 0) chunks in
  let* s := move_out sp in
  auth.State.finalize St s.

End AuthPrograms.

(** [verify()] accepts the tag [authenticate()] computes for the same
    message and key, and accepts no other tag: its answer is exactly whether
    the two tags are equal. *)
Theorem auth_verify_exact `{T : Target} A {D : AuthDoc A} w m k t mb kb tb
    (Hm : is_slice w m mb) (Hk : is_ref w k (auth.KEYBYTES A) kb)
    (Ht : is_ref w t (auth.TAGBYTES A) tb) :
  auth_roundtrip A m k w = Done true w /\
  exists tag, auth.authenticate A m k w = Done tag w /\ zlen tag = auth.TAGBYTES A /\
    auth.verify A t m k w = Done (bool_decide (tb = tag)) w.
Proof.
  unfold auth.TAGBYTES, auth.KEYBYTES in *. split.
  - unfold auth_roundtrip. eapply bind_step; [by apply (authenticate_run w m k mb kb)|]. step.
    eapply bind_step.
    { apply (verify_run _ _ _ _ (auth_mac kb mb) mb kb).
      - rewrite <- (auth_mac_zlen kb mb). apply is_ref_place.
      - by apply is_slice_put_fresh.
      - by apply is_ref_put_fresh. }
    eapply bind_step; [by apply move_out_put_run|]. by rewrite bool_decide_eq_true_2.
  - exists (auth_mac kb mb). split_and!.
    + by apply authenticate_run.
    + apply auth_mac_zlen.
    + by apply verify_run.
Qed.

Lemma auth_verify_exact_witness :
  auth_roundtrip RefAuth.A (Slice (At 1 0) 5) (At 2 0) RefAuth.w = Done true RefAuth.w /\
  exists tag, auth.authenticate RefAuth.A (Slice (At 1 0) 5) (At 2 0) RefAuth.w = Done tag RefAuth.w /\
    zlen tag = 32 /\
    auth.verify RefAuth.A (At 3 0) (Slice (At 1 0) 5) (At 2 0) RefAuth.w =
      Done (bool_decide (zeros 32 = tag)) RefAuth.w.
Proof.
  apply (@auth_verify_exact target64 RefAuth.A RefAuth.doc RefAuth.w (Slice (At 1 0) 5) (At 2 0)
    (At 3 0) RefAuth.msg RefAuth.kb (zeros 32)); Ref.concrete.
Defined.

(** The streaming interface: however a message is cut into chunks, the tag
    is the one [authenticate()] computes for the whole message, and the state,
    which depends on the key, is zeroed before it is released. *)
Theorem auth_streaming_agrees `{T : Target} A St {DA : AuthDoc A} {DS : AuthStateDoc St}
    {DAS : AuthAgree A St} `{U : UtilsExterns} {UD : UtilsDoc U} w k kp m kb mb chunks ms
    (Hk : is_slice w k kb) (Hkp : is_ref w kp (auth.KEYBYTES A) kb) (Hm : is_slice w m mb)
    (Hc : Forall2 (is_slice w) chunks ms) (Hms : same_message ms [mb]) :
  exists tag, auth.authenticate A m kp w = Done tag w /\
    auth_in_chunks St k chunks w =
      Done tag (w_with (env_drop (Some <$> zeros (state_size St)) (w_env w)) w).
Proof.
  exists (auth_mac kb mb). split; [by apply authenticate_run|].
  unfold auth_in_chunks. eapply bind_step; [by apply auth_init_run|]. step.
  eapply bind_step.
  { apply (update_all_run auth_streaming (auth.State.update St)) with (ms := ms);
      [by apply auth_update_run|done|apply st_init_zlen|done]. }
  eapply bind_step; [by apply move_out_put_run|].
  rewrite auth_finalize_run by apply st_update_zlen.
  unfold same_message in Hms. cbn in Hms. rewrite app_nil_r in Hms. rewrite Hms.
  destruct Hkp as [_ Hl]. by rewrite (auth_agree (A := A) (St := St)) by done.
Qed.

Lemma auth_streaming_agrees_witness :
  exists tag, auth.authenticate RefAuth.A (Slice (At 1 0) 5) (At 2 0) RefAuth.w = Done tag RefAuth.w /\
    @auth_in_chunks RefAuth.St Ref.utils (Slice (At 2 0) 32) [Slice (At 1 0) 2; Slice (At 1 2) 3] RefAuth.w =
      Done tag (w_with (env_drop (Some <$> zeros (state_size RefAuth.St)) (w_env RefAuth.w)) RefAuth.w).
Proof.
  apply (@auth_streaming_agrees target64 RefAuth.A RefAuth.St RefAuth.doc RefAuth.state_doc
    RefAuth.agree Ref.utils Ref.utils_doc RefAuth.w (Slice (At 2 0) 32) (At 2 0) (Slice (At 1 0) 5)
    RefAuth.kb RefAuth.msg [Slice (At 1 0) 2; Slice (At 1 2) 3] [[x01; x02]; [x03; x04; x05]]);
    [Ref.concrete..| |reflexivity].
  repeat constructor; Ref.concrete.
Defined.
