(* ===== verification/Hash.v ===== *)
(** * src/crypto/hash, src/crypto/generichash: hashing

    [hash_module!] and its instances sha256 and sha512; the generic hash with
    its optional key and output length, and its [Digest] of variable length. *)

From S2P Require Export Streaming.

(** ** [hash_module!] *)

Record hash_module := HashModule {
  hash_name : hash_fn;
  hash_state : Z;
  hash_init : hash_init_fn;
  hash_update : update_fn;
  hash_final : final_fn;
  hashbytes : Z;
  blockbytes : Z
}.

Module hash.

Section Macro.
Context (A : hash_module).

Definition DIGESTBYTES : Z := hashbytes A.
Definition BLOCKBYTES : Z := blockbytes A.
Definition Digest : newtype := NewType public "Digest" DIGESTBYTES.

Definition hash (m : slice) : M bytes :=
  let* h := stack_array DIGESTBYTES in
  let* _ := hash_name A (At h 0) (s_ptr m) (s_len m) in
  move_out h.

Definition State_new : M bytes :=
  let* st := stack_uninit (hash_state A) in
  let* _ := hash_init A (At st 0) in
  move_out st.

Definition State_update (self : ptr) (data : slice) : M unit :=
  let* _ := hash_update A self (s_ptr data) (s_len data) in
  ret tt.

(** [finalize(mut self)]: the state is [Copy] and has no [Drop]. *)
Definition State_finalize (self : bytes) : M bytes :=
  let* s := place self in
  let* digest := stack_array DIGESTBYTES in
  let* _ := hash_final A (At s 0) (At digest 0) in
  let* d := move_out digest in
  let* _ := free s in
  ret d.

Definition State_default : M bytes := State_new.

End Macro.

End hash.

Definition sha256 `{Sha256Externs} : hash_module :=
  HashModule crypto_hash_sha256 crypto_hash_sha256_state crypto_hash_sha256_init
    crypto_hash_sha256_update crypto_hash_sha256_final crypto_hash_sha256_BYTES 64.

Definition sha512 `{Sha512Externs} : hash_module :=
  HashModule crypto_hash_sha512 crypto_hash_sha512_state crypto_hash_sha512_init
    crypto_hash_sha512_update crypto_hash_sha512_final crypto_hash_sha512_BYTES 128.

(** ** src/crypto/generichash/digest.rs *)

Module digest.

(** The buffer is always [crypto_generichash_BYTES_MAX] bytes; [len] of them
    are the digest. *)
Record Digest := MkDigest { len : Z; data : bytes }.

Definition new (len : Z) : Digest := MkDigest len (zeros crypto_generichash_BYTES_MAX).

(** A reference to a digest: its length and where its buffer is. *)
Record ref := Ref { r_len : Z; r_data : ptr }.

(** [&self.data[0..self.len]] *)
Definition as_ref (self : ref) : M slice :=
  slice_index (Slice (r_data self) crypto_generichash_BYTES_MAX) 0 (r_len self).

Definition as_bytes (self : ref) : M bytes :=
  let* s := as_ref self in read (s_ptr s) (s_len s).

Definition fmt (self : ref) : M string :=
  let* bs := as_bytes self in ret ("Digest(" ++ debug_bytes bs ++ ")")%string.

Definition eq `{UtilsExterns} (self other : ref) : M bool :=
  if negb (r_len other =? r_len self) then ret false
  else
    let* a := as_ref self in
    let* b := as_ref other in
    memcmp a b.

Definition cmp (self other : ref) : M comparison :=
  let* a := as_bytes self in
  let* b := as_bytes other in
  ret (bytes_cmp a b).
Definition partial_cmp (self other : ref) : M (option comparison) :=
  let* c := cmp self other in ret (Some c).
Definition lt (self other : ref) : M bool :=
  let* c := partial_cmp self other in ret (match c with Some Lt => true | _ => false end).
Definition le (self other : ref) : M bool :=
  let* c := partial_cmp self other in ret (match c with Some (Lt | Eq) => true | _ => false end).
Definition ge (self other : ref) : M bool :=
  let* c := partial_cmp self other in ret (match c with Some (Gt | Eq) => true | _ => false end).
Definition gt (self other : ref) : M bool :=
  let* c := partial_cmp self other in ret (match c with Some Gt => true | _ => false end).

Definition hash {Hasher} (write_usize : Z -> Hasher -> Hasher) (write_bytes : bytes -> Hasher -> Hasher)
    (self : ref) (state : Hasher) : M Hasher :=
  let* bs := as_bytes self in ret (write_bytes bs (write_usize (zlen bs) state)).

(** The four [Index] instances *)
Definition index_range (self : ref) (a b : Z) : M slice :=
  let* s := as_ref self in slice_index s a b.
Definition index_range_to (self : ref) (b : Z) : M slice :=
  let* s := as_ref self in slice_index s 0 b.
Definition index_range_from (self : ref) (a : Z) : M slice :=
  let* s := as_ref self in slice_index s a (s_len s).
Definition index_range_full (self : ref) : M slice := as_ref self.

End digest.

(** A reference [r] to a digest of [n] bytes [bs] *)
Definition is_digest (w : world) (r : digest.ref) (n : Z) (bs : bytes) : Prop :=
  digest.r_len r = n /\ 0 <= n <= crypto_generichash_BYTES_MAX /\ zlen bs = n /\
  exists rest, is_ref w (digest.r_data r) crypto_generichash_BYTES_MAX (bs ++ rest).

(** ** src/crypto/generichash/mod.rs *)

Module generichash.

Definition DIGEST_MIN : Z := crypto_generichash_BYTES_MIN.
Definition DIGEST_MAX : Z := crypto_generichash_BYTES_MAX.
Definition KEY_MIN : Z := crypto_generichash_KEYBYTES_MIN.
Definition KEY_MAX : Z := crypto_generichash_KEYBYTES_MAX.

Definition unwrap_out_len (out_len : option Z) : result Z :=
  match out_len with
  | Some out_len =>
    if negb ((DIGEST_MIN <=? out_len) && (out_len <=? DIGEST_MAX)) then Err else Ok out_len
  | None => Ok crypto_generichash_BYTES
  end.

Definition unwrap_key (key : option slice) : result (ptr * Z) :=
  match key with
  | Some key =>
    let len := s_len key in
    if negb ((KEY_MIN <=? len) && (len <=? KEY_MAX)) then Err else Ok (s_ptr key, len)
  | None => Ok (Null, 0)
  end.

(** The state is a structure: the output length, and the foreign state. *)
Record State := MkState { out_len : Z; state : bytes }.

Section Functions.
Context `{GenerichashExterns}.

Definition State_new (out_len : option Z) (key : option slice) : M (result State) :=
  match unwrap_out_len out_len, unwrap_key key with
  | Ok out_len, Ok (key_ptr, key_len) =>
    let* state := stack_uninit crypto_generichash_blake2b_state in
    let* result := crypto_generichash_init (At state 0) key_ptr key_len out_len in
    if result =? 0 then
      let* s := move_out state in ret (Ok (MkState out_len s))
    else let* _ := free state in ret Err
  | _, _ => ret Err
  end.

(** [self.state] is in the place [self]; [self.out_len] does not change. *)
Definition State_update (self : ptr) (data : slice) : M (result unit) :=
  let* rc := crypto_generichash_update self (s_ptr data) (s_len data) in
  if rc =? 0 then ret (Ok tt) else ret Err.

Definition State_finalize (self : State) : M (result digest.Digest) :=
  let* st := place (state self) in
  let result := digest.new (out_len self) in
  let* d := place (digest.data result) in
  let* rc := crypto_generichash_final (At st 0) (At d 0) (digest.len result) in
  let* data := move_out d in
  let* _ := free st in
  if rc =? 0 then ret (Ok (digest.MkDigest (digest.len result) data)) else ret Err.

Definition hash (data : slice) (out_len : option Z) (key : option slice) : M (result digest.Digest) :=
  match unwrap_out_len out_len, unwrap_key key with
  | Ok out_len, Ok (key_ptr, key_len) =>
    let result := digest.new out_len in
    let* d := place (digest.data result) in
    let* rc := crypto_generichash (At d 0) (digest.len result) (s_ptr data) (s_len data) key_ptr key_len in
    let* bs := move_out d in
    if rc =? 0 then ret (Ok (digest.MkDigest (digest.len result) bs)) else ret Err
  | _, _ => ret Err
  end.

End Functions.

End generichash.

(** ** Documented behaviour *)

Class HashDoc (A : hash_module) := {
  hash_streaming : streaming unit;
  hash_streaming_laws :: StreamingLaws hash_streaming;
  hash_state_size : st_size hash_streaming = hash_state A;
  hash_digest_size : st_out hash_streaming = hashbytes A;
  hash_name_doc out m mlen : hash_name A out m mlen = stream_oneshot hash_streaming out m mlen tt;
  hash_init_doc st : hash_init A st = stream_init hash_streaming st tt;
  hash_update_doc : hash_update A = stream_update hash_streaming;
  hash_final_doc : hash_final A = stream_final hash_streaming
}.

(** The generic hash is documented for output lengths from 16 to 64 and for
    keys that are absent or 16 to 64 bytes long. *)
Definition gh_out_ok (outlen : Z) : Prop := 16 <= outlen <= 64.
Definition gh_key_ok (keylen : Z) : Prop := keylen = 0 \/ 16 <= keylen <= 64.

Class GenerichashDoc (E : GenerichashExterns) := {
  gh : Z -> streaming bytes;
  gh_laws o : gh_out_ok o -> StreamingLaws (gh o);
  gh_size o : gh_out_ok o -> st_size (gh o) = 384;
  gh_out o : gh_out_ok o -> st_out (gh o) = o;
  crypto_generichash_doc out o m mlen k klen :
    gh_out_ok o -> gh_key_ok klen ->
    crypto_generichash out o m mlen k klen =
      (let* kb := read k klen in stream_oneshot (gh o) out m mlen kb);
  crypto_generichash_init_doc st k klen o :
    gh_out_ok o -> gh_key_ok klen ->
    crypto_generichash_init st k klen o = (let* kb := read k klen in stream_init (gh o) st kb);
  crypto_generichash_update_doc o : gh_out_ok o -> crypto_generichash_update = stream_update (gh o);
  crypto_generichash_final_doc st out o :
    gh_out_ok o -> crypto_generichash_final st out o = stream_final (gh o) st out
}.

(** ** What the functions do *)

Section HashFacts.
Context `{T : Target} {A : hash_module} {D : HashDoc A}.

#[local] Abbreviation S := hash_streaming.

Lemma hash_run w m mb : is_slice w m mb -> hash.hash A m w = Done (st_digest S tt mb) w.
Proof.
  intros Hm. unfold hash.hash, hash.DIGESTBYTES. rewrite <- hash_digest_size. step.
  rewrite hash_name_doc. eapply bind_step; [by apply (stream_oneshot_put_run S)|].
  by apply move_out_put_run.
Qed.

Lemma hash_new_run w : hash.State_new A w = Done (st_init S tt) w.
Proof.
  unfold hash.State_new. rewrite <- hash_state_size. step. rewrite hash_init_doc.
  eapply bind_step; [by apply (stream_init_put_run S)|]. by apply move_out_put_run.
Qed.

Lemma hash_update_run b w s c cb :
  w_mem w !! b = None -> zlen s = st_size S -> is_slice w c cb ->
  hash.State_update A (At b 0) c (w_put b (Some <$> s) w) =
    Done tt (w_put b (Some <$> st_update S s cb) w).
Proof.
  intros Hb Hs Hc. unfold hash.State_update. rewrite hash_update_doc.
  eapply bind_step; [by apply (stream_update_put_run S)|done].
Qed.

Lemma hash_finalize_run w s :
  zlen s = st_size S ->
  hash.State_finalize A s w =
    Done (st_final S s) (w_with (env_drop (Some <$> st_spent S s) (w_env w)) w).
Proof.
  intros Hs. unfold hash.State_finalize, hash.DIGESTBYTES. rewrite <- hash_digest_size.
  do 2 step. rewrite hash_final_doc.
  eapply bind_step; [by apply (stream_final_put_run S)|].
  eapply bind_step; [apply move_out_put_run; mem_tac|]. steps.
Qed.

End HashFacts.

Section GenerichashFacts.
Context `{T : Target} `{E : GenerichashExterns} {D : GenerichashDoc E}.

(** The optional key: no key is the empty key. *)
Definition is_key (w : world) (key : option slice) (kb : bytes) : Prop :=
  match key with Some k => is_slice w k kb | None => kb = [] end.

Definition key_valid (key : option slice) (kb : bytes) : Prop :=
  match key with Some _ => 16 <= zlen kb <= 64 | None => True end.
Definition out_valid (out_len : option Z) : Prop :=
  match out_len with Some o => gh_out_ok o | None => True end.

#[export] Instance key_valid_dec key kb : Decision (key_valid key kb).
Proof. destruct key; apply _. Defined.
#[export] Instance out_valid_dec o : Decision (out_valid o).
Proof. destruct o; unfold out_valid, gh_out_ok; apply _. Defined.

Lemma range_spec a x b : (a <=? x) && (x <=? b) = bool_decide (a <= x <= b).
Proof.
  destruct (Z.leb_spec a x), (Z.leb_spec x b); cbn;
    rewrite ?bool_decide_eq_true_2, ?bool_decide_eq_false_2 by lia; done.
Qed.

Lemma unwrap_out_len_spec o :
  generichash.unwrap_out_len o = if decide (out_valid o) then Ok (default 32 o) else Err.
Proof.
  unfold generichash.unwrap_out_len. destruct o as [o|]; [|done].
  change generichash.DIGEST_MIN with 16. change generichash.DIGEST_MAX with 64.
  rewrite range_spec. cbn [out_valid default]. unfold gh_out_ok.
  case_decide as Hd; [by rewrite (bool_decide_eq_true_2 _ Hd)|by rewrite (bool_decide_eq_false_2 _ Hd)].
Qed.

Lemma out_valid_ok o : out_valid o -> gh_out_ok (default 32 o).
Proof. destruct o; cbn; unfold gh_out_ok; lia. Qed.

Lemma unwrap_key_spec w key kb :
  is_key w key kb ->
  if decide (key_valid key kb)
  then exists p, generichash.unwrap_key key = Ok (p, zlen kb) /\ bytes_at w p kb /\ gh_key_ok (zlen kb)
  else generichash.unwrap_key key = Err.
Proof.
  unfold generichash.unwrap_key. change generichash.KEY_MIN with 16. change generichash.KEY_MAX with 64.
  destruct key as [k|]; cbn [is_key key_valid].
  - intros (Hk & Hl & _). rewrite range_spec, Hl.
    case_decide; rewrite ?bool_decide_eq_true_2, ?bool_decide_eq_false_2 by done; cbn [negb]; [|done].
    eexists. split_and!; [done|done|]. unfold gh_key_ok. lia.
  - intros ->. cbn. eexists. split_and!; [done|done|by left].
Qed.

Lemma digest_data_zlen : zlen (digest.data (digest.new 0)) = 64.
Proof. done. Qed.

Lemma generichash_run w m out_len key mb kb :
  is_slice w m mb -> is_key w key kb ->
  generichash.hash m out_len key w =
    if decide (out_valid out_len /\ key_valid key kb) then
      let o := default 32 out_len in
      Done (Ok (digest.MkDigest o (st_digest (gh o) kb mb ++ zeros (64 - o)))) w
    else Done Err w.
Proof.
  intros (Hm & Hml & ?) Hk. apply unwrap_key_spec in Hk. unfold generichash.hash.
  rewrite unwrap_out_len_spec.
  destruct (decide (out_valid out_len)) as [Ho|Ho]; [|by rewrite decide_False by tauto].
  destruct (decide (key_valid key kb)) as [Hv|Hv]; [|rewrite decide_False by tauto; by rewrite Hk].
  destruct Hk as (p & Hkp & Hp & Hok). rewrite Hkp, decide_True by done. cbn zeta.
  apply out_valid_ok in Ho. set (o := default 32 out_len) in *.
  pose proof (gh_laws o Ho) as L. unfold digest.new. cbn [digest.data digest.len].
  step. rewrite crypto_generichash_doc by done. step. unfold stream_oneshot. step.
  assert (Hl : zlen (st_digest (gh o) kb mb) = o).
  { unfold st_digest. rewrite (st_final_zlen (S := gh o)). by apply gh_out. }
  unfold gh_out_ok in Ho. eapply bind_step.
  { eapply bind_step; [apply write_prefix; change crypto_generichash_BYTES_MAX with 64; lia|done]. }
  eapply bind_step; [by apply move_out_put_run|]. cbn [Z.eqb]. by rewrite Hl.
Qed.

Lemma gh_new_run w out_len key kb :
  is_key w key kb ->
  generichash.State_new out_len key w =
    if decide (out_valid out_len /\ key_valid key kb) then
      let o := default 32 out_len in Done (Ok (generichash.MkState o (st_init (gh o) kb))) w
    else Done Err w.
Proof.
  intros Hk. apply unwrap_key_spec in Hk. unfold generichash.State_new.
  rewrite unwrap_out_len_spec.
  destruct (decide (out_valid out_len)) as [Ho|Ho]; [|by rewrite decide_False by tauto].
  destruct (decide (key_valid key kb)) as [Hv|Hv]; [|rewrite decide_False by tauto; by rewrite Hk].
  destruct Hk as (p & Hkp & Hp & Hok). rewrite Hkp, decide_True by done. cbn zeta.
  apply out_valid_ok in Ho. set (o := default 32 out_len) in *.
  pose proof (gh_laws o Ho) as L. change crypto_generichash_blake2b_state with 384.
  rewrite <- (gh_size o Ho). step. rewrite crypto_generichash_init_doc by done. step.
  eapply bind_step; [by apply (stream_init_put_run (gh o))|]. cbn [Z.eqb].
  eapply bind_step; [by apply move_out_put_run|done].
Qed.

Lemma gh_update_run o b w s c cb :
  gh_out_ok o -> w_mem w !! b = None -> zlen s = st_size (gh o) -> is_slice w c cb ->
  generichash.State_update (At b 0) c (w_put b (Some <$> s) w) =
    Done (Ok tt) (w_put b (Some <$> st_update (gh o) s cb) w).
Proof.
  intros Ho Hb Hs Hc. pose proof (gh_laws o Ho) as L. unfold generichash.State_update.
  rewrite (crypto_generichash_update_doc o Ho).
  eapply bind_step; [by apply (stream_update_put_run (gh o))|done].
Qed.

Lemma gh_finalize_run w o s :
  gh_out_ok o -> zlen s = st_size (gh o) ->
  generichash.State_finalize (generichash.MkState o s) w =
    Done (Ok (digest.MkDigest o (st_final (gh o) s ++ zeros (64 - o))))
         (w_with (env_drop (Some <$> st_spent (gh o) s) (w_env w)) w).
Proof.
  intros Ho Hs. pose proof (gh_laws o Ho) as L. unfold generichash.State_finalize, digest.new.
  cbn [digest.data digest.len generichash.state generichash.out_len].
  do 2 step. rewrite crypto_generichash_final_doc by done. unfold stream_final. do 2 step.
  assert (Hl : zlen (st_final (gh o) s) = o) by (rewrite (st_final_zlen (S := gh o)); by apply gh_out).
  unfold gh_out_ok in Ho. eapply bind_step.
  { eapply bind_step; [apply write_prefix; change crypto_generichash_BYTES_MAX with 64; lia|].
    pose proof (st_spent_zlen (S := gh o) s). steps. }
  eapply bind_step; [apply move_out_put_run; mem_tac|]. step. cbn [Z.eqb]. rewrite Hl. steps.
Qed.

(** *** Digests *)

Lemma digest_as_ref_run w r n bs :
  is_digest w r n bs -> digest.as_ref r w = Done (Slice (digest.r_data r) n) w /\
    is_slice w (Slice (digest.r_data r) n) bs.
Proof.
  intros (Hn & Hr & Hl & rest & [Hb Hbl]). split.
  - unfold digest.as_ref, slice_index. cbn [s_len s_ptr]. rewrite Hn.
    rewrite !(proj2 (Z.leb_le _ _)) by lia. cbn [andb]. unfold ret. rewrite Z.sub_0_r.
    destruct (digest.r_data r) as [|b o]; cbn; [done|]. by rewrite Nat.add_0_r.
  - pose proof isize_max_bounds. change crypto_generichash_BYTES_MAX with 64 in Hr.
    repeat split; cbn; [|lia..]. by apply bytes_at_app_l in Hb.
Qed.

Lemma digest_as_bytes_run w r n bs : is_digest w r n bs -> digest.as_bytes r w = Done bs w.
Proof.
  intros Hd. apply digest_as_ref_run in Hd as [Ha (Hb & Hl & _)]. unfold digest.as_bytes.
  eapply bind_step; [exact Ha|]. by eapply read_run.
Qed.

End GenerichashFacts.

(** ** Reference instances *)

Module RefHash.

Definition S : streaming unit := {|
  st_size := 104; st_out := 32;
  st_init _ := st_init (RefStreaming.S 104 32) [];
  st_update := st_update (RefStreaming.S 104 32);
  st_final := st_final (RefStreaming.S 104 32);
  st_spent := st_spent (RefStreaming.S 104 32)
|}.

Definition externs : Sha256Externs := {|
  crypto_hash_sha256 out m mlen := stream_oneshot S out m mlen tt;
  crypto_hash_sha256_init st := stream_init S st tt;
  crypto_hash_sha256_update := stream_update S;
  crypto_hash_sha256_final := stream_final S
|}.

Definition A : hash_module := @sha256 externs.

Definition doc : HashDoc A.
Proof.
  refine {| hash_streaming := S |}; try reflexivity.
  assert (L : StreamingLaws (RefStreaming.S 104 32)) by (by apply RefStreaming.ref_streaming_laws).
  destruct L. by split.
Defined.

Definition gh_S (o : Z) : streaming bytes := RefStreaming.S 384 (Z.to_nat o).

Definition gh_externs : GenerichashExterns := {|
  crypto_generichash out o m mlen k klen :=
    let* kb := read k klen in stream_oneshot (gh_S o) out m mlen kb;
  crypto_generichash_init st k klen o := let* kb := read k klen in stream_init (gh_S o) st kb;
  crypto_generichash_update := stream_update (gh_S 64);
  crypto_generichash_final st out o := stream_final (gh_S o) st out
|}.

Definition gh_doc : GenerichashDoc gh_externs.
Proof.
  refine {| gh := gh_S |}; try reflexivity; unfold gh_out_ok.
  - intros o Ho. apply RefStreaming.ref_streaming_laws; lia.
  - intros o Ho. cbn. lia.
Defined.

Definition msg : bytes := [x61; x62; x63; x64].
Definition w : world := Ref.world [msg; replicate 16 x01].
Definition m : slice := Slice (At 1 0) 4.
Definition chunks : list slice := [Slice (At 1 0) 1; Slice (At 1 1) 3].

End RefHash.

(** ** Properties *)

Section HashPrograms.
Context (A : hash_module) `{GenerichashExterns}.

Definition hash_in_chunks (chunks : list slice) : M bytes :=
  let* s := hash.State_new A in
  let* sp := place s in
  let* _ := update_all (hash.State_update A) (At sp 0) chunks in
  let* s := move_out sp in
  hash.State_finalize A s.

(** [state.update(chunk)?] for each chunk *)
Fixpoint gh_update_all (self : ptr) (chunks : list slice) : M (result unit) :=
  match chunks with
  | [] => ret (Ok tt)
  | c :: cs =>
    let* r := generichash.State_update self c in
    match r with Ok _ => gh_update_all self cs | Err => ret Err end
  end.

Definition generichash_in_chunks (out_len : option Z) (key : option slice) (chunks : list slice) :
    M (result digest.Digest) :=
  let* r := generichash.State_new out_len key in
  match r with
  | Err => ret Err
  | Ok st =>
    let* sp := place (generichash.state st) in
    let* r := gh_update_all (At sp 0) chunks in
    let* s := move_out sp in
    match r with
    | Err => ret Err
    | Ok _ => generichash.State_finalize (generichash.MkState (generichash.out_len st) s)
    end
  end.

End HashPrograms.

(** For each hash module, hashing a message in chunks gives [hash()] of the
    whole message, however it is cut; the finalised state is not zeroed. *)
Theorem hash_streaming_agrees `{T : Target} A {D : HashDoc A} w m mb chunks ms
    (Hm : is_slice w m mb) (Hc : Forall2 (is_slice w) chunks ms) (Hms : same_message ms [mb]) :
  exists d left, zlen d = hash.DIGESTBYTES A /\ hash.hash A m w = Done d w /\
    hash_in_chunks A chunks w = Done d (w_with (env_drop left (w_env w)) w).
Proof.
  set (S := hash_streaming). exists (st_digest S tt mb).
  eexists. split_and!.
  - unfold st_digest. rewrite st_final_zlen. apply hash_digest_size.
  - by apply hash_run.
  - unfold hash_in_chunks. eapply bind_step; [apply hash_new_run|]. step.
    eapply bind_step.
    { apply (update_all_run S (hash.State_update A)) with (ms := ms);
        [by apply hash_update_run|done|apply st_init_zlen|done]. }
    eapply bind_step; [by apply move_out_put_run|].
    rewrite hash_finalize_run by apply st_update_zlen.
    unfold same_message in Hms. cbn in Hms. rewrite app_nil_r in Hms. by rewrite Hms.
Qed.

Lemma hash_streaming_agrees_witness :
  exists d left, zlen d = 32 /\ hash.hash RefHash.A RefHash.m RefHash.w = Done d RefHash.w /\
    hash_in_chunks RefHash.A RefHash.chunks RefHash.w =
      Done d (w_with (env_drop left (w_env RefHash.w)) RefHash.w).
Proof.
  apply (@hash_streaming_agrees target64 RefHash.A RefHash.doc RefHash.w RefHash.m RefHash.msg
    RefHash.chunks [[x61]; [x62; x63; x64]]); [Ref.concrete| |reflexivity].
  repeat constructor; Ref.concrete.
Defined.

(** C17. The generic hash: exactly the output lengths from [DIGEST_MIN] to
    [DIGEST_MAX] and the keys of [KEY_MIN] to [KEY_MAX] bytes are accepted, no
    key and no length meaning the empty key and 32 bytes; a digest has exactly
    the length asked for, in a buffer whose other bytes are zero; and nothing
    is ever written past the buffer. *)
Theorem generichash_spec `{T : Target} `{E : GenerichashExterns} {D : GenerichashDoc E} w m out_len key mb kb
    (Hm : is_slice w m mb) (Hk : is_key w key kb) :
  generichash.hash m out_len key w =
    if decide (out_valid out_len /\ key_valid key kb) then
      let o := default 32 out_len in
      Done (Ok (digest.MkDigest o (st_digest (gh o) kb mb ++ zeros (64 - o)))) w
    else Done Err w.
Proof. by apply generichash_run. Qed.

Lemma generichash_spec_witness :
  @generichash.hash RefHash.gh_externs RefHash.m (Some 16) (Some (Slice (At 2 0) 16)) RefHash.w =
    Done (Ok (digest.MkDigest 16
      (st_digest (RefHash.gh_S 16) (replicate 16 x01) RefHash.msg ++ zeros 48))) RefHash.w.
Proof.
  rewrite (@generichash_spec target64 RefHash.gh_externs RefHash.gh_doc RefHash.w RefHash.m (Some 16)
    (Some (Slice (At 2 0) 16)) RefHash.msg (replicate 16 x01)); [|Ref.concrete..].
  reflexivity.
Defined.

Lemma gh_update_all_run `{T : Target} `{E : GenerichashExterns} {D : GenerichashDoc E} o b w chunks ms :
  gh_out_ok o -> w_mem w !! b = None -> Forall2 (is_slice w) chunks ms -> forall s,
  zlen s = st_size (gh o) ->
  gh_update_all (At b 0) chunks (w_put b (Some <$> s) w) =
    Done (Ok tt) (w_put b (Some <$> st_update (gh o) s (concat ms)) w).
Proof.
  intros Ho Hb Hf. pose proof (gh_laws o Ho) as L.
  induction Hf as [|c cb cs ms Hc Hf IH]; intros s Hs; cbn [gh_update_all concat].
  - by rewrite st_update_nil.
  - eapply bind_step; [by apply (gh_update_run o)|].
    rewrite IH by apply st_update_zlen. by rewrite st_update_app.
Qed.

(** The streaming generic hash rejects exactly the parameters [hash()]
    rejects, and otherwise computes the same digest, however the message is
    cut into chunks. *)
Theorem generichash_streaming_agrees `{T : Target} `{E : GenerichashExterns} {D : GenerichashDoc E}
    w m out_len key mb kb chunks ms
    (Hm : is_slice w m mb) (Hk : is_key w key kb)
    (Hc : Forall2 (is_slice w) chunks ms) (Hms : same_message ms [mb]) :
  exists r w', generichash.hash m out_len key w = Done r w /\
    generichash_in_chunks out_len key chunks w = Done r w' /\ w_mem w' = w_mem w.
Proof.
  rewrite (generichash_run w m out_len key mb kb) by done. unfold generichash_in_chunks.
  case_decide as Hv.
  - eexists _, _. split; [done|].
    destruct Hv as [Ho ?]. pose proof (out_valid_ok _ Ho) as Hok. set (o := default 32 out_len).
    pose proof (gh_laws o Hok) as L. split.
    + eapply bind_step.
      { rewrite (gh_new_run w out_len key kb), decide_True by done. reflexivity. }
      fold o. cbn [generichash.state generichash.out_len]. step.
      eapply bind_step; [by apply (gh_update_all_run o _ _ _ ms); [..|apply st_init_zlen]|].
      eapply bind_step; [by apply move_out_put_run|].
      rewrite gh_finalize_run by (done || apply st_update_zlen).
      unfold same_message in Hms. cbn in Hms. rewrite app_nil_r in Hms. rewrite Hms. reflexivity.
    + done.
  - eexists _, _. split_and!; [done| |done].
    eapply bind_step.
    { rewrite (gh_new_run w out_len key kb), decide_False by done. reflexivity. }
    reflexivity.
Qed.

Lemma generichash_streaming_agrees_witness :
  exists r w', @generichash.hash RefHash.gh_externs RefHash.m (Some 20) None RefHash.w = Done r RefHash.w /\
    @generichash_in_chunks RefHash.gh_externs (Some 20) None RefHash.chunks RefHash.w = Done r w' /\
    w_mem w' = w_mem RefHash.w.
Proof.
  apply (@generichash_streaming_agrees target64 RefHash.gh_externs RefHash.gh_doc RefHash.w RefHash.m
    (Some 20) None RefHash.msg [] RefHash.chunks [[x61]; [x62; x63; x64]]);
    [Ref.concrete|done| |reflexivity].
  repeat constructor; Ref.concrete.
Defined.

(** Comparing digests of the generic hash: [==] holds exactly between
    digests of the same length with the same bytes and [cmp()] orders by the
    bytes, whatever the unused part of the two buffers holds; neither panics. *)
Theorem digest_comparison `{T : Target} `{U : UtilsExterns} {UD : UtilsDoc U} w r1 r2 n1 n2 a b
    (H1 : is_digest w r1 n1 a) (H2 : is_digest w r2 n2 b) :
  digest.eq r1 r2 w = Done (bool_decide (a = b)) w /\ digest.cmp r1 r2 w = Done (bytes_cmp a b) w.
Proof.
  pose proof (digest_as_ref_run w r1 n1 a H1) as [Ha1 Hs1].
  pose proof (digest_as_ref_run w r2 n2 b H2) as [Ha2 Hs2].
  split.
  - unfold digest.eq. pose proof H1 as (-> & _ & Hl1 & _). pose proof H2 as (-> & _ & Hl2 & _).
    destruct (Z.eqb_spec n2 n1) as [->|Hne]; cbn [negb].
    + eapply bind_step; [exact Ha1|]. eapply bind_step; [exact Ha2|].
      by apply memcmp_run.
    + rewrite bool_decide_eq_false_2; [done|]. intros ->. lia.
  - unfold digest.cmp. eapply bind_step; [by eapply digest_as_bytes_run|].
    eapply bind_step; [by eapply digest_as_bytes_run|done].
Qed.

Lemma digest_comparison_witness :
  let w := Ref.world [replicate 16 x05 ++ zeros 48; replicate 16 x05 ++ replicate 48 xff] in
  @digest.eq Ref.utils (digest.Ref 16 (At 1 0)) (digest.Ref 16 (At 2 0)) w = Done true w /\
  digest.cmp (digest.Ref 16 (At 1 0)) (digest.Ref 16 (At 2 0)) w = Done Eq w.
Proof.
  apply (@digest_comparison target64 Ref.utils Ref.utils_doc
    (Ref.world [replicate 16 x05 ++ zeros 48; replicate 16 x05 ++ replicate 48 xff])
    (digest.Ref 16 (At 1 0)) (digest.Ref 16 (At 2 0)) 16 16 (replicate 16 x05) (replicate 16 x05)).
  - split; [done|]. split; [done|]. split; [done|]. exists (zeros 48). Ref.concrete.
  - split; [done|]. split; [done|]. split; [done|]. exists (replicate 48 xff). Ref.concrete.
Defined.
