(* ===== verification/Secretstream.v ===== *)
(** * src/crypto/secretstream: encrypted streams

    [stream_module!] of secretstream_macros.rs over the record of its
    arguments, and its instance xchacha20poly1305.  A [Stream<M>] in its place
    is the address of its foreign state and the flag [finalized]; the methods
    that take [&mut self] return the new flag. *)

From S2P Require Export Aead.

(** The types of the foreign functions *)
Definition push_fn : Type :=
  ptr (* state *) -> ptr (* c *) -> Z (* *clen_p *) -> ptr (* m *) -> Z (* mlen *) ->
  ptr (* ad *) -> Z (* adlen *) -> Z (* tag *) -> M (Z * Z).
Definition pull_fn : Type :=
  ptr (* state *) -> ptr (* m *) -> Z (* *mlen_p *) -> Z (* *tag_p *) -> ptr (* c *) -> Z (* clen *) ->
  ptr (* ad *) -> Z (* adlen *) -> M (Z * Z * Z).

(** The arguments of [stream_module!] *)
Record secretstream_module := SecretstreamModule {
  ss_state_size : Z;
  init_push_name : ptr -> ptr -> ptr -> M Z;
  push_name : push_fn;
  init_pull_name : ptr -> ptr -> ptr -> M Z;
  pull_name : pull_fn;
  rekey_name : ptr -> M unit;
  messagebytes_max_name : M Z;
  ss_keybytes : Z;
  ss_headerbytes : Z;
  ss_abytes : Z;
  tag_message : Z;
  tag_push : Z;
  tag_rekey : Z;
  tag_final : Z
}.

Module secretstream.

Inductive Tag := Message | Push | Rekey | Final.

#[global] Instance Tag_eq_dec : EqDecision Tag.
Proof. solve_decision. Defined.

(** [tag as u8]: the discriminant *)
Definition tag_as_u8 (t : Tag) : Z :=
  match t with Message => 0 | Push => 1 | Rekey => 2 | Final => 3 end.

(** The phantom parameter [M: StreamMode] *)
Inductive StreamMode := PushMode | PullMode.

Record Stream (M : StreamMode) := MkStream { state : ptr; finalized : bool }.
Arguments MkStream {M}.
Arguments state {M}.
Arguments finalized {M}.

Section Macro.
Context (A : secretstream_module).

Definition messagebytes_max : M Z := messagebytes_max_name A.

Definition KEYBYTES : Z := ss_keybytes A.
Definition HEADERBYTES : Z := ss_headerbytes A.
Definition ABYTES : Z := ss_abytes A.
Definition TAG_MESSAGE : Z := tag_message A.
Definition TAG_PUSH : Z := tag_push A.
Definition TAG_REKEY : Z := tag_rekey A.
Definition TAG_FINAL : Z := tag_final A.

Definition from_u8 (tag : Z) : result Tag :=
  if tag =? TAG_MESSAGE then Ok Message
  else if tag =? TAG_PUSH then Ok Push
  else if tag =? TAG_REKEY then Ok Rekey
  else if tag =? TAG_FINAL then Ok Final
  else Err.

Definition Key : newtype := NewType secret "Key" KEYBYTES.
Definition Header : newtype := NewType public "Header" HEADERBYTES.

Definition gen_key `{Target} `{RandombytesExterns} : M bytes :=
  let* key := stack_array KEYBYTES in
  let* _ := randombytes_into (Slice (At key 0) KEYBYTES) in
  move_out key.

Definition rekey {M} (self : Stream M) : Machine.M (result unit) :=
  if finalized self then ret Err
  else
    let* _ := rekey_name A (state self) in
    ret (Ok tt).

Definition is_finalized {M} (self : Stream M) : bool := finalized self.
Definition is_not_finalized {M} (self : Stream M) : bool := negb (finalized self).

Definition init_push (key : ptr) : M (result (Stream PushMode * bytes)) :=
  let* header := stack_uninit HEADERBYTES in
  let* st := stack_uninit (ss_state_size A) in
  let* rc := init_push_name A (At st 0) (At header 0) key in
  if negb (rc =? 0) then
    let* _ := free st in
    let* _ := free header in
    ret Err
  else
    let* s := move_out st in
    let* h := move_out header in
    let* st := place s in
    ret (Ok (MkStream (At st 0) false, h)).

Section WithTarget.
Context `{Target}.

Definition push_check (self : Stream PushMode) (m : slice) (tag : Tag) :
    M (result Z * Stream PushMode) :=
  if finalized self then ret (Err, self)
  else
    let m_len := s_len m in
    let* max := messagebytes_max in
    if max <? m_len then ret (Err, self)
    else
      let self := if bool_decide (tag = Final) then MkStream (state self) true else self in
      let* len := usize_add m_len ABYTES in
      ret (Ok len, self).

(** The vector [buf] is filled in place. *)
Definition push_impl (self : Stream PushMode) (m : slice) (ad : option slice) (tag : Tag) (buf : vec) :
    M (result unit * vec) :=
  let '(ad_p, ad_len) := aead.ad_parts ad in
  let* '(rc, c_len) :=
    push_name A (state self) (v_ptr buf) 0 (s_ptr m) (s_len m) ad_p ad_len (tag_as_u8 tag) in
  if negb (rc =? 0) then ret (Err, buf)
  else
    let* buf := vec_set_len buf (as_usize c_len) in
    ret (Ok tt, buf).

Definition push (self : Stream PushMode) (m : slice) (ad : option slice) (tag : Tag) :
    M (result vec * Stream PushMode) :=
  let* '(r, self) := push_check self m tag in
  match r with
  | Err => ret (Err, self)
  | Ok buf_len =>
    let* buf := vec_with_capacity buf_len in
    let* '(r, buf) := push_impl self m ad tag buf in
    match r with
    | Err => let* _ := vec_drop buf in ret (Err, self)
    | Ok _ => ret (Ok buf, self)
    end
  end.

(** The vector the caller lends comes back with the new contents. *)
Definition push_to_vec (self : Stream PushMode) (m : slice) (ad : option slice) (tag : Tag) (out : vec) :
    M (result unit * Stream PushMode * vec) :=
  let* '(r, self) := push_check self m tag in
  match r with
  | Err => ret (Err, self, out)
  | Ok buf_len =>
    let out := vec_clear out in
    let* out := vec_reserve out buf_len in
    let* '(r, out) := push_impl self m ad tag out in
    ret (r, self, out)
  end.

(** [finalize(mut self)]: the stream is not usable afterwards. *)
Definition finalize (self : Stream PushMode) (ad : option slice) : M (result vec) :=
  let* '(r, _) := push self (Slice Null 0) ad Final in
  ret r.

Definition init_pull (header key : ptr) : M (result (Stream PullMode)) :=
  let* st := stack_uninit (ss_state_size A) in
  let* rc := init_pull_name A (At st 0) header key in
  if rc =? -1 then let* _ := free st in ret Err
  else if negb (rc =? 0) then let* _ := free st in ret Err
  else
    let* s := move_out st in
    let* st := place s in
    ret (Ok (MkStream (At st 0) false)).

Definition pull_check (self : Stream PullMode) (c : slice) : M (result Z) :=
  if finalized self then ret Err
  else
    let c_len := s_len c in
    if c_len <? ABYTES then ret Err
    else
      let m_len := c_len - ABYTES in
      let* max := messagebytes_max in
      if max <? m_len then ret Err else ret (Ok m_len).

Definition pull_impl (self : Stream PullMode) (c : slice) (ad : option slice) (buf : vec) :
    M (result Tag * Stream PullMode * vec) :=
  let '(ad_p, ad_len) := aead.ad_parts ad in
  let* '(rc, m_len, tag) :=
    pull_name A (state self) (v_ptr buf) 0 0 (s_ptr c) (s_len c) ad_p ad_len in
  if negb (rc =? 0) then ret (Err, self, buf)
  else
    let* buf := vec_set_len buf (as_usize m_len) in
    match from_u8 tag with
    | Err => ret (Err, self, buf)
    | Ok tag =>
      let self := if bool_decide (tag = Final) then MkStream (state self) true else self in
      ret (Ok tag, self, buf)
    end.

Definition pull (self : Stream PullMode) (c : slice) (ad : option slice) :
    M (result (vec * Tag) * Stream PullMode) :=
  let* r := pull_check self c in
  match r with
  | Err => ret (Err, self)
  | Ok m_len =>
    let* buf := vec_with_capacity m_len in
    let* '(r, self, buf) := pull_impl self c ad buf in
    match r with
    | Err => let* _ := vec_drop buf in ret (Err, self)
    | Ok tag => ret (Ok (buf, tag), self)
    end
  end.

Definition pull_to_vec (self : Stream PullMode) (c : slice) (ad : option slice) (out : vec) :
    M (result Tag * Stream PullMode * vec) :=
  let* r := pull_check self c in
  match r with
  | Err => ret (Err, self, out)
  | Ok m_len =>
    let out := vec_clear out in
    let* out := vec_reserve out m_len in
    pull_impl self c ad out
  end.

End WithTarget.

End Macro.

End secretstream.

Definition xchacha20poly1305 `{SecretstreamExterns} : secretstream_module :=
  SecretstreamModule
    crypto_secretstream_xchacha20poly1305_state
    crypto_secretstream_xchacha20poly1305_init_push
    crypto_secretstream_xchacha20poly1305_push
    crypto_secretstream_xchacha20poly1305_init_pull
    crypto_secretstream_xchacha20poly1305_pull
    crypto_secretstream_xchacha20poly1305_rekey
    crypto_secretstream_xchacha20poly1305_messagebytes_max
    crypto_secretstream_xchacha20poly1305_KEYBYTES
    crypto_secretstream_xchacha20poly1305_HEADERBYTES
    crypto_secretstream_xchacha20poly1305_ABYTES
    crypto_secretstream_xchacha20poly1305_TAG_MESSAGE
    crypto_secretstream_xchacha20poly1305_TAG_PUSH
    crypto_secretstream_xchacha20poly1305_TAG_REKEY
    crypto_secretstream_xchacha20poly1305_TAG_FINAL.

(** ** Documented behaviour

    The two ends of a stream keep the same state; each message advances it. *)

Class SecretstreamDoc `{Target} (A : secretstream_module) := {
  ss_start : bytes (* key *) -> bytes (* header *) -> bytes;
  ss_seal : bytes (* state *) -> bytes (* ad *) -> bytes (* m *) -> Z (* tag *) -> bytes;
  ss_next : bytes -> bytes -> bytes -> Z -> bytes;
  ss_open : bytes (* state *) -> bytes (* ad *) -> bytes (* c *) -> option (bytes * Z);
  ss_rekeyed : bytes -> bytes;
  ss_rejected : bytes -> bytes;
  ss_junk : bytes -> bytes;
  ss_max : Z;
  ss_state_range : 0 <= ss_state_size A <= 4096;
  ss_abytes_range : 0 <= ss_abytes A <= 64;
  ss_header_range : 0 <= ss_headerbytes A <= 64;
  ss_max_range : 0 <= ss_max /\ ss_max + ss_abytes A <= usize_max;
  ss_tags : tag_message A = 0 /\ tag_push A = 1 /\ tag_rekey A = 2 /\ tag_final A = 3;
  ss_start_zlen k h : zlen (ss_start k h) = ss_state_size A;
  ss_seal_zlen s ad m t : zlen (ss_seal s ad m t) = zlen m + ss_abytes A;
  ss_next_zlen s ad m t : zlen (ss_next s ad m t) = ss_state_size A;
  ss_open_zlen s ad c m t : ss_open s ad c = Some (m, t) -> zlen m = zlen c - ss_abytes A;
  ss_rekeyed_zlen s : zlen (ss_rekeyed s) = ss_state_size A;
  ss_rejected_zlen s : zlen (ss_rejected s) = ss_state_size A;
  ss_junk_zlen c : ss_abytes A <= zlen c -> zlen (ss_junk c) = zlen c - ss_abytes A;
  ss_open_seal s ad m t : 0 <= t < 256 -> ss_open s ad (ss_seal s ad m t) = Some (m, t);
  messagebytes_max_doc : messagebytes_max_name A = ret ss_max;
  init_push_doc st header k :
    init_push_name A st header k =
      (let* kb := read k (ss_keybytes A) in
       let* h := rand (ss_headerbytes A) in
       let* _ := write header h in
       let* _ := write st (ss_start kb h) in ret 0);
  init_pull_doc st header k :
    init_pull_name A st header k =
      (let* h := read header (ss_headerbytes A) in
       let* kb := read k (ss_keybytes A) in
       let* _ := write st (ss_start kb h) in ret 0);
  rekey_doc st :
    rekey_name A st =
      (let* s := read st (ss_state_size A) in write st (ss_rekeyed s));
  push_doc st c clen m mlen ad adlen t :
    push_name A st c clen m mlen ad adlen t =
      (if decide (ss_max < mlen) then abort
       else
         let* _ := restrict c (mlen + ss_abytes A) m mlen in
         let* _ := restrict c (mlen + ss_abytes A) st (ss_state_size A) in
         let* s := read st (ss_state_size A) in
         let* mb := read m mlen in
         let* adb := read ad adlen in
         let* _ := write c (ss_seal s adb mb t) in
         let* _ := write st (ss_next s adb mb t) in
         ret (0, mlen + ss_abytes A));
  pull_doc st m mlen tag c clen ad adlen :
    pull_name A st m mlen tag c clen ad adlen =
      (if decide (clen < ss_abytes A) then ret (-1, 0, 255)
       else
         let* _ := restrict m (clen - ss_abytes A) c clen in
         let* _ := restrict m (clen - ss_abytes A) st (ss_state_size A) in
         let* s := read st (ss_state_size A) in
         let* cb := read c clen in
         let* adb := read ad adlen in
         match ss_open s adb cb with
         | Some (mb, t) =>
           let* _ := write m mb in
           let* _ := write st (ss_next s adb mb t) in
           ret (0, clen - ss_abytes A, t)
         | None =>
           let* _ := write m (ss_junk cb) in
           let* _ := write st (ss_rejected s) in
           ret (-1, 0, 255)
         end)
}.

(** ** What the generated functions do *)

Section SecretstreamFacts.
Context `{T : Target} {A : secretstream_module} {D : SecretstreamDoc A}.
Import secretstream.

(** The stream [self] has the foreign state [s]. *)
Definition is_stream {m} (w : world) (self : Stream m) (s : bytes) : Prop :=
  is_ref w (state self) (ss_state_size A) s.

Lemma from_u8_as_u8 t : from_u8 A (tag_as_u8 t) = Ok t.
Proof.
  unfold from_u8, TAG_MESSAGE, TAG_PUSH, TAG_REKEY, TAG_FINAL.
  destruct ss_tags as (-> & -> & -> & ->). by destruct t.
Qed.

Lemma from_u8_unknown t : 0 <= t < 256 -> from_u8 A t = Err <-> 4 <= t.
Proof.
  intros Ht. unfold from_u8, TAG_MESSAGE, TAG_PUSH, TAG_REKEY, TAG_FINAL.
  destruct ss_tags as (-> & -> & -> & ->).
  repeat (match goal with |- context [?a =? ?b] => destruct (Z.eqb_spec a b) end); split; try done; lia.
Qed.

(** Splits the optional argument into its pointer and its length. *)
Ltac open_ad H :=
  apply ad_parts_at in H; destruct (aead.ad_parts _) as [adp adl]; cbn [fst snd] in H;
  destruct H as [? ?].

Lemma push_impl_run self m ad tag v c w s mb adb :
  w_mem w !! v_block v = None -> zlen c = v_cap v -> v_len v = 0 ->
  zlen mb + ss_abytes A <= v_cap v <= isize_max -> zlen mb <= ss_max ->
  is_stream w self s -> is_slice w m mb -> is_opt_slice w ad adb ->
  push_impl A self m ad tag v (w_put (v_block v) c w) =
    Done (Ok tt, Vec (v_block v) (zlen mb + ss_abytes A) (v_cap v))
      (w_put (v_block v) (splice c 0 (ss_seal s adb mb (tag_as_u8 tag)))
         (w_write (state self) (ss_next s adb mb (tag_as_u8 tag)) w)).
Proof.
  intros Hb Hc Hl0 Hcap Hmax [Hs Hsl] (Hm & Hml & ?) Had. destruct v as [b l cap]. cbn in *. subst l.
  unfold push_impl. open_ad Had. simpl_vec. rewrite Hml, push_doc.
  pose proof ss_abytes_range. pose proof ss_state_range.
  pose proof (ss_seal_zlen s adb mb (tag_as_u8 tag)) as Hct.
  pose proof (ss_next_zlen s adb mb (tag_as_u8 tag)) as Hnx.
  rewrite decide_False by lia. do 5 step.
  eapply bind_step.
  { eapply bind_step; [apply write_put_splice; unfold zlen in *; lia|]. steps. }
  cbv beta iota. cbn [Z.eqb negb]. rewrite as_usize_small by zlia.
  eapply bind_step; [|done].
  apply (vec_set_len_run (Vec b 0 cap) _ _ (ss_seal s adb mb (tag_as_u8 tag))); cbn; [|lia|lia].
  by apply bytes_at_put_splice; unfold zlen in *; lia.
Qed.

(** The checks in front of [push] and [push_to_vec] *)
Lemma push_check_run (self : Stream PushMode) m mb tag w :
  is_slice w m mb ->
  push_check A self m tag w =
    Done (if decide (finalized self = false /\ zlen mb <= ss_max)
          then (Ok (zlen mb + ss_abytes A), MkStream (state self) (bool_decide (tag = Final)))
          else (Err, self)) w.
Proof.
  intros (_ & Hml & Hle). unfold push_check, messagebytes_max, ABYTES.
  rewrite messagebytes_max_doc, Hml. destruct self as [st []]; cbn [finalized state].
  { by rewrite decide_False by (by intros [? ?]). }
  step. destruct (Z.ltb_spec ss_max (zlen mb)) as [Hmax|Hmax].
  { by rewrite decide_False by (intros [? ?]; lia). }
  rewrite decide_True by done. pose proof ss_max_range. pose proof ss_abytes_range.
  pose proof usize_max_isize. eapply bind_step; [apply usize_add_run; zlia|].
  by case_bool_decide.
Qed.

Lemma is_stream_with {m} e w (self : Stream m) s : is_stream w self s -> is_stream (w_with e w) self s.
Proof. done. Qed.

Lemma push_run self m ad tag w s mb adb :
  finalized self = false -> zlen mb <= ss_max -> zlen mb + ss_abytes A <= isize_max ->
  is_stream w self s -> is_slice w m mb -> is_opt_slice w ad adb ->
  push A self m ad tag w =
    Done (Ok (Vec (fresh_block w) (zlen mb + ss_abytes A) (zlen mb + ss_abytes A)),
          MkStream (state self) (bool_decide (tag = Final)))
      (w_put (fresh_block w) (Some <$> ss_seal s adb mb (tag_as_u8 tag))
         (w_write (state self) (ss_next s adb mb (tag_as_u8 tag)) w)).
Proof.
  intros Hfin Hmax Hsz Hs Hm Had. unfold push. pose proof ss_abytes_range.
  eapply bind_step; [by apply push_check_run|]. rewrite decide_True by done.
  cbv beta iota. step. eapply bind_step.
  { apply (push_impl_run (MkStream (state self) _) m ad tag
      (Vec b 0 (zlen mb + ss_abytes A)) _ w s mb adb); cbn [v_block v_cap v_len]; try done.
    - apply zlen_replicate. zlia. }
  cbv beta iota. cbn [v_block v_cap state].
  rewrite splice_all; [by subst|]. rewrite length_replicate.
  pose proof (ss_seal_zlen s adb mb (tag_as_u8 tag)). unfold zlen in *. lia.
Qed.

Lemma push_rejected self m ad tag w mb :
  is_slice w m mb -> finalized self = true \/ ss_max < zlen mb ->
  push A self m ad tag w = Done (Err, self) w.
Proof.
  intros Hm Hor. unfold push. eapply bind_step; [by apply push_check_run|].
  rewrite decide_False; [done|]. intros [? ?]. destruct Hor; [congruence|lia].
Qed.

Lemma push_to_vec_rejected self m ad tag out w mb :
  is_slice w m mb -> finalized self = true \/ ss_max < zlen mb ->
  push_to_vec A self m ad tag out w = Done (Err, self, out) w.
Proof.
  intros Hm Hor. unfold push_to_vec. eapply bind_step; [by apply push_check_run|].
  rewrite decide_False; [done|]. intros [? ?]. destruct Hor; [congruence|lia].
Qed.

(** [w'] is [w] and the allocation of the vector [v]. *)
Definition on_top (v : vec) (w w' : world) : Prop :=
  w_mem w !! v_block v = None /\
  exists c, zlen c = v_cap v /\ v_cap v <= isize_max /\ w_mem w' = <[v_block v := c]> (w_mem w).

Lemma on_top_put v c p bs e w :
  w_mem w !! v_block v = None -> zlen c = v_cap v -> v_cap v <= isize_max ->
  on_top v (w_write p bs w) (w_put (v_block v) c (w_write p bs (w_with e w))).
Proof.
  intros Hv Hc Hcap. split; [by apply mem_write_None|]. exists c. split; [done|]. split; [done|]. cbn. f_equal.
  unfold w_write. destruct bs as [|x bs], p as [|b o]; try done. cbn. by destruct (w_mem w !! b).
Qed.

(** [push_to_vec] into a vector the caller owns *)
Lemma push_to_vec_run self m ad tag b l cap c w s mb adb :
  finalized self = false -> zlen mb <= ss_max -> zlen mb + ss_abytes A <= isize_max ->
  w_mem w !! b = None -> zlen c = cap -> cap <= isize_max ->
  is_stream w self s -> is_slice w m mb -> is_opt_slice w ad adb ->
  exists out' w',
    push_to_vec A self m ad tag (Vec b l cap) (w_put b c w) =
      Done (Ok tt, MkStream (state self) (bool_decide (tag = Final)), out') w' /\
    is_vec w' out' (ss_seal s adb mb (tag_as_u8 tag)) /\
    is_stream w' self (ss_next s adb mb (tag_as_u8 tag)) /\
    on_top out' (w_write (state self) (ss_next s adb mb (tag_as_u8 tag)) w) w'.
Proof.
  intros Hfin Hmax Hsz Hb Hc Hcap Hs Hm Had. pose proof ss_abytes_range.
  set (ct := ss_seal s adb mb (tag_as_u8 tag)). set (s' := ss_next s adb mb (tag_as_u8 tag)).
  pose proof (ss_seal_zlen s adb mb (tag_as_u8 tag) : zlen ct = _) as Hct.
  pose proof (ss_next_zlen s adb mb (tag_as_u8 tag) : zlen s' = _) as Hnx.
  destruct (vec_reserve_cleared b cap (zlen mb + ss_abytes A) c w) as
    (b' & cap' & c' & e' & Hb' & Hc' & Hcap' & Hres); try done; [zlia|].
  set (w2 := w_write (state self) s' (w_with e' w)).
  exists (Vec b' (zlen mb + ss_abytes A) cap'), (w_put b' (splice c' 0 ct) w2).
  assert (Hr : in_range (w_with e' w) (state self) (zlen s')).
  { destruct Hs as [Hs Hsl]. apply (in_range_bytes (w_with e' w) _ s); [done|]. lia. }
  split_and!.
  - unfold push_to_vec. eapply bind_step; [apply push_check_run; by apply is_slice_put_fresh|].
    rewrite decide_True by done. cbv beta iota. unfold vec_clear. cbn [v_block v_cap].
    eapply bind_step; [exact Hres|]. eapply bind_step; [by apply (push_impl_run (MkStream (state self) _) m ad tag (Vec b' 0 cap') c' (w_with e' w) s mb adb)|].
    reflexivity.
  - split; [|cbn; lia]. apply bytes_at_put_splice. unfold zlen in *. lia.
  - apply is_ref_put_fresh; [by apply mem_write_None|]. split; [|done].
    by apply bytes_at_write_same.
  - apply on_top_put; cbn [v_block v_cap]; [done| |lia].
    rewrite <- Hc'. unfold zlen in *. rewrite length_splice by lia. done.
Qed.

(** What a pull makes of a ciphertext the foreign function accepts: a tag byte
    that is none of the four is an error, but the plaintext is already in the
    buffer and the state has advanced. *)
Definition pulled (self : Stream PullMode) (t : Z) : result Tag * Stream PullMode :=
  match from_u8 A t with
  | Err => (Err, self)
  | Ok tag => (Ok tag, if bool_decide (tag = Final) then MkStream (state self) true else self)
  end.

Lemma pull_impl_run self c ad v cl w s cb adb :
  w_mem w !! v_block v = None -> zlen cl = v_cap v -> v_len v = 0 ->
  ss_abytes A <= zlen cb -> zlen cb - ss_abytes A <= v_cap v <= isize_max ->
  is_stream w self s -> is_slice w c cb -> is_opt_slice w ad adb ->
  pull_impl A self c ad v (w_put (v_block v) cl w) =
    match ss_open s adb cb with
    | Some (mb, t) =>
        Done (pulled self t, Vec (v_block v) (zlen cb - ss_abytes A) (v_cap v))
          (w_put (v_block v) (splice cl 0 mb) (w_write (state self) (ss_next s adb mb t) w))
    | None =>
        Done (Err, self, v)
          (w_put (v_block v) (splice cl 0 (ss_junk cb)) (w_write (state self) (ss_rejected s) w))
    end.
Proof.
  intros Hb Hc Hl0 Hlen Hcap [Hs Hsl] (Hm & Hml & ?) Had. destruct v as [b l cap]. cbn in *. subst l.
  unfold pull_impl. open_ad Had. simpl_vec. rewrite Hml, pull_doc.
  pose proof ss_abytes_range. pose proof ss_state_range.
  rewrite decide_False by lia. do 5 step.
  destruct (ss_open s adb cb) as [[mb t]|] eqn:Eo.
  - pose proof (ss_open_zlen _ _ _ _ _ Eo) as Hmb. pose proof (ss_next_zlen s adb mb t).
    eapply bind_step.
    { eapply bind_step; [apply write_put_splice; unfold zlen in *; lia|]. steps. }
    cbv beta iota. cbn [Z.eqb negb]. rewrite as_usize_small by zlia.
    eapply bind_step.
    { apply (vec_set_len_run (Vec b 0 cap) _ _ mb); cbn; [|lia|lia].
      apply bytes_at_put_splice. unfold zlen in *. lia. }
    unfold pulled. by destruct (from_u8 A t).
  - pose proof (ss_junk_zlen cb Hlen) as Hj. pose proof (ss_rejected_zlen s).
    eapply bind_step.
    { eapply bind_step; [apply write_put_splice; unfold zlen in *; lia|]. steps. }
    done.
Qed.

Lemma pull_check_run (self : Stream PullMode) c cb w :
  is_slice w c cb ->
  pull_check A self c w =
    Done (if decide (finalized self = false /\ ss_abytes A <= zlen cb /\ zlen cb - ss_abytes A <= ss_max)
          then Ok (zlen cb - ss_abytes A) else Err) w.
Proof.
  intros (_ & Hcl & Hle). unfold pull_check, messagebytes_max, ABYTES.
  rewrite messagebytes_max_doc, Hcl. destruct self as [st []]; cbn [finalized].
  { by rewrite decide_False by (by intros [? ?]). }
  destruct (Z.ltb_spec (zlen cb) (ss_abytes A)).
  { by rewrite decide_False by (intros (? & ? & ?); lia). }
  step. destruct (Z.ltb_spec ss_max (zlen cb - ss_abytes A)).
  - by rewrite decide_False by (intros (? & ? & ?); lia).
  - by rewrite decide_True by (split_and!; done || lia).
Qed.

(** A ciphertext the checks of [pull] let through *)
Definition pullable (self : Stream PullMode) (cb : bytes) : Prop :=
  finalized self = false /\ ss_abytes A <= zlen cb /\ zlen cb - ss_abytes A <= ss_max.

Lemma pull_run self c ad w s cb adb :
  is_stream w self s -> is_slice w c cb -> is_opt_slice w ad adb ->
  pull A self c ad w =
    if decide (pullable self cb) then
      match ss_open s adb cb with
      | Some (mb, t) =>
        let w' := w_write (state self) (ss_next s adb mb t) w in
        match pulled self t with
        | (Ok tag, self') =>
          Done (Ok (Vec (fresh_block w) (zlen mb) (zlen mb), tag), self')
               (w_put (fresh_block w) (Some <$> mb) w')
        | (Err, self') => Done (Err, self') (w_with (env_drop (Some <$> mb) (w_env w')) w')
        end
      | None =>
        let w' := w_write (state self) (ss_rejected s) w in
        Done (Err, self) (w_with (env_drop (Some <$> ss_junk cb) (w_env w')) w')
      end
    else Done (Err, self) w.
Proof.
  intros Hs Hc Had. pose proof ss_abytes_range. pose proof Hc as (_ & _ & Hle).
  unfold pull. eapply bind_step; [by apply pull_check_run|]. unfold pullable.
  case_decide as Hp; [|done]. destruct Hp as (Hfin & Hlo & Hhi). step.
  unfold bind at 1.
  rewrite (pull_impl_run self c ad (Vec b 0 (zlen cb - ss_abytes A)) _ w s cb adb);
    cbn [v_block v_cap v_len]; try done; [|apply zlen_replicate; zlia|zlia].
  assert (Hlr : length (replicate (Z.to_nat (zlen cb - ss_abytes A)) (@None byte)) =
                Z.to_nat (zlen cb - ss_abytes A)) by apply length_replicate.
  destruct (ss_open s adb cb) as [[mb t]|] eqn:Eo.
  - pose proof (ss_open_zlen _ _ _ _ _ Eo) as Hmb.
    rewrite splice_all by (rewrite Hlr; unfold zlen in *; lia). rewrite <- Hmb.
    destruct (pulled self t) as [[tag|] self']; cbv beta iota; [by subst|].
    unfold bind, vec_drop. cbn [v_block]. by rewrite free_put_run by (by apply mem_write_None).
  - pose proof (ss_junk_zlen cb Hlo) as Hj.
    rewrite splice_all by (rewrite Hlr; unfold zlen in *; lia).
    unfold bind, vec_drop. cbn [v_block]. by rewrite free_put_run by (by apply mem_write_None).
Qed.

Lemma pull_to_vec_run self c ad b l cap cl w s cb adb :
  w_mem w !! b = None -> zlen cl = cap -> cap <= isize_max ->
  is_stream w self s -> is_slice w c cb -> is_opt_slice w ad adb -> pullable self cb ->
  exists out' w',
    pull_to_vec A self c ad (Vec b l cap) (w_put b cl w) =
      Done (match ss_open s adb cb with
            | Some (mb, t) => (pulled self t, out')
            | None => (Err, self, out')
            end) w' /\
    is_vec w' out' (match ss_open s adb cb with Some (mb, _) => mb | None => [] end) /\
    is_stream w' self
      (match ss_open s adb cb with Some (mb, t) => ss_next s adb mb t | None => ss_rejected s end) /\
    on_top out' (w_write (state self)
      (match ss_open s adb cb with Some (mb, t) => ss_next s adb mb t | None => ss_rejected s end) w) w'.
Proof.
  intros Hb Hc Hcap Hs Hm Had Hp. pose proof ss_abytes_range. pose proof Hp as (Hfin & Hlo & Hhi).
  pose proof Hm as (_ & _ & Hle).
  destruct (vec_reserve_cleared b cap (zlen cb - ss_abytes A) cl w) as
    (b' & cap' & c' & e' & Hb' & Hc' & Hcap' & Hres); try done; [lia|].
  pose proof (pull_impl_run self c ad (Vec b' 0 cap') c' (w_with e' w) s cb adb
    Hb' Hc' eq_refl Hlo Hcap' Hs Hm Had) as Hrun. cbn [v_block v_cap] in Hrun.
  assert (Hpre : pull_to_vec A self c ad (Vec b l cap) (w_put b cl w) =
                 pull_impl A self c ad (Vec b' 0 cap') (w_put b' c' (w_with e' w))).
  { unfold pull_to_vec. eapply bind_step; [apply pull_check_run; by apply is_slice_put_fresh|].
    rewrite decide_True by done. by apply bind_done. }
  assert (Hst : forall s' c'', zlen s' = ss_state_size A ->
    is_stream (w_put b' c'' (w_write (state self) s' (w_with e' w))) self s').
  { intros s' c'' Hl'. apply is_ref_put_fresh; [by apply mem_write_None|]. split; [|done].
    destruct Hs as [Hs Hsl]. apply bytes_at_write_same, (in_range_bytes (w_with e' w) _ s); [done|lia]. }
  rewrite Hpre. destruct (ss_open s adb cb) as [[mb t]|] eqn:Eo.
  - pose proof (ss_open_zlen _ _ _ _ _ Eo) as Hmb. eexists _, _. split_and!; [exact Hrun| | |].
    + split; [|cbn; lia]. apply bytes_at_put_splice. unfold zlen in *. lia.
    + apply Hst, ss_next_zlen.
    + apply on_top_put; cbn [v_block v_cap]; [done| |lia].
      rewrite <- Hc'. unfold zlen in *. rewrite length_splice by lia. done.
  - pose proof (ss_junk_zlen cb Hlo) as Hj.
    eexists _, _. split_and!; [exact Hrun|split; [done|cbn; split; zlia]| |].
    + apply Hst, ss_rejected_zlen.
    + apply on_top_put; cbn [v_block v_cap]; [done| |lia].
      rewrite <- Hc'. unfold zlen in *. rewrite length_splice by lia. done.
Qed.

Lemma pull_rejected self c ad w cb :
  is_slice w c cb -> ~ pullable self cb -> pull A self c ad w = Done (Err, self) w.
Proof.
  intros Hc Hn. unfold pull. eapply bind_step; [by apply pull_check_run|]. by rewrite decide_False.
Qed.

Lemma rekey_run {m} (self : Stream m) w s :
  is_stream w self s ->
  rekey A self w =
    if finalized self then Done Err w
    else Done (Ok tt) (w_write (state self) (ss_rekeyed s) w).
Proof.
  intros [Hs Hsl]. unfold rekey. destruct (finalized self); [done|]. rewrite rekey_doc.
  pose proof (ss_rekeyed_zlen s). steps.
Qed.

(** *** Opening a stream *)

Lemma init_push_run w k kb :
  is_ref w k (ss_keybytes A) kb ->
  let h := entropy (ss_headerbytes A) w in
  let w' := w_consume (ss_headerbytes A) w in
  init_push A k w =
    Done (Ok (MkStream (At (fresh_block w') 0) false, h))
         (w_put (fresh_block w') (Some <$> ss_start kb h) w').
Proof.
  intros [Hk Hkl] h w'. subst h w'. pose proof ss_header_range. pose proof ss_state_range.
  unfold init_push, HEADERBYTES. do 2 step. rewrite init_push_doc.
  pose proof (ss_start_zlen kb (entropy (ss_headerbytes A) w)). do 5 step.
  cbn [Z.eqb negb]. steps. by subst.
Qed.

Lemma init_pull_run w header k hb kb :
  is_ref w header (ss_headerbytes A) hb -> is_ref w k (ss_keybytes A) kb ->
  init_pull A header k w =
    Done (Ok (MkStream (At (fresh_block w) 0) false)) (w_put (fresh_block w) (Some <$> ss_start kb hb) w).
Proof.
  intros [Hh Hhl] [Hk Hkl]. pose proof ss_state_range. unfold init_pull. step. rewrite init_pull_doc.
  pose proof (ss_start_zlen kb hb). do 4 step. cbn [Z.eqb negb]. steps. by subst.
Qed.

End SecretstreamFacts.

(** ** A sender and a receiver *)

Section Channel.
Context `{T : Target} (A : secretstream_module).
Import secretstream.

(** One message: it is pushed, and what was pushed is pulled. *)
Definition send_receive (snd : Stream PushMode) (rcv : Stream PullMode)
    (m : slice) (ad : option slice) (t : Tag) :
    M (result (bytes * Tag) * Stream PushMode * Stream PullMode) :=
  let* '(r, snd) := push A snd m ad t in
  match r with
  | Err => ret (Err, snd, rcv)
  | Ok c =>
    let* '(r, rcv) := pull A rcv (v_slice c) ad in
    let* out :=
      match r with
      | Ok (v, t) =>
        let* bs := read (v_ptr v) (v_len v) in
        let* _ := vec_drop v in
        ret (Ok (bs, t))
      | Err => ret Err
      end in
    let* _ := vec_drop c in
    ret (out, snd, rcv)
  end.

Fixpoint transmit (snd : Stream PushMode) (rcv : Stream PullMode)
    (items : list (slice * option slice * Tag)) :
    M (list (result (bytes * Tag)) * Stream PushMode * Stream PullMode) :=
  match items with
  | [] => ret ([], snd, rcv)
  | (m, ad, t) :: items =>
    let* '(r, snd, rcv) := send_receive snd rcv m ad t in
    let* '(rs, snd, rcv) := transmit snd rcv items in
    ret (r :: rs, snd, rcv)
  end.

(** The whole life of a stream: both ends are initialised, the header goes from
    the sender to the receiver, and the messages follow.  The two streams are
    returned with the results. *)
Definition session (key : ptr) (items : list (slice * option slice * Tag)) :
    M (result (list (result (bytes * Tag)) * Stream PushMode * Stream PullMode)) :=
  let* r := init_push A key in
  match r with
  | Err => ret Err
  | Ok (snd, header) =>
    let* h := place header in
    let* r := init_pull A (At h 0) key in
    match r with
    | Err => ret Err
    | Ok rcv =>
      let* _ := move_out h in
      let* out := transmit snd rcv items in
      ret (Ok out)
    end
  end.

End Channel.

(** What a channel promises: messages arrive in order with their tags until one
    is tagged [Final]; after that the sender refuses to send. *)
Fixpoint channel_spec (closed : bool) (items : list (bytes * secretstream.Tag)) :
    list (result (bytes * secretstream.Tag)) :=
  match items with
  | [] => []
  | (m, t) :: items =>
    if closed then Err :: channel_spec true items
    else Ok (m, t) :: channel_spec (bool_decide (t = secretstream.Final)) items
  end.

(** Was a message tagged [Final]? *)
Definition final_among (items : list (bytes * secretstream.Tag)) : bool :=
  existsb (fun i => bool_decide (i.2 = secretstream.Final)) items.

Section ChannelFacts.
Context `{T : Target} {A : secretstream_module} {D : SecretstreamDoc A}.
Import secretstream.

(** The arguments of one message *)
Definition is_item (w : world) (item : slice * option slice * Tag) (spec : bytes * Tag) : Prop :=
  let '(m, ad, t) := item in
  is_slice w m spec.1 /\ t = spec.2 /\ (exists adb, is_opt_slice w ad adb) /\
  zlen spec.1 <= ss_max /\ zlen spec.1 + ss_abytes A <= isize_max.

(** The memory of a channel: the two states, apart from the caller's memory *)
Definition w_chan (b1 b2 : positive) (s : bytes) (w : world) : world :=
  w_put b1 (Some <$> s) (w_put b2 (Some <$> s) w).

Lemma pulled_tag (self : Stream PullMode) t :
  finalized self = false ->
  pulled (A := A) self (tag_as_u8 t) = (Ok t, MkStream (state self) (bool_decide (t = Final))).
Proof.
  intros Hf. unfold pulled. rewrite from_u8_as_u8. destruct self as [st fin]. cbn in *. subst.
  by case_bool_decide.
Qed.

Lemma tag_as_u8_range t : 0 <= tag_as_u8 t < 256.
Proof. destruct t; cbn; lia. Qed.

Lemma send_receive_closed b1 b2 m ad t s w mt :
  is_item w (m, ad, t) mt -> w_mem w !! b1 = None -> w_mem w !! b2 = None -> b1 <> b2 ->
  send_receive A (MkStream (At b1 0) true) (MkStream (At b2 0) true) m ad t (w_chan b1 b2 s w) =
    Done (Err, MkStream (At b1 0) true, MkStream (At b2 0) true) (w_chan b1 b2 s w).
Proof.
  intros (Hm & _) Hb1 Hb2 Hne. unfold send_receive.
  eapply bind_step; [apply (push_rejected _ _ _ _ _ mt.1); [|by left]|reflexivity].
  apply is_slice_put_fresh; [by apply mem_put_intro|]. by apply is_slice_put_fresh.
Qed.

Lemma is_stream_place {m} b f s w :
  zlen s = ss_state_size A ->
  is_stream (A := A) (w_put b (Some <$> s) w) (MkStream (At b 0) f : Stream m) s.
Proof. intros Hs. unfold is_stream. cbn [state]. rewrite <- Hs. apply is_ref_place. Qed.

(** Sending: the sender's state advances and a new vector holds the ciphertext. *)
Lemma push_chan b1 b2 m ad t s w mb adb :
  is_item w (m, ad, t) (mb, t) -> is_opt_slice w ad adb ->
  w_mem w !! b1 = None -> w_mem w !! b2 = None -> b1 <> b2 -> zlen s = ss_state_size A ->
  exists c, w_mem w !! c = None /\ b1 <> c /\ b2 <> c /\
  push A (MkStream (At b1 0) false) m ad t (w_chan b1 b2 s w) =
    Done (Ok (Vec c (zlen mb + ss_abytes A) (zlen mb + ss_abytes A)),
          MkStream (At b1 0) (bool_decide (t = Final)))
      (w_put c (Some <$> ss_seal s adb mb (tag_as_u8 t))
         (w_put b1 (Some <$> ss_next s adb mb (tag_as_u8 t)) (w_put b2 (Some <$> s) w))).
Proof.
  intros (Hm & _ & _ & Hmax & Hsz) Had Hb1 Hb2 Hne Hs. cbn [fst snd] in *.
  set (w0 := w_chan b1 b2 s w). pose proof (fresh_block_spec w0) as Hc.
  unfold w0 in Hc at 1. apply mem_put_None in Hc as [Hcb1 Hc]. apply mem_put_None in Hc as [Hcb2 Hc].
  exists (fresh_block w0). split_and!; [done..|].
  rewrite (push_run (MkStream (At b1 0) false) m ad t w0 s mb adb); try done.
  - cbn [state]. do 2 f_equal. unfold w0, w_chan. apply w_write_put.
    pose proof (ss_next_zlen s adb mb (tag_as_u8 t)). rewrite length_fmap. unfold zlen in *. lia.
  - by apply is_stream_place.
  - apply is_slice_put_fresh; [by apply mem_put_intro|]. by apply is_slice_put_fresh.
  - apply is_opt_slice_put_fresh; [by apply mem_put_intro|]. by apply is_opt_slice_put_fresh.
Qed.

(** Receiving: the receiver's state advances and a new vector holds the message. *)
Lemma pull_chan b1 b2 c ad t s s1 w mb adb :
  is_opt_slice w ad adb -> zlen mb <= ss_max -> zlen mb + ss_abytes A <= isize_max ->
  w_mem w !! b1 = None -> w_mem w !! b2 = None -> w_mem w !! c = None ->
  b1 <> b2 -> b1 <> c -> b2 <> c -> zlen s = ss_state_size A ->
  let ct := ss_seal s adb mb (tag_as_u8 t) in
  let layers s2 := w_put c (Some <$> ct) (w_put b1 s1 (w_put b2 (Some <$> s2) w)) in
  exists v, w_mem (layers (ss_next s adb mb (tag_as_u8 t))) !! v = None /\
  pull A (MkStream (At b2 0) false) (Slice (At c 0) (zlen mb + ss_abytes A)) ad (layers s) =
    Done (Ok (Vec v (zlen mb) (zlen mb), t), MkStream (At b2 0) (bool_decide (t = Final)))
      (w_put v (Some <$> mb) (layers (ss_next s adb mb (tag_as_u8 t)))).
Proof.
  intros Had Hmax Hsz Hb1 Hb2 Hc Hne Hc1 Hc2 Hs ct layers.
  pose proof (ss_next_zlen s adb mb (tag_as_u8 t)) as Hs'. set (s' := ss_next s adb mb (tag_as_u8 t)) in *.
  assert (Hctl : zlen ct = zlen mb + ss_abytes A) by apply ss_seal_zlen.
  pose proof ss_abytes_range. pose proof (zlen_nonneg mb). exists (fresh_block (layers s)).
  pose proof (fresh_block_spec (layers s)) as Hv. unfold layers in Hv at 1.
  apply mem_put_None in Hv as [? Hv]. apply mem_put_None in Hv as [? Hv].
  apply mem_put_None in Hv as [? Hv]. split; [by repeat apply mem_put_intro|].
  rewrite (pull_run (MkStream (At b2 0) false) (Slice (At c 0) (zlen mb + ss_abytes A)) ad
    (layers s) s ct adb).
  - rewrite decide_True by (split_and!; [done|lia|lia]). unfold ct at 1.
    rewrite ss_open_seal by apply tag_as_u8_range. cbn zeta. rewrite pulled_tag by done.
    cbn [state]. fold s'. do 2 f_equal. unfold layers.
    rewrite w_write_put_fresh; [|by repeat apply mem_put_intro|].
    + f_equal. rewrite w_write_put_fresh; [|by apply mem_put_intro|].
      * f_equal. apply w_write_put. rewrite length_fmap. unfold zlen in *. lia.
      * apply in_range_put_same. rewrite zlen_fmap. lia.
    + apply in_range_put_fresh; [by apply mem_put_intro|].
      apply in_range_put_same. rewrite zlen_fmap. lia.
  - unfold layers. do 2 (apply is_ref_put_fresh; [by repeat apply mem_put_intro|]).
    by apply (is_stream_place (m := PullMode) b2 false).
  - rewrite <- Hctl. apply (is_vec_slice _ (Vec c (zlen ct) (zlen ct))), is_vec_put. lia.
  - do 2 (apply is_opt_slice_put_fresh; [by repeat apply mem_put_intro|]).
    by apply is_opt_slice_put_fresh.
Qed.

Lemma send_receive_open b1 b2 m ad t s w mb :
  is_item w (m, ad, t) (mb, t) -> w_mem w !! b1 = None -> w_mem w !! b2 = None -> b1 <> b2 ->
  zlen s = ss_state_size A ->
  exists s' e, zlen s' = ss_state_size A /\
  send_receive A (MkStream (At b1 0) false) (MkStream (At b2 0) false) m ad t (w_chan b1 b2 s w) =
    Done (Ok (mb, t), MkStream (At b1 0) (bool_decide (t = Final)),
          MkStream (At b2 0) (bool_decide (t = Final))) (w_chan b1 b2 s' (w_with e w)).
Proof.
  intros Hi Hb1 Hb2 Hne Hs. pose proof Hi as (_ & _ & [adb Had] & Hmax & Hsz). cbn [fst] in *.
  destruct (push_chan b1 b2 m ad t s w mb adb) as (c & Hc & Hc1 & Hc2 & Hpush); try done.
  destruct (pull_chan b1 b2 c ad t s (Some <$> ss_next s adb mb (tag_as_u8 t)) w mb adb)
    as (v & Hv & Hpull); try done.
  set (s' := ss_next s adb mb (tag_as_u8 t)) in *. cbn zeta in Hpull.
  exists s'. eexists. split; [apply ss_next_zlen|]. unfold send_receive.
  eapply bind_step; [exact Hpush|]. eapply bind_step; [exact Hpull|]. cbv beta iota.
  unfold v_ptr, vec_drop. cbn [v_block v_len].
  eapply bind_step.
  { eapply bind_step; [apply (read_run _ _ _ mb); [apply bytes_at_put_same|done]|].
    eapply bind_step; [by apply free_put_run|done]. }
  eapply bind_step.
  { apply (free_put_run c (Some <$> ss_seal s adb mb (tag_as_u8 t))
      (w_with (env_drop (Some <$> mb) (w_env w)) (w_put b1 (Some <$> s') (w_put b2 (Some <$> s') w)))).
    by repeat apply mem_put_intro. }
  reflexivity.
Qed.

Lemma transmit_run b1 b2 : b1 <> b2 -> forall items specs w s fin,
  w_mem w !! b1 = None -> w_mem w !! b2 = None -> zlen s = ss_state_size A ->
  Forall2 (is_item w) items specs ->
  exists s' e, zlen s' = ss_state_size A /\ let fin' := fin || final_among specs in
  transmit A (MkStream (At b1 0) fin) (MkStream (At b2 0) fin) items (w_chan b1 b2 s w) =
    Done (channel_spec fin specs, MkStream (At b1 0) fin', MkStream (At b2 0) fin')
         (w_chan b1 b2 s' (w_with e w)).
Proof.
  intros Hne items. induction items as [|[[m ad] t] items IH]; intros specs w s fin Hb1 Hb2 Hs Hf.
  - inversion Hf. subst. exists s, (w_env w). split; [done|]. cbn. rewrite orb_false_r. by destruct w.
  - inversion Hf as [|? [mb t'] ? specs' Hi Hf']; subst. pose proof Hi as (_ & Ht & _). cbn in Ht. subst t'.
    cbn [transmit channel_spec final_among existsb snd orb]. destruct fin; cbn [orb].
    + destruct (IH specs' w s true) as (s' & e & Hs' & Hrun); try done.
      exists s', e. split; [done|]. eapply bind_step; [by eapply send_receive_closed|]. cbv beta iota.
      eapply bind_step; [exact Hrun|done].
    + destruct (send_receive_open b1 b2 m ad t s w mb) as (s1 & e1 & Hs1 & Hone); try done.
      destruct (IH specs' (w_with e1 w) s1 (bool_decide (t = Final))) as (s' & e & Hs' & Hrun); try done.
      exists s', e. split; [done|]. eapply bind_step; [exact Hone|]. cbv beta iota.
      eapply bind_step; [exact Hrun|done].
Qed.

End ChannelFacts.

(** ** A reference secretstream

    The state is 52 bytes, the first of which is the key stream; every message
    adds its length and tag to the state. *)

Module RefStream.

Definition fit (bs : bytes) : bytes := le_bytes 52 (le_val bs).
Definition pad (s : bytes) (b : byte) : byte := byte_xor b (default x00 (head s)).
Definition mac (s ad c : bytes) : bytes :=
  le_bytes 16 (RefCipher.sum s + 3 * RefCipher.sum ad + 5 * RefCipher.sum c).

Definition seal (s ad m : bytes) (t : Z) : bytes :=
  let c := byte_of_Z t :: (pad s <$> m) in c ++ mac s ad c.
Definition next (s ad m : bytes) (t : Z) : bytes := le_bytes 52 (le_val s + 1 + zlen m + t).
Definition open (s ad c : bytes) : option (bytes * Z) :=
  let n := Z.to_nat (zlen c - 16) in
  match take n c with
  | t :: ct =>
    if decide (drop n c = mac s ad (take n c)) then Some (pad s <$> ct, byte_val t) else None
  | [] => None
  end.

Definition max : Z := 1000.
Definition start (k h : bytes) : bytes := le_bytes 52 (le_val k + le_val h).
Definition junk (c : bytes) : bytes := zeros (zlen c - 17).

Definition externs : SecretstreamExterns := {|
  crypto_secretstream_xchacha20poly1305_messagebytes_max := ret max;
  crypto_secretstream_xchacha20poly1305_init_push st header k :=
    let* kb := read k 32 in
    let* h := rand 24 in
    let* _ := write header h in
    let* _ := write st (start kb h) in ret 0;
  crypto_secretstream_xchacha20poly1305_push st c clen m mlen ad adlen t :=
    if decide (max < mlen) then abort
    else
      let* _ := restrict c (mlen + 17) m mlen in
      let* _ := restrict c (mlen + 17) st 52 in
      let* s := read st 52 in
      let* mb := read m mlen in
      let* adb := read ad adlen in
      let* _ := write c (seal s adb mb t) in
      let* _ := write st (next s adb mb t) in
      ret (0, mlen + 17);
  crypto_secretstream_xchacha20poly1305_init_pull st header k :=
    let* h := read header 24 in
    let* kb := read k 32 in
    let* _ := write st (start kb h) in ret 0;
  crypto_secretstream_xchacha20poly1305_pull st m mlen tag c clen ad adlen :=
    if decide (clen < 17) then ret (-1, 0, 255)
    else
      let* _ := restrict m (clen - 17) c clen in
      let* _ := restrict m (clen - 17) st 52 in
      let* s := read st 52 in
      let* cb := read c clen in
      let* adb := read ad adlen in
      match open s adb cb with
      | Some (mb, t) =>
        let* _ := write m mb in
        let* _ := write st (next s adb mb t) in
        ret (0, clen - 17, t)
      | None =>
        let* _ := write m (junk cb) in
        let* _ := write st (fit s) in
        ret (-1, 0, 255)
      end;
  crypto_secretstream_xchacha20poly1305_rekey st :=
    let* s := read st 52 in write st (le_bytes 52 (le_val s + 7))
|}.

Definition A : secretstream_module := @xchacha20poly1305 externs.

Lemma pad_pad s (m : bytes) : pad s <$> (pad s <$> m) = m.
Proof.
  rewrite <- list_fmap_compose. rewrite <- (list_fmap_id m) at 2.
  apply list_fmap_ext. intros i b _. apply byte_xor_cancel.
Qed.

Lemma open_seal s ad m t : 0 <= t < 256 -> open s ad (seal s ad m t) = Some (m, t).
Proof.
  intros Ht. unfold open, seal. set (c := byte_of_Z t :: (pad s <$> m)).
  replace (Z.to_nat (zlen (c ++ mac s ad c) - 16)) with (length c).
  - rewrite take_app_length, drop_app_length. unfold c at 1. rewrite decide_True by done.
    rewrite pad_pad, byte_val_of_Z, Z.mod_small by done. done.
  - unfold mac. rewrite zlen_app, zlen_le_bytes. unfold zlen. lia.
Qed.

Lemma open_zlen s ad c m t : open s ad c = Some (m, t) -> zlen m = zlen c - 17.
Proof.
  unfold open. set (n := Z.to_nat (zlen c - 16)).
  destruct (take n c) as [|x ct] eqn:E; [done|]. case_decide; [|done]. intros; simplify_eq.
  assert (Hl : length (take n c) = S (length ct)) by (by rewrite E).
  rewrite length_take in Hl. rewrite zlen_fmap. unfold zlen in *. lia.
Qed.

Definition doc : @SecretstreamDoc target64 A.
Proof.
  refine (@Build_SecretstreamDoc target64 A start seal next open
    (fun s => le_bytes 52 (le_val s + 7)) fit junk max _ _ _ _ _ _ _ _ _ _ _ _ _ _ _ _ _ _ _);
    try reflexivity; try done.
  - intros s ad m t. unfold seal, mac. rewrite zlen_app, zlen_le_bytes, zlen_cons, zlen_fmap.
    change (ss_abytes A) with 17. lia.
  - apply open_zlen.
  - intros c Hc. change (ss_abytes A) with 17 in *. unfold junk. apply zlen_zeros. lia.
  - apply open_seal.
Defined.

Definition kb : bytes := replicate 32 x2c.
Definition s : bytes := replicate 52 x07.
Definition w : world := Ref.world [[x01; x02]; [x03]; kb; s; replicate 20 x00].

End RefStream.

(** ** Properties *)

(** C5. The life of a stream: after [init_push] and [init_pull] with the same
    key and the header, every message pushed is pulled unchanged, in order and
    with its tag, up to and including the first one tagged [Final].  That one
    finalizes both ends, and nothing else does: further messages are refused by
    the sender, and the receiver refuses every ciphertext, whatever it is, with
    nothing changed.  The two ends finish with the same state, and no message,
    additional data or tag sequence makes the wrappers read or write out of
    bounds, or leaves any allocation but the two states behind. *)
Theorem secretstream_session `{T : Target} A {D : SecretstreamDoc A} w key kb items specs
    (Hk : is_ref w key (secretstream.KEYBYTES A) kb) (Hi : Forall2 (is_item (A := A) w) items specs) :
  exists w' b1 b2 s snd rcv,
    session A key items w = Done (Ok (channel_spec false specs, snd, rcv)) w' /\
    secretstream.is_finalized snd = final_among specs /\
    secretstream.is_finalized rcv = final_among specs /\
    (final_among specs = true -> forall c ad w1, secretstream.pull A rcv c ad w1 = Done (Err, rcv) w1) /\
    is_stream (A := A) w' snd s /\ is_stream (A := A) w' rcv s /\
    w_mem w !! b1 = None /\ w_mem w !! b2 = None /\ b1 <> b2 /\
    w_mem w' = <[b1 := Some <$> s]> (<[b2 := Some <$> s]> (w_mem w)).
Proof.
  set (n := ss_headerbytes A). set (w1 := w_consume n w). set (h := entropy n w).
  pose proof (ss_header_range : 0 <= n <= 64) as Hn.
  assert (Hhl : zlen h = n) by (apply entropy_zlen; lia).
  set (b1 := fresh_block w1). pose proof (fresh_block_spec w1 : w_mem w1 !! b1 = None) as Hb1.
  set (s := ss_start kb h). pose proof (ss_start_zlen kb h : zlen s = _) as Hs.
  set (w2 := w_put b1 (Some <$> s) w1). set (hp := fresh_block w2).
  pose proof (fresh_block_spec w2 : w_mem w2 !! hp = None) as Hhp.
  set (w3 := w_put hp (Some <$> h) w2). set (b2 := fresh_block w3).
  pose proof (fresh_block_spec w3 : w_mem w3 !! b2 = None) as Hb2.
  apply mem_put_None in Hhp as [Hne1 Hhp]. apply mem_put_None in Hb2 as [Hne2 Hb2].
  apply mem_put_None in Hb2 as [Hne3 Hb2].
  destruct (transmit_run b1 b2 Hne3 items specs w1 s false) as (s' & e & Hs' & Hrun); try done.
  exists (w_chan b1 b2 s' (w_with e w1)), b1, b2, s'. eexists _, _. split_and!.
  - unfold session. eapply bind_step; [by apply init_push_run|]. cbv beta iota.
    fold n h w1 b1 s w2. eapply bind_step; [apply alloc_run|]. fold hp w3.
    eapply bind_step.
    { apply (init_pull_run w3 (At hp 0) key h kb).
      - fold n. rewrite <- Hhl. apply is_ref_place.
      - apply is_ref_put_fresh; [by apply mem_put_intro|]. by apply is_ref_put_fresh. }
    fold s b2. cbv beta iota. unfold w3.
    eapply bind_step.
    { eapply move_out_under; [exact Hne2|]. apply move_out_put_run. by apply mem_put_intro. }
    unfold w2. rewrite w_put_comm by done. fold (w_chan b1 b2 s w1).
    eapply bind_step; [exact Hrun|reflexivity].
  - done.
  - done.
  - intros Hfin. cbn [orb]. rewrite Hfin. done.
  - by apply is_stream_place.
  - unfold w_chan. rewrite w_put_comm by done. by apply is_stream_place.
  - done.
  - done.
  - done.
  - done.
Qed.

Lemma secretstream_session_witness :
  let items := [(Slice (At 1 0) 2, None, secretstream.Message);
                (Slice (At 2 0) 1, Some (Slice (At 1 0) 2), secretstream.Final);
                (Slice (At 2 0) 1, None, secretstream.Push)] in
  exists w' b1 b2 s snd rcv, @session target64 RefStream.A (At 3 0) items RefStream.w =
      Done (Ok ([Ok ([x01; x02], secretstream.Message); Ok ([x03], secretstream.Final); Err], snd, rcv)) w' /\
    secretstream.is_finalized snd = true /\ secretstream.is_finalized rcv = true /\
    (true = true -> forall c ad w1,
       @secretstream.pull RefStream.A target64 rcv c ad w1 = Done (Err, rcv) w1) /\
    is_stream (A := RefStream.A) w' snd s /\ is_stream (A := RefStream.A) w' rcv s /\
    w_mem RefStream.w !! b1 = None /\ w_mem RefStream.w !! b2 = None /\ b1 <> b2 /\
    w_mem w' = <[b1 := Some <$> s]> (<[b2 := Some <$> s]> (w_mem RefStream.w)).
Proof.
  apply (@secretstream_session target64 RefStream.A RefStream.doc RefStream.w (At 3 0) RefStream.kb
    [(Slice (At 1 0) 2, None, secretstream.Message);
     (Slice (At 2 0) 1, Some (Slice (At 1 0) 2), secretstream.Final);
     (Slice (At 2 0) 1, None, secretstream.Push)]
    [([x01; x02], secretstream.Message); ([x03], secretstream.Final); ([x03], secretstream.Push)]);
    [Ref.concrete|].
  repeat (apply Forall2_cons; split); [..|constructor];
    (split; [Ref.concrete|]; split; [done|]; split; [|Ref.concrete]).
  - exists []. done.
  - exists [x01; x02]. Ref.concrete.
  - exists []. done.
Defined.

(** A finalized stream stays finalized: every operation on it returns
    [Err], whatever its arguments, and neither the stream, the caller's vector
    nor anything else in the process changes. *)
Theorem finalized_absorbing `{T : Target} A w (sp : ptr) m c ad tag out :
  let snd := secretstream.MkStream sp true in
  let rcv := secretstream.MkStream sp true in
  secretstream.push A snd m ad tag w = Done (Err, snd) w /\
  secretstream.push_to_vec A snd m ad tag out w = Done (Err, snd, out) w /\
  secretstream.finalize A snd ad w = Done Err w /\
  secretstream.rekey A snd w = Done Err w /\
  secretstream.pull A rcv c ad w = Done (Err, rcv) w /\
  secretstream.pull_to_vec A rcv c ad out w = Done (Err, rcv, out) w /\
  secretstream.rekey A rcv w = Done Err w /\
  secretstream.is_finalized snd = true /\ secretstream.is_not_finalized rcv = false.
Proof. done. Qed.



(** C31. A ciphertext that authenticates but carries a tag byte other than the
    four known ones: [pull] and [pull_to_vec] return [Err], and yet the state
    has advanced past the message, and [pull_to_vec] has left its plaintext in
    the caller's vector. *)
Theorem secretstream_unknown_tag `{T : Target} A {D : SecretstreamDoc A} w self c ad s cb adb mb t b l cl
    (Hs : is_stream (A := A) w self s) (Hc : is_slice w c cb) (Had : is_opt_slice w ad adb)
    (Hp : pullable (A := A) self cb) (Ho : ss_open s adb cb = Some (mb, t)) (Ht : 4 <= t < 256)
    (Hb : w_mem w !! b = None) (Hcl : zlen cl <= isize_max) :
  (exists w', secretstream.pull A self c ad w = Done (Err, self) w' /\
     is_stream (A := A) w' self (ss_next s adb mb t)) /\
  (exists out w', secretstream.pull_to_vec A self c ad (Vec b l (zlen cl)) (w_put b cl w) =
       Done (Err, self, out) w' /\ is_vec w' out mb /\
     is_stream (A := A) w' self (ss_next s adb mb t)).
Proof.
  assert (Hu : pulled (A := A) self t = (Err, self)).
  { unfold pulled. by rewrite (proj2 (from_u8_unknown t ltac:(lia))) by lia. }
  split.
  - eexists. rewrite (pull_run self c ad w s cb adb), decide_True, Ho by done. cbn zeta.
    rewrite Hu. split; [reflexivity|]. destruct Hs as [Hs Hsl].
    split; [|apply ss_next_zlen]. apply bytes_at_with, bytes_at_write_same, (in_range_bytes w _ s); [done|].
    by rewrite ss_next_zlen.
  - destruct (pull_to_vec_run self c ad b l (zlen cl) cl w s cb adb) as (out & w' & Hrun & ? & ? & _); try done.
    rewrite Ho in *. rewrite Hu in Hrun. by exists out, w'.
Qed.

Lemma secretstream_unknown_tag_witness :
  let self := secretstream.MkStream (At 4 0) false in
  let cb := RefStream.seal RefStream.s [] [x0a] 9 in
  let w := Ref.world [cb; []; []; RefStream.s] in
  let s' := RefStream.next RefStream.s [] [x0a] 9 in
  (exists w', @secretstream.pull RefStream.A target64 self (Slice (At 1 0) 18) None w = Done (Err, self) w' /\
     is_stream (A := RefStream.A) w' self s') /\
  (exists out w', @secretstream.pull_to_vec RefStream.A target64 self (Slice (At 1 0) 18) None (Vec 9 0 0)
       (w_put 9 [] w) = Done (Err, self, out) w' /\ @is_vec target64 w' out [x0a] /\
     is_stream (A := RefStream.A) w' self s').
Proof.
  apply (@secretstream_unknown_tag target64 RefStream.A RefStream.doc
    (Ref.world [RefStream.seal RefStream.s [] [x0a] 9; []; []; RefStream.s])
    (secretstream.MkStream (At 4 0) false) (Slice (At 1 0) 18) None RefStream.s
    (RefStream.seal RefStream.s [] [x0a] 9) [] [x0a] 9 9%positive 0 []); Ref.concrete.
Defined.
