(* ===== verification/Channel.v ===== *)
(** * The two ends of a secretstream as a channel

    An abstract channel ([chan]) whose ends are symbolic positions in a stream
    ([pos]: which key it started from, which messages and changes of key led
    here), with its steps, and the pair of [Stream]s of Secretstream.v with the
    network between them.  Every call at either end, in any order, is a step of
    the channel ([channel_simulation]): the receiver may be opened late, again
    or with another key, messages may pile up, and either end may change its
    key by hand whenever it likes.  The receiver is [in_step] when its position
    is one the sender passed through on the way to the next message in flight;
    what is promised about delivery is promised for these states. *)

From S2P Require Export Secretstream.

(** ** The abstract channel *)

Module channel.
Import secretstream.

(** How an end came to its key: where it started, the messages it sealed or
    opened, the changes of key; [Rejected] is a ciphertext that did not open,
    [Unknown] one that did, with a tag byte that is none of the four. *)
Inductive pos :=
| Start (k : bytes)
| After (p : pos) (ad m : bytes) (t : Tag)
| Rekeyed (p : pos)
| Rejected (p : pos)
| Unknown (p : pos) (ad m : bytes) (t : Z).

#[global] Instance pos_eq_dec : EqDecision pos.
Proof. solve_decision. Defined.

(** The [Final] tag closes an end. *)
Definition is_final (t : Tag) : bool := bool_decide (t = Final).
Definition closed (p : pos) : bool := match p with After _ _ _ t => is_final t | _ => false end.

(** A message on its way, and the position it was sealed at *)
Record item := Item { made_at : pos; item_ad : bytes; item_m : bytes; item_tag : Tag }.

(** [receiver] is [None] until the receiver is opened. *)
Record chan := Chan { sender : pos; receiver : option pos; wire : list item }.

(** [ASendLong] is a message longer than [messagebytes_max()]. *)
Inductive act := AOpen (k : bytes) | ASend (m ad : bytes) (t : Tag) | ASendLong | ARecv | ARekeySend | ARekeyRecv.

Inductive reply := Opened | Sent | Got (m : bytes) (t : Tag) | KeyChanged | Refused | Idle.

Definition start (k : bytes) : chan := Chan (Start k) None [].

(** What may come of a ciphertext opened at a position [p] it was not sealed
    at: the authentication fails, or it is a forgery. *)
Inductive mismatch (p : pos) (i : item) : reply -> pos -> Prop :=
| mismatch_rejected : mismatch p i Refused (Rejected p)
| mismatch_forged m t : zlen m = zlen (item_m i) -> mismatch p i (Got m t) (After p (item_ad i) m t)
| mismatch_unknown m t : mismatch p i Refused (Unknown p (item_ad i) m t).

Inductive step : chan -> act -> reply -> chan -> Prop :=
| step_open s r q k : step (Chan s r q) (AOpen k) Opened (Chan s (Some (Start k)) q)
| step_send s r q m ad t :
    closed s = false -> step (Chan s r q) (ASend m ad t) Sent (Chan (After s ad m t) r (q ++ [Item s ad m t]))
| step_send_closed s r q m ad t : closed s = true -> step (Chan s r q) (ASend m ad t) Refused (Chan s r q)
| step_send_long s r q : step (Chan s r q) ASendLong Refused (Chan s r q)
| step_rekey_send s r q : closed s = false -> step (Chan s r q) ARekeySend KeyChanged (Chan (Rekeyed s) r q)
| step_rekey_send_closed s r q : closed s = true -> step (Chan s r q) ARekeySend Refused (Chan s r q)
| step_recv s p q ad m t :
    closed p = false -> step (Chan s (Some p) (Item p ad m t :: q)) ARecv (Got m t) (Chan s (Some (After p ad m t)) q)
| step_recv_mismatch s p q i r p' :
    closed p = false -> made_at i <> p -> mismatch p i r p' ->
    step (Chan s (Some p) (i :: q)) ARecv r (Chan s (Some p') q)
| step_recv_closed s p q i : closed p = true -> step (Chan s (Some p) (i :: q)) ARecv Refused (Chan s (Some p) q)
| step_recv_idle s r : step (Chan s r []) ARecv Idle (Chan s r [])
| step_recv_early s q : step (Chan s None q) ARecv Idle (Chan s None q)
| step_rekey_recv s p q :
    closed p = false -> step (Chan s (Some p) q) ARekeyRecv KeyChanged (Chan s (Some (Rekeyed p)) q)
| step_rekey_recv_closed s p q : closed p = true -> step (Chan s (Some p) q) ARekeyRecv Refused (Chan s (Some p) q)
| step_rekey_recv_early s q : step (Chan s None q) ARekeyRecv Idle (Chan s None q).

Inductive steps : chan -> list act -> list reply -> chan -> Prop :=
| steps_nil a : steps a [] [] a
| steps_cons a o r b os rs c : step a o r b -> steps b os rs c -> steps a (o :: os) (r :: rs) c.

Lemma steps_app_inv a os os' rs b :
  steps a (os ++ os') rs b -> exists rs1 rs2 c, rs = rs1 ++ rs2 /\ steps a os rs1 c /\ steps c os' rs2 b.
Proof.
  revert a rs. induction os as [|o os IH]; intros a rs Hs; [by eexists [], rs, a; split_and!; [|constructor|]|].
  inversion Hs as [|? ? r c ? rs' ? H1 H2]; subst. destruct (IH _ _ H2) as (rs1 & rs2 & d & -> & H3 & H4).
  exists (r :: rs1), rs2, d. split_and!; [done|by econstructor|done].
Qed.

(** The items [q] lead from the position [p] to the position [s]: between them
    there are only changes of key. *)
Inductive trail : pos -> list item -> pos -> Prop :=
| trail_end s : trail s [] s
| trail_key p q s : trail (Rekeyed p) q s -> trail p q s
| trail_msg p ad m t q s : trail (After p ad m t) q s -> trail p (Item p ad m t :: q) s.

(** The key a position started from *)
Fixpoint origin (p : pos) : bytes :=
  match p with Start k => k | After p _ _ _ | Rekeyed p | Rejected p | Unknown p _ _ _ => origin p end.

(** Where the receiver is, or will be when it is opened with the sender's key *)
Definition rcv_pos (a : chan) : pos := default (Start (origin (sender a))) (receiver a).

Definition in_step (a : chan) : Prop := trail (rcv_pos a) (wire a) (sender a).

(** The messages of a position, of the network, of a run *)
Fixpoint said (p : pos) : list (bytes * Tag) :=
  match p with
  | Start _ => []
  | After p _ m t => said p ++ [(m, t)]
  | Rekeyed p | Rejected p | Unknown p _ _ _ => said p
  end.
Definition messages (q : list item) : list (bytes * Tag) := (fun i => (item_m i, item_tag i)) <$> q.

Fixpoint sent (xs : list act) (rs : list reply) : list (bytes * Tag) :=
  match xs, rs with
  | ASend m _ t :: xs, Sent :: rs => (m, t) :: sent xs rs
  | _ :: xs, _ :: rs => sent xs rs
  | _, _ => []
  end.

Fixpoint received (rs : list reply) : list (bytes * Tag) :=
  match rs with
  | [] => []
  | Got m t :: rs => (m, t) :: received rs
  | _ :: rs => received rs
  end.

(** How many changes of key led to a position *)
Fixpoint keys (p : pos) : nat :=
  match p with
  | Start _ => 0
  | Rekeyed p => S (keys p)
  | After p _ _ _ | Rejected p | Unknown p _ _ _ => keys p
  end.

(** The changes of key the receiver has not followed yet *)
Definition missed (a : chan) : nat := keys (sender a) - keys (rcv_pos a).

(** No end goes on once it is closed. *)
Fixpoint proper (p : pos) : bool :=
  match p with
  | Start _ => true
  | After p _ _ _ | Rekeyed p | Rejected p | Unknown p _ _ _ => proper p && negb (closed p)
  end.

(** *** Trails *)

Lemma trail_extend p q s ad m t : trail p q s -> trail p (q ++ [Item s ad m t]) (After s ad m t).
Proof. induction 1; cbn; eauto using trail. Qed.

Lemma trail_rekeyed p q s : trail p q s -> trail p q (Rekeyed s).
Proof. induction 1; eauto using trail. Qed.

Lemma trail_said p q s : trail p q s -> said s = said p ++ messages q.
Proof.
  induction 1 as [s|p q s _ IH|p ad m t q s _ IH]; [by rewrite app_nil_r|done|].
  rewrite IH. cbn. by rewrite <- app_assoc.
Qed.

Lemma trail_keys p q s : trail p q s -> (keys p <= keys s)%nat.
Proof. induction 1; cbn in *; lia. Qed.

Lemma trail_proper p q s : trail p q s -> proper s = true -> proper p = true /\ (closed p = true -> p = s /\ q = []).
Proof.
  induction 1 as [s|p q s _ IH|p ad m t q s _ IH]; intros Hs; [done|..];
    destruct (IH Hs) as [Hp _]; cbn in Hp; apply andb_true_iff in Hp as [? Hc]; by rewrite (proj1 (negb_true_iff _) Hc).
Qed.

(** The next message was sealed where the sender went on from a later position. *)
Lemma trail_cons p i q s :
  trail p (i :: q) s ->
  trail (After (made_at i) (item_ad i) (item_m i) (item_tag i)) q s /\ said (made_at i) = said p.
Proof.
  intros H. remember (i :: q) as l eqn:E. induction H as [|p q' s _ IH|]; [done| |by simplify_eq].
  by apply IH.
Qed.

(** *** Invariants *)

(** [taken] are the messages that left the network: it holds those the sender
    sealed after them, and no more was received than taken. *)
Record inv (k : bytes) (a : chan) (out taken got : list (bytes * Tag)) : Prop := {
  inv_origin : origin (sender a) = k;
  inv_proper : proper (sender a) = true;
  inv_out : said (sender a) = out;
  inv_wire : exists p, trail p (wire a) (sender a) /\ said p = taken;
  inv_got : match receiver a with
            | None => taken = [] /\ got = []
            | Some p => (exists old, got = old ++ said p) /\ (length got <= length taken)%nat
            end
}.

Lemma start_inv k : inv k (start k) [] [] [].
Proof. split; try done. exists (Start k). split; [constructor|done]. Qed.

(** What a step takes off the network *)
Definition took (o : act) (a : chan) : list (bytes * Tag) :=
  match o, receiver a, wire a with ARecv, Some _, i :: _ => [(item_m i, item_tag i)] | _, _, _ => [] end.

Definition gave (r : reply) : list (bytes * Tag) := match r with Got m t => [(m, t)] | _ => [] end.
Definition took_in (o : act) (r : reply) : list (bytes * Tag) :=
  match o, r with ASend m _ t, Sent => [(m, t)] | _, _ => [] end.

Lemma sent_cons o os r rs : sent (o :: os) (r :: rs) = took_in o r ++ sent os rs.
Proof. by destruct o, r. Qed.

Lemma received_app rs rs' : received (rs ++ rs') = received rs ++ received rs'.
Proof. induction rs as [|[] rs IH]; cbn; by rewrite ?IH. Qed.

Lemma received_cons r rs : received (r :: rs) = gave r ++ received rs.
Proof. by destruct r. Qed.

(** Taking an item off the network, whatever became of it *)
Lemma take_inv k s p i q out taken got p' r :
  inv k (Chan s (Some p) (i :: q)) out taken got ->
  said p' = said p ++ gave r -> (length (gave r) <= 1)%nat ->
  inv k (Chan s (Some p') q) out (taken ++ [(item_m i, item_tag i)]) (got ++ gave r).
Proof.
  intros [Ho Hp Hs (p0 & Hw & <-) [[old ->] Hl]] Hsaid Hg. cbn [sender receiver wire] in *.
  apply trail_cons in Hw as [Hw Hm]. split; cbn [sender receiver wire]; try done.
  - eexists. split; [exact Hw|]. cbn. by rewrite Hm.
  - split; [exists old; by rewrite Hsaid, app_assoc|]. rewrite !length_app in *. cbn in *. lia.
Qed.

(** Changing the receiver's position without receiving *)
Lemma receiver_inv k s p q out taken got p' :
  inv k (Chan s (Some p) q) out taken got -> said p' = said p -> inv k (Chan s (Some p') q) out taken got.
Proof.
  intros [Ho Hp Hs Hw [Hg Hl]] Hsaid. split; cbn [sender receiver wire] in *; try done. by rewrite Hsaid.
Qed.

Lemma step_inv k a o r b out taken got :
  step a o r b -> inv k a out taken got -> inv k b (out ++ took_in o r) (taken ++ took o a) (got ++ gave r).
Proof.
  intros Hs Hi. destruct Hs as [s r q k'|s r q m ad t Hc| | |s r q Hc| |s p q ad m t Hc|s p q i r p' Hc Hne Hmm|s p q i Hc| | |s p q Hc| |];
    unfold took; cbn [took_in gave receiver wire]; rewrite ?app_nil_r; try done.
  - destruct Hi as [Ho Hp Hs Hw Hg]. cbn [sender receiver wire] in *. split; cbn [sender receiver wire]; try done.
    split; [exists got; by rewrite app_nil_r|]. destruct r; [by destruct Hg|]. destruct Hg as [-> ->]. done.
  - destruct Hi as [Ho Hp Hs (p0 & Hw & Ht) Hg]. cbn [sender receiver wire] in *. split; cbn [sender receiver wire]; try done.
    + cbn. by rewrite Hp, Hc.
    + cbn. by rewrite Hs.
    + exists p0. split; [by apply trail_extend|done].
  - destruct Hi as [Ho Hp Hs (p0 & Hw & Ht) Hg]. cbn [sender receiver wire] in *. split; cbn [sender receiver wire]; try done.
    + cbn. by rewrite Hp, Hc.
    + exists p0. split; [by apply trail_rekeyed|done].
  - eapply (take_inv _ _ _ _ _ _ _ _ _ (Got m t)); [exact Hi|done|done].
  - eapply take_inv; [exact Hi| |destruct Hmm; cbn; lia]. destruct Hmm; cbn; by rewrite ?app_nil_r.
  - rewrite <- (app_nil_r got). eapply (take_inv _ _ _ _ _ _ _ _ _ Refused); [exact Hi| |cbn; lia].
    cbn. by rewrite app_nil_r.
  - destruct r; cbn; by rewrite app_nil_r.
  - by eapply receiver_inv.
Qed.

Lemma steps_inv k a os rs b : steps a os rs b -> forall out taken got, inv k a out taken got ->
  exists taken', inv k b (out ++ sent os rs) taken' (got ++ received rs).
Proof.
  induction 1 as [a|a o r b os rs c Hs _ IH]; intros out taken got Hi.
  - exists taken. cbn. by rewrite !app_nil_r.
  - rewrite sent_cons, received_cons, !app_assoc. eapply IH, step_inv; eassumption.
Qed.

(** Every run from the start *)
Lemma start_steps k os rs a :
  steps (start k) os rs a -> exists taken, inv k a (sent os rs) taken (received rs).
Proof. intros Hs. exact (steps_inv k _ _ _ _ Hs [] [] [] (start_inv k)). Qed.

(** A receiver in step has received everything that left the network. *)
Lemma in_step_received k a out taken got : inv k a out taken got -> in_step a -> got = taken.
Proof.
  intros [Ho Hp Hs (p0 & Hw & <-) Hg] Hin. unfold in_step, rcv_pos in Hin.
  apply trail_said in Hin, Hw. destruct (receiver a) as [p|]; cbn in Hin.
  - destruct Hg as [[old ->] Hl]. assert (said p = said p0) as E by (apply (app_inv_tail (messages (wire a))); congruence).
    rewrite E, length_app in *. destruct old; [done|cbn in Hl; lia].
  - by destruct Hg as [-> ->].
Qed.

Lemma in_step_closed k a out taken got :
  inv k a out taken got -> in_step a -> closed (rcv_pos a) = true -> closed (sender a) = true /\ wire a = [].
Proof.
  intros Hi Hin Hc. destruct (trail_proper _ _ _ Hin (inv_proper _ _ _ _ _ Hi)) as [_ H].
  destruct (H Hc) as [E ->]. by rewrite <- E.
Qed.

(** *** Schedules that stay in step *)

(** The receiver is opened once, with the sender's key, and changes its key
    where the sender did: [o] is whether it was opened, [sc] and [rc] whether the
    ends are closed, and [q] the messages and changes of key ([None]) it has yet
    to follow.  This is a property of the calls alone. *)
Fixpoint mirrors (k : bytes) (o sc rc : bool) (q : list (option Tag)) (xs : list act) : bool :=
  match xs with
  | [] => true
  | AOpen k' :: xs => negb o && bool_decide (k' = k) && mirrors k true sc rc q xs
  | ASend _ _ t :: xs => if sc then mirrors k o sc rc q xs else mirrors k o (is_final t) rc (q ++ [Some t]) xs
  | ASendLong :: xs => mirrors k o sc rc q xs
  | ARekeySend :: xs => mirrors k o sc rc (if sc then q else q ++ [None]) xs
  | ARecv :: xs =>
    if o then
      match q with
      | Some t :: q => mirrors k o sc (is_final t) q xs
      | _ => forallb (fun i => bool_decide (i = None)) q && mirrors k o sc rc q xs
      end
    else mirrors k o sc rc q xs
  | ARekeyRecv :: xs =>
    if o && negb rc then match q with None :: q => mirrors k o sc rc q xs | _ => false end
    else mirrors k o sc rc q xs
  end.

(** [trail] with what the receiver has yet to follow *)
Inductive ahead : pos -> list (option Tag) -> list item -> pos -> Prop :=
| ahead_end s : ahead s [] [] s
| ahead_key p q w s : ahead (Rekeyed p) q w s -> ahead p (None :: q) w s
| ahead_msg p ad m t q w s : ahead (After p ad m t) q w s -> ahead p (Some t :: q) (Item p ad m t :: w) s.

Lemma ahead_trail p q w s : ahead p q w s -> trail p w s.
Proof. induction 1; eauto using trail. Qed.

Lemma ahead_send p q w s ad m t : ahead p q w s -> ahead p (q ++ [Some t]) (w ++ [Item s ad m t]) (After s ad m t).
Proof. induction 1; cbn; eauto using ahead. Qed.

Lemma ahead_rekey p q w s : ahead p q w s -> ahead p (q ++ [None]) w (Rekeyed s).
Proof. induction 1; cbn; eauto using ahead. Qed.

Lemma ahead_keys p q w s : ahead p q w s -> forallb (fun i => bool_decide (i = None)) q = true -> w = [].
Proof. induction 1; cbn; auto. done. Qed.

(** An end that is closed has nothing ahead of it. *)
Lemma ahead_proper p q w s :
  ahead p q w s -> proper s = true -> (q <> [] -> closed p = false) /\ (closed p = true -> closed s = true).
Proof.
  intros Ha Hs. destruct (trail_proper _ _ _ (ahead_trail _ _ _ _ Ha) Hs) as [_ Hc].
  split; [|intros H; by destruct (Hc H) as [-> _]].
  destruct Ha as [|p q w s Ha|p ad m t q w s Ha]; [done|..]; intros _;
    destruct (trail_proper _ _ _ (ahead_trail _ _ _ _ Ha) Hs) as [[_ H%negb_true_iff]%andb_true_iff _]; done.
Qed.

Lemma mirrors_in_step a xs rs b : steps a xs rs b -> forall k q,
  origin (sender a) = k -> proper (sender a) = true -> ahead (rcv_pos a) q (wire a) (sender a) ->
  mirrors k (if receiver a then true else false) (closed (sender a)) (closed (rcv_pos a)) q xs = true ->
  in_step b.
Proof.
  induction 1 as [a|a x r b xs rs c Hs _ IH]; intros k q Hk Hp Ha Hm; [by eapply ahead_trail|].
  pose proof (ahead_proper _ _ _ _ Ha Hp) as [Hq Hcl].
  destruct Hs as [s r q' k'|s r q' m ad t Hc|s r q' m ad t Hc| |s r q' Hc|s r q' Hc|s p q' ad m t Hc
                 |s p q' i r p' Hc Hne _|s p q' i Hc|s r|s q'|s p q' Hc|s p q' Hc|s q'];
    cbn in *; try rewrite Hc in Hm; cbn in Hm.
  - apply andb_true_iff in Hm as [[Ho ->%bool_decide_eq_true]%andb_true_iff Hm]. destruct r; [done|]. subst k.
    by apply (IH (origin s) q).
  - eapply (IH _ (q ++ [Some t])); cbn; [done|by rewrite Hp, Hc|by apply ahead_send|done].
  - by (eapply (IH _ q); cbn; rewrite ?Hc; eauto).
  - by (eapply (IH _ q); cbn; rewrite ?Hc; eauto).
  - eapply (IH _ (q ++ [None])); cbn; [done|by rewrite Hp, Hc|by apply ahead_rekey|done].
  - by (eapply (IH _ q); cbn; rewrite ?Hc; eauto).
  - inversion Ha; subst; cbn in Hm; [|by (eapply (IH _ q0); cbn; rewrite ?Hc; eauto)].
    apply andb_true_iff in Hm as [Hf _]. by apply (ahead_keys _ _ _ _ H) in Hf.
  - inversion Ha; subst; cbn in *; [|done].
    apply andb_true_iff in Hm as [Hf _]. by apply (ahead_keys _ _ _ _ H) in Hf.
  - destruct q; [by inversion Ha|]. by rewrite Hq in Hc.
  - eapply (IH _ q); cbn; try done. destruct r; [|done]. destruct q as [|[]]; [done|by inversion Ha|].
    by apply andb_true_iff in Hm as [_ Hm].
  - by (eapply (IH _ q); cbn; rewrite ?Hc; eauto).
  - inversion Ha; subst; cbn in Hm; try done. by (eapply (IH _ q0); cbn; rewrite ?Hc; eauto).
  - by (eapply (IH _ q); cbn; rewrite ?Hc; eauto).
  - by (eapply (IH _ q); cbn; rewrite ?Hc; eauto).
Qed.

(** *** Draining the network *)

(** Following the sender: every message in flight is delivered. *)
Lemma drain_steps p q s : trail p q s -> proper s = true -> exists xs,
  (length xs = length q + (keys s - keys p))%nat /\ Forall (fun x => x = ARecv \/ x = ARekeyRecv) xs /\
  forall rs b, steps (Chan s (Some p) q) xs rs b -> received rs = messages q /\ b = Chan s (Some s) [].
Proof.
  induction 1 as [s|p q s Ht IH|p ad m t q s Ht IH]; intros Hs.
  - exists []. split_and!; [cbn; lia|constructor|]. intros rs b Hb. by inversion Hb.
  - destruct (IH Hs) as (xs & Hl & Hf & Hxs). exists (ARekeyRecv :: xs).
    destruct (trail_proper _ _ _ Ht Hs) as [[_ Hc%negb_true_iff]%andb_true_iff _].
    pose proof (trail_keys _ _ _ Ht). cbn in *. split_and!; [lia|constructor; auto|].
    intros rs b Hb. inversion Hb as [|? ? ? ? ? ? ? H1 H2]; subst. inversion H1; subst; [|congruence].
    by destruct (Hxs _ _ H2).
  - destruct (IH Hs) as (xs & Hl & Hf & Hxs). exists (ARecv :: xs).
    destruct (trail_proper _ _ _ Ht Hs) as [[_ Hc%negb_true_iff]%andb_true_iff _].
    cbn in *. split_and!; [lia|constructor; auto|].
    intros rs b Hb. inversion Hb as [|? ? ? ? ? ? ? H1 H2]; subst. inversion H1; subst; [|done|congruence].
    destruct (Hxs _ _ H2) as [Hr ->]. cbn. by rewrite Hr.
Qed.

(** Pulling without looking: the network is emptied, whatever the replies. *)
Lemma steps_recv n : forall a rs b,
  steps a (replicate n ARecv) rs b -> receiver a <> None ->
  sender b = sender a /\ wire b = drop n (wire a).
Proof.
  induction n as [|n IH]; intros a rs b Hs Hr; inversion Hs as [|? ? ? a1 ? rs' ? H1 Hs']; subst; [done|].
  inversion H1; subst; cbn [sender receiver wire] in *; try done;
    destruct (IH _ _ _ Hs') as [E1 E2]; cbn [sender receiver wire] in *; try done.
  split; [done|]. by rewrite E2, !drop_nil.
Qed.

End channel.

(** ** The two ends and the network *)

Section System.
Context `{T : Target} (A : secretstream_module).
Import secretstream.

(** The sender, the header it produced, the receiver once it is opened, and the
    ciphertexts on their way, each with the additional data it was made for. *)
Record ends := Ends {
  tx : Stream PushMode;
  header : bytes;
  rx : option (Stream PullMode);
  net : list (vec * option slice)
}.

Inductive op :=
| Open (key : ptr)
| Send (m : slice) (ad : option slice) (t : Tag)
| Recv
| RekeySend
| RekeyRecv.

(** The end of a receiver's life: its state has no destructor. *)
Definition receiver_drop (o : option (Stream PullMode)) : M unit :=
  match o with Some (MkStream (At b _) _) => free b | _ => ret tt end.

(** A new receiver replaces the one there was. *)
Definition open (e : ends) (key : ptr) : M (channel.reply * ends) :=
  let* h := place (header e) in
  let* r := init_pull A (At h 0) key in
  let* _ := move_out h in
  match r with
  | Err => ret (channel.Refused, e)
  | Ok s =>
    let* _ := receiver_drop (rx e) in
    ret (channel.Opened, Ends (tx e) (header e) (Some s) (net e))
  end.

Definition send (e : ends) (m : slice) (ad : option slice) (t : Tag) : M (channel.reply * ends) :=
  let* '(r, s) := push A (tx e) m ad t in
  match r with
  | Err => ret (channel.Refused, Ends s (header e) (rx e) (net e))
  | Ok c => ret (channel.Sent, Ends s (header e) (rx e) (net e ++ [(c, ad)]))
  end.

(** The oldest ciphertext is pulled and dropped. *)
Definition recv (e : ends) : M (channel.reply * ends) :=
  match rx e, net e with
  | Some s, (c, ad) :: net =>
    let* '(r, s) := pull A s (v_slice c) ad in
    let* out :=
      match r with
      | Err => ret channel.Refused
      | Ok (v, t) =>
        let* bs := read (v_ptr v) (v_len v) in
        let* _ := vec_drop v in
        ret (channel.Got bs t)
      end in
    let* _ := vec_drop c in
    ret (out, Ends (tx e) (header e) (Some s) net)
  | _, _ => ret (channel.Idle, e)
  end.

Definition rekeyed (r : result unit) : channel.reply :=
  match r with Ok _ => channel.KeyChanged | Err => channel.Refused end.

Definition exec (o : op) (e : ends) : M (channel.reply * ends) :=
  match o with
  | Open key => open e key
  | Send m ad t => send e m ad t
  | Recv => recv e
  | RekeySend => let* r := rekey A (tx e) in ret (rekeyed r, e)
  | RekeyRecv =>
    match rx e with
    | Some s => let* r := rekey A s in ret (rekeyed r, e)
    | None => ret (channel.Idle, e)
    end
  end.

Fixpoint execs (os : list op) (e : ends) : M (list channel.reply * ends) :=
  match os with
  | [] => ret ([], e)
  | o :: os =>
    let* '(r, e) := exec o e in
    let* '(rs, e) := execs os e in
    ret (r :: rs, e)
  end.

(** The sender opens the stream, and the operations follow. *)
Definition run (key : ptr) (os : list op) : M (result (list channel.reply * ends)) :=
  let* r := init_push A key in
  match r with
  | Err => ret Err
  | Ok (s, h) =>
    let* out := execs os (Ends s h None []) in
    ret (Ok out)
  end.

(** Which ends are closed: the sender, and the receiver once it is open. *)
Definition ends_closed (e : ends) : bool * option bool :=
  (is_finalized (tx e), is_finalized <$> rx e).

End System.

(** ** The simulation *)

Section Simulation.
Context `{T : Target} {A : secretstream_module} {D : SecretstreamDoc A}.
Import secretstream.

(** The caller's memory when the stream was opened, and the header. *)
Variables (w0 : world) (hd : bytes).

(** The foreign state at a position *)
Fixpoint state_of (p : channel.pos) : bytes :=
  match p with
  | channel.Start k => ss_start k hd
  | channel.After p ad m t => ss_next (state_of p) ad m (tag_as_u8 t)
  | channel.Rekeyed p => ss_rekeyed (state_of p)
  | channel.Rejected p => ss_rejected (state_of p)
  | channel.Unknown p ad m t => ss_next (state_of p) ad m t
  end.

Lemma state_of_zlen p : zlen (state_of p) = ss_state_size A.
Proof. destruct p; cbn; auto using ss_start_zlen, ss_next_zlen, ss_rekeyed_zlen, ss_rejected_zlen. Qed.

(** The ciphertext [n] on the network is the item [i]. *)
Definition carries (mem : gmap positive cells) (i : channel.item) (n : vec * option slice) : Prop :=
  is_opt_slice w0 n.2 (channel.item_ad i) /\ zlen (channel.item_m i) <= ss_max /\
  zlen (channel.item_m i) + ss_abytes A <= isize_max /\
  v_len n.1 = zlen (channel.item_m i) + ss_abytes A /\
  mem !! v_block n.1 = Some (Some <$> ss_seal (state_of (channel.made_at i)) (channel.item_ad i)
                               (channel.item_m i) (tag_as_u8 (channel.item_tag i))).

Definition net_blocks (n : list (vec * option slice)) : list positive := (v_block ∘ fst) <$> n.

Definition rcv_blocks (o : option (Stream PullMode)) : list positive :=
  match o with Some (MkStream (At b _) _) => [b] | _ => [] end.

(** An end at the position [p] whose state is in the block [b] *)
Definition stream_at {m} (mem : gmap positive cells) (r : Stream m) (b : positive) (p : channel.pos) : Prop :=
  r = MkStream (At b 0) (channel.closed p) /\ mem !! b = Some (Some <$> state_of p).

(** The ends [e] in the world [w] implement the channel [a]; [b] is the sender's
    block. *)
Record tracks (b : positive) (a : channel.chan) (e : ends) (w : world) : Prop := {
  tr_header : header e = hd;
  tr_snd : stream_at (w_mem w) (tx e) b (channel.sender a);
  tr_rcv : match channel.receiver a, rx e with
           | None, None => True
           | Some p, Some r => exists b2, stream_at (w_mem w) r b2 p
           | _, _ => False
           end;
  tr_net : Forall2 (carries (w_mem w)) (channel.wire a) (net e);
  tr_nodup : NoDup (b :: rcv_blocks (rx e) ++ net_blocks (net e));
  tr_fresh : Forall (fun b => w_mem w0 !! b = None) (b :: rcv_blocks (rx e) ++ net_blocks (net e));
  tr_sub : w_mem w0 ⊆ w_mem w;
  tr_dom : dom (w_mem w) = dom (w_mem w0) ∪ list_to_set (b :: rcv_blocks (rx e) ++ net_blocks (net e))
}.

(** The operation [o] of the two ends is the action [x] of the channel: the
    receiver is opened with any key, and a message is any that is too long for
    the stream or can be allocated. *)
Inductive is_op : op -> channel.act -> Prop :=
| op_open k kb : is_ref w0 k (KEYBYTES A) kb -> is_op (Open k) (channel.AOpen kb)
| op_send m ad t mb adb :
    is_slice w0 m mb -> is_opt_slice w0 ad adb -> zlen mb <= ss_max -> zlen mb + ss_abytes A <= isize_max ->
    is_op (Send m ad t) (channel.ASend mb adb t)
| op_send_long m ad t mb : is_slice w0 m mb -> ss_max < zlen mb -> is_op (Send m ad t) channel.ASendLong
| op_recv : is_op Recv channel.ARecv
| op_rekey_send : is_op RekeySend channel.ARekeySend
| op_rekey_recv : is_op RekeyRecv channel.ARekeyRecv.

(** *** What the operations leave alone *)

Lemma carries_mem mem mem' i n : mem' !! v_block n.1 = mem !! v_block n.1 -> carries mem i n -> carries mem' i n.
Proof. intros E (? & ? & ? & ? & ?). unfold carries. by rewrite E. Qed.

Lemma net_mem mem mem' q n :
  (forall b, b ∈ net_blocks n -> mem' !! b = mem !! b) -> Forall2 (carries mem) q n -> Forall2 (carries mem') q n.
Proof.
  intros Hm Hf. induction Hf as [|i x q n Hi Hf IH]; constructor.
  - eapply carries_mem; [|exact Hi]. apply Hm. left.
  - apply IH. intros b Hb. apply Hm. by right.
Qed.

Lemma tracks_fresh b a e w c :
  tracks b a e w -> w_mem w !! c = None ->
  c <> b /\ c ∉ (rcv_blocks (rx e) ++ net_blocks (net e)) /\ w_mem w0 !! c = None.
Proof.
  intros Ht Hc. apply not_elem_of_dom in Hc. rewrite (tr_dom _ _ _ _ Ht) in Hc.
  rewrite list_to_set_cons in Hc. split_and!; [set_solver|set_solver|].
  apply not_elem_of_dom. set_solver.
Qed.

Lemma stream_at_is_stream {m} w (r : Stream m) b p :
  stream_at (w_mem w) r b p -> is_stream (A := A) w r (state_of p).
Proof.
  intros [-> Hb]. unfold is_stream. cbn [state]. rewrite <- (state_of_zlen p). by apply is_ref_block.
Qed.

(** Storing a new state in an end's block *)
Lemma write_state mem w b p s :
  w_mem w = mem -> mem !! b = Some (Some <$> state_of p) -> zlen s = ss_state_size A ->
  w_mem (w_write (At b 0) s w) = <[b := Some <$> s]> mem.
Proof.
  intros <- Hb Hs. eapply mem_write_block; [done|]. pose proof (state_of_zlen p).
  rewrite length_fmap. unfold zlen in *. lia.
Qed.

(** The sender moves to the position [p]. *)
Lemma tracks_sender b a e w p r w' tx' :
  tracks b a e w -> w_mem w' = <[b := Some <$> state_of p]> (w_mem w) ->
  tx' = MkStream (At b 0) (channel.closed p) -> r = channel.receiver a ->
  tracks b (channel.Chan p r (channel.wire a)) (Ends tx' (header e) (rx e) (net e)) w'.
Proof.
  intros [Hh Hs Hr Hn Hnd Hfr Hsub Hdom] Hmem -> ->. pose proof Hnd as [Hbn _]%NoDup_cons.
  split; cbn [tx header rx net channel.sender channel.receiver channel.wire]; rewrite ?Hmem; try done.
  - split; [done|]. by rewrite lookup_insert_eq.
  - destruct (channel.receiver a), (rx e) as [x|]; try done. destruct Hr as (b2 & -> & Hb2).
    exists b2. split; [done|]. rewrite lookup_insert_ne; [done|]. intros ->. apply Hbn. cbn. set_solver.
  - eapply net_mem; [|done]. intros x Hx. rewrite lookup_insert_ne; [done|]. set_solver.
  - apply insert_subseteq_r; [by apply Forall_cons in Hfr as [? _]|done].
  - rewrite dom_insert_L, Hdom. set_solver.
Qed.

(** The receiver moves to the position [p']. *)
Lemma tracks_receiver b s p q e w p' w' r b2 :
  tracks b (channel.Chan s (Some p) q) e w -> rx e = Some r -> stream_at (w_mem w) r b2 p ->
  w_mem w' = <[b2 := Some <$> state_of p']> (w_mem w) ->
  tracks b (channel.Chan s (Some p') q)
    (Ends (tx e) (header e) (Some (MkStream (At b2 0) (channel.closed p'))) (net e)) w'.
Proof.
  intros [Hh Hs _ Hn Hnd Hfr Hsub Hdom] Hrx [-> Hb2] Hmem.
  rewrite Hrx in *. cbn [rcv_blocks app channel.sender channel.wire] in *.
  pose proof Hnd as [Hbn [Hb2n _]%NoDup_cons]%NoDup_cons.
  pose proof Hfr as [_ [? _]%Forall_cons]%Forall_cons.
  split; cbn [tx header rx net channel.sender channel.receiver channel.wire rcv_blocks app]; rewrite ?Hmem; try done.
  - destruct Hs as [-> Hb]. split; [done|]. rewrite lookup_insert_ne; [done|]. set_solver.
  - exists b2. split; [done|]. by rewrite lookup_insert_eq.
  - eapply net_mem; [|done]. intros x Hx. rewrite lookup_insert_ne; [done|]. set_solver.
  - by apply insert_subseteq_r.
  - rewrite dom_insert_L, Hdom. set_solver.
Qed.

(** The oldest ciphertext leaves the network. *)
Lemma tracks_taken b s r i q e w v ad n e' w' :
  tracks b (channel.Chan s r (i :: q)) e w -> net e = (v, ad) :: n ->
  e' = Ends (tx e) (header e) (rx e) n -> w_mem w' = delete (v_block v) (w_mem w) ->
  tracks b (channel.Chan s r q) e' w'.
Proof.
  intros [Hh Hs Hr Hn Hnd Hfr Hsub Hdom] En -> Hmem. rewrite En in *. unfold net_blocks in Hnd, Hfr, Hdom.
  rewrite fmap_cons in Hnd, Hfr, Hdom. fold (net_blocks n) in Hnd, Hfr, Hdom. cbn [compose fst] in *.
  set (x := v_block v) in *. cbn [channel.sender channel.receiver channel.wire] in *.
  assert (Hp : b :: rcv_blocks (rx e) ++ x :: net_blocks n ≡ₚ x :: b :: rcv_blocks (rx e) ++ net_blocks n)
    by solve_Permutation.
  rewrite Hp in Hnd, Hfr. apply NoDup_cons in Hnd as [Hx Hnd]. apply Forall_cons in Hfr as [Hx0 Hfr].
  assert (Hne : forall y, y ∈ b :: rcv_blocks (rx e) ++ net_blocks n -> w_mem w' !! y = w_mem w !! y).
  { intros y Hy. rewrite Hmem, lookup_delete_ne; [done|]. by intros ->. }
  split; cbn [tx header rx net channel.sender channel.receiver channel.wire]; try done.
  - destruct Hs as [-> Hb]. split; [done|]. rewrite Hne; [done|]. left.
  - destruct r, (rx e) as [y|]; try done. destruct Hr as (b2 & -> & Hb2). exists b2. split; [done|].
    rewrite Hne; [done|]. right. left.
  - apply Forall2_cons in Hn as [_ Hn]. eapply net_mem; [|exact Hn]. intros y Hy. apply Hne. set_solver.
  - rewrite Hmem. apply map_subseteq_spec. intros y cs Hy. rewrite lookup_delete_ne by congruence.
    by eapply lookup_weaken.
  - rewrite Hmem, dom_delete_L, Hdom.
    assert (x ∉ dom (w_mem w0)) by (by apply not_elem_of_dom).
    assert (x ∉ (list_to_set (b :: rcv_blocks (rx e) ++ net_blocks n) : gset positive)) by (by rewrite elem_of_list_to_set).
    rewrite !list_to_set_cons, !list_to_set_app_L, list_to_set_cons in *. set_solver.
Qed.

(** A receiver is dropped. *)
Lemma tracks_dropped b s r q e w w' :
  tracks b (channel.Chan s r q) e w ->
  w_mem w' = match rcv_blocks (rx e) with x :: _ => delete x (w_mem w) | [] => w_mem w end ->
  tracks b (channel.Chan s None q) (Ends (tx e) (header e) None (net e)) w'.
Proof.
  intros [Hh Hs Hr Hn Hnd Hfr Hsub Hdom] Hmem. cbn [channel.sender channel.receiver channel.wire] in *.
  destruct (rcv_blocks (rx e)) as [|x l] eqn:Ex.
  { split; cbn [tx header rx net channel.sender channel.receiver channel.wire rcv_blocks app]; rewrite ?Hmem; done. }
  assert (l = []) as -> by (destruct (rx e) as [[[|? ?] ?]|]; by simplify_eq/=).
  cbn [app] in *. pose proof Hnd as [Hbn [Hx Hnd']%NoDup_cons]%NoDup_cons.
  apply Forall_cons in Hfr as [Hb0 [Hx0 Hfr]%Forall_cons].
  split; cbn [tx header rx net channel.sender channel.receiver channel.wire rcv_blocks app]; rewrite ?Hmem; try done.
  - destruct Hs as [-> Hb]. split; [done|]. rewrite lookup_delete_ne; [done|]. set_solver.
  - eapply net_mem; [|exact Hn]. intros y Hy. rewrite lookup_delete_ne; [done|]. by intros ->.
  - apply NoDup_cons. split; [set_solver|done].
  - by apply Forall_cons.
  - apply map_subseteq_spec. intros y cs Hy. rewrite lookup_delete_ne by congruence.
    by eapply lookup_weaken.
  - rewrite dom_delete_L, Hdom, !list_to_set_cons.
    assert (x ∉ dom (w_mem w0)) by (by apply not_elem_of_dom).
    assert (x ∉ (list_to_set (net_blocks (net e)) : gset positive)) by (by rewrite elem_of_list_to_set).
    set_solver.
Qed.

(** A receiver is opened. *)
Lemma tracks_opened b s q e w w' b2 k :
  tracks b (channel.Chan s None q) (Ends (tx e) (header e) None (net e)) w -> w_mem w !! b2 = None ->
  w_mem w' = <[b2 := Some <$> state_of (channel.Start k)]> (w_mem w) ->
  tracks b (channel.Chan s (Some (channel.Start k)) q)
    (Ends (tx e) (header e) (Some (MkStream (At b2 0) false)) (net e)) w'.
Proof.
  intros Ht Hb2 Hmem. destruct (tracks_fresh _ _ _ _ _ Ht Hb2) as (Hne & Hni & H0).
  destruct Ht as [Hh Hs _ Hn Hnd Hfr Hsub Hdom].
  cbn [tx header rx net channel.sender channel.receiver channel.wire rcv_blocks app] in *.
  apply NoDup_cons in Hnd as [Hbn Hnd]. apply Forall_cons in Hfr as [Hb0 Hfr].
  split; cbn [tx header rx net channel.sender channel.receiver channel.wire rcv_blocks app]; rewrite ?Hmem; try done.
  - destruct Hs as [-> Hb]. split; [done|]. by rewrite lookup_insert_ne.
  - exists b2. split; [done|]. by rewrite lookup_insert_eq.
  - eapply net_mem; [|exact Hn]. intros y Hy. rewrite lookup_insert_ne; [done|]. by intros ->.
  - apply NoDup_cons. split; [set_solver|]. by apply NoDup_cons.
  - by repeat apply Forall_cons_2.
  - by apply insert_subseteq_r.
  - rewrite dom_insert_L, Hdom. set_solver.
Qed.

(** *** The operations, one by one *)

Lemma receiver_drop_run b s r q e w b2 c :
  tracks b (channel.Chan s r q) e w -> w_mem w !! b2 = None -> exists w1 w2,
    receiver_drop (rx e) (w_put b2 c w) = Done tt w2 /\
    tracks b (channel.Chan s None q) (Ends (tx e) (header e) None (net e)) w1 /\
    w_mem w1 !! b2 = None /\ w_mem w2 = <[b2 := c]> (w_mem w1).
Proof.
  intros Ht Hb2. pose proof (tr_rcv _ _ _ _ Ht) as Hr. cbn [channel.receiver] in Hr.
  destruct (rx e) as [y|] eqn:Ey.
  - destruct r as [p|]; [|done]. destruct Hr as (x & -> & Hx).
    assert (b2 <> x) by congruence.
    exists (w_del x w), (w_with (env_drop (Some <$> state_of p) (w_env (w_put b2 c w))) (w_del x (w_put b2 c w))).
    split_and!.
    + cbn [receiver_drop]. apply free_run. cbn. by rewrite lookup_insert_ne.
    + eapply tracks_dropped; [exact Ht|]. by rewrite Ey.
    + cbn. by rewrite lookup_delete_ne.
    + cbn. by rewrite delete_insert_ne.
  - exists w, (w_put b2 c w). split_and!; try done. eapply tracks_dropped; [exact Ht|]. by rewrite Ey.
Qed.

Lemma sim_open b a e w k kb :
  zlen hd = ss_headerbytes A -> tracks b a e w -> is_ref w0 k (KEYBYTES A) kb ->
  exists e' w', open A e k w = Done (channel.Opened, e') w' /\
    tracks b (channel.Chan (channel.sender a) (Some (channel.Start kb)) (channel.wire a)) e' w'.
Proof.
  intros Hhl Ht Hk. pose proof (tr_header _ _ _ _ Ht) as Hh. destruct a as [sn r q].
  set (hp := fresh_block w). pose proof (fresh_block_spec w : w_mem w !! hp = None) as Hhp.
  set (w1 := w_put hp (Some <$> header e) w). set (b2 := fresh_block w1).
  pose proof (fresh_block_spec w1 : w_mem w1 !! b2 = None) as Hb2. apply mem_put_None in Hb2 as [Hne Hb2].
  destruct (receiver_drop_run b sn r q e w b2 (Some <$> ss_start kb hd) Ht Hb2) as (w2 & w3 & Hd & Ht2 & Hn2 & Hm).
  eexists _, w3. split.
  - unfold open. eapply bind_step; [apply alloc_run|]. fold hp w1. eapply bind_step.
    { apply (init_pull_run w1 (At hp 0) k (header e) kb).
      - rewrite <- Hhl, <- Hh. apply is_ref_place.
      - apply is_ref_put_fresh; [done|]. eapply is_ref_mono; [apply Ht|done]. }
    fold b2. rewrite Hh. eapply bind_step.
    { apply move_out_under; [congruence|]. unfold w1. rewrite Hh. by apply move_out_put_run. }
    cbv beta iota. eapply bind_step; [exact Hd|reflexivity].
  - rewrite <- Hh. by eapply tracks_opened.
Qed.

Lemma sim_send b a e w m ad t mb adb :
  tracks b a e w -> channel.closed (channel.sender a) = false ->
  is_slice w0 m mb -> is_opt_slice w0 ad adb -> zlen mb <= ss_max -> zlen mb + ss_abytes A <= isize_max ->
  exists e' w', send A e m ad t w = Done (channel.Sent, e') w' /\
    tracks b (channel.Chan (channel.After (channel.sender a) adb mb t) (channel.receiver a)
                (channel.wire a ++ [channel.Item (channel.sender a) adb mb t])) e' w'.
Proof.
  intros Ht Hc Hm Had Hmax Hsz. pose proof (tr_snd _ _ _ _ Ht) as Hsnd.
  pose proof (stream_at_is_stream _ _ _ _ Hsnd) as Hst. destruct Hsnd as [Htx Hb]. rewrite Hc in Htx.
  set (s := state_of (channel.sender a)) in *. set (p' := channel.After (channel.sender a) adb mb t).
  set (c := fresh_block w). pose proof (fresh_block_spec w : w_mem w !! c = None) as Hcw.
  set (w1 := w_write (At b 0) (state_of p') w).
  assert (Hmem : w_mem w1 = <[b := Some <$> state_of p']> (w_mem w)).
  { by eapply write_state; [|exact Hb|apply state_of_zlen]. }
  pose proof (tracks_sender b a e w p' _ w1 (MkStream (At b 0) (channel.closed p')) Ht Hmem eq_refl eq_refl) as Ht1.
  assert (Hc1 : w_mem w1 !! c = None) by (rewrite Hmem, lookup_insert_ne by congruence; done).
  destruct (tracks_fresh _ _ _ _ _ Ht1 Hc1) as (Hcb & Hcn & Hc0).
  set (ct := ss_seal s adb mb (tag_as_u8 t)). eexists _, (w_put c (Some <$> ct) w1). split.
  - unfold send. eapply bind_step.
    { apply (push_run (tx e) m ad t w s mb adb); [by rewrite Htx|done|done|done|..].
      - eapply is_slice_mono; [apply Ht|done].
      - eapply is_opt_slice_mono; [apply Ht|done]. }
    rewrite Htx. reflexivity.
  - cbv beta iota. destruct Ht1 as [Hh [_ Hs] Hr Hn Hnd Hfr Hsub Hdom].
    cbn [tx header rx net channel.sender channel.receiver channel.wire] in *.
    assert (Hl : rcv_blocks (rx e) ++ net_blocks (net e ++ [(Vec c (zlen mb + ss_abytes A) (zlen mb + ss_abytes A), ad)]) =
                 (rcv_blocks (rx e) ++ net_blocks (net e)) ++ [c]).
    { unfold net_blocks. by rewrite fmap_app, app_assoc. }
    split; cbn [tx header rx net channel.sender channel.receiver channel.wire w_mem w_put]; fold c; rewrite ?Hl, ?app_comm_cons; try done.
    + split; [done|]. by rewrite lookup_insert_ne.
    + destruct (channel.receiver a), (rx e) as [y|]; try done. destruct Hr as (b2 & -> & Hb2).
      exists b2. split; [done|]. rewrite lookup_insert_ne; [done|]. intros ->. apply Hcn. cbn. set_solver.
    + apply Forall2_app.
      * eapply net_mem; [|exact Hn]. intros y Hy. rewrite lookup_insert_ne; [done|]. intros ->. apply Hcn. set_solver.
      * constructor; [|constructor]. split_and!; cbn; try done. by rewrite lookup_insert_eq.
    + apply NoDup_app. split_and!; [done| |apply NoDup_singleton]. set_solver.
    + apply Forall_app. split; [done|]. by apply Forall_singleton.
    + by apply insert_subseteq_r.
    + rewrite dom_insert_L, Hdom, list_to_set_app_L. cbn [list_to_set]. set_solver.
Qed.

Lemma sim_send_refused b a e w m ad t mb :
  tracks b a e w -> is_slice w0 m mb -> channel.closed (channel.sender a) = true \/ ss_max < zlen mb ->
  send A e m ad t w = Done (channel.Refused, e) w.
Proof.
  intros Ht Hm Hor. destruct (tr_snd _ _ _ _ Ht) as [Htx _]. unfold send. eapply bind_step.
  - apply (push_rejected (tx e) m ad t w mb); [eapply is_slice_mono; [apply Ht|done]|]. by rewrite Htx.
  - by destruct e.
Qed.

(** Changing the key at an end *)
Lemma rekey_at {m} (r : Stream m) b p w :
  stream_at (w_mem w) r b p -> channel.closed p = false -> exists w',
    rekey A r w = Done (Ok tt) w' /\ w_mem w' = <[b := Some <$> state_of (channel.Rekeyed p)]> (w_mem w).
Proof.
  intros Hr Hc. pose proof (stream_at_is_stream _ _ _ _ Hr) as Hst. destruct Hr as [-> Hb].
  eexists. split; [rewrite (rekey_run _ _ _ Hst); cbn [finalized]; rewrite Hc; reflexivity|].
  by eapply write_state; [|exact Hb|apply (state_of_zlen (channel.Rekeyed p))].
Qed.

Lemma rekey_closed {m} (r : Stream m) b p w :
  stream_at (w_mem w) r b p -> channel.closed p = true -> rekey A r w = Done Err w.
Proof. intros [-> _] Hc. unfold rekey. cbn [finalized]. by rewrite Hc. Qed.

(** Pulling a ciphertext of the network at a position: the one it was sealed at
    gives the message back; at another, whatever the foreign function decides. *)
Lemma pull_item i v ad (r : Stream PullMode) b2 p w :
  carries (w_mem w) i (v, ad) -> w_mem w0 ⊆ w_mem w -> stream_at (w_mem w) r b2 p -> channel.closed p = false ->
  exists res p' w', pull A r (v_slice v) ad w = Done (res, MkStream (At b2 0) (channel.closed p')) w' /\
    match res with
    | Ok (u, t) => exists m, channel.mismatch p i (channel.Got m t) p' /\
        (channel.made_at i = p -> m = channel.item_m i /\ t = channel.item_tag i) /\
        p' = channel.After p (channel.item_ad i) m t /\
        u = Vec (fresh_block w) (zlen m) (zlen m) /\
        w' = w_put (fresh_block w) (Some <$> m) (w_write (At b2 0) (state_of p') w)
    | Err => channel.made_at i <> p /\ channel.mismatch p i channel.Refused p' /\
        w_mem w' = w_mem (w_write (At b2 0) (state_of p') w)
    end.
Proof.
  intros (Had & Hmax & Hsz & Hvl & Hv) Hsub Hr Hc. cbn [fst snd] in *.
  pose proof (stream_at_is_stream _ _ _ _ Hr) as Hst. destruct Hr as [-> Hb2]. rewrite Hc in *.
  set (ct := ss_seal _ _ _ _) in Hv. destruct i as [p0 adb m0 t0]. cbn [channel.made_at channel.item_ad channel.item_m channel.item_tag] in *.
  pose proof (ss_seal_zlen (state_of p0) adb m0 (tag_as_u8 t0) : zlen ct = _) as Hct.
  pose proof ss_abytes_range. pose proof (zlen_nonneg m0).
  assert (Hsl : is_slice w (v_slice v) ct).
  { destruct (is_ref_block w _ ct Hv) as [? _]. split; [done|]. cbn. lia. }
  rewrite (pull_run _ (v_slice v) ad w (state_of p) ct adb Hst Hsl (is_opt_slice_mono _ _ _ _ Hsub Had)).
  rewrite decide_True by (split_and!; [done|lia|lia]). cbn zeta. cbn [state].
  destruct (ss_open (state_of p) adb ct) as [[m t]|] eqn:Eo.
  - pose proof (ss_open_zlen _ _ _ _ _ Eo) as Hm.
    assert (Heq : p0 = p -> m = m0 /\ t = tag_as_u8 t0).
    { intros ->. unfold ct in Eo. rewrite ss_open_seal in Eo by apply tag_as_u8_range. by simplify_eq. }
    unfold pulled. destruct (from_u8 A t) as [tg|] eqn:Et.
    + assert (t = tag_as_u8 tg) as ->.
      { revert Et. unfold from_u8, TAG_MESSAGE, TAG_PUSH, TAG_REKEY, TAG_FINAL. destruct ss_tags as (-> & -> & -> & ->).
        repeat (match goal with |- context [?a =? ?b] => destruct (Z.eqb_spec a b) end); intros; by simplify_eq/=. }
      exists (Ok (Vec (fresh_block w) (zlen m) (zlen m), tg)), (channel.After p adb m tg). eexists. split.
      * cbn [channel.closed]. unfold channel.is_final. by case_bool_decide.
      * exists m. split_and!; [|intros E; destruct (Heq E) as [-> Ht]; split; [done|]|done..].
        -- apply (channel.mismatch_forged p (channel.Item p0 adb m0 t0)). cbn. lia.
        -- by destruct tg, t0.
    + exists Err, (channel.Unknown p adb m t). eexists. split; [reflexivity|]. split_and!; [|constructor|done].
      intros ->. destruct (Heq eq_refl) as [_ ->]. by rewrite from_u8_as_u8 in Et.
  - exists Err, (channel.Rejected p). eexists. split; [reflexivity|]. split_and!; [|constructor|done].
    intros ->. unfold ct in Eo. by rewrite ss_open_seal in Eo by apply tag_as_u8_range.
Qed.

Lemma sim_recv b s p i q e w :
  tracks b (channel.Chan s (Some p) (i :: q)) e w -> channel.closed p = false ->
  exists r p' e' w', recv A e w = Done (r, e') w' /\ tracks b (channel.Chan s (Some p') q) e' w' /\
    channel.mismatch p i r p' /\
    (channel.made_at i = p -> r = channel.Got (channel.item_m i) (channel.item_tag i) /\
       p' = channel.After p (channel.item_ad i) (channel.item_m i) (channel.item_tag i)).
Proof.
  intros Ht Hc. pose proof (tr_rcv _ _ _ _ Ht) as Hr. pose proof (tr_net _ _ _ _ Ht) as Hn.
  pose proof (tr_nodup _ _ _ _ Ht) as Hnd. cbn [channel.receiver channel.wire] in *.
  destruct (rx e) as [y|] eqn:Ey; [|done]. destruct Hr as (b2 & Hat).
  destruct (net e) as [|[v ad] n] eqn:En; [by inversion Hn|]. apply Forall2_cons in Hn as [Hi Hn].
  assert (b2 <> v_block v) as Hne.
  { destruct Hat as [-> _]. cbn in Hnd. apply NoDup_cons in Hnd as [_ [Hnd _]%NoDup_cons]. set_solver. }
  destruct (pull_item i v ad y b2 p w Hi (tr_sub _ _ _ _ Ht) Hat Hc) as (res & p' & w1 & Hrun & Hres).
  assert (Hmem : w_mem (w_write (At b2 0) (state_of p') w) = <[b2 := Some <$> state_of p']> (w_mem w)).
  { destruct Hat as [_ Hb2]. by eapply write_state; [|exact Hb2|apply state_of_zlen]. }
  assert (Hfin : forall w2, w_mem w2 = <[b2 := Some <$> state_of p']> (w_mem w) -> exists w3,
    vec_drop v w2 = Done tt w3 /\
    tracks b (channel.Chan s (Some p') q) (Ends (tx e) (header e) (Some (MkStream (At b2 0) (channel.closed p'))) n) w3).
  { intros w2 Hw2. destruct Hi as (_ & _ & _ & _ & Hv). cbn [fst] in Hv. eexists. split.
    - apply free_run. rewrite Hw2, lookup_insert_ne by done. exact Hv.
    - eapply tracks_taken; [by eapply (tracks_receiver _ _ _ _ _ _ p' w2)|exact En|reflexivity|done]. }
  unfold recv. rewrite Ey, En. destruct res as [[u t]|].
  - destruct Hres as (m & Hmm & Heq & -> & -> & ->).
    set (wa := w_write (At b2 0) (state_of (channel.After p (channel.item_ad i) m t)) w) in *.
    assert (Hu : w_mem wa !! fresh_block w = None).
    { rewrite Hmem, lookup_insert_ne; [apply fresh_block_spec|]. intros ->. destruct Hat as [_ Hb2].
      by rewrite (fresh_block_spec w) in Hb2. }
    destruct (Hfin (w_with (env_drop (Some <$> m) (w_env wa)) wa) Hmem) as (w3 & Hd & Htr).
    exists (channel.Got m t), (channel.After p (channel.item_ad i) m t). eexists _, w3. split_and!; [|exact Htr|done|].
    + eapply bind_step; [exact Hrun|]. cbv beta iota. eapply bind_step.
      { eapply bind_step; [apply (read_run _ _ _ m); [apply bytes_at_put_same|done]|].
        eapply bind_step; [by apply free_put_run|reflexivity]. }
      eapply bind_step; [exact Hd|reflexivity].
    + intros E. by destruct (Heq E) as [-> ->].
  - destruct Hres as (Hneq & Hmm & Hw1). rewrite Hmem in Hw1. destruct (Hfin w1 Hw1) as (w3 & Hd & Htr).
    exists channel.Refused, p'. eexists _, w3. split_and!; [|exact Htr|done|done].
    eapply bind_step; [exact Hrun|]. cbv beta iota. eapply bind_step; [reflexivity|].
    eapply bind_step; [exact Hd|reflexivity].
Qed.

(** A closed receiver refuses the ciphertext, which is lost. *)
Lemma sim_recv_closed b s p i q e w :
  tracks b (channel.Chan s (Some p) (i :: q)) e w -> channel.closed p = true ->
  exists e' w', recv A e w = Done (channel.Refused, e') w' /\ tracks b (channel.Chan s (Some p) q) e' w'.
Proof.
  intros Ht Hc. pose proof (tr_rcv _ _ _ _ Ht) as Hr. pose proof (tr_net _ _ _ _ Ht) as Hn.
  cbn [channel.receiver channel.wire] in *.
  destruct (rx e) as [y|] eqn:Ey; [|done]. destruct Hr as (b2 & [-> Hb2]).
  destruct (net e) as [|[v ad] n] eqn:En; [by inversion Hn|]. apply Forall2_cons in Hn as [Hi Hn].
  destruct Hi as (_ & _ & _ & _ & Hv). cbn [fst] in Hv.
  eexists (Ends (tx e) (header e) (rx e) n), _. split.
  - unfold recv. rewrite Ey, En. eapply bind_step.
    { unfold pull, pull_check. cbn [finalized]. rewrite Hc. reflexivity. }
    cbv beta iota. eapply bind_step; [reflexivity|]. eapply bind_step; [by apply free_run|].
    by rewrite <- Hc.
  - eapply tracks_taken; [exact Ht|exact En|done|done].
Qed.

(** One call at one of the ends, whichever it is, is a step of the channel with
    the same reply. *)
Lemma channel_simulation b a e w o x :
  zlen hd = ss_headerbytes A -> tracks b a e w -> is_op o x -> exists r a' e' w',
    exec A o e w = Done (r, e') w' /\ channel.step a x r a' /\ tracks b a' e' w'.
Proof.
  intros Hhl Ht Ho. destruct a as [s r q] eqn:Ea. rewrite <- Ea in Ht.
  pose proof (tr_snd _ _ _ _ Ht) as Hs. rewrite Ea in Hs. cbn [channel.sender] in Hs.
  destruct Ho as [k kb Hk|m ad t mb adb Hm Had Hmax Hsz|m ad t mb Hm Hmax| | |]; cbn [exec].
  - destruct (sim_open b a e w k kb Hhl Ht Hk) as (e' & w' & Hrun & Ht'). subst a. eauto 8 using channel.step.
  - destruct (channel.closed s) eqn:Hc.
    + eexists _, _, _, _. split; [eapply sim_send_refused; [exact Ht|exact Hm|left; by subst a]|]. subst a. eauto using channel.step.
    + destruct (sim_send b a e w m ad t mb adb Ht) as (e' & w' & Hrun & Ht'); try done; [by subst a|]. subst a. eauto 8 using channel.step.
  - eexists _, _, _, _. split; [eapply sim_send_refused; [exact Ht|exact Hm|by right]|]. subst a. eauto using channel.step.
  - destruct r as [p|].
    2: { exists channel.Idle, a, e, w. split; [|subst a; eauto using channel.step].
         pose proof (tr_rcv _ _ _ _ Ht) as Hr. subst a. unfold recv. by destruct (rx e). }
    destruct q as [|i q].
    { exists channel.Idle, a, e, w. split; [|subst a; eauto using channel.step].
      pose proof (Forall2_length _ _ _ (tr_net _ _ _ _ Ht)) as Hn. subst a. unfold recv. destruct (net e); [by destruct (rx e)|done]. }
    subst a. destruct (channel.closed p) eqn:Hc.
    { destruct (sim_recv_closed _ _ _ _ _ _ _ Ht Hc) as (e' & w' & Hrun & Ht'). eauto 8 using channel.step. }
    destruct (sim_recv _ _ _ _ _ _ _ Ht Hc) as (r & p' & e' & w' & Hrun & Ht' & Hmm & Heq).
    exists r, (channel.Chan s (Some p') q), e', w'. split_and!; [done| |done].
    destruct (decide (channel.made_at i = p)) as [E|E]; [|by econstructor].
    destruct (Heq E) as [-> ->]. destruct i as [p0 adb m t]. cbn in E. subst p0. by constructor.
  - destruct (channel.closed s) eqn:Hc.
    + exists channel.Refused, a, e, w. split; [|subst a; eauto using channel.step].
      eapply bind_step; [by eapply rekey_closed|done].
    + destruct (rekey_at _ _ _ _ Hs Hc) as (w' & Hrun & Hmem).
      exists channel.KeyChanged, (channel.Chan (channel.Rekeyed s) r q), e, w'. split; [by eapply bind_step|].
      split; [by constructor|]. destruct Hs as [Htx _].
      pose proof (tracks_sender b a e w (channel.Rekeyed s) r w' (tx e) Ht Hmem) as H. subst a. cbn in H.
      destruct e. apply H; [by rewrite Htx, Hc|done].
  - pose proof (tr_rcv _ _ _ _ Ht) as Hr. subst a. cbn [channel.receiver] in Hr.
    destruct r as [p|], (rx e) as [y|] eqn:Ey; try done; [|eauto 8 using channel.step].
    destruct Hr as (b2 & Hat). destruct (channel.closed p) eqn:Hc.
    + exists channel.Refused, (channel.Chan s (Some p) q), e, w. split; [|eauto using channel.step].
      eapply bind_step; [by eapply rekey_closed|done].
    + destruct (rekey_at _ _ _ _ Hat Hc) as (w' & Hrun & Hmem).
      exists channel.KeyChanged, (channel.Chan s (Some (channel.Rekeyed p)) q), e, w'. split; [by eapply bind_step|].
      split; [by constructor|]. pose proof (tracks_receiver b s p q e w _ w' y b2 Ht Ey Hat Hmem) as H.
      destruct Hat as [-> _]. rewrite Hc in Ey. cbn [channel.closed] in H. rewrite <- Ey in H. by destruct e.
Qed.

Lemma execs_simulation os xs : zlen hd = ss_headerbytes A -> Forall2 is_op os xs -> forall b a e w,
  tracks b a e w -> exists rs a' e' w',
    execs A os e w = Done (rs, e') w' /\ channel.steps a xs rs a' /\ tracks b a' e' w'.
Proof.
  intros Hhl. induction 1 as [|o x os xs Ho _ IH]; intros b a e w Ht.
  - exists [], a, e, w. split_and!; [done|constructor|done].
  - destruct (channel_simulation b a e w o x Hhl Ht Ho) as (r & a1 & e1 & w1 & Hrun & Hs & Ht1).
    destruct (IH b a1 e1 w1 Ht1) as (rs & a' & e' & w' & Hrun' & Hss & Ht').
    exists (r :: rs), a', e', w'. split_and!; [|by econstructor|done].
    cbn [execs]. eapply bind_step; [exact Hrun|]. by eapply bind_step.
Qed.

Lemma execs_app os os' e w rs e1 w1 : execs A os e w = Done (rs, e1) w1 ->
  execs A (os ++ os') e w =
    match execs A os' e1 w1 with Done (rs', e') w' => Done (rs ++ rs', e') w' | Panicked => Panicked | Aborted => Aborted | UB y => UB y end.
Proof.
  revert e w rs. induction os as [|o os IH]; intros e w rs; cbn [execs app].
  - intros [= <- <- <-]. by destruct (execs A os' e w) as [[? ?] ?| | |].
  - unfold bind. destruct (exec A o e w) as [[r e2] w2| | |]; try done.
    destruct (execs A os e2 w2) as [[rs2 e3] w3| | |] eqn:E; try done. cbn. intros [= <- <- <-].
    rewrite (IH _ _ _ E). by destruct (execs A os' e3 w3) as [[? ?] ?| | |].
Qed.

End Simulation.

(** ** From the start *)

Section Runs.
Context `{T : Target} {A : secretstream_module} {D : SecretstreamDoc A}.
Import secretstream.

Lemma tracks_start w hd k :
  let b := fresh_block w in
  tracks (A := A) w hd b (channel.start k) (Ends (MkStream (At b 0) false) hd None [])
    (w_put b (Some <$> ss_start k hd) w).
Proof.
  intros b. pose proof (fresh_block_spec w) as Hb.
  split; cbn [tx header rx net rcv_blocks net_blocks fmap list_fmap app w_mem w_put channel.start
              channel.sender channel.receiver channel.wire]; try done.
  - split; [done|]. by rewrite lookup_insert_eq.
  - apply NoDup_singleton.
  - by apply Forall_singleton.
  - by apply insert_subseteq.
  - rewrite dom_insert_L. set_solver.
Qed.

(** Every sequence of calls is a run of the channel, and can be continued. *)
Lemma run_simulation w key kb os xs :
  is_ref w key (KEYBYTES A) kb -> Forall2 (is_op (A := A) w) os xs ->
  exists hd b rs a e w', run A key os w = Done (Ok (rs, e)) w' /\
    (forall os', run A key (os ++ os') w =
       match execs A os' e w' with
       | Done (rs', e') w' => Done (Ok (rs ++ rs', e')) w'
       | Panicked => Panicked | Aborted => Aborted | UB y => UB y
       end) /\
    channel.steps (channel.start kb) xs rs a /\ tracks (A := A) w hd b a e w' /\ zlen hd = ss_headerbytes A.
Proof.
  intros Hk Ho. set (n := ss_headerbytes A). set (w1 := w_consume n w). set (hd := entropy n w).
  pose proof (ss_header_range : 0 <= n <= 64) as Hn.
  assert (Hhl : zlen hd = n) by (apply entropy_zlen; lia).
  pose proof (tracks_start w1 hd kb) as Ht. set (b := fresh_block w1) in *. cbn zeta in Ht.
  assert (Ht' : tracks (A := A) w hd b (channel.start kb) (Ends (MkStream (At b 0) false) hd None [])
                  (w_put b (Some <$> ss_start kb hd) w1)).
  { destruct Ht as [H1 H2 H3 H4 H5 H6 H7 H8]. by split. }
  destruct (execs_simulation w hd os xs Hhl Ho _ _ _ _ Ht') as (rs & a & e & w' & Hrun & Hs & Htr).
  exists hd, b, rs, a, e, w'. split_and!; [|intros os'|done..];
    unfold run, bind at 1; rewrite (init_push_run w key kb Hk); fold n w1 hd b; unfold bind.
  - by rewrite Hrun.
  - rewrite (execs_app os os' _ _ _ _ _ Hrun). by destruct (execs A os' e w') as [[? ?] ?| | |].
Qed.

(** The same calls followed by others *)
Lemma run_continued w hd b a e w' os' xs' :
  zlen hd = ss_headerbytes A -> tracks (A := A) w hd b a e w' -> Forall2 (is_op (A := A) w) os' xs' ->
  exists rs' a' e' w'', execs A os' e w' = Done (rs', e') w'' /\
    channel.steps a xs' rs' a' /\ tracks (A := A) w hd b a' e' w''.
Proof. intros Hhl Ht Ho. exact (execs_simulation w hd os' xs' Hhl Ho _ _ _ _ Ht). Qed.

Lemma tracks_net_length w hd b a e w' :
  tracks (A := A) w hd b a e w' -> length (net e) = length (channel.wire a).
Proof. intros Ht. by rewrite (Forall2_length _ _ _ (tr_net _ _ _ _ _ _ Ht)). Qed.

Lemma tracks_size w hd b a e w' :
  tracks (A := A) w hd b a e w' ->
  size (dom (w_mem w')) =
    (size (dom (w_mem w)) + 1 + length (option_list (rx e)) + length (net e))%nat.
Proof.
  intros [_ _ Hrc _ Hnd Hfr _ ->]. rewrite size_union.
  - rewrite size_list_to_set by done. cbn [length]. rewrite length_app. unfold net_blocks.
    rewrite length_fmap. enough (length (rcv_blocks (rx e)) = length (option_list (rx e))) by lia.
    destruct (channel.receiver a), (rx e) as [r|]; try done. by destruct Hrc as (? & -> & _).
  - intros x Hx Hin. apply elem_of_list_to_set in Hin. rewrite Forall_forall in Hfr.
    apply Hfr in Hin. by apply not_elem_of_dom in Hin.
Qed.

Lemma tracks_closed w hd b a e w' :
  tracks (A := A) w hd b a e w' ->
  ends_closed e = (channel.closed (channel.sender a), channel.closed <$> channel.receiver a).
Proof.
  intros Ht. unfold ends_closed. destruct (tr_snd _ _ _ _ _ _ Ht) as [-> _]. f_equal.
  pose proof (tr_rcv _ _ _ _ _ _ Ht) as Hrc.
  destruct (channel.receiver a), (rx e); try done. by destruct Hrc as (? & -> & _).
Qed.

(** The calls that follow the sender *)
Lemma drain_ops w xs : Forall (fun x => x = channel.ARecv \/ x = channel.ARekeyRecv) xs ->
  exists os, Forall2 (is_op (A := A) w) os xs.
Proof.
  induction 1 as [|x xs [-> | ->] _ [os IH]]; [by exists []|exists (Recv :: os)|exists (RekeyRecv :: os)];
    by repeat constructor.
Qed.

(** The sender's final message *)
Lemma final_op w : is_op (A := A) w (Send (Slice Null 0) None Final) (channel.ASend [] [] Final).
Proof.
  pose proof ss_abytes_range. pose proof isize_max_bounds. pose proof ss_max_range.
  constructor; [|done|change (zlen (@nil byte)) with 0; lia..]. split_and!; [done|done|zlia].
Qed.

(** What has to be called to close the sender and to open the receiver *)
Lemma prepare_ops w key kb s (r : option channel.pos) q :
  is_ref w key (KEYBYTES A) kb -> exists os xs s' q', Forall2 (is_op (A := A) w) os xs /\
    channel.closed s' = true /\ (length xs <= 2)%nat /\
    (s', q') = (if channel.closed s then (s, q) else (channel.After s [] [] Final, q ++ [channel.Item s [] [] Final])) /\
    (forall rs a, channel.steps (channel.Chan s r q) xs rs a ->
       a = channel.Chan s' (Some (default (channel.Start kb) r)) q' /\ channel.received rs = []).
Proof.
  intros Hk.
  set (os1 := if channel.closed s then [] else [Send (Slice Null 0) None Final]).
  set (xs1 := if channel.closed s then [] else [channel.ASend [] [] Final]).
  set (os2 := if r then [] else [Open key]). set (xs2 := if r then [] else [channel.AOpen kb]).
  exists (os1 ++ os2), (xs1 ++ xs2). eexists _, _. split_and!; [| | |symmetry; apply surjective_pairing|].
  - apply Forall2_app; [unfold os1, xs1; destruct (channel.closed s)|unfold os2, xs2; destruct r].
    + done.
    + constructor; [apply final_op|done].
    + done.
    + constructor; [by constructor|done].
  - by destruct (channel.closed s) eqn:Hc.
  - unfold xs1, xs2. destruct (channel.closed s), r; cbn; lia.
  - intros rs a Hs. unfold xs1, xs2 in Hs. destruct (channel.closed s) eqn:Hc, r; cbn in Hs |- *;
      repeat (match goal with H : channel.steps _ (_ :: _) _ _ |- _ => inversion H; clear H; subst
              | H : channel.steps _ [] _ _ |- _ => inversion H; clear H; subst
              | H : channel.step _ _ _ _ |- _ => inversion H; clear H; subst end); try done; congruence.
Qed.

(** A run that goes on with calls that lead to the state [d] and deliver
    nothing, and then with others *)
Lemma run_prepared w key hd b os rs a e w' os1 xs1 d os2 xs2 :
  zlen hd = ss_headerbytes A ->
  (forall os', run A key (os ++ os') w =
     match execs A os' e w' with
     | Done (rs', e') w' => Done (Ok (rs ++ rs', e')) w'
     | Panicked => Panicked | Aborted => Aborted | UB y => UB y
     end) ->
  tracks (A := A) w hd b a e w' -> Forall2 (is_op (A := A) w) os1 xs1 ->
  (forall rs1 a1, channel.steps a xs1 rs1 a1 -> a1 = d /\ channel.received rs1 = []) ->
  Forall2 (is_op (A := A) w) os2 xs2 ->
  exists rs2 a' e' w'',
    run A key (os ++ os1 ++ os2) w = Done (Ok (rs ++ rs2, e')) w'' /\ tracks (A := A) w hd b a' e' w'' /\
    exists rs3, channel.received rs2 = channel.received rs3 /\ channel.steps d xs2 rs3 a'.
Proof.
  intros Hhl Hrun Ht Ho1 Hd Ho2.
  destruct (run_continued w hd b a e w' (os1 ++ os2) (xs1 ++ xs2) Hhl Ht) as (rs2 & a' & e' & w'' & Hex & Hst & Ht').
  { by apply Forall2_app. }
  exists rs2, a', e', w''. split; [by rewrite Hrun, Hex|]. split; [done|].
  apply channel.steps_app_inv in Hst as (r1 & r2 & c & -> & H1 & H2). destruct (Hd _ _ H1) as [-> E].
  exists r2. split; [by rewrite channel.received_app, E|done].
Qed.

(** The sender's final message at the end of a trail *)
Lemma prepared_trail p s q s' q' :
  channel.trail p q s -> channel.proper s = true ->
  (s', q') = (if channel.closed s then (s, q) else (channel.After s [] [] Final, q ++ [channel.Item s [] [] Final])) ->
  channel.trail p q' s' /\ channel.proper s' = true /\ channel.keys s' = channel.keys s /\
  channel.messages q' = channel.messages q ++ (if channel.closed s then [] else [([], Final)]).
Proof.
  intros Ht Hp Heq. destruct (channel.closed s) eqn:Hc; injection Heq as -> ->; [by rewrite app_nil_r|].
  split_and!; [by apply channel.trail_extend|cbn; by rewrite Hp, Hc|done|]. unfold channel.messages. by rewrite fmap_app.
Qed.

End Runs.

(** ** Properties *)

(** C6. The two ends refine the abstract channel: for every sequence of calls
    (opening the receiver, again or with any key, pushing, pulling and changing
    the key by hand at either end, in any order), the run ends normally, its
    replies are those of a run of the channel, and the ends are those of the
    channel's last state: the foreign state of each end is the one its position
    stands for, [is_finalized()] is whether the position is closed, exactly the
    ciphertexts of the messages in flight are outstanding, and the process's
    memory is the caller's, the states of the open ends, and those ciphertexts. *)
Theorem channel_refines `{T : Target} A {D : SecretstreamDoc A} w key kb os xs
    (Hk : is_ref w key (secretstream.KEYBYTES A) kb) (Ho : Forall2 (is_op (A := A) w) os xs) :
  exists rs a e w', run A key os w = Done (Ok (rs, e)) w' /\ channel.steps (channel.start kb) xs rs a /\
    is_stream (A := A) w' (tx e) (state_of (header e) (channel.sender a)) /\
    match rx e, channel.receiver a with
    | Some r, Some p => is_stream (A := A) w' r (state_of (header e) p)
    | None, None => True
    | _, _ => False
    end /\
    ends_closed e = (channel.closed (channel.sender a), channel.closed <$> channel.receiver a) /\
    length (net e) = length (channel.wire a) /\ w_mem w ⊆ w_mem w' /\
    size (dom (w_mem w')) =
      (size (dom (w_mem w)) + 1 + length (option_list (rx e)) + length (net e))%nat.
Proof.
  destruct (run_simulation w key kb os xs Hk Ho) as (hd & b & rs & a & e & w' & Hrun & _ & Hs & Ht & Hhl).
  exists rs, a, e, w'.
  pose proof (tr_header _ _ _ _ _ _ Ht) as ->. split_and!; [exact Hrun|exact Hs|..].
  - eapply stream_at_is_stream, Ht.
  - pose proof (tr_rcv _ _ _ _ _ _ Ht) as Hr. destruct (channel.receiver a), (rx e) as [r|]; try done.
    destruct Hr as [b2 Hr]. by eapply stream_at_is_stream.
  - by eapply tracks_closed.
  - by eapply tracks_net_length.
  - apply Ht.
  - by eapply tracks_size.
Qed.

(** C25. First in, first out, after any sequence of calls: the messages whose
    [push] succeeded are those that were taken off the network, in order,
    followed by those in flight, and no more are delivered than taken.  When
    the receiver is in step with the sender, the messages delivered are exactly
    those taken: none is lost, duplicated, reordered or altered, and none
    changes its tag; and once it is finalized so is the sender, and nothing is
    in flight.  The receiver is in step whenever it was opened once, with the
    sender's key, and changed its key by hand exactly where the sender did.
    (Out of step, messages are lost: [out_of_step_loses] is such a run.) *)
Theorem channel_fifo `{T : Target} A {D : SecretstreamDoc A} w key kb os xs
    (Hk : is_ref w key (secretstream.KEYBYTES A) kb) (Ho : Forall2 (is_op (A := A) w) os xs) :
  exists rs a e w' taken, run A key os w = Done (Ok (rs, e)) w' /\ channel.steps (channel.start kb) xs rs a /\
    channel.sent xs rs = taken ++ channel.messages (channel.wire a) /\
    length (net e) = length (channel.wire a) /\ (length (channel.received rs) <= length taken)%nat /\
    (channel.in_step a -> channel.received rs = taken /\
       ((ends_closed e).2 = Some true -> (ends_closed e).1 = true /\ net e = [])) /\
    (channel.mirrors kb false false false [] xs = true -> channel.in_step a).
Proof.
  destruct (run_simulation w key kb os xs Hk Ho) as (hd & b & rs & a & e & w' & Hrun & _ & Hs & Ht & Hhl).
 
  destruct (channel.start_steps _ _ _ _ Hs) as [taken Hi].
  pose proof (tracks_net_length _ _ _ _ _ _ Ht) as Hn.
  exists rs, a, e, w', taken. rewrite (tracks_closed _ _ _ _ _ _ Ht). split_and!; [exact Hrun|exact Hs| |done| | |].
  - destruct Hi as [_ _ <- (p & Hp & <-) _]. by apply channel.trail_said.
  - pose proof (channel.inv_got _ _ _ _ _ Hi) as Hg. destruct (channel.receiver a); [by destruct Hg|].
    by destruct Hg as [-> ->].
  - intros Hin. split; [by eapply channel.in_step_received|]. cbn [fst snd]. intros Hc.
    destruct (channel.in_step_closed _ _ _ _ _ Hi Hin) as [? Hw]; [|rewrite Hw in Hn; by destruct (net e)].
    unfold channel.rcv_pos. by destruct (channel.receiver a); simplify_eq/=.
  - intros Hm. by apply (channel.mirrors_in_step _ _ _ _ Hs kb []); [| |constructor|].
Qed.

(** C7. A stream can always be brought to its end.  After any sequence of calls
    at the two ends, as many calls as there are messages in flight and three
    more close the sender and leave no ciphertext behind.  When the receiver is
    in step with the sender, as many calls as there are messages in flight and
    changes of key it has not followed, and three more, deliver everything that
    was in flight, in order, and finalize both ends. *)
Theorem channel_closes `{T : Target} A {D : SecretstreamDoc A} w key kb os xs
    (Hk : is_ref w key (secretstream.KEYBYTES A) kb) (Ho : Forall2 (is_op (A := A) w) os xs) :
  exists rs a e w', run A key os w = Done (Ok (rs, e)) w' /\ channel.steps (channel.start kb) xs rs a /\
    (exists os' rs' e' w'', (length os' <= length (net e) + 3)%nat /\
       run A key (os ++ os') w = Done (Ok (rs ++ rs', e')) w'' /\ (ends_closed e').1 = true /\ net e' = []) /\
    (channel.in_step a -> exists os' rs' e' w'',
       (length os' <= length (net e) + channel.missed a + 3)%nat /\
       run A key (os ++ os') w = Done (Ok (rs ++ rs', e')) w'' /\
       channel.received rs' = channel.messages (channel.wire a) ++
         (if channel.closed (channel.sender a) then [] else [([], secretstream.Final)]) /\
       ends_closed e' = (true, Some true) /\ net e' = []).
Proof.
  destruct (run_simulation w key kb os xs Hk Ho) as (hd & b & rs & a & e & w' & Hrun0 & Hrun & Hs & Ht & Hhl).
  exists rs, a, e, w'.
  split; [exact Hrun0|]. split; [exact Hs|].
  destruct (channel.start_steps _ _ _ _ Hs) as [taken Hi]. rewrite (tracks_net_length _ _ _ _ _ _ Ht).
  destruct a as [s r q]. destruct (prepare_ops w key kb s r q Hk) as (os1 & xs1 & s' & q' & Ho1 & Hc' & Hl1 & Heq & Hprep).
  pose proof (Forall2_length _ _ _ Ho1) as Hl1'.
  pose proof (fun os2 xs2 => run_prepared w key hd b os rs _ e w' os1 xs1 _ os2 xs2 Hhl Hrun Ht Ho1 Hprep) as Hgo.
  assert (Hq' : (length q' <= length q + 1)%nat).
  { destruct (channel.closed s); simplify_eq; rewrite ?length_app; cbn; lia. }
  cbn [channel.sender channel.receiver channel.wire] in *. split.
  - destruct (Hgo (replicate (length q') Recv) (replicate (length q') channel.ARecv)) as (rs2 & a' & e' & w'' & Hr & Ht' & rs3 & _ & Hst).
    { apply Forall2_same_length_lookup_2; [by rewrite !length_replicate|]. intros i x y Hx Hy.
      apply lookup_replicate in Hx as [-> _], Hy as [-> _]. constructor. }
    exists (os1 ++ replicate (length q') Recv), rs2, e', w''. split; [rewrite length_app, length_replicate; lia|].
    split; [done|]. apply channel.steps_recv in Hst as [Hsn Hw]; [|done]. cbn in Hsn, Hw. rewrite drop_all in Hw.
    rewrite (tracks_closed _ _ _ _ _ _ Ht'). pose proof (tracks_net_length _ _ _ _ _ _ Ht') as Hn.
    rewrite Hw in Hn. rewrite Hsn. split; [done|by destruct (net e')].
  - intros Hin. unfold channel.in_step, channel.rcv_pos in Hin.
    pose proof (channel.inv_origin _ _ _ _ _ Hi) as Hor. pose proof (channel.inv_proper _ _ _ _ _ Hi) as Hp.
    cbn [channel.sender channel.receiver channel.wire] in *. rewrite Hor in Hin.
    set (p := default (channel.Start kb) r) in *.
    pose proof (prepared_trail _ _ _ _ _ Hin Hp Heq) as Hin'.
    destruct Hin' as (Htr & Hps & Hks & <-).
    destruct (channel.drain_steps _ _ _ Htr Hps) as (xs2 & Hl2 & Hf & Hd).
    destruct (drain_ops w xs2 Hf) as [os2 Ho2]. assert (length os2 = length xs2) by (by eapply Forall2_length).
    destruct (Hgo os2 xs2 Ho2) as (rs2 & a' & e' & w'' & Hr & Ht' & rs3 & Hrs & Hst).
    destruct (Hd _ _ Hst) as [Hrec ->]. exists (os1 ++ os2), rs2, e', w''.
    split_and!; [|done|by rewrite Hrs| |].
    + unfold channel.missed, channel.rcv_pos. cbn [channel.sender channel.receiver]. rewrite Hor. fold p.
      rewrite length_app. lia.
    + rewrite (tracks_closed _ _ _ _ _ _ Ht'). cbn. by rewrite Hc'.
    + pose proof (tracks_net_length _ _ _ _ _ _ Ht') as Hn. by destruct (net e').
Qed.

(** Two runs: the receiver opened late and following the sender's change of
    key; and a receiver that changes its key on its own, is opened again, and
    then gets what was sent before it. *)
Module RefChannel.

Import RefStream.

Definition m1 : slice := Slice (At 1 0) 2.
Definition m2 : slice := Slice (At 2 0) 1.

Definition ops : list op :=
  [Send m1 None secretstream.Push; Open (At 3 0); RekeySend; Recv; RekeyRecv;
   Send m2 (Some m1) secretstream.Message].
Definition acts : list channel.act :=
  [channel.ASend [x01; x02] [] secretstream.Push; channel.AOpen kb; channel.ARekeySend; channel.ARecv;
   channel.ARekeyRecv; channel.ASend [x03] [x01; x02] secretstream.Message].

Definition wild_ops : list op :=
  [Open (At 3 0); RekeyRecv; Send m1 None secretstream.Push; Recv; Open (At 3 0);
   Send m2 (Some m1) secretstream.Final; Recv; RekeySend].
Definition wild_acts : list channel.act :=
  [channel.AOpen kb; channel.ARekeyRecv; channel.ASend [x01; x02] [] secretstream.Push; channel.ARecv;
   channel.AOpen kb; channel.ASend [x03] [x01; x02] secretstream.Final; channel.ARecv; channel.ARekeySend].

Lemma send1 t : @is_op target64 A doc w (Send m1 None t) (channel.ASend [x01; x02] [] t).
Proof. constructor; [Ref.concrete|done|Ref.concrete|Ref.concrete]. Defined.

Lemma send2 t : @is_op target64 A doc w (Send m2 (Some m1) t) (channel.ASend [x03] [x01; x02] t).
Proof. constructor; Ref.concrete. Defined.

Lemma open1 : @is_op target64 A doc w (Open (At 3 0)) (channel.AOpen kb).
Proof. constructor. Ref.concrete. Defined.

Lemma ops_acts : Forall2 (@is_op target64 A doc w) ops acts.
Proof.
  repeat (apply Forall2_cons; split); try apply Forall2_nil; first [apply send1|apply send2|apply open1|constructor].
Defined.

Lemma wild_ops_acts : Forall2 (@is_op target64 A doc w) wild_ops wild_acts.
Proof.
  repeat (apply Forall2_cons; split); try apply Forall2_nil; first [apply send1|apply send2|apply open1|constructor].
Defined.

End RefChannel.

(** A receiver that changes its key when the sender did not loses the message
    that was accepted and sent to it. *)
Lemma out_of_step_loses :
  match @run target64 RefStream.A (At 3 0)
          [Open (At 3 0); RekeyRecv; Send RefChannel.m1 None secretstream.Push; Recv] RefStream.w with
  | Done (Ok (rs, e)) _ =>
    rs = [channel.Opened; channel.KeyChanged; channel.Sent; channel.Refused] /\ net e = []
  | _ => False
  end.
Proof. vm_compute. done. Qed.

Lemma channel_refines_witness :
  exists rs a e w', @run target64 RefStream.A (At 3 0) RefChannel.wild_ops RefStream.w = Done (Ok (rs, e)) w' /\
    channel.steps (channel.start RefStream.kb) RefChannel.wild_acts rs a /\
    is_stream (A := RefStream.A) w' (tx e) (@state_of _ _ RefStream.doc (header e) (channel.sender a)) /\
    match rx e, channel.receiver a with
    | Some r, Some p => is_stream (A := RefStream.A) w' r (@state_of _ _ RefStream.doc (header e) p)
    | None, None => True
    | _, _ => False
    end /\
    ends_closed e = (channel.closed (channel.sender a), channel.closed <$> channel.receiver a) /\
    length (net e) = length (channel.wire a) /\ w_mem RefStream.w ⊆ w_mem w' /\
    size (dom (w_mem w')) =
      (size (dom (w_mem RefStream.w)) + 1 + length (option_list (rx e)) + length (net e))%nat.
Proof.
  apply (@channel_refines target64 RefStream.A RefStream.doc RefStream.w (At 3 0) RefStream.kb
    RefChannel.wild_ops RefChannel.wild_acts); [Ref.concrete|apply RefChannel.wild_ops_acts].
Defined.

Lemma channel_fifo_witness :
  exists rs a e w' taken, @run target64 RefStream.A (At 3 0) RefChannel.ops RefStream.w = Done (Ok (rs, e)) w' /\
    channel.steps (channel.start RefStream.kb) RefChannel.acts rs a /\
    channel.sent RefChannel.acts rs = taken ++ channel.messages (channel.wire a) /\
    length (net e) = length (channel.wire a) /\ (length (channel.received rs) <= length taken)%nat /\
    (channel.in_step a -> channel.received rs = taken /\
       ((ends_closed e).2 = Some true -> (ends_closed e).1 = true /\ net e = [])) /\
    (true = true -> channel.in_step a).
Proof.
  apply (@channel_fifo target64 RefStream.A RefStream.doc RefStream.w (At 3 0) RefStream.kb
    RefChannel.ops RefChannel.acts); [Ref.concrete|apply RefChannel.ops_acts].
Defined.

Lemma channel_closes_witness :
  exists rs a e w', @run target64 RefStream.A (At 3 0) RefChannel.ops RefStream.w = Done (Ok (rs, e)) w' /\
    channel.steps (channel.start RefStream.kb) RefChannel.acts rs a /\
    (exists os' rs' e' w'', (length os' <= length (net e) + 3)%nat /\
       @run target64 RefStream.A (At 3 0) (RefChannel.ops ++ os') RefStream.w = Done (Ok (rs ++ rs', e')) w'' /\
       (ends_closed e').1 = true /\ net e' = []) /\
    (channel.in_step a -> exists os' rs' e' w'',
       (length os' <= length (net e) + channel.missed a + 3)%nat /\
       @run target64 RefStream.A (At 3 0) (RefChannel.ops ++ os') RefStream.w = Done (Ok (rs ++ rs', e')) w'' /\
       channel.received rs' = channel.messages (channel.wire a) ++
         (if channel.closed (channel.sender a) then [] else [([], secretstream.Final)]) /\
       ends_closed e' = (true, Some true) /\ net e' = []).
Proof.
  apply (@channel_closes target64 RefStream.A RefStream.doc RefStream.w (At 3 0) RefStream.kb
    RefChannel.ops RefChannel.acts); [Ref.concrete|apply RefChannel.ops_acts].
Defined.
