(* ===== verification/StreamTests.v ===== *)
(** * src/crypto/secretstream/xchacha20poly1305.rs: mod test

    The tests of the secret streams, statement by statement, and the proof that
    they pass.  The proofs run a test symbolically on the locals it owns
    (Locals.v): one rule per call of a stream, and a tactic that applies the rule
    to the next statement. *)

From S2P Require Export Channel Tests.

(** ** The tests *)

Section StreamTests.
Context `{T : Target} `{R : RandombytesExterns} (A : secretstream_module).
Import secretstream.

Definition assert_is_err {X} (r : result X) : M unit :=
  assert (match r with Err => true | Ok _ => false end).

(** Three messages of random bytes, on the stack *)
Definition three_messages : M (slice * slice * slice) :=
  let* msg1 := stack_array 128 in
  let* msg2 := stack_array 34 in
  let* msg3 := stack_array 478 in
  let* _ := randombytes_into (Slice (At msg1 0) 128) in
  let* _ := randombytes_into (Slice (At msg2 0) 34) in
  let* _ := randombytes_into (Slice (At msg3 0) 478) in
  ret (Slice (At msg1 0) 128, Slice (At msg2 0) 34, Slice (At msg3 0) 478).

(** [let key = gen_key(); let (mut stream, header) = Stream::init_push(&key).unwrap();] *)
Definition new_stream : M (ptr * Stream PushMode * ptr) :=
  let* kb := gen_key A in
  let* key := place kb in
  let* r := init_push A (At key 0) in
  let* '(stream, header) := unwrap r in
  let* header := place header in
  ret (At key 0, stream, At header 0).

(** [Stream::init_pull(&header, &key).unwrap()] *)
Definition open_stream (header key : ptr) : M (Stream PullMode) :=
  let* r := init_pull A header key in unwrap r.

(** [stream.push(&msg, ad, tag).unwrap()] *)
Definition push_ok (stream : Stream PushMode) (msg : slice) (ad : option slice) (tag : Tag) :
    M (vec * Stream PushMode) :=
  let* '(r, stream) := push A stream msg ad tag in
  let* c := unwrap r in
  ret (c, stream).

(** [let (m, t) = stream.pull(&c, ad).unwrap(); assert_eq!(t, tag); assert_eq!(msg[..], m[..]);] *)
Definition pull_expect (stream : Stream PullMode) (c : vec) (ad : option slice) (tag : Tag) (msg : slice) :
    M (Stream PullMode) :=
  let* '(r, stream) := pull A stream (v_slice c) ad in
  let* '(m, t) := unwrap r in
  let* _ := assert (bool_decide (t = tag)) in
  let* a := slice_bytes msg in
  let* b := slice_bytes (v_slice m) in
  let* _ := assert_eq a b in
  ret stream.

(** [stream.rekey().unwrap()] *)
Definition rekey_ok {M} (stream : Stream M) : Machine.M unit :=
  let* r := rekey A stream in unwrap r.

Definition decrypt_too_short_ciphertext : M unit :=
  let* ciphertext := stack_array (ABYTES A - 1) in
  let* '(key, _, header) := new_stream in
  let* stream := open_stream header key in
  let* '(r, _) := pull A stream (Slice (At ciphertext 0) (ABYTES A - 1)) None in
  assert_is_err r.

Definition push_pull : M unit :=
  let* '(msg1, msg2, msg3) := three_messages in
  let* '(key, stream, header) := new_stream in
  let* '(c1, stream) := push_ok stream msg1 None Message in
  let* _ := assert (is_not_finalized stream) in
  let* '(c2, stream) := push_ok stream msg2 None Push in
  let* _ := assert (is_not_finalized stream) in
  let* '(c3, stream) := push_ok stream msg3 None Final in
  let* _ := assert (is_finalized stream) in
  let* stream := open_stream header key in
  let* _ := assert (is_not_finalized stream) in
  let* stream := pull_expect stream c1 None Message msg1 in
  let* stream := pull_expect stream c2 None Push msg2 in
  let* _ := pull_expect stream c3 None Final msg3 in
  ret tt.

Definition push_pull_with_ad : M unit :=
  let* msg1 := stack_array 128 in
  let* msg2 := stack_array 34 in
  let* msg3 := stack_array 478 in
  let* ad1 := stack_array 224 in
  let* ad2 := stack_array 135 in
  let '(msg1, msg2, msg3) := (Slice (At msg1 0) 128, Slice (At msg2 0) 34, Slice (At msg3 0) 478) in
  let '(ad1, ad2) := (Slice (At ad1 0) 224, Slice (At ad2 0) 135) in
  let* _ := randombytes_into msg1 in
  let* _ := randombytes_into msg2 in
  let* _ := randombytes_into msg3 in
  let* _ := randombytes_into ad1 in
  let* _ := randombytes_into ad2 in
  let* '(key, stream, header) := new_stream in
  let* '(c1, stream) := push_ok stream msg1 (Some ad1) Message in
  let* '(c2, stream) := push_ok stream msg2 (Some ad2) Push in
  let* '(c3, stream) := push_ok stream msg3 None Final in
  let* stream := open_stream header key in
  let* _ := assert (is_not_finalized stream) in
  let* stream := pull_expect stream c1 (Some ad1) Message msg1 in
  let* _ := assert (is_not_finalized stream) in
  let* stream := pull_expect stream c2 (Some ad2) Push msg2 in
  let* _ := assert (is_not_finalized stream) in
  let* stream := pull_expect stream c3 None Final msg3 in
  assert (is_finalized stream).

Definition push_pull_with_rekey : M unit :=
  let* '(msg1, msg2, msg3) := three_messages in
  let* '(key, stream, header) := new_stream in
  let* '(c1, stream) := push_ok stream msg1 None Message in
  let* '(c2, stream) := push_ok stream msg2 None Rekey in
  let* '(c3, stream) := push_ok stream msg3 None Final in
  let* stream := open_stream header key in
  let* _ := assert (is_not_finalized stream) in
  let* stream := pull_expect stream c1 None Message msg1 in
  let* _ := assert (is_not_finalized stream) in
  let* stream := pull_expect stream c2 None Rekey msg2 in
  let* _ := assert (is_not_finalized stream) in
  let* stream := pull_expect stream c3 None Final msg3 in
  assert (is_finalized stream).

Definition push_pull_with_explicit_rekey : M unit :=
  let* '(msg1, msg2, msg3) := three_messages in
  let* '(key, stream, header) := new_stream in
  let* '(c1, stream) := push_ok stream msg1 None Message in
  let* '(c2, stream) := push_ok stream msg2 None Push in
  let* _ := rekey_ok stream in
  let* '(c3, stream) := push_ok stream msg3 None Final in
  let* stream := open_stream header key in
  let* _ := assert (is_not_finalized stream) in
  let* stream := pull_expect stream c1 None Message msg1 in
  let* _ := assert (is_not_finalized stream) in
  let* stream := pull_expect stream c2 None Push msg2 in
  let* _ := assert (is_not_finalized stream) in
  let* _ := rekey_ok stream in
  let* _ := assert (is_not_finalized stream) in
  let* stream := pull_expect stream c3 None Final msg3 in
  assert (is_finalized stream).

(** One message through the two vectors that are used again, with the assertions
    on what arrives. *)
Definition recycled_round (push_stream : Stream PushMode) (pull_stream : Stream PullMode)
    (c_buf m_buf : vec) (msg : slice) (tag : Tag) : M (Stream PushMode * Stream PullMode * vec * vec) :=
  let* '(r, push_stream, c_buf) := push_to_vec A push_stream msg None tag c_buf in
  let* _ := unwrap r in
  let* '(r, pull_stream, m_buf) := pull_to_vec A pull_stream (v_slice c_buf) None m_buf in
  let* t := unwrap r in
  let* _ := assert (bool_decide (t = tag)) in
  let* a := slice_bytes msg in
  let* b := slice_bytes (v_slice m_buf) in
  let* _ := assert_eq a b in
  ret (push_stream, pull_stream, c_buf, m_buf).

Definition push_pull_with_recycled_vec : M unit :=
  let* '(msg1, msg2, msg3) := three_messages in
  let* '(key, push_stream, header) := new_stream in
  let* pull_stream := open_stream header key in
  let* c_buf := vec_new in
  let* m_buf := vec_new in
  let* '(push_stream, pull_stream, c_buf, m_buf) :=
    recycled_round push_stream pull_stream c_buf m_buf msg1 Message in
  let* _ := assert (is_not_finalized push_stream) in
  let* _ := assert (is_not_finalized pull_stream) in
  let* '(push_stream, pull_stream, c_buf, m_buf) :=
    recycled_round push_stream pull_stream c_buf m_buf msg2 Message in
  let* _ := assert (is_not_finalized push_stream) in
  let* _ := assert (is_not_finalized pull_stream) in
  let* '(push_stream, pull_stream, c_buf, m_buf) :=
    recycled_round push_stream pull_stream c_buf m_buf msg3 Final in
  let* _ := assert (is_finalized push_stream) in
  assert (is_finalized pull_stream).

Definition cannot_pull_after_finalization : M unit :=
  let* m := stack_array 128 in
  let* '(key, stream, header) := new_stream in
  let* '(c, stream) := push_ok stream (Slice (At m 0) 128) None Final in
  let* stream := open_stream header key in
  let* _ := assert (is_not_finalized stream) in
  let* '(r, stream) := pull A stream (v_slice c) None in
  let* _ := unwrap r in
  let* '(r, _) := pull A stream (v_slice c) None in
  assert_is_err r.

Definition cannot_push_after_finalization : M unit :=
  let* m := stack_array 128 in
  let* '(_, stream, _) := new_stream in
  let* '(_, stream) := push_ok stream (Slice (At m 0) 128) None Final in
  let* '(r, _) := push A stream (Slice (At m 0) 128) None Message in
  assert_is_err r.

Definition cannot_rekey_after_finalization : M unit :=
  let* m := stack_array 128 in
  let* '(key, stream, header) := new_stream in
  let* '(c, stream) := push_ok stream (Slice (At m 0) 128) None Final in
  let* stream := open_stream header key in
  let* _ := assert (is_not_finalized stream) in
  let* '(r, stream) := pull A stream (v_slice c) None in
  let* _ := unwrap r in
  let* r := rekey A stream in
  assert_is_err r.

Definition finalize_with_ad : M unit :=
  let* m := stack_array 128 in
  let* ad := stack_array 64 in
  let '(m, ad) := (Slice (At m 0) 128, Slice (At ad 0) 64) in
  let* _ := randombytes_into m in
  let* _ := randombytes_into ad in
  let* '(key, stream, header) := new_stream in
  let* '(c1, stream) := push_ok stream m None Message in
  let* r := finalize A stream (Some ad) in
  let* c2 := unwrap r in
  let* stream := open_stream header key in
  let* stream := pull_expect stream c1 None Message m in
  let* _ := pull_expect stream c2 (Some ad) Final (Slice Null 0) in
  ret tt.

Definition tag_from_u8 : M unit :=
  let same t z := let* t' := unwrap (from_u8 A z) in assert (bool_decide (t = t')) in
  let* _ := same Message 0 in
  let* _ := same Push 1 in
  let* _ := same Rekey 2 in
  let* _ := same Final 3 in
  for_range 4 252 (fun i => assert_is_err (from_u8 A i)).

End StreamTests.

(** ** Rules of the streams *)

Section StreamRules.
Context `{T : Target} `{R : RandombytesExterns} {RD : RandombytesDoc R}.
Context {A : secretstream_module} {D : SecretstreamDoc A}.
Import secretstream.

(** The keys are of a positive size, and no message of a test is too long. *)
Context (Hkey : 0 <= ss_keybytes A) (Hmax : 478 <= ss_max).

Lemma holds_stream {m} w ls b s f :
  holds w ls -> ls !! b = Some s -> zlen s = ss_state_size A ->
  is_stream (A := A) w (MkStream (At b 0) f : Stream m) s.
Proof. intros Hw Hb Hs. unfold is_stream. cbn [state]. rewrite <- Hs. by eapply holds_ref. Qed.

(** The foreign state is overwritten. *)
Lemma holds_write w m b s s' :
  holds w m -> m !! b = Some s -> zlen s' = zlen s -> holds (w_write (At b 0) s' w) (<[b := s']> m).
Proof.
  intros Hw Hb Hl. eapply holds_insert; [done|]. eapply mem_write_block; [by apply Hw|].
  rewrite length_fmap. unfold zlen in Hl. lia.
Qed.

Lemma holds_put w m bs c :
  holds w m -> w_mem w !! c = None -> holds (w_put c (Some <$> bs) w) (<[c := bs]> m).
Proof. intros Hw _. by eapply holds_insert. Qed.

Lemma new_stream_does w m :
  holds w m ->
  does w (new_stream A) (fun r w' => exists key b header kb hb,
    r = (At key 0, MkStream (At b 0) false, At header 0) /\
    m !! key = None /\ <[key := kb]> m !! b = None /\
    <[b := ss_start kb hb]> (<[key := kb]> m) !! header = None /\
    zlen kb = ss_keybytes A /\ zlen hb = ss_headerbytes A /\
    holds w' (<[header := hb]> (<[b := ss_start kb hb]> (<[key := kb]> m)))).
Proof.
  intros Hw. unfold new_stream. eapply does_bind; [by apply (makes_key (ss_keybytes A))|].
  intros kb w1 [Hg Hkb].
  assert (Hw1 : holds w1 m) by (intros b bs Hb; eapply lookup_weaken; [by apply Hw|exact Hg]).
  eapply local_place; [exact Hw1|]. intros key w2 Hk Hw2.
  pose proof ss_header_range.
  set (hb := entropy (ss_headerbytes A) w2). set (w3 := w_consume (ss_headerbytes A) w2).
  set (b := fresh_block w3). pose proof (fresh_block_spec w3 : w_mem w2 !! b = None) as Hb.
  set (w4 := w_put b (Some <$> ss_start kb hb) w3).
  assert (Hw4 : holds w4 (<[b := ss_start kb hb]> (<[key := kb]> m))) by (by eapply holds_insert).
  eapply local_run.
  { apply (init_push_run w2 (At key 0) kb).
    rewrite <- Hkb. eapply holds_ref; [exact Hw2|apply lookup_insert_eq]. }
  eapply local_unwrap; [reflexivity|]. cbv beta iota.
  eapply local_place; [exact Hw4|]. intros header w5 Hh Hw5. apply does_ret.
  exists key, b, header, kb, hb. split_and!; try done; [by eapply holds_None|].
  unfold hb. apply entropy_zlen. lia.
Qed.

Lemma open_stream_does w m key header kb hb :
  holds w m -> m !! key = Some kb -> m !! header = Some hb ->
  zlen kb = ss_keybytes A -> zlen hb = ss_headerbytes A ->
  does w (open_stream A (At header 0) (At key 0)) (fun r w' => exists b,
    r = MkStream (At b 0) false /\ m !! b = None /\ holds w' (<[b := ss_start kb hb]> m)).
Proof.
  intros Hw Hk Hh Hkl Hhl. pose proof (fresh_block_spec w) as Hb. set (b := fresh_block w) in *.
  set (w1 := w_put b (Some <$> ss_start kb hb) w).
  eapply local_run.
  { apply (init_pull_run w (At header 0) (At key 0) hb kb).
    - rewrite <- Hhl. by eapply holds_ref.
    - rewrite <- Hkl. by eapply holds_ref. }
  apply does_ret. exists b. split; [done|]. split; [by eapply holds_None|].
  by apply holds_put.
Qed.

(** A message of a test: short enough, and in memory. *)
Definition is_msg (w : world) (sl : slice) (mb : bytes) : Prop := is_slice w sl mb /\ zlen mb <= 478.

Lemma msg_sizes (mb : bytes) : zlen mb <= 478 -> zlen mb <= ss_max /\ zlen mb + ss_abytes A <= isize_max.
Proof. pose proof isize_max_bounds. pose proof ss_abytes_range. lia. Qed.

(** What a push leaves: the ciphertext in a new vector, and the next state. *)
Definition pushed (m : gmap positive bytes) (b : positive) (s mb adb : bytes) (t : Tag)
    (c : vec) (w' : world) : Prop :=
  exists v, c = Vec v (zlen mb + ss_abytes A) (zlen mb + ss_abytes A) /\ m !! v = None /\
    holds w' (<[v := ss_seal s adb mb (tag_as_u8 t)]> (<[b := ss_next s adb mb (tag_as_u8 t)]> m)).

Lemma push_does w m b s sl mb ad adb t :
  holds w m -> m !! b = Some s -> zlen s = ss_state_size A -> is_msg w sl mb -> is_opt_slice w ad adb ->
  does w (push A (MkStream (At b 0) false) sl ad t) (fun r w' => exists c,
    r = (Ok c, MkStream (At b 0) (bool_decide (t = Final))) /\ pushed m b s mb adb t c w').
Proof.
  intros Hw Hb Hs [Hsl Hl] Had. destruct (msg_sizes mb Hl) as [? ?].
  pose proof (fresh_block_spec w) as Hc. eapply does_eq.
  - pose proof (push_run (MkStream (At b 0) false) sl ad t w s mb adb eq_refl) as Hrun.
    apply Hrun; [done|done|by eapply holds_stream|done|done].
  - eexists. split; [reflexivity|]. exists (fresh_block w). split; [reflexivity|]. split; [by eapply holds_None|].
    apply holds_put; [|by apply mem_write_None].
    apply (holds_write w m b s); [done..|]. by rewrite ss_next_zlen.
Qed.

Lemma push_ok_does w m b s sl mb ad adb t :
  holds w m -> m !! b = Some s -> zlen s = ss_state_size A -> is_msg w sl mb -> is_opt_slice w ad adb ->
  does w (push_ok A (MkStream (At b 0) false) sl ad t) (fun r w' => exists c,
    r = (c, MkStream (At b 0) (bool_decide (t = Final))) /\ pushed m b s mb adb t c w').
Proof.
  intros Hw Hb Hs Hsl Had. eapply does_bind; [by apply push_does|]. intros _ w' (c & -> & Hc).
  cbv beta iota. eapply local_unwrap; [reflexivity|]. apply does_ret. by exists c.
Qed.

Lemma finalize_ok_does w m b s ad adb :
  holds w m -> m !! b = Some s -> zlen s = ss_state_size A -> is_opt_slice w ad adb ->
  does w (finalize A (MkStream (At b 0) false) ad) (fun r w' => exists c,
    r = Ok c /\ pushed m b s [] adb Final c w').
Proof.
  intros Hw Hb Hs Had. pose proof isize_max_bounds.
  assert (Hsl : is_msg w (Slice Null 0) []) by (unfold is_msg, is_slice; change (zlen []) with 0; cbn [s_len]; auto with lia mem).
  eapply does_bind; [by apply (push_does w m b s (Slice Null 0) [] ad adb Final)|].
  intros _ w' (c & -> & Hc). apply does_ret. by exists c.
Qed.

Lemma pull_does w m b s c n ad adb mb t :
  holds w m -> m !! b = Some s -> zlen s = ss_state_size A -> is_opt_slice w ad adb ->
  m !! c = Some (ss_seal s adb mb (tag_as_u8 t)) -> n = zlen mb + ss_abytes A -> zlen mb <= 478 ->
  does w (pull A (MkStream (At b 0) false) (v_slice (Vec c n n)) ad) (fun r w' => exists v,
    r = (Ok (Vec v (zlen mb) (zlen mb), t), MkStream (At b 0) (bool_decide (t = Final))) /\
    m !! v = None /\ holds w' (<[v := mb]> (<[b := ss_next s adb mb (tag_as_u8 t)]> m))).
Proof.
  intros Hw Hb Hs Had Hc -> Hl. destruct (msg_sizes mb Hl) as [? ?]. pose proof ss_abytes_range.
  pose proof (ss_seal_zlen s adb mb (tag_as_u8 t)) as Hz. pose proof (zlen_nonneg mb).
  pose proof (fresh_block_spec w) as Hv. set (v := fresh_block w) in *.
  eapply does_eq.
  - rewrite (pull_run _ _ ad w s (ss_seal s adb mb (tag_as_u8 t)) adb);
      [|by eapply holds_stream|by eapply holds_slice|done].
    rewrite decide_True by (split_and!; [done|lia|lia]).
    rewrite ss_open_seal by apply tag_as_u8_range. cbv zeta. rewrite pulled_tag by done. reflexivity.
  - exists v. split; [done|]. split; [by eapply holds_None|]. apply holds_put.
    + apply (holds_write w m b s); [done..|]. by rewrite ss_next_zlen.
    + by apply mem_write_None.
Qed.

Lemma pull_expect_does w m b s c n ad adb sl mb t :
  holds w m -> m !! b = Some s -> zlen s = ss_state_size A -> is_opt_slice w ad adb ->
  m !! c = Some (ss_seal s adb mb (tag_as_u8 t)) -> n = zlen mb + ss_abytes A ->
  is_msg w sl mb ->
  (forall w' v, m !! v = None -> holds w' (<[v := mb]> (<[b := ss_next s adb mb (tag_as_u8 t)]> m)) ->
     is_slice w' sl mb) ->
  does w (pull_expect A (MkStream (At b 0) false) (Vec c n n) ad t sl) (fun r w' => exists v,
    r = MkStream (At b 0) (bool_decide (t = Final)) /\
    m !! v = None /\ holds w' (<[v := mb]> (<[b := ss_next s adb mb (tag_as_u8 t)]> m))).
Proof.
  intros Hw Hb Hs Had Hc Hn [_ Hl] Hsl. unfold pull_expect.
  eapply does_bind; [by apply (pull_does w m b s c n ad adb mb t)|].
  intros _ w1 (v & -> & Hv & Hw1). cbv beta iota. eapply local_unwrap; [reflexivity|]. cbv beta iota.
  apply local_assert; [by apply bool_decide_true|].
  assert (Hn1 : zlen mb <= isize_max) by (pose proof isize_max_bounds; lia).
  exists (MkStream (At b 0) (bool_decide (t = Final))), w1. split; [|eauto].
  eapply bind_step; [apply (slice_bytes_run _ _ mb); by eapply Hsl|].
  eapply bind_step.
  { apply (slice_bytes_run _ _ mb). eapply holds_slice; [exact Hw1|apply lookup_insert_eq|done|done]. }
  eapply bind_step; [|reflexivity]. unfold assert_eq, assert. by rewrite bool_decide_true.
Qed.

Lemma rekey_ok_does {k} w m b s :
  holds w m -> m !! b = Some s -> zlen s = ss_state_size A ->
  does w (rekey_ok A (MkStream (At b 0) false : Stream k)) (fun _ w' => holds w' (<[b := ss_rekeyed s]> m)).
Proof.
  intros Hw Hb Hs. pose proof (rekey_run (MkStream (At b 0) false : Stream k) w s) as Hrun.
  specialize (Hrun (holds_stream w m b s false Hw Hb Hs)). unfold rekey_ok.
  eapply local_run; [exact Hrun|]. apply does_ret. apply (holds_write w m b s); [done..|]. by rewrite ss_rekeyed_zlen.
Qed.

(** *** Vectors that are used again *)

(** A vector and its allocation, spare capacity included *)
Definition has_vec (w : world) (v : vec) (bs : bytes) : Prop :=
  is_vec w v bs /\ exists c, w_mem w !! v_block v = Some c /\ zlen c = v_cap v.

Lemma has_vec_block w w' v bs :
  has_vec w v bs -> w_mem w' !! v_block v = w_mem w !! v_block v -> has_vec w' v bs.
Proof.
  intros [[Hb Hl] (c & Hc & Hz)] E. split; [|exists c; by rewrite E]. split; [|done].
  revert Hb. unfold bytes_at, read_cells, v_ptr. by rewrite E.
Qed.

Lemma holds_del w m b : holds w m -> m !! b = None -> holds (w_del b w) m.
Proof.
  intros Hw Hb x bs Hx. cbn. rewrite lookup_delete_ne; [by apply Hw|]. intros <-. congruence.
Qed.

(** What is kept when the vector [out] is filled again and the state in [b] is
    replaced. *)
Lemma refilled w m b s s' out out' w' :
  holds w m -> m !! b = Some s -> zlen s' = zlen s -> m !! v_block out = None ->
  on_top out' (w_write (At b 0) s' (w_del (v_block out) w)) w' ->
  holds w' (<[b := s']> m) /\ m !! v_block out' = None /\
  (exists c, w_mem w' !! v_block out' = Some c /\ zlen c = v_cap out') /\
  forall v bs, has_vec w v bs -> v_block v <> v_block out -> m !! v_block v = None ->
    has_vec w' v bs /\ v_block v <> v_block out'.
Proof.
  intros Hw Hb Hl Ho (Hf & c & Hc & _ & E). pose proof (holds_del w m _ Hw Ho) as Hw0.
  pose proof (holds_write _ m b s s' Hw0 Hb Hl) as Hw1.
  assert (Em : w_mem (w_write (At b 0) s' (w_del (v_block out) w)) =
               <[b := Some <$> s']> (delete (v_block out) (w_mem w))).
  { apply (mem_write_block (w_del (v_block out) w) b (Some <$> s)); [by apply Hw0|].
    rewrite length_fmap. unfold zlen in Hl. lia. }
  split_and!.
  - intros x bs Hx. rewrite E. rewrite lookup_insert_ne; [by apply Hw1|].
    intros <-. by rewrite (Hw1 _ _ Hx) in Hf.
  - apply mem_write_None in Hf. by eapply holds_None.
  - exists c. rewrite E, lookup_insert_eq. done.
  - intros v bs Hv Hne Hm. assert (Hvb : v_block v <> b) by (intros <-; congruence).
    assert (Hlk : w_mem (w_write (At b 0) s' (w_del (v_block out) w)) !! v_block v = w_mem w !! v_block v).
    { by rewrite Em, lookup_insert_ne, lookup_delete_ne. }
    assert (Hout : v_block v <> v_block out').
    { destruct Hv as [_ (cv & Hcv & _)]. intros Hx. rewrite Hx in Hlk, Hcv. congruence. }
    split; [|done]. eapply has_vec_block; [exact Hv|]. by rewrite E, lookup_insert_ne.
Qed.

Lemma w_put_del b c w : w_mem w !! b = Some c -> w_put b c (w_del b w) = w.
Proof. intros Hb. unfold w_put, w_del. cbn. rewrite insert_delete_eq, insert_id by done. apply world_eta. Qed.

Lemma push_to_vec_does w m b s bm n mb t out old :
  holds w m -> m !! b = Some s -> zlen s = ss_state_size A ->
  m !! bm = Some mb -> n = zlen mb -> zlen mb <= 478 ->
  has_vec w out old -> m !! v_block out = None ->
  does w (push_to_vec A (MkStream (At b 0) false) (Slice (At bm 0) n) None t out) (fun r w' => exists out',
    let s' := ss_next s [] mb (tag_as_u8 t) in
    r = (Ok tt, MkStream (At b 0) (bool_decide (t = Final)), out') /\
    has_vec w' out' (ss_seal s [] mb (tag_as_u8 t)) /\ m !! v_block out' = None /\
    holds w' (<[b := s']> m) /\
    forall v bs, has_vec w v bs -> v_block v <> v_block out -> m !! v_block v = None ->
      has_vec w' v bs /\ v_block v <> v_block out').
Proof.
  intros Hw Hb Hs Hm -> Hl [[_ (_ & _ & Hcap)] (c & Hc & Hz)] Ho. destruct (msg_sizes mb Hl) as [? ?].
  pose proof (holds_del w m _ Hw Ho) as Hw0. pose proof isize_max_bounds.
  pose proof (push_to_vec_run (MkStream (At b 0) false) (Slice (At bm 0) (zlen mb)) None t
    (v_block out) (v_len out) (v_cap out) c (w_del (v_block out) w) s mb []) as Hrun.
  rewrite w_put_del in Hrun by done. destruct out as [bo lo co]. cbn [v_block v_len v_cap] in *.
  destruct Hrun as (out' & w' & Hpush & Hv' & _ & Htop);
    [done|done|done|apply lookup_delete_eq|done|done|by eapply holds_stream| |done|].
  { eapply holds_slice; [exact Hw0|done|done|lia]. }
  eapply does_eq; [exact Hpush|]. exists out'. cbv zeta. cbn [state] in Htop.
  destruct (refilled w m b s _ (Vec bo lo co) out' w' Hw Hb ltac:(by rewrite ss_next_zlen) Ho Htop)
    as (Hh & Hn & Hc' & Hfr). split; [done|]. split; [by split|done].
Qed.

Lemma pull_to_vec_does w m b s c mb t out old :
  holds w m -> m !! b = Some s -> zlen s = ss_state_size A -> zlen mb <= 478 ->
  has_vec w c (ss_seal s [] mb (tag_as_u8 t)) -> m !! v_block c = None -> v_block c <> v_block out ->
  has_vec w out old -> m !! v_block out = None ->
  does w (pull_to_vec A (MkStream (At b 0) false) (v_slice c) None out) (fun r w' => exists out',
    let s' := ss_next s [] mb (tag_as_u8 t) in
    r = (Ok t, MkStream (At b 0) (bool_decide (t = Final)), out') /\
    has_vec w' out' mb /\ m !! v_block out' = None /\
    holds w' (<[b := s']> m) /\
    forall v bs, has_vec w v bs -> v_block v <> v_block out -> m !! v_block v = None ->
      has_vec w' v bs /\ v_block v <> v_block out').
Proof.
  intros Hw Hb Hs Hl Hv Hcm Hne [[_ (_ & _ & Hcap)] (cl & Hc & Hz)] Ho. destruct (msg_sizes mb Hl) as [? ?].
  pose proof (holds_del w m _ Hw Ho) as Hw0. pose proof ss_abytes_range. pose proof (zlen_nonneg mb).
  pose proof (ss_seal_zlen s [] mb (tag_as_u8 t)) as Hct. set (ct := ss_seal s [] mb (tag_as_u8 t)) in *.
  pose proof (pull_to_vec_run (MkStream (At b 0) false) (v_slice c) None
    (v_block out) (v_len out) (v_cap out) cl (w_del (v_block out) w) s ct []) as Hrun.
  rewrite w_put_del in Hrun by done. destruct out as [bo lo co]. cbn [v_block v_len v_cap] in *.
  destruct Hrun as (out' & w' & Hpull & Hv' & _ & Htop);
    [apply lookup_delete_eq|done|done|by eapply holds_stream| |done|split_and!; [done|lia|lia]|].
  { apply is_vec_slice. apply (has_vec_block w (w_del bo w)) in Hv as [? _]; [done|].
    cbn. by rewrite lookup_delete_ne. }
  assert (Hopen : ss_open s [] ct = Some (mb, tag_as_u8 t)) by apply ss_open_seal, tag_as_u8_range.
  rewrite Hopen in *. rewrite pulled_tag in Hpull by done.
  eapply does_eq; [exact Hpull|]. exists out'. cbv zeta. cbn [state] in Htop.
  destruct (refilled w m b s _ (Vec bo lo co) out' w' Hw Hb ltac:(by rewrite ss_next_zlen) Ho Htop)
    as (Hh & Hn & Hc' & Hfr). split; [done|]. split; [by split|done].
Qed.

Lemma vec_new_does w m :
  holds w m ->
  does w vec_new (fun v w' => has_vec w' v [] /\ m !! v_block v = None /\ holds w' m /\
    forall u bs, has_vec w u bs -> has_vec w' u bs /\ v_block u <> v_block v).
Proof.
  intros Hw. pose proof (fresh_block_spec w) as Hb. set (b := fresh_block w) in *.
  eapply does_eq; [reflexivity|]. fold b. pose proof isize_max_bounds.
  split; [|split; [|split]]; cbn [v_block].
  - split; [|exists []; split; [apply lookup_insert_eq|done]].
    split; [apply bytes_at_nil|]. cbn [v_len v_cap]. change (zlen []) with 0. lia.
  - by eapply holds_None.
  - intros x bs Hx. cbn. rewrite lookup_insert_ne; [by apply Hw|]. intros <-.
    by rewrite (Hw _ _ Hx) in Hb.
  - intros u bs Hu. assert (Hne : v_block u <> b).
    { destruct Hu as [_ (c & Hc & _)]. congruence. }
    split; [|done]. eapply has_vec_block; [exact Hu|]. cbn. by rewrite lookup_insert_ne.
Qed.

(** Two streams in the same state, and two vectors. *)
Record recycling (w : world) (m : gmap positive bytes) (bp bq : positive) (s : bytes) (c_buf m_buf : vec) : Prop := {
  rc_holds : holds w m;
  rc_push : m !! bp = Some s;
  rc_pull : m !! bq = Some s;
  rc_apart : bp <> bq;
  rc_size : zlen s = ss_state_size A;
  rc_cbuf : m !! v_block c_buf = None /\ exists bs, has_vec w c_buf bs;
  rc_mbuf : m !! v_block m_buf = None /\ exists bs, has_vec w m_buf bs;
  rc_bufs : v_block c_buf <> v_block m_buf
}.

Lemma recycled_round_does w m bp bq s c_buf m_buf bm n mb t :
  recycling w m bp bq s c_buf m_buf ->
  m !! bm = Some mb -> bm <> bp -> bm <> bq -> n = zlen mb -> zlen mb <= 478 ->
  does w (recycled_round A (MkStream (At bp 0) false) (MkStream (At bq 0) false) c_buf m_buf
            (Slice (At bm 0) n) t) (fun r w' => exists c_buf' m_buf' m' s',
    let f := bool_decide (t = Final) in
    r = (MkStream (At bp 0) f, MkStream (At bq 0) f, c_buf', m_buf') /\
    recycling w' m' bp bq s' c_buf' m_buf' /\
    forall x, x <> bp -> x <> bq -> m' !! x = m !! x).
Proof.
  intros [Hw Hp Hq Hne Hs [Hc [cb Hcv]] [Hm [mb0 Hmv]] Hcm] Hbm Hbp Hbq -> Hl.
  unfold recycled_round. eapply does_bind; [by eapply (push_to_vec_does w m bp s bm _ mb t c_buf cb)|].
  intros _ w1 (c1 & -> & Hc1 & Hc1m & Hw1 & Hfr). cbv beta iota zeta.
  destruct (Hfr m_buf mb0 Hmv ltac:(by apply not_eq_sym) Hm) as [Hmv1 Hne1].
  eapply local_unwrap; [reflexivity|]. set (s' := ss_next s [] mb (tag_as_u8 t)) in *.
  assert (Hnone : forall x, m !! x = None -> <[bp := s']> m !! x = None).
  { intros x Hx. rewrite lookup_insert_ne; [done|]. intros <-. congruence. }
  eapply does_bind.
  { eapply (pull_to_vec_does w1 (<[bp := s']> m) bq s c1 mb t m_buf mb0);
      [done|by rewrite lookup_insert_ne|done|done|done|by apply Hnone|by apply not_eq_sym|done|by apply Hnone]. }
  intros _ w2 (m1 & -> & Hm1 & Hm1m & Hw2 & Hfr2). cbv beta iota zeta. fold s' in Hw2.
  destruct (Hfr2 c1 _ Hc1 ltac:(by apply not_eq_sym) ltac:(by apply Hnone)) as [Hc2 Hne2].
  eapply local_unwrap; [reflexivity|]. apply local_assert; [by apply bool_decide_true|].
  set (m2 := <[bq := s']> (<[bp := s']> m)) in *.
  assert (Hother : forall x, x <> bp -> x <> bq -> m2 !! x = m !! x).
  { intros x ? ?. unfold m2. by rewrite !lookup_insert_ne by (by apply not_eq_sym). }
  assert (Hnone2 : forall x, <[bp := s']> m !! x = None -> m2 !! x = None).
  { intros x Hx. unfold m2. rewrite lookup_insert_ne; [done|]. intros <-.
    by rewrite lookup_insert_ne, Hq in Hx. }
  eapply local_read; [exact Hw2|by rewrite Hother|done|].
  destruct Hm1 as [Hm1v Hm1c]. eapply local_run; [by apply slice_bytes_run, is_vec_slice|].
  eapply local_run; [unfold assert_eq, assert; by rewrite bool_decide_true|]. apply does_ret.
  exists c1, m1, m2, s'. split; [done|]. split; [|done]. split.
  - done.
  - unfold m2. rewrite lookup_insert_ne by done. apply lookup_insert_eq.
  - apply lookup_insert_eq.
  - done.
  - apply ss_next_zlen.
  - split; [by apply Hnone2, Hnone|eauto].
  - split; [by apply Hnone2|]. exists mb. by split.
  - done.
Qed.

End StreamRules.

(** ** The tests pass *)

Ltac size_tac :=
  solve [ done | apply ss_next_zlen | apply ss_rekeyed_zlen | apply ss_start_zlen
        | pose proof isize_max_bounds; zlia ].

(** The arguments of a call *)
Ltac arg_tac :=
  lazymatch goal with
  | |- holds _ _ => eassumption
  | |- _ !! _ = Some _ => local_tac
  | |- is_msg _ _ _ => split; [arg_tac|size_tac]
  | |- is_slice _ (Slice Null 0) [] => split; [apply bytes_at_nil|split; size_tac]
  | |- is_slice _ _ _ => eapply holds_slice; [eassumption|local_tac|size_tac|size_tac]
  | |- is_opt_slice _ None _ => reflexivity
  | |- is_opt_slice _ (Some _) _ => cbn [is_opt_slice]; arg_tac
  | |- forall w' v, _ -> holds _ _ -> is_slice _ _ _ => intros ? ? ? ?; fresh_facts; arg_tac
  | |- _ => size_tac
  end.

(** Whether the tag of a message is [Final] *)
Ltac closed_tags :=
  repeat match goal with
  | |- context [bool_decide (secretstream.Final = secretstream.Final)] =>
      rewrite (bool_decide_true (secretstream.Final = secretstream.Final)) by done
  | |- context [bool_decide (?t = secretstream.Final)] =>
      rewrite (bool_decide_false (t = secretstream.Final)) by done
  end.

(** One statement of a test *)
Ltac test_step rule :=
  eapply does_bind; [eapply rule; arg_tac|];
  let H := fresh in intros ? ? H; cbv beta delta [pushed] in H; take_apart H; cbv beta iota; fresh_facts;
  closed_tags.

Section StreamTestsPass.
Context `{T : Target} `{R : RandombytesExterns} {RD : RandombytesDoc R}.
Context {A : secretstream_module} {D : SecretstreamDoc A}.
Import secretstream.
Context (Hkey : 0 <= ss_keybytes A) (Hmax : 478 <= ss_max).

Lemma three_messages_does w :
  does w three_messages (fun r w' => exists m b1 b2 b3 m1 m2 m3,
    r = (Slice (At b1 0) 128, Slice (At b2 0) 34, Slice (At b3 0) 478) /\ holds w' m /\
    m !! b1 = Some m1 /\ m !! b2 = Some m2 /\ m !! b3 = Some m3 /\
    zlen m1 = 128 /\ zlen m2 = 34 /\ zlen m3 = 478).
Proof.
  unfold three_messages. eapply local_array; [apply holds_empty|]. intros b1 w1 _ Hw1.
  eapply local_array; [exact Hw1|]. intros b2 w2 H2 Hw2. eapply local_array; [exact Hw2|]. intros b3 w3 H3 Hw3.
  fresh_facts.
  eapply (local_fill _ (RD := RD)); [exact Hw3|local_tac|by rewrite zlen_zeros|]. intros m1 w4 Hl1 Hw4.
  eapply (local_fill _ (RD := RD)); [exact Hw4|local_tac|by rewrite zlen_zeros|]. intros m2 w5 Hl2 Hw5.
  eapply (local_fill _ (RD := RD)); [exact Hw5|local_tac|by rewrite zlen_zeros|]. intros m3 w6 Hl3 Hw6.
  apply does_ret. eexists _, b1, b2, b3, m1, m2, m3. split; [done|]. split; [exact Hw6|].
  split_and!; try done; local_tac.
Qed.

(** Run the statements up to the first message. *)
Ltac start_messages :=
  eapply does_bind; [apply three_messages_does|];
  intros _ ? (? & ? & ? & ? & ? & ? & ? & -> & ? & ? & ? & ? & ? & ? & ?); cbv beta iota.

Lemma push_pull_passes : passes (push_pull A).
Proof.
  intros w. unfold push_pull. start_messages. test_step new_stream_does.
  do 3 (test_step (push_ok_does Hmax); check).
  test_step open_stream_does. check.
  do 3 test_step (pull_expect_does Hmax). by apply does_ret.
Qed.

Lemma push_pull_with_rekey_passes : passes (push_pull_with_rekey A).
Proof.
  intros w. unfold push_pull_with_rekey. start_messages. test_step new_stream_does.
  do 3 test_step (push_ok_does Hmax).
  test_step open_stream_does. check.
  do 2 (test_step (pull_expect_does Hmax); check).
  test_step (pull_expect_does Hmax). by apply does_assert.
Qed.

Lemma push_pull_with_explicit_rekey_passes : passes (push_pull_with_explicit_rekey A).
Proof.
  intros w. unfold push_pull_with_explicit_rekey. start_messages. test_step new_stream_does.
  do 2 test_step (push_ok_does Hmax). test_step (rekey_ok_does (k := PushMode)).
  test_step (push_ok_does Hmax).
  test_step open_stream_does. check.
  do 2 (test_step (pull_expect_does Hmax); check). 
  test_step (rekey_ok_does (k := PullMode)). check.
  test_step (pull_expect_does Hmax). by apply does_assert.
Qed.

Ltac fill := eapply (local_fill _ (RD := RD)); [eassumption|local_tac|by rewrite zlen_zeros|]; intros ? ? ? ?.

Lemma push_pull_with_ad_passes : passes (push_pull_with_ad A).
Proof.
  intros w. unfold push_pull_with_ad. assert (Hw : holds w ∅) by apply holds_empty.
  do 5 (eapply local_array; [eassumption|]; intros; fresh_facts). cbv beta iota.
  do 5 fill. test_step new_stream_does.
  do 3 test_step (push_ok_does Hmax).
  test_step open_stream_does. check.
  do 2 (test_step (pull_expect_does Hmax); check).
  test_step (pull_expect_does Hmax). by apply does_assert.
Qed.

Lemma finalize_with_ad_passes : passes (finalize_with_ad A).
Proof.
  intros w. unfold finalize_with_ad. assert (Hw : holds w ∅) by apply holds_empty.
  do 2 (eapply local_array; [eassumption|]; intros; fresh_facts). cbv beta iota.
  do 2 fill. test_step new_stream_does. test_step (push_ok_does Hmax).
  test_step (finalize_ok_does Hmax). eapply local_unwrap; [reflexivity|].
  test_step open_stream_does.
  do 2 test_step (pull_expect_does Hmax). by apply does_ret.
Qed.

Lemma push_pull_with_recycled_vec_passes : passes (push_pull_with_recycled_vec A).
Proof.
  intros w. unfold push_pull_with_recycled_vec. start_messages. test_step new_stream_does.
  test_step open_stream_does.
  lazymatch goal with |- does ?w0 _ _ =>
    lazymatch goal with H : holds w0 _ |- _ => rename H into Hw end end.
  eapply does_bind; [by apply vec_new_does|]. intros c0 w3 (Hc0 & Hc0m & Hw3 & _).
  eapply does_bind; [by apply vec_new_does|]. intros m0 w4 (Hm0 & Hm0m & Hw4 & Hfr).
  destruct (Hfr c0 [] Hc0) as [Hc0' Hne].
  eapply does_bind.
  { eapply (recycled_round_does Hmax); [split| |..];
      [exact Hw4|local_tac|apply lookup_insert_eq|ne_tac|apply ss_start_zlen|eauto|eauto|done
      |local_tac|ne_tac|ne_tac|done|size_tac]. }
  intros _ w5 (c1 & m1 & l1 & s1 & -> & Hr1 & Hl1). cbv beta iota zeta. closed_tags. do 2 check.
  eapply does_bind.
  { eapply (recycled_round_does Hmax); [exact Hr1|rewrite Hl1;[local_tac|ne_tac|ne_tac]|ne_tac|ne_tac|done|size_tac]. }
  intros _ w6 (c2 & m2 & l2 & s2 & -> & Hr2 & Hl2). cbv beta iota zeta. closed_tags. do 2 check.
  eapply does_bind.
  { eapply (recycled_round_does Hmax); [exact Hr2|rewrite Hl2, Hl1;[local_tac|ne_tac..]|ne_tac|ne_tac|done|size_tac]. }
  intros _ w7 (c3 & m3 & l3 & s3 & -> & Hr3 & Hl3). cbv beta iota zeta. closed_tags. check.
  by apply does_assert.
Qed.

(** A stream that is finalized refuses everything without looking at it. *)
Ltac refused := eapply local_run; [reflexivity|]; cbv beta iota.

(** The array of a test, and its streams *)
Ltac start_array :=
  eapply local_array; [apply holds_empty|]; intros; test_step (new_stream_does (D := D) (RD := RD)).

Lemma decrypt_too_short_ciphertext_passes : passes (decrypt_too_short_ciphertext A).
Proof.
  intros w. unfold decrypt_too_short_ciphertext. start_array. test_step open_stream_does.
  unfold pull, pull_check. cbn [finalized s_len]. rewrite (proj2 (Z.ltb_lt _ _)) by lia.
  refused. by apply does_assert.
Qed.

Lemma cannot_pull_after_finalization_passes : passes (cannot_pull_after_finalization A).
Proof.
  intros w. unfold cannot_pull_after_finalization. start_array. test_step (push_ok_does Hmax).
  test_step open_stream_does. check. test_step (pull_does Hmax).
  eapply local_unwrap; [reflexivity|]. refused. by apply does_assert.
Qed.

Lemma cannot_push_after_finalization_passes : passes (cannot_push_after_finalization A).
Proof.
  intros w. unfold cannot_push_after_finalization. start_array. test_step (push_ok_does Hmax).
  refused. by apply does_assert.
Qed.

Lemma cannot_rekey_after_finalization_passes : passes (cannot_rekey_after_finalization A).
Proof.
  intros w. unfold cannot_rekey_after_finalization. start_array. test_step (push_ok_does Hmax).
  test_step open_stream_does. check. test_step (pull_does Hmax).
  eapply local_unwrap; [reflexivity|]. refused. by apply does_assert.
Qed.

Lemma tag_from_u8_passes : passes (tag_from_u8 A).
Proof.
  intros w. unfold tag_from_u8. cbv zeta.
  assert (Hok : forall t z (f : unit -> M unit), tag_as_u8 t = z -> does w (f tt) (fun _ _ => True) ->
    does w (bind (let* t' := unwrap (from_u8 A z) in assert (bool_decide (t = t'))) f) (fun _ _ => True)).
  { intros t z f <- Hf. eapply local_run; [|exact Hf]. rewrite from_u8_as_u8.
    eapply bind_step; [reflexivity|]. unfold assert. by rewrite bool_decide_true. }
  do 4 (apply Hok; [reflexivity|]). apply (does_for (fun _ => True)); [|done].
  intros i w' Hi _. apply does_assert. change (Z.of_nat 252) with 252 in Hi.
  by rewrite (proj2 (from_u8_unknown i ltac:(lia))) by lia.
Qed.

End StreamTestsPass.

(** C8. The tests of the secret streams pass, for every implementation with the
    documented behaviour and every entropy: what is pushed, with or without
    additional data and with tags that rekey or finalize, is pulled with its
    tag, both ends agree on when the stream is finalized, a finalized stream
    refuses every operation, and vectors can be used again. *)
Theorem secretstream_tests_pass `{T : Target} `{R : RandombytesExterns} {RD : RandombytesDoc R}
    (A : secretstream_module) {D : SecretstreamDoc A}
    (Hkey : 0 <= ss_keybytes A) (Hmax : 478 <= ss_max) :
  passes (decrypt_too_short_ciphertext A) /\ passes (push_pull A) /\
  passes (push_pull_with_ad A) /\ passes (push_pull_with_rekey A) /\
  passes (push_pull_with_explicit_rekey A) /\ passes (push_pull_with_recycled_vec A) /\
  passes (cannot_pull_after_finalization A) /\ passes (cannot_push_after_finalization A) /\
  passes (cannot_rekey_after_finalization A) /\ passes (finalize_with_ad A) /\
  passes (tag_from_u8 A).
Proof.
  split_and!.
  - by apply decrypt_too_short_ciphertext_passes.
  - by apply push_pull_passes.
  - by apply push_pull_with_ad_passes.
  - by apply push_pull_with_rekey_passes.
  - by apply push_pull_with_explicit_rekey_passes.
  - by apply push_pull_with_recycled_vec_passes.
  - by apply cannot_pull_after_finalization_passes.
  - by apply cannot_push_after_finalization_passes.
  - by apply cannot_rekey_after_finalization_passes.
  - by apply finalize_with_ad_passes.
  - by apply tag_from_u8_passes.
Qed.

Lemma secretstream_tests_pass_witness :
  let A := RefStream.A in
  let r := Ref.randombytes in
  passes (@decrypt_too_short_ciphertext target64 r A) /\ passes (@push_pull target64 r A) /\
  passes (@push_pull_with_ad target64 r A) /\ passes (@push_pull_with_rekey target64 r A) /\
  passes (@push_pull_with_explicit_rekey target64 r A) /\
  passes (@push_pull_with_recycled_vec target64 r A) /\
  passes (@cannot_pull_after_finalization target64 r A) /\
  passes (@cannot_push_after_finalization target64 r A) /\
  passes (@cannot_rekey_after_finalization target64 r A) /\
  passes (@finalize_with_ad target64 r A) /\ passes (tag_from_u8 A).
Proof.
  apply (@secretstream_tests_pass target64 Ref.randombytes Ref.randombytes_doc RefStream.A RefStream.doc);
    by vm_compute.
Defined.
