(* ===== verification/Sign.v ===== *)
(** * src/crypto/sign/ed25519.rs: public-key signatures

    Combined, detached and pre-hashed (multi-part) signatures, and the
    conversion of the keys to the ones of [box_].  The type [Signature] is the
    one of the crate [ed25519]: its constructor is a parameter. *)

From S2P Require Export Streaming Box.

(** [ed25519::Signature]: 64 bytes.  [Signature_new] may refuse (by a panic)
    bytes that cannot be a signature. *)
Class Ed25519Crate := {
  Signature_new : bytes -> M bytes
}.

Module sign.

Definition SEEDBYTES : Z := crypto_sign_ed25519_SEEDBYTES.
Definition SECRETKEYBYTES : Z := crypto_sign_ed25519_SECRETKEYBYTES.
Definition PUBLICKEYBYTES : Z := crypto_sign_ed25519_PUBLICKEYBYTES.
Definition SIGNATUREBYTES : Z := crypto_sign_ed25519_BYTES.

Definition Seed : newtype := NewType secret "Seed" SEEDBYTES.
Definition SecretKey : newtype := NewType secret "SecretKey" SECRETKEYBYTES.
Definition PublicKey : newtype := NewType public "PublicKey" PUBLICKEYBYTES.

(** [ed25519::Error] *)
Inductive Error := MkError.

Section Functions.
Context `{T : Target} `{E : SignExterns} `{U : UtilsExterns} `{Cr : Ed25519Crate}.

(** [SecretKey::public_key()] *)
Definition public_key (self : ptr) : M bytes :=
  let* pk := stack_array PUBLICKEYBYTES in
  let* _ := crypto_sign_ed25519_sk_to_pk (At pk 0) self in
  move_out pk.

Definition gen_keypair : M (bytes * bytes) :=
  let* pk := stack_array PUBLICKEYBYTES in
  let* sk := stack_array SECRETKEYBYTES in
  let* _ := crypto_sign_ed25519_keypair (At pk 0) (At sk 0) in
  let* skb := move_out sk in
  let* pkb := move_out pk in
  ret (pkb, skb).

Definition keypair_from_seed (seed : ptr) : M (bytes * bytes) :=
  let* pk := stack_array PUBLICKEYBYTES in
  let* sk := stack_array SECRETKEYBYTES in
  let* _ := crypto_sign_ed25519_seed_keypair (At pk 0) (At sk 0) seed in
  let* skb := move_out sk in
  let* pkb := move_out pk in
  ret (pkb, skb).

Definition sign (m : slice) (sk : ptr) : M vec :=
  let* n := usize_add (s_len m) SIGNATUREBYTES in
  let* sm := vec_zeroed n in
  let* '(_, smlen) := crypto_sign_ed25519 (v_ptr sm) 0 (s_ptr m) (s_len m) sk in
  ret (vec_truncate sm (as_usize smlen)).

Definition verify (sm : slice) (pk : ptr) : M (result vec) :=
  let* m := vec_zeroed (s_len sm) in
  let* '(rc, mlen) := crypto_sign_ed25519_open (v_ptr m) 0 (s_ptr sm) (s_len sm) pk in
  if rc =? 0 then ret (Ok (vec_truncate m (as_usize mlen)))
  else let* _ := vec_drop m in ret Err.

Definition sign_detached (m : slice) (sk : ptr) : M bytes :=
  let* sig := stack_array SIGNATUREBYTES in
  let* '(_, siglen) := crypto_sign_ed25519_detached (At sig 0) 0 (s_ptr m) (s_len m) sk in
  if siglen =? SIGNATUREBYTES then let* s := move_out sig in Signature_new s
  else panic.

Definition verify_detached (sig : ptr) (m : slice) (pk : ptr) : M bool :=
  let* rc := crypto_sign_ed25519_verify_detached sig (s_ptr m) (s_len m) pk in
  ret (rc =? 0).

(** The traits [Signer] and [Verifier] of the crate [ed25519] *)
Definition try_sign (self : ptr) (msg : slice) : M (Error + bytes) :=
  let* s := sign_detached msg self in ret (inr s).

Definition Verifier_verify (self : ptr) (msg : slice) (sig : ptr) : M (Error + unit) :=
  let* ok := verify_detached sig msg self in
  if ok then ret (inr tt) else ret (inl MkError).

(** [State]: the bytes of a [crypto_sign_ed25519ph_state] *)
Definition State_init : M bytes :=
  let* s := stack_uninit crypto_sign_ed25519ph_state in
  let* _ := crypto_sign_ed25519ph_init (At s 0) in
  move_out s.

Definition State_default : M bytes := State_init.

Definition State_update (self : ptr) (m : slice) : M unit :=
  let* _ := crypto_sign_ed25519ph_update self (s_ptr m) (s_len m) in
  ret tt.

(** [finalize] consumes the state, which has no destructor. *)
Definition State_finalize (self : bytes) (sk : ptr) : M bytes :=
  let* s := place self in
  let* sig := stack_array SIGNATUREBYTES in
  let* '(_, siglen) := crypto_sign_ed25519ph_final_create (At s 0) (At sig 0) 0 sk in
  if siglen =? SIGNATUREBYTES then
    let* sb := move_out sig in
    let* r := Signature_new sb in
    let* _ := free s in
    ret r
  else panic.

(** [verify] borrows the state, and copies the signature. *)
Definition State_verify (self : ptr) (sig pk : ptr) : M bool :=
  let* sb := read sig SIGNATUREBYTES in
  let* copy := place sb in
  let* rc := crypto_sign_ed25519ph_final_verify self (At copy 0) pk in
  let* _ := move_out copy in
  ret (rc =? 0).

Definition State_fmt : string := "ed25519 state".

Definition to_curve25519_pk (ed25519_pk : ptr) : M (result bytes) :=
  let* x25519_pk := stack_array box_.PUBLICKEYBYTES in
  let* rc := crypto_sign_ed25519_pk_to_curve25519 (At x25519_pk 0) ed25519_pk in
  if rc =? 0 then let* r := move_out x25519_pk in ret (Ok r)
  else let* _ := NewType.drop box_.PublicKey x25519_pk in ret Err.

Definition to_curve25519_sk (ed25519_sk : ptr) : M (result bytes) :=
  let* x25519_sk := stack_array box_.SECRETKEYBYTES in
  let* rc := crypto_sign_ed25519_sk_to_curve25519 (At x25519_sk 0) ed25519_sk in
  if rc =? 0 then let* r := move_out x25519_sk in ret (Ok r)
  else let* _ := NewType.drop box_.SecretKey x25519_sk in ret Err.

End Functions.

End sign.

(** ** Documented behaviour *)

(** Ed25519: [ed_sign] and [ed_valid] on messages, [ph_sign] and [ph_valid] on
    the digest of the pre-hashed variant.  A secret key is made from a seed and
    contains its public key.  The second half of a signature is a number below
    the order of the group, so that the three top bits of the last byte are
    clear.  What a rejected call leaves in its outputs is not documented:
    [ed_reject] and [ed_reject_len] are parameters. *)
Class SignDoc (E : SignExterns) := {
  ed_seeded : bytes -> bytes;
  ed_public : bytes -> bytes;
  ed_sign : bytes -> bytes -> bytes;
  ed_valid : bytes -> bytes -> bytes -> bool;
  ed_reject : bytes -> bytes -> bytes;
  ed_reject_len : Z;
  ph : streaming unit;
  ph_sign : bytes -> bytes -> bytes;
  ph_valid : bytes -> bytes -> bytes -> bool;
  ed_pk_convert : bytes -> option bytes;
  ed_sk_convert : bytes -> bytes;
  ed_seeded_zlen s : zlen (ed_seeded s) = 64;
  ed_public_zlen sk : zlen (ed_public sk) = 32;
  ed_sign_zlen sk m : zlen (ed_sign sk m) = 64;
  ed_sign_top sk m : byte_val (default x00 (last (ed_sign sk m))) < 32;
  ed_reject_zlen sm pk : zlen (ed_reject sm pk) = Z.max 0 (zlen sm - 64);
  ph_laws :: StreamingLaws ph;
  ph_size : st_size ph = crypto_sign_ed25519ph_state;
  ph_sign_zlen sk d : zlen (ph_sign sk d) = 64;
  ph_sign_top sk d : byte_val (default x00 (last (ph_sign sk d))) < 32;
  ed_pk_convert_zlen pk x : ed_pk_convert pk = Some x -> zlen x = 32;
  ed_sk_convert_zlen sk : zlen (ed_sk_convert sk) = 32;
  (** a signature made with a key of a seed is valid for its public key *)
  ed_valid_sign s m : ed_valid (ed_public (ed_seeded s)) m (ed_sign (ed_seeded s) m) = true;
  ph_valid_sign s d : ph_valid (ed_public (ed_seeded s)) d (ph_sign (ed_seeded s) d) = true;
  crypto_sign_keypair_doc pk sk :
    crypto_sign_ed25519_keypair pk sk =
      (let* r := rand 32 in
       let* _ := write pk (ed_public (ed_seeded r)) in let* _ := write sk (ed_seeded r) in ret 0);
  crypto_sign_seed_keypair_doc pk sk seed :
    crypto_sign_ed25519_seed_keypair pk sk seed =
      (let* s := read seed 32 in
       let* _ := write pk (ed_public (ed_seeded s)) in let* _ := write sk (ed_seeded s) in ret 0);
  crypto_sign_sk_to_pk_doc pk sk :
    crypto_sign_ed25519_sk_to_pk pk sk =
      (let* skb := read sk 64 in let* _ := write pk (ed_public skb) in ret 0);
  crypto_sign_doc sm l m mlen sk :
    crypto_sign_ed25519 sm l m mlen sk =
      (let* _ := restrict sm (mlen + 64) m mlen in
       let* mb := read m mlen in
       let* skb := read sk 64 in
       let* _ := write sm (ed_sign skb mb ++ mb) in ret (0, mlen + 64));
  crypto_sign_open_doc m l sm smlen pk :
    crypto_sign_ed25519_open m l sm smlen pk =
      (let* _ := restrict m (smlen - 64) sm smlen in
       let* smb := read sm smlen in
       let* pkb := read pk 32 in
       if (64 <=? smlen) && ed_valid pkb (drop 64 smb) (take 64 smb)
       then let* _ := write m (drop 64 smb) in ret (0, smlen - 64)
       else let* _ := write m (ed_reject smb pkb) in ret (-1, ed_reject_len));
  crypto_sign_detached_doc sig l m mlen sk :
    crypto_sign_ed25519_detached sig l m mlen sk =
      (let* mb := read m mlen in
       let* skb := read sk 64 in
       let* _ := write sig (ed_sign skb mb) in ret (0, 64));
  crypto_sign_verify_detached_doc sig m mlen pk :
    crypto_sign_ed25519_verify_detached sig m mlen pk =
      (let* sb := read sig 64 in
       let* mb := read m mlen in
       let* pkb := read pk 32 in
       ret (if ed_valid pkb mb sb then 0 else -1));
  crypto_signph_init_doc st : crypto_sign_ed25519ph_init st = stream_init ph st tt;
  crypto_signph_update_doc : crypto_sign_ed25519ph_update = stream_update ph;
  crypto_signph_create_doc st sig l sk :
    crypto_sign_ed25519ph_final_create st sig l sk =
      (let* s := read st (st_size ph) in
       let* skb := read sk 64 in
       let* _ := write sig (ph_sign skb (st_final ph s)) in
       let* _ := write st (st_spent ph s) in ret (0, 64));
  crypto_signph_verify_doc st sig pk :
    crypto_sign_ed25519ph_final_verify st sig pk =
      (let* s := read st (st_size ph) in
       let* sb := read sig 64 in
       let* pkb := read pk 32 in
       let* _ := write st (st_spent ph s) in
       ret (if ph_valid pkb (st_final ph s) sb then 0 else -1));
  crypto_sign_pk_to_curve25519_doc x pk :
    crypto_sign_ed25519_pk_to_curve25519 x pk =
      (let* pkb := read pk 32 in
       match ed_pk_convert pkb with
       | Some xb => let* _ := write x xb in ret 0
       | None => ret (-1)
       end);
  crypto_sign_sk_to_curve25519_doc x sk :
    crypto_sign_ed25519_sk_to_curve25519 x sk =
      (let* skb := read sk 64 in let* _ := write x (ed_sk_convert skb) in ret 0)
}.

(** [Signature::new] accepts 64 bytes with the three top bits clear. *)
Class Ed25519CrateDoc (Cr : Ed25519Crate) : Prop :=
  Signature_new_doc bs w :
    zlen bs = 64 -> byte_val (default x00 (last bs)) < 32 -> Signature_new bs w = Done bs w.

(** ** What the wrappers do *)

Section SignFacts.
Context `{T : Target} `{E : SignExterns} {D : SignDoc E}.
Context `{U : UtilsExterns} {UD : UtilsDoc U} `{Cr : Ed25519Crate} {CD : Ed25519CrateDoc Cr}.

Lemma sign_keypair_from_seed_run w seed sb :
  is_ref w seed 32 sb ->
  sign.keypair_from_seed seed w = Done (ed_public (ed_seeded sb), ed_seeded sb) w.
Proof.
  intros [? ?]. unfold sign.keypair_from_seed.
  change sign.PUBLICKEYBYTES with 32. change sign.SECRETKEYBYTES with 64.
  pose proof (ed_public_zlen (ed_seeded sb)). pose proof (ed_seeded_zlen sb).
  step. step. rewrite crypto_sign_seed_keypair_doc. steps.
Qed.

Lemma sign_gen_keypair_run w :
  sign.gen_keypair w =
    Done (ed_public (ed_seeded (entropy 32 w)), ed_seeded (entropy 32 w)) (w_consume 32 w).
Proof.
  unfold sign.gen_keypair.
  change sign.PUBLICKEYBYTES with 32. change sign.SECRETKEYBYTES with 64.
  pose proof (ed_public_zlen (ed_seeded (entropy 32 w))). pose proof (ed_seeded_zlen (entropy 32 w)).
  step. step. rewrite crypto_sign_keypair_doc. steps.
Qed.

Lemma sign_public_key_run w sk skb :
  is_ref w sk 64 skb -> sign.public_key sk w = Done (ed_public skb) w.
Proof.
  intros [? ?]. unfold sign.public_key. change sign.PUBLICKEYBYTES with 32.
  pose proof (ed_public_zlen skb). step. rewrite crypto_sign_sk_to_pk_doc. steps.
Qed.

Lemma sign_run w m sk mb skb :
  is_slice w m mb -> zlen mb + 64 <= isize_max -> is_ref w sk 64 skb ->
  sign.sign m sk w =
    Done (Vec (fresh_block w) (zlen mb + 64) (zlen mb + 64))
         (w_put (fresh_block w) (Some <$> ed_sign skb mb ++ mb) w).
Proof.
  intros Hm Hsz Hsk. open_args. unfold sign.sign.
  replace (s_len m) with (zlen mb) by done. change sign.SIGNATUREBYTES with 64.
  pose proof (ed_sign_zlen skb mb). step. step. simpl_vec.
  eapply bind_step.
  { rewrite crypto_sign_doc. steps. }
  cbv beta iota. rewrite as_usize_small by zlia. unfold ret.
  rewrite vec_truncate_run by lia. by subst.
Qed.

Lemma sign_panics w m sk mb :
  is_slice w m mb -> isize_max < zlen mb + 64 -> sign.sign m sk w = Panicked.
Proof.
  intros Hm Hsz. open_args. unfold sign.sign. pose proof isize_max_bounds.
  replace (s_len m) with (zlen mb) by done. change sign.SIGNATUREBYTES with 64.
  step. apply bind_panicked, vec_zeroed_panic. lia.
Qed.

Lemma sign_verify_run w sm pk smb pkb :
  is_slice w sm smb -> is_ref w pk 32 pkb ->
  sign.verify sm pk w =
    let b := fresh_block w in
    if (64 <=? zlen smb) && ed_valid pkb (drop 64 smb) (take 64 smb)
    then Done (Ok (Vec b (zlen smb - 64) (zlen smb))) (w_put b (Some <$> drop 64 smb ++ zeros 64) w)
    else Done Err (w_with (env_drop (Some <$> ed_reject smb pkb ++ zeros (Z.min 64 (zlen smb)))
                             (w_env w)) w).
Proof.
  intros Hsm Hpk. open_args. unfold sign.verify. cbv zeta.
  replace (s_len sm) with (zlen smb) by done. pose proof (ed_reject_zlen smb pkb) as Hr.
  step. simpl_vec. unfold bind. rewrite crypto_sign_open_doc.
  set (ok := _ && _) in *. unfold bind at 1.
  rewrite restrict_run by (eapply apart_fresh; eassumption || done).
  rewrite (bind_done _ _ _ smb (w_put b (Some <$> zeros (zlen smb)) w)) by (apply read_run; mem_tac).
  rewrite (bind_done _ _ _ pkb (w_put b (Some <$> zeros (zlen smb)) w)) by (apply read_run; mem_tac).
  fold ok. destruct ok eqn:Eok.
  - apply andb_true_iff in Eok as [Hl%Z.leb_le _].
    assert (Hd : zlen (drop 64 smb) = zlen smb - 64) by (apply (zlen_drop 64); lia).
    unfold bind. rewrite write_prefix by lia. unfold ret. cbn [Z.eqb].
    rewrite as_usize_small by lia. rewrite vec_truncate_run by lia. rewrite Hd.
    replace (zlen smb - (zlen smb - 64)) with 64 by lia. by subst.
  - unfold bind. rewrite write_prefix by zlia. unfold ret, vec_drop. cbn [Z.eqb v_block].
    rewrite free_put_run by done. rewrite Hr.
    replace (zlen smb - Z.max 0 (zlen smb - 64)) with (Z.min 64 (zlen smb)) by lia. done.
Qed.

Lemma sign_detached_run w m sk mb skb :
  is_slice w m mb -> is_ref w sk 64 skb -> sign.sign_detached m sk w = Done (ed_sign skb mb) w.
Proof.
  intros Hm Hsk. open_args. unfold sign.sign_detached. change sign.SIGNATUREBYTES with 64.
  pose proof (ed_sign_zlen skb mb). step. eapply bind_step.
  { rewrite crypto_sign_detached_doc. steps. }
  cbv beta iota. rewrite Z.eqb_refl. step. apply Signature_new_doc; [done|]. apply ed_sign_top.
Qed.

Lemma verify_detached_run w sig m pk sb mb pkb :
  is_ref w sig 64 sb -> is_slice w m mb -> is_ref w pk 32 pkb ->
  sign.verify_detached sig m pk w = Done (ed_valid pkb mb sb) w.
Proof.
  intros Hs Hm Hpk. open_args. unfold sign.verify_detached.
  rewrite crypto_sign_verify_detached_doc. steps. by destruct (ed_valid pkb mb sb).
Qed.

Lemma sign_state_init_run w : sign.State_init w = Done (st_init ph tt) w.
Proof.
  unfold sign.State_init. rewrite <- ph_size. step. rewrite crypto_signph_init_doc.
  eapply bind_step; [by apply (stream_init_put_run ph)|]. by apply move_out_put_run.
Qed.

Lemma sign_state_update_run b w s c cb :
  w_mem w !! b = None -> zlen s = st_size ph -> is_slice w c cb ->
  sign.State_update (At b 0) c (w_put b (Some <$> s) w) =
    Done tt (w_put b (Some <$> st_update ph s cb) w).
Proof.
  intros Hb Hs Hc. unfold sign.State_update. rewrite crypto_signph_update_doc.
  eapply bind_step; [by apply (stream_update_put_run ph)|done].
Qed.

Lemma sign_state_finalize_run w s sk skb :
  zlen s = st_size ph -> is_ref w sk 64 skb ->
  sign.State_finalize s sk w =
    Done (ph_sign skb (st_final ph s))
         (w_with (env_drop (Some <$> st_spent ph s) (w_env w)) w).
Proof.
  intros Hs Hsk. open_args. unfold sign.State_finalize. change sign.SIGNATUREBYTES with 64.
  pose proof (ph_sign_zlen skb (st_final ph s)). pose proof (st_spent_zlen (S := ph) s).
  step. step. eapply bind_step.
  { rewrite crypto_signph_create_doc. steps. }
  cbv beta iota. rewrite Z.eqb_refl. step.
  eapply bind_step; [apply Signature_new_doc; [done|apply ph_sign_top]|]. steps.
Qed.

Lemma sign_state_verify_run b w s sig pk sb pkb :
  w_mem w !! b = None -> zlen s = st_size ph -> is_ref w sig 64 sb -> is_ref w pk 32 pkb ->
  sign.State_verify (At b 0) sig pk (w_put b (Some <$> s) w) =
    Done (ph_valid pkb (st_final ph s) sb) (w_put b (Some <$> st_spent ph s) w).
Proof.
  intros Hb Hs Hsig Hpk. open_args. unfold sign.State_verify. change sign.SIGNATUREBYTES with 64.
  pose proof (st_spent_zlen (S := ph) s). step. step. eapply bind_step.
  { rewrite crypto_signph_verify_doc. steps. }
  steps. by destruct (ph_valid _ _ _).
Qed.

End SignFacts.

(** ** A reference signature scheme

    The public key is the first half of the secret key with its top bit clear
    (a key with the bit set cannot be converted), and a signature is the
    cipher tag of the message under it (with 32 zero bytes): enough to satisfy
    every documented law, and to run the wrappers. *)

Module RefSign.

Definition mac (k m : bytes) : bytes :=
  le_bytes 32 (RefStreaming.sum k + 257 * RefStreaming.sum m + zlen m) ++ zeros 32.
Definition half (sk : bytes) : bytes := le_bytes 32 (le_val (take 32 sk) mod 2 ^ 255).
Definition convert (pk : bytes) : option bytes := if decide (2 ^ 255 <= le_val pk) then None else Some (half pk).
Definition P : streaming unit := {|
  st_size := 208; st_out := 64;
  st_init _ := st_init (RefStreaming.S 208 64) [];
  st_update := st_update (RefStreaming.S 208 64);
  st_final := st_final (RefStreaming.S 208 64);
  st_spent := st_spent (RefStreaming.S 208 64)
|}.
Definition valid (pk m sb : bytes) : bool := bool_decide (sb = mac pk m).

Definition externs : SignExterns := {|
  crypto_sign_ed25519 sm l m mlen sk :=
    let* _ := restrict sm (mlen + 64) m mlen in
    let* mb := read m mlen in
    let* skb := read sk 64 in
    let* _ := write sm (mac (half skb) mb ++ mb) in ret (0, mlen + 64);
  crypto_sign_ed25519_open m l sm smlen pk :=
    let* _ := restrict m (smlen - 64) sm smlen in
    let* smb := read sm smlen in
    let* pkb := read pk 32 in
    if (64 <=? smlen) && valid pkb (drop 64 smb) (take 64 smb)
    then let* _ := write m (drop 64 smb) in ret (0, smlen - 64)
    else let* _ := write m (zeros (Z.max 0 (zlen smb - 64))) in ret (-1, 0);
  crypto_sign_ed25519_detached sig l m mlen sk :=
    let* mb := read m mlen in
    let* skb := read sk 64 in
    let* _ := write sig (mac (half skb) mb) in ret (0, 64);
  crypto_sign_ed25519_verify_detached sig m mlen pk :=
    let* sb := read sig 64 in
    let* mb := read m mlen in
    let* pkb := read pk 32 in
    ret (if valid pkb mb sb then 0 else -1);
  crypto_sign_ed25519_keypair pk sk :=
    let* r := rand 32 in
    let* _ := write pk (half (le_bytes 64 (le_val r))) in
    let* _ := write sk (le_bytes 64 (le_val r)) in ret 0;
  crypto_sign_ed25519_seed_keypair pk sk seed :=
    let* s := read seed 32 in
    let* _ := write pk (half (le_bytes 64 (le_val s))) in
    let* _ := write sk (le_bytes 64 (le_val s)) in ret 0;
  crypto_sign_ed25519_pk_to_curve25519 x pk :=
    let* pkb := read pk 32 in
    match convert pkb with
    | Some xb => let* _ := write x xb in ret 0
    | None => ret (-1)
    end;
  crypto_sign_ed25519_sk_to_curve25519 x sk :=
    let* skb := read sk 64 in let* _ := write x (half skb) in ret 0;
  crypto_sign_ed25519_sk_to_pk pk sk :=
    let* skb := read sk 64 in let* _ := write pk (half skb) in ret 0;
  crypto_sign_ed25519ph_init st := stream_init P st tt;
  crypto_sign_ed25519ph_update := stream_update P;
  crypto_sign_ed25519ph_final_create st sig l sk :=
    let* s := read st 208 in
    let* skb := read sk 64 in
    let* _ := write sig (mac (half skb) (st_final P s)) in
    let* _ := write st (st_spent P s) in ret (0, 64);
  crypto_sign_ed25519ph_final_verify st sig pk :=
    let* s := read st 208 in
    let* sb := read sig 64 in
    let* pkb := read pk 32 in
    let* _ := write st (st_spent P s) in
    ret (if valid pkb (st_final P s) sb then 0 else -1)
|}.

Lemma ref_ph_laws : StreamingLaws P.
Proof.
  assert (L : StreamingLaws (RefStreaming.S 208 64)) by (by apply RefStreaming.ref_streaming_laws).
  destruct L. by split.
Qed.

Lemma mac_top k m : last (mac k m) = Some x00.
Proof. unfold mac. rewrite last_app. reflexivity. Qed.

Lemma mac_zlen k m : zlen (mac k m) = 64.
Proof. unfold mac. by rewrite zlen_app, zlen_le_bytes. Qed.

#[refine] Definition doc : SignDoc externs := {|
  ed_seeded s := le_bytes 64 (le_val s); ed_public := half;
  ed_sign sk m := mac (half sk) m; ed_valid := valid;
  ed_reject sm pk := zeros (Z.max 0 (zlen sm - 64)); ed_reject_len := 0;
  ph := P; ph_sign sk d := mac (half sk) d; ph_valid := valid;
  ed_pk_convert := convert;
  ed_sk_convert := half
|}.
Proof.
  - intros. apply (zlen_le_bytes 64).
  - intros. apply (zlen_le_bytes 32).
  - intros. apply mac_zlen.
  - intros. by rewrite mac_top.
  - intros. apply zlen_zeros. lia.
  - apply ref_ph_laws.
  - reflexivity.
  - intros. apply mac_zlen.
  - intros. by rewrite mac_top.
  - intros pk x. unfold convert. case_decide; intros; simplify_eq. apply (zlen_le_bytes 32).
  - intros. apply (zlen_le_bytes 32).
  - intros. unfold valid. by rewrite bool_decide_eq_true_2.
  - intros. unfold valid. by rewrite bool_decide_eq_true_2.
  - reflexivity.
  - reflexivity.
  - reflexivity.
  - reflexivity.
  - reflexivity.
  - reflexivity.
  - reflexivity.
  - reflexivity.
  - reflexivity.
  - reflexivity.
  - reflexivity.
  - reflexivity.
  - reflexivity.
Defined.

(** A crate that refuses what the documented one refuses. *)
Definition crate : Ed25519Crate := {|
  Signature_new bs :=
    if (zlen bs =? 64) && (byte_val (default x00 (last bs)) <? 32) then ret bs else panic
|}.

Lemma crate_doc : Ed25519CrateDoc crate.
Proof.
  intros bs w Hl Ht. cbn. rewrite (proj2 (Z.eqb_eq _ _) Hl). by rewrite (proj2 (Z.ltb_lt _ _) Ht).
Qed.

Definition msg : bytes := [x41; x42; x43].
Definition seed : bytes := replicate 32 x07.

(** Message, seed, and the two chunkings of the message. *)
Definition w : world := Ref.world [msg; seed].
Definition m : slice := Slice (At 1 0) 3.

End RefSign.

(** ** Properties *)

Section SignPrograms.
Context `{T : Target} `{E : SignExterns} `{Cr : Ed25519Crate}.

(** A client makes a key pair, signs, and verifies with the public key. *)
Definition sign_then_verify (seed : ptr) (m : slice) : M (result vec) :=
  let* '(pkb, skb) := sign.keypair_from_seed seed in
  let* pk := place pkb in
  let* sk := place skb in
  let* sm := sign.sign m (At sk 0) in
  sign.verify (v_slice sm) (At pk 0).

(** The signer sends a message in chunks; the verifier has it in others. *)
Definition sign_prehashed (chunks : list slice) (sk : ptr) : M bytes :=
  let* s := sign.State_init in
  let* sp := place s in
  let* _ := update_all sign.State_update (At sp 0) chunks in
  let* s := move_out sp in
  sign.State_finalize s sk.

Definition verify_prehashed (chunks : list slice) (sig pk : ptr) : M bool :=
  let* s := sign.State_init in
  let* sp := place s in
  let* _ := update_all sign.State_update (At sp 0) chunks in
  let* ok := sign.State_verify (At sp 0) sig pk in
  let* _ := free sp in
  ret ok.

Definition prehashed_exchange (seed : ptr) (chunks chunks' : list slice) : M bool :=
  let* '(pkb, skb) := sign.keypair_from_seed seed in
  let* pk := place pkb in
  let* sk := place skb in
  let* sigb := sign_prehashed chunks (At sk 0) in
  let* sig := place sigb in
  verify_prehashed chunks' (At sig 0) (At pk 0).

End SignPrograms.

(** The keys the client has put in two places. *)
Definition keys_world (pkb skb : bytes) (w : world) : world :=
  let w1 := w_put (fresh_block w) (Some <$> pkb) w in w_put (fresh_block w1) (Some <$> skb) w1.
Definition keys_pk (w : world) : ptr := At (fresh_block w) 0.
Definition keys_sk (pkb : bytes) (w : world) : ptr :=
  At (fresh_block (w_put (fresh_block w) (Some <$> pkb) w)) 0.

Lemma keys_world_frame pkb skb w p bs : bytes_at w p bs -> bytes_at (keys_world pkb skb w) p bs.
Proof. intros. unfold keys_world. do 2 (apply bytes_at_put_fresh; [apply fresh_block_spec|]). done. Qed.

Lemma keys_world_slice `{Target} pkb skb w s bs :
  is_slice w s bs -> is_slice (keys_world pkb skb w) s bs.
Proof. intros [? ?]. split; [by apply keys_world_frame|done]. Qed.

Lemma keys_world_pk pkb skb w n : zlen pkb = n -> is_ref (keys_world pkb skb w) (keys_pk w) n pkb.
Proof.
  intros Hn. split; [|done]. apply bytes_at_put_fresh; [apply fresh_block_spec|]. apply bytes_at_put_same.
Qed.

Lemma keys_world_sk pkb skb w n :
  zlen skb = n -> is_ref (keys_world pkb skb w) (keys_sk pkb w) n skb.
Proof. intros <-. apply is_ref_place. Qed.

Section OwnKeys.
Context `{T : Target} `{E : SignExterns} {D : SignDoc E}.

Lemma keypair_in_place {B} (f : ptr -> ptr -> M B) w seed sb :
  is_ref w seed 32 sb ->
  let pkb := ed_public (ed_seeded sb) in
  (let* '(pkb, skb) := sign.keypair_from_seed seed in
   let* pk := place pkb in let* sk := place skb in f (At pk 0) (At sk 0)) w =
    f (keys_pk w) (keys_sk pkb w) (keys_world pkb (ed_seeded sb) w).
Proof.
  intros Hs pkb. by rewrite (bind_done _ _ _ _ _ (sign_keypair_from_seed_run w seed sb Hs)).
Qed.

Lemma own_sk w sb :
  is_ref (keys_world (ed_public (ed_seeded sb)) (ed_seeded sb) w)
    (keys_sk (ed_public (ed_seeded sb)) w) 64 (ed_seeded sb).
Proof. apply keys_world_sk, ed_seeded_zlen. Qed.

Lemma own_pk w sb :
  is_ref (keys_world (ed_public (ed_seeded sb)) (ed_seeded sb) w) (keys_pk w) 32
    (ed_public (ed_seeded sb)).
Proof. apply keys_world_pk, ed_public_zlen. Qed.

End OwnKeys.

(** C28. Verifying what [sign()] returned with the public key of the pair gives
    back the message, in a vector of its length, and leaves everything the
    caller had in memory alone. *)
Theorem sign_roundtrip `{T : Target} `{E : SignExterns} {D : SignDoc E} w seed m sb mb
    (Hs : is_ref w seed 32 sb) (Hm : is_slice w m mb) (Hsz : zlen mb + 64 <= isize_max) :
  exists v w', sign_then_verify seed m w = Done (Ok v) w' /\ is_vec w' v mb /\
    forall p bs, bytes_at w p bs -> bytes_at w' p bs.
Proof.
  set (skb := ed_seeded sb). set (sm := ed_sign skb mb ++ mb).
  pose proof (ed_sign_zlen skb mb) as Hsig.
  assert (Hd : drop 64 sm = mb) by (apply drop_app_length'; unfold zlen in Hsig; lia).
  assert (Ht : take 64 sm = ed_sign skb mb) by (apply take_app_length'; unfold zlen in Hsig; lia).
  assert (Hl : zlen sm = zlen mb + 64) by (unfold sm; zlia).
  unfold sign_then_verify.
  rewrite (keypair_in_place (fun pk sk => let* sm := sign.sign m sk in sign.verify (v_slice sm) pk)
             w seed sb Hs).
  set (w2 := keys_world _ _ _).
  rewrite (bind_done _ _ _ _ _ (sign_run w2 m _ mb skb (keys_world_slice _ _ _ _ _ Hm) Hsz (own_sk w sb))).
  fold sm. set (b := fresh_block w2). set (w3 := w_put b (Some <$> sm) w2).
  rewrite (sign_verify_run w3 _ _ sm (ed_public skb)).
  - cbv zeta. rewrite Hd, Ht, Hl. unfold skb. rewrite ed_valid_sign.
    rewrite (proj2 (Z.leb_le _ _)) by zlia. cbn [andb]. eexists _, _. split_and!; [done|..].
    + unfold is_vec. cbn [v_len v_cap v_ptr v_block]. split; [|zlia].
      eapply bytes_at_app_l. apply bytes_at_put_same.
    + intros p bs Hp. apply bytes_at_put_fresh; [apply fresh_block_spec|].
      apply bytes_at_put_fresh; [apply fresh_block_spec|]. by apply keys_world_frame.
  - apply is_vec_slice. rewrite <- Hl. apply is_vec_put. lia.
  - apply is_ref_put_fresh; [apply fresh_block_spec|]. apply own_pk.
Qed.

Lemma sign_roundtrip_witness :
  exists v w', @sign_then_verify target64 RefSign.externs (At 2 0) RefSign.m RefSign.w = Done (Ok v) w' /\
    @is_vec target64 w' v RefSign.msg /\ forall p bs, bytes_at RefSign.w p bs -> bytes_at w' p bs.
Proof.
  apply (@sign_roundtrip target64 RefSign.externs RefSign.doc RefSign.w (At 2 0) RefSign.m
    RefSign.seed RefSign.msg); Ref.concrete.
Defined.

(** C29. Every branch of [verify()]: it accepts a signed message if and only if
    it has at least [SIGNATUREBYTES] bytes and the first ones are a valid
    signature of the others, which are then returned; nothing of a rejected
    message is returned, and no length makes it write out of its buffer. *)
Theorem sign_verify_spec `{T : Target} `{E : SignExterns} {D : SignDoc E} w sm pk smb pkb
    (Hsm : is_slice w sm smb) (Hpk : is_ref w pk 32 pkb) :
  let m := drop 64 smb in
  if decide (sign.SIGNATUREBYTES <= zlen smb /\ ed_valid pkb m (take 64 smb) = true) then
    exists v w', sign.verify sm pk w = Done (Ok v) w' /\ is_vec w' v m /\ v_len v = zlen smb - 64
  else exists left, sign.verify sm pk w = Done Err (w_with (env_drop left (w_env w)) w).
Proof.
  intros m. rewrite (sign_verify_run w sm pk smb pkb) by done. cbv zeta. fold m.
  change sign.SIGNATUREBYTES with 64.
  destruct (Z.leb_spec 64 (zlen smb)) as [Hl|Hl]; cbn [andb]; case_decide as Hd; [| |lia|].
  - destruct Hd as [_ ->]. destruct Hsm as (_ & _ & ?). eexists _, _. split_and!; [done| |done].
    pose proof (zlen_drop 64 smb) as Hz. unfold is_vec. cbn [v_len v_cap v_ptr v_block].
    split; [|change (Z.to_nat 64) with 64%nat in Hz; fold m in Hz; lia].
    eapply bytes_at_app_l. apply bytes_at_put_same.
  - destruct (ed_valid _ _ _) eqn:Ev; [tauto|]. by eexists.
  - by eexists.
Qed.

Lemma sign_verify_spec_witness :
  let w := Ref.world [RefSign.mac (replicate 32 x07) [x09] ++ [x09]; replicate 32 x07] in
  exists v w', @sign.verify target64 RefSign.externs (Slice (At 1 0) 65) (At 2 0) w = Done (Ok v) w' /\
    @is_vec target64 w' v [x09] /\ v_len v = 1.
Proof.
  intros w.
  pose proof (@sign_verify_spec target64 RefSign.externs RefSign.doc w (Slice (At 1 0) 65) (At 2 0)
    (RefSign.mac (replicate 32 x07) [x09] ++ [x09]) (replicate 32 x07)) as Hs.
  cbv zeta in Hs. rewrite decide_True in Hs by Ref.concrete. apply Hs; Ref.concrete.
Defined.

(** The detached signature is the one [sign()] prepends: [sign(m)] is
    [sign_detached(m) ++ m]; the assertion on its length never fails; and
    [verify_detached()] accepts exactly the pairs whose concatenation
    [verify()] accepts. *)
Theorem sign_detached_agrees `{T : Target} `{E : SignExterns} {D : SignDoc E}
    `{Cr : Ed25519Crate} {CD : Ed25519CrateDoc Cr} w m sk sig pk sm mb skb sb pkb
    (Hm : is_slice w m mb) (Hsz : zlen mb + 64 <= isize_max) (Hsk : is_ref w sk 64 skb)
    (Hsig : is_ref w sig 64 sb) (Hpk : is_ref w pk 32 pkb) (Hsm : is_slice w sm (sb ++ mb)) :
  (exists v s w', sign.sign m sk w = Done v w' /\ is_vec w' v (s ++ mb) /\
     sign.sign_detached m sk w = Done s w) /\
  (exists r w', sign.verify sm pk w = Done r w' /\ sign.verify_detached sig m pk w = Done (is_ok r) w).
Proof.
  split.
  - exists (Vec (fresh_block w) (zlen mb + 64) (zlen mb + 64)), (ed_sign skb mb). eexists.
    split_and!; [by apply sign_run| |by apply sign_detached_run].
    pose proof (ed_sign_zlen skb mb) as Hl.
    replace (zlen mb + 64) with (zlen (ed_sign skb mb ++ mb)) by zlia. apply is_vec_put. zlia.
  - rewrite (sign_verify_run w sm pk (sb ++ mb) pkb) by done.
    rewrite (verify_detached_run w sig m pk sb mb pkb) by done. destruct Hsig as [_ Hl].
    assert (Hn : length sb = 64%nat) by (unfold zlen in Hl; lia).
    cbv zeta. rewrite drop_app_length', take_app_length' by done.
    rewrite (proj2 (Z.leb_le _ _)) by zlia. cbn [andb].
    destruct (ed_valid pkb mb sb); by eexists _, _.
Qed.

Lemma sign_detached_agrees_witness :
  let sig := RefSign.mac (replicate 32 x07) [x09] in
  let w := Ref.world [[x09]; replicate 64 x07; sig; replicate 32 x07; sig ++ [x09]] in
  exists r w', @sign.verify target64 RefSign.externs (Slice (At 5 0) 65) (At 4 0) w = Done r w' /\
    @sign.verify_detached RefSign.externs (At 3 0) (Slice (At 1 0) 1) (At 4 0) w = Done (is_ok r) w.
Proof.
  intros sig w.
  apply (@sign_detached_agrees target64 RefSign.externs RefSign.doc RefSign.crate RefSign.crate_doc w
    (Slice (At 1 0) 1) (At 2 0) (At 3 0) (At 4 0) (Slice (At 5 0) 65) [x09] (replicate 64 x07) sig
    (replicate 32 x07)); Ref.concrete.
Defined.

Section PrehashedFacts.
Context `{T : Target} `{E : SignExterns} {D : SignDoc E} `{Cr : Ed25519Crate} {CD : Ed25519CrateDoc Cr}.

Lemma sign_prehashed_run w chunks ms sk skb :
  Forall2 (is_slice w) chunks ms -> is_ref w sk 64 skb ->
  exists left, sign_prehashed chunks sk w =
    Done (ph_sign skb (st_digest ph tt (concat ms))) (w_with (env_drop left (w_env w)) w).
Proof.
  intros Hc Hsk. eexists. unfold sign_prehashed.
  eapply bind_step; [apply sign_state_init_run|]. step.
  eapply bind_step.
  { apply (update_all_run ph sign.State_update) with (ms := ms);
      [by intros; apply sign_state_update_run|done|apply st_init_zlen|done]. }
  eapply bind_step; [by apply move_out_put_run|].
  by rewrite (sign_state_finalize_run w _ sk skb) by (done || apply st_update_zlen).
Qed.

Lemma verify_prehashed_run w chunks ms sig pk sb pkb :
  Forall2 (is_slice w) chunks ms -> is_ref w sig 64 sb -> is_ref w pk 32 pkb ->
  exists left, verify_prehashed chunks sig pk w =
    Done (ph_valid pkb (st_digest ph tt (concat ms)) sb) (w_with (env_drop left (w_env w)) w).
Proof.
  intros Hc Hs Hp. eexists. unfold verify_prehashed.
  eapply bind_step; [apply sign_state_init_run|]. step.
  eapply bind_step.
  { apply (update_all_run ph sign.State_update) with (ms := ms);
      [by intros; apply sign_state_update_run|done|apply st_init_zlen|done]. }
  eapply bind_step; [by apply sign_state_verify_run; [..|apply st_update_zlen|eassumption|eassumption]|].
  eapply bind_step; [by apply free_put_run|]. reflexivity.
Qed.

End PrehashedFacts.

(** C30. A message signed in chunks with [State::finalize()] verifies with
    [State::verify()] for every way the verifier cuts the same message. *)
Theorem sign_prehashed_exchange `{T : Target} `{E : SignExterns} {D : SignDoc E}
    `{Cr : Ed25519Crate} {CD : Ed25519CrateDoc Cr} w seed sb chunks chunks' ms ms'
    (Hs : is_ref w seed 32 sb) (Hc : Forall2 (is_slice w) chunks ms)
    (Hc' : Forall2 (is_slice w) chunks' ms') (Hms : same_message ms ms') :
  exists w', prehashed_exchange seed chunks chunks' w = Done true w' /\
    forall p bs, bytes_at w p bs -> bytes_at w' p bs.
Proof.
  unfold prehashed_exchange.
  rewrite (keypair_in_place (fun pk sk => let* sigb := sign_prehashed chunks sk in
             let* sig := place sigb in verify_prehashed chunks' (At sig 0) pk) w seed sb Hs).
  set (skb := ed_seeded sb). set (w2 := keys_world _ _ _).
  destruct (sign_prehashed_run w2 chunks ms (keys_sk (ed_public skb) w) skb) as [l1 E1].
  { eapply Forall2_impl; [exact Hc|]. intros. by apply keys_world_slice. }
  { apply own_sk. }
  rewrite (bind_done _ _ _ _ _ E1). set (w3 := w_with _ w2).
  set (sig := ph_sign skb _). set (b := fresh_block w3). set (w4 := w_put b (Some <$> sig) w3).
  assert (Hb : w_mem w3 !! b = None) by apply fresh_block_spec.
  change (bind (place sig) _ w3) with (verify_prehashed chunks' (At b 0) (keys_pk w) w4).
  destruct (verify_prehashed_run w4 chunks' ms' (At b 0) (keys_pk w) sig (ed_public skb)) as [l2 E2].
  { eapply Forall2_impl; [exact Hc'|]. intros. apply is_slice_put_fresh; [done|].
    by apply (keys_world_slice (ed_public skb) skb w). }
  { split; [apply bytes_at_put_same|apply ph_sign_zlen]. }
  { apply is_ref_put_fresh; [done|]. apply (own_pk w sb). }
  eexists. rewrite E2. split.
  - unfold sig, skb. rewrite Hms. by rewrite ph_valid_sign.
  - intros p bs Hp. apply bytes_at_with, bytes_at_put_fresh; [done|].
    by apply (keys_world_frame (ed_public skb) skb w).
Qed.

Lemma sign_prehashed_exchange_witness :
  exists w', @prehashed_exchange RefSign.externs RefSign.crate (At 2 0)
      [Slice (At 1 0) 1; Slice (At 1 1) 2] [Slice (At 1 0) 2; Slice (At 1 2) 1] RefSign.w = Done true w' /\
    forall p bs, bytes_at RefSign.w p bs -> bytes_at w' p bs.
Proof.
  apply (@sign_prehashed_exchange target64 RefSign.externs RefSign.doc RefSign.crate RefSign.crate_doc
    RefSign.w (At 2 0) RefSign.seed _ _ [[x41]; [x42; x43]] [[x41; x42]; [x43]]).
  - Ref.concrete.
  - repeat constructor; Ref.concrete.
  - repeat constructor; Ref.concrete.
  - reflexivity.
Defined.
