(* ===== verification/Stream.v ===== *)
(** * src/crypto/stream: stream ciphers without authentication

    [stream_module!] is a section over the record of its arguments; the
    modules chacha20, salsa20, xsalsa20 and xchacha20 are the instances. *)

From S2P Require Export Primitives.

Record stream_cipher := StreamCipher {
  stream_name : stream_fn;
  xor_name : stream_xor_fn;
  xor_ic_name : stream_xor_ic_fn;
  stream_keybytes : Z;
  stream_noncebytes : Z
}.

Module stream.

Section Macro.
Context (A : stream_cipher) `{T : Target}.

Definition KEYBYTES : Z := stream_keybytes A.
Definition NONCEBYTES : Z := stream_noncebytes A.

Definition Key : newtype := NewType secret "Key" KEYBYTES.
Definition Nonce : newtype := NewType nonce "Nonce" NONCEBYTES.

Definition gen_key `{RandombytesExterns} : M bytes :=
  let* key := stack_array KEYBYTES in
  let* _ := randombytes_into (Slice (At key 0) KEYBYTES) in
  move_out key.

(** Only the modules with long nonces have it. *)
Definition gen_nonce `{RandombytesExterns} : M bytes := NewType.gen_random_nonce Nonce.

Definition stream (len : Z) (n k : ptr) : M vec :=
  let* c := vec_zeroed len in
  let* _ := stream_name A (v_ptr c) (v_len c) n k in
  ret c.

Definition stream_xor (m : slice) (n k : ptr) : M vec :=
  let* c := vec_zeroed (s_len m) in
  let* _ := xor_name A (v_ptr c) (s_ptr m) (s_len m) n k in
  ret c.

Definition stream_xor_inplace (m : slice) (n k : ptr) : M unit :=
  let* _ := xor_name A (s_ptr m) (s_ptr m) (s_len m) n k in
  ret tt.

Definition stream_xor_ic (m : slice) (n : ptr) (ic : Z) (k : ptr) : M vec :=
  let* c := vec_zeroed (s_len m) in
  let* _ := xor_ic_name A (v_ptr c) (s_ptr m) (s_len m) n ic k in
  ret c.

Definition stream_xor_ic_inplace (m : slice) (n : ptr) (ic : Z) (k : ptr) : M unit :=
  let* _ := xor_ic_name A (s_ptr m) (s_ptr m) (s_len m) n ic k in
  ret tt.

End Macro.

End stream.

Definition chacha20 `{StreamChacha20Externs} : stream_cipher :=
  StreamCipher crypto_stream_chacha20 crypto_stream_chacha20_xor crypto_stream_chacha20_xor_ic
    crypto_stream_chacha20_KEYBYTES crypto_stream_chacha20_NONCEBYTES.
Definition salsa20 `{StreamSalsa20Externs} : stream_cipher :=
  StreamCipher crypto_stream_salsa20 crypto_stream_salsa20_xor crypto_stream_salsa20_xor_ic
    crypto_stream_salsa20_KEYBYTES crypto_stream_salsa20_NONCEBYTES.
Definition xsalsa20 `{StreamXsalsa20Externs} : stream_cipher :=
  StreamCipher crypto_stream_xsalsa20 crypto_stream_xsalsa20_xor crypto_stream_xsalsa20_xor_ic
    crypto_stream_xsalsa20_KEYBYTES crypto_stream_xsalsa20_NONCEBYTES.
Definition xchacha20 `{StreamXchacha20Externs} : stream_cipher :=
  StreamCipher crypto_stream_xchacha20 crypto_stream_xchacha20_xor crypto_stream_xchacha20_xor_ic
    crypto_stream_xchacha20_KEYBYTES crypto_stream_xchacha20_NONCEBYTES.

Definition xsalsa20_gen_nonce `{StreamXsalsa20Externs} `{Target} `{RandombytesExterns} : M bytes :=
  stream.gen_nonce xsalsa20.
Definition xchacha20_gen_nonce `{StreamXchacha20Externs} `{Target} `{RandombytesExterns} : M bytes :=
  stream.gen_nonce xchacha20.

(** ** Documented behaviour

    A key and a nonce determine a sequence of key-stream bytes, in blocks of
    64; [xor_ic] starts at the block it is given. *)

(** Bytes [pos], [pos + 1], ..., [pos + len - 1] of a key stream *)
Definition window (ks : Z -> byte) (pos : Z) (len : nat) : bytes :=
  (fun i => ks (pos + Z.of_nat i)) <$> seq 0 len.

Definition xor_bytes (a b : bytes) : bytes := zip_with byte_xor a b.

(** The stream from position [pos], xored to [m]. *)
Definition xor_from (ks : Z -> byte) (pos : Z) (m : bytes) : bytes :=
  xor_bytes m (window ks pos (length m)).

Definition stream_xor_at (A : stream_cipher) (keystream : bytes -> bytes -> Z -> byte)
    (c m : ptr) (mlen : Z) (n : ptr) (pos : Z) (k : ptr) : M Z :=
  let* _ := restrict_inplace c mlen m mlen in
  let* mb := read m mlen in
  let* nb := read n (stream_noncebytes A) in
  let* kb := read k (stream_keybytes A) in
  let* _ := write c (xor_from (keystream kb nb) pos mb) in
  ret 0.

Class StreamDoc (A : stream_cipher) := {
  keystream : bytes (* key *) -> bytes (* nonce *) -> Z -> byte;
  stream_name_doc c clen n k :
    stream_name A c clen n k =
      (let* nb := read n (stream_noncebytes A) in
       let* kb := read k (stream_keybytes A) in
       let* _ := write c (window (keystream kb nb) 0 (Z.to_nat clen)) in
       ret 0);
  xor_name_doc c m mlen n k : xor_name A c m mlen n k = stream_xor_at A keystream c m mlen n 0 k;
  xor_ic_name_doc c m mlen n ic k :
    xor_ic_name A c m mlen n ic k = stream_xor_at A keystream c m mlen n (64 * ic) k
}.

(** ** Key streams *)

Lemma window_length ks pos len : length (window ks pos len) = len.
Proof. unfold window. by rewrite length_fmap, length_seq. Qed.

Lemma window_zlen ks pos n : 0 <= n -> zlen (window ks pos (Z.to_nat n)) = n.
Proof. intros. unfold zlen. rewrite window_length. lia. Qed.

Lemma window_app ks pos a b :
  window ks pos (a + b) = window ks pos a ++ window ks (pos + Z.of_nat a) b.
Proof.
  unfold window. rewrite seq_app, fmap_app. f_equal.
  rewrite <- (Nat.add_0_r (0 + a)), <- fmap_add_seq, <- list_fmap_compose. apply list_fmap_ext.
  intros i x _. cbn. f_equal. lia.
Qed.

Lemma xor_from_zlen ks pos m : zlen (xor_from ks pos m) = zlen m.
Proof.
  unfold xor_from, xor_bytes, zlen. rewrite length_zip_with, window_length. lia.
Qed.
#[export] Hint Rewrite xor_from_zlen : zlen.

Lemma xor_bytes_cancel a b : length a = length b -> xor_bytes (xor_bytes a b) b = a.
Proof.
  unfold xor_bytes. revert b. induction a as [|x a IH]; intros [|y b] Hl; cbn in *; try done.
  rewrite byte_xor_cancel. f_equal. apply IH. lia.
Qed.

Lemma xor_from_involutive ks pos m : xor_from ks pos (xor_from ks pos m) = m.
Proof.
  unfold xor_from at 1. pose proof (xor_from_zlen ks pos m) as Hl. unfold zlen in Hl.
  replace (length (xor_from ks pos m)) with (length m) by lia.
  apply xor_bytes_cancel. by rewrite window_length.
Qed.

Lemma xor_from_app ks pos a b :
  xor_from ks pos (a ++ b) = xor_from ks pos a ++ xor_from ks (pos + zlen a) b.
Proof.
  unfold xor_from. rewrite length_app, window_app. unfold xor_bytes.
  rewrite zip_with_app by (by rewrite window_length). done.
Qed.

(** ** What the wrappers do *)

Section StreamFacts.
Context `{T : Target} {A : stream_cipher} {D : StreamDoc A}.

Abbreviation nl := (stream_noncebytes A).
Abbreviation kl := (stream_keybytes A).

(** Into a new buffer, and in place *)
Lemma stream_xor_at_fresh b w m n pos k mb nb kb :
  w_mem w !! b = None -> is_slice w m mb -> is_ref w n nl nb -> is_ref w k kl kb ->
  stream_xor_at A keystream (At b 0) (s_ptr m) (s_len m) n pos k
    (w_put b (Some <$> zeros (s_len m)) w) =
    Done 0 (w_put b (Some <$> xor_from (keystream kb nb) pos mb) w).
Proof.
  intros Hb Hm Hn Hk. open_args. unfold stream_xor_at.
  replace (s_len m) with (zlen mb) by done. steps.
Qed.

Lemma stream_xor_at_inplace w m n pos k mb nb kb :
  is_slice w m mb -> is_ref w n nl nb -> is_ref w k kl kb ->
  stream_xor_at A keystream (s_ptr m) (s_ptr m) (s_len m) n pos k w =
    Done 0 (w_write (s_ptr m) (xor_from (keystream kb nb) pos mb) w).
Proof.
  intros Hm Hn Hk. open_args. unfold stream_xor_at.
  replace (s_len m) with (zlen mb) by done. steps.
Qed.

Lemma stream_run w len n k nb kb :
  0 <= len <= isize_max -> is_ref w n nl nb -> is_ref w k kl kb ->
  stream.stream A len n k w =
    Done (Vec (fresh_block w) len len)
         (w_put (fresh_block w) (Some <$> window (keystream kb nb) 0 (Z.to_nat len)) w).
Proof.
  intros Hl Hn Hk. open_args. unfold stream.stream. step. simpl_vec. rewrite stream_name_doc.
  pose proof (window_zlen (keystream kb nb) 0 len). steps. by subst.
Qed.

Lemma stream_xor_run w m n k mb nb kb :
  is_slice w m mb -> is_ref w n nl nb -> is_ref w k kl kb ->
  stream.stream_xor A m n k w =
    Done (Vec (fresh_block w) (zlen mb) (zlen mb))
         (w_put (fresh_block w) (Some <$> xor_from (keystream kb nb) 0 mb) w).
Proof.
  intros Hm Hn Hk. destruct (Hm) as (_ & Hl & ?). unfold stream.stream_xor. rewrite <- Hl. step.
  simpl_vec. rewrite xor_name_doc. eapply bind_step; [by apply stream_xor_at_fresh|]. by subst.
Qed.

Lemma stream_xor_ic_run w m n ic k mb nb kb :
  is_slice w m mb -> is_ref w n nl nb -> is_ref w k kl kb ->
  stream.stream_xor_ic A m n ic k w =
    Done (Vec (fresh_block w) (zlen mb) (zlen mb))
         (w_put (fresh_block w) (Some <$> xor_from (keystream kb nb) (64 * ic) mb) w).
Proof.
  intros Hm Hn Hk. destruct (Hm) as (_ & Hl & ?). unfold stream.stream_xor_ic. rewrite <- Hl. step.
  simpl_vec. rewrite xor_ic_name_doc. eapply bind_step; [by apply stream_xor_at_fresh|]. by subst.
Qed.

Lemma stream_xor_inplace_run w m n k mb nb kb :
  is_slice w m mb -> is_ref w n nl nb -> is_ref w k kl kb ->
  stream.stream_xor_inplace A m n k w =
    Done tt (w_write (s_ptr m) (xor_from (keystream kb nb) 0 mb) w).
Proof.
  intros. unfold stream.stream_xor_inplace. rewrite xor_name_doc.
  eapply bind_step; [by apply stream_xor_at_inplace|done].
Qed.

Lemma stream_xor_ic_inplace_run w m n ic k mb nb kb :
  is_slice w m mb -> is_ref w n nl nb -> is_ref w k kl kb ->
  stream.stream_xor_ic_inplace A m n ic k w =
    Done tt (w_write (s_ptr m) (xor_from (keystream kb nb) (64 * ic) mb) w).
Proof.
  intros. unfold stream.stream_xor_ic_inplace. rewrite xor_ic_name_doc.
  eapply bind_step; [by apply stream_xor_at_inplace|done].
Qed.

End StreamFacts.

(** ** A reference key stream *)

Module RefKeystream.

Definition ks (kb nb : bytes) (i : Z) : byte := byte_of_Z (le_val kb + 3 * le_val nb + 7 * i).

Definition pre : stream_cipher :=
  StreamCipher (fun _ _ _ _ => ret 0) (fun _ _ _ _ _ => ret 0) (fun _ _ _ _ _ _ => ret 0) 32 24.

Definition externs : StreamXsalsa20Externs := {|
  crypto_stream_xsalsa20 c clen n k :=
    let* nb := read n 24 in
    let* kb := read k 32 in
    let* _ := write c (window (ks kb nb) 0 (Z.to_nat clen)) in
    ret 0;
  crypto_stream_xsalsa20_xor c m mlen n k := stream_xor_at pre ks c m mlen n 0 k;
  crypto_stream_xsalsa20_xor_ic c m mlen n ic k := stream_xor_at pre ks c m mlen n (64 * ic) k
|}.

Definition A : stream_cipher := @xsalsa20 externs.

#[refine] Definition doc : StreamDoc A := {| keystream := ks |}.
Proof. all: reflexivity. Defined.

Definition msg : bytes := replicate 64 x61 ++ [x62; x63].
Definition nb : bytes := replicate 24 x05.
Definition kb : bytes := replicate 32 x2a.
Definition w : world := Ref.world [msg; nb; kb].
Definition m : slice := Slice (At 1 0) 66.

End RefKeystream.

(** ** Properties *)

(** [stream_xor()] returns a vector as long as the message that is the
    message xor the output of [stream()]; [stream_xor_ic()] with counter 0
    returns the same, and [stream_xor_inplace()] leaves the same bytes in the
    caller's buffer and changes nothing else. *)
Theorem stream_xor_is_stream `{T : Target} A {D : StreamDoc A} w m n k mb nb kb
    (Hm : is_slice w m mb) (Hn : is_ref w n (stream.NONCEBYTES A) nb)
    (Hk : is_ref w k (stream.KEYBYTES A) kb) :
  exists s ks w1 c w2,
    stream.stream A (s_len m) n k w = Done s w1 /\ is_vec w1 s ks /\ zlen ks = zlen mb /\
    stream.stream_xor A m n k w = Done c w2 /\ is_vec w2 c (xor_bytes mb ks) /\
    stream.stream_xor_ic A m n 0 k w = Done c w2 /\
    stream.stream_xor_inplace A m n k w = Done tt (w_write (s_ptr m) (xor_bytes mb ks) w).
Proof.
  destruct (Hm) as (_ & Hl & Hle). set (ks := window (keystream kb nb) 0 (length mb)).
  assert (Hks : zlen ks = zlen mb) by (unfold zlen, ks; by rewrite window_length).
  assert (Hx : zlen (xor_bytes mb ks) = zlen mb) by apply (xor_from_zlen (keystream kb nb) 0 mb).
  rewrite (stream_xor_run w m n k mb nb kb), (stream_xor_ic_run w m n 0 k mb nb kb) by done.
  rewrite (stream_xor_inplace_run w m n k mb nb kb) by done.
  rewrite Hl, (stream_run w (zlen mb) n k nb kb) by (done || (pose proof (zlen_nonneg mb); lia)). rewrite to_nat_zlen. fold ks.
  unfold xor_from. fold ks. eexists _, ks, _, _, _. split_and!; [done| |done|done| |done|done].
  - rewrite <- Hks. apply is_vec_put. lia.
  - rewrite <- Hx. apply is_vec_put. lia.
Qed.

Lemma stream_xor_is_stream_witness :
  exists s ks w1 c w2,
    @stream.stream RefKeystream.A target64 66 (At 2 0) (At 3 0) RefKeystream.w = Done s w1 /\
    @is_vec target64 w1 s ks /\ zlen ks = 66 /\
    @stream.stream_xor RefKeystream.A target64 RefKeystream.m (At 2 0) (At 3 0) RefKeystream.w = Done c w2 /\
    @is_vec target64 w2 c (xor_bytes RefKeystream.msg ks) /\
    @stream.stream_xor_ic RefKeystream.A target64 RefKeystream.m (At 2 0) 0 (At 3 0) RefKeystream.w = Done c w2 /\
    stream.stream_xor_inplace RefKeystream.A RefKeystream.m (At 2 0) (At 3 0) RefKeystream.w =
      Done tt (w_write (At 1 0) (xor_bytes RefKeystream.msg ks) RefKeystream.w).
Proof.
  apply (@stream_xor_is_stream target64 RefKeystream.A RefKeystream.doc RefKeystream.w RefKeystream.m
    (At 2 0) (At 3 0) RefKeystream.msg RefKeystream.nb RefKeystream.kb); Ref.concrete.
Defined.

(** A client encrypts a buffer in place and decrypts it again. *)
Definition stream_twice (A : stream_cipher) (m : slice) (n : ptr) (ic : Z) (k : ptr) : M unit :=
  let* _ := stream.stream_xor_ic_inplace A m n ic k in
  stream.stream_xor_ic_inplace A m n ic k.

(** Decryption is encryption: applying [stream_xor_ic_inplace()] twice with
    the same nonce, counter and key leaves the whole memory as it was. *)
Theorem stream_involution `{T : Target} A {D : StreamDoc A} w m n ic k mb nb kb
    (Hm : is_slice w m mb) (Hn : is_ref w n (stream.NONCEBYTES A) nb)
    (Hk : is_ref w k (stream.KEYBYTES A) kb)
    (Hmn : apart (s_ptr m) (s_len m) n (stream.NONCEBYTES A) = true)
    (Hmk : apart (s_ptr m) (s_len m) k (stream.KEYBYTES A) = true) :
  stream_twice A m n ic k w = Done tt w.
Proof.
  set (ct := xor_from (keystream kb nb) (64 * ic) mb).
  assert (Hl : zlen ct = zlen mb) by apply xor_from_zlen.
  assert (Hr : in_range w (s_ptr m) (zlen ct)) by (eapply in_range_bytes; [apply Hm|done]).
  unfold stream_twice. eapply bind_step; [by apply (stream_xor_ic_inplace_run w m n ic k mb nb kb)|].
  fold ct. rewrite (stream_xor_ic_inplace_run _ m n ic k ct nb kb).
  - unfold ct at 1. rewrite xor_from_involutive, w_write_write by done.
    by rewrite w_write_id by apply Hm.
  - by apply (is_slice_write_same w m mb).
  - apply is_ref_write_apart; [done| |done]. rewrite Hl. by destruct Hm as (_ & <- & _).
  - apply is_ref_write_apart; [done| |done]. rewrite Hl. by destruct Hm as (_ & <- & _).
Qed.

Lemma stream_involution_witness :
  stream_twice RefKeystream.A RefKeystream.m (At 2 0) 5 (At 3 0) RefKeystream.w = Done tt RefKeystream.w.
Proof.
  apply (@stream_involution target64 RefKeystream.A RefKeystream.doc RefKeystream.w RefKeystream.m
    (At 2 0) 5 (At 3 0) RefKeystream.msg RefKeystream.nb RefKeystream.kb); Ref.concrete.
Defined.

(** Random access: when the part [a] of a message has a whole number of
    64-byte blocks, encrypting [a] from counter [ic] and the rest from the
    counter after its blocks gives the two parts of the ciphertext of the
    whole message. *)
Theorem stream_seek `{T : Target} A {D : StreamDoc A} w m a b n ic k ma mb nb kb
    (Hm : is_slice w m (ma ++ mb)) (Ha : is_slice w a ma) (Hb : is_slice w b mb)
    (Hn : is_ref w n (stream.NONCEBYTES A) nb) (Hk : is_ref w k (stream.KEYBYTES A) kb)
    (Hal : zlen ma mod 64 = 0) :
  exists v va vb c ca cb w1 w2 w3,
    stream.stream_xor_ic A m n ic k w = Done v w1 /\ is_vec w1 v c /\
    stream.stream_xor_ic A a n ic k w = Done va w2 /\ is_vec w2 va ca /\
    stream.stream_xor_ic A b n (ic + zlen ma / 64) k w = Done vb w3 /\ is_vec w3 vb cb /\
    c = ca ++ cb.
Proof.
  rewrite (stream_xor_ic_run w m n ic k (ma ++ mb) nb kb), (stream_xor_ic_run w a n ic k ma nb kb),
    (stream_xor_ic_run w b n _ k mb nb kb) by done.
  set (ks := keystream kb nb).
  eexists _, _, _, (xor_from ks (64 * ic) (ma ++ mb)), (xor_from ks (64 * ic) ma),
    (xor_from ks (64 * (ic + zlen ma / 64)) mb), _, _, _.
  destruct Hm as (_ & _ & ?), Ha as (_ & _ & ?), Hb as (_ & _ & ?).
  split_and!; [done| |done| |done| |].
  - rewrite <- (xor_from_zlen ks (64 * ic) (ma ++ mb)). apply is_vec_put. by rewrite xor_from_zlen.
  - rewrite <- (xor_from_zlen ks (64 * ic) ma). apply is_vec_put. by rewrite xor_from_zlen.
  - rewrite <- (xor_from_zlen ks (64 * (ic + zlen ma / 64)) mb) at 1 2.
    apply is_vec_put. by rewrite xor_from_zlen.
  - rewrite xor_from_app. do 2 f_equal. pose proof (Z.div_mod (zlen ma) 64). lia.
Qed.

Lemma stream_seek_witness :
  exists v va vb c ca cb w1 w2 w3,
    @stream.stream_xor_ic RefKeystream.A target64 RefKeystream.m (At 2 0) 7 (At 3 0) RefKeystream.w = Done v w1 /\
    @is_vec target64 w1 v c /\
    @stream.stream_xor_ic RefKeystream.A target64 (Slice (At 1 0) 64) (At 2 0) 7 (At 3 0) RefKeystream.w = Done va w2 /\
    @is_vec target64 w2 va ca /\
    @stream.stream_xor_ic RefKeystream.A target64 (Slice (At 1 64) 2) (At 2 0) 8 (At 3 0) RefKeystream.w = Done vb w3 /\
    @is_vec target64 w3 vb cb /\ c = ca ++ cb.
Proof.
  apply (@stream_seek target64 RefKeystream.A RefKeystream.doc RefKeystream.w RefKeystream.m
    (Slice (At 1 0) 64) (Slice (At 1 64) 2) (At 2 0) 7 (At 3 0) (replicate 64 x61) [x62; x63]
    RefKeystream.nb RefKeystream.kb); Ref.concrete.
Defined.
