(* ===== verification/Hashes.v ===== *)
(** * SHA-2, HMAC, BLAKE2b and SipHash

    The published algorithms behind the foreign functions of crypto/hash,
    crypto/auth, crypto/generichash, crypto/kdf and crypto/shorthash (FIPS 180-4,
    RFC 2104, RFC 7693, SipHash-2-4).  libsodium is not part of the repository;
    these functions are instances of what the wrappers' theorems are
    parameterised by, with which the test vectors in the source can be
    computed.  A state is the byte string libsodium documents the size of. *)

From S2P Require Export Streaming.

(** ** Hexadecimal literals *)

Definition hex_digit (c : Ascii.ascii) : Z :=
  let n := Z.of_N (Ascii.N_of_ascii c) in if n <? 58 then n - 48 else n - 87.

(** [[0xe3, 0xb0, ...]], written without the separators *)
Fixpoint hex (s : string) : bytes :=
  match s with
  | String.String a (String.String b s) => byte_of_Z (16 * hex_digit a + hex_digit b) :: hex s
  | _ => []
  end.

(** ** Words *)

Section Words.
Context (w : Z).

Definition w_trunc (x : Z) : Z := Z.land x (Z.ones w).
Definition w_add (x y : Z) : Z := w_trunc (x + y).
Definition rotr (n x : Z) : Z := Z.lor (Z.shiftr x n) (w_trunc (Z.shiftl x (w - n))).
Definition rotl (n x : Z) : Z := Z.lor (w_trunc (Z.shiftl x n)) (Z.shiftr x (w - n)).
Definition w_not (x : Z) : Z := Z.lxor x (Z.ones w).

(** The bytes of a word, and of several words *)
Definition w_bytes : nat := Z.to_nat (w / 8).
Definition be_word (bs : bytes) : Z := le_val (rev bs).
Definition word_be (x : Z) : bytes := rev (le_bytes w_bytes x).

Definition words_of (dec : bytes -> Z) (n : nat) (bs : bytes) : list Z :=
  (fun i => dec (take w_bytes (drop (i * w_bytes) bs))) <$> seq 0 n.

End Words.

(** ** Computations that take one byte at a time *)

(** Exactly [n] bytes *)
Definition fit (n : nat) (bs : bytes) : bytes := take n (bs ++ replicate n x00).

Lemma length_fit n bs : length (fit n bs) = n.
Proof. unfold fit. rewrite length_take, length_app, length_replicate. lia. Qed.

Lemma fit_id n bs : length bs = n -> fit n bs = bs.
Proof. intros <-. unfold fit. by rewrite take_app_length. Qed.

Section Bytewise.
Context {P : Type} (size out : nat) (init : P -> bytes) (absorb : bytes -> byte -> bytes) (final : bytes -> bytes).

Definition bytewise_update (s m : bytes) : bytes :=
  fold_left (fun s x => fit size (absorb s x)) m (fit size s).

Definition bytewise : streaming P := {|
  st_size := Z.of_nat size;
  st_out := Z.of_nat out;
  st_init p := fit size (init p);
  st_update := bytewise_update;
  st_final s := fit out (final s);
  st_spent _ := replicate size x00
|}.

Lemma length_bytewise_update s m : length (bytewise_update s m) = size.
Proof.
  unfold bytewise_update. set (s' := fit size s). assert (Hs : length s' = size) by apply length_fit.
  clearbody s'. revert s' Hs. induction m as [|x m IH]; intros s' Hs; cbn; [done|]. apply IH, length_fit.
Qed.

Lemma zlen_bytewise_final s : zlen (st_final bytewise s) = Z.of_nat out.
Proof. unfold zlen. cbn [st_final bytewise]. by rewrite length_fit. Qed.

(** Such a computation does not depend on how the message is cut. *)
Lemma bytewise_laws : Z.of_nat size <= 4096 -> Z.of_nat out <= 4096 -> StreamingLaws bytewise.
Proof.
  intros Hs Ho. split; cbn; try lia; unfold zlen.
  - intros p. by rewrite length_fit.
  - intros s m. by rewrite length_bytewise_update.
  - intros s. by rewrite length_fit.
  - intros s. by rewrite length_replicate.
  - intros s Hl. apply fit_id. lia.
  - intros s a b. unfold bytewise_update at 1.
    rewrite (fit_id size (bytewise_update s a)) by apply length_bytewise_update.
    unfold bytewise_update. by rewrite fold_left_app.
Qed.

End Bytewise.

(** ** SHA-2 *)

Record sha2 := Sha2 {
  sha_word : Z;
  sha_rounds : list Z;
  sha_iv : list Z;
  sha_S0 : Z * Z * Z;
  sha_S1 : Z * Z * Z;
  sha_s0 : Z * Z * Z;
  sha_s1 : Z * Z * Z
}.

Module Sha2.

Section Algorithm.
Context (A : sha2).

#[local] Abbreviation w := (sha_word A).
#[local] Abbreviation add := (w_add w).

Definition rot3 (k : Z * Z * Z) (x : Z) : Z :=
  let '(a, b, c) := k in Z.lxor (Z.lxor (rotr w a x) (rotr w b x)) (rotr w c x).
Definition rot2 (k : Z * Z * Z) (x : Z) : Z :=
  let '(a, b, c) := k in Z.lxor (Z.lxor (rotr w a x) (rotr w b x)) (Z.shiftr x c).
Definition ch (x y z : Z) : Z := Z.lxor (Z.land x y) (Z.land (w_not w x) z).
Definition maj (x y z : Z) : Z := Z.lxor (Z.lxor (Z.land x y) (Z.land x z)) (Z.land y z).

(** The message schedule, from the sixteen words that come next *)
Fixpoint schedule (n : nat) (ws : list Z) : list Z :=
  match n, ws with
  | S n, w0 :: rest =>
    w0 :: schedule n (rest ++
      [add (add (rot2 (sha_s1 A) (nth 14 ws 0)) (nth 9 ws 0)) (add (rot2 (sha_s0 A) (nth 1 ws 0)) w0)])
  | _, _ => []
  end.

Definition round (st : list Z) (kw : Z * Z) : list Z :=
  match st with
  | [a; b; c; d; e; f; g; h] =>
    let t1 := add (add h (rot3 (sha_S1 A) e)) (add (ch e f g) (add (fst kw) (snd kw))) in
    let t2 := add (rot3 (sha_S0 A) a) (maj a b c) in
    [add t1 t2; a; b; c; add d t1; e; f; g]
  | _ => st
  end.

Definition compress (st : list Z) (block : bytes) : list Z :=
  let ws := schedule (length (sha_rounds A)) (words_of w be_word 16 block) in
  zip_with add st (fold_left round (zip (sha_rounds A) ws) st).

(** The state: the eight words, the number of bits (in two words), and the
    block that is being filled *)
Definition wb : nat := w_bytes w.
Definition block_len : nat := (16 * wb)%nat.
Definition size : nat := (8 * wb + 2 * wb + 16 * wb)%nat.

Definition encode (st : bytes) (bits : Z) (buf : bytes) : bytes := st ++ le_bytes (2 * wb) bits ++ fit block_len buf.
Definition words_bytes (st : list Z) : bytes := concat (le_bytes wb <$> st).
Definition state_words (s : bytes) : list Z := words_of w le_val 8 s.
Definition state_bits (s : bytes) : Z := le_val (take (2 * wb) (drop (8 * wb) s)).
Definition state_buf (s : bytes) : bytes := drop (10 * wb) s.
Definition fill (s : bytes) : nat := Z.to_nat (state_bits s / 8 mod Z.of_nat block_len).

Definition init (_ : unit) : bytes := encode (words_bytes (sha_iv A)) 0 [].

Definition absorb (s : bytes) (x : byte) : bytes :=
  let buf := take (fill s) (state_buf s) ++ [x] in
  let st :=
    if (length buf =? block_len)%nat then words_bytes (compress (state_words s) buf) else take (8 * wb) s in
  encode st (state_bits s + 8) buf.

(** The padding: a one bit, zeros, and the number of bits *)
Definition final (s : bytes) : bytes :=
  let buf := take (fill s) (state_buf s) ++ [x80] in
  let len := rev (le_bytes (2 * wb) (state_bits s)) in
  let zeros_len := ((2 * block_len - 2 * wb - length buf) mod block_len)%nat in
  let padded := buf ++ replicate zeros_len x00 ++ len in
  let st := compress (state_words s) (take block_len padded) in
  let st := if (length padded =? block_len)%nat then st else compress st (drop block_len padded) in
  concat (word_be w <$> st).

Definition streaming : streaming unit := bytewise size (8 * wb) init absorb final.
Definition digest (m : bytes) : bytes := st_digest streaming tt m.

End Algorithm.

End Sha2.

(** *** The constants

    They are the first bits of the fractional parts of the square roots and of
    the cube roots of the first primes. *)

Definition is_prime (n : nat) : bool := forallb (fun d => negb (n mod d =? 0)%nat) (seq 2 (n - 2)).
Definition primes : list Z := Eval vm_compute in Z.of_nat <$> List.filter is_prime (seq 2 408).

(** The greatest [r] of so many bits with [r ^ 3 <= n] *)
Definition cube_root (bits : nat) (n : Z) : Z :=
  fold_left (fun r i => let r' := r + 2 ^ Z.of_nat i in if r' ^ 3 <=? n then r' else r) (rev (seq 0 bits)) 0.

Definition square_root_bits (w p : Z) : Z := Z.sqrt (p * 2 ^ (2 * w)) mod 2 ^ w.
Definition cube_root_bits (w p : Z) : Z := cube_root (Z.to_nat w + 3) (p * 2 ^ (3 * w)) mod 2 ^ w.

Definition sha256_iv : list Z := Eval vm_compute in square_root_bits 32 <$> take 8 primes.
Definition sha512_iv : list Z := Eval vm_compute in square_root_bits 64 <$> take 8 primes.
Definition sha256_rounds : list Z := Eval vm_compute in cube_root_bits 32 <$> take 64 primes.
Definition sha512_rounds : list Z := Eval vm_compute in cube_root_bits 64 <$> take 80 primes.

Definition Sha256 : sha2 := {|
  sha_word := 32;
  sha_rounds := sha256_rounds;
  sha_iv := sha256_iv;
  sha_S0 := (2, 13, 22);
  sha_S1 := (6, 11, 25);
  sha_s0 := (7, 18, 3);
  sha_s1 := (17, 19, 10)
|}.

Definition Sha512 : sha2 := {|
  sha_word := 64;
  sha_rounds := sha512_rounds;
  sha_iv := sha512_iv;
  sha_S0 := (28, 34, 39);
  sha_S1 := (14, 18, 41);
  sha_s0 := (1, 8, 7);
  sha_s1 := (19, 61, 6)
|}.

Example sha256_abc :
  Sha2.digest Sha256 [x61; x62; x63] =
    hex "ba7816bf8f01cfea414140de5dae2223b00361a396177a9cb410ff61f20015ad".
Proof. vm_compute. reflexivity. Qed.

Example sha512_abc :
  Sha2.digest Sha512 [x61; x62; x63] =
    hex "ddaf35a193617abacc417349ae20413112e6fa4e89a97ea20a9eeee64b55d39a2192992a274fc1a836ba3c23a3feebbd454d4423643ce80e2a9ac94fa54ca49f".
Proof. vm_compute. reflexivity. Qed.

(** ** HMAC *)

Module Hmac.

Section Algorithm.
Context (S : streaming unit) (block_len out : nat).

#[local] Abbreviation size := (Z.to_nat (st_size S)).

Definition short_key (key : bytes) : bytes :=
  if decide (length key <= block_len)%nat then key else st_digest S tt key.
Definition pad_key (c : byte) (key : bytes) : bytes := (fun k => byte_xor k c) <$> fit block_len (short_key key).

Definition keyed (c : byte) (key : bytes) : bytes := st_update S (st_init S tt) (pad_key c key).

(** The state: the inner hash and the outer hash *)
Definition init (key : bytes) : bytes := keyed x36 key ++ keyed x5c key.
Definition absorb (s : bytes) (x : byte) : bytes := st_update S (take size s) [x] ++ drop size s.
Definition final (s : bytes) : bytes := st_final S (st_update S (drop size s) (st_final S (take size s))).

Definition streaming : streaming bytes := bytewise (2 * size) out init absorb final.
Definition mac (key m : bytes) : bytes := st_digest streaming key m.

End Algorithm.

End Hmac.

Definition hmac_sha256 : streaming bytes := Hmac.streaming (Sha2.streaming Sha256) 64 32.
Definition hmac_sha512 : streaming bytes := Hmac.streaming (Sha2.streaming Sha512) 128 64.
Definition hmac_sha512256 : streaming bytes := Hmac.streaming (Sha2.streaming Sha512) 128 32.

(** ** BLAKE2b *)

Module Blake2b.

#[local] Abbreviation add := (w_add 64).

Definition sigma : list (list nat) := [
  [0; 1; 2; 3; 4; 5; 6; 7; 8; 9; 10; 11; 12; 13; 14; 15];
  [14; 10; 4; 8; 9; 15; 13; 6; 1; 12; 0; 2; 11; 7; 5; 3];
  [11; 8; 12; 0; 5; 2; 15; 13; 10; 14; 3; 6; 7; 1; 9; 4];
  [7; 9; 3; 1; 13; 12; 11; 14; 2; 6; 5; 10; 4; 0; 15; 8];
  [9; 0; 5; 7; 2; 4; 10; 15; 14; 1; 11; 12; 6; 8; 3; 13];
  [2; 12; 6; 10; 0; 11; 8; 3; 4; 13; 7; 5; 15; 14; 1; 9];
  [12; 5; 1; 15; 14; 13; 4; 10; 0; 7; 6; 3; 9; 2; 8; 11];
  [13; 11; 7; 14; 12; 1; 3; 9; 5; 0; 15; 4; 8; 6; 2; 10];
  [6; 15; 14; 9; 11; 3; 0; 8; 12; 2; 13; 7; 1; 4; 10; 5];
  [10; 2; 8; 4; 7; 6; 1; 5; 15; 11; 9; 14; 3; 12; 13; 0];
  [0; 1; 2; 3; 4; 5; 6; 7; 8; 9; 10; 11; 12; 13; 14; 15];
  [14; 10; 4; 8; 9; 15; 13; 6; 1; 12; 0; 2; 11; 7; 5; 3]]%nat.

Definition G (v : list Z) (a b c d : nat) (x y : Z) : list Z :=
  let at_ i := nth i v 0 in
  let a1 := add (add (at_ a) (at_ b)) x in
  let d1 := rotr 64 32 (Z.lxor (at_ d) a1) in
  let c1 := add (at_ c) d1 in
  let b1 := rotr 64 24 (Z.lxor (at_ b) c1) in
  let a2 := add (add a1 b1) y in
  let d2 := rotr 64 16 (Z.lxor d1 a2) in
  let c2 := add c1 d2 in
  let b2 := rotr 64 63 (Z.lxor b1 c2) in
  <[a := a2]> (<[b := b2]> (<[c := c2]> (<[d := d2]> v))).

Definition columns_and_diagonals : list (nat * nat * nat * nat) :=
  [(0, 4, 8, 12); (1, 5, 9, 13); (2, 6, 10, 14); (3, 7, 11, 15);
   (0, 5, 10, 15); (1, 6, 11, 12); (2, 7, 8, 13); (3, 4, 9, 14)]%nat.

Definition round (m : list Z) (v : list Z) (s : list nat) : list Z :=
  fold_left (fun v '(i, (a, b, c, d)) => G v a b c d (nth (nth (2 * i) s 0%nat) m 0) (nth (nth (2 * i + 1) s 0%nat) m 0))
    (zip (seq 0 8) columns_and_diagonals) v.

(** [t] is the number of bytes so far, [last] marks the last block. *)
Definition compress (h : list Z) (t : Z) (last : bool) (block : bytes) : list Z :=
  let m := words_of 64 le_val 16 block in
  let iv := sha512_iv in
  let v := h ++ take 4 iv ++
    [Z.lxor (nth 4 iv 0) (w_trunc 64 t); Z.lxor (nth 5 iv 0) (Z.shiftr t 64);
     (if last then w_not 64 (nth 6 iv 0) else nth 6 iv 0); nth 7 iv 0] in
  let v' := fold_left (round m) sigma v in
  zip_with (fun h v => Z.lxor h v) h (zip_with (fun x y => Z.lxor x y) (take 8 v') (drop 8 v')).

(** The state: the eight words, the number of bytes compressed, the number of
    bytes that wait, and these bytes *)
Definition words_bytes (h : list Z) : bytes := concat (le_bytes 8 <$> h).
Definition encode (h : bytes) (t : Z) (buf : bytes) : bytes :=
  h ++ le_bytes 16 t ++ le_bytes 8 (zlen buf) ++ fit 128 buf ++ replicate 168 x00.
Definition state_words (s : bytes) : list Z := words_of 64 le_val 8 s.
Definition state_count (s : bytes) : Z := le_val (take 16 (drop 64 s)).
Definition state_buf (s : bytes) : bytes := take (Z.to_nat (le_val (take 8 (drop 80 s)))) (drop 88 s).

(** The parameters: the lengths of the digest and of the key, salt and
    personalisation; a key is a first block. *)
Definition init_params (out : nat) (key salt personal : bytes) : bytes :=
  let param := [byte_of_Z (Z.of_nat out); byte_of_Z (zlen key); x01; x01] ++ replicate 28 x00 ++
    fit 16 salt ++ fit 16 personal in
  let h := zip_with (fun x y => Z.lxor x y) sha512_iv (words_of 64 le_val 8 param) in
  encode (words_bytes h) 0 (match key with [] => [] | _ => fit 128 key end).

Definition absorb (s : bytes) (x : byte) : bytes :=
  let buf := state_buf s in
  if (length buf =? 128)%nat then
    let t := state_count s + 128 in
    encode (words_bytes (compress (state_words s) t false buf)) t [x]
  else encode (take 64 s) (state_count s) (buf ++ [x]).

Definition final (s : bytes) : bytes :=
  let buf := state_buf s in
  words_bytes (compress (state_words s) (state_count s + zlen buf) true (fit 128 buf)).

Definition streaming (out : nat) : streaming bytes :=
  bytewise 384 out (fun key => init_params out key [] []) absorb final.

(** With salt and personalisation, for the derivation of keys *)
Definition digest_with (out : nat) (key salt personal m : bytes) : bytes :=
  fit out (final (bytewise_update 384 absorb (init_params out key salt personal) m)).

End Blake2b.

(** ** SipHash-2-4 *)

Module SipHash.

#[local] Abbreviation add := (w_add 64).
#[local] Abbreviation rot := (rotl 64).

Definition sip_round (v : Z * Z * Z * Z) : Z * Z * Z * Z :=
  let '(v0, v1, v2, v3) := v in
  let v0 := add v0 v1 in let v1 := Z.lxor (rot 13 v1) v0 in let v0 := rot 32 v0 in
  let v2 := add v2 v3 in let v3 := Z.lxor (rot 16 v3) v2 in
  let v0 := add v0 v3 in let v3 := Z.lxor (rot 21 v3) v0 in
  let v2 := add v2 v1 in let v1 := Z.lxor (rot 17 v1) v2 in let v2 := rot 32 v2 in
  (v0, v1, v2, v3).

Definition block (v : Z * Z * Z * Z) (m : Z) : Z * Z * Z * Z :=
  let '(v0, v1, v2, v3) := v in
  let '(v0, v1, v2, v3) := Nat.iter 2 sip_round (v0, v1, v2, Z.lxor v3 m) in
  (Z.lxor v0 m, v1, v2, v3).

Definition start (k : bytes) : Z * Z * Z * Z :=
  let k0 := le_val (take 8 k) in
  let k1 := le_val (take 8 (drop 8 k)) in
  (Z.lxor k0 0x736f6d6570736575, Z.lxor k1 0x646f72616e646f6d,
   Z.lxor k0 0x6c7967656e657261, Z.lxor k1 0x7465646279746573).

Definition digest (k m : bytes) : bytes :=
  let full := (length m / 8)%nat in
  let last := le_val (drop (8 * full) m) + Z.shiftl (Z.land (zlen m) 255) 56 in
  let v := fold_left block (words_of 64 le_val full m ++ [last]) (start k) in
  let '(v0, v1, v2, v3) := v in
  let '(v0, v1, v2, v3) := Nat.iter 4 sip_round (v0, v1, Z.lxor v2 255, v3) in
  le_bytes 8 (Z.lxor (Z.lxor v0 v1) (Z.lxor v2 v3)).

Lemma siphash_zlen k m : zlen (digest k m) = 8.
Proof.
  unfold digest. destruct (fold_left _ _ _) as [[[? ?] ?] ?]. destruct (Nat.iter _ _ _) as [[[? ?] ?] ?].
  by rewrite zlen_le_bytes.
Qed.

End SipHash.
