(* ===== verification/Ciphers.v ===== *)
(** * Salsa20, ChaCha20, Poly1305 and the constructions on them

    The published algorithms behind the foreign functions of crypto/stream,
    crypto/onetimeauth, crypto/secretbox and crypto/aead (the Salsa20 and
    XSalsa20 specifications, RFC 8439, draft-irtf-cfrg-xchacha): key streams,
    one-time authenticators, and authenticated ciphers with the laws the
    wrappers rely on. *)

From S2P Require Export Hashes Stream.

#[local] Abbreviation add := (w_add 32).
#[local] Abbreviation rot := (rotl 32).

(** The sixteen words of a block, as a list *)
Definition word_at (st : list Z) (i : nat) : Z := nth i st 0.

(** A quarter round on the words at four places *)
Definition on_quarter (f : Z * Z * Z * Z -> Z * Z * Z * Z) (st : list Z) (p : nat * nat * nat * nat) : list Z :=
  let '(a, b, c, d) := p in
  let '(a', b', c', d') := f (word_at st a, word_at st b, word_at st c, word_at st d) in
  <[a := a']> (<[b := b']> (<[c := c']> (<[d := d']> st))).

Definition le_words (n : nat) (bs : bytes) : list Z := words_of 32 le_val n bs.
Definition words_le (ws : list Z) : bytes := concat (le_bytes 4 <$> ws).

(** "expand 32-byte k" *)
Definition constants : list Z := [0x61707865; 0x3320646e; 0x79622d32; 0x6b206574].

(** ** Salsa20 *)

Module Salsa20.

Definition quarter (x : Z * Z * Z * Z) : Z * Z * Z * Z :=
  let '(a, b, c, d) := x in
  let b := Z.lxor b (rot 7 (add a d)) in
  let c := Z.lxor c (rot 9 (add b a)) in
  let d := Z.lxor d (rot 13 (add c b)) in
  let a := Z.lxor a (rot 18 (add d c)) in
  (a, b, c, d).

Definition double_round (st : list Z) : list Z :=
  fold_left (on_quarter quarter)
    [(0, 4, 8, 12); (5, 9, 13, 1); (10, 14, 2, 6); (15, 3, 7, 11);
     (0, 1, 2, 3); (5, 6, 7, 4); (10, 11, 8, 9); (15, 12, 13, 14)]%nat st.

Definition rounds (st : list Z) : list Z := Nat.iter 10 double_round st.

(** The key and sixteen more bytes around the constants *)
Definition initial (k inp : bytes) : list Z :=
  let c := constants in
  [word_at c 0] ++ le_words 4 k ++ [word_at c 1] ++ le_words 4 inp ++
  [word_at c 2] ++ le_words 4 (drop 16 k) ++ [word_at c 3].

Definition block (k n : bytes) (i : Z) : bytes :=
  let st := initial k (take 8 n ++ le_bytes 8 i) in words_le (zip_with add st (rounds st)).

Definition hsalsa20 (k inp : bytes) : bytes :=
  let st := rounds (initial k inp) in
  words_le (word_at st <$> [0; 5; 10; 15; 6; 7; 8; 9]%nat).

(** XSalsa20: the first sixteen bytes of the nonce make the key. *)
Definition xblock (k n : bytes) (i : Z) : bytes := block (hsalsa20 k n) (drop 16 n) i.

End Salsa20.

(** ** ChaCha20 *)

Module ChaCha20.

Definition quarter (x : Z * Z * Z * Z) : Z * Z * Z * Z :=
  let '(a, b, c, d) := x in
  let a := add a b in let d := rot 16 (Z.lxor d a) in
  let c := add c d in let b := rot 12 (Z.lxor b c) in
  let a := add a b in let d := rot 8 (Z.lxor d a) in
  let c := add c d in let b := rot 7 (Z.lxor b c) in
  (a, b, c, d).

Definition double_round (st : list Z) : list Z :=
  fold_left (on_quarter quarter)
    [(0, 4, 8, 12); (1, 5, 9, 13); (2, 6, 10, 14); (3, 7, 11, 15);
     (0, 5, 10, 15); (1, 6, 11, 12); (2, 7, 8, 13); (3, 4, 9, 14)]%nat st.

Definition rounds (st : list Z) : list Z := Nat.iter 10 double_round st.
Definition initial (k inp : bytes) : list Z := constants ++ le_words 8 k ++ le_words 4 inp.
Definition core (k inp : bytes) : bytes :=
  let st := initial k inp in words_le (zip_with add st (rounds st)).

(** With a 64-bit counter and an 8-byte nonce, and as in RFC 8439 *)
Definition block (k n : bytes) (i : Z) : bytes := core k (le_bytes 8 i ++ n).
Definition ietf_block (k n : bytes) (i : Z) : bytes := core k (le_bytes 4 i ++ n).

Definition hchacha20 (k inp : bytes) : bytes :=
  let st := rounds (initial k inp) in words_le (take 4 st ++ drop 12 st).
Definition xchacha_key (k n : bytes) : bytes := hchacha20 k (take 16 n).
Definition xchacha_nonce (n : bytes) : bytes := zeros 4 ++ drop 16 n.

(** XChaCha20 *)
Definition xblock (k n : bytes) (i : Z) : bytes := block (xchacha_key k n) (drop 16 n) i.

End ChaCha20.

(** ** Key streams *)

(** The byte at a position of the stream of 64-byte blocks *)
Definition block_stream (block : bytes -> bytes -> Z -> bytes) (k n : bytes) (pos : Z) : byte :=
  nth (Z.to_nat (pos mod 64)) (block k n (pos / 64)) x00.

(** The first [len] bytes, block by block *)
Definition stream_bytes (block : Z -> bytes) (len : nat) : bytes :=
  fit len (concat ((fun i => block (Z.of_nat i)) <$> seq 0 (len / 64 + 1))).

Section Lengths.

Lemma length_words_le ws : length (words_le ws) = (4 * length ws)%nat.
Proof.
  unfold words_le. induction ws as [|x ws IH]; [done|].
  cbn [fmap list_fmap concat length]. rewrite length_app, length_le_bytes, IH. lia.
Qed.

Lemma length_quarters q ps : forall st, length (fold_left (on_quarter q) ps st) = length st.
Proof.
  induction ps as [|[[[a b] c] d] ps IH]; intros st; [done|]. cbn [fold_left]. rewrite IH. unfold on_quarter.
  destruct (q _) as [[[? ?] ?] ?]. by rewrite !length_insert.
Qed.

Lemma length_iter {X} (f : list X -> list X) n st : (forall l, length (f l) = length l) -> length (Nat.iter n f st) = length st.
Proof. intros Hf. induction n as [|n IH]; [done|]. cbn. by rewrite Hf. Qed.

Lemma length_core st rs : length st = 16%nat -> length rs = length st -> length (words_le (zip_with add st rs)) = 64%nat.
Proof. intros Hs Hr. rewrite length_words_le, length_zip_with, Hr, Hs. done. Qed.

Lemma length_salsa20 k n i : length (Salsa20.block k n i) = 64%nat.
Proof. apply length_core; [done|]. apply length_iter. intros l. apply length_quarters. Qed.

Lemma length_chacha20 k inp : length (ChaCha20.core k inp) = 64%nat.
Proof. apply length_core; [done|]. apply length_iter. intros l. apply length_quarters. Qed.

(** The first bytes of the stream, block by block *)
Lemma window_stream_bytes block k n len :
  (forall i, length (block k n i) = 64%nat) -> window (block_stream block k n) 0 len = stream_bytes (block k n) len.
Proof.
  intros Hb. unfold stream_bytes. set (bs := fun m => concat ((fun i => block k n (Z.of_nat i)) <$> seq 0 m)).
  assert (Hs : forall m, bs (S m) = bs m ++ block k n (Z.of_nat m)).
  { intros m. unfold bs. rewrite seq_S, fmap_app, concat_app. cbn. by rewrite app_nil_r. }
  assert (Hl : forall m, length (bs m) = (64 * m)%nat).
  { intros m. induction m as [|m IH]; [done|]. rewrite Hs, length_app, IH, Hb. lia. }
  assert (Hn : forall m i, (i < 64 * m)%nat -> nth i (bs m) x00 = block_stream block k n (Z.of_nat i)).
  { intros m. induction m as [|m IH]; intros i Hi; [lia|]. rewrite Hs.
    destruct (decide (i < 64 * m)%nat) as [Hlt|Hge].
    - rewrite app_nth1 by (rewrite Hl; lia). by apply IH.
    - rewrite app_nth2, Hl by (rewrite Hl; lia). unfold block_stream.
      assert (Z.of_nat i = 64 * Z.of_nat m + Z.of_nat (i - 64 * m)) as -> by lia.
      rewrite (Z.mul_comm 64), Z.add_comm, Z.mod_add, Z.div_add, Z.mod_small, Z.div_small, Z.add_0_l, Nat2Z.id by lia.
      done. }
  set (m := (len / 64 + 1)%nat). assert (Hm : (len <= 64 * m)%nat) by (unfold m; pose proof (Nat.div_mod_eq len 64); pose proof (Nat.mod_upper_bound len 64); lia).
  unfold fit. rewrite take_app_le by (fold (bs m); rewrite Hl; lia). fold (bs m).
  apply (nth_ext _ _ x00 x00).
  - unfold window. rewrite length_fmap, length_seq, length_take, Hl. lia.
  - unfold window. rewrite length_fmap, length_seq. intros i Hi.
    rewrite nth_firstn. replace (i <? len)%nat with true by (symmetry; by apply Nat.ltb_lt). rewrite Hn by lia.
    by rewrite nth_lookup, list_lookup_fmap, lookup_seq_lt.
Qed.

End Lengths.

(** ** Poly1305 *)

Module Poly1305.

Definition p : Z := 2 ^ 130 - 5.
Definition clamp (r : Z) : Z := Z.land r 0x0ffffffc0ffffffc0ffffffc0fffffff.

Fixpoint blocks (fuel : nat) (m : bytes) : list bytes :=
  match fuel, m with
  | S fuel, _ :: _ => take 16 m :: blocks fuel (drop 16 m)
  | _, _ => []
  end.

Definition mac (k m : bytes) : bytes :=
  let r := clamp (le_val (take 16 k)) in
  let s := le_val (drop 16 k) in
  let acc := fold_left (fun acc b => (acc + le_val (b ++ [x01])) * r mod p) (blocks (length m) m) 0 in
  le_bytes 16 (acc + s).

Lemma poly1305_zlen k m : zlen (mac k m) = 16.
Proof. apply (zlen_le_bytes 16). Qed.

End Poly1305.

(** ** Authenticated ciphers *)

Definition xor_stream (ks m : bytes) : bytes := xor_bytes m ks.

Lemma xor_bytes_twice m ks : length ks = length m -> xor_bytes (xor_bytes m ks) ks = m.
Proof.
  unfold xor_bytes. revert ks. induction m as [|x m IH]; intros [|y ks] Hl; try done. cbn in *.
  by rewrite byte_xor_cancel, IH by lia.
Qed.

Lemma zlen_xor_bytes m ks : length ks = length m -> zlen (xor_bytes m ks) = zlen m.
Proof. intros Hl. unfold xor_bytes, zlen. rewrite length_zip_with, Hl. lia. Qed.

Section StreamCipher.
Context (nonce : Z) (pad : bytes (* key *) -> bytes (* nonce *) -> nat -> bytes).
Context (mac : bytes -> bytes -> bytes -> bytes -> bytes).
Hypothesis pad_length : forall k n len, length (pad k n len) = len.
Hypothesis mac_length : forall k n ad c, zlen (mac k n ad c) = 16.

(** The message xor a pad that depends on the key, the nonce and the length *)
Definition pad_cipher : cipher := {|
  c_nonce := nonce;
  c_tag := 16;
  c_enc k n m := xor_bytes m (pad k n (length m));
  c_dec k n c := xor_bytes c (pad k n (length c));
  c_mac := mac
|}.

Lemma pad_cipher_laws : CipherLaws pad_cipher.
Proof.
  assert (Hl : forall k n m, zlen (xor_bytes m (pad k n (length m))) = zlen m)
    by (intros; by apply zlen_xor_bytes).
  split; cbn; [lia|done|done|done|]. intros k n m.
  assert (He : length (xor_bytes m (pad k n (length m))) = length m) by (apply Nat2Z.inj, Hl).
  rewrite He. by apply xor_bytes_twice.
Qed.

End StreamCipher.

(** *** XSalsa20-Poly1305: [crypto_secretbox] *)

Module XSalsa20Poly1305.

(** The first 32 bytes of the stream are the key of the authenticator. *)
Definition stream (k n : bytes) (len : nat) : bytes := stream_bytes (Salsa20.block (Salsa20.hsalsa20 k n) (drop 16 n)) len.
Definition pad (k n : bytes) (len : nat) : bytes := fit len (drop 32 (stream k n (32 + len))).
Definition mac (k n _ c : bytes) : bytes := Poly1305.mac (stream k n 32) c.

Definition cipher : cipher := pad_cipher 24 pad mac.

Lemma xsalsa20poly1305_laws : CipherLaws cipher.
Proof. apply pad_cipher_laws; [intros; apply length_fit|intros; apply Poly1305.poly1305_zlen]. Qed.

End XSalsa20Poly1305.

(** *** ChaCha20-Poly1305 (RFC 8439) and XChaCha20-Poly1305 *)

Module ChaCha20Poly1305.

Definition stream (k n : bytes) (len : nat) : bytes := stream_bytes (ChaCha20.ietf_block k n) len.
Definition pad (k n : bytes) (len : nat) : bytes := fit len (drop 64 (stream k n (64 + len))).

Definition pad16 (bs : bytes) : bytes := bs ++ replicate (Z.to_nat (- zlen bs mod 16)) x00.
Definition mac (k n ad c : bytes) : bytes :=
  Poly1305.mac (stream k n 32) (pad16 ad ++ pad16 c ++ le_bytes 8 (zlen ad) ++ le_bytes 8 (zlen c)).

Definition ietf : cipher := pad_cipher 12 pad mac.

(** The construction before RFC 8439: nonces of eight bytes, nothing is padded *)
Definition old_stream (k n : bytes) (len : nat) : bytes := stream_bytes (ChaCha20.block k n) len.
Definition old_pad (k n : bytes) (len : nat) : bytes := fit len (drop 64 (old_stream k n (64 + len))).
Definition old_mac (k n ad c : bytes) : bytes :=
  Poly1305.mac (old_stream k n 32) (ad ++ le_bytes 8 (zlen ad) ++ c ++ le_bytes 8 (zlen c)).

Definition original : cipher := pad_cipher 8 old_pad old_mac.

Definition xpad (k n : bytes) : nat -> bytes := pad (ChaCha20.xchacha_key k n) (ChaCha20.xchacha_nonce n).
Definition xmac (k n : bytes) : bytes -> bytes -> bytes := mac (ChaCha20.xchacha_key k n) (ChaCha20.xchacha_nonce n).

Definition xchacha : cipher := pad_cipher 24 xpad xmac.

Lemma ietf_laws : CipherLaws ietf.
Proof. apply pad_cipher_laws; [intros; apply length_fit|intros; apply Poly1305.poly1305_zlen]. Qed.
Lemma original_laws : CipherLaws original.
Proof. apply pad_cipher_laws; [intros; apply length_fit|intros; apply Poly1305.poly1305_zlen]. Qed.
Lemma xchacha_laws : CipherLaws xchacha.
Proof. apply pad_cipher_laws; [intros; apply length_fit|intros; apply Poly1305.poly1305_zlen]. Qed.

End ChaCha20Poly1305.

(** *** AES-256-GCM (FIPS 197, NIST SP 800-38D) *)

Module Aes256.

(** Multiplication by x, and of two elements, in GF(2^8) *)
Definition xtime (a : Z) : Z := let b := Z.shiftl a 1 in if Z.testbit b 8 then Z.lxor b 0x11b else b.
Definition gmul (a b : Z) : Z :=
  (fold_left (fun '(r, a) i => (if Z.testbit b (Z.of_nat i) then Z.lxor r a else r, xtime a)) (seq 0 8) (0, a)).1.
Definition ginv (a : Z) : Z := Nat.iter 6 (fun r => gmul (gmul r r) a) a.

(** The substitution: the inverse (the power 254) and an affine map *)
Definition sub (b : byte) : byte :=
  let i := let r := ginv (byte_val b) in gmul r r in
  let rot k := Z.land (Z.lor (Z.shiftl i k) (Z.shiftr i (8 - k))) 255 in
  byte_of_Z (Z.lxor (Z.lxor (Z.lxor i (rot 1)) (Z.lxor (rot 2) (rot 3))) (Z.lxor (rot 4) 0x63)).

Definition xor (a b : bytes) : bytes := zip_with byte_xor a b.

(** The words of the key schedule, of which there are sixty *)
Fixpoint expand (n : nat) (i : nat) (rcon : Z) (ws : list bytes) : list bytes :=
  match n with
  | O => ws
  | S n =>
    let prev := nth (i - 1) ws [] in
    let t :=
      if (i mod 8 =? 0)%nat then xor (sub <$> (drop 1 prev ++ take 1 prev)) [byte_of_Z rcon; x00; x00; x00]
      else if (i mod 8 =? 4)%nat then sub <$> prev else prev in
    expand n (S i) (if (i mod 8 =? 0)%nat then xtime rcon else rcon) (ws ++ [xor (nth (i - 8) ws []) t])
  end.

Definition key_words (k : bytes) : list bytes :=
  expand 52 8 1 ((fun i => take 4 (drop (4 * i) k)) <$> seq 0 8).
Definition round_key (ws : list bytes) (r : nat) : bytes := concat (take 4 (drop (4 * r) ws)).

Definition shift_rows (s : bytes) : bytes := (fun i => nth ((i + 4 * (i mod 4)) mod 16) s x00) <$> seq 0 16.
Definition mix_column (c : bytes) : bytes :=
  let v i := byte_val (nth (i mod 4)%nat c x00) in
  (fun i => byte_of_Z (Z.lxor (Z.lxor (gmul 2 (v i)) (gmul 3 (v (i + 1)%nat))) (Z.lxor (v (i + 2)%nat) (v (i + 3)%nat))))
    <$> seq 0 4.
Definition mix_columns (s : bytes) : bytes := concat ((fun c => mix_column (take 4 (drop (4 * c) s))) <$> seq 0 4).

Definition encrypt (ws : list bytes) (s : bytes) : bytes :=
  let s := xor s (round_key ws 0) in
  let s := fold_left (fun s r => xor (mix_columns (shift_rows (sub <$> s))) (round_key ws r)) (seq 1 13) s in
  xor (shift_rows (sub <$> s)) (round_key ws 14).

End Aes256.

Module AesGcm.

(** Multiplication in GF(2^128); the first bit of a block is the coefficient
    of 1. *)
Definition gcm_mul (x y : Z) : Z :=
  (fold_left (fun '(z, v) i =>
     (if Z.testbit x (127 - Z.of_nat i) then Z.lxor z v else z,
      if Z.odd v then Z.lxor (Z.shiftr v 1) (Z.shiftl 0xe1 120) else Z.shiftr v 1)) (seq 0 128) (0, y)).1.

Definition ghash (h : Z) (m : bytes) : Z :=
  fold_left (fun y b => gcm_mul (Z.lxor y (be_word b)) h) (Poly1305.blocks (length m) m) 0.

Definition be (n : nat) (z : Z) : bytes := rev (le_bytes n z).
Definition counter_block (ws : list bytes) (n : bytes) (i : Z) : bytes := Aes256.encrypt ws (n ++ be 4 i).

Definition pad (k n : bytes) (len : nat) : bytes :=
  let ws := Aes256.key_words k in
  fit len (concat ((fun i => counter_block ws n (Z.of_nat i + 2)) <$> seq 0 (len / 16 + 1))).

Definition mac (k n ad c : bytes) : bytes :=
  let ws := Aes256.key_words k in
  let h := be_word (Aes256.encrypt ws (zeros 16)) in
  let lengths := be 8 (8 * zlen ad) ++ be 8 (8 * zlen c) in
  let s := ghash h (ChaCha20Poly1305.pad16 ad ++ ChaCha20Poly1305.pad16 c ++ lengths) in
  fit 16 (xor_bytes (be 16 s) (counter_block ws n 1)).

Definition cipher : cipher := pad_cipher 12 pad mac.

Lemma aes256gcm_laws : CipherLaws cipher.
Proof. apply pad_cipher_laws; [intros; apply length_fit|intros; unfold mac, zlen; by rewrite length_fit]. Qed.

End AesGcm.
