(* ===== verification/Curve.v ===== *)
(** * X25519

    The function of RFC 7748 behind the foreign functions of crypto/scalarmult,
    crypto/kx and crypto/box_: the Montgomery ladder on the u coordinates of
    Curve25519, in the field of 2^255 - 19.  It is written over an arithmetic of
    integers: the integers of the Standard Library, which define the function,
    and those of the Bignums library, with which it is computed. *)

From Bignums Require BigZ.BigZ.
From S2P Require Export Hashes.

(** ** Implementations of the integers *)

Record arith := Arith {
  num : Type;
  of_int : Z -> num;
  to_int : num -> Z;
  n_add : num -> num -> num;
  n_sub : num -> num -> num;
  n_mul : num -> num -> num;
  n_mod : num -> num -> num
}.

Class Faithful (N : arith) : Prop := {
  to_of x : to_int N (of_int N x) = x;
  to_add x y : to_int N (n_add N x y) = to_int N x + to_int N y;
  to_sub x y : to_int N (n_sub N x y) = to_int N x - to_int N y;
  to_mul x y : to_int N (n_mul N x y) = to_int N x * to_int N y;
  to_mod x y : to_int N (n_mod N x y) = to_int N x mod to_int N y
}.

Definition plain : arith := Arith Z id id Z.add Z.sub Z.mul Z.modulo.
Definition big : arith :=
  Arith BigZ.BigZ.t_ BigZ.BigZ.of_Z BigZ.BigZ.to_Z BigZ.BigZ.add BigZ.BigZ.sub BigZ.BigZ.mul BigZ.BigZ.modulo.

#[export] Instance plain_faithful : Faithful plain.
Proof. by split. Qed.

#[export] Instance big_faithful : Faithful big.
Proof.
  split; cbn; intros.
  - apply BigZ.BigZ.spec_of_Z.
  - apply BigZ.BigZ.spec_add.
  - apply BigZ.BigZ.spec_sub.
  - apply BigZ.BigZ.spec_mul.
  - apply BigZ.BigZ.spec_modulo.
Qed.

(** ** The ladder *)

Module X25519.

Definition p : Z := 2 ^ 255 - 19.

(** The bits of a scalar that are set and cleared *)
Definition clamp (n : Z) : Z := Z.lor (Z.land n (2 ^ 254 - 8)) (2 ^ 254).

Section Ladder.
Context (N : arith) (modulus a24 : num N).

#[local] Infix "+" := (n_add N).
#[local] Infix "-" := (n_sub N).
Definition mul (x y : num N) : num N := n_mod N (n_mul N x y) modulus.
#[local] Infix "*" := mul.

Fixpoint power (x : num N) (e : positive) : num N :=
  match e with
  | xH => x
  | xO e => let y := power x e in y * y
  | xI e => let y := power x e in y * y * x
  end.

(** The inverse, by Fermat's theorem *)
Definition inverse (x : num N) : num N := power x (Z.to_pos (p - 2)%Z).

(** The two points of the ladder, and one step of it *)
Definition points : Type := num N * num N * num N * num N.

Definition swap (bit : bool) (st : points) : points :=
  if bit then let '(x2, z2, x3, z3) := st in (x3, z3, x2, z2) else st.

Definition ladder_step (u : num N) (bit : bool) (st : points) : points :=
  let '(x2, z2, x3, z3) := swap bit st in
  let a := x2 + z2 in
  let aa := a * a in
  let b := x2 - z2 in
  let bb := b * b in
  let e := aa - bb in
  let da := (x3 - z3) * a in
  let cb := (x3 + z3) * b in
  swap bit (aa * bb, e * (aa + a24 * e), (da + cb) * (da + cb), u * ((da - cb) * (da - cb))).

Fixpoint ladder (u : num N) (n : Z) (bits : nat) (st : points) : points :=
  match bits with
  | O => st
  | S i => ladder u n i (ladder_step u (Z.testbit n (Z.of_nat i)) st)
  end.

Definition multiple (n : Z) (u : num N) : num N :=
  let one := of_int N 1 in
  let '(x2, z2, _, _) := ladder u n 255 (one, of_int N 0, u, one) in x2 * inverse z2.

End Ladder.

(** The byte strings are numbers; the top bit of a coordinate is ignored. *)
Definition x25519_with (N : arith) (n u : bytes) : bytes :=
  le_bytes 32 (to_int N (multiple N (of_int N p) (of_int N 121665) (clamp (le_val n))
    (of_int N (Z.land (le_val u) (Z.ones 255))))).

Definition x25519 : bytes -> bytes -> bytes := x25519_with plain.

Definition base_point : bytes := x09 :: replicate 31 x00.
Definition public (n : bytes) : bytes := x25519 n base_point.

(** The multiple of a point of small order is the neutral element, which is
    refused. *)
Definition accept (q : bytes) : option bytes := if decide (q = replicate 32 x00) then None else Some q.
Definition mult (n u : bytes) : option bytes := accept (x25519 n u).

Lemma x25519_zlen n u : zlen (x25519 n u) = 32.
Proof. apply (zlen_le_bytes 32). Qed.

Lemma public_zlen n : zlen (public n) = 32.
Proof. unfold public. apply x25519_zlen. Qed.

Lemma mult_zlen n u q : mult n u = Some q -> zlen q = 32.
Proof. unfold mult, accept. case_decide; [done|]. intros; simplify_eq. apply x25519_zlen. Qed.

(** *** The result does not depend on the implementation of the integers *)

Section Faithfulness.
Context (N : arith) {F : Faithful N}.

#[local] Abbreviation v := (to_int N).
#[local] Abbreviation m := (of_int N p).

Definition v4 (st : points N) : points plain :=
  let '(x2, z2, x3, z3) := st in (v x2, v z2, v x3, v z3).

Lemma mul_value x y : v (mul N m x y) = mul plain p (v x) (v y).
Proof. unfold mul. by rewrite to_mod, to_mul, to_of. Qed.

Lemma power_value x e : v (power N m x e) = power plain p (v x) e.
Proof. induction e as [e IH|e IH|]; cbn [power]; cbv zeta; [by rewrite !mul_value, IH|by rewrite mul_value, IH|done]. Qed.

Lemma swap_value b st : v4 (swap N b st) = swap plain b (v4 st).
Proof. by destruct b, st as [[[? ?] ?] ?]. Qed.

Lemma ladder_step_value u b st :
  v4 (ladder_step N m (of_int N 121665) u b st) = ladder_step plain p 121665 (v u) b (v4 st).
Proof.
  unfold ladder_step. rewrite <- swap_value. destruct (swap N b st) as [[[x2 z2] x3] z3].
  cbn [v4]. rewrite swap_value. cbn [v4].
  repeat rewrite ?mul_value, ?to_add, ?to_sub, ?to_of. reflexivity.
Qed.

Lemma ladder_value u n bits : forall st,
  v4 (ladder N m (of_int N 121665) u n bits st) = ladder plain p 121665 (v u) n bits (v4 st).
Proof. induction bits as [|i IH]; intros st; cbn [ladder]; [done|]. by rewrite IH, ladder_step_value. Qed.

Lemma multiple_value n u :
  v (multiple N m (of_int N 121665) n u) = multiple plain p 121665 n (v u).
Proof.
  unfold multiple. cbv zeta. pose proof (ladder_value u n 255 (of_int N 1, of_int N 0, u, of_int N 1)) as Hl.
  cbn [v4] in Hl. rewrite !to_of in Hl.
  match goal with |- _ = match ?l with _ => _ end => replace l with (v4 (ladder N m (of_int N 121665) u n 255
    (of_int N 1, of_int N 0, u, of_int N 1))) by exact Hl end.
  destruct (ladder N _ _ _ _ _ _) as [[[x2 z2] x3] z3]. cbn [v4]. rewrite mul_value.
  unfold inverse. by rewrite power_value.
Qed.

(** The function is the same with every faithful implementation. *)
Lemma x25519_value n u : x25519 n u = x25519_with N n u.
Proof.
  unfold x25519, x25519_with. rewrite multiple_value, to_of. done.
Qed.

End Faithfulness.

(** *** The coordinate 0

    Its multiples, which are those of a point of order 2, are refused whatever
    the scalar. *)

Definition at_order_2 (st : points plain) : Prop :=
  let '(x2, z2, x3, z3) := st in (x2 * z2) mod p = 0 /\ (x3 * z3) mod p = 0.

Lemma mod_mult_l a b n : a mod n = 0 -> (a * b) mod n = 0.
Proof. intros Ha. by rewrite Zmult_mod, Ha, Z.mul_0_l, Zmod_0_l. Qed.

Lemma swap_at_order_2 b st : at_order_2 st -> at_order_2 (swap plain b st).
Proof. destruct b, st as [[[? ?] ?] ?]; [|done]. intros []. by split. Qed.

Lemma ladder_step_0 a24 b st : at_order_2 st ->
  let '(x2, z2, x3, z3) := ladder_step plain p a24 0 b st in z2 = 0 /\ z3 = 0.
Proof.
  intros Hst. apply (swap_at_order_2 b) in Hst. unfold ladder_step. destruct (swap plain b st) as [[[x2 z2] x3] z3].
  destruct Hst as [Hst _]. cbv zeta. unfold mul. cbn [n_sub n_add n_mul n_mod plain].
  set (e := ((x2 + z2) * (x2 + z2)) mod p - ((x2 - z2) * (x2 - z2)) mod p).
  assert (He : e mod p = 0).
  { unfold e. rewrite <- Zminus_mod. replace (_ - _)%Z with ((x2 * z2) * 4)%Z by ring. by apply mod_mult_l. }
  destruct b; cbn [swap]; split; first [by apply (mod_mult_l e)|by rewrite Z.mul_0_l, Zmod_0_l].
Qed.

Lemma ladder_0 a24 n bits : forall st, at_order_2 st -> (0 < bits)%nat ->
  let '(x2, z2, x3, z3) := ladder plain p a24 0 n bits st in z2 = 0.
Proof.
  induction bits as [|i IH]; intros st Hst Hb; [lia|]. cbn [ladder].
  pose proof (ladder_step_0 a24 (Z.testbit n (Z.of_nat i)) st Hst) as Hs.
  destruct (ladder_step plain p a24 0 _ st) as [[[x2 z2] x3] z3]. destruct Hs as [-> ->].
  destruct i as [|i]; [done|]. apply IH; [|lia]. cbn. by rewrite !Z.mul_0_r, Zmod_0_l.
Qed.

Lemma power_0 e : power plain p 0 e = 0.
Proof. induction e as [e IH|e IH|]; cbn [power]; rewrite ?IH; done. Qed.

Lemma mult_0 n : mult n (zeros 32) = None.
Proof.
  unfold mult, x25519, x25519_with. cbn [to_int of_int plain id].
  replace (Z.land (le_val (zeros 32)) (Z.ones 255)) with 0 by done. unfold multiple. cbn [of_int plain id]. cbv zeta.
  lazymatch goal with |- context [ladder plain p ?a24 0 ?k ?bits ?st] =>
    pose proof (ladder_0 a24 k bits st ltac:(done) ltac:(lia)) as Hz; destruct (ladder plain p a24 0 k bits st) as [[[x2 z2] x3] z3]
  end.
  rewrite Hz. unfold inverse. rewrite power_0. unfold mul. cbn [n_mul n_mod plain]. rewrite Z.mul_0_r, Zmod_0_l.
  unfold accept. by rewrite decide_True.
Qed.

(** The fast integers, for computations *)
Lemma public_big n : public n = x25519_with big n base_point.
Proof. unfold public. apply (x25519_value big). Qed.
Lemma mult_big n u : mult n u = accept (x25519_with big n u).
Proof. unfold mult. by rewrite (x25519_value big). Qed.

End X25519.

(** The points of the key exchange in RFC 7748, section 6.1 *)
Example rfc7748_alice :
  X25519.public (hex "77076d0a7318a57d3c16c17251b26645df4c2f87ebc0992ab177fba51db92c2a") =
    hex "8520f0098930a754748b7ddcb43ef75a0dbf3a0d26381af4eba4a98eaa9b4e6a".
Proof. rewrite X25519.public_big. by vm_compute. Qed.
