(* ===== verification/MacroTests.v ===== *)
(** * The tests of auth_macros.rs, auth_state_macros.rs and stream_macros.rs

    The macros generate the same tests for every module they make; here they
    are sections over the record of the module.  For every module with the
    documented behaviour and every entropy the tests pass.  The tests with
    modified messages and tags are in TagTamper.v. *)

From S2P Require Export Locals Auth Stream.

(** ** auth_macros.rs, auth_state_macros.rs *)

Section AuthTests.
Context `{T : Target} `{R : RandombytesExterns} (A : auth_module).

Definition test_auth_verify : M unit :=
  for_range 0 256 (fun i =>
    let* k := local (auth.gen_key A) in
    let* m := randombytes i in
    let* tag := local (auth.authenticate A (v_slice m) k) in
    let* r := auth.verify A tag (v_slice m) k in
    assert r).

Context (St : auth_state) `{U : UtilsExterns}.

(** The tag of the whole message is the one of the streaming interface. *)
Definition auth_eq_state (chunks : vec -> list slice) : M unit :=
  for_range 0 256 (fun i =>
    let* k := local (auth.gen_key A) in
    let* m := randombytes i in
    let* tag := local (auth.authenticate A (v_slice m) k) in
    let* tag2 := local (auth_in_chunks St (Slice k (auth.KEYBYTES A)) (chunks m)) in
    let* r := NewType.eq (auth.Tag A) tag tag2 in
    assert r).

(** [m.chunks(1)] *)
Definition chunks_of_1 (m : vec) : list slice :=
  (fun j => Slice (At (v_block m) j) 1) <$> seq 0 (Z.to_nat (v_len m)).

Definition test_auth_eq_auth_state : M unit := auth_eq_state (fun m => [v_slice m]).
Definition test_auth_eq_auth_state_chunked : M unit := auth_eq_state chunks_of_1.

Context {D : AuthDoc A} {RD : RandombytesDoc R}.

Lemma auth_gen_key_makes : 0 <= auth.KEYBYTES A -> makes (auth.KEYBYTES A) (auth.gen_key A).
Proof. intros Hk. by apply makes_key. Qed.

Lemma local_authenticate {B} (Q : B -> world -> Prop) w m b bs k kb n (f : ptr -> M B) :
  holds w m -> m !! b = Some bs -> n = zlen bs -> n <= isize_max ->
  m !! k = Some kb -> zlen kb = auth.KEYBYTES A ->
  (forall t w', m !! t = None -> holds w' (<[t := auth_mac kb bs]> m) -> does w' (f (At t 0)) Q) ->
  does w (bind (local (auth.authenticate A (Slice (At b 0) n) (At k 0))) f) Q.
Proof.
  intros Hw Hb -> Hn Hk Hl Hf. eapply local_value; [exact Hw| |done|exact Hf].
  apply authenticate_run; [by eapply holds_slice|]. unfold auth.KEYBYTES in Hl. rewrite <- Hl. by eapply holds_ref.
Qed.

Lemma test_auth_verify_passes : 0 <= auth.KEYBYTES A -> passes test_auth_verify.
Proof.
  intros Hkb w. apply local_loop. intros i w0 Hi Hw0. pose proof isize_max_bounds.
  change (0 + Z.of_nat 256) with 256 in Hi.
  eapply local_made; [exact Hw0|by apply auth_gen_key_makes|]. intros k kb w1 _ Hk Hw1.
  eapply (local_random _ (RD := RD)); [exact Hw1|lia|]. intros x a w2 Hx Ha Hw2. fresh_facts. sl.
  eapply local_authenticate; [exact Hw2|local_tac|len_eq|lia|local_tac|done|]. intros t w3 Ht Hw3. fresh_facts.
  eapply local_run; [|apply does_assert; reflexivity].
  rewrite (verify_run w3 (At t 0) _ (At k 0) (auth_mac kb a) a kb).
  - by rewrite bool_decide_true.
  - rewrite <- (auth_mac_zlen kb a). eapply holds_ref; [exact Hw3|local_tac].
  - eapply holds_slice; [exact Hw3|local_tac|len_eq|lia].
  - unfold auth.KEYBYTES in Hk. rewrite <- Hk. eapply holds_ref; [exact Hw3|local_tac].
Qed.

Context {DS : AuthStateDoc St} {DAS : AuthAgree A St} {UD : UtilsDoc U}.

(** The chunks of a vector make up its contents. *)
Definition cuts (chunks : vec -> list slice) : Prop :=
  forall w b bs n, bytes_at w (At b 0) bs -> n = zlen bs -> n <= isize_max ->
    exists ms, Forall2 (is_slice w) (chunks (Vec b n n)) ms /\ concat ms = bs.

Lemma cuts_whole : cuts (fun m => [v_slice m]).
Proof.
  intros w b bs n Hb -> Hn. exists [bs]. split; [|cbn; apply app_nil_r].
  constructor; [|constructor]. done.
Qed.

Lemma cuts_1 : cuts chunks_of_1.
Proof.
  intros w b bs n Hb -> Hn. exists ((fun x => [x]) <$> bs). split.
  - unfold chunks_of_1. cbn [v_block v_len]. rewrite to_nat_zlen. apply Forall2_fmap.
    apply Forall2_same_length_lookup. split; [apply length_seq|].
    intros j y x [-> Hj]%lookup_seq Hx. pose proof isize_max_bounds. split_and!; [|done|change (zlen [x]) with 1; lia].
    rewrite <- (take_drop_middle bs j x Hx) in Hb.
    apply (bytes_at_app_r w (At b 0)) in Hb. apply (bytes_at_app_l w _ [x]) in Hb.
    unfold ptr_add in Hb. replace (Z.to_nat _) with j in Hb by (unfold zlen; rewrite length_take; lia).
    exact Hb.
  - clear. induction bs as [|x bs IH]; [done|]. cbn. by f_equal.
Qed.

Lemma auth_in_chunks_run w k kb chunks ms :
  is_slice w k kb -> Forall2 (is_slice w) chunks ms -> zlen kb = auth_keybytes A ->
  auth_in_chunks St k chunks w =
    Done (auth_mac kb (concat ms)) (w_with (env_drop (Some <$> zeros (state_size St)) (w_env w)) w).
Proof.
  intros Hk Hc Hl. unfold auth_in_chunks. eapply bind_step; [by apply auth_init_run|]. step.
  eapply bind_step.
  { apply (update_all_run auth_streaming (auth.State.update St)) with (ms := ms);
      [by apply auth_update_run|done|apply st_init_zlen|done]. }
  eapply bind_step; [by apply move_out_put_run|].
  rewrite auth_finalize_run by apply st_update_zlen. by rewrite (auth_agree (A := A) (St := St)) by done.
Qed.

Lemma auth_eq_state_passes chunks :
  0 <= auth.KEYBYTES A <= 4096 -> cuts chunks -> passes (auth_eq_state chunks).
Proof.
  intros Hkb Hcut w. apply local_loop. intros i w0 Hi Hw0. pose proof isize_max_bounds.
  change (0 + Z.of_nat 256) with 256 in Hi.
  eapply local_made; [exact Hw0|apply auth_gen_key_makes; lia|]. intros k kb w1 _ Hk Hw1.
  eapply (local_random _ (RD := RD)); [exact Hw1|lia|]. intros x a w2 Hx Ha Hw2. fresh_facts. sl.
  eapply local_authenticate; [exact Hw2|local_tac|len_eq|lia|local_tac|done|]. intros t w3 Ht Hw3. fresh_facts.
  destruct (Hcut w3 x a i) as (ms & Hms & Hcat); [|done|lia|].
  { eapply holds_ref; [exact Hw3|local_tac]. }
  assert (Hks : is_slice w3 (Slice (At k 0) (auth.KEYBYTES A)) kb)
    by (eapply holds_slice; [exact Hw3|local_tac|by rewrite Hk|lia]).
  eapply local_value; [exact Hw3|exact (auth_in_chunks_run _ _ _ _ _ Hks Hms Hk)|reflexivity|].
  rewrite Hcat. intros t2 w4 Ht2 Hw4. fresh_facts.
  eapply local_run; [|apply does_assert; reflexivity].
  assert (Htag : 0 <= nt_bytes (auth.Tag A) <= isize_max)
    by (pose proof (auth_tag_range (A := A)); cbn; unfold auth.TAGBYTES; lia).
  rewrite (NewType.eq_run (auth.Tag A)  Htag w4 _ _ (auth_mac kb a) (auth_mac kb a)).
  - by rewrite bool_decide_true.
  - cbn. unfold auth.TAGBYTES. rewrite <- (auth_mac_zlen kb a). eapply holds_ref; [exact Hw4|local_tac].
  - cbn. unfold auth.TAGBYTES. rewrite <- (auth_mac_zlen kb a). eapply holds_ref; [exact Hw4|local_tac].
Qed.

End AuthTests.

(** ** stream_macros.rs *)

Section StreamCipherTests.
Context `{T : Target} `{R : RandombytesExterns} (A : stream_cipher).

(** [let k = gen_key(); let n = gen_random_nonce();] *)
Definition with_key_nonce (f : ptr -> ptr -> M unit) : M unit :=
  let* k := local (stream.gen_key A) in
  let* n := local (NewType.gen_random_nonce (stream.Nonce A)) in
  f k n.

(** [assert!(a == b)] on vectors *)
Definition assert_same (a b : vec) : M unit :=
  let* x := contents a in let* y := contents b in assert_eq x y.

(** [for (e, v) in c.iter_mut().zip(s.iter()) { *e ^= *v; }] *)
Definition xor_into (c s : vec) : M unit :=
  for_range 0 (Z.to_nat (Z.min (v_len c) (v_len s))) (fun j =>
    let* e := read (At (v_block c) (Z.to_nat j)) 1 in
    let* v := read (At (v_block s) (Z.to_nat j)) 1 in
    write (At (v_block c) (Z.to_nat j)) (xor_bytes e v)).

Definition test_encrypt_decrypt : M unit :=
  for_range 0 1024 (fun i => with_key_nonce (fun k n =>
    let* m := randombytes i in
    let* c := stream.stream_xor A (v_slice m) n k in
    let* m2 := stream.stream_xor A (v_slice c) n k in
    assert_same m m2)).

Definition test_stream_xor : M unit :=
  for_range 0 1024 (fun i => with_key_nonce (fun k n =>
    let* m := randombytes i in
    let* c := vec_clone m in
    let* s := stream.stream A (v_len c) n k in
    let* _ := xor_into c s in
    let* c2 := stream.stream_xor A (v_slice m) n k in
    assert_same c c2)).

Definition test_stream_xor_inplace : M unit :=
  for_range 0 1024 (fun i => with_key_nonce (fun k n =>
    let* m := randombytes i in
    let* c := vec_clone m in
    let* s := stream.stream A (v_len c) n k in
    let* _ := xor_into c s in
    let* _ := stream.stream_xor_inplace A (v_slice m) n k in
    assert_same c m)).

Definition test_stream_xor_ic_same : M unit :=
  for_range 0 1024 (fun i => with_key_nonce (fun k n =>
    let* m := randombytes i in
    let* c := stream.stream_xor A (v_slice m) n k in
    let* c_ic := stream.stream_xor_ic A (v_slice m) n 0 k in
    assert_same c c_ic)).

Definition test_stream_xor_ic_inplace : M unit :=
  for_range 0 1024 (fun i => with_key_nonce (fun k n =>
    for_range 0 10 (fun j =>
      let* m := randombytes i in
      let* c := stream.stream_xor_ic A (v_slice m) n j k in
      let* _ := stream.stream_xor_ic_inplace A (v_slice m) n j k in
      assert_same m c))).

(** *** Rules *)

Context {RD : RandombytesDoc R} {D : StreamDoc A}.
Context (Hkl : 0 <= stream.KEYBYTES A) (Hnl : 0 <= stream.NONCEBYTES A).

Section Rules.
Context {B : Type} (Q : B -> world -> Prop).
Context (w : world) (m : gmap positive bytes) (Hw : holds w m).
Context (n k : positive) (nb kb : bytes).
Context (Hn : m !! n = Some nb) (Hk : m !! k = Some kb).
Context (Hnb : zlen nb = stream.NONCEBYTES A) (Hkb : zlen kb = stream.KEYBYTES A).

Lemma nonce_ref : is_ref w (At n 0) (stream_noncebytes A) nb.
Proof. unfold stream.NONCEBYTES in Hnb. rewrite <- Hnb. by eapply holds_ref. Qed.
Lemma key_ref : is_ref w (At k 0) (stream_keybytes A) kb.
Proof. unfold stream.KEYBYTES in Hkb. rewrite <- Hkb. by eapply holds_ref. Qed.

Lemma local_stream len (f : vec -> M B) :
  0 <= len <= isize_max ->
  (forall b w', m !! b = None -> holds w' (<[b := window (keystream kb nb) 0 (Z.to_nat len)]> m) ->
     does w' (f (Vec b len len)) Q) ->
  does w (bind (stream.stream A len (At n 0) (At k 0)) f) Q.
Proof.
  intros Hl Hf. eapply local_new; [exact Hw| |reflexivity|exact Hf].
  apply stream_run; [done|apply nonce_ref|apply key_ref].
Qed.

Context (b : positive) (bs : bytes) (len : Z).
Context (Hb : m !! b = Some bs) (Hlen : len = zlen bs) (Hmax : len <= isize_max).

Lemma message_slice : is_slice w (Slice (At b 0) len) bs.
Proof. by eapply holds_slice. Qed.

Lemma local_xor (f : vec -> M B) :
  (forall c w', m !! c = None -> holds w' (<[c := xor_from (keystream kb nb) 0 bs]> m) ->
     does w' (f (Vec c len len)) Q) ->
  does w (bind (stream.stream_xor A (Slice (At b 0) len) (At n 0) (At k 0)) f) Q.
Proof.
  intros Hf. eapply local_new; [exact Hw| |reflexivity|exact Hf]. rewrite Hlen at 2 3.
  apply stream_xor_run; [apply message_slice|apply nonce_ref|apply key_ref].
Qed.

Lemma local_xor_ic ic (f : vec -> M B) :
  (forall c w', m !! c = None -> holds w' (<[c := xor_from (keystream kb nb) (64 * ic) bs]> m) ->
     does w' (f (Vec c len len)) Q) ->
  does w (bind (stream.stream_xor_ic A (Slice (At b 0) len) (At n 0) ic (At k 0)) f) Q.
Proof.
  intros Hf. eapply local_new; [exact Hw| |reflexivity|exact Hf]. rewrite Hlen at 2 3.
  apply stream_xor_ic_run; [apply message_slice|apply nonce_ref|apply key_ref].
Qed.

Lemma local_xor_inplace (f : unit -> M B) :
  (forall w', holds w' (<[b := xor_from (keystream kb nb) 0 bs]> m) -> does w' (f tt) Q) ->
  does w (bind (stream.stream_xor_inplace A (Slice (At b 0) len) (At n 0) (At k 0)) f) Q.
Proof.
  intros Hf. eapply local_run; [by apply stream_xor_inplace_run; [apply message_slice|apply nonce_ref|apply key_ref]|].
  apply Hf. eapply holds_store; [done..|apply xor_from_zlen].
Qed.

Lemma local_xor_ic_inplace ic (f : unit -> M B) :
  (forall w', holds w' (<[b := xor_from (keystream kb nb) (64 * ic) bs]> m) -> does w' (f tt) Q) ->
  does w (bind (stream.stream_xor_ic_inplace A (Slice (At b 0) len) (At n 0) ic (At k 0)) f) Q.
Proof.
  intros Hf. eapply local_run; [by apply stream_xor_ic_inplace_run; [apply message_slice|apply nonce_ref|apply key_ref]|].
  apply Hf. eapply holds_store; [done..|apply xor_from_zlen].
Qed.

End Rules.

Lemma zip_with_snoc {X Y Z'} (g : X -> Y -> Z') l1 l2 x y :
  length l1 = length l2 -> zip_with g (l1 ++ [x]) (l2 ++ [y]) = zip_with g l1 l2 ++ [g x y].
Proof. intros Hl. by rewrite zip_with_app. Qed.

(** The bytes of [s] are xored into the first bytes of [c]. *)
Lemma xor_into_does w m c s cb sb n :
  holds w m -> c <> s -> m !! c = Some cb -> m !! s = Some sb -> n = zlen cb -> n = zlen sb ->
  does w (xor_into (Vec c n n) (Vec s n n)) (fun _ w' => holds w' (<[c := xor_bytes cb sb]> m)).
Proof.
  intros Hw Hne Hc Hs Hcl Hsl. pose proof (zlen_nonneg cb). unfold xor_into. cbn [v_len v_block].
  rewrite Z.min_id. set (I := fun j w' =>
    holds w' (<[c := xor_bytes (take (Z.to_nat j) cb) (take (Z.to_nat j) sb) ++ drop (Z.to_nat j) cb]> m)).
  eapply does_mono; [apply (does_for_index I)|].
  - intros j w1 Hj Hi. unfold I in Hi. set (k := Z.to_nat j) in *.
    assert (Hk : (k < length cb)%nat /\ (k < length sb)%nat) by (unfold zlen in *; lia).
    destruct (lookup_lt_is_Some_2 cb k (proj1 Hk)) as [x Hx], (lookup_lt_is_Some_2 sb k (proj2 Hk)) as [y Hy].
    rewrite (drop_S _ _ _ Hx) in Hi. pose proof (take_drop_middle sb k y Hy) as Hsb. rewrite <- Hsb in Hs.
    assert (Hpre : length (xor_bytes (take k cb) (take k sb)) = k)
      by (unfold xor_bytes; rewrite length_zip_with, !length_take; lia).
    eapply local_read_byte; [exact Hi|apply lookup_insert_eq|done|].
    eapply local_read_byte; [exact Hi|rewrite lookup_insert_ne by done; exact Hs|rewrite length_take; lia|].
    apply local_last. eapply local_write_byte; [exact Hi|apply lookup_insert_eq|done|]. intros w2 Hw2. apply does_ret. unfold I.
    rewrite insert_insert_eq in Hw2. replace (Z.to_nat (j + 1)) with (S k) by lia.
    rewrite (take_S_r cb k x Hx), (take_S_r sb k y Hy). unfold xor_bytes in *.
    rewrite zip_with_snoc, <- app_assoc by (rewrite !length_take; lia). exact Hw2.
  - unfold I. cbn. by rewrite insert_id.
  - intros [] w1. unfold I. rewrite Z.add_0_l, Z2Nat.id, Hcl, to_nat_zlen by lia.
    rewrite firstn_all, drop_ge, app_nil_r by lia. rewrite take_ge by (unfold zlen in *; lia). done.
Qed.

(** A key and a nonce for every round *)
Lemma local_key_nonce w (f : ptr -> ptr -> M unit) :
  (forall k n kb nb w', k <> n -> zlen kb = stream.KEYBYTES A -> zlen nb = stream.NONCEBYTES A ->
     holds w' (<[n := nb]> (<[k := kb]> ∅)) -> does w' (f (At k 0) (At n 0)) (fun _ _ => True)) ->
  does w (with_key_nonce f) (fun _ _ => True).
Proof.
  intros Hf. unfold with_key_nonce.
  eapply local_made; [apply holds_empty|by apply makes_key|]. intros k kb w1 _ Hk Hw1.
  eapply local_made; [exact Hw1|by apply (makes_random (stream.Nonce A))|]. intros n nb w2 Hn Hnb Hw2.
  fresh_facts. by eapply Hf.
Qed.

Lemma local_same w m a b x y n :
  holds w m -> m !! a = Some x -> m !! b = Some y -> n = zlen x -> n = zlen y -> x = y ->
  does w (assert_same (Vec a n n) (Vec b n n)) (fun _ w' => holds w' m).
Proof.
  intros Hw Ha Hb Hx Hy E. unfold assert_same. eapply local_contents; [exact Hw|done..|].
  eapply local_contents; [exact Hw|done..|]. by apply does_assert_eq.
Qed.

Ltac passed := eapply does_mono; [eapply local_same; [eassumption|local_tac|local_tac|len_eq|len_eq|]|done].
Ltac round :=
  intros ?; apply local_loop; intros i ? Hi _; apply local_key_nonce; intros k n kb nb w1 Hkn Hk Hn Hw1;
  pose proof isize_max_bounds; change (0 + Z.of_nat 1024) with 1024 in Hi.

Lemma xor_zlen kb nb pos bs i : zlen bs = i -> zlen (xor_from (keystream kb nb) pos bs) = i.
Proof. by rewrite xor_from_zlen. Qed.

#[local] Hint Resolve xor_zlen : zarith.

Lemma test_encrypt_decrypt_passes : passes test_encrypt_decrypt.
Proof.
  round. eapply (local_random _ (RD := RD)); [exact Hw1|lia|]. intros x a w2 Hx Ha Hw2. fresh_facts. sl.
  eapply local_xor; [exact Hw2|local_tac|local_tac|done|done|local_tac|len_eq|lia|]. intros c w3 Hc Hw3. fresh_facts. sl.
  eapply local_xor; [exact Hw3|local_tac|local_tac|done|done|local_tac|len_eq|lia|]. intros c2 w4 Hc2 Hw4. fresh_facts.
  passed. by rewrite xor_from_involutive.
Qed.

Lemma local_xor_into w m c s cb sb n (f : unit -> M unit) :
  holds w m -> c <> s -> m !! c = Some cb -> m !! s = Some sb -> n = zlen cb -> n = zlen sb ->
  (forall w', holds w' (<[c := xor_bytes cb sb]> m) -> does w' (f tt) (fun _ _ => True)) ->
  does w (bind (xor_into (Vec c n n) (Vec s n n)) f) (fun _ _ => True).
Proof.
  intros Hw Hne Hc Hs Hcl Hsl Hf. eapply does_bind; [by eapply xor_into_does|]. intros [] w'. apply Hf.
Qed.

(** A copy of the message is the message xor the stream. *)
Lemma local_xor_copy w m x a n nb k kb i (f : vec -> M unit) :
  holds w m -> m !! x = Some a -> zlen a = i -> i <= isize_max -> m !! n = Some nb -> m !! k = Some kb ->
  zlen nb = stream.NONCEBYTES A -> zlen kb = stream.KEYBYTES A ->
  (forall c w' m', m' !! c = Some (xor_from (keystream kb nb) 0 a) -> c <> x -> c <> n -> c <> k ->
     m' !! x = Some a -> m' !! n = Some nb -> m' !! k = Some kb -> holds w' m' ->
     does w' (f (Vec c i i)) (fun _ _ => True)) ->
  does w (let* c := vec_clone (Vec x i i) in
          let* s := stream.stream A (v_len c) (At n 0) (At k 0) in
          let* _ := xor_into c s in f c) (fun _ _ => True).
Proof.
  intros Hw Hx Ha Hi Hn Hk Hnb Hkb Hf. pose proof (zlen_nonneg a).
  eapply local_clone; [exact Hw|done|len_eq|]. intros c w1 Hc Hw1. cbn [v_len].
  assert (Hcx : c <> x /\ c <> n /\ c <> k) by (split_and!; ne_tac). destruct Hcx as (? & ? & ?).
  eapply local_stream; [exact Hw1|local_tac|local_tac|done|done|lia|]. intros s w2 Hs Hw2. fresh_facts.
  assert (Hne : c <> s) by congruence.
  eapply local_xor_into; [exact Hw2|exact Hne|local_tac|local_tac|len_eq|symmetry; apply window_zlen; lia|].
  intros w3 Hw3. rewrite <- Ha, to_nat_zlen in Hw3.
  eapply (Hf c w3 _ (lookup_insert_eq _ _ _)); [done..| | | |exact Hw3]; local_tac.
Qed.

Lemma test_stream_xor_passes : passes test_stream_xor.
Proof.
  round. eapply (local_random _ (RD := RD)); [exact Hw1|lia|]. intros x a w2 Hx Ha Hw2. fresh_facts.
  eapply local_xor_copy; [exact Hw2|local_tac|done|lia|local_tac|local_tac|done|done|].
  intros c w3 m3 Hc Hcx Hcn Hck Hx3 Hn3 Hk3 Hw3. sl.
  eapply local_xor; [exact Hw3|done|done|done|done|done|len_eq|lia|]. intros c2 w4 Hc2 Hw4.
  passed. done.
Qed.

Lemma test_stream_xor_inplace_passes : passes test_stream_xor_inplace.
Proof.
  round. eapply (local_random _ (RD := RD)); [exact Hw1|lia|]. intros x a w2 Hx Ha Hw2. fresh_facts.
  eapply local_xor_copy; [exact Hw2|local_tac|done|lia|local_tac|local_tac|done|done|].
  intros c w3 m3 Hc Hcx Hcn Hck Hx3 Hn3 Hk3 Hw3. sl.
  eapply local_xor_inplace; [exact Hw3|done|done|done|done|done|len_eq|lia|]. intros w4 Hw4.
  passed. done.
Qed.

Lemma test_stream_xor_ic_same_passes : passes test_stream_xor_ic_same.
Proof.
  round. eapply (local_random _ (RD := RD)); [exact Hw1|lia|]. intros x a w2 Hx Ha Hw2. fresh_facts. sl.
  eapply local_xor; [exact Hw2|local_tac|local_tac|done|done|local_tac|len_eq|lia|]. intros c w3 Hc Hw3. fresh_facts. sl.
  eapply local_xor_ic; [exact Hw3|local_tac|local_tac|done|done|local_tac|len_eq|lia|]. intros c2 w4 Hc2 Hw4. fresh_facts.
  passed. done.
Qed.

Lemma test_stream_xor_ic_inplace_passes : passes test_stream_xor_ic_inplace.
Proof.
  round. eapply does_mono; [apply (does_for (fun w' => holds w' (<[n := nb]> (<[k := kb]> ∅)))); [|exact Hw1]|done].
  intros j w2 Hj Hw2.
  eapply (local_random _ (RD := RD)); [exact Hw2|lia|]. intros x a w3 Hx Ha Hw3.
  pose proof (insert_subseteq _ _ a Hx) as Hsub. pose proof Hx as Hx'. fresh_facts. sl.
  eapply local_xor_ic; [exact Hw3|local_tac|local_tac|done|done|local_tac|len_eq|lia|]. intros c w4 Hc Hw4.
  fresh_facts. assert (Hcx : c <> x) by congruence. sl.
  eapply local_xor_ic_inplace; [exact Hw4|local_tac|local_tac|done|done|local_tac|len_eq|lia|]. intros w5 Hw5.
  eapply does_mono; [eapply local_same; [exact Hw5|local_tac|local_tac|len_eq|len_eq|done]|].
  intros [] w6 Hw6 b bs Hb. apply Hw6. apply lookup_insert_Some in Hb as [[<- <-]|[Hne Hb]].
  - local_tac.
  - apply lookup_insert_Some in Hb as [[<- <-]|[Hne' Hb]]; [local_tac|done].
Qed.

End StreamCipherTests.

(** ** The theorems *)

(** The tests of the authentication macros pass: [verify()] accepts the tag of
    [authenticate()], and the streaming interface, given the message whole or
    byte by byte, computes the same tag. *)
Theorem auth_tests_pass `{T : Target} `{R : RandombytesExterns} {RD : RandombytesDoc R}
    `{U : UtilsExterns} {UD : UtilsDoc U} A St {D : AuthDoc A} {DS : AuthStateDoc St}
    {DAS : AuthAgree A St} (Hk : 0 <= auth.KEYBYTES A <= 4096) :
  passes (test_auth_verify A) /\ passes (test_auth_eq_auth_state A St) /\
  passes (test_auth_eq_auth_state_chunked A St).
Proof.
  split_and!.
  - exact (test_auth_verify_passes A (RD := RD) (proj1 Hk)).
  - exact (auth_eq_state_passes A St (RD := RD) (DAS := DAS) _ Hk cuts_whole).
  - exact (auth_eq_state_passes A St (RD := RD) (DAS := DAS) _ Hk cuts_1).
Qed.

Lemma auth_tests_pass_witness :
  let R := Ref.randombytes in
  let U := Ref.utils in
  passes (@test_auth_verify target64 R RefAuth.A) /\
  passes (@test_auth_eq_auth_state target64 R RefAuth.A RefAuth.St U) /\
  passes (@test_auth_eq_auth_state_chunked target64 R RefAuth.A RefAuth.St U).
Proof.
  apply (@auth_tests_pass target64 Ref.randombytes Ref.randombytes_doc Ref.utils Ref.utils_doc
    RefAuth.A RefAuth.St RefAuth.doc RefAuth.state_doc RefAuth.agree). by vm_compute.
Defined.

(** The tests of the stream ciphers pass: a ciphertext is the message xor the
    stream, in a new vector or in place, from the first block or from another
    one, and encrypting it again gives the message. *)
Theorem stream_tests_pass `{T : Target} `{R : RandombytesExterns} {RD : RandombytesDoc R}
    A {D : StreamDoc A} (Hk : 0 <= stream.KEYBYTES A) (Hn : 0 <= stream.NONCEBYTES A) :
  passes (test_encrypt_decrypt A) /\ passes (test_stream_xor A) /\
  passes (test_stream_xor_inplace A) /\ passes (test_stream_xor_ic_same A) /\
  passes (test_stream_xor_ic_inplace A).
Proof.
  split_and!.
  - by apply test_encrypt_decrypt_passes.
  - by apply test_stream_xor_passes.
  - by apply test_stream_xor_inplace_passes.
  - by apply test_stream_xor_ic_same_passes.
  - by apply test_stream_xor_ic_inplace_passes.
Qed.

Lemma stream_tests_pass_witness :
  let R := Ref.randombytes in
  let A := RefKeystream.A in
  passes (@test_encrypt_decrypt target64 R A) /\ passes (@test_stream_xor target64 R A) /\
  passes (@test_stream_xor_inplace target64 R A) /\ passes (@test_stream_xor_ic_same target64 R A) /\
  passes (@test_stream_xor_ic_inplace target64 R A).
Proof.
  apply (@stream_tests_pass target64 Ref.randombytes Ref.randombytes_doc RefKeystream.A RefKeystream.doc);
    by vm_compute.
Defined.
