(* ===== verification/SignTests.v ===== *)
(** * The tests of crypto/sign/ed25519.rs

    The tests with generated and seeded keys, of the combined, the detached and
    the streaming interface, and the proof that they pass for every
    implementation with the documented behaviour and every entropy.  The tests
    with modified signatures are in TagTamper.v, those with the published vectors
    in VectorFiles.v. *)

From S2P Require Export Locals Sign.

Section SignTests.
Context `{T : Target} `{E : SignExterns} `{U : UtilsExterns} `{Cr : Ed25519Crate}.
Context `{R : RandombytesExterns}.

(** [let (pk, sk) = g();] *)
Definition with_keypair (g : M (bytes * bytes)) (f : ptr -> ptr -> M unit) : M unit :=
  let* '(pkb, skb) := g in
  let* pk := place pkb in
  let* sk := place skb in
  f (At pk 0) (At sk 0).

(** [let mut seedbuf = [0; 32]; randombytes_into(&mut seedbuf); let seed =
    Seed(seedbuf);] *)
Definition with_seed (f : ptr -> M unit) : M unit :=
  let* seedbuf := stack_array 32 in
  let* _ := randombytes_into (Slice (At seedbuf 0) 32) in
  let* sb := slice_bytes (Slice (At seedbuf 0) 32) in
  let* seed := place sb in
  f (At seed 0).

Definition test_sk_to_pk : M unit :=
  with_keypair sign.gen_keypair (fun pk sk =>
    let* p := local (sign.public_key sk) in
    let* r := NewType.eq sign.PublicKey p pk in
    assert r).

(** [assert!(Ok(m) == r)] *)
Definition assert_ok_same (m : vec) (r : result vec) : M unit :=
  match r with
  | Ok v => let* a := contents m in let* b := contents v in assert_eq a b
  | Err => panic
  end.

Definition sign_then_verify (i : Z) (pk sk : ptr) : M unit :=
  let* m := randombytes i in
  let* sm := sign.sign (v_slice m) sk in
  let* m2 := sign.verify (v_slice sm) pk in
  assert_ok_same m m2.

Definition test_sign_verify : M unit :=
  for_range 0 256 (fun i => with_keypair sign.gen_keypair (sign_then_verify i)).

Definition test_sign_verify_detached : M unit :=
  for_range 0 256 (fun i => with_keypair sign.gen_keypair (fun pk sk =>
    let* m := randombytes i in
    let* sig := local (sign.sign_detached (v_slice m) sk) in
    let* r := sign.verify_detached sig (v_slice m) pk in
    assert r)).

Definition test_sign_verify_seed : M unit :=
  for_range 0 256 (fun i => with_seed (fun seed =>
    with_keypair (sign.keypair_from_seed seed) (sign_then_verify i))).

(** The state is [Copy]: [finalize(self)] gets a copy. *)
Definition finalize_copy (state sk : ptr) : M bytes :=
  let* s := slice_bytes (Slice state crypto_sign_ed25519ph_state) in
  sign.State_finalize s sk.

(** A message is signed with the state [init] makes and validated. *)
Definition streaming_round (init : M bytes) (i : Z) (pk sk : ptr) : M unit :=
  let* m := randombytes i in
  let* creation_state := local init in
  let* _ := sign.State_update creation_state (v_slice m) in
  let* sig := local (finalize_copy creation_state sk) in
  let* validator_state := local sign.State_init in
  let* _ := sign.State_update validator_state (v_slice m) in
  let* r := sign.State_verify validator_state sig pk in
  assert r.

Definition test_streaming_sign : M unit :=
  for_range 0 256 (fun i => with_keypair sign.gen_keypair (streaming_round sign.State_init i)).

Definition test_streaming_empty_sign : M unit :=
  with_keypair sign.gen_keypair (fun pk sk =>
    let* creation_state := local sign.State_init in
    let* sig := local (finalize_copy creation_state sk) in
    let* validator_state := local sign.State_init in
    let* r := sign.State_verify validator_state sig pk in
    assert r).

Definition test_streaming_copy : M unit :=
  with_keypair sign.gen_keypair (fun pk sk =>
    let* m := randombytes 256 in
    let* creation_state := local sign.State_init in
    let* _ := sign.State_update creation_state (v_slice m) in
    let* creation_state_copy := local (slice_bytes (Slice creation_state crypto_sign_ed25519ph_state)) in
    let* sig := local (finalize_copy creation_state_copy sk) in
    let* validator_state := local sign.State_init in
    let* _ := sign.State_update validator_state (v_slice m) in
    let* r := sign.State_verify validator_state sig pk in
    assert r).

Definition test_streaming_default : M unit :=
  with_keypair sign.gen_keypair (streaming_round sign.State_default 256).

Definition test_streaming_format : M unit :=
  let* creation_state := local sign.State_init in
  assert (bool_decide (sign.State_fmt = "ed25519 state"%string)).

Definition test_chunks_sign : M unit :=
  with_keypair sign.gen_keypair (fun pk sk =>
    let* creation_state := local sign.State_init in
    let* validator_state := local sign.State_init in
    let* _ := for_range 0 64 (fun i =>
      let* chunk := randombytes i in
      let* _ := sign.State_update creation_state (v_slice chunk) in
      sign.State_update validator_state (v_slice chunk)) in
    let* sig := local (finalize_copy creation_state sk) in
    let* r := sign.State_verify validator_state sig pk in
    assert r).

Definition test_convert_keys : M unit :=
  with_keypair sign.gen_keypair (fun pk sk =>
    let* r := sign.to_curve25519_pk pk in
    let* _pk2 := unwrap r in
    let* r := sign.to_curve25519_sk sk in
    let* _sk2 := unwrap r in
    ret tt).

End SignTests.

(** ** Rules *)

Section Rules.
Context `{T : Target} `{E : SignExterns} {D : SignDoc E}.
Context `{U : UtilsExterns} {UD : UtilsDoc U} `{Cr : Ed25519Crate} {CD : Ed25519CrateDoc Cr}.
Context `{R : RandombytesExterns} {RD : RandombytesDoc R}.
Context {B : Type} (Q : B -> world -> Prop).

(** The local [b] above the rest of the memory *)
Lemma local_under w m b bs :
  holds w m -> m !! b = Some bs ->
  w = w_put b (Some <$> bs) (w_del b w) /\ w_mem (w_del b w) !! b = None /\ holds (w_del b w) (delete b m).
Proof.
  intros Hw Hb. pose proof (Hw b bs Hb) as Eb. cbn in Eb. split_and!.
  - unfold w_put, w_del. cbn. rewrite insert_delete_eq, insert_id by done. by destruct w.
  - apply lookup_delete_eq.
  - intros c cs [Hne Hc]%lookup_delete_Some. cbn. rewrite lookup_delete_ne by done. by apply Hw.
Qed.

Lemma holds_over w m b cs w' :
  holds w m -> w' = w_put b (Some <$> cs) (w_del b w) -> holds w' (<[b := cs]> m).
Proof.
  intros Hw ->. eapply holds_insert; [exact Hw|]. cbn. apply insert_delete_eq.
Qed.

Lemma local_update w m b s c bs n (f : unit -> M B) :
  holds w m -> m !! b = Some s -> zlen s = st_size ph -> m !! c = Some bs -> b <> c ->
  n = zlen bs -> n <= isize_max ->
  (forall w', holds w' (<[b := st_update ph s bs]> m) -> does w' (f tt) Q) ->
  does w (bind (sign.State_update (At b 0) (Slice (At c 0) n)) f) Q.
Proof.
  intros Hw Hb Hs Hc Hne Hn Hmax Hf. destruct (local_under w m b s Hw Hb) as (Ew & Hfr & Hd).
  eapply local_run; [|apply Hf; by eapply holds_over].
  rewrite Ew at 1. apply sign_state_update_run; [done..|].
  eapply holds_slice; [exact Hd|by rewrite lookup_delete_ne|done|done].
Qed.

Lemma local_verify w m b s sig sb pk pkb (f : bool -> M B) :
  holds w m -> m !! b = Some s -> zlen s = st_size ph ->
  m !! sig = Some sb -> zlen sb = 64 -> b <> sig -> m !! pk = Some pkb -> zlen pkb = 32 -> b <> pk ->
  (forall w', holds w' (<[b := st_spent ph s]> m) -> does w' (f (ph_valid pkb (st_final ph s) sb)) Q) ->
  does w (bind (sign.State_verify (At b 0) (At sig 0) (At pk 0)) f) Q.
Proof.
  intros Hw Hb Hs Hsig Hsl Hne Hpk Hpl Hne' Hf. destruct (local_under w m b s Hw Hb) as (Ew & Hfr & Hd).
  eapply local_run; [|apply Hf; by eapply holds_over]. rewrite Ew at 1. apply sign_state_verify_run; [done..| |].
  - rewrite <- Hsl. eapply holds_ref; [exact Hd|by rewrite lookup_delete_ne].
  - rewrite <- Hpl. eapply holds_ref; [exact Hd|by rewrite lookup_delete_ne].
Qed.

Lemma local_finalize w m b s sk skb (f : ptr -> M B) :
  holds w m -> m !! b = Some s -> zlen s = st_size ph -> m !! sk = Some skb -> zlen skb = 64 ->
  (forall t w', m !! t = None -> holds w' (<[t := ph_sign skb (st_final ph s)]> m) -> does w' (f (At t 0)) Q) ->
  does w (bind (local (finalize_copy (At b 0) (At sk 0))) f) Q.
Proof.
  intros Hw Hb Hs Hsk Hl Hf. unfold finalize_copy.
  eapply local_value; [exact Hw|eapply bind_step| |exact Hf].
  - unfold slice_bytes. cbn [s_ptr s_len]. destruct (holds_ref w m b s Hw Hb) as [Hp _].
    apply read_run; [exact Hp|]. rewrite Hs. apply ph_size.
  - apply sign_state_finalize_run; [done|]. rewrite <- Hl. by eapply holds_ref.
  - reflexivity.
Qed.

Lemma local_init_state w m (f : ptr -> M B) :
  holds w m ->
  (forall b w', m !! b = None -> holds w' (<[b := st_init ph tt]> m) -> does w' (f (At b 0)) Q) ->
  does w (bind (local sign.State_init) f) Q.
Proof. intros Hw Hf. eapply local_value; [exact Hw|apply sign_state_init_run|reflexivity|exact Hf]. Qed.

End Rules.

(** Key pairs: from every seed *)
Section KeyPairs.
Context `{T : Target} `{E : SignExterns} {D : SignDoc E}.

Definition makes_pair (m : gmap positive bytes) (g : M (bytes * bytes)) : Prop :=
  forall w, holds w m -> exists s w', g w = Done (ed_public (ed_seeded s), ed_seeded s) w' /\ w_mem w' = w_mem w.

Lemma local_keypair g (f : ptr -> ptr -> M unit) w m :
  holds w m -> makes_pair m g ->
  (forall s pk sk w', pk <> sk -> m !! pk = None -> m !! sk = None ->
     holds w' (<[sk := ed_seeded s]> (<[pk := ed_public (ed_seeded s)]> m)) ->
     does w' (f (At pk 0) (At sk 0)) (fun _ _ => True)) ->
  does w (with_keypair g f) (fun _ _ => True).
Proof.
  intros Hw Hg Hf. destruct (Hg w Hw) as (s & w1 & Hr & Em). unfold with_keypair.
  eapply local_run; [exact Hr|]. eapply local_place; [by eapply holds_same|]. intros pk w2 Hpk Hw2.
  eapply local_place; [exact Hw2|]. intros sk w3 Hsk Hw3. fresh_facts. by eapply Hf.
Qed.

Lemma makes_gen_keypair m : makes_pair m sign.gen_keypair.
Proof. intros w _. eexists _, _. split; [apply sign_gen_keypair_run|done]. Qed.

Lemma makes_seeded m seed sb :
  m !! seed = Some sb -> zlen sb = 32 -> makes_pair m (sign.keypair_from_seed (At seed 0)).
Proof.
  intros Hs Hl w Hw. exists sb, w. split; [|done]. apply sign_keypair_from_seed_run.
  rewrite <- Hl. by eapply holds_ref.
Qed.

End KeyPairs.

(** ** The tests pass *)

Section SignPass.
Context `{T : Target} `{E : SignExterns} {D : SignDoc E}.
Context `{U : UtilsExterns} {UD : UtilsDoc U} `{Cr : Ed25519Crate} {CD : Ed25519CrateDoc Cr}.
Context `{R : RandombytesExterns} {RD : RandombytesDoc R}.

Lemma ph_init_zlen : zlen (st_init ph tt) = st_size ph.
Proof. apply st_init_zlen. Qed.
Lemma ph_update_zlen d a : zlen (st_update ph d a) = st_size ph.
Proof. apply st_update_zlen. Qed.

#[local] Hint Resolve ed_public_zlen ed_seeded_zlen ed_sign_zlen ph_sign_zlen ph_init_zlen ph_update_zlen : zarith.

Ltac pair := eapply local_keypair; [eassumption|apply makes_gen_keypair|]; intros s pk sk w1 Hne Hpk Hsk Hw1.
Ltac len := solve [by auto with zarith].

Lemma place_ref w m p bs n : holds w m -> m !! p = Some bs -> zlen bs = n -> is_ref w (At p 0) n bs.
Proof. intros Hw Hp <-. by eapply holds_ref. Qed.

Lemma test_sk_to_pk_passes : passes test_sk_to_pk.
Proof.
  intros w. pose proof (holds_empty w) as Hw. unfold test_sk_to_pk. pair.
  eapply local_value; [exact Hw1|apply sign_public_key_run; eapply place_ref; [exact Hw1|local_tac|len]|reflexivity|].
  intros p w2 Hp Hw2. fresh_facts. pose proof isize_max_bounds.
  assert (Hn : 0 <= nt_bytes sign.PublicKey <= isize_max) by (change (nt_bytes sign.PublicKey) with 32; lia).
  eapply local_run; [apply (NewType.eq_run _ Hn); eapply place_ref; first [exact Hw2|local_tac|len]|].
  apply does_assert. by apply bool_decide_true.
Qed.

Lemma sign_then_verify_passes i pk sk s w m :
  0 <= i <= 256 -> holds w m -> m !! pk = Some (ed_public (ed_seeded s)) -> m !! sk = Some (ed_seeded s) ->
  does w (sign_then_verify i (At pk 0) (At sk 0)) (fun _ _ => True).
Proof.
  intros Hi Hw Hpk Hsk. pose proof isize_max_bounds. unfold sign_then_verify.
  eapply (local_random _ (RD := RD)); [exact Hw|lia|]. intros x a w1 Hx Ha Hw1. sl.
  eapply local_new; [exact Hw1| | |].
  { rewrite <- Ha. apply sign_run; [eapply holds_slice; [exact Hw1|local_tac|done|lia]|lia|].
    eapply place_ref; [exact Hw1|local_tac|len]. }
  { reflexivity. }
  intros sm w2 Hsm Hw2. fresh_facts. sl. set (sig := ed_sign (ed_seeded s) a) in *.
  assert (Hsig : zlen sig = 64) by apply ed_sign_zlen.
  assert (Hsz : zlen (sig ++ a) = zlen a + 64) by (rewrite zlen_app; lia).
  assert (Hlen : length sig = 64%nat) by (unfold zlen in Hsig; lia).
  eapply local_run.
  { erewrite sign_verify_run.
    - rewrite drop_app_length', take_app_length' by done. unfold sig. rewrite ed_valid_sign.
      fold sig. rewrite Hsz, (proj2 (Z.leb_le _ _)) by (pose proof (zlen_nonneg a); lia). reflexivity.
    - eapply holds_slice; [exact Hw2|local_tac|by rewrite Hsz|lia].
    - eapply place_ref; [exact Hw2|local_tac|len]. }
  set (b := fresh_block w2). pose proof (fresh_block_spec w2 : w_mem w2 !! b = None) as Hb.
  pose proof (holds_insert w2 _ b (a ++ zeros 64) (w_put b (Some <$> a ++ zeros 64) w2) Hw2 eq_refl) as Hw3.
  assert (Hbx : b <> x) by (intros ->; rewrite (Hw2 x a) in Hb; [done|local_tac]).
  unfold assert_ok_same. eapply local_contents; [exact Hw3|local_tac|done|].
  eapply local_run; [|by apply does_assert, bool_decide_true].
  unfold contents, slice_bytes. sl. cbn [s_ptr s_len].
  destruct (holds_ref _ _ b _ Hw3 (lookup_insert_eq _ _ _)) as [Hp _].
  apply (read_run _ _ _ a); [by eapply bytes_at_app_l|lia].
Qed.

Lemma test_sign_verify_passes : passes test_sign_verify.
Proof.
  intros w. apply local_loop. intros i w0 Hi Hw. change (0 + Z.of_nat 256) with 256 in Hi. pair.
  eapply sign_then_verify_passes; [lia|exact Hw1|local_tac|local_tac].
Qed.

Lemma test_sign_verify_seed_passes : passes test_sign_verify_seed.
Proof.
  intros w. apply local_loop. intros i w0 Hi Hw. change (0 + Z.of_nat 256) with 256 in Hi. unfold with_seed.
  eapply local_array; [exact Hw|]. intros buf w1 _ Hw1.
  eapply (local_fill _ (RD := RD)); [exact Hw1|local_tac|by rewrite zlen_zeros|]. intros sb w2 Hsb Hw2.
  eapply local_read; [exact Hw2|local_tac|done|]. eapply local_place; [exact Hw2|]. intros seed w3 Hs Hw3.
  eapply local_keypair; [exact Hw3|eapply makes_seeded; [local_tac|done]|]. intros s pk sk w4 Hne Hpk Hsk Hw4.
  eapply sign_then_verify_passes; [lia|exact Hw4|local_tac|local_tac].
Qed.

Lemma test_sign_verify_detached_passes : passes test_sign_verify_detached.
Proof.
  intros w. apply local_loop. intros i w0 Hi Hw. change (0 + Z.of_nat 256) with 256 in Hi. pair.
  pose proof isize_max_bounds.
  eapply (local_random _ (RD := RD)); [exact Hw1|lia|]. intros x a w2 Hx Ha Hw2. fresh_facts. sl.
  eapply local_value; [exact Hw2| | |].
  { apply sign_detached_run; [eapply holds_slice; [exact Hw2|local_tac|done|lia]|].
    eapply place_ref; [exact Hw2|local_tac|len]. }
  { reflexivity. }
  intros sig w3 Hsig Hw3. fresh_facts.
  eapply local_run; [|apply does_assert, ed_valid_sign].
  eapply verify_detached_run; [eapply place_ref; [exact Hw3|local_tac|len]| |eapply place_ref; [exact Hw3|local_tac|len]].
  eapply holds_slice; [exact Hw3|local_tac|done|lia].
Qed.

(** A message signed and validated through the streaming interface *)
Lemma signs_and_validates w m v d sig pk s :
  holds w m -> m !! v = Some d -> zlen d = st_size ph ->
  m !! sig = Some (ph_sign (ed_seeded s) (st_final ph d)) -> m !! pk = Some (ed_public (ed_seeded s)) ->
  v <> sig -> v <> pk ->
  does w (let* r := sign.State_verify (At v 0) (At sig 0) (At pk 0) in assert r) (fun _ _ => True).
Proof.
  intros Hw Hv Hd Hsig Hpk Hvs Hvp.
  eapply local_verify; [exact Hw|exact Hv|exact Hd|exact Hsig|len|done|exact Hpk|len|done|].
  intros w' _. apply does_assert, ph_valid_sign.
Qed.

Lemma streaming_round_passes init i pk sk s w m :
  init = sign.State_init -> pk <> sk ->
  0 <= i <= 256 -> holds w m -> m !! pk = Some (ed_public (ed_seeded s)) -> m !! sk = Some (ed_seeded s) ->
  does w (streaming_round init i (At pk 0) (At sk 0)) (fun _ _ => True).
Proof.
  intros -> Hne Hi Hw Hpk Hsk. pose proof isize_max_bounds. unfold streaming_round.
  eapply (local_random _ (RD := RD)); [exact Hw|lia|]. intros x a w1 Hx Ha Hw1.
  eapply local_init_state; [exact Hw1|]. intros c w2 Hc Hw2. fresh_facts. sl.
  assert (Hcx : c <> x) by congruence.
  eapply local_update; [exact Hw2|local_tac|len|local_tac|done|len_eq|lia|]. intros w3 Hw3.
  eapply local_finalize; [exact Hw3|local_tac|len|local_tac|len|]. intros sig w4 Hsig Hw4. fresh_facts.
  eapply local_init_state; [exact Hw4|]. intros v w5 Hv Hw5. fresh_facts.
  assert (Hvx : v <> x) by congruence.
  eapply local_update; [exact Hw5|local_tac|len|local_tac|done|len_eq|lia|]. intros w6 Hw6.
  eapply signs_and_validates; [exact Hw6|local_tac|len|local_tac|local_tac|ne_tac|ne_tac].
Qed.

Lemma test_streaming_sign_passes : passes test_streaming_sign.
Proof.
  intros w. apply local_loop. intros i w0 Hi Hw. change (0 + Z.of_nat 256) with 256 in Hi. pair.
  eapply streaming_round_passes; [done|exact Hne|lia|exact Hw1|local_tac|local_tac].
Qed.

Lemma test_streaming_default_passes : passes test_streaming_default.
Proof.
  intros w. pose proof (holds_empty w) as Hw. unfold test_streaming_default. pair.
  eapply streaming_round_passes; [done|exact Hne|lia|exact Hw1|local_tac|local_tac].
Qed.

Lemma test_streaming_empty_sign_passes : passes test_streaming_empty_sign.
Proof.
  intros w. pose proof (holds_empty w) as Hw. unfold test_streaming_empty_sign. pair.
  eapply local_init_state; [exact Hw1|]. intros c w2 Hc Hw2. fresh_facts.
  eapply local_finalize; [exact Hw2|local_tac|len|local_tac|len|]. intros sig w3 Hsig Hw3. fresh_facts.
  eapply local_init_state; [exact Hw3|]. intros v w4 Hv Hw4. fresh_facts.
  eapply signs_and_validates; [exact Hw4|local_tac|len|local_tac|local_tac|ne_tac|ne_tac].
Qed.

Lemma test_streaming_copy_passes : passes test_streaming_copy.
Proof.
  intros w. pose proof (holds_empty w) as Hw. pose proof isize_max_bounds. unfold test_streaming_copy. pair.
  eapply (local_random _ (RD := RD)); [exact Hw1|lia|]. intros x a w2 Hx Ha Hw2. fresh_facts.
  eapply local_init_state; [exact Hw2|]. intros c w3 Hc Hw3. fresh_facts. sl.
  assert (Hcx : c <> x) by congruence.
  eapply local_update; [exact Hw3|local_tac|len|local_tac|done|len_eq|lia|]. intros w4 Hw4.
  eapply local_value; [exact Hw4| | |].
  { unfold slice_bytes. cbn [s_ptr s_len]. rewrite <- ph_size.
    eapply read_run; [eapply holds_ref; [exact Hw4|local_tac]|]. len. }
  { reflexivity. }
  intros c' w5 Hc' Hw5. fresh_facts.
  eapply local_finalize; [exact Hw5|local_tac|len|local_tac|len|]. intros sig w6 Hsig Hw6. fresh_facts.
  eapply local_init_state; [exact Hw6|]. intros v w7 Hv Hw7. fresh_facts.
  assert (Hvx : v <> x) by congruence.
  eapply local_update; [exact Hw7|local_tac|len|local_tac|done|len_eq|lia|]. intros w8 Hw8.
  eapply signs_and_validates; [exact Hw8|local_tac|len|local_tac|local_tac|ne_tac|ne_tac].
Qed.

Lemma test_streaming_format_passes : passes test_streaming_format.
Proof.
  intros w. eapply local_init_state; [apply holds_empty|]. intros c w1 _ _. by apply does_assert.
Qed.

(** Both states see the same chunks. *)
Lemma test_chunks_sign_passes : passes test_chunks_sign.
Proof.
  intros w. pose proof (holds_empty w) as Hw. pose proof isize_max_bounds. unfold test_chunks_sign. pair.
  eapply local_init_state; [exact Hw1|]. intros c w2 Hc Hw2. fresh_facts.
  eapply local_init_state; [exact Hw2|]. intros v w3 Hv Hw3. fresh_facts.
  set (m0 := <[sk := ed_seeded s]> (<[pk := ed_public (ed_seeded s)]> ∅) : gmap positive bytes) in *.
  set (I := fun w' => exists d, zlen d = st_size ph /\ holds w' (<[v := d]> (<[c := d]> m0))).
  eapply does_bind; [apply (does_for I)|].
  - intros i w4 Hi (d & Hd & Hw4). change (0 + Z.of_nat 64) with 64 in Hi.
    eapply (local_random _ (RD := RD)); [exact Hw4|lia|]. intros x a w5 Hx Ha Hw5.
    pose proof Hx as Hx'. apply lookup_insert_None in Hx' as [Hx' Hvx]. apply lookup_insert_None in Hx' as [_ Hcx]. sl.
    eapply local_update; [exact Hw5|local_tac|done|local_tac|done|len_eq|lia|]. intros w6 Hw6.
    apply local_last. eapply local_update; [exact Hw6|local_tac|done|local_tac|done|len_eq|lia|]. intros w7 Hw7.
    apply does_ret. exists (st_update ph d a). split; [len|]. eapply holds_mono; [|exact Hw7].
    apply map_subseteq_spec. intros b bs Hb.
    apply lookup_insert_Some in Hb as [[<- <-]|[Hne1 Hb]]; [local_tac|].
    apply lookup_insert_Some in Hb as [[<- <-]|[Hne2 Hb]]; [local_tac|].
    do 2 (apply lookup_other; [done|]). apply lookup_insert_Some. right. split.
    + intros ->. rewrite !lookup_insert_ne in Hx by done. congruence.
    + by rewrite !lookup_insert_ne by done.
  - exists (st_init ph tt). split; [len|exact Hw3].
  - intros [] w4 (d & Hd & Hw4). unfold m0 in *.
    eapply local_finalize; [exact Hw4|local_tac|done|local_tac|len|]. intros sig w5 Hsig Hw5. fresh_facts.
    eapply signs_and_validates; [exact Hw5|local_tac|done|local_tac|local_tac|ne_tac|ne_tac].
Qed.

Lemma to_curve25519_pk_run w p pkb x :
  is_ref w p 32 pkb -> ed_pk_convert pkb = Some x -> sign.to_curve25519_pk p w = Done (Ok x) w.
Proof.
  intros [? ?] Hx. unfold sign.to_curve25519_pk. change box_.PUBLICKEYBYTES with 32.
  pose proof (ed_pk_convert_zlen pkb x Hx). step. eapply bind_step.
  { rewrite crypto_sign_pk_to_curve25519_doc. step. rewrite Hx. steps. }
  cbn [Z.eqb]. steps.
Qed.

Lemma to_curve25519_sk_run w p skb :
  is_ref w p 64 skb -> sign.to_curve25519_sk p w = Done (Ok (ed_sk_convert skb)) w.
Proof.
  intros [? ?]. unfold sign.to_curve25519_sk. change box_.SECRETKEYBYTES with 32.
  pose proof (ed_sk_convert_zlen skb). step. eapply bind_step.
  { rewrite crypto_sign_sk_to_curve25519_doc. steps. }
  cbn [Z.eqb]. steps.
Qed.

(** Keys that were generated can be converted. *)
Lemma test_convert_keys_passes :
  (forall s, ed_pk_convert (ed_public (ed_seeded s)) <> None) -> passes test_convert_keys.
Proof.
  intros Hconv w. pose proof (holds_empty w) as Hw. unfold test_convert_keys. pair.
  destruct (ed_pk_convert (ed_public (ed_seeded s))) as [x|] eqn:Ex; [|by destruct (Hconv s)].
  eapply local_run; [eapply to_curve25519_pk_run; [eapply place_ref; [exact Hw1|local_tac|len]|exact Ex]|].
  eapply local_unwrap; [reflexivity|].
  eapply local_run; [eapply to_curve25519_sk_run, place_ref; [exact Hw1|local_tac|len]|].
  eapply local_unwrap; [reflexivity|]. by apply does_ret.
Qed.

End SignPass.

(** The tests with generated and seeded keys pass: a signature made with a key
    pair, combined with the message, detached, or of chunks of the message, is
    accepted under its public key, copies of a state behave as the state, and
    the keys are the ones the other module can use when the curve point of
    every public key can be converted. *)
Theorem sign_tests_pass `{T : Target} `{E : SignExterns} {D : SignDoc E}
    `{U : UtilsExterns} {UD : UtilsDoc U} `{Cr : Ed25519Crate} {CD : Ed25519CrateDoc Cr}
    `{R : RandombytesExterns} {RD : RandombytesDoc R}
    (Hconv : forall s, ed_pk_convert (ed_public (ed_seeded s)) <> None) :
  passes test_sk_to_pk /\ passes test_sign_verify /\ passes test_sign_verify_detached /\
  passes test_sign_verify_seed /\ passes test_streaming_sign /\ passes test_streaming_empty_sign /\
  passes test_streaming_copy /\ passes test_streaming_default /\ passes test_streaming_format /\
  passes test_chunks_sign /\ passes test_convert_keys.
Proof.
  split_and!.
  - exact test_sk_to_pk_passes.
  - exact test_sign_verify_passes.
  - exact test_sign_verify_detached_passes.
  - exact test_sign_verify_seed_passes.
  - exact test_streaming_sign_passes.
  - exact test_streaming_empty_sign_passes.
  - exact test_streaming_copy_passes.
  - exact test_streaming_default_passes.
  - exact test_streaming_format_passes.
  - exact test_chunks_sign_passes.
  - exact (test_convert_keys_passes Hconv).
Qed.

Lemma ref_public_converts s :
  @ed_pk_convert _ RefSign.doc (@ed_public _ RefSign.doc (@ed_seeded _ RefSign.doc s)) <> None.
Proof.
  change (RefSign.convert (RefSign.half (le_bytes 64 (le_val s))) <> None).
  unfold RefSign.convert. rewrite decide_False; [done|]. set (x := le_bytes 64 (le_val s)).
  unfold RefSign.half. rewrite le_val_le_bytes. set (z := le_val (take 32 x)).
  pose proof (Z.mod_pos_bound z (2 ^ 255) eq_refl). change (256 ^ Z.of_nat 32) with (2 ^ 256).
  rewrite (Z.mod_small (z mod 2 ^ 255)); lia.
Qed.

Lemma sign_tests_pass_witness :
  let E := RefSign.externs in
  let U := Ref.utils in
  let Cr := RefSign.crate in
  let R := Ref.randombytes in
  passes (@test_sk_to_pk E U) /\ passes (@test_sign_verify target64 E R) /\
  passes (@test_sign_verify_detached target64 E Cr R) /\ passes (@test_sign_verify_seed target64 E R) /\
  passes (@test_streaming_sign target64 E Cr R) /\ passes (@test_streaming_empty_sign E Cr) /\
  passes (@test_streaming_copy target64 E Cr R) /\ passes (@test_streaming_default target64 E Cr R) /\
  passes (@test_streaming_format E) /\ passes (@test_chunks_sign target64 E Cr R) /\
  passes (@test_convert_keys E U).
Proof.
  apply (@sign_tests_pass target64 RefSign.externs RefSign.doc Ref.utils Ref.utils_doc RefSign.crate
    RefSign.crate_doc Ref.randombytes Ref.randombytes_doc). exact ref_public_converts.
Defined.
