(* ===== verification/Keys.v ===== *)
(** * src/crypto/kdf/blake2b.rs, src/crypto/kx/x25519blake2b.rs,
      src/crypto/scalarmult/curve25519.rs, src/crypto/shorthash/siphash24.rs

    Key derivation, key exchange, the multiplication of a point by a scalar,
    and the keyed hash of short messages. *)

From S2P Require Export Primitives.

Module kdf.

Definition KEYBYTES : Z := crypto_kdf_blake2b_KEYBYTES.
Definition CONTEXTBYTES : Z := crypto_kdf_blake2b_CONTEXTBYTES.
Definition BYTES_MIN : Z := crypto_kdf_blake2b_BYTES_MIN.
Definition BYTES_MAX : Z := crypto_kdf_blake2b_BYTES_MAX.

Definition Key : newtype := NewType public "Key" KEYBYTES.

Definition gen_key `{Target} `{RandombytesExterns} : M bytes :=
  let* key := stack_array KEYBYTES in
  let* _ := randombytes_into (Slice (At key 0) KEYBYTES) in
  move_out key.

(** The context is passed by value. *)
Definition derive_from_key `{KdfExterns} (subkey : slice) (subkey_id : Z) (ctx : bytes) (key : ptr)
    : M (result unit) :=
  let* c := place ctx in
  let* r := crypto_kdf_blake2b_derive_from_key (s_ptr subkey) (s_len subkey) subkey_id (At c 0) key in
  let* _ := move_out c in
  if negb (r =? 0) then ret Err else ret (Ok tt).

End kdf.

Module kx.

Definition PUBLICKEYBYTES : Z := crypto_kx_PUBLICKEYBYTES.
Definition SECRETKEYBYTES : Z := crypto_kx_SECRETKEYBYTES.
Definition SEEDBYTES : Z := crypto_kx_SEEDBYTES.
Definition SESSIONKEYBYTES : Z := crypto_kx_SESSIONKEYBYTES.

Definition PublicKey : newtype := NewType public "PublicKey" PUBLICKEYBYTES.
Definition SecretKey : newtype := NewType secret "SecretKey" SECRETKEYBYTES.
Definition Seed : newtype := NewType secret "Seed" SEEDBYTES.
Definition SessionKey : newtype := NewType secret "SessionKey" SESSIONKEYBYTES.

Section Functions.
Context `{E : KxExterns} `{U : UtilsExterns}.

Definition gen_keypair : M (bytes * bytes) :=
  let* pk := stack_array PUBLICKEYBYTES in
  let* sk := stack_array SECRETKEYBYTES in
  let* _ := crypto_kx_keypair (At pk 0) (At sk 0) in
  let* skb := move_out sk in
  let* pkb := move_out pk in
  ret (pkb, skb).

Definition keypair_from_seed (seed : ptr) : M (bytes * bytes) :=
  let* pk := stack_array PUBLICKEYBYTES in
  let* sk := stack_array SECRETKEYBYTES in
  let* _ := crypto_kx_seed_keypair (At pk 0) (At sk 0) seed in
  let* skb := move_out sk in
  let* pkb := move_out pk in
  ret (pkb, skb).

(** On an error the two keys go out of scope, the last one first. *)
Definition server_session_keys (server_pk server_sk client_pk : ptr) : M (result (bytes * bytes)) :=
  let* rx := stack_array SESSIONKEYBYTES in
  let* tx := stack_array SESSIONKEYBYTES in
  let* r := crypto_kx_server_session_keys (At rx 0) (At tx 0) server_pk server_sk client_pk in
  if negb (r =? 0) then
    let* _ := NewType.drop SessionKey tx in
    let* _ := NewType.drop SessionKey rx in
    ret Err
  else
    let* txb := move_out tx in
    let* rxb := move_out rx in
    ret (Ok (rxb, txb)).

Definition client_session_keys (client_pk client_sk server_pk : ptr) : M (result (bytes * bytes)) :=
  let* rx := stack_array SESSIONKEYBYTES in
  let* tx := stack_array SESSIONKEYBYTES in
  let* r := crypto_kx_client_session_keys (At rx 0) (At tx 0) client_pk client_sk server_pk in
  if negb (r =? 0) then
    let* _ := NewType.drop SessionKey tx in
    let* _ := NewType.drop SessionKey rx in
    ret Err
  else
    let* txb := move_out tx in
    let* rxb := move_out rx in
    ret (Ok (rxb, txb)).

End Functions.

End kx.

Module scalarmult.

Definition GROUPELEMENTBYTES : Z := crypto_scalarmult_curve25519_BYTES.
Definition SCALARBYTES : Z := crypto_scalarmult_curve25519_SCALARBYTES.

Definition Scalar : newtype := NewType secret "Scalar" SCALARBYTES.
Definition GroupElement : newtype := NewType secret "GroupElement" GROUPELEMENTBYTES.

(** [q] is an array, not yet a [GroupElement], when the call fails. *)
Definition scalarmult `{ScalarmultExterns} (n p : ptr) : M (result bytes) :=
  let* q := stack_array GROUPELEMENTBYTES in
  let* rc := crypto_scalarmult_curve25519 (At q 0) n p in
  if negb (rc =? 0) then let* _ := free q in ret Err
  else let* qb := move_out q in ret (Ok qb).

Definition scalarmult_base `{ScalarmultExterns} (n : ptr) : M bytes :=
  let* q := stack_array GROUPELEMENTBYTES in
  let* _ := crypto_scalarmult_curve25519_base (At q 0) n in
  move_out q.

End scalarmult.

Module shorthash.

Definition DIGESTBYTES : Z := crypto_shorthash_siphash24_BYTES.
Definition KEYBYTES : Z := crypto_shorthash_siphash24_KEYBYTES.

Definition Digest : newtype := NewType public "Digest" DIGESTBYTES.
Definition Key : newtype := NewType secret "Key" KEYBYTES.

Definition gen_key `{Target} `{RandombytesExterns} : M bytes :=
  let* k := stack_array KEYBYTES in
  let* _ := randombytes_into (Slice (At k 0) KEYBYTES) in
  move_out k.

Definition shorthash `{ShorthashExterns} (m : slice) (k : ptr) : M bytes :=
  let* h := stack_array DIGESTBYTES in
  let* _ := crypto_shorthash_siphash24 (At h 0) (s_ptr m) (s_len m) k in
  move_out h.

End shorthash.

(** ** Documented behaviour *)

(** [crypto_kdf]: subkeys of 16 to 64 bytes; other lengths are an error. *)
Class KdfDoc (E : KdfExterns) := {
  kdf_subkey : bytes (* key *) -> bytes (* ctx *) -> Z (* id *) -> Z (* len *) -> bytes;
  kdf_subkey_zlen k c i n : 0 <= n -> zlen (kdf_subkey k c i n) = n;
  crypto_kdf_derive_doc subkey len i ctx key :
    crypto_kdf_blake2b_derive_from_key subkey len i ctx key =
      if (len <? 16) || (64 <? len) then ret (-1)
      else
        let* cb := read ctx 8 in
        let* kb := read key 32 in
        let* _ := write subkey (kdf_subkey kb cb i len) in
        ret 0
}.

(** [crypto_kx]: both parties hash their shared secret and the two public keys;
    the client receives with the first half and sends with the second, the
    server does the opposite.  [None]: the peer's key is not acceptable. *)
Class KxDoc (E : KxExterns) := {
  kx_seeded : bytes -> bytes;
  kx_public : bytes -> bytes;
  kx_shared : bytes (* pk *) -> bytes (* sk *) -> option bytes;
  kx_hash : bytes (* shared *) -> bytes (* client_pk *) -> bytes (* server_pk *) -> bytes;
  kx_seeded_zlen s : zlen (kx_seeded s) = 32;
  kx_public_zlen s : zlen (kx_public s) = 32;
  kx_hash_zlen q c s : zlen (kx_hash q c s) = 64;
  crypto_kx_keypair_doc pk sk :
    crypto_kx_keypair pk sk =
      (let* r := rand 32 in
       let* _ := write sk r in let* _ := write pk (kx_public r) in ret 0);
  crypto_kx_seed_keypair_doc pk sk seed :
    crypto_kx_seed_keypair pk sk seed =
      (let* s := read seed 32 in
       let* _ := write sk (kx_seeded s) in
       let* _ := write pk (kx_public (kx_seeded s)) in ret 0);
  crypto_kx_client_doc rx tx cpk csk spk :
    crypto_kx_client_session_keys rx tx cpk csk spk =
      (let* cpkb := read cpk 32 in
       let* cskb := read csk 32 in
       let* spkb := read spk 32 in
       match kx_shared spkb cskb with
       | None => ret (-1)
       | Some q =>
         let* _ := write rx (take 32 (kx_hash q cpkb spkb)) in
         let* _ := write tx (drop 32 (kx_hash q cpkb spkb)) in
         ret 0
       end);
  crypto_kx_server_doc rx tx spk ssk cpk :
    crypto_kx_server_session_keys rx tx spk ssk cpk =
      (let* spkb := read spk 32 in
       let* sskb := read ssk 32 in
       let* cpkb := read cpk 32 in
       match kx_shared cpkb sskb with
       | None => ret (-1)
       | Some q =>
         let* _ := write tx (take 32 (kx_hash q cpkb spkb)) in
         let* _ := write rx (drop 32 (kx_hash q cpkb spkb)) in
         ret 0
       end)
}.

(** The two parties compute the same secret. *)
Class KxAgreement (E : KxExterns) (D : KxDoc E) : Prop :=
  kx_shared_sym a b : kx_shared (kx_public a) b = kx_shared (kx_public b) a.

(** [crypto_scalarmult]: [None] when the result would be the neutral element;
    what is then left in the output is a parameter. *)
Class ScalarmultDoc (E : ScalarmultExterns) := {
  x_mult : bytes -> bytes -> option bytes;
  x_base : bytes -> bytes;
  x_reject : bytes -> bytes -> bytes;
  x_mult_zlen n p q : x_mult n p = Some q -> zlen q = 32;
  x_base_zlen n : zlen (x_base n) = 32;
  x_reject_zlen n p : zlen (x_reject n p) = 32;
  crypto_scalarmult_doc q n p :
    crypto_scalarmult_curve25519 q n p =
      (let* nb := read n 32 in
       let* pb := read p 32 in
       match x_mult nb pb with
       | Some qb => let* _ := write q qb in ret 0
       | None => let* _ := write q (x_reject nb pb) in ret (-1)
       end);
  crypto_scalarmult_base_doc q n :
    crypto_scalarmult_curve25519_base q n =
      (let* nb := read n 32 in let* _ := write q (x_base nb) in ret 0)
}.

Class ShorthashDoc (E : ShorthashExterns) := {
  sip : bytes -> bytes -> bytes;
  sip_zlen k m : zlen (sip k m) = 8;
  crypto_shorthash_doc out m mlen k :
    crypto_shorthash_siphash24 out m mlen k =
      (let* mb := read m mlen in
       let* kb := read k 16 in
       let* _ := write out (sip kb mb) in ret 0)
}.

(** ** What the wrappers do *)

Section KdfFacts.
Context `{T : Target} `{E : KdfExterns} {D : KdfDoc E}.

Lemma derive_from_key_run w subkey i ctx key sb kb :
  is_slice w subkey sb -> zlen ctx = 8 -> is_ref w key 32 kb ->
  kdf.derive_from_key subkey i ctx key w =
    if decide (16 <= zlen sb <= 64)
    then Done (Ok tt) (w_write (s_ptr subkey) (kdf_subkey kb ctx i (zlen sb)) w)
    else Done Err w.
Proof.
  intros Hs Hc Hk. open_args. unfold kdf.derive_from_key.
  replace (s_len subkey) with (zlen sb) by done. step. rewrite crypto_kdf_derive_doc.
  pose proof (kdf_subkey_zlen kb ctx i (zlen sb) (zlen_nonneg sb)).
  destruct (Z.ltb_spec (zlen sb) 16); [|destruct (Z.ltb_spec 64 (zlen sb))]; cbn [orb].
  - rewrite decide_False by lia. steps. done.
  - rewrite decide_False by lia. steps. done.
  - rewrite decide_True by lia. steps. done.
Qed.

End KdfFacts.

Section KxFacts.
Context `{T : Target} `{E : KxExterns} {D : KxDoc E} `{U : UtilsExterns} {UD : UtilsDoc U}.

Lemma kx_keypair_from_seed_run w seed sb :
  is_ref w seed 32 sb ->
  kx.keypair_from_seed seed w = Done (kx_public (kx_seeded sb), kx_seeded sb) w.
Proof.
  intros [? ?]. unfold kx.keypair_from_seed.
  change kx.PUBLICKEYBYTES with 32. change kx.SECRETKEYBYTES with 32.
  pose proof (kx_public_zlen (kx_seeded sb)). pose proof (kx_seeded_zlen sb).
  step. step. rewrite crypto_kx_seed_keypair_doc. steps.
Qed.

Lemma kx_gen_keypair_run w :
  kx.gen_keypair w = Done (kx_public (entropy 32 w), entropy 32 w) (w_consume 32 w).
Proof.
  unfold kx.gen_keypair. change kx.PUBLICKEYBYTES with 32. change kx.SECRETKEYBYTES with 32.
  pose proof (kx_public_zlen (entropy 32 w)). step. step. rewrite crypto_kx_keypair_doc. steps.
Qed.

(** Two zeroed session keys went out of scope. *)
Definition w_wiped (w : world) : world :=
  w_with (env_drop (Some <$> zeros 32) (env_drop (Some <$> zeros 32) (w_env w))) w.

Lemma is_ref_wiped w p n bs : is_ref w p n bs -> is_ref (w_wiped w) p n bs.
Proof. done. Qed.

Lemma session_key_drop b w :
  w_mem w !! b = None ->
  NewType.drop kx.SessionKey b (w_put b (Some <$> zeros 32) w) =
    Done tt (w_with (env_drop (Some <$> zeros 32) (w_env w)) w).
Proof.
  intros Hb. apply NewType.drop_run; [|done..]. pose proof isize_max_bounds. change (nt_bytes kx.SessionKey) with 32. lia.
Qed.

Lemma kx_drop_keys {B} rx tx (r : B) w :
  w_mem w !! rx = None -> w_mem w !! tx = None -> rx <> tx ->
  (let* _ := NewType.drop kx.SessionKey tx in
   let* _ := NewType.drop kx.SessionKey rx in ret r)
    (w_put tx (Some <$> zeros 32) (w_put rx (Some <$> zeros 32) w)) = Done r (w_wiped w).
Proof.
  intros Hr Ht Hne. eapply bind_step; [apply session_key_drop; mem_tac|].
  change (w_with ?e (w_put rx ?c w)) with (w_put rx c (w_with e w)).
  eapply bind_step; [by apply session_key_drop|done].
Qed.

Lemma kx_hash_halves q c s :
  zlen (take 32 (kx_hash q c s)) = 32 /\ zlen (drop 32 (kx_hash q c s)) = 32.
Proof.
  pose proof (kx_hash_zlen q c s) as Hl. unfold zlen in *.
  rewrite length_take, length_drop. lia.
Qed.

Lemma client_session_keys_run w cpk csk spk cpkb cskb spkb :
  is_ref w cpk 32 cpkb -> is_ref w csk 32 cskb -> is_ref w spk 32 spkb ->
  kx.client_session_keys cpk csk spk w =
    match kx_shared spkb cskb with
    | Some q => Done (Ok (take 32 (kx_hash q cpkb spkb), drop 32 (kx_hash q cpkb spkb))) w
    | None => Done Err (w_wiped w)
    end.
Proof.
  intros [? ?] [? ?] [? ?]. unfold kx.client_session_keys. change kx.SESSIONKEYBYTES with 32.
  step. step. rewrite crypto_kx_client_doc. do 3 step.
  destruct (kx_shared spkb cskb) as [q|].
  - destruct (kx_hash_halves q cpkb spkb). steps. cbn [Z.eqb negb]. steps.
  - step. cbn [Z.eqb negb]. by apply kx_drop_keys.
Qed.

Lemma server_session_keys_run w spk ssk cpk spkb sskb cpkb :
  is_ref w spk 32 spkb -> is_ref w ssk 32 sskb -> is_ref w cpk 32 cpkb ->
  kx.server_session_keys spk ssk cpk w =
    match kx_shared cpkb sskb with
    | Some q => Done (Ok (drop 32 (kx_hash q cpkb spkb), take 32 (kx_hash q cpkb spkb))) w
    | None => Done Err (w_wiped w)
    end.
Proof.
  intros [? ?] [? ?] [? ?]. unfold kx.server_session_keys. change kx.SESSIONKEYBYTES with 32.
  step. step. rewrite crypto_kx_server_doc. do 3 step.
  destruct (kx_shared cpkb sskb) as [q|].
  - destruct (kx_hash_halves q cpkb spkb). steps. cbn [Z.eqb negb]. steps.
  - step. cbn [Z.eqb negb]. by apply kx_drop_keys.
Qed.

End KxFacts.

Section ScalarmultFacts.
Context `{E : ScalarmultExterns} {D : ScalarmultDoc E}.

Lemma scalarmult_run w n p nb pb :
  is_ref w n 32 nb -> is_ref w p 32 pb ->
  scalarmult.scalarmult n p w =
    match x_mult nb pb with
    | Some q => Done (Ok q) w
    | None => Done Err (w_with (env_drop (Some <$> x_reject nb pb) (w_env w)) w)
    end.
Proof.
  intros [? ?] [? ?]. unfold scalarmult.scalarmult. change scalarmult.GROUPELEMENTBYTES with 32.
  pose proof (x_reject_zlen nb pb). step. rewrite crypto_scalarmult_doc. do 2 step.
  destruct (x_mult nb pb) as [q|] eqn:Eq.
  - pose proof (x_mult_zlen _ _ _ Eq). steps. cbn [Z.eqb negb]. steps.
  - steps. cbn [Z.eqb negb]. steps.
Qed.

Lemma scalarmult_base_run w n nb :
  is_ref w n 32 nb -> scalarmult.scalarmult_base n w = Done (x_base nb) w.
Proof.
  intros [? ?]. unfold scalarmult.scalarmult_base. change scalarmult.GROUPELEMENTBYTES with 32.
  pose proof (x_base_zlen nb). step. rewrite crypto_scalarmult_base_doc. steps.
Qed.

End ScalarmultFacts.

Lemma shorthash_run `{T : Target} `{E : ShorthashExterns} {D : ShorthashDoc E} w m k mb kb :
  is_slice w m mb -> is_ref w k 16 kb -> shorthash.shorthash m k w = Done (sip kb mb) w.
Proof.
  intros Hm Hk. open_args. unfold shorthash.shorthash. change shorthash.DIGESTBYTES with 8.
  pose proof (sip_zlen kb mb). step. rewrite crypto_shorthash_doc. steps.
Qed.

(** ** A reference key exchange and key derivation *)

Module RefKeys.

Definition fit (n : nat) (bs : bytes) : bytes := le_bytes n (le_val bs).

Definition shared (pk sk : bytes) : option bytes :=
  if decide (fit 32 pk = zeros 32 \/ fit 32 sk = zeros 32) then None
  else Some (le_bytes 32 (le_val (fit 32 pk) + le_val (fit 32 sk))).
Definition khash (q c s : bytes) : bytes := le_bytes 32 (le_val q) ++ le_bytes 32 (2 * le_val q + le_val c).

Definition kx_externs : KxExterns := {|
  crypto_kx_seed_keypair pk sk seed :=
    let* s := read seed 32 in
    let* _ := write sk (fit 32 s) in let* _ := write pk (fit 32 (fit 32 s)) in ret 0;
  crypto_kx_keypair pk sk :=
    let* r := rand 32 in let* _ := write sk r in let* _ := write pk (fit 32 r) in ret 0;
  crypto_kx_client_session_keys rx tx cpk csk spk :=
    let* cpkb := read cpk 32 in
    let* cskb := read csk 32 in
    let* spkb := read spk 32 in
    match shared spkb cskb with
    | None => ret (-1)
    | Some q =>
      let* _ := write rx (take 32 (khash q cpkb spkb)) in
      let* _ := write tx (drop 32 (khash q cpkb spkb)) in ret 0
    end;
  crypto_kx_server_session_keys rx tx spk ssk cpk :=
    let* spkb := read spk 32 in
    let* sskb := read ssk 32 in
    let* cpkb := read cpk 32 in
    match shared cpkb sskb with
    | None => ret (-1)
    | Some q =>
      let* _ := write tx (take 32 (khash q cpkb spkb)) in
      let* _ := write rx (drop 32 (khash q cpkb spkb)) in ret 0
    end
|}.

Lemma shared_fit_sym a b : shared (fit 32 a) b = shared (fit 32 b) a.
Proof.
  unfold shared. assert (Hf : forall c, fit 32 (fit 32 c) = fit 32 c).
  { intros c. unfold fit. rewrite le_val_le_bytes. apply (le_bytes_mod 32). }
  rewrite !Hf. do 2 case_decide; try tauto. do 2 f_equal. apply Z.add_comm.
Qed.

#[refine] Definition kx_doc : KxDoc kx_externs := {|
  kx_seeded := fit 32; kx_public := fit 32; kx_shared := shared; kx_hash := khash
|}.
Proof.
  - intros. apply (zlen_le_bytes 32).
  - intros. apply (zlen_le_bytes 32).
  - intros. unfold khash. by rewrite zlen_app, !zlen_le_bytes.
  - reflexivity.
  - reflexivity.
  - reflexivity.
  - reflexivity.
Defined.

Definition kx_agree : KxAgreement kx_externs kx_doc := shared_fit_sym.

Definition subkey (k c : bytes) (i n : Z) : bytes :=
  le_bytes (Z.to_nat n) (le_val k + le_val c + i * 1000003).

Definition kdf_externs : KdfExterns := {|
  crypto_kdf_blake2b_derive_from_key sub len i ctx key :=
    if (len <? 16) || (64 <? len) then ret (-1)
    else
      let* cb := read ctx 8 in
      let* kb := read key 32 in
      let* _ := write sub (subkey kb cb i len) in
      ret 0
|}.

#[refine] Definition kdf_doc : KdfDoc kdf_externs := {| kdf_subkey := subkey |}.
Proof.
  - intros. unfold subkey. rewrite zlen_le_bytes. lia.
  - reflexivity.
Defined.

Definition w : world := Ref.world [replicate 32 x11; replicate 32 x22; zeros 20; zeros 65].

End RefKeys.

(** ** Properties *)

(** The two parties make their key pairs and compute their session keys from
    the public key of the other. *)
Definition kx_session `{KxExterns} `{UtilsExterns} (client_seed server_seed : ptr)
    : M (result (bytes * bytes) * result (bytes * bytes)) :=
  let* '(cpkb, cskb) := kx.keypair_from_seed client_seed in
  let* '(spkb, sskb) := kx.keypair_from_seed server_seed in
  let* cpk := place cpkb in
  let* csk := place cskb in
  let* spk := place spkb in
  let* ssk := place sskb in
  let* c := kx.client_session_keys (At cpk 0) (At csk 0) (At spk 0) in
  let* s := kx.server_session_keys (At spk 0) (At ssk 0) (At cpk 0) in
  ret (c, s).

(** What one party receives with, the other sends with. *)
Definition opposite (r : result (bytes * bytes)) : result (bytes * bytes) :=
  match r with Ok (rx, tx) => Ok (tx, rx) | Err => Err end.

(** C37. Key exchange: the client and the server get the same two session keys
    with the roles of receiving and sending exchanged, or both fail, in which
    case the buffers of the session keys are zeroed before they are released. *)
Theorem kx_agreement `{T : Target} `{E : KxExterns} {D : KxDoc E} {A : KxAgreement E D} `{U : UtilsExterns} {UD : UtilsDoc U}
    w cseed sseed a b
    (Hc : is_ref w cseed 32 a) (Hs : is_ref w sseed 32 b) :
  exists c w', kx_session cseed sseed w = Done (c, opposite c) w' /\
    match c with
    | Ok (rx, tx) => zlen rx = kx.SESSIONKEYBYTES /\ zlen tx = kx.SESSIONKEYBYTES /\ w_env w' = w_env w
    | Err => e_dropped (w_env w') = replicate 4 (Some <$> zeros kx.SESSIONKEYBYTES) ++ e_dropped (w_env w)
    end.
Proof.
  set (csk := kx_seeded a). set (ssk := kx_seeded b).
  pose proof (kx_public_zlen csk) as Hl1. pose proof (kx_public_zlen ssk) as Hl2.
  pose proof (kx_seeded_zlen a) as Hl3. pose proof (kx_seeded_zlen b) as Hl4. fold csk in Hl3. fold ssk in Hl4.
  unfold kx_session.
  rewrite (bind_done _ _ _ _ _ (kx_keypair_from_seed_run w cseed a Hc)). cbv beta iota.
  rewrite (bind_done _ _ _ _ _ (kx_keypair_from_seed_run w sseed b Hs)). cbv beta iota.
  fold csk ssk. do 4 place_step. set (w4 := w_put b3 _ _).
  assert (Hcpk : is_ref w4 (At b0 0) 32 (kx_public csk)) by (split; [unfold w4; mem_tac|done]).
  assert (Hcsk : is_ref w4 (At b1 0) 32 csk) by (split; [unfold w4; mem_tac|done]).
  assert (Hspk : is_ref w4 (At b2 0) 32 (kx_public ssk)) by (split; [unfold w4; mem_tac|done]).
  assert (Hssk : is_ref w4 (At b3 0) 32 ssk) by (split; [unfold w4; mem_tac|done]).
  unfold bind. rewrite (client_session_keys_run w4 _ _ _ _ _ _ Hcpk Hcsk Hspk).
  rewrite (kx_shared_sym ssk csk). destruct (kx_shared (kx_public csk) ssk) as [q|] eqn:Eq.
  - rewrite (server_session_keys_run w4 _ _ _ _ _ _ Hspk Hssk Hcpk), Eq.
    destruct (kx_hash_halves q (kx_public csk) (kx_public ssk)). by eexists (Ok (_, _)), _.
  - rewrite (server_session_keys_run (w_wiped w4) _ _ _ (kx_public ssk) ssk (kx_public csk))
      by (by apply is_ref_wiped). rewrite Eq. by eexists Err, _.
Qed.

Lemma kx_agreement_witness :
  exists c w', @kx_session RefKeys.kx_externs Ref.utils (At 1 0) (At 2 0) RefKeys.w = Done (c, opposite c) w' /\
    match c with
    | Ok (rx, tx) => zlen rx = 32 /\ zlen tx = 32 /\ w_env w' = w_env RefKeys.w
    | Err => e_dropped (w_env w') = replicate 4 (Some <$> zeros 32) ++ e_dropped (w_env RefKeys.w)
    end.
Proof.
  apply (@kx_agreement target64 RefKeys.kx_externs RefKeys.kx_doc RefKeys.kx_agree Ref.utils Ref.utils_doc RefKeys.w
    (At 1 0) (At 2 0) (replicate 32 x11) (replicate 32 x22)); Ref.concrete.
Defined.

(** [derive_from_key()] fills buffers of [BYTES_MIN] to [BYTES_MAX] bytes
    with the subkey of exactly that length and writes nothing else; every
    other length is an error and leaves memory alone. *)
Theorem kdf_spec `{T : Target} `{E : KdfExterns} {D : KdfDoc E} w subkey i ctx key sb kb
    (Hs : is_slice w subkey sb) (Hc : zlen ctx = kdf.CONTEXTBYTES) (Hk : is_ref w key kdf.KEYBYTES kb) :
  if decide (kdf.BYTES_MIN <= zlen sb <= kdf.BYTES_MAX) then
    exists d w', kdf.derive_from_key subkey i ctx key w = Done (Ok tt) w' /\
      d = kdf_subkey kb ctx i (zlen sb) /\ is_slice w' subkey d /\ w' = w_write (s_ptr subkey) d w
  else kdf.derive_from_key subkey i ctx key w = Done Err w.
Proof.
  rewrite (derive_from_key_run w subkey i ctx key sb kb) by done.
  change kdf.BYTES_MIN with 16. change kdf.BYTES_MAX with 64. case_decide; [|done].
  eexists _, _. split_and!; [done..| |done].
  apply (is_slice_write_same w subkey sb); [done|]. apply kdf_subkey_zlen. lia.
Qed.

Lemma kdf_spec_witness :
  @kdf.derive_from_key RefKeys.kdf_externs (Slice (At 4 0) 65) 1 (zeros 8) (At 1 0) RefKeys.w = Done Err RefKeys.w /\
  exists d w', @kdf.derive_from_key RefKeys.kdf_externs (Slice (At 3 0) 20) 1 (zeros 8) (At 1 0) RefKeys.w
      = Done (Ok tt) w' /\ d = RefKeys.subkey (replicate 32 x11) (zeros 8) 1 20 /\
    @is_slice target64 w' (Slice (At 3 0) 20) d /\ w' = w_write (At 3 0) d RefKeys.w.
Proof.
  pose proof (fun s => @kdf_spec target64 RefKeys.kdf_externs RefKeys.kdf_doc RefKeys.w s 1 (zeros 8)
    (At 1 0)) as Hs.
  split.
  - apply (Hs (Slice (At 4 0) 65) (zeros 65) (replicate 32 x11)); Ref.concrete.
  - apply (Hs (Slice (At 3 0) 20) (zeros 20) (replicate 32 x11)); Ref.concrete.
Defined.
