(* ===== verification/Padding.v ===== *)
(** * src/padding.rs: ISO/IEC 7816-4 padding

    [pad()], [unpad()], the padding itself ([xpadlen], [pad_count]) and what
    libsodium documents of the two functions ([PadDoc]). *)

From S2P Require Export Primitives.

Module padding.

Section Functions.
Context `{E : PadExterns}.

Definition pad (buf : slice) (unpadded_buflen blocksize : Z) : M (result Z) :=
  let* '(rc, padded_buflen) := sodium_pad 0 (s_ptr buf) unpadded_buflen blocksize (s_len buf) in
  if 0 =? rc then ret (Ok padded_buflen) else ret Err.

Definition unpad (buf : slice) (padded_buflen blocksize : Z) : M (result Z) :=
  let* '(rc, unpadded_buflen) := sodium_unpad 0 (s_ptr buf) padded_buflen blocksize in
  if 0 =? rc then ret (Ok unpadded_buflen) else ret Err.

End Functions.

End padding.

(** ** Documented behaviour

    The padding of a message is the byte 0x80 and as many zero bytes as bring
    the length to a multiple of the block size. *)

(** The number of zero bytes of the padding *)
Definition xpadlen (unpadded blocksize : Z) : Z := blocksize - 1 - unpadded mod blocksize.

(** The length of the padding at the end of a block, which is read backwards *)
Fixpoint pad_count (rev_block : bytes) : option Z :=
  match rev_block with
  | x00 :: r => match pad_count r with Some k => Some (1 + k) | None => None end
  | x80 :: _ => Some 1
  | _ => None
  end.

(** The two functions look at the last block of the padded buffer.  Sizes that
    overflow are a misuse.  What [sodium_unpad] stores when it fails is a
    parameter. *)
Class PadDoc `{Target} (E : PadExterns) := {
  unpad_reject : Z -> bytes -> Z;
  sodium_pad_doc l buf ulen bs max :
    sodium_pad l buf ulen bs max =
      let xpad := xpadlen ulen bs in
      if bs <=? 0 then ret (-1, l)
      else if usize_max - ulen <=? xpad then abort
      else if max <=? ulen + xpad then ret (-1, l)
      else
        let* _ := read (ptr_add buf (ulen + xpad + 1 - bs)) bs in
        let* _ := write (ptr_add buf ulen) (x80 :: zeros xpad) in
        ret (0, ulen + xpad + 1);
  sodium_unpad_doc l buf plen bs :
    sodium_unpad l buf plen bs =
      if (plen <? bs) || (bs <=? 0) then ret (-1, l)
      else
        let* block := read (ptr_add buf (plen - bs)) bs in
        match pad_count (rev block) with
        | Some k => ret (0, plen - k)
        | None => ret (-1, unpad_reject plen block)
        end
}.

Lemma xpadlen_range u bs : 0 <= u -> 0 < bs -> 0 <= xpadlen u bs < bs.
Proof. intros. unfold xpadlen. pose proof (Z.mod_pos_bound u bs). lia. Qed.

(** The padded length is the next multiple of the block size. *)
Lemma padded_multiple u bs : 0 < bs -> u + xpadlen u bs + 1 = (u / bs + 1) * bs.
Proof. intros. unfold xpadlen. pose proof (Z.div_mod u bs). nia. Qed.

Lemma pad_count_padding n r : 0 <= n -> pad_count (zeros n ++ x80 :: r) = Some (n + 1).
Proof.
  intros Hn. unfold zeros. rewrite <- (Z2Nat.id n) at 2 by done.
  induction (Z.to_nat n) as [|k IH]; [done|]. cbn. rewrite IH. f_equal. lia.
Qed.

Lemma rev_zeros n : rev (zeros n) = zeros n.
Proof.
  unfold zeros. induction (Z.to_nat n) as [|k IH]; [done|].
  cbn [replicate rev]. by rewrite IH, <- replicate_S_end.
Qed.

Lemma pad_count_block a n : 0 <= n -> pad_count (rev (a ++ x80 :: zeros n)) = Some (n + 1).
Proof.
  intros Hn. rewrite rev_app_distr. cbn [rev]. rewrite rev_zeros, <- !app_assoc.
  by apply pad_count_padding.
Qed.

(** What a block says is the length of its padding is within the block. *)
Lemma pad_count_range l k : pad_count l = Some k -> 1 <= k <= zlen l.
Proof.
  revert k. induction l as [|x l IH]; intros k; [done|]. pose proof (zlen_nonneg l).
  destruct x; cbn [pad_count]; try done; [|intros; simplify_eq; zlia].
  destruct (pad_count l) as [j|]; [|done]. intros; simplify_eq.
  pose proof (IH j eq_refl). zlia.
Qed.

(** ** What the wrappers do *)

Section PadFacts.
Context `{T : Target} `{E : PadExterns} {D : PadDoc E}.

(** [m] is the message, [r] the rest of the buffer. *)
Lemma pad_run w buf m r bs :
  is_slice w buf (m ++ r) -> 0 < bs <= usize_max ->
  padding.pad buf (zlen m) bs w =
    let xpad := xpadlen (zlen m) bs in
    if decide (zlen m + xpad < zlen (m ++ r))
    then Done (Ok (zlen m + xpad + 1)) (w_write (ptr_add (s_ptr buf) (zlen m)) (x80 :: zeros xpad) w)
    else if decide (usize_max - zlen m <= xpad) then Aborted
    else Done Err w.
Proof.
  intros (Hb & Hl & Hle) Hbs. unfold padding.pad. rewrite sodium_pad_doc. cbv zeta.
  pose proof (xpadlen_range (zlen m) bs (zlen_nonneg m)) as Hx. set (x := xpadlen (zlen m) bs) in *.
  pose proof (padded_multiple (zlen m) bs) as Hp. fold x in Hp. rewrite Hl.
  pose proof usize_max_isize. pose proof (zlen_nonneg m).
  rewrite (proj2 (Z.leb_gt bs 0)) by lia. case_decide as Hd.
  - rewrite (proj2 (Z.leb_gt _ _)) by lia. rewrite (proj2 (Z.leb_gt _ _)) by lia.
    assert (Hn : 0 <= zlen m / bs) by (apply Z.div_pos; lia).
    set (n := zlen m + x + 1). assert (Hnb : bs <= n) by (unfold n; nia).
    pose proof (take_drop (Z.to_nat (n - bs)) (m ++ r)) as Hsplit.
    assert (Ht : zlen (take (Z.to_nat (n - bs)) (m ++ r)) = n - bs) by (apply zlen_take; lia).
    eapply bind_step.
    { eapply bind_step.
      { rewrite <- Ht. apply (read_run _ _ _ (take (Z.to_nat bs) (drop (Z.to_nat (n - bs)) (m ++ r)))).
        - eapply bytes_at_app_l, bytes_at_app_r. rewrite take_drop, Hsplit. exact Hb.
        - apply zlen_take. rewrite zlen_drop; lia. }
      eapply bind_step; [|reflexivity].
      apply write_run, (in_range_bytes _ _ (take (Z.to_nat (1 + x)) r)).
      - eapply bytes_at_app_l. apply bytes_at_app_r. rewrite take_drop. exact Hb.
      - rewrite zlen_take; [|rewrite zlen_app in Hd; lia]. rewrite zlen_cons, zlen_zeros; lia. }
    done.
  - destruct (Z.leb_spec (usize_max - zlen m) x); [by rewrite decide_True|].
    rewrite decide_False by lia. by rewrite (proj2 (Z.leb_le _ _)) by lia.
Qed.

Lemma pad_zero_block w buf n : padding.pad buf n 0 w = Done Err w.
Proof. unfold padding.pad. by rewrite sodium_pad_doc. Qed.

Lemma unpad_run w buf bb r n bs :
  is_slice w buf (bb ++ r) -> zlen bb = n -> 0 <= bs <= n ->
  padding.unpad buf n bs w =
    Done (if decide (0 < bs) then
            match pad_count (rev (drop (Z.to_nat (n - bs)) bb)) with Some k => Ok (n - k) | None => Err end
          else Err) w.
Proof.
  intros (Hb & Hl & Hle) Hn Hbs. unfold padding.unpad. rewrite sodium_unpad_doc.
  rewrite (proj2 (Z.ltb_ge n bs)) by lia. cbn [orb].
  case_decide as Hd; [|by rewrite (proj2 (Z.leb_le _ _)) by lia].
  rewrite (proj2 (Z.leb_gt _ _)) by lia.
  pose proof (take_drop (Z.to_nat (n - bs)) bb) as Hsplit.
  assert (Ht : zlen (take (Z.to_nat (n - bs)) bb) = n - bs) by (apply zlen_take; lia).
  rewrite bind_assoc. eapply bind_step.
  - rewrite <- Ht at 1. apply (read_run _ _ _ (drop (Z.to_nat (n - bs)) bb)).
    + apply bytes_at_app_r. rewrite Hsplit. by eapply bytes_at_app_l.
    + rewrite zlen_drop; lia.
  - by destruct (pad_count _).
Qed.

Lemma unpad_short w buf n bs : n < bs -> padding.unpad buf n bs w = Done Err w.
Proof.
  intros Hn. unfold padding.unpad. rewrite sodium_unpad_doc. by rewrite (proj2 (Z.ltb_lt n bs)).
Qed.

End PadFacts.

(** ** A reference implementation *)

Module RefPad.

Definition externs : PadExterns := {|
  sodium_pad l buf ulen bs max :=
    let xpad := xpadlen ulen bs in
    if bs <=? 0 then ret (-1, l)
    else if @usize_max target64 - ulen <=? xpad then abort
    else if max <=? ulen + xpad then ret (-1, l)
    else
      let* _ := read (ptr_add buf (ulen + xpad + 1 - bs)) bs in
      let* _ := write (ptr_add buf ulen) (x80 :: zeros xpad) in
      ret (0, ulen + xpad + 1);
  sodium_unpad l buf plen bs :=
    if (plen <? bs) || (bs <=? 0) then ret (-1, l)
    else
      let* block := read (ptr_add buf (plen - bs)) bs in
      match pad_count (rev block) with
      | Some k => ret (0, plen - k)
      | None => ret (-1, 0)
      end
|}.

#[refine] Definition doc : @PadDoc target64 externs := {| unpad_reject _ _ := 0 |}.
Proof. all: reflexivity. Defined.

Definition msg : bytes := [x61; x62; x63].
Definition w : world := Ref.world [msg ++ replicate 13 xff].
Definition buf : slice := Slice (At 1 0) 16.

End RefPad.

(** ** Properties *)

Definition pad_unpad `{PadExterns} (buf : slice) (len blocksize : Z) : M (result Z) :=
  let* r := padding.pad buf len blocksize in
  match r with Ok n => padding.unpad buf n blocksize | Err => ret Err end.

(** C34. When the padded message fits into the buffer, [pad()] returns the next
    multiple of the block size above the length, the message, the padding and
    the rest of the buffer are then in the buffer, and [unpad()] returns the
    length of the message; when it does not fit, [pad()] is an error that
    writes nothing. *)
Theorem pad_roundtrip `{T : Target} `{E : PadExterns} {D : PadDoc E} w buf m r bs
    (Hb : is_slice w buf (m ++ r)) (Hbs : 0 < bs <= isize_max) :
  let n := (zlen m / bs + 1) * bs in
  if decide (n <= zlen (m ++ r)) then
    exists w', padding.pad buf (zlen m) bs w = Done (Ok n) w' /\
      is_slice w' buf (m ++ [x80] ++ zeros (n - zlen m - 1) ++ drop (Z.to_nat (n - zlen m)) r) /\
      pad_unpad buf (zlen m) bs w = Done (Ok (zlen m)) w'
  else padding.pad buf (zlen m) bs w = Done Err w.
Proof.
  intros n. pose proof (xpadlen_range (zlen m) bs (zlen_nonneg m)) as Hx.
  pose proof (padded_multiple (zlen m) bs) as Hp. fold n in Hp. set (x := xpadlen _ bs) in *.
  pose proof usize_max_isize. destruct (Hb) as (Hbb & Hl & Hle).
  assert (Hrun := pad_run w buf m r bs Hb ltac:(lia)). cbv zeta in Hrun. fold x in Hrun.
  assert (Hlm : zlen m <= isize_max) by (rewrite zlen_app in Hle; pose proof (zlen_nonneg r); lia).
  destruct (decide (n <= zlen (m ++ r))) as [Hd|Hd].
  - rewrite decide_True in Hrun by lia. rewrite Hp in Hrun by lia.
    replace (n - zlen m - 1) with x by lia. replace (n - zlen m) with (1 + x) by lia.
    set (p := x80 :: zeros x) in *. change ([x80] ++ zeros x ++ ?c) with (p ++ c).
    assert (Hpl : zlen p = 1 + x) by (unfold p; rewrite zlen_cons, zlen_zeros; lia).
    set (c := drop (Z.to_nat (1 + x)) r).
    assert (Hr : r = take (Z.to_nat (1 + x)) r ++ c) by (symmetry; apply take_drop).
    assert (Hw : is_slice (w_write (ptr_add (s_ptr buf) (zlen m)) p w) buf (m ++ p ++ c)).
    { rewrite zlen_app in Hd. assert (Hc : zlen c = zlen r - (1 + x)) by (apply zlen_drop; lia).
      split; [|rewrite !zlen_app in *; lia]. eapply bytes_at_write_sub.
      - rewrite <- Hr. exact Hbb.
      - pose proof (zlen_take (1 + x) r). unfold zlen in *. lia. }
    eexists. split_and!; [done|done|]. unfold pad_unpad. rewrite (bind_done _ _ _ _ _ Hrun).
    rewrite app_assoc in Hw. rewrite (unpad_run _ buf (m ++ p) c n bs Hw).
    + rewrite decide_True by lia.
      assert (Hnb : n - bs <= zlen m) by (rewrite <- Hp by lia; lia).
      assert (0 <= n - bs) by (unfold n; pose proof (Z.div_pos (zlen m) bs (zlen_nonneg m)); nia).
      rewrite drop_app_le by (unfold zlen in Hnb; lia). unfold p.
      rewrite pad_count_block by lia. do 2 f_equal. lia.
    + rewrite zlen_app. lia.
    + unfold n. pose proof (Z.div_pos (zlen m) bs (zlen_nonneg m)). nia.
  - rewrite decide_False in Hrun by lia. rewrite Hrun. rewrite decide_False by lia. done.
Qed.

Lemma pad_roundtrip_witness :
  exists w', @padding.pad RefPad.externs RefPad.buf 3 8 RefPad.w = Done (Ok 8) w' /\
    @is_slice target64 w' RefPad.buf (RefPad.msg ++ [x80] ++ zeros 4 ++ replicate 8 xff) /\
    @pad_unpad RefPad.externs RefPad.buf 3 8 RefPad.w = Done (Ok 3) w'.
Proof.
  apply (@pad_roundtrip target64 RefPad.externs RefPad.doc RefPad.w RefPad.buf RefPad.msg
    (replicate 13 xff) 8); Ref.concrete.
Defined.

(** C38. Every branch of [unpad()] on a whole allocation: an empty block size or
    one above the given length is an error; within the buffer, the last block
    decides; but the given length is not compared with the length of the
    slice, and above it the last block is read out of bounds. *)
Theorem unpad_spec `{T : Target} `{E : PadExterns} {D : PadDoc E} w b bb n bs
    (Hb : w_mem w !! b = Some (Some <$> bb)) (Hl : zlen bb <= isize_max) (Hbs : 0 <= bs) :
  padding.unpad (Slice (At b 0) (zlen bb)) n bs w =
    if decide (bs = 0 \/ n < bs) then Done Err w
    else if decide (n <= zlen bb) then
      Done (match pad_count (rev (drop (Z.to_nat (n - bs)) (take (Z.to_nat n) bb))) with
            | Some k => Ok (n - k) | None => Err
            end) w
    else UB OutOfBounds.
Proof.
  case_decide as Hd.
  - destruct (decide (n < bs)); [by apply unpad_short|]. assert (bs = 0) as -> by lia.
    unfold padding.unpad. rewrite sodium_unpad_doc. by rewrite orb_true_r.
  - case_decide as Hn.
    + rewrite (unpad_run w _ (take (Z.to_nat n) bb) (drop (Z.to_nat n) bb) n bs).
      * by rewrite decide_True by lia.
      * rewrite take_drop. split; [|done]. cbn [s_ptr].
        rewrite <- (w_put_id b (Some <$> bb) w Hb). apply bytes_at_put_same.
      * apply zlen_take. lia.
      * lia.
    + unfold padding.unpad. rewrite sodium_unpad_doc. rewrite (proj2 (Z.ltb_ge n bs)) by lia.
      rewrite (proj2 (Z.leb_gt _ _)) by lia. cbn [orb s_ptr]. unfold bind, read, read_cells. cbn [ptr_add].
      destruct (Z.to_nat bs) as [|k] eqn:Ek; [lia|]. rewrite Hb.
      rewrite decide_False; [done|]. rewrite length_fmap. unfold zlen in Hn. lia.
Qed.

Lemma unpad_spec_witness :
  @padding.unpad RefPad.externs RefPad.buf 24 8 RefPad.w = UB OutOfBounds.
Proof.
  change RefPad.buf with (Slice (At 1 0) (zlen (RefPad.msg ++ replicate 13 xff))).
  rewrite (@unpad_spec target64 RefPad.externs RefPad.doc RefPad.w 1 (RefPad.msg ++ replicate 13 xff) 24 8);
    [reflexivity|reflexivity|vm_compute; done|done].
Defined.
