(* ===== verification/Codec.v ===== *)
(** * src/hex.rs, src/base64.rs: text encodings

    The two formats are defined here (lower-case hexadecimal; the four variants
    of RFC 4648 Base64) and proved invertible; libsodium's functions are
    assumed to compute them. *)

From S2P Require Export Primitives.

(** ** The wrappers *)

Module hex.

Section Functions.
Context `{T : Target} `{E : CodecExterns}.

Definition encoded_len (len : Z) : option Z :=
  match checked_mul len 2 with Some n => checked_add n 1 | None => None end.

Definition encode (bin : slice) : M vec :=
  match encoded_len (s_len bin) with
  | None => panic
  | Some n =>
    let* hex := vec_zeroed n in
    let* _ := sodium_bin2hex (v_ptr hex) (v_len hex) (s_ptr bin) (s_len bin) in
    ret (vec_pop hex)
  end.

Definition decoded_len (len : Z) : result Z :=
  if negb (len mod 2 =? 0) then Err else Ok (len / 2).

Definition decode (hex : slice) : M (result vec) :=
  match decoded_len (s_len hex) with
  | Err => ret Err
  | Ok n =>
    let* bin := vec_zeroed n in
    let* '(rc, bin_len) :=
      sodium_hex2bin (v_ptr bin) (v_len bin) (s_ptr hex) (s_len hex) Null 0 Null in
    if negb (rc =? 0) then let* _ := vec_drop bin in ret Err
    else ret (Ok (vec_truncate bin bin_len))
  end.

End Functions.

End hex.

Module base64.

Inductive Variant := Original | OriginalNoPadding | UrlSafe | UrlSafeNoPadding.

#[global] Instance Variant_eq_dec : EqDecision Variant.
Proof. solve_decision. Defined.

(** [variant as u32] *)
Definition Variant_as_u32 (v : Variant) : Z :=
  match v with
  | Original => sodium_base64_VARIANT_ORIGINAL
  | OriginalNoPadding => sodium_base64_VARIANT_ORIGINAL_NO_PADDING
  | UrlSafe => sodium_base64_VARIANT_URLSAFE
  | UrlSafeNoPadding => sodium_base64_VARIANT_URLSAFE_NO_PADDING
  end.

Section Functions.
Context `{T : Target} `{E : CodecExterns}.

Definition encode (bin : slice) (variant : Variant) : M vec :=
  let* encoded_len := sodium_base64_encoded_len (s_len bin) (Variant_as_u32 variant) in
  let* b64 := vec_zeroed encoded_len in
  let* _ := sodium_bin2base64 (v_ptr b64) (v_len b64) (s_ptr bin) (s_len bin) (Variant_as_u32 variant) in
  ret (vec_pop b64).

Definition decoded_len (b64_len : Z) : option Z :=
  match checked_mul (b64_len / 4) 3 with
  | None => None
  | Some len => if negb (b64_len mod 4 =? 0) then checked_add len 3 else Some len
  end.

Definition decode (b64 : slice) (variant : Variant) : M (result vec) :=
  match decoded_len (s_len b64) with
  | None => ret Err
  | Some n =>
    let* bin := vec_zeroed n in
    let* '(rc, bin_len) :=
      sodium_base642bin (v_ptr bin) (v_len bin) (s_ptr b64) (s_len b64) Null 0 Null
        (Variant_as_u32 variant) in
    if negb (rc =? 0) then let* _ := vec_drop bin in ret Err
    else ret (Ok (vec_truncate bin bin_len))
  end.

End Functions.

End base64.

(** ** Hexadecimal *)

Definition hex_digit (d : Z) : byte := byte_of_Z (if d <? 10 then 48 + d else 87 + d).

Definition hex_val (c : byte) : option Z :=
  let z := byte_val c in
  if (48 <=? z) && (z <=? 57) then Some (z - 48)
  else if (97 <=? z) && (z <=? 102) then Some (z - 87)
  else if (65 <=? z) && (z <=? 70) then Some (z - 55)
  else None.

Fixpoint hex_enc (bs : bytes) : bytes :=
  match bs with
  | [] => []
  | b :: bs => hex_digit (byte_val b / 16) :: hex_digit (byte_val b mod 16) :: hex_enc bs
  end.

Fixpoint hex_dec (s : bytes) : option bytes :=
  match s with
  | [] => Some []
  | [_] => None
  | a :: b :: s =>
    match hex_val a, hex_val b, hex_dec s with
    | Some x, Some y, Some bs => Some (byte_of_Z (16 * x + y) :: bs)
    | _, _, _ => None
    end
  end.

Lemma hex_val_digit d : 0 <= d < 16 -> hex_val (hex_digit d) = Some d.
Proof.
  intros Hd. unfold hex_val, hex_digit. rewrite byte_val_of_Z.
  destruct (Z.ltb_spec d 10); rewrite Z.mod_small by lia;
    repeat (case_match; try lia); f_equal; lia.
Qed.

Lemma hex_dec_enc bs : hex_dec (hex_enc bs) = Some bs.
Proof.
  induction bs as [|b bs IH]; [done|]. cbn [hex_enc hex_dec]. pose proof (byte_val_range b).
  rewrite !hex_val_digit by (split; [try apply Z.div_pos; try apply Z.mod_pos_bound; lia|];
    try apply Z.div_lt_upper_bound; try apply Z.mod_pos_bound; lia).
  rewrite IH. do 2 f_equal. rewrite <- Z.div_mod by lia. apply byte_of_Z_val.
Qed.

Lemma hex_enc_zlen bs : zlen (hex_enc bs) = 2 * zlen bs.
Proof. induction bs as [|b bs IH]; cbn [hex_enc]; zlia. Qed.

Lemma hex_dec_zlen s bs : hex_dec s = Some bs -> zlen s = 2 * zlen bs.
Proof.
  revert bs. induction s as [s IH] using (induction_ltof1 _ (@length byte)). unfold ltof in IH.
  intros bs. destruct s as [|a [|b s]]; cbn [hex_dec]; intros Hs; simplify_eq; [done|].
  repeat (case_match; try done). simplify_eq.
  specialize (IH s ltac:(cbn; lia) _ ltac:(eassumption)). zlia.
Qed.

(** What the encoder writes is ASCII. *)
Lemma hex_enc_ascii bs : Forall (fun c => byte_val c < 128) (hex_enc bs).
Proof.
  induction bs as [|b bs IH]; cbn [hex_enc]; [done|]. pose proof (byte_val_range b).
  assert (Hd : forall d, 0 <= d < 16 -> byte_val (hex_digit d) < 128).
  { intros d ?. unfold hex_digit. rewrite byte_val_of_Z.
    destruct (Z.ltb_spec d 10); rewrite Z.mod_small; lia. }
  repeat constructor; [apply Hd..|done].
  - split; [apply Z.div_pos; lia|apply Z.div_lt_upper_bound; lia].
  - apply Z.mod_pos_bound. lia.
Qed.

(** ** Base64 *)

Section Base64.
Context (v : base64.Variant).

Definition b64_padded : bool :=
  match v with base64.Original | base64.UrlSafe => true | _ => false end.

(** The characters 62 and 63 of the alphabet *)
Definition b64_62 : byte :=
  match v with base64.Original | base64.OriginalNoPadding => x2b | _ => x2d end.
Definition b64_63 : byte :=
  match v with base64.Original | base64.OriginalNoPadding => x2f | _ => x5f end.

Definition b64_char (i : Z) : byte :=
  if i <? 26 then byte_of_Z (65 + i)
  else if i <? 52 then byte_of_Z (71 + i)
  else if i <? 62 then byte_of_Z (i - 4)
  else if i =? 62 then b64_62 else b64_63.

Definition b64_val (c : byte) : option Z :=
  let z := byte_val c in
  if (65 <=? z) && (z <=? 90) then Some (z - 65)
  else if (97 <=? z) && (z <=? 122) then Some (z - 71)
  else if (48 <=? z) && (z <=? 57) then Some (z + 4)
  else if bool_decide (c = b64_62) then Some 62
  else if bool_decide (c = b64_63) then Some 63
  else None.

(** The digits of a byte sequence, four for three bytes *)
Fixpoint b64_digits (bs : bytes) : list Z :=
  match bs with
  | [] => []
  | [a] => let a := byte_val a in [a / 4; (a mod 4) * 16]
  | [a; b] =>
    let a := byte_val a in let b := byte_val b in
    [a / 4; (a mod 4) * 16 + b / 16; (b mod 16) * 4]
  | a :: b :: c :: bs =>
    let a := byte_val a in let b := byte_val b in let c := byte_val c in
    a / 4 :: (a mod 4) * 16 + b / 16 :: (b mod 16) * 4 + c / 64 :: c mod 64 :: b64_digits bs
  end.

(** The bytes of a digit sequence; the bits left over must be zero. *)
Fixpoint b64_bytes (ds : list Z) : option bytes :=
  match ds with
  | [] => Some []
  | [_] => None
  | [i; j] => if j mod 16 =? 0 then Some [byte_of_Z (i * 4 + j / 16)] else None
  | [i; j; k] =>
    if k mod 4 =? 0
    then Some [byte_of_Z (i * 4 + j / 16); byte_of_Z ((j mod 16) * 16 + k / 4)] else None
  | i :: j :: k :: l :: ds =>
    match b64_bytes ds with
    | Some bs =>
      Some (byte_of_Z (i * 4 + j / 16) :: byte_of_Z ((j mod 16) * 16 + k / 4) ::
            byte_of_Z ((k mod 4) * 64 + l) :: bs)
    | None => None
    end
  end.

(** The number of [=] that completes [n] digits *)
Definition b64_pads (n : nat) : nat := if b64_padded then (3 - (n + 3) mod 4)%nat else O.

Definition b64_enc (bs : bytes) : bytes :=
  let ds := b64_digits bs in (b64_char <$> ds) ++ replicate (b64_pads (length ds)) x3d.

(** The longest prefix of digits, and the rest *)
Fixpoint b64_scan (s : bytes) : list Z * bytes :=
  match s with
  | [] => ([], [])
  | c :: s' =>
    match b64_val c with
    | Some d => let '(ds, r) := b64_scan s' in (d :: ds, r)
    | None => ([], s)
    end
  end.

Definition b64_dec (s : bytes) : option bytes :=
  let '(ds, r) := b64_scan s in
  if bool_decide (r = replicate (b64_pads (length ds)) x3d) then b64_bytes ds else None.

End Base64.

(** The 64 digits, checked one by one *)
Lemma b64_alphabet v :
  forallb (fun i => bool_decide (b64_val v (b64_char v i) = Some i) && (byte_val (b64_char v i) <? 128))
    (Z.of_nat <$> seq 0 64) = true.
Proof. destruct v; vm_compute; reflexivity. Qed.

Lemma b64_char_spec v i :
  0 <= i < 64 -> b64_val v (b64_char v i) = Some i /\ byte_val (b64_char v i) < 128.
Proof.
  intros Hi. pose proof (b64_alphabet v) as Ha. rewrite forallb_forall in Ha.
  specialize (Ha i). rewrite andb_true_iff, bool_decide_eq_true, Z.ltb_lt in Ha. apply Ha.
  apply list_elem_of_In, list_elem_of_fmap. exists (Z.to_nat i). split; [lia|]. apply elem_of_seq. lia.
Qed.

(** Three bytes at a time. *)
Lemma bytes3_ind (P : bytes -> Prop) :
  P [] -> (forall a, P [a]) -> (forall a b, P [a; b]) ->
  (forall a b c bs, P bs -> P (a :: b :: c :: bs)) -> forall bs, P bs.
Proof.
  intros H0 H1 H2 H3. fix IH 1. intros [|a [|b [|c bs]]]; [done|apply H1|apply H2|]. apply H3, IH.
Qed.

Lemma b64_digits_range bs : Forall (fun d => 0 <= d < 64) (b64_digits bs).
Proof.
  induction bs as [|a|a b|a b c bs IH] using bytes3_ind; cbn -[Z.mul Z.add Z.div Z.modulo];
    try pose proof (byte_val_range a); try pose proof (byte_val_range b);
    try pose proof (byte_val_range c);
    repeat (apply Forall_cons_2); try apply Forall_nil_2; try assumption;
    Z.to_euclidean_division_equations; lia.
Qed.

Lemma byte_of_Z_eq z x : z = byte_val x -> byte_of_Z z = x.
Proof. intros ->. apply byte_of_Z_val. Qed.

Lemma b64_bytes_digits bs : b64_bytes (b64_digits bs) = Some bs.
Proof.
  induction bs as [|a|a b|a b c bs IH] using bytes3_ind; cbn -[Z.mul Z.add Z.div Z.modulo Z.eqb]; [done| | |];
    try pose proof (byte_val_range a); try pose proof (byte_val_range b);
    try pose proof (byte_val_range c).
  - rewrite Z.mod_mul by lia. cbn [Z.eqb].
    by rewrite (byte_of_Z_eq _ a) by (Z.to_euclidean_division_equations; lia).
  - rewrite Z.mod_mul by lia. cbn [Z.eqb].
    by rewrite (byte_of_Z_eq _ a), (byte_of_Z_eq _ b) by (Z.to_euclidean_division_equations; lia).
  - rewrite IH. by rewrite (byte_of_Z_eq _ a), (byte_of_Z_eq _ b), (byte_of_Z_eq _ c)
      by (Z.to_euclidean_division_equations; lia).
Qed.

Lemma b64_digits_length bs : Z.of_nat (length (b64_digits bs)) = (4 * zlen bs + 2) / 3.
Proof.
  induction bs as [|a|a b|a b c bs IH] using bytes3_ind; [done..|].
  cbn [b64_digits length]. rewrite !Nat2Z.inj_succ, IH, !zlen_cons.
  Z.to_euclidean_division_equations; lia.
Qed.

Section Base64Facts.
Context (v : base64.Variant).

Lemma b64_scan_chars ds r :
  Forall (fun d => 0 <= d < 64) ds -> b64_scan v r = ([], r) ->
  b64_scan v ((b64_char v <$> ds) ++ r) = (ds, r).
Proof.
  intros Hd Hr. induction Hd as [|d ds Hd _ IH]; [done|]. cbn [fmap list_fmap app b64_scan].
  destruct (b64_char_spec v d Hd) as [-> _]. change (list_fmap _ _ (b64_char v) ds) with (b64_char v <$> ds).
  by rewrite IH.
Qed.

Lemma b64_dec_enc bs : b64_dec v (b64_enc v bs) = Some bs.
Proof.
  unfold b64_dec, b64_enc. rewrite b64_scan_chars.
  - rewrite bool_decide_eq_true_2 by done. apply b64_bytes_digits.
  - apply b64_digits_range.
  - destruct (b64_pads _ _); [done|]. cbn [replicate b64_scan]. by destruct v.
Qed.

Lemma b64_enc_ascii bs : Forall (fun c => byte_val c < 128) (b64_enc v bs).
Proof.
  unfold b64_enc. apply Forall_app_2.
  - apply Forall_fmap. eapply Forall_impl; [apply b64_digits_range|].
    intros d Hd. by apply b64_char_spec.
  - by apply Forall_replicate.
Qed.

(** The length libsodium computes, without the final NUL *)
Definition b64_encoded_len (n : Z) : Z := if b64_padded v then (n + 2) / 3 * 4 else (4 * n + 2) / 3.

Lemma b64_enc_zlen bs : zlen (b64_enc v bs) = b64_encoded_len (zlen bs).
Proof.
  unfold b64_enc, b64_encoded_len, b64_pads. rewrite zlen_app, zlen_fmap. unfold zlen at 1 2.
  rewrite length_replicate. pose proof (b64_digits_length bs) as Hl.
  destruct (b64_padded v); [|lia]. pose proof (zlen_nonneg bs).
  rewrite Nat2Z.inj_sub by (pose proof (Nat.mod_upper_bound (length (b64_digits bs) + 3) 4); lia).
  rewrite Nat2Z.inj_mod, Nat2Z.inj_add, Hl. Z.to_euclidean_division_equations; lia.
Qed.

Lemma b64_scan_length s ds r : b64_scan v s = (ds, r) -> length s = (length ds + length r)%nat.
Proof.
  revert ds r. induction s as [|c s IH]; cbn [b64_scan]; intros ds r Hs; [by simplify_eq|].
  destruct (b64_val v c); [|by simplify_eq].
  destruct (b64_scan v s) as [ds' r']. simplify_eq. cbn. by rewrite (IH _ _ eq_refl).
Qed.

Lemma digits4_ind (P : list Z -> Prop) :
  P [] -> (forall a, P [a]) -> (forall a b, P [a; b]) -> (forall a b c, P [a; b; c]) ->
  (forall a b c d ds, P ds -> P (a :: b :: c :: d :: ds)) -> forall ds, P ds.
Proof.
  intros H0 H1 H2 H3 H4. fix IH 1.
  intros [|a [|b [|c [|d ds]]]]; [done|apply H1|apply H2|apply H3|]. apply H4, IH.
Qed.

Lemma b64_bytes_length ds bs : b64_bytes ds = Some bs -> 4 * zlen bs <= 3 * zlen ds.
Proof.
  revert bs. induction ds as [|a|a b|a b c|a b c d ds IH] using digits4_ind;
    intros bs; cbn [b64_bytes]; intros Hs.
  - by simplify_eq.
  - done.
  - case_match; by simplify_eq.
  - case_match; by simplify_eq.
  - destruct (b64_bytes ds) as [cs|]; [|done]. simplify_eq.
    specialize (IH cs eq_refl). rewrite !zlen_cons. lia.
Qed.

(** Each character carries six bits at most. *)
Lemma b64_dec_zlen s bs : b64_dec v s = Some bs -> 4 * zlen bs <= 3 * zlen s.
Proof.
  unfold b64_dec. destruct (b64_scan v s) as [ds r] eqn:Es. case_bool_decide; [|done].
  intros Hb%b64_bytes_length. apply b64_scan_length in Es. unfold zlen in *. lia.
Qed.

End Base64Facts.

(** ** Documented behaviour

    Buffers that are too small for an encoder are a misuse; a decoder fails on
    them.  No [ignore] characters and no [end] pointer are passed: the whole
    input has to be valid.  What a failed call leaves in its output is a
    parameter. *)
Class CodecDoc `{Target} (E : CodecExterns) := {
  partial : bytes -> Z -> bytes;
  partial_len : bytes -> Z;
  partial_zlen s max : 0 <= max -> zlen (partial s max) <= max;
  sodium_bin2hex_doc hex maxlen bin n :
    sodium_bin2hex hex maxlen bin n =
      if (usize_max / 2 <=? n) || (maxlen <=? 2 * n) then abort
      else
        let* bb := read bin n in
        let* _ := write hex (hex_enc bb ++ [x00]) in
        ret hex;
  sodium_hex2bin_doc bin max hex n l :
    sodium_hex2bin bin max hex n Null l Null =
      let* s := read hex n in
      match hex_dec s with
      | Some bs =>
        if zlen bs <=? max then let* _ := write bin bs in ret (0, zlen bs)
        else let* _ := write bin (partial s max) in ret (-1, partial_len s)
      | None => let* _ := write bin (partial s max) in ret (-1, partial_len s)
      end;
  sodium_base64_encoded_len_doc n v :
    0 <= n <= isize_max ->
    sodium_base64_encoded_len n (base64.Variant_as_u32 v) = ret (b64_encoded_len v n + 1);
  sodium_bin2base64_doc b64 maxlen bin n v :
    sodium_bin2base64 b64 maxlen bin n (base64.Variant_as_u32 v) =
      if maxlen <=? b64_encoded_len v n then abort
      else
        let* bb := read bin n in
        let* _ := write b64 (b64_enc v bb ++ zeros (maxlen - zlen (b64_enc v bb))) in
        ret b64;
  sodium_base642bin_doc bin max b64 n l v :
    sodium_base642bin bin max b64 n Null l Null (base64.Variant_as_u32 v) =
      let* s := read b64 n in
      match b64_dec v s with
      | Some bs =>
        if zlen bs <=? max then let* _ := write bin bs in ret (0, zlen bs)
        else let* _ := write bin (partial s max) in ret (-1, partial_len s)
      | None => let* _ := write bin (partial s max) in ret (-1, partial_len s)
      end
}.

(** ** What the wrappers do *)

Section CodecFacts.
Context `{T : Target} `{E : CodecExterns} {D : CodecDoc E}.

(** The decoders share their end: the buffer of [n] bytes is filled, or
    released. *)
Definition decode_into (dec : option bytes) (s : bytes) (bin : vec) : M (result vec) :=
  let* '(rc, bin_len) :=
    match dec with
    | Some bs =>
      if zlen bs <=? v_len bin then let* _ := write (v_ptr bin) bs in ret (0, zlen bs)
      else let* _ := write (v_ptr bin) (partial s (v_len bin)) in ret (-1, partial_len s)
    | None => let* _ := write (v_ptr bin) (partial s (v_len bin)) in ret (-1, partial_len s)
    end in
  if negb (rc =? 0) then let* _ := vec_drop bin in ret Err
  else ret (Ok (vec_truncate bin bin_len)).

Lemma decode_into_run b w n dec s :
  w_mem w !! b = None -> 0 <= n -> (forall bs, dec = Some bs -> zlen bs <= n) ->
  match dec with
  | Some bs => decode_into dec s (Vec b n n) (w_put b (Some <$> zeros n) w) =
      Done (Ok (Vec b (zlen bs) n)) (w_put b (Some <$> bs ++ zeros (n - zlen bs)) w)
  | None => exists left, decode_into dec s (Vec b n n) (w_put b (Some <$> zeros n) w) =
      Done Err (w_with (env_drop left (w_env w)) w)
  end.
Proof.
  intros Hb Hn Hd. unfold decode_into. cbn [v_len]. unfold v_ptr. cbn [v_block].
  pose proof (partial_zlen s n Hn). destruct dec as [bs|].
  - specialize (Hd bs eq_refl). rewrite (proj2 (Z.leb_le _ _)) by done.
    unfold bind. rewrite write_prefix by lia. unfold ret. cbn [Z.eqb negb].
    by rewrite vec_truncate_run.
  - eexists. unfold bind. rewrite write_prefix by lia. unfold ret, vec_drop. cbn [Z.eqb negb v_block].
    by rewrite free_put_run.
Qed.

Lemma hex_encode_run w bin bb :
  is_slice w bin bb -> 2 * zlen bb + 1 <= isize_max ->
  hex.encode bin w =
    Done (Vec (fresh_block w) (2 * zlen bb) (2 * zlen bb + 1))
         (w_put (fresh_block w) (Some <$> hex_enc bb ++ [x00]) w).
Proof.
  intros (Hb & Hl & Hle) Hsz. unfold hex.encode, hex.encoded_len, checked_mul, checked_add.
  pose proof usize_max_isize. pose proof (zlen_nonneg bb). rewrite Hl, (Z.mul_comm (zlen bb) 2).
  rewrite !decide_True by lia. step. simpl_vec. pose proof (hex_enc_zlen bb).
  rewrite sodium_bin2hex_doc.
  assert (Hh : zlen bb < usize_max / 2) by (apply Z.lt_le_trans with isize_max; [lia|]; apply Z.div_le_lower_bound; lia).
  rewrite (proj2 (Z.leb_gt _ _)) by lia. rewrite (proj2 (Z.leb_gt _ _)) by lia. cbn [orb].
  steps. unfold vec_pop. cbn [v_len v_block v_cap]. rewrite decide_True by lia. subst.
  unfold ret. do 2 f_equal. lia.
Qed.

Lemma hex_encode_panics w bin bb :
  is_slice w bin bb -> isize_max < 2 * zlen bb + 1 -> hex.encode bin w = Panicked.
Proof.
  intros (Hb & Hl & Hle) Hsz. unfold hex.encode, hex.encoded_len, checked_mul, checked_add.
  pose proof usize_max_isize. rewrite Hl, (Z.mul_comm (zlen bb) 2). rewrite !decide_True by lia.
  by apply bind_panicked, vec_zeroed_panic.
Qed.

Lemma hex_decode_run w hex s :
  is_slice w hex s ->
  match hex_dec s with
  | Some bs => hex.decode hex w =
      Done (Ok (Vec (fresh_block w) (zlen bs) (zlen bs))) (w_put (fresh_block w) (Some <$> bs) w)
  | None => exists w', hex.decode hex w = Done Err w' /\ w_mem w' = w_mem w
  end.
Proof.
  intros (Hb & Hl & Hle). unfold hex.decode, hex.decoded_len. rewrite Hl.
  pose proof (zlen_nonneg s). destruct (Z.eqb_spec (zlen s mod 2) 0) as [He|He]; cbn [negb].
  - set (n := zlen s / 2). assert (Hn : 2 * n = zlen s) by (unfold n; pose proof (Z.div_mod (zlen s) 2); lia).
    pose proof (fresh_block_spec w) as Hf. set (b := fresh_block w) in *.
    rewrite vec_zeroed_eq by lia.
    assert (Hr : bind (bind (alloc (Some <$> zeros n)) (fun b => ret (Vec b n n)))
      (fun bin => let* '(rc, bin_len) := sodium_hex2bin (v_ptr bin) (v_len bin) (s_ptr hex) (zlen s) Null 0 Null in
         if negb (rc =? 0) then let* _ := vec_drop bin in ret Err
         else ret (Ok (vec_truncate bin bin_len))) w =
      decode_into (hex_dec s) s (Vec b n n) (w_put b (Some <$> zeros n) w)).
    { unfold decode_into. step. step. rewrite sodium_hex2bin_doc, bind_assoc.
      eapply bind_step; [apply read_run; mem_tac|]. by subst b0. }
    rewrite Hr. pose proof (decode_into_run b w n (hex_dec s) s Hf ltac:(lia)) as Hd.
    destruct (hex_dec s) as [bs|] eqn:Es.
    + apply hex_dec_zlen in Es. assert (Hbn : zlen bs = n) by lia.
      rewrite Hd by (intros; simplify_eq; lia). rewrite Hbn, Z.sub_diag. by rewrite app_nil_r.
    + destruct Hd as [left ->]; [done|]. by eexists.
  - destruct (hex_dec s) as [bs|] eqn:Es; [|by eexists].
    apply hex_dec_zlen in Es. rewrite Es, Z.mul_comm, Z.mod_mul in He; lia.
Qed.

Lemma b64_encoded_len_bounds v n : 0 <= n -> 0 <= b64_encoded_len v n <= 2 * n + 2.
Proof.
  intros. unfold b64_encoded_len. destruct (b64_padded v); Z.to_euclidean_division_equations; lia.
Qed.

Lemma base64_encode_run w bin bb v :
  is_slice w bin bb -> b64_encoded_len v (zlen bb) + 1 <= isize_max ->
  base64.encode bin v w =
    Done (Vec (fresh_block w) (b64_encoded_len v (zlen bb)) (b64_encoded_len v (zlen bb) + 1))
         (w_put (fresh_block w) (Some <$> b64_enc v bb ++ [x00]) w).
Proof.
  intros (Hb & Hl & Hle) Hsz. unfold base64.encode. rewrite Hl.
  pose proof (zlen_nonneg bb). pose proof (b64_encoded_len_bounds v (zlen bb)).
  pose proof (b64_enc_zlen v bb) as Hz. set (n := b64_encoded_len v (zlen bb)) in *.
  rewrite sodium_base64_encoded_len_doc by lia. fold n. step. step. simpl_vec.
  rewrite sodium_bin2base64_doc. fold n. rewrite (proj2 (Z.leb_gt _ _)) by lia. rewrite bind_assoc.
  eapply bind_step; [apply read_run; mem_tac|]. rewrite Hz.
  replace (n + 1 - n) with 1 by lia. change (zeros 1) with [x00].
  steps. unfold vec_pop. cbn [v_len v_block v_cap]. rewrite decide_True by lia. subst.
  unfold ret. do 2 f_equal. lia.
Qed.

(** The buffer of [decoded_len()] is large enough, and its size never
    overflows. *)
Lemma base64_decoded_len_spec n :
  0 <= n <= isize_max ->
  exists k, base64.decoded_len n = Some k /\ 3 * n <= 4 * k /\ 4 * k <= 3 * n + 9.
Proof.
  intros Hn. unfold base64.decoded_len, checked_mul, checked_add. pose proof usize_max_isize.
  pose proof isize_max_bounds.
  rewrite decide_True by (Z.to_euclidean_division_equations; lia).
  destruct (Z.eqb_spec (n mod 4) 0); cbn [negb];
    [|rewrite decide_True by (Z.to_euclidean_division_equations; lia)];
    eexists; (split; [done|]); Z.to_euclidean_division_equations; lia.
Qed.

Lemma base64_decode_run w b64 s v :
  is_slice w b64 s ->
  match b64_dec v s with
  | Some bs => exists n, base64.decode b64 v w =
      Done (Ok (Vec (fresh_block w) (zlen bs) n))
           (w_put (fresh_block w) (Some <$> bs ++ zeros (n - zlen bs)) w) /\ zlen bs <= n <= isize_max
  | None => exists w', base64.decode b64 v w = Done Err w' /\ w_mem w' = w_mem w
  end.
Proof.
  intros (Hb & Hl & Hle). unfold base64.decode. rewrite Hl. pose proof (zlen_nonneg s).
  pose proof isize_max_bounds.
  destruct (base64_decoded_len_spec (zlen s)) as (n & -> & Hn1 & Hn2); [lia|].
  pose proof (fresh_block_spec w) as Hf. set (b := fresh_block w) in *.
  rewrite vec_zeroed_eq by lia.
  assert (Hr : bind (bind (alloc (Some <$> zeros n)) (fun b => ret (Vec b n n)))
    (fun bin => let* '(rc, bin_len) := sodium_base642bin (v_ptr bin) (v_len bin) (s_ptr b64) (zlen s)
                                         Null 0 Null (base64.Variant_as_u32 v) in
       if negb (rc =? 0) then let* _ := vec_drop bin in ret Err
       else ret (Ok (vec_truncate bin bin_len))) w =
    decode_into (b64_dec v s) s (Vec b n n) (w_put b (Some <$> zeros n) w)).
  { unfold decode_into. step. step. rewrite sodium_base642bin_doc, bind_assoc.
    eapply bind_step; [apply read_run; mem_tac|]. by subst b0. }
  rewrite Hr. pose proof (decode_into_run b w n (b64_dec v s) s Hf ltac:(lia)) as Hd.
  destruct (b64_dec v s) as [bs|] eqn:Es.
  - apply b64_dec_zlen in Es. exists n. rewrite Hd by (intros; simplify_eq; lia).
    split; [done|lia].
  - destruct Hd as [left ->]; [done|]. by eexists.
Qed.

End CodecFacts.

(** ** A reference implementation *)

Module RefCodec.

Definition variant (z : Z) : base64.Variant :=
  if z =? 1 then base64.Original else if z =? 3 then base64.OriginalNoPadding
  else if z =? 5 then base64.UrlSafe else base64.UrlSafeNoPadding.

Definition decoded (dec : option bytes) (bin : ptr) (max : Z) : M (Z * Z) :=
  match dec with
  | Some bs =>
    if zlen bs <=? max then let* _ := write bin bs in ret (0, zlen bs)
    else let* _ := write bin [] in ret (-1, 0)
  | None => let* _ := write bin [] in ret (-1, 0)
  end.

Definition externs : CodecExterns := {|
  sodium_bin2hex hex maxlen bin n :=
    if (@usize_max target64 / 2 <=? n) || (maxlen <=? 2 * n) then abort
    else
      let* bb := read bin n in
      let* _ := write hex (hex_enc bb ++ [x00]) in
      ret hex;
  sodium_hex2bin bin max hex n _ l _ := let* s := read hex n in decoded (hex_dec s) bin max;
  sodium_base64_encoded_len n v := ret (b64_encoded_len (variant v) n + 1);
  sodium_bin2base64 b64 maxlen bin n v :=
    if maxlen <=? b64_encoded_len (variant v) n then abort
    else
      let* bb := read bin n in
      let* _ := write b64 (b64_enc (variant v) bb ++ zeros (maxlen - zlen (b64_enc (variant v) bb))) in
      ret b64;
  sodium_base642bin bin max b64 n _ l _ v :=
    let* s := read b64 n in decoded (b64_dec (variant v) s) bin max
|}.

Lemma variant_u32 v : variant (base64.Variant_as_u32 v) = v.
Proof. by destruct v. Qed.

#[refine] Definition doc : @CodecDoc target64 externs := {| partial _ _ := []; partial_len _ := 0 |}.
Proof.
  - done.
  - reflexivity.
  - reflexivity.
  - intros n v _. cbn [sodium_base64_encoded_len externs]. by rewrite variant_u32.
  - intros. cbn [sodium_bin2base64 externs]. by rewrite variant_u32.
  - intros. cbn [sodium_base642bin externs]. by rewrite variant_u32.
Defined.

Definition bin : bytes := [x00; xff; x7e; x80; x0a].
Definition w : world := Ref.world [bin; [x54; x57; x46; x75; x3d]].

End RefCodec.

(** ** Properties *)

Section CodecPrograms.
Context `{T : Target} `{E : CodecExterns}.

Definition hex_encode_decode (bin : slice) : M (result vec) :=
  let* s := hex.encode bin in hex.decode (v_slice s).

Definition base64_encode_decode (bin : slice) (v : base64.Variant) : M (result vec) :=
  let* s := base64.encode bin v in base64.decode (v_slice s) v.

End CodecPrograms.

(** A string whose last byte was removed *)
Lemma is_vec_popped `{Target} b bs z w n :
  n = zlen bs -> n + 1 <= isize_max -> is_vec (w_put b (Some <$> bs ++ [z]) w) (Vec b n (n + 1)) bs.
Proof.
  intros -> Hn. split; [|cbn; lia]. eapply bytes_at_app_l. apply bytes_at_put_same.
Qed.

(** C33. Hexadecimal round trip: [encode()] returns the two lower-case digits of
    each byte, which is valid UTF-8, and [decode()] of it returns the bytes; no
    memory of the caller is touched.  [encode()] panics exactly when the string
    with its final NUL cannot be allocated. *)
Theorem hex_roundtrip `{T : Target} `{E : CodecExterns} {D : CodecDoc E} w bin bb
    (Hb : is_slice w bin bb) :
  if decide (2 * zlen bb + 1 <= isize_max) then
    exists s w1 v w2,
      hex.encode bin w = Done s w1 /\ is_vec w1 s (hex_enc bb) /\
      Forall (fun c => byte_val c < 128) (hex_enc bb) /\
      hex_encode_decode bin w = Done (Ok v) w2 /\ is_vec w2 v bb /\
      forall p bs, bytes_at w p bs -> bytes_at w2 p bs
  else hex.encode bin w = Panicked.
Proof.
  case_decide as Hd; [|apply (hex_encode_panics w bin bb Hb); lia].
  pose proof (hex_encode_run w bin bb Hb Hd) as He. set (b := fresh_block w) in *.
  set (w1 := w_put b _ w) in He.
  assert (Hv : is_vec w1 (Vec b (2 * zlen bb) (2 * zlen bb + 1)) (hex_enc bb))
    by (apply is_vec_popped; [by rewrite hex_enc_zlen|done]).
  pose proof (hex_decode_run w1 _ _ (is_vec_slice _ _ _ Hv)) as Hr. rewrite hex_dec_enc in Hr.
  unfold hex_encode_decode. rewrite (bind_done _ _ _ _ _ He), Hr, He.
  eexists _, _, _, _. split_and!; [done|done|apply hex_enc_ascii|done| |].
  - apply is_vec_put. apply Hb.
  - intros p bs Hp. do 2 (apply bytes_at_put_fresh; [apply fresh_block_spec|]). done.
Qed.

Lemma hex_roundtrip_witness :
  exists s w1 v w2,
    @hex.encode target64 RefCodec.externs (Slice (At 1 0) 5) RefCodec.w = Done s w1 /\
    @is_vec target64 w1 s (hex_enc RefCodec.bin) /\
    Forall (fun c => byte_val c < 128) (hex_enc RefCodec.bin) /\
    @hex_encode_decode target64 RefCodec.externs (Slice (At 1 0) 5) RefCodec.w = Done (Ok v) w2 /\
    @is_vec target64 w2 v RefCodec.bin /\
    forall p bs, bytes_at RefCodec.w p bs -> bytes_at w2 p bs.
Proof.
  apply (@hex_roundtrip target64 RefCodec.externs RefCodec.doc RefCodec.w (Slice (At 1 0) 5) RefCodec.bin).
  Ref.concrete.
Defined.

(** [hex::decode()] accepts exactly the strings of an even number of
    hexadecimal digits of either case and returns the bytes they denote;
    everything else is [Err] and leaves memory as it was. *)
Theorem hex_decode_exact `{T : Target} `{E : CodecExterns} {D : CodecDoc E} w hex s
    (Hs : is_slice w hex s) :
  exists r w', hex.decode hex w = Done r w' /\
    match hex_dec s with
    | Some bs => exists v, r = Ok v /\ is_vec w' v bs
    | None => r = Err /\ w_mem w' = w_mem w
    end.
Proof.
  pose proof (hex_decode_run w hex s Hs) as Hr. destruct (hex_dec s) as [bs|] eqn:Ed.
  - rewrite Hr. eexists _, _. split; [done|]. eexists. split; [done|]. apply is_vec_put.
    apply hex_dec_zlen in Ed. destruct Hs as (_ & _ & ?). pose proof (zlen_nonneg bs). lia.
  - destruct Hr as (w' & -> & Hw). by eexists _, _.
Qed.

Lemma hex_decode_exact_witness :
  exists r w', @hex.decode target64 RefCodec.externs (Slice (At 2 0) 5) RefCodec.w = Done r w' /\
    r = Err /\ w_mem w' = w_mem RefCodec.w.
Proof.
  apply (@hex_decode_exact target64 RefCodec.externs RefCodec.doc RefCodec.w (Slice (At 2 0) 5)
    [x54; x57; x46; x75; x3d]). Ref.concrete.
Defined.

(** Base64 round trip, for each of the four variants: what [encode()]
    returns is the RFC 4648 encoding, it is ASCII, and [decode()] of it returns
    the bytes. *)
Theorem base64_roundtrip `{T : Target} `{E : CodecExterns} {D : CodecDoc E} w bin bb v
    (Hb : is_slice w bin bb) (Hsz : b64_encoded_len v (zlen bb) + 1 <= isize_max) :
  exists s w1 u w2,
    base64.encode bin v w = Done s w1 /\ is_vec w1 s (b64_enc v bb) /\
    Forall (fun c => byte_val c < 128) (b64_enc v bb) /\
    base64_encode_decode bin v w = Done (Ok u) w2 /\ is_vec w2 u bb /\
    forall p bs, bytes_at w p bs -> bytes_at w2 p bs.
Proof.
  pose proof (base64_encode_run w bin bb v Hb Hsz) as He. set (b := fresh_block w) in *.
  set (w1 := w_put b _ w) in He.
  assert (Hv : is_vec w1 (Vec b (b64_encoded_len v (zlen bb)) (b64_encoded_len v (zlen bb) + 1)) (b64_enc v bb))
    by (apply is_vec_popped; [by rewrite b64_enc_zlen|done]).
  pose proof (base64_decode_run w1 _ _ v (is_vec_slice _ _ _ Hv)) as Hr. rewrite b64_dec_enc in Hr.
  destruct Hr as (n & Hr & Hn).
  unfold base64_encode_decode. rewrite (bind_done _ _ _ _ _ He), Hr, He.
  eexists _, _, _, _. split_and!; [done|done|apply b64_enc_ascii|done| |].
  - split; [|done]. eapply bytes_at_app_l. apply bytes_at_put_same.
  - intros p bs Hp. do 2 (apply bytes_at_put_fresh; [apply fresh_block_spec|]). done.
Qed.

Lemma base64_roundtrip_witness :
  exists s w1 u w2,
    @base64.encode target64 RefCodec.externs (Slice (At 1 0) 5) base64.UrlSafe RefCodec.w = Done s w1 /\
    @is_vec target64 w1 s [x41; x50; x39; x2d; x67; x41; x6f; x3d] /\
    Forall (fun c => byte_val c < 128) (b64_enc base64.UrlSafe RefCodec.bin) /\
    @base64_encode_decode target64 RefCodec.externs (Slice (At 1 0) 5) base64.UrlSafe RefCodec.w = Done (Ok u) w2 /\
    @is_vec target64 w2 u RefCodec.bin /\
    forall p bs, bytes_at RefCodec.w p bs -> bytes_at w2 p bs.
Proof.
  apply (@base64_roundtrip target64 RefCodec.externs RefCodec.doc RefCodec.w (Slice (At 1 0) 5)
    RefCodec.bin base64.UrlSafe); Ref.concrete.
Defined.

(** C16. [base64::decode()] accepts exactly the valid encodings of the variant:
    the size [decoded_len()] computes never overflows, is never too large to
    allocate and never too small for a valid string of any length. *)
Theorem base64_decode_exact `{T : Target} `{E : CodecExterns} {D : CodecDoc E} w b64 s v
    (Hs : is_slice w b64 s) :
  exists r w', base64.decode b64 v w = Done r w' /\
    match b64_dec v s with
    | Some bs => exists u, r = Ok u /\ is_vec w' u bs
    | None => r = Err /\ w_mem w' = w_mem w
    end.
Proof.
  pose proof (base64_decode_run w b64 s v Hs) as Hr. destruct (b64_dec v s) as [bs|] eqn:Ed.
  - destruct Hr as (n & -> & Hn). eexists _, _. split; [done|]. eexists. split; [done|].
    split; [|done]. eapply bytes_at_app_l. apply bytes_at_put_same.
  - destruct Hr as (w' & -> & Hw). by eexists _, _.
Qed.

Lemma base64_decode_exact_witness :
  exists r w', @base64.decode target64 RefCodec.externs (Slice (At 2 0) 4) base64.Original RefCodec.w = Done r w' /\
    exists u, r = Ok u /\ @is_vec target64 w' u [x4d; x61; x6e].
Proof.
  apply (@base64_decode_exact target64 RefCodec.externs RefCodec.doc RefCodec.w (Slice (At 2 0) 4)
    [x54; x57; x46; x75] base64.Original). Ref.concrete.
Defined.
