(* ===== verification/CodecTests.v ===== *)
(** * The tests of padding.rs, hex.rs and base64.rs

    The encodings are documented completely, so the tests with known texts can
    be proved: they pass for every implementation with the documented
    behaviour. *)

From S2P Require Export Utf8 Locals Padding Codec.

(** ** padding.rs *)

(** [assert_eq!(Ok(n), r)], [assert_eq!(Err(()), r)] *)
Definition assert_ok_is (n : Z) (r : result Z) : M unit := assert (bool_decide (Ok n = r)).
Definition assert_err {X} (r : result X) : M unit := assert (negb (is_ok r)).

(** [v[i]], [v[i] = x]: out of bounds they panic. *)
Definition vec_get (v : vec) (i : Z) : M byte :=
  if (0 <=? i) && (i <? v_len v) then
    let* b := read (At (v_block v) (Z.to_nat i)) 1 in ret (byte_of_Z (le_val b))
  else panic.
Definition vec_set (v : vec) (i : Z) (x : byte) : M unit :=
  if (0 <=? i) && (i <? v_len v) then write (At (v_block v) (Z.to_nat i)) [x] else panic.

Section PaddingTests.
Context `{T : Target} `{E : PadExterns}.

Definition test_on_block_boundary : M unit :=
  let* buf := vec_of (zeros 32) in
  let* r := padding.pad (v_slice buf) 16 16 in
  assert_ok_is 32 r.

Definition assert_byte (x : byte) (v : vec) (i : Z) : M unit :=
  let* y := vec_get v i in assert (bool_decide (x = y)).

Definition test_pad_and_unpad_with_good_length : M unit :=
  let* buf := vec_of (zeros 64) in
  let* _ := for_range 0 33 (fun i => vec_set buf i (byte_of_Z i)) in
  let* r := padding.pad (v_slice buf) 33 32 in
  let* _ := assert_ok_is 64 r in
  let* r := padding.unpad (v_slice buf) 64 32 in
  let* _ := assert_ok_is 33 r in
  let* _ := for_range 0 33 (fun i => assert_byte (byte_of_Z i) buf i) in
  let* _ := assert_byte x80 buf 33 in
  for_range 33 31 (fun _i => assert_byte x00 buf 0).

Definition test_on_bad_length : M unit :=
  let* buf := vec_of (zeros 32) in
  let* r := padding.pad (v_slice buf) 32 32 in
  let* _ := assert_err r in
  let* r := padding.unpad (v_slice buf) 32 32 in
  assert_err r.

End PaddingTests.

(** ** hex.rs, base64.rs *)

Section CodecTests.
Context `{T : Target} `{E : CodecExterns}.

(** [assert_eq!(s.to_string(), encode(b))] *)
Definition encodes (encode : slice -> M vec) (s b : bytes) : M unit :=
  let* p := place b in
  let* v := encode (Slice (At p 0) (zlen b)) in
  let* a := contents v in
  assert_eq s a.

(** [assert_eq!(Ok(b.to_vec()), decode(s))], [assert_eq!(Err(()), decode(s))] *)
Definition decodes (decode : slice -> M (result vec)) (b s : bytes) : M unit :=
  let* p := place s in
  let* r := decode (Slice (At p 0) (zlen s)) in
  match r with
  | Ok v => let* a := contents v in assert_eq b a
  | Err => panic
  end.
Definition does_not_decode (decode : slice -> M (result vec)) (s : bytes) : M unit :=
  let* p := place s in
  let* r := decode (Slice (At p 0) (zlen s)) in
  assert_err r.

Definition hex_test_encode : M unit :=
  let* _ := encodes hex.encode [] [] in
  encodes hex.encode (string_bytes "666f6f626172") (string_bytes "foobar").

Definition hex_test_decode : M unit :=
  let* _ := decodes hex.decode [] [] in
  let* _ := decodes hex.decode (string_bytes "foobar") (string_bytes "666F6F626172") in
  let* _ := does_not_decode hex.decode (string_bytes "abc") in
  does_not_decode hex.decode (string_bytes "abxy").

Definition base64_test_encode : M unit :=
  let encode := fun s => base64.encode s base64.Original in
  let* _ := encodes encode [] [] in
  let* _ := encodes encode (string_bytes "Zg==") (string_bytes "f") in
  let* _ := encodes encode (string_bytes "Zm8=") (string_bytes "fo") in
  let* _ := encodes encode (string_bytes "Zm9v") (string_bytes "foo") in
  let* _ := encodes encode (string_bytes "Zm9vYg==") (string_bytes "foob") in
  let* _ := encodes encode (string_bytes "Zm9vYmE=") (string_bytes "fooba") in
  encodes encode (string_bytes "Zm9vYmFy") (string_bytes "foobar").

Definition base64_test_decode : M unit :=
  let decode := fun s => base64.decode s base64.Original in
  let* _ := decodes decode [] [] in
  let* _ := decodes decode (string_bytes "f") (string_bytes "Zg==") in
  let* _ := decodes decode (string_bytes "fo") (string_bytes "Zm8=") in
  let* _ := decodes decode (string_bytes "foo") (string_bytes "Zm9v") in
  let* _ := decodes decode (string_bytes "foob") (string_bytes "Zm9vYg==") in
  let* _ := decodes decode (string_bytes "fooba") (string_bytes "Zm9vYmE=") in
  decodes decode (string_bytes "foobar") (string_bytes "Zm9vYmFy").

End CodecTests.

(** ** The tests of padding.rs pass *)

Section PaddingPass.
Context `{T : Target} `{E : PadExterns} {D : PadDoc E}.

Lemma padding_slice w m b bs n :
  holds w m -> m !! b = Some bs -> n = zlen bs -> n <= 1000 -> is_slice w (Slice (At b 0) n) bs.
Proof. intros Hw Hb Hn ?. pose proof isize_max_bounds. eapply holds_slice; [done..|lia]. Qed.

Lemma test_on_block_boundary_passes : passes test_on_block_boundary.
Proof.
  intros w. eapply local_vec; [apply holds_empty|reflexivity|]. intros b w1 _ Hw1. sl.
  change (zlen (zeros 32)) with 32.
  assert (Hs : is_slice w1 (Slice (At b 0) 32) (zeros 16 ++ zeros 16))
    by (eapply padding_slice; [exact Hw1|local_tac|done|done]).
  pose proof isize_max_bounds. pose proof usize_max_isize.
  eapply local_run; [apply (pad_run w1 _ _ _ 16 Hs); lia|]. cbv zeta.
  change (xpadlen (zlen (zeros 16)) 16) with 15. by apply does_assert.
Qed.

Lemma test_on_bad_length_passes : passes test_on_bad_length.
Proof.
  intros w. eapply local_vec; [apply holds_empty|reflexivity|]. intros b w1 _ Hw1. sl.
  change (zlen (zeros 32)) with 32.
  assert (Hs : is_slice w1 (Slice (At b 0) 32) (zeros 32 ++ []))
    by (rewrite app_nil_r; eapply padding_slice; [exact Hw1|local_tac|done|done]).
  pose proof isize_max_bounds. pose proof usize_max_isize.
  pose proof (pad_run w1 _ _ _ 32 Hs ltac:(lia)) as Hp. cbv zeta in Hp. rewrite app_nil_r in Hp.
  change (xpadlen (zlen (zeros 32)) 32) with 31 in Hp. change (zlen (zeros 32)) with 32 in Hp.
  rewrite !decide_False in Hp by lia. eapply local_run; [exact Hp|]. check.
  eapply local_run; [by apply (unpad_run w1 _ (zeros 32) [] 32 32 Hs)|]. by apply does_assert.
Qed.

(** The bytes of a local *)
Lemma local_get {B} (Q : B -> world -> Prop) w m b bs n i x (f : byte -> M B) :
  holds w m -> m !! b = Some bs -> n = zlen bs -> 0 <= i -> bs !! Z.to_nat i = Some x ->
  does w (f x) Q -> does w (bind (vec_get (Vec b n n) i) f) Q.
Proof.
  intros Hw Hb -> Hi Hx Hf. pose proof (lookup_lt_Some _ _ _ Hx) as Hlt. unfold vec_get. cbn [v_len v_block].
  rewrite (proj2 (Z.leb_le _ _)), (proj2 (Z.ltb_lt _ _)) by (unfold zlen; lia). cbn [andb].
  rewrite <- (take_drop_middle bs _ x Hx) in Hb.
  apply local_assoc. eapply local_read_byte; [exact Hw|exact Hb|rewrite length_take; lia|].
  apply local_ret. rewrite (byte_of_Z_eq _ x) by (cbn; lia). exact Hf.
Qed.

Lemma local_set {B} (Q : B -> world -> Prop) w m b pre x y post n i (f : unit -> M B) :
  holds w m -> m !! b = Some (pre ++ x :: post) -> n = zlen (pre ++ x :: post) -> i = zlen pre ->
  (forall w', holds w' (<[b := pre ++ y :: post]> m) -> does w' (f tt) Q) ->
  does w (bind (vec_set (Vec b n n) i y) f) Q.
Proof.
  intros Hw Hb -> -> Hf. unfold vec_set. cbn [v_len v_block]. pose proof (zlen_nonneg pre). pose proof (zlen_nonneg post).
  rewrite zlen_app, zlen_cons, (proj2 (Z.leb_le _ _)), (proj2 (Z.ltb_lt _ _)) by lia. cbn [andb].
  by eapply local_write_byte; [exact Hw|exact Hb|apply to_nat_zlen|].
Qed.

(** The bytes 0, 1, ..., j - 1 *)
Definition counting (j : Z) : bytes := byte_of_Z <$> seqZ 0 j.

Lemma counting_zlen j : 0 <= j -> zlen (counting j) = j.
Proof. intros. unfold zlen, counting. rewrite length_fmap, length_seqZ. lia. Qed.

Lemma counting_S j : 0 <= j -> counting (j + 1) = counting j ++ [byte_of_Z j].
Proof.
  intros Hj. unfold counting. replace (j + 1) with (Z.of_nat (S (Z.to_nat j))) by lia.
  rewrite seqZ_S, fmap_app, Z2Nat.id by lia. done.
Qed.

Lemma fill_does w m b :
  holds w m -> m !! b = Some (zeros 64) ->
  does w (for_range 0 33 (fun i => vec_set (Vec b 64 64) i (byte_of_Z i)))
    (fun _ w' => holds w' (<[b := counting 33 ++ zeros 31]> m)).
Proof.
  intros Hw Hb. apply (does_for_index (fun j w' => holds w' (<[b := counting j ++ zeros (64 - j)]> m))).
  - intros j w1 Hj Hw1. change (0 + Z.of_nat 33) with 33 in Hj. rewrite (zeros_S (64 - j)) in Hw1 by lia.
    pose proof (counting_zlen j ltac:(lia)) as Hc.
    apply local_last. eapply local_set; [exact Hw1|apply lookup_insert_eq| |done|].
    { rewrite zlen_app, zlen_cons, zlen_zeros; lia. }
    intros w2 Hw2. rewrite insert_insert_eq in Hw2. apply does_ret.
    rewrite counting_S, <- app_assoc by lia. replace (64 - (j + 1)) with (64 - j - 1) by lia. exact Hw2.
  - by rewrite insert_id.
Qed.

Lemma check_does w m b bs x i n (Q : unit -> world -> Prop) :
  holds w m -> m !! b = Some bs -> n = zlen bs -> 0 <= i -> bs !! Z.to_nat i = Some x -> Q tt w ->
  does w (assert_byte x (Vec b n n) i) Q.
Proof.
  intros Hw Hb Hn Hi Hx Hq. unfold assert_byte. eapply local_get; [done..|].
  unfold assert. rewrite bool_decide_true by done. by apply does_ret.
Qed.

Lemma test_pad_and_unpad_with_good_length_passes : passes test_pad_and_unpad_with_good_length.
Proof.
  intros w. eapply local_vec; [apply holds_empty|reflexivity|]. intros b w1 _ Hw1. sl.
  change (zlen (zeros 64)) with 64.
  eapply does_bind; [eapply fill_does; [exact Hw1|local_tac]|]. intros [] w2 Hw2. rewrite insert_insert_eq in Hw2.
  pose proof isize_max_bounds. pose proof usize_max_isize.
  assert (Hs : is_slice w2 (Slice (At b 0) 64) (counting 33 ++ zeros 31))
    by (eapply padding_slice; [exact Hw2|local_tac|done|done]).
  eapply local_run; [apply (pad_run w2 _ _ _ 32 Hs); lia|]. cbv zeta.
  pose proof (holds_store_tail w2 _ b (counting 33) (zeros 31) (x80 :: zeros 30) Hw2 (lookup_insert_eq _ _ _) eq_refl) as Hw3.
  change (xpadlen (zlen (counting 33)) 32) with 30. change (ptr_add _ _) with (At b (length (counting 33))).
  set (w3 := w_write _ _ w2) in *. rewrite insert_insert_eq in Hw3. set (bs := counting 33 ++ x80 :: zeros 30) in *.
  check. assert (Hs3 : is_slice w3 (Slice (At b 0) 64) (bs ++ []))
    by (rewrite app_nil_r; eapply padding_slice; [exact Hw3|local_tac|done|done]).
  eapply local_run; [apply (unpad_run w3 _ bs [] 64 32 Hs3); [done|lia]|]. check.
  set (I := fun w' => holds w' (<[b := bs]> ∅)).
  eapply (does_bind _ _ _ (fun _ => I)); [apply (does_for I); [|exact Hw3]|].
  { intros i w4 Hi Hw4. change (0 + Z.of_nat 33) with 33 in Hi.
    eapply check_does; [exact Hw4|local_tac|done|lia| |exact Hw4]. unfold bs, counting.
    rewrite lookup_app_l by (rewrite length_fmap, length_seqZ; lia).
    rewrite list_lookup_fmap, lookup_seqZ_lt by lia. cbn. by rewrite Z2Nat.id by lia. }
  intros [] w4 Hw4. eapply (does_bind _ _ _ (fun _ => I)); [by eapply check_does; [exact Hw4|local_tac|..]|].
  intros [] w5 Hw5. eapply does_mono; [apply (does_for I); [|exact Hw5]|done].
  intros i w6 _ Hw6. by eapply check_does; [exact Hw6|local_tac|..].
Qed.

End PaddingPass.

(** ** The tests of hex.rs and base64.rs pass *)

Section CodecPass.
Context `{T : Target} `{E : CodecExterns} {D : CodecDoc E}.

(** Reading a result whose buffer may be longer *)
Lemma contents_run w b s tail n cap :
  n = zlen s -> contents (Vec b n cap) (w_put b (Some <$> s ++ tail) w) = Done s (w_put b (Some <$> s ++ tail) w).
Proof.
  intros ->. unfold contents. sl. unfold slice_bytes. cbn [s_ptr s_len].
  apply read_run; [|done]. apply (bytes_at_app_l _ _ s tail), bytes_at_put_same.
Qed.

Lemma place_slice w bs :
  zlen bs <= 1000 ->
  does w (place bs) (fun p w' => is_slice w' (Slice (At p 0) (zlen bs)) bs).
Proof.
  intros Hl. pose proof isize_max_bounds. eapply does_mono; [apply does_place|].
  intros p w' (_ & Hr & _). apply is_ref_slice; [lia|done].
Qed.

Lemma encodes_passes encode s b :
  zlen b <= 1000 ->
  (forall w sl, is_slice w sl b -> exists cap tail,
     encode sl w = Done (Vec (fresh_block w) (zlen s) cap) (w_put (fresh_block w) (Some <$> s ++ tail) w)) ->
  passes (encodes encode s b).
Proof.
  intros Hl He w. unfold encodes. eapply does_bind; [by apply place_slice|]. intros p w1 Hs.
  destruct (He w1 _ Hs) as (cap & tail & Hr). eapply local_run; [exact Hr|].
  eapply local_run; [by apply contents_run|]. by apply does_assert, bool_decide_true.
Qed.

Lemma decodes_passes decode b s :
  zlen s <= 1000 ->
  (forall w sl, is_slice w sl s -> exists cap tail,
     decode sl w = Done (Ok (Vec (fresh_block w) (zlen b) cap)) (w_put (fresh_block w) (Some <$> b ++ tail) w)) ->
  passes (decodes decode b s).
Proof.
  intros Hl He w. unfold decodes. eapply does_bind; [by apply place_slice|]. intros p w1 Hs.
  destruct (He w1 _ Hs) as (cap & tail & Hr). eapply local_run; [exact Hr|].
  eapply local_run; [by apply contents_run|]. by apply does_assert, bool_decide_true.
Qed.

Lemma does_not_decode_passes decode s :
  zlen s <= 1000 -> (forall w sl, is_slice w sl s -> exists w', decode sl w = Done Err w') ->
  passes (does_not_decode decode s).
Proof.
  intros Hl He w. unfold does_not_decode. eapply does_bind; [by apply place_slice|]. intros p w1 Hs.
  destruct (He w1 _ Hs) as (w' & Hr). eapply local_run; [exact Hr|]. by apply does_assert.
Qed.

Lemma hex_encodes s b : zlen b <= 1000 -> hex_enc b = s -> passes (encodes hex.encode s b).
Proof.
  intros Hl <-. pose proof isize_max_bounds. apply encodes_passes; [done|]. intros w sl Hs.
  rewrite (hex_encode_run w sl b Hs), hex_enc_zlen by lia. by eexists _, [x00].
Qed.

Lemma hex_decodes b s : zlen s <= 1000 -> hex_dec s = Some b -> passes (decodes hex.decode b s).
Proof.
  intros Hl Hd. apply decodes_passes; [done|]. intros w sl Hs. pose proof (hex_decode_run w sl s Hs) as Hr.
  rewrite Hd in Hr. exists (zlen b), []. by rewrite app_nil_r.
Qed.

Lemma hex_rejects s : zlen s <= 1000 -> hex_dec s = None -> passes (does_not_decode hex.decode s).
Proof.
  intros Hl Hd. apply does_not_decode_passes; [done|]. intros w sl Hs.
  pose proof (hex_decode_run w sl s Hs) as Hr. rewrite Hd in Hr. destruct Hr as (w' & -> & _). by exists w'.
Qed.

Lemma base64_encodes v s b :
  zlen b <= 1000 -> b64_enc v b = s -> passes (encodes (fun x => base64.encode x v) s b).
Proof.
  intros Hl <-. pose proof isize_max_bounds. pose proof (b64_encoded_len_bounds v (zlen b) (zlen_nonneg b)).
  apply encodes_passes; [done|]. intros w sl Hs.
  rewrite (base64_encode_run w sl b v Hs), b64_enc_zlen by lia. by eexists _, [x00].
Qed.

Lemma base64_decodes v b s :
  zlen s <= 1000 -> b64_dec v s = Some b -> passes (decodes (fun x => base64.decode x v) b s).
Proof.
  intros Hl Hd. apply decodes_passes; [done|]. intros w sl Hs. pose proof (base64_decode_run w sl s v Hs) as Hr.
  rewrite Hd in Hr. destruct Hr as (n & Hr & _). eauto.
Qed.

(** Tests one after the other *)
Lemma passes_seq (p q : M unit) : passes p -> passes q -> passes (let* _ := p in q).
Proof. intros Hp Hq w. eapply does_bind; [apply Hp|]. intros [] w' _. apply Hq. Qed.

Ltac known := repeat apply passes_seq;
  first [apply hex_encodes|apply hex_decodes|apply hex_rejects|apply base64_encodes|apply base64_decodes]; by vm_compute.

Lemma hex_tests : passes hex_test_encode /\ passes hex_test_decode.
Proof. split; [unfold hex_test_encode|unfold hex_test_decode]; known. Qed.

Lemma base64_tests : passes base64_test_encode /\ passes base64_test_decode.
Proof. split; [unfold base64_test_encode|unfold base64_test_decode]; cbv zeta; known. Qed.

End CodecPass.

(** The tests of the encodings pass: padding, and the known texts in
    hexadecimal and in Base64. *)
Theorem codec_tests_pass `{T : Target} `{P : PadExterns} {PD : PadDoc P} `{E : CodecExterns} {D : CodecDoc E} :
  passes test_on_block_boundary /\ passes test_pad_and_unpad_with_good_length /\
  passes test_on_bad_length /\ passes hex_test_encode /\ passes hex_test_decode /\
  passes base64_test_encode /\ passes base64_test_decode.
Proof.
  pose proof hex_tests as [? ?]. pose proof base64_tests as [? ?].
  split_and!; [exact test_on_block_boundary_passes|exact test_pad_and_unpad_with_good_length_passes
              |exact test_on_bad_length_passes|done..].
Qed.

Lemma codec_tests_pass_witness :
  let P := RefPad.externs in
  let E := RefCodec.externs in
  passes (@test_on_block_boundary P) /\ passes (@test_pad_and_unpad_with_good_length P) /\
  passes (@test_on_bad_length P) /\ passes (@hex_test_encode target64 E) /\
  passes (@hex_test_decode target64 E) /\ passes (@base64_test_encode target64 E) /\
  passes (@base64_test_decode target64 E).
Proof. apply (@codec_tests_pass target64 RefPad.externs RefPad.doc RefCodec.externs RefCodec.doc). Defined.
