(* ===== verification/Pwhash.v ===== *)
(** * src/crypto/pwhash: password hashing

    [argon2_module!] is a section over the record of its arguments, with the
    instances argon2i13 and argon2id13; the module scryptsalsa208sha256 is
    written out in the code, and here. *)

From S2P Require Export Primitives.

Record argon2_module := Argon2Module {
  pwhash_name : pwhash_fn;
  pwhash_str_name : pwhash_str_fn;
  pwhash_str_verify_name : pwhash_str_verify_fn;
  pw_saltbytes : Z;
  pw_hashedpasswordbytes : Z;
  pw_strprefix : bytes;
  opslimit_interactive : Z;
  opslimit_moderate : Z;
  opslimit_sensitive : Z;
  memlimit_interactive : Z;
  memlimit_moderate : Z;
  memlimit_sensitive : Z;
  pw_variant : Z
}.

(** [OpsLimit(usize)], [MemLimit(usize)] *)
Record OpsLimit := MkOpsLimit { opslimit : Z }.
Record MemLimit := MkMemLimit { memlimit : Z }.

Module argon2.

Section Macro.
Context (A : argon2_module) `{T : Target}.

Definition SALTBYTES : Z := pw_saltbytes A.
Definition HASHEDPASSWORDBYTES : Z := pw_hashedpasswordbytes A.
Definition STRPREFIX : bytes := pw_strprefix A.
Definition OPSLIMIT_INTERACTIVE : OpsLimit := MkOpsLimit (opslimit_interactive A).
Definition MEMLIMIT_INTERACTIVE : MemLimit := MkMemLimit (memlimit_interactive A).
Definition OPSLIMIT_MODERATE : OpsLimit := MkOpsLimit (opslimit_moderate A).
Definition MEMLIMIT_MODERATE : MemLimit := MkMemLimit (memlimit_moderate A).
Definition OPSLIMIT_SENSITIVE : OpsLimit := MkOpsLimit (opslimit_sensitive A).
Definition MEMLIMIT_SENSITIVE : MemLimit := MkMemLimit (memlimit_sensitive A).
Definition VARIANT : Z := pw_variant A.

Definition Salt : newtype := NewType public "Salt" SALTBYTES.
Definition HashedPassword : newtype := NewType public "HashedPassword" HASHEDPASSWORDBYTES.

Definition gen_salt `{RandombytesExterns} : M bytes :=
  let* salt := stack_array SALTBYTES in
  let* _ := randombytes_into (Slice (At salt 0) SALTBYTES) in
  move_out salt.

Definition derive_key (key passwd : slice) (salt : ptr) (ops : OpsLimit) (mem : MemLimit)
    : M (result slice) :=
  let* res := pwhash_name A (s_ptr key) (s_len key) (s_ptr passwd) (s_len passwd) salt
                (opslimit ops) (memlimit mem) VARIANT in
  match res with 0 => ret (Ok key) | _ => ret Err end.

Definition pwhash `{UtilsExterns} (passwd : slice) (ops : OpsLimit) (mem : MemLimit) : M (result bytes) :=
  let* out := stack_array HASHEDPASSWORDBYTES in
  let* res := pwhash_str_name A (At out 0) (s_ptr passwd) (s_len passwd) (opslimit ops) (memlimit mem) in
  match res with
  | 0 => let* r := move_out out in ret (Ok r)
  | _ => let* _ := NewType.drop HashedPassword out in ret Err
  end.

Definition pwhash_verify (hp : ptr) (passwd : slice) : M bool :=
  let* res := pwhash_str_verify_name A hp (s_ptr passwd) (s_len passwd) in
  ret (res =? 0).

End Macro.

End argon2.

Definition argon2i13 `{Argon2iExterns} : argon2_module :=
  Argon2Module crypto_pwhash_argon2i crypto_pwhash_argon2i_str crypto_pwhash_argon2i_str_verify
    crypto_pwhash_argon2i_SALTBYTES crypto_pwhash_argon2i_STRBYTES crypto_pwhash_argon2i_STRPREFIX
    crypto_pwhash_argon2i_OPSLIMIT_INTERACTIVE crypto_pwhash_argon2i_OPSLIMIT_MODERATE
    crypto_pwhash_argon2i_OPSLIMIT_SENSITIVE crypto_pwhash_argon2i_MEMLIMIT_INTERACTIVE
    crypto_pwhash_argon2i_MEMLIMIT_MODERATE crypto_pwhash_argon2i_MEMLIMIT_SENSITIVE
    crypto_pwhash_ALG_ARGON2I13.

Definition argon2id13 `{Argon2idExterns} : argon2_module :=
  Argon2Module crypto_pwhash_argon2id crypto_pwhash_argon2id_str crypto_pwhash_argon2id_str_verify
    crypto_pwhash_argon2id_SALTBYTES crypto_pwhash_argon2id_STRBYTES crypto_pwhash_argon2id_STRPREFIX
    crypto_pwhash_argon2id_OPSLIMIT_INTERACTIVE crypto_pwhash_argon2id_OPSLIMIT_MODERATE
    crypto_pwhash_argon2id_OPSLIMIT_SENSITIVE crypto_pwhash_argon2id_MEMLIMIT_INTERACTIVE
    crypto_pwhash_argon2id_MEMLIMIT_MODERATE crypto_pwhash_argon2id_MEMLIMIT_SENSITIVE
    crypto_pwhash_ALG_ARGON2ID13.

Module scrypt.

Definition SALTBYTES : Z := crypto_pwhash_scryptsalsa208sha256_SALTBYTES.
Definition HASHEDPASSWORDBYTES : Z := crypto_pwhash_scryptsalsa208sha256_STRBYTES.
Definition STRPREFIX : bytes := crypto_pwhash_scryptsalsa208sha256_STRPREFIX.
Definition OPSLIMIT_INTERACTIVE : OpsLimit :=
  MkOpsLimit crypto_pwhash_scryptsalsa208sha256_OPSLIMIT_INTERACTIVE.
Definition MEMLIMIT_INTERACTIVE : MemLimit :=
  MkMemLimit crypto_pwhash_scryptsalsa208sha256_MEMLIMIT_INTERACTIVE.
Definition OPSLIMIT_SENSITIVE : OpsLimit :=
  MkOpsLimit crypto_pwhash_scryptsalsa208sha256_OPSLIMIT_SENSITIVE.
Definition MEMLIMIT_SENSITIVE : MemLimit :=
  MkMemLimit crypto_pwhash_scryptsalsa208sha256_MEMLIMIT_SENSITIVE.

Definition Salt : newtype := NewType public "Salt" SALTBYTES.
Definition HashedPassword : newtype := NewType public "HashedPassword" HASHEDPASSWORDBYTES.

Section Functions.
Context `{T : Target} `{E : ScryptExterns}.

Definition gen_salt `{RandombytesExterns} : M bytes :=
  let* salt := stack_array SALTBYTES in
  let* _ := randombytes_into (Slice (At salt 0) SALTBYTES) in
  move_out salt.

Definition derive_key (key passwd : slice) (salt : ptr) (ops : OpsLimit) (mem : MemLimit)
    : M (result slice) :=
  let* rc := crypto_pwhash_scryptsalsa208sha256 (s_ptr key) (s_len key) (s_ptr passwd) (s_len passwd)
               salt (opslimit ops) (memlimit mem) in
  if rc =? 0 then ret (Ok key) else ret Err.

Definition derive_key_interactive (key passwd : slice) (salt : ptr) : M (result slice) :=
  derive_key key passwd salt OPSLIMIT_INTERACTIVE MEMLIMIT_INTERACTIVE.

Definition derive_key_sensitive (key passwd : slice) (salt : ptr) : M (result slice) :=
  derive_key key passwd salt OPSLIMIT_SENSITIVE MEMLIMIT_SENSITIVE.

Definition pwhash `{UtilsExterns} (passwd : slice) (ops : OpsLimit) (mem : MemLimit) : M (result bytes) :=
  let* hp := stack_array HASHEDPASSWORDBYTES in
  let* rc := crypto_pwhash_scryptsalsa208sha256_str (At hp 0) (s_ptr passwd) (s_len passwd)
               (opslimit ops) (memlimit mem) in
  if rc =? 0 then let* r := move_out hp in ret (Ok r)
  else let* _ := NewType.drop HashedPassword hp in ret Err.

Definition pwhash_interactive `{UtilsExterns} (passwd : slice) : M (result bytes) :=
  pwhash passwd OPSLIMIT_INTERACTIVE MEMLIMIT_INTERACTIVE.

Definition pwhash_sensitive `{UtilsExterns} (passwd : slice) : M (result bytes) :=
  pwhash passwd OPSLIMIT_SENSITIVE MEMLIMIT_SENSITIVE.

Definition pwhash_verify (hp : ptr) (passwd : slice) : M bool :=
  let* rc := crypto_pwhash_scryptsalsa208sha256_str_verify hp (s_ptr passwd) (s_len passwd) in
  ret (rc =? 0).

End Functions.

End scrypt.

(** ** Documented behaviour *)

(** The three C functions of a module. *)
Record pwhash_functions := PwhashFunctions {
  pf_derive : ptr -> Z -> ptr -> Z -> ptr -> Z -> Z -> M Z;
  pf_str : pwhash_str_fn;
  pf_verify : pwhash_str_verify_fn;
  pf_saltbytes : Z;
  pf_strbytes : Z;
  pf_strprefix : bytes
}.

Definition argon2_functions (A : argon2_module) : pwhash_functions :=
  PwhashFunctions
    (fun out outlen p plen salt ops mem =>
       pwhash_name A out outlen p plen salt ops mem (pw_variant A))
    (pwhash_str_name A) (pwhash_str_verify_name A)
    (pw_saltbytes A) (pw_hashedpasswordbytes A) (pw_strprefix A).

Definition scrypt_functions `{ScryptExterns} : pwhash_functions :=
  PwhashFunctions crypto_pwhash_scryptsalsa208sha256 crypto_pwhash_scryptsalsa208sha256_str
    crypto_pwhash_scryptsalsa208sha256_str_verify crypto_pwhash_scryptsalsa208sha256_SALTBYTES
    crypto_pwhash_scryptsalsa208sha256_STRBYTES crypto_pwhash_scryptsalsa208sha256_STRPREFIX.

(** A NUL-terminated string in a buffer *)
Definition terminated (s : bytes) : bool := existsb (fun c => bool_decide (c = x00)) s.

(** Whether a computation completes depends on its parameters and on the
    process ([pw_completes]); what it leaves in the output when it does not is
    not documented.  The verifier takes a NUL-terminated string, and answers
    for the strings of [pwhash()] as long as its computation completes. *)
Class PwhashDoc (F : pwhash_functions) := {
  pw_completes : env -> Z (* outlen *) -> Z (* passwdlen *) -> Z (* ops *) -> Z (* mem *) -> bool;
  pw_key : bytes (* passwd *) -> bytes (* salt *) -> Z -> Z -> Z (* outlen *) -> bytes;
  pw_str : bytes (* passwd *) -> bytes (* salt *) -> Z -> Z -> bytes;
  pw_check : env -> bytes (* str *) -> bytes (* passwd *) -> bool;
  pw_reject : bytes -> bytes;
  pw_sizes : 0 <= pf_saltbytes F <= 4096 /\ 0 <= pf_strbytes F <= 4096;
  pw_key_zlen p s o m n : 0 <= n -> zlen (pw_key p s o m n) = n;
  pw_str_zlen p s o m : zlen (pw_str p s o m) = pf_strbytes F;
  pw_reject_zlen b : zlen (pw_reject b) = zlen b;
  pw_str_terminated p s o m : terminated (pw_str p s o m) = true;
  (** the prefix is followed by the parameters *)
  pw_str_prefix p s o m :
    exists c r, pw_str p s o m = removelast (pf_strprefix F) ++ c :: r /\ c <> x00;
  pw_check_own e p s o m :
    pw_check e (pw_str p s o m) p = pw_completes e (pf_strbytes F) (zlen p) o m;
  pf_derive_doc out outlen p plen salt o m w :
    pf_derive F out outlen p plen salt o m w =
      (let* pb := read p plen in
       let* sb := read salt (pf_saltbytes F) in
       if pw_completes (w_env w) outlen plen o m
       then let* _ := write out (pw_key pb sb o m outlen) in ret 0
       else
         let* old := read out outlen in
         let* _ := write out (pw_reject old) in ret (-1)) w;
  pf_str_doc out p plen o m w :
    pf_str F out p plen o m w =
      (let* pb := read p plen in
       if pw_completes (w_env w) (pf_strbytes F) plen o m
       then
         let* sb := rand (pf_saltbytes F) in
         let* _ := write out (pw_str pb sb o m) in ret 0
       else
         let* old := read out (pf_strbytes F) in
         let* _ := write out (pw_reject old) in ret (-1)) w;
  pf_verify_doc str p plen w :
    pf_verify F str p plen w =
      (let* s := read str (pf_strbytes F) in
       if terminated s then
         let* pb := read p plen in
         ret (if pw_check (w_env w) s pb then 0 else -1)
       else undefined OutOfBounds) w
}.

(** ** What the wrappers do *)

Section PwhashFacts.
Context `{T : Target} {A : argon2_module} {D : PwhashDoc (argon2_functions A)}.

Lemma derive_key_run w key passwd salt o m kb pb sb :
  is_slice w key kb -> is_slice w passwd pb -> is_ref w salt (pw_saltbytes A) sb ->
  argon2.derive_key A key passwd salt o m w =
    if pw_completes (w_env w) (zlen kb) (zlen pb) (opslimit o) (memlimit m)
    then Done (Ok key) (w_write (s_ptr key) (pw_key pb sb (opslimit o) (memlimit m) (zlen kb)) w)
    else Done Err (w_write (s_ptr key) (pw_reject kb) w).
Proof.
  intros Hk Hp Hs. open_args. unfold argon2.derive_key.
  replace (s_len key) with (zlen kb) by done. replace (s_len passwd) with (zlen pb) by done.
  change (pwhash_name A ?out ?n ?p ?l salt ?op ?me (argon2.VARIANT A))
    with (pf_derive (argon2_functions A) out n p l salt op me).
  unfold bind at 1. rewrite pf_derive_doc.
  pose proof (pw_key_zlen pb sb (opslimit o) (memlimit m) (zlen kb) (zlen_nonneg kb)).
  pose proof (pw_reject_zlen kb).
  destruct (pw_completes _ _ _ _ _).
  - erewrite bind_done by (apply read_run; mem_tac). erewrite bind_done by (apply read_run; mem_tac).
    by erewrite bind_done by (apply write_run; mem_tac).
  - erewrite bind_done by (apply read_run; mem_tac). erewrite bind_done by (apply read_run; mem_tac).
    erewrite bind_done by (apply read_run; mem_tac). by erewrite bind_done by (apply write_run; mem_tac).
Qed.

Lemma pwhash_run `{U : UtilsExterns} w passwd o m pb :
  is_slice w passwd pb ->
  if pw_completes (w_env w) (pw_hashedpasswordbytes A) (zlen pb) (opslimit o) (memlimit m)
  then argon2.pwhash A passwd o m w =
    Done (Ok (pw_str pb (entropy (pw_saltbytes A) w) (opslimit o) (memlimit m)))
         (w_consume (pw_saltbytes A) w)
  else exists left, argon2.pwhash A passwd o m w = Done Err (w_with (env_drop left (w_env w)) w).
Proof.
  intros Hp. open_args. destruct pw_sizes as [Hs1 Hs2]. cbn in Hs1, Hs2.
  assert (Hrun : argon2.pwhash A passwd o m w =
    (let* out := stack_array (pw_hashedpasswordbytes A) in
     let* res := pf_str (argon2_functions A) (At out 0) (s_ptr passwd) (zlen pb) (opslimit o) (memlimit m) in
     match res with
     | 0 => let* r := move_out out in ret (Ok r)
     | _ => let* _ := free out in ret Err
     end) w).
  { unfold argon2.pwhash. by replace (s_len passwd) with (zlen pb) by done. }
  rewrite Hrun. clear Hrun. pose proof (fresh_block_spec w) as Hf. set (b := fresh_block w) in *.
  change (bind (stack_array ?n) ?f w) with (f b (w_put b (Some <$> zeros n) w)). cbv beta.
  set (junk := zeros (pw_hashedpasswordbytes A)).
  assert (Hj : zlen junk = pw_hashedpasswordbytes A) by (apply zlen_zeros; lia).
  pose proof (pw_reject_zlen junk).
  destruct (pw_completes _ _ _ _ _) eqn:Ec; [|eexists]; unfold bind at 1; rewrite pf_str_doc;
    cbn [w_env w_put pf_strbytes argon2_functions]; rewrite Ec;
    erewrite bind_done by (apply read_run; mem_tac).
  - pose proof (pw_str_zlen pb (entropy (pw_saltbytes A) w) (opslimit o) (memlimit m)).
    erewrite bind_done by (eapply rand_under; apply rand_run).
    erewrite bind_done by (apply write_put_run; rewrite zlen_fmap; cbn in *; lia).
    unfold ret at 1. by erewrite bind_done by (apply move_out_put_run; mem_tac).
  - erewrite bind_done by (apply read_run; [apply bytes_at_put_same|done]).
    erewrite bind_done by (apply write_put_run; rewrite zlen_fmap; lia).
    unfold ret at 1. by erewrite bind_done by (by apply free_put_run).
Qed.

Lemma pwhash_verify_run w hp passwd hb pb :
  is_ref w hp (pw_hashedpasswordbytes A) hb -> is_slice w passwd pb ->
  argon2.pwhash_verify A hp passwd w =
    if terminated hb then Done (pw_check (w_env w) hb pb) w else UB OutOfBounds.
Proof.
  intros Hh Hp. open_args. unfold argon2.pwhash_verify.
  replace (s_len passwd) with (zlen pb) by done.
  pose proof (pf_verify_doc (F := argon2_functions A) hp (s_ptr passwd) (zlen pb) w) as Hv.
  cbn [pf_verify pf_strbytes argon2_functions] in Hv. unfold bind at 1. rewrite Hv.
  erewrite bind_done by (apply read_run; mem_tac). destruct (terminated hb); [|done].
  erewrite bind_done by (apply read_run; mem_tac). unfold ret. by destruct (pw_check _ _ _).
Qed.

End PwhashFacts.

(** ** A reference password hash *)

Module RefPwhash.

Definition key (p s : bytes) (o m n : Z) : bytes :=
  le_bytes (Z.to_nat n) (le_val p + 5 * le_val s + o + m).
(** The string holds the prefix, a letter, a digest of the password, and zeroes;
    passwords of up to 1000 bytes are accepted. *)
Definition str (p : bytes) : bytes :=
  removelast crypto_pwhash_argon2id_STRPREFIX ++ x76 :: le_bytes 40 (le_val p) ++ zeros 77.
Definition completes (plen : Z) : bool := plen <=? 1000.

Definition externs : Argon2idExterns := {|
  crypto_pwhash_argon2id out outlen p plen salt o m alg :=
    let* pb := read p plen in
    let* sb := read salt 16 in
    if completes plen then let* _ := write out (key pb sb o m outlen) in ret 0
    else let* old := read out outlen in let* _ := write out old in ret (-1);
  crypto_pwhash_argon2id_str out p plen o m :=
    let* pb := read p plen in
    if completes plen then
      let* sb := rand 16 in
      let* _ := write out (str pb) in ret 0
    else let* old := read out 128 in let* _ := write out old in ret (-1);
  crypto_pwhash_argon2id_str_verify s p plen :=
    let* sb := read s 128 in
    if terminated sb then 
      let* pb := read p plen in
      ret (if bool_decide (sb = str pb) && completes (zlen pb) then 0 else -1)
    else undefined OutOfBounds
|}.

Definition A : argon2_module := @argon2id13 externs.

Lemma ref_str_zlen p : zlen (str p) = 128.
Proof. unfold str. rewrite zlen_app, zlen_cons, zlen_app, zlen_le_bytes. reflexivity. Qed.

#[refine] Definition doc : PwhashDoc (argon2_functions A) := {|
  pw_completes _ _ plen _ _ := completes plen;
  pw_key := key;
  pw_str p _ _ _ := str p;
  pw_check _ s p := bool_decide (s = str p) && completes (zlen p);
  pw_reject b := b
|}.
Proof.
  - cbn. unfold crypto_pwhash_argon2id_SALTBYTES, crypto_pwhash_argon2id_STRBYTES. lia.
  - intros. unfold key. rewrite zlen_le_bytes. lia.
  - intros. apply ref_str_zlen.
  - done.
  - intros p _ _ _. apply existsb_exists. exists x00. split; [|done].
    unfold str. rewrite !in_app_iff. right. right. apply in_app_iff. right. by left.
  - intros p _ _ _. by eexists _, _.
  - intros _ p _ _ _. by rewrite bool_decide_eq_true_2.
  - reflexivity.
  - reflexivity.
  - intros s p n w. cbn [pf_verify argon2_functions A argon2id13 pwhash_str_verify_name].
    reflexivity.
Defined.

Definition pass : bytes := [x68; x75; x6e; x74; x65; x72; x32].
Definition w : world := Ref.world [pass; replicate 128 x61].
Definition passwd : slice := Slice (At 1 0) 7.

End RefPwhash.

(** ** Properties *)

Section PwhashPrograms.
Context (A : argon2_module) `{T : Target} `{U : UtilsExterns}.

(** A client stores the hash of a password and verifies the password later. *)
Definition hash_then_verify (passwd : slice) (o : OpsLimit) (m : MemLimit) : M (result bool) :=
  let* r := argon2.pwhash A passwd o m in
  match r with
  | Ok hp =>
    let* p := place hp in
    let* ok := argon2.pwhash_verify A (At p 0) passwd in
    let* _ := NewType.drop (argon2.HashedPassword A) p in
    ret (Ok ok)
  | Err => ret Err
  end.

(** A client verifies a password against a string it kept in a database. *)
Definition verify_stored (stored passwd : slice) : M (option bool) :=
  let* r := NewType.from_slice (argon2.HashedPassword A) stored in
  match r with
  | Some hp =>
    let* p := place hp in
    let* ok := argon2.pwhash_verify A (At p 0) passwd in
    let* _ := NewType.drop (argon2.HashedPassword A) p in
    ret (Some ok)
  | None => ret None
  end.

End PwhashPrograms.

(** A password verifies against the string [pwhash()] made of it, whenever
    both computations complete; when the first one does not, [pwhash()] is an
    error; and the string is never passed to the verifier unterminated. *)
Theorem pwhash_verifies `{T : Target} `{U : UtilsExterns} A {D : PwhashDoc (argon2_functions A)}
    w passwd o m pb (Hp : is_slice w passwd pb) :
  let ok e := pw_completes e (argon2.HASHEDPASSWORDBYTES A) (zlen pb) (opslimit o) (memlimit m) in
  exists w', hash_then_verify A passwd o m w =
    Done (if ok (w_env w) then Ok (ok (w_env (w_consume (argon2.SALTBYTES A) w))) else Err) w' /\
    w_mem w' = w_mem w.
Proof.
  cbv zeta. pose proof (pwhash_run w passwd o m pb Hp) as Hrun. unfold hash_then_verify, argon2.HASHEDPASSWORDBYTES.
  destruct (pw_completes (w_env w) _ _ _ _).
  - set (s := pw_str _ _ _ _) in Hrun. rewrite (bind_done _ _ _ _ _ Hrun).
    set (w1 := w_consume _ w). pose proof (fresh_block_spec w1) as Hf. set (b := fresh_block w1) in *.
    change (bind (place s) ?f w1) with (f b (w_put b (Some <$> s) w1)). cbv beta.
    eexists. split.
    + erewrite bind_done.
      2: { rewrite (pwhash_verify_run _ (At b 0) passwd s pb).
           - unfold s. rewrite pw_str_terminated, pw_check_own. reflexivity.
           - split; [apply bytes_at_put_same|]. apply (pw_str_zlen (F := argon2_functions A)).
           - by apply is_slice_put_fresh. }
      cbn [NewType.drop nt_kind argon2.HashedPassword]. unfold NewType.drop.
      cbn [nt_kind argon2.HashedPassword]. erewrite bind_done by (by apply free_put_run).
      cbn [w_env w_put]. reflexivity.
    + done.
  - destruct Hrun as [left Hrun]. rewrite (bind_done _ _ _ _ _ Hrun). by eexists.
Qed.

Lemma pwhash_verifies_witness :
  exists w', @hash_then_verify RefPwhash.A Ref.utils RefPwhash.passwd
      (argon2.OPSLIMIT_INTERACTIVE RefPwhash.A) (argon2.MEMLIMIT_INTERACTIVE RefPwhash.A) RefPwhash.w =
    Done (Ok true) w' /\ w_mem w' = w_mem RefPwhash.w.
Proof.
  apply (@pwhash_verifies target64 Ref.utils RefPwhash.A RefPwhash.doc RefPwhash.w RefPwhash.passwd
    (argon2.OPSLIMIT_INTERACTIVE RefPwhash.A) (argon2.MEMLIMIT_INTERACTIVE RefPwhash.A) RefPwhash.pass).
  Ref.concrete.
Defined.

(** C36. A stored string of the right length verifies as libsodium says if it
    has a NUL, but [from_slice()] does not require one while libsodium does: on
    a string without one, these safe functions read out of bounds. *)
Theorem pwhash_verify_stored `{T : Target} `{U : UtilsExterns} A {D : PwhashDoc (argon2_functions A)}
    w stored passwd hb pb (Hs : is_slice w stored hb) (Hp : is_slice w passwd pb) :
  if decide (zlen hb = argon2.HASHEDPASSWORDBYTES A) then
    if terminated hb then
      exists w', verify_stored A stored passwd w = Done (Some (pw_check (w_env w) hb pb)) w' /\
        w_mem w' = w_mem w
    else verify_stored A stored passwd w = UB OutOfBounds
  else verify_stored A stored passwd w = Done None w.
Proof.
  pose proof (NewType.from_slice_run (argon2.HashedPassword A) w stored hb Hs) as Hf.
  cbn [nt_bytes argon2.HashedPassword] in Hf. unfold verify_stored. rewrite (bind_done _ _ _ _ _ Hf).
  clear Hf. destruct (decide _) as [Hl|]; [|done].
  pose proof (fresh_block_spec w) as Hb. set (b := fresh_block w) in *.
  set (w1 := w_put b (Some <$> hb) w).
  assert (Hv := pwhash_verify_run w1 (At b 0) passwd hb pb).
  assert (Hr : is_ref w1 (At b 0) (pw_hashedpasswordbytes A) hb) by (split; [apply bytes_at_put_same|done]).
  specialize (Hv Hr (is_slice_put_fresh _ _ _ _ _ Hb Hp)).
  change (bind (place hb) ?f w) with (f b w1). cbv beta.
  destruct (terminated hb).
  - eexists. split; [|shelve]. rewrite (bind_done _ _ _ _ _ Hv). unfold NewType.drop.
    cbn [nt_kind argon2.HashedPassword]. by erewrite bind_done by (by apply free_put_run).
    Unshelve. done.
  - unfold bind. by rewrite Hv.
Qed.

Lemma pwhash_verify_stored_witness :
  @verify_stored RefPwhash.A Ref.utils (Slice (At 2 0) 128) RefPwhash.passwd RefPwhash.w = UB OutOfBounds.
Proof.
  apply (@pwhash_verify_stored target64 Ref.utils RefPwhash.A RefPwhash.doc RefPwhash.w
    (Slice (At 2 0) 128) RefPwhash.passwd (replicate 128 x61) RefPwhash.pass); Ref.concrete.
Defined.
