(* ===== verification/Standards.v ===== *)
(** * The published algorithms as the foreign functions

    For each group of foreign functions of which the algorithm is published, an
    instance that computes it, and the proof that the instance has the
    documented behaviour the wrappers' theorems assume: every theorem about
    these wrappers holds of the real algorithms, and what the wrappers return
    can be computed. *)

From S2P Require Export Ciphers Curve Hash Auth Keys Secretbox Aead Box.

Module Std.

(** ** crypto/hash *)

Lemma sha2_laws A :
  Z.of_nat (Sha2.size A) <= 4096 -> Z.of_nat (8 * Sha2.wb A) <= 4096 -> StreamingLaws (Sha2.streaming A).
Proof. apply bytewise_laws. Qed.

Definition sha256_externs : Sha256Externs := {|
  crypto_hash_sha256 out m mlen := stream_oneshot (Sha2.streaming Sha256) out m mlen tt;
  crypto_hash_sha256_init st := stream_init (Sha2.streaming Sha256) st tt;
  crypto_hash_sha256_update := stream_update (Sha2.streaming Sha256);
  crypto_hash_sha256_final := stream_final (Sha2.streaming Sha256)
|}.

#[refine] Definition sha256_doc : HashDoc (@sha256 sha256_externs) := {|
  hash_streaming := Sha2.streaming Sha256
|}.
Proof. all: try reflexivity. by apply sha2_laws. Defined.

Definition sha512_externs : Sha512Externs := {|
  crypto_hash_sha512 out m mlen := stream_oneshot (Sha2.streaming Sha512) out m mlen tt;
  crypto_hash_sha512_init st := stream_init (Sha2.streaming Sha512) st tt;
  crypto_hash_sha512_update := stream_update (Sha2.streaming Sha512);
  crypto_hash_sha512_final := stream_final (Sha2.streaming Sha512)
|}.

#[refine] Definition sha512_doc : HashDoc (@sha512 sha512_externs) := {|
  hash_streaming := Sha2.streaming Sha512
|}.
Proof. all: try reflexivity. by apply sha2_laws. Defined.

(** ** crypto/auth *)

Section Mac.
Context (mac : bytes -> bytes -> bytes) (keybytes tagbytes : Z).

Definition mac_of : auth_fn := fun out m mlen k =>
  let* mb := read m mlen in
  let* kb := read k keybytes in
  let* _ := write out (mac kb mb) in ret 0.

Definition mac_verify : auth_verify_fn := fun h m mlen k =>
  let* tag := read h tagbytes in
  let* mb := read m mlen in
  let* kb := read k keybytes in
  ret (if decide (tag = mac kb mb) then 0 else -1).

End Mac.

Definition keyed_init (S : streaming bytes) : auth_init_fn := fun st k klen =>
  let* kb := read k klen in stream_init S st kb.

Definition hmacsha256_externs : HmacSha256Externs := {|
  crypto_auth_hmacsha256 := mac_of (st_digest hmac_sha256) 32;
  crypto_auth_hmacsha256_verify := mac_verify (st_digest hmac_sha256) 32 32;
  crypto_auth_hmacsha256_init := keyed_init hmac_sha256;
  crypto_auth_hmacsha256_update := stream_update hmac_sha256;
  crypto_auth_hmacsha256_final := stream_final hmac_sha256
|}.

Definition hmacsha512_externs : HmacSha512Externs := {|
  crypto_auth_hmacsha512 := mac_of (st_digest hmac_sha512) 32;
  crypto_auth_hmacsha512_verify := mac_verify (st_digest hmac_sha512) 32 64;
  crypto_auth_hmacsha512_init := keyed_init hmac_sha512;
  crypto_auth_hmacsha512_update := stream_update hmac_sha512;
  crypto_auth_hmacsha512_final := stream_final hmac_sha512
|}.

Definition hmacsha512256_externs : HmacSha512256Externs := {|
  crypto_auth_hmacsha512256 := mac_of (st_digest hmac_sha512256) 32;
  crypto_auth_hmacsha512256_verify := mac_verify (st_digest hmac_sha512256) 32 32;
  crypto_auth_hmacsha512256_init := keyed_init hmac_sha512256;
  crypto_auth_hmacsha512256_update := stream_update hmac_sha512256;
  crypto_auth_hmacsha512256_final := stream_final hmac_sha512256
|}.

Lemma digest_zlen {P} (S : streaming P) {L : StreamingLaws S} p m : zlen (st_digest S p m) = st_out S.
Proof. apply st_final_zlen. Qed.

#[export] Instance hmac_sha256_laws : StreamingLaws hmac_sha256.
Proof. by apply bytewise_laws. Qed.
#[export] Instance hmac_sha512_laws : StreamingLaws hmac_sha512.
Proof. by apply bytewise_laws. Qed.
#[export] Instance hmac_sha512256_laws : StreamingLaws hmac_sha512256.
Proof. by apply bytewise_laws. Qed.

#[refine] Definition hmacsha256_doc : AuthDoc (@hmacsha256 hmacsha256_externs) := {|
  auth_mac := st_digest hmac_sha256
|}.
Proof. all: try reflexivity. { done. } intros. apply (digest_zlen hmac_sha256). Defined.
#[refine] Definition hmacsha512_doc : AuthDoc (@hmacsha512 hmacsha512_externs) := {|
  auth_mac := st_digest hmac_sha512
|}.
Proof. all: try reflexivity. { done. } intros. apply (digest_zlen hmac_sha512). Defined.
#[refine] Definition hmacsha512256_doc : AuthDoc (@hmacsha512256 hmacsha512256_externs) := {|
  auth_mac := st_digest hmac_sha512256
|}.
Proof. all: try reflexivity. { done. } intros. apply (digest_zlen hmac_sha512256). Defined.

#[refine] Definition hmacsha256_state_doc : AuthStateDoc (@hmacsha256_state hmacsha256_externs) := {|
  auth_streaming := hmac_sha256
|}.
Proof. all: reflexivity. Defined.
#[refine] Definition hmacsha512_state_doc : AuthStateDoc (@hmacsha512_state hmacsha512_externs) := {|
  auth_streaming := hmac_sha512
|}.
Proof. all: reflexivity. Defined.
#[refine] Definition hmacsha512256_state_doc : AuthStateDoc (@hmacsha512256_state hmacsha512256_externs) := {|
  auth_streaming := hmac_sha512256
|}.
Proof. all: reflexivity. Defined.

(** ** crypto/onetimeauth *)

Definition onetimeauth_externs : OnetimeauthExterns := {|
  crypto_onetimeauth_poly1305 := mac_of Poly1305.mac 32;
  crypto_onetimeauth_poly1305_verify := mac_verify Poly1305.mac 32 16
|}.

#[refine] Definition onetimeauth_doc : AuthDoc (@poly1305 onetimeauth_externs) := {|
  auth_mac := Poly1305.mac
|}.
Proof. all: try reflexivity. done. Defined.

(** ** crypto/generichash, crypto/kdf, crypto/shorthash *)

Definition blake2b (o : Z) : streaming bytes := Blake2b.streaming (Z.to_nat o).

Definition generichash_externs : GenerichashExterns := {|
  crypto_generichash out o m mlen k klen :=
    let* kb := read k klen in stream_oneshot (blake2b o) out m mlen kb;
  crypto_generichash_init st k klen o := let* kb := read k klen in stream_init (blake2b o) st kb;
  crypto_generichash_update := stream_update (blake2b 64);
  crypto_generichash_final st out o := stream_final (blake2b o) st out
|}.

#[refine] Definition generichash_doc : GenerichashDoc generichash_externs := {| gh := blake2b |}.
Proof.
  all: try reflexivity; unfold gh_out_ok; intros o Ho.
  - apply bytewise_laws; [done|lia].
  - cbn. lia.
Defined.

Definition kdf_subkey_of (k ctx : bytes) (i n : Z) : bytes :=
  Blake2b.digest_with (Z.to_nat n) k (le_bytes 8 i) ctx [].

Definition kdf_externs : KdfExterns := {|
  crypto_kdf_blake2b_derive_from_key sub len i ctx key :=
    if (len <? 16) || (64 <? len) then ret (-1)
    else
      let* cb := read ctx 8 in
      let* kb := read key 32 in
      let* _ := write sub (kdf_subkey_of kb cb i len) in
      ret 0
|}.

#[refine] Definition kdf_doc : KdfDoc kdf_externs := {| kdf_subkey := kdf_subkey_of |}.
Proof.
  - intros. unfold kdf_subkey_of, Blake2b.digest_with, zlen. rewrite length_fit. lia.
  - reflexivity.
Defined.

Definition shorthash_externs : ShorthashExterns := {|
  crypto_shorthash_siphash24 out m mlen k :=
    let* mb := read m mlen in
    let* kb := read k 16 in
    let* _ := write out (SipHash.digest kb mb) in ret 0
|}.

#[refine] Definition shorthash_doc : ShorthashDoc shorthash_externs := {| sip := SipHash.digest |}.
Proof. { apply SipHash.siphash_zlen. } reflexivity. Defined.

(** ** crypto/stream *)

Section Keystream.
Context (block : bytes -> bytes -> Z -> bytes) (noncebytes : Z).

Definition stream_of : stream_fn := fun c clen n k =>
  let* nb := read n noncebytes in
  let* kb := read k 32 in
  let* _ := write c (window (block_stream block kb nb) 0 (Z.to_nat clen)) in
  ret 0.

Definition xor_at (pos : Z) (c m : ptr) (mlen : Z) (n k : ptr) : M Z :=
  let* _ := restrict_inplace c mlen m mlen in
  let* mb := read m mlen in
  let* nb := read n noncebytes in
  let* kb := read k 32 in
  let* _ := write c (xor_from (block_stream block kb nb) pos mb) in
  ret 0.

End Keystream.

Definition xsalsa20_externs : StreamXsalsa20Externs := {|
  crypto_stream_xsalsa20 := stream_of Salsa20.xblock 24;
  crypto_stream_xsalsa20_xor c m mlen n k := xor_at Salsa20.xblock 24 0 c m mlen n k;
  crypto_stream_xsalsa20_xor_ic c m mlen n ic k := xor_at Salsa20.xblock 24 (64 * ic) c m mlen n k
|}.

#[refine] Definition xsalsa20_doc : StreamDoc (@xsalsa20 xsalsa20_externs) := {|
  keystream := block_stream Salsa20.xblock
|}.
Proof. all: reflexivity. Defined.

Definition salsa20_externs : StreamSalsa20Externs := {|
  crypto_stream_salsa20 := stream_of Salsa20.block 8;
  crypto_stream_salsa20_xor c m mlen n k := xor_at Salsa20.block 8 0 c m mlen n k;
  crypto_stream_salsa20_xor_ic c m mlen n ic k := xor_at Salsa20.block 8 (64 * ic) c m mlen n k
|}.

#[refine] Definition salsa20_doc : StreamDoc (@salsa20 salsa20_externs) := {|
  keystream := block_stream Salsa20.block
|}.
Proof. all: reflexivity. Defined.

Definition chacha20_externs : StreamChacha20Externs := {|
  crypto_stream_chacha20 := stream_of ChaCha20.block 8;
  crypto_stream_chacha20_xor c m mlen n k := xor_at ChaCha20.block 8 0 c m mlen n k;
  crypto_stream_chacha20_xor_ic c m mlen n ic k := xor_at ChaCha20.block 8 (64 * ic) c m mlen n k
|}.

#[refine] Definition chacha20_doc : StreamDoc (@chacha20 chacha20_externs) := {|
  keystream := block_stream ChaCha20.block
|}.
Proof. all: reflexivity. Defined.

Definition xchacha20_externs : StreamXchacha20Externs := {|
  crypto_stream_xchacha20 := stream_of ChaCha20.xblock 24;
  crypto_stream_xchacha20_xor c m mlen n k := xor_at ChaCha20.xblock 24 0 c m mlen n k;
  crypto_stream_xchacha20_xor_ic c m mlen n ic k := xor_at ChaCha20.xblock 24 (64 * ic) c m mlen n k
|}.

#[refine] Definition xchacha20_doc : StreamDoc (@xchacha20 xchacha20_externs) := {|
  keystream := block_stream ChaCha20.xblock
|}.
Proof. all: reflexivity. Defined.

(** ** crypto/secretbox *)

#[local] Abbreviation C := XSalsa20Poly1305.cipher.

Definition secretbox_externs : SecretboxExterns := {|
  crypto_secretbox_easy c m mlen n k := let* kb := read k 32 in encrypt_easy C kb c m mlen n;
  crypto_secretbox_open_easy m c clen n k := let* kb := read k 32 in decrypt_easy C kb m c clen n;
  crypto_secretbox_detached c mac m mlen n k :=
    let* kb := read k 32 in encrypt_detached C kb c mac m mlen n;
  crypto_secretbox_open_detached m c mac clen n k :=
    let* kb := read k 32 in decrypt_detached C kb m c mac clen n
|}.

#[refine] Definition secretbox_doc : SecretboxDoc secretbox_externs := {| secretbox_cipher := C |}.
Proof. all: try reflexivity. apply XSalsa20Poly1305.xsalsa20poly1305_laws. Defined.

(** ** crypto/aead *)

(** A failed decryption zeroes the output. *)
Definition junk (c : bytes) : bytes := zeros (zlen c).

Definition chacha20poly1305_ietf_externs : Chacha20Poly1305IetfExterns := {|
  crypto_aead_chacha20poly1305_ietf_encrypt := aead_encrypt ChaCha20Poly1305.ietf 32;
  crypto_aead_chacha20poly1305_ietf_decrypt := aead_decrypt ChaCha20Poly1305.ietf junk 32;
  crypto_aead_chacha20poly1305_ietf_encrypt_detached := aead_encrypt_detached ChaCha20Poly1305.ietf 32;
  crypto_aead_chacha20poly1305_ietf_decrypt_detached := aead_decrypt_detached ChaCha20Poly1305.ietf junk 32
|}.

Definition chacha20poly1305_externs : Chacha20Poly1305Externs := {|
  crypto_aead_chacha20poly1305_encrypt := aead_encrypt ChaCha20Poly1305.original 32;
  crypto_aead_chacha20poly1305_decrypt := aead_decrypt ChaCha20Poly1305.original junk 32;
  crypto_aead_chacha20poly1305_encrypt_detached := aead_encrypt_detached ChaCha20Poly1305.original 32;
  crypto_aead_chacha20poly1305_decrypt_detached := aead_decrypt_detached ChaCha20Poly1305.original junk 32
|}.

Definition xchacha20poly1305_ietf_externs : Xchacha20Poly1305IetfExterns := {|
  crypto_aead_xchacha20poly1305_ietf_encrypt := aead_encrypt ChaCha20Poly1305.xchacha 32;
  crypto_aead_xchacha20poly1305_ietf_decrypt := aead_decrypt ChaCha20Poly1305.xchacha junk 32;
  crypto_aead_xchacha20poly1305_ietf_encrypt_detached := aead_encrypt_detached ChaCha20Poly1305.xchacha 32;
  crypto_aead_xchacha20poly1305_ietf_decrypt_detached := aead_decrypt_detached ChaCha20Poly1305.xchacha junk 32
|}.

Definition aes256gcm_externs : Aes256GcmExterns := {|
  crypto_aead_aes256gcm_is_available := ret 1;
  crypto_aead_aes256gcm_encrypt := aead_encrypt AesGcm.cipher 32;
  crypto_aead_aes256gcm_decrypt := aead_decrypt AesGcm.cipher junk 32;
  crypto_aead_aes256gcm_encrypt_detached := aead_encrypt_detached AesGcm.cipher 32;
  crypto_aead_aes256gcm_decrypt_detached := aead_decrypt_detached AesGcm.cipher junk 32
|}.

Lemma junk_zlen c : zlen (junk c) = zlen c.
Proof. apply zlen_zeros, zlen_nonneg. Qed.

#[refine] Definition chacha20poly1305_ietf_doc : AeadDoc (@chacha20poly1305_ietf chacha20poly1305_ietf_externs) := {|
  aead_cipher := ChaCha20Poly1305.ietf; aead_junk := junk; aead_junk_zlen := junk_zlen
|}.
Proof. all: try reflexivity. apply ChaCha20Poly1305.ietf_laws. Defined.

#[refine] Definition chacha20poly1305_doc : AeadDoc (@chacha20poly1305 chacha20poly1305_externs) := {|
  aead_cipher := ChaCha20Poly1305.original; aead_junk := junk; aead_junk_zlen := junk_zlen
|}.
Proof. all: try reflexivity. apply ChaCha20Poly1305.original_laws. Defined.

#[refine] Definition xchacha20poly1305_ietf_doc : AeadDoc (@xchacha20poly1305_ietf xchacha20poly1305_ietf_externs) := {|
  aead_cipher := ChaCha20Poly1305.xchacha; aead_junk := junk; aead_junk_zlen := junk_zlen
|}.
Proof. all: try reflexivity. apply ChaCha20Poly1305.xchacha_laws. Defined.

#[refine] Definition aes256gcm_doc : AeadDoc (@aes_impl aes256gcm_externs) := {|
  aead_cipher := AesGcm.cipher; aead_junk := junk; aead_junk_zlen := junk_zlen
|}.
Proof. all: try reflexivity. apply AesGcm.aes256gcm_laws. Defined.

(** ** crypto/scalarmult, crypto/kx, crypto/box_ *)

Definition scalarmult_externs : ScalarmultExterns := {|
  crypto_scalarmult_curve25519 q n p :=
    let* nb := read n 32 in
    let* pb := read p 32 in
    match X25519.mult nb pb with
    | Some qb => let* _ := write q qb in ret 0
    | None => let* _ := write q (zeros 32) in ret (-1)
    end;
  crypto_scalarmult_curve25519_base q n :=
    let* nb := read n 32 in let* _ := write q (X25519.public nb) in ret 0;
  crypto_scalarmult_base q n :=
    let* nb := read n 32 in let* _ := write q (X25519.public nb) in ret 0
|}.

#[refine] Definition scalarmult_doc : ScalarmultDoc scalarmult_externs := {|
  x_mult := X25519.mult; x_base := X25519.public; x_reject _ _ := zeros 32
|}.
Proof.
  - apply X25519.mult_zlen.
  - apply X25519.public_zlen.
  - done.
  - reflexivity.
  - reflexivity.
Defined.

Definition kx_seed (s : bytes) : bytes := st_digest (blake2b 32) [] s.
Definition kx_shared_of (pk sk : bytes) : option bytes := X25519.mult sk pk.
Definition kx_keys (q client_pk server_pk : bytes) : bytes := st_digest (blake2b 64) [] (q ++ client_pk ++ server_pk).

Definition kx_externs : KxExterns := {|
  crypto_kx_seed_keypair pk sk seed :=
    let* s := read seed 32 in
    let* _ := write sk (kx_seed s) in let* _ := write pk (X25519.public (kx_seed s)) in ret 0;
  crypto_kx_keypair pk sk :=
    let* r := rand 32 in let* _ := write sk r in let* _ := write pk (X25519.public r) in ret 0;
  crypto_kx_client_session_keys rx tx cpk csk spk :=
    let* cpkb := read cpk 32 in
    let* cskb := read csk 32 in
    let* spkb := read spk 32 in
    match kx_shared_of spkb cskb with
    | None => ret (-1)
    | Some q =>
      let* _ := write rx (take 32 (kx_keys q cpkb spkb)) in
      let* _ := write tx (drop 32 (kx_keys q cpkb spkb)) in ret 0
    end;
  crypto_kx_server_session_keys rx tx spk ssk cpk :=
    let* spkb := read spk 32 in
    let* sskb := read ssk 32 in
    let* cpkb := read cpk 32 in
    match kx_shared_of cpkb sskb with
    | None => ret (-1)
    | Some q =>
      let* _ := write tx (take 32 (kx_keys q cpkb spkb)) in
      let* _ := write rx (drop 32 (kx_keys q cpkb spkb)) in ret 0
    end
|}.

Lemma blake2b_zlen o k m : 0 <= o -> zlen (st_digest (blake2b o) k m) = o.
Proof. intros Ho. unfold st_digest, blake2b, Blake2b.streaming. rewrite zlen_bytewise_final. lia. Qed.

#[refine] Definition kx_doc : KxDoc kx_externs := {|
  kx_seeded := kx_seed; kx_public := X25519.public; kx_shared := kx_shared_of; kx_hash := kx_keys
|}.
Proof.
  - intros s. unfold kx_seed. by rewrite blake2b_zlen.
  - apply X25519.public_zlen.
  - intros q c s. unfold kx_keys. by rewrite blake2b_zlen.
  - reflexivity.
  - reflexivity.
  - reflexivity.
  - reflexivity.
Defined.

(** The key of a box is derived from the shared point. *)
Definition box_seed (s : bytes) : bytes := take 32 (st_digest (Sha2.streaming Sha512) tt s).
Definition box_key (pk sk : bytes) : option bytes :=
  (fun q => Salsa20.hsalsa20 q (zeros 16)) <$> X25519.mult sk pk.

Definition with_key (pk sk : ptr) (f : bytes -> M Z) : M Z :=
  let* pkb := read pk 32 in
  let* skb := read sk 32 in
  match box_key pkb skb with Some kb => f kb | None => ret (-1) end.

Definition box_externs : BoxExterns := {|
  crypto_box_curve25519xsalsa20poly1305_seed_keypair pk sk seed :=
    let* s := read seed 32 in
    let* _ := write sk (box_seed s) in let* _ := write pk (X25519.public (box_seed s)) in ret 0;
  crypto_box_curve25519xsalsa20poly1305_keypair pk sk :=
    let* r := rand 32 in let* _ := write sk r in let* _ := write pk (X25519.public r) in ret 0;
  crypto_box_curve25519xsalsa20poly1305_beforenm k pk sk :=
    with_key pk sk (fun kb => let* _ := write k kb in ret 0);
  crypto_box_easy c m mlen n pk sk := with_key pk sk (fun kb => encrypt_easy C kb c m mlen n);
  crypto_box_open_easy m c clen n pk sk := with_key pk sk (fun kb => decrypt_easy C kb m c clen n);
  crypto_box_detached c mac m mlen n pk sk :=
    with_key pk sk (fun kb => encrypt_detached C kb c mac m mlen n);
  crypto_box_open_detached m c mac clen n pk sk :=
    with_key pk sk (fun kb => decrypt_detached C kb m c mac clen n);
  crypto_box_easy_afternm c m mlen n k := let* kb := read k 32 in encrypt_easy C kb c m mlen n;
  crypto_box_open_easy_afternm m c clen n k := let* kb := read k 32 in decrypt_easy C kb m c clen n;
  crypto_box_detached_afternm c mac m mlen n k :=
    let* kb := read k 32 in encrypt_detached C kb c mac m mlen n;
  crypto_box_open_detached_afternm m c mac clen n k :=
    let* kb := read k 32 in decrypt_detached C kb m c mac clen n
|}.

Lemma hsalsa20_zlen q n : zlen (Salsa20.hsalsa20 q n) = 32.
Proof. unfold Salsa20.hsalsa20, words_le. cbn [fmap list_fmap concat]. unfold zlen. by rewrite !length_app, !length_le_bytes. Qed.

#[refine] Definition box_doc : BoxDoc box_externs := {|
  box_cipher := C; box_public := X25519.public; box_seeded := box_seed; box_shared := box_key
|}.
Proof.
  all: try reflexivity.
  - apply XSalsa20Poly1305.xsalsa20poly1305_laws.
  - intros s. unfold box_seed, st_digest, Sha2.streaming. apply (zlen_take 32). by rewrite zlen_bytewise_final.
  - intros pk sk k. unfold box_key. destruct (X25519.mult sk pk); [|done]. intros [= <-]. apply hsalsa20_zlen.
Defined.

End Std.
