(* ===== verification/KeyTests.v ===== *)
(** * The tests of crypto/kx, crypto/kdf, crypto/scalarmult, crypto/pwhash and
      crypto/generichash

    The tests that do not compare with published vectors or modify a password.  Two of them pass only
    when the generator does not repeat itself ([test_kx], [test_gen_key]), the
    ones of the password hash only when the computation completes; the theorems
    say so. *)

From S2P Require Export Locals Hash Keys Pwhash.

(** ** crypto/kx *)

Section KxTests.
Context `{E : KxExterns} `{U : UtilsExterns}.

(** [let (pk, sk) = gen_keypair();] *)
Definition kx_keypair : M (ptr * ptr) :=
  let* '(pkb, skb) := kx.gen_keypair in
  let* pk := place pkb in
  let* sk := place skb in
  ret (At pk 0, At sk 0).

Definition assert_equal (n : newtype) (a b : ptr) : M unit :=
  let* r := NewType.eq n a b in assert r.
Definition assert_differ (n : newtype) (a b : ptr) : M unit :=
  let* r := NewType.eq n a b in assert (negb r).

(** [let (rx, tx) = r.unwrap();] *)
Definition session_keys (r : result (bytes * bytes)) : M (ptr * ptr) :=
  let* '(rxb, txb) := unwrap r in
  let* rx := place rxb in
  let* tx := place txb in
  ret (At rx 0, At tx 0).

Definition test_kx : M unit :=
  let* '(client_pk, client_sk) := kx_keypair in
  let* '(server_pk, server_sk) := kx_keypair in
  let* _ := assert_differ kx.PublicKey client_pk server_pk in
  let* _ := assert_differ kx.SecretKey client_sk server_sk in
  let* r := kx.client_session_keys client_pk client_sk server_pk in
  let* '(client_rx, client_tx) := session_keys r in
  let* r := kx.server_session_keys server_pk server_sk client_pk in
  let* '(server_rx, server_tx) := session_keys r in
  let* _ := assert_equal kx.SessionKey client_rx server_tx in
  assert_equal kx.SessionKey client_tx server_rx.

Definition test_kx_non_acceptable_keys : M unit :=
  let* '(client_pk, client_sk) := kx_keypair in
  let* '(server_pk, server_sk) := kx_keypair in
  let* fake_client_pk := place (zeros kx.PUBLICKEYBYTES) in
  let* fake_server_pk := place (zeros kx.PUBLICKEYBYTES) in
  let* r := kx.client_session_keys client_pk client_sk (At fake_server_pk 0) in
  let* _ := assert (negb (is_ok r)) in
  let* r := kx.server_session_keys server_pk server_sk (At fake_client_pk 0) in
  assert (negb (is_ok r)).

End KxTests.

(** ** crypto/kdf *)

Section KdfTests.
Context `{T : Target} `{E : KdfExterns} `{U : UtilsExterns} `{R : RandombytesExterns}.

Definition test_gen_key : M unit :=
  let* key1 := local kdf.gen_key in
  let* key2 := local kdf.gen_key in
  assert_differ kdf.Key key1 key2.

Definition test_keysize_out_of_bounds : M unit :=
  let* key := place (zeros kdf.KEYBYTES) in
  let ctx := zeros kdf.CONTEXTBYTES in
  let* subkey_too_small := vec_of (zeros (kdf.BYTES_MIN - 1)) in
  let* subkey_too_big := vec_of (zeros (kdf.BYTES_MAX + 1)) in
  let* r := kdf.derive_from_key (v_slice subkey_too_small) 1 ctx (At key 0) in
  let* _ := assert (negb (is_ok r)) in
  let* r := kdf.derive_from_key (v_slice subkey_too_big) 1 ctx (At key 0) in
  assert (negb (is_ok r)).

End KdfTests.

(** ** crypto/scalarmult: a test that should panic *)

Definition test_all_zero `{E : ScalarmultExterns} `{R : RandombytesExterns} : M bytes :=
  let* sk := stack_array scalarmult.SCALARBYTES in
  let* _ := randombytes_into (Slice (At sk 0) scalarmult.SCALARBYTES) in
  let* pk := place (zeros scalarmult.GROUPELEMENTBYTES) in
  let* r := scalarmult.scalarmult (At sk 0) (At pk 0) in
  unwrap r.

(** ** crypto/pwhash *)

Definition test_pwhash_verify `{T : Target} `{U : UtilsExterns} `{R : RandombytesExterns}
    (A : argon2_module) : M unit :=
  for_range 0 32 (fun i =>
    let* pw := randombytes i in
    let* r := argon2.pwhash A (v_slice pw) (MkOpsLimit 16) (MkMemLimit 8192) in
    let* hp := unwrap r in
    let* pwh := place hp in
    let* ok := argon2.pwhash_verify A (At pwh 0) (v_slice pw) in
    assert ok).

(** ** crypto/generichash *)

Section GenerichashTests.
Context `{E : GenerichashExterns} `{U : UtilsExterns}.

(** [let mut hasher = State::new(out_len, key).unwrap();
    hasher.update(&data).unwrap(); hasher.finalize().unwrap()] *)
Definition digest_of (out_len : option Z) (key : option slice) (data : slice) : M digest.ref :=
  let* r := generichash.State_new out_len key in
  let* st := unwrap r in
  let* hasher := place (generichash.state st) in
  let* r := generichash.State_update (At hasher 0) data in
  let* _ := unwrap r in
  let* s := move_out hasher in
  let* r := generichash.State_finalize (generichash.MkState (generichash.out_len st) s) in
  let* h := unwrap r in
  let* p := place (digest.data h) in
  ret (digest.Ref (digest.len h) (At p 0)).

Definition test_digest_equal : M unit :=
  let* data1 := place [x01; x02] in
  let* data2 := place [x01; x02] in
  let* h1 := digest_of None None (Slice (At data1 0) 2) in
  let* h2 := digest_of None None (Slice (At data2 0) 2) in
  let* r := digest.eq h1 h2 in
  assert r.

Definition test_digest_not_equal : M unit :=
  let* data1 := place [x01; x02] in
  let* data2 := place [x03; x04] in
  let* h1 := digest_of None None (Slice (At data1 0) 2) in
  let* h2 := digest_of None None (Slice (At data2 0) 2) in
  let* h3 := digest_of None None (Slice (At data1 0) 2) in
  let* r := digest.eq h1 h2 in
  let* _ := assert (negb r) in
  let* r := digest.eq h1 h3 in
  assert r.

End GenerichashTests.

(** ** The tests of crypto/kx *)

Section KxPass.
Context `{T : Target} `{E : KxExterns} {D : KxDoc E} {KA : KxAgreement E D} `{U : UtilsExterns} {UD : UtilsDoc U}.

Lemma local_assert_eq n (Q : unit -> world -> Prop) w m a b x y (want : bool) :
  holds w m -> m !! a = Some x -> m !! b = Some y -> zlen x = nt_bytes n -> zlen y = nt_bytes n ->
  nt_bytes n <= 4096 -> (if want then x = y else x <> y) -> Q tt w ->
  does w (if want then assert_equal n (At a 0) (At b 0) else assert_differ n (At a 0) (At b 0)) Q.
Proof.
  intros Hw Ha Hb Hx Hy Hn Hxy Hq. unfold assert_equal, assert_differ.
  destruct want; (eapply (local_eq _ (UD := UD)); [exact Hw|exact Ha|exact Hb|exact Hx|exact Hy|exact Hn|]).
  - rewrite bool_decide_true by done. by exists tt, w.
  - rewrite bool_decide_false by done. by exists tt, w.
Qed.

Lemma local_kx_keypair {B} (Q : B -> world -> Prop) w m (f : ptr * ptr -> M B) :
  holds w m ->
  (forall pk sk w', pk <> sk -> m !! pk = None -> m !! sk = None ->
     holds w' (<[sk := entropy 32 w]> (<[pk := kx_public (entropy 32 w)]> m)) ->
     w_env w' = w_env (w_consume 32 w) -> does w' (f (At pk 0, At sk 0)) Q) ->
  does w (bind kx_keypair f) Q.
Proof.
  intros Hw Hf. unfold kx_keypair. apply local_assoc. eapply local_run; [apply kx_gen_keypair_run|].
  assert (Hw1 : holds (w_consume 32 w) m) by (by eapply holds_same).
  pose proof (fresh_block_spec (w_consume 32 w)) as Hb1. set (b1 := fresh_block _) in *.
  set (w2 := w_put b1 (Some <$> kx_public (entropy 32 w)) (w_consume 32 w)).
  pose proof (fresh_block_spec w2) as Hb2. set (b2 := fresh_block w2) in *.
  assert (Hw2 : holds w2 (<[b1 := kx_public (entropy 32 w)]> m)) by (by eapply holds_insert).
  pose proof (holds_None _ _ _ Hw1 Hb1) as Hm1. pose proof (holds_None _ _ _ Hw2 Hb2) as Hm2.
  destruct (Hf b1 b2 (w_put b2 (Some <$> entropy 32 w) w2)) as (r & w' & Hr & Hq).
  - by apply lookup_insert_None in Hm2 as [_ ?].
  - done.
  - by apply lookup_insert_None in Hm2 as [? _].
  - by eapply holds_insert.
  - done.
  - exists r, w'. split; [|done]. by do 2 (eapply bind_step; [|exact Hr] || eapply bind_step).
Qed.

Lemma entropy_env n w w' : w_env w' = w_env w -> entropy n w' = entropy n w.
Proof. unfold entropy. by intros ->. Qed.

Lemma local_session_keys {B} (Q : B -> world -> Prop) w m rx tx (f : ptr * ptr -> M B) :
  holds w m ->
  (forall a b w', a <> b -> m !! a = None -> m !! b = None -> holds w' (<[b := tx]> (<[a := rx]> m)) ->
     does w' (f (At a 0, At b 0)) Q) ->
  does w (bind (session_keys (Ok (rx, tx))) f) Q.
Proof.
  intros Hw Hf. unfold session_keys. apply local_assoc. eapply local_unwrap; [reflexivity|]. apply local_assoc.
  eapply local_place; [exact Hw|]. intros a w1 Ha Hw1. apply local_assoc.
  eapply local_place; [exact Hw1|]. intros b w2 Hb Hw2. fresh_facts. by apply local_ret, Hf.
Qed.

(** The two keys the generator gives next *)
Definition first_key (w : world) : bytes := entropy 32 w.
Definition second_key (w : world) : bytes := entropy 32 (w_consume 32 w).

Lemma kx_ref w m p bs : holds w m -> m !! p = Some bs -> zlen bs = 32 -> is_ref w (At p 0) 32 bs.
Proof. intros Hw Hp <-. by eapply holds_ref. Qed.

(** [test_kx] passes when the generator does not repeat itself, the public keys
    differ as the secret keys do, and the shared secret exists. *)
Lemma test_kx_passes w q :
  first_key w <> second_key w -> kx_public (first_key w) <> kx_public (second_key w) ->
  kx_shared (kx_public (second_key w)) (first_key w) = Some q ->
  does w test_kx (fun _ _ => True).
Proof.
  intros Hne Hpne Hq. pose proof (kx_shared_sym (second_key w) (first_key w)) as Hsym. rewrite Hq in Hsym.
  unfold test_kx. eapply local_kx_keypair; [apply holds_empty|]. fold (first_key w). intros cpk csk w1 Hn1 _ _ Hw1 Env1.
  eapply local_kx_keypair; [exact Hw1|]. rewrite (entropy_env 32 (w_consume 32 w) w1 Env1). fold (second_key w).
  intros spk ssk w2 Hn2 Hspk Hssk Hw2 _. clear Env1. fresh_facts.
  set (a := first_key w) in *. set (b := second_key w) in *.
  assert (Hla : zlen a = 32) by (by apply entropy_zlen). assert (Hlb : zlen b = 32) by (by apply entropy_zlen).
  pose proof (kx_public_zlen a) as Hpa. pose proof (kx_public_zlen b) as Hpb.
  eapply (does_bind _ _ _ (fun _ w' => w' = w2)).
  { eapply (local_assert_eq _ _ _ _ _ _ _ _ false); [exact Hw2|local_tac|local_tac|done..]. }
  intros [] ? ->. eapply (does_bind _ _ _ (fun _ w' => w' = w2)).
  { eapply (local_assert_eq _ _ _ _ _ _ _ _ false); [exact Hw2|local_tac|local_tac|done..]. }
  intros [] ? ->. eapply local_run.
  { rewrite (client_session_keys_run w2 _ _ _ (kx_public a) a (kx_public b));
      [rewrite Hq; reflexivity|eapply kx_ref; [exact Hw2|local_tac|done]..]. }
  destruct (kx_hash_halves q (kx_public a) (kx_public b)) as [Hh1 Hh2].
  eapply local_session_keys; [exact Hw2|]. intros crx ctx w3 Hn3 Hcrx Hctx Hw3. fresh_facts.
  eapply local_run.
  { rewrite (server_session_keys_run w3 _ _ _ (kx_public b) b (kx_public a));
      [rewrite <- Hsym; reflexivity|eapply kx_ref; [exact Hw3|local_tac|done]..]. }
  eapply local_session_keys; [exact Hw3|]. intros srx stx w4 Hn4 Hsrx Hstx Hw4. fresh_facts.
  eapply (does_bind _ _ _ (fun _ w' => w' = w4)).
  { eapply (local_assert_eq _ _ _ _ _ _ _ _ true); [exact Hw4|local_tac|local_tac|done..]. }
  intros [] ? ->. by eapply (local_assert_eq _ _ _ _ _ _ _ _ true); [exact Hw4|local_tac|local_tac|..].
Qed.

(** An all-zero public key is refused by both parties. *)
Lemma test_kx_non_acceptable_keys_passes :
  (forall sk, zlen sk = 32 -> kx_shared (zeros 32) sk = None) -> passes test_kx_non_acceptable_keys.
Proof.
  intros Hz w. unfold test_kx_non_acceptable_keys. eapply local_kx_keypair; [apply holds_empty|].
  set (a := entropy 32 w). assert (Hla : zlen a = 32) by (by apply entropy_zlen).
  intros cpk csk w1 Hn1 _ _ Hw1 _. eapply local_kx_keypair; [exact Hw1|].
  set (b := entropy 32 w1). assert (Hlb : zlen b = 32) by (by apply entropy_zlen).
  intros spk ssk w2 Hn2 Hspk Hssk Hw2 _. fresh_facts.
  eapply local_place; [exact Hw2|]. intros fc w3 Hfc Hw3. fresh_facts.
  eapply local_place; [exact Hw3|]. intros fs w4 Hfs Hw4. fresh_facts.
  pose proof (kx_public_zlen a) as Hpa. pose proof (kx_public_zlen b) as Hpb.
  eapply local_run.
  { rewrite (client_session_keys_run w4 _ _ _ (kx_public a) a (zeros 32));
      [rewrite Hz by done; reflexivity|eapply kx_ref; [exact Hw4|local_tac|done]..]. }
  check. assert (Hw5 : holds (w_wiped w4) (<[fs:=zeros kx.PUBLICKEYBYTES]> (<[fc:=zeros kx.PUBLICKEYBYTES]>
    (<[ssk:=b]> (<[spk:=kx_public b]> (<[csk:=a]> (<[cpk:=kx_public a]> ∅))))))) by (by eapply holds_same).
  eapply local_run.
  { rewrite (server_session_keys_run (w_wiped w4) _ _ _ (kx_public b) b (zeros 32));
      [rewrite Hz by done; reflexivity|eapply kx_ref; [exact Hw5|local_tac|done]..]. }
  by apply does_assert.
Qed.

End KxPass.

(** ** The tests of crypto/kdf *)

Section KdfPass.
Context `{T : Target} `{E : KdfExterns} {D : KdfDoc E} `{U : UtilsExterns} {UD : UtilsDoc U}.
Context `{R : RandombytesExterns} {RD : RandombytesDoc R}.

Lemma kdf_gen_key_run w : kdf.gen_key w = Done (entropy 32 w) (w_consume 32 w).
Proof.
  unfold kdf.gen_key. change kdf.KEYBYTES with 32. step.
  eapply bind_step; [by apply randombytes_into_put_run|]. by apply move_out_put_run.
Qed.

(** [test_gen_key] passes when the generator does not repeat itself. *)
Lemma test_gen_key_passes w :
  first_key w <> second_key w -> does w test_gen_key (fun _ _ => True).
Proof.
  intros Hne. unfold test_gen_key. unfold local at 1. apply local_assoc.
  eapply local_run; [apply kdf_gen_key_run|]. apply local_assoc.
  set (w1 := w_consume 32 w). set (b := fresh_block w1). set (w2 := w_put b (Some <$> entropy 32 w) w1).
  assert (Hw2 : holds w2 (<[b := entropy 32 w]> ∅)) by (eapply holds_insert; [apply holds_empty|done]).
  eapply (local_run _ _ _ b w2); [reflexivity|]. apply local_ret.
  eapply local_value; [exact Hw2|apply kdf_gen_key_run|reflexivity|].
  rewrite (entropy_env 32 w1 w2 eq_refl). intros c w3 Hc Hw3. fresh_facts.
  eapply (local_assert_eq kdf.Key _ _ _ _ _ _ _ false); [exact Hw3|local_tac|local_tac|by apply entropy_zlen..|done|exact Hne|done].
Qed.

Lemma test_keysize_out_of_bounds_passes : passes test_keysize_out_of_bounds.
Proof.
  intros w. unfold test_keysize_out_of_bounds. cbv zeta. pose proof isize_max_bounds.
  eapply local_place; [apply holds_empty|]. intros k w1 _ Hw1.
  eapply local_vec; [exact Hw1|reflexivity|]. intros s w2 Hs Hw2. fresh_facts.
  eapply local_vec; [exact Hw2|reflexivity|]. intros b w3 Hb Hw3. fresh_facts. sl.
  assert (Hk : is_ref w3 (At k 0) 32 (zeros 32)) by (eapply kx_ref; [exact Hw3|local_tac|done]).
  change (zlen (zeros (kdf.BYTES_MIN - 1))) with 15 in *. change (zlen (zeros (kdf.BYTES_MAX + 1))) with 65 in *.
  assert (Hss : is_slice w3 (Slice (At s 0) 15) (zeros 15)) by (eapply holds_slice; [exact Hw3|local_tac|done|lia]).
  assert (Hsb : is_slice w3 (Slice (At b 0) 65) (zeros 65)) by (eapply holds_slice; [exact Hw3|local_tac|done|lia]).
  eapply local_run; [exact (derive_from_key_run w3 _ 1 (zeros 8) _ _ _ Hss eq_refl Hk)|]. check.
  eapply local_run; [exact (derive_from_key_run w3 _ 1 (zeros 8) _ _ _ Hsb eq_refl Hk)|].
  by apply does_assert.
Qed.

End KdfPass.

(** ** The other tests *)

(** The scalar multiplication of the neutral element is refused, so that the
    test panics, as it should. *)
Lemma test_all_zero_panics `{E : ScalarmultExterns} {D : ScalarmultDoc E}
    `{R : RandombytesExterns} {RD : RandombytesDoc R} w :
  (forall n, zlen n = 32 -> x_mult n (zeros 32) = None) -> test_all_zero w = Panicked.
Proof.
  intros Hz. unfold test_all_zero. change scalarmult.SCALARBYTES with 32.
  change scalarmult.GROUPELEMENTBYTES with 32. step.
  eapply bind_step; [by apply randombytes_into_put_run|]. place_step.
  set (nb := entropy 32 w). assert (Hn : zlen nb = 32) by (by apply entropy_zlen).
  eapply bind_step.
  { rewrite (scalarmult_run _ _ _ nb (zeros 32)).
    - rewrite Hz by done. reflexivity.
    - rewrite <- Hn. apply is_ref_put_fresh; [done|]. apply is_ref_place.
    - apply (is_ref_place _ (zeros 32)). }
  done.
Qed.

Section PwhashPass.
Context `{T : Target} `{U : UtilsExterns} `{R : RandombytesExterns} {RD : RandombytesDoc R}.
Context (A : argon2_module) {D : PwhashDoc (argon2_functions A)}.

(** A password verifies against its hash, for functions that do what [pwhash()]
    and [pwhash_verify()] of a module do with some limits. *)
Lemma verify_loop_passes (hash : slice -> M (result bytes)) (verify : ptr -> slice -> M bool) o m :
  (forall s w, hash s w = argon2.pwhash A s o m w) ->
  (forall p s w, verify p s w = argon2.pwhash_verify A p s w) ->
  (forall e n, 0 <= n < 32 -> pw_completes e (pw_hashedpasswordbytes A) n (opslimit o) (memlimit m) = true) ->
  passes (for_range 0 32 (fun i =>
    let* pw := randombytes i in
    let* r := hash (v_slice pw) in
    let* hp := unwrap r in
    let* pwh := place hp in
    let* ok := verify (At pwh 0) (v_slice pw) in
    assert ok)).
Proof.
  intros Eh Ev Hc w. apply local_loop. intros i w0 Hi Hw0. pose proof isize_max_bounds.
  change (0 + Z.of_nat 32) with 32 in Hi.
  eapply (local_random _ (RD := RD)); [exact Hw0|lia|]. intros x a w1 Hx Ha Hw1. sl.
  assert (Hs : is_slice w1 (Slice (At x 0) i) a) by (eapply holds_slice; [exact Hw1|local_tac|len_eq|lia]).
  pose proof (pwhash_run w1 _ o m a Hs) as Hrun.
  rewrite Hc in Hrun by lia. eapply local_run; [rewrite Eh; exact Hrun|]. eapply local_unwrap; [reflexivity|].
  set (w2 := w_consume _ w1). set (s := pw_str _ _ _ _).
  eapply (local_place _ w2); [by eapply holds_same|]. intros h w3 Hh Hw3. fresh_facts.
  eapply local_run.
  { rewrite Ev, (pwhash_verify_run w3 (At h 0) _ s a).
    - unfold s. rewrite pw_str_terminated, pw_check_own. rewrite Hc by lia. reflexivity.
    - pose proof (pw_str_zlen (F := argon2_functions A)) as Hl. cbn [pf_strbytes argon2_functions] in Hl.
      unfold s at 1. erewrite <- (Hl a). eapply holds_ref; [exact Hw3|local_tac].
    - eapply holds_slice; [exact Hw3|local_tac|len_eq|lia]. }
  by apply does_assert.
Qed.

Lemma test_pwhash_verify_passes :
  (forall e n, 0 <= n < 32 -> pw_completes e (pw_hashedpasswordbytes A) n 16 8192 = true) ->
  passes (test_pwhash_verify A).
Proof.
  intros Hc. apply (verify_loop_passes (fun s => argon2.pwhash A s (MkOpsLimit 16) (MkMemLimit 8192))
    (argon2.pwhash_verify A) (MkOpsLimit 16) (MkMemLimit 8192)); [reflexivity|reflexivity|exact Hc].
Qed.

End PwhashPass.

Section GenerichashPass.
Context `{T : Target} `{E : GenerichashExterns} {D : GenerichashDoc E} `{U : UtilsExterns} {UD : UtilsDoc U}.

(** The digest of a message with the default length and no key *)
Definition default_digest (data : bytes) : bytes := st_digest (gh 32) [] data.

Lemma default_digest_zlen data : zlen (default_digest data) = 32.
Proof.
  assert (Ho : gh_out_ok 32) by (unfold gh_out_ok; lia). pose proof (gh_laws 32 Ho) as L.
  unfold default_digest, st_digest. rewrite (st_final_zlen (S := gh 32)). by apply gh_out.
Qed.

Lemma digest_of_run w out_len key kb s data :
  is_key w key kb -> key_valid key kb -> out_valid out_len -> is_slice w s data ->
  let o := default 32 out_len in
  exists w1, w_mem w1 = w_mem w /\
    digest_of out_len key s w =
      (let* p := place (st_digest (gh o) kb data ++ zeros (64 - o)) in ret (digest.Ref o (At p 0))) w1.
Proof.
  intros Hk Hv Ho Hs o. pose proof (out_valid_ok _ Ho) as Hok. fold o in Hok. pose proof (gh_laws o Hok) as L.
  exists (w_with (env_drop (Some <$> st_spent (gh o) (st_update (gh o) (st_init (gh o) kb) data)) (w_env w)) w).
  split; [done|]. unfold digest_of.
  erewrite bind_done by (rewrite (gh_new_run w out_len key kb Hk); by rewrite decide_True).
  cbn zeta. fold o. cbn [unwrap]. unfold ret at 1. erewrite bind_done by reflexivity. place_step. cbn [generichash.state].
  erewrite bind_done by (apply (gh_update_run o); [done|done|apply st_init_zlen|exact Hs]).
  cbn [unwrap]. unfold ret at 1. erewrite bind_done by reflexivity.
  erewrite bind_done by (by apply move_out_put_run). cbn [generichash.out_len].
  erewrite bind_done by (apply gh_finalize_run; [done|apply st_update_zlen]).
  cbn [unwrap]. erewrite bind_done by reflexivity. reflexivity.
Qed.

Lemma local_digest {B} (Q : B -> world -> Prop) w m out_len key kb s data (f : digest.ref -> M B) :
  holds w m -> is_key w key kb -> key_valid key kb -> out_valid out_len -> is_slice w s data ->
  let o := default 32 out_len in
  (forall b w', m !! b = None -> holds w' (<[b := st_digest (gh o) kb data ++ zeros (64 - o)]> m) ->
     does w' (f (digest.Ref o (At b 0))) Q) ->
  does w (bind (digest_of out_len key s) f) Q.
Proof.
  intros Hw Hk Hv Ho Hs o Hf. destruct (digest_of_run w out_len key kb s data Hk Hv Ho Hs) as (w1 & Em & Hrun).
  fold o in Hrun.
  assert (Hp : does w1 (bind (place (st_digest (gh o) kb data ++ zeros (64 - o))) (fun p => f (digest.Ref o (At p 0)))) Q).
  { eapply local_place; [by eapply holds_same|]. intros b w2 Hb Hw2. by apply Hf. }
  destruct Hp as (r & w' & Hr & Hq). exists r, w'. split; [|done]. rewrite <- Hr. unfold bind at 1. by rewrite Hrun.
Qed.

(** With the default length and no key *)
Lemma local_default_digest {B} (Q : B -> world -> Prop) w m d data n (f : digest.ref -> M B) :
  holds w m -> m !! d = Some data -> n = zlen data -> n <= 4096 ->
  (forall b w', m !! b = None -> holds w' (<[b := default_digest data ++ zeros 32]> m) ->
     does w' (f (digest.Ref 32 (At b 0))) Q) ->
  does w (bind (digest_of None None (Slice (At d 0) n)) f) Q.
Proof.
  intros Hw Hd Hl Hn Hf. pose proof isize_max_bounds.
  eapply (local_digest Q w m None None [] _ data); [exact Hw|done|done|done| |exact Hf].
  eapply holds_slice; [exact Hw|done|done|lia].
Qed.

Lemma local_digest_eq {B} (Q : B -> world -> Prop) w m a b x y (f : bool -> M B) :
  holds w m -> m !! a = Some (x ++ zeros 32) -> m !! b = Some (y ++ zeros 32) -> zlen x = 32 -> zlen y = 32 ->
  does w (f (bool_decide (x = y))) Q ->
  does w (bind (digest.eq (digest.Ref 32 (At a 0)) (digest.Ref 32 (At b 0))) f) Q.
Proof.
  intros Hw Ha Hb Hx Hy Hf.
  assert (Hd : forall p z, m !! p = Some (z ++ zeros 32) -> zlen z = 32 -> is_digest w (digest.Ref 32 (At p 0)) 32 z).
  { intros p z Hp Hz. split_and!; [done|done|done|done|]. exists (zeros 32). cbn [digest.r_data].
    replace crypto_generichash_BYTES_MAX with (zlen (z ++ zeros 32)) by (by rewrite zlen_app, Hz).
    by eapply holds_ref. }
  eapply local_run; [|exact Hf].
  pose proof (digest_as_ref_run w _ 32 x (Hd a x Ha Hx)) as [Ha1 Hs1].
  pose proof (digest_as_ref_run w _ 32 y (Hd b y Hb Hy)) as [Hb1 Hs2].
  unfold digest.eq. cbn [digest.r_len Z.eqb Pos.eqb negb].
  eapply bind_step; [exact Ha1|]. eapply bind_step; [exact Hb1|]. by apply memcmp_run.
Qed.

Lemma test_digest_equal_passes : passes test_digest_equal.
Proof.
  intros w. eapply local_place; [apply holds_empty|]. intros d1 w1 _ Hw1.
  eapply local_place; [exact Hw1|]. intros d2 w2 Hd2 Hw2. fresh_facts.
  eapply local_default_digest; [exact Hw2|local_tac|done|done|]. intros h1 w3 Hh1 Hw3. fresh_facts.
  eapply local_default_digest; [exact Hw3|local_tac|done|done|]. intros h2 w4 Hh2 Hw4. fresh_facts.
  eapply local_digest_eq; [exact Hw4|local_tac|local_tac|apply default_digest_zlen..|].
  apply does_assert. by apply bool_decide_true.
Qed.

(** The other test passes when the two messages do not collide. *)
Lemma test_digest_not_equal_passes :
  default_digest [x01; x02] <> default_digest [x03; x04] -> passes test_digest_not_equal.
Proof.
  intros Hne w. eapply local_place; [apply holds_empty|]. intros d1 w1 _ Hw1.
  eapply local_place; [exact Hw1|]. intros d2 w2 Hd2 Hw2. fresh_facts.
  eapply local_default_digest; [exact Hw2|local_tac|done|done|]. intros h1 w3 Hh1 Hw3. fresh_facts.
  eapply local_default_digest; [exact Hw3|local_tac|done|done|]. intros h2 w4 Hh2 Hw4. fresh_facts.
  eapply local_default_digest; [exact Hw4|local_tac|done|done|]. intros h3 w5 Hh3 Hw5. fresh_facts.
  eapply local_digest_eq; [exact Hw5|local_tac|local_tac|apply default_digest_zlen..|].
  apply local_assert; [by rewrite bool_decide_false|].
  eapply local_digest_eq; [exact Hw5|local_tac|local_tac|apply default_digest_zlen..|].
  apply does_assert. by apply bool_decide_true.
Qed.

End GenerichashPass.

(** ** The theorems *)

(** The tests of the key exchange pass: with the exception that [test_kx] asks
    for two key pairs to differ, which is the case when the generator does not
    repeat itself and the two secret keys have different public keys. *)
Theorem kx_tests_pass `{T : Target} `{E : KxExterns} {D : KxDoc E} {KA : KxAgreement E D} `{U : UtilsExterns} {UD : UtilsDoc U} w q
    (Hz : forall sk, zlen sk = 32 -> kx_shared (zeros 32) sk = None)
    (Hne : first_key w <> second_key w)
    (Hpne : kx_public (first_key w) <> kx_public (second_key w))
    (Hq : kx_shared (kx_public (second_key w)) (first_key w) = Some q) :
  does w test_kx (fun _ _ => True) /\ passes test_kx_non_acceptable_keys.
Proof. split; [by eapply test_kx_passes|by apply test_kx_non_acceptable_keys_passes]. Qed.

Lemma ref_zero_key sk : RefKeys.shared (zeros 32) sk = None.
Proof. unfold RefKeys.shared. rewrite decide_True; [done|by left]. Qed.

Lemma kx_tests_pass_witness :
  let E := RefKeys.kx_externs in
  let U := Ref.utils in
  does RefKeys.w (@test_kx E U) (fun _ _ => True) /\ passes (@test_kx_non_acceptable_keys E U).
Proof.
  eapply (@kx_tests_pass target64 RefKeys.kx_externs RefKeys.kx_doc RefKeys.kx_agree Ref.utils Ref.utils_doc RefKeys.w).
  - intros sk _. apply ref_zero_key.
  - by vm_compute.
  - by vm_compute.
  - vm_compute. reflexivity.
Defined.

(** The tests of the other key functions: subkeys of the wrong length are
    refused, two generated keys differ when the generator does not repeat
    itself, a password verifies against its hash when the computations complete,
    and the product with the neutral element panics, as the test expects. *)
Theorem key_tests_pass `{T : Target} `{E : KdfExterns} {D : KdfDoc E} `{U : UtilsExterns} {UD : UtilsDoc U}
    `{R : RandombytesExterns} {RD : RandombytesDoc R} (A : argon2_module) {PD : PwhashDoc (argon2_functions A)}
    `{S : ScalarmultExterns} {SD : ScalarmultDoc S} w
    (Hne : first_key w <> second_key w)
    (Hc : forall e n, 0 <= n < 32 -> pw_completes e (pw_hashedpasswordbytes A) n 16 8192 = true)
    (Hz : forall n, zlen n = 32 -> x_mult n (zeros 32) = None) :
  passes test_keysize_out_of_bounds /\ does w test_gen_key (fun _ _ => True) /\
  passes (test_pwhash_verify A) /\ test_all_zero w = Panicked.
Proof.
  split_and!.
  - exact test_keysize_out_of_bounds_passes.
  - exact (test_gen_key_passes (UD := UD) (RD := RD) w Hne).
  - exact (test_pwhash_verify_passes (RD := RD) A Hc).
  - exact (test_all_zero_panics (RD := RD) w Hz).
Qed.

(** A multiplication that refuses the neutral element *)
Module RefScalarmult.

Definition mult (n p : bytes) : option bytes :=
  if decide (p = zeros 32) then None else Some (le_bytes 32 (le_val n * le_val p)).

Definition externs : ScalarmultExterns := {|
  crypto_scalarmult_curve25519 q n p :=
    let* nb := read n 32 in
    let* pb := read p 32 in
    match mult nb pb with
    | Some qb => let* _ := write q qb in ret 0
    | None => let* _ := write q (zeros 32) in ret (-1)
    end;
  crypto_scalarmult_curve25519_base q n :=
    let* nb := read n 32 in let* _ := write q (le_bytes 32 (9 * le_val nb)) in ret 0;
  crypto_scalarmult_base q n :=
    let* nb := read n 32 in let* _ := write q (le_bytes 32 (9 * le_val nb)) in ret 0
|}.

#[refine] Definition doc : ScalarmultDoc externs := {|
  x_mult := mult; x_base n := le_bytes 32 (9 * le_val n); x_reject _ _ := zeros 32
|}.
Proof.
  - intros n p q. unfold mult. case_decide; intros; simplify_eq. apply (zlen_le_bytes 32).
  - intros. apply (zlen_le_bytes 32).
  - reflexivity.
  - reflexivity.
  - reflexivity.
Defined.

End RefScalarmult.

Lemma key_tests_pass_witness :
  let R := Ref.randombytes in
  let U := Ref.utils in
  passes (@test_keysize_out_of_bounds RefKeys.kdf_externs) /\
  does RefKeys.w (@test_gen_key target64 U R) (fun _ _ => True) /\
  passes (@test_pwhash_verify target64 U R RefPwhash.A) /\
  @test_all_zero RefScalarmult.externs R RefKeys.w = Panicked.
Proof.
  apply (@key_tests_pass target64 RefKeys.kdf_externs RefKeys.kdf_doc Ref.utils Ref.utils_doc
    Ref.randombytes Ref.randombytes_doc RefPwhash.A RefPwhash.doc RefScalarmult.externs RefScalarmult.doc RefKeys.w).
  - by vm_compute.
  - intros e n Hn. change (RefPwhash.completes n = true). unfold RefPwhash.completes. lia.
  - done.
Defined.

(** The tests of the generic hash that compare digests: equal messages have
    equal digests; the messages of the other test must not collide. *)
Theorem generichash_tests_pass `{T : Target} `{E : GenerichashExterns} {D : GenerichashDoc E}
    `{U : UtilsExterns} {UD : UtilsDoc U}
    (Hne : default_digest [x01; x02] <> default_digest [x03; x04]) :
  passes test_digest_equal /\ passes test_digest_not_equal.
Proof. split; [exact test_digest_equal_passes|exact (test_digest_not_equal_passes Hne)]. Qed.

Lemma generichash_tests_pass_witness :
  let E := RefHash.gh_externs in
  let U := Ref.utils in
  passes (@test_digest_equal E U) /\ passes (@test_digest_not_equal E U).
Proof.
  apply (@generichash_tests_pass target64 RefHash.gh_externs RefHash.gh_doc Ref.utils Ref.utils_doc).
  by vm_compute.
Defined.
