(* ===== verification/HashTests.v ===== *)
(** * The test vectors of crypto/hash, crypto/auth, crypto/onetimeauth,
      crypto/generichash, crypto/kdf and crypto/shorthash

    The tests that compare with expected results, as programs over any
    implementation of the foreign functions; for every documented one, exactly
    when they pass; and the proof that they do with the published algorithms
    (Standards.v): the wrappers hand the right bytes to the right function in
    the right order.  [test_hash_multipart] of
    hash_macros.rs, which has no vectors, passes with every documented
    implementation. *)

From S2P Require Export Locals Standards KeyTests.

(** ** crypto/hash *)

Section HashTests.
Context `{T : Target} (A : hash_module).

(** [let Digest(h) = hash(&x); assert!(h == h_expected);] *)
Definition hash_vector (x h_expected : bytes) : M unit :=
  let* xp := place x in
  let* h := hash.hash A (Slice (At xp 0) (zlen x)) in
  assert (bool_decide (h = h_expected)).

(** The same with a state, updated with each chunk of three bytes *)
Definition hash_state_vector (x h_expected : bytes) : M unit :=
  let* xp := place x in
  let* h := hash_in_chunks A (slice_chunks 3 (Slice (At xp 0) (zlen x))) in
  assert (bool_decide (h = h_expected)).

(** With a state that is not updated *)
Definition hash_empty_vector (h_expected : bytes) : M unit :=
  let* h := hash_in_chunks A [] in
  assert (bool_decide (h = h_expected)).

Definition test_hash_multipart `{R : RandombytesExterns} `{U : UtilsExterns} : M unit :=
  for_range 0 256 (fun i =>
    let* m := randombytes i in
    let* h := local (hash.hash A (v_slice m)) in
    let* h2 := local (hash_in_chunks A (slice_chunks 3 (v_slice m))) in
    let* r := NewType.eq (hash.Digest A) h h2 in
    assert r).

Context {D : HashDoc A}.

#[local] Abbreviation digest := (st_digest hash_streaming tt).

Lemma hash_in_chunks_run w chunks ms :
  Forall2 (is_slice w) chunks ms ->
  exists left, hash_in_chunks A chunks w = Done (digest (concat ms)) (w_with (env_drop left (w_env w)) w).
Proof.
  intros Hc. eexists. unfold hash_in_chunks. eapply bind_step; [apply hash_new_run|]. step.
  eapply bind_step.
  { apply (update_all_run hash_streaming (hash.State_update A)) with (ms := ms);
      [by apply hash_update_run|done|apply st_init_zlen|done]. }
  eapply bind_step; [by apply move_out_put_run|]. by rewrite hash_finalize_run by apply st_update_zlen.
Qed.

Lemma hash_vector_settles x h : zlen x <= isize_max -> settles (hash_vector x h) (digest x = h).
Proof.
  intros Hx w. apply catch_settles, catch_bind. eapply local_place; [apply holds_empty|]. intros b w1 _ Hw1.
  apply catch_bind. eapply local_run; [apply (hash_run w1 _ x); eapply holds_slice; [exact Hw1|local_tac|done|lia]|].
  apply catch_assert. intros _. apply bool_decide_eq_true.
Qed.

Lemma hash_state_vector_settles x h : zlen x <= isize_max -> settles (hash_state_vector x h) (digest x = h).
Proof.
  intros Hx w. apply catch_settles, catch_bind. eapply local_place; [apply holds_empty|]. intros b w1 _ Hw1.
  destruct (slice_chunks_cut w1 3 (Slice (At b 0) (zlen x)) x) as (ms & Hms & Hcat);
    [lia|eapply holds_slice; [exact Hw1|local_tac|done|lia]|].
  destruct (hash_in_chunks_run w1 _ ms Hms) as [left Hrun].
  apply catch_bind. eapply local_run; [exact Hrun|].
  apply catch_assert. intros _. rewrite Hcat. apply bool_decide_eq_true.
Qed.

Lemma hash_empty_vector_settles h : settles (hash_empty_vector h) (digest [] = h).
Proof.
  intros w. destruct (hash_in_chunks_run w [] [] ltac:(constructor)) as [left Hrun].
  apply catch_settles, catch_bind. eapply local_run; [exact Hrun|].
  apply catch_assert. intros _. apply bool_decide_eq_true.
Qed.

Lemma test_hash_multipart_passes `{R : RandombytesExterns} {RD : RandombytesDoc R}
    `{U : UtilsExterns} {UD : UtilsDoc U} : passes test_hash_multipart.
Proof.
  intros w. apply local_loop. intros i w0 Hi Hw0. pose proof isize_max_bounds.
  change (0 + Z.of_nat 256) with 256 in Hi.
  eapply (local_random _ (RD := RD)); [exact Hw0|lia|]. intros x a w1 _ Ha Hw1. sl.
  assert (Hs : is_slice w1 (Slice (At x 0) i) a) by (eapply holds_slice; [exact Hw1|local_tac|len_eq|lia]).
  eapply local_value; [exact Hw1|by apply hash_run|done|]. intros h w2 Hh Hw2. fresh_facts.
  assert (Hs2 : is_slice w2 (Slice (At x 0) i) a) by (eapply holds_slice; [exact Hw2|local_tac|len_eq|lia]).
  destruct (slice_chunks_cut w2 3 _ a ltac:(lia) Hs2) as (ms & Hms & Hcat).
  destruct (hash_in_chunks_run w2 _ ms Hms) as [left Hrun]. rewrite Hcat in Hrun.
  eapply local_value; [exact Hw2|exact Hrun|reflexivity|]. intros h2 w3 Hh2 Hw3. fresh_facts.
  assert (Hl : zlen (digest a) = hash.DIGESTBYTES A)
    by (unfold st_digest, hash.DIGESTBYTES; by rewrite st_final_zlen, hash_digest_size).
  pose proof (st_out_range (S := hash_streaming)) as Hr. rewrite hash_digest_size in Hr.
  eapply (local_eq _ (UD := UD)); [exact Hw3|local_tac|local_tac|exact Hl|exact Hl|apply Hr|].
  apply does_assert. by apply bool_decide_true.
Qed.

End HashTests.

Definition fox : bytes := (hex "54686520717569636b2062726f776e20666f78206a756d7073206f76657220746865206c617a7920646f67").
Definition testing : bytes := (hex "74657374696e670a").

Section Sha2Vectors.
Context `{T : Target} `{E : Sha256Externs} `{E5 : Sha512Externs}.

Definition sha256_test_vector_1 : M unit :=
  hash_vector sha256 [] (hex "e3b0c44298fc1c149afbf4c8996fb92427ae41e4649b934ca495991b7852b855").
Definition sha256_test_vector_2 : M unit :=
  hash_vector sha256 fox (hex "d7a8fbb307d7809469ca9abcb0082e4f8d5651e46d3cdb762d02d0bf37c9e592").
Definition sha256_test_hash_state_empty : M unit :=
  hash_empty_vector sha256 (hex "e3b0c44298fc1c149afbf4c8996fb92427ae41e4649b934ca495991b7852b855").
Definition sha256_test_hash_state_multi_parts : M unit :=
  hash_state_vector sha256 fox (hex "d7a8fbb307d7809469ca9abcb0082e4f8d5651e46d3cdb762d02d0bf37c9e592").

Definition sha512_expected : bytes :=
  (hex "24f950aac7b9ea9b3cb728228a0c82b67c39e96b4b344798870d5daee93e3ae5931baae8c7cacfea4b629452c38026a81d138bc7aad1af3ef7bfd5ec646d6c28").
Definition sha512_test_vector_1 : M unit := hash_vector sha512 testing sha512_expected.
Definition sha512_test_hash_state_multi_parts : M unit := hash_state_vector sha512 testing sha512_expected.

End Sha2Vectors.

(** ** crypto/auth, crypto/onetimeauth *)

Section AuthTests.
Context `{T : Target} (A : auth_module) (St : auth_state) `{U : UtilsExterns}.

(** [let a = authenticate(&c, &key); assert!(a == a_expected);]: the
    comparison is the one of the type [Tag], or the one of byte arrays *)
Definition auth_compare (tag : M bytes) (a_expected : bytes) : M unit :=
  let* a := local tag in
  let* e := place a_expected in
  let* r := NewType.eq (auth.Tag A) a (At e 0) in
  assert r.
Definition auth_compare_bytes (tag : M bytes) (a_expected : bytes) : M unit :=
  let* a := tag in assert (bool_decide (a = a_expected)).

Definition auth_vector (compare : M bytes -> bytes -> M unit) (key c a_expected : bytes) : M unit :=
  let* k := place key in
  let* m := place c in
  compare (auth.authenticate A (Slice (At m 0) (zlen c)) (At k 0)) a_expected.

Definition auth_state_vector (compare : M bytes -> bytes -> M unit) (key c a_expected : bytes) : M unit :=
  let* k := place key in
  let* m := place c in
  compare (auth_in_chunks St (Slice (At k 0) (zlen key)) [Slice (At m 0) (zlen c)]) a_expected.

(** The test of the one-time authenticator also verifies the tag. *)
Definition auth_verify_vector (key c a_expected : bytes) : M unit :=
  let* k := place key in
  let* m := place c in
  let* a := local (auth.authenticate A (Slice (At m 0) (zlen c)) (At k 0)) in
  let* e := place a_expected in
  let* r := NewType.eq (auth.Tag A) a (At e 0) in
  let* _ := assert r in
  let* r := auth.verify A a (Slice (At m 0) (zlen c)) (At k 0) in
  assert r.

Context {UD : UtilsDoc U}.

(** The comparison passes when the tag is the expected one, and panics if not. *)
Definition compares (compare : M bytes -> bytes -> M unit) : Prop :=
  forall w m tag a e w1, holds w m -> tag w = Done a w1 -> w_mem w1 = w_mem w ->
    zlen a = auth.TAGBYTES A -> zlen e = auth.TAGBYTES A ->
    does w (catch (compare tag e)) (fun b _ => b = true <-> a = e).

Lemma auth_compare_compares : auth.TAGBYTES A <= 4096 -> compares auth_compare.
Proof.
  intros Ht w m tag a e w1 Hw Hr Em Hl He. apply catch_bind.
  eapply local_value; [exact Hw|exact Hr|exact Em|]. intros b w2 Hb Hw2.
  apply catch_bind. eapply local_place; [exact Hw2|]. intros c w3 Hc Hw3. fresh_facts.
  apply catch_bind. eapply (local_eq _ (UD := UD)); [exact Hw3|local_tac|local_tac|exact Hl|exact He|exact Ht|].
  apply catch_assert. intros _. apply bool_decide_eq_true.
Qed.

Lemma auth_compare_bytes_compares : compares auth_compare_bytes.
Proof.
  intros w m tag a e w1 Hw Hr Em Hl He. apply catch_bind. eapply local_run; [exact Hr|].
  apply catch_assert. intros _. apply bool_decide_eq_true.
Qed.

Lemma auth_vector_settles {D : AuthDoc A} compare key c a :
  compares compare -> zlen key = auth.KEYBYTES A -> zlen c <= isize_max -> zlen a = auth.TAGBYTES A ->
  settles (auth_vector compare key c a) (auth_mac key c = a).
Proof.
  intros Hc Hk Hl Ha w. apply catch_settles, catch_bind.
  eapply local_place; [apply holds_empty|]. intros k w1 _ Hw1.
  apply catch_bind. eapply local_place; [exact Hw1|]. intros b w2 Hb Hw2. fresh_facts.
  eapply Hc; [exact Hw2| |reflexivity|apply auth_mac_zlen|exact Ha].
  apply authenticate_run; [eapply holds_slice; [exact Hw2|local_tac|done|lia]|].
  unfold auth.KEYBYTES in Hk. rewrite <- Hk. eapply holds_ref; [exact Hw2|local_tac].
Qed.

Lemma auth_state_vector_settles {D : AuthStateDoc St} compare key c a :
  compares compare -> zlen key <= isize_max -> zlen c <= isize_max -> zlen a = auth.TAGBYTES A ->
  state_tagbytes St = auth.TAGBYTES A ->
  settles (auth_state_vector compare key c a) (st_digest auth_streaming key c = a).
Proof.
  intros Hc Hk Hl Ha Ht w. apply catch_settles, catch_bind.
  eapply local_place; [apply holds_empty|]. intros k w1 _ Hw1.
  apply catch_bind. eapply local_place; [exact Hw1|]. intros b w2 Hb Hw2. fresh_facts.
  eapply Hc; [exact Hw2| | |unfold st_digest; by rewrite st_final_zlen, auth_state_tag|exact Ha].
  - unfold auth_in_chunks. eapply bind_step; [apply auth_init_run; eapply holds_slice; [exact Hw2|local_tac|done|lia]|].
    step. eapply bind_step.
    { apply (update_all_run auth_streaming (auth.State.update St)) with (ms := [c]);
        [by apply auth_update_run|done|apply st_init_zlen|].
      constructor; [|constructor]. eapply holds_slice; [exact Hw2|local_tac|done|lia]. }
    eapply bind_step; [by apply move_out_put_run|].
    rewrite (auth_finalize_run (UD := UD)) by apply st_update_zlen. cbn [concat]. rewrite app_nil_r. reflexivity.
  - reflexivity.
Qed.

Lemma auth_verify_vector_settles {D : AuthDoc A} key c a :
  zlen key = auth.KEYBYTES A -> zlen c <= isize_max -> zlen a = auth.TAGBYTES A ->
  settles (auth_verify_vector key c a) (auth_mac key c = a).
Proof.
  intros Hk Hl Ha w. pose proof (auth_tag_range (A := A)) as Ht. apply catch_settles, catch_bind.
  eapply local_place; [apply holds_empty|]. intros k w1 _ Hw1.
  apply catch_bind. eapply local_place; [exact Hw1|]. intros b w2 Hb Hw2. fresh_facts.
  assert (Hrk : forall w', holds w' (<[b:=c]> (<[k:=key]> ∅)) ->
    is_slice w' (Slice (At b 0) (zlen c)) c /\ is_ref w' (At k 0) (auth_keybytes A) key).
  { intros w' Hw'. split; [eapply holds_slice; [exact Hw'|local_tac|done|lia]|].
    unfold auth.KEYBYTES in Hk. rewrite <- Hk. eapply holds_ref; [exact Hw'|local_tac]. }
  destruct (Hrk w2 Hw2) as [Hs2 Hk2].
  apply catch_bind. eapply local_value; [exact Hw2|by apply authenticate_run|done|]. intros t w3 Htn Hw3. fresh_facts.
  apply catch_bind. eapply local_place; [exact Hw3|]. intros e w4 He Hw4. fresh_facts.
  pose proof (auth_mac_zlen key c) as Hm.
  apply catch_bind. eapply (local_eq _ (UD := UD)); [exact Hw4|local_tac|local_tac|exact Hm|exact Ha|exact (proj2 Ht)|].
  apply catch_assert_bind; [intros Hac%bool_decide_eq_true|by intros ?%bool_decide_eq_false w'].
  apply catch_bind. eapply local_run.
  { apply (verify_run w4 (At t 0) _ (At k 0) (auth_mac key c) c key).
    - rewrite <- Hm. eapply holds_ref; [exact Hw4|local_tac].
    - eapply holds_slice; [exact Hw4|local_tac|done|lia].
    - unfold auth.KEYBYTES in Hk. rewrite <- Hk. eapply holds_ref; [exact Hw4|local_tac]. }
  apply catch_assert. intros _. by rewrite bool_decide_true.
Qed.

End AuthTests.

Definition auth_key_1 : bytes := (hex "0102030405060708090a0b0c0d0e0f101112131415161718191a1b1c1d1e1f20").
Definition auth_message_1 : bytes :=
  (hex "cdcdcdcdcdcdcdcdcdcdcdcdcdcdcdcdcdcdcdcdcdcdcdcdcdcdcdcdcdcdcdcdcdcdcdcdcdcdcdcdcdcdcdcdcdcdcdcdcdcd").
Definition auth_tag_1 : bytes := (hex "372efcf9b40b35c2115b1346903d2ef42fced46f0846e7257bb156d3d7b30d3f").
(** "Test Case 2" from RFC 4231 *)
Definition auth_key_2 : bytes := (hex "4a65666500000000000000000000000000000000000000000000000000000000").
Definition auth_message_2 : bytes := (hex "7768617420646f2079612077616e7420666f72206e6f7468696e673f").
Definition auth_tag_2 : bytes := (hex "164b7a7bfcf819e2e395fbe73b56e0a387bd64222e831fd610270cd7ea2505549758bf75c05a994a6d034f65f8f0e6fdcaeab1a34d4a6b4b636e070a38bce737").
Definition auth_tag_2_half : bytes := (hex "164b7a7bfcf819e2e395fbe73b56e0a387bd64222e831fd610270cd7ea250554").

Section AuthVectors.
Context `{T : Target} `{H2 : HmacSha256Externs} `{H5 : HmacSha512Externs} `{H52 : HmacSha512256Externs}.
Context `{O : OnetimeauthExterns} `{U : UtilsExterns}.

Definition hmacsha256_test_vector_1 : M unit :=
  auth_vector hmacsha256 (auth_compare hmacsha256) auth_key_1 auth_message_1 auth_tag_1.
Definition hmacsha256_test_vector_state_1 : M unit :=
  auth_state_vector hmacsha256_state (auth_compare hmacsha256) auth_key_1 auth_message_1 auth_tag_1.
Definition hmacsha512_test_vector_1 : M unit :=
  auth_vector hmacsha512 auth_compare_bytes auth_key_2 auth_message_2 auth_tag_2.
Definition hmacsha512_test_vector_state_1 : M unit :=
  auth_state_vector hmacsha512_state auth_compare_bytes auth_key_2 auth_message_2 auth_tag_2.
Definition hmacsha512256_test_vector_1 : M unit :=
  auth_vector hmacsha512256 auth_compare_bytes auth_key_2 auth_message_2 auth_tag_2_half.
Definition hmacsha512256_test_vector_state_1 : M unit :=
  auth_state_vector hmacsha512256_state auth_compare_bytes auth_key_2 auth_message_2 auth_tag_2_half.

Definition poly1305_test_vector_1 : M unit :=
  auth_verify_vector poly1305
    (hex "eea6a7251c1e72916d11c2cb214d3c252539121d8e234e652d651fa4c8cff880")
    (hex ("8e993b9f48681273c29650ba32fc76ce48332ea7164d96a4476fb8c531a1186ac0dfc17c98dce87b4da7f011ec48c972" ++
      "71d2c20f9b928fe2270d6fb863d51738b48eeee314a7cc8ab932164548e526ae90224368517acfeabd6bb3732bc0e9da" ++
      "99832b61ca01b6de56244a9e88d5f9b37973f622a43d14a6599b1f654cb45a74e355a5")%string)
    (hex "f3ffc7703f9400e52a7dfb4b3d3305d9").

End AuthVectors.

(** ** crypto/generichash *)

Section GenerichashVectors.
Context `{T : Target} `{E : GenerichashExterns} `{U : UtilsExterns}.

(** [assert!(h.as_ref() == h_expected);] *)
Definition digest_is (h : digest.ref) (h_expected : bytes) : M unit :=
  let* b := digest.as_bytes h in assert (bool_decide (b = h_expected)).

(** A digest with a state, and one in one call *)
Definition generichash_compare (out_len : option Z) (key : option slice) (data : slice) (h_expected : bytes) : M unit :=
  let* h := digest_of out_len key data in
  let* _ := digest_is h h_expected in
  let* r := generichash.hash data out_len key in
  let* d := unwrap r in
  let* p := place (digest.data d) in
  digest_is (digest.Ref (digest.len d) (At p 0)) h_expected.

Definition generichash_vector (x h_expected : bytes) : M unit :=
  let* xp := place x in generichash_compare (Some 32) None (Slice (At xp 0) (zlen x)) h_expected.

Definition generichash_test_vector_1 : M unit :=
  generichash_vector [] (hex "0e5751c026e543b2e8ab2eb06099daa1d1e5df47778f7787faab45cdf12fe3a8").
Definition generichash_test_vector_2 : M unit :=
  generichash_vector fox (hex "01718cec35cd3d796dd00020e0bfecb473ad23457d063b75eff29c0ffa2e58a9").

Context {D : GenerichashDoc E}.

Lemma is_digest_local w m b d o :
  holds w m -> m !! b = Some (d ++ zeros (64 - o)) -> zlen d = o -> 0 <= o <= 64 ->
  is_digest w (digest.Ref o (At b 0)) o d.
Proof.
  intros Hw Hb Hd Ho. split_and!; [done|apply Ho..|done|]. exists (zeros (64 - o)). cbn [digest.r_data].
  replace crypto_generichash_BYTES_MAX with (zlen (d ++ zeros (64 - o))); [by eapply holds_ref|].
  rewrite zlen_app, zlen_zeros by lia. change crypto_generichash_BYTES_MAX with 64. lia.
Qed.

(** Both digests are the documented one, so that both comparisons agree. *)
Lemma generichash_compare_settles w m out_len key kb data x h :
  holds w m -> is_key w key kb -> key_valid key kb -> out_valid out_len -> is_slice w data x ->
  (forall w', grows w w' -> is_slice w' data x /\ is_key w' key kb) ->
  does w (catch (generichash_compare out_len key data h))
    (fun b _ => b = true <-> st_digest (gh (default 32 out_len)) kb x = h).
Proof.
  intros Hw Hk Hv Ho Hs Hgrow. pose proof (out_valid_ok _ Ho) as Hok.
  pose proof (gh_laws _ Hok) as L. set (o := default 32 out_len) in *.
  assert (Hl : zlen (st_digest (gh o) kb x) = o)
    by (unfold st_digest; rewrite (st_final_zlen (S := gh o)); by apply gh_out).
  assert (Hor : 0 <= o <= 64) by (unfold gh_out_ok in Hok; lia).
  unfold generichash_compare. destruct (digest_of_run w out_len key kb data x Hk Hv Ho Hs) as (w1 & Em & Hrun).
  fold o in Hrun. set (b := fresh_block w1). set (w2 := w_put b (Some <$> st_digest (gh o) kb x ++ zeros (64 - o)) w1).
  assert (Hb : w_mem w1 !! b = None) by apply fresh_block_spec.
  apply catch_bind. eapply (local_run _ _ _ (digest.Ref o (At b 0)) w2); [by rewrite Hrun|].
  assert (Hw2 : holds w2 (<[b := st_digest (gh o) kb x ++ zeros (64 - o)]> m))
    by (eapply holds_insert; [by eapply (holds_same w)|done]).
  assert (Hg : grows w w2) by (unfold grows in *; cbn; rewrite Em; apply insert_subseteq; by rewrite <- Em).
  apply catch_assoc, catch_bind. eapply local_run.
  { eapply digest_as_bytes_run, is_digest_local; [exact Hw2|local_tac|done|done]. }
  apply catch_assert_bind; [intros Hd%bool_decide_eq_true|by intros ?%bool_decide_eq_false w'].
  destruct (Hgrow w2 Hg) as [Hs2 Hk2].
  apply catch_bind. eapply local_run; [rewrite (generichash_run w2 data out_len key x kb Hs2 Hk2); by rewrite decide_True|].
  cbn zeta. fold o. apply catch_unwrap. cbn [digest.data digest.len].
  apply catch_bind. eapply local_place; [exact Hw2|]. intros c w3 Hc Hw3.
  apply catch_bind. eapply local_run.
  { eapply digest_as_bytes_run, is_digest_local; [exact Hw3|local_tac|done|done]. }
  apply catch_assert. intros _. by rewrite bool_decide_true.
Qed.

Lemma generichash_vector_settles x h :
  zlen x <= isize_max -> settles (generichash_vector x h) (st_digest (gh 32) [] x = h).
Proof.
  intros Hx w. apply catch_settles, catch_bind. eapply local_place; [apply holds_empty|]. intros b w1 _ Hw1.
  assert (Hs : is_slice w1 (Slice (At b 0) (zlen x)) x) by (eapply holds_slice; [exact Hw1|local_tac|done|lia]).
  eapply (generichash_compare_settles w1 _ (Some 32) None [] _ x);
    [exact Hw1|done|done|cbn; unfold gh_out_ok; lia|exact Hs|].
  intros w' Hg. split; [|done]. by eapply is_slice_mono.
Qed.

End GenerichashVectors.

(** ** crypto/kdf *)

Section KdfVectors.
Context `{T : Target} `{E : KdfExterns}.

(** [let mut subkey = vec![0; 32]; derive_from_key(subkey.as_mut_slice(), id, ctx, &key).unwrap();] *)
Definition kdf_subkey_vec (id : Z) (ctx : bytes) (key : ptr) : M vec :=
  let* subkey := vec_of (zeros 32) in
  let* r := kdf.derive_from_key (v_slice subkey) id ctx key in
  let* _ := unwrap r in
  ret subkey.

(** One of the two blocks of the test *)
Definition kdf_vector (kb ctx e1 e2 e3 : bytes) : M unit :=
  let* key := place kb in
  let* subkey1 := kdf_subkey_vec 1 ctx (At key 0) in
  let* subkey2 := kdf_subkey_vec 2 ctx (At key 0) in
  let* subkey3 := kdf_subkey_vec 3 ctx (At key 0) in
  let* _ := vec_is subkey1 e1 in
  let* _ := vec_is subkey2 e2 in
  vec_is subkey3 e3.

Definition kdf_expected_1 : bytes := (hex "3587b868c7c50495f0e836d9935849ff065b530be282e5d3567eda615d910138").
Definition kdf_expected_2 : bytes := (hex "1fde210bc549c47967cb7b2e8fc7a6cd31fcad95c48fc28be7600353ebe16d44").
Definition kdf_expected_3 : bytes := (hex "91668188b16dc0ee3217a3e2a86a97b542ba133bcd8e307ff1b17764d0e57a8f").
Definition kdf_expected_4 : bytes := (hex "3bf2def576f5d3fca36a3285809680dcc8606f54bd79d5766b47c574dd058afb").
Definition kdf_expected_5 : bytes := (hex "3d0d54b154cc5f26e06671c49bc43f6166acefe90bf4717ba16fe40cfa9d7b40").
Definition kdf_expected_6 : bytes := (hex "4e0062569ab196a32efe2da409bd9b5b9d052805d8cbb27a6fa4cafbaf6fd5c7").
Definition kdf_test_vectors : M unit :=
  let* _ := kdf_vector (replicate 32 x00) (replicate 8 x00) kdf_expected_1 kdf_expected_2 kdf_expected_3 in
  kdf_vector (replicate 32 x01) (replicate 8 x02) kdf_expected_4 kdf_expected_5 kdf_expected_6.

Context {D : KdfDoc E}.

Lemma local_subkey {B} (Q : B -> world -> Prop) w m id ctx k kb (f : vec -> M B) :
  holds w m -> m !! k = Some kb -> zlen kb = 32 -> zlen ctx = 8 ->
  (forall b w', m !! b = None -> holds w' (<[b := kdf_subkey kb ctx id 32]> m) -> does w' (f (Vec b 32 32)) Q) ->
  does w (bind (kdf_subkey_vec id ctx (At k 0)) f) Q.
Proof.
  intros Hw Hk Hl Hc Hf. pose proof isize_max_bounds. unfold kdf_subkey_vec. apply local_assoc.
  eapply local_vec; [exact Hw|reflexivity|]. intros b w1 Hb Hw1. change (zlen (zeros 32)) with 32 in *. sl.
  apply local_assoc. eapply local_run.
  { rewrite (derive_from_key_run w1 _ id ctx _ (zeros 32) kb);
      [by rewrite decide_True|eapply holds_slice; [exact Hw1|local_tac|done|lia]|done|].
    rewrite <- Hl. eapply holds_ref; [exact Hw1|]. rewrite lookup_insert_ne; [done|]. congruence. }
  apply local_assoc. eapply local_unwrap; [reflexivity|]. apply local_ret, Hf; [done|].
  rewrite <- (insert_insert_eq m b (kdf_subkey kb ctx id 32) (zeros 32)).
  eapply holds_store; [exact Hw1|apply lookup_insert_eq|]. by apply (kdf_subkey_zlen kb ctx id 32).
Qed.

Lemma kdf_vector_settles kb ctx e1 e2 e3 :
  zlen kb = 32 -> zlen ctx = 8 ->
  settles (kdf_vector kb ctx e1 e2 e3)
    (kdf_subkey kb ctx 1 32 = e1 /\ kdf_subkey kb ctx 2 32 = e2 /\ kdf_subkey kb ctx 3 32 = e3).
Proof.
  intros Hk Hc w. apply catch_settles, catch_bind. eapply local_place; [apply holds_empty|]. intros k w1 _ Hw1.
  apply catch_bind. eapply local_subkey; [exact Hw1|local_tac|done|done|]. intros s1 w2 Hs1 Hw2. fresh_facts.
  apply catch_bind. eapply local_subkey; [exact Hw2|local_tac|done|done|]. intros s2 w3 Hs2 Hw3. fresh_facts.
  apply catch_bind. eapply local_subkey; [exact Hw3|local_tac|done|done|]. intros s3 w4 Hs3 Hw4. fresh_facts.
  assert (Hl : forall i, 32 = zlen (kdf_subkey kb ctx i 32)) by (intros i; by rewrite kdf_subkey_zlen).
  eapply catch_vec_is_bind; [exact Hw4|local_tac|apply Hl| |by intros ? w' ; split; [|intros [??]]].
  intros V1. eapply catch_vec_is_bind; [exact Hw4|local_tac|apply Hl| |by intros ? w'; split; [|intros (?&?&?)]].
  intros V2. eapply catch_vec_is; [exact Hw4|local_tac|apply Hl|].
  intros _. rewrite bool_decide_eq_true. tauto.
Qed.

(** Two tests in a row *)
Lemma settles_both (t u : M unit) P R :
  settles t P -> settles u R -> settles (let* _ := t in u) (P /\ R).
Proof.
  intros Ht Hu w. destruct (Ht w) as [Hp Hn]. split.
  - intros [P1 R1]. eapply does_bind; [by apply Hp|]. intros [] w' _. by apply Hu.
  - intros Hpr. unfold bind. destruct (t w) as [[] w'| | |] eqn:Et; [|done|..].
    + apply Hu. intros R1. assert (Hnp : ~ P) by tauto. specialize (Hn Hnp). congruence.
    + assert (Hnp : ~ P) by (intros P1; destruct (Hp P1) as (? & ? & Hd & _); congruence).
      specialize (Hn Hnp). congruence.
    + assert (Hnp : ~ P) by (intros P1; destruct (Hp P1) as (? & ? & Hd & _); congruence).
      specialize (Hn Hnp). congruence.
Qed.

Lemma kdf_test_vectors_settles :
  settles kdf_test_vectors
    ((kdf_subkey (zeros 32) (zeros 8) 1 32 = kdf_expected_1 /\
      kdf_subkey (zeros 32) (zeros 8) 2 32 = kdf_expected_2 /\
      kdf_subkey (zeros 32) (zeros 8) 3 32 = kdf_expected_3) /\
     (kdf_subkey (replicate 32 x01) (replicate 8 x02) 1 32 = kdf_expected_4 /\
      kdf_subkey (replicate 32 x01) (replicate 8 x02) 2 32 = kdf_expected_5 /\
      kdf_subkey (replicate 32 x01) (replicate 8 x02) 3 32 = kdf_expected_6)).
Proof. apply settles_both; by apply kdf_vector_settles. Qed.

End KdfVectors.

(** ** crypto/shorthash *)

Section ShorthashVectors.
Context `{T : Target} `{E : ShorthashExterns}.

(** [for i in ... { m.push(i as u8); }] *)
Fixpoint push_range (i : Z) (n : nat) (m : vec) : M vec :=
  match n with
  | O => ret m
  | S n => let* m := vec_push m (byte_of_Z i) in push_range (i + 1) n m
  end.

Definition siphash_expecteds : list bytes := [
  hex "310e0edd47db6f72";
  hex "fd67dc93c539f874";
  hex "5a4fa9d909806c0d";
  hex "2d7efbd796666785";
  hex "b7877127e09427cf";
  hex "8da699cd64557618";
  hex "cee3fe586e46c9cb";
  hex "37d1018bf50002ab";
  hex "6224939a79f5f593";
  hex "b0e4a90bdf82009e";
  hex "f3b9dd94c5bb5d7a";
  hex "a7ad6b22462fb3f4";
  hex "fbe50e86bc8f1e75";
  hex "903d84c02756ea14";
  hex "eef27a8e90ca23f7";
  hex "e545be4961ca29a1";
  hex "db9bc2577fcc2a3f";
  hex "9447be2cf5e99a69";
  hex "9cd38d96f0b3c14b";
  hex "bd6179a71dc96dbb";
  hex "98eea21af25cd6be";
  hex "c7673b2eb0cbf2d0";
  hex "883ea3e395675393";
  hex "c8ce5ccd8c030ca8";
  hex "94af49f6c650adb8";
  hex "eab8858ade92e1bc";
  hex "f315bb5bb835d817";
  hex "adcf6b0763612e2f";
  hex "a5c91da7acaa4dde";
  hex "716595876650a2a6";
  hex "28ef495c53a387ad";
  hex "42c341d8fa92d832";
  hex "ce7cf2722f512771";
  hex "e37859f94623f3a7";
  hex "381205bb1ab0e012";
  hex "ae97a10fd434e015";
  hex "b4a31508beff4d31";
  hex "81396229f0907902";
  hex "4d0cf49ee5d4dcca";
  hex "5c73336a76d8bf9a";
  hex "d0a704536ba93e0e";
  hex "925958fcd6420cad";
  hex "a915c29bc8067318";
  hex "952b79f3bc0aa6d4";
  hex "f21df2e41d4535f9";
  hex "87577519048f53a9";
  hex "10a56cf5dfcd9adb";
  hex "eb75095ccd986cd0";
  hex "51a9cb9ecba312e6";
  hex "96afadfc2ce666c7";
  hex "72fe52975a4364ee";
  hex "5a1645b276d592a1";
  hex "b274cb8ebf87870a";
  hex "6f9bb4203de7b381";
  hex "eaecb2a30b22a87f";
  hex "9924a43cc1315724";
  hex "bd838d3aafbf8db7";
  hex "0b1a2a3265d51aea";
  hex "135079a3231ce660";
  hex "932b2846e4d70666";
  hex "e1915f5cb1eca46c";
  hex "f325965ca16d629f";
  hex "575ff28e60381be5";
  hex "724506eb4c328a95"].

Definition shorthash_test_vectors : M unit :=
  let maxlen := 64%nat in
  let* m := vec_with_capacity 64 in
  let* m := push_range 0 64 m in
  let* k := place (hex "000102030405060708090a0b0c0d0e0f") in
  for_range 0 maxlen (fun i =>
    let* s := slice_index (v_slice m) 0 i in
    let* h := shorthash.shorthash s (At k 0) in
    assert (bool_decide (h = nth (Z.to_nat i) siphash_expecteds []))).

(** A loop of assertions that leave the world alone *)
Lemma for_checks w (f : Z -> M unit) (p : Z -> bool) n a :
  (forall i, a <= i < a + Z.of_nat n -> f i w = assert (p i) w) ->
  does w (catch (for_range a n f)) (fun b _ => b = true <-> forall i, a <= i < a + Z.of_nat n -> p i = true).
Proof.
  revert a. induction n as [|n IH]; intros a Hf; cbn [for_range].
  { apply catch_ret. split; [intros _ i Hi; lia|done]. }
  assert (Ha := Hf a ltac:(lia)). destruct (p a) eqn:Ep; cbn in Ha.
  - destruct (IH (a + 1)) as (b & w' & Hr & Hb); [intros i Hi; apply Hf; lia|].
    exists b, w'. split; [unfold catch, bind in *; by rewrite Ha|]. rewrite Hb. split; intros Hall i Hi.
    + destruct (decide (i = a)) as [->|]; [done|]. apply Hall. lia.
    + apply Hall. lia.
  - exists false, dead. split; [unfold catch, bind; by rewrite Ha|]. split; [done|].
    intros Hall. rewrite (Hall a) in Ep by lia. done.
Qed.

(** A vector that is filled within its capacity stays where it is. *)
Lemma push_range_run b cap w : w_mem w !! b = None -> forall n i pre,
  zlen pre + Z.of_nat n <= cap ->
  push_range i n (Vec b (zlen pre) cap)
    (w_put b ((Some <$> pre) ++ replicate (Z.to_nat (cap - zlen pre)) None) w) =
  Done (Vec b (zlen pre + Z.of_nat n) cap)
    (w_put b ((Some <$> pre ++ ((fun j => byte_of_Z (i + Z.of_nat j)) <$> seq 0 n)) ++
              replicate (Z.to_nat (cap - zlen pre - Z.of_nat n)) None) w).
Proof.
  intros Hb n. induction n as [|n IH]; intros i pre Hn; cbn [push_range].
  { cbn [fmap list_fmap seq]. by rewrite app_nil_r, Z.add_0_r, Z.sub_0_r. }
  pose proof (zlen_nonneg pre) as Hp.
  set (w1 := w_put b (Some <$> pre ++ [byte_of_Z i]) w).
  eapply bind_step.
  { unfold vec_push, vec_append, vec_reserve. cbn [v_cap v_len]. rewrite decide_True by (change (zlen [_]) with 1; lia).
    eapply bind_step; [reflexivity|]. cbn [v_block v_len]. rewrite to_nat_zlen. eapply bind_step.
    { apply write_put_splice. rewrite length_app, length_fmap, length_replicate. cbn [length]. unfold zlen in *. lia. }
    replace (splice _ _ _) with ((Some <$> pre ++ [byte_of_Z i]) ++ replicate (Z.to_nat (cap - zlen pre - 1)) (@None byte)).
    - apply (vec_set_len_run (Vec b (zlen pre) cap) _ _ [byte_of_Z i]); cbn [v_block v_len v_cap];
        [|change (zlen [_]) with 1; lia|change (zlen [_]) with 1; lia].
      unfold bytes_at, read_cells. cbn [w_mem w_put]. rewrite lookup_insert_eq. rewrite to_nat_zlen, fmap_app, <- app_assoc.
      rewrite drop_app_length' by (by rewrite length_fmap). cbn.
      rewrite decide_True by (rewrite length_app, length_fmap; cbn; lia). by rewrite take_0.
    - unfold splice. rewrite take_app_length' by (by rewrite length_fmap). rewrite fmap_app, <- !app_assoc. f_equal. cbn.
      rewrite drop_app_ge by (rewrite length_fmap; lia). rewrite length_fmap.
      replace (length pre + 1 - length pre)%nat with 1%nat by lia. rewrite drop_replicate. do 2 f_equal. lia. }
  assert (Hl : zlen (pre ++ [byte_of_Z i]) = zlen pre + 1) by (by rewrite zlen_app).
  specialize (IH (i + 1) (pre ++ [byte_of_Z i])). rewrite Hl in IH. change (zlen [byte_of_Z i]) with 1.
  replace (cap - zlen pre - 1) with (cap - (zlen pre + 1)) by lia. cbn [v_block v_cap]. rewrite IH by lia.
  f_equal; [f_equal; lia|]. f_equal. f_equal; [|f_equal; lia]. f_equal. rewrite <- app_assoc. f_equal.
  rewrite <- cons_seq. cbn [fmap list_fmap app]. rewrite Z.add_0_r. f_equal.
  rewrite <- fmap_S_seq, <- list_fmap_compose. apply list_fmap_ext. intros j x _. cbn. f_equal. lia.
Qed.

Context {D : ShorthashDoc E}.

Definition siphash_message : bytes := byte_of_Z <$> (Z.of_nat <$> seq 0 64).

Lemma shorthash_test_vectors_settles :
  settles shorthash_test_vectors
    (forall i, (i < 64)%nat ->
       sip (hex "000102030405060708090a0b0c0d0e0f") (take i siphash_message) = nth i siphash_expecteds []).
Proof.
  intros w. unfold shorthash_test_vectors. cbv zeta. pose proof isize_max_bounds.
  set (key := hex "000102030405060708090a0b0c0d0e0f").
  rewrite vec_with_capacity_eq by lia. apply catch_settles, catch_assoc, catch_bind.
  set (b := fresh_block w). assert (Hb : w_mem w !! b = None) by apply fresh_block_spec.
  eapply local_run; [apply alloc_run|]. fold b. apply catch_bind, local_ret.
  apply catch_bind. eapply local_run; [by apply (push_range_run b 64 w Hb 64 0 [])|].
  set (w1 := w_put b _ w). change (zlen [] + Z.of_nat 64) with 64.
  assert (Hw1 : holds w1 (<[b := siphash_message]> ∅)) by (eapply holds_insert; [apply (holds_empty w)|done]).
  apply catch_bind. eapply local_place; [exact Hw1|]. intros k w2 Hk Hw2. fresh_facts.
  eapply (does_mono _ _ (fun r _ => r = true <-> forall i, 0 <= i < 0 + Z.of_nat 64 ->
    bool_decide (sip key (take (Z.to_nat i) siphash_message) = nth (Z.to_nat i) siphash_expecteds []) = true)).
  - apply for_checks. intros i Hi. change (0 + Z.of_nat 64) with 64 in Hi. sl. unfold bind at 1.
    rewrite slice_index_run by (cbn; lia). cbn [s_ptr ptr_add s_len]. rewrite Z.sub_0_r. cbn [Z.to_nat Nat.add].
    unfold bind. rewrite (shorthash_run w2 _ _ (take (Z.to_nat i) siphash_message) key); [done|..].
    + assert (Hl : zlen (take (Z.to_nat i) siphash_message) = i)
        by (unfold zlen; rewrite length_take; change (length siphash_message) with 64%nat; lia).
      split_and!; [|cbn [s_len]; lia|lia].
      destruct (holds_ref w2 _ b siphash_message Hw2) as [Hp _]; [local_tac|].
      rewrite <- (take_drop (Z.to_nat i) siphash_message) in Hp. by apply bytes_at_app_l in Hp.
    + change 16 with (zlen key). apply (holds_ref w2 _ k _ Hw2). local_tac.
  - intros r w' ->. split.
    + intros Hv i Hi. specialize (Hv (Z.of_nat i) ltac:(lia)). rewrite Nat2Z.id in Hv. by apply bool_decide_eq_true in Hv.
    + intros Hv i Hi. apply bool_decide_eq_true, Hv. lia.
Qed.

End ShorthashVectors.

(** ** The theorems *)

Ltac by_value := vm_compute; reflexivity.

Lemma fits `{T : Target} (bs : bytes) : (zlen bs <=? 4096) = true -> zlen bs <= isize_max.
Proof. intros Hb%Z.leb_le. pose proof isize_max_bounds. lia. Qed.

(** C22. The tests of [hash] and of [auth] that compare with an expected value,
    whatever the input and the value: with any documented implementation, a
    test passes if and only if the documented function gives this value for
    this input, and panics otherwise; the same for a state updated in chunks of
    three bytes, a state that is not updated, both ways to compare tags, and
    the test that verifies the tag as well. *)
Theorem hash_vectors_settle `{T : Target} (A : hash_module) {D : HashDoc A}
    `{U : UtilsExterns} {UD : UtilsDoc U} (B : auth_module) {DB : AuthDoc B} (St : auth_state) {DS : AuthStateDoc St}
    (Ht : state_tagbytes St = auth.TAGBYTES B) :
  (forall x h, zlen x <= isize_max ->
     settles (hash_vector A x h) (st_digest hash_streaming tt x = h) /\
     settles (hash_state_vector A x h) (st_digest hash_streaming tt x = h)) /\
  (forall h, settles (hash_empty_vector A h) (st_digest hash_streaming tt [] = h)) /\
  (forall compare key c a, compare ∈ [auth_compare B; auth_compare_bytes] ->
     zlen c <= isize_max -> zlen a = auth.TAGBYTES B ->
     (zlen key = auth.KEYBYTES B -> settles (auth_vector B compare key c a) (auth_mac key c = a)) /\
     (zlen key <= isize_max ->
        settles (auth_state_vector St compare key c a) (st_digest auth_streaming key c = a))) /\
  (forall key c a, zlen key = auth.KEYBYTES B -> zlen c <= isize_max -> zlen a = auth.TAGBYTES B ->
     settles (auth_verify_vector B key c a) (auth_mac key c = a)).
Proof.
  split_and!.
  - intros x h Hx. split; [by apply hash_vector_settles|by apply hash_state_vector_settles].
  - intros h. apply hash_empty_vector_settles.
  - intros compare key c a Hc Hl Ha. assert (C : compares B compare).
    { apply elem_of_cons in Hc as [->|[->|[]%not_elem_of_nil]%elem_of_cons].
      - apply (auth_compare_compares B (UD := UD)), auth_tag_range.
      - apply auth_compare_bytes_compares. }
    split; intros Hk; [by apply auth_vector_settles|by apply (auth_state_vector_settles B St (UD := UD))].
  - intros key c a Hk Hl Ha. by apply (auth_verify_vector_settles B (UD := UD)).
Qed.

(** SHA-256 of no bytes is not zero, and the published tag of HMAC-SHA-256 is
    the one both ways to compute it give. *)
Lemma hash_vectors_settle_values :
  st_digest (hash_streaming (HashDoc := Std.sha256_doc)) tt [] <> zeros 32 /\
  auth_mac (AuthDoc := Std.hmacsha256_doc) auth_key_1 auth_message_1 = auth_tag_1 /\
  st_digest (auth_streaming (AuthStateDoc := Std.hmacsha256_state_doc)) auth_key_1 auth_message_1 = auth_tag_1.
Proof. split_and!; [by vm_compute|by_value|by_value]. Qed.

Lemma hash_vectors_settle_witness :
  let T := target64 in
  let H := Std.sha256_externs in
  let A := Std.hmacsha256_externs in
  let U := Ref.utils in
  (forall w, hash_empty_vector sha256 (zeros 32) w = Panicked) /\
  passes (auth_state_vector hmacsha256_state (auth_compare hmacsha256)
    auth_key_1 auth_message_1 auth_tag_1).
Proof.
  intros T H A U.
  destruct (hash_vectors_settle sha256 (D := Std.sha256_doc) (UD := Ref.utils_doc)
    hmacsha256 (DB := Std.hmacsha256_doc) hmacsha256_state (DS := Std.hmacsha256_state_doc) eq_refl) as (_ & He & Ha & _).
  destruct hash_vectors_settle_values as (V1 & _ & V2). split.
  - intros w. apply (He (zeros 32) w), V1.
  - destruct (Ha (auth_compare hmacsha256) auth_key_1 auth_message_1 auth_tag_1) as [_ Hst];
      [by apply elem_of_cons; left|apply fits; reflexivity|reflexivity|].
    exact (settles_passes _ _ (Hst (fits auth_key_1 eq_refl)) V2).
Defined.

Lemma siphash_values i :
  (i < 64)%nat -> SipHash.digest (hex "000102030405060708090a0b0c0d0e0f") (take i siphash_message) = nth i siphash_expecteds [].
Proof.
  assert (Hall : Forall (fun i => SipHash.digest (hex "000102030405060708090a0b0c0d0e0f") (take i siphash_message) =
    nth i siphash_expecteds []) (seq 0 64)) by (apply (bool_decide_unpack _); vm_compute; done).
  intros Hi. rewrite Forall_forall in Hall. apply Hall. apply elem_of_seq. lia.
Qed.

(** The vectors of SHA-256 and SHA-512, in one call and in chunks *)
Theorem hash_vectors_pass `{T : Target} :
  let E := Std.sha256_externs in
  let E5 := Std.sha512_externs in
  passes sha256_test_vector_1 /\ passes sha256_test_vector_2 /\
  passes sha256_test_hash_state_empty /\ passes sha256_test_hash_state_multi_parts /\
  passes sha512_test_vector_1 /\ passes sha512_test_hash_state_multi_parts.
Proof.
  intros E E5.
  pose (digest256 := st_digest (hash_streaming (HashDoc := Std.sha256_doc)) tt).
  pose (digest512 := st_digest (hash_streaming (HashDoc := Std.sha512_doc)) tt).
  assert (H1 : digest256 [] = (hex "e3b0c44298fc1c149afbf4c8996fb92427ae41e4649b934ca495991b7852b855")) by by_value.
  assert (H2 : digest256 fox = (hex "d7a8fbb307d7809469ca9abcb0082e4f8d5651e46d3cdb762d02d0bf37c9e592")) by by_value.
  assert (H3 : digest512 testing = sha512_expected) by by_value.
  split_and!.
  - exact (settles_passes _ _ (hash_vector_settles sha256 (D := Std.sha256_doc) [] _ (fits [] eq_refl)) H1).
  - exact (settles_passes _ _ (hash_vector_settles sha256 (D := Std.sha256_doc) fox _ (fits fox eq_refl)) H2).
  - exact (settles_passes _ _ (hash_empty_vector_settles sha256 (D := Std.sha256_doc) _) H1).
  - exact (settles_passes _ _ (hash_state_vector_settles sha256 (D := Std.sha256_doc) fox _ (fits fox eq_refl)) H2).
  - exact (settles_passes _ _ (hash_vector_settles sha512 (D := Std.sha512_doc) testing _ (fits testing eq_refl)) H3).
  - exact (settles_passes _ _ (hash_state_vector_settles sha512 (D := Std.sha512_doc) testing _ (fits testing eq_refl)) H3).
Qed.

(** The vectors of HMAC-SHA-256, HMAC-SHA-512, HMAC-SHA-512-256 and Poly1305 *)
Theorem auth_vectors_pass `{T : Target} `{U : UtilsExterns} {UD : UtilsDoc U} :
  let H2 := Std.hmacsha256_externs in
  let H5 := Std.hmacsha512_externs in
  let H52 := Std.hmacsha512256_externs in
  let O := Std.onetimeauth_externs in
  (passes hmacsha256_test_vector_1 /\ passes hmacsha256_test_vector_state_1) /\
  (passes hmacsha512_test_vector_1 /\ passes hmacsha512_test_vector_state_1) /\
  (passes hmacsha512256_test_vector_1 /\ passes hmacsha512256_test_vector_state_1) /\
  passes poly1305_test_vector_1.
Proof.
  intros H2 H5 H52 O.
  assert (V2 : st_digest hmac_sha256 auth_key_1 auth_message_1 = auth_tag_1) by by_value.
  assert (V5 : st_digest hmac_sha512 auth_key_2 auth_message_2 = auth_tag_2) by by_value.
  assert (V52 : st_digest hmac_sha512256 auth_key_2 auth_message_2 = auth_tag_2_half) by by_value.
  assert (Hl : zlen auth_key_1 = 32 /\ zlen auth_key_2 = 32) by (split; by_value). destruct Hl as [Hk1 Hk2].
  pose proof (auth_compare_compares (UD := UD) hmacsha256 ltac:(done)) as C1.
  pose proof (auth_compare_bytes_compares hmacsha512) as C2.
  pose proof (auth_compare_bytes_compares hmacsha512256) as C3.
  split_and!.
  - exact (settles_passes _ _ (auth_vector_settles hmacsha256 (D := Std.hmacsha256_doc)
      _ auth_key_1 auth_message_1 auth_tag_1 C1 Hk1 (fits auth_message_1 eq_refl) eq_refl) V2).
  - exact (settles_passes _ _ (auth_state_vector_settles hmacsha256 hmacsha256_state (UD := UD) (D := Std.hmacsha256_state_doc)
      _ auth_key_1 auth_message_1 auth_tag_1 C1 (fits auth_key_1 eq_refl) (fits auth_message_1 eq_refl) eq_refl eq_refl) V2).
  - exact (settles_passes _ _ (auth_vector_settles hmacsha512 (D := Std.hmacsha512_doc)
      _ auth_key_2 auth_message_2 auth_tag_2 C2 Hk2 (fits auth_message_2 eq_refl) eq_refl) V5).
  - exact (settles_passes _ _ (auth_state_vector_settles hmacsha512 hmacsha512_state (UD := UD) (D := Std.hmacsha512_state_doc)
      _ auth_key_2 auth_message_2 auth_tag_2 C2 (fits auth_key_2 eq_refl) (fits auth_message_2 eq_refl) eq_refl eq_refl) V5).
  - exact (settles_passes _ _ (auth_vector_settles hmacsha512256 (D := Std.hmacsha512256_doc)
      _ auth_key_2 auth_message_2 auth_tag_2_half C3 Hk2 (fits auth_message_2 eq_refl) eq_refl) V52).
  - exact (settles_passes _ _ (auth_state_vector_settles hmacsha512256 hmacsha512256_state (UD := UD) (D := Std.hmacsha512256_state_doc)
      _ auth_key_2 auth_message_2 auth_tag_2_half C3 (fits auth_key_2 eq_refl) (fits auth_message_2 eq_refl) eq_refl eq_refl) V52).
  - eapply settles_passes.
    + apply (auth_verify_vector_settles poly1305 (UD := UD) (D := Std.onetimeauth_doc)); [done|by apply fits|done].
    + by_value.
Qed.

(** The vectors of BLAKE2b and SipHash-2-4 of the first 64 messages of its
    specification; and the vectors of the key derivation, which according to the
    source were generated with this implementation: they are the values of the
    published algorithm. *)
Theorem digest_vectors_pass `{T : Target} `{U : UtilsExterns} :
  let G := Std.generichash_externs in
  let K := Std.kdf_externs in
  let S := Std.shorthash_externs in
  passes generichash_test_vector_1 /\ passes generichash_test_vector_2 /\
  passes kdf_test_vectors /\ passes shorthash_test_vectors.
Proof.
  intros G K S. split_and!.
  - refine (settles_passes _ _ (generichash_vector_settles (D := Std.generichash_doc) [] _ (fits [] eq_refl)) _). by_value.
  - refine (settles_passes _ _ (generichash_vector_settles (D := Std.generichash_doc) fox _ (fits fox eq_refl)) _). by_value.
  - refine (settles_passes _ _ (kdf_test_vectors_settles (D := Std.kdf_doc)) _). split_and!; by_value.
  - refine (settles_passes _ _ (shorthash_test_vectors_settles (D := Std.shorthash_doc)) _). apply siphash_values.
Qed.

(** C35. The tests of [generichash], [kdf] and [shorthash] that compare with
    expected values: with any documented implementation, a digest of any data
    with any key and output length, one with a state and one in one call,
    passes against a value if and only if the documented function gives it, and
    panics otherwise; three subkeys of any key and context pass if and only if
    they are the documented ones; and the 64 messages of [test_vectors] pass if
    and only if the function gives the 64 values of the source. *)
Theorem digest_vectors_settle `{T : Target} `{U : UtilsExterns}
    `{G : GenerichashExterns} {DG : GenerichashDoc G} `{K : KdfExterns} {DK : KdfDoc K}
    `{S : ShorthashExterns} {DS : ShorthashDoc S} :
  (forall w out_len key kb data x h, is_key w key kb -> key_valid key kb -> out_valid out_len -> is_slice w data x ->
     (forall w', grows w w' -> is_slice w' data x /\ is_key w' key kb) ->
     settles_at w (generichash_compare out_len key data h) (st_digest (gh (default 32 out_len)) kb x = h)) /\
  (forall x h, zlen x <= isize_max -> settles (generichash_vector x h) (st_digest (gh 32) [] x = h)) /\
  (forall kb ctx e1 e2 e3, zlen kb = 32 -> zlen ctx = 8 ->
     settles (kdf_vector kb ctx e1 e2 e3)
       (kdf_subkey kb ctx 1 32 = e1 /\ kdf_subkey kb ctx 2 32 = e2 /\ kdf_subkey kb ctx 3 32 = e3)) /\
  settles shorthash_test_vectors
    (forall i, (i < 64)%nat ->
       sip (hex "000102030405060708090a0b0c0d0e0f") (take i siphash_message) = nth i siphash_expecteds []).
Proof.
  split_and!.
  - intros w out_len key kb data x h Hk Hv Ho Hs Hg. apply catch_settles.
    eapply generichash_compare_settles; [apply (holds_empty w)|eassumption..].
  - intros x h Hx. by apply generichash_vector_settles.
  - intros kb ctx e1 e2 e3 Hk Hc. by apply kdf_vector_settles.
  - apply shorthash_test_vectors_settles.
Qed.

Lemma digest_values :
  let gh0 := st_digest (gh (GenerichashDoc := Std.generichash_doc) 32) [] in
  let sub := kdf_subkey (KdfDoc := Std.kdf_doc) (zeros 32) (zeros 8) in
  gh0 fox = hex "01718cec35cd3d796dd00020e0bfecb473ad23457d063b75eff29c0ffa2e58a9" /\ gh0 [] <> zeros 32 /\
  (sub 1 32 = kdf_expected_1 /\ sub 2 32 = kdf_expected_2 /\ sub 3 32 = kdf_expected_3).
Proof. split_and!; first [by_value|by vm_compute]. Qed.

(** With the published algorithms: the vectors pass, and a wrong digest, which
    BLAKE2b of no bytes is not, is noticed. *)
Lemma digest_vectors_settle_witness :
  let T := target64 in
  let U := Ref.utils in
  let G := Std.generichash_externs in
  let K := Std.kdf_externs in
  let S := Std.shorthash_externs in
  passes generichash_test_vector_2 /\ (forall w, generichash_vector [] (zeros 32) w = Panicked) /\
  passes (kdf_vector (zeros 32) (zeros 8) kdf_expected_1 kdf_expected_2 kdf_expected_3) /\
  passes shorthash_test_vectors.
Proof.
  intros T U G K S.
  destruct (digest_vectors_settle (DG := Std.generichash_doc) (DK := Std.kdf_doc) (DS := Std.shorthash_doc))
    as (_ & Hg & Hk & Hs).
  destruct digest_values as (V1 & V2 & V3). split_and!.
  - exact (settles_passes _ _ (Hg fox _ (fits fox eq_refl)) V1).
  - intros w. apply (Hg [] (zeros 32) (fits [] eq_refl) w), V2.
  - exact (settles_passes _ _ (Hk (zeros 32) (zeros 8) _ _ _ eq_refl eq_refl) V3).
  - exact (settles_passes _ _ Hs siphash_values).
Defined.
