(* ===== verification/CipherTests.v ===== *)
(** * The test vectors of crypto/stream, crypto/secretbox and crypto/aead

    The tests that compare with published ciphertexts and key streams, as
    programs over any implementation of the foreign functions; for every
    documented one, exactly when they pass; and the proof that they do with the
    published algorithms (Standards.v).  Two tests hash
    four megabytes of a key stream: they are too long to be computed here, but
    one passes if and only if the other does. *)

From S2P Require Export SignTests MacroTests HashTests.

(** ** crypto/stream *)

Section StreamVectors.
Context `{T : Target} (A : stream_cipher).

(** [let rs = stream(rs_expected.len(), &nonce, &key); assert!(rs == rs_expected);] *)
Definition stream_vector (key nonce : bytes) (len : Z) (expected : bytes) : M unit :=
  let* k := place key in
  let* n := place nonce in
  let* rs := stream.stream A len (At n 0) (At k 0) in
  vec_is rs expected.

(** [let c = stream_xor(m, &nonce, &key); assert!(c[32..] == c_expected[..]);] *)
Definition stream_xor_vector (key nonce m c_expected : bytes) : M unit :=
  let* k := place key in
  let* n := place nonce in
  let* mp := place m in
  let* c := stream.stream_xor A (Slice (At mp 0) (zlen m)) (At n 0) (At k 0) in
  let* s := slice_index (v_slice c) 32 (v_len c) in
  let* b := slice_bytes s in
  assert (bool_decide (b = c_expected)).

(** [let Digest(digest) = hash(&output);] *)
Definition stream_output_digest `{H : Sha256Externs} (key nonce : bytes) : M bytes :=
  let* k := place key in
  let* n := place nonce in
  let* output := stream.stream A 4194304 (At n 0) (At k 0) in
  hash.hash sha256 (v_slice output).
(** [assert!(digest == digest_expected);] *)
Definition stream_digest_vector `{H : Sha256Externs} (key nonce digest_expected : bytes) : M unit :=
  let* digest := stream_output_digest key nonce in
  assert (bool_decide (digest = digest_expected)).

End StreamVectors.

(** [assert_eq!(192 / 8, gen_nonce().as_ref().len())] *)
Definition nonce_length (n : newtype) (gen_nonce : M bytes) : M unit :=
  let* p := local gen_nonce in
  assert (192 / 8 =? s_len (NewType.as_ref n p)).

Definition firstkey : bytes := (hex "1b27556473e985d462cd51197a9a46c76009549eac6474f206c4ee0844f68389").
Definition nacl_nonce : bytes := (hex "69696ee955b62b73cd62bda875fc73d68219e0036b7a0b37").
Definition secondkey : bytes := (hex "dc908dda0b9344a953629b733820778880f3ceb421bb61b91cbd4c3e66256ce4").
Definition noncesuffix : bytes := (hex "8219e0036b7a0b37").
Definition stream_digest_expected : bytes := (hex "662b9d0e3463029156069b12f918691a98f7dfb2ca0393c96bbfc6b1fbd630a2").

Section StreamTests.
Context `{T : Target} `{EC : StreamChacha20Externs} `{ES : StreamSalsa20Externs}.
Context `{EX : StreamXsalsa20Externs} `{EXC : StreamXchacha20Externs}.
Context `{H : Sha256Externs} `{R : RandombytesExterns}.

Definition chacha20_expected : bytes :=
  (hex ("f798a189f195e66982105ffb640bb7757f579da31602fc93ec01ac56f85ac3c134a4547b733b46413042c94400491769" ++
      "05d3be59ea1c53f15916155c2be8241a38008b9a26bc35941e2444177c8ade6689de95264986d95889fb60e84629c9bd" ++
      "9a5acb1cc118be563eb9b3a4a472f82e09a7e778492b562ef7130e88dfe031c79db9d4f7c7a899151b9a475032b63fc3" ++
      "85245fe054e3dd5a97a5f576fe064025d3ce042c566ab2c507b138db853e3d6959660996546cc9c4a6eafdc777c040d7" ++
      "0eaf46f76dad3979e5c5360c3317166a1c894c94a371876a94df7628fe4eaaf2ccb27d5aaae0ad7ad0f9d4b6ad3b5409" ++
      "8746d4524d38407a6deb3ab78fab78c9")%string).
Definition chacha20_test_vector_1 : M unit :=
  stream_vector chacha20
    (hex "000102030405060708090a0b0c0d0e0f101112131415161718191a1b1c1d1e1f")
    (hex "0001020304050607")
    (zlen chacha20_expected) chacha20_expected.

Definition salsa20_test_vector_1 : M unit :=
  stream_digest_vector salsa20 secondkey noncesuffix stream_digest_expected.
Definition xsalsa20_test_vector_1 : M unit :=
  stream_digest_vector xsalsa20 firstkey nacl_nonce stream_digest_expected.
Definition xsalsa20_test_vector_2 : M unit :=
  stream_vector xsalsa20 firstkey nacl_nonce 32
    (hex "eea6a7251c1e72916d11c2cb214d3c252539121d8e234e652d651fa4c8cff880").

Definition xsalsa20_m : bytes :=
  (hex ("0000000000000000000000000000000000000000000000000000000000000000be075fc53c81f2d5cf141316ebeb0c7b" ++
      "5228c52a4c62cbd44b66849b64244ffce5ecbaaf33bd751a1ac728d45e6c61296cdc3c01233561f41db66cce314adb31" ++
      "0e3be8250c46f06dceea3a7fa1348057e2f6556ad6b1318a024a838f21af1fde048977eb48f59ffd4924ca1c60902e52" ++
      "f0a089bc76897040e082f937763848645e0705")%string).
Definition xsalsa20_c_expected : bytes :=
  (hex ("8e993b9f48681273c29650ba32fc76ce48332ea7164d96a4476fb8c531a1186ac0dfc17c98dce87b4da7f011ec48c972" ++
      "71d2c20f9b928fe2270d6fb863d51738b48eeee314a7cc8ab932164548e526ae90224368517acfeabd6bb3732bc0e9da" ++
      "99832b61ca01b6de56244a9e88d5f9b37973f622a43d14a6599b1f654cb45a74e355a5")%string).
Definition xsalsa20_test_vector_3 : M unit :=
  stream_xor_vector xsalsa20 firstkey nacl_nonce xsalsa20_m xsalsa20_c_expected.

Definition xsalsa20_test_nonce_length : M unit := nonce_length (stream.Nonce xsalsa20) xsalsa20_gen_nonce.
Definition xchacha20_test_nonce_length : M unit := nonce_length (stream.Nonce xchacha20) xchacha20_gen_nonce.

End StreamTests.

(** ** crypto/secretbox *)

Section SecretboxVectors.
Context `{T : Target} `{E : SecretboxExterns} `{R : RandombytesExterns}.

Definition secretbox_vector (firstkey nonce m c_expected : bytes) : M unit :=
  let* k := place firstkey in
  let* n := place nonce in
  let* m := vec_of m in
  let* c := secretbox.seal (v_slice m) (At n 0) (At k 0) in
  let* _ := vec_is c c_expected in
  let* m2 := secretbox.open (v_slice c) (At n 0) (At k 0) in
  assert_ok_same m m2.

Definition nacl_message : bytes :=
  (hex ("be075fc53c81f2d5cf141316ebeb0c7b5228c52a4c62cbd44b66849b64244ffce5ecbaaf33bd751a1ac728d45e6c6129" ++
      "6cdc3c01233561f41db66cce314adb310e3be8250c46f06dceea3a7fa1348057e2f6556ad6b1318a024a838f21af1fde" ++
      "048977eb48f59ffd4924ca1c60902e52f0a089bc76897040e082f937763848645e0705")%string).
Definition nacl_ciphertext : bytes :=
  (hex ("f3ffc7703f9400e52a7dfb4b3d3305d98e993b9f48681273c29650ba32fc76ce48332ea7164d96a4476fb8c531a1186a" ++
      "c0dfc17c98dce87b4da7f011ec48c97271d2c20f9b928fe2270d6fb863d51738b48eeee314a7cc8ab932164548e526ae" ++
      "90224368517acfeabd6bb3732bc0e9da99832b61ca01b6de56244a9e88d5f9b37973f622a43d14a6599b1f654cb45a74" ++
      "e355a5")%string).

Definition secretbox_test_vector_1 : M unit := secretbox_vector firstkey nacl_nonce nacl_message nacl_ciphertext.
Definition secretbox_test_nonce_length : M unit := nonce_length secretbox.Nonce secretbox.gen_nonce.

End SecretboxVectors.

(** ** crypto/aead *)

Section AeadVectors.
Context `{T : Target} (A : aead_module).

(** A message sealed with additional data *)
Definition aead_sealed (m ad k n : bytes) : M vec :=
  let* mp := place m in
  let* adp := place ad in
  let* kp := place k in
  let* np := place n in
  aead.seal A (Slice (At mp 0) (zlen m)) (Some (Slice (At adp 0) (zlen ad))) (At np 0) (At kp 0).

(** [let c = seal(m, Some(ad), &n, &k); assert_eq!(&c[..], &c_expected[..]);] *)
Definition aead_vector (m ad k n c_expected : bytes) : M unit :=
  let* c := aead_sealed m ad k n in
  vec_is c c_expected.

(** The first 44 bytes, the ciphertext without most of its tag, and the length *)
Definition aead_prefix_vector (m ad k n c_expected : bytes) : M unit :=
  let* c := aead_sealed m ad k n in
  let* _ := assert (v_len c =? zlen c_expected) in
  let* s := slice_index (v_slice c) 0 44 in
  let* b := slice_bytes s in
  assert (bool_decide (b = take 44 c_expected)).

End AeadVectors.

Section AeadTests.
Context `{T : Target} `{EI : Chacha20Poly1305IetfExterns} `{EO : Chacha20Poly1305Externs}.
Context `{EX : Xchacha20Poly1305IetfExterns} `{EA : Aes256GcmExterns} `{R : RandombytesExterns}.

Definition chacha20poly1305_ietf_test_vector_1 : M unit :=
  aead_vector chacha20poly1305_ietf
    (hex ("4c616469657320616e642047656e746c656d656e206f662074686520636c617373206f66202739393a20496620492063" ++
      "6f756c64206f6666657220796f75206f6e6c79206f6e652074697020666f7220746865206675747572652c2073756e73" ++
      "637265656e20776f756c642062652069742e")%string)
    (hex "50515253c0c1c2c3c4c5c6c7")
    (hex "808182838485868788898a8b8c8d8e8f909192939495969798999a9b9c9d9e9f")
    (hex "070000004041424344454647")
    (hex ("d31a8d34648e60db7b86afbc53ef7ec2a4aded51296e08fea9e2b5a736ee62d63dbea45e8ca9671282fafb69da92728b" ++
      "1a71de0a9e060b2905d6a5b67ecd3b3692ddbd7f2d778b8c9803aee328091b58fab324e4fad675945585808b4831d7bc" ++
      "3ff4def08e4b7a9de576d26586cec64b61161ae10b594f09e26a7e902ecbd0600691")%string).
Definition chacha20poly1305_ietf_test_vector_2 : M unit :=
  aead_vector chacha20poly1305_ietf
    (hex ("496e7465726e65742d4472616674732061726520647261667420646f63756d656e74732076616c696420666f72206120" ++
      "6d6178696d756d206f6620736978206d6f6e74687320616e64206d617920626520757064617465642c207265706c6163" ++
      "65642c206f72206f62736f6c65746564206279206f7468657220646f63756d656e747320617420616e792074696d652e" ++
      "20497420697320696e617070726f70726961746520746f2075736520496e7465726e65742d4472616674732061732072" ++
      "65666572656e6365206d6174657269616c206f7220746f2063697465207468656d206f74686572207468616e20617320" ++
      "2fe2809c776f726b20696e2070726f67726573732e2fe2809d")%string)
    (hex "f33388860000000000004e91")
    (hex "1c9240a5eb55d38af333888604f6b5f0473917c1402b80099dca5cbc207075c0")
    (hex "000000000102030405060708")
    (hex ("64a0861575861af460f062c79be643bd5e805cfd345cf389f108670ac76c8cb24c6cfc18755d43eea09ee94e382d26b0" ++
      "bdb7b73c321b0100d4f03b7f355894cf332f830e710b97ce98c8a84abd0b948114ad176e008d33bd60f982b1ff37c855" ++
      "9797a06ef4f0ef61c186324e2b3506383606907b6a7c02b0f9f6157b53c867e4b9166c767b804d46a59b5216cde7a4e9" ++
      "9040c5a40433225ee282a1b0a06c523eaf4534d7f83fa1155b0047718cbc546a0d072b04b3564eea1b422273f548271a" ++
      "0bb2316053fa76991955ebd63159434ecebb4e466dae5a1073a6727627097a1049e617d91d361094fa68f0ff77987130" ++
      "305beaba2eda04df997b714d6c6f2c29a6ad5cb4022b02709beead9d67890cbb22392336fea1851f38")%string).
Definition chacha20poly1305_ietf_test_vector_3 : M unit :=
  aead_vector chacha20poly1305_ietf
    (hex ("45000054a6f200004001e778c6336405c000020508005b7a3a080000553bec100007362708090a0b0c0d0e0f10111213" ++
      "1415161718191a1b1c1d1e1f202122232425262728292a2b2c2d2e2f303132333435363701020204")%string)
    (hex "0102030400000005")
    (hex "808182838485868788898a8b8c8d8e8f909192939495969798999a9b9c9d9e9f")
    (hex "a0a1a2a31011121314151617")
    (hex ("24039428b97f417e3c13753a4f05087b67c352e6a7fab1b982d466ef407ae5c614ee8099d52844eb61aa95dfab4c02f7" ++
      "2aa71e7c4c4f64c9befe2facc638e8f3cbec163fac469b502773f6fb94e664da9165b82829f641e076aaa8266b7fb0f7" ++
      "b11b369907e1ad43")%string).
Definition chacha20poly1305_ietf_test_vector_4 : M unit :=
  aead_vector chacha20poly1305_ietf
    (hex "0000000c000040010000000a00")
    (hex "c0c1c2c3c4c5c6c7d0d1d2d3d4d5d6d72e202500000000090000004529000029")
    (hex "808182838485868788898a8b8c8d8e8f909192939495969798999a9b9c9d9e9f")
    (hex "a0a1a2a31011121314151617")
    (hex "610394701f8d017f7c129248896b71bfe25236efd7cdc67066906315b2").
Definition xchacha20poly1305_ietf_test_vector_1 : M unit :=
  aead_vector xchacha20poly1305_ietf
    (hex ("4c616469657320616e642047656e746c656d656e206f662074686520636c617373206f66202739393a20496620492063" ++
      "6f756c64206f6666657220796f75206f6e6c79206f6e652074697020666f7220746865206675747572652c2073756e73" ++
      "637265656e20776f756c642062652069742e")%string)
    (hex "50515253c0c1c2c3c4c5c6c7")
    (hex "808182838485868788898a8b8c8d8e8f909192939495969798999a9b9c9d9e9f")
    (hex "f28a50a78a7e23c9cba6783466f803590f04e92231a32d5d")
    (hex ("20f1ae75e1e5e00040294f0fb10ebb0810c593c7dba4ec104c1e5ef9507faeef58fc2898bbd0e47b2f5331fbc367d3c2" ++
      "784e3648ce1eaa7787ad186db2685ee89ae4d3441f6ea0b2224cd5a134161b554d8b48350b4ad40115db81ea820968e9" ++
      "43892f2b8051cb5f7a8666e7e7ef7f84c0a2f80a12d06680c8eebbd93004109de842")%string).
Definition chacha20poly1305_test_vector_1 : M unit :=
  aead_vector chacha20poly1305
    (hex "86d09974840bded2a5ca")
    (hex "87e229d4500845a079c0")
    (hex "4290bcb154173531f314af57f3be3b5006da371ece272afa1b5dbdd1100a1007")
    (hex "cd7cf67be39c794a")
    (hex "e3e446f7ede9a19b62a4677dabf4e3d24b876bb284753896e1d6").

Definition aes256gcm_c_expected : bytes :=
  (hex "32b1de78a822fe12ef9f78fa332e33aab18012389a58e2f3b50b2a0276ffae0f1ba63799b87b7aa3db36dfffd6b0f9bb7878d7a76c13").
Definition aes256gcm_test_vector_1 : M unit :=
  aead_prefix_vector aes_impl
    (hex "47616c6c696120657374206f6d6e69732064697669736120696e207061727465732074726573")
    (hex "8040f17b8041f8d35501a0b2")
    (hex "000102030405060708090a0b0c0d0e0f101112131415161718191a1b1c1d1e1f")
    (hex "51753c6580c2726f20718414")
    aes256gcm_c_expected.

Definition xchacha20poly1305_ietf_test_nonce_length : M unit :=
  nonce_length (aead.Nonce xchacha20poly1305_ietf) Aead.gen_nonce.

End AeadTests.

(** ** The programs *)

Lemma nonce_length_passes `{R : RandombytesExterns} {RD : RandombytesDoc R} n g :
  nt_bytes n = 24 -> makes (nt_bytes n) g -> passes (nonce_length n g).
Proof.
  intros Hn Hg w. eapply local_made; [apply holds_empty|exact Hg|]. intros b bs w1 _ _ _.
  apply does_assert. unfold NewType.as_ref. cbn [s_len]. by rewrite Hn.
Qed.

Lemma window_ext f g pos len : (forall i, f i = g i) -> window f pos len = window g pos len.
Proof. intros Hfg. unfold window. apply list_fmap_ext. intros i x _. apply Hfg. Qed.

(** Part of a slice, in a test that may panic later *)
Lemma catch_part `{Target} (Q : bool -> world -> Prop) w s bs a b f :
  is_slice w s bs -> 0 <= a <= b -> b <= zlen bs ->
  does w (catch (f (take (Z.to_nat (b - a)) (drop (Z.to_nat a) bs)))) Q ->
  does w (catch (bind (slice_index s a b) (fun s' => bind (slice_bytes s') f))) Q.
Proof.
  intros Hs Ha Hb Hf.
  destruct (local_part Q w s bs a b (fun x => catch (f x)) Hs Ha Hb Hf) as (r & w' & Hr & Hq).
  exists r, w'. split; [|done]. revert Hr. unfold catch, bind.
  destruct (slice_index s a b w) as [s' w1| | |]; [|done..]. by destruct (slice_bytes s' w1).
Qed.

Section StreamPass.
Context `{T : Target} (A : stream_cipher) {D : StreamDoc A}.
Context (Hkl : 0 <= stream.KEYBYTES A) (Hnl : 0 <= stream.NONCEBYTES A).
Context (key nonce : bytes) (Hk : zlen key = stream.KEYBYTES A) (Hn : zlen nonce = stream.NONCEBYTES A).

Lemma stream_vector_settles len expected :
  0 <= len <= isize_max ->
  settles (stream_vector A key nonce len expected) (window (keystream key nonce) 0 (Z.to_nat len) = expected).
Proof.
  intros Hl w. apply catch_settles, catch_bind. eapply local_place; [apply holds_empty|]. intros k w1 _ Hw1.
  apply catch_bind. eapply local_place; [exact Hw1|]. intros n w2 Hnk Hw2. fresh_facts.
  apply catch_bind. eapply local_stream; [exact Hw2|local_tac|local_tac|exact Hn|exact Hk|lia|]. intros c w3 Hc Hw3.
  eapply catch_vec_is; [exact Hw3|local_tac|by rewrite window_zlen by lia|]. intros _. apply bool_decide_eq_true.
Qed.

Lemma stream_xor_vector_settles m expected :
  32 <= zlen m <= isize_max ->
  settles (stream_xor_vector A key nonce m expected) (drop 32 (xor_from (keystream key nonce) 0 m) = expected).
Proof.
  intros Hl w. apply catch_settles, catch_bind. eapply local_place; [apply holds_empty|]. intros k w1 _ Hw1.
  apply catch_bind. eapply local_place; [exact Hw1|]. intros n w2 Hnk Hw2. fresh_facts.
  apply catch_bind. eapply local_place; [exact Hw2|]. intros mp w3 Hmp Hw3. fresh_facts.
  apply catch_bind. eapply local_xor; [exact Hw3|local_tac|local_tac|exact Hn|exact Hk|local_tac|done|lia|].
  intros c w4 Hc Hw4. sl. set (cs := xor_from _ _ m) in *.
  assert (Hcs : zlen cs = zlen m) by apply xor_from_zlen.
  apply catch_part with (bs := cs); [eapply holds_slice; [exact Hw4|local_tac|by rewrite Hcs|lia]|lia|lia|].
  apply catch_assert. intros _. rewrite bool_decide_eq_true.
  by rewrite take_ge by (unfold zlen in *; rewrite length_drop; lia).
Qed.

Lemma stream_digest_vector_settles `{H : Sha256Externs} {HD : HashDoc sha256} S ks expected :
  hash_streaming = S -> window (keystream key nonce) 0 (Z.to_nat 4194304) = ks ->
  settles (stream_digest_vector A key nonce expected) (st_digest S tt ks = expected).
Proof.
  intros <- <-. apply settles_eq. intros w. pose proof isize_max_bounds.
  eapply local_place; [apply holds_empty|]. intros k w1 _ Hw1.
  eapply local_place; [exact Hw1|]. intros n w2 Hnk Hw2. fresh_facts.
  eapply local_stream; [exact Hw2|local_tac|local_tac|exact Hn|exact Hk|lia|]. intros c w3 Hc Hw3. sl.
  eapply does_eq; [|reflexivity]. apply hash_run.
  eapply holds_slice; [exact Hw3|local_tac|by rewrite window_zlen by lia|lia].
Qed.

End StreamPass.

Lemma secretbox_vector_settles `{T : Target} `{E : SecretboxExterns} {D : SecretboxDoc E} k n m c :
  zlen k = 32 -> zlen n = 24 -> zlen m + 16 <= isize_max ->
  settles (secretbox_vector k n m c) (easy_ct secretbox_cipher k n m = c).
Proof.
  intros Hk Hn Hm w. apply catch_settles, catch_bind.
  eapply local_place; [apply holds_empty|]. intros kp w1 _ Hw1.
  apply catch_bind. eapply local_place; [exact Hw1|]. intros np w2 Hnp Hw2. fresh_facts.
  apply catch_bind. eapply local_vec; [exact Hw2|reflexivity|]. intros mp w3 Hmp Hw3. fresh_facts. sl.
  assert (Hr : forall w' m', holds w' m' -> m' !! np = Some n -> m' !! kp = Some k ->
    is_ref w' (At np 0) 24 n /\ is_ref w' (At kp 0) 32 k).
  { intros w' m' Hw' Hn' Hk'. rewrite <- Hn at 1. rewrite <- Hk at 1. split; by eapply holds_ref. }
  destruct (Hr w3 _ Hw3) as [Hn3 Hk3]; [local_tac..|].
  apply catch_bind. eapply local_new; [exact Hw3| |reflexivity|].
  { apply secretbox.secretbox_seal_run; [eapply holds_slice; [exact Hw3|local_tac|done|lia]|lia|exact Hn3|exact Hk3]. }
  intros cp w4 Hcp Hw4. fresh_facts.
  pose proof (easy_ct_zlen secretbox_cipher k n m) as Hz. rewrite secretbox_tag in Hz.
  eapply catch_vec_is_bind; [exact Hw4|local_tac|by rewrite Hz| |done]. intros Hc. sl.
  destruct (Hr w4 _ Hw4) as [Hn4 Hk4]; [local_tac..|].
  apply catch_bind. eapply local_new_ok; [exact Hw4| |reflexivity|].
  { rewrite (secretbox.secretbox_open_run w4 _ _ _ (easy_ct secretbox_cipher k n m) n k);
      [|eapply holds_slice; [exact Hw4|local_tac|lia|lia]|exact Hn4|exact Hk4].
    rewrite decide_False by (pose proof (zlen_nonneg m); lia). rewrite easy_open_ct by apply _. reflexivity. }
  intros q w5 Hq Hw5. fresh_facts.
  unfold assert_ok_same. apply catch_bind. eapply local_contents; [exact Hw5|local_tac|done|].
  apply catch_bind. eapply local_contents; [exact Hw5|local_tac|lia|].
  apply catch_assert. intros _. by rewrite bool_decide_true.
Qed.

Section AeadPass.
Context `{T : Target} (A : aead_module) {D : AeadDoc A}.
Context (m ad k n : bytes) (Hm : zlen m + tagbytes A <= isize_max) (Had : zlen ad <= isize_max).
Context (Hk : zlen k = keybytes A) (Hn : zlen n = noncebytes A).

Lemma local_aead_sealed {B} (Q : B -> world -> Prop) w (f : vec -> M B) :
  (forall c w', holds w' (<[c := aead_ct aead_cipher k n ad m]> ∅) ->
     does w' (f (Vec c (zlen m + tagbytes A) (zlen m + tagbytes A))) Q) ->
  does w (bind (aead_sealed A m ad k n) f) Q.
Proof.
  intros Hf. pose proof (tagbytes_range (A := A)). apply local_assoc.
  eapply local_place; [apply holds_empty|]. intros mp w1 _ Hw1. apply local_assoc.
  eapply local_place; [exact Hw1|]. intros adp w2 Hadp Hw2. fresh_facts. apply local_assoc.
  eapply local_place; [exact Hw2|]. intros kp w3 Hkp Hw3. fresh_facts. apply local_assoc.
  eapply local_place; [exact Hw3|]. intros np w4 Hnp Hw4. fresh_facts.
  eapply local_new; [exact Hw4| |reflexivity|].
  { apply aead_seal_run.
    - eapply holds_slice; [exact Hw4|local_tac|done|lia].
    - lia.
    - eapply holds_slice; [exact Hw4|local_tac|done|lia].
    - rewrite <- Hn. eapply holds_ref; [exact Hw4|local_tac].
    - rewrite <- Hk. eapply holds_ref; [exact Hw4|local_tac]. }
  intros c w5 Hc Hw5. apply Hf. eapply holds_mono; [|exact Hw5]. by apply insert_mono, map_empty_subseteq.
Qed.

Lemma aead_vector_settles c : settles (aead_vector A m ad k n c) (aead_ct aead_cipher k n ad m = c).
Proof.
  intros w. apply catch_settles, catch_bind. apply local_aead_sealed. intros cp w1 Hw1.
  eapply catch_vec_is; [exact Hw1|local_tac|by rewrite (aead_ct_zlen aead_cipher), aead_tag|].
  intros _. apply bool_decide_eq_true.
Qed.

Lemma aead_prefix_vector_settles c :
  44 <= zlen m + tagbytes A ->
  settles (aead_prefix_vector A m ad k n c)
    (zlen c = zlen m + tagbytes A /\ take 44 (aead_ct aead_cipher k n ad m) = take 44 c).
Proof.
  intros Hl w. apply catch_settles, catch_bind. apply local_aead_sealed. intros cp w1 Hw1. sl.
  pose proof (aead_ct_zlen aead_cipher k n ad m) as Hz. rewrite aead_tag in Hz.
  apply catch_assert_bind; [intros Hc%Z.eqb_eq|intros Hc%Z.eqb_neq w'; split; [done|intros [? _]; congruence]].
  eapply catch_part; [eapply holds_slice; [exact Hw1|local_tac|done|lia]|lia|lia|].
  apply catch_assert. intros _. rewrite bool_decide_eq_true. change (drop (Z.to_nat 0) ?x) with x.
  change (Z.to_nat (44 - 0)) with 44%nat. split; [intros ->; by rewrite Hc|by intros [_ ?]].
Qed.

End AeadPass.

(** ** The theorems *)

(** Sizes of literals, far below [isize_max] *)
Lemma fits_Z `{T : Target} (z : Z) : (z <=? 4096) = true -> z <= isize_max.
Proof. intros Hz%Z.leb_le. pose proof isize_max_bounds. lia. Qed.
Ltac fits_tac := repeat match goal with |- _ /\ _ => split end; first [apply fits_Z; by vm_compute | by vm_compute].
Ltac settle_value := first [fits_tac | by_value].

(** C23. The tests of [stream], [secretbox] and [aead] that compare with expected
    values, whatever the key, the nonce, the message and the value: with any
    documented implementation, the test of a key stream or of a ciphertext
    passes if and only if the documented function gives this value, and panics
    otherwise.  The test of AES-256-GCM compares the length and the first 44
    bytes only; the test of [secretbox] also opens its ciphertext, and then
    opening it succeeds with the message. *)
Theorem cipher_vectors_settle `{T : Target} (A : stream_cipher) {DA : StreamDoc A}
    `{E : SecretboxExterns} {D : SecretboxDoc E} (B : aead_module) {DB : AeadDoc B} :
  (forall k n, zlen k = stream.KEYBYTES A -> zlen n = stream.NONCEBYTES A ->
     (forall len expected, 0 <= len <= isize_max ->
        settles (stream_vector A k n len expected) (window (keystream k n) 0 (Z.to_nat len) = expected)) /\
     (forall m expected, 32 <= zlen m <= isize_max ->
        settles (stream_xor_vector A k n m expected) (drop 32 (xor_from (keystream k n) 0 m) = expected))) /\
  (forall k n m c, zlen k = 32 -> zlen n = 24 -> zlen m + 16 <= isize_max ->
     settles (secretbox_vector k n m c) (easy_ct secretbox_cipher k n m = c)) /\
  (forall k n ad m c, zlen k = keybytes B -> zlen n = noncebytes B -> zlen ad <= isize_max ->
     zlen m + tagbytes B <= isize_max ->
     settles (aead_vector B m ad k n c) (aead_ct aead_cipher k n ad m = c) /\
     (44 <= zlen m + tagbytes B ->
        settles (aead_prefix_vector B m ad k n c)
          (zlen c = zlen m + tagbytes B /\ take 44 (aead_ct aead_cipher k n ad m) = take 44 c))).
Proof.
  split_and!.
  - intros k n Hk Hn. split; intros; [by apply stream_vector_settles|by apply stream_xor_vector_settles].
  - intros k n m c Hk Hn Hm. by apply secretbox_vector_settles.
  - intros k n ad m c Hk Hn Had Hm. split; [by apply aead_vector_settles|intros; by apply aead_prefix_vector_settles].
Qed.

(** The vectors of ChaCha20 and XSalsa20 *)
Theorem stream_vectors_pass `{T : Target} :
  let EC := Std.chacha20_externs in
  let EX := Std.xsalsa20_externs in
  passes chacha20_test_vector_1 /\ passes xsalsa20_test_vector_2 /\ passes xsalsa20_test_vector_3.
Proof.
  intros EC EX.
  pose proof (fun k n len => window_stream_bytes ChaCha20.block k n len (fun i => length_chacha20 k _)) as Hc.
  pose proof (fun k n len => window_stream_bytes Salsa20.xblock k n len (fun i => length_salsa20 _ _ i)) as Hx.
  split_and!.
  - refine (settles_passes _ _ (stream_vector_settles chacha20 (D := Std.chacha20_doc) _ _ _ _ _ _ _) _); [settle_value..|].
    cbn [keystream Std.chacha20_doc]. rewrite Hc. by_value.
  - refine (settles_passes _ _ (stream_vector_settles xsalsa20 (D := Std.xsalsa20_doc) _ _ _ _ _ _ _) _); [settle_value..|].
    cbn [keystream Std.xsalsa20_doc]. rewrite Hx. by_value.
  - refine (settles_passes _ _ (stream_xor_vector_settles xsalsa20 (D := Std.xsalsa20_doc) _ _ _ _ _ _ _) _); [settle_value..|].
    cbn [keystream Std.xsalsa20_doc]. unfold xor_from. rewrite Hx. by_value.
Qed.

(** The two tests over four megabytes pass if and only if SHA-256 of the stream
    of the second key is the published value: XSalsa20 with the first key and
    the long nonce is Salsa20 with the key that HSalsa20 derives, the second
    key, and the rest of the nonce. *)
Theorem stream_digests_agree `{T : Target} :
  let ES := Std.salsa20_externs in
  let EX := Std.xsalsa20_externs in
  let H := Std.sha256_externs in
  let digest :=
    st_digest (Sha2.streaming Sha256) tt (stream_bytes (Salsa20.block secondkey noncesuffix) (Z.to_nat 4194304)) in
  settles salsa20_test_vector_1 (digest = stream_digest_expected) /\
  settles xsalsa20_test_vector_1 (digest = stream_digest_expected).
Proof.
  intros ES EX H digest.
  pose proof (fun len => window_stream_bytes Salsa20.block secondkey noncesuffix len (length_salsa20 _ _)) as Hs.
  assert (Hk : Salsa20.hsalsa20 firstkey nacl_nonce = secondkey /\ drop 16 nacl_nonce = noncesuffix) by (split; by_value).
  assert (Hx : forall len, window (block_stream Salsa20.xblock firstkey nacl_nonce) 0 len =
    stream_bytes (Salsa20.block secondkey noncesuffix) len).
  { intros len. rewrite <- Hs. apply window_ext. intros i. unfold block_stream, Salsa20.xblock. by destruct Hk as [-> ->]. }
  split.
  - exact (stream_digest_vector_settles salsa20 (D := Std.salsa20_doc) secondkey noncesuffix eq_refl eq_refl
      (HD := Std.sha256_doc) _ _ _ eq_refl (Hs _)).
  - exact (stream_digest_vector_settles xsalsa20 (D := Std.xsalsa20_doc) firstkey nacl_nonce eq_refl eq_refl
      (HD := Std.sha256_doc) _ _ _ eq_refl (Hx _)).
Qed.

(** The vectors of the secret boxes and of the four ciphers with additional
    data *)
Theorem seal_vectors_pass `{T : Target} :
  let E := Std.secretbox_externs in
  let EI := Std.chacha20poly1305_ietf_externs in
  let EO := Std.chacha20poly1305_externs in
  let EX := Std.xchacha20poly1305_ietf_externs in
  let EA := Std.aes256gcm_externs in
  passes secretbox_test_vector_1 /\
  passes chacha20poly1305_ietf_test_vector_1 /\ passes chacha20poly1305_ietf_test_vector_2 /\
  passes chacha20poly1305_ietf_test_vector_3 /\ passes chacha20poly1305_ietf_test_vector_4 /\
  passes xchacha20poly1305_ietf_test_vector_1 /\ passes chacha20poly1305_test_vector_1 /\
  passes aes256gcm_test_vector_1.
Proof.
  intros E EI EO EX EA. split_and!.
  - refine (settles_passes _ _ (secretbox_vector_settles (D := Std.secretbox_doc) _ _ _ _ _ _ _) _); settle_value.
  - refine (settles_passes _ _ (aead_vector_settles chacha20poly1305_ietf (D := Std.chacha20poly1305_ietf_doc) _ _ _ _ _ _ _ _ _) _); settle_value.
  - refine (settles_passes _ _ (aead_vector_settles chacha20poly1305_ietf (D := Std.chacha20poly1305_ietf_doc) _ _ _ _ _ _ _ _ _) _); settle_value.
  - refine (settles_passes _ _ (aead_vector_settles chacha20poly1305_ietf (D := Std.chacha20poly1305_ietf_doc) _ _ _ _ _ _ _ _ _) _); settle_value.
  - refine (settles_passes _ _ (aead_vector_settles chacha20poly1305_ietf (D := Std.chacha20poly1305_ietf_doc) _ _ _ _ _ _ _ _ _) _); settle_value.
  - refine (settles_passes _ _ (aead_vector_settles xchacha20poly1305_ietf (D := Std.xchacha20poly1305_ietf_doc) _ _ _ _ _ _ _ _ _) _); settle_value.
  - refine (settles_passes _ _ (aead_vector_settles chacha20poly1305 (D := Std.chacha20poly1305_doc) _ _ _ _ _ _ _ _ _) _); settle_value.
  - refine (settles_passes _ _ (aead_prefix_vector_settles aes_impl (D := Std.aes256gcm_doc) _ _ _ _ _ _ _ _ _ _) _);
      [settle_value..|split; by_value].
Qed.

Lemma cipher_values :
  let keystream := keystream (StreamDoc := Std.chacha20_doc) in
  window (keystream (zeros 32) (zeros 8)) 0 4 = hex "76b8e0ad" /\
  easy_ct (secretbox_cipher (SecretboxDoc := Std.secretbox_doc)) firstkey nacl_nonce nacl_message = nacl_ciphertext /\
  aead_ct (aead_cipher (AeadDoc := Std.chacha20poly1305_doc)) (zeros 32) (zeros 8) [] [] <> zeros 16.
Proof. split_and!; [by_value|by_value|by vm_compute]. Qed.

(** With the published algorithms, the key stream and the secret box pass, and a
    wrong tag is noticed. *)
Lemma cipher_vectors_settle_witness :
  let T := target64 in
  let EC := Std.chacha20_externs in
  let E := Std.secretbox_externs in
  let EO := Std.chacha20poly1305_externs in
  passes (stream_vector chacha20 (zeros 32) (zeros 8) 4 (hex "76b8e0ad")) /\
  passes secretbox_test_vector_1 /\
  (forall w, aead_vector chacha20poly1305 [] [] (zeros 32) (zeros 8) (zeros 16) w = Panicked).
Proof.
  intros T EC E EO.
  destruct (cipher_vectors_settle chacha20 (DA := Std.chacha20_doc) (D := Std.secretbox_doc)
    chacha20poly1305 (DB := Std.chacha20poly1305_doc)) as (Hs & Hb & Ha).
  assert (H4 : 0 <= 4 <= isize_max) by (by vm_compute).
  assert (H0 : zlen (A := byte) [] <= isize_max /\ zlen (A := byte) [] + tagbytes chacha20poly1305 <= isize_max)
    by (by vm_compute).
  destruct cipher_values as (V1 & V2 & V3). split_and!.
  - exact (settles_passes _ _ (proj1 (Hs (zeros 32) (zeros 8) eq_refl eq_refl) 4 _ H4) V1).
  - exact (settles_passes _ _ (Hb firstkey nacl_nonce nacl_message nacl_ciphertext eq_refl eq_refl
      (fits_Z (zlen nacl_message + 16) eq_refl)) V2).
  - intros w. exact (proj2 (proj1 (Ha (zeros 32) (zeros 8) [] [] (zeros 16) eq_refl eq_refl (proj1 H0) (proj2 H0)) w) V3).
Defined.
