(* ===== verification/CurveTests.v ===== *)
(** * The test vectors of crypto/scalarmult, crypto/box_ and crypto/kx

    The tests with published points, ciphertexts and session keys, as programs
    over any implementation of the foreign functions; for every documented one,
    exactly when those of scalarmult and box_ pass; and the proof that they all
    do with the published algorithms (Standards.v).  [test_vectors] of kx also
    uses generated keys: the theorem says what it needs of them. *)

From S2P Require Export CipherTests.

Definition alicesk : bytes := (hex "77076d0a7318a57d3c16c17251b26645df4c2f87ebc0992ab177fba51db92c2a").
Definition alicepk : bytes := (hex "8520f0098930a754748b7ddcb43ef75a0dbf3a0d26381af4eba4a98eaa9b4e6a").
Definition bobsk : bytes := (hex "5dab087e624a8a4b79e17f8b83800ee66f3bb1292618b6fd1c2f8b27ff88e0eb").
Definition bobpk : bytes := (hex "de9edb7d7b7dc1b4d35b61c2ece435373f8343c85b78674dadfc7e146f882b4f").
Definition shared_point : bytes := (hex "4a5d9d5ba4ce2de1728e3bf480350f25e07e21c947d19e3376f09b3c1e161742").

(** ** crypto/scalarmult *)

Section ScalarmultVectors.
Context `{E : ScalarmultExterns}.

(** [let GroupElement(pk) = scalarmult_base(&sk); assert!(pk == pk_expected);] *)
Definition scalarmult_base_vector (sk pk_expected : bytes) : M unit :=
  let* n := place sk in
  let* pk := scalarmult.scalarmult_base (At n 0) in
  assert (bool_decide (pk = pk_expected)).

(** [let GroupElement(k) = scalarmult(&sk, &pk).unwrap(); assert!(k == k_expected);] *)
Definition scalarmult_vector (sk pk k_expected : bytes) : M unit :=
  let* n := place sk in
  let* p := place pk in
  let* r := scalarmult.scalarmult (At n 0) (At p 0) in
  let* k := unwrap r in
  assert (bool_decide (k = k_expected)).

Definition scalarmult_test_vector_1 : M unit := scalarmult_base_vector alicesk alicepk.
Definition scalarmult_test_vector_2 : M unit := scalarmult_base_vector bobsk bobpk.
Definition scalarmult_test_vector_3 : M unit := scalarmult_vector alicesk bobpk shared_point.
Definition scalarmult_test_vector_4 : M unit := scalarmult_vector bobsk alicepk shared_point.

Context {D : ScalarmultDoc E}.

Lemma scalarmult_base_vector_settles sk pk :
  zlen sk = 32 -> settles (scalarmult_base_vector sk pk) (x_base sk = pk).
Proof.
  intros Hl w. apply catch_settles, catch_bind. eapply local_place; [apply holds_empty|]. intros n w1 _ Hw1.
  apply catch_bind. eapply local_run; [apply scalarmult_base_run; eapply kx_ref; [exact Hw1|local_tac|exact Hl]|].
  apply catch_assert. intros _. apply bool_decide_eq_true.
Qed.

Lemma scalarmult_vector_settles sk pk k :
  zlen sk = 32 -> zlen pk = 32 -> settles (scalarmult_vector sk pk k) (x_mult sk pk = Some k).
Proof.
  intros Hs Hp w. apply catch_settles, catch_bind. eapply local_place; [apply holds_empty|]. intros n w1 _ Hw1.
  apply catch_bind. eapply local_place; [exact Hw1|]. intros p w2 Hn Hw2. fresh_facts.
  assert (Hr : exists w3, scalarmult.scalarmult (At n 0) (At p 0) w2 =
    Done match x_mult sk pk with Some q => Ok q | None => Err end w3).
  { rewrite (scalarmult_run w2 _ _ sk pk); [|eapply kx_ref; [exact Hw2|local_tac|done]..].
    destruct (x_mult sk pk); by eexists. }
  destruct Hr as [w3 Hr]. apply catch_bind. eapply local_run; [exact Hr|].
  destruct (x_mult sk pk) as [q|]; apply catch_unwrap; [|done].
  apply catch_assert. intros _. rewrite bool_decide_eq_true. naive_solver.
Qed.

End ScalarmultVectors.

(** ** crypto/box_ *)

Section BoxVectors.
Context `{T : Target} `{E : BoxExterns} `{R : RandombytesExterns}.

(** [assert!(m == Ok(expected));] *)
Definition result_is (r : result vec) (expected : bytes) : M unit :=
  match r with Ok v => vec_is v expected | Err => assert false end.

Definition box_seal_vector (sk pk nonce m cexp : bytes) : M unit :=
  let* skp := place sk in
  let* pkp := place pk in
  let* n := place nonce in
  let* mp := place m in
  let* c := box_.seal (Slice (At mp 0) (zlen m)) (At n 0) (At pkp 0) (At skp 0) in
  let* k := local (box_.precompute (At pkp 0) (At skp 0)) in
  let* cpre := box_.seal_precomputed (Slice (At mp 0) (zlen m)) (At n 0) k in
  let* _ := vec_is c cexp in
  vec_is cpre cexp.

Definition box_open_vector (sk pk nonce c mexp : bytes) : M unit :=
  let* skp := place sk in
  let* pkp := place pk in
  let* n := place nonce in
  let* cp := place c in
  let* m := box_.open (Slice (At cp 0) (zlen c)) (At n 0) (At pkp 0) (At skp 0) in
  let* k := local (box_.precompute (At pkp 0) (At skp 0)) in
  let* m_pre := box_.open_precomputed (Slice (At cp 0) (zlen c)) (At n 0) k in
  let* _ := result_is m mexp in
  result_is m_pre mexp.

Definition box_test_vector_1 : M unit := box_seal_vector alicesk bobpk nacl_nonce nacl_message nacl_ciphertext.
Definition box_test_vector_2 : M unit := box_open_vector bobsk alicepk nacl_nonce nacl_ciphertext nacl_message.
Definition box_test_nonce_length : M unit := nonce_length box_.Nonce box_.gen_nonce.

Context {D : BoxDoc E}.
Context (sk pk nonce k : bytes) (Hs : zlen sk = 32) (Hp : zlen pk = 32) (Hn : zlen nonce = 24).
Context (Hk : box_shared pk sk = Some k).

(** The arguments, as all the calls find them *)
Lemma box_vector_args w h a b n d x :
  holds w h -> h !! a = Some sk -> h !! b = Some pk -> h !! n = Some nonce -> h !! d = Some x -> zlen x <= isize_max ->
  is_ref w (At a 0) 32 sk /\ is_ref w (At b 0) 32 pk /\ is_ref w (At n 0) 24 nonce /\
  is_slice w (Slice (At d 0) (zlen x)) x.
Proof.
  intros Hw Ha Hb Hnn Hd Hl.
  split_and!; [by eapply kx_ref|by eapply kx_ref|rewrite <- Hn at 1; by eapply holds_ref|].
  eapply holds_slice; [exact Hw|exact Hd|done|lia].
Qed.

Lemma local_precompute {B} (Q : B -> world -> Prop) w h p s (f : ptr -> M B) :
  holds w h -> is_ref w p 32 pk -> is_ref w s 32 sk ->
  (forall q w', h !! q = None -> holds w' (<[q := k]> h) -> does w' (f (At q 0)) Q) ->
  does w (bind (local (box_.precompute p s)) f) Q.
Proof.
  intros Hw Hpr Hsr Hf. eapply local_value; [exact Hw| |reflexivity|exact Hf].
  rewrite (box_precompute_run w p s pk sk Hpr Hsr). by rewrite Hk.
Qed.

Lemma box_seal_vector_settles m c :
  zlen m + 16 <= isize_max -> settles (box_seal_vector sk pk nonce m c) (easy_ct box_cipher k nonce m = c).
Proof.
  intros Hfit w. apply catch_settles. pose proof (easy_ct_zlen box_cipher k nonce m) as Hz. rewrite box_tag in Hz.
  assert (Hm' : zlen m <= isize_max) by lia.
  apply catch_bind. eapply local_place; [apply holds_empty|]. intros a w1 _ Hw1.
  apply catch_bind. eapply local_place; [exact Hw1|]. intros b w2 Hb Hw2. fresh_facts.
  apply catch_bind. eapply local_place; [exact Hw2|]. intros n w3 Hnn Hw3. fresh_facts.
  apply catch_bind. eapply local_place; [exact Hw3|]. intros d w4 Hd Hw4. fresh_facts.
  destruct (box_vector_args w4 _ a b n d m Hw4) as (Ra & Rb & Rn & Rd); [local_tac..|exact Hm'|].
  apply catch_bind. eapply local_new; [exact Hw4| |apply mem_breach|].
  { rewrite (box_seal_run w4 _ _ _ _ m nonce pk sk Rd Hfit Rn Rb Ra). rewrite Hk. reflexivity. }
  intros cp w5 Hcp Hw5. fresh_facts.
  destruct (box_vector_args w5 _ a b n d m Hw5) as (Ra5 & Rb5 & Rn5 & Rd5); [local_tac..|exact Hm'|].
  apply catch_bind. eapply local_precompute; [exact Hw5|exact Rb5|exact Ra5|]. intros q w6 Hq Hw6. fresh_facts.
  destruct (box_vector_args w6 _ a b n d m Hw6) as (_ & _ & Rn6 & Rd6); [local_tac..|exact Hm'|].
  apply catch_bind. eapply local_new; [exact Hw6| |reflexivity|].
  { rewrite (box_seal_precomputed_run w6 _ _ _ m nonce k Rd6 Hfit Rn6); [reflexivity|].
    eapply kx_ref; [exact Hw6|local_tac|]. by apply box_shared_zlen in Hk. }
  intros e w7 He Hw7. fresh_facts.
  eapply catch_vec_is_bind; [exact Hw7|local_tac|by rewrite Hz| |done]. intros Hc.
  eapply catch_vec_is; [exact Hw7|local_tac|by rewrite Hz|]. intros _. apply bool_decide_eq_true.
Qed.

(** A call that returns a new vector, or leaves the memory alone and fails *)
Definition opens (w : world) (p : M (result vec)) (n : Z) (o : option bytes) : Prop :=
  match o with
  | Some mb => exists w1, w_mem w1 = w_mem w /\
      p w = Done (Ok (Vec (fresh_block w) n n)) (w_put (fresh_block w) (Some <$> mb) w1)
  | None => exists w1, w_mem w1 = w_mem w /\ p w = Done Err w1
  end.

Lemma local_opens {B} (Q : B -> world -> Prop) w h p n o (f : result vec -> M B) :
  holds w h -> opens w p n o ->
  (forall mb b w', o = Some mb -> h !! b = None -> holds w' (<[b := mb]> h) -> does w' (f (Ok (Vec b n n))) Q) ->
  (forall w', o = None -> holds w' h -> does w' (f Err) Q) -> does w (bind p f) Q.
Proof.
  intros Hw Ho Hok Herr. destruct o as [mb|]; destruct Ho as (w1 & Em & Hr).
  - eapply local_new_ok; [exact Hw|exact Hr|exact Em|]. intros b w' Hb Hw'. by eapply Hok.
  - eapply local_run; [exact Hr|]. apply Herr; [done|]. by eapply holds_same.
Qed.

Lemma easy_open_short c : zlen c < 16 -> easy_open box_cipher k nonce c = None.
Proof. intros Hl. unfold easy_open. rewrite decide_False; [done|]. rewrite box_tag. lia. Qed.

Lemma box_opens w p n b a c :
  is_slice w p c -> is_ref w n 24 nonce -> is_ref w b 32 pk -> is_ref w a 32 sk ->
  opens w (box_.open p n b a) (zlen c - 16) (easy_open box_cipher k nonce c).
Proof.
  intros Hc Hnr Hb Ha. pose proof (box_open_run w p n b a c nonce pk sk Hc Hnr Hb Ha) as Hr.
  case_decide as Hl.
  - rewrite easy_open_short by done. by exists w.
  - rewrite Hk in Hr. cbn [mbind option_bind] in Hr. destruct (easy_open _ _ _ _); eexists; (split; [|exact Hr]); apply mem_breach.
Qed.

Lemma box_opens_precomputed w p n q c :
  is_slice w p c -> is_ref w n 24 nonce -> is_ref w q 32 k ->
  opens w (box_.open_precomputed p n q) (zlen c - 16) (easy_open box_cipher k nonce c).
Proof.
  intros Hc Hnr Hq. pose proof (box_open_precomputed_run w p n q c nonce k Hc Hnr Hq) as Hr.
  case_decide as Hl.
  - rewrite easy_open_short by done. by exists w.
  - destruct (easy_open _ _ _ _); eexists; (split; [|exact Hr]); reflexivity.
Qed.

Lemma box_open_vector_settles c m :
  zlen c <= isize_max -> settles (box_open_vector sk pk nonce c m) (easy_open box_cipher k nonce c = Some m).
Proof.
  intros Hcl w. apply catch_settles. set (o := easy_open box_cipher k nonce c).
  assert (Hl : forall mb, o = Some mb -> zlen c - 16 = zlen mb).
  { intros mb Ho. pose proof (easy_open_zlen box_cipher _ _ _ _ Ho) as Hz. by rewrite box_tag in Hz. }
  apply catch_bind. eapply local_place; [apply holds_empty|]. intros a w1 _ Hw1.
  apply catch_bind. eapply local_place; [exact Hw1|]. intros b w2 Hb Hw2. fresh_facts.
  apply catch_bind. eapply local_place; [exact Hw2|]. intros n w3 Hnn Hw3. fresh_facts.
  apply catch_bind. eapply local_place; [exact Hw3|]. intros d w4 Hd Hw4. fresh_facts.
  destruct (box_vector_args w4 _ a b n d c Hw4) as (Ra & Rb & Rn & Rd); [local_tac..|exact Hcl|].
  apply catch_bind. eapply local_opens; [exact Hw4|by apply box_opens|..]; fold o.
  - intros mb v w5 Ho Hv Hw5. fresh_facts.
    destruct (box_vector_args w5 _ a b n d c Hw5) as (Ra5 & Rb5 & Rn5 & Rd5); [local_tac..|exact Hcl|].
    apply catch_bind. eapply local_precompute; [exact Hw5|exact Rb5|exact Ra5|]. intros q w6 Hq Hw6. fresh_facts.
    destruct (box_vector_args w6 _ a b n d c Hw6) as (_ & _ & Rn6 & Rd6); [local_tac..|exact Hcl|].
    apply catch_bind. eapply local_opens;
      [exact Hw6|apply box_opens_precomputed; [exact Rd6|exact Rn6|]|..]; fold o.
    { eapply kx_ref; [exact Hw6|local_tac|by apply box_shared_zlen in Hk]. }
    + intros mb' e w7 Ho' He Hw7. fresh_facts. rewrite Ho in Ho'. injection Ho' as <-. cbn [result_is].
      eapply catch_vec_is_bind; [exact Hw7|local_tac|by apply Hl| |rewrite Ho; naive_solver]. intros <-.
      eapply catch_vec_is; [exact Hw7|local_tac|by apply Hl|]. intros _. by rewrite bool_decide_true, Ho.
    + intros w7 Ho'. congruence.
  - intros w5 Ho Hw5. destruct (box_vector_args w5 _ a b n d c Hw5) as (Ra5 & Rb5 & Rn5 & Rd5); [local_tac..|exact Hcl|].
    apply catch_bind. eapply local_precompute; [exact Hw5|exact Rb5|exact Ra5|]. intros q w6 Hq Hw6. fresh_facts.
    destruct (box_vector_args w6 _ a b n d c Hw6) as (_ & _ & Rn6 & Rd6); [local_tac..|exact Hcl|].
    assert (Rq : is_ref w6 (At q 0) 32 k) by (eapply kx_ref; [exact Hw6|local_tac|by apply box_shared_zlen in Hk]).
    apply catch_bind. eapply local_opens; [exact Hw6|by apply box_opens_precomputed|..]; fold o.
    + intros ? ? ? Ho'. congruence.
    + intros w7 _ _. cbn [result_is]. apply catch_assert_bind; [done|]. intros _ w'. by rewrite Ho.
Qed.

End BoxVectors.

(** ** crypto/kx *)

Section KxVectors.
Context `{T : Target} `{E : KxExterns} `{U : UtilsExterns}.

(** [let mut seed = Seed([0u8; SEEDBYTES]); for i in ... { seed.0[i] = i as u8; }] *)
Definition counting_seed : M ptr :=
  let* seed := place (zeros kx.SEEDBYTES) in
  let* _ := for_range 0 (Z.to_nat kx.SEEDBYTES) (fun i => write (At seed (Z.to_nat i)) [byte_of_Z i]) in
  ret (At seed 0).

(** [let (pk, sk) = keypair_from_seed(&seed);] *)
Definition kx_seeded_keypair (seed : ptr) : M (ptr * ptr) :=
  let* '(pkb, skb) := kx.keypair_from_seed seed in
  let* pk := place pkb in
  let* sk := place skb in
  ret (At pk 0, At sk 0).

(** [x.0[0] += 1;]: an overflow panics. *)
Definition add_one (p : ptr) : M unit :=
  let* b := read p 1 in
  if le_val b + 1 <? 256 then write p [byte_of_Z (le_val b + 1)] else panic.

(** [assert_eq!(x, x_expected);] *)
Definition assert_value (n : newtype) (p : ptr) (expected : bytes) : M unit :=
  let* e := place expected in assert_equal n p (At e 0).

(** [assert_ne!(a.0, b.0);] *)
Definition assert_arrays_differ (a b : ptr) : M unit :=
  let* x := read a kx.SESSIONKEYBYTES in
  let* y := read b kx.SESSIONKEYBYTES in
  assert (negb (bool_decide (x = y))).

Definition small_order_p : bytes := (hex "e0eb7a7c3b41b8ae1656e3faf19fc46ada098deb9c32b1fd866205165f49b800").
Definition kx_client_pk_expected : bytes := (hex "0e0216223f147143d32615a91189c288c1728cba3cc5f9f621b1026e03d83129").
Definition kx_client_sk_expected : bytes := (hex "cb2f5160fc1f7e05a55ef49d340b48da2e5a78099d53393351cd579dd42503d6").
(** What the server receives with, and the client sends with; and the other way *)
Definition kx_up_expected : bytes := (hex "62c8f4fa81800abd0577d99918d129b65deb789af8c8351f391feb0cbf238604").
Definition kx_down_expected : bytes := (hex "749519c68059bce69f7cfcc7b387a3de1a1e8237d110991323bf62870115731a").

(** The keys of the client are the expected ones. *)
Definition kx_client_keys (seed : ptr) : M (ptr * ptr) :=
  let* '(client_pk, client_sk) := kx_seeded_keypair seed in
  let* _ := assert_value kx.PublicKey client_pk kx_client_pk_expected in
  let* _ := assert_value kx.SecretKey client_sk kx_client_sk_expected in
  ret (client_pk, client_sk).

(** Both parties refuse a point of small order. *)
Definition kx_first_session (small client_pk client_sk server_pk server_sk : ptr) : M (ptr * ptr) :=
  let* r := kx.client_session_keys client_pk client_sk small in
  let* _ := assert (negb (is_ok r)) in
  let* r := kx.client_session_keys client_pk client_sk server_pk in
  let* '(client_rx, client_tx) := session_keys r in
  let* r := kx.server_session_keys server_pk server_sk small in
  let* _ := assert (negb (is_ok r)) in
  let* r := kx.server_session_keys server_pk server_sk client_pk in
  let* _ := unwrap r in
  ret (client_rx, client_tx).

(** The server computes other keys with another public key. *)
Definition kx_other_session (server_pk server_sk client_rx client_tx client_pk : ptr) : M unit :=
  let* r := kx.server_session_keys server_pk server_sk client_pk in
  let* '(server_rx, server_tx) := session_keys r in
  let* _ := assert_arrays_differ server_rx client_tx in
  assert_arrays_differ server_tx client_rx.

(** Both parties have seeded keys. *)
Definition kx_seeded_session (seed : ptr) : M unit :=
  let* '(client_pk, client_sk) := kx_seeded_keypair seed in
  let* _ := add_one seed in
  let* '(server_pk, server_sk) := kx_seeded_keypair seed in
  let* r := kx.server_session_keys server_pk server_sk client_pk in
  let* '(server_rx, server_tx) := session_keys r in
  let* _ := assert_value kx.SessionKey server_rx kx_up_expected in
  let* _ := assert_value kx.SessionKey server_tx kx_down_expected in
  let* r := kx.client_session_keys client_pk client_sk server_pk in
  let* '(client_rx, client_tx) := session_keys r in
  let* _ := assert_value kx.SessionKey client_rx kx_down_expected in
  assert_value kx.SessionKey client_tx kx_up_expected.

Definition kx_test_vectors : M unit :=
  let* small := place small_order_p in
  let* seed := counting_seed in
  let* '(client_pk, client_sk) := kx_client_keys seed in
  let* '(server_pk, server_sk) := kx_keypair in
  let* '(client_rx, client_tx) := kx_first_session (At small 0) client_pk client_sk server_pk server_sk in
  let* _ := add_one client_pk in
  let* _ := kx_other_session server_pk server_sk client_rx client_tx client_pk in
  let* '(client_pk, _) := kx_keypair in
  let* _ := kx_other_session server_pk server_sk client_rx client_tx client_pk in
  kx_seeded_session seed.

End KxVectors.

(** *** Computations that take nothing from the generator *)

Definition generator (e : env) : (nat -> byte) * nat := (e_entropy e, e_pos e).
Abbreviation quiet := (keeps generator).

Lemma entropy_generator n w w' : generator (w_env w') = generator (w_env w) -> entropy n w' = entropy n w.
Proof. unfold generator, entropy. by intros [= -> ->]. Qed.

Lemma quiet_free b : quiet (free b).
Proof. intros w a w'. unfold free. destruct (w_mem w !! b); [|done]. by intros [= <- <-]. Qed.

#[export] Hint Resolve quiet_free : keeps.

Section KxPass.
Context `{T : Target} `{E : KxExterns} {D : KxDoc E} `{U : UtilsExterns} {UD : UtilsDoc U}.

Lemma quiet_drop_key b : quiet (NewType.drop kx.SessionKey b).
Proof.
  unfold NewType.drop, memzero. cbn [nt_kind kx.SessionKey s_ptr s_len]. rewrite sodium_memzero_doc. keeps_tac.
Qed.
Lemma quiet_eq n a b : quiet (NewType.eq n a b).
Proof. unfold NewType.eq, memcmp. rewrite sodium_memcmp_doc. keeps_tac. Qed.
#[local] Hint Resolve quiet_drop_key quiet_eq : keeps.

Lemma quiet_client a b c : quiet (kx.client_session_keys a b c).
Proof. unfold kx.client_session_keys, stack_array. keeps_tac. rewrite crypto_kx_client_doc. keeps_tac. Qed.
Lemma quiet_server a b c : quiet (kx.server_session_keys a b c).
Proof. unfold kx.server_session_keys, stack_array. keeps_tac. rewrite crypto_kx_server_doc. keeps_tac. Qed.
#[local] Hint Resolve quiet_client quiet_server : keeps.
Lemma quiet_seeded s : quiet (kx_seeded_keypair s).
Proof.
  unfold kx_seeded_keypair, kx.keypair_from_seed, stack_array, place. keeps_tac. rewrite crypto_kx_seed_keypair_doc. keeps_tac.
Qed.
Lemma quiet_session r : quiet (session_keys r).
Proof. unfold session_keys, place. keeps_tac. Qed.
#[local] Hint Resolve quiet_seeded quiet_session : keeps.

Lemma quiet_first_session a b c d e : quiet (kx_first_session a b c d e).
Proof. unfold kx_first_session. keeps_tac. Qed.
Lemma quiet_other_session a b c d e : quiet (kx_other_session a b c d e).
Proof. unfold kx_other_session, assert_arrays_differ. keeps_tac. Qed.
Lemma quiet_client_keys s : quiet (kx_client_keys s).
Proof. unfold kx_client_keys, assert_value, assert_equal, place. keeps_tac. Qed.
Lemma quiet_add_one p : quiet (add_one p).
Proof. unfold add_one. keeps_tac. Qed.
Lemma quiet_counting_seed : quiet counting_seed.
Proof. unfold counting_seed, place. keeps_tac. Qed.

(** *** The parts of the test *)

Definition counting : bytes := byte_of_Z <$> (Z.of_nat <$> seq 0 32).

(** The generator gives the keys of the server and of another client with which
    the test passes: the point of small order is refused, the keys are accepted,
    and the server's session keys differ from those of the first session. *)
Definition kx_client_rx_tx (client_sk server_sk : bytes) : option (bytes * bytes) :=
  (fun q => let h := kx_hash q (kx_public client_sk) (kx_public server_sk) in (take 32 h, drop 32 h))
    <$> kx_shared (kx_public server_sk) client_sk.
Definition kx_server_rx_tx (client_pk server_sk : bytes) : option (bytes * bytes) :=
  (fun q => let h := kx_hash q client_pk (kx_public server_sk) in (drop 32 h, take 32 h))
    <$> kx_shared client_pk server_sk.
Definition kx_others (client server : option (bytes * bytes)) : Prop :=
  match client, server with
  | Some (crx, ctx), Some (srx, stx) => srx <> ctx /\ stx <> crx
  | _, _ => False
  end.
Definition next_byte (bs : bytes) : bytes :=
  match bs with x :: bs => byte_of_Z (byte_val x + 1) :: bs | [] => [] end.

Record kx_good (csk e1 e2 : bytes) : Prop := {
  good_client_small : kx_shared small_order_p csk = None;
  good_server_small : kx_shared small_order_p e1 = None;
  good_server : is_Some (kx_shared (kx_public csk) e1);
  good_tampered : kx_others (kx_client_rx_tx csk e1) (kx_server_rx_tx (next_byte (kx_public csk)) e1);
  good_other : kx_others (kx_client_rx_tx csk e1) (kx_server_rx_tx (kx_public e2) e1)
}.

Section Rules.
Context {B : Type} (Q : B -> world -> Prop).

Lemma local_seeded w m s sb (f : ptr * ptr -> M B) :
  holds w m -> m !! s = Some sb -> zlen sb = 32 ->
  (forall pk sk w', pk <> sk -> m !! pk = None -> m !! sk = None ->
     holds w' (<[sk := kx_seeded sb]> (<[pk := kx_public (kx_seeded sb)]> m)) -> does w' (f (At pk 0, At sk 0)) Q) ->
  does w (bind (kx_seeded_keypair (At s 0)) f) Q.
Proof.
  intros Hw Hs Hl Hf. apply local_assoc. eapply local_run; [apply kx_keypair_from_seed_run; by eapply kx_ref|].
  apply local_assoc. eapply local_place; [exact Hw|]. intros a w1 Ha Hw1. apply local_assoc.
  eapply local_place; [exact Hw1|]. intros b w2 Hb Hw2. fresh_facts. by apply local_ret, Hf.
Qed.

Lemma local_assert_value n w m p x e (f : unit -> M B) :
  holds w m -> m !! p = Some x -> zlen x = nt_bytes n -> nt_bytes n <= 4096 -> x = e ->
  (forall w', holds w' m -> does w' (f tt) Q) -> does w (bind (assert_value n (At p 0) e) f) Q.
Proof.
  intros Hw Hp Hl Hn <- Hf. apply local_assoc. eapply local_place; [exact Hw|]. intros b w1 Hb Hw1. fresh_facts.
  unfold assert_equal. apply local_assoc. eapply (local_eq _ (UD := UD)); [exact Hw1|local_tac|local_tac|done..|].
  apply local_assert; [by apply bool_decide_true|]. apply Hf. eapply holds_mono; [|exact Hw1]. by apply insert_subseteq.
Qed.

Lemma local_arrays_differ w m a b x y (f : unit -> M B) :
  holds w m -> m !! a = Some x -> m !! b = Some y -> zlen x = 32 -> zlen y = 32 -> x <> y ->
  does w (f tt) Q -> does w (bind (assert_arrays_differ (At a 0) (At b 0)) f) Q.
Proof.
  intros Hw Ha Hb Hx Hy Hne Hf. unfold assert_arrays_differ. change kx.SESSIONKEYBYTES with 32. apply local_assoc.
  destruct (kx_ref w m a x Hw Ha Hx) as [Hra _], (kx_ref w m b y Hw Hb Hy) as [Hrb _].
  eapply local_run; [by apply read_run|]. apply local_assoc.
  eapply local_run; [by apply read_run|].
  apply local_assert; [|done]. by rewrite bool_decide_false.
Qed.

Lemma local_server w m spk ssk cpk e1 cb r (f : ptr * ptr -> M B) :
  holds w m -> m !! spk = Some (kx_public e1) -> m !! ssk = Some e1 -> m !! cpk = Some cb ->
  zlen e1 = 32 -> zlen cb = 32 -> kx_server_rx_tx cb e1 = Some r ->
  (forall a b w', a <> b -> m !! a = None -> m !! b = None -> holds w' (<[b := r.2]> (<[a := r.1]> m)) ->
     does w' (f (At a 0, At b 0)) Q) ->
  does w (bind (kx.server_session_keys (At spk 0) (At ssk 0) (At cpk 0)) (fun r => bind (session_keys r) f)) Q.
Proof.
  intros Hw Hsp Hss Hc Hl Hcl Hr Hf. unfold kx_server_rx_tx in Hr. pose proof (kx_public_zlen e1).
  destruct (kx_shared cb e1) as [q|] eqn:Hq; [|done]. injection Hr as <-.
  eapply local_run.
  { rewrite (server_session_keys_run w _ _ _ (kx_public e1) e1 cb); [rewrite Hq; reflexivity|by eapply kx_ref..]. }
  by eapply local_session_keys.
Qed.

Lemma local_client w m cpk csk spk c e1 r (f : ptr * ptr -> M B) :
  holds w m -> m !! cpk = Some (kx_public c) -> m !! csk = Some c -> m !! spk = Some (kx_public e1) ->
  zlen c = 32 -> kx_client_rx_tx c e1 = Some r ->
  (forall a b w', a <> b -> m !! a = None -> m !! b = None -> holds w' (<[b := r.2]> (<[a := r.1]> m)) ->
     does w' (f (At a 0, At b 0)) Q) ->
  does w (bind (kx.client_session_keys (At cpk 0) (At csk 0) (At spk 0)) (fun r => bind (session_keys r) f)) Q.
Proof.
  intros Hw Hcp Hcs Hs Hl Hr Hf. unfold kx_client_rx_tx in Hr. pose proof (kx_public_zlen e1). pose proof (kx_public_zlen c).
  destruct (kx_shared (kx_public e1) c) as [q|] eqn:Hq; [|done]. injection Hr as <-.
  eapply local_run.
  { rewrite (client_session_keys_run w _ _ _ (kx_public c) c (kx_public e1)); [rewrite Hq; reflexivity|by eapply kx_ref..]. }
  by eapply local_session_keys.
Qed.

End Rules.

Definition new_pair (m : gmap positive bytes) (x y : bytes) (r : ptr * ptr) (w' : world) : Prop :=
  exists a b, r = (At a 0, At b 0) /\ a <> b /\ m !! a = None /\ m !! b = None /\ holds w' (<[b := y]> (<[a := x]> m)).

Lemma kx_keypair_does w m :
  holds w m ->
  does w kx_keypair (fun r w' => new_pair m (kx_public (entropy 32 w)) (entropy 32 w) r w' /\
    w_env w' = w_env (w_consume 32 w)).
Proof.
  intros Hw. apply local_last. eapply local_kx_keypair; [exact Hw|]. intros a b w1 Hab Ha Hb Hw1 He.
  apply does_ret. split; [by exists a, b|done].
Qed.

Lemma counting_seed_does w m :
  holds w m -> does w counting_seed (fun p w' => exists b, p = At b 0 /\ m !! b = None /\ holds w' (<[b := counting]> m)).
Proof.
  intros Hw. unfold counting_seed. change kx.SEEDBYTES with 32. eapply local_place; [exact Hw|]. intros b w1 Hb Hw1.
  pose (at_ i := <[b := (byte_of_Z <$> (Z.of_nat <$> seq 0 (Z.to_nat i))) ++ zeros (32 - i)]> m).
  eapply (does_bind _ _ _ (fun _ w' => holds w' (at_ 32))).
  - eapply does_mono; [apply (does_for_index (fun i w' => holds w' (at_ i)))|].
    + intros i w2 Hi Hw2. change (0 + Z.of_nat (Z.to_nat 32)) with 32 in Hi. apply local_last.
      eapply (local_write_byte _ _ _ _ _ x00 _ (zeros (32 - (i + 1)))); [exact Hw2| | |].
      * unfold at_. rewrite lookup_insert_eq. rewrite (zeros_S (32 - i)) by lia. do 2 f_equal. f_equal. f_equal. lia.
      * rewrite !length_fmap, length_seq. done.
      * intros w3 Hw3. exists tt, w3. split; [done|]. unfold at_ in *. rewrite insert_insert_eq in Hw3.
        replace (Z.to_nat (i + 1)) with (S (Z.to_nat i)) by lia. rewrite seq_S, !fmap_app, <- app_assoc. cbn.
        rewrite Z2Nat.id by lia. exact Hw3.
    + exact Hw1.
    + intros [] w2 Hw2. exact Hw2.
  - intros [] w2 Hw2. apply does_ret. exists b. split_and!; [done|done|]. exact Hw2.
Qed.

Lemma add_one_does w m a bs :
  holds w m -> m !! a = Some bs -> (exists x r, bs = x :: r /\ byte_val x + 1 < 256) ->
  does w (add_one (At a 0)) (fun _ w' => holds w' (<[a := next_byte bs]> m)).
Proof.
  intros Hw Ha (x & r & -> & Hx). unfold add_one.
  eapply (local_read_byte _ _ _ _ [] x r); [exact Hw|exact Ha|done|].
  assert (Hv : le_val [x] = byte_val x) by (unfold le_val; cbn; lia).
  rewrite Hv, (proj2 (Z.ltb_lt _ _)) by done. apply local_last.
  eapply (local_write_byte _ _ _ _ [] x _ r); [exact Hw|exact Ha|done|]. intros w1 Hw1. by apply does_ret.
Qed.

Section Session.
Context (w : world) (m : gmap positive bytes) (Hw : holds w m).

Lemma client_keys_does s sb :
  m !! s = Some sb -> zlen sb = 32 ->
  kx_seeded sb = kx_client_sk_expected -> kx_public kx_client_sk_expected = kx_client_pk_expected ->
  does w (kx_client_keys (At s 0)) (new_pair m kx_client_pk_expected kx_client_sk_expected).
Proof.
  intros Hs Hl Hk Hp. unfold kx_client_keys. eapply local_seeded; [exact Hw|exact Hs|exact Hl|].
  rewrite Hk, Hp. intros a b w1 Hn Ha Hb Hw1.
  eapply local_assert_value; [exact Hw1|local_tac|done|done|done|]. intros w2 Hw2.
  eapply local_assert_value; [exact Hw2|local_tac|done|done|done|]. intros w3 Hw3.
  apply does_ret. by exists a, b.
Qed.

Context (spk ssk : positive) (e1 : bytes) (He : zlen e1 = 32).
Context (Hspk : m !! spk = Some (kx_public e1)) (Hssk : m !! ssk = Some e1).

Lemma other_session_does crx ctx rx tx cpk cb :
  m !! crx = Some rx -> m !! ctx = Some tx -> zlen rx = 32 -> zlen tx = 32 -> m !! cpk = Some cb -> zlen cb = 32 ->
  kx_others (Some (rx, tx)) (kx_server_rx_tx cb e1) ->
  does w (kx_other_session (At spk 0) (At ssk 0) (At crx 0) (At ctx 0) (At cpk 0)) (fun _ w' => holds w' m).
Proof.
  intros Hr Ht Hlr Hlt Hc Hlc. destruct (kx_server_rx_tx cb e1) as [[srx stx]|] eqn:Hs; [|done]. intros [Hn1 Hn2].
  assert (Hls : zlen srx = 32 /\ zlen stx = 32).
  { unfold kx_server_rx_tx in Hs. destruct (kx_shared cb e1) as [q|]; [|done]. injection Hs as <- <-.
    by destruct (kx_hash_halves q cb (kx_public e1)). }
  eapply local_server; [exact Hw|exact Hspk|exact Hssk|exact Hc|exact He|exact Hlc|exact Hs|].
  cbn [fst snd]. intros a b w1 Hab Ha Hb Hw1. fresh_facts.
  eapply local_arrays_differ; [exact Hw1|local_tac|local_tac|apply Hls|done|done|]. apply local_last.
  eapply local_arrays_differ; [exact Hw1|local_tac|local_tac|apply Hls|done|done|]. apply does_ret.
  eapply holds_mono; [|exact Hw1]. etransitivity; [by apply (insert_subseteq _ a)|]. apply insert_subseteq.
  by rewrite lookup_insert_ne.
Qed.

Lemma first_session_does small cpk csk c r :
  m !! small = Some small_order_p -> m !! cpk = Some (kx_public c) -> m !! csk = Some c -> zlen c = 32 ->
  kx_shared small_order_p c = None -> kx_shared small_order_p e1 = None -> is_Some (kx_shared (kx_public c) e1) ->
  kx_client_rx_tx c e1 = Some r ->
  does w (kx_first_session (At small 0) (At cpk 0) (At csk 0) (At spk 0) (At ssk 0)) (new_pair m r.1 r.2).
Proof.
  intros Hsm Hcp Hcs Hlc Hsc Hse [q Hq] Hr. pose proof (kx_public_zlen c). pose proof (kx_public_zlen e1). unfold kx_first_session.
  eapply local_run.
  { rewrite (client_session_keys_run w _ _ _ (kx_public c) c small_order_p);
      [rewrite Hsc; reflexivity|eapply kx_ref; [exact Hw|eassumption|done]..]. }
  apply local_assert; [done|].
  assert (Hw1 : holds (w_wiped w) m) by (by eapply holds_same).
  eapply local_client; [exact Hw1|exact Hcp|exact Hcs|exact Hspk|exact Hlc|exact Hr|].
  intros a b w2 Hab Ha Hb Hw2. fresh_facts.
  eapply local_run.
  { rewrite (server_session_keys_run w2 _ _ _ (kx_public e1) e1 small_order_p);
      [rewrite Hse; reflexivity|eapply kx_ref; [exact Hw2|local_tac|done]..]. }
  apply local_assert; [done|].
  assert (Hw3 : holds (w_wiped w2) (<[b := r.2]> (<[a := r.1]> m))) by (by eapply holds_same).
  eapply local_run.
  { rewrite (server_session_keys_run _ _ _ _ (kx_public e1) e1 (kx_public c));
      [rewrite Hq; reflexivity|eapply kx_ref; [exact Hw3|local_tac|done]..]. }
  eapply local_unwrap; [reflexivity|]. apply does_ret. by exists a, b.
Qed.

Lemma seeded_session_does s sb c e2 :
  m !! s = Some sb -> zlen sb = 32 -> (exists x r, sb = x :: r /\ byte_val x + 1 < 256) ->
  kx_seeded sb = c -> kx_seeded (next_byte sb) = e2 ->
  kx_server_rx_tx (kx_public c) e2 = Some (kx_up_expected, kx_down_expected) ->
  kx_client_rx_tx c e2 = Some (kx_down_expected, kx_up_expected) ->
  does w (kx_seeded_session (At s 0)) (fun _ _ => True).
Proof.
  intros Hs Hl Hx Hc He2 Hsv Hcl. unfold kx_seeded_session.
  assert (Hlc : zlen c = 32 /\ zlen e2 = 32) by (by rewrite <- Hc, <- He2, !kx_seeded_zlen).
  destruct Hlc as [Hlc Hle2]. pose proof (kx_public_zlen c). pose proof (kx_public_zlen e2).
  eapply local_seeded; [exact Hw|exact Hs|exact Hl|]. rewrite Hc. intros a b w1 Hab Ha Hb Hw1. fresh_facts.
  eapply does_bind; [eapply add_one_does; [exact Hw1|local_tac|exact Hx]|]. cbv beta. intros _ w2 Hw2.
  eapply local_seeded; [exact Hw2|local_tac| |].
  { destruct Hx as (x & r & -> & _). done. }
  rewrite He2. intros d f w3 Hdf Hd Hf Hw3. fresh_facts.
  eapply local_server; [exact Hw3|local_tac|local_tac|local_tac|done|done|exact Hsv|]. cbn [fst snd].
  intros g h w4 Hgh Hg Hh Hw4. fresh_facts.
  eapply local_assert_value; [exact Hw4|local_tac|done|done|done|]. intros w5 Hw5.
  eapply local_assert_value; [exact Hw5|local_tac|done|done|done|]. intros w6 Hw6.
  eapply local_client; [exact Hw6|local_tac|local_tac|local_tac|done|exact Hcl|]. cbn [fst snd].
  intros k l w7 Hkl Hk Hl' Hw7. fresh_facts.
  eapply local_assert_value; [exact Hw7|local_tac|done|done|done|]. intros w8 Hw8. apply local_last.
  eapply local_assert_value; [exact Hw8|local_tac|done|done|done|]. intros w9 Hw9. by apply does_ret.
Qed.

End Session.

Lemma kx_test_vectors_does w :
  kx_good kx_client_sk_expected (first_key w) (second_key w) ->
  kx_seeded counting = kx_client_sk_expected -> kx_public kx_client_sk_expected = kx_client_pk_expected ->
  let e := kx_seeded (next_byte counting) in
  kx_server_rx_tx kx_client_pk_expected e = Some (kx_up_expected, kx_down_expected) ->
  kx_client_rx_tx kx_client_sk_expected e = Some (kx_down_expected, kx_up_expected) ->
  does w kx_test_vectors (fun _ _ => True).
Proof.
  intros [Gs Ge Gq Gt Go] Hcs Hcp e Hse Hce. unfold kx_test_vectors.
  eapply (local_keeps generator); [apply keeps_alloc|by apply (place_does w ∅), holds_empty|]. intros sm w1 [_ Hw1] G1.
  eapply (local_keeps generator); [apply quiet_counting_seed|by apply counting_seed_does|].
  intros sp w2 (s & -> & Hs & Hw2) G2. fresh_facts.
  eapply (local_keeps generator); [apply quiet_client_keys|eapply client_keys_does; [exact Hw2|local_tac|done|exact Hcs|exact Hcp]|].
  intros ? w3 (cpk & csk & -> & Hc & Hcpk & Hcsk & Hw3) G3. fresh_facts.
  set (e1 := first_key w) in *. set (e2 := second_key w) in *.
  assert (En1 : entropy 32 w3 = e1) by (apply entropy_generator; congruence).
  assert (Hl1 : zlen e1 = 32) by (by apply entropy_zlen). assert (Hl2 : zlen e2 = 32) by (by apply entropy_zlen).
  eapply does_bind; [by apply kx_keypair_does|]. cbv beta. rewrite En1.
  intros ? w4 [(spk & ssk & -> & Hsn & Hspk & Hssk & Hw4) G4]. fresh_facts.
  assert (En2 : entropy 32 (w_consume 32 w3) = e2).
  { apply entropy_generator. unfold generator in *. cbn. congruence. }
  rewrite <- Hcp in Hw4, Hse. unfold kx_others in Gt, Go.
  destruct (kx_client_rx_tx kx_client_sk_expected e1) as [[rx tx]|] eqn:Hr; [|done].
  eapply (local_keeps generator); [apply quiet_first_session|eapply (first_session_does _ _ Hw4 spk ssk e1 Hl1);
    [local_tac|local_tac|local_tac|local_tac|local_tac|done|exact Gs|exact Ge|exact Gq|exact Hr]|].
  cbn [fst snd]. intros ? w5 (crx & ctx & -> & Hcn & Hcrx & Hctx & Hw5) G5. fresh_facts.
  assert (Hrt : zlen rx = 32 /\ zlen tx = 32).
  { unfold kx_client_rx_tx in Hr. destruct (kx_shared (kx_public e1) kx_client_sk_expected) as [q|]; [|done]. injection Hr as <- <-. apply kx_hash_halves. }
  destruct Hrt as [Hlr Hlt]. pose proof (kx_public_zlen kx_client_sk_expected) as Hlp. pose proof (kx_public_zlen e2) as Hlp2.
  pose (tampered := next_byte (kx_public kx_client_sk_expected)).
  eapply (local_keeps generator); [apply quiet_add_one|eapply add_one_does; [exact Hw5|local_tac|]|].
  { rewrite Hcp. unfold kx_client_pk_expected. eexists _, _. split; [vm_compute; reflexivity|done]. }
  intros [] w6 Hw6 G6. fold tampered in Hw6.
  eapply (local_keeps generator); [apply quiet_other_session|eapply (other_session_does _ _ Hw6 spk ssk e1 Hl1 ltac:(local_tac) ltac:(local_tac) crx ctx rx tx cpk tampered);
    [local_tac|local_tac|done|done|local_tac| |exact Gt]|].
  { unfold tampered. rewrite Hcp. done. }
  intros [] w7 Hw7 G7.
  assert (En3 : entropy 32 w7 = e2).
  { rewrite <- En2. apply entropy_generator. unfold generator in *. rewrite <- G4. congruence. }
  eapply does_bind; [by apply kx_keypair_does|]. cbv beta. rewrite En3.
  intros ? w8 [(pk2 & sk2 & -> & Hn2 & Hpk2 & Hsk2 & Hw8) _]. fresh_facts.
  eapply does_bind; [eapply (other_session_does _ _ Hw8 spk ssk e1 Hl1 ltac:(local_tac) ltac:(local_tac) crx ctx rx tx pk2 (kx_public e2));
    [local_tac|local_tac|done|done|local_tac|done|exact Go]|]. cbv beta.
  intros [] w9 Hw9. eapply (seeded_session_does _ _ Hw9 s counting kx_client_sk_expected e); [local_tac|done| |done|done|done|done].
  eexists _, _. split; [vm_compute; reflexivity|done].
Qed.

End KxPass.

(** ** The theorems *)

(** The published points of Curve25519, and the two boxes *)
Theorem point_vectors_pass `{T : Target} :
  let E := Std.scalarmult_externs in
  let B := Std.box_externs in
  passes scalarmult_test_vector_1 /\ passes scalarmult_test_vector_2 /\
  passes scalarmult_test_vector_3 /\ passes scalarmult_test_vector_4 /\
  passes box_test_vector_1 /\ passes box_test_vector_2.
Proof.
  intros E B.
  assert (V1 : X25519.public alicesk = alicepk) by (rewrite X25519.public_big; by_value).
  assert (V2 : X25519.public bobsk = bobpk) by (rewrite X25519.public_big; by_value).
  assert (V3 : X25519.mult alicesk bobpk = Some shared_point) by (rewrite X25519.mult_big; by_value).
  assert (V4 : X25519.mult bobsk alicepk = Some shared_point) by (rewrite X25519.mult_big; by_value).
  pose (k := Salsa20.hsalsa20 shared_point (zeros 16)).
  assert (K1 : Std.box_key bobpk alicesk = Some k) by (unfold Std.box_key; rewrite V3; reflexivity).
  assert (K2 : Std.box_key alicepk bobsk = Some k) by (unfold Std.box_key; rewrite V4; reflexivity).
  assert (C : easy_ct XSalsa20Poly1305.cipher k nacl_nonce nacl_message = nacl_ciphertext) by by_value.
  split_and!.
  - exact (settles_passes _ _ (scalarmult_base_vector_settles (D := Std.scalarmult_doc) alicesk alicepk eq_refl) V1).
  - exact (settles_passes _ _ (scalarmult_base_vector_settles (D := Std.scalarmult_doc) bobsk bobpk eq_refl) V2).
  - exact (settles_passes _ _ (scalarmult_vector_settles (D := Std.scalarmult_doc) alicesk bobpk shared_point eq_refl eq_refl) V3).
  - exact (settles_passes _ _ (scalarmult_vector_settles (D := Std.scalarmult_doc) bobsk alicepk shared_point eq_refl eq_refl) V4).
  - exact (settles_passes _ _ (box_seal_vector_settles (D := Std.box_doc) alicesk bobpk nacl_nonce k
      eq_refl eq_refl eq_refl K1 nacl_message nacl_ciphertext (fits_Z (zlen nacl_message + 16) eq_refl)) C).
  - refine (settles_passes _ _ (box_open_vector_settles (D := Std.box_doc) bobsk alicepk nacl_nonce k
      eq_refl eq_refl eq_refl K2 nacl_ciphertext nacl_message (fits_Z (zlen nacl_ciphertext) eq_refl)) _).
    rewrite <- C. exact (easy_open_ct (box_cipher (BoxDoc := Std.box_doc)) k nacl_nonce nacl_message).
Qed.


(** X25519 gives the published public key and point, and the coordinate 0 is
    refused; a box with a wrong tag is not opened. *)
Lemma point_values :
  X25519.public alicesk = alicepk /\ X25519.mult alicesk bobpk = Some shared_point /\
  X25519.mult alicesk (zeros 32) = None /\
  Std.box_key alicepk bobsk = Some (Salsa20.hsalsa20 shared_point (zeros 16)) /\
  easy_open (box_cipher (BoxDoc := Std.box_doc)) (Salsa20.hsalsa20 shared_point (zeros 16)) nacl_nonce
    nacl_ciphertext = Some nacl_message /\
  easy_open (box_cipher (BoxDoc := Std.box_doc)) (Salsa20.hsalsa20 shared_point (zeros 16)) nacl_nonce
    (zeros 16) <> Some [].
Proof.
  split_and!.
  - rewrite X25519.public_big. by_value.
  - rewrite X25519.mult_big. by_value.
  - apply X25519.mult_0.
  - unfold Std.box_key. rewrite X25519.mult_big. by_value.
  - by_value.
  - by vm_compute.
Qed.


(** The nonces have 192 bits. *)
Theorem nonce_lengths_pass `{R : RandombytesExterns} {RD : RandombytesDoc R} `{T : Target}
    `{B : BoxExterns} `{EX : StreamXsalsa20Externs} `{EXC : StreamXchacha20Externs} `{EXA : Xchacha20Poly1305IetfExterns} :
  passes xsalsa20_test_nonce_length /\ passes xchacha20_test_nonce_length /\
  passes secretbox_test_nonce_length /\ passes box_test_nonce_length /\ passes xchacha20poly1305_ietf_test_nonce_length.
Proof.
  split_and!; (apply (nonce_length_passes (RD := RD)); [done|]; by apply (makes_random (RD := RD))).
Qed.

(** The tests of the rejected keys: X25519 refuses the coordinate 0 whatever the
    scalar, so that the test of [scalarmult] panics, as it should, and both
    parties of a key exchange reject an all-zero key. *)
Theorem zero_points_rejected `{T : Target} `{R : RandombytesExterns} {RD : RandombytesDoc R}
    `{U : UtilsExterns} {UD : UtilsDoc U} :
  let E := Std.scalarmult_externs in
  let K := Std.kx_externs in
  (forall w, test_all_zero w = Panicked) /\ passes test_kx_non_acceptable_keys.
Proof.
  intros E K. split.
  - intros w. refine (test_all_zero_panics (D := Std.scalarmult_doc) (RD := RD) w _). intros n _. apply X25519.mult_0.
  - refine (test_kx_non_acceptable_keys_passes (D := Std.kx_doc) (UD := UD) _). intros sk _. apply X25519.mult_0.
Qed.

(** The session keys, computed with the fast integers *)
Lemma std_client_rx_tx sk e :
  kx_client_rx_tx (D := Std.kx_doc) sk e =
  let cp := X25519.x25519_with big sk X25519.base_point in
  let sp := X25519.x25519_with big e X25519.base_point in
  (fun q => let h := Std.kx_keys q cp sp in (take 32 h, drop 32 h)) <$> X25519.accept (X25519.x25519_with big sk sp).
Proof.
  unfold kx_client_rx_tx. cbn [kx_shared kx_public kx_hash Std.kx_doc]. unfold Std.kx_shared_of.
  by rewrite X25519.mult_big, !X25519.public_big.
Qed.
Lemma std_server_rx_tx cp e :
  kx_server_rx_tx (D := Std.kx_doc) cp e =
  let sp := X25519.x25519_with big e X25519.base_point in
  (fun q => let h := Std.kx_keys q cp sp in (drop 32 h, take 32 h)) <$> X25519.accept (X25519.x25519_with big e cp).
Proof.
  unfold kx_server_rx_tx. cbn [kx_shared kx_public kx_hash Std.kx_doc]. unfold Std.kx_shared_of.
  by rewrite X25519.mult_big, X25519.public_big.
Qed.

Lemma kx_counting_vectors :
  let sk := kx_client_sk_expected in
  let e := Std.kx_seed (next_byte counting) in
  Std.kx_seed counting = sk /\ X25519.public sk = kx_client_pk_expected /\
  kx_server_rx_tx (D := Std.kx_doc) kx_client_pk_expected e = Some (kx_up_expected, kx_down_expected) /\
  kx_client_rx_tx (D := Std.kx_doc) sk e = Some (kx_down_expected, kx_up_expected).
Proof.
  intros sk e. split_and!; [by_value|rewrite X25519.public_big; by_value|..].
  - rewrite std_server_rx_tx. by_value.
  - rewrite std_client_rx_tx. by_value.
Qed.

(** [test_vectors] of kx: the seeded keys and session keys are the published
    ones, and the test passes whenever the two generated keys are good
    ([kx_good]). *)
Theorem kx_vectors_pass `{T : Target} `{U : UtilsExterns} {UD : UtilsDoc U} (w : world) :
  let E := Std.kx_externs in
  kx_good (D := Std.kx_doc) kx_client_sk_expected (first_key w) (second_key w) ->
  does w kx_test_vectors (fun _ _ => True).
Proof.
  intros E Hg. destruct kx_counting_vectors as (V1 & V2 & V3 & V4).
  exact (kx_test_vectors_does (D := Std.kx_doc) (UD := UD) w Hg V1 V2 V3 V4).
Qed.

(** With the entropy 0, 1, 2, ... *)
Lemma kx_vectors_pass_witness :
  let w := World ∅ (Env (fun i => byte_of_Z (Z.of_nat i)) 0 false [] []) in
  kx_good (D := Std.kx_doc) kx_client_sk_expected (first_key w) (second_key w) /\
  does w (@kx_test_vectors Std.kx_externs Ref.utils) (fun _ _ => True).
Proof.
  intros w.
  assert (G : kx_good (D := Std.kx_doc) kx_client_sk_expected (first_key w) (second_key w)).
  { split; cbn [kx_shared kx_public Std.kx_doc]; unfold Std.kx_shared_of.
    - rewrite X25519.mult_big. by_value.
    - rewrite X25519.mult_big. by_value.
    - rewrite X25519.mult_big, X25519.public_big. vm_compute. by eexists.
    - rewrite std_client_rx_tx, std_server_rx_tx, X25519.public_big. vm_compute. by split.
    - rewrite std_client_rx_tx, std_server_rx_tx, X25519.public_big. vm_compute. by split. }
  split; [exact G|]. exact (kx_vectors_pass (T := target64) (U := Ref.utils) (UD := Ref.utils_doc) w G).
Defined.
