(* ===== verification/PwhashTests.v ===== *)
(** * The tests of crypto/pwhash with published keys and hashes

    The tests of argon2i13.rs and argon2id13.rs are the same but for the vectors;
    here they are sections over the record of the module.  Argon2 and scrypt fill
    megabytes of memory and are not computed: for each test the theorems say
    exactly of which results of the foreign functions it passes, and that it
    panics with all others. *)

From S2P Require Export Utf8 Hashes KeyTests.

(** ** The programs *)

(** The values of a test of [derive_key]; [dv_ok]: whether it asserts that the
    derivation succeeds *)
Record derive_vector := DeriveVector {
  dv_password : bytes;
  dv_salt : bytes;
  dv_expected : bytes;
  dv_out_len : Z;
  dv_ops : OpsLimit;
  dv_mem : MemLimit;
  dv_ok : bool
}.

(** The values of a test of [pwhash_verify]; [vv_ok]: whether it asserts that the
    hash is accepted *)
Record verify_vector := VerifyVector {
  vv_password : bytes;
  vv_out : bytes;
  vv_ok : bool
}.

Section Argon2Tests.
Context `{T : Target} (A : argon2_module).

Definition run_derive_key_test (password : slice) (salt : bytes) (expected : slice) (out_len : Z)
    (ops : OpsLimit) (mem : MemLimit) : M (result unit) :=
  let* out_bin := vec_of (zeros out_len) in
  let* salt := place salt in
  let* result := argon2.derive_key A (v_slice out_bin) password (At salt 0) ops mem in
  match result with
  | Ok out_bin =>
    let* e := slice_bytes expected in
    let* b := slice_bytes out_bin in
    let* _ := assert_eq e b in
    ret (Ok tt)
  | Err => ret Err
  end.

(** An index past the end of the array panics. *)
Definition to_hashed_password (s : slice) : M bytes :=
  let* pw := place (zeros 128) in
  let* _ := for_range 0 (Z.to_nat (s_len s)) (fun i =>
    let* val := read (ptr_add (s_ptr s) i) 1 in
    if i <? 128 then write (At pw (Z.to_nat i)) val else panic) in
  move_out pw.

(** [test_derive_01] to [test_derive_10] *)
Definition test_derive (v : derive_vector) : M unit :=
  let* p := place (dv_password v) in
  let* e := place (dv_expected v) in
  let* result := run_derive_key_test (Slice (At p 0) (zlen (dv_password v))) (dv_salt v)
                   (Slice (At e 0) (zlen (dv_expected v))) (dv_out_len v) (dv_ops v) (dv_mem v) in
  assert (bool_decide (is_ok result = dv_ok v)).

(** [test_verify_1] to [test_verify_6] *)
Definition test_verify (v : verify_vector) : M unit :=
  let* p := place (vv_password v) in
  let* s := place (vv_out v) in
  let* hashed := local (to_hashed_password (Slice (At s 0) (zlen (vv_out v)))) in
  let* r := argon2.pwhash_verify A hashed (Slice (At p 0) (zlen (vv_password v))) in
  assert (bool_decide (r = vv_ok v)).

Context `{U : UtilsExterns}.

Definition test_hash_1 : M unit :=
  let* p := place (string_bytes "Correct Horse Battery Staple") in
  let password := Slice (At p 0) 28 in
  let opslimit := MkOpsLimit 3 in
  let memlimit := MkMemLimit 5000000 in
  let* result := argon2.pwhash A password opslimit memlimit in
  let* _ := assert (is_ok result) in
  let* out_01 := local (unwrap result) in
  let* result := argon2.pwhash A password opslimit memlimit in
  let* _ := assert (is_ok result) in
  let* out_02 := local (unwrap result) in
  assert_differ (argon2.HashedPassword A) out_01 out_02.

(** [ok]: whether the test asserts that the hash is computed *)
Definition test_hash_2 (ok : bool) : M unit :=
  let* p := place (string_bytes "Correct Horse Battery Staple") in
  let password := Slice (At p 0) 28 in
  let opslimit := MkOpsLimit 1 in
  let memlimit := MkMemLimit 5000000 in
  let* result := argon2.pwhash A password opslimit memlimit in
  assert (bool_decide (is_ok result = ok)).

Definition test_hash_3 : M unit :=
  let* p := place (string_bytes "Correct Horse Battery Staple") in
  let password := Slice (At p 0) 28 in
  let opslimit := MkOpsLimit 3 in
  let memlimit := MkMemLimit 5000000 in
  let* result := argon2.pwhash A password opslimit memlimit in
  let* _ := assert (is_ok result) in
  let* out := local (unwrap result) in
  let* r := argon2.pwhash_verify A out password in
  assert r.

End Argon2Tests.

(** ** The tests of hashing, in the two modules *)

Section Argon2iHashes.
Context `{T : Target} `{E : Argon2iExterns} `{U : UtilsExterns}.
Definition argon2i13_test_hash_1 : M unit := test_hash_1 argon2i13.
Definition argon2i13_test_hash_2 : M unit := test_hash_2 argon2i13 false.
Definition argon2i13_test_hash_3 : M unit := test_hash_3 argon2i13.
Definition argon2i13_test_pwhash_verify `{R : RandombytesExterns} : M unit := test_pwhash_verify argon2i13.
End Argon2iHashes.

Section Argon2idHashes.
Context `{T : Target} `{E : Argon2idExterns} `{U : UtilsExterns}.
Definition argon2id13_test_hash_1 : M unit := test_hash_1 argon2id13.
Definition argon2id13_test_hash_2 : M unit := test_hash_2 argon2id13 true.
Definition argon2id13_test_hash_3 : M unit := test_hash_3 argon2id13.
Definition argon2id13_test_pwhash_verify `{R : RandombytesExterns} : M unit := test_pwhash_verify argon2id13.
End Argon2idHashes.

(** ** The vectors *)

Definition argon2i13_test_derive_01 : derive_vector := {|
  dv_password := (hex ("a347ae92bce9f80f6f595a4480fc9c2fe7e7d7148d371e9487d75f5c23008ffae065577a928febd9b1973a5a95073acd" ++
      "beb6a030cfc0d79caa2dc5cd011cef02c08da232d76d52dfbca38ca8dcbd665b17d1665f7cf5fe59772ec909733b24de" ++
      "97d6f58d220b20c60d7c07ec1fd93c52c31020300c6c1facd77937a597c7a6")%string);
  dv_salt := (hex "5541fbc995d5c197ba290346d2c559de");
  dv_expected := (hex ("23b803c84eaa25f4b44634cc1e5e37792c53fcd9b1eb20f865329c68e09cbfa9f1968757901b383fce221afe27713f97" ++
      "914a041395bbe1fb70e079e5bed2c7145b1f6154046f5958e9b1b29055454e264d1f2231c316f26be2e3738e83a80315" ++
      "e9a0951ce4b137b52e7d5ee7b37f7d936dcee51362bcf792595e3c896ad5042734fc90c92cae572ce63ff659a2f7974a" ++
      "3bd730d04d525d253ccc38")%string);
  dv_out_len := 155; dv_ops := MkOpsLimit 5; dv_mem := MkMemLimit 7256678; dv_ok := true
|}.

Definition argon2i13_test_derive_02 : derive_vector := {|
  dv_password := (hex ("e125cee61c8cb7778d9e5ad0a6f5d978ce9f84de213a8556d9ffe202020ab4a6ed9074a4eb3416f9b168f137510f3a30" ++
      "b70b96cbfa219ff99f6c6eaffb15c06b60e00cc2890277f0fd3c622115772f7048adaebed86e")%string);
  dv_salt := (hex "f1192dd5dc2368b9cd421338b2243345");
  dv_expected := (hex ("0bb3769b064b9c43a9460476ab38c4a9a2470d55d4c992c6e723af895e4c07c09af41f22f90eab583a0c362d177f4677" ++
      "f212482fd145bfb9ac6211635e48461122bb49097b5fb0739d2cd22a39bf03d268e7495d4fd8d710aa156202f0a06e93" ++
      "2ff513e6e7c76a4e98b6df5cf922f124791b1076ad904e6897271f5d7d24c5929e2a3b836d0f2f2697c2d758ee79bf12" ++
      "64f3fae65f3744e0f6d7d07ef6e8b35b70c0f88e9036325bfb24ac7f550351486da87aef10d6b0cb77d1cf6e31cf9839" ++
      "9c6f241c605c6530dffb4764784f6c0b0bf601d4e4431e8b18dabdc3079c6e264302ade79f61cbd5497c95486340bb89" ++
      "1a737223100be0429650")%string);
  dv_out_len := 250; dv_ops := MkOpsLimit 4; dv_mem := MkMemLimit 7849083; dv_ok := true
|}.

Definition argon2i13_test_derive_03 : derive_vector := {|
  dv_password := (hex ("92263cbf6ac376499f68a4289d3bb59e5a22335eba63a32e6410249155b956b6a3b48d4a44906b18b897127300b375b8" ++
      "f834f1ceffc70880a885f47c33876717e392be57f7da3ae58da4fd1f43daa7e44bb82d3717af4319349c24cd31e46d29" ++
      "5856b0441b6b289992a11ced1cc3bf3011604590244a3eb737ff221129215e4e4347f4915d41292b5173d196eb9add69" ++
      "3be5319fdadc242906178bb6c0286c9b6ca6012746711f58c8c392016b2fdfc09c64f0f6b6ab7b")%string);
  dv_salt := (hex "3b840e20e9555e9fb031c4ba1f1747ce");
  dv_expected := (hex ("e9aa073b0b872f15c083d1d7ce52c09f493b827ca78f13a06c1721b45b1e17b24c04e19fe869333135360197a7eb5599" ++
      "4fee3e8d9680aedfdf7674f3ad7b84d59d7eab03579ffc10c7093093bc48ec84252aa1b30f40f5e838f1443e15e2772a" ++
      "39f4e774eb052097e8881e94f15457b779fa2af2bbc9a993687657c7704ac8a37c25c1df4289eb4c70da45f2fd46bc0f" ++
      "78259767d3dd478a7c369cf866758bc36d9bd8e2e3c9fb0cf7fd6073ebf630c1f67fa7d303c07da40b36749d157ea379" ++
      "65fef810f2ea05ae6fc7d96a8f3470d73e15b22b42e8d6986dbfe5303256b2b3560372c4452ffb2a04fb7c6691489f70" ++
      "cb46831be0679117f7")%string);
  dv_out_len := 249; dv_ops := MkOpsLimit 3; dv_mem := MkMemLimit 7994791; dv_ok := true
|}.

Definition argon2i13_test_derive_04 : derive_vector := {|
  dv_password := (hex ("027b6d8e8c8c474e9b69c7d9ed4f9971e8e1ce2f6ba95048414c3970f0f09b70e3b6c5ae05872b3d8678705b7d381829" ++
      "c351a5a9c88c233569b35d6b0b809df44b6451a9c273f1150e2ef8a0b5437eb701e373474cd44b97ef0248ebce2ca040" ++
      "0e1b53f3d86221eca3f18eb45b702b9172440f774a82cbf1f6f525df30a6e293c873cce69bb078ed1f0d31e7f9b80624" ++
      "09f37f19f8550aae")%string);
  dv_salt := (hex "eb2a3056a09ad2d7d7f975bcd707598f");
  dv_expected := (hex "00");
  dv_out_len := 5; dv_ops := MkOpsLimit 4; dv_mem := MkMemLimit 1397645; dv_ok := false
|}.

Definition argon2i13_test_derive_05 : derive_vector := {|
  dv_password := (hex ("4a857e2ee8aa9b6056f2424e84d24a72473378906ee04a46cb05311502d5250b82ad86b83c8f20a23dbb74f6da60b0b6" ++
      "ecffd67134d45946ac8ebfb3064294bc097d43ced68642bfb8bbbdd0f50b30118f5e")%string);
  dv_salt := (hex "39d82eef32010b8b79cc5ba88ed539fb");
  dv_expected := (hex ("c121209f0ba70aed93d49200e5dc82cce013cef25ea31e160bf8db3cf448a59d1a56f6c19259e18ea020553cb7578176" ++
      "1d112b2d949a297584c65e60df95ad89c4109825a3171dc6f20b1fd6b0cdfd194861bc2b414295bee5c6c52619e544ab" ++
      "ce7d520659c3d51de2c60e89948d830695ab38dcb75dd7ab06a4770dd4bc7c8f335519e04b038416b1a7dbd25c026786" ++
      "a8105c5ffe7a0931364f0376ae5772be39b51d91d3281464e0f3a128e7155a68e87cf79626ffca0b2a3022fc8420")%string);
  dv_out_len := 190; dv_ops := MkOpsLimit 3; dv_mem := MkMemLimit 1432947; dv_ok := true
|}.

Definition argon2i13_test_derive_06 : derive_vector := {|
  dv_password := (hex ("c7b09aec680e7b42fedd7fc792e78b2f6c1bea8f4a884320b648f81e8cf515e8ba9dcfb11d43c4aae114c1734aa69ca8" ++
      "2d44998365db9c93744fa28b63fd16000e8261cbbe083e7e2da1e5f696bde0834fe53146d7e0e35e7de9920d041f5a56" ++
      "21aabe02da3e2b09b405b77937efef3197bd5772e41fdb73fb5294478e45208063b5f58e089dbeb6d6342a909c1307b3" ++
      "fff5fe2cf4da56bdae50848f")%string);
  dv_salt := (hex "039c056d933b475032777edbaffac50f");
  dv_expected := (hex ("91c337ce8918a5805a59b00bd1819d3eb4356807cbd2a80b271c4b482dce03f5b02ae4eb831ff668cbb327b93c300b41" ++
      "da4852e5547bea8342d518dd9311aaeb5f90eccf66d548f9275631f0b1fd4b299cec5d2e86a59e55dc7b3afab6204447" ++
      "b21d1ef1da824abaf31a25a0d6135c4fe81d34a06816c8a6eab19141f5687108500f3719a862af8c5fee36e130c69921" ++
      "e11ce83dfc72c5ec3b862c1bccc5fd63ad57f432fbcca6f9e18d5a59015950cdf053")%string);
  dv_out_len := 178; dv_ops := MkOpsLimit 3; dv_mem := MkMemLimit 4886999; dv_ok := true
|}.

Definition argon2i13_test_derive_07 : derive_vector := {|
  dv_password := (hex "b540beb016a5366524d4605156493f9874514a5aa58818cd0c6dfffaa9e90205f17b");
  dv_salt := (hex "44071f6d181561670bda728d43fb79b4");
  dv_expected := (hex "00");
  dv_out_len := 231; dv_ops := MkOpsLimit 1; dv_mem := MkMemLimit 1631659; dv_ok := false
|}.

Definition argon2i13_test_derive_08 : derive_vector := {|
  dv_password := (hex ("a14975c26c088755a8b715ff2528d647cd343987fcf4aa25e7194a8417fb2b4b3f7268da9f3182b4cfb22d138b2749d6" ++
      "73a47ecc7525dd15a0a3c66046971784bb63d7eae24cc84f2631712075a10e10a96b0e0ee67c43e01c423cb9c44e5371" ++
      "017e9c496956b632158da3fe12addecb88912e6759bc37f9af2f45af72c5cae3b179ffb676a697de6ebe45cd4c16d4a9" ++
      "d642d29ddc0186a0a48cb6cd62bfc3dd229d313b301560971e740e2cf1f99a9a090a5b283f35475057e96d7064e2e0fc" ++
      "81984591068d55a3b4169f22cccb0745a2689407ea1901a0a766eb99")%string);
  dv_salt := (hex "3d968b2752b8838431165059319f3ff8");
  dv_expected := (hex ("e942951dfbc2d508294b10f9e97b47d0cd04e668a043cb95679cc1139df7c27cd54367688725be9d069f5704c12223e7" ++
      "e4ca181fbd0bed18bb4634795e545a6c04a7306933a41a794baedbb628d41bc285e0b9084055ae136f6b63624c874f5a" ++
      "1e1d8be7b0b7227a171d2d7ed578d88bfdcf18323198962d0dcad4126fd3f21adeb1e11d66252ea0c58c91696e91031b" ++
      "fdcc2a9dc0e028d17b9705ba2d7bcdcd1e3ba75b4b1fea")%string);
  dv_out_len := 167; dv_ops := MkOpsLimit 3; dv_mem := MkMemLimit 1784128; dv_ok := true
|}.

Definition argon2i13_test_derive_09 : derive_vector := {|
  dv_password := (hex ("a347ae92bce9f80f6f595a4480fc9c2fe7e7d7148d371e9487d75f5c23008ffae065577a928febd9b1973a5a95073acd" ++
      "beb6a030cfc0d79caa2dc5cd011cef02c08da232d76d52dfbca38ca8dcbd665b17d1665f7cf5fe59772ec909733b24de" ++
      "97d6f58d220b20c60d7c07ec1fd93c52c31020300c6c1facd77937a597c7a6")%string);
  dv_salt := (hex "5541fbc995d5c197ba290346d2c559de");
  dv_expected := (hex ("fd329873387429cb79faaec4f65c35649f65de0aabc1f092ca9dee20029d8ae6c3a97e9940763e1703a7fef5a20eb7f2" ++
      "10123fc8c6d3f1745d19d5e3c1eb392ab4a6070c8a6b9ecbeabae0711326e81530099541a882d4bd7733c4a7477ae72b" ++
      "6928c46cd07264172a9d2cfb7d649594f877f8b447d9c01b17996b85db5a71f733f8cc5fd0436540a5b7a1d79de09e20" ++
      "c3abe6515501b3156cd51e")%string);
  dv_out_len := 155; dv_ops := MkOpsLimit 4; dv_mem := MkMemLimit 397645; dv_ok := true
|}.

Definition argon2i13_test_derive_10 : derive_vector := {|
  dv_password := (hex ("a347ae92bce9f80f6f595a4480fc9c2fe7e7d7148d371e9487d75f5c23008ffae065577a928febd9b1973a5a95073acd" ++
      "beb6a030cfc0d79caa2dc5cd011cef02c08da232d76d52dfbca38ca8dcbd665b17d1665f7cf5fe59772ec909733b24de" ++
      "97d6f58d220b20c60d7c07ec1fd93c52c31020300c6c1facd77937a597c7a6")%string);
  dv_salt := (hex "5541fbc995d5c197ba290346d2c559de");
  dv_expected := (hex ("bbbc4c7963593601d4d685ed9d89682374f8e6b3ce92ce8ccc702728ec8bf839fd7cb8e37ddb09be8c18c7e0ed099949" ++
      "665227a00fb33e1f63ca830dbeb13b29d987b445b3e081cd8428bdb2f9e003e12bea98230fd30842fa193af9169171b5" ++
      "50322072c88330ea464cbe02b6ee044374d3f3d174c23617b707159a11926c56601123dcc30508ec84fdb0797b7ab23a" ++
      "77eeefb2a0be2ef45e903c")%string);
  dv_out_len := 155; dv_ops := MkOpsLimit 3; dv_mem := MkMemLimit 397645; dv_ok := true
|}.

Definition argon2i13_test_verify_1 : verify_vector := {|
  vv_password := string_bytes "";
  vv_out := string_bytes "$argon2i$v=19$m=4096,t=1,p=1$X1NhbHQAAAAAAAAAAAAAAA$bWh++MKN1OiFHKgIWTLvIi1iHicmHH7+Fv3K88ifFfI";
  vv_ok := true
|}.

Definition argon2i13_test_verify_2 : verify_vector := {|
  vv_password := string_bytes "";
  vv_out := string_bytes "$argon2i$v=19$m=2048,t=4,p=1$SWkxaUhpY21ISDcrRnYzSw$Mbg/Eck1kpZir5T9io7C64cpffdTBaORgyriLQFgQj8";
  vv_ok := true
|}.

Definition argon2i13_test_verify_3 : verify_vector := {|
  vv_password := string_bytes "^T5H$JYt39n%K*j:W]!1s?vg!:jGi]Ax?..l7[p0v:1jHTpla9;]bUN;?bWyCbtqg ";
  vv_out := string_bytes "$argon2i$v=19$m=4096,t=3,p=2$X1NhbHQAAAAAAAAAAAAAAA$z/QMiU4lQxGsYNc/+K/bizwsA1P11UG2dj/7+aILJ4I";
  vv_ok := true
|}.

Definition argon2i13_test_verify_4 : verify_vector := {|
  vv_password := string_bytes "K3S=KyH#)36_?]LxeR8QNKw6X=gFbxai$C%29V*";
  vv_out := string_bytes "$argon2i$v=19$m=4096,t=3,p=1$X1NhbHQAAAAAAAAAAAAAAA$fu2Wsecyt+yPnBvSvYN16oP5ozRmkp0ixJ1YL19V3Uo";
  vv_ok := true
|}.

Definition argon2i13_derive_vectors : list derive_vector :=
  [argon2i13_test_derive_01; argon2i13_test_derive_02; argon2i13_test_derive_03;
   argon2i13_test_derive_04; argon2i13_test_derive_05; argon2i13_test_derive_06;
   argon2i13_test_derive_07; argon2i13_test_derive_08; argon2i13_test_derive_09;
   argon2i13_test_derive_10].

Definition argon2i13_verify_vectors : list verify_vector :=
  [argon2i13_test_verify_1; argon2i13_test_verify_2; argon2i13_test_verify_3;
   argon2i13_test_verify_4].

Definition argon2id13_test_derive_01 : derive_vector := {|
  dv_password := (hex ("a347ae92bce9f80f6f595a4480fc9c2fe7e7d7148d371e9487d75f5c23008ffae065577a928febd9b1973a5a95073acd" ++
      "beb6a030cfc0d79caa2dc5cd011cef02c08da232d76d52dfbca38ca8dcbd665b17d1665f7cf5fe59772ec909733b24de" ++
      "97d6f58d220b20c60d7c07ec1fd93c52c31020300c6c1facd77937a597c7a6")%string);
  dv_salt := (hex "5541fbc995d5c197ba290346d2c559de");
  dv_expected := (hex ("18acec5d6507739f203d1f5d9f1d862f7c2cdac4f19d2bdff64487e60d969e3ced615337b9eec6ac4461c6ca07f09397" ++
      "41e57c24d0005c7ea171a0ee1e7348249d135b38f222e4dad7b9a033ed83f5ca27277393e316582033c74affe2566a2b" ++
      "ea47f91f0fd9fe49ece7e1f79f3ad6e9b23e0277c8ecc4b313225748dd2a80f5679534a0700e246a79a49b3f74eb89ec" ++
      "6205fe1eeb941c73b1fcf1")%string);
  dv_out_len := 155; dv_ops := MkOpsLimit 5; dv_mem := MkMemLimit 7256678; dv_ok := true
|}.

Definition argon2id13_test_derive_02 : derive_vector := {|
  dv_password := (hex ("e125cee61c8cb7778d9e5ad0a6f5d978ce9f84de213a8556d9ffe202020ab4a6ed9074a4eb3416f9b168f137510f3a30" ++
      "b70b96cbfa219ff99f6c6eaffb15c06b60e00cc2890277f0fd3c622115772f7048adaebed86e")%string);
  dv_salt := (hex "f1192dd5dc2368b9cd421338b2243345");
  dv_expected := (hex ("26bab5f101560e48c711da4f05e81f5a3802b7a93d5155b9cab153069cc42b8e9f910bfead747652a0708d70e4de0bad" ++
      "a37218bd203a1201c36b42f9a269b675b1f30cfc36f35a3030e9c7f57dfba0d341a974c1886f708c3e8297efbfe411bb" ++
      "9d51375264bd7c70d57a8a56fc9de2c1c97c08776803ec2cd0140bba8e61dc0f4ad3d3d1a89b4b710af81bfe35a0eea1" ++
      "93e18a6da0f5ec05542c9eefc4584458e1da715611ba09617384748bd43b9bf1f3a6df4ecd091d0875e08d6e2fd8a5c7" ++
      "ce08904b5160cd38167b76ec76ef2d310049055a564da23d4ebd2b87e421cc33c401e12d5cd8d936c9baf75ebdfb557d" ++
      "342d2858fc781da31860")%string);
  dv_out_len := 250; dv_ops := MkOpsLimit 4; dv_mem := MkMemLimit 7849083; dv_ok := true
|}.

Definition argon2id13_test_derive_03 : derive_vector := {|
  dv_password := (hex ("92263cbf6ac376499f68a4289d3bb59e5a22335eba63a32e6410249155b956b6a3b48d4a44906b18b897127300b375b8" ++
      "f834f1ceffc70880a885f47c33876717e392be57f7da3ae58da4fd1f43daa7e44bb82d3717af4319349c24cd31e46d29" ++
      "5856b0441b6b289992a11ced1cc3bf3011604590244a3eb737ff221129215e4e4347f4915d41292b5173d196eb9add69" ++
      "3be5319fdadc242906178bb6c0286c9b6ca6012746711f58c8c392016b2fdfc09c64f0f6b6ab7b")%string);
  dv_salt := (hex "3b840e20e9555e9fb031c4ba1f1747ce");
  dv_expected := (hex ("6eb45e668582d63788ca8f6e930ca60b045a795fca987344f9a7a135aa3b5132b50a34a3864c26581f1f56dd0bcbfafb" ++
      "fa92cd9bff6b24a734cfe88f854aef4bda0a7983120f44936e8ff31d29728ac08ccce6f3f916b3c63962755c23a1fa9b" ++
      "b4e8823fc867bfd18f28980d94bc5874423ab7f96cc0ab78d8fa21fbd00cd3a1d96a73fa439ccc3fc4eab1590677b06c" ++
      "c78b0f674dfb680f23022fb902022dd8620803229c6ddf79a8156ccfce48bbd76c05ab670634f206e5b2e896230baa74" ++
      "a856964dbd8511acb71d75a1506766a125d8ce037f1db72086ebc3bccaefbd8cd9380167c2530386544ebfbeadbe2377" ++
      "84d102bb92a10fd242")%string);
  dv_out_len := 249; dv_ops := MkOpsLimit 3; dv_mem := MkMemLimit 7994791; dv_ok := true
|}.

Definition argon2id13_test_derive_04 : derive_vector := {|
  dv_password := (hex ("027b6d8e8c8c474e9b69c7d9ed4f9971e8e1ce2f6ba95048414c3970f0f09b70e3b6c5ae05872b3d8678705b7d381829" ++
      "c351a5a9c88c233569b35d6b0b809df44b6451a9c273f1150e2ef8a0b5437eb701e373474cd44b97ef0248ebce2ca040" ++
      "0e1b53f3d86221eca3f18eb45b702b9172440f774a82cbf1f6f525df30a6e293c873cce69bb078ed1f0d31e7f9b80624" ++
      "09f37f19f8550aae")%string);
  dv_salt := (hex "eb2a3056a09ad2d7d7f975bcd707598f");
  dv_expected := (hex "00");
  dv_out_len := 5; dv_ops := MkOpsLimit 4; dv_mem := MkMemLimit 1397645; dv_ok := false
|}.

Definition argon2id13_test_derive_05 : derive_vector := {|
  dv_password := (hex ("4a857e2ee8aa9b6056f2424e84d24a72473378906ee04a46cb05311502d5250b82ad86b83c8f20a23dbb74f6da60b0b6" ++
      "ecffd67134d45946ac8ebfb3064294bc097d43ced68642bfb8bbbdd0f50b30118f5e")%string);
  dv_salt := (hex "39d82eef32010b8b79cc5ba88ed539fb");
  dv_expected := (hex ("08d8cd330c57e1b4643241d05bb468ba4ee4e932cd0858816be9ef15360b27bbd06a87130ee92222be267a29b81f5ae8" ++
      "fe8613324cfc4832dc49387fd0602f1c57b4d0f3855db94fb7e12eb05f9a484aed4a4307abf586cd3d55c809bc081541" ++
      "e00b682772fb2066504ff935b8ebc551a2083882f874bc0fae68e56848ae34c91097c3bf0cca8e75c0797eef3efde3f7" ++
      "5e005815018db3cf7c109a812264c4de69dcb22322dbbcfa447f5b00ecd1b04a7be1569c8e556adb7bba48adf81d")%string);
  dv_out_len := 190; dv_ops := MkOpsLimit 3; dv_mem := MkMemLimit 1432947; dv_ok := true
|}.

Definition argon2id13_test_derive_06 : derive_vector := {|
  dv_password := (hex ("c7b09aec680e7b42fedd7fc792e78b2f6c1bea8f4a884320b648f81e8cf515e8ba9dcfb11d43c4aae114c1734aa69ca8" ++
      "2d44998365db9c93744fa28b63fd16000e8261cbbe083e7e2da1e5f696bde0834fe53146d7e0e35e7de9920d041f5a56" ++
      "21aabe02da3e2b09b405b77937efef3197bd5772e41fdb73fb5294478e45208063b5f58e089dbeb6d6342a909c1307b3" ++
      "fff5fe2cf4da56bdae50848f")%string);
  dv_salt := (hex "039c056d933b475032777edbaffac50f");
  dv_expected := (hex ("d6e9d6cabd42fb9ba7162fe9b8e41d59d3c7034756cb460c9affe393308bd0225ce0371f2e6c3ca32aca2002bf2d3909" ++
      "c6b6e7dfc4a00e850ff4f570f8f749d4bb6f0091e554be67a9095ae1eefaa1a933316cbec3c2fd4a14a5b6941bda9b7e" ++
      "abd821d79abde2475a53af1a8571c7ee46460be415882e0b393f48c12f740a6a72cba9773000602e13b40d3dfa6ac1d4" ++
      "ec43a838b7e3e165fecad4b2498389e60a3ff9f0f8f4b9fca1126e64f49501e38690")%string);
  dv_out_len := 178; dv_ops := MkOpsLimit 3; dv_mem := MkMemLimit 4886999; dv_ok := true
|}.

Definition argon2id13_test_derive_07 : derive_vector := {|
  dv_password := (hex "b540beb016a5366524d4605156493f9874514a5aa58818cd0c6dfffaa9e90205f17b");
  dv_salt := (hex "44071f6d181561670bda728d43fb79b4");
  dv_expected := (hex ("7fb72409b0987f8190c3729710e98c3f80c5a8727d425fdcde7f3644d467fe973f5b5fee683bd3fce812cb9ae5e9921a" ++
      "2d06c2f1905e4e839692f2b934b682f11a2fe2b90482ea5dd234863516dba6f52dc0702d324ec77d860c2e181f84472b" ++
      "d7104fedce071ffa93c5309494ad51623d214447a7b2b1462dc7d5d55a1f6fd5b54ce024118d86f0c6489d16545aaa87" ++
      "b6689dad9f2fb47fda9894f8e12b87d978b483ccd4cc5fd9595cdc7a818452f915ce2f7df95ec12b1c72e3788d473441" ++
      "d884f9748eb14703c21b45d82fd667b85f5b2d98c13303b3fe76285531a826b6fc0fe8e3dddecf")%string);
  dv_out_len := 231; dv_ops := MkOpsLimit 1; dv_mem := MkMemLimit 1631659; dv_ok := true
|}.

Definition argon2id13_test_derive_08 : derive_vector := {|
  dv_password := (hex ("a14975c26c088755a8b715ff2528d647cd343987fcf4aa25e7194a8417fb2b4b3f7268da9f3182b4cfb22d138b2749d6" ++
      "73a47ecc7525dd15a0a3c66046971784bb63d7eae24cc84f2631712075a10e10a96b0e0ee67c43e01c423cb9c44e5371" ++
      "017e9c496956b632158da3fe12addecb88912e6759bc37f9af2f45af72c5cae3b179ffb676a697de6ebe45cd4c16d4a9" ++
      "d642d29ddc0186a0a48cb6cd62bfc3dd229d313b301560971e740e2cf1f99a9a090a5b283f35475057e96d7064e2e0fc" ++
      "81984591068d55a3b4169f22cccb0745a2689407ea1901a0a766eb99")%string);
  dv_salt := (hex "3d968b2752b8838431165059319f3ff8");
  dv_expected := (hex ("4e702bc5f891df884c6ddaa243aa846ce3c087fe930fef0f36b3c2be34164ccc295db509254743f18f947159c813bcd5" ++
      "dd8d94a3aec93bbe57605d1fad1aef1112687c3d4ef1cb329d21f1632f626818d766915d886e8d819e4b0b9c9307f4b6" ++
      "afc081e13b0cf31db382ff1bf05a16aac7af696336d75e99f82163e0f371e1d25c4add808e215697ad3f779a51a462f8" ++
      "bf52610af21fc69dba6b072606f2dabca7d4ae1d91d919")%string);
  dv_out_len := 167; dv_ops := MkOpsLimit 3; dv_mem := MkMemLimit 1784128; dv_ok := true
|}.

Definition argon2id13_test_derive_09 : derive_vector := {|
  dv_password := (hex ("a347ae92bce9f80f6f595a4480fc9c2fe7e7d7148d371e9487d75f5c23008ffae065577a928febd9b1973a5a95073acd" ++
      "beb6a030cfc0d79caa2dc5cd011cef02c08da232d76d52dfbca38ca8dcbd665b17d1665f7cf5fe59772ec909733b24de" ++
      "97d6f58d220b20c60d7c07ec1fd93c52c31020300c6c1facd77937a597c7a6")%string);
  dv_salt := (hex "5541fbc995d5c197ba290346d2c559de");
  dv_expected := (hex ("20e7ba6faa2c0a4b07f3ff38e15e252a069c2c62bac3f2785d311764d73e67fd713be342ee938e6df4de6af1a89a44b8" ++
      "589838864457bcfe3cf0f2d329b800ab9f5810b6325588eb4e0c56f99192b2cc76dc8194dc1097fe5ed12ac4214481c0" ++
      "3c3597131ba164a56e7187e2da565a8cd529668e9a37faa58a1701c49a14edf7a50dec4143b456cba6d14c957bb655e9" ++
      "9ce96bc506961216ef887a")%string);
  dv_out_len := 155; dv_ops := MkOpsLimit 4; dv_mem := MkMemLimit 397645; dv_ok := true
|}.

Definition argon2id13_test_derive_10 : derive_vector := {|
  dv_password := (hex ("a347ae92bce9f80f6f595a4480fc9c2fe7e7d7148d371e9487d75f5c23008ffae065577a928febd9b1973a5a95073acd" ++
      "beb6a030cfc0d79caa2dc5cd011cef02c08da232d76d52dfbca38ca8dcbd665b17d1665f7cf5fe59772ec909733b24de" ++
      "97d6f58d220b20c60d7c07ec1fd93c52c31020300c6c1facd77937a597c7a6")%string);
  dv_salt := (hex "5541fbc995d5c197ba290346d2c559de");
  dv_expected := (hex ("8fb6ed1862cdd2a399e10956c60dc9b2670338ea59c3414d0443216925ba24c6e89a17f3e56c12893dcbc9bc498e8308" ++
      "aea9627d9c9e47912d6342b631008719edfa2db364b97e60cf47a97ad9aa3b7f139d80ddda44f1ef2af881ce027a1564" ++
      "4218cac6cc74751469ae56be0469fbc760825882b3e8abca55daaae5753575106cf867cd69932602c63ec880ad8811d9" ++
      "aa4870a9e0b39fef47c92e")%string);
  dv_out_len := 155; dv_ops := MkOpsLimit 3; dv_mem := MkMemLimit 397645; dv_ok := true
|}.

Definition argon2id13_test_verify_1 : verify_vector := {|
  vv_password := string_bytes "";
  vv_out := string_bytes "$argon2id$v=19$m=4096,t=0,p=1$X1NhbHQAAAAAAAAAAAAAAA$bWh++MKN1OiFHKgIWTLvIi1iHicmHH7+Fv3K88ifFfI";
  vv_ok := false
|}.

Definition argon2id13_test_verify_2 : verify_vector := {|
  vv_password := string_bytes "";
  vv_out := string_bytes "$argon2id$v=19$m=2048,t=4,p=1$SWkxaUhpY21ISDcrRnYzSw$Mbg/Eck1kpZir5T9io7C64cpffdTBaORgyriLQFgQj8";
  vv_ok := false
|}.

Definition argon2id13_test_verify_3 : verify_vector := {|
  vv_password := string_bytes "";
  vv_out := string_bytes "$argon2id$v=19$m=4882,t=2,p=1$bA81arsiXysd3WbTRzmEOw$Nm8QBM+7RH1DXo9rvp5cwKEOOOfD2g6JuxlXihoNcpE";
  vv_ok := true
|}.

Definition argon2id13_test_verify_4 : verify_vector := {|
  vv_password := string_bytes "^T5H$JYt39n%K*j:W]!1s?vg!:jGi]Ax?..l7[p0v:1jHTpla9;]bUN;?bWyCbtqg ";
  vv_out := string_bytes "$argon2id$v=19$m=4096,t=0,p=1$PkEgMTYtYnl0ZXMgc2FsdA$ltB/ue1kPtBMBGfsysMpPigE6hiNEKZ9vs8vLNVDQGA";
  vv_ok := false
|}.

Definition argon2id13_test_verify_5 : verify_vector := {|
  vv_password := string_bytes "^T5H$JYt39n%K*j:W]!1s?vg!:jGi]Ax?..l7[p0v:1jHTpla9;]bUN;?bWyCbtqg ";
  vv_out := string_bytes "$argon2id$v=19$m=4096,t=19,p=1$PkEgMTYtYnl0ZXMgc2FsdA$ltB/ue1kPtBMBGfsysMpPigE6hiNEKZ9vs8vLNVDQGA";
  vv_ok := true
|}.

Definition argon2id13_test_verify_6 : verify_vector := {|
  vv_password := string_bytes "K3S=KyH#)36_?]LxeR8QNKw6X=gFbxai$C%29V*";
  vv_out := string_bytes "$argon2id$v=19$m=4096,t=1,p=3$PkEgcHJldHR5IGxvbmcgc2FsdA$HUqx5Z1b/ZypnUrvvJ5UC2Q+T6Q1WwASK/Kr9dRbGA0";
  vv_ok := true
|}.

Definition argon2id13_derive_vectors : list derive_vector :=
  [argon2id13_test_derive_01; argon2id13_test_derive_02; argon2id13_test_derive_03;
   argon2id13_test_derive_04; argon2id13_test_derive_05; argon2id13_test_derive_06;
   argon2id13_test_derive_07; argon2id13_test_derive_08; argon2id13_test_derive_09;
   argon2id13_test_derive_10].

Definition argon2id13_verify_vectors : list verify_vector :=
  [argon2id13_test_verify_1; argon2id13_test_verify_2; argon2id13_test_verify_3;
   argon2id13_test_verify_4; argon2id13_test_verify_5; argon2id13_test_verify_6].

Section ScryptTests.
Context `{T : Target} `{E : ScryptExterns} `{U : UtilsExterns} `{R : RandombytesExterns}.

Definition scrypt_key_expected : bytes := (hex "f1bbb87c43365b033b9ae83e05efad25db8d83b83db1dee36bdbf54dcd3a1a11").

Definition scrypt_salt : bytes := (hex "000102030405060708090a0b0c0d0e0f101112131415161718191a1b1c1d1e1f").

Definition scrypt_test_derive_key : M unit :=
  let* kb := place (zeros 32) in
  let* salt := place scrypt_salt in
  let* pw := place (string_bytes "Correct Horse Battery Staple") in
  let* r := scrypt.derive_key (Slice (At kb 0) 32) (Slice (At pw 0) 28) (At salt 0)
              scrypt.OPSLIMIT_INTERACTIVE scrypt.MEMLIMIT_INTERACTIVE in
  let* key := unwrap r in
  let* b := slice_bytes key in
  assert_eq b scrypt_key_expected.

Definition scrypt_test_pwhash_verify : M unit :=
  for_range 0 32 (fun i =>
    let* pw := randombytes i in
    let* r := scrypt.pwhash (v_slice pw) scrypt.OPSLIMIT_INTERACTIVE scrypt.MEMLIMIT_INTERACTIVE in
    let* hp := unwrap r in
    let* pwh := place hp in
    let* ok := scrypt.pwhash_verify (At pwh 0) (v_slice pw) in
    assert ok).

End ScryptTests.

(** ** What the tests come to *)

Section Argon2Pass.
Context `{T : Target} (A : argon2_module) {D : PwhashDoc (argon2_functions A)}.

(** The key is the expected one if the computation completes, and the test
    expects it to complete; or the test expects an error and it is one. *)
Definition derive_passes (e : env) (v : derive_vector) : Prop :=
  if pw_completes e (dv_out_len v) (zlen (dv_password v)) (opslimit (dv_ops v)) (memlimit (dv_mem v))
  then dv_ok v = true /\
       pw_key (dv_password v) (dv_salt v) (opslimit (dv_ops v)) (memlimit (dv_mem v)) (dv_out_len v) = dv_expected v
  else dv_ok v = false.

Definition derive_vector_sizes (saltbytes : Z) (v : derive_vector) : Prop :=
  zlen (dv_password v) <= 4096 /\ zlen (dv_expected v) <= 4096 /\ zlen (dv_salt v) = saltbytes /\ 0 <= dv_out_len v <= 4096.

Lemma test_derive_settles w v :
  derive_vector_sizes (pw_saltbytes A) v -> settles_at w (test_derive A v) (derive_passes (w_env w) v).
Proof.
  intros (Hlp & Hle & Hls & Hn). destruct v as [pw salt ex n o m ok]. cbn [dv_password dv_salt dv_expected dv_out_len] in *.
  pose proof isize_max_bounds. apply catch_settles. unfold test_derive, run_derive_key_test, derive_passes.
  cbn [dv_password dv_salt dv_expected dv_out_len dv_ops dv_mem dv_ok].
  apply catch_bind. eapply (local_keeps id); [apply keeps_alloc|apply place_does, holds_empty|]. intros p w1 [_ Hw1] E1.
  apply catch_bind. eapply (local_keeps id); [apply keeps_alloc|by apply place_does|]. intros e w2 [He Hw2] E2. fresh_facts.
  apply catch_assoc, catch_bind. eapply (local_keeps id); [apply keeps_vec_of|by apply vec_of_does|].
  intros ? w3 (b & -> & Hb & Hw3) E3. fresh_facts.
  apply catch_assoc, catch_bind. eapply (local_keeps id); [apply keeps_alloc|by apply place_does|].
  intros s w4 [Hs Hw4] E4. fresh_facts. apply catch_assoc, catch_bind. sl.
  assert (Hz : zlen (zeros n) = n) by (apply zlen_zeros; lia). rewrite Hz in *.
  assert (Env : w_env w4 = w_env w) by (unfold id in *; congruence).
  assert (Hse : forall w' m', holds w' m' -> m' !! e = Some ex -> is_slice w' (Slice (At e 0) (zlen ex)) ex).
  { intros w' m' Hw' He'. eapply holds_slice; [exact Hw'|exact He'|done|lia]. }
  assert (Hrun := derive_key_run w4 (Slice (At b 0) n) (Slice (At p 0) (zlen pw)) (At s 0) o m (zeros n) pw salt).
  rewrite Env, Hz in Hrun. set (c := pw_completes _ _ _ _ _) in *. set (k := pw_key _ _ _ _ _) in *.
  assert (Hk : zlen k = n) by (apply pw_key_zlen; lia).
  destruct c.
  - eapply local_run; [apply Hrun; [eapply holds_slice; [exact Hw4|local_tac|done|lia]|eapply holds_slice; [exact Hw4|local_tac|done|lia]|]|].
    { rewrite <- Hls. eapply holds_ref; [exact Hw4|local_tac]. }
    cbn [s_ptr]. set (w5 := w_write _ _ _). assert (Hw5 : holds w5 (<[b:=k]> (<[s:=salt]> (<[b:=zeros n]> (<[e:=ex]> (<[p:=pw]> ∅)))))).
    { eapply holds_store; [exact Hw4|local_tac|by rewrite Hz]. }
    apply catch_assoc, catch_bind. eapply local_run; [apply slice_bytes_run; eapply Hse; [exact Hw5|local_tac]|].
    apply catch_assoc, catch_bind. eapply local_run; [apply slice_bytes_run; eapply holds_slice; [exact Hw5|local_tac|done|lia]|].
    apply catch_assoc, catch_assert_bind.
    + intros Heq%bool_decide_eq_true. apply catch_bind, local_ret. apply catch_assert. intros _. cbn [is_ok].
      rewrite bool_decide_eq_true. subst ex. by destruct ok; split; intros; try done; destruct_and?.
    + intros Hne%bool_decide_eq_false w'. split; [done|]. by intros [_ Heq].
  - eapply local_run; [apply Hrun; [eapply holds_slice; [exact Hw4|local_tac|done|lia]|eapply holds_slice; [exact Hw4|local_tac|done|lia]|]|].
    { rewrite <- Hls. eapply holds_ref; [exact Hw4|local_tac]. }
    apply catch_bind, local_ret. apply catch_assert. intros _. cbn [is_ok]. rewrite bool_decide_eq_true. by destruct ok.
Qed.

(** The bytes of the hash are copied to the start of the array. *)
Lemma to_hashed_password_does w m p s :
  holds w m -> m !! p = Some s -> zlen s <= 128 ->
  does w (to_hashed_password (Slice (At p 0) (zlen s))) (fun bs w' => bs = s ++ zeros (128 - zlen s) /\ holds w' m).
Proof.
  intros Hw Hp Hl. unfold to_hashed_password. pose proof (zlen_nonneg s). cbn [s_ptr s_len].
  eapply local_place; [exact Hw|]. intros b w1 Hb Hw1. assert (Hne : p <> b) by (intros ->; congruence).
  eapply does_bind; [apply (does_copy _ w1 (<[b := zeros 128]> m) p s b 128); [exact Hw1|local_tac|local_tac|done|done|]|].
  { intros i w' Hi. cbn [ptr_add]. by rewrite Nat.add_0_l, (proj2 (Z.ltb_lt _ _)) by lia. }
  intros [] w2 Hw2. rewrite insert_insert_eq in Hw2.
  assert (Hm : w_mem w2 !! b = Some (Some <$> s ++ zeros (128 - zlen s))) by (apply Hw2, lookup_insert_eq).
  eapply does_eq; [unfold move_out; rewrite Hm, all_init_fmap; reflexivity|]. split; [done|].
  intros c bs Hc. cbn. rewrite lookup_delete_ne by congruence. apply Hw2. rewrite lookup_insert_ne by congruence. done.
Qed.

Lemma to_hashed_password_keeps {X} (obs : env -> X) s : keeps obs (to_hashed_password s).
Proof.
  apply keeps_bind; [apply keeps_alloc|]. intros b. apply keeps_bind; [apply keeps_for; intros i|intros _; apply keeps_move_out].
  apply keeps_bind; [apply keeps_read|]. intros x. destruct (i <? 128); [apply keeps_write|apply keeps_panic].
Qed.

Definition verify_passes (e : env) (v : verify_vector) : Prop :=
  pw_check e (vv_out v ++ zeros (128 - zlen (vv_out v))) (vv_password v) = vv_ok v.

Definition verify_vector_sizes (v : verify_vector) : Prop := zlen (vv_out v) < 128 /\ zlen (vv_password v) <= 4096.

Lemma test_verify_settles w v :
  pw_hashedpasswordbytes A = 128 -> verify_vector_sizes v -> settles_at w (test_verify A v) (verify_passes (w_env w) v).
Proof.
  intros Hb128 [Ho Hp]. destruct v as [pw out ok]. cbn [vv_password vv_out] in *. pose proof isize_max_bounds.
  apply catch_settles. unfold test_verify, verify_passes. cbn [vv_password vv_out vv_ok].
  apply catch_bind. eapply (local_keeps id); [apply keeps_alloc|apply place_does, holds_empty|]. intros p w1 [_ Hw1] E1.
  apply catch_bind. eapply (local_keeps id); [apply keeps_alloc|by apply place_does|]. intros s w2 [Hs Hw2] E2. fresh_facts.
  unfold local. apply catch_assoc, catch_bind.
  eapply (local_keeps id); [apply to_hashed_password_keeps|eapply to_hashed_password_does; [exact Hw2|local_tac|lia]|].
  cbn beta. intros ? w3 [-> Hw3] E3. set (hb := out ++ _). assert (Hh : zlen hb = 128) by (unfold hb; rewrite zlen_app, zlen_zeros; lia).
  apply catch_assoc, catch_bind. eapply (local_keeps id); [apply keeps_alloc|by apply place_does|].
  intros hp w4 [Hhp Hw4] E4. fresh_facts. apply catch_bind, local_ret, catch_bind.
  assert (Env : w_env w4 = w_env w) by (unfold id in *; congruence).
  assert (Ht : terminated hb = true).
  { unfold terminated, hb. rewrite existsb_app, (zeros_S (128 - zlen out)) by lia. cbn [existsb]. by rewrite orb_true_r. }
  eapply local_run.
  { rewrite (pwhash_verify_run w4 _ _ hb pw); [rewrite Ht, Env; reflexivity| |eapply holds_slice; [exact Hw4|local_tac|done|lia]].
    rewrite Hb128, <- Hh. eapply holds_ref; [exact Hw4|local_tac]. }
  apply catch_assert. intros _. by rewrite bool_decide_eq_true.
Qed.

(** *** Hashing *)

Context `{U : UtilsExterns} {UD : UtilsDoc U}.

Definition battery_staple : bytes := string_bytes "Correct Horse Battery Staple".
Definition hashes (e : env) (ops : Z) : bool := pw_completes e (pw_hashedpasswordbytes A) 28 ops 5000000.
Definition hash_of (w : world) (ops : Z) : bytes := pw_str battery_staple (entropy (pw_saltbytes A) w) ops 5000000.

(** The hash, or an error *)
Lemma local_pwhash Q w m p ops (f : result bytes -> M bool) :
  holds w m -> m !! p = Some battery_staple ->
  (hashes (w_env w) ops = true -> forall w', holds w' m -> w_env w' = w_env (w_consume (pw_saltbytes A) w) ->
     does w' (f (Ok (hash_of w ops))) Q) ->
  (hashes (w_env w) ops = false -> forall w', holds w' m -> does w' (f Err) Q) ->
  does w (bind (argon2.pwhash A (Slice (At p 0) 28) (MkOpsLimit ops) (MkMemLimit 5000000)) f) Q.
Proof.
  intros Hw Hp Hok Herr. pose proof isize_max_bounds.
  assert (Hs : is_slice w (Slice (At p 0) 28) battery_staple) by (eapply holds_slice; [exact Hw|exact Hp|done|lia]).
  pose proof (pwhash_run w _ (MkOpsLimit ops) (MkMemLimit 5000000) battery_staple Hs) as Hrun.
  change (zlen battery_staple) with 28 in Hrun. cbn [opslimit memlimit] in Hrun. fold (hashes (w_env w) ops) in Hrun.
  destruct (hashes (w_env w) ops).
  - eapply local_run; [exact Hrun|]. apply Hok; [done| |done]. by eapply holds_same.
  - destruct Hrun as [left Hrun]. eapply local_run; [exact Hrun|]. apply Herr; [done|]. by eapply holds_same.
Qed.

Lemma test_hash_2_settles w ok : settles_at w (test_hash_2 A ok) (hashes (w_env w) 1 = ok).
Proof.
  apply catch_settles, catch_bind. eapply (local_keeps id); [apply keeps_alloc|apply place_does, holds_empty|].
  intros p w1 [_ Hw1] E1. unfold id in E1. apply catch_bind.
  eapply local_pwhash; [exact Hw1|local_tac|..]; rewrite E1; intros H1 w2; intros; rewrite H1.
  - apply catch_assert. intros _. by rewrite bool_decide_eq_true.
  - apply catch_assert. intros _. by rewrite bool_decide_eq_true.
Qed.

Lemma catch_is_ok_unwrap (Q : bool -> world -> Prop) w (r : result bytes) m f :
  holds w m ->
  (forall bs, r = Ok bs -> forall b w', m !! b = None -> holds w' (<[b := bs]> m) -> w_env w' = w_env w ->
     does w' (catch (f (At b 0))) Q) ->
  (r = Err -> forall w', Q false w') ->
  does w (catch (let* _ := assert (is_ok r) in let* p := local (unwrap r) in f p)) Q.
Proof.
  intros Hw Hok Herr. apply catch_assert_bind; destruct r as [bs|]; cbn [is_ok]; try done; [|by intros; apply Herr].
  intros _. apply catch_bind. unfold local. apply local_assoc, local_ret, local_assoc.
  eapply (local_keeps id); [apply keeps_alloc|by apply place_does|]. intros b w1 [Hb Hw1] E1. by apply local_ret, (Hok bs).
Qed.

Lemma hash_of_zlen w ops : zlen (hash_of w ops) = pw_hashedpasswordbytes A.
Proof. apply (pw_str_zlen (F := argon2_functions A)). Qed.
Lemma hashed_fits : pw_hashedpasswordbytes A <= 4096.
Proof. apply (pw_sizes (F := argon2_functions A)). Qed.
Lemma hash_of_env w w' ops : w_env w' = w_env w -> hash_of w' ops = hash_of w ops.
Proof. intros He. unfold hash_of. by rewrite (entropy_env _ w w' He). Qed.

(** The second world of the test: the first salt was taken from the generator. *)
Definition after_salt (w : world) : world := w_consume (pw_saltbytes A) w.

Lemma test_hash_1_settles w :
  settles_at w (test_hash_1 A)
    (hashes (w_env w) 3 = true /\ hashes (w_env (after_salt w)) 3 = true /\ hash_of w 3 <> hash_of (after_salt w) 3).
Proof.
  apply catch_settles, catch_bind. eapply (local_keeps id); [apply keeps_alloc|apply place_does, holds_empty|].
  intros p w1 [_ Hw1] E1. unfold id in E1. apply catch_bind.
  eapply local_pwhash; [exact Hw1|local_tac|..]; rewrite E1; intros H1 w2 Hw2; rewrite H1.
  2:{ eapply catch_is_ok_unwrap; [exact Hw2|done|]. intros _ w'. by split; [|intros []]. }
  intros E2. eapply catch_is_ok_unwrap; [exact Hw2| |done]. intros ? [= <-] h1 w3 Hh1 Hw3 E3. fresh_facts.
  assert (Env : w_env w3 = w_env (after_salt w)) by (rewrite E3, E2; unfold after_salt; cbn; by rewrite E1).
  apply catch_bind. eapply local_pwhash; [exact Hw3|local_tac|..]; rewrite Env; intros H2 w4 Hw4; rewrite H2.
  2:{ eapply catch_is_ok_unwrap; [exact Hw4|done|]. intros _ w'. by split; [|intros (_ & [] & _)]. }
  intros _. eapply catch_is_ok_unwrap; [exact Hw4| |done]. intros ? [= <-] h2 w5 Hh2 Hw5 _. fresh_facts.
  unfold assert_differ. apply catch_bind. pose proof hashed_fits.
  eapply (local_eq _ (UD := UD)); [exact Hw5|local_tac|local_tac|apply hash_of_zlen|apply hash_of_zlen|done|].
  apply catch_assert. intros _. rewrite (hash_of_env w3 (after_salt w)), (hash_of_env w1 w) by done.
  rewrite negb_true_iff, bool_decide_eq_false. tauto.
Qed.

Lemma test_hash_3_settles w :
  settles_at w (test_hash_3 A) (hashes (w_env w) 3 = true /\ hashes (w_env (after_salt w)) 3 = true).
Proof.
  apply catch_settles, catch_bind. eapply (local_keeps id); [apply keeps_alloc|apply place_does, holds_empty|].
  intros p w1 [_ Hw1] E1. unfold id in E1. pose proof isize_max_bounds. apply catch_bind.
  eapply local_pwhash; [exact Hw1|local_tac|..]; rewrite E1; intros H1 w2 Hw2; rewrite H1.
  2:{ eapply catch_is_ok_unwrap; [exact Hw2|done|]. intros _ w'. by split; [|intros []]. }
  intros E2. eapply catch_is_ok_unwrap; [exact Hw2| |done]. intros ? [= <-] h1 w3 Hh1 Hw3 E3. fresh_facts.
  assert (Env : w_env w3 = w_env (after_salt w)) by (rewrite E3, E2; unfold after_salt; cbn; by rewrite E1).
  apply catch_bind. eapply local_run.
  { rewrite (pwhash_verify_run w3 (At h1 0) (Slice (At p 0) 28) (hash_of w1 3) battery_staple).
    - unfold hash_of. rewrite (pw_str_terminated (F := argon2_functions A)), (pw_check_own (F := argon2_functions A)), Env. reflexivity.
    - rewrite <- (hash_of_zlen w1 3). eapply holds_ref; [exact Hw3|local_tac].
    - eapply holds_slice; [exact Hw3|local_tac|done|lia]. }
  apply catch_assert. intros _. unfold hashes. cbn [pf_strbytes argon2_functions]. change (zlen battery_staple) with 28. tauto.
Qed.

End Argon2Pass.

(** *** scrypt

    The functions of the scrypt module do what those of [argon2_module!] would
    do with the functions of scrypt for arguments. *)
Definition scrypt_module `{E : ScryptExterns} : argon2_module :=
  Argon2Module (fun out n p l salt o m _ => crypto_pwhash_scryptsalsa208sha256 out n p l salt o m)
    crypto_pwhash_scryptsalsa208sha256_str crypto_pwhash_scryptsalsa208sha256_str_verify
    crypto_pwhash_scryptsalsa208sha256_SALTBYTES crypto_pwhash_scryptsalsa208sha256_STRBYTES
    crypto_pwhash_scryptsalsa208sha256_STRPREFIX 0 0 0 0 0 0 0.

Section ScryptPass.
Context `{T : Target} `{E : ScryptExterns} {D : PwhashDoc scrypt_functions}.
Context `{U : UtilsExterns} `{R : RandombytesExterns} {RD : RandombytesDoc R}.

#[local] Instance scrypt_module_doc : PwhashDoc (argon2_functions scrypt_module) := D.

Lemma scrypt_derive_key_eq key p s o m w :
  scrypt.derive_key key p s o m w = argon2.derive_key scrypt_module key p s o m w.
Proof.
  unfold scrypt.derive_key, argon2.derive_key, bind. cbn [pwhash_name scrypt_module].
  destruct (crypto_pwhash_scryptsalsa208sha256 _ _ _ _ _ _ _ w) as [[]| | |]; reflexivity.
Qed.

Lemma scrypt_pwhash_eq p o m w : scrypt.pwhash p o m w = argon2.pwhash scrypt_module p o m w.
Proof.
  unfold scrypt.pwhash, argon2.pwhash, bind. cbn [pwhash_str_name scrypt_module].
  change (argon2.HASHEDPASSWORDBYTES scrypt_module) with scrypt.HASHEDPASSWORDBYTES.
  destruct (stack_array _ w) as [b w1| | |]; [|reflexivity..].
  destruct (crypto_pwhash_scryptsalsa208sha256_str _ _ _ _ _ w1) as [[]| | |]; reflexivity.
Qed.

Lemma scrypt_pwhash_verify_eq h p w : scrypt.pwhash_verify h p w = argon2.pwhash_verify scrypt_module h p w.
Proof. reflexivity. Qed.

Lemma scrypt_test_derive_key_settles w :
  settles_at w scrypt_test_derive_key
    (pw_completes (w_env w) 32 28 524288 16777216 = true /\
     pw_key battery_staple scrypt_salt 524288 16777216 32 = scrypt_key_expected).
Proof.
  pose proof isize_max_bounds. apply catch_settles, catch_bind.
  eapply (local_keeps id); [apply keeps_alloc|apply place_does, holds_empty|]. intros b w1 [_ Hw1] E1.
  apply catch_bind. eapply (local_keeps id); [apply keeps_alloc|by apply place_does|]. intros s w2 [Hs Hw2] E2. fresh_facts.
  apply catch_bind. eapply (local_keeps id); [apply keeps_alloc|by apply place_does|]. intros p w3 [Hp Hw3] E3. fresh_facts.
  assert (Env : w_env w3 = w_env w) by (unfold id in *; congruence).
  assert (Hrun := derive_key_run w3 (Slice (At b 0) 32) (Slice (At p 0) 28) (At s 0)
    scrypt.OPSLIMIT_INTERACTIVE scrypt.MEMLIMIT_INTERACTIVE (zeros 32) battery_staple scrypt_salt).
  rewrite Env in Hrun. change (zlen (zeros 32)) with 32 in Hrun. change (zlen battery_staple) with 28 in Hrun.
  cbn [opslimit memlimit scrypt.OPSLIMIT_INTERACTIVE scrypt.MEMLIMIT_INTERACTIVE] in Hrun.
  change crypto_pwhash_scryptsalsa208sha256_OPSLIMIT_INTERACTIVE with 524288 in Hrun.
  change crypto_pwhash_scryptsalsa208sha256_MEMLIMIT_INTERACTIVE with 16777216 in Hrun.
  set (k := pw_key _ _ _ _ _) in *. assert (Hk : zlen k = 32) by (apply pw_key_zlen; lia).
  assert (Hrun' := fun H1 H2 H3 => eq_trans (scrypt_derive_key_eq _ _ _ _ _ _) (Hrun H1 H2 H3)). clear Hrun.
  apply catch_bind.
  destruct (pw_completes _ _ _ _ _); (eapply local_run; [apply Hrun';
    [eapply holds_slice; [exact Hw3|local_tac|done|lia]|eapply holds_slice; [exact Hw3|local_tac|done|lia]
    |eapply (holds_ref _ _ _ scrypt_salt); [exact Hw3|local_tac]]|]).
  - cbn [s_ptr]. set (w4 := w_write _ _ _). assert (Hw4 : holds w4 (<[b:=k]> (<[p:=battery_staple]> (<[s:=scrypt_salt]> (<[b:=zeros 32]> ∅))))).
    { eapply holds_store; [exact Hw3|local_tac|exact Hk]. }
    apply catch_bind, local_ret, catch_bind. eapply local_run; [apply slice_bytes_run; eapply holds_slice; [exact Hw4|local_tac|done|lia]|].
    apply catch_assert. intros _. rewrite bool_decide_eq_true. tauto.
  - exists false, dead. split; [reflexivity|]. split; [done|]. by intros [].
Qed.

Lemma scrypt_test_pwhash_verify_passes :
  (forall e n, 0 <= n < 32 -> pw_completes e 102 n 524288 16777216 = true) -> passes scrypt_test_pwhash_verify.
Proof.
  intros Hc. apply (verify_loop_passes (RD := RD) scrypt_module
    (fun s => scrypt.pwhash s scrypt.OPSLIMIT_INTERACTIVE scrypt.MEMLIMIT_INTERACTIVE) scrypt.pwhash_verify
    scrypt.OPSLIMIT_INTERACTIVE scrypt.MEMLIMIT_INTERACTIVE).
  - intros s w. apply scrypt_pwhash_eq.
  - intros h p w. apply scrypt_pwhash_verify_eq.
  - exact Hc.
Qed.

End ScryptPass.

(** ** The theorems *)

Lemma derive_vectors_sizes :
  Forall (derive_vector_sizes 16) (argon2i13_derive_vectors ++ argon2id13_derive_vectors).
Proof. repeat constructor; by vm_compute. Qed.

Lemma verify_vectors_sizes :
  Forall verify_vector_sizes (argon2i13_verify_vectors ++ argon2id13_verify_vectors).
Proof. repeat constructor; by vm_compute. Qed.

(** The verdicts of the tests of a module of [argon2_module!]: [ok1] is what its
    [test_hash_2] expects of one pass. *)
Definition suite_settles `{T : Target} (A : argon2_module) {D : PwhashDoc (argon2_functions A)} `{U : UtilsExterns}
    (derives : list derive_vector) (verifies : list verify_vector)
    (hash_1 hash_2 hash_3 : M unit) (ok1 : bool) : Prop :=
  (forall v, v ∈ derives -> forall w, settles_at w (test_derive A v) (derive_passes A (w_env w) v)) /\
  (forall v, v ∈ verifies -> forall w, settles_at w (test_verify A v) (verify_passes A (w_env w) v)) /\
  forall w,
    let hashed1 := hashes A (w_env w) 3 = true in
    let hashed2 := hashes A (w_env (after_salt A w)) 3 = true in
    settles_at w hash_1 (hashed1 /\ hashed2 /\ hash_of A w 3 <> hash_of A (after_salt A w) 3) /\
    settles_at w hash_2 (hashes A (w_env w) 1 = ok1) /\
    settles_at w hash_3 (hashed1 /\ hashed2).

Lemma suite_settles_of `{T : Target} (A : argon2_module) {D : PwhashDoc (argon2_functions A)}
    `{U : UtilsExterns} {UD : UtilsDoc U} derives verifies ok1 :
  pw_saltbytes A = 16 -> pw_hashedpasswordbytes A = 128 ->
  Forall (derive_vector_sizes 16) derives -> Forall verify_vector_sizes verifies ->
  suite_settles A derives verifies (test_hash_1 A) (test_hash_2 A ok1) (test_hash_3 A) ok1.
Proof.
  intros Es Eh Hd Hv. rewrite <- Es in Hd. rewrite Forall_forall in Hd. rewrite Forall_forall in Hv. split_and!.
  - intros v Hin w. by apply test_derive_settles, Hd.
  - intros v Hin w. by apply test_verify_settles, Hv.
  - intros w h1 h2. split_and!.
    + exact (test_hash_1_settles A (UD := UD) w).
    + apply test_hash_2_settles.
    + apply test_hash_3_settles.
Qed.

(** C24. Each test of argon2i13.rs and argon2id13.rs with published values passes
    exactly when the functions of libsodium give those values, and panics with
    all others: a key is the expected one, a hash is accepted or refused as
    expected, two hashes of a password differ, one pass is refused by Argon2i
    and accepted by Argon2id.  No test corrupts memory or aborts. *)
Theorem argon2_tests_settle `{T : Target} `{U : UtilsExterns} {UD : UtilsDoc U}
    `{EI : Argon2iExterns} {DI : PwhashDoc (argon2_functions argon2i13)}
    `{EID : Argon2idExterns} {DID : PwhashDoc (argon2_functions argon2id13)} :
  suite_settles argon2i13 argon2i13_derive_vectors argon2i13_verify_vectors
    argon2i13_test_hash_1 argon2i13_test_hash_2 argon2i13_test_hash_3 false /\
  suite_settles argon2id13 argon2id13_derive_vectors argon2id13_verify_vectors
    argon2id13_test_hash_1 argon2id13_test_hash_2 argon2id13_test_hash_3 true.
Proof.
  pose proof derive_vectors_sizes as Hd. rewrite Forall_app in Hd. pose proof verify_vectors_sizes as Hv. rewrite Forall_app in Hv.
  split; (apply (suite_settles_of _ (UD := UD)); [reflexivity|reflexivity|apply Hd|apply Hv]).
Qed.

(** The two tests of scryptsalsa208sha256.rs that do not tamper with the password *)
Theorem scrypt_tests_settle `{T : Target} `{E : ScryptExterns} {D : PwhashDoc scrypt_functions}
    `{U : UtilsExterns} `{R : RandombytesExterns} {RD : RandombytesDoc R} :
  (forall w, settles_at w scrypt_test_derive_key
     (pw_completes (w_env w) 32 28 524288 16777216 = true /\
      pw_key battery_staple scrypt_salt 524288 16777216 32 = scrypt_key_expected)) /\
  ((forall e n, 0 <= n < 32 -> pw_completes e 102 n 524288 16777216 = true) -> passes scrypt_test_pwhash_verify).
Proof.
  split; [intros w; apply scrypt_test_derive_key_settles|].
  exact (scrypt_test_pwhash_verify_passes (RD := RD)).
Qed.

(** *** Reference functions *)

Module RefArgon.

(** As [RefPwhash], with the prefix of Argon2i *)
Definition str (p : bytes) : bytes :=
  removelast crypto_pwhash_argon2i_STRPREFIX ++ x76 :: le_bytes 40 (le_val p) ++ zeros 78.

Definition externs : Argon2iExterns := {|
  crypto_pwhash_argon2i := @crypto_pwhash_argon2id RefPwhash.externs;
  crypto_pwhash_argon2i_str out p plen o m :=
    let* pb := read p plen in
    if RefPwhash.completes plen then
      let* sb := rand 16 in
      let* _ := write out (str pb) in ret 0
    else let* old := read out 128 in let* _ := write out old in ret (-1);
  crypto_pwhash_argon2i_str_verify s p plen :=
    let* sb := read s 128 in
    if terminated sb then
      let* pb := read p plen in
      ret (if bool_decide (sb = str pb) && RefPwhash.completes (zlen pb) then 0 else -1)
    else undefined OutOfBounds
|}.

Definition A : argon2_module := @argon2i13 externs.

#[refine] Definition doc : PwhashDoc (argon2_functions A) := {|
  pw_completes _ _ plen _ _ := RefPwhash.completes plen;
  pw_key := RefPwhash.key;
  pw_str p _ _ _ := str p;
  pw_check _ s p := bool_decide (s = str p) && RefPwhash.completes (zlen p);
  pw_reject b := b
|}.
Proof.
  - cbn. unfold crypto_pwhash_argon2i_SALTBYTES, crypto_pwhash_argon2i_STRBYTES. lia.
  - intros. unfold RefPwhash.key. rewrite zlen_le_bytes. lia.
  - intros p _ _ _. unfold str. rewrite zlen_app, zlen_cons, zlen_app, zlen_le_bytes. reflexivity.
  - done.
  - intros p _ _ _. apply existsb_exists. exists x00. split; [|done].
    unfold str. rewrite !in_app_iff. right. right. apply in_app_iff. right. by left.
  - intros p _ _ _. by eexists _, _.
  - intros _ p _ _ _. by rewrite bool_decide_eq_true_2.
  - reflexivity.
  - reflexivity.
  - reflexivity.
Defined.

End RefArgon.

(** With the reference functions, which are not Argon2, the test that refuses a
    hash passes and the test of a key panics. *)
Lemma argon2_tests_settle_witness :
  let U := Ref.utils in
  does (Ref.world []) (test_verify RefPwhash.A argon2id13_test_verify_1) (fun _ _ => True) /\
  test_derive RefArgon.A argon2i13_test_derive_01 (Ref.world []) = Panicked.
Proof.
  intros U. destruct (@argon2_tests_settle target64 Ref.utils Ref.utils_doc RefArgon.externs RefArgon.doc
    RefPwhash.externs RefPwhash.doc) as [(Hd & _) (_ & Hv & _)].
  split.
  - apply (Hv argon2id13_test_verify_1); [by left|]. by vm_compute.
  - apply (Hd argon2i13_test_derive_01); [by left|]. intros [_ Hk]. by vm_compute in Hk.
Defined.
