(* ===== verification/SerdeTests.v ===== *)
(** * src/test_utils.rs and the serialisation tests

    [round_trip] encodes a value as JSON and as MessagePack and decodes it
    again.  serde_json and rmp_serde are not part of the repository: a class
    holds what the tests call of them, another what they document: JSON has no
    byte strings, so the bytes come back as a sequence of numbers, through
    [visit_seq()]; MessagePack has them, and hands over a slice, to
    [visit_bytes()].  Both ways back are those of the values of the crate. *)

From S2P Require Export Secretbox Box KeyTests MacroTests PwhashTests.

(** ** The formats *)

(** [json_to_string] is [serde_json::to_string()] of a value that calls
    [serialize_bytes()] with a slice, [json_from_str] is [serde_json::from_str()]
    for a type that calls [deserialize_bytes()] with a visitor; [json_seq] is
    the sequence of a JSON array.  The same for MessagePack, where the value is
    written to the end of a vector, and the deserializer is an object that lives
    until the end of the test. *)
Class SerdeExterns := {
  serde_error : Type;
  json_to_string : slice -> M (serde_error + vec);
  json_seq : Type;
  json_next : json_seq -> (serde_error + option byte) * json_seq;
  json_from_str : slice -> (json_seq -> M (serde_error + bytes)) -> (slice -> M (serde_error + bytes)) ->
    M (serde_error + bytes);
  rmp_serialize_bytes : vec -> slice -> M (serde_error + vec);
  rmp_deserializer : Type;
  rmp_deserializer_new : slice -> M rmp_deserializer;
  rmp_deserialize_bytes : rmp_deserializer -> (json_seq -> M (serde_error + bytes)) ->
    (slice -> M (serde_error + bytes)) -> M ((serde_error + bytes) * rmp_deserializer);
  rmp_deserializer_drop : rmp_deserializer -> M unit;
  invalid_length : Z -> serde_error
}.

(** [result.unwrap()] *)
Definition unwrap_sum {Er A} (r : Er + A) : M A := match r with inr a => ret a | inl _ => panic end.

Section RoundTrip.
Context `{T : Target} `{U : UtilsExterns} `{E : SerdeExterns}.

(** [Deserialize::deserialize(&mut de)] for the types of [new_type!] *)
Definition deserialize_from (n : newtype) (de : rmp_deserializer) : M ((serde_error + bytes) * rmp_deserializer) :=
  rmp_deserialize_bytes de (NewType.visit_seq n json_next) (NewType.visit_bytes n invalid_length).

(** The locals end in the opposite order of their declaration. *)
Definition round_trip (n : newtype) (value : bytes) : M unit :=
  let* value := place value in
  let* r := NewType.serialize n json_to_string (At value 0) in
  let* encoded_value := unwrap_sum r in
  let* r := NewType.deserialize n json_next invalid_length (json_from_str (v_slice encoded_value)) in
  let* decoded := unwrap_sum r in
  let* decoded_value := place decoded in
  let* _ := assert_equal n (At value 0) (At decoded_value 0) in
  let* buf := vec_new in
  let* r := NewType.serialize n (rmp_serialize_bytes buf) (At value 0) in
  let* buf := unwrap_sum r in
  let* de := rmp_deserializer_new (v_slice buf) in
  let* '(r, de) := deserialize_from n de in
  let* decoded := unwrap_sum r in
  let* decoded_value2 := place decoded in
  let* _ := assert_equal n (At value 0) (At decoded_value2 0) in
  let* _ := NewType.drop n decoded_value2 in
  let* _ := rmp_deserializer_drop de in
  let* _ := vec_drop buf in
  let* _ := NewType.drop n decoded_value in
  let* _ := vec_drop encoded_value in
  NewType.drop n value.

End RoundTrip.

(** *** What the formats document *)

(** The sequence gives these elements. *)
Inductive yields `{E : SerdeExterns} : json_seq -> bytes -> Prop :=
  | yields_end sq : yields sq []
  | yields_next sq x sq' l : json_next sq = (inr (Some x), sq') -> yields sq' l -> yields sq (x :: l).

(** A new vector with these contents, and nothing else in memory changes *)
Definition new_vec `{T : Target} (w : world) (v : vec) (bs : bytes) (w' : world) : Prop :=
  w_mem w !! v_block v = None /\ (exists c, w_mem w' = <[v_block v := c]> (w_mem w)) /\ is_vec w' v bs.

(** What is written can be read.  The reader of an array checks that its
    visitor came to the end of it; the visitors of the crate do for the arrays
    of their length.  The reader of a byte string may copy it to memory of its
    own, [m], which is released with the deserializer. *)
Class SerdeDoc `{T : Target} (E : SerdeExterns) := {
  json : bytes -> bytes;
  rmp : bytes -> bytes;
  json_to_string_doc w s bs :
    is_slice w s bs -> zlen bs <= 4096 ->
    exists v w', json_to_string s w = Done (inr v) w' /\ new_vec w v (json bs) w';
  json_from_str_doc w t bs n `{U : UtilsExterns} :
    is_slice w t (json bs) -> zlen bs = nt_bytes n -> zlen bs <= 4096 ->
    exists sq, yields sq bs /\
      json_from_str t (NewType.visit_seq n json_next) (NewType.visit_bytes n invalid_length) w =
      NewType.visit_seq n json_next sq w;
  rmp_serialize_doc w b s bs :
    w_mem w !! b = Some [] -> is_slice w s bs -> zlen bs <= 4096 ->
    exists v w', rmp_serialize_bytes (Vec b 0 0) s w = Done (inr v) w' /\ new_vec (w_del b w) v (rmp bs) w';
  rmp_deserialize_doc w t bs :
    is_slice w t (rmp bs) -> zlen bs <= 4096 ->
    exists d w1 s d' w2 m, rmp_deserializer_new t w = Done d w1 /\
      (forall seq by_, rmp_deserialize_bytes d seq by_ w1 = (let* r := by_ s in ret (r, d')) w2) /\
      is_slice w2 s bs /\ m ##ₘ w_mem w /\ w_mem w2 = m ∪ w_mem w /\
      (forall w3 K, m ##ₘ K -> w_mem w3 = m ∪ K ->
         exists w4, rmp_deserializer_drop d' w3 = Done tt w4 /\ w_mem w4 = K)
}.

(** ** Round trips *)

Section RoundTrips.
Context `{T : Target} `{U : UtilsExterns} {UD : UtilsDoc U} {E : SerdeExterns} {SD : SerdeDoc E}.

Lemma visit_loop_yields n b : forall l sq pre w,
  w_mem w !! b = None -> yields sq l ->
  NewType.visit_loop n json_next b (length pre) (length l) sq (w_put b (Some <$> pre ++ replicate (length l) x00) w) =
  Done (inr (pre ++ l)) w.
Proof.
  induction l as [|x l IH]; intros sq pre w Hb Hy; cbn [length NewType.visit_loop replicate].
  - eapply bind_step; [by apply move_out_put_run|done].
  - inversion Hy as [|? ? sq' ? Hn Hy']; subst. rewrite Hn. eapply bind_step; [apply NewType.write_item|].
    replace (S (length pre)) with (length (pre ++ [x])) by (rewrite length_app; cbn; lia).
    rewrite (IH sq' (pre ++ [x])) by done. by rewrite <- app_assoc.
Qed.

Lemma visit_seq_yields n sq bs w :
  zlen bs = nt_bytes n -> yields sq bs -> NewType.visit_seq n json_next sq w = Done (inr bs) w.
Proof.
  intros Hl Hy. unfold NewType.visit_seq. rewrite <- Hl, to_nat_zlen. step.
  unfold zeros. rewrite to_nat_zlen. by apply (visit_loop_yields n _ bs sq []).
Qed.

(** The memory is [K]; the values end in the opposite order of their
    creation. *)
#[local] Abbreviation exactly K w := (w_mem w = K).

Lemma exactly_place {B} (Q : B -> world -> Prop) K w bs f :
  exactly K w ->
  (forall b w', K !! b = None -> exactly (<[b := Some <$> bs]> K) w' -> does w' (f b) Q) ->
  does w (bind (place bs) f) Q.
Proof.
  intros <- Hf. eapply local_run; [apply alloc_run|]. apply Hf; [apply fresh_block_spec|done].
Qed.

Lemma lookup_insert_fresh {X} (K : gmap positive X) a b x y : K !! a = Some x -> K !! b = None -> <[b := y]> K !! a = Some x.
Proof. intros Ha Hb. rewrite lookup_insert_ne; [done|]. by intros ->; rewrite Ha in Hb. Qed.

Lemma exactly_ref K w b bs n : exactly K w -> K !! b = Some (Some <$> bs) -> zlen bs = n -> is_ref w (At b 0) n bs.
Proof. intros <- Hb <-. by apply is_ref_block. Qed.

Lemma exactly_drop {B} (Q : B -> world -> Prop) n K w b bs (f : unit -> M B) :
  0 <= nt_bytes n <= isize_max -> zlen bs = nt_bytes n -> exactly (<[b := Some <$> bs]> K) w -> K !! b = None ->
  (forall w', exactly K w' -> does w' (f tt) Q) -> does w (bind (NewType.drop n b) f) Q.
Proof.
  intros Hn Hl Hk Hb Hf.
  assert (Eb : w_mem w !! b = Some (Some <$> bs)) by (rewrite Hk; apply lookup_insert_eq).
  pose proof (NewType.drop_run n Hn (w_del b w) b (Some <$> bs)) as Hrun.
  replace (w_put b (Some <$> bs) (w_del b w)) with w in Hrun
    by (destruct w; unfold w_put, w_del; cbn in *; f_equal; by rewrite insert_delete_id).
  eapply local_run; [apply Hrun; [apply lookup_delete_eq|by rewrite zlen_fmap]|].
  apply Hf. cbn. rewrite Hk. by apply delete_insert_id.
Qed.

Lemma exactly_vec_drop {B} (Q : B -> world -> Prop) K w v c (f : unit -> M B) :
  exactly (<[v_block v := c]> K) w -> K !! v_block v = None ->
  (forall w', exactly K w' -> does w' (f tt) Q) -> does w (bind (vec_drop v) f) Q.
Proof.
  intros Hk Hb Hf.
  assert (Eb : w_mem w !! v_block v = Some c) by (rewrite Hk; apply lookup_insert_eq).
  eapply local_run; [exact (free_run _ _ w Eb)|]. apply Hf. cbn. rewrite Hk. by apply delete_insert_id.
Qed.

Lemma exactly_eq {B} (Q : B -> world -> Prop) n K w a b bs (f : unit -> M B) :
  0 <= nt_bytes n <= isize_max -> zlen bs = nt_bytes n -> exactly K w ->
  K !! a = Some (Some <$> bs) -> K !! b = Some (Some <$> bs) -> does w (f tt) Q ->
  does w (bind (assert_equal n (At a 0) (At b 0)) f) Q.
Proof.
  intros Hn Hl Hk Ha Hb Hf. apply local_assoc.
  eapply local_run; [eapply NewType.eq_run; [done|by eapply exactly_ref|by eapply exactly_ref]|].
  apply local_assert; [by apply bool_decide_true|done].
Qed.

Lemma exactly_serialize {B} (Q : B -> world -> Prop) n K w b (f : slice -> M (serde_error + vec)) (g : vec -> M B)
    w0 out v w' :
  f (NewType.as_ref n (At b 0)) w = Done (inr v) w' -> new_vec w0 v out w' -> exactly K w0 ->
  (forall c, K !! v_block v = None -> exactly (<[v_block v := c]> K) w' -> is_slice w' (v_slice v) out -> does w' (g v) Q) ->
  does w (let* r := NewType.serialize n f (At b 0) in let* v := unwrap_sum r in g v) Q.
Proof.
  intros Hr (Hb & [c Hc] & Hv) <- Hg. eapply local_run; [exact Hr|]. apply local_ret.
  apply (Hg c); [done|done|by apply is_vec_slice].
Qed.

(** Reading the value back: until the deserializer is dropped there is memory of
    its own, [m]. *)
Lemma exactly_deserialize {B} (Q : B -> world -> Prop) n K w t bs (g : bytes -> rmp_deserializer -> M B) :
  is_slice w t (rmp bs) -> zlen bs = nt_bytes n -> zlen bs <= 4096 -> exactly K w ->
  (forall d m w', m ##ₘ K -> exactly (m ∪ K) w' ->
     (forall X (P : X -> world -> Prop) (h : unit -> M X) w3, exactly (m ∪ K) w3 ->
        (forall w4, exactly K w4 -> does w4 (h tt) P) -> does w3 (bind (rmp_deserializer_drop d) h) P) ->
     does w' (g bs d) Q) ->
  does w (let* de := rmp_deserializer_new t in let* '(r, de) := deserialize_from n de in
          let* decoded := unwrap_sum r in g decoded de) Q.
Proof.
  intros Ht Hn Hl <- Hg. destruct (rmp_deserialize_doc w t bs Ht Hl) as (d & w1 & s & d' & w2 & m & Hnew & Hde & Hs & Hm & Hw2 & Hdrop).
  eapply local_run; [exact Hnew|]. eapply local_run.
  { unfold deserialize_from. rewrite Hde. eapply bind_step; [by apply (NewType.visit_bytes_run n invalid_length w2 s bs)|].
    rewrite decide_True by done. reflexivity. }
  apply local_ret. apply (Hg d' m w2); [done|done|]. intros X P h w3 H3 Hh.
  destruct (Hdrop w3 (w_mem w) Hm H3) as (w4 & Hr & H4). eapply local_run; [exact Hr|]. by apply Hh.
Qed.

(** The value comes back from both formats, and the memory is as it was. *)
Lemma round_trip_exactly w n bs :
  0 <= nt_bytes n <= 4096 -> zlen bs = nt_bytes n ->
  does w (round_trip n bs) (fun _ w' => w_mem w' = w_mem w).
Proof.
  intros Hn Hl. pose proof isize_max_bounds. set (K := w_mem w).
  assert (Hr : forall K' w' b, exactly K' w' -> K' !! b = Some (Some <$> bs) -> is_slice w' (NewType.as_ref n (At b 0)) bs).
  { intros K' w' b Hk' Hb. apply NewType.as_ref_slice; [lia|]. by eapply exactly_ref. }
  unfold round_trip. apply exactly_place with (K := K); [done|]. intros v w1 Hv K1.
  destruct (json_to_string_doc w1 _ bs (Hr _ _ _ K1 (lookup_insert_eq _ _ _)) ltac:(lia)) as (v1 & w2 & R2 & N2).
  eapply exactly_serialize; [exact R2|exact N2|exact K1|]. intros c1 Hv1 K2 S1.
  destruct (json_from_str_doc w2 _ bs n S1 Hl ltac:(lia)) as (sq & Hy & D1).
  eapply local_run; [unfold NewType.deserialize; rewrite D1; by apply visit_seq_yields|]. apply local_ret.
  eapply exactly_place; [exact K2|]. intros d1 w3 Hd1 K3.
  set (cv := Some <$> bs) in *. set (Kv := <[v:=cv]> K) in *.
  assert (Lv : Kv !! v = Some cv) by apply lookup_insert_eq.
  assert (Lv1 : <[v_block v1:=c1]> Kv !! v = Some cv) by by apply lookup_insert_fresh.
  assert (Lv2 : <[d1:=cv]> (<[v_block v1:=c1]> Kv) !! v = Some cv) by by apply lookup_insert_fresh.
  eapply exactly_eq; [lia|exact Hl|exact K3|exact Lv2|apply lookup_insert_eq|].
  apply local_assoc. eapply local_run; [apply alloc_run|]. apply local_ret.
  set (b := fresh_block w3). pose proof (fresh_block_spec w3) as Hb. fold b in Hb. set (w4 := w_put b [] w3).
  assert (K4 : exactly (<[d1:=cv]> (<[v_block v1:=c1]> Kv)) (w_del b w4)) by (cbn; by rewrite delete_insert_id).
  assert (Lv4 : w_mem w4 !! v = Some cv) by (cbn; apply lookup_insert_fresh; [by rewrite K3|done]).
  destruct (rmp_serialize_doc w4 b _ bs (lookup_insert_eq _ _ _) (Hr _ _ _ eq_refl Lv4) ltac:(lia)) as (v2 & w5 & R5 & N5).
  eapply exactly_serialize; [exact R5|exact N5|exact K4|]. intros c2 Hv2 K5 S5.
  eapply exactly_deserialize; [exact S5|exact Hl|lia|exact K5|]. intros de m w6 Hm K6 Hde. cbv beta.
  eapply exactly_place; [exact K6|]. intros d2 w7 Hd2 K7.
  assert (Lv3 := lookup_insert_fresh _ _ _ _ c2 Lv2 Hv2).
  assert (Lv5 := lookup_union_Some_r _ _ _ _ Hm Lv3). assert (Lv6 := lookup_insert_fresh _ _ _ _ cv Lv5 Hd2).
  eapply exactly_eq; [lia|exact Hl|exact K7|exact Lv6|apply lookup_insert_eq|].
  eapply exactly_drop; [lia|exact Hl|exact K7|exact Hd2|]. intros w8 K8.
  eapply Hde; [exact K8|]. intros w9 K9.
  eapply exactly_vec_drop; [exact K9|exact Hv2|]. intros w10 K10.
  eapply exactly_drop; [lia|exact Hl|exact K10|exact Hd1|]. intros w11 K11.
  eapply exactly_vec_drop; [exact K11|exact Hv1|]. intros w12 K12.
  apply local_last. eapply exactly_drop; [lia|exact Hl|exact K12|exact Hv|]. intros w13 K13. by apply does_ret.
Qed.

Lemma local_round_trip {B} (Q : B -> world -> Prop) w m n bs (f : unit -> M B) :
  holds w m -> 0 <= nt_bytes n <= 4096 -> zlen bs = nt_bytes n ->
  (forall w', holds w' m -> does w' (f tt) Q) -> does w (bind (round_trip n bs) f) Q.
Proof.
  intros Hw Hn Hl Hf. eapply does_bind; [by apply (round_trip_exactly w n bs)|].
  intros [] w' Hw'. apply Hf. by eapply holds_same.
Qed.

End RoundTrips.

(** ** The tests *)

Section SerialisationTests.
Context `{T : Target} `{U : UtilsExterns} `{R : RandombytesExterns} `{E : SerdeExterns}.

Definition auth_test_serialisation (A : auth_module) : M unit :=
  for_range 0 256 (fun i =>
    let* k := auth.gen_key A in
    let* k := place k in
    let* m := randombytes i in
    let* tag := auth.authenticate A (v_slice m) (At k 0) in
    let* k := move_out k in
    let* _ := round_trip (auth.Key A) k in
    round_trip (auth.Tag A) tag).

Definition hash_test_serialisation (A : hash_module) : M unit :=
  for_range 0 32 (fun i =>
    let* m := randombytes i in
    let* d := hash.hash A (v_slice m) in
    round_trip (hash.Digest A) d).

Definition secretbox_test_serialisation : M unit :=
  for_range 0 256 (fun _ =>
    let* k := secretbox.gen_key in
    let* n := secretbox.gen_nonce in
    let* _ := round_trip secretbox.Key k in
    round_trip secretbox.Nonce n).

Definition box_test_serialisation `{BoxExterns} : M unit :=
  for_range 0 256 (fun _ =>
    let* '(pk, sk) := box_.gen_keypair in
    let* n := box_.gen_nonce in
    let* _ := round_trip box_.PublicKey pk in
    let* _ := round_trip box_.SecretKey sk in
    round_trip box_.Nonce n).

Definition shorthash_test_serialisation `{ShorthashExterns} : M unit :=
  for_range 0 64 (fun i =>
    let* k := shorthash.gen_key in
    let* k := place k in
    let* m := randombytes i in
    let* d := shorthash.shorthash (v_slice m) (At k 0) in
    let* k := move_out k in
    let* _ := round_trip shorthash.Key k in
    round_trip shorthash.Digest d).

Definition stream_test_serialisation (A : stream_cipher) : M unit :=
  for_range 0 1024 (fun _ =>
    let* k := stream.gen_key A in
    let* n := NewType.gen_random_nonce (stream.Nonce A) in
    let* _ := round_trip (stream.Key A) k in
    round_trip (stream.Nonce A) n).

Definition argon2_test_serialisation (A : argon2_module) : M unit :=
  for_range 0 32 (fun i =>
    let* pw := randombytes i in
    let* r := argon2.pwhash A (v_slice pw) (argon2.OPSLIMIT_INTERACTIVE A) (argon2.MEMLIMIT_INTERACTIVE A) in
    let* pwh := unwrap r in
    let* salt := argon2.gen_salt A in
    let* _ := round_trip (argon2.HashedPassword A) pwh in
    round_trip (argon2.Salt A) salt).

Definition scrypt_test_serialisation `{ScryptExterns} : M unit :=
  for_range 0 32 (fun i =>
    let* pw := randombytes i in
    let* r := scrypt.pwhash (v_slice pw) scrypt.OPSLIMIT_INTERACTIVE scrypt.MEMLIMIT_INTERACTIVE in
    let* pwh := unwrap r in
    let* salt := scrypt.gen_salt in
    let* _ := round_trip scrypt.HashedPassword pwh in
    round_trip scrypt.Salt salt).

End SerialisationTests.

Section SerialisationPass.
Context `{T : Target} `{U : UtilsExterns} {UD : UtilsDoc U} `{R : RandombytesExterns} {RD : RandombytesDoc R}.
Context {E : SerdeExterns} {SD : SerdeDoc E}.

Lemma local_bytes {B} (Q : B -> world -> Prop) w m n g (f : bytes -> M B) :
  holds w m -> makes n g -> (forall bs w', zlen bs = n -> holds w' m -> does w' (f bs) Q) -> does w (bind g f) Q.
Proof.
  intros Hw Hg Hf. eapply does_bind; [apply Hg|]. intros bs w' [Hg' Hl]. apply Hf; [done|].
  intros b c Hb. eapply lookup_weaken; [by apply Hw|exact Hg'].
Qed.

Lemma local_move_out {B} (Q : B -> world -> Prop) w m b bs (f : bytes -> M B) :
  holds w m -> m !! b = Some bs -> (forall w', holds w' (delete b m) -> does w' (f bs) Q) ->
  does w (bind (move_out b) f) Q.
Proof.
  intros Hw Hb Hf. eapply local_run.
  { unfold move_out. rewrite (Hw b bs Hb), all_init_fmap. reflexivity. }
  apply Hf. intros c cs [Hne Hc]%lookup_delete_Some. cbn. rewrite lookup_delete_ne by done. by apply Hw.
Qed.

Lemma last_round_trip w m n bs :
  holds w m -> 0 <= nt_bytes n <= 4096 -> zlen bs = nt_bytes n -> does w (round_trip n bs) (fun _ _ => True).
Proof. intros. apply local_last. eapply local_round_trip; [done..|]. intros w' _. by apply does_ret. Qed.

Lemma auth_test_serialisation_passes A {D : AuthDoc A} :
  0 <= auth.KEYBYTES A <= 4096 -> passes (auth_test_serialisation A).
Proof.
  intros Hkb w. apply local_loop. intros i w0 Hi Hw0. pose proof isize_max_bounds.
  pose proof (auth_tag_range (A := A)) as Ht. change (0 + Z.of_nat 256) with 256 in Hi.
  eapply local_bytes; [exact Hw0|apply (auth_gen_key_makes A); lia|]. intros kb w1 Hk Hw1.
  eapply local_place; [exact Hw1|]. intros k w2 _ Hw2.
  eapply (local_random _ (RD := RD)); [exact Hw2|lia|]. intros x a w3 Hx Ha Hw3. fresh_facts. sl.
  eapply local_run.
  { apply (authenticate_run w3 _ (At k 0) a kb); [eapply holds_slice; [exact Hw3|local_tac|len_eq|lia]|].
    unfold auth.KEYBYTES in Hk. rewrite <- Hk. eapply holds_ref; [exact Hw3|local_tac]. }
  eapply local_move_out; [exact Hw3|local_tac|]. intros w4 Hw4.
  eapply local_round_trip; [exact Hw4|exact Hkb|exact Hk|]. intros w5 Hw5.
  eapply last_round_trip; [exact Hw5|exact Ht|apply auth_mac_zlen].
Qed.

Lemma hash_test_serialisation_passes A {D : HashDoc A} :
  0 <= hash.DIGESTBYTES A <= 4096 -> passes (hash_test_serialisation A).
Proof.
  intros Hd w. apply local_loop. intros i w0 Hi Hw0. pose proof isize_max_bounds.
  change (0 + Z.of_nat 32) with 32 in Hi.
  eapply (local_random _ (RD := RD)); [exact Hw0|lia|]. intros x a w1 Hx Ha Hw1. sl.
  eapply local_run; [apply hash_run; eapply holds_slice; [exact Hw1|local_tac|len_eq|lia]|].
  eapply last_round_trip; [exact Hw1|exact Hd|]. cbn [nt_bytes hash.Digest]. unfold st_digest, hash.DIGESTBYTES.
  rewrite st_final_zlen. apply hash_digest_size.
Qed.

Lemma secretbox_test_serialisation_passes : passes secretbox_test_serialisation.
Proof.
  intros w. apply local_loop. intros i w0 _ Hw0.
  eapply local_bytes; [exact Hw0|by apply makes_key|]. intros k w1 Hk Hw1.
  eapply local_bytes; [exact Hw1|by apply (makes_random secretbox.Nonce)|]. intros n w2 Hn Hw2.
  eapply local_round_trip; [exact Hw2|done|exact Hk|]. intros w3 Hw3. by eapply last_round_trip.
Qed.

Lemma box_test_serialisation_passes {X : BoxExterns} {D : BoxDoc X} : passes box_test_serialisation.
Proof.
  intros w. apply local_loop. intros i w0 _ Hw0.
  eapply local_run; [apply box_gen_keypair_run|]. cbn beta iota. set (w1 := w_consume _ _).
  assert (Hw1 : holds w1 ∅) by apply holds_empty.
  eapply local_bytes; [exact Hw1|by apply (makes_random box_.Nonce)|]. intros n w2 Hn Hw2.
  eapply local_round_trip; [exact Hw2|done|apply box_public_zlen|]. intros w3 Hw3.
  eapply local_round_trip; [exact Hw3|done|by apply entropy_zlen|]. intros w4 Hw4. by eapply last_round_trip.
Qed.

Lemma shorthash_test_serialisation_passes {X : ShorthashExterns} {D : ShorthashDoc X} :
  passes shorthash_test_serialisation.
Proof.
  intros w. apply local_loop. intros i w0 Hi Hw0. pose proof isize_max_bounds.
  change (0 + Z.of_nat 64) with 64 in Hi.
  eapply local_bytes; [exact Hw0|by apply makes_key|]. intros kb w1 Hk Hw1.
  eapply local_place; [exact Hw1|]. intros k w2 _ Hw2.
  eapply (local_random _ (RD := RD)); [exact Hw2|lia|]. intros x a w3 Hx Ha Hw3. fresh_facts. sl.
  eapply local_run.
  { apply (shorthash_run w3 _ (At k 0) a kb); [eapply holds_slice; [exact Hw3|local_tac|len_eq|lia]|].
    change 16 with shorthash.KEYBYTES. rewrite <- Hk. eapply holds_ref; [exact Hw3|local_tac]. }
  eapply local_move_out; [exact Hw3|local_tac|]. intros w4 Hw4.
  eapply local_round_trip; [exact Hw4|done|exact Hk|]. intros w5 Hw5.
  eapply last_round_trip; [exact Hw5|done|apply sip_zlen].
Qed.

Lemma stream_test_serialisation_passes A :
  0 <= stream.KEYBYTES A <= 4096 -> 0 <= stream.NONCEBYTES A <= 4096 -> passes (stream_test_serialisation A).
Proof.
  intros Hkb Hnb w. apply local_loop. intros i w0 _ Hw0.
  eapply local_bytes; [exact Hw0|apply makes_key; unfold stream.KEYBYTES in *; lia|]. intros k w1 Hk Hw1.
  eapply local_bytes; [exact Hw1|apply (makes_random (stream.Nonce A)), Hnb|]. intros n w2 Hn Hw2.
  eapply local_round_trip; [exact Hw2|exact Hkb|exact Hk|]. intros w3 Hw3. by eapply last_round_trip.
Qed.

(** For a function that does what [pwhash()] of a module does with some limits *)
Lemma pwhash_serialisation_passes A {D : PwhashDoc (argon2_functions A)} (hash : slice -> M (result bytes)) salt o m :
  (forall s w, hash s w = argon2.pwhash A s o m w) -> makes (pw_saltbytes A) salt ->
  (forall e n, 0 <= n < 32 -> pw_completes e (pw_hashedpasswordbytes A) n (opslimit o) (memlimit m) = true) ->
  passes (for_range 0 32 (fun i =>
    let* pw := randombytes i in
    let* r := hash (v_slice pw) in
    let* pwh := unwrap r in
    let* salt := salt in
    let* _ := round_trip (argon2.HashedPassword A) pwh in
    round_trip (argon2.Salt A) salt)).
Proof.
  intros Eh Hsalt Hc w. apply local_loop. intros i w0 Hi Hw0. pose proof isize_max_bounds.
  destruct (pw_sizes (F := argon2_functions A)) as [Hs Hb]. change (0 + Z.of_nat 32) with 32 in Hi.
  eapply (local_random _ (RD := RD)); [exact Hw0|lia|]. intros x a w1 Hx Ha Hw1. sl.
  assert (Hsl : is_slice w1 (Slice (At x 0) i) a) by (eapply holds_slice; [exact Hw1|local_tac|len_eq|lia]).
  pose proof (pwhash_run w1 _ o m a Hsl) as Hrun. rewrite Hc in Hrun by lia.
  eapply local_run; [rewrite Eh; exact Hrun|]. eapply local_unwrap; [reflexivity|].
  eapply local_bytes; [by eapply holds_same; [exact Hw1|]|exact Hsalt|]. intros s w2 Hls Hw2.
  eapply local_round_trip; [exact Hw2|exact Hb|apply (pw_str_zlen (F := argon2_functions A))|]. intros w3 Hw3.
  eapply last_round_trip; [exact Hw3|exact Hs|exact Hls].
Qed.

Lemma argon2_test_serialisation_passes A {D : PwhashDoc (argon2_functions A)} :
  (forall e n, 0 <= n < 32 ->
     pw_completes e (pw_hashedpasswordbytes A) n (opslimit_interactive A) (memlimit_interactive A) = true) ->
  passes (argon2_test_serialisation A).
Proof.
  intros Hc. unfold argon2_test_serialisation.
  refine (pwhash_serialisation_passes A
    (fun s => argon2.pwhash A s (argon2.OPSLIMIT_INTERACTIVE A) (argon2.MEMLIMIT_INTERACTIVE A)) (argon2.gen_salt A)
    (argon2.OPSLIMIT_INTERACTIVE A) (argon2.MEMLIMIT_INTERACTIVE A) _ _ Hc); [reflexivity|].
  apply makes_key. apply (pw_sizes (F := argon2_functions A)).
Qed.

Lemma scrypt_test_serialisation_passes {X : ScryptExterns} {D : PwhashDoc scrypt_functions} :
  (forall e n, 0 <= n < 32 -> pw_completes e 102 n 524288 16777216 = true) ->
  passes scrypt_test_serialisation.
Proof.
  intros Hc. unfold scrypt_test_serialisation.
  refine (pwhash_serialisation_passes scrypt_module (D := D)
    (fun s => scrypt.pwhash s scrypt.OPSLIMIT_INTERACTIVE scrypt.MEMLIMIT_INTERACTIVE) scrypt.gen_salt
    scrypt.OPSLIMIT_INTERACTIVE scrypt.MEMLIMIT_INTERACTIVE _ _ Hc).
  - intros s w. apply scrypt_pwhash_eq.
  - by apply makes_key.
Qed.

End SerialisationPass.

(** ** The theorems *)

(** C14. A value of any type made by [new_type!] comes back from JSON, as a
    sequence of numbers, and from MessagePack, as a byte string, equal to what
    it was, and both decoded values are found equal by [==].  When the test ends
    every value it made, both encodings and the deserializer have been dropped:
    the memory of the process is exactly what it was before. *)
Theorem serde_round_trip `{T : Target} `{U : UtilsExterns} {UD : UtilsDoc U} {E : SerdeExterns} {SD : SerdeDoc E}
    n bs w (Hn : 0 <= nt_bytes n <= 4096) (Hl : zlen bs = nt_bytes n) :
  does w (round_trip n bs) (fun _ w' => w_mem w' = w_mem w).
Proof. by apply round_trip_exactly. Qed.

(** The serialisation tests of all modules *)
Theorem serialisation_tests_pass `{T : Target} `{U : UtilsExterns} {UD : UtilsDoc U}
    `{R : RandombytesExterns} {RD : RandombytesDoc R} {E : SerdeExterns} {SD : SerdeDoc E}
    A {AD : AuthDoc A} H {HD : HashDoc H} `{B : BoxExterns} {BD : BoxDoc B} `{K : ShorthashExterns} {KD : ShorthashDoc K}
    S P {PD : PwhashDoc (argon2_functions P)} `{X : ScryptExterns} {XD : PwhashDoc scrypt_functions}
    (Ha : 0 <= auth.KEYBYTES A <= 4096) (Hh : 0 <= hash.DIGESTBYTES H <= 4096)
    (Hk : 0 <= stream.KEYBYTES S <= 4096) (Hn : 0 <= stream.NONCEBYTES S <= 4096)
    (Hp : forall e n, 0 <= n < 32 ->
       pw_completes (F := argon2_functions P) e (pw_hashedpasswordbytes P) n (opslimit_interactive P) (memlimit_interactive P) = true)
    (Hx : forall e n, 0 <= n < 32 -> pw_completes (F := scrypt_functions) e 102 n 524288 16777216 = true) :
  passes (auth_test_serialisation A) /\ passes (hash_test_serialisation H) /\
  passes secretbox_test_serialisation /\ passes box_test_serialisation /\ passes shorthash_test_serialisation /\
  passes (stream_test_serialisation S) /\ passes (argon2_test_serialisation P) /\ passes scrypt_test_serialisation.
Proof.
  split_and!.
  - exact (auth_test_serialisation_passes (UD := UD) (RD := RD) (SD := SD) A Ha).
  - exact (hash_test_serialisation_passes (UD := UD) (RD := RD) (SD := SD) H Hh).
  - exact (secretbox_test_serialisation_passes (UD := UD) (RD := RD) (SD := SD)).
  - exact (box_test_serialisation_passes (UD := UD) (RD := RD) (SD := SD)).
  - exact (shorthash_test_serialisation_passes (UD := UD) (RD := RD) (SD := SD)).
  - exact (stream_test_serialisation_passes (UD := UD) (RD := RD) (SD := SD) S Hk Hn).
  - exact (argon2_test_serialisation_passes (UD := UD) (RD := RD) (SD := SD) P Hp).
  - exact (scrypt_test_serialisation_passes (UD := UD) (RD := RD) (SD := SD) Hx).
Qed.

(** *** Arrays of JSON and byte strings of MessagePack *)

Module RefSerde.

Definition digit (z : Z) : byte := byte_of_Z (48 + z).
Definition digits (b : byte) : bytes :=
  let z := byte_val b in
  (if 100 <=? z then [digit (z / 100)] else []) ++ (if 10 <=? z then [digit (z / 10 mod 10)] else []) ++ [digit (z mod 10)].
Fixpoint rest (bs : bytes) : bytes :=
  match bs with [] => [x5d] | b :: bs => x2c :: digits b ++ rest bs end.
(** [[1,2,3]] *)
Definition json (bs : bytes) : bytes :=
  x5b :: match bs with [] => [x5d] | b :: bs => digits b ++ rest bs end.

(** A number, and the text after it *)
Fixpoint number (acc : option Z) (l : bytes) : option Z * bytes :=
  match l with
  | c :: l' =>
    let v := byte_val c - 48 in
    if (0 <=? v) && (v <=? 9) then number (Some (10 * default 0 acc + v)) l' else (acc, l)
  | [] => (acc, [])
  end.
Definition next (l : bytes) : (unit + option byte) * bytes :=
  let l := match l with x2c :: l => l | _ => l end in
  match number None l with
  | (Some v, l) => (if v <? 256 then inr (Some (byte_of_Z v)) else inl tt, l)
  | (None, x5d :: _) => (inr None, l)
  | (None, _) => (inl tt, l)
  end.

Definition rmp (bs : bytes) : bytes :=
  if zlen bs <? 256 then xc4 :: byte_of_Z (zlen bs) :: bs
  else xc5 :: byte_of_Z (zlen bs / 256) :: byte_of_Z (zlen bs) :: bs.

Definition externs : SerdeExterns := {|
  serde_error := unit;
  json_to_string s :=
    let* bs := slice_bytes s in
    let* v := vec_of (json bs) in
    ret (inr v);
  json_seq := bytes;
  json_next := next;
  json_from_str t seq _ :=
    let* text := slice_bytes t in
    match text with x5b :: l => seq l | _ => ret (inl tt) end;
  rmp_serialize_bytes buf s :=
    let* bs := slice_bytes s in
    let* _ := vec_drop buf in
    let* v := vec_of (rmp bs) in
    ret (inr v);
  rmp_deserializer := slice * option positive;
  rmp_deserializer_new t := ret (t, None);
  rmp_deserialize_bytes d _ by_ :=
    let* text := slice_bytes d.1 in
    let copy (n : Z) (l : bytes) :=
      (let* c := place (take (Z.to_nat n) l) in
       let* r := by_ (Slice (At c 0) n) in
       ret (r, (d.1, Some c))) in
    match text with
    | xc4 :: n :: l => copy (byte_val n) l
    | xc5 :: h :: n :: l => copy (256 * byte_val h + byte_val n) l
    | _ => ret (inl tt, d)
    end;
  rmp_deserializer_drop d := match d.2 with Some c => free c | None => ret tt end;
  invalid_length _ := tt
|}.

Lemma number_digits b c l : c = x2c \/ c = x5d -> number None (digits b ++ c :: l) = (Some (byte_val b), c :: l).
Proof. intros [-> | ->]; by destruct b. Qed.

Lemma next_digits b c l : c = x2c \/ c = x5d -> next (digits b ++ c :: l) = (inr (Some b), c :: l).
Proof.
  intros Hc. assert (Hd : match digits b ++ c :: l with x2c :: l => l | _ => digits b ++ c :: l end = digits b ++ c :: l)
    by by destruct b.
  unfold next. rewrite Hd, number_digits by done. pose proof (byte_val_range b).
  rewrite (proj2 (Z.ltb_lt _ _)) by lia. by rewrite byte_of_Z_val.
Qed.

Lemma rest_head bs : exists c l, rest bs = c :: l /\ (c = x2c \/ c = x5d).
Proof. destruct bs; cbn; eauto. Qed.

Lemma yields_digits b bs : yields (E := externs) (rest bs) bs -> yields (E := externs) (digits b ++ rest bs) (b :: bs).
Proof. intros Hy. destruct (rest_head bs) as (c & l & E & Hc). eapply yields_next; [cbn|exact Hy]. rewrite E. by apply next_digits. Qed.

Lemma next_comma l : next (x2c :: l) = next l \/ exists l', l = x2c :: l'.
Proof. destruct l as [|c l]; [by left|]. destruct (decide (c = x2c)) as [->|Hc]; [right; eauto|left]. by destruct c. Qed.

Lemma yields_rest bs : yields (E := externs) (rest bs) bs.
Proof.
  induction bs as [|b bs IH]; [apply yields_end|]. pose proof (yields_digits b bs IH) as Hy.
  inversion Hy as [|? ? sq' ? Hn Hy']; subst. eapply yields_next; [|exact Hy']. cbn in *.
  destruct (next_comma (digits b ++ rest bs)) as [->|[l' E]]; [done|]. by destruct b.
Qed.

Lemma json_zlen bs : zlen (json bs) <= 2 + 4 * zlen bs.
Proof.
  assert (Hd : forall b, zlen (digits b) <= 3) by by intros [].
  assert (Hr : forall bs, zlen (rest bs) <= 1 + 4 * zlen bs).
  { intros l. induction l as [|b l IH]; cbn [rest]; [done|]. specialize (Hd b). autorewrite with zlen in *. lia. }
  destruct bs as [|b bs]; [done|]. unfold json. specialize (Hd b). specialize (Hr bs). autorewrite with zlen in *. lia.
Qed.

Lemma new_vec_of `{T : Target} w bs :
  zlen bs <= isize_max ->
  exists v w', (let* v := vec_of bs in ret (inr (A := unit) v)) w = Done (inr v) w' /\ new_vec w v bs w'.
Proof.
  intros Hl. pose proof (fresh_block_spec w) as Hf. eexists _, _. split; [reflexivity|]. split_and!; [done|by eexists|].
  split_and!; [apply bytes_at_put_same|done|cbn; lia|cbn; lia].
Qed.

#[refine] Definition doc `{T : Target} : SerdeDoc externs := {| SerdeTests.json := json; SerdeTests.rmp := rmp |}.
Proof.
  - intros w s bs Hs Hl. pose proof (json_zlen bs). pose proof isize_max_bounds.
    destruct (new_vec_of w (json bs)) as (v & w' & Hr & Hv); [lia|]. exists v, w'. split; [|exact Hv].
    cbn [json_to_string externs]. erewrite bind_done by (by apply slice_bytes_run). exact Hr.
  - intros w t bs n U Ht Hn Hl.
    assert (Hy : yields (E := externs) (match bs with [] => [x5d] | b :: bs => digits b ++ rest bs end) bs).
    { destruct bs as [|b bs]; [apply yields_end|apply yields_digits, yields_rest]. }
    eexists. split; [exact Hy|]. cbn [json_from_str externs]. by erewrite bind_done by (by apply slice_bytes_run).
  - intros w b s bs Hb Hs Hl. pose proof isize_max_bounds.
    assert (Hz : zlen (rmp bs) <= 3 + zlen bs) by (unfold rmp; case_match; autorewrite with zlen; lia).
    destruct (new_vec_of (w_with (env_drop [] (w_env w)) (w_del b w)) (rmp bs)) as (v & w' & Hr & Hv); [lia|].
    exists v, w'. split; [|exact Hv]. cbn [rmp_serialize_bytes externs].
    erewrite bind_done by (by apply slice_bytes_run). erewrite bind_done by (apply (free_run b []); exact Hb). exact Hr.
  - intros w t bs Ht Hl. pose proof (zlen_nonneg bs). pose proof isize_max_bounds.
    pose proof (fresh_block_spec w) as Hc. set (c := fresh_block w) in *.
    exists (t, None), w, (Slice (At c 0) (zlen bs)), (t, Some c), (w_put c (Some <$> bs) w), {[c := Some <$> bs]}.
    assert (Hcopy : forall n (by_ : slice -> M (unit + bytes)), n = zlen bs ->
      (let* c := place (take (Z.to_nat n) bs) in let* r := by_ (Slice (At c 0) n) in ret (r, (t, Some c))) w =
      (let* r := by_ (Slice (At c 0) (zlen bs)) in ret (r, (t, Some c))) (w_put c (Some <$> bs) w)).
    { intros n by_ ->. rewrite to_nat_zlen, take_ge by lia. reflexivity. }
    split_and!; [reflexivity| | |by apply map_disjoint_singleton_l|by rewrite <- insert_union_singleton_l|].
    + intros seq by_. cbn [rmp_deserialize_bytes externs fst]. erewrite bind_done by (by apply slice_bytes_run).
      unfold rmp. destruct (Z.ltb_spec (zlen bs) 256) as [Hs|Hs]; cbv beta iota zeta; apply Hcopy.
      * by rewrite byte_val_of_Z, Z.mod_small by lia.
      * rewrite !byte_val_of_Z, (Z.mod_small (zlen bs / 256)) by (split; [apply Z.div_pos; lia|apply Z.div_lt_upper_bound; lia]).
        by rewrite <- Z.div_mod by lia.
    + split_and!; [apply bytes_at_put_same|done|cbn; lia].
    + intros w3 K HK Hw3. apply map_disjoint_singleton_l in HK. eexists. split.
      * cbn [rmp_deserializer_drop externs snd]. apply (free_run c (Some <$> bs)). rewrite Hw3. by apply lookup_union_Some_l, lookup_singleton_eq.
      * cbn. rewrite Hw3, <- insert_union_singleton_l. by apply delete_insert_id.
Defined.

End RefSerde.

(** A key of three bytes: the JSON is [[7,65,255]]. *)
Lemma serde_round_trip_witness :
  let n := NewType secret "Key" 3 in
  let bs := [x07; x41; xff] in
  string_bytes "[7,65,255]" = RefSerde.json bs /\ RefSerde.rmp bs = [xc4; x03; x07; x41; xff] /\
  does (Ref.world []) (@round_trip Ref.utils RefSerde.externs n bs) (fun _ w' => w_mem w' = w_mem (Ref.world [])).
Proof.
  split_and!; [by vm_compute|by vm_compute|].
  apply (@serde_round_trip target64 Ref.utils Ref.utils_doc RefSerde.externs (@RefSerde.doc target64)); by vm_compute.
Defined.
