(* ===== verification/VectorFiles.v ===== *)
(** * The tests that read files of test vectors

    The tests of sha256.rs, sha512.rs, generichash/mod.rs and ed25519.rs read
    the files of testvectors/ line by line.  The file is a parameter: the lines
    [read_line()] returns, with their ends.  The theorems say that on a file of
    the right form a test passes exactly when every vector in it is right. *)

From S2P Require Export Utf8 Locals Codec Hash SignTests KeyTests HashTests Standards.

(** ** Strings *)

(** Lines of a file, with their ends *)
Abbreviation lines := (list bytes).

(** [line.starts_with(pat)] *)
Definition bytes_start (pat line : bytes) : bool := bool_decide (take (length pat) line = pat).

(** [&line[n..]]: panics past the end and inside of a character. *)
Definition str_from (n : Z) (s : bytes) : M bytes :=
  let t := drop (Z.to_nat n) s in
  if (n <=? zlen s) && utf8 t then ret t else panic.

(** [&line[..n]] *)
Definition str_to (n : Z) (s : bytes) : M bytes :=
  if (n <=? zlen s) && utf8 (drop (Z.to_nat n) s) then ret (take (Z.to_nat n) s) else panic.

(** [s.trim()], on the bytes of the string *)
Definition trim_bytes (bs : bytes) : bytes :=
  let bs := strip (length bs) white_space bs in
  reverse (strip (length bs) (reverse <$> white_space) (reverse bs)).

Lemma trim_is_trim_bytes s : trim s = String.string_of_list_byte (trim_bytes (string_bytes s)).
Proof. reflexivity. Qed.

(** [s.parse::<usize>()]: decimal digits, after at most one plus sign *)
Fixpoint decimal `{Target} (acc : Z) (s : bytes) : option Z :=
  match s with
  | [] => Some acc
  | c :: s =>
    let d := byte_val c - 48 in
    if (0 <=? d) && (d <=? 9) && (10 * acc + d <=? usize_max) then decimal (10 * acc + d) s else None
  end.
Definition parse_usize `{Target} (s : bytes) : option Z :=
  match s with
  | [] | [x2b] => None
  | x2b :: s => decimal 0 s
  | _ => decimal 0 s
  end.

Lemma decimal_nonneg `{Target} s : forall acc n, 0 <= acc -> decimal acc s = Some n -> 0 <= n.
Proof.
  induction s as [|c s IH]; cbn [decimal]; intros acc n Ha Hd; [congruence|].
  destruct (Z.leb_spec 0 (byte_val c - 48)); [|done]. case_match; [|done]. eapply IH; [|done]. lia.
Qed.

Lemma parse_usize_nonneg `{Target} s n : parse_usize s = Some n -> 0 <= n.
Proof.
  unfold parse_usize. destruct s as [|c s]; [done|].
  destruct c; try (by apply decimal_nonneg). destruct s; [done|]. by apply decimal_nonneg.
Qed.

(** [line.split(c)] *)
Fixpoint split (c : byte) (s : bytes) : list bytes :=
  match s with
  | [] => [[]]
  | x :: s =>
    if decide (x = c) then [] :: split c s
    else match split c s with p :: ps => (x :: p) :: ps | [] => [[x]] end
  end.

(** The lines of [lines()] come without their ends. *)
Definition chomp (line : bytes) : bytes :=
  match reverse line with
  | x0a :: x0d :: r => reverse r
  | x0a :: r => reverse r
  | _ => line
  end.

(** *** Plain text: no spaces, no control characters, only ASCII *)

Definition plain (s : bytes) : Prop := Forall (fun c => 33 <= byte_val c < 127) s.

Lemma utf8_ascii s : Forall (fun c => byte_val c < 128) s -> utf8 s = true.
Proof.
  induction 1 as [|c s Hc _ IH]; [done|]. cbn [utf8]. pose proof (byte_val_range c).
  unfold byte_in. rewrite !(proj2 (Z.leb_le _ _)) by lia. exact IH.
Qed.

Lemma plain_ascii s : plain s -> Forall (fun c => byte_val c < 128) s.
Proof. intros Hs. eapply Forall_impl; [exact Hs|]. cbn. lia. Qed.

(** No white space starts with a plain character, nor ends with one. *)
Lemma strip_one_plain c s : 33 <= byte_val c < 127 -> strip_one white_space (c :: s) = None.
Proof. intros Hc. destruct c; first [done|vm_compute in Hc; by destruct Hc]. Qed.

Lemma strip_one_plain_end c s :
  33 <= byte_val c < 127 -> strip_one (reverse <$> white_space) (c :: s) = None.
Proof. intros Hc. destruct c; first [done|vm_compute in Hc; by destruct Hc]. Qed.

Lemma strip_plain n s : plain s -> strip n white_space s = s.
Proof.
  intros Hs. destruct n as [|n]; [done|]. cbn [strip]. destruct Hs as [|c s Hc Hs]; [done|]. by rewrite strip_one_plain.
Qed.

Lemma strip_plain_end n s : plain s -> strip n (reverse <$> white_space) s = s.
Proof.
  intros Hs. destruct n as [|n]; [done|]. cbn [strip]. destruct Hs as [|c s Hc Hs]; [done|]. by rewrite strip_one_plain_end.
Qed.

Lemma plain_reverse s : plain s -> plain (reverse s).
Proof. intros Hs. unfold plain. by rewrite reverse_Permutation. Qed.

(** The line ends with a line feed, and may start with a tabulator. *)
Lemma trim_line s : plain s -> trim_bytes (s ++ [x0a]) = s.
Proof.
  intros Hs. unfold trim_bytes.
  assert (Hf : strip (length (s ++ [x0a])) white_space (s ++ [x0a]) = s ++ [x0a] \/
    s = [] /\ strip (length (s ++ [x0a])) white_space (s ++ [x0a]) = []).
  { destruct Hs as [|c s Hc Hs]; [right; by vm_compute|left].
    cbn [app length strip]. by rewrite strip_one_plain. }
  destruct Hf as [-> | [-> ->]]; [|by vm_compute].
  rewrite reverse_snoc, length_app, Nat.add_comm. cbn [length Nat.add].
  change (strip (S (length s)) (reverse <$> white_space) (x0a :: reverse s))
    with (strip (length s) (reverse <$> white_space) (reverse s)).
  rewrite strip_plain_end by by apply plain_reverse. apply reverse_involutive.
Qed.

Lemma trim_tab s : plain s -> trim_bytes (x09 :: s ++ [x0a]) = s.
Proof.
  intros Hs. rewrite <- (trim_line s Hs) at 2. unfold trim_bytes. cbn [length strip].
  change (strip_one white_space (x09 :: s ++ [x0a])) with (Some (drop 1 (x09 :: s ++ [x0a]))). reflexivity.
Qed.

Lemma chomp_line s : plain s -> chomp (s ++ [x0a]) = s.
Proof.
  intros Hs%plain_reverse. unfold chomp. rewrite reverse_snoc. rewrite <- (reverse_involutive s) at 2.
  destruct Hs as [|c r Hc Hr]; [done|]. destruct c; first [done|vm_compute in Hc; by destruct Hc].
Qed.

Lemma split_app c a s : c ∉ a -> split c (a ++ c :: s) = a :: split c s.
Proof.
  induction a as [|x a IH]; intros Hc; cbn [app split]; [by rewrite decide_True|].
  rewrite decide_False by (intros ->; apply Hc; by left). rewrite IH; [done|]. intros Hin. apply Hc. by right.
Qed.

(** *** Reading *)

(** What follows the next line; [read_line()] at the end of the file leaves the
    line empty. *)
Definition line_of (r : lines) : bytes := match r with [] => [] | line :: _ => line end.
Definition after_line (r : lines) : lines := match r with [] => r | _ :: r => r end.

Section Programs.
Context `{T : Target} `{CE : CodecExterns}.
(** The files there are, with the lines of each *)
Context (files : string -> option lines).

(** [BufReader::new(File::open(filename).unwrap())] *)
Definition open_lines (filename : string) : M lines := unwrap (ok_or (files filename)).

(** [hex::decode(s).unwrap()] *)
Definition hex_unwrap (s : bytes) : M vec :=
  let* p := place s in
  let* r := hex.decode (Slice (At p 0) (zlen s)) in
  unwrap r.

(** ** The tests of sha256.rs and sha512.rs *)

Section Nist.
Context (A : hash_module).

(** The loop reads at least one line in each round. *)
Fixpoint nist_loop (r : lines) : M unit :=
  match r with
  | [] => ret tt
  | line :: r =>
    if bool_decide (line = []) then ret tt
    else if bytes_start (string_bytes "Len = ") line then
      let* s := str_from 6 line in
      let* len := unwrap (ok_or (parse_usize (trim_bytes s))) in
      let line := line_of r in
      let r := after_line r in
      let* s := str_from 6 line in
      let* rawmsg := hex_unwrap (trim_bytes s) in
      let* msg := slice_index (v_slice rawmsg) 0 (len / 8) in
      let line := line_of r in
      let r := after_line r in
      let* s := str_from 5 line in
      let* md := hex_unwrap (trim_bytes s) in
      let* digest := hash.hash A msg in
      let* e := contents md in
      let* _ := assert (bool_decide (digest = e)) in
      let* _ := vec_drop md in
      let* _ := vec_drop rawmsg in
      nist_loop r
    else nist_loop r
  end.

Definition test_nist_vector (filename : string) : M unit :=
  let* r := open_lines filename in nist_loop r.

End Nist.

Definition sha256_test_vectors_nist_short `{Sha256Externs} : M unit :=
  test_nist_vector sha256 "testvectors/SHA256ShortMsg.rsp".
Definition sha256_test_vectors_nist_long `{Sha256Externs} : M unit :=
  test_nist_vector sha256 "testvectors/SHA256LongMsg.rsp".
Definition sha512_test_vectors_nist_short `{Sha512Externs} : M unit :=
  test_nist_vector sha512 "testvectors/SHA512ShortMsg.rsp".
Definition sha512_test_vectors_nist_long `{Sha512Externs} : M unit :=
  test_nist_vector sha512 "testvectors/SHA512LongMsg.rsp".

(** ** [test_blake2b_vectors] *)

Context `{GE : GenerichashExterns}.

(** A value of the file: the line must start with its name. *)
Definition blake2b_field (name : string) (n : Z) (line : bytes) : M vec :=
  let* _ := assert (bytes_start (string_bytes name) line) in
  let* s := str_from n line in
  hex_unwrap (trim_bytes s).

(** Empty lines, with their ends, are skipped. *)
Fixpoint blake2b_loop (r : lines) : M unit :=
  match r with
  | [] => ret tt
  | line :: r =>
    if bool_decide (line = []) then ret tt
    else if (1 <=? zlen line) && (zlen line <=? 3) then blake2b_loop r
    else
      let* msg := blake2b_field "in:" 3 line in
      let line := line_of r in
      let r := after_line r in
      let* key := blake2b_field "key:" 4 line in
      let line := line_of r in
      let r := after_line r in
      let* expected_hash := blake2b_field "hash:" 5 line in
      let* expected := contents expected_hash in
      let* _ := generichash_compare (Some 64) (Some (v_slice key)) (v_slice msg) expected in
      let* _ := vec_drop expected_hash in
      let* _ := vec_drop key in
      let* _ := vec_drop msg in
      blake2b_loop r
  end.

Definition test_blake2b_vectors : M unit :=
  let* r := open_lines "testvectors/blake2b-kat.txt" in blake2b_loop r.

(** ** The tests of ed25519.rs *)

Context `{SE : SignExterns} `{Cr : Ed25519Crate}.

(** [x.next().unwrap()] *)
Definition next_unwrap (x : list bytes) : M (bytes * list bytes) :=
  match x with p :: x => ret (p, x) | [] => panic end.

(** [assert!(x == hex::encode(s))] *)
Definition hex_is (x : bytes) (s : slice) : M unit :=
  let* v := hex.encode s in
  let* e := contents v in
  assert (bool_decide (x = e)).

(** [let seed_bytes = hex::decode(&x0[..64]).unwrap();] *)
Definition seed_bytes (x0 : bytes) : M vec :=
  let* s := str_to 64 x0 in hex_unwrap s.

(** [seed.0.copy_from_slice(&seed_bytes);], and the loop over
    [seed.0.iter_mut().zip(seed_bytes.iter())] *)
Definition seed_copied (seed : positive) (from : vec) : M unit :=
  copy_from_slice (Slice (At seed 0) sign.SEEDBYTES) (v_slice from).
Definition seed_zipped (seed : positive) (from : vec) : M unit :=
  let* _ := assert (v_len from =? sign.SEEDBYTES) in
  for_range 0 (Z.to_nat (Z.min sign.SEEDBYTES (v_len from))) (fun i =>
    let* b := read (ptr_add (v_ptr from) i) 1 in write (At seed (Z.to_nat i)) b).

(** [let mut seed = Seed([0u8; SEEDBYTES]); ...; let (pk, sk) = keypair_from_seed(&seed);
    let m = hex::decode(x2).unwrap();] *)
Definition with_vector (fill : positive -> vec -> M unit) (x0 x2 : bytes) (f : ptr -> ptr -> vec -> M unit) : M unit :=
  let* from := seed_bytes x0 in
  let* seed := stack_array sign.SEEDBYTES in
  let* _ := fill seed from in
  with_keypair (sign.keypair_from_seed (At seed 0)) (fun pk sk =>
    let* m := hex_unwrap x2 in f pk sk m).

Definition ed25519_line (line : bytes) : M unit :=
  let* '(x0, x) := next_unwrap (split x3a line) in
  let* '(x1, x) := next_unwrap x in
  let* '(x2, x) := next_unwrap x in
  let* '(x3, x) := next_unwrap x in
  with_vector seed_copied x0 x2 (fun pk sk m =>
    let* sm := sign.sign (v_slice m) sk in
    let* r := sign.verify (v_slice sm) pk in
    let* _ := unwrap r in
    let* _ := hex_is x1 (NewType.as_ref sign.PublicKey pk) in
    hex_is x3 (v_slice sm)).

Definition ed25519_detached_line (line : bytes) : M unit :=
  let* '(x0, x) := next_unwrap (split x3a line) in
  let* '(x1, x) := next_unwrap x in
  let* '(x2, x) := next_unwrap x in
  let* '(x3, x) := next_unwrap x in
  with_vector seed_zipped x0 x2 (fun pk sk m =>
    let* sig := local (sign.sign_detached (v_slice m) sk) in
    let* r := sign.verify_detached sig (v_slice m) pk in
    let* _ := assert r in
    let* _ := hex_is x1 (NewType.as_ref sign.PublicKey pk) in
    let* v := hex.encode (Slice sig sign.SIGNATUREBYTES) in
    let* h := contents v in
    assert (bool_decide (x3 = h ++ x2))).

Definition ed25519_streaming_line (line : bytes) : M unit :=
  let* '(x0, x) := next_unwrap (split x3a line) in
  let* '(x1, x) := next_unwrap x in
  let* '(x2, x) := next_unwrap x in
  with_vector seed_zipped x0 x2 (fun pk sk m =>
    let* creation_state := local sign.State_init in
    let* _ := sign.State_update creation_state (v_slice m) in
    let* sig := local (finalize_copy creation_state sk) in
    let* validator_state := local sign.State_init in
    let* _ := sign.State_update validator_state (v_slice m) in
    let* r := sign.State_verify validator_state sig pk in
    let* _ := assert r in
    hex_is x1 (NewType.as_ref sign.PublicKey pk)).

(** [for mline in r.lines() { ... }] *)
Fixpoint for_lines (f : bytes -> M unit) (r : lines) : M unit :=
  match r with
  | [] => ret tt
  | line :: r => let* _ := f (chomp line) in for_lines f r
  end.

Definition test_vectors : M unit :=
  let* r := open_lines "testvectors/ed25519.input" in for_lines ed25519_line r.
Definition test_vectors_detached : M unit :=
  let* r := open_lines "testvectors/ed25519.input" in for_lines ed25519_detached_line r.
Definition test_streaming_vectors : M unit :=
  let* r := open_lines "testvectors/ed25519.input" in for_lines ed25519_streaming_line r.

End Programs.

(** *** The form of the files *)

(** A comment, an empty line, the length of the digests; or the three lines of
    a vector, with the texts after the equals signs *)
Inductive nist_item :=
  | NistLine (text : bytes)
  | NistVector (len msg md : bytes).

Definition nl (text : bytes) : bytes := text ++ [x0a].

Definition nist_print (i : nist_item) : lines :=
  match i with
  | NistLine text => [nl text]
  | NistVector len msg md =>
    [nl (string_bytes "Len = " ++ len); nl (string_bytes "Msg = " ++ msg); nl (string_bytes "MD = " ++ md)]
  end.

Definition short_plain (s : bytes) : Prop := plain s /\ zlen s <= 2 ^ 20.

Definition nist_form (i : nist_item) : Prop :=
  match i with
  | NistLine text => bytes_start (string_bytes "Len = ") (nl text) = false
  | NistVector len msg md => plain len /\ short_plain msg /\ short_plain md
  end.

(** The vector is well-formed and the digest of the first [len] bits of the
    message is the one it gives. *)
Definition nist_right `{T : Target} (digest : bytes -> bytes) (i : nist_item) : bool :=
  match i with
  | NistLine _ => true
  | NistVector len msg md =>
    match parse_usize len, hex_dec msg, hex_dec md with
    | Some len, Some raw, Some md =>
      (len / 8 <=? zlen raw) && bool_decide (digest (take (Z.to_nat (len / 8)) raw) = md)
    | _, _, _ => false
    end
  end.

(** ** When they pass *)

(** Whether a test passes, when it does not depend on the world *)
Definition verdict (w : world) (t : M unit) (b : bool) : Prop := does w (catch t) (fun b' _ => b' = b).

Lemma verdict_settles w t b : verdict w t b -> settles_at w t (b = true).
Proof. intros Hv. apply catch_settles. eapply does_mono; [exact Hv|]. by intros ? ? ->. Qed.

Section Rules.
Context (Q : bool -> world -> Prop).

Lemma catch_panic {X} w (f : X -> M unit) : Q false dead -> does w (catch (bind panic f)) Q.
Proof. intros Hq. by exists false, dead. Qed.

Lemma catch_ok {X} w (a : X) f : does w (catch (f a)) Q -> does w (catch (bind (ret a) f)) Q.
Proof. done. Qed.

(** A prefix of ASCII is cut off. *)
Lemma catch_str_from w n pre s f :
  zlen pre = n -> Forall (fun c => byte_val c < 128) s ->
  does w (catch (f s)) Q -> does w (catch (bind (str_from n (pre ++ s)) f)) Q.
Proof.
  intros <- Hs Hf. unfold str_from. rewrite to_nat_zlen, drop_app_length, utf8_ascii by done.
  pose proof (zlen_nonneg s). rewrite zlen_app, (proj2 (Z.leb_le _ _)) by lia. exact Hf.
Qed.

Context `{T : Target} `{CE : CodecExterns} {CD : CodecDoc CE}.

Lemma catch_hex w m s f :
  holds w m -> zlen s <= isize_max ->
  match hex_dec s with
  | Some bs => forall b w', m !! b = None -> holds w' (<[b := bs]> m) -> does w' (catch (f (Vec b (zlen bs) (zlen bs)))) Q
  | None => Q false dead
  end -> does w (catch (bind (hex_unwrap s) f)) Q.
Proof.
  intros Hw Hl Hf. unfold hex_unwrap. apply catch_assoc, catch_bind.
  eapply local_place; [exact Hw|]. intros p w1 Hp Hw1. apply catch_assoc, catch_bind.
  assert (Hs : is_slice w1 (Slice (At p 0) (zlen s)) s) by (eapply holds_slice; [exact Hw1|local_tac|done|done]).
  pose proof (hex_decode_run w1 _ s Hs) as Hrun. destruct (hex_dec s) as [bs|].
  - eapply local_run; [exact Hrun|]. apply catch_unwrap. pose proof (fresh_block_spec w1) as Hb.
    assert (Hm : <[p:=s]> m !! fresh_block w1 = None) by by eapply holds_None.
    apply Hf; [by apply lookup_insert_None in Hm as [? _]|].
    eapply holds_mono; [|by eapply holds_insert]. apply insert_mono. by apply insert_subseteq.
  - destruct Hrun as (w2 & Hr & _). eapply local_run; [exact Hr|]. by apply catch_unwrap.
Qed.

End Rules.

Section NistPass.
Context `{T : Target} `{CE : CodecExterns} {CD : CodecDoc CE} (A : hash_module) {D : HashDoc A}.

(** [line.starts_with(pat)] and [&line[n..]] on a line with this start *)
Lemma bytes_start_app pat s : bytes_start pat (pat ++ s) = true.
Proof. apply bool_decide_true. by rewrite take_app_length. Qed.

Lemma nl_app a b : nl (a ++ b) = a ++ nl b.
Proof. unfold nl. by rewrite app_assoc. Qed.

Lemma nl_ascii s : plain s -> Forall (fun c => byte_val c < 128) (nl s).
Proof. intros Hs. apply Forall_app_2; [by apply plain_ascii|by repeat constructor]. Qed.

Lemma nl_not_nil s : nl s <> [].
Proof. unfold nl. by destruct s. Qed.

Lemma short_fits s : short_plain s -> zlen s <= isize_max.
Proof. intros [_ Hl]. pose proof isize_max_bounds. etrans; [exact Hl|]. lia. Qed.

(** One round of the loop, on a vector; [rest] is what follows. *)
Lemma nist_round w len msg md b rest :
  nist_form (NistVector len msg md) -> (forall w', verdict w' (nist_loop A rest) b) ->
  verdict w (nist_loop A (nist_print (NistVector len msg md) ++ rest))
    (nist_right (st_digest hash_streaming tt) (NistVector len msg md) && b).
Proof.
  intros (Hlen & Hmsg & Hmd) Hrest. pose proof isize_max_bounds. unfold verdict. cbn [nist_print app].
  rewrite !nl_app. cbn [nist_loop line_of after_line].
  rewrite bool_decide_eq_false_2 by (by destruct len). rewrite bytes_start_app.
  apply catch_str_from; [done|by apply nl_ascii|]. unfold nl at 1. rewrite trim_line by done.
  apply catch_unwrap. cbn [nist_right]. destruct (parse_usize len) as [n|] eqn:En; cbn [ok_or]; [|done].
  apply catch_str_from; [done|by apply nl_ascii, Hmsg|]. unfold nl at 1. rewrite trim_line by apply Hmsg.
  eapply (catch_hex _ (CD := CD)); [apply holds_empty|by apply short_fits|]. destruct (hex_dec msg) as [raw|] eqn:Er; [|done].
  intros r w1 Hr Hw1. pose proof (hex_dec_zlen _ _ Er) as Hlr. pose proof (short_fits _ Hmsg) as Hfm.
  pose proof (zlen_nonneg raw). assert (Hn : 0 <= n / 8) by (apply Z.div_pos; [by eapply parse_usize_nonneg|lia]).
  sl. unfold slice_index at 1. cbn [s_len s_ptr]. rewrite (proj2 (Z.leb_le 0 _)) by done. cbn [andb].
  destruct (Z.leb_spec (n / 8) (zlen raw)) as [Hle|Hgt]; cbn [andb];
    [|apply catch_panic; by destruct (hex_dec md)]. apply catch_ok.
  apply catch_str_from; [done|by apply nl_ascii, Hmd|]. unfold nl at 1. rewrite trim_line by apply Hmd.
  eapply (catch_hex _ (CD := CD)); [exact Hw1|by apply short_fits|]. destruct (hex_dec md) as [d|] eqn:Ed; [|done].
  intros e w2 He Hw2. fresh_facts. set (m := take (Z.to_nat (n / 8)) raw).
  assert (Hm : is_slice w2 (Slice (ptr_add (At r 0) 0) (n / 8 - 0)) m).
  { destruct (holds_ref w2 _ r raw Hw2 ltac:(local_tac)) as [Hb _].
    rewrite <- (take_drop (Z.to_nat (n / 8)) raw) in Hb. apply bytes_at_app_l in Hb.
    assert (Hlm : zlen m = n / 8) by (unfold m, zlen in *; rewrite length_take; lia).
    split_and!; cbn [s_ptr s_len]; [exact Hb|lia|lia]. }
  apply catch_bind. eapply local_run; [by apply hash_run|]. apply catch_bind.
  eapply local_contents; [exact Hw2|local_tac|done|]. fold (st_digest hash_streaming tt m).
  apply catch_assert_bind; [|by intros -> w']. intros ->. cbn [andb]. apply catch_bind.
  eapply local_drop; [exact Hw2|local_tac|]. intros w3 Hw3. apply catch_bind.
  eapply local_drop; [exact Hw3|rewrite lookup_delete_ne by done; local_tac|]. intros w4 _. apply Hrest.
Qed.

Lemma nist_verdict items : Forall nist_form items -> forall w,
  verdict w (nist_loop A (concat (nist_print <$> items))) (forallb (nist_right (st_digest hash_streaming tt)) items).
Proof.
  induction 1 as [|i items Hi _ IH]; intros w; [by exists true, w|].
  cbn [fmap list_fmap concat forallb]. destruct i as [text|len msg md]; [|by apply nist_round].
  cbn [nist_print app nist_loop nist_right]. rewrite bool_decide_eq_false_2 by apply nl_not_nil.
  cbn [nist_form] in Hi. rewrite Hi. apply IH.
Qed.

End NistPass.

Section Blake2bPass.
Context `{T : Target} `{CE : CodecExterns} {CD : CodecDoc CE} `{GE : GenerichashExterns} {GD : GenerichashDoc GE}.

(** An empty line, or the three lines of a vector; before the values is a
    tabulator. *)
Inductive blake2b_item :=
  | Blake2bLine
  | Blake2bVector (msg key hash : bytes).

Definition blake2b_print (i : blake2b_item) : lines :=
  match i with
  | Blake2bLine => [nl []]
  | Blake2bVector msg key h =>
    [string_bytes "in:" ++ x09 :: nl msg; string_bytes "key:" ++ x09 :: nl key; string_bytes "hash:" ++ x09 :: nl h]
  end.

Definition blake2b_form (i : blake2b_item) : Prop :=
  match i with
  | Blake2bLine => True
  | Blake2bVector msg key h => short_plain msg /\ short_plain key /\ short_plain h
  end.

Definition blake2b_right (i : blake2b_item) : bool :=
  match i with
  | Blake2bLine => true
  | Blake2bVector msg key h =>
    match hex_dec msg, hex_dec key, hex_dec h with
    | Some msg, Some key, Some h =>
      bool_decide (key_valid (Some (Slice Null 0)) key /\ st_digest (gh 64) key msg = h)
    | _, _, _ => false
    end
  end.

Lemma catch_field (Q : bool -> world -> Prop) name n w m s f :
  zlen (string_bytes name) = n -> holds w m -> short_plain s ->
  match hex_dec s with
  | Some bs => forall b w', m !! b = None -> holds w' (<[b := bs]> m) -> does w' (catch (f (Vec b (zlen bs) (zlen bs)))) Q
  | None => Q false dead
  end -> does w (catch (bind (blake2b_field name n (string_bytes name ++ x09 :: nl s)) f)) Q.
Proof.
  intros Hn Hw Hs Hf. apply catch_assoc. rewrite bytes_start_app. apply catch_ok, catch_assoc.
  apply catch_str_from; [done|constructor; [by vm_compute|by apply nl_ascii, Hs]|].
  unfold nl. rewrite trim_tab by apply Hs. by eapply (catch_hex _ (CD := CD)); [exact Hw|apply short_fits|].
Qed.

Lemma catch_digest_is (Q : bool -> world -> Prop) w m b d h f :
  holds w m -> m !! b = Some (d ++ zeros 0) -> zlen d = 64 ->
  (if decide (d = h) then does w (catch (f tt)) Q else Q false dead) ->
  does w (catch (bind (digest_is (digest.Ref 64 (At b 0)) h) f)) Q.
Proof.
  intros Hw Hb Hd Hf. apply catch_assoc, catch_bind.
  assert (Hdig : is_digest w (digest.Ref 64 (At b 0)) 64 d).
  { split_and!; [done|done|done|done|]. exists (zeros 0). cbn [digest.r_data].
    replace crypto_generichash_BYTES_MAX with (zlen (d ++ zeros 0)); [by eapply holds_ref|by rewrite app_nil_r]. }
  eapply local_run; [by eapply digest_as_bytes_run|].
  destruct (decide (d = h)) as [He|He].
  - rewrite bool_decide_true by done. by apply catch_ok.
  - rewrite bool_decide_false by done. by apply catch_panic.
Qed.

(** The digest of the streaming interface and the one of the function, compared
    with the expected one *)
Lemma catch_generichash_compare (Q : bool -> world -> Prop) w m k kb d x h f :
  holds w m -> m !! k = Some kb -> m !! d = Some x -> zlen kb <= isize_max -> zlen x <= isize_max ->
  (if decide (key_valid (Some (Slice Null 0)) kb /\ st_digest (gh 64) kb x = h)
   then forall w', holds w' m -> does w' (catch (f tt)) Q else Q false dead) ->
  does w (catch (bind (generichash_compare (Some 64) (Some (Slice (At k 0) (zlen kb))) (Slice (At d 0) (zlen x)) h) f)) Q.
Proof.
  intros Hw Hk Hd Hkl Hxl Hf.
  assert (Ho : out_valid (Some 64)) by (cbn; unfold gh_out_ok; lia). pose proof (out_valid_ok _ Ho) as Hok.
  pose proof (gh_laws _ Hok) as L. cbn [default] in *.
  set (ks := Slice (At k 0) (zlen kb)). set (xs := Slice (At d 0) (zlen x)).
  assert (Ha : forall w' m', holds w' m' -> m ⊆ m' -> is_key w' (Some ks) kb /\ is_slice w' xs x).
  { intros w' m' Hw' Hsub. split; (eapply holds_slice; [exact Hw'|by eapply lookup_weaken|done|done]). }
  destruct (Ha w m Hw (reflexivity m)) as [Hks Hxs].
  change (key_valid (Some (Slice Null 0)) kb) with (key_valid (Some ks) kb) in Hf.
  apply catch_assoc. destruct (decide (key_valid (Some ks) kb)) as [Hv|Hv].
  2: { rewrite decide_False in Hf by tauto. apply catch_assoc, catch_bind.
    eapply local_run; [rewrite (gh_new_run w (Some 64) (Some ks) kb Hks); by rewrite decide_False by tauto|].
    apply catch_assoc. by apply catch_unwrap. }
  assert (Hl : zlen (st_digest (gh 64) kb x) = 64)
    by (unfold st_digest; rewrite (st_final_zlen (S := gh 64)); by apply gh_out).
  destruct (digest_of_run w (Some 64) (Some ks) kb xs x Hks Hv Ho Hxs) as (w1 & Em & Hrun). cbn [default] in Hrun.
  set (dg := st_digest (gh 64) kb x) in *. set (b := fresh_block w1). set (w2 := w_put b (Some <$> dg ++ zeros 0) w1).
  apply catch_bind. eapply (local_run _ _ _ (digest.Ref 64 (At b 0)) w2); [by rewrite Hrun|].
  assert (Hw1 : holds w1 m) by by eapply (holds_same w).
  assert (Hw2 : holds w2 (<[b := dg ++ zeros 0]> m)) by by eapply holds_insert.
  assert (Hb : m !! b = None) by (eapply holds_None; [exact Hw1|apply fresh_block_spec]).
  apply catch_assoc. eapply catch_digest_is; [exact Hw2|local_tac|done|].
  destruct (decide (dg = h)) as [He|He]; [|by rewrite decide_False in Hf by tauto]. rewrite decide_True in Hf by done.
  destruct (Ha w2 _ Hw2 (insert_subseteq _ _ _ Hb)) as [Hks2 Hxs2].
  apply catch_assoc, catch_bind.
  eapply local_run; [rewrite (generichash_run w2 xs (Some 64) (Some ks) x kb Hxs2 Hks2); by rewrite decide_True|].
  apply catch_assoc, catch_unwrap. cbn [digest.data digest.len default]. apply catch_assoc, catch_bind.
  eapply local_place; [exact Hw2|]. intros c w3 Hc Hw3.
  eapply catch_digest_is; [exact Hw3|local_tac|done|]. rewrite decide_True by done. apply Hf.
  eapply holds_mono; [|exact Hw3]. etrans; [by apply insert_subseteq|]. by apply insert_subseteq.
Qed.

Lemma blake2b_verdict items : Forall blake2b_form items -> forall w,
  verdict w (blake2b_loop (concat (blake2b_print <$> items))) (forallb blake2b_right items).
Proof.
  induction 1 as [|i items Hi _ IH]; intros w; [by exists true, w|].
  cbn [fmap list_fmap concat forallb]. destruct i as [|msg key h]; cbn [blake2b_print app blake2b_loop]; [apply IH|].
  destruct Hi as (Hm & Hk & Hh). rewrite bool_decide_eq_false_2 by done.
  assert (Hlong : zlen (string_bytes "in:" ++ x09 :: nl msg) <=? 3 = false).
  { apply Z.leb_gt. unfold nl. rewrite zlen_app, zlen_cons, zlen_app. change (zlen (string_bytes "in:")) with 3. pose proof (zlen_nonneg msg). change (zlen [x0a]) with 1. lia. }
  cbn [string_bytes] in *. rewrite Hlong, andb_false_r. cbn [line_of after_line blake2b_right].
  eapply catch_field; [done|apply holds_empty|exact Hm|]. destruct (hex_dec msg) as [mb|] eqn:Em; [|done].
  intros a w1 Ha Hw1. eapply catch_field; [done|exact Hw1|exact Hk|]. destruct (hex_dec key) as [kb|] eqn:Ek; [|done].
  intros k w2 Hk2 Hw2. eapply catch_field; [done|exact Hw2|exact Hh|]. destruct (hex_dec h) as [hb|] eqn:Eh; [|done].
  intros e w3 He Hw3. fresh_facts. apply catch_bind. eapply local_contents; [exact Hw3|local_tac|done|].
  pose proof (hex_dec_zlen _ _ Em). pose proof (hex_dec_zlen _ _ Ek). pose proof (short_fits _ Hm). pose proof (short_fits _ Hk).
  pose proof (zlen_nonneg mb). pose proof (zlen_nonneg kb). sl.
  eapply catch_generichash_compare; [exact Hw3|local_tac|local_tac|lia|lia|].
  destruct (decide _) as [Hr|Hr]; [|by rewrite bool_decide_eq_false_2]. rewrite bool_decide_eq_true_2 by done.
  intros w4 Hw4. apply catch_bind. eapply local_drop; [exact Hw4|local_tac|]. intros w5 Hw5.
  apply catch_bind. eapply local_drop; [exact Hw5|rewrite lookup_delete_ne by done; local_tac|]. intros w6 Hw6.
  apply catch_bind. eapply local_drop; [exact Hw6|rewrite !lookup_delete_ne by done; local_tac|]. intros w7 _. apply IH.
Qed.

End Blake2bPass.

Section Ed25519Pass.
Context `{T : Target} `{CE : CodecExterns} {CD : CodecDoc CE} `{SE : SignExterns} {SD : SignDoc SE}.
Context `{Cr : Ed25519Crate} {CrD : Ed25519CrateDoc Cr}.

(** A line: the seed and the public key, the public key, the message, the
    signature and the message, and what nothing is read of *)
Record ed25519_item := Ed25519Item {
  ed_x0 : bytes;
  ed_x1 : bytes;
  ed_x2 : bytes;
  ed_x3 : bytes;
  ed_rest : bytes
}.

Definition ed25519_text (i : ed25519_item) : bytes :=
  ed_x0 i ++ x3a :: ed_x1 i ++ x3a :: ed_x2 i ++ x3a :: ed_x3 i ++ x3a :: ed_rest i.
Definition ed25519_print (i : ed25519_item) : lines := [nl (ed25519_text i)].

(** A part of a line *)
Definition part (s : bytes) : Prop := short_plain s /\ x3a ∉ s.
Definition ed25519_form (i : ed25519_item) : Prop :=
  part (ed_x0 i) /\ part (ed_x1 i) /\ part (ed_x2 i) /\ part (ed_x3 i) /\ plain (ed_rest i).

(** The seed and the message *)
Definition ed25519_values (x0 x2 : bytes) : option (bytes * bytes) :=
  if 64 <=? zlen x0 then
    match hex_dec (take 64 x0), hex_dec x2 with Some s, Some m => Some (s, m) | _, _ => None end
  else None.

(** The key and the text of the signed message are those of the line. *)
Definition ed25519_right (signed : bytes -> bytes -> bytes -> bytes) (i : ed25519_item) : bool :=
  match ed25519_values (ed_x0 i) (ed_x2 i) with
  | Some (s, m) =>
    bool_decide (ed_x1 i = hex_enc (ed_public (ed_seeded s)) /\ ed_x3 i = signed (ed_sign (ed_seeded s) m) m (ed_x2 i))
  | None => false
  end.
Definition ed25519_combined : ed25519_item -> bool := ed25519_right (fun sig m _ => hex_enc (sig ++ m)).
Definition ed25519_detached : ed25519_item -> bool := ed25519_right (fun sig _ x2 => hex_enc sig ++ x2).
Definition ed25519_streaming (i : ed25519_item) : bool :=
  match ed25519_values (ed_x0 i) (ed_x2 i) with
  | Some (s, _) => bool_decide (ed_x1 i = hex_enc (ed_public (ed_seeded s)))
  | None => false
  end.

Lemma catch_last (Q : bool -> world -> Prop) w (p : M unit) : does w (catch (bind p ret)) Q -> does w (catch p) Q.
Proof.
  intros (b & w' & Hr & Hq). exists b, w'. split; [|done]. rewrite <- Hr. unfold catch, bind.
  by destruct (p w) as [[]| | |].
Qed.

Lemma catch_hex_is (Q : bool -> world -> Prop) w m x s bs f :
  holds w m -> is_slice w s bs -> 2 * zlen bs + 1 <= isize_max ->
  (if decide (x = hex_enc bs) then forall w', holds w' m -> does w' (catch (f tt)) Q else Q false dead) ->
  does w (catch (bind (hex_is x s) f)) Q.
Proof.
  intros Hw Hs Hl Hf. pose proof (hex_enc_zlen bs) as Hz. apply catch_assoc, catch_bind.
  eapply local_run; [by apply hex_encode_run|]. set (b := fresh_block w). pose proof (fresh_block_spec w : w_mem w !! b = None) as Hb.
  apply catch_assoc, catch_bind. eapply local_run.
  { unfold contents, slice_bytes. sl. cbn [s_ptr s_len]. apply (read_run _ _ _ (hex_enc bs)); [|done].
    apply (bytes_at_app_l _ _ _ [x00]). apply bytes_at_put_same. }
  destruct (decide (x = hex_enc bs)) as [He|He].
  - rewrite bool_decide_true by done. apply catch_ok, Hf. eapply holds_mono; [|by eapply holds_insert].
    apply insert_subseteq. by eapply holds_None.
  - rewrite bool_decide_false by done. apply catch_last. by apply catch_panic.
Qed.

(** The two ways to fill the seed *)
Definition fills (fill : positive -> vec -> M unit) : Prop :=
  forall w m seed p s, holds w m -> m !! p = Some s -> m !! seed = Some (zeros 32) -> p <> seed -> zlen s = 32 ->
    does w (fill seed (Vec p 32 32)) (fun _ w' => holds w' (<[seed := s]> m)).

Lemma seed_copied_fills : fills seed_copied.
Proof.
  intros w m seed p s Hw Hp Hs Hne Hl. unfold seed_copied, copy_from_slice. sl. cbn [s_len s_ptr].
  change (sign.SEEDBYTES =? 32) with true. cbn iota.
  eapply (local_read _ w m p s 32); [exact Hw|exact Hp|done|]. eapply does_eq.
  - apply write_run. eapply in_range_bytes; [exact (proj1 (holds_ref w m seed _ Hw Hs))|done].
  - eapply holds_store; [exact Hw|exact Hs|done].
Qed.

Lemma seed_zipped_fills : fills seed_zipped.
Proof.
  intros w m seed p s Hw Hp Hs Hne Hl. unfold seed_zipped. apply local_assert; [done|]. cbn [v_len].
  replace (Z.min sign.SEEDBYTES 32) with (zlen s) by done.
  eapply does_mono; [apply (does_copy _ w m p s seed 32); [exact Hw|exact Hp|exact Hs|lia|done|]|].
  - intros i w' Hi. reflexivity.
  - intros [] w'. rewrite Hl. by rewrite app_nil_r.
Qed.

Lemma catch_str_to (Q : bool -> world -> Prop) w n s f :
  0 <= n -> Forall (fun c => byte_val c < 128) s ->
  (if n <=? zlen s then does w (catch (f (take (Z.to_nat n) s))) Q else Q false dead) ->
  does w (catch (bind (str_to n s) f)) Q.
Proof.
  intros Hn Hs Hf. unfold str_to. rewrite utf8_ascii by by apply Forall_drop. rewrite andb_true_r.
  destruct (n <=? zlen s); [exact Hf|by apply catch_panic].
Qed.

Lemma catch_vector (Q : bool -> world -> Prop) w fill x0 x2 f :
  fills fill -> part x0 -> part x2 ->
  match ed25519_values x0 x2 with
  | Some (s, m) => forall w' pk sk b, pk <> sk -> pk <> b -> sk <> b ->
      holds w' (<[b := m]> (<[sk := ed_seeded s]> (<[pk := ed_public (ed_seeded s)]> ∅))) ->
      does w' (catch (f (At pk 0) (At sk 0) (Vec b (zlen m) (zlen m)))) Q
  | None => Q false dead
  end -> does w (catch (with_vector fill x0 x2 f)) Q.
Proof.
  intros Hfill [H0 _] [H2 _] Hf. unfold with_vector, seed_bytes, ed25519_values in *.
  apply catch_assoc, catch_str_to; [done|by apply plain_ascii, H0|].
  destruct (Z.leb_spec 64 (zlen x0)) as [Hl|Hl]; [|done]. change (Z.to_nat 64) with 64%nat.
  assert (Ht : zlen (take 64 x0) = 64) by (unfold zlen in *; rewrite length_take; lia).
  eapply (catch_hex _ (CD := CD)); [apply holds_empty|rewrite Ht; pose proof isize_max_bounds; lia|].
  destruct (hex_dec (take 64 x0)) as [s|] eqn:Es; [|done]. pose proof (hex_dec_zlen _ _ Es) as Hs.
  assert (Hs32 : zlen s = 32) by lia. rewrite Hs32.
  intros p w1 _ Hw1. apply catch_bind. eapply local_array; [exact Hw1|]. intros seed w2 Hseed Hw2. fresh_facts.
  apply catch_bind. eapply does_bind; [eapply Hfill; [exact Hw2|local_tac|local_tac|done|done]|]. intros [] w3 Hw3.
  rewrite insert_insert_eq in Hw3. unfold with_keypair.
  apply catch_bind. eapply local_run; [apply sign_keypair_from_seed_run; rewrite <- Hs32; eapply holds_ref; [exact Hw3|local_tac]|].
  cbn beta iota. apply catch_bind. eapply local_place; [apply (holds_empty w3)|]. intros pk w4 _ Hw4.
  apply catch_bind. eapply local_place; [exact Hw4|]. intros sk w5 Hsk Hw5. fresh_facts.
  eapply (catch_hex _ (CD := CD)); [exact Hw5|by apply short_fits|].
  destruct (hex_dec x2) as [m|]; [|done]. intros b w6 Hb Hw6. fresh_facts. by apply Hf.
Qed.

(** The parts of a line *)
Lemma split_line i : ed25519_form i ->
  split x3a (ed25519_text i) = ed_x0 i :: ed_x1 i :: ed_x2 i :: ed_x3 i :: split x3a (ed_rest i).
Proof. intros ([_ H0] & [_ H1] & [_ H2] & [_ H3] & _). unfold ed25519_text. by rewrite !split_app. Qed.

Lemma message_fits x0 x2 s m : part x2 -> ed25519_values x0 x2 = Some (s, m) -> zlen m <= 2 ^ 19.
Proof.
  intros [[_ Hl] _]. unfold ed25519_values. case_match; [|done]. destruct (hex_dec (take 64 x0)); [|done].
  destruct (hex_dec x2) as [m'|] eqn:Em; [|done]. intros [= _ <-]. apply hex_dec_zlen in Em. lia.
Qed.

Lemma key_slice w m pk sk : holds w m -> m !! pk = Some (ed_public sk) ->
  is_slice w (NewType.as_ref sign.PublicKey (At pk 0)) (ed_public sk).
Proof.
  intros Hw Hp. pose proof isize_max_bounds. pose proof (ed_public_zlen sk).
  eapply (holds_slice w m pk); [exact Hw|exact Hp|by symmetry|]. change (nt_bytes sign.PublicKey) with 32. lia.
Qed.

Lemma vector_key_ref w m p bs n : holds w m -> m !! p = Some bs -> zlen bs = n -> is_ref w (At p 0) n bs.
Proof. intros Hw Hp <-. by eapply holds_ref. Qed.

Lemma ed25519_line_verdict i w : ed25519_form i -> verdict w (ed25519_line (ed25519_text i)) (ed25519_combined i).
Proof.
  intros Hi. pose proof isize_max_bounds. unfold verdict, ed25519_line, ed25519_combined, ed25519_right.
  rewrite split_line by done. destruct Hi as (H0 & _ & H2 & _).
  do 4 (apply catch_ok; cbn beta iota).
  apply catch_vector; [exact seed_copied_fills|exact H0|exact H2|].
  destruct (ed25519_values _ _) as [[s m]|] eqn:Ev; [|done]. pose proof (message_fits _ _ _ _ H2 Ev) as Hm.
  intros w1 pk sk b Hps Hpb Hsb Hw1. set (key := ed_seeded s) in *. set (sig := ed_sign key m).
  pose proof (ed_public_zlen key). pose proof (ed_seeded_zlen s). pose proof (zlen_nonneg m).
  assert (Hval : ed_valid (ed_public key) m sig = true) by apply ed_valid_sign.
  assert (Hsig : zlen sig = 64) by apply ed_sign_zlen. assert (Hlen : length sig = 64%nat) by (unfold zlen in Hsig; lia).
  apply catch_bind. sl. eapply local_new; [exact Hw1| | |].
  { apply sign_run; [eapply holds_slice; [exact Hw1|local_tac|done|lia]|lia|eapply vector_key_ref; [exact Hw1|local_tac|done]]. }
  { reflexivity. }
  intros sm w2 Hsm Hw2. fresh_facts. fold sig in Hw2.
  assert (Hsz : zlen (sig ++ m) = zlen m + 64) by (rewrite zlen_app; lia).
  apply catch_bind. eapply local_run.
  { rewrite (sign_verify_run w2 _ _ (sig ++ m) (ed_public key)).
    - rewrite drop_app_length', take_app_length' by done. rewrite Hval.
      rewrite Hsz, (proj2 (Z.leb_le _ _)) by lia. reflexivity.
    - sl. eapply holds_slice; [exact Hw2|local_tac|by rewrite Hsz|lia].
    - eapply vector_key_ref; [exact Hw2|local_tac|done]. }
  set (w3 := w_put _ _ w2).
  assert (Hw3 : holds w3 (<[sm:=sig ++ m]> (<[b:=m]> (<[sk:=key]> (<[pk:=ed_public key]> ∅))))).
  { eapply holds_mono; [|by eapply holds_insert]. apply insert_subseteq. eapply holds_None; [exact Hw2|apply fresh_block_spec]. }
  apply catch_unwrap. eapply catch_hex_is; [exact Hw3|eapply key_slice; [exact Hw3|local_tac]|lia|].
  destruct (decide (ed_x1 i = _)) as [E1|E1]; [|rewrite bool_decide_false by (intros [? _]; done); done].
  intros w4 Hw4. apply catch_last. eapply catch_hex_is; [exact Hw4|sl; eapply holds_slice; [exact Hw4|local_tac|by rewrite Hsz|lia]|lia|].
  destruct (decide (ed_x3 i = _)) as [E3|E3]; [|rewrite bool_decide_false by (intros [_ ?]; done); done].
  intros w5 _. rewrite bool_decide_true by done. by apply catch_ret.
Qed.

Lemma ed25519_detached_verdict i w :
  ed25519_form i -> verdict w (ed25519_detached_line (ed25519_text i)) (ed25519_detached i).
Proof.
  intros Hi. pose proof isize_max_bounds. unfold verdict, ed25519_detached_line, ed25519_detached, ed25519_right.
  rewrite split_line by done. destruct Hi as (H0 & _ & H2 & _).
  do 4 (apply catch_ok; cbn beta iota).
  apply catch_vector; [exact seed_zipped_fills|exact H0|exact H2|].
  destruct (ed25519_values _ _) as [[s m]|] eqn:Ev; [|done]. pose proof (message_fits _ _ _ _ H2 Ev) as Hm.
  intros w1 pk sk b Hps Hpb Hsb Hw1. set (key := ed_seeded s) in *. set (sg := ed_sign key m).
  pose proof (ed_public_zlen key). pose proof (ed_seeded_zlen s). pose proof (zlen_nonneg m).
  assert (Hval : ed_valid (ed_public key) m sg = true) by apply ed_valid_sign.
  assert (Hsig : zlen sg = 64) by apply ed_sign_zlen. apply catch_bind. sl.
  eapply local_value; [exact Hw1| |reflexivity|].
  { apply sign_detached_run; [eapply holds_slice; [exact Hw1|local_tac|done|lia]|eapply vector_key_ref; [exact Hw1|local_tac|done]]. }
  fold sg. intros sig w2 Hsg Hw2. fresh_facts. apply catch_bind. eapply local_run.
  { rewrite (verify_detached_run w2 _ _ _ sg m (ed_public key)); [rewrite Hval; reflexivity|..].
    - eapply vector_key_ref; [exact Hw2|local_tac|done].
    - eapply holds_slice; [exact Hw2|local_tac|done|lia].
    - eapply vector_key_ref; [exact Hw2|local_tac|done]. }
  apply catch_assert_bind; [intros _|done].
  eapply catch_hex_is; [exact Hw2|eapply key_slice; [exact Hw2|local_tac]|lia|].
  destruct (decide (ed_x1 i = _)) as [E1|E1]; [|rewrite bool_decide_false by (intros [? _]; done); done].
  intros w3 Hw3. apply catch_bind. pose proof (hex_enc_zlen sg). change sign.SIGNATUREBYTES with 64.
  eapply local_run; [apply (hex_encode_run w3 _ sg); [eapply holds_slice; [exact Hw3|local_tac|by rewrite Hsig|lia]|lia]|].
  apply catch_bind. eapply local_run.
  { unfold contents, slice_bytes. sl. cbn [s_ptr s_len]. apply (read_run _ _ _ (hex_enc sg)); [|done].
    apply (bytes_at_app_l _ _ _ [x00]). apply bytes_at_put_same. }
  apply catch_assert. intros _. apply bool_decide_ext. tauto.
Qed.

Lemma ed25519_streaming_verdict i w :
  ed25519_form i -> verdict w (ed25519_streaming_line (ed25519_text i)) (ed25519_streaming i).
Proof.
  intros Hi. pose proof isize_max_bounds. unfold verdict, ed25519_streaming_line, ed25519_streaming.
  rewrite split_line by done. destruct Hi as (H0 & _ & H2 & _).
  do 3 (apply catch_ok; cbn beta iota).
  apply catch_vector; [exact seed_zipped_fills|exact H0|exact H2|].
  destruct (ed25519_values _ _) as [[s m]|] eqn:Ev; [|done]. pose proof (message_fits _ _ _ _ H2 Ev) as Hm.
  intros w1 pk sk b Hps Hpb Hsb Hw1. set (key := ed_seeded s) in *.
  pose proof (ed_public_zlen key). pose proof (ed_seeded_zlen s). pose proof (zlen_nonneg m).
  assert (Hpv : forall d, ph_valid (ed_public key) d (ph_sign key d) = true) by (intros; apply ph_valid_sign).
  assert (Hi0 : zlen (st_init ph tt) = st_size ph) by apply st_init_zlen.
  assert (Hu0 : zlen (st_update ph (st_init ph tt) m) = st_size ph) by apply st_update_zlen.
  apply catch_bind. eapply local_init_state; [exact Hw1|]. intros c w2 Hc Hw2. fresh_facts. sl.
  apply catch_bind. eapply local_update; [exact Hw2|local_tac|exact Hi0|local_tac|congruence|done|lia|]. intros w3 Hw3.
  apply catch_bind. eapply local_finalize; [exact Hw3|local_tac|exact Hu0|local_tac|done|]. intros sig w4 Hsig Hw4. fresh_facts.
  apply catch_bind. eapply local_init_state; [exact Hw4|]. intros v w5 Hv Hw5. fresh_facts.
  apply catch_bind. eapply local_update; [exact Hw5|local_tac|exact Hi0|local_tac|congruence|done|lia|]. intros w6 Hw6.
  apply catch_bind.
  eapply local_verify; [exact Hw6|local_tac|exact Hu0|local_tac|apply ph_sign_zlen|congruence|local_tac|done|congruence|].
  intros w7 Hw7. rewrite Hpv. apply catch_assert_bind; [intros _|done].
  apply catch_last. eapply catch_hex_is; [exact Hw7|eapply key_slice; [exact Hw7|local_tac]|lia|].
  destruct (decide _) as [E1|E1]; [|by rewrite bool_decide_false]. rewrite bool_decide_true by done.
  intros w8 _. by apply catch_ret.
Qed.

(** The loops *)
Lemma verdict_seq w (p q : M unit) a b :
  verdict w p a -> (forall w', verdict w' q b) -> verdict w (let* _ := p in q) (a && b).
Proof.
  intros (r & w1 & Hr & ->) Hq. unfold verdict, does, catch, bind in *. destruct (p w) as [[] w2| | |]; try done.
  - injection Hr as <- <-. apply Hq.
  - injection Hr as <- <-. by eexists _, _.
Qed.

Lemma for_lines_verdict f right items :
  (forall i w, ed25519_form i -> verdict w (f (ed25519_text i)) (right i)) -> Forall ed25519_form items ->
  forall w, verdict w (for_lines f (concat (ed25519_print <$> items))) (forallb right items).
Proof.
  intros Hf. induction 1 as [|i items Hi _ IH]; intros w; [by exists true, w|].
  cbn [fmap list_fmap concat forallb ed25519_print app for_lines]. unfold nl. rewrite chomp_line.
  - apply verdict_seq; [by apply Hf|exact IH].
  - destruct Hi as ([[P0 _] _] & [[P1 _] _] & [[P2 _] _] & [[P3 _] _] & P4). unfold ed25519_text, plain.
    assert (Hc : 33 <= byte_val x3a < 127) by (by vm_compute).
    repeat (apply Forall_app_2; [assumption|constructor; [exact Hc|]]). exact P4.
Qed.

End Ed25519Pass.

(** ** The theorems *)

Lemma verdict_open files name r f w b :
  files name = Some r -> verdict w (f r) b -> settles_at w (let* r := open_lines files name in f r) (b = true).
Proof. intros Hf Hv. apply verdict_settles. unfold open_lines. by rewrite Hf. Qed.

Lemma nist_file_settles `{T : Target} `{CE : CodecExterns} {CD : CodecDoc CE} files A {D : HashDoc A} name items :
  Forall nist_form items -> files name = Some (concat (nist_print <$> items)) ->
  settles (test_nist_vector files A name) (forallb (nist_right (st_digest hash_streaming tt)) items = true).
Proof. intros Hi Hf w. eapply verdict_open; [exact Hf|]. by apply (nist_verdict (CD := CD)). Qed.

(** C15. On files of the form of testvectors/, with any vectors in them, the
    tests of the hash functions, of BLAKE2b and of Ed25519 that read the files
    pass exactly when every vector is well-formed and the functions give the
    values it states; otherwise they panic.  Comments, empty lines and what
    follows the last colon are ignored, a record that is cut short, is not
    hexadecimal, or states more bits than it has is an error. *)
Theorem vector_files_settle `{T : Target} `{CE : CodecExterns} {CD : CodecDoc CE} files
    A {D : HashDoc A} name nists (Hn : Forall nist_form nists) (Fn : files name = Some (concat (nist_print <$> nists)))
    `{GE : GenerichashExterns} {GD : GenerichashDoc GE} blakes (Hb : Forall blake2b_form blakes)
    (Fb : files "testvectors/blake2b-kat.txt"%string = Some (concat (blake2b_print <$> blakes)))
    `{SE : SignExterns} {SD : SignDoc SE}
    `{Cr : Ed25519Crate} {CrD : Ed25519CrateDoc Cr} eds (He : Forall ed25519_form eds)
    (Fe : files "testvectors/ed25519.input"%string = Some (concat (ed25519_print <$> eds))) :
  settles (test_nist_vector files A name) (forallb (nist_right (st_digest hash_streaming tt)) nists = true) /\
  settles (test_blake2b_vectors files) (forallb blake2b_right blakes = true) /\
  settles (test_vectors files) (forallb ed25519_combined eds = true) /\
  settles (test_vectors_detached files) (forallb ed25519_detached eds = true) /\
  settles (test_streaming_vectors files) (forallb ed25519_streaming eds = true).
Proof.
  split_and!.
  - exact (nist_file_settles (CD := CD) files A name nists Hn Fn).
  - intros w. eapply verdict_open; [exact Fb|]. by apply (blake2b_verdict (CD := CD)).
  - intros w. eapply verdict_open; [exact Fe|]. apply for_lines_verdict; [|exact He].
    exact (ed25519_line_verdict (CD := CD)).
  - intros w. eapply verdict_open; [exact Fe|]. apply for_lines_verdict; [|exact He].
    exact (ed25519_detached_verdict (CD := CD) (CrD := CrD)).
  - intros w. eapply verdict_open; [exact Fe|]. apply for_lines_verdict; [|exact He].
    exact (ed25519_streaming_verdict (CD := CD) (CrD := CrD)).
Qed.

(** ** The files *)

Abbreviation str := string_bytes.

(** testvectors/SHA256ShortMsg.rsp *)
Definition sha256_short_msg : list nist_item :=
  [NistLine (str "#  CAVS 11.0");
   NistLine (str "#  " ++ [x22] ++ str "SHA-256 ShortMsg" ++ [x22] ++ str " information");
   NistLine (str "#  SHA-256 tests are configured for BYTE oriented implementations");
   NistLine (str "#  Generated on Tue Mar 15 08:23:38 2011");
   NistLine [];
   NistLine (str "[L = 32]");
   NistLine [];
   NistVector (str "0") (str "00")
     (str "e3b0c44298fc1c149afbf4c8996fb92427ae41e4649b934ca495991b7852b855");
   NistLine [];
   NistVector (str "8") (str "d3")
     (str "28969cdfa74a12c82f3bad960b0b000aca2ac329deea5c2328ebc6f2ba9802c1");
   NistLine [];
   NistVector (str "16") (str "11af")
     (str "5ca7133fa735326081558ac312c620eeca9970d1e70a4b95533d956f072d1f98");
   NistLine [];
   NistVector (str "24") (str "b4190e")
     (str "dff2e73091f6c05e528896c4c831b9448653dc2ff043528f6769437bc7b975c2");
   NistLine [];
   NistVector (str "32") (str "74ba2521")
     (str "b16aa56be3880d18cd41e68384cf1ec8c17680c45a02b1575dc1518923ae8b0e");
   NistLine [];
   NistVector (str "40") (str "c299209682")
     (str "f0887fe961c9cd3beab957e8222494abb969b1ce4c6557976df8b0f6d20e9166");
   NistLine [];
   NistVector (str "48") (str "e1dc724d5621")
     (str "eca0a060b489636225b4fa64d267dabbe44273067ac679f20820bddc6b6a90ac");
   NistLine [];
   NistVector (str "56") (str "06e076f5a442d5")
     (str "3fd877e27450e6bbd5d74bb82f9870c64c66e109418baa8e6bbcff355e287926");
   NistLine [];
   NistVector (str "64") (str "5738c929c4f4ccb6")
     (str "963bb88f27f512777aab6c8b1a02c70ec0ad651d428f870036e1917120fb48bf");
   NistLine [];
   NistVector (str "72") (str "3334c58075d3f4139e")
     (str "078da3d77ed43bd3037a433fd0341855023793f9afd08b4b08ea1e5597ceef20");
   NistLine [];
   NistVector (str "80") (str "74cb9381d89f5aa73368")
     (str "73d6fad1caaa75b43b21733561fd3958bdc555194a037c2addec19dc2d7a52bd");
   NistLine [];
   NistVector (str "88") (str "76ed24a0f40a41221ebfcf")
     (str "044cef802901932e46dc46b2545e6c99c0fc323a0ed99b081bda4216857f38ac");
   NistLine [];
   NistVector (str "96") (str "9baf69cba317f422fe26a9a0")
     (str "fe56287cd657e4afc50dba7a3a54c2a6324b886becdcd1fae473b769e551a09b");
   NistLine [];
   NistVector (str "104") (str "68511cdb2dbbf3530d7fb61cbc")
     (str "af53430466715e99a602fc9f5945719b04dd24267e6a98471f7a7869bd3b4313");
   NistLine [];
   NistVector (str "112") (str "af397a8b8dd73ab702ce8e53aa9f")
     (str "d189498a3463b18e846b8ab1b41583b0b7efc789dad8a7fb885bbf8fb5b45c5c");
   NistLine [];
   NistVector (str "120") (str "294af4802e5e925eb1c6cc9c724f09")
     (str "dcbaf335360de853b9cddfdafb90fa75567d0d3d58af8db9d764113aef570125");
   NistLine [];
   NistVector (str "128") (str "0a27847cdc98bd6f62220b046edd762b")
     (str "80c25ec1600587e7f28b18b1b18e3cdc89928e39cab3bc25e4d4a4c139bcedc4");
   NistLine [];
   NistVector (str "136") (str "1b503fb9a73b16ada3fcf1042623ae7610")
     (str "d5c30315f72ed05fe519a1bf75ab5fd0ffec5ac1acb0daf66b6b769598594509");
   NistLine [];
   NistVector (str "144") (str "59eb45bbbeb054b0b97334d53580ce03f699")
     (str "32c38c54189f2357e96bd77eb00c2b9c341ebebacc2945f97804f59a93238288");
   NistLine [];
   NistVector (str "152") (str "58e5a3259cb0b6d12c83f723379e35fd298b60")
     (str "9b5b37816de8fcdf3ec10b745428708df8f391c550ea6746b2cafe019c2b6ace");
   NistLine [];
   NistVector (str "160") (str "c1ef39cee58e78f6fcdc12e058b7f902acd1a93b")
     (str "6dd52b0d8b48cc8146cebd0216fbf5f6ef7eeafc0ff2ff9d1422d6345555a142");
   NistLine [];
   NistVector (str "168") (str "9cab7d7dcaec98cb3ac6c64dd5d4470d0b103a810c")
     (str "44d34809fc60d1fcafa7f37b794d1d3a765dd0d23194ebbe340f013f0c39b613");
   NistLine [];
   NistVector (str "176") (str "ea157c02ebaf1b22de221b53f2353936d2359d1e1c97")
     (str "9df5c16a3f580406f07d96149303d8c408869b32053b726cf3defd241e484957");
   NistLine [];
   NistVector (str "184") (str "da999bc1f9c7acff32828a73e672d0a492f6ee895c6867")
     (str "672b54e43f41ee77584bdf8bf854d97b6252c918f7ea2d26bc4097ea53a88f10");
   NistLine [];
   NistVector (str "192") (str "47991301156d1d977c0338efbcad41004133aefbca6bcf7e")
     (str "feeb4b2b59fec8fdb1e55194a493d8c871757b5723675e93d3ac034b380b7fc9");
   NistLine [];
   NistVector (str "200") (str "2e7ea84da4bc4d7cfb463e3f2c8647057afff3fbececa1d200")
     (str "76e3acbc718836f2df8ad2d0d2d76f0cfa5fea0986be918f10bcee730df441b9");
   NistLine [];
   NistVector (str "208") (str "47c770eb4549b6eff6381d62e9beb464cd98d341cc1c09981a7a")
     (str "6733809c73e53666c735b3bd3daf87ebc77c72756150a616a194108d71231272");
   NistLine [];
   NistVector (str "216") (str "ac4c26d8b43b8579d8f61c9807026e83e9b586e1159bd43b851937")
     (str "0e6e3c143c3a5f7f38505ed6adc9b48c18edf6dedf11635f6e8f9ac73c39fe9e");
   NistLine [];
   NistVector (str "224") (str "0777fc1e1ca47304c2e265692838109e26aab9e5c4ae4e8600df4b1f")
     (str "ffb4fc03e054f8ecbc31470fc023bedcd4a406b9dd56c71da1b660dcc4842c65");
   NistLine [];
   NistVector (str "232") (str "1a57251c431d4e6c2e06d65246a296915071a531425ecf255989422a66")
     (str "c644612cd326b38b1c6813b1daded34448805aef317c35f548dfb4a0d74b8106");
   NistLine [];
   NistVector (str "240") (str "9b245fdad9baeb890d9c0d0eff816efb4ca138610bc7d78cb1a801ed3273")
     (str "c0e29eeeb0d3a7707947e623cdc7d1899adc70dd7861205ea5e5813954fb7957");
   NistLine [];
   NistVector (str "248") (str "95a765809caf30ada90ad6d61c2b4b30250df0a7ce23b7753c9187f4319ce2")
     (str "a4139b74b102cf1e2fce229a6cd84c87501f50afa4c80feacf7d8cf5ed94f042");
   NistLine [];
   NistVector (str "256") (str "09fc1accc230a205e4a208e64a8f204291f581a12756392da4b8c0cf5ef02b95")
     (str "4f44c1c7fbebb6f9601829f3897bfd650c56fa07844be76489076356ac1886a4");
   NistLine [];
   NistVector (str "264") (str "0546f7b8682b5b95fd32385faf25854cb3f7b40cc8fa229fbd52b16934aab388a7")
     (str "b31ad3cd02b10db282b3576c059b746fb24ca6f09fef69402dc90ece7421cbb7");
   NistLine [];
   NistVector (str "272") (str "b12db4a1025529b3b7b1e45c6dbc7baa8897a0576e66f64bf3f8236113a6276ee77d")
     (str "1c38bf6bbfd32292d67d1d651fd9d5b623b6ec1e854406223f51d0df46968712");
   NistLine [];
   NistVector (str "280") (str "e68cb6d8c1866c0a71e7313f83dc11a5809cf5cfbeed1a587ce9c2c92e022abc1644bb")
     (str "c2684c0dbb85c232b6da4fb5147dd0624429ec7e657991edd95eda37a587269e");
   NistLine [];
   NistVector (str "288") (str "4e3d8ac36d61d9e51480831155b253b37969fe7ef49db3b39926f3a00b69a36774366000")
     (str "bf9d5e5b5393053f055b380baed7e792ae85ad37c0ada5fd4519542ccc461cf3");
   NistLine [];
   NistVector (str "296") (str "03b264be51e4b941864f9b70b4c958f5355aac294b4b87cb037f11f85f07eb57b3f0b89550")
     (str "d1f8bd684001ac5a4b67bbf79f87de524d2da99ac014dec3e4187728f4557471");
   NistLine [];
   NistVector (str "304") (str "d0fefd96787c65ffa7f910d6d0ada63d64d5c4679960e7f06aeb8c70dfef954f8e39efdb629b")
     (str "49ba38db85c2796f85ffd57dd5ec337007414528ae33935b102d16a6b91ba6c1");
   NistLine [];
   NistVector (str "312") (str "b7c79d7e5f1eeccdfedf0e7bf43e730d447e607d8d1489823d09e11201a0b1258039e7bd4875b1")
     (str "725e6f8d888ebaf908b7692259ab8839c3248edd22ca115bb13e025808654700");
   NistLine [];
   NistVector (str "320") (str "64cd363ecce05fdfda2486d011a3db95b5206a19d3054046819dd0d36783955d7e5bf8ba18bf738a")
     (str "32caef024f84e97c30b4a7b9d04b678b3d8a6eb2259dff5b7f7c011f090845f8");
   NistLine [];
   NistVector (str "328") (str "6ac6c63d618eaf00d91c5e2807e83c093912b8e202f78e139703498a79c6067f54497c6127a23910a6")
     (str "4bb33e7c6916e08a9b3ed6bcef790aaaee0dcf2e7a01afb056182dea2dad7d63");
   NistLine [];
   NistVector (str "336") (str "d26826db9baeaa892691b68900b96163208e806a1da077429e454fa011840951a031327e605ab82ecce2")
     (str "3ac7ac6bed82fdc8cd15b746f0ee7489158192c238f371c1883c9fe90b3e2831");
   NistLine [];
   NistVector (str "344") (str "3f7a059b65d6cb0249204aac10b9f1a4ac9e5868adebbe935a9eb5b9019e1c938bfc4e5c5378997a3947f2")
     (str "bfce809534eefe871273964d32f091fe756c71a7f512ef5f2300bcd57f699e74");
   NistLine [];
   NistVector (str "352") (str "60ffcb23d6b88e485b920af81d1083f6291d06ac8ca3a965b85914bc2add40544a027fca936bbde8f359051c")
     (str "1d26f3e04f89b4eaa9dbed9231bb051eef2e8311ad26fe53d0bf0b821eaf7567");
   NistLine [];
   NistVector (str "360") (str "9ecd07b684bb9e0e6692e320cec4510ca79fcdb3a2212c26d90df65db33e692d073cc174840db797504e482eef")
     (str "0ffeb644a49e787ccc6970fe29705a4f4c2bfcfe7d19741c158333ff6982cc9c");
   NistLine [];
   NistVector (str "368") (str "9d64de7161895884e7fa3d6e9eb996e7ebe511b01fe19cd4a6b3322e80aaf52bf6447ed1854e71001f4d54f8931d")
     (str "d048ee1524014adf9a56e60a388277de194c694cc787fc5a1b554ea9f07abfdf");
   NistLine [];
   NistVector (str "376") (str "c4ad3c5e78d917ecb0cbbcd1c481fc2aaf232f7e289779f40e504cc309662ee96fecbd20647ef00e46199fbc482f46")
     (str "50dbf40066f8d270484ee2ef6632282dfa300a85a8530eceeb0e04275e1c1efd");
   NistLine [];
   NistVector (str "384") (str "4eef5107459bddf8f24fc7656fd4896da8711db50400c0164847f692b886ce8d7f4d67395090b3534efd7b0d298da34b")
     (str "7c5d14ed83dab875ac25ce7feed6ef837d58e79dc601fb3c1fca48d4464e8b83");
   NistLine [];
   NistVector (str "392") (str "047d2758e7c2c9623f9bdb93b6597c5e84a0cd34e610014bcb25b49ed05c7e356e98c7a672c3dddcaeb84317ef614d342f")
     (str "7d53eccd03da37bf58c1962a8f0f708a5c5c447f6a7e9e26137c169d5bdd82e4");
   NistLine [];
   NistVector (str "400") (str "3d83df37172c81afd0de115139fbf4390c22e098c5af4c5ab4852406510bc0e6cf741769f44430c5270fdae0cb849d71cbab")
     (str "99dc772e91ea02d9e421d552d61901016b9fd4ad2df4a8212c1ec5ba13893ab2");
   NistLine [];
   NistVector (str "408") (str "33fd9bc17e2b271fa04c6b93c0bdeae98654a7682d31d9b4dab7e6f32cd58f2f148a68fbe7a88c5ab1d88edccddeb30ab21e5e")
     (str "cefdae1a3d75e792e8698d5e71f177cc761314e9ad5df9602c6e60ae65c4c267");
   NistLine [];
   NistVector (str "416") (str "77a879cfa11d7fcac7a8282cc38a43dcf37643cc909837213bd6fd95d956b219a1406cbe73c52cd56c600e55b75bc37ea69641bc")
     (str "c99d64fa4dadd4bc8a389531c68b4590c6df0b9099c4d583bc00889fb7b98008");
   NistLine [];
   NistVector (str "424") (str "45a3e6b86527f20b4537f5af96cfc5ad8777a2dde6cf7511886c5590ece24fc61b226739d207dabfe32ba6efd9ff4cd5db1bd5ead3")
     (str "4d12a849047c6acd4b2eee6be35fa9051b02d21d50d419543008c1d82c427072");
   NistLine [];
   NistVector (str "432") (str "25362a4b9d74bde6128c4fdc672305900947bc3ada9d9d316ebcf1667ad4363189937251f149c72e064a48608d940b7574b17fefc0df")
     (str "f8e4ccab6c979229f6066cc0cb0cfa81bb21447c16c68773be7e558e9f9d798d");
   NistLine [];
   NistVector (str "440") (str "3ebfb06db8c38d5ba037f1363e118550aad94606e26835a01af05078533cc25f2f39573c04b632f62f68c294ab31f2a3e2a1a0d8c2be51")
     (str "6595a2ef537a69ba8583dfbf7f5bec0ab1f93ce4c8ee1916eff44a93af5749c4");
   NistLine [];
   NistVector (str "448") (str "2d52447d1244d2ebc28650e7b05654bad35b3a68eedc7f8515306b496d75f3e73385dd1b002625024b81a02f2fd6dffb6e6d561cb7d0bd7a")
     (str "cfb88d6faf2de3a69d36195acec2e255e2af2b7d933997f348e09f6ce5758360");
   NistLine [];
   NistVector (str "456") (str "4cace422e4a015a75492b3b3bbfbdf3758eaff4fe504b46a26c90dacc119fa9050f603d2b58b398cad6d6d9fa922a154d9e0bc4389968274b0")
     (str "4d54b2d284a6794581224e08f675541c8feab6eefa3ac1cfe5da4e03e62f72e4");
   NistLine [];
   NistVector (str "464") (str "8620b86fbcaace4ff3c2921b8466ddd7bacae07eefef693cf17762dcabb89a84010fc9a0fb76ce1c26593ad637a61253f224d1b14a05addccabe")
     (str "dba490256c9720c54c612a5bd1ef573cd51dc12b3e7bd8c6db2eabe0aacb846b");
   NistLine [];
   NistVector (str "472") (str "d1be3f13febafefc14414d9fb7f693db16dc1ae270c5b647d80da8583587c1ad8cb8cb01824324411ca5ace3ca22e179a4ff4986f3f21190f3d7f3")
     (str "02804978eba6e1de65afdbc6a6091ed6b1ecee51e8bff40646a251de6678b7ef");
   NistLine [];
   NistVector (str "480") (str "f499cc3f6e3cf7c312ffdfba61b1260c37129c1afb391047193367b7b2edeb579253e51d62ba6d911e7b818ccae1553f6146ea780f78e2219f629309")
     (str "0b66c8b4fefebc8dc7da0bbedc1114f228aa63c37d5c30e91ab500f3eadfcec5");
   NistLine [];
   NistVector (str "488") (str "6dd6efd6f6caa63b729aa8186e308bc1bda06307c05a2c0ae5a3684e6e460811748690dc2b58775967cfcc645fd82064b1279fdca771803db9dca0ff53")
     (str "c464a7bf6d180de4f744bb2fe5dc27a3f681334ffd54a9814650e60260a478e3");
   NistLine [];
   NistVector (str "496") (str "6511a2242ddb273178e19a82c57c85cb05a6887ff2014cf1a31cb9ba5df1695aadb25c22b3c5ed51c10d047d256b8e3442842ae4e6c525f8d7a5a944af2a")
     (str "d6859c0b5a0b66376a24f56b2ab104286ed0078634ba19112ace0d6d60a9c1ae");
   NistLine [];
   NistVector (str "504") (str "e2f76e97606a872e317439f1a03fcd92e632e5bd4e7cbc4e97f1afc19a16fde92d77cbe546416b51640cddb92af996534dfd81edb17c4424cf1ac4d75aceeb")
     (str "18041bd4665083001fba8c5411d2d748e8abbfdcdfd9218cb02b68a78e7d4c23");
   NistLine [];
   NistVector (str "512") (str "5a86b737eaea8ee976a0a24da63e7ed7eefad18a101c1211e2b3650c5187c2a8a650547208251f6d4237e661c7bf4c77f335390394c37fa1a9f9be836ac28509")
     (str "42e61e174fbb3897d6dd6cef3dd2802fe67b331953b06114a65c772859dfc1aa");
   NistLine []].

(** The first vectors of testvectors/blake2b-kat.txt *)
Definition blake2b_kat : list blake2b_item :=
  let key := str "000102030405060708090a0b0c0d0e0f101112131415161718191a1b1c1d1e1f202122232425262728292a2b2c2d2e2f303132333435363738393a3b3c3d3e3f" in
  [Blake2bLine;
   Blake2bVector [] key (str "10ebb67700b1868efb4417987acf4690ae9d972fb7a590c2f02871799aaa4786b5e996e8f0f4eb981fc214b005f42d2ff4233499391653df7aefcbc13fc51568");
   Blake2bLine;
   Blake2bVector (str "00") key (str "961f6dd1e4dd30f63901690c512e78e4b45e4742ed197c3c5e45c549fd25f2e4187b0bc9fe30492b16b0d0bc4ef9b0f34c7003fac09a5ef1532e69430234cebd");
   Blake2bLine;
   Blake2bVector (str "0001") key (str "da2cfbe2d8409a0f38026113884f84b50156371ae304c4430173d08a99d9fb1b983164a3770706d537f49e0c916d9f32b95cc37a95b99d857436f0232c88a965")].

(** A line of the form of testvectors/ed25519.input, for given keys and
    signatures *)
Definition ed25519_of `{SD : SignDoc} (seed msg : bytes) : ed25519_item :=
  let sk := ed_seeded seed in
  let pk := hex_enc (ed_public sk) in
  Ed25519Item (hex_enc seed ++ pk) pk (hex_enc msg) (hex_enc (ed_sign sk msg ++ msg)) [].

#[export] Instance short_plain_dec s : Decision (short_plain s).
Proof. unfold short_plain, plain. apply _. Defined.
#[export] Instance nist_form_dec i : Decision (nist_form i).
Proof. destruct i; unfold nist_form, plain; apply _. Defined.
#[export] Instance blake2b_form_dec i : Decision (blake2b_form i).
Proof. destruct i; unfold blake2b_form; apply _. Defined.
#[export] Instance ed25519_form_dec i : Decision (ed25519_form i).
Proof. unfold ed25519_form, part, plain. apply _. Defined.

(** A length that is far from overflowing is read in the same way on every
    target. *)
Definition nist_small `{T : Target} (i : nist_item) : bool :=
  match i with
  | NistLine _ => true
  | NistVector len _ _ => match parse_usize len with Some n => n <=? 65535 | None => false end
  end.

Lemma decimal_any (T1 T2 : Target) s : forall acc n,
  0 <= acc -> decimal (H := T1) acc s = Some n -> acc <= n /\ (n <= usize_max (H := T2) -> decimal (H := T2) acc s = Some n).
Proof.
  induction s as [|c s IH]; cbn [decimal]; intros acc n Ha Hd; [by injection Hd as ->|].
  destruct (Z.leb_spec 0 (byte_val c - 48)) as [Hc|]; [|done]. cbn [andb] in *.
  destruct (byte_val c - 48 <=? 9); [|done]. cbn [andb] in *. case_match; [|done].
  apply IH in Hd as [Hle Hn]; [|lia]. split; [lia|]. intros Hm.
  rewrite (proj2 (Z.leb_le _ _)) by lia. by apply Hn.
Qed.

Lemma parse_usize_any (T1 T2 : Target) s n :
  parse_usize (H := T1) s = Some n -> n <= usize_max (H := T2) -> parse_usize (H := T2) s = Some n.
Proof.
  intros Hp Hn. destruct s as [|c s]; [done|].
  destruct c; try (by apply (decimal_any T1 T2 (_ :: s) 0 n)). destruct s; [done|]. by apply (decimal_any T1 T2).
Qed.

Lemma nist_right_any (T1 T2 : Target) digest i :
  nist_small (T := T1) i && nist_right (T := T1) digest i = true -> nist_right (T := T2) digest i = true.
Proof.
  intros [Hs Hr]%andb_true_iff. destruct i as [|len msg md]; [done|]. cbn [nist_small nist_right] in *.
  destruct (parse_usize (H := T1) len) as [n|] eqn:En; [|done].
  rewrite (parse_usize_any T1 T2 len n En); [exact Hr|]. apply Z.leb_le in Hs. pose proof (isize_max_bounds (H := T2)) as Hb. unfold isize_max, usize_max in *.
  destruct (usize_bits_cases (Target := T2)) as [-> | ->]; lia.
Qed.

(** The file testvectors/SHA256ShortMsg.rsp is in the repository, and
    SHA-256 is computed: the test that reads the file passes. *)
Theorem sha256_short_msg_passes `{T : Target} `{CE : CodecExterns} {CD : CodecDoc CE} files :
  files "testvectors/SHA256ShortMsg.rsp"%string = Some (concat (nist_print <$> sha256_short_msg)) ->
  passes (@sha256_test_vectors_nist_short T CE files Std.sha256_externs).
Proof.
  intros Hf w. assert (Hform : Forall nist_form sha256_short_msg) by (apply (bool_decide_unpack _); by vm_compute).
  pose proof (nist_file_settles (CD := CD) files (@sha256 Std.sha256_externs) (D := Std.sha256_doc)
    _ _ Hform Hf w) as [Hs _].
  apply Hs, forallb_forall. intros i Hi. apply (nist_right_any target64).
  assert (Hr : forallb (fun i => nist_small (T := target64) i && nist_right (T := target64) (st_digest (Sha2.streaming Sha256) tt) i)
    sha256_short_msg = true) by (vm_compute; reflexivity).
  exact (proj1 (forallb_forall _ _) Hr i Hi).
Qed.

(** *** Witnesses *)

Definition example_files (name : string) : option lines :=
  if String.eqb name "testvectors/SHA256ShortMsg.rsp" then Some (concat (nist_print <$> sha256_short_msg))
  else if String.eqb name "testvectors/blake2b-kat.txt" then Some (concat (blake2b_print <$> blake2b_kat))
  else Some (concat (ed25519_print <$> [ed25519_of (SD := RefSign.doc) RefSign.seed RefSign.msg])).

Lemma sha256_short_msg_passes_witness :
  passes (@sha256_test_vectors_nist_short target64 RefCodec.externs example_files Std.sha256_externs).
Proof. apply (sha256_short_msg_passes (CD := RefCodec.doc)). reflexivity. Defined.

(** On the first vectors of the files the tests pass. *)
Lemma vector_files_settle_witness :
  let h := @sha256 Std.sha256_externs in
  let vector := ed25519_of (SD := RefSign.doc) RefSign.seed RefSign.msg in
  settles (@test_nist_vector target64 RefCodec.externs example_files h "testvectors/SHA256ShortMsg.rsp")
    (forallb (@nist_right target64 (st_digest (Sha2.streaming Sha256) tt)) sha256_short_msg = true) /\
  passes (@test_blake2b_vectors target64 RefCodec.externs example_files Std.generichash_externs) /\
  passes (@test_vectors target64 RefCodec.externs example_files RefSign.externs) /\
  passes (@test_vectors_detached target64 RefCodec.externs example_files RefSign.externs RefSign.crate) /\
  passes (@test_streaming_vectors target64 RefCodec.externs example_files RefSign.externs RefSign.crate).
Proof.
  assert (Hn : Forall nist_form sha256_short_msg) by (apply (bool_decide_unpack _); by vm_compute).
  assert (Hb : Forall blake2b_form blake2b_kat) by (apply (bool_decide_unpack _); by vm_compute).
  set (eds := [ed25519_of (SD := RefSign.doc) RefSign.seed RefSign.msg]).
  assert (He : Forall ed25519_form eds) by (apply (bool_decide_unpack _); by vm_compute).
  destruct (@vector_files_settle target64 RefCodec.externs RefCodec.doc example_files
    (@sha256 Std.sha256_externs) Std.sha256_doc "testvectors/SHA256ShortMsg.rsp"%string sha256_short_msg Hn eq_refl
    Std.generichash_externs Std.generichash_doc blake2b_kat Hb eq_refl
    RefSign.externs RefSign.doc RefSign.crate RefSign.crate_doc eds He eq_refl) as (H1 & H2 & H3 & H4 & H5).
  split_and!; [exact H1|intros w; apply H2|intros w; apply H3|intros w; apply H4|intros w; apply H5];
    vm_compute; reflexivity.
Defined.
