(* ===== verification/SysBindings.v ===== *)
(** * libsodium-sys: the rest of the constants, and the functions that report them

    The constants of libsodium-sys/src/sodium_bindings.rs that no wrapper uses,
    and the functions without arguments through which libsodium reports the
    values of constants at run time: they are parameters, like the functions of
    Bindings.v, in one class for each group of adjacent declarations.  The tests
    of libsodium-sys compare the two (SysTests.v). *)

From S2P Require Export Bindings.

#[local] Open Scope string_scope.

(** ** Constants *)

Definition SODIUM_VERSION_STRING : bytes := c_string "1.0.18".
Definition SODIUM_LIBRARY_VERSION_MAJOR : Z := 10.
Definition SODIUM_LIBRARY_VERSION_MINOR : Z := 3.
Definition crypto_aead_aes256gcm_NSECBYTES : Z := 0.
Definition crypto_aead_chacha20poly1305_ietf_NSECBYTES : Z := 0.
Definition crypto_aead_chacha20poly1305_NSECBYTES : Z := 0.
Definition crypto_aead_chacha20poly1305_IETF_KEYBYTES : Z := 32.
Definition crypto_aead_chacha20poly1305_IETF_NSECBYTES : Z := 0.
Definition crypto_aead_chacha20poly1305_IETF_NPUBBYTES : Z := 12.
Definition crypto_aead_chacha20poly1305_IETF_ABYTES : Z := 16.
Definition crypto_aead_xchacha20poly1305_ietf_NSECBYTES : Z := 0.
Definition crypto_aead_xchacha20poly1305_IETF_KEYBYTES : Z := 32.
Definition crypto_aead_xchacha20poly1305_IETF_NSECBYTES : Z := 0.
Definition crypto_aead_xchacha20poly1305_IETF_NPUBBYTES : Z := 24.
Definition crypto_aead_xchacha20poly1305_IETF_ABYTES : Z := 16.
Definition crypto_auth_BYTES : Z := 32.
Definition crypto_auth_KEYBYTES : Z := 32.
Definition crypto_auth_PRIMITIVE : bytes := c_string "hmacsha512256".
Definition crypto_box_curve25519xsalsa20poly1305_BOXZEROBYTES : Z := 16.
Definition crypto_box_curve25519xsalsa20poly1305_ZEROBYTES : Z := 32.
Definition crypto_box_PUBLICKEYBYTES : Z := 32.
Definition crypto_box_SECRETKEYBYTES : Z := 32.
Definition crypto_box_NONCEBYTES : Z := 24.
Definition crypto_box_MACBYTES : Z := 16.
Definition crypto_box_PRIMITIVE : bytes := c_string "curve25519xsalsa20poly1305".
Definition crypto_box_BEFORENMBYTES : Z := 32.
Definition crypto_box_ZEROBYTES : Z := 32.
Definition crypto_box_BOXZEROBYTES : Z := 16.
Definition crypto_core_hsalsa20_OUTPUTBYTES : Z := 32.
Definition crypto_core_hsalsa20_INPUTBYTES : Z := 16.
Definition crypto_core_hsalsa20_KEYBYTES : Z := 32.
Definition crypto_core_hsalsa20_CONSTBYTES : Z := 16.
Definition crypto_core_hchacha20_OUTPUTBYTES : Z := 32.
Definition crypto_core_hchacha20_INPUTBYTES : Z := 16.
Definition crypto_core_hchacha20_KEYBYTES : Z := 32.
Definition crypto_core_hchacha20_CONSTBYTES : Z := 16.
Definition crypto_core_salsa20_OUTPUTBYTES : Z := 64.
Definition crypto_core_salsa20_INPUTBYTES : Z := 16.
Definition crypto_core_salsa20_KEYBYTES : Z := 32.
Definition crypto_core_salsa20_CONSTBYTES : Z := 16.
Definition crypto_core_salsa2012_OUTPUTBYTES : Z := 64.
Definition crypto_core_salsa2012_INPUTBYTES : Z := 16.
Definition crypto_core_salsa2012_KEYBYTES : Z := 32.
Definition crypto_core_salsa2012_CONSTBYTES : Z := 16.
Definition crypto_core_salsa208_OUTPUTBYTES : Z := 64.
Definition crypto_core_salsa208_INPUTBYTES : Z := 16.
Definition crypto_core_salsa208_KEYBYTES : Z := 32.
Definition crypto_core_salsa208_CONSTBYTES : Z := 16.
Definition crypto_generichash_blake2b_BYTES_MIN : Z := 16.
Definition crypto_generichash_blake2b_BYTES_MAX : Z := 64.
Definition crypto_generichash_blake2b_BYTES : Z := 32.
Definition crypto_generichash_blake2b_KEYBYTES_MIN : Z := 16.
Definition crypto_generichash_blake2b_KEYBYTES_MAX : Z := 64.
Definition crypto_generichash_blake2b_KEYBYTES : Z := 32.
Definition crypto_generichash_blake2b_SALTBYTES : Z := 16.
Definition crypto_generichash_blake2b_PERSONALBYTES : Z := 16.
Definition crypto_generichash_KEYBYTES : Z := 32.
Definition crypto_generichash_PRIMITIVE : bytes := c_string "blake2b".
Definition crypto_hash_BYTES : Z := 64.
Definition crypto_hash_PRIMITIVE : bytes := c_string "sha512".
Definition crypto_kdf_BYTES_MIN : Z := 16.
Definition crypto_kdf_BYTES_MAX : Z := 64.
Definition crypto_kdf_CONTEXTBYTES : Z := 8.
Definition crypto_kdf_KEYBYTES : Z := 32.
Definition crypto_kdf_PRIMITIVE : bytes := c_string "blake2b".
Definition crypto_kx_PRIMITIVE : bytes := c_string "x25519blake2b".
Definition crypto_onetimeauth_BYTES : Z := 16.
Definition crypto_onetimeauth_KEYBYTES : Z := 32.
Definition crypto_onetimeauth_PRIMITIVE : bytes := c_string "poly1305".
Definition crypto_pwhash_argon2i_ALG_ARGON2I13 : Z := 1.
Definition crypto_pwhash_argon2i_BYTES_MIN : Z := 16.
Definition crypto_pwhash_argon2i_PASSWD_MIN : Z := 0.
Definition crypto_pwhash_argon2i_PASSWD_MAX : Z := 4294967295.
Definition crypto_pwhash_argon2i_OPSLIMIT_MIN : Z := 3.
Definition crypto_pwhash_argon2i_OPSLIMIT_MAX : Z := 4294967295.
Definition crypto_pwhash_argon2i_MEMLIMIT_MIN : Z := 8192.
Definition crypto_pwhash_argon2id_ALG_ARGON2ID13 : Z := 2.
Definition crypto_pwhash_argon2id_BYTES_MIN : Z := 16.
Definition crypto_pwhash_argon2id_PASSWD_MIN : Z := 0.
Definition crypto_pwhash_argon2id_PASSWD_MAX : Z := 4294967295.
Definition crypto_pwhash_argon2id_OPSLIMIT_MIN : Z := 1.
Definition crypto_pwhash_argon2id_OPSLIMIT_MAX : Z := 4294967295.
Definition crypto_pwhash_argon2id_MEMLIMIT_MIN : Z := 8192.
Definition crypto_pwhash_ALG_DEFAULT : Z := 2.
Definition crypto_pwhash_BYTES_MIN : Z := 16.
Definition crypto_pwhash_PASSWD_MIN : Z := 0.
Definition crypto_pwhash_PASSWD_MAX : Z := 4294967295.
Definition crypto_pwhash_SALTBYTES : Z := 16.
Definition crypto_pwhash_STRBYTES : Z := 128.
Definition crypto_pwhash_STRPREFIX : bytes := c_string "$argon2id$".
Definition crypto_pwhash_OPSLIMIT_MIN : Z := 1.
Definition crypto_pwhash_OPSLIMIT_MAX : Z := 4294967295.
Definition crypto_pwhash_MEMLIMIT_MIN : Z := 8192.
Definition crypto_pwhash_OPSLIMIT_INTERACTIVE : Z := 2.
Definition crypto_pwhash_MEMLIMIT_INTERACTIVE : Z := 67108864.
Definition crypto_pwhash_OPSLIMIT_MODERATE : Z := 3.
Definition crypto_pwhash_MEMLIMIT_MODERATE : Z := 268435456.
Definition crypto_pwhash_OPSLIMIT_SENSITIVE : Z := 4.
Definition crypto_pwhash_MEMLIMIT_SENSITIVE : Z := 1073741824.
Definition crypto_pwhash_PRIMITIVE : bytes := c_string "argon2i".
Definition crypto_scalarmult_BYTES : Z := 32.
Definition crypto_scalarmult_SCALARBYTES : Z := 32.
Definition crypto_scalarmult_PRIMITIVE : bytes := c_string "curve25519".
Definition crypto_secretbox_xsalsa20poly1305_BOXZEROBYTES : Z := 16.
Definition crypto_secretbox_xsalsa20poly1305_ZEROBYTES : Z := 32.
Definition crypto_secretbox_KEYBYTES : Z := 32.
Definition crypto_secretbox_NONCEBYTES : Z := 24.
Definition crypto_secretbox_MACBYTES : Z := 16.
Definition crypto_secretbox_PRIMITIVE : bytes := c_string "xsalsa20poly1305".
Definition crypto_secretbox_ZEROBYTES : Z := 32.
Definition crypto_secretbox_BOXZEROBYTES : Z := 16.
Definition crypto_stream_chacha20_ietf_KEYBYTES : Z := 32.
Definition crypto_stream_chacha20_ietf_NONCEBYTES : Z := 12.
Definition crypto_stream_chacha20_IETF_KEYBYTES : Z := 32.
Definition crypto_stream_chacha20_IETF_NONCEBYTES : Z := 12.
Definition crypto_shorthash_siphashx24_BYTES : Z := 16.
Definition crypto_shorthash_siphashx24_KEYBYTES : Z := 16.
Definition crypto_shorthash_BYTES : Z := 8.
Definition crypto_shorthash_KEYBYTES : Z := 16.
Definition crypto_shorthash_PRIMITIVE : bytes := c_string "siphash24".
Definition crypto_sign_BYTES : Z := 64.
Definition crypto_sign_SEEDBYTES : Z := 32.
Definition crypto_sign_PUBLICKEYBYTES : Z := 32.
Definition crypto_sign_SECRETKEYBYTES : Z := 64.
Definition crypto_sign_PRIMITIVE : bytes := c_string "ed25519".
Definition crypto_stream_KEYBYTES : Z := 32.
Definition crypto_stream_NONCEBYTES : Z := 24.
Definition crypto_stream_PRIMITIVE : bytes := c_string "xsalsa20".
Definition crypto_verify_16_BYTES : Z := 16.
Definition crypto_verify_32_BYTES : Z := 32.
Definition crypto_verify_64_BYTES : Z := 64.
Definition crypto_box_curve25519xchacha20poly1305_SEEDBYTES : Z := 32.
Definition crypto_box_curve25519xchacha20poly1305_PUBLICKEYBYTES : Z := 32.
Definition crypto_box_curve25519xchacha20poly1305_SECRETKEYBYTES : Z := 32.
Definition crypto_box_curve25519xchacha20poly1305_BEFORENMBYTES : Z := 32.
Definition crypto_box_curve25519xchacha20poly1305_NONCEBYTES : Z := 24.
Definition crypto_box_curve25519xchacha20poly1305_MACBYTES : Z := 16.
Definition crypto_box_curve25519xchacha20poly1305_SEALBYTES : Z := 48.
Definition crypto_core_ed25519_BYTES : Z := 32.
Definition crypto_core_ed25519_UNIFORMBYTES : Z := 32.
Definition crypto_core_ed25519_HASHBYTES : Z := 64.
Definition crypto_core_ed25519_SCALARBYTES : Z := 32.
Definition crypto_core_ed25519_NONREDUCEDSCALARBYTES : Z := 64.
Definition crypto_core_ristretto255_BYTES : Z := 32.
Definition crypto_core_ristretto255_HASHBYTES : Z := 64.
Definition crypto_core_ristretto255_SCALARBYTES : Z := 32.
Definition crypto_core_ristretto255_NONREDUCEDSCALARBYTES : Z := 64.
Definition crypto_scalarmult_ed25519_BYTES : Z := 32.
Definition crypto_scalarmult_ed25519_SCALARBYTES : Z := 32.
Definition crypto_scalarmult_ristretto255_BYTES : Z := 32.
Definition crypto_scalarmult_ristretto255_SCALARBYTES : Z := 32.
Definition crypto_secretbox_xchacha20poly1305_KEYBYTES : Z := 32.
Definition crypto_secretbox_xchacha20poly1305_NONCEBYTES : Z := 24.
Definition crypto_secretbox_xchacha20poly1305_MACBYTES : Z := 16.
Definition crypto_pwhash_scryptsalsa208sha256_BYTES_MIN : Z := 16.
Definition crypto_pwhash_scryptsalsa208sha256_PASSWD_MIN : Z := 0.
Definition crypto_pwhash_scryptsalsa208sha256_OPSLIMIT_MIN : Z := 32768.
Definition crypto_pwhash_scryptsalsa208sha256_OPSLIMIT_MAX : Z := 4294967295.
Definition crypto_pwhash_scryptsalsa208sha256_MEMLIMIT_MIN : Z := 16777216.
Definition crypto_stream_salsa2012_KEYBYTES : Z := 32.
Definition crypto_stream_salsa2012_NONCEBYTES : Z := 8.
Definition crypto_stream_salsa208_KEYBYTES : Z := 32.
Definition crypto_stream_salsa208_NONCEBYTES : Z := 8.

(** ** Functions that report a constant *)

Class AeadChacha20poly1305IetfSizes := {
  crypto_aead_chacha20poly1305_ietf_keybytes : M Z;
  crypto_aead_chacha20poly1305_ietf_nsecbytes : M Z;
  crypto_aead_chacha20poly1305_ietf_npubbytes : M Z;
  crypto_aead_chacha20poly1305_ietf_abytes : M Z;
  crypto_aead_chacha20poly1305_ietf_messagebytes_max : M Z
}.

Class AeadChacha20poly1305Sizes := {
  crypto_aead_chacha20poly1305_keybytes : M Z;
  crypto_aead_chacha20poly1305_nsecbytes : M Z;
  crypto_aead_chacha20poly1305_npubbytes : M Z;
  crypto_aead_chacha20poly1305_abytes : M Z;
  crypto_aead_chacha20poly1305_messagebytes_max : M Z
}.

Class HashSha512Sizes := {
  crypto_hash_sha512_statebytes : M Z;
  crypto_hash_sha512_bytes : M Z
}.

Class AuthHmacsha512Sizes := {
  crypto_auth_hmacsha512_bytes : M Z;
  crypto_auth_hmacsha512_keybytes : M Z
}.

Class AuthHmacsha512256Sizes := {
  crypto_auth_hmacsha512256_bytes : M Z;
  crypto_auth_hmacsha512256_keybytes : M Z
}.

Class AuthSizes := {
  crypto_auth_bytes : M Z;
  crypto_auth_keybytes : M Z;
  crypto_auth_primitive : M ptr
}.

Class HashSha256Sizes := {
  crypto_hash_sha256_statebytes : M Z;
  crypto_hash_sha256_bytes : M Z
}.

Class AuthHmacsha256Sizes := {
  crypto_auth_hmacsha256_bytes : M Z;
  crypto_auth_hmacsha256_keybytes : M Z
}.

Class StreamXsalsa20Sizes := {
  crypto_stream_xsalsa20_keybytes : M Z;
  crypto_stream_xsalsa20_noncebytes : M Z;
  crypto_stream_xsalsa20_messagebytes_max : M Z
}.

Class BoxCurve25519xsalsa20poly1305Sizes := {
  crypto_box_curve25519xsalsa20poly1305_seedbytes : M Z;
  crypto_box_curve25519xsalsa20poly1305_publickeybytes : M Z;
  crypto_box_curve25519xsalsa20poly1305_secretkeybytes : M Z;
  crypto_box_curve25519xsalsa20poly1305_beforenmbytes : M Z;
  crypto_box_curve25519xsalsa20poly1305_noncebytes : M Z;
  crypto_box_curve25519xsalsa20poly1305_macbytes : M Z;
  crypto_box_curve25519xsalsa20poly1305_messagebytes_max : M Z
}.

Class BoxCurve25519xsalsa20poly1305Sizes2 := {
  crypto_box_curve25519xsalsa20poly1305_boxzerobytes : M Z;
  crypto_box_curve25519xsalsa20poly1305_zerobytes : M Z
}.

Class BoxSizes := {
  crypto_box_seedbytes : M Z;
  crypto_box_publickeybytes : M Z;
  crypto_box_secretkeybytes : M Z;
  crypto_box_noncebytes : M Z;
  crypto_box_macbytes : M Z;
  crypto_box_messagebytes_max : M Z;
  crypto_box_primitive : M ptr
}.

Class BoxBeforenmbytes := {
  crypto_box_beforenmbytes : M Z
}.

Class BoxSealbytes := {
  crypto_box_sealbytes : M Z
}.

Class BoxSizes2 := {
  crypto_box_zerobytes : M Z;
  crypto_box_boxzerobytes : M Z
}.

Class CoreHsalsa20Sizes := {
  crypto_core_hsalsa20_outputbytes : M Z;
  crypto_core_hsalsa20_inputbytes : M Z;
  crypto_core_hsalsa20_keybytes : M Z;
  crypto_core_hsalsa20_constbytes : M Z
}.

Class CoreSalsa20Sizes := {
  crypto_core_salsa20_outputbytes : M Z;
  crypto_core_salsa20_inputbytes : M Z;
  crypto_core_salsa20_keybytes : M Z;
  crypto_core_salsa20_constbytes : M Z
}.

Class CoreSalsa2012Sizes := {
  crypto_core_salsa2012_outputbytes : M Z;
  crypto_core_salsa2012_inputbytes : M Z;
  crypto_core_salsa2012_keybytes : M Z;
  crypto_core_salsa2012_constbytes : M Z
}.

Class CoreSalsa208Sizes := {
  crypto_core_salsa208_outputbytes : M Z;
  crypto_core_salsa208_inputbytes : M Z;
  crypto_core_salsa208_keybytes : M Z;
  crypto_core_salsa208_constbytes : M Z
}.

Class GenerichashBlake2bSizes := {
  crypto_generichash_blake2b_bytes_min : M Z;
  crypto_generichash_blake2b_bytes_max : M Z;
  crypto_generichash_blake2b_bytes : M Z;
  crypto_generichash_blake2b_keybytes_min : M Z;
  crypto_generichash_blake2b_keybytes_max : M Z;
  crypto_generichash_blake2b_keybytes : M Z;
  crypto_generichash_blake2b_saltbytes : M Z;
  crypto_generichash_blake2b_personalbytes : M Z;
  crypto_generichash_blake2b_statebytes : M Z
}.

Class GenerichashSizes := {
  crypto_generichash_bytes_min : M Z;
  crypto_generichash_bytes_max : M Z;
  crypto_generichash_bytes : M Z;
  crypto_generichash_keybytes_min : M Z;
  crypto_generichash_keybytes_max : M Z;
  crypto_generichash_keybytes : M Z;
  crypto_generichash_primitive : M ptr
}.

Class GenerichashStatebytes := {
  crypto_generichash_statebytes : M Z
}.

Class HashBytes := {
  crypto_hash_bytes : M Z
}.

Class HashPrimitive := {
  crypto_hash_primitive : M ptr
}.

Class KxSizes := {
  crypto_kx_publickeybytes : M Z;
  crypto_kx_secretkeybytes : M Z;
  crypto_kx_seedbytes : M Z;
  crypto_kx_sessionkeybytes : M Z;
  crypto_kx_primitive : M ptr
}.

Class OnetimeauthPoly1305Sizes := {
  crypto_onetimeauth_poly1305_statebytes : M Z;
  crypto_onetimeauth_poly1305_bytes : M Z;
  crypto_onetimeauth_poly1305_keybytes : M Z
}.

Class OnetimeauthSizes := {
  crypto_onetimeauth_statebytes : M Z;
  crypto_onetimeauth_bytes : M Z;
  crypto_onetimeauth_keybytes : M Z;
  crypto_onetimeauth_primitive : M ptr
}.

Class ScalarmultCurve25519Sizes := {
  crypto_scalarmult_curve25519_bytes : M Z;
  crypto_scalarmult_curve25519_scalarbytes : M Z
}.

Class ScalarmultSizes := {
  crypto_scalarmult_bytes : M Z;
  crypto_scalarmult_scalarbytes : M Z;
  crypto_scalarmult_primitive : M ptr
}.

Class SecretboxXsalsa20poly1305Sizes := {
  crypto_secretbox_xsalsa20poly1305_keybytes : M Z;
  crypto_secretbox_xsalsa20poly1305_noncebytes : M Z;
  crypto_secretbox_xsalsa20poly1305_macbytes : M Z;
  crypto_secretbox_xsalsa20poly1305_messagebytes_max : M Z
}.

Class SecretboxSizes := {
  crypto_secretbox_xsalsa20poly1305_boxzerobytes : M Z;
  crypto_secretbox_xsalsa20poly1305_zerobytes : M Z;
  crypto_secretbox_keybytes : M Z;
  crypto_secretbox_noncebytes : M Z;
  crypto_secretbox_macbytes : M Z;
  crypto_secretbox_primitive : M ptr;
  crypto_secretbox_messagebytes_max : M Z
}.

Class StreamChacha20Sizes := {
  crypto_stream_chacha20_keybytes : M Z;
  crypto_stream_chacha20_noncebytes : M Z;
  crypto_stream_chacha20_messagebytes_max : M Z
}.

Class ShorthashSiphash24Sizes := {
  crypto_shorthash_siphash24_bytes : M Z;
  crypto_shorthash_siphash24_keybytes : M Z
}.

Class SignSizes := {
  crypto_sign_ed25519ph_statebytes : M Z;
  crypto_sign_ed25519_bytes : M Z;
  crypto_sign_ed25519_seedbytes : M Z;
  crypto_sign_ed25519_publickeybytes : M Z;
  crypto_sign_ed25519_secretkeybytes : M Z;
  crypto_sign_ed25519_messagebytes_max : M Z
}.

Class StreamSizes := {
  crypto_stream_keybytes : M Z;
  crypto_stream_noncebytes : M Z;
  crypto_stream_messagebytes_max : M Z;
  crypto_stream_primitive : M ptr
}.

Class StreamSalsa20Sizes := {
  crypto_stream_salsa20_keybytes : M Z;
  crypto_stream_salsa20_noncebytes : M Z;
  crypto_stream_salsa20_messagebytes_max : M Z
}.

Class Verify16Bytes := {
  crypto_verify_16_bytes : M Z
}.

Class Verify32Bytes := {
  crypto_verify_32_bytes : M Z
}.

Class Verify64Bytes := {
  crypto_verify_64_bytes : M Z
}.

Class StreamXchacha20Sizes := {
  crypto_stream_xchacha20_keybytes : M Z;
  crypto_stream_xchacha20_noncebytes : M Z;
  crypto_stream_xchacha20_messagebytes_max : M Z
}.

Class PwhashScryptsalsa208sha256Sizes := {
  crypto_pwhash_scryptsalsa208sha256_bytes_min : M Z;
  crypto_pwhash_scryptsalsa208sha256_bytes_max : M Z;
  crypto_pwhash_scryptsalsa208sha256_passwd_min : M Z;
  crypto_pwhash_scryptsalsa208sha256_passwd_max : M Z;
  crypto_pwhash_scryptsalsa208sha256_saltbytes : M Z;
  crypto_pwhash_scryptsalsa208sha256_strbytes : M Z;
  crypto_pwhash_scryptsalsa208sha256_strprefix : M ptr;
  crypto_pwhash_scryptsalsa208sha256_opslimit_min : M Z;
  crypto_pwhash_scryptsalsa208sha256_opslimit_max : M Z;
  crypto_pwhash_scryptsalsa208sha256_memlimit_min : M Z;
  crypto_pwhash_scryptsalsa208sha256_memlimit_max : M Z;
  crypto_pwhash_scryptsalsa208sha256_opslimit_interactive : M Z;
  crypto_pwhash_scryptsalsa208sha256_memlimit_interactive : M Z;
  crypto_pwhash_scryptsalsa208sha256_opslimit_sensitive : M Z;
  crypto_pwhash_scryptsalsa208sha256_memlimit_sensitive : M Z
}.

Class StreamSalsa2012Sizes := {
  crypto_stream_salsa2012_keybytes : M Z;
  crypto_stream_salsa2012_noncebytes : M Z;
  crypto_stream_salsa2012_messagebytes_max : M Z
}.

Class StreamSalsa208Sizes := {
  crypto_stream_salsa208_keybytes : M Z;
  crypto_stream_salsa208_noncebytes : M Z;
  crypto_stream_salsa208_messagebytes_max : M Z
}.

(** ** Functions only the tests of libsodium-sys call *)

Class Blake2bExterns := {
  crypto_generichash_blake2b : ptr (* out *) -> Z (* outlen *) -> ptr (* in *) -> Z (* inlen *) ->
    ptr (* key *) -> Z (* keylen *) -> M Z;
  crypto_generichash_blake2b_salt_personal : ptr (* out *) -> Z (* outlen *) -> ptr (* in *) ->
    Z (* inlen *) -> ptr (* key *) -> Z (* keylen *) -> ptr (* salt *) -> ptr (* personal *) -> M Z
}.

Class ScryptLlExterns := {
  crypto_pwhash_scryptsalsa208sha256_ll : ptr (* passwd *) -> Z (* passwdlen *) -> ptr (* salt *) ->
    Z (* saltlen *) -> Z (* N *) -> Z (* r *) -> Z (* p *) -> ptr (* buf *) -> Z (* buflen *) -> M Z
}.

(** All that report *)
Class SodiumSizes := {
  #[global] report_AeadChacha20poly1305IetfSizes :: AeadChacha20poly1305IetfSizes;
  #[global] report_AeadChacha20poly1305Sizes :: AeadChacha20poly1305Sizes;
  #[global] report_HashSha512Sizes :: HashSha512Sizes;
  #[global] report_AuthHmacsha512Sizes :: AuthHmacsha512Sizes;
  #[global] report_AuthHmacsha512256Sizes :: AuthHmacsha512256Sizes;
  #[global] report_AuthSizes :: AuthSizes;
  #[global] report_HashSha256Sizes :: HashSha256Sizes;
  #[global] report_AuthHmacsha256Sizes :: AuthHmacsha256Sizes;
  #[global] report_StreamXsalsa20Sizes :: StreamXsalsa20Sizes;
  #[global] report_BoxCurve25519xsalsa20poly1305Sizes :: BoxCurve25519xsalsa20poly1305Sizes;
  #[global] report_BoxCurve25519xsalsa20poly1305Sizes2 :: BoxCurve25519xsalsa20poly1305Sizes2;
  #[global] report_BoxSizes :: BoxSizes;
  #[global] report_BoxBeforenmbytes :: BoxBeforenmbytes;
  #[global] report_BoxSealbytes :: BoxSealbytes;
  #[global] report_BoxSizes2 :: BoxSizes2;
  #[global] report_CoreHsalsa20Sizes :: CoreHsalsa20Sizes;
  #[global] report_CoreSalsa20Sizes :: CoreSalsa20Sizes;
  #[global] report_CoreSalsa2012Sizes :: CoreSalsa2012Sizes;
  #[global] report_CoreSalsa208Sizes :: CoreSalsa208Sizes;
  #[global] report_GenerichashBlake2bSizes :: GenerichashBlake2bSizes;
  #[global] report_GenerichashSizes :: GenerichashSizes;
  #[global] report_GenerichashStatebytes :: GenerichashStatebytes;
  #[global] report_HashBytes :: HashBytes;
  #[global] report_HashPrimitive :: HashPrimitive;
  #[global] report_KxSizes :: KxSizes;
  #[global] report_OnetimeauthPoly1305Sizes :: OnetimeauthPoly1305Sizes;
  #[global] report_OnetimeauthSizes :: OnetimeauthSizes;
  #[global] report_ScalarmultCurve25519Sizes :: ScalarmultCurve25519Sizes;
  #[global] report_ScalarmultSizes :: ScalarmultSizes;
  #[global] report_SecretboxXsalsa20poly1305Sizes :: SecretboxXsalsa20poly1305Sizes;
  #[global] report_SecretboxSizes :: SecretboxSizes;
  #[global] report_StreamChacha20Sizes :: StreamChacha20Sizes;
  #[global] report_ShorthashSiphash24Sizes :: ShorthashSiphash24Sizes;
  #[global] report_SignSizes :: SignSizes;
  #[global] report_StreamSizes :: StreamSizes;
  #[global] report_StreamSalsa20Sizes :: StreamSalsa20Sizes;
  #[global] report_Verify16Bytes :: Verify16Bytes;
  #[global] report_Verify32Bytes :: Verify32Bytes;
  #[global] report_Verify64Bytes :: Verify64Bytes;
  #[global] report_StreamXchacha20Sizes :: StreamXchacha20Sizes;
  #[global] report_PwhashScryptsalsa208sha256Sizes :: PwhashScryptsalsa208sha256Sizes;
  #[global] report_StreamSalsa2012Sizes :: StreamSalsa2012Sizes;
  #[global] report_StreamSalsa208Sizes :: StreamSalsa208Sizes
}.
