(* ===== verification/SysTests.v ===== *)
(** * The tests of libsodium-sys

    libsodium-sys/tests/crypto: nearly all of its tests ask libsodium for a size
    or a name and compare it with the constant of the bindings, which is how the
    constants the wrappers use as sizes of buffers are checked against the
    library that is linked; two check the alignment of states, and eight call
    functions of libsodium that no wrapper calls.  libsodium is a parameter: the
    theorems say exactly when each test passes. *)

From S2P Require Export SysBindings Layout Version HashTests PwhashTests.

(** ** Tests of what libsodium reports *)

Inductive sys_test :=
(** [assert_eq!(unsafe { f() }, C as usize)] *)
| reports_size (f : M Z) (c : Z)
(** [assert!(unsafe { f() } > 0)] *)
| reports_some (f : M Z)
(** The C string [f()] points to, and a constant with its terminator *)
| reports_text (f : M ptr) (c : bytes)
(** [assert_eq!(n, std::mem::align_of::<t>())] *)
| aligned (n : Z) (t : ctype).

(** [CStr::from_ptr]: the bytes before the first nul *)
Definition c_str_from_ptr (p : ptr) : M bytes :=
  let* n := RefVersion.strlen p in read p n.

(** [CStr::from_bytes_with_nul]: one nul, at the end *)
Definition from_bytes_with_nul (bs : bytes) : result bytes :=
  match last bs with
  | Some x00 => if decide (x00 ∈ removelast bs) then Err else Ok (removelast bs)
  | _ => Err
  end.

Section Run.
Context `{Abi}.

Definition run_test (t : sys_test) : M unit :=
  match t with
  | reports_size f c => let* v := f in assert (v =? as_usize c)
  | reports_some f => let* v := f in assert (0 <? v)
  | reports_text f c =>
    let* s := f in
    let* s := c_str_from_ptr s in
    let* p := unwrap (from_bytes_with_nul c) in
    assert_eq s p
  | aligned n t => assert (n =? align_of t)
  end.

(** What libsodium documents of such functions: they return, and a name is a C
    string. *)
Definition is_text (w : world) (f : M ptr) (s : bytes) : Prop :=
  exists p, f w = Done p w /\ bytes_at w p (s ++ [x00]) /\ x00 ∉ s.
Definition answers (w : world) (t : sys_test) : Prop :=
  match t with
  | reports_size f _ | reports_some f => exists v, f w = Done v w
  | reports_text f _ => exists s, is_text w f s
  | aligned _ _ => True
  end.

(** What a test wants to hear *)
Definition agrees (w : world) (t : sys_test) : Prop :=
  match t with
  | reports_size f c => f w = Done (as_usize c) w
  | reports_some f => exists v, f w = Done v w /\ 0 < v
  | reports_text f c => exists s, is_text w f s /\ c = s ++ [x00]
  | aligned n t => n = align_of t
  end.

Lemma from_bytes_with_nul_spec c s : from_bytes_with_nul c = Ok s <-> c = s ++ [x00] /\ x00 ∉ s.
Proof.
  unfold from_bytes_with_nul. split.
  - destruct (last c) as [x|] eqn:Hl; [|done]. apply last_Some in Hl as [l ->]. rewrite removelast_last.
    destruct x; try done. case_decide; intros; by simplify_eq.
  - intros [-> Hn]. rewrite last_snoc, removelast_last. by rewrite decide_False.
Qed.

Lemma c_str_run w p s : bytes_at w p (s ++ [x00]) -> x00 ∉ s -> c_str_from_ptr p w = Done s w.
Proof.
  intros Hb Hn. unfold c_str_from_ptr. eapply bind_step; [by apply RefVersion.strlen_run|].
  apply (read_run _ _ _ s); [|done]. by eapply bytes_at_app_l.
Qed.

(** There is one such string. *)
Lemma is_text_unique w f s s' : is_text w f s -> is_text w f s' -> s = s'.
Proof.
  intros (p & Hp & Hb & Hn) (p' & Hp' & Hb' & Hn'). rewrite Hp in Hp'. injection Hp' as <-.
  pose proof (c_str_run w p s Hb Hn) as E. rewrite (c_str_run w p s' Hb' Hn') in E. by injection E.
Qed.

Lemma settles_assert w (b : bool) P : (b = true <-> P) -> settles_at w (assert b) P.
Proof.
  intros Hb. split; intros Hp.
  - apply Hb in Hp as ->. by exists tt, w.
  - destruct b; [|done]. destruct Hp. by apply Hb.
Qed.

Lemma settles_after {A} w (p : M A) a f P : p w = Done a w -> settles_at w (f a) P -> settles_at w (bind p f) P.
Proof.
  intros Hp [Hy Hn]. split; intros H1.
  - eapply local_run; [exact Hp|by apply Hy].
  - eapply bind_step; [exact Hp|by apply Hn].
Qed.

Lemma run_test_settles w t : answers w t -> settles_at w (run_test t) (agrees w t).
Proof.
  destruct t as [f c|f|f c|n t]; cbn [answers run_test agrees].
  - intros [v Hv]. eapply settles_after; [exact Hv|]. apply settles_assert. rewrite Z.eqb_eq, Hv. split; congruence.
  - intros [v Hv]. eapply settles_after; [exact Hv|]. apply settles_assert. rewrite Z.ltb_lt. split; [eauto|].
    intros (v' & Hv' & ?). congruence.
  - intros (s & p & Hp & Hb & Hn). assert (Ht : is_text w f s) by (by exists p). eapply settles_after; [exact Hp|].
    eapply settles_after; [by apply c_str_run|]. destruct (from_bytes_with_nul c) as [s'|] eqn:Ec.
    + apply from_bytes_with_nul_spec in Ec as [-> Hn']. eapply settles_after; [reflexivity|]. apply settles_assert.
      rewrite bool_decide_eq_true. split; [intros ->; eauto|]. intros (s2 & Hs2 & E). apply app_inj_tail in E as [E _].
      subst s2. by eapply is_text_unique.
    + split; [|done]. intros (s2 & (p2 & _ & _ & Hn2) & ->). exfalso.
      by rewrite (proj2 (from_bytes_with_nul_spec (s2 ++ [x00]) s2)) in Ec.
  - intros _. apply settles_assert. by rewrite Z.eqb_eq.
Qed.

(** Given an answer, what it should be is decided. *)
Lemma agrees_dec w t : answers w t -> agrees w t \/ ~ agrees w t.
Proof.
  destruct t as [f c|f|f c|n t]; cbn [answers agrees].
  - intros [v Hv]. rewrite Hv. destruct (decide (v = as_usize c)) as [->|Hne]; [by left|right]. congruence.
  - intros [v Hv]. destruct (decide (0 < v)) as [Hp|Hn]; [left; eauto|right]. intros (v' & Hv' & ?).
    rewrite Hv in Hv'. by injection Hv' as ->.
  - intros [s Hs]. destruct (decide (c = s ++ [x00])) as [->|Hne]; [left; eauto|right]. intros (s' & Hs' & ->).
    by rewrite (is_text_unique _ _ _ _ Hs' Hs) in Hne.
  - intros _. destruct (decide (n = align_of t)); auto.
Qed.

Lemma passes_iff w t : answers w t -> does w (run_test t) (fun _ _ => True) <-> agrees w t.
Proof.
  intros Ha. destruct (run_test_settles w t Ha) as [Hy Hn]. split; [|exact Hy]. intros (x & w' & Hr & _).
  destruct (agrees_dec w t Ha) as [|Hna]; [done|]. by rewrite Hn in Hr.
Qed.

Lemma answers_text w f p c s :
  f w = Done p w -> from_bytes_with_nul c = Ok s -> bytes_at w p c -> answers w (reports_text f c).
Proof. intros Hf [-> Hn]%from_bytes_with_nul_spec Hb. by exists s, p. Qed.

Lemma agrees_text w f p c s :
  f w = Done p w -> from_bytes_with_nul c = Ok s -> bytes_at w p c -> agrees w (reports_text f c).
Proof. intros Hf [-> Hn]%from_bytes_with_nul_spec Hb. exists s. split; [by exists p|done]. Qed.

End Run.

(** ** The suites, a list for each file *)

Section Suites.
Context {L : SodiumSizes}.

Definition crypto_aead_chacha20poly1305_tests : list sys_test :=
  [reports_size crypto_aead_chacha20poly1305_keybytes crypto_aead_chacha20poly1305_KEYBYTES;
   reports_size crypto_aead_chacha20poly1305_nsecbytes crypto_aead_chacha20poly1305_NSECBYTES;
   reports_size crypto_aead_chacha20poly1305_npubbytes crypto_aead_chacha20poly1305_NPUBBYTES;
   reports_size crypto_aead_chacha20poly1305_abytes crypto_aead_chacha20poly1305_ABYTES;
   reports_size crypto_aead_chacha20poly1305_ietf_keybytes crypto_aead_chacha20poly1305_ietf_KEYBYTES;
   reports_size crypto_aead_chacha20poly1305_ietf_nsecbytes crypto_aead_chacha20poly1305_ietf_NSECBYTES;
   reports_size crypto_aead_chacha20poly1305_ietf_npubbytes crypto_aead_chacha20poly1305_ietf_NPUBBYTES;
   reports_size crypto_aead_chacha20poly1305_ietf_abytes crypto_aead_chacha20poly1305_ietf_ABYTES].

Definition crypto_auth_tests : list sys_test :=
  [reports_size crypto_auth_bytes crypto_auth_BYTES;
   reports_size crypto_auth_keybytes crypto_auth_KEYBYTES;
   reports_text crypto_auth_primitive crypto_auth_PRIMITIVE].

Definition crypto_auth_hmacsha256_tests : list sys_test :=
  [reports_size crypto_auth_hmacsha256_bytes crypto_auth_hmacsha256_BYTES;
   reports_size crypto_auth_hmacsha256_keybytes crypto_auth_hmacsha256_KEYBYTES].

Definition crypto_auth_hmacsha512_tests : list sys_test :=
  [reports_size crypto_auth_hmacsha512_bytes crypto_auth_hmacsha512_BYTES;
   reports_size crypto_auth_hmacsha512_keybytes crypto_auth_hmacsha512_KEYBYTES].

Definition crypto_auth_hmacsha512256_tests : list sys_test :=
  [reports_size crypto_auth_hmacsha512256_bytes crypto_auth_hmacsha512256_BYTES;
   reports_size crypto_auth_hmacsha512256_keybytes crypto_auth_hmacsha512256_KEYBYTES].

Definition crypto_box_tests : list sys_test :=
  [reports_size crypto_box_seedbytes crypto_box_SEEDBYTES;
   reports_size crypto_box_publickeybytes crypto_box_PUBLICKEYBYTES;
   reports_size crypto_box_secretkeybytes crypto_box_SECRETKEYBYTES;
   reports_size crypto_box_beforenmbytes crypto_box_BEFORENMBYTES;
   reports_size crypto_box_noncebytes crypto_box_NONCEBYTES;
   reports_size crypto_box_zerobytes crypto_box_ZEROBYTES;
   reports_size crypto_box_boxzerobytes crypto_box_BOXZEROBYTES;
   reports_size crypto_box_macbytes crypto_box_MACBYTES;
   reports_text crypto_box_primitive crypto_box_PRIMITIVE;
   reports_size crypto_box_sealbytes crypto_box_SEALBYTES].

Definition crypto_box_curve25519xsalsa20poly1305_tests : list sys_test :=
  [reports_size crypto_box_curve25519xsalsa20poly1305_seedbytes crypto_box_curve25519xsalsa20poly1305_SEEDBYTES;
   reports_size crypto_box_curve25519xsalsa20poly1305_publickeybytes crypto_box_curve25519xsalsa20poly1305_PUBLICKEYBYTES;
   reports_size crypto_box_curve25519xsalsa20poly1305_secretkeybytes crypto_box_curve25519xsalsa20poly1305_SECRETKEYBYTES;
   reports_size crypto_box_curve25519xsalsa20poly1305_beforenmbytes crypto_box_curve25519xsalsa20poly1305_BEFORENMBYTES;
   reports_size crypto_box_curve25519xsalsa20poly1305_noncebytes crypto_box_curve25519xsalsa20poly1305_NONCEBYTES;
   reports_size crypto_box_curve25519xsalsa20poly1305_zerobytes crypto_box_curve25519xsalsa20poly1305_ZEROBYTES;
   reports_size crypto_box_curve25519xsalsa20poly1305_boxzerobytes crypto_box_curve25519xsalsa20poly1305_BOXZEROBYTES;
   reports_size crypto_box_curve25519xsalsa20poly1305_macbytes crypto_box_curve25519xsalsa20poly1305_MACBYTES].

Definition crypto_core_hsalsa20_tests : list sys_test :=
  [reports_size crypto_core_hsalsa20_outputbytes crypto_core_hsalsa20_OUTPUTBYTES;
   reports_size crypto_core_hsalsa20_inputbytes crypto_core_hsalsa20_INPUTBYTES;
   reports_size crypto_core_hsalsa20_keybytes crypto_core_hsalsa20_KEYBYTES;
   reports_size crypto_core_hsalsa20_constbytes crypto_core_hsalsa20_CONSTBYTES].

Definition crypto_core_salsa20_tests : list sys_test :=
  [reports_size crypto_core_salsa20_outputbytes crypto_core_salsa20_OUTPUTBYTES;
   reports_size crypto_core_salsa20_inputbytes crypto_core_salsa20_INPUTBYTES;
   reports_size crypto_core_salsa20_keybytes crypto_core_salsa20_KEYBYTES;
   reports_size crypto_core_salsa20_constbytes crypto_core_salsa20_CONSTBYTES].

Definition crypto_core_salsa2012_tests : list sys_test :=
  [reports_size crypto_core_salsa2012_outputbytes crypto_core_salsa2012_OUTPUTBYTES;
   reports_size crypto_core_salsa2012_inputbytes crypto_core_salsa2012_INPUTBYTES;
   reports_size crypto_core_salsa2012_keybytes crypto_core_salsa2012_KEYBYTES;
   reports_size crypto_core_salsa2012_constbytes crypto_core_salsa2012_CONSTBYTES].

Definition crypto_core_salsa208_tests : list sys_test :=
  [reports_size crypto_core_salsa208_outputbytes crypto_core_salsa208_OUTPUTBYTES;
   reports_size crypto_core_salsa208_inputbytes crypto_core_salsa208_INPUTBYTES;
   reports_size crypto_core_salsa208_keybytes crypto_core_salsa208_KEYBYTES;
   reports_size crypto_core_salsa208_constbytes crypto_core_salsa208_CONSTBYTES].

Definition crypto_generichash_tests : list sys_test :=
  [reports_size crypto_generichash_bytes_min crypto_generichash_BYTES_MIN;
   reports_size crypto_generichash_bytes_max crypto_generichash_BYTES_MAX;
   reports_size crypto_generichash_bytes crypto_generichash_BYTES;
   reports_size crypto_generichash_keybytes_min crypto_generichash_KEYBYTES_MIN;
   reports_size crypto_generichash_keybytes_max crypto_generichash_KEYBYTES_MAX;
   reports_size crypto_generichash_keybytes crypto_generichash_KEYBYTES;
   reports_text crypto_generichash_primitive crypto_generichash_PRIMITIVE;
   reports_some crypto_generichash_statebytes].

Definition crypto_generichash_blake2b_tests : list sys_test :=
  [aligned 64 types.crypto_generichash_blake2b_state;
   reports_size crypto_generichash_blake2b_bytes_min crypto_generichash_blake2b_BYTES_MIN;
   reports_size crypto_generichash_blake2b_bytes_max crypto_generichash_blake2b_BYTES_MAX;
   reports_size crypto_generichash_blake2b_bytes crypto_generichash_blake2b_BYTES;
   reports_size crypto_generichash_blake2b_keybytes_min crypto_generichash_blake2b_KEYBYTES_MIN;
   reports_size crypto_generichash_blake2b_keybytes_max crypto_generichash_blake2b_KEYBYTES_MAX;
   reports_size crypto_generichash_blake2b_keybytes crypto_generichash_blake2b_KEYBYTES;
   reports_size crypto_generichash_blake2b_saltbytes crypto_generichash_blake2b_SALTBYTES;
   reports_size crypto_generichash_blake2b_personalbytes crypto_generichash_blake2b_PERSONALBYTES].

Definition crypto_hash_tests : list sys_test :=
  [reports_size crypto_hash_bytes crypto_hash_BYTES;
   reports_text crypto_hash_primitive crypto_hash_PRIMITIVE].

Definition crypto_hash_sha256_tests : list sys_test :=
  [reports_size crypto_hash_sha256_bytes crypto_hash_sha256_BYTES].

Definition crypto_hash_sha512_tests : list sys_test :=
  [reports_size crypto_hash_sha512_bytes crypto_hash_sha512_BYTES].

Definition crypto_kx_tests : list sys_test :=
  [reports_size crypto_kx_publickeybytes crypto_kx_PUBLICKEYBYTES;
   reports_size crypto_kx_secretkeybytes crypto_kx_SECRETKEYBYTES;
   reports_size crypto_kx_seedbytes crypto_kx_SEEDBYTES;
   reports_size crypto_kx_sessionkeybytes crypto_kx_SESSIONKEYBYTES;
   reports_text crypto_kx_primitive crypto_kx_PRIMITIVE].

Definition crypto_onetimeauth_tests : list sys_test :=
  [reports_size crypto_onetimeauth_bytes crypto_onetimeauth_BYTES;
   reports_size crypto_onetimeauth_keybytes crypto_onetimeauth_KEYBYTES;
   reports_text crypto_onetimeauth_primitive crypto_onetimeauth_PRIMITIVE].

Definition crypto_onetimeauth_poly1305_tests : list sys_test :=
  [aligned 16 types.crypto_onetimeauth_poly1305_state;
   reports_size crypto_onetimeauth_poly1305_bytes crypto_onetimeauth_poly1305_BYTES;
   reports_size crypto_onetimeauth_poly1305_keybytes crypto_onetimeauth_poly1305_KEYBYTES].

Definition crypto_pwhash_scryptsalsa208sha256_tests : list sys_test :=
  [reports_size crypto_pwhash_scryptsalsa208sha256_saltbytes crypto_pwhash_scryptsalsa208sha256_SALTBYTES;
   reports_size crypto_pwhash_scryptsalsa208sha256_strbytes crypto_pwhash_scryptsalsa208sha256_STRBYTES;
   reports_size crypto_pwhash_scryptsalsa208sha256_opslimit_interactive crypto_pwhash_scryptsalsa208sha256_OPSLIMIT_INTERACTIVE;
   reports_size crypto_pwhash_scryptsalsa208sha256_memlimit_interactive crypto_pwhash_scryptsalsa208sha256_MEMLIMIT_INTERACTIVE;
   reports_size crypto_pwhash_scryptsalsa208sha256_opslimit_sensitive crypto_pwhash_scryptsalsa208sha256_OPSLIMIT_SENSITIVE;
   reports_size crypto_pwhash_scryptsalsa208sha256_memlimit_sensitive crypto_pwhash_scryptsalsa208sha256_MEMLIMIT_SENSITIVE;
   reports_text crypto_pwhash_scryptsalsa208sha256_strprefix crypto_pwhash_scryptsalsa208sha256_STRPREFIX].

Definition crypto_scalarmult_tests : list sys_test :=
  [reports_size crypto_scalarmult_bytes crypto_scalarmult_BYTES;
   reports_size crypto_scalarmult_scalarbytes crypto_scalarmult_SCALARBYTES;
   reports_text crypto_scalarmult_primitive crypto_scalarmult_PRIMITIVE].

Definition crypto_scalarmult_curve25519_tests : list sys_test :=
  [reports_size crypto_scalarmult_curve25519_bytes crypto_scalarmult_curve25519_BYTES;
   reports_size crypto_scalarmult_curve25519_scalarbytes crypto_scalarmult_curve25519_SCALARBYTES].

Definition crypto_secretbox_tests : list sys_test :=
  [reports_size crypto_secretbox_keybytes crypto_secretbox_KEYBYTES;
   reports_size crypto_secretbox_noncebytes crypto_secretbox_NONCEBYTES;
   reports_size crypto_secretbox_macbytes crypto_secretbox_MACBYTES;
   reports_text crypto_secretbox_primitive crypto_secretbox_PRIMITIVE].

Definition crypto_secretbox_xsalsa20poly1305_tests : list sys_test :=
  [reports_size crypto_secretbox_xsalsa20poly1305_keybytes crypto_secretbox_xsalsa20poly1305_KEYBYTES;
   reports_size crypto_secretbox_xsalsa20poly1305_noncebytes crypto_secretbox_xsalsa20poly1305_NONCEBYTES;
   reports_size crypto_secretbox_xsalsa20poly1305_zerobytes crypto_secretbox_xsalsa20poly1305_ZEROBYTES;
   reports_size crypto_secretbox_xsalsa20poly1305_boxzerobytes crypto_secretbox_xsalsa20poly1305_BOXZEROBYTES;
   reports_size crypto_secretbox_xsalsa20poly1305_macbytes crypto_secretbox_xsalsa20poly1305_MACBYTES].

Definition crypto_shorthash_siphash24_tests : list sys_test :=
  [reports_size crypto_shorthash_siphash24_bytes crypto_shorthash_siphash24_BYTES;
   reports_size crypto_shorthash_siphash24_keybytes crypto_shorthash_siphash24_KEYBYTES].

Definition crypto_sign_ed25519_tests : list sys_test :=
  [reports_size crypto_sign_ed25519_bytes crypto_sign_ed25519_BYTES;
   reports_size crypto_sign_ed25519_seedbytes crypto_sign_ed25519_SEEDBYTES;
   reports_size crypto_sign_ed25519_publickeybytes crypto_sign_ed25519_PUBLICKEYBYTES;
   reports_size crypto_sign_ed25519_secretkeybytes crypto_sign_ed25519_SECRETKEYBYTES].

Definition crypto_stream_tests : list sys_test :=
  [reports_size crypto_stream_keybytes crypto_stream_KEYBYTES;
   reports_size crypto_stream_noncebytes crypto_stream_NONCEBYTES;
   reports_text crypto_stream_primitive crypto_stream_PRIMITIVE].

Definition crypto_stream_chacha20_tests : list sys_test :=
  [reports_size crypto_stream_chacha20_keybytes crypto_stream_chacha20_KEYBYTES;
   reports_size crypto_stream_chacha20_noncebytes crypto_stream_chacha20_NONCEBYTES].

Definition crypto_stream_salsa20_tests : list sys_test :=
  [reports_size crypto_stream_salsa20_keybytes crypto_stream_salsa20_KEYBYTES;
   reports_size crypto_stream_salsa20_noncebytes crypto_stream_salsa20_NONCEBYTES].

Definition crypto_stream_salsa2012_tests : list sys_test :=
  [reports_size crypto_stream_salsa2012_keybytes crypto_stream_salsa2012_KEYBYTES;
   reports_size crypto_stream_salsa2012_noncebytes crypto_stream_salsa2012_NONCEBYTES].

Definition crypto_stream_salsa208_tests : list sys_test :=
  [reports_size crypto_stream_salsa208_keybytes crypto_stream_salsa208_KEYBYTES;
   reports_size crypto_stream_salsa208_noncebytes crypto_stream_salsa208_NONCEBYTES].

Definition crypto_stream_xchacha20_tests : list sys_test :=
  [reports_size crypto_stream_xchacha20_keybytes crypto_stream_xchacha20_KEYBYTES;
   reports_size crypto_stream_xchacha20_noncebytes crypto_stream_xchacha20_NONCEBYTES].

Definition crypto_stream_xsalsa20_tests : list sys_test :=
  [reports_size crypto_stream_xsalsa20_keybytes crypto_stream_xsalsa20_KEYBYTES;
   reports_size crypto_stream_xsalsa20_noncebytes crypto_stream_xsalsa20_NONCEBYTES].

Definition crypto_verify_16_tests : list sys_test :=
  [reports_size crypto_verify_16_bytes crypto_verify_16_BYTES].

Definition crypto_verify_32_tests : list sys_test :=
  [reports_size crypto_verify_32_bytes crypto_verify_32_BYTES].

Definition crypto_verify_64_tests : list sys_test :=
  [reports_size crypto_verify_64_bytes crypto_verify_64_BYTES].


Definition sys_tests : list sys_test :=
  crypto_aead_chacha20poly1305_tests ++
  crypto_auth_tests ++
  crypto_auth_hmacsha256_tests ++
  crypto_auth_hmacsha512_tests ++
  crypto_auth_hmacsha512256_tests ++
  crypto_box_tests ++
  crypto_box_curve25519xsalsa20poly1305_tests ++
  crypto_core_hsalsa20_tests ++
  crypto_core_salsa20_tests ++
  crypto_core_salsa2012_tests ++
  crypto_core_salsa208_tests ++
  crypto_generichash_tests ++
  crypto_generichash_blake2b_tests ++
  crypto_hash_tests ++
  crypto_hash_sha256_tests ++
  crypto_hash_sha512_tests ++
  crypto_kx_tests ++
  crypto_onetimeauth_tests ++
  crypto_onetimeauth_poly1305_tests ++
  crypto_pwhash_scryptsalsa208sha256_tests ++
  crypto_scalarmult_tests ++
  crypto_scalarmult_curve25519_tests ++
  crypto_secretbox_tests ++
  crypto_secretbox_xsalsa20poly1305_tests ++
  crypto_shorthash_siphash24_tests ++
  crypto_sign_ed25519_tests ++
  crypto_stream_tests ++
  crypto_stream_chacha20_tests ++
  crypto_stream_salsa20_tests ++
  crypto_stream_salsa2012_tests ++
  crypto_stream_salsa208_tests ++
  crypto_stream_xchacha20_tests ++
  crypto_stream_xsalsa20_tests ++
  crypto_verify_16_tests ++
  crypto_verify_32_tests ++
  crypto_verify_64_tests.

End Suites.

(** 64-bit targets *)
Definition abi64 : @Abi target64 := {| u64_align := 8; u64_align_cases := or_intror eq_refl |}.

(** A library that reports the constants; its strings are in the blocks from 1 on. *)
Module RefSizes.

Definition texts : list bytes :=
  [crypto_auth_PRIMITIVE;
   crypto_box_PRIMITIVE;
   crypto_generichash_PRIMITIVE;
   crypto_hash_PRIMITIVE;
   crypto_kx_PRIMITIVE;
   crypto_onetimeauth_PRIMITIVE;
   crypto_pwhash_scryptsalsa208sha256_STRPREFIX;
   crypto_scalarmult_PRIMITIVE;
   crypto_secretbox_PRIMITIVE;
   crypto_stream_PRIMITIVE].

Definition w : world := Ref.world texts.

Definition sizes : SodiumSizes := {|
  report_AeadChacha20poly1305IetfSizes := {|
    crypto_aead_chacha20poly1305_ietf_keybytes := ret crypto_aead_chacha20poly1305_ietf_KEYBYTES;
    crypto_aead_chacha20poly1305_ietf_nsecbytes := ret crypto_aead_chacha20poly1305_ietf_NSECBYTES;
    crypto_aead_chacha20poly1305_ietf_npubbytes := ret crypto_aead_chacha20poly1305_ietf_NPUBBYTES;
    crypto_aead_chacha20poly1305_ietf_abytes := ret crypto_aead_chacha20poly1305_ietf_ABYTES;
    crypto_aead_chacha20poly1305_ietf_messagebytes_max := ret 0 |};
  report_AeadChacha20poly1305Sizes := {|
    crypto_aead_chacha20poly1305_keybytes := ret crypto_aead_chacha20poly1305_KEYBYTES;
    crypto_aead_chacha20poly1305_nsecbytes := ret crypto_aead_chacha20poly1305_NSECBYTES;
    crypto_aead_chacha20poly1305_npubbytes := ret crypto_aead_chacha20poly1305_NPUBBYTES;
    crypto_aead_chacha20poly1305_abytes := ret crypto_aead_chacha20poly1305_ABYTES;
    crypto_aead_chacha20poly1305_messagebytes_max := ret 0 |};
  report_HashSha512Sizes := {|
    crypto_hash_sha512_statebytes := ret 0;
    crypto_hash_sha512_bytes := ret crypto_hash_sha512_BYTES |};
  report_AuthHmacsha512Sizes := {|
    crypto_auth_hmacsha512_bytes := ret crypto_auth_hmacsha512_BYTES;
    crypto_auth_hmacsha512_keybytes := ret crypto_auth_hmacsha512_KEYBYTES |};
  report_AuthHmacsha512256Sizes := {|
    crypto_auth_hmacsha512256_bytes := ret crypto_auth_hmacsha512256_BYTES;
    crypto_auth_hmacsha512256_keybytes := ret crypto_auth_hmacsha512256_KEYBYTES |};
  report_AuthSizes := {|
    crypto_auth_bytes := ret crypto_auth_BYTES;
    crypto_auth_keybytes := ret crypto_auth_KEYBYTES;
    crypto_auth_primitive := ret (At 1 0) |};
  report_HashSha256Sizes := {|
    crypto_hash_sha256_statebytes := ret 0;
    crypto_hash_sha256_bytes := ret crypto_hash_sha256_BYTES |};
  report_AuthHmacsha256Sizes := {|
    crypto_auth_hmacsha256_bytes := ret crypto_auth_hmacsha256_BYTES;
    crypto_auth_hmacsha256_keybytes := ret crypto_auth_hmacsha256_KEYBYTES |};
  report_StreamXsalsa20Sizes := {|
    crypto_stream_xsalsa20_keybytes := ret crypto_stream_xsalsa20_KEYBYTES;
    crypto_stream_xsalsa20_noncebytes := ret crypto_stream_xsalsa20_NONCEBYTES;
    crypto_stream_xsalsa20_messagebytes_max := ret 0 |};
  report_BoxCurve25519xsalsa20poly1305Sizes := {|
    crypto_box_curve25519xsalsa20poly1305_seedbytes := ret crypto_box_curve25519xsalsa20poly1305_SEEDBYTES;
    crypto_box_curve25519xsalsa20poly1305_publickeybytes := ret crypto_box_curve25519xsalsa20poly1305_PUBLICKEYBYTES;
    crypto_box_curve25519xsalsa20poly1305_secretkeybytes := ret crypto_box_curve25519xsalsa20poly1305_SECRETKEYBYTES;
    crypto_box_curve25519xsalsa20poly1305_beforenmbytes := ret crypto_box_curve25519xsalsa20poly1305_BEFORENMBYTES;
    crypto_box_curve25519xsalsa20poly1305_noncebytes := ret crypto_box_curve25519xsalsa20poly1305_NONCEBYTES;
    crypto_box_curve25519xsalsa20poly1305_macbytes := ret crypto_box_curve25519xsalsa20poly1305_MACBYTES;
    crypto_box_curve25519xsalsa20poly1305_messagebytes_max := ret 0 |};
  report_BoxCurve25519xsalsa20poly1305Sizes2 := {|
    crypto_box_curve25519xsalsa20poly1305_boxzerobytes := ret crypto_box_curve25519xsalsa20poly1305_BOXZEROBYTES;
    crypto_box_curve25519xsalsa20poly1305_zerobytes := ret crypto_box_curve25519xsalsa20poly1305_ZEROBYTES |};
  report_BoxSizes := {|
    crypto_box_seedbytes := ret crypto_box_SEEDBYTES;
    crypto_box_publickeybytes := ret crypto_box_PUBLICKEYBYTES;
    crypto_box_secretkeybytes := ret crypto_box_SECRETKEYBYTES;
    crypto_box_noncebytes := ret crypto_box_NONCEBYTES;
    crypto_box_macbytes := ret crypto_box_MACBYTES;
    crypto_box_messagebytes_max := ret 0;
    crypto_box_primitive := ret (At 2 0) |};
  report_BoxBeforenmbytes := {|
    crypto_box_beforenmbytes := ret crypto_box_BEFORENMBYTES |};
  report_BoxSealbytes := {|
    crypto_box_sealbytes := ret crypto_box_SEALBYTES |};
  report_BoxSizes2 := {|
    crypto_box_zerobytes := ret crypto_box_ZEROBYTES;
    crypto_box_boxzerobytes := ret crypto_box_BOXZEROBYTES |};
  report_CoreHsalsa20Sizes := {|
    crypto_core_hsalsa20_outputbytes := ret crypto_core_hsalsa20_OUTPUTBYTES;
    crypto_core_hsalsa20_inputbytes := ret crypto_core_hsalsa20_INPUTBYTES;
    crypto_core_hsalsa20_keybytes := ret crypto_core_hsalsa20_KEYBYTES;
    crypto_core_hsalsa20_constbytes := ret crypto_core_hsalsa20_CONSTBYTES |};
  report_CoreSalsa20Sizes := {|
    crypto_core_salsa20_outputbytes := ret crypto_core_salsa20_OUTPUTBYTES;
    crypto_core_salsa20_inputbytes := ret crypto_core_salsa20_INPUTBYTES;
    crypto_core_salsa20_keybytes := ret crypto_core_salsa20_KEYBYTES;
    crypto_core_salsa20_constbytes := ret crypto_core_salsa20_CONSTBYTES |};
  report_CoreSalsa2012Sizes := {|
    crypto_core_salsa2012_outputbytes := ret crypto_core_salsa2012_OUTPUTBYTES;
    crypto_core_salsa2012_inputbytes := ret crypto_core_salsa2012_INPUTBYTES;
    crypto_core_salsa2012_keybytes := ret crypto_core_salsa2012_KEYBYTES;
    crypto_core_salsa2012_constbytes := ret crypto_core_salsa2012_CONSTBYTES |};
  report_CoreSalsa208Sizes := {|
    crypto_core_salsa208_outputbytes := ret crypto_core_salsa208_OUTPUTBYTES;
    crypto_core_salsa208_inputbytes := ret crypto_core_salsa208_INPUTBYTES;
    crypto_core_salsa208_keybytes := ret crypto_core_salsa208_KEYBYTES;
    crypto_core_salsa208_constbytes := ret crypto_core_salsa208_CONSTBYTES |};
  report_GenerichashBlake2bSizes := {|
    crypto_generichash_blake2b_bytes_min := ret crypto_generichash_blake2b_BYTES_MIN;
    crypto_generichash_blake2b_bytes_max := ret crypto_generichash_blake2b_BYTES_MAX;
    crypto_generichash_blake2b_bytes := ret crypto_generichash_blake2b_BYTES;
    crypto_generichash_blake2b_keybytes_min := ret crypto_generichash_blake2b_KEYBYTES_MIN;
    crypto_generichash_blake2b_keybytes_max := ret crypto_generichash_blake2b_KEYBYTES_MAX;
    crypto_generichash_blake2b_keybytes := ret crypto_generichash_blake2b_KEYBYTES;
    crypto_generichash_blake2b_saltbytes := ret crypto_generichash_blake2b_SALTBYTES;
    crypto_generichash_blake2b_personalbytes := ret crypto_generichash_blake2b_PERSONALBYTES;
    crypto_generichash_blake2b_statebytes := ret 0 |};
  report_GenerichashSizes := {|
    crypto_generichash_bytes_min := ret crypto_generichash_BYTES_MIN;
    crypto_generichash_bytes_max := ret crypto_generichash_BYTES_MAX;
    crypto_generichash_bytes := ret crypto_generichash_BYTES;
    crypto_generichash_keybytes_min := ret crypto_generichash_KEYBYTES_MIN;
    crypto_generichash_keybytes_max := ret crypto_generichash_KEYBYTES_MAX;
    crypto_generichash_keybytes := ret crypto_generichash_KEYBYTES;
    crypto_generichash_primitive := ret (At 3 0) |};
  report_GenerichashStatebytes := {|
    crypto_generichash_statebytes := ret 384 |};
  report_HashBytes := {|
    crypto_hash_bytes := ret crypto_hash_BYTES |};
  report_HashPrimitive := {|
    crypto_hash_primitive := ret (At 4 0) |};
  report_KxSizes := {|
    crypto_kx_publickeybytes := ret crypto_kx_PUBLICKEYBYTES;
    crypto_kx_secretkeybytes := ret crypto_kx_SECRETKEYBYTES;
    crypto_kx_seedbytes := ret crypto_kx_SEEDBYTES;
    crypto_kx_sessionkeybytes := ret crypto_kx_SESSIONKEYBYTES;
    crypto_kx_primitive := ret (At 5 0) |};
  report_OnetimeauthPoly1305Sizes := {|
    crypto_onetimeauth_poly1305_statebytes := ret 0;
    crypto_onetimeauth_poly1305_bytes := ret crypto_onetimeauth_poly1305_BYTES;
    crypto_onetimeauth_poly1305_keybytes := ret crypto_onetimeauth_poly1305_KEYBYTES |};
  report_OnetimeauthSizes := {|
    crypto_onetimeauth_statebytes := ret 0;
    crypto_onetimeauth_bytes := ret crypto_onetimeauth_BYTES;
    crypto_onetimeauth_keybytes := ret crypto_onetimeauth_KEYBYTES;
    crypto_onetimeauth_primitive := ret (At 6 0) |};
  report_ScalarmultCurve25519Sizes := {|
    crypto_scalarmult_curve25519_bytes := ret crypto_scalarmult_curve25519_BYTES;
    crypto_scalarmult_curve25519_scalarbytes := ret crypto_scalarmult_curve25519_SCALARBYTES |};
  report_ScalarmultSizes := {|
    crypto_scalarmult_bytes := ret crypto_scalarmult_BYTES;
    crypto_scalarmult_scalarbytes := ret crypto_scalarmult_SCALARBYTES;
    crypto_scalarmult_primitive := ret (At 8 0) |};
  report_SecretboxXsalsa20poly1305Sizes := {|
    crypto_secretbox_xsalsa20poly1305_keybytes := ret crypto_secretbox_xsalsa20poly1305_KEYBYTES;
    crypto_secretbox_xsalsa20poly1305_noncebytes := ret crypto_secretbox_xsalsa20poly1305_NONCEBYTES;
    crypto_secretbox_xsalsa20poly1305_macbytes := ret crypto_secretbox_xsalsa20poly1305_MACBYTES;
    crypto_secretbox_xsalsa20poly1305_messagebytes_max := ret 0 |};
  report_SecretboxSizes := {|
    crypto_secretbox_xsalsa20poly1305_boxzerobytes := ret crypto_secretbox_xsalsa20poly1305_BOXZEROBYTES;
    crypto_secretbox_xsalsa20poly1305_zerobytes := ret crypto_secretbox_xsalsa20poly1305_ZEROBYTES;
    crypto_secretbox_keybytes := ret crypto_secretbox_KEYBYTES;
    crypto_secretbox_noncebytes := ret crypto_secretbox_NONCEBYTES;
    crypto_secretbox_macbytes := ret crypto_secretbox_MACBYTES;
    crypto_secretbox_primitive := ret (At 9 0);
    crypto_secretbox_messagebytes_max := ret 0 |};
  report_StreamChacha20Sizes := {|
    crypto_stream_chacha20_keybytes := ret crypto_stream_chacha20_KEYBYTES;
    crypto_stream_chacha20_noncebytes := ret crypto_stream_chacha20_NONCEBYTES;
    crypto_stream_chacha20_messagebytes_max := ret 0 |};
  report_ShorthashSiphash24Sizes := {|
    crypto_shorthash_siphash24_bytes := ret crypto_shorthash_siphash24_BYTES;
    crypto_shorthash_siphash24_keybytes := ret crypto_shorthash_siphash24_KEYBYTES |};
  report_SignSizes := {|
    crypto_sign_ed25519ph_statebytes := ret 0;
    crypto_sign_ed25519_bytes := ret crypto_sign_ed25519_BYTES;
    crypto_sign_ed25519_seedbytes := ret crypto_sign_ed25519_SEEDBYTES;
    crypto_sign_ed25519_publickeybytes := ret crypto_sign_ed25519_PUBLICKEYBYTES;
    crypto_sign_ed25519_secretkeybytes := ret crypto_sign_ed25519_SECRETKEYBYTES;
    crypto_sign_ed25519_messagebytes_max := ret 0 |};
  report_StreamSizes := {|
    crypto_stream_keybytes := ret crypto_stream_KEYBYTES;
    crypto_stream_noncebytes := ret crypto_stream_NONCEBYTES;
    crypto_stream_messagebytes_max := ret 0;
    crypto_stream_primitive := ret (At 10 0) |};
  report_StreamSalsa20Sizes := {|
    crypto_stream_salsa20_keybytes := ret crypto_stream_salsa20_KEYBYTES;
    crypto_stream_salsa20_noncebytes := ret crypto_stream_salsa20_NONCEBYTES;
    crypto_stream_salsa20_messagebytes_max := ret 0 |};
  report_Verify16Bytes := {|
    crypto_verify_16_bytes := ret crypto_verify_16_BYTES |};
  report_Verify32Bytes := {|
    crypto_verify_32_bytes := ret crypto_verify_32_BYTES |};
  report_Verify64Bytes := {|
    crypto_verify_64_bytes := ret crypto_verify_64_BYTES |};
  report_StreamXchacha20Sizes := {|
    crypto_stream_xchacha20_keybytes := ret crypto_stream_xchacha20_KEYBYTES;
    crypto_stream_xchacha20_noncebytes := ret crypto_stream_xchacha20_NONCEBYTES;
    crypto_stream_xchacha20_messagebytes_max := ret 0 |};
  report_PwhashScryptsalsa208sha256Sizes := {|
    crypto_pwhash_scryptsalsa208sha256_bytes_min := ret 0;
    crypto_pwhash_scryptsalsa208sha256_bytes_max := ret 0;
    crypto_pwhash_scryptsalsa208sha256_passwd_min := ret 0;
    crypto_pwhash_scryptsalsa208sha256_passwd_max := ret 0;
    crypto_pwhash_scryptsalsa208sha256_saltbytes := ret crypto_pwhash_scryptsalsa208sha256_SALTBYTES;
    crypto_pwhash_scryptsalsa208sha256_strbytes := ret crypto_pwhash_scryptsalsa208sha256_STRBYTES;
    crypto_pwhash_scryptsalsa208sha256_strprefix := ret (At 7 0);
    crypto_pwhash_scryptsalsa208sha256_opslimit_min := ret 0;
    crypto_pwhash_scryptsalsa208sha256_opslimit_max := ret 0;
    crypto_pwhash_scryptsalsa208sha256_memlimit_min := ret 0;
    crypto_pwhash_scryptsalsa208sha256_memlimit_max := ret 0;
    crypto_pwhash_scryptsalsa208sha256_opslimit_interactive := ret crypto_pwhash_scryptsalsa208sha256_OPSLIMIT_INTERACTIVE;
    crypto_pwhash_scryptsalsa208sha256_memlimit_interactive := ret crypto_pwhash_scryptsalsa208sha256_MEMLIMIT_INTERACTIVE;
    crypto_pwhash_scryptsalsa208sha256_opslimit_sensitive := ret crypto_pwhash_scryptsalsa208sha256_OPSLIMIT_SENSITIVE;
    crypto_pwhash_scryptsalsa208sha256_memlimit_sensitive := ret crypto_pwhash_scryptsalsa208sha256_MEMLIMIT_SENSITIVE |};
  report_StreamSalsa2012Sizes := {|
    crypto_stream_salsa2012_keybytes := ret crypto_stream_salsa2012_KEYBYTES;
    crypto_stream_salsa2012_noncebytes := ret crypto_stream_salsa2012_NONCEBYTES;
    crypto_stream_salsa2012_messagebytes_max := ret 0 |};
  report_StreamSalsa208Sizes := {|
    crypto_stream_salsa208_keybytes := ret crypto_stream_salsa208_KEYBYTES;
    crypto_stream_salsa208_noncebytes := ret crypto_stream_salsa208_NONCEBYTES;
    crypto_stream_salsa208_messagebytes_max := ret 0 |}
|}.

End RefSizes.

(** libsodium-sys/tests: given a libsodium whose functions answer, the 128
    tests of sizes, names and alignments all pass exactly when every function
    reports the constant of the bindings; each test whose function reports
    something else panics, and none does worse; the tests of alignments always
    pass. *)
Theorem sys_tests_settle `{T : Target} {B : Abi} {L : SodiumSizes} w (Ha : Forall (answers w) sys_tests) :
  length sys_tests = 128%nat /\
  (Forall (fun t => does w (run_test t) (fun _ _ => True)) sys_tests <-> Forall (agrees w) sys_tests) /\
  Forall (fun t => ~ agrees w t -> run_test t w = Panicked) sys_tests /\
  Forall (fun t => match t with aligned _ _ => agrees w t | _ => True end) sys_tests.
Proof.
  split_and!; [reflexivity| | |repeat constructor].
  - split; intros Hd; pose proof (proj2 (Forall_and _ _) (conj Ha Hd)) as Hb; (eapply Forall_impl; [exact Hb|]);
      intros t [Hans Ht]; by apply (passes_iff w t).
  - eapply Forall_impl; [exact Ha|]. intros t Ht. apply (run_test_settles w t Ht).
Qed.

(** The reference library passes them all. *)
Lemma ref_agrees : Forall (@agrees target64 abi64 RefSizes.w) (@sys_tests RefSizes.sizes).
Proof.
  repeat (apply Forall_cons; split); [..|constructor];
    first [reflexivity | eexists; split; [reflexivity|lia]
          | eapply agrees_text; [reflexivity|vm_compute; reflexivity|vm_compute; reflexivity]].
Qed.

Lemma sys_tests_settle_witness :
  let L := RefSizes.sizes in
  let w := RefSizes.w in
  length sys_tests = 128%nat /\
  (Forall (fun t => does w (@run_test target64 abi64 t) (fun _ _ => True)) sys_tests <->
   Forall (@agrees target64 abi64 w) sys_tests) /\
  Forall (fun t => ~ @agrees target64 abi64 w t -> @run_test target64 abi64 t w = Panicked) sys_tests /\
  Forall (fun t => match t with aligned _ _ => @agrees target64 abi64 w t | _ => True end) sys_tests.
Proof.
  apply (@sys_tests_settle target64 abi64 RefSizes.sizes RefSizes.w).
  repeat (apply Forall_cons; split); [..|constructor];
    first [exact I | eexists; reflexivity | eapply answers_text; [reflexivity|vm_compute; reflexivity|vm_compute; reflexivity]].
Defined.

(** ** Tests that call functions no wrapper calls *)

Section Calls.
Context `{T : Target}.

(** [assert_eq!(unsafe { f(...) }, 0)] *)
Definition assert_zero (p : M Z) : M unit := let* rc := p in assert (rc =? 0).

(** *** crypto_generichash.rs and crypto_generichash_blake2b.rs *)

Section Generichash.
Context `{G : GenerichashExterns} `{E : Blake2bExterns}.

Definition test_crypto_generichash : M unit :=
  let* out := stack_array crypto_generichash_BYTES in
  let* m := stack_array 64 in
  let* key := stack_array crypto_generichash_KEYBYTES in
  assert_zero (crypto_generichash (At out 0) crypto_generichash_BYTES (At m 0) 64 (At key 0) crypto_generichash_KEYBYTES).

(** The state is used once it is initialised: [assume_init()] moves it. *)
Definition test_crypto_generichash_multipart : M unit :=
  let* out := stack_array crypto_generichash_BYTES in
  let* m := stack_array 64 in
  let* key := stack_array crypto_generichash_KEYBYTES in
  let* pst := stack_uninit Bindings.crypto_generichash_blake2b_state in
  let* _ := assert_zero (crypto_generichash_init (At pst 0) (At key 0) crypto_generichash_KEYBYTES crypto_generichash_BYTES) in
  let* st := move_out pst in
  let* pst := place st in
  let* _ := assert_zero (crypto_generichash_update (At pst 0) (At m 0) 64) in
  let* _ := assert_zero (crypto_generichash_update (At pst 0) (At m 0) 64) in
  assert_zero (crypto_generichash_final (At pst 0) (At out 0) crypto_generichash_BYTES).

Definition test_crypto_generichash_blake2b : M unit :=
  let* out := stack_array crypto_generichash_blake2b_BYTES in
  let* m := stack_array 64 in
  let* key := stack_array crypto_generichash_blake2b_KEYBYTES in
  assert_zero (crypto_generichash_blake2b (At out 0) crypto_generichash_blake2b_BYTES (At m 0) 64
    (At key 0) crypto_generichash_blake2b_KEYBYTES).

Definition test_crypto_generichash_blake2b_salt_personal : M unit :=
  let* out := stack_array crypto_generichash_blake2b_BYTES in
  let* m := stack_array 64 in
  let* key := stack_array crypto_generichash_blake2b_KEYBYTES in
  let* salt := stack_array crypto_generichash_blake2b_SALTBYTES in
  let* personal := stack_array crypto_generichash_blake2b_PERSONALBYTES in
  assert_zero (crypto_generichash_blake2b_salt_personal (At out 0) crypto_generichash_blake2b_BYTES (At m 0) 64
    (At key 0) crypto_generichash_blake2b_KEYBYTES (At salt 0) (At personal 0)).

End Generichash.

(** *** crypto_pwhash_scryptsalsa208sha256.rs *)

(** A vector of scrypt, as the four tests have them *)
Record ll_vector := LlVector {
  ll_password : bytes; ll_salt : bytes; ll_n : Z; ll_r : Z; ll_p : Z; ll_expected : bytes
}.

Definition test_crypto_pwhash_scryptsalsa208sha256_ll_1 : ll_vector := {|
  ll_password := []; ll_salt := []; ll_n := 16; ll_r := 1; ll_p := 1;
  ll_expected := hex "77d6576238657b203b19ca42c18a0497f16b4844e3074ae8dfdffa3fede21442fcd0069ded0948f8326a753a0fc81f17e8d3e0fb2e0d3628cf35e20c38d18906"
|}.
Definition test_crypto_pwhash_scryptsalsa208sha256_ll_2 : ll_vector := {|
  ll_password := string_bytes "password"; ll_salt := string_bytes "NaCl"; ll_n := 1024; ll_r := 8; ll_p := 16;
  ll_expected := hex "fdbabe1c9d3472007856e7190d01e9fe7c6ad7cbc8237830e77376634b3731622eaf30d92e22a3886ff109279d9830dac727afb94a83ee6d8360cbdfa2cc0640"
|}.
Definition test_crypto_pwhash_scryptsalsa208sha256_ll_3 : ll_vector := {|
  ll_password := string_bytes "pleaseletmein"; ll_salt := string_bytes "SodiumChloride"; ll_n := 16384; ll_r := 8; ll_p := 1;
  ll_expected := hex "7023bdcb3afd7348461c06cd81fd38ebfda8fbba904f8e3ea9b543f6545da1f2d5432955613f0fcf62d49705242a9af9e61e85dc0d651e40dfcf017b45575887"
|}.
Definition test_crypto_pwhash_scryptsalsa208sha256_ll_4 : ll_vector := {|
  ll_password := string_bytes "pleaseletmein"; ll_salt := string_bytes "SodiumChloride"; ll_n := 1048576; ll_r := 8; ll_p := 1;
  ll_expected := hex "2101cb9b6a511aaeaddbbe09cf70f881ec568d574a2ffd4dabe5ee9820adaa478e56fd8f4ba5d09ffa1c6d927c40f4c337304049e8a952fbcbf45c6fa77a41a4"
|}.

Definition ll_vectors : list ll_vector :=
  [test_crypto_pwhash_scryptsalsa208sha256_ll_1; test_crypto_pwhash_scryptsalsa208sha256_ll_2; test_crypto_pwhash_scryptsalsa208sha256_ll_3; test_crypto_pwhash_scryptsalsa208sha256_ll_4].

Section Scrypt.
Context `{S : ScryptExterns} `{L : ScryptLlExterns}.

Definition test_crypto_pwhash_scryptsalsa208sha256_str : M unit :=
  let* password := place battery_staple in
  let* hashed_password := stack_array crypto_pwhash_scryptsalsa208sha256_STRBYTES in
  let* _ := assert_zero (crypto_pwhash_scryptsalsa208sha256_str (At hashed_password 0) (At password 0) (zlen battery_staple)
              crypto_pwhash_scryptsalsa208sha256_OPSLIMIT_INTERACTIVE crypto_pwhash_scryptsalsa208sha256_MEMLIMIT_INTERACTIVE) in
  assert_zero (crypto_pwhash_scryptsalsa208sha256_str_verify (At hashed_password 0) (At password 0) (zlen battery_staple)).

Definition ll_test (v : ll_vector) : M unit :=
  let* pw := place (ll_password v) in
  let* sp := place (ll_salt v) in
  let* buf := stack_array 64 in
  let* _ := assert_zero (crypto_pwhash_scryptsalsa208sha256_ll (At pw 0) (zlen (ll_password v)) (At sp 0) (zlen (ll_salt v))
              (ll_n v) (ll_r v) (ll_p v) (At buf 0) 64) in
  let* b := slice_bytes (Slice (At buf 0) 64) in
  assert_eq b (ll_expected v).

End Scrypt.
End Calls.

(** *** What is documented of these functions *)

(** BLAKE2b with a salt and a personalisation, which are zeroes if not given *)
Class Blake2bDoc (E : Blake2bExterns) := {
  b2 : Z -> bytes (* key *) -> bytes (* salt *) -> bytes (* personal *) -> bytes -> bytes;
  b2_zlen o k s p m : gh_out_ok o -> zlen (b2 o k s p m) = o;
  crypto_generichash_blake2b_doc out o m mlen k klen :
    gh_out_ok o -> gh_key_ok klen ->
    crypto_generichash_blake2b out o m mlen k klen =
      (let* kb := read k klen in
       let* mb := read m mlen in
       let* _ := write out (b2 o kb (zeros 16) (zeros 16) mb) in ret 0);
  crypto_generichash_blake2b_salt_personal_doc out o m mlen k klen s p :
    gh_out_ok o -> gh_key_ok klen ->
    crypto_generichash_blake2b_salt_personal out o m mlen k klen s p =
      (let* kb := read k klen in
       let* mb := read m mlen in
       let* sb := read s 16 in
       let* pb := read p 16 in
       let* _ := write out (b2 o kb sb pb mb) in ret 0)
}.

(** Whether scrypt completes depends on its parameters and on the process. *)
Class ScryptLlDoc (L : ScryptLlExterns) := {
  ll_completes : env -> Z (* N *) -> Z (* r *) -> Z (* p *) -> bool;
  ll_key : bytes (* passwd *) -> bytes (* salt *) -> Z -> Z -> Z -> Z (* buflen *) -> bytes;
  ll_key_zlen pb sb n r p o : 0 <= o -> zlen (ll_key pb sb n r p o) = o;
  ll_reject : bytes -> bytes;
  ll_reject_zlen b : zlen (ll_reject b) = zlen b;
  crypto_pwhash_scryptsalsa208sha256_ll_doc passwd plen salt slen n r p buf o w :
    crypto_pwhash_scryptsalsa208sha256_ll passwd plen salt slen n r p buf o w =
      (let* pb := read passwd plen in
       let* sb := read salt slen in
       if ll_completes (w_env w) n r p
       then let* _ := write buf (ll_key pb sb n r p o) in ret 0
       else let* old := read buf o in let* _ := write buf (ll_reject old) in ret (-1)) w
}.

Section CallFacts.
Context `{T : Target}.

(** Reading a local and writing to one *)
Lemma local_in {B} (Q : B -> world -> Prop) w m b bs n f :
  holds w m -> m !! b = Some bs -> n = zlen bs -> does w (f bs) Q -> does w (bind (read (At b 0) n) f) Q.
Proof.
  intros Hw Hb -> Hf. eapply local_run; [|exact Hf]. destruct (holds_ref w m b bs Hw Hb) as [Hr _]. by apply read_run.
Qed.

Lemma local_out {B} (Q : B -> world -> Prop) w m b old bs f :
  holds w m -> m !! b = Some old -> zlen bs = zlen old ->
  (holds (w_write (At b 0) bs w) (<[b := bs]> m) -> does (w_write (At b 0) bs w) (f tt) Q) ->
  does w (bind (write (At b 0) bs) f) Q.
Proof.
  intros Hw Hb Hl Hf. eapply local_run; [|apply Hf; by eapply holds_store].
  apply write_run. destruct (holds_ref w m b old Hw Hb) as [Hr _]. by eapply in_range_bytes.
Qed.

Lemma assert_zero_run w p w' : p w = Done 0 w' -> assert_zero p w = Done tt w'.
Proof. intros Hp. unfold assert_zero. by eapply bind_step. Qed.

Section GenerichashFacts.
Context {G : GenerichashExterns} {GD : GenerichashDoc G}.

Lemma test_crypto_generichash_passes : passes test_crypto_generichash.
Proof.
  intros w. pose proof isize_max_bounds. unfold test_crypto_generichash.
  change crypto_generichash_BYTES with 32. change crypto_generichash_KEYBYTES with 32.
  assert (gh_out_ok 32) by (unfold gh_out_ok; lia). assert (gh_key_ok 32) by (unfold gh_key_ok; lia).
  eapply local_array; [apply holds_empty|]. intros o w1 _ Hw1. eapply local_array; [exact Hw1|]. intros m w2 Hm Hw2. fresh_facts.
  eapply local_array; [exact Hw2|]. intros k w3 Hk Hw3. fresh_facts.
  apply local_last. unfold assert_zero. rewrite crypto_generichash_doc by done. unfold stream_oneshot.
  apply local_assoc, local_assoc. eapply local_in; [exact Hw3|local_tac|by rewrite zlen_zeros|].
  apply local_assoc. eapply local_in; [exact Hw3|local_tac|by rewrite zlen_zeros|].
  apply local_assoc. eapply local_out; [exact Hw3|local_tac| |intros _; by apply does_ret].
  rewrite zlen_zeros by lia. assert (StreamingLaws (gh 32)) by (by apply gh_laws). unfold st_digest. by rewrite st_final_zlen, gh_out.
Qed.

Lemma test_crypto_generichash_multipart_passes : passes test_crypto_generichash_multipart.
Proof.
  intros w. pose proof isize_max_bounds. unfold test_crypto_generichash_multipart.
  change crypto_generichash_BYTES with 32. change crypto_generichash_KEYBYTES with 32.
  assert (Ho : gh_out_ok 32) by (unfold gh_out_ok; lia). assert (Hko : gh_key_ok 32) by (unfold gh_key_ok; lia).
  assert (L : StreamingLaws (gh 32)) by (by apply gh_laws). pose proof (gh_size 32 Ho) as Hsz. pose proof (gh_out 32 Ho) as Hout.
  eapply local_array; [apply holds_empty|]. intros o w1 _ Hw1. eapply local_array; [exact Hw1|]. intros m w2 Hm Hw2. fresh_facts.
  eapply local_array; [exact Hw2|]. intros k w3 Hk Hw3. fresh_facts.
  assert (Hkr : is_ref w3 (At k 0) 32 (zeros 32)) by (eapply (holds_ref _ _ _ (zeros 32)); [exact Hw3|local_tac]).
  pose proof (fresh_block_spec w3) as Hf. set (p := fresh_block w3) in *.
  eapply (local_run _ w3 _ p); [reflexivity|].
  eapply local_run; [apply assert_zero_run|].
  { rewrite crypto_generichash_init_doc by done. eapply bind_step; [|].
    - apply (read_run _ _ _ (zeros 32)); [|done]. eapply is_ref_put_fresh in Hkr; [apply Hkr|exact Hf].
    - change Bindings.crypto_generichash_blake2b_state with 384. rewrite <- Hsz. by apply stream_init_put_run. }
  set (s := st_init (gh 32) (zeros 32)). assert (Hs : zlen s = 384) by (unfold s; by rewrite st_init_zlen).
  eapply local_run; [by apply move_out_put_run|].
  eapply local_place; [exact Hw3|]. intros st w4 Hst Hw4. fresh_facts.
  assert (Hup : forall s w0, zlen s = 384 -> holds w0 (<[st:=s]> (<[k:=zeros 32]> (<[m:=zeros 64]> (<[o:=zeros 32]> ∅)))) ->
    does w0 (assert_zero (crypto_generichash_update (At st 0) (At m 0) 64)) (fun _ w' =>
      exists s', zlen s' = 384 /\ holds w' (<[st:=s']> (<[k:=zeros 32]> (<[m:=zeros 64]> (<[o:=zeros 32]> ∅)))))).
  { intros s0 w0 Hs0 Hw0. unfold assert_zero. rewrite (crypto_generichash_update_doc 32 Ho). unfold stream_update. rewrite Hsz.
    apply local_assoc. eapply local_in; [exact Hw0|local_tac|done|].
    apply local_assoc. eapply local_in; [exact Hw0|local_tac|done|].
    assert (Hu : zlen (st_update (gh 32) s0 (zeros 64)) = 384) by (by rewrite st_update_zlen).
    apply local_assoc. eapply local_out; [exact Hw0|local_tac|congruence|]. rewrite insert_insert_eq. intros Hw'.
    apply does_ret. eauto. }
  eapply does_bind; [by apply (Hup s)|]. intros [] w5 (s1 & Hs1 & Hw5).
  eapply does_bind; [by apply (Hup s1)|]. intros [] w6 (s2 & Hs2 & Hw6).
  unfold assert_zero. rewrite crypto_generichash_final_doc by done. unfold stream_final. rewrite Hsz, Hout.
  apply local_assoc. eapply local_in; [exact Hw6|local_tac|done|].
  apply local_assoc. eapply local_run; [apply restrict_run; mem_tac|].
  apply local_assoc. eapply local_out; [exact Hw6|local_tac|by rewrite st_final_zlen|]. intros Hw7.
  apply local_assoc. eapply local_out; [exact Hw7|local_tac|by rewrite st_spent_zlen, Hsz|]. intros _. by apply does_ret.
Qed.

End GenerichashFacts.
Section Blake2bFacts.
Context {E : Blake2bExterns} {BD : Blake2bDoc E}.

Lemma test_crypto_generichash_blake2b_passes : passes test_crypto_generichash_blake2b.
Proof.
  intros w. unfold test_crypto_generichash_blake2b.
  change crypto_generichash_blake2b_BYTES with 32. change crypto_generichash_blake2b_KEYBYTES with 32.
  assert (gh_out_ok 32) by (unfold gh_out_ok; lia). assert (gh_key_ok 32) by (unfold gh_key_ok; lia).
  eapply local_array; [apply holds_empty|]. intros o w1 _ Hw1. eapply local_array; [exact Hw1|]. intros m w2 Hm Hw2. fresh_facts.
  eapply local_array; [exact Hw2|]. intros k w3 Hk Hw3. fresh_facts.
  unfold assert_zero. rewrite crypto_generichash_blake2b_doc by done.
  apply local_assoc. eapply local_in; [exact Hw3|local_tac|done|].
  apply local_assoc. eapply local_in; [exact Hw3|local_tac|done|].
  apply local_assoc. eapply local_out; [exact Hw3|local_tac|by rewrite b2_zlen|]. intros _. by apply does_ret.
Qed.

Lemma test_crypto_generichash_blake2b_salt_personal_passes : passes test_crypto_generichash_blake2b_salt_personal.
Proof.
  intros w. unfold test_crypto_generichash_blake2b_salt_personal.
  change crypto_generichash_blake2b_BYTES with 32. change crypto_generichash_blake2b_KEYBYTES with 32.
  change crypto_generichash_blake2b_SALTBYTES with 16. change crypto_generichash_blake2b_PERSONALBYTES with 16.
  assert (gh_out_ok 32) by (unfold gh_out_ok; lia). assert (gh_key_ok 32) by (unfold gh_key_ok; lia).
  eapply local_array; [apply holds_empty|]. intros o w1 _ Hw1. eapply local_array; [exact Hw1|]. intros m w2 Hm Hw2. fresh_facts.
  eapply local_array; [exact Hw2|]. intros k w3 Hk Hw3. fresh_facts.
  eapply local_array; [exact Hw3|]. intros s w4 Hs Hw4. fresh_facts.
  eapply local_array; [exact Hw4|]. intros p w5 Hp Hw5. fresh_facts.
  unfold assert_zero. rewrite crypto_generichash_blake2b_salt_personal_doc by done.
  do 4 (apply local_assoc; eapply local_in; [exact Hw5|local_tac|done|]).
  apply local_assoc. eapply local_out; [exact Hw5|local_tac|by rewrite b2_zlen|]. intros _. by apply does_ret.
Qed.

End Blake2bFacts.

Section ScryptFacts.
Context {S : ScryptExterns} {D : PwhashDoc scrypt_functions} {L : ScryptLlExterns} {LD : ScryptLlDoc L}.

#[local] Abbreviation ops := 524288.
#[local] Abbreviation mem := 16777216.

Lemma str_call w m h p old :
  holds w m -> m !! p = Some battery_staple -> m !! h = Some old -> zlen old = 102 ->
  assert_zero (crypto_pwhash_scryptsalsa208sha256_str (At h 0) (At p 0) 28 ops mem) w =
    if pw_completes (w_env w) 102 28 ops mem
    then Done tt (w_write (At h 0) (pw_str battery_staple (entropy 32 w) ops mem) (w_consume 32 w))
    else Panicked.
Proof.
  intros Hw Hp Hh Hl. destruct (holds_ref w m p _ Hw Hp) as [Hpb _]. destruct (holds_ref w m h _ Hw Hh) as [Hhb _].
  pose proof (pf_str_doc (F := scrypt_functions) (At h 0) (At p 0) 28 ops mem w) as Hstr. change (pf_str scrypt_functions) with crypto_pwhash_scryptsalsa208sha256_str in Hstr.
  change (pf_strbytes scrypt_functions) with 102 in Hstr. change (pf_saltbytes scrypt_functions) with 32 in Hstr.
  assert (Hw' : holds (w_consume 32 w) m) by (by apply (holds_same w)).
  destruct (pw_completes (w_env w) 102 28 ops mem).
  - apply assert_zero_run. rewrite Hstr. eapply bind_step; [by apply (read_run _ _ _ battery_staple)|].
    eapply bind_step; [apply rand_run|]. eapply bind_step; [|reflexivity]. apply write_run.
    destruct (holds_ref _ m h _ Hw' Hh) as [Hhb' _]. eapply in_range_bytes; [exact Hhb'|].
    rewrite Hl. apply (pw_str_zlen (F := scrypt_functions)).
  - unfold assert_zero. eapply bind_step.
    + rewrite Hstr. eapply bind_step; [by apply (read_run _ _ _ battery_staple)|].
      eapply bind_step; [by apply (read_run _ _ _ old)|]. eapply bind_step; [|reflexivity].
      apply write_run. rewrite pw_reject_zlen. by eapply in_range_bytes.
    + reflexivity.
Qed.

Lemma str_verify_call w m h p sb (str := pw_str battery_staple sb ops mem) :
  holds w m -> m !! p = Some battery_staple -> m !! h = Some str ->
  crypto_pwhash_scryptsalsa208sha256_str_verify (At h 0) (At p 0) 28 w =
    Done (if pw_completes (w_env w) 102 28 ops mem then 0 else -1) w.
Proof.
  intros Hw Hp Hh. destruct (holds_ref w m p _ Hw Hp) as [Hpb _]. destruct (holds_ref w m h _ Hw Hh) as [Hhb _].
  pose proof (pf_verify_doc (F := scrypt_functions) (At h 0) (At p 0) 28 w) as Hv. change (pf_verify scrypt_functions) with crypto_pwhash_scryptsalsa208sha256_str_verify in Hv.
  rewrite Hv. eapply bind_step; [apply (read_run _ _ _ str); [done|apply (pw_str_zlen (F := scrypt_functions))]|].
  unfold str. rewrite pw_str_terminated. eapply bind_step; [by apply (read_run _ _ _ battery_staple)|].
  rewrite pw_check_own. reflexivity.
Qed.

(** The hash is computed and then verified, which is a second computation. *)
Lemma test_crypto_pwhash_scryptsalsa208sha256_str_settles w :
  settles_at w test_crypto_pwhash_scryptsalsa208sha256_str
    (pw_completes (w_env w) 102 28 ops mem = true /\ pw_completes (w_env (w_consume 32 w)) 102 28 ops mem = true).
Proof.
  apply catch_settles, catch_bind. change (zlen battery_staple) with 28.
  change crypto_pwhash_scryptsalsa208sha256_OPSLIMIT_INTERACTIVE with ops.
  change crypto_pwhash_scryptsalsa208sha256_MEMLIMIT_INTERACTIVE with mem.
  eapply (local_keeps id); [apply keeps_alloc|apply place_does, holds_empty|]. intros p w1 [_ Hw1] E1.
  apply catch_bind. eapply (local_keeps id); [apply keeps_alloc|apply (place_does w1 _ (zeros 102) Hw1)|].
  intros h w2 [Hh Hw2] E2. fresh_facts. assert (Env : w_env w2 = w_env w) by (unfold id in *; congruence).
  pose proof (str_call w2 _ h p (zeros 102) Hw2 ltac:(local_tac) ltac:(local_tac) eq_refl) as Hs. rewrite Env in Hs.
  destruct (pw_completes (w_env w) 102 28 ops mem) eqn:Hc.
  - apply catch_bind. eapply local_run; [exact Hs|]. set (str := pw_str _ _ _ _). set (w3 := w_write _ _ _).
    assert (Hw3 : holds w3 (<[h := str]> (<[h := zeros 102]> (<[p := battery_staple]> ∅)))).
    { eapply holds_store; [by apply (holds_same w2)|local_tac|apply (pw_str_zlen (F := scrypt_functions))]. }
    assert (E3 : w_env w3 = w_env (w_consume 32 w)).
    { transitivity (w_env (w_consume 32 w2)); [unfold w3, w_write; by repeat case_match|]. cbn. by rewrite Env. }
    apply catch_bind. eapply local_run; [eapply str_verify_call; [exact Hw3|local_tac|local_tac]|].
    rewrite E3. apply catch_assert. intros _. destruct (pw_completes (w_env (w_consume 32 w)) 102 28 ops mem); cbn; naive_solver.
  - exists false, dead. split; [|split; [done|by intros []]]. unfold catch. by rewrite (bind_panicked _ _ _ Hs).
Qed.

Definition ll_passes (e : env) (v : ll_vector) : Prop :=
  ll_completes e (ll_n v) (ll_r v) (ll_p v) = true /\
  ll_key (ll_password v) (ll_salt v) (ll_n v) (ll_r v) (ll_p v) 64 = ll_expected v.

Lemma ll_test_settles v w : zlen (ll_expected v) = 64 -> settles_at w (ll_test v) (ll_passes (w_env w) v).
Proof.
  destruct v as [pb sb n r p e]. unfold ll_passes, ll_test. cbn [ll_password ll_salt ll_n ll_r ll_p ll_expected]. intros He. pose proof isize_max_bounds. apply catch_settles, catch_bind.
  eapply (local_keeps id); [apply keeps_alloc|apply place_does, holds_empty|]. intros a w1 [_ Hw1] E1.
  apply catch_bind. eapply (local_keeps id); [apply keeps_alloc|apply (place_does w1 _ sb Hw1)|]. intros b w2 [Hb Hw2] E2. fresh_facts.
  apply catch_bind. eapply (local_keeps id); [apply keeps_alloc|apply (place_does w2 _ (zeros 64) Hw2)|]. intros c w3 [Hc Hw3] E3. fresh_facts.
  assert (Env : w_env w3 = w_env w) by (unfold id in *; congruence). set (m := <[c := _]> _) in *.
  destruct (holds_ref w3 m a pb Hw3 ltac:(unfold m; local_tac)) as [Ha _].
  destruct (holds_ref w3 m b sb Hw3 ltac:(unfold m; local_tac)) as [Hsb _].
  destruct (holds_ref w3 m c (zeros 64) Hw3 ltac:(unfold m; local_tac)) as [Hbuf _].
  pose proof (crypto_pwhash_scryptsalsa208sha256_ll_doc (At a 0) (zlen pb) (At b 0) (zlen sb) n r p (At c 0) 64 w3) as Hll.
  rewrite Env in Hll. pose proof (ll_key_zlen pb sb n r p 64 ltac:(lia)) as Hk. destruct (ll_completes (w_env w) n r p).
  - apply catch_bind. eapply local_run.
    { apply assert_zero_run. rewrite Hll. eapply bind_step; [by apply (read_run _ _ _ pb)|].
      eapply bind_step; [by apply (read_run _ _ _ sb)|]. eapply bind_step; [|reflexivity].
      apply write_run. by eapply in_range_bytes. }
    apply catch_bind. set (k := ll_key pb sb n r p 64) in *.
    assert (Hw4 : holds (w_write (At c 0) k w3) (<[c := k]> m)) by (eapply holds_store; [exact Hw3|apply lookup_insert_eq|exact Hk]).
    eapply local_read; [exact Hw4|apply lookup_insert_eq|by symmetry|].
    apply catch_assert. intros _. rewrite bool_decide_eq_true. tauto.
  - assert (Hp : assert_zero (crypto_pwhash_scryptsalsa208sha256_ll (At a 0) (zlen pb) (At b 0) (zlen sb) n r p (At c 0) 64) w3 = Panicked).
    { unfold assert_zero. eapply bind_step.
      - rewrite Hll. eapply bind_step; [by apply (read_run _ _ _ pb)|]. eapply bind_step; [by apply (read_run _ _ _ sb)|].
        eapply bind_step; [by apply (read_run _ _ _ (zeros 64))|]. eapply bind_step; [|reflexivity].
        apply write_run. rewrite ll_reject_zlen. by eapply in_range_bytes.
      - reflexivity. }
    exists false, dead. split; [|split; [done|by intros []]]. unfold catch. by rewrite (bind_panicked _ _ _ Hp).
Qed.

End ScryptFacts.
End CallFacts.

(** *** Reference functions *)

(** As [RefPwhash], with the sizes and the prefix of scrypt *)
Module RefScrypt.

Definition str (p : bytes) : bytes :=
  removelast crypto_pwhash_scryptsalsa208sha256_STRPREFIX ++ x76 :: le_bytes 40 (le_val p) ++ zeros 58.

Definition externs : ScryptExterns := {|
  crypto_pwhash_scryptsalsa208sha256 out outlen p plen salt o m :=
    let* pb := read p plen in
    let* sb := read salt 32 in
    if RefPwhash.completes plen then let* _ := write out (RefPwhash.key pb sb o m outlen) in ret 0
    else let* old := read out outlen in let* _ := write out old in ret (-1);
  crypto_pwhash_scryptsalsa208sha256_str out p plen o m :=
    let* pb := read p plen in
    if RefPwhash.completes plen then
      let* sb := rand 32 in
      let* _ := write out (str pb) in ret 0
    else let* old := read out 102 in let* _ := write out old in ret (-1);
  crypto_pwhash_scryptsalsa208sha256_str_verify s p plen :=
    let* sb := read s 102 in
    if terminated sb then
      let* pb := read p plen in
      ret (if bool_decide (sb = str pb) && RefPwhash.completes (zlen pb) then 0 else -1)
    else undefined OutOfBounds
|}.

#[refine] Definition doc : PwhashDoc (@scrypt_functions externs) := {|
  pw_completes _ _ plen _ _ := RefPwhash.completes plen;
  pw_key := RefPwhash.key;
  pw_str p _ _ _ := str p;
  pw_check _ s p := bool_decide (s = str p) && RefPwhash.completes (zlen p);
  pw_reject b := b
|}.
Proof.
  - cbn. unfold crypto_pwhash_scryptsalsa208sha256_SALTBYTES, crypto_pwhash_scryptsalsa208sha256_STRBYTES. lia.
  - intros. unfold RefPwhash.key. rewrite zlen_le_bytes. lia.
  - intros p _ _ _. unfold str. rewrite zlen_app, zlen_cons, zlen_app, zlen_le_bytes. reflexivity.
  - done.
  - intros p _ _ _. apply existsb_exists. exists x00. split; [|done].
    unfold str. rewrite !in_app_iff. right. right. apply in_app_iff. right. by left.
  - intros p _ _ _. by eexists _, _.
  - intros _ p _ _ _. by rewrite bool_decide_eq_true_2.
  - reflexivity.
  - reflexivity.
  - reflexivity.
Defined.

End RefScrypt.

Module RefCalls.

(** BLAKE2b itself *)
Definition blake2b : Blake2bExterns := {|
  crypto_generichash_blake2b out o m mlen k klen :=
    let* kb := read k klen in
    let* mb := read m mlen in
    let* _ := write out (Blake2b.digest_with (Z.to_nat o) kb (zeros 16) (zeros 16) mb) in ret 0;
  crypto_generichash_blake2b_salt_personal out o m mlen k klen s p :=
    let* kb := read k klen in
    let* mb := read m mlen in
    let* sb := read s 16 in
    let* pb := read p 16 in
    let* _ := write out (Blake2b.digest_with (Z.to_nat o) kb sb pb mb) in ret 0
|}.

#[refine] Definition blake2b_doc : Blake2bDoc blake2b := {| b2 o := Blake2b.digest_with (Z.to_nat o) |}.
Proof.
  - intros o k s p m Ho. unfold gh_out_ok in Ho. unfold Blake2b.digest_with, zlen. rewrite length_fit. lia.
  - reflexivity.
  - reflexivity.
Defined.

(** Not scrypt, and always in time *)
Definition ll : ScryptLlExterns := {|
  crypto_pwhash_scryptsalsa208sha256_ll passwd plen salt slen n r p buf o :=
    let* pb := read passwd plen in
    let* sb := read salt slen in
    let* _ := write buf (le_bytes (Z.to_nat o) (le_val pb + le_val sb + n + r + p)) in ret 0
|}.

#[refine] Definition ll_doc : ScryptLlDoc ll := {|
  ll_completes _ _ _ _ := true; ll_key pb sb n r p o := le_bytes (Z.to_nat o) (le_val pb + le_val sb + n + r + p); ll_reject b := b
|}.
Proof.
  - intros. rewrite zlen_le_bytes. lia.
  - done.
  - reflexivity.
Defined.

End RefCalls.

(** The tests of libsodium-sys that call functions no wrapper calls: those
    of BLAKE2b pass, the multi-part one with a state that is initialised before
    it is moved; the test of a password string passes exactly when both
    computations of scrypt complete, and the test of a vector exactly when the
    computation completes and gives the published key. *)
Theorem sys_calls_settle `{T : Target} `{G : GenerichashExterns} {GD : GenerichashDoc G} `{E : Blake2bExterns} {BD : Blake2bDoc E}
    `{S : ScryptExterns} {D : PwhashDoc scrypt_functions} `{L : ScryptLlExterns} {LD : ScryptLlDoc L} :
  passes test_crypto_generichash /\ passes test_crypto_generichash_multipart /\
  passes test_crypto_generichash_blake2b /\ passes test_crypto_generichash_blake2b_salt_personal /\
  (forall w, settles_at w test_crypto_pwhash_scryptsalsa208sha256_str
     (pw_completes (w_env w) 102 28 524288 16777216 = true /\
      pw_completes (w_env (w_consume 32 w)) 102 28 524288 16777216 = true)) /\
  (forall w, Forall (fun v => settles_at w (ll_test v) (ll_passes (w_env w) v)) ll_vectors).
Proof.
  split_and!; [apply test_crypto_generichash_passes|apply test_crypto_generichash_multipart_passes|
    apply test_crypto_generichash_blake2b_passes|apply test_crypto_generichash_blake2b_salt_personal_passes|
    intros w; apply test_crypto_pwhash_scryptsalsa208sha256_str_settles|].
  intros w. assert (Hl : Forall (fun v => zlen (ll_expected v) = 64) ll_vectors) by (repeat constructor).
  eapply Forall_impl; [exact Hl|]. intros v. apply ll_test_settles.
Qed.

Lemma sys_calls_settle_witness :
  let G := Std.generichash_externs in
  let E := RefCalls.blake2b in
  let S := RefScrypt.externs in
  let L := RefCalls.ll in
  passes test_crypto_generichash /\ passes test_crypto_generichash_multipart /\
  passes test_crypto_generichash_blake2b /\ passes test_crypto_generichash_blake2b_salt_personal /\
  (forall w, settles_at w test_crypto_pwhash_scryptsalsa208sha256_str (true = true /\ true = true)) /\
  (forall w, Forall (fun v => settles_at w (ll_test v) (ll_passes (LD := RefCalls.ll_doc) (w_env w) v)) ll_vectors).
Proof.
  exact (@sys_calls_settle target64 Std.generichash_externs Std.generichash_doc RefCalls.blake2b RefCalls.blake2b_doc
    RefScrypt.externs RefScrypt.doc RefCalls.ll RefCalls.ll_doc).
Defined.
