(* ===== verification/AesTests.v ===== *)
(** * aead/aes256gcm.rs: the tests of [Aes256Gcm]

    [mod test] of [aes_api]: unlike the tests of the macro, which are skipped
    where AES is not available, these unwrap [Aes256Gcm::new()]. *)

From S2P Require Export Tests UtilsTests Standards.

Section Programs.
Context `{T : Target} `{C : CoreExterns} `{R : RandombytesExterns} `{E : Aes256GcmExterns}.

(** [is_x86_feature_detected!]: what the processor has *)
Context (feature_aes feature_pclmulqdq : M bool).

Definition test_is_available : M unit :=
  let* _ := init_ok in
  let* aes := feature_aes in
  let* is_available_feat_check := (if aes then feature_pclmulqdq else ret false) in
  let* a := is_available in
  assert (bool_decide (a = is_available_feat_check)).

(** The methods of a value, as the operations of a module *)
Definition aes_sealer (aes : Aes256Gcm.Aes256Gcm) : Sealer :=
  Build_Sealer aead_args
    (fun m c => Aes256Gcm.seal aes m (aa_ad c) (aa_n c) (aa_k c))
    (fun x c => Aes256Gcm.open aes x (aa_ad c) (aa_n c) (aa_k c)).

Definition aes_detached (aes : Aes256Gcm.Aes256Gcm) : DetachedSealer (aes_sealer aes) :=
  Build_DetachedSealer (aes_sealer aes) (aead.Tag aes_impl)
    (fun m c => Aes256Gcm.seal_detached aes m (aa_ad c) (aa_n c) (aa_k c))
    (fun x t c => Aes256Gcm.open_detached aes x (aa_ad c) t (aa_n c) (aa_k c)).

(** A key, a nonce and additional data *)
Definition aes_before (aes : Aes256Gcm.Aes256Gcm) (i : Z) : M aead_args :=
  let* k := local (Aes256Gcm.gen_key aes) in
  let* n := local (NewType.gen_random_nonce (aead.Nonce aes_impl)) in
  let* ad := randombytes i in
  ret (AeadArgs (Some (v_slice ad)) n k).

Definition with_aes (f : Aes256Gcm.Aes256Gcm -> M unit) : M unit :=
  let* _ := init_ok in
  let* r := Aes256Gcm.new in
  let* aes := unwrap r in
  f aes.

Definition aes_test_seal_open : M unit :=
  with_aes (fun aes => test_seal_open (S := aes_sealer aes) (aes_before aes) ret 256).
Definition aes_test_seal_open_detached : M unit :=
  with_aes (fun aes => test_seal_open_detached_original (S := aes_sealer aes) (D := aes_detached aes) (aes_before aes) 256).

(** ** Where AES is available, and where it is not *)

Context {RD : RandombytesDoc R} {D : AeadDoc aes_impl} (available : bool).
Hypothesis Hinit : forall w, does w init (fun r _ => r = Ok tt).
Hypothesis Havailable : crypto_aead_aes256gcm_is_available = ret (if available then 1 else 0).

Lemma new_run w : Aes256Gcm.new w = Done (if available then Ok Aes256Gcm.Self else Err) w.
Proof. unfold Aes256Gcm.new. rewrite Havailable. by destruct available. Qed.

Lemma with_aes_settles f :
  (available = true -> passes (f Aes256Gcm.Self)) -> settles (with_aes f) (available = true).
Proof.
  intros Hf w. destruct (Hinit w) as (r & w1 & Hr & ->).
  assert (Hw : with_aes f w = (let* aes := unwrap (if available then Ok Aes256Gcm.Self else Err) in f aes) w1).
  { unfold with_aes, init_ok. rewrite bind_assoc. eapply bind_step; [exact Hr|].
    eapply bind_step; [reflexivity|]. eapply bind_step; [apply new_run|reflexivity]. }
  destruct available; split; [|done|done|].
  - intros _. specialize (Hf eq_refl w1). unfold does in *. rewrite Hw. exact Hf.
  - intros _. by rewrite Hw.
Qed.

Lemma aes_tests_settle_all :
  settles aes_test_seal_open (available = true) /\ settles aes_test_seal_open_detached (available = true).
Proof.
  split; apply with_aes_settles; intros _ w.
  - apply (test_seal_open_passes (L := aead_sealer_laws aes_impl)); [by apply (aead_prepares aes_impl)|done].
  - apply (test_seal_open_detached_original_passes (DL := aead_detached_laws aes_impl) _); [|done].
    intros i w0 Hi. change (Z.of_nat 256) with 256 in Hi. by apply (aead_before_does aes_impl); try lia.
Qed.

Lemma test_is_available_settles aes clmul :
  feature_aes = ret aes -> feature_pclmulqdq = ret clmul -> settles test_is_available (available = aes && clmul).
Proof.
  intros Ha Hc w. destruct (Hinit w) as (r & w1 & Hr & ->).
  assert (Hw : test_is_available w = assert (bool_decide (available = aes && clmul)) w1).
  { unfold test_is_available, init_ok, is_available. rewrite bind_assoc, Ha, Hc, Havailable.
    eapply bind_step; [exact Hr|]. eapply bind_step; [reflexivity|]. by destruct aes, clmul, available. }
  split; intros H.
  - exists tt, w1. by rewrite Hw, bool_decide_true.
  - by rewrite Hw, bool_decide_false.
Qed.

End Programs.

(** Where libsodium finds the instructions AES-GCM needs, the tests of
    [Aes256Gcm] pass; where it does not, they panic, while the tests of the
    macro are skipped there.  The test of [is_available()] passes exactly when
    libsodium agrees with what the standard library detects. *)
Theorem aes_tests_settle `{T : Target} `{C : CoreExterns} `{R : RandombytesExterns} {RD : RandombytesDoc R}
    `{E : Aes256GcmExterns} {D : AeadDoc aes_impl} (available aes clmul : bool)
    (Hinit : forall w, does w init (fun r _ => r = Ok tt))
    (Havailable : crypto_aead_aes256gcm_is_available = ret (if available then 1 else 0)) :
  settles aes_test_seal_open (available = true) /\
  settles aes_test_seal_open_detached (available = true) /\
  settles (test_is_available (ret aes) (ret clmul)) (available = aes && clmul) /\
  (available = false -> passes (aead_test_seal_open aes_impl is_available)).
Proof.
  destruct (aes_tests_settle_all (RD := RD) available Hinit Havailable) as [H1 H2]. split_and!; [exact H1|exact H2| |].
  - by apply test_is_available_settles.
  - intros -> w. exists tt, w. unfold aead_test_seal_open, is_available. by rewrite Havailable.
Qed.

(** The published algorithm, available *)
Lemma aes_tests_settle_witness :
  let E := Std.aes256gcm_externs in
  let R := Ref.randombytes in
  let C := RefCore.core in
  settles (@aes_test_seal_open target64 C R E) (true = true) /\
  settles (@aes_test_seal_open_detached target64 C R E) (true = true) /\
  settles (@test_is_available C E (ret true) (ret true)) (true = true && true) /\
  (true = false -> passes (@aead_test_seal_open target64 R (@aes_impl E) (@is_available E))).
Proof.
  apply (@aes_tests_settle target64 RefCore.core Ref.randombytes Ref.randombytes_doc Std.aes256gcm_externs
    Std.aes256gcm_doc true true true); [|reflexivity].
  intros w. by exists (Ok tt), w.
Defined.
