(* ===== verification/Tamper.v ===== *)
(** * Tests that modify what they seal

    The tests of the sealing modules, of authentication, signatures and password
    hashes that flip a bit of every byte in turn and expect that the result is
    rejected.  Whether it is rejected is up to the algorithm and to the keys the
    test draws: the theorems say what has to hold of the bytes of the generator,
    [draw g p n] for the [n] bytes from position [p] on.  This file has the
    modifications, the loops over them, and rules for programs that draw. *)

From S2P Require Export Locals.

(** ** The modification *)

Definition flip_byte (mask x : byte) : byte := byte_xor x mask.

(** [bs] with the byte [j] changed *)
Definition flipped (mask : byte) (j : nat) (bs : bytes) : bytes := alter (flip_byte mask) j bs.
Abbreviation tampered := (flipped x20).

Lemma flip_byte_twice x : flip_byte x20 (flip_byte x20 x) = x.
Proof. by destruct x. Qed.

Lemma flip_byte_ne mask x : mask = x20 \/ mask = x01 -> flip_byte mask x <> x.
Proof. intros [-> | ->]; by destruct x. Qed.

Lemma flipped_length mask j bs : length (flipped mask j bs) = length bs.
Proof. apply length_alter. Qed.

Lemma flipped_zlen mask j bs : zlen (flipped mask j bs) = zlen bs.
Proof. unfold zlen. by rewrite flipped_length. Qed.

Lemma flipped_middle mask pre x post :
  flipped mask (length pre) (pre ++ x :: post) = pre ++ flip_byte mask x :: post.
Proof. unfold flipped. by rewrite alter_app_r_alt, Nat.sub_diag by lia. Qed.

Lemma tampered_twice j bs : tampered j (tampered j bs) = bs.
Proof.
  apply list_eq. intros i. unfold flipped. destruct (decide (i = j)) as [->|Hij].
  - rewrite !list_lookup_alter_eq. destruct (bs !! j) as [x|]; [|done]. cbn. by rewrite flip_byte_twice.
  - by rewrite !list_lookup_alter_ne by done.
Qed.

Lemma flipped_ne mask j bs : mask = x20 \/ mask = x01 -> (j < length bs)%nat -> flipped mask j bs <> bs.
Proof.
  intros Hm (x & Hx)%lookup_lt_is_Some_2 E. apply (f_equal (.!! j)) in E. unfold flipped in E.
  rewrite list_lookup_alter_eq, Hx in E. injection E. by apply flip_byte_ne.
Qed.

Lemma flipped_app_l mask j a b : (j < length a)%nat -> flipped mask j (a ++ b) = flipped mask j a ++ b.
Proof. apply alter_app_l. Qed.
Lemma flipped_app_r mask j a b :
  (length a <= j)%nat -> flipped mask j (a ++ b) = a ++ flipped mask (j - length a) b.
Proof. apply alter_app_r_alt. Qed.

(** [s[j] ^= mask] *)
Definition flip (mask : byte) (s : slice) (j : Z) : M unit :=
  let* _ := assert ((0 <=? j) && (j <? s_len s)) in
  let* b := read (ptr_add (s_ptr s) j) 1 in
  write (ptr_add (s_ptr s) j) (flip_byte mask <$> b).

(** [for j in 0..s.len() { s[j] ^= 0x20; ...; s[j] ^= 0x20; }] *)
Definition for_tampered (s : slice) (body : M unit) : M unit :=
  for_range 0 (Z.to_nat (s_len s)) (fun j =>
    let* _ := flip x20 s j in
    let* _ := body in
    flip x20 s j).

(** The same, with the byte restored before the result is looked at *)
Definition for_tampered_late {A} (s : slice) (body : M A) (look : A -> M unit) : M unit :=
  for_range 0 (Z.to_nat (s_len s)) (fun j =>
    let* _ := flip x20 s j in
    let* r := body in
    let* _ := flip x20 s j in
    look r).

(** [assert!(r.is_err())], [assert!(Err(()) == r)] *)
Definition assert_err {A} (r : result A) : M unit := assert (match r with Ok _ => false | Err => true end).

(** ** Programs that draw *)

(** [n] bytes of the generator from a position *)
Definition draw (g : nat -> byte) (p : nat) (n : Z) : bytes := g <$> seq p (Z.to_nat n).

Lemma draw_zlen g p n : 0 <= n -> zlen (draw g p n) = n.
Proof. intros Hn. unfold draw, zlen. rewrite length_fmap, length_seq. lia. Qed.

(** The generator is at [p], and the locals are live. *)
Definition sits (g : nat -> byte) (p : nat) (m : gmap positive bytes) (w : world) : Prop :=
  e_entropy (w_env w) = g /\ e_pos (w_env w) = p /\ holds w m.

Definition starts_at (g : nat -> byte) (m : gmap positive bytes) (w : world) : Prop := exists p, sits g p m w.

Lemma sits_holds g p m w : sits g p m w -> holds w m.
Proof. by intros (_ & _ & ?). Qed.

Lemma sits_mono g p m m' w : m ⊆ m' -> sits g p m' w -> sits g p m w.
Proof. intros Hm (? & ? & ?). split_and!; [done|done|by eapply holds_mono]. Qed.

Lemma sits_entropy g p m w n : sits g p m w -> entropy n w = draw g p n.
Proof. intros (<- & <- & _). done. Qed.

Section Rules.
Context `{T : Target} {B : Type} (Q : B -> world -> Prop) (g : nat -> byte).

(** A statement that leaves the memory and the generator as they are *)
Definition still (w w' : world) : Prop :=
  w_mem w' = w_mem w /\ e_entropy (w_env w') = e_entropy (w_env w) /\ e_pos (w_env w') = e_pos (w_env w).

Lemma sits_still p m w w' : still w w' -> sits g p m w -> sits g p m w'.
Proof. intros (Hm & He & Hp) (<- & <- & Hw). split_and!; [done|done|by eapply holds_same]. Qed.

Lemma sits_put p m w b bs : sits g p m w -> m !! b = None \/ True -> sits g p (<[b := bs]> m) (w_put b (Some <$> bs) w).
Proof. intros (<- & <- & Hw) _. split_and!; [done|done|by eapply holds_insert]. Qed.

Lemma draw_place p m w bs (f : positive -> M B) :
  sits g p m w ->
  (forall b w', m !! b = None -> sits g p (<[b := bs]> m) w' -> does w' (f b) Q) ->
  does w (bind (place bs) f) Q.
Proof.
  intros Hw Hf. pose proof (fresh_block_spec w) as Hb. set (b := fresh_block w) in *.
  eapply (local_run Q w (place bs) b (w_put b (Some <$> bs) w)); [reflexivity|]. apply Hf.
  - eapply holds_None; [by eapply sits_holds|done].
  - by apply sits_put; [|right].
Qed.

(** A value that takes [n] bytes of the generator *)
Lemma draw_gen p m w n x gen (f : ptr -> M B) :
  sits g p m w -> gen w = Done x (w_consume n w) ->
  (forall b w', m !! b = None -> sits g (p + Z.to_nat n) (<[b := x]> m) w' -> does w' (f (At b 0)) Q) ->
  does w (bind (local gen) f) Q.
Proof.
  intros (He & Hp & Hw) Hr Hf. apply local_assoc. eapply local_run; [exact Hr|]. apply local_assoc.
  eapply (draw_place (p + Z.to_nat n) m); [split_and!; [exact He|by rewrite <- Hp|exact Hw]|].
  intros b w' Hb Hw'. apply local_ret. by apply Hf.
Qed.

(** *** The loops *)

Lemma flip_does p m w mask b bs n j :
  sits g p m w -> m !! b = Some bs -> n = zlen bs -> (j < length bs)%nat ->
  does w (flip mask (Slice (At b 0) n) (Z.of_nat j)) (fun _ w' => sits g p (<[b := flipped mask j bs]> m) w').
Proof.
  intros (<- & <- & Hw) Hb -> Hj. destruct (lookup_lt_is_Some_2 bs j Hj) as [x Hx].
  pose proof (take_drop_middle bs j x Hx) as Hs. set (pre := take j bs) in *. set (post := drop (S j) bs) in *.
  assert (Hl : j = length pre) by (unfold pre; rewrite length_take; lia).
  assert (Hfl : flipped mask j bs = pre ++ flip_byte mask x :: post) by (rewrite <- Hs, Hl; apply flipped_middle).
  assert (Hr : bytes_at w (At b j) [x]) by (rewrite Hl; eapply holds_byte; [exact Hw|by rewrite Hs]).
  assert (Hlen : 0 <= Z.of_nat j < zlen bs) by (unfold zlen; lia).
  unfold flip. cbn [s_len s_ptr]. rewrite (proj2 (Z.leb_le _ _)), (proj2 (Z.ltb_lt _ _)) by lia.
  unfold ptr_add. rewrite Nat2Z.id. cbn [Nat.add]. eapply does_eq.
  - eapply bind_step; [reflexivity|]. eapply bind_step; [by apply (read_run _ _ _ [x])|].
    apply write_run. by eapply in_range_bytes.
  - split_and!; [unfold w_write; by repeat case_match..|]. rewrite Hfl.
    cbn [fmap list_fmap]. rewrite Hl. eapply holds_store_byte; [exact Hw|by rewrite Hs].
Qed.

(** [I j m]: what the locals are before round [j]. *)
Lemma tampered_late_does {A} p b n w (body : M A) look (I : nat -> gmap positive bytes -> Prop) :
  (forall j m, I j m -> exists x, m !! b = Some x /\ zlen x = n) ->
  (exists m, I 0%nat m /\ sits g p m w) ->
  (forall j m x w', (j < Z.to_nat n)%nat -> I j m -> m !! b = Some x -> sits g p (<[b := tampered j x]> m) w' ->
     does w' body (fun r w'' => look r = ret tt /\
       exists m' y, m' !! b = Some y /\ zlen y = n /\ I (S j) (<[b := tampered j y]> m') /\ sits g p m' w'')) ->
  does w (for_tampered_late (Slice (At b 0) n) body look)
    (fun _ w' => exists m, I (Z.to_nat n) m /\ sits g p m w').
Proof.
  intros Hlen Hw Hbody. unfold for_tampered_late. cbn [s_len]. eapply does_mono.
  - apply (does_for_index (fun i w' => exists m, I (Z.to_nat i) m /\ sits g p m w')); [|exact Hw].
    intros i w1 Hi (m & HI & Hw1). destruct (Hlen _ _ HI) as (x & Hx & Hn). pose proof (zlen_nonneg x) as Hp.
    assert (Hj : (Z.to_nat i < length x)%nat) by (unfold zlen in *; lia).
    replace i with (Z.of_nat (Z.to_nat i)) by lia. replace (Z.to_nat (Z.of_nat (Z.to_nat i) + 1)) with (S (Z.to_nat i)) by lia.
    set (j := Z.to_nat i) in *.
    eapply does_bind; [eapply (flip_does p); [exact Hw1|exact Hx|by symmetry|exact Hj]|]. intros [] w2 Hw2.
    eapply does_bind; [apply (Hbody j m x); [lia|done..]|]. intros r w3 (Hlook & m' & y & Hy & Hny & HI' & Hw3).
    assert (Hjy : (j < length y)%nat) by (unfold zlen in *; lia).
    eapply does_bind; [eapply (flip_does p); [exact Hw3|exact Hy|by symmetry|exact Hjy]|]. intros [] w4 Hw4.
    rewrite Hlook. apply does_ret. eauto.
  - intros [] w2 (m & HI & Hw2). destruct (Hlen _ _ HI) as (x & Hx & Hn). pose proof (zlen_nonneg x).
    rewrite Z.add_0_l, Z2Nat.id in HI by lia. eauto.
Qed.

(** The buffer is as before after each round. *)
Lemma draw_tampered p m w b bs n body f :
  sits g p m w -> m !! b = Some bs -> n = zlen bs ->
  (forall j w', (j < length bs)%nat -> sits g p (<[b := tampered j bs]> m) w' ->
     does w' body (fun _ w'' => sits g p (<[b := tampered j bs]> m) w'')) ->
  (forall w', sits g p m w' -> does w' (f tt) Q) ->
  does w (bind (for_tampered (Slice (At b 0) n) body) f) Q.
Proof.
  intros Hw Hb Hn Hbody Hf. eapply (does_bind w (for_tampered (Slice (At b 0) n) body) f (fun _ => sits g p m)); [|by intros [] w'; apply Hf].
  unfold for_tampered. apply (does_for (sits g p m)); [|done]. subst n. cbn [s_len].
  intros i w1 Hi Hw1. rewrite Z2Nat.id in Hi by apply zlen_nonneg.
  assert (Hj : (Z.to_nat i < length bs)%nat) by (unfold zlen in Hi; lia).
  replace i with (Z.of_nat (Z.to_nat i)) by lia. set (j := Z.to_nat i) in *.
  eapply does_bind; [eapply (flip_does p); [exact Hw1|exact Hb|done|done]|]. intros [] w2 Hw2.
  eapply does_bind; [by apply (Hbody j)|]. intros [] w3 Hw3. eapply does_mono.
  - eapply (flip_does p); [exact Hw3|apply lookup_insert_eq|by rewrite flipped_zlen|by rewrite flipped_length].
  - intros [] w4. rewrite insert_insert_eq, tampered_twice, insert_id by done. done.
Qed.

Context `{R : RandombytesExterns} {RD : RandombytesDoc R}.

Lemma draw_fill p m w b bs n (f : unit -> M B) :
  sits g p m w -> m !! b = Some bs -> n = zlen bs ->
  (forall w', sits g (p + Z.to_nat n) (<[b := draw g p n]> m) w' -> does w' (f tt) Q) ->
  does w (bind (randombytes_into (Slice (At b 0) n)) f) Q.
Proof.
  intros Hw Hb Hn Hf.
  assert (Hr : randombytes_into (Slice (At b 0) n) w = Done tt (w_put b (Some <$> draw g p n) (w_consume n w))).
  { rewrite <- (w_put_id b (Some <$> bs) w) at 1 by (by apply (sits_holds _ _ _ _ Hw)).
    rewrite (randombytes_into_put_run w b _ n); [|rewrite Hn; apply zlen_nonneg|by rewrite zlen_fmap].
    by rewrite (sits_entropy g p m w n Hw). }
  eapply local_run; [exact Hr|]. apply Hf. destruct Hw as (He & Hp & Hw).
  split_and!; [exact He|by rewrite <- Hp|by eapply holds_insert].
Qed.

Lemma draw_random p m w n (f : vec -> M B) :
  sits g p m w -> 0 <= n <= isize_max ->
  (forall b w', m !! b = None -> sits g (p + Z.to_nat n) (<[b := draw g p n]> m) w' -> does w' (f (Vec b n n)) Q) ->
  does w (bind (randombytes n) f) Q.
Proof.
  intros Hw Hn Hf. eapply local_run; [by apply randombytes_run|]. rewrite (sits_entropy g p m w n Hw).
  destruct Hw as (<- & <- & Hw). apply Hf.
  - eapply holds_None; [exact Hw|]. apply fresh_block_spec.
  - split_and!; [done|done|]. by eapply holds_insert.
Qed.

End Rules.

(** The body of the [gen_key()] functions *)
Lemma draw_key_run `{T : Target} `{R : RandombytesExterns} {RD : RandombytesDoc R} n w :
  0 <= n ->
  (let* key := stack_array n in let* _ := randombytes_into (Slice (At key 0) n) in move_out key) w =
    Done (entropy n w) (w_consume n w).
Proof.
  intros Hn. step. eapply bind_step; [apply randombytes_into_put_run; [done|zlia]|]. by apply move_out_put_run.
Qed.

(** The locals that are new in [m'] *)
Lemma new_locals (m m' : gmap positive bytes) :
  m ⊆ m' -> exists m0, m0 ##ₘ m /\ m0 ∪ m = m' /\
    forall b bs, m' !! b = Some bs -> m !! b = None -> m0 !! b = Some bs.
Proof.
  intros Hm. exists (m' ∖ m). split_and!.
  - apply map_disjoint_difference_l1. reflexivity.
  - rewrite map_union_comm by (apply map_disjoint_difference_l1; reflexivity). by apply map_difference_union.
  - intros b bs Hb Hn. by apply lookup_difference_Some.
Qed.

(** *** Rounds

    Round [i] of a test takes [take i] bytes of the generator. *)

(** Where the generator is when round [i] starts *)
Fixpoint round_pos (take : Z -> nat) (p : nat) (i : nat) : nat :=
  match i with
  | O => p
  | S i => (round_pos take p i + take (Z.of_nat i))%nat
  end.

(** [P] of each of [n] rounds, the first of which starts at [p]: of its
    position and its number *)
Definition each_round (take : Z -> nat) (p : nat) (n : Z) (P : nat -> Z -> Prop) : Prop :=
  forall i, 0 <= i < n -> P (round_pos take p (Z.to_nat i)) i.

(** The generator is at [p]. *)
Definition generator_at (g : nat -> byte) (p : nat) (w : world) : Prop :=
  e_entropy (w_env w) = g /\ e_pos (w_env w) = p.

Lemma sits_generator g p m w : sits g p m w -> generator_at g p w.
Proof. by intros (? & ? & _). Qed.

(** Rounds that start without locals *)
Lemma draw_rounds g take p n f w :
  each_round take p (Z.of_nat n) (fun p i => forall w1, sits g p ∅ w1 ->
    does w1 (f i) (fun _ w' => generator_at g (p + take i) w')) ->
  generator_at g p w -> does w (for_range 0 n f) (fun _ _ => True).
Proof.
  intros Hf Hg. eapply does_mono; [apply (does_for_index (fun i => generator_at g (round_pos take p (Z.to_nat i)))); [|exact Hg]|done].
  intros i w1 Hi [He Hp]. rewrite Z.add_0_l in Hi. eapply does_mono.
  - apply (Hf i Hi w1). split_and!; [done|done|apply holds_empty].
  - intros [] w2 Hw2. replace (Z.to_nat (i + 1)) with (S (Z.to_nat i)) by lia. cbn [round_pos].
    by rewrite Z2Nat.id by lia.
Qed.
