(* ===== verification/SealTamper.v ===== *)
(** * The tests that modify sealed messages

    The tests of crypto/secretbox, crypto/box_, crypto/sealedbox and crypto/aead
    that flip a bit of each byte of a ciphertext, a tag or additional data and
    expect that it is not opened.  They pass when the keys, nonces and messages
    their rounds draw have no one-byte forgery. *)

From S2P Require Export Tests Standards Tamper.

(** ** The programs *)

Section Programs.
Context `{T : Target} `{R : RandombytesExterns} `{S : Sealer}.
Context {K : Type} (before : Z -> M K) (after : K -> M sl_ctx).

Definition test_seal_open_tamper (n : nat) : M unit :=
  for_range 0 n (fun i =>
    let* k := before i in
    let* m := randombytes i in
    let* c := after k in
    let* ct := sl_seal (v_slice m) c in
    for_tampered (v_slice ct) (let* r := sl_open (v_slice ct) c in assert_err r)).

Context {D : DetachedSealer S}.

(** Opening in both modes *)
Definition open_both (ct : vec) (c : sl_ctx) : M unit :=
  let* r := sl_open (v_slice ct) c in
  let* _ := assert_err r in
  let* head := slice_index (v_slice ct) 0 (nt_bytes sl_tag) in
  let* tag := NewType.from_slice sl_tag head in
  let* tag := unwrap (ok_or tag) in
  let* tp := place tag in
  let* buf := slice_index (v_slice ct) (nt_bytes sl_tag) (v_len ct) in
  let* r := sl_open_detached buf (At tp 0) c in
  assert_err r.

Definition test_seal_open_both_tamper (n : nat) : M unit :=
  for_range 0 n (fun i =>
    let* k := before i in
    let* m := randombytes i in
    let* c := after k in
    let* ct := sl_seal (v_slice m) c in
    for_tampered (v_slice ct) (open_both ct c)).

Definition test_seal_open_detached_tamper (n : nat) : M unit :=
  for_range 0 n (fun i =>
    let* k := before i in
    let* m := randombytes i in
    let* c := after k in
    let* tag := sl_seal_detached (v_slice m) c in
    let* tp := place tag in
    let attempt := (let* r := sl_open_detached (v_slice m) (At tp 0) c in assert_err r) in
    let* _ := for_tampered (v_slice m) attempt in
    for_tampered (Slice (At tp 0) (nt_bytes sl_tag)) attempt).

(** [b"hello world"] *)
Definition hello_world : bytes := [x68; x65; x6c; x6c; x6f; x20; x77; x6f; x72; x6c; x64].

Definition test_open_detached_failure_does_not_modify : M unit :=
  let* buf := vec_of hello_world in
  let* k := before 0 in
  let* c := after k in
  let* tag := sl_seal_detached (v_slice buf) c in
  let* tp := place tag in
  let* _ := flip x01 (v_slice buf) (v_len buf - 1) in
  let* copy := vec_clone buf in
  let* failure := sl_open_detached (v_slice buf) (At tp 0) c in
  let* _ := assert_err failure in
  let* a := slice_bytes (v_slice buf) in
  let* b := slice_bytes (v_slice copy) in
  assert_eq a b.

End Programs.

(** ** What has to hold of the algorithm *)

(** No change of one byte of the ciphertext leaves its tag. *)
Definition unforged (mask : byte) (C : cipher) (kb nb ct : bytes) : Prop :=
  forall j, (j < length ct)%nat -> c_mac C kb nb [] (flipped mask j ct) <> c_mac C kb nb [] ct.

Section Easy.
Context (C : cipher) {CL : CipherLaws C}.

Lemma easy_tampered_parts kb nb mb j (ct := c_enc C kb nb mb) :
  unforged x20 C kb nb ct -> (j < length (easy_ct C kb nb mb))%nat ->
  exists t' ct', tampered j (easy_ct C kb nb mb) = t' ++ ct' /\ zlen t' = c_tag C /\ zlen ct' = zlen mb /\
    t' <> c_mac C kb nb [] ct'.
Proof.
  intros Hu Hj. unfold easy_ct in *. fold ct in Hj |- *. set (t := c_mac C kb nb [] ct) in *.
  assert (Ht : zlen t = c_tag C) by apply c_mac_zlen. assert (Hc : zlen ct = zlen mb) by apply c_enc_zlen.
  rewrite length_app in Hj. destruct (decide (j < length t)%nat) as [Hl|Hl].
  - exists (tampered j t), ct. rewrite flipped_zlen, flipped_app_l by done. split_and!; [done..|].
    apply flipped_ne; [by left|done].
  - exists t, (tampered (j - length t) ct). rewrite flipped_zlen, flipped_app_r by lia. split_and!; [done..|].
    intros E. apply (Hu (j - length t)%nat); [lia|done].
Qed.

Lemma easy_open_tampered kb nb mb j :
  unforged x20 C kb nb (c_enc C kb nb mb) -> (j < length (easy_ct C kb nb mb))%nat ->
  easy_open C kb nb (tampered j (easy_ct C kb nb mb)) = None.
Proof.
  intros Hu Hj. destruct (easy_tampered_parts kb nb mb j Hu Hj) as (t' & ct' & -> & Ht & _ & Hne).
  rewrite easy_open_app by done. by rewrite decide_False.
Qed.

End Easy.

(** ** The modules that seal with a nonce and a shared key *)

(** What they do when a message cannot be opened *)
Record rejecting `{T : Target} {S : Sealer} {D : DetachedSealer S} (A : easy_module S D) := Rejecting {
  rj_seal w m mb c k :
    is_slice w m mb -> zlen mb + 16 <= isize_max -> ea_ready S D A w c k ->
    exists w1, still w w1 /\
      sl_seal m c w = Done (Vec (fresh_block w) (zlen mb + 16) (zlen mb + 16))
        (w_put (fresh_block w) (Some <$> easy_ct (ea_cipher S D A) k.2 k.1 mb) w1);
  rj_open w x cb c k :
    is_slice w x cb -> ea_ready S D A w c k -> easy_open (ea_cipher S D A) k.2 k.1 cb = None ->
    exists w1, still w w1 /\ sl_open x c w = Done Err w1;
  rj_open_detached w x tp t ct c k :
    is_slice w x ct -> is_ref w tp 16 t -> ea_ready S D A w c k ->
    t <> c_mac (ea_cipher S D A) k.2 k.1 [] ct -> sl_open_detached x tp c w = Done Err w
}.

(** What a test prepares: [pr_key g p] is the shared key that comes of the
    [pr_take] bytes from position [p] on; the nonce is drawn after it. *)
Record drawing `{T : Target} {S : Sealer} {D : DetachedSealer S} (A : easy_module S D)
    {K : Type} (before : Z -> M K) (after : K -> M sl_ctx) := Drawing {
  pr_take : Z;
  pr_key : (nat -> byte) -> nat -> bytes;
  pr_keyed : world -> K -> bytes -> Prop;
  pr_ctx : K -> ptr -> sl_ctx;
  pr_before g p m w i (f : K -> M unit) Q :
    sits g p m w ->
    (forall x m0 w', m0 ##ₘ m -> sits g (p + Z.to_nat pr_take) (m0 ∪ m) w' ->
       (forall w2, holds w2 m0 -> pr_keyed w2 x (pr_key g p)) -> does w' (f x) Q) ->
    does w (bind (before i) f) Q;
  pr_after g p m w x (f : sl_ctx -> M unit) Q :
    sits g p m w ->
    (forall n w', m !! n = None -> sits g (p + 24) (<[n := draw g p 24]> m) w' -> does w' (f (pr_ctx x (At n 0))) Q) ->
    does w (bind (after x) f) Q;
  pr_ready w x kb n nb : pr_keyed w x kb -> is_ref w n 24 nb -> ea_ready S D A w (pr_ctx x n) (nb, kb)
}.

Section EasyTamper.
Context `{T : Target} `{R : RandombytesExterns} {RD : RandombytesDoc R} {S : Sealer} {D : DetachedSealer S}.
Context {A : easy_module S D} (J : rejecting A) {K : Type} (before : Z -> M K) (after : K -> M sl_ctx).
Context (P : drawing A before after).

#[local] Abbreviation C := (ea_cipher S D A).
#[local] Abbreviation key := (pr_key A before after P).
#[local] Abbreviation keyed := (pr_keyed A before after P).
#[local] Abbreviation took := (Z.to_nat (pr_take A before after P)).
#[local] Abbreviation ctx := (pr_ctx A before after P).
#[local] Instance tamper_cipher_laws : CipherLaws C := ea_laws S D A.

(** The context is ready while the locals it was made of are live. *)
Lemma ready_in m0 m w x kb n nb :
  (forall w2, holds w2 m0 -> keyed w2 x kb) -> holds w m -> m0 ⊆ m -> m !! n = Some nb -> zlen nb = 24 ->
  ea_ready S D A w (ctx x (At n 0)) (nb, kb).
Proof.
  intros Hk Hw Hm Hn Hl. apply pr_ready; [apply Hk; by eapply holds_mono|]. rewrite <- Hl. by eapply holds_ref.
Qed.

(** A message, and a context that is ready *)
Lemma draw_prepared g p w i (f : vec -> sl_ctx -> M unit) Q
    (mb := draw g (p + took) i) (nb := draw g (p + took + Z.to_nat i) 24) :
  sits g p ∅ w -> 0 <= i <= 256 ->
  (forall m0 b n x w', m0 !! b = None -> m0 !! n = None -> b <> n ->
     (forall w2, holds w2 m0 -> keyed w2 x (key g p)) ->
     sits g (p + took + Z.to_nat i + 24) (<[n := nb]> (<[b := mb]> m0)) w' -> does w' (f (Vec b i i) (ctx x (At n 0))) Q) ->
  does w (let* k := before i in let* m := randombytes i in let* c := after k in f m c) Q.
Proof.
  intros Hw Hi Hf. pose proof isize_max_bounds. eapply (pr_before A before after P); [exact Hw|]. intros x m0 w1 _ Hw1 Hk.
  rewrite map_union_empty in Hw1. eapply (draw_random _ _ (RD := RD)); [exact Hw1|lia|]. intros b w2 Hb Hw2.
  eapply (pr_after A before after P); [exact Hw2|]. intros n w3 Hn Hw3. fresh_facts. by apply (Hf m0).
Qed.

Lemma put_still g p m w w1 bs : sits g p m w -> still w w1 ->
  sits g p (<[fresh_block w := bs]> m) (w_put (fresh_block w) (Some <$> bs) w1).
Proof. intros Hw Hs. apply sits_put; [by eapply sits_still|by right]. Qed.

Lemma fresh_in g p m w : sits g p m w -> m !! fresh_block w = None.
Proof. intros Hw. eapply holds_None; [by eapply sits_holds|apply fresh_block_spec]. Qed.

(** The condition on what a round draws *)
Definition round_unforged (mask : byte) (g : nat -> byte) (p : nat) (i : Z) : Prop :=
  let nb := draw g (p + took + Z.to_nat i) 24 in
  unforged mask C (key g p) nb (c_enc C (key g p) nb (draw g (p + took) i)).

Lemma sealed_round g p w i (f : vec -> sl_ctx -> M unit) Q :
  sits g p ∅ w -> 0 <= i <= 256 ->
  (forall m0 n c x nb w' (ct := easy_ct C (key g p) nb (draw g (p + took) i)),
     nb = draw g (p + took + Z.to_nat i) 24 -> m0 !! n = Some nb -> m0 !! c = None ->
     (forall w2, holds w2 m0 -> ea_ready S D A w2 (ctx x (At n 0)) (nb, key g p)) ->
     sits g (p + took + Z.to_nat i + 24) (<[c := ct]> m0) w' ->
     does w' (f (Vec c (i + 16) (i + 16)) (ctx x (At n 0))) Q) ->
  does w (let* k := before i in let* m := randombytes i in let* c := after k in
          let* ct := sl_seal (v_slice m) c in f ct c) Q.
Proof.
  intros Hw Hi Hf. pose proof isize_max_bounds. apply draw_prepared with g p; [done|done|].
  intros m0 b n x w1 Hb Hn Hbn Hk Hw1. set (mb := draw _ _ _) in *. set (nb := draw _ _ 24) in *.
  assert (Hmb : zlen mb = i) by (apply draw_zlen; lia). assert (Hnb : zlen nb = 24) by (by apply draw_zlen).
  set (m := <[n := nb]> (<[b := mb]> m0)) in *.
  assert (Hm0 : m0 ⊆ m) by (apply insert_subseteq_r; [done|]; by apply insert_subseteq_r).
  assert (Hrdy : forall w2, holds w2 m -> ea_ready S D A w2 (ctx x (At n 0)) (nb, key g p)).
  { intros w2 Hw2. eapply (ready_in m0 m); [exact Hk|exact Hw2|exact Hm0|apply lookup_insert_eq|exact Hnb]. }
  assert (Hs : is_slice w1 (v_slice (Vec b i i)) mb).
  { sl. eapply holds_slice; [by eapply sits_holds|unfold m; local_tac|by symmetry|lia]. }
  destruct (rj_seal A J w1 _ mb (ctx x (At n 0)) (nb, key g p) Hs) as (w2 & Hst & Hrun); [lia|by eapply Hrdy, sits_holds|].
  eapply local_run; [exact Hrun|]. rewrite Hmb. cbn [fst snd].
  eapply (Hf m n _ x nb); [done|apply lookup_insert_eq|by eapply fresh_in|exact Hrdy|by apply put_still].
Qed.

(** What a round takes of the generator *)
Definition round_take (i : Z) : nat := (took + Z.to_nat i + 24)%nat.

(** What the body of the loop does with a ciphertext whose tag is wrong *)
Definition rejects (body : vec -> sl_ctx -> M unit) : Prop :=
  forall g p m w c x k t' ct' n,
    sits g p m w -> m !! c = Some (t' ++ ct') -> zlen t' = 16 -> zlen ct' + 16 = n -> n <= isize_max ->
    t' <> c_mac C k.2 k.1 [] ct' -> ea_ready S D A w x k ->
    does w (body (Vec c n n) x) (fun _ w' => sits g p m w').

Lemma seal_tamper_passes body g p0 n w :
  rejects body -> generator_at g p0 w -> Z.of_nat n <= 256 ->
  each_round round_take p0 (Z.of_nat n) (round_unforged x20 g) ->
  does w (for_range 0 n (fun i =>
    let* k := before i in let* m := randombytes i in let* c := after k in
    let* ct := sl_seal (v_slice m) c in for_tampered (v_slice ct) (body ct c))) (fun _ _ => True).
Proof.
  intros Hbody Hg Hn Hu. apply (draw_rounds g round_take p0); [|exact Hg]. intros i Hi w1 Hs1. pose proof isize_max_bounds.
  specialize (Hu i Hi). set (p := round_pos _ _ _) in *. unfold round_unforged in Hu. cbv zeta in Hu.
  eapply (sealed_round g p w1 i (fun ct c => for_tampered (v_slice ct) (body ct c))); [exact Hs1|lia|].
  intros m n0 c x nb w2 ct Hnb Hn0 Hc Hrdy Hw2. rewrite <- Hnb in Hu. cbn beta.
  set (mb := draw g (p + took) i) in *. assert (Hmb : zlen mb = i) by (apply draw_zlen; lia).
  assert (Hct : zlen ct = i + 16) by (unfold ct; rewrite (easy_zlen A (nb, key g p)); lia).
  apply local_last. sl. eapply draw_tampered; [exact Hw2|apply lookup_insert_eq|by symmetry| |].
  - intros j w3 Hj Hw3. rewrite insert_insert_eq in Hw3. rewrite insert_insert_eq.
    destruct (easy_tampered_parts C (key g p) nb mb j Hu Hj) as (t' & ct' & E & Ht & Hct' & Hne).
    fold ct in E. rewrite E in *. rewrite (ea_tag S D A) in Ht.
    eapply (Hbody g _ _ w3 c (ctx x (At n0 0)) (nb, key g p) t' ct');
      [exact Hw3|apply lookup_insert_eq|exact Ht|lia|lia|exact Hne|].
    apply Hrdy. eapply holds_mono; [|by eapply sits_holds]. by apply insert_subseteq.
  - intros w3 Hw3. apply does_ret. apply sits_generator in Hw3. unfold round_take. by rewrite !Nat.add_assoc.
Qed.

Lemma open_err g p m w c x k t' ct' n :
  sits g p m w -> m !! c = Some (t' ++ ct') -> zlen t' = 16 -> zlen ct' + 16 = n -> n <= isize_max ->
  t' <> c_mac C k.2 k.1 [] ct' -> ea_ready S D A w x k ->
  exists w1, still w w1 /\ sl_open (Slice (At c 0) n) x w = Done Err w1.
Proof.
  intros Hw Hc Ht Hl Hn Hne Hk. pose proof (ea_tag S D A) as Htag.
  apply (rj_open A J w _ (t' ++ ct') x k); [|exact Hk|].
  - eapply holds_slice; [by eapply sits_holds|exact Hc|rewrite zlen_app; lia|done].
  - rewrite easy_open_app by lia. by rewrite decide_False.
Qed.

Lemma open_rejects : rejects (fun ct c => let* r := sl_open (v_slice ct) c in assert_err r).
Proof.
  intros g p m w c x k t' ct' n Hw Hc Ht Hl Hn Hne Hk.
  destruct (open_err g p m w c x k t' ct' n) as (w1 & Hst & Hrun); [done..|]. sl.
  eapply local_run; [exact Hrun|]. apply does_ret. by eapply sits_still.
Qed.

(** What the wrappers of the modules do is determined by the memory. *)
Lemma open_both_rejects :
  rejects open_both.
Proof.
  intros g p m w c x k t' ct' n Hw Hc Ht Hl Hn Hne Hk. unfold open_both.
  destruct (open_err g p m w c x k t' ct' n) as (w1 & Hst & Hrun); [done..|].
  pose proof (sits_still g p m w w1 Hst Hw) as Hw1. pose proof (ea_tag_bytes S D A) as Htb. pose proof (zlen_nonneg ct').
  assert (Hv : is_vec w1 (Vec c n n) (t' ++ ct')).
  { destruct (holds_ref w1 m c _ (sits_holds _ _ _ _ Hw1) Hc) as [Hb _]. split; [exact Hb|]. cbn. rewrite zlen_app. lia. }
  destruct (is_vec_split _ _ _ _ Hv) as [Ha Hb]. rewrite Ht in Ha, Hb. sl.
  eapply local_run; [exact Hrun|]. apply local_assert; [done|]. rewrite Htb.
  eapply local_run; [apply slice_index_run; cbn; lia|].
  eapply local_run; [apply (NewType.from_slice_run sl_tag w1 _ t'); exact Ha|].
  rewrite Htb, decide_True by done. eapply local_unwrap; [reflexivity|].
  set (w2 := w_put (fresh_block w1) (Some <$> t') w1).
  assert (Hg2 : grows w1 w2) by (apply grows_put, fresh_block_spec). destruct Hst as (Hm1 & He1 & Hp1).
  assert (Hw2 : sits g p m w2).
  { eapply sits_mono; [|by eapply sits_put; [exact Hw1|right]]. apply insert_subseteq. by eapply fresh_in. }
  eapply (local_run _ w1 (place t') (fresh_block w1) w2); [reflexivity|]. cbn [v_len].
  eapply local_run; [apply slice_index_run; cbn; lia|]. cbn [s_ptr]. eapply local_run.
  { replace (n - 16) with (zlen ct') by lia. apply (rj_open_detached A J w2 _ _ t' ct' x k).
    - eapply is_slice_mono; [exact Hg2|exact Hb].
    - rewrite <- Ht. apply is_ref_place.
    - eapply ea_grows; [|exact Hk]. transitivity w1; [|done]. unfold grows. by rewrite Hm1.
    - done. }
  by apply does_ret.
Qed.

(** An attempt to open the two parts *)
Lemma attempt_rejects g p m w b tp ct t n x k :
  sits g p m w -> m !! b = Some ct -> m !! tp = Some t -> zlen t = 16 -> zlen ct = n -> n <= isize_max ->
  t <> c_mac C k.2 k.1 [] ct -> ea_ready S D A w x k ->
  does w (let* r := sl_open_detached (Slice (At b 0) n) (At tp 0) x in assert_err r) (fun _ w' => sits g p m w').
Proof.
  intros Hw Hb Htp Ht Hl Hn Hne Hk.
  assert (Hs : is_slice w (Slice (At b 0) n) ct).
  { eapply holds_slice; [by eapply sits_holds|exact Hb|by symmetry|done]. }
  assert (Hr : is_ref w (At tp 0) 16 t) by (rewrite <- Ht; eapply holds_ref; [by eapply sits_holds|exact Htp]).
  eapply local_run; [exact (rj_open_detached A J w _ _ t ct x k Hs Hr Hk Hne)|]. by apply does_ret.
Qed.

(** Sealing a local in place *)
Lemma seal_local_does g p m w b mb n x k f Q (ct := c_enc C k.2 k.1 mb) :
  sits g p m w -> m !! b = Some mb -> n = zlen mb -> n <= isize_max -> ea_ready S D A w x k ->
  (forall w', sits g p (<[b := ct]> m) w' -> does w' (f (c_mac C k.2 k.1 [] ct)) Q) ->
  does w (bind (sl_seal_detached (Slice (At b 0) n) x) f) (Q : unit -> world -> Prop).
Proof.
  intros Hw Hb -> Hn Hk Hf. eapply local_run.
  { apply (ea_seal_detached S D A w _ mb x k); [|exact Hk].
    eapply holds_slice; [by eapply sits_holds|exact Hb|done|done]. }
  apply Hf. destruct Hw as (He & Hp & Hw). split_and!; [unfold w_write; by repeat case_match..|].
  eapply holds_store; [exact Hw|exact Hb|apply c_enc_zlen].
Qed.

Lemma detached_tamper_passes g p0 n w :
  generator_at g p0 w -> Z.of_nat n <= 256 ->
  each_round round_take p0 (Z.of_nat n) (round_unforged x20 g) ->
  does w (test_seal_open_detached_tamper before after n) (fun _ _ => True).
Proof.
  intros Hg Hn Hu. apply (draw_rounds g round_take p0); [|exact Hg]. intros i Hi w1 Hs1. pose proof isize_max_bounds.
  specialize (Hu i Hi). set (p := round_pos _ _ _) in *. unfold round_unforged in Hu. cbv zeta in Hu.
  eapply draw_prepared; [exact Hs1|lia|]. intros m0 b nn x w2 Hb Hnn Hbn Hk Hw2.
  set (mb := draw _ _ i) in *. set (nb := draw _ _ 24) in *. set (k := (nb, key g p)).
  assert (Hmb : zlen mb = i) by (apply draw_zlen; lia). assert (Hnb : zlen nb = 24) by (by apply draw_zlen).
  set (m1 := <[nn := nb]> m0).
  assert (Hrdy : forall m w3, holds w3 m -> m1 ⊆ m -> ea_ready S D A w3 (ctx x (At nn 0)) k).
  { intros m w3 Hw3 Hm. eapply (ready_in m0 m1); [exact Hk|by eapply holds_mono|by apply insert_subseteq|apply lookup_insert_eq|done]. }
  assert (Hm1b : m1 !! b = None) by (unfold m1; by rewrite lookup_insert_ne).
  rewrite insert_insert_ne in Hw2 by congruence. fold m1 in Hw2. set (ct := c_enc C (key g p) nb mb) in *.
  assert (Hct : zlen ct = i) by (unfold ct; by rewrite c_enc_zlen). sl.
  eapply seal_local_does; [exact Hw2|apply lookup_insert_eq|by symmetry|lia| |].
  { apply (Hrdy _ _ (sits_holds _ _ _ _ Hw2)). by apply insert_subseteq. }
  intros w3 Hw3. rewrite insert_insert_eq in Hw3. change (c_enc C k.2 k.1 mb) with ct in *.
  change (c_mac C k.2 k.1 [] ct) with (c_mac C (key g p) nb [] ct) in *. set (t := c_mac C (key g p) nb [] ct) in *.
  assert (Ht : zlen t = 16) by (unfold t; rewrite c_mac_zlen; apply (ea_tag S D A)).
  eapply draw_place; [exact Hw3|]. intros tp w4 Htp Hw4. apply lookup_insert_None in Htp as [Htp Hbt]. cbv zeta.
  assert (Hsub : forall y z, m1 ⊆ <[tp := y]> (<[b := z]> m1)).
  { intros y z. apply insert_subseteq_r; [done|]. by apply insert_subseteq. }
  eapply draw_tampered; [exact Hw4|by local_tac|by symmetry| |].
  - intros j w5 Hj Hw5. rewrite insert_insert_ne, insert_insert_eq in Hw5 by congruence.
    rewrite insert_insert_ne, insert_insert_eq by congruence.
    eapply (attempt_rejects g _ _ w5 b tp (tampered j ct) t i _ k);
      [exact Hw5|by local_tac|apply lookup_insert_eq|done|by rewrite flipped_zlen|lia| |by eapply Hrdy, Hsub; eapply sits_holds].
    cbn. unfold t. intros E. by apply (Hu j Hj).
  - intros w5 Hw5. rewrite (ea_tag_bytes S D A). apply local_last.
    eapply draw_tampered; [exact Hw5|apply lookup_insert_eq|by symmetry| |].
    + intros j w6 Hj Hw6. rewrite insert_insert_eq in Hw6 |- *.
      eapply (attempt_rejects g _ _ w6 b tp ct (tampered j t) i _ k);
        [exact Hw6|by local_tac|apply lookup_insert_eq|by rewrite flipped_zlen|done|lia| |by eapply Hrdy, Hsub; eapply sits_holds].
      cbn. fold t. apply flipped_ne; [by left|done].
    + intros w6 Hw6. apply does_ret. apply sits_generator in Hw6. unfold round_take. by rewrite !Nat.add_assoc.
Qed.

(** The test that draws the keys and the nonce after the message *)
Lemma failure_passes g p w :
  sits g p ∅ w ->
  (let nb := draw g (p + took) 24 in unforged x01 C (key g p) nb (c_enc C (key g p) nb hello_world)) ->
  does w (test_open_detached_failure_does_not_modify before after) (fun _ _ => True).
Proof.
  cbv zeta. intros Hw Hu. pose proof isize_max_bounds. unfold test_open_detached_failure_does_not_modify, vec_of.
  apply local_assoc. change (alloc (Some <$> hello_world)) with (place hello_world).
  eapply draw_place; [exact Hw|]. intros b w1 _ Hw1. apply local_ret. change (zlen hello_world) with 11.
  eapply (pr_before A before after P); [exact Hw1|]. intros x m0 w2 Hdis Hw2 Hk.
  eapply (pr_after A before after P); [exact Hw2|]. intros n w3 Hn Hw3.
  apply lookup_union_None in Hn as [Hn0 Hnb]. apply lookup_insert_None in Hnb as [_ Hbn].
  set (nb := draw g (p + took) 24) in *. set (k := (nb, key g p)).
  assert (Hzn : zlen nb = 24) by (by apply draw_zlen).
  assert (Hb0 : m0 !! b = None) by (eapply map_disjoint_Some_r; [exact Hdis|apply lookup_insert_eq]).
  set (m1 := <[n := nb]> m0).
  assert (Hrdy : forall m w', holds w' m -> m1 ⊆ m -> ea_ready S D A w' (ctx x (At n 0)) k).
  { intros m w' Hw' Hm. eapply (ready_in m0 m1); [exact Hk|by eapply holds_mono|by apply insert_subseteq|apply lookup_insert_eq|done]. }
  assert (Hm : <[n := nb]> (m0 ∪ <[b := hello_world]> ∅) = <[b := hello_world]> m1).
  { unfold m1. rewrite insert_insert_ne by congruence. f_equal. rewrite <- insert_union_r by done. by rewrite map_union_empty. }
  rewrite Hm in Hw3. assert (Hm1b : m1 !! b = None) by (unfold m1; by rewrite lookup_insert_ne).
  set (ct := c_enc C (key g p) nb hello_world) in *.
  assert (Hct : zlen ct = 11) by (unfold ct; by rewrite c_enc_zlen). sl.
  eapply seal_local_does; [exact Hw3|apply lookup_insert_eq|done|lia| |].
  { apply (Hrdy _ _ (sits_holds _ _ _ _ Hw3)). by apply insert_subseteq. }
  intros w4 Hw4. rewrite insert_insert_eq in Hw4. change (c_enc C k.2 k.1 hello_world) with ct in *.
  change (c_mac C k.2 k.1 [] ct) with (c_mac C (key g p) nb [] ct). set (t := c_mac C (key g p) nb [] ct) in *.
  assert (Ht : zlen t = 16) by (unfold t; rewrite c_mac_zlen; apply (ea_tag S D A)).
  eapply draw_place; [exact Hw4|]. intros tp w5 Htp Hw5. apply lookup_insert_None in Htp as [Htp Hbt].
  cbn [v_len]. change (11 - 1) with (Z.of_nat 10). assert (Hlen : length ct = 11%nat) by (unfold zlen in Hct; lia).
  eapply does_bind; [eapply (flip_does g); [exact Hw5|by local_tac|by symmetry|lia]|]. intros [] w6 Hw6.
  rewrite insert_insert_ne, insert_insert_eq in Hw6 by congruence. set (ct' := flipped x01 10 ct) in *.
  assert (Hct' : zlen ct' = 11) by (unfold ct'; by rewrite flipped_zlen).
  eapply local_clone; [by eapply sits_holds|by local_tac|by symmetry|]. intros c w7 Hc Hw7.
  apply lookup_insert_None in Hc as [Hc Htc]. apply lookup_insert_None in Hc as [Hc Hbc].
  eapply local_run.
  { apply (rj_open_detached A J w7 _ _ t ct' (ctx x (At n 0)) k).
    - eapply holds_slice; [exact Hw7|by local_tac|by symmetry|lia].
    - rewrite <- Ht. eapply holds_ref; [exact Hw7|by local_tac].
    - eapply Hrdy; [exact Hw7|]. repeat (apply insert_subseteq_r; [done|]). reflexivity.
    - cbn. unfold t. intros E. apply (Hu 10%nat); [lia|done]. }
  apply local_assert; [done|]. eapply local_read; [exact Hw7|by local_tac|by symmetry|].
  sl. eapply local_read; [exact Hw7|by local_tac|by symmetry|]. apply does_assert. by apply bool_decide_eq_true.
Qed.

End EasyTamper.

(** ** crypto/secretbox *)

Section Secretbox.
Context `{T : Target} `{E : SecretboxExterns} {D : SecretboxDoc E}.

Lemma secretbox_rejecting : rejecting secretbox_easy.
Proof.
  split; cbn [ea_cipher ea_ready secretbox_easy].
  - intros w m mb c k Hm Hl [Hn Hk]. exists w. split; [done|]. by apply secretbox.secretbox_seal_run.
  - intros w x cb c k Hx [Hn Hk] Ho. cbn [sl_open secretbox_sealer].
    rewrite (secretbox.secretbox_open_run w x c.1 c.2 cb k.1 k.2) by done. rewrite Ho.
    case_decide; eexists; (split; [|reflexivity]); done.
  - intros w x tp t ct c k Hx Ht [Hn Hk] Hne. cbn [sl_open_detached secretbox_detached].
    rewrite (secretbox.secretbox_open_detached_run w x tp c.1 c.2 ct t k.1 k.2) by done. by rewrite decide_False.
Qed.

Context `{R : RandombytesExterns} {RD : RandombytesDoc R}.

Lemma gen_key_run w : secretbox.gen_key w = Done (entropy 32 w) (w_consume 32 w).
Proof. by apply (draw_key_run 32). Qed.

#[refine] Definition secretbox_drawing : drawing secretbox_easy secretbox_before secretbox_after := {|
  pr_take := 32; pr_key g p := draw g p 32;
  pr_keyed w x kb := is_ref w x 32 kb; pr_ctx x n := (n, x)
|}.
Proof.
  - intros g p m w i f Q Hw Hf. eapply (draw_gen Q g); [exact Hw|apply gen_key_run|].
    intros b w1 Hb Hw1. rewrite (sits_entropy g p m w) in Hw1 by done.
    destruct (new_locals m _ (insert_subseteq _ _ (draw g p 32) Hb)) as (m0 & Hd & Hu & Hl).
    apply (Hf (At b 0) m0); [done|by rewrite Hu|]. intros w2 Hw2.
    rewrite <- (draw_zlen g p 32) by done. eapply holds_ref; [exact Hw2|]. apply Hl; [apply lookup_insert_eq|done].
  - intros g p m w x f Q Hw Hf. unfold secretbox_after. apply local_assoc. eapply (draw_gen Q g); [exact Hw|by apply NewType.gen_random_nonce_run|].
    intros n w1 Hn Hw1. rewrite (sits_entropy g p m w) in Hw1 by done. apply local_ret. by apply Hf.
  - intros w x kb n nb Hx Hn. split; [exact Hn|exact Hx].
Defined.

End Secretbox.

(** ** crypto/box_ *)

Section Box.
Context `{T : Target} `{E : BoxExterns} {D : BoxDoc E}.

Lemma box_rejecting : rejecting box_easy.
Proof.
  split; cbn [ea_cipher ea_ready box_easy].
  - intros w m mb c k Hm Hl (Hn & pk1 & sk1 & pk2 & sk2 & Hp1 & Hs1 & Hp2 & Hs2 & Hk & Hk').
    exists (w_breach 1 w). split; [by split_and!|]. cbn [sl_seal box_sealer].
    erewrite box_seal_run by done. by rewrite Hk.
  - intros w x cb c k Hx (Hn & pk1 & sk1 & pk2 & sk2 & Hp1 & Hs1 & Hp2 & Hs2 & Hk & Hk') Ho.
    cbn [sl_open box_sealer]. rewrite (box_open_run w x _ _ _ cb k.1 pk2 sk1) by done.
    rewrite Hk'. cbn [mbind option_bind]. rewrite Ho. case_decide; eexists; (split; [|reflexivity]); [done|].
    unfold still, w_breach. by case_decide.
  - intros w x tp t ct c k Hx Ht (Hn & pk1 & sk1 & pk2 & sk2 & Hp1 & Hs1 & Hp2 & Hs2 & Hk & Hk') Hne.
    cbn [sl_open_detached box_detached]. rewrite (box_open_detached_run w x tp _ _ _ ct t k.1 pk2 sk1) by done.
    rewrite Hk'. by rewrite decide_False.
Qed.

Lemma precomputed_rejecting : rejecting precomputed_easy.
Proof.
  split; cbn [ea_cipher ea_ready precomputed_easy].
  - intros w m mb c k Hm Hl (Hn & Hk & _). exists w. split; [done|]. by apply box_seal_precomputed_run.
  - intros w x cb c k Hx (Hn & _ & Hk) Ho. cbn [sl_open precomputed_sealer].
    rewrite (box_open_precomputed_run w x _ _ cb k.1 k.2) by done. rewrite Ho.
    case_decide; eexists; (split; [|reflexivity]); done.
  - intros w x tp t ct c k Hx Ht (Hn & _ & Hk) Hne. cbn [sl_open_detached precomputed_detached].
    rewrite (box_open_detached_precomputed_run w x tp _ _ ct t k.1 k.2) by done. by rewrite decide_False.
Qed.

Context `{R : RandombytesExterns} {RD : RandombytesDoc R} {KP : KeyPairs E D}.

(** A key pair in two locals *)
Lemma draw_pair {B} (Q : B -> world -> Prop) g p p' m w w' sk gen f :
  gen w = Done (box_public sk, sk) w' -> sits g p m w -> sits g p' m w' ->
  (forall a b w2, m !! a = None -> m !! b = None -> a <> b ->
     sits g p' (<[b := sk]> (<[a := box_public sk]> m)) w2 -> does w2 (f (At a 0, At b 0)) Q) ->
  does w (bind (local_pair gen) f) Q.
Proof.
  intros Hr Hw Hw' Hf. unfold local_pair. apply local_assoc. eapply local_run; [exact Hr|]. cbn beta iota.
  apply local_assoc, local_assoc, local_ret, local_assoc.
  eapply draw_place; [exact Hw'|]. intros a w2 Ha Hw2. apply local_ret, local_assoc, local_assoc, local_ret, local_assoc.
  eapply draw_place; [exact Hw2|]. intros b w3 Hb Hw3. apply lookup_insert_None in Hb as [Hb Hab].
  apply local_ret, local_ret. by apply Hf.
Qed.

Lemma draw_gen_pair {B} (Q : B -> world -> Prop) g p m w f (sk := draw g p 32) :
  sits g p m w ->
  (forall a b w2, m !! a = None -> m !! b = None -> a <> b ->
     sits g (p + 32) (<[b := sk]> (<[a := box_public sk]> m)) w2 -> does w2 (f (At a 0, At b 0)) Q) ->
  does w (bind (local_pair box_.gen_keypair) f) Q.
Proof.
  intros Hw Hf. eapply (draw_pair Q g p (p + 32) m w (w_consume 32 w) sk);
    [rewrite box_gen_keypair_run; by rewrite (sits_entropy g p m w)|exact Hw| |exact Hf].
  destruct Hw as (<- & <- & Hw). by split_and!.
Qed.

(** The keys of the parties that draw their secret keys one after the other *)
Definition two_keys (sk1 sk2 : bytes) : bytes := default [] (box_shared (box_public sk1) sk2).

Definition parties_keyed (w : world) (x : (ptr * ptr) * (ptr * ptr)) (kb : bytes) : Prop :=
  exists pk1 sk1 pk2 sk2,
    is_ref w x.1.1 32 pk1 /\ is_ref w x.1.2 32 sk1 /\ is_ref w x.2.1 32 pk2 /\ is_ref w x.2.2 32 sk2 /\
    box_shared pk1 sk2 = Some kb /\ box_shared pk2 sk1 = Some kb.

Definition two_pairs (m : gmap positive bytes) (x : (ptr * ptr) * (ptr * ptr)) (sk1 sk2 : bytes) : Prop :=
  exists a b c d, x = ((At a 0, At b 0), (At c 0, At d 0)) /\
    m !! a = Some (box_public sk1) /\ m !! b = Some sk1 /\ m !! c = Some (box_public sk2) /\ m !! d = Some sk2.

Lemma two_pairs_keyed m w x sk1 sk2 :
  holds w m -> two_pairs m x sk1 sk2 -> zlen sk1 = 32 -> zlen sk2 = 32 -> parties_keyed w x (two_keys sk1 sk2).
Proof.
  intros Hw (a & b & c & d & -> & Ha & Hb & Hc & Hd) H1 H2. unfold two_keys.
  destruct (generated_key_accepted sk1 sk2) as [kb Hkb]. rewrite Hkb.
  exists (box_public sk1), sk1, (box_public sk2), sk2. cbn [fst snd default].
  assert (Hr : forall p bs, m !! p = Some bs -> zlen bs = 32 -> is_ref w (At p 0) 32 bs).
  { intros p bs Hp <-. by eapply holds_ref. }
  split_and!; [apply Hr; [done|apply box_public_zlen]|by apply Hr|apply Hr; [done|apply box_public_zlen]|by apply Hr|done|].
  by rewrite box_shared_sym.
Qed.

(** The two pairs are new locals. *)
Lemma draw_two_pairs {B} (Q : B -> world -> Prop) g (p' : nat) (m m1 : gmap positive bytes) w a b sk1 f
    (sk2 := draw g p' 32) (m2 := <[b := sk1]> (<[a := box_public sk1]> m1)) :
  m ⊆ m1 -> m1 !! a = None -> m1 !! b = None -> a <> b -> sits g p' m2 w -> zlen sk1 = 32 ->
  (forall x m0 w', m0 ##ₘ m -> sits g (p' + 32) (m0 ∪ m) w' ->
     (forall w2, holds w2 m0 -> parties_keyed w2 x (two_keys sk1 sk2)) -> does w' (f x) Q) ->
  does w (let* p2 := local_pair box_.gen_keypair in f ((At a 0, At b 0), p2)) Q.
Proof.
  intros Hm Ha Hb Hab Hw Hl Hf. eapply draw_gen_pair; [exact Hw|]. intros c d w1 Hc Hd Hcd Hw1. fold sk2 in Hw1.
  unfold m2 in Hc, Hd. apply lookup_insert_None in Hc as [[Hc Hac]%lookup_insert_None Hbc].
  apply lookup_insert_None in Hd as [[Hd Had]%lookup_insert_None Hbd]. set (m' := <[d := sk2]> _) in Hw1.
  assert (Hsub : m ⊆ m').
  { etrans; [exact Hm|]. unfold m', m2. repeat (apply insert_subseteq_r; [done|]). reflexivity. }
  destruct (new_locals m m' Hsub) as (m0 & Hd0 & Hu & Hlk). rewrite <- Hu in Hw1.
  assert (Hnone : forall q, m1 !! q = None -> m !! q = None) by (intros q Hq; by eapply lookup_weaken_None).
  eapply Hf; [exact Hd0|exact Hw1|]. intros w2 Hw2. eapply two_pairs_keyed; [exact Hw2| |done|by apply draw_zlen].
  exists a, b, c, d. split; [done|]. unfold m', m2 in Hlk. split_and!; (apply Hlk; [local_tac|by apply Hnone]).
Qed.

(** [let n = gen_nonce();] *)
Lemma draw_nonce {B} (Q : B -> world -> Prop) g p m w f :
  sits g p m w ->
  (forall n w', m !! n = None -> sits g (p + 24) (<[n := draw g p 24]> m) w' -> does w' (f (At n 0)) Q) ->
  does w (bind (local box_.gen_nonce) f) Q.
Proof.
  intros Hw Hf. eapply (draw_gen Q g); [exact Hw|by apply NewType.gen_random_nonce_run|].
  intros n w1 Hn Hw1. rewrite (sits_entropy g p m w) in Hw1 by done. by apply Hf.
Qed.

Definition box_ctx (x : (ptr * ptr) * (ptr * ptr)) (n : ptr) : sl_ctx (Sealer := box_sealer) :=
  BoxParties n x.1.1 x.1.2 x.2.1 x.2.2.

Lemma parties_ready w x kb n nb :
  parties_keyed w x kb -> is_ref w n 24 nb -> box_ready w (box_ctx x n) (nb, kb).
Proof. intros Hx Hn. by split. Qed.

Lemma draw_box_before {B} (Q : B -> world -> Prop) g p m w i f :
  sits g p m w ->
  (forall x m0 w', m0 ##ₘ m -> sits g (p + 64) (m0 ∪ m) w' ->
     (forall w2, holds w2 m0 -> parties_keyed w2 x (two_keys (draw g p 32) (draw g (p + 32) 32))) -> does w' (f x) Q) ->
  does w (bind (box_before i) f) Q.
Proof.
  intros Hw Hf. unfold box_before. apply local_assoc. eapply draw_gen_pair; [exact Hw|].
  intros a b w1 Ha Hb Hab Hw1. apply local_assoc.
  apply (draw_two_pairs Q g (p + 32) m m w1 a b (draw g p 32)); [done|done|done|done|exact Hw1|by apply draw_zlen|].
  intros x m0 w2 Hd Hw2 Hk. apply local_ret. apply (Hf x m0); [done| |done]. by rewrite <- Nat.add_assoc in Hw2.
Qed.

#[refine] Definition box_drawing : drawing box_easy box_before box_after := {|
  pr_take := 64; pr_key g p := two_keys (draw g p 32) (draw g (p + 32) 32);
  pr_keyed := parties_keyed; pr_ctx := box_ctx
|}.
Proof.
  - intros g p m w i f Q Hw Hf. by eapply draw_box_before.
  - intros g p m w [[pk1 s1] [pk2 s2]] f Q Hw Hf. unfold box_after. apply local_assoc.
    eapply draw_nonce; [exact Hw|]. intros n w1 Hn Hw1. apply local_ret. by apply Hf.
  - apply parties_ready.
Defined.

#[refine] Definition box_seeded_drawing : drawing box_easy box_seeded_before box_after := {|
  pr_take := 64; pr_key g p := two_keys (box_seeded (draw g p 32)) (draw g (p + 32) 32);
  pr_keyed := parties_keyed; pr_ctx := box_ctx
|}.
Proof.
  - intros g p m w i f Q Hw Hf. unfold box_seeded_before. apply local_assoc.
    change (stack_array 32) with (place (zeros 32)). eapply draw_place; [exact Hw|]. intros s w1 Hs Hw1.
    apply local_assoc. eapply (draw_fill _ g); [exact Hw1|apply lookup_insert_eq|done|].
    intros w2 Hw2. rewrite insert_insert_eq in Hw2.
    apply local_assoc. eapply draw_pair; [|exact Hw2|exact Hw2|].
    { apply (box_keypair_from_seed_run w2 _ (draw g p 32)). rewrite <- (draw_zlen g p 32) by done.
      eapply holds_ref; [by eapply sits_holds|apply lookup_insert_eq]. }
    intros a b w3 Ha Hb Hab Hw3. apply local_assoc.
    eapply (draw_two_pairs Q g (p + 32) m (<[s := draw g p 32]> m) w3 a b); [by apply insert_subseteq|done|done|done|exact Hw3|apply box_seeded_zlen|].
    intros x m0 w4 Hd Hw4 Hk. apply local_ret. apply (Hf x m0); [done| |done]. by rewrite <- Nat.add_assoc in Hw4.
  - intros g p m w [[pk1 s1] [pk2 s2]] f Q Hw Hf. unfold box_after. apply local_assoc.
    eapply draw_nonce; [exact Hw|]. intros n w1 Hn Hw1. apply local_ret. by apply Hf.
  - apply parties_ready.
Defined.

(** The shared key in two more locals *)
Lemma draw_precompute {B} (Q : B -> world -> Prop) g p m w pk sk pkb skb kb f :
  sits g p m w -> is_ref w pk 32 pkb -> is_ref w sk 32 skb -> box_shared pkb skb = Some kb ->
  (forall b w', m !! b = None -> sits g p (<[b := kb]> m) w' -> grows w w' -> does w' (f (At b 0)) Q) ->
  does w (bind (local (box_.precompute pk sk)) f) Q.
Proof.
  intros Hw Hp Hs Hk Hf. pose proof (box_precompute_run w pk sk _ _ Hp Hs) as Hrun. rewrite Hk in Hrun.
  apply local_assoc. eapply local_run; [exact Hrun|]. apply local_assoc.
  eapply (local_run _ w (place kb) (fresh_block w) (w_put (fresh_block w) (Some <$> kb) w)); [reflexivity|].
  apply local_ret, Hf; [by eapply fresh_in|by apply sits_put; [|right]|apply grows_put, fresh_block_spec].
Qed.

#[refine] Definition precomputed_drawing : drawing precomputed_easy (box_precompute_before false) box_precompute_after := {|
  pr_take := 64; pr_key g p := two_keys (draw g p 32) (draw g (p + 32) 32);
  pr_keyed w x kb := is_ref w x.1 32 kb /\ is_ref w x.2 32 kb; pr_ctx x n := (n, x)
|}.
Proof.
  - intros g p m w i f Q Hw Hf. unfold box_precompute_before. apply local_assoc. eapply draw_box_before; [exact Hw|].
    intros [[pk1 s1] [pk2 s2]] m0 w1 Hd Hw1 Hk. set (kb := two_keys _ _) in *. cbn beta iota.
    assert (Hm0 : holds w1 m0) by (eapply holds_mono; [|by eapply sits_holds]; apply map_union_subseteq_l).
    destruct (Hk w1 Hm0) as (p1 & q1 & p2 & q2 & Hp1 & Hq1 & Hp2 & Hq2 & Hs & Hs'). cbn [fst snd] in *.
    apply local_assoc. eapply draw_precompute; [exact Hw1|exact Hp1|exact Hq2|exact Hs|]. intros a w2 Ha Hw2 Hg.
    apply local_assoc. eapply draw_precompute; [exact Hw2|eapply is_ref_grows; [exact Hg|exact Hp2]|eapply is_ref_grows; [exact Hg|exact Hq1]|exact Hs'|].
    intros b w3 Hb Hw3 _. apply local_assoc, local_ret, local_ret.
    apply lookup_insert_None in Hb as [Hb Hab].
    assert (Hsub : m ⊆ <[b := kb]> (<[a := kb]> (m0 ∪ m))).
    { do 2 (apply insert_subseteq_r; [by eapply lookup_union_None|]). by apply map_union_subseteq_r. }
    destruct (new_locals m _ Hsub) as (m1 & Hd1 & Hu & Hlk). rewrite <- Hu in Hw3.
    assert (Hz : zlen kb = 32) by exact (box_shared_zlen _ _ _ Hs).
    apply (Hf (At a 0, At b 0) m1); [exact Hd1|exact Hw3|]. intros w4 Hw4. cbn [fst snd]. rewrite <- Hz.
    apply lookup_union_None in Ha as [_ Ha]. apply lookup_union_None in Hb as [_ Hb].
    split; (eapply holds_ref; [exact Hw4|]; apply Hlk; [local_tac|done]).
  - intros g p m w x f Q Hw Hf. unfold box_precompute_after. apply local_assoc.
    eapply draw_nonce; [exact Hw|]. intros n w1 Hn Hw1. apply local_ret. by apply Hf.
  - intros w x kb n nb [H1 H2] Hn. by split_and!.
Defined.

End Box.

(** ** crypto/aead *)

(** What the rounds make of a buffer: [f j] is what round [j] does. *)
Fixpoint rounds (f : nat -> bytes -> bytes) (n : nat) (x : bytes) : bytes :=
  match n with
  | O => x
  | S n => f n (rounds f n x)
  end.

Section Aead.
Context `{T : Target} `{R : RandombytesExterns} (A : aead_module) (test_gate : M bool).

(** [f]: the rest of the round, with the key, the nonce, the additional data and
    the message *)
Definition aead_round (f : ptr -> ptr -> vec -> vec -> M unit) (i : Z) : M unit :=
  let* k := local (aead.gen_key A) in
  let* n := local (NewType.gen_random_nonce (aead.Nonce A)) in
  let* ad := randombytes i in
  let* m := randombytes i in
  f k n ad m.

Definition aead_tamper_round (k n : ptr) (ad m : vec) : M unit :=
  let* c := aead.seal A (v_slice m) (Some (v_slice ad)) n k in
  let attempt := aead.open A (v_slice c) (Some (v_slice ad)) n k in
  let* _ := for_tampered_late (v_slice c) attempt assert_err in
  for_tampered_late (v_slice ad) attempt assert_err.

Definition aead_test_seal_open_tamper : M unit :=
  let* run := test_gate in
  if negb run then ret tt else for_range 0 32 (aead_round aead_tamper_round).

Definition aead_detached_tamper_round (k n : ptr) (ad m : vec) : M unit :=
  let* t := local (aead.seal_detached A (v_slice m) (Some (v_slice ad)) n k) in
  let attempt := aead.open_detached A (v_slice m) (Some (v_slice ad)) t n k in
  let* _ := for_tampered_late (v_slice m) attempt assert_err in
  let* _ := for_tampered_late (v_slice ad) attempt assert_err in
  for_tampered_late (Slice t (aead.TAGBYTES A)) attempt assert_err.

Definition aead_test_seal_open_detached_tamper : M unit :=
  let* run := test_gate in
  if negb run then ret tt else for_range 0 32 (aead_round aead_detached_tamper_round).

Context {RD : RandombytesDoc R} {D : AeadDoc A} (Hkb : 0 <= keybytes A) (Hnb : 0 <= noncebytes A).

#[local] Abbreviation C := (aead_cipher (A := A)).
#[local] Abbreviation junk := (aead_junk (A := A)).

(** No change of one byte of the ciphertext or of the additional data leaves the
    tag. *)
Definition aead_unforged (kb nb ad ct : bytes) : Prop :=
  (forall j, (j < length ct)%nat -> c_mac C kb nb ad (tampered j ct) <> c_mac C kb nb ad ct) /\
  (forall j, (j < length ad)%nat -> c_mac C kb nb (tampered j ad) ct <> c_mac C kb nb ad ct).

(** In detached mode each failure overwrites the buffer: the test opens what the
    last one left, with one byte changed. *)
Definition spoil (j : nat) (x : bytes) : bytes := tampered j (junk (tampered j x)).
Definition spoiled (n m : nat) (ct : bytes) : bytes := rounds (fun _ => junk) m (rounds spoil n ct).

Definition aead_detached_unforged (kb nb ad ct : bytes) : Prop :=
  let t := c_mac C kb nb ad ct in
  let n := length ct in
  (forall j, (j < n)%nat -> c_mac C kb nb ad (tampered j (spoiled j 0 ct)) <> t) /\
  (forall j, (j < length ad)%nat -> c_mac C kb nb (tampered j ad) (spoiled n j ct) <> t) /\
  (forall j, (j < length t)%nat -> c_mac C kb nb ad (spoiled n (length ad + j) ct) <> tampered j t).

(** *** The locals of a round *)

Record aead_locals (m : gmap positive bytes) (k n a : positive) (kb nb adb : bytes) : Prop := {
  al_k : m !! k = Some kb;
  al_n : m !! n = Some nb;
  al_a : m !! a = Some adb;
  al_kl : zlen kb = keybytes A;
  al_nl : zlen nb = noncebytes A;
  al_al : zlen adb <= 256
}.

Lemma aead_locals_insert m k n a kb nb adb b bs :
  aead_locals m k n a kb nb adb -> b <> k -> b <> n -> b <> a -> aead_locals (<[b := bs]> m) k n a kb nb adb.
Proof. intros [] ???. split; try done; by rewrite lookup_insert_ne. Qed.

Lemma aead_locals_ad m k n a kb nb adb adb' :
  aead_locals m k n a kb nb adb -> a <> k -> a <> n -> zlen adb' = zlen adb ->
  aead_locals (<[a := adb']> m) k n a kb nb adb'.
Proof. intros [] ?? Hl. split; try done; [by rewrite lookup_insert_ne..|apply lookup_insert_eq|by rewrite Hl]. Qed.

Lemma aead_args_of w m k n a kb nb adb l :
  holds w m -> aead_locals m k n a kb nb adb -> l = zlen adb ->
  is_opt_slice w (Some (Slice (At a 0) l)) adb /\ is_ref w (At n 0) (noncebytes A) nb /\ is_ref w (At k 0) (keybytes A) kb.
Proof.
  intros Hw [Hk Hn Ha Hkl Hnl Hal] ->. pose proof isize_max_bounds. rewrite <- Hkl, <- Hnl. split_and!.
  - eapply holds_slice; [exact Hw|exact Ha|done|lia].
  - by eapply holds_ref.
  - by eapply holds_ref.
Qed.

Lemma aead_drawn g p w i f Q
    (kb := draw g p (keybytes A)) (p1 := (p + Z.to_nat (keybytes A))%nat)
    (nb := draw g p1 (noncebytes A)) (p2 := (p1 + Z.to_nat (noncebytes A))%nat)
    (adb := draw g p2 i) (mb := draw g (p2 + Z.to_nat i) i) :
  sits g p ∅ w -> 0 <= i <= 256 ->
  (forall m k n a b w', aead_locals m k n a kb nb adb -> m !! b = Some mb ->
     a <> k -> a <> n -> b <> k -> b <> n -> b <> a ->
     sits g (p2 + Z.to_nat i + Z.to_nat i) m w' -> does w' (f (At k 0) (At n 0) (Vec a i i) (Vec b i i)) Q) ->
  does w (aead_round f i) (Q : unit -> world -> Prop).
Proof.
  intros Hw Hi Hf. pose proof isize_max_bounds. unfold aead_round.
  eapply (draw_gen _ g); [exact Hw|by apply (draw_key_run (keybytes A))|]. intros k w1 _ Hw1.
  rewrite (sits_entropy g p ∅ w) in Hw1 by done. fold kb p1 in Hw1.
  eapply (draw_gen _ g); [exact Hw1|by apply NewType.gen_random_nonce_run|]. intros n w2 Hn Hw2.
  rewrite (sits_entropy g p1 _ w1) in Hw2 by done. change (nt_bytes (aead.Nonce A)) with (noncebytes A) in Hw2. fold nb p2 in Hw2.
  eapply (draw_random _ g); [exact Hw2|lia|]. intros a w3 Ha Hw3. fold adb in Hw3.
  eapply (draw_random _ g); [exact Hw3|lia|]. intros b w4 Hb Hw4. fold mb in Hw4. fresh_facts.
  eapply Hf; [|apply lookup_insert_eq|done..|exact Hw4].
  split; [local_tac|local_tac|local_tac|by apply draw_zlen|by apply draw_zlen|]. unfold adb. rewrite draw_zlen; lia.
Qed.


Lemma aead_open_tampered kb nb adb mb j (ct := c_enc C kb nb mb) :
  aead_unforged kb nb adb ct -> (j < length (aead_ct C kb nb adb mb))%nat ->
  aead_open C kb nb adb (tampered j (aead_ct C kb nb adb mb)) = None.
Proof.
  intros [Hu _] Hj. unfold aead_ct in *. fold ct in Hj |- *. set (t := c_mac C kb nb adb ct) in *.
  assert (Ht : zlen t = c_tag C) by apply c_mac_zlen. rewrite length_app in Hj.
  destruct (decide (j < length ct)%nat) as [Hl|Hl].
  - rewrite flipped_app_l, aead_open_app by done. rewrite decide_False; [done|]. intros E. by apply (Hu j).
  - rewrite flipped_app_r, aead_open_app by (rewrite ?flipped_zlen; lia || done). rewrite decide_False; [done|].
    apply flipped_ne; [by left|]. fold t. lia.
Qed.

Lemma aead_open_ad_tampered kb nb adb mb j (ct := c_enc C kb nb mb) :
  aead_unforged kb nb adb ct -> (j < length adb)%nat ->
  aead_open C kb nb (tampered j adb) (aead_ct C kb nb adb mb) = None.
Proof.
  intros [_ Hu] Hj. unfold aead_ct. rewrite aead_open_app by apply c_mac_zlen.
  rewrite decide_False; [done|]. intros E. by apply (Hu j).
Qed.

Lemma aead_open_err g p m w k n a c kb nb adb cb l z :
  sits g p m w -> aead_locals m k n a kb nb adb -> l = zlen adb -> m !! c = Some cb -> z = zlen cb -> z <= isize_max ->
  aead_open C kb nb adb cb = None ->
  exists w1, still w w1 /\
    aead.open A (Slice (At c 0) z) (Some (Slice (At a 0) l)) (At n 0) (At k 0) w = Done Err w1.
Proof.
  intros Hw Hm Hl Hc -> Hz Ho. destruct (aead_args_of w m k n a kb nb adb l (sits_holds _ _ _ _ Hw) Hm Hl) as (Had & Hn & Hk).
  assert (Hx : is_slice w (Slice (At c 0) (zlen cb)) cb) by (eapply holds_slice; [by eapply sits_holds|exact Hc|done|done]).
  rewrite (aead_open_run w _ _ _ _ cb adb nb kb Hx Had Hn Hk), Ho. case_decide; eexists; (split; [|reflexivity]); done.
Qed.

Lemma aead_tamper_round_does g p m w k n a b kb nb adb mb i :
  sits g p m w -> aead_locals m k n a kb nb adb -> m !! b = Some mb -> zlen adb = i -> zlen mb = i ->
  a <> k -> a <> n -> aead_unforged kb nb adb (c_enc C kb nb mb) ->
  does w (aead_tamper_round (At k 0) (At n 0) (Vec a i i) (Vec b i i)) (fun _ w' => generator_at g p w').
Proof.
  intros Hw Hm Hb Hla Hlb Hak Han Hu. pose proof isize_max_bounds. pose proof (@tagbytes_range A D).
  assert (Hi : i <= 256) by (rewrite <- Hla; exact (al_al _ _ _ _ _ _ _ Hm)). pose proof (zlen_nonneg mb).
  destruct (aead_args_of w m k n a kb nb adb i (sits_holds _ _ _ _ Hw) Hm) as (Had & Hn & Hk); [done|].
  assert (Hs : is_slice w (Slice (At b 0) i) mb) by (eapply holds_slice; [by eapply sits_holds|exact Hb|done|lia]).
  unfold aead_tamper_round. sl. set (ct := aead_ct C kb nb adb mb).
  assert (Hct : zlen ct = i + tagbytes A) by (unfold ct; rewrite aead_ct_zlen, (@aead_tag A D) by apply _; lia).
  eapply local_run; [apply (aead_seal_run w _ _ _ _ mb adb nb kb); first [done|lia]|].
  rewrite Hlb. fold ct. pose proof (fresh_in g p m w Hw) as Hc. set (c := fresh_block w) in *.
  assert (Hw1 : sits g p (<[c := ct]> m) (w_put c (Some <$> ct) w)) by (apply sits_put; [done|by right]).
  set (w1 := w_put c _ w) in *. sl. cbv zeta.
  assert (Hne : c <> k /\ c <> n /\ c <> a) by (destruct Hm; split_and!; congruence). destruct Hne as (Hck & Hcn & Hca).
  eapply does_bind.
  { apply (tampered_late_does g p c _ _ _ _ (fun _ m' => m' = <[c := ct]> m)); [|by eauto|].
    - intros j m' ->. exists ct. split; [apply lookup_insert_eq|done].
    - intros j m' x w2 Hj -> Hx Hw2. rewrite lookup_insert_eq in Hx. injection Hx as <-. rewrite insert_insert_eq in Hw2.
      destruct (aead_open_err g p _ w2 k n a c kb nb adb (tampered j ct) i (i + tagbytes A) Hw2) as (w3 & Hst & Hrun);
        [by apply aead_locals_insert|done|apply lookup_insert_eq|by rewrite flipped_zlen|lia|
         apply aead_open_tampered; [done|unfold zlen in Hct; fold ct; lia]|].
      eapply does_eq; [exact Hrun|]. split; [done|]. exists (<[c := tampered j ct]> m), (tampered j ct).
      split_and!; [apply lookup_insert_eq|by rewrite flipped_zlen|by rewrite insert_insert_eq, tampered_twice|].
      by eapply sits_still. }
  intros [] w2 (m' & -> & Hw2). eapply does_mono.
  { apply (tampered_late_does g p a _ _ _ _ (fun _ m' => m' = <[c := ct]> m)); [|by eauto|].
    - intros j m' ->. exists adb. rewrite lookup_insert_ne by done. split; [apply (al_a _ _ _ _ _ _ _ Hm)|done].
    - intros j m' x w3 Hj -> Hx Hw3. rewrite lookup_insert_ne, (al_a _ _ _ _ _ _ _ Hm) in Hx by done. injection Hx as <-.
      destruct (aead_open_err g p _ w3 k n a c kb nb (tampered j adb) ct i (i + tagbytes A) Hw3) as (w4 & Hst & Hrun);
        [eapply aead_locals_ad; [by eapply aead_locals_insert|done|done|apply flipped_zlen]|by rewrite flipped_zlen|
         rewrite lookup_insert_ne by done; apply lookup_insert_eq|done|lia|
         apply aead_open_ad_tampered; [done|unfold zlen in Hla; lia]|].
      eapply does_eq; [exact Hrun|]. split; [done|]. exists (<[a := tampered j adb]> (<[c := ct]> m)), (tampered j adb).
      split_and!; [apply lookup_insert_eq|by rewrite flipped_zlen| |by eapply sits_still].
      rewrite insert_insert_eq, tampered_twice, insert_id; [done|].
      rewrite lookup_insert_ne by done. apply (al_a _ _ _ _ _ _ _ Hm). }
  intros [] w3 (m' & _ & Hw3). by eapply sits_generator.
Qed.


(** *** The detached mode *)

Lemma aead_open_detached_err g p m w k n a b tp kb nb adb x t l z :
  sits g p m w -> aead_locals m k n a kb nb adb -> l = zlen adb -> m !! b = Some x -> z = zlen x -> z <= isize_max ->
  m !! tp = Some t -> zlen t = tagbytes A -> t <> c_mac C kb nb adb x ->
  exists w', sits g p (<[b := junk x]> m) w' /\
    aead.open_detached A (Slice (At b 0) z) (Some (Slice (At a 0) l)) (At tp 0) (At n 0) (At k 0) w = Done Err w'.
Proof.
  intros Hw Hm Hl Hb -> Hz Htp Ht Hne.
  destruct (aead_args_of w m k n a kb nb adb l (sits_holds _ _ _ _ Hw) Hm Hl) as (Had & Hn & Hk).
  assert (Hx : is_slice w (Slice (At b 0) (zlen x)) x) by (eapply holds_slice; [by eapply sits_holds|exact Hb|done|done]).
  assert (Hr : is_ref w (At tp 0) (tagbytes A) t) by (rewrite <- Ht; eapply holds_ref; [by eapply sits_holds|exact Htp]).
  eexists. split; [|rewrite (aead_open_detached_run w _ _ _ _ _ x adb t nb kb Hx Had Hr Hn Hk); by rewrite decide_False].
  destruct Hw as (He & Hp & Hw). split_and!; [rewrite <- He|rewrite <- Hp|]; [unfold w_write; by repeat case_match..|].
  eapply holds_store; [exact Hw|exact Hb|apply aead_junk_zlen].
Qed.

(** A loop over another local than the buffer, which each round overwrites *)
Lemma spoil_loop g p m w b q v xs n (body : M (result unit)) :
  m !! q = Some v -> q <> b -> n = zlen v -> (forall j, xs (S j) = junk (xs j)) ->
  (forall j w', (j < length v)%nat -> sits g p (<[q := tampered j v]> (<[b := xs j]> m)) w' ->
     exists w'', sits g p (<[b := junk (xs j)]> (<[q := tampered j v]> (<[b := xs j]> m))) w'' /\ body w' = Done Err w'') ->
  sits g p (<[b := xs 0%nat]> m) w ->
  does w (for_tampered_late (Slice (At q 0) n) body assert_err) (fun _ w' => sits g p (<[b := xs (length v)]> m) w').
Proof.
  intros Hq Hqb -> Hxs Hbody Hw. eapply does_mono.
  - apply (tampered_late_does g p q _ _ _ _ (fun j m' => m' = <[b := xs j]> m)); [|by eauto|].
    + intros j m' ->. exists v. by rewrite lookup_insert_ne.
    + intros j m' x w1 Hj -> Hx Hw1. rewrite lookup_insert_ne, Hq in Hx by done. injection Hx as <-.
      destruct (Hbody j w1) as (w2 & Hw2 & Hrun); [unfold zlen in Hj; lia|exact Hw1|].
      eapply does_eq; [exact Hrun|]. split; [done|]. eexists _, (tampered j v). split_and!; [| | |exact Hw2].
      * rewrite lookup_insert_ne by done. apply lookup_insert_eq.
      * by rewrite flipped_zlen.
      * rewrite Hxs, (insert_insert_ne _ q b) by done. rewrite insert_insert_eq, tampered_twice.
        rewrite (insert_id (<[b := xs j]> m)) by (by rewrite lookup_insert_ne). by rewrite insert_insert_eq.
  - intros [] w1 (m' & -> & Hw1). by rewrite to_nat_zlen in Hw1.
Qed.

Lemma spoil_zlen j x : zlen (spoil j x) = zlen x.
Proof. unfold spoil. by rewrite flipped_zlen, aead_junk_zlen, flipped_zlen. Qed.

Lemma spoiled_zlen n j ct : zlen (spoiled n j ct) = zlen ct.
Proof.
  unfold spoiled. induction j as [|j IH]; cbn [rounds].
  - induction n as [|n IH]; [done|]. cbn [rounds]. by rewrite spoil_zlen.
  - by rewrite aead_junk_zlen.
Qed.

(** The loop over the buffer itself *)
Lemma spoil_buffer_loop g p m w b ct n (body : M (result unit)) :
  n = zlen ct ->
  (forall j w' (x := tampered j (spoiled j 0 ct)), (j < length ct)%nat -> sits g p (<[b := x]> m) w' ->
     exists w'', sits g p (<[b := junk x]> m) w'' /\ body w' = Done Err w'') ->
  sits g p (<[b := ct]> m) w ->
  does w (for_tampered_late (Slice (At b 0) n) body assert_err)
    (fun _ w' => sits g p (<[b := spoiled (length ct) 0 ct]> m) w').
Proof.
  intros -> Hbody Hw. eapply does_mono.
  - apply (tampered_late_does g p b _ _ _ _ (fun j m' => m' = <[b := spoiled j 0 ct]> m)); [|by exists (<[b := ct]> m)|].
    + intros j m' ->. eexists. split; [apply lookup_insert_eq|]. by rewrite spoiled_zlen.
    + intros j m' x w1 Hj -> Hx Hw1. rewrite lookup_insert_eq in Hx. injection Hx as <-. rewrite insert_insert_eq in Hw1.
      destruct (Hbody j w1) as (w2 & Hw2 & Hrun); [unfold zlen in Hj; lia|exact Hw1|].
      set (x := tampered j (spoiled j 0 ct)) in *. assert (Hxl : zlen x = zlen ct) by (unfold x; by rewrite flipped_zlen, spoiled_zlen).
      eapply does_eq; [exact Hrun|]. split; [done|]. exists (<[b := junk x]> m), (junk x).
      split_and!; [apply lookup_insert_eq|by rewrite aead_junk_zlen|by rewrite insert_insert_eq|exact Hw2].
  - intros [] w1 (m' & -> & Hw1). by rewrite to_nat_zlen in Hw1.
Qed.

Lemma aead_detached_round_does g p m w k n a b kb nb adb mb i :
  sits g p m w -> aead_locals m k n a kb nb adb -> m !! b = Some mb -> zlen adb = i -> zlen mb = i ->
  a <> k -> a <> n -> b <> k -> b <> n -> b <> a -> aead_detached_unforged kb nb adb (c_enc C kb nb mb) ->
  does w (aead_detached_tamper_round (At k 0) (At n 0) (Vec a i i) (Vec b i i)) (fun _ w' => generator_at g p w').
Proof.
  intros Hw Hm Hb Hla Hlb Hak Han Hbk Hbn Hba (Hu1 & Hu2 & Hu3). pose proof isize_max_bounds.
  assert (Hi : i <= 256) by (rewrite <- Hla; exact (al_al _ _ _ _ _ _ _ Hm)). pose proof (zlen_nonneg mb).
  destruct (aead_args_of w m k n a kb nb adb i (sits_holds _ _ _ _ Hw) Hm) as (Had & Hn & Hk); [done|].
  assert (Hs : is_slice w (Slice (At b 0) i) mb) by (eapply holds_slice; [by eapply sits_holds|exact Hb|done|lia]).
  unfold aead_detached_tamper_round. sl. set (ct := c_enc C kb nb mb) in *. set (t := c_mac C kb nb adb ct) in *.
  assert (Hct : zlen ct = i) by (unfold ct; by rewrite c_enc_zlen by apply _).
  assert (Ht : zlen t = tagbytes A) by (unfold t; rewrite c_mac_zlen by apply _; apply (@aead_tag A D)).
  apply local_assoc. eapply local_run; [by apply (aead_seal_detached_run w _ _ _ _ mb adb nb kb)|]. fold ct t. cbn [s_ptr].
  set (w1 := w_write _ _ w). assert (Hw1 : sits g p (<[b := ct]> m) w1).
  { destruct Hw as (He & Hp & Hw). split_and!; [rewrite <- He|rewrite <- Hp|]; [unfold w1, w_write; by repeat case_match..|].
    eapply holds_store; [exact Hw|exact Hb|lia]. }
  apply local_assoc. eapply draw_place; [exact Hw1|]. intros tp w2 Htp Hw2. apply lookup_insert_None in Htp as [Htp Hbt].
  assert (Hne : tp <> k /\ tp <> n /\ tp <> a) by (destruct Hm; split_and!; congruence). destruct Hne as (Htk & Htn & Hta).
  rewrite insert_insert_ne in Hw2 by done. set (M := <[tp := t]> m) in *. apply local_ret. sl. cbv zeta.
  assert (HM : aead_locals M k n a kb nb adb) by (by apply aead_locals_insert).
  assert (HMx : forall x, aead_locals (<[b := x]> M) k n a kb nb adb) by (intros x; by apply aead_locals_insert).
  set (len := length ct) in *.
  (* the buffer *)
  eapply does_bind.
  { apply (spoil_buffer_loop g p M w2 b ct); [by symmetry| |exact Hw2]. intros j w3 x Hj Hw3.
    rewrite <- (insert_insert_eq M b _ x).
    eapply (aead_open_detached_err g p _ w3 k n a b tp kb nb adb x t i i Hw3 (HMx x));
      [done|apply lookup_insert_eq|unfold x; by rewrite flipped_zlen, spoiled_zlen|lia| |done|].
    - rewrite lookup_insert_ne by done. apply lookup_insert_eq.
    - intros E. apply (Hu1 j Hj). by symmetry. }
  intros [] w3 Hw3.
  (* the additional data *)
  eapply does_bind.
  { apply (spoil_loop g p M w3 b a adb (fun j => spoiled len j ct)); [apply HM|done|by symmetry|done| |exact Hw3].
    intros j w4 Hj Hw4.
    eapply (aead_open_detached_err g p _ w4 k n a b tp kb nb (tampered j adb) (spoiled len j ct) t i i Hw4);
      [by apply aead_locals_ad with adb; [|..|apply flipped_zlen]|by rewrite flipped_zlen|local_tac|by rewrite spoiled_zlen|lia| |done|].
    - rewrite !lookup_insert_ne by done. apply lookup_insert_eq.
    - intros E. apply (Hu2 j Hj). by symmetry. }
  cbv beta. intros [] w4 Hw4. set (na := length adb) in *.
  (* the tag *)
  eapply does_mono.
  { apply (spoil_loop g p M w4 b tp t (fun j => spoiled len (na + j) ct)); [apply lookup_insert_eq|done|by symmetry| | |by rewrite Nat.add_0_r].
    - intros j. by rewrite Nat.add_succ_r.
    - intros j w5 Hj Hw5.
      eapply (aead_open_detached_err g p _ w5 k n a b tp kb nb adb (spoiled len (na + j) ct) (tampered j t) i i Hw5);
        [by apply aead_locals_insert|done|local_tac|by rewrite spoiled_zlen|lia|apply lookup_insert_eq|by rewrite flipped_zlen|].
      intros E. apply (Hu3 j Hj). by symmetry. }
  intros [] w5 Hw5. by eapply sits_generator.
Qed.


(** The condition on the bytes a round draws *)
Definition aead_round_take (i : Z) : nat :=
  (Z.to_nat (keybytes A) + Z.to_nat (noncebytes A) + Z.to_nat i + Z.to_nat i)%nat.

Definition aead_drawn_ok (ok : bytes -> bytes -> bytes -> bytes -> Prop) (w : world) : Prop :=
  let g := e_entropy (w_env w) in
  each_round aead_round_take (e_pos (w_env w)) 32 (fun p i =>
    let kb := draw g p (keybytes A) in
    let p1 := (p + Z.to_nat (keybytes A))%nat in
    let nb := draw g p1 (noncebytes A) in
    let p2 := (p1 + Z.to_nat (noncebytes A))%nat in
    ok kb nb (draw g p2 i) (c_enc C kb nb (draw g (p2 + Z.to_nat i) i))).

Lemma aead_rounds_pass ok round g p0 w w0 :
  (forall p m w k n a b kb nb adb mb i,
     sits g p m w -> aead_locals m k n a kb nb adb -> m !! b = Some mb -> zlen adb = i -> zlen mb = i ->
     a <> k -> a <> n -> b <> k -> b <> n -> b <> a -> ok kb nb adb (c_enc C kb nb mb) ->
     does w (round (At k 0) (At n 0) (Vec a i i) (Vec b i i)) (fun _ w' => generator_at g p w')) ->
  aead_drawn_ok ok w0 -> generator_at g p0 w0 -> generator_at g p0 w ->
  does w (for_range 0 32 (aead_round round)) (fun _ _ => True).
Proof.
  intros Hround Hok [Hg0 Hp0] Hg. unfold aead_drawn_ok in Hok. rewrite Hg0, Hp0 in Hok.
  apply (draw_rounds g aead_round_take p0); [|exact Hg]. intros i Hi w1 Hs1. change (Z.of_nat 32) with 32 in Hi.
  specialize (Hok i Hi). cbv zeta in Hok. set (p := round_pos _ _ _) in *.
  apply (aead_drawn g p w1 i); [done|lia|]. intros m k n a b w2 Hm Hb Hak Han Hbk Hbn Hba Hw2.
  eapply does_mono; [eapply Hround; [exact Hw2|exact Hm|exact Hb|apply draw_zlen; lia|apply draw_zlen; lia|done..]|].
  intros [] w3 Hw3. unfold aead_round_take. by rewrite !Nat.add_assoc.
Qed.

Lemma aead_tamper_pass w :
  (forall w, does w test_gate (fun _ w' => generator_at (e_entropy (w_env w)) (e_pos (w_env w)) w')) ->
  aead_drawn_ok aead_unforged w -> does w aead_test_seal_open_tamper (fun _ _ => True).
Proof.
  intros Hgate Hu. eapply does_bind; [apply Hgate|]; intros [|] w1 Hw1; [|by apply does_ret].
  eapply aead_rounds_pass; [|exact Hu|done|exact Hw1]. intros. by eapply aead_tamper_round_does.
Qed.

Lemma aead_detached_tamper_pass w :
  (forall w, does w test_gate (fun _ w' => generator_at (e_entropy (w_env w)) (e_pos (w_env w)) w')) ->
  aead_drawn_ok aead_detached_unforged w -> does w aead_test_seal_open_detached_tamper (fun _ _ => True).
Proof.
  intros Hgate Hd. eapply does_bind; [apply Hgate|]; intros [|] w1 Hw1; [|by apply does_ret].
  eapply aead_rounds_pass; [|exact Hd|done|exact Hw1]. intros. by eapply aead_detached_round_does.
Qed.

End Aead.

(** ** crypto/sealedbox *)

Section Sealedbox.
Context `{T : Target} `{R : RandombytesExterns} {RD : RandombytesDoc R} `{E : BoxExterns} {D : BoxDoc E}.
Context `{SE : SealedboxExterns} {SD : SealedboxDoc SE} {SK : SealedKeyPairs E D SE SD}.

(** The secret key, the message and the ephemeral secret are drawn in this
    order. *)
Definition sealed_unforged (sk m e : bytes) : Prop :=
  forall c j, sealed_box e (sealed_public sk) m = Some c -> (j < length c)%nat ->
    sealed_open (sealed_public sk) sk (tampered j c) = None.

Definition sealed_drawn_unforged (g : nat -> byte) (p : nat) : Prop :=
  each_round (fun i => 32 + Z.to_nat i + 32)%nat p 32 (fun p i =>
    sealed_unforged (draw g p 32) (draw g (p + 32) i) (draw g (p + 32 + Z.to_nat i) 32)).

Lemma sealedbox_tamper_pass w (g := e_entropy (w_env w)) :
  sealed_drawn_unforged g (e_pos (w_env w)) ->
  does w (test_seal_open_tamper (S := sealedbox_sealer) sealedbox_before ret 32) (fun _ _ => True).
Proof.
  intros Hu. apply (draw_rounds g (fun i => 32 + Z.to_nat i + 32)%nat (e_pos (w_env w))); [|done].
  intros i Hi w1 Hs1. change (Z.of_nat 32) with 32 in Hi. pose proof isize_max_bounds.
  specialize (Hu i Hi). cbv beta in Hu. set (p := round_pos _ _ _) in *. clearbody g p. set (sk := draw g p 32) in *. set (mb := draw g (p + 32) i) in *.
  set (e := draw g (p + 32 + Z.to_nat i) 32) in *. assert (Hmb : zlen mb = i) by (apply draw_zlen; lia).
  assert (Hsk : zlen sk = 32) by (by apply draw_zlen).
  eapply (draw_gen_pair _ g p); [exact Hs1|]. intros a b w2 _ _ Hab Hw2. fold sk in Hw2.
  eapply (draw_random _ g); [exact Hw2|lia|]. intros q w3 Hq Hw3. fold mb in Hw3. fresh_facts.
  apply local_ret. cbn [sl_seal sl_open sealedbox_sealer fst snd]. sl.
  rewrite <- sealed_public_key in Hw3. set (m := <[q := mb]> _) in Hw3.
  destruct (sealed_key_accepted e sk mb) as [cb Hcb]. pose proof (sealed_box_zlen _ _ _ _ Hcb) as Hcl.
  assert (Hpk : zlen (sealed_public sk) = 32) by (rewrite sealed_public_key; apply box_public_zlen).
  assert (Hrefs : forall m' w', holds w' m' -> m' !! a = Some (sealed_public sk) -> m' !! b = Some sk ->
    is_ref w' (At a 0) 32 (sealed_public sk) /\ is_ref w' (At b 0) 32 sk).
  { intros m' w' Hw' Ha' Hb'. rewrite <- Hpk at 1. rewrite <- Hsk at 1. split; by eapply holds_ref. }
  destruct (Hrefs m w3 (sits_holds _ _ _ _ Hw3)) as [Hra Hrb]; [unfold m; local_tac|unfold m; local_tac|].
  eapply local_run.
  { rewrite (sealedbox_seal_run w3 _ _ mb (sealed_public sk)); [reflexivity| |lia|exact Hra].
    eapply holds_slice; [by eapply sits_holds|unfold m; local_tac|by symmetry|lia]. }
  rewrite (sits_entropy g _ m w3 32 Hw3). fold e. rewrite Hcb, Hmb. cbn [default].
  pose proof (fresh_in g _ m w3 Hw3) as Hc. set (c := fresh_block w3) in *. set (w4 := w_put _ _ _).
  assert (Hw4 : sits g (p + 32 + Z.to_nat i + 32) (<[c := cb]> m) w4).
  { destruct Hw3 as (He & Hp & Hw3). split_and!; [exact He|unfold w4; cbn; by rewrite Hp|by eapply holds_insert]. }
  sl. apply local_last. eapply draw_tampered; [exact Hw4|apply lookup_insert_eq|lia| |].
  - intros j w5 Hj Hw5. rewrite insert_insert_eq in Hw5 |- *. unfold m in Hc. fresh_facts.
    destruct (Hrefs _ w5 (sits_holds _ _ _ _ Hw5)) as [Ra Rb]; [unfold m; local_tac|unfold m; local_tac|].
    eapply local_run; [rewrite (sealedbox_open_run w5 _ _ _ (tampered j cb) (sealed_public sk) sk); [|..]|].
    + rewrite (Hu cb j Hcb Hj), flipped_zlen, Hcl, decide_False by (pose proof (zlen_nonneg mb); lia). reflexivity.
    + eapply holds_slice; [by eapply sits_holds|apply lookup_insert_eq|rewrite flipped_zlen; lia|lia].
    + exact Ra.
    + exact Rb.
    + apply does_ret. by eapply sits_still.
  - intros w5 Hw5. apply does_ret. apply sits_generator in Hw5. by rewrite !Nat.add_assoc.
Qed.

End Sealedbox.

(** ** The tests *)

(** The condition on what the 32 rounds of a test draw, the first of which
    starts at [p]: [key g p] is the key that comes of the [took] bytes from
    position [p] on; the message and the nonce follow. *)
Definition drawn_unforged (C : cipher) (key : (nat -> byte) -> nat -> bytes) (took : nat) (g : nat -> byte) (p : nat) : Prop :=
  each_round (fun i => took + Z.to_nat i + 24)%nat p 32 (fun p i =>
    let nb := draw g (p + took + Z.to_nat i) 24 in
    unforged x20 C (key g p) nb (c_enc C (key g p) nb (draw g (p + took) i))).

(** The same for the one key and the one nonce of the test of "hello world" *)
Definition hello_unforged (C : cipher) (key : (nat -> byte) -> nat -> bytes) (took : nat) (g : nat -> byte) (p : nat) : Prop :=
  let nb := draw g (p + took) 24 in unforged x01 C (key g p) nb (c_enc C (key g p) nb hello_world).

Section EasyPass.
Context `{T : Target} `{R : RandombytesExterns} {RD : RandombytesDoc R} {S : Sealer} {D : DetachedSealer S}.
Context {A : easy_module S D} (J : rejecting A) {K : Type} {before : Z -> M K} {after : K -> M sl_ctx}.
Context (P : drawing A before after).

Lemma easy_tamper_pass w (g := e_entropy (w_env w)) (C := ea_cipher S D A)
    (key := pr_key A before after P) (took := Z.to_nat (pr_take A before after P)) :
  drawn_unforged C key took g (e_pos (w_env w)) ->
  does w (test_seal_open_tamper before after 32) (fun _ _ => True) /\
  does w (test_seal_open_both_tamper before after 32) (fun _ _ => True) /\
  does w (test_seal_open_detached_tamper before after 32) (fun _ _ => True).
Proof.
  intros Hu. split_and!.
  - by eapply (seal_tamper_passes J before after P); [apply open_rejects|done|done|].
  - by eapply (seal_tamper_passes J before after P); [apply open_both_rejects|done|done|].
  - by eapply (detached_tamper_passes J before after P); [done|done|].
Qed.

Lemma easy_failure_pass w (g := e_entropy (w_env w)) (C := ea_cipher S D A)
    (key := pr_key A before after P) (took := Z.to_nat (pr_take A before after P)) :
  hello_unforged C key took g (e_pos (w_env w)) ->
  does w (test_open_detached_failure_does_not_modify before after) (fun _ _ => True).
Proof.
  intros Hu. apply (failure_passes J before after P g (e_pos (w_env w))); [|exact Hu].
  split_and!; [done|done|apply holds_empty].
Qed.

End EasyPass.

Definition secretbox_test_seal_open_tamper `{Target} `{RandombytesExterns} `{SecretboxExterns} : M unit :=
  test_seal_open_both_tamper (S := secretbox_sealer) secretbox_before secretbox_after 32.
Definition secretbox_test_seal_open_detached_tamper `{Target} `{RandombytesExterns} `{SecretboxExterns} : M unit :=
  test_seal_open_detached_tamper (S := secretbox_sealer) secretbox_before secretbox_after 32.
Definition secretbox_test_open_detached_failure_does_not_modify `{Target} `{RandombytesExterns} `{SecretboxExterns} : M unit :=
  test_open_detached_failure_does_not_modify (S := secretbox_sealer) secretbox_before secretbox_after.

Section BoxTests.
Context `{T : Target} `{R : RandombytesExterns} `{E : BoxExterns} `{SE : SealedboxExterns}.

Definition box_test_seal_open_tamper : M unit :=
  test_seal_open_tamper (S := box_sealer) box_before box_after 32.
Definition box_test_seal_open_precomputed_tamper : M unit :=
  test_seal_open_tamper (S := precomputed_sealer) (box_precompute_before false) box_precompute_after 32.
Definition box_test_seal_open_seed_tamper : M unit :=
  test_seal_open_tamper (S := box_sealer) box_seeded_before box_after 32.
Definition box_test_seal_open_detached_tamper : M unit :=
  test_seal_open_detached_tamper (S := box_sealer) box_before box_after 32.
Definition box_test_open_detached_failure_does_not_modify : M unit :=
  test_open_detached_failure_does_not_modify (S := box_sealer) box_before box_after.
Definition box_test_seal_open_detached_precomputed_tamper : M unit :=
  test_seal_open_detached_tamper (S := precomputed_sealer) (box_precompute_before false) box_precompute_after 32.
Definition box_test_open_detached_precomputed_failure_does_not_modify : M unit :=
  test_open_detached_failure_does_not_modify (S := precomputed_sealer) (box_precompute_before false) box_precompute_after.
Definition sealedbox_test_seal_open_tamper : M unit :=
  test_seal_open_tamper (S := sealedbox_sealer) sealedbox_before ret 32.

End BoxTests.

(** ** The theorems *)

(** C10. The tests of secretbox that modify a ciphertext or a tag pass whenever
    none of the ciphertexts they make keeps its tag when one of its bytes is
    changed as the test changes it: each modification is rejected in both modes,
    nothing is decrypted, and the byte is restored for the next one.  The
    condition is on the 32 keys, messages and nonces that the rounds draw from
    where the generator is, and on the one key and nonce of the last test. *)
Theorem secretbox_rejects_tampered `{T : Target} `{R : RandombytesExterns} {RD : RandombytesDoc R}
    `{E : SecretboxExterns} {D : SecretboxDoc E} w
    (Hu : drawn_unforged secretbox_cipher (fun g p => draw g p 32) 32 (e_entropy (w_env w)) (e_pos (w_env w)))
    (Hh : hello_unforged secretbox_cipher (fun g p => draw g p 32) 32 (e_entropy (w_env w)) (e_pos (w_env w))) :
  does w secretbox_test_seal_open_tamper (fun _ _ => True) /\
  does w secretbox_test_seal_open_detached_tamper (fun _ _ => True) /\
  does w secretbox_test_open_detached_failure_does_not_modify (fun _ _ => True).
Proof.
  destruct (easy_tamper_pass secretbox_rejecting secretbox_drawing w Hu) as (_ & H1 & H2).
  split_and!; [exact H1|exact H2|]. exact (easy_failure_pass secretbox_rejecting secretbox_drawing w Hh).
Qed.

(** The same for box_, with the keys, with keys from a seed and with
    precomputed keys, and for sealed boxes. *)
Theorem box_rejects_tampered `{T : Target} `{R : RandombytesExterns} {RD : RandombytesDoc R}
    `{E : BoxExterns} {D : BoxDoc E} {KP : KeyPairs E D}
    `{SE : SealedboxExterns} {SD : SealedboxDoc SE} {SK : SealedKeyPairs E D SE SD} w (g := e_entropy (w_env w)) (p := e_pos (w_env w))
    (Hu : drawn_unforged box_cipher (fun g p => two_keys (draw g p 32) (draw g (p + 32) 32)) 64 g p)
    (Hs : drawn_unforged box_cipher (fun g p => two_keys (box_seeded (draw g p 32)) (draw g (p + 32) 32)) 64 g p)
    (Hh : hello_unforged box_cipher (fun g p => two_keys (draw g p 32) (draw g (p + 32) 32)) 64 g p)
    (Hsealed : sealed_drawn_unforged g p) :
  let pass t := does w t (fun _ _ => True) in
  pass box_test_seal_open_tamper /\ pass box_test_seal_open_precomputed_tamper /\
  pass box_test_seal_open_seed_tamper /\ pass box_test_seal_open_detached_tamper /\
  pass box_test_open_detached_failure_does_not_modify /\ pass box_test_seal_open_detached_precomputed_tamper /\
  pass box_test_open_detached_precomputed_failure_does_not_modify /\ pass sealedbox_test_seal_open_tamper.
Proof.
  destruct (easy_tamper_pass box_rejecting box_drawing w Hu) as (H1 & _ & H2).
  destruct (easy_tamper_pass box_rejecting box_seeded_drawing w Hs) as (H3 & _ & _).
  destruct (easy_tamper_pass precomputed_rejecting precomputed_drawing w Hu) as (H4 & _ & H5).
  split_and!; [exact H1|exact H4|exact H3|exact H2| |exact H5| |].
  - exact (easy_failure_pass box_rejecting box_drawing w Hh).
  - exact (easy_failure_pass precomputed_rejecting precomputed_drawing w Hh).
  - exact (sealedbox_tamper_pass w Hsealed).
Qed.

(** C11. The five tests the AEAD macro generates pass in each of its modules,
    whether or not the gate of the module lets them run.  The three that open
    what they sealed pass in every world.  The two that modify a ciphertext, a
    tag or additional data pass when nothing they open has the tag: in the
    combined mode that is a ciphertext or additional data of their 32 rounds
    with one byte changed; in the detached mode it is also what the failed calls
    leave in the buffer, as only the first round of the inner loop changes a
    byte of the ciphertext itself. *)
Theorem aead_tests_pass `{T : Target} `{R : RandombytesExterns} {RD : RandombytesDoc R}
    (A : aead_module) {D : AeadDoc A} (test_gate : M bool) (Hk : 0 <= keybytes A) (Hn : 0 <= noncebytes A)
    (Hgate : forall w, does w test_gate (fun _ w' => generator_at (e_entropy (w_env w)) (e_pos (w_env w)) w')) :
  passes (aead_test_seal_open A test_gate) /\ passes (aead_test_seal_open_detached A test_gate) /\
  passes (aead_test_seal_open_detached_same A test_gate) /\
  (forall w, aead_drawn_ok A (aead_unforged A) w ->
     does w (aead_test_seal_open_tamper A test_gate) (fun _ _ => True)) /\
  (forall w, aead_drawn_ok A (aead_detached_unforged A) w ->
     does w (aead_test_seal_open_detached_tamper A test_gate) (fun _ _ => True)).
Proof.
  destruct (aead_sealing_tests_pass A test_gate Hk Hn) as (H1 & H2 & H3).
  { intros w. eapply does_mono; [apply Hgate|done]. }
  split_and!; [exact H1|exact H2|exact H3|..]; intros w Hok.
  - by apply (aead_tamper_pass A test_gate).
  - by apply (aead_detached_tamper_pass A test_gate).
Qed.

(** ** Witnesses: a generator that yields zeroes *)

Definition zero_world : world := World ∅ (Env (fun _ => x00) 0 false [] []).

Lemma draw_zero p n : draw (fun _ => x00) p n = zeros n.
Proof.
  unfold draw, zeros. generalize (Z.to_nat n). intros k. revert p.
  induction k as [|k IH]; intros p; [done|]. cbn [seq fmap list_fmap replicate]. f_equal. apply IH.
Qed.

Definition unforgedb (mask : byte) (C : cipher) (kb nb ct : bytes) : bool :=
  let t := c_mac C kb nb [] ct in
  forallb (fun j => negb (bool_decide (c_mac C kb nb [] (flipped mask j ct) = t))) (seq 0 (length ct)).

Lemma unforgedb_spec mask C kb nb ct : unforgedb mask C kb nb ct = true -> unforged mask C kb nb ct.
Proof.
  unfold unforgedb. rewrite forallb_forall. intros Hf j Hj.
  specialize (Hf j ltac:(apply in_seq; lia)). by apply negb_true_iff, bool_decide_eq_false in Hf.
Qed.

(** With one key, one nonce and messages of zeroes only *)
Definition zero_unforged (C : cipher) (kb : bytes) : bool :=
  forallb (fun i => unforgedb x20 C kb (zeros 24) (c_enc C kb (zeros 24) (replicate i x00))) (seq 0 32).
Definition zero_hello (C : cipher) (kb : bytes) : bool :=
  unforgedb x01 C kb (zeros 24) (c_enc C kb (zeros 24) hello_world).

Lemma zero_drawn C key took kb :
  (forall p, key (fun _ => x00) p = kb) -> zero_unforged C kb = true -> drawn_unforged C key took (fun _ => x00) 0.
Proof.
  unfold zero_unforged. rewrite forallb_forall. intros Hk Hu i Hi. cbv beta zeta. rewrite Hk, !draw_zero.
  apply unforgedb_spec. unfold zeros at 3. apply Hu, in_seq. lia.
Qed.

Lemma zero_hello_drawn C key took kb :
  (forall p, key (fun _ => x00) p = kb) -> zero_hello C kb = true -> hello_unforged C key took (fun _ => x00) 0.
Proof. intros Hk Hu. unfold hello_unforged. cbv zeta. rewrite Hk, draw_zero. by apply unforgedb_spec. Qed.

Lemma secretbox_rejects_tampered_witness :
  does zero_world (@secretbox_test_seal_open_tamper target64 Ref.randombytes RefSecretbox.externs) (fun _ _ => True) /\
  does zero_world (@secretbox_test_seal_open_detached_tamper target64 Ref.randombytes RefSecretbox.externs) (fun _ _ => True) /\
  does zero_world (@secretbox_test_open_detached_failure_does_not_modify target64 Ref.randombytes RefSecretbox.externs)
    (fun _ _ => True).
Proof.
  apply (@secretbox_rejects_tampered target64 Ref.randombytes Ref.randombytes_doc RefSecretbox.externs RefSecretbox.doc).
  - apply (zero_drawn _ _ _ (zeros 32)); [intros p; apply draw_zero|]. vm_compute. reflexivity.
  - apply (zero_hello_drawn _ _ _ (zeros 32)); [intros p; apply draw_zero|]. vm_compute. reflexivity.
Defined.

Definition all_rejected (seal unseal : bytes -> option bytes) : bool :=
  forallb (fun i =>
    match seal (replicate i x00) with
    | Some c => forallb (fun j => match unseal (tampered j c) with None => true | Some _ => false end) (seq 0 (length c))
    | None => true
    end) (seq 0 32).

Lemma all_rejected_spec seal unseal i c j :
  all_rejected seal unseal = true -> 0 <= i < 32 -> seal (zeros i) = Some c -> (j < length c)%nat ->
  unseal (tampered j c) = None.
Proof.
  unfold all_rejected. rewrite forallb_forall. intros Hz Hi Hc Hj.
  specialize (Hz (Z.to_nat i) ltac:(apply in_seq; lia)). cbv beta in Hz. fold (zeros i) in Hz. rewrite Hc, forallb_forall in Hz.
  specialize (Hz j ltac:(apply in_seq; lia)). by destruct (unseal _).
Qed.

(** A sealed box that holds the ephemeral public key, a checksum of it and of the
    message, and the message *)
Module RefSealed.

Definition head (e : bytes) : bytes := le_bytes 32 (le_val e).
Definition tagged (h m : bytes) : bytes := h ++ le_bytes 16 (RefStreaming.sum (h ++ m)) ++ m.
Definition box (e m : bytes) : bytes := tagged (head e) m.
Definition unbox (c : bytes) : option bytes :=
  if decide (48 <= zlen c /\ c = tagged (take 32 c) (drop 48 c)) then Some (drop 48 c) else None.

Definition externs : SealedboxExterns := {|
  crypto_box_seal c m mlen pk :=
    let* _ := restrict c (mlen + 48) m mlen in
    let* mb := read m mlen in
    let* pkb := read pk 32 in
    let* e := rand 32 in
    let* _ := write c (box e mb) in ret 0;
  crypto_box_seal_open m c clen pk sk :=
    let* _ := restrict m (clen - 48) c clen in
    let* cb := read c clen in
    let* pkb := read pk 32 in
    let* skb := read sk 32 in
    match unbox cb with Some mb => let* _ := write m mb in ret 0 | None => ret (-1) end
|}.

Lemma box_zlen e m : zlen (box e m) = zlen m + 48.
Proof. unfold box, tagged, head. autorewrite with zlen. lia. Qed.

Lemma box_take e m : take 32 (box e m) = head e.
Proof. unfold box, tagged, head. apply take_app_length'. by rewrite length_le_bytes. Qed.

Lemma box_drop e m : drop 48 (box e m) = m.
Proof.
  unfold box, tagged. rewrite app_assoc. apply drop_app_length'.
  rewrite length_app, length_le_bytes. unfold head. by rewrite length_le_bytes.
Qed.

#[refine] Definition doc : SealedboxDoc externs := {|
  sealed_public := RefBox.pub; sealed_ephemeral := head; sealed_box e _ m := Some (box e m); sealed_open _ _ := unbox
|}.
Proof.
  - intros e. apply zlen_le_bytes.
  - intros e _ m c Hc. apply (inj Some) in Hc as <-. apply box_zlen.
  - intros e _ m c Hc. apply (inj Some) in Hc as <-. apply box_take.
  - intros _ _ c m. unfold unbox. case_decide as Hd; intros [= <-]. rewrite (zlen_drop 48) by lia. lia.
  - intros e _ m c Hc. apply (inj Some) in Hc as <-. unfold unbox.
    rewrite box_take, box_drop, box_zlen, decide_True; [done|]. split; [|done]. pose proof (zlen_nonneg m). lia.
  - reflexivity.
  - reflexivity.
Defined.

Lemma pairs : SealedKeyPairs RefBox.externs RefBox.doc externs doc.
Proof. split; [done|]. intros e sk m. by eexists. Qed.

Lemma rejected : all_rejected (fun m => Some (box (zeros 32) m)) unbox = true.
Proof. vm_compute. reflexivity. Qed.

Lemma drawn_unforged p i (g := fun _ : nat => x00) :
  0 <= i < 32 ->
  sealed_unforged (SD := doc) (draw g p 32) (draw g (p + 32) i) (draw g (p + 32 + Z.to_nat i) 32).
Proof.
  unfold g. rewrite !draw_zero. intros Hi c j Hc Hj. exact (all_rejected_spec _ _ i c j rejected Hi Hc Hj).
Qed.

End RefSealed.

Lemma box_rejects_tampered_witness :
  let pass t := does zero_world t (fun _ _ => True) in
  let r := Ref.randombytes in
  let B := RefBox.externs in
  pass (@box_test_seal_open_tamper target64 r B) /\ pass (@box_test_seal_open_precomputed_tamper target64 r B) /\
  pass (@box_test_seal_open_seed_tamper target64 r B) /\ pass (@box_test_seal_open_detached_tamper target64 r B) /\
  pass (@box_test_open_detached_failure_does_not_modify target64 r B) /\
  pass (@box_test_seal_open_detached_precomputed_tamper target64 r B) /\
  pass (@box_test_open_detached_precomputed_failure_does_not_modify target64 r B) /\
  pass (@sealedbox_test_seal_open_tamper target64 r B RefSealed.externs).
Proof.
  set (k1 := two_keys (D := RefBox.doc) (zeros 32) (zeros 32)).
  set (k2 := two_keys (D := RefBox.doc) (RefBox.fit (zeros 32)) (zeros 32)).
  apply (@box_rejects_tampered target64 Ref.randombytes Ref.randombytes_doc RefBox.externs RefBox.doc
    RefPairs.pairs RefSealed.externs RefSealed.doc RefSealed.pairs).
  - apply (zero_drawn _ _ _ k1); [intros p; by rewrite !draw_zero|]. vm_compute. reflexivity.
  - apply (zero_drawn _ _ _ k2); [intros p; by rewrite !draw_zero|]. vm_compute. reflexivity.
  - apply (zero_hello_drawn _ _ _ k1); [intros p; by rewrite !draw_zero|]. vm_compute. reflexivity.
  - intros i Hi. by apply RefSealed.drawn_unforged.
Defined.

(** *** The AEAD modules *)

Definition aead_unforgedb (C : cipher) (kb nb ad ct : bytes) : bool :=
  let t := c_mac C kb nb ad ct in
  forallb (fun j => negb (bool_decide (c_mac C kb nb ad (tampered j ct) = t))) (seq 0 (length ct)) &&
  forallb (fun j => negb (bool_decide (c_mac C kb nb (tampered j ad) ct = t))) (seq 0 (length ad)).

Definition aead_detached_unforgedb `{D : AeadDoc A} (C : cipher) (kb nb ad ct : bytes) : bool :=
  let t := c_mac C kb nb ad ct in
  let n := length ct in
  forallb (fun j => negb (bool_decide (c_mac C kb nb ad (tampered j (spoiled A j 0 ct)) = t))) (seq 0 n) &&
  forallb (fun j => negb (bool_decide (c_mac C kb nb (tampered j ad) (spoiled A n j ct) = t))) (seq 0 (length ad)) &&
  forallb (fun j => negb (bool_decide (c_mac C kb nb ad (spoiled A n (length ad + j) ct) = tampered j t))) (seq 0 (length t)).

Lemma forallb_apart {X} `{EqDecision X} (f g : nat -> X) n :
  forallb (fun j => negb (bool_decide (f j = g j))) (seq 0 n) = true -> forall j, (j < n)%nat -> f j <> g j.
Proof.
  rewrite forallb_forall. intros Hf j Hj. specialize (Hf j ltac:(apply in_seq; lia)).
  by apply negb_true_iff, bool_decide_eq_false in Hf.
Qed.

Lemma aead_unforgedb_spec `{D : AeadDoc A} kb nb ad ct :
  aead_unforgedb aead_cipher kb nb ad ct = true -> aead_unforged A kb nb ad ct.
Proof.
  intros [H1 H2]%andb_true_iff.
  split; [exact (forallb_apart _ _ _ H1)|exact (forallb_apart _ _ _ H2)].
Qed.

Lemma aead_detached_unforgedb_spec `{D : AeadDoc A} kb nb ad ct :
  aead_detached_unforgedb (D := D) aead_cipher kb nb ad ct = true -> aead_detached_unforged A kb nb ad ct.
Proof.
  intros [[H1 H2]%andb_true_iff H3]%andb_true_iff.
  split_and!; [exact (forallb_apart _ _ _ H1)|exact (forallb_apart _ _ _ H2)|exact (forallb_apart _ _ _ H3)].
Qed.

Lemma zero_aead `{D : AeadDoc A} (ok : bytes -> bytes -> bytes -> bytes -> Prop) okb :
  (forall kb nb ad ct, okb kb nb ad ct = true -> ok kb nb ad ct) ->
  (let kb := zeros (keybytes A) in
   let nb := zeros (noncebytes A) in
   forallb (fun i => okb kb nb (replicate i x00) (c_enc aead_cipher kb nb (replicate i x00))) (seq 0 32) = true) ->
  aead_drawn_ok A ok zero_world.
Proof.
  cbv zeta. rewrite forallb_forall. intros Hok Hb i Hi. cbv beta zeta. cbn [zero_world w_env e_entropy]. rewrite !draw_zero. apply Hok.
  specialize (Hb (Z.to_nat i) ltac:(apply in_seq; lia)). exact Hb.
Qed.

Lemma aead_tests_pass_witness :
  let A := RefAead.A in
  let r := Ref.randombytes in
  passes (@aead_test_seal_open target64 r A (ret true)) /\
  passes (@aead_test_seal_open_detached target64 r A (ret true)) /\
  passes (@aead_test_seal_open_detached_same target64 r A (ret true)) /\
  does zero_world (@aead_test_seal_open_tamper target64 r A (ret true)) (fun _ _ => True) /\
  does zero_world (@aead_test_seal_open_detached_tamper target64 r A (ret true)) (fun _ _ => True).
Proof.
  destruct (@aead_tests_pass target64 Ref.randombytes Ref.randombytes_doc _ RefAead.doc (ret true)) as (H1 & H2 & H3 & H4 & H5).
  - by vm_compute.
  - by vm_compute.
  - intros w. by exists true, w.
  - split_and!; [exact H1|exact H2|exact H3|apply H4|apply H5].
    + apply (zero_aead (D := RefAead.doc) _ (aead_unforgedb (@aead_cipher _ RefAead.doc))); [apply aead_unforgedb_spec|].
      vm_compute. reflexivity.
    + apply (zero_aead (D := RefAead.doc) _
        (aead_detached_unforgedb (D := RefAead.doc) (@aead_cipher _ RefAead.doc))); [apply aead_detached_unforgedb_spec|].
      vm_compute. reflexivity.
Defined.
