(* ===== verification/TagTamper.v ===== *)
(** * The tests that modify messages, tags, signatures and passwords

    The tests of auth_macros.rs, sign/ed25519.rs and of the pwhash modules that
    flip a bit of each byte and expect that verification fails. *)

From S2P Require Export MacroTests SignTests KeyTests PwhashTests Standards SysTests Tamper.

(** ** auth_macros.rs *)

Section Auth.
Context `{T : Target} `{R : RandombytesExterns} (A : auth_module).

(** [assert!(!verify(&Tag(tagbuf), &m, &k))]: the tag is a copy. *)
Definition assert_not_verified (tagbuf : ptr) (m : slice) (k : ptr) : M unit :=
  let* tb := slice_bytes (Slice tagbuf (auth.TAGBYTES A)) in
  let* tag := place tb in
  let* r := auth.verify A (At tag 0) m k in
  assert (negb r).

Definition test_auth_verify_tamper : M unit :=
  for_range 0 32 (fun i =>
    let* k := local (auth.gen_key A) in
    let* m := randombytes i in
    let* tagbuf := local (auth.authenticate A (v_slice m) k) in
    let* _ := for_tampered (v_slice m) (assert_not_verified tagbuf (v_slice m) k) in
    for_tampered (Slice tagbuf (auth.TAGBYTES A)) (assert_not_verified tagbuf (v_slice m) k)).

Context {RD : RandombytesDoc R} {D : AuthDoc A}.

(** No change of one byte of the message leaves its tag. *)
Definition auth_unforged (kb mb : bytes) : Prop :=
  forall j, (j < length mb)%nat -> auth_mac kb (tampered j mb) <> auth_mac kb mb.

Lemma not_verified_does g p m w t b k tb mb kb n :
  sits g p m w -> m !! t = Some tb -> m !! b = Some mb -> m !! k = Some kb ->
  zlen tb = auth_tagbytes A -> zlen kb = auth_keybytes A -> n = zlen mb -> n <= isize_max -> tb <> auth_mac kb mb ->
  does w (assert_not_verified (At t 0) (Slice (At b 0) n) (At k 0)) (fun _ w' => sits g p m w').
Proof.
  intros Hw Ht Hb Hk Htl Hkl -> Hn Hne. unfold assert_not_verified, auth.TAGBYTES. rewrite <- Htl.
  eapply local_read; [by eapply sits_holds|exact Ht|done|]. eapply draw_place; [exact Hw|]. intros c w1 Hc Hw1.
  eapply local_run.
  - apply (verify_run w1 (At c 0) _ (At k 0) tb mb kb).
    + rewrite <- Htl. eapply holds_ref; [by eapply sits_holds|apply lookup_insert_eq].
    + eapply holds_slice; [by eapply sits_holds| |done|done]. rewrite lookup_insert_ne by congruence. exact Hb.
    + rewrite <- Hkl. eapply holds_ref; [by eapply sits_holds|]. rewrite lookup_insert_ne by congruence. exact Hk.
  - rewrite bool_decide_false by done. apply does_ret. eapply sits_mono; [|exact Hw1]. by apply insert_subseteq.
Qed.

(** The keys and messages the 32 rounds draw from position [p] on *)
Definition auth_drawn_unforged (g : nat -> byte) (p : nat) : Prop :=
  each_round (fun i => Z.to_nat (auth_keybytes A) + Z.to_nat i)%nat p 32 (fun p i =>
    auth_unforged (draw g p (auth_keybytes A)) (draw g (p + Z.to_nat (auth_keybytes A)) i)).

Lemma auth_tamper_pass w :
  0 <= auth_keybytes A -> auth_drawn_unforged (e_entropy (w_env w)) (e_pos (w_env w)) ->
  does w test_auth_verify_tamper (fun _ _ => True).
Proof.
  intros Hkb Hu. unfold auth_drawn_unforged in Hu. set (g := e_entropy (w_env w)) in *.
  apply (draw_rounds g (fun i => Z.to_nat (auth_keybytes A) + Z.to_nat i)%nat (e_pos (w_env w))); [|done].
  intros i Hi w1 Hw1. change (Z.of_nat 32) with 32 in Hi.
  pose proof isize_max_bounds. specialize (Hu i Hi). cbv beta in Hu. set (p := round_pos _ _ _) in *. clearbody g p.
  eapply (draw_gen _ g); [exact Hw1|by apply (draw_key_run (auth_keybytes A))|]. intros k w2 _ Hw2.
  rewrite (sits_entropy g p ∅ w1) in Hw2 by done. set (kb := draw g p (auth_keybytes A)) in *.
  eapply (draw_random _ g); [exact Hw2|lia|]. intros b w3 Hb Hw3. set (mb := draw g _ i) in *.
  assert (Hmb : zlen mb = i) by (apply draw_zlen; lia). assert (Hkl : zlen kb = auth_keybytes A) by (by apply draw_zlen).
  pose proof (auth_mac_zlen kb mb) as Hl. set (t := auth_mac kb mb) in *. fresh_facts. sl.
  apply local_assoc. eapply local_run.
  { apply (authenticate_run w3 _ _ mb kb).
    - eapply holds_slice; [by eapply sits_holds|local_tac|by symmetry|lia].
    - rewrite <- Hkl. eapply holds_ref; [by eapply sits_holds|local_tac]. }
  fold t. apply local_assoc. eapply draw_place; [exact Hw3|]. intros tp w4 Htp Hw4. apply local_ret. fresh_facts. sl.
  eapply draw_tampered; [exact Hw4|local_tac|by symmetry| |].
  - intros j w5 Hj Hw5. eapply (not_verified_does g _ _ w5 tp b k t (tampered j mb) kb);
      [exact Hw5|local_tac|apply lookup_insert_eq|local_tac|done|done|by rewrite flipped_zlen|lia|].
    intros E. by apply (Hu j Hj).
  - intros w5 Hw5. apply local_last. unfold auth.TAGBYTES. rewrite <- Hl.
    eapply draw_tampered; [exact Hw5|apply lookup_insert_eq|done| |].
    + intros j w6 Hj Hw6. rewrite insert_insert_eq in Hw6 |- *.
      eapply (not_verified_does g _ _ w6 tp b k (tampered j t) mb kb);
        [exact Hw6|apply lookup_insert_eq|local_tac|local_tac|by rewrite flipped_zlen|done|by symmetry|lia|].
      apply flipped_ne; [by left|done].
    + intros w6 Hw6. apply does_ret. apply sits_generator in Hw6. by rewrite Nat.add_assoc.
Qed.

End Auth.

(** ** pwhash *)

Section Pwhash.
Context `{T : Target} `{U : UtilsExterns} `{R : RandombytesExterns}.

(** The loop, for the functions of a module *)
Definition verify_tamper_loop (hash : slice -> M (result bytes)) (verify : ptr -> slice -> M bool) : M unit :=
  for_range 0 16 (fun i =>
    let* pw := randombytes i in
    let* r := hash (v_slice pw) in
    let* hp := unwrap r in
    let* pwh := place hp in
    for_tampered (v_slice pw) (let* ok := verify (At pwh 0) (v_slice pw) in assert (negb ok))).

Definition test_pwhash_verify_tamper (A : argon2_module) : M unit :=
  verify_tamper_loop (fun s => argon2.pwhash A s (MkOpsLimit 16) (MkMemLimit 8192)) (argon2.pwhash_verify A).

Definition scrypt_test_pwhash_verify_tamper `{ScryptExterns} : M unit :=
  verify_tamper_loop (fun s => scrypt.pwhash s scrypt.OPSLIMIT_INTERACTIVE scrypt.MEMLIMIT_INTERACTIVE) scrypt.pwhash_verify.

Context {RD : RandombytesDoc R}.

Section Loop.
Context (A : argon2_module) {D : PwhashDoc (argon2_functions A)} (ops mem : Z).

(** Whether a hash of the password can be computed, and only that password
    verifies, of those that differ in one byte; [w]: the memory there is *)
Definition password_unforged (pb salt : bytes) : Prop :=
  forall e, pw_completes e (pw_hashedpasswordbytes A) (zlen pb) ops mem = true /\
    forall j, (j < length pb)%nat -> pw_check e (pw_str pb salt ops mem) (tampered j pb) = false.

(** The passwords and salts the 16 rounds draw from position [p] on *)
Definition passwords_drawn_unforged (g : nat -> byte) (p : nat) : Prop :=
  each_round (fun i => Z.to_nat i + Z.to_nat (pw_saltbytes A))%nat p 16 (fun p i =>
    password_unforged (draw g p i) (draw g (p + Z.to_nat i) (pw_saltbytes A))).

Lemma verify_tamper_pass hash verify o m w :
  (forall s w, hash s w = argon2.pwhash A s o m w) -> (forall p s w, verify p s w = argon2.pwhash_verify A p s w) ->
  opslimit o = ops -> memlimit m = mem ->
  passwords_drawn_unforged (e_entropy (w_env w)) (e_pos (w_env w)) ->
  does w (verify_tamper_loop hash verify) (fun _ _ => True).
Proof.
  intros Eh Ev Ho Hm Hu. unfold passwords_drawn_unforged in Hu. set (g := e_entropy (w_env w)) in *.
  apply (draw_rounds g (fun i => Z.to_nat i + Z.to_nat (pw_saltbytes A))%nat (e_pos (w_env w))); [|done].
  intros i Hi w1 Hw1. change (Z.of_nat 16) with 16 in Hi.
  pose proof isize_max_bounds. specialize (Hu i Hi). cbv beta in Hu. set (p := round_pos _ _ _) in *. clearbody g p.
  eapply (draw_random _ g); [exact Hw1|lia|]. intros b w2 Hb Hw2. set (pb := draw g p i) in *.
  assert (Hpb : zlen pb = i) by (apply draw_zlen; lia). sl.
  assert (Hs : is_slice w2 (Slice (At b 0) i) pb) by (eapply holds_slice; [by eapply sits_holds|local_tac|by symmetry|lia]).
  pose proof (pwhash_run w2 _ o m pb Hs) as Hrun. rewrite Ho, Hm, (proj1 (Hu _)) in Hrun.
  rewrite (sits_entropy g _ _ w2 (pw_saltbytes A) Hw2) in Hrun. set (salt := draw g _ (pw_saltbytes A)) in *.
  set (str := pw_str pb salt ops mem) in *. set (p' := (p + Z.to_nat i)%nat) in *.
  assert (Hw3 : sits g (p' + Z.to_nat (pw_saltbytes A)) (<[b := pb]> ∅) (w_consume (pw_saltbytes A) w2)).
  { destruct Hw2 as (He & Hp & Hw2). split_and!; [exact He|cbn; by rewrite Hp|exact Hw2]. }
  eapply local_run; [rewrite Eh; exact Hrun|]. eapply local_unwrap; [reflexivity|].
  eapply draw_place; [exact Hw3|]. intros h w4 Hh Hw4. fresh_facts.
  pose proof (pw_str_zlen (F := argon2_functions A) pb salt ops mem) as Hl.
  change (pf_strbytes (argon2_functions A)) with (pw_hashedpasswordbytes A) in Hl. fold str in Hl.
  apply local_last. eapply draw_tampered; [exact Hw4|local_tac|by symmetry| |].
  - intros j w5 Hj Hw5. eapply local_run.
    { rewrite Ev, (pwhash_verify_run w5 (At h 0) _ str (tampered j pb)).
      - unfold str. rewrite pw_str_terminated. fold str. unfold str. rewrite (proj2 (Hu _) j Hj). reflexivity.
      - rewrite <- Hl. eapply holds_ref; [by eapply sits_holds|local_tac].
      - eapply holds_slice; [by eapply sits_holds|apply lookup_insert_eq|by rewrite flipped_zlen|lia]. }
    by apply does_ret.
  - intros w5 Hw5. apply does_ret. apply sits_generator in Hw5. unfold p' in Hw5. by rewrite Nat.add_assoc.
Qed.

End Loop.
End Pwhash.

(** ** sign/ed25519.rs *)

Section Sign.
Context `{T : Target} `{E : SignExterns} `{Cr : Ed25519Crate} `{R : RandombytesExterns}.

Definition sign_then_tamper (i : Z) (pk sk : ptr) : M unit :=
  let* m := randombytes i in
  let* sm := sign.sign (v_slice m) sk in
  for_tampered (v_slice sm) (let* r := sign.verify (v_slice sm) pk in assert_err r).

Definition test_sign_verify_tamper : M unit :=
  for_range 0 32 (fun i => with_keypair sign.gen_keypair (sign_then_tamper i)).
Definition test_sign_verify_tamper_seed : M unit :=
  for_range 0 32 (fun i => with_seed (fun seed => with_keypair (sign.keypair_from_seed seed) (sign_then_tamper i))).

(** [assert!(!verify_detached(&Signature::new(sig), &m, &pk))] *)
Definition assert_refused (sig : ptr) (m : slice) (pk : ptr) : M unit :=
  let* sb := slice_bytes (Slice sig sign.SIGNATUREBYTES) in
  let* s := Signature_new sb in
  let* sp := place s in
  let* r := sign.verify_detached (At sp 0) m pk in
  assert (negb r).

Definition test_sign_verify_detached_tamper : M unit :=
  for_range 0 32 (fun i => with_keypair sign.gen_keypair (fun pk sk =>
    let* m := randombytes i in
    let* sig := local (sign.sign_detached (v_slice m) sk) in
    for_tampered (Slice sig sign.SIGNATUREBYTES) (assert_refused sig (v_slice m) pk))).

Context {D : SignDoc E} {CD : Ed25519CrateDoc Cr} {RD : RandombytesDoc R}.

(** No change of one byte of a signed message, or of its signature, can be
    verified. *)
Definition signed_unforged (sk mb : bytes) : Prop :=
  forall j (s := tampered j (ed_sign sk mb ++ mb)), (j < 64 + length mb)%nat ->
    ed_valid (ed_public sk) (drop 64 s) (take 64 s) = false.
Definition signature_unforged (sk mb : bytes) : Prop :=
  forall j, (j < 64)%nat -> ed_valid (ed_public sk) mb (tampered j (ed_sign sk mb)) = false.

(** The key pair in two locals *)
Lemma draw_keypair {B} (Q : B -> world -> Prop) g p p' m w w' s gen f :
  gen w = Done (ed_public (ed_seeded s), ed_seeded s) w' -> sits g p m w -> sits g p' m w' ->
  (forall pk sk w2, m !! pk = None -> m !! sk = None -> pk <> sk ->
     sits g p' (<[sk := ed_seeded s]> (<[pk := ed_public (ed_seeded s)]> m)) w2 -> does w2 (f (At pk 0) (At sk 0)) Q) ->
  does w (let* '(pkb, skb) := gen in let* pk := place pkb in let* sk := place skb in f (At pk 0) (At sk 0)) Q.
Proof.
  intros Hr Hw Hw' Hf. eapply local_run; [exact Hr|]. cbn beta iota.
  eapply draw_place; [exact Hw'|]. intros a w2 Ha Hw2. eapply draw_place; [exact Hw2|]. intros b w3 Hb Hw3.
  apply lookup_insert_None in Hb as [Hb Hab]. by apply Hf.
Qed.

Lemma draw_sign_keypair {B} (Q : B -> world -> Prop) g p m w f (key := ed_seeded (draw g p 32)) :
  sits g p m w ->
  (forall pk sk w2, m !! pk = None -> m !! sk = None -> pk <> sk ->
     sits g (p + 32) (<[sk := key]> (<[pk := ed_public key]> m)) w2 -> does w2 (f (At pk 0) (At sk 0)) Q) ->
  does w (let* '(pkb, skb) := sign.gen_keypair in let* pk := place pkb in let* sk := place skb in f (At pk 0) (At sk 0)) Q.
Proof.
  intros Hw Hf. eapply (draw_keypair Q g p (p + 32) m w (w_consume 32 w) (draw g p 32));
    [rewrite sign_gen_keypair_run; by rewrite (sits_entropy g p m w)|exact Hw| |exact Hf].
  destruct Hw as (<- & <- & Hw). by split_and!.
Qed.

(** The keys are there, and the generator is at [p]. *)
Definition has_keys (m : gmap positive bytes) (pk sk : positive) (key : bytes) : Prop :=
  m !! pk = Some (ed_public key) /\ m !! sk = Some key /\ zlen key = 64 /\ pk <> sk.

Lemma sign_then_tamper_does g p m w i pk sk key :
  sits g p m w -> 0 <= i <= 256 -> has_keys m pk sk key -> signed_unforged key (draw g p i) ->
  does w (sign_then_tamper i (At pk 0) (At sk 0)) (fun _ w' => generator_at g (p + Z.to_nat i) w').
Proof.
  intros Hw Hi (Hpk & Hsk & Hkl & Hne) Hu. pose proof isize_max_bounds. unfold sign_then_tamper.
  eapply (draw_random _ g); [exact Hw|lia|]. intros b w1 Hb Hw1. set (mb := draw g p i) in *. sl.
  assert (Hmb : zlen mb = i) by (apply draw_zlen; lia). pose proof (ed_sign_zlen key mb) as Hsl. pose proof (ed_public_zlen key) as Hpl.
  set (p' := (p + Z.to_nat i)%nat) in *. set (m1 := <[b := mb]> m) in *.
  assert (Hpk1 : m1 !! pk = Some (ed_public key)) by (unfold m1; rewrite lookup_insert_ne by congruence; done).
  assert (Hsk1 : m1 !! sk = Some key) by (unfold m1; rewrite lookup_insert_ne by congruence; done).
  eapply local_run.
  { apply (sign_run w1 _ _ mb key); [|lia|].
    - eapply holds_slice; [by eapply sits_holds|apply lookup_insert_eq|by symmetry|lia].
    - rewrite <- Hkl. eapply holds_ref; [by eapply sits_holds|exact Hsk1]. }
  rewrite Hmb. set (sm := ed_sign key mb ++ mb) in *. assert (Hc : m1 !! fresh_block w1 = None).
  { eapply holds_None; [by eapply sits_holds|apply fresh_block_spec]. }
  set (c := fresh_block w1) in *. set (w2 := w_put c _ w1). assert (Hw2 : sits g p' (<[c := sm]> m1) w2) by (apply sits_put; [done|by right]).
  assert (Hsm : zlen sm = i + 64) by (unfold sm; rewrite zlen_app; lia).
  sl. apply local_last. eapply draw_tampered; [exact Hw2|apply lookup_insert_eq|by symmetry| |intros w3 Hw3; apply does_ret; by apply sits_generator in Hw3].
  intros j w3 Hj Hw3. rewrite insert_insert_eq in Hw3 |- *.
  assert (Hv : ed_valid (ed_public key) (drop 64 (tampered j sm)) (take 64 (tampered j sm)) = false).
  { apply Hu. unfold sm in Hj. rewrite length_app in Hj. unfold zlen in *. lia. }
  eapply local_run.
  { rewrite (sign_verify_run w3 _ _ (tampered j sm) (ed_public key)).
    - rewrite Hv, andb_false_r. reflexivity.
    - eapply holds_slice; [by eapply sits_holds|apply lookup_insert_eq|by rewrite flipped_zlen|lia].
    - rewrite <- Hpl. eapply holds_ref; [by eapply sits_holds|]. by rewrite lookup_insert_ne by congruence. }
  apply does_ret. by eapply sits_still.
Qed.

(** The seeds and messages the 32 rounds draw from position [p] on *)
Definition sign_drawn (ok : bytes -> bytes -> Prop) (g : nat -> byte) (p : nat) : Prop :=
  each_round (fun i => 32 + Z.to_nat i)%nat p 32 (fun p i => ok (ed_seeded (draw g p 32)) (draw g (p + 32) i)).

Lemma sign_tamper_pass w :
  sign_drawn signed_unforged (e_entropy (w_env w)) (e_pos (w_env w)) ->
  does w test_sign_verify_tamper (fun _ _ => True) /\ does w test_sign_verify_tamper_seed (fun _ _ => True).
Proof.
  intros Hu. unfold sign_drawn in Hu. set (g := e_entropy (w_env w)) in *.
  split; (apply (draw_rounds g (fun i => 32 + Z.to_nat i)%nat (e_pos (w_env w))); [|done]); intros i Hi w1 Hw1;
    change (Z.of_nat 32) with 32 in Hi; specialize (Hu i Hi); cbv beta in Hu; set (p := round_pos _ _ _) in *; clearbody g p;
    replace (p + (32 + Z.to_nat i))%nat with (p + 32 + Z.to_nat i)%nat by lia;
    pose proof (ed_seeded_zlen (draw g p 32)) as Hkl; set (key := ed_seeded (draw g p 32)) in *.
  - eapply draw_sign_keypair; [exact Hw1|]. intros pk sk w2 _ _ Hne Hw2. fold key in Hw2.
    eapply sign_then_tamper_does; [exact Hw2|lia| |exact Hu]. split_and!; [local_tac|local_tac|done|done].
  - unfold with_seed. eapply (draw_place _ g); [exact Hw1|]. intros b w2 Hb Hw2.
    eapply (draw_fill _ g); [exact Hw2|apply lookup_insert_eq|done|]. intros w3 Hw3. rewrite insert_insert_eq in Hw3.
    eapply local_read; [by eapply sits_holds|apply lookup_insert_eq|by rewrite draw_zlen|].
    eapply (draw_place _ g); [exact Hw3|]. intros s w4 Hs Hw4. eapply draw_keypair; [|exact Hw4|exact Hw4|].
    { apply sign_keypair_from_seed_run. rewrite <- (draw_zlen g p 32) by done. eapply holds_ref; [by eapply sits_holds|apply lookup_insert_eq]. }
    intros pk sk w5 Hpk Hsk Hne Hw5. fold key in Hw5.
    eapply sign_then_tamper_does; [exact Hw5|lia| |exact Hu]. split_and!; [local_tac|local_tac|done|done].
Qed.

(** *** Detached signatures *)

Lemma detached_prepared g p m w i pk sk key Q
    (f : ptr -> vec -> M unit) (mb := draw g (p : nat) i) (sig := ed_sign key mb) :
  sits g p m w -> 0 <= i <= 256 -> has_keys m pk sk key ->
  (forall m1 b t w', m1 !! pk = Some (ed_public key) -> m1 !! b = Some mb -> m1 !! t = Some sig -> t <> pk -> t <> b ->
     sits g (p + Z.to_nat i) m1 w' -> does w' (f (At t 0) (Vec b i i)) Q) ->
  does w (let* m := randombytes i in let* sig := local (sign.sign_detached (v_slice m) (At sk 0)) in f sig m) Q.
Proof.
  intros Hw Hi (Hpk & Hsk & Hkl & Hne) Hf. pose proof isize_max_bounds.
  eapply (draw_random _ g); [exact Hw|lia|]. intros b w1 Hb Hw1. fold mb in Hw1. sl.
  assert (Hmb : zlen mb = i) by (apply draw_zlen; lia). set (m1 := <[b := mb]> m) in *.
  assert (Hpk1 : m1 !! pk = Some (ed_public key)) by (unfold m1; rewrite lookup_insert_ne by congruence; done).
  assert (Hsk1 : m1 !! sk = Some key) by (unfold m1; rewrite lookup_insert_ne by congruence; done).
  apply local_assoc. eapply local_run.
  { apply (sign_detached_run w1 _ _ mb key).
    - eapply holds_slice; [by eapply sits_holds|apply lookup_insert_eq|by symmetry|lia].
    - rewrite <- Hkl. eapply holds_ref; [by eapply sits_holds|exact Hsk1]. }
  apply local_assoc. eapply draw_place; [exact Hw1|]. intros t w2 Ht Hw2. apply local_ret. unfold m1 in Ht. fresh_facts.
  eapply (Hf _ b t); [|rewrite lookup_insert_ne by done; apply lookup_insert_eq|apply lookup_insert_eq|congruence|done|exact Hw2].
  by rewrite lookup_insert_ne by congruence.
Qed.

(** What is asserted of a signature the constructor accepts *)
Lemma refused_does g p m w t b pk sb mb pkb n :
  sits g p m w -> m !! t = Some sb -> m !! b = Some mb -> m !! pk = Some pkb -> zlen sb = 64 -> zlen pkb = 32 ->
  n = zlen mb -> n <= isize_max -> (forall w', Signature_new sb w' = Done sb w') -> ed_valid pkb mb sb = false ->
  does w (assert_refused (At t 0) (Slice (At b 0) n) (At pk 0)) (fun _ w' => sits g p m w').
Proof.
  intros Hw Ht Hb Hpk Hsl Hpl -> Hn Hnew Hv. unfold assert_refused. change sign.SIGNATUREBYTES with 64.
  eapply local_read; [by eapply sits_holds|exact Ht|by symmetry|]. eapply local_run; [apply Hnew|].
  eapply draw_place; [exact Hw|]. intros c w1 Hc Hw1. eapply local_run.
  - apply (verify_detached_run w1 _ _ _ sb mb pkb).
    + rewrite <- Hsl. eapply holds_ref; [by eapply sits_holds|apply lookup_insert_eq].
    + eapply holds_slice; [by eapply sits_holds|rewrite lookup_insert_ne by congruence; exact Hb|done|done].
    + rewrite <- Hpl. eapply holds_ref; [by eapply sits_holds|rewrite lookup_insert_ne by congruence; exact Hpk].
  - rewrite Hv. apply does_ret. eapply sits_mono; [|exact Hw1]. by apply insert_subseteq.
Qed.

(** A constructor that accepts every signature *)
Lemma sign_detached_tamper_pass w :
  (forall bs w, zlen bs = 64 -> Signature_new bs w = Done bs w) ->
  sign_drawn signature_unforged (e_entropy (w_env w)) (e_pos (w_env w)) ->
  does w test_sign_verify_detached_tamper (fun _ _ => True).
Proof.
  intros Hnew Hu. unfold sign_drawn in Hu. set (g := e_entropy (w_env w)) in *.
  apply (draw_rounds g (fun i => 32 + Z.to_nat i)%nat (e_pos (w_env w))); [|done].
  intros i Hi w1 Hw1. change (Z.of_nat 32) with 32 in Hi.
  specialize (Hu i Hi). cbv beta in Hu. set (p := round_pos _ _ _) in *. clearbody g p. pose proof (ed_seeded_zlen (draw g p 32)) as Hkl. pose proof isize_max_bounds.
  eapply draw_sign_keypair; [exact Hw1|]. intros pk sk w2 _ _ Hne Hw2. set (key := ed_seeded (draw g p 32)) in *.
  eapply (detached_prepared g _ _ w2 i pk sk key); [exact Hw2|lia|split_and!; [local_tac|local_tac|exact Hkl|exact Hne]|].
  intros m b t w3 Hpk Hb Ht Htp Htb Hw3. set (mb := draw g (p + 32) i) in *. pose proof (ed_sign_zlen key mb) as Hsl.
  assert (Hmb : zlen mb = i) by (apply draw_zlen; lia). sl. apply local_last. change sign.SIGNATUREBYTES with 64.
  eapply draw_tampered; [exact Hw3|exact Ht|by symmetry| |].
  2: { intros w4 Hw4. apply does_ret. apply sits_generator in Hw4. by rewrite Nat.add_assoc. }
  intros j w4 Hj Hw4. assert (Hlen : length (ed_sign key mb) = 64%nat) by (unfold zlen in Hsl; lia).
  eapply (refused_does g _ _ w4 t b pk (tampered j (ed_sign key mb)) mb (ed_public key));
    [exact Hw4|apply lookup_insert_eq|rewrite lookup_insert_ne by done; exact Hb|rewrite lookup_insert_ne by done; exact Hpk|
     by rewrite flipped_zlen|apply ed_public_zlen|by symmetry|lia| |apply Hu; lia].
  intros w5. apply Hnew. by rewrite flipped_zlen.
Qed.

(** *** A constructor that refuses what is not reduced *)

(** The program may panic, and nothing else goes wrong. *)
Definition may_panic {X} (w : world) (p : M X) (Q : X -> world -> Prop) : Prop :=
  match p w with
  | Done a w' => Q a w'
  | Panicked => True
  | _ => False
  end.

Lemma may_bind {X Y} w (p : M X) (f : X -> M Y) P Q :
  may_panic w p P -> (forall a w', P a w' -> may_panic w' (f a) Q) -> may_panic w (bind p f) Q.
Proof. unfold may_panic, bind. intros Hp Hf. destruct (p w); [by apply Hf|done..]. Qed.

Lemma may_does {X} w (p : M X) Q : does w p Q -> may_panic w p Q.
Proof. intros (a & w' & Hr & Hq). unfold may_panic. by rewrite Hr. Qed.

Lemma may_assert w b (Q : unit -> world -> Prop) : Q tt w -> may_panic w (assert b) Q.
Proof. by destruct b. Qed.

(** A loop that panics in the last round at the latest *)
Lemma for_range_panics (I : world -> Prop) f n : forall a w,
  (forall i w, a <= i < a + Z.of_nat n -> I w -> may_panic w (f i) (fun _ => I)) ->
  (forall w, I w -> f (a + Z.of_nat n) w = Panicked) -> I w -> for_range a (S n) f w = Panicked.
Proof.
  induction n as [|n IH]; intros a w Hf Hlast Hi; cbn [for_range]; unfold bind.
  - specialize (Hlast w Hi). rewrite Z.add_0_r in Hlast. by rewrite Hlast.
  - pose proof (Hf a w ltac:(lia) Hi) as Ha. unfold may_panic in Ha. destruct (f a w) as [[] w1| | |]; [|done..].
    apply (IH (a + 1) w1); [|intros w2 Hw2|exact Ha].
    + intros i w2 Hi2. apply Hf. lia.
    + replace (a + 1 + Z.of_nat n) with (a + Z.of_nat (S n)) by lia. by apply Hlast.
Qed.

Lemma catch_panicked (Q : bool -> world -> Prop) w (t : M unit) : t w = Panicked -> Q false dead -> does w (catch t) Q.
Proof. intros Ht Hq. exists false, dead. unfold catch. by rewrite Ht. Qed.

Lemma panics_catch w (t : M unit) : does w (catch t) (fun b _ => b = false) -> t w = Panicked.
Proof. intros (b & w' & Hr & ->). revert Hr. unfold catch. by destruct (t w) as [[]| | |]. Qed.

Lemma last_tampered j bs : (S j < length bs)%nat -> last (tampered j bs) = last bs.
Proof. intros Hj. unfold flipped. by rewrite !last_lookup, length_alter, list_lookup_alter_ne by lia. Qed.

Lemma last_flipped bs n :
  length bs = S n -> byte_val (default x00 (last bs)) < 32 -> 32 <= byte_val (default x00 (last (tampered n bs))).
Proof.
  intros Hl Hb. unfold flipped. rewrite last_lookup, length_alter, Hl. cbn [Nat.pred].
  rewrite last_lookup, Hl in Hb. cbn [Nat.pred] in Hb. rewrite list_lookup_alter_eq.
  destruct (lookup_lt_is_Some_2 bs n) as [x Hx]; [lia|]. rewrite Hx in *. cbn in *. revert Hb. by destruct x.
Qed.

(** The assertion on a signature the constructor accepts, whatever it says *)
Lemma refused_may g p m w t b pk sb mb pkb n :
  sits g p m w -> m !! t = Some sb -> m !! b = Some mb -> m !! pk = Some pkb -> zlen sb = 64 -> zlen pkb = 32 ->
  n = zlen mb -> n <= isize_max -> byte_val (default x00 (last sb)) < 32 ->
  may_panic w (assert_refused (At t 0) (Slice (At b 0) n) (At pk 0)) (fun _ w' => sits g p m w').
Proof.
  intros Hw Ht Hb Hpk Hsl Hpl -> Hn Htop. unfold assert_refused. change sign.SIGNATUREBYTES with 64.
  eapply may_bind.
  { apply may_does, local_last. eapply (local_read (fun x w' => x = sb /\ w' = w));
      [by eapply sits_holds|exact Ht|by symmetry|by apply does_ret]. }
  intros _ _ [-> ->]. eapply may_bind.
  { apply may_does. eapply (does_eq _ _ _ _ (fun x w' => x = sb /\ w' = w)); [|done]. by apply Signature_new_doc. }
  intros _ _ [-> ->]. eapply may_bind.
  { apply may_does, local_last.
    eapply (draw_place (fun c w' => sits g p (<[c := sb]> m) w' /\ m !! c = None)); [exact Hw|]. intros c w3 Hc Hw3. by apply does_ret. }
  intros c w3 [Hw3 Hc]. eapply may_bind.
  { apply may_does. eapply (does_eq _ _ _ _ (fun _ w' => w' = w3)); [|done].
    apply (verify_detached_run w3 _ _ _ sb mb pkb).
    - rewrite <- Hsl. eapply holds_ref; [by eapply sits_holds|apply lookup_insert_eq].
    - eapply holds_slice; [by eapply sits_holds| |done|done]. by rewrite lookup_insert_ne by congruence.
    - rewrite <- Hpl. eapply holds_ref; [by eapply sits_holds|]. by rewrite lookup_insert_ne by congruence. }
  intros r _ ->. apply may_assert. eapply sits_mono; [|exact Hw3]. by apply insert_subseteq.
Qed.

(** The loop over the signature: the last byte has no top bit set, until it is
    changed. *)
Lemma refused_loop_panics g p m w t b pk sb mb pkb n :
  (forall bs w, zlen bs = 64 -> 32 <= byte_val (default x00 (last bs)) -> Signature_new bs w = Panicked) ->
  sits g p m w -> m !! t = Some sb -> m !! b = Some mb -> m !! pk = Some pkb -> zlen sb = 64 -> zlen pkb = 32 ->
  t <> b -> t <> pk -> n = zlen mb -> n <= isize_max -> byte_val (default x00 (last sb)) < 32 ->
  for_tampered (Slice (At t 0) 64) (assert_refused (At t 0) (Slice (At b 0) n) (At pk 0)) w = Panicked.
Proof.
  intros Hnew Hw Ht Hb Hpk Hsl Hpl Htb Htp Hm Hn Htop. assert (Hlen : length sb = 64%nat) by (unfold zlen in Hsl; lia).
  unfold for_tampered. cbn [s_len]. change (Z.to_nat 64) with (S 63).
  apply (for_range_panics (sits g p m)); [| |exact Hw].
  - intros i w1 Hi Hw1. replace i with (Z.of_nat (Z.to_nat i)) by lia. set (j := Z.to_nat i) in *.
    assert (Hj : (S j < 64)%nat) by lia.
    eapply may_bind; [apply may_does, (flip_does g p); [exact Hw1|exact Ht|by symmetry|lia]|]. intros [] w2 Hw2. cbv beta in Hw2.
    eapply may_bind.
    + apply (refused_may g p _ w2 t b pk (tampered j sb) mb pkb n Hw2); [apply lookup_insert_eq| | |by rewrite flipped_zlen|done..|].
      1,2: by rewrite lookup_insert_ne. by rewrite last_tampered by lia.
    + intros [] w3 Hw3. cbv beta in Hw3. apply may_does. eapply does_mono.
      * eapply (flip_does g p); [exact Hw3|apply lookup_insert_eq|by rewrite flipped_zlen|rewrite flipped_length; lia].
      * intros [] w4. rewrite insert_insert_eq, tampered_twice, insert_id by done. done.
  - intros w1 Hw1. destruct (flip_does g p m w1 x20 t sb 64 63 Hw1 Ht) as ([] & w2 & Hr & Hw2); [by symmetry|lia|].
    change (0 + Z.of_nat 63) with (Z.of_nat 63). unfold bind at 1. rewrite Hr. apply bind_panicked. unfold assert_refused.
    change sign.SIGNATUREBYTES with 64. eapply bind_step.
    { unfold slice_bytes. cbn. apply (read_run _ _ _ (tampered 63 sb)); [|by rewrite flipped_zlen].
      destruct (holds_ref w2 _ t (tampered 63 sb) (sits_holds _ _ _ _ Hw2)) as [Hx _]; [apply lookup_insert_eq|exact Hx]. }
    apply bind_panicked. apply Hnew; [by rewrite flipped_zlen|]. by apply last_flipped.
Qed.

Lemma sign_detached_tamper_panics w :
  (forall bs w, zlen bs = 64 -> 32 <= byte_val (default x00 (last bs)) -> Signature_new bs w = Panicked) ->
  test_sign_verify_detached_tamper w = Panicked.
Proof.
  intros Hnew. pose proof isize_max_bounds. set (g := e_entropy (w_env w)). set (p := e_pos (w_env w)).
  assert (Hw : sits g p ∅ w) by (split_and!; [done|done|apply holds_empty]). clearbody g p.
  apply bind_panicked, panics_catch. unfold with_keypair. apply catch_bind.
  eapply local_run; [apply sign_gen_keypair_run|]. rewrite (sits_entropy g p ∅ w 32 Hw). cbn beta iota.
  set (key := ed_seeded (draw g p 32)). pose proof (ed_seeded_zlen (draw g p 32)) as Hkl. fold key in Hkl.
  assert (Hw1 : sits g (p + 32) ∅ (w_consume 32 w)) by (destruct Hw as (<- & <- & Hw); by split_and!).
  apply catch_bind. eapply draw_place; [exact Hw1|]. intros pk w2 _ Hw2.
  apply catch_bind. eapply draw_place; [exact Hw2|]. intros sk w3 Hsk Hw3. fresh_facts.
  apply catch_bind. eapply (draw_random _ g); [exact Hw3|lia|]. intros b w4 Hb Hw4. fresh_facts. sl.
  set (mb := draw g _ 0) in *. pose proof (ed_sign_zlen key mb) as Hsl. pose proof (ed_public_zlen key) as Hpl.
  assert (Hmb : zlen mb = 0) by (by apply draw_zlen).
  apply catch_bind, local_assoc. eapply local_run.
  { apply (sign_detached_run w4 _ _ mb key).
    - eapply holds_slice; [by eapply sits_holds|local_tac|by symmetry|lia].
    - rewrite <- Hkl. eapply holds_ref; [by eapply sits_holds|local_tac]. }
  apply local_assoc. eapply draw_place; [exact Hw4|]. intros t w5 Ht Hw5. apply local_ret. fresh_facts.
  apply catch_panicked; [|done]. change sign.SIGNATUREBYTES with 64.
  eapply (refused_loop_panics g _ _ w5 t b pk (ed_sign key mb) mb (ed_public key));
    [exact Hnew|exact Hw5|local_tac|local_tac|local_tac|done|done|congruence|congruence|by symmetry|lia|apply ed_sign_top].
Qed.

End Sign.

(** ** The theorems *)

(** The test of an authentication module that changes a message and a tag
    passes when no message it makes keeps its tag with one byte changed: every
    changed tag is then refused, too. *)
Theorem auth_rejects_tampered `{T : Target} `{R : RandombytesExterns} {RD : RandombytesDoc R}
    (A : auth_module) {D : AuthDoc A} w (Hk : 0 <= auth_keybytes A)
    (Hu : auth_drawn_unforged A (e_entropy (w_env w)) (e_pos (w_env w))) :
  does w (test_auth_verify_tamper A) (fun _ _ => True).
Proof. by apply (auth_tamper_pass A). Qed.

(** The tests of the pwhash modules that change a password pass when a hash
    can be computed and does not verify a password that differs in one byte. *)
Theorem pwhash_rejects_tampered `{T : Target} `{U : UtilsExterns} `{R : RandombytesExterns} {RD : RandombytesDoc R}
    (A : argon2_module) {D : PwhashDoc (argon2_functions A)} `{E : ScryptExterns} {SD : PwhashDoc scrypt_functions}
    w (g := e_entropy (w_env w)) (p := e_pos (w_env w))
    (Ha : passwords_drawn_unforged A 16 8192 g p)
    (Hs : passwords_drawn_unforged scrypt_module (D := SD) 524288 16777216 g p) :
  does w (test_pwhash_verify_tamper A) (fun _ _ => True) /\
  does w scrypt_test_pwhash_verify_tamper (fun _ _ => True).
Proof.
  split.
  - by apply (verify_tamper_pass A 16 8192 _ _ (MkOpsLimit 16) (MkMemLimit 8192)).
  - apply (verify_tamper_pass scrypt_module (D := SD) 524288 16777216 _ _
      scrypt.OPSLIMIT_INTERACTIVE scrypt.MEMLIMIT_INTERACTIVE); [|done|reflexivity|reflexivity|exact Hs].
    intros s w1. apply scrypt_pwhash_eq.
Qed.

(** The tests that change signed messages and detached signatures pass when
    no changed one is valid, with a crate ed25519 whose constructor accepts all
    of 64 bytes. *)
Theorem sign_rejects_tampered `{T : Target} `{E : SignExterns} `{Cr : Ed25519Crate} `{R : RandombytesExterns}
    {D : SignDoc E} {RD : RandombytesDoc R} w (g := e_entropy (w_env w)) (p := e_pos (w_env w))
    (Hnew : forall bs w, zlen bs = 64 -> Signature_new bs w = Done bs w)
    (Hm : sign_drawn signed_unforged g p) (Hs : sign_drawn signature_unforged g p) :
  does w test_sign_verify_tamper (fun _ _ => True) /\
  does w test_sign_verify_tamper_seed (fun _ _ => True) /\
  does w test_sign_verify_detached_tamper (fun _ _ => True).
Proof.
  destruct (sign_tamper_pass w Hm) as [H1 H2]. split_and!; [exact H1|exact H2|].
  assert (CD : Ed25519CrateDoc Cr) by (intros bs w1 Hl _; by apply Hnew). by apply (sign_detached_tamper_pass (CD := CD)).
Qed.

(** C40. With a constructor that panics on a signature whose last byte has one of
    its three top bits set, the test that changes detached signatures panics,
    whatever the keys and the algorithm: it sets such a bit, in the first round,
    before it gets to the verification. *)
Theorem detached_tamper_test_panics `{T : Target} `{E : SignExterns} `{Cr : Ed25519Crate} `{R : RandombytesExterns}
    {D : SignDoc E} {CD : Ed25519CrateDoc Cr} {RD : RandombytesDoc R}
    (Hnew : forall bs w, zlen bs = 64 -> 32 <= byte_val (default x00 (last bs)) -> Signature_new bs w = Panicked) w :
  test_sign_verify_detached_tamper w = Panicked.
Proof. by apply sign_detached_tamper_panics. Qed.

(** ** Witnesses: a generator that yields one byte *)

Definition constant_world (c : byte) : world := World ∅ (Env (fun _ => c) 0 false [] []).

Lemma draw_constant c p n : draw (fun _ => c) p n = replicate (Z.to_nat n) c.
Proof.
  unfold draw. generalize (Z.to_nat n). intros k. revert p.
  induction k as [|k IH]; intros p; [done|]. cbn [seq fmap list_fmap replicate]. f_equal. apply IH.
Qed.

(** Checks for the messages of [n] sizes *)
Definition all_sizes (n : nat) (c : byte) (f : bytes -> bool) : bool :=
  forallb (fun i => f (replicate i c)) (seq 0 n).

Lemma all_sizes_spec n c f i : all_sizes n c f = true -> 0 <= i < Z.of_nat n -> f (replicate (Z.to_nat i) c) = true.
Proof.
  unfold all_sizes. rewrite forallb_forall. intros Hf Hi. apply (Hf (Z.to_nat i)), in_seq. lia.
Qed.

Definition all_bytes (n : nat) (f : nat -> bool) : bool := forallb f (seq 0 n).

Lemma all_bytes_spec n f j : all_bytes n f = true -> (j < n)%nat -> f j = true.
Proof. unfold all_bytes. rewrite forallb_forall. intros Hf Hj. apply Hf, in_seq. lia. Qed.

(** Poly1305, with a key of sevens *)
Definition auth_unforgedb (mac : bytes -> bytes) (mb : bytes) : bool :=
  let t := mac mb in all_bytes (length mb) (fun j => negb (bool_decide (mac (tampered j mb) = t))).

Lemma auth_unforgedb_spec `{D : AuthDoc A} kb mb :
  auth_unforgedb (auth_mac kb) mb = true -> auth_unforged A kb mb.
Proof. intros Hf j Hj. by apply (all_bytes_spec _ _ j Hf), negb_true_iff, bool_decide_eq_false in Hj. Qed.

Lemma auth_rejects_tampered_witness :
  does (constant_world x07) (@test_auth_verify_tamper target64 Ref.randombytes (@poly1305 Std.onetimeauth_externs))
    (fun _ _ => True).
Proof.
  apply (@auth_rejects_tampered target64 Ref.randombytes Ref.randombytes_doc _ Std.onetimeauth_doc); [by vm_compute|].
  intros i Hi. cbv beta. cbn [constant_world w_env e_entropy]. rewrite !draw_constant.
  apply (auth_unforgedb_spec (D := Std.onetimeauth_doc)).
  apply (all_sizes_spec 32 x07 (auth_unforgedb (auth_mac (AuthDoc := Std.onetimeauth_doc) (replicate 32 x07)))); [|exact Hi].
  vm_compute. reflexivity.
Defined.


Lemma zero_passwords (str : bytes -> bytes) (check : bytes -> bytes -> bool) i j :
  all_sizes 16 x00 (fun p => all_bytes (length p) (fun j => negb (check (str p) (tampered j p)))) = true ->
  0 <= i < 16 -> (j < length (replicate (Z.to_nat i) x00))%nat ->
  check (str (replicate (Z.to_nat i) x00)) (tampered j (replicate (Z.to_nat i) x00)) = false.
Proof.
  intros Hf Hi Hj. apply (all_sizes_spec _ _ _ i Hf) in Hi. by apply (all_bytes_spec _ _ j Hi), negb_true_iff in Hj.
Qed.

Lemma short_completes i : 0 <= i < 16 -> RefPwhash.completes (zlen (replicate (Z.to_nat i) x00)) = true.
Proof. intros Hi. unfold RefPwhash.completes, zlen. rewrite length_replicate. apply Z.leb_le. lia. Qed.

Lemma pwhash_rejects_tampered_witness :
  let w := constant_world x00 in
  does w (@test_pwhash_verify_tamper target64 Ref.utils Ref.randombytes RefPwhash.A) (fun _ _ => True) /\
  does w (@scrypt_test_pwhash_verify_tamper target64 Ref.utils Ref.randombytes RefScrypt.externs) (fun _ _ => True).
Proof.
  apply (@pwhash_rejects_tampered target64 Ref.utils Ref.randombytes Ref.randombytes_doc RefPwhash.A RefPwhash.doc
    RefScrypt.externs RefScrypt.doc); intros i Hi e; cbn [constant_world w_env e_entropy]; rewrite !draw_constant;
    (split; [by apply short_completes|]).
  - intros j Hj. exact (zero_passwords RefPwhash.str (pw_check (PwhashDoc := RefPwhash.doc) e) i j
      ltac:(vm_compute; reflexivity) Hi Hj).
  - intros j Hj. exact (zero_passwords RefScrypt.str (pw_check (PwhashDoc := RefScrypt.doc) e) i j
      ltac:(vm_compute; reflexivity) Hi Hj).
Defined.

(** *** Signatures *)

(** A constructor that accepts everything *)
Definition accepting_crate : Ed25519Crate := {| Signature_new := ret |}.
Definition signed_unforgedb {E : SignExterns} {D : SignDoc E} (sk mb : bytes) : bool :=
  all_bytes (64 + length mb) (fun j =>
    let s := tampered j (ed_sign sk mb ++ mb) in negb (ed_valid (ed_public sk) (drop 64 s) (take 64 s))).

Lemma signed_unforgedb_spec {E : SignExterns} {D : SignDoc E} sk mb : signed_unforgedb sk mb = true -> signed_unforged sk mb.
Proof. intros Hf j s Hj. by apply (all_bytes_spec _ _ j Hf), negb_true_iff in Hj. Qed.

Definition zero_key : bytes := ed_seeded (SignDoc := RefSign.doc) (replicate (Z.to_nat 32) x00).

Lemma zero_signed : all_sizes 32 x00 (signed_unforgedb (D := RefSign.doc) zero_key) = true.
Proof. vm_compute. reflexivity. Qed.

Lemma ref_signed_unforged i :
  0 <= i < 32 -> signed_unforged (D := RefSign.doc) zero_key (replicate (Z.to_nat i) x00).
Proof. intros Hi. exact (signed_unforgedb_spec _ _ (all_sizes_spec _ _ _ i zero_signed Hi)). Qed.

Lemma ref_signature_unforged sk mb : signature_unforged (D := RefSign.doc) sk mb.
Proof.
  intros j Hj. pose proof (RefSign.mac_zlen (RefSign.half sk) mb) as Hl.
  set (s := RefSign.mac (RefSign.half sk) mb) in *. assert (Hs : (j < length s)%nat) by (unfold zlen in Hl; lia).
  apply (bool_decide_eq_false_2 (tampered j s = s)), flipped_ne; [by left|exact Hs].
Qed.

Lemma sign_rejects_tampered_witness :
  let w := constant_world x00 in
  does w (@test_sign_verify_tamper target64 RefSign.externs Ref.randombytes) (fun _ _ => True) /\
  does w (@test_sign_verify_tamper_seed target64 RefSign.externs Ref.randombytes) (fun _ _ => True) /\
  does w (@test_sign_verify_detached_tamper target64 RefSign.externs accepting_crate Ref.randombytes) (fun _ _ => True).
Proof.
  apply (@sign_rejects_tampered target64 RefSign.externs accepting_crate Ref.randombytes RefSign.doc Ref.randombytes_doc).
  - done.
  - intros i Hi. cbv beta. cbn [constant_world w_env e_entropy]. rewrite !draw_constant. by apply ref_signed_unforged.
  - intros i _. apply ref_signature_unforged.
Defined.

Lemma detached_tamper_test_panics_witness :
  @test_sign_verify_detached_tamper target64 RefSign.externs RefSign.crate Ref.randombytes (constant_world x00) = Panicked.
Proof.
  apply (@detached_tamper_test_panics target64 RefSign.externs RefSign.crate Ref.randombytes RefSign.doc
    RefSign.crate_doc Ref.randombytes_doc).
  intros bs w Hl Hb. cbn. by rewrite (proj2 (Z.eqb_eq _ _) Hl), (proj2 (Z.ltb_ge _ _)).
Defined.
