(* ===== verification/Build.v ===== *)
(** * The build scripts: libsodium-sys/build.rs and testcrate/build.rs

    A script is a program over the trace of what it has done so far (directives
    it printed for cargo, commands it ran, directories it made and files it
    copied); it returns or panics.  The machine it runs on is a [host]: the
    environment variables, and oracles for the commands, the file system and
    the crates [cc], [pkg_config] and [walkdir], whose answers may depend on
    everything that happened before.  What [pkg_config] runs and prints is part
    of its answer and of the trace; what [cc] may run to find the compiler is
    not recorded.  [cfg] conditions are a [config]; in a build script they
    describe the machine that builds. *)

From S2P Require Export Utf8.
From Stdlib Require Import Strings.Ascii.

#[local] Open Scope string_scope.

(** ** The machine *)

(** Paths and other strings of the operating system are byte strings, which
    need not be text. *)
Definition path : Type := string.

Inductive warning :=
| SharedNoEffectPkg
| SharedNoEffectBuild
| UnknownVersion (tested : string)
| OtherVersion (found tested : string)
| FallbackDir (dir : path).

(** The lines printed for cargo *)
Inductive directive :=
| RerunIfEnvChanged (var : string)
| RerunIfChanged (file : string)
| Warning (w : warning)
| LinkSearch (dir : string)
| LinkLib (mode name : string)
| MetaInclude (dir : string)
| MetaLib (dir : string).

(** [std::process::Command] *)
Record command := Command {
  cmd_prog : path;
  cmd_args : list string;
  cmd_env : list (string * string);
  cmd_dir : option path
}.

(** Its end: it could not be started, or it exited. *)
Inductive ran := NotStarted | Exited (success : bool) (stdout : string).

Inductive event :=
| Printed (d : directive)
| RanCommand (c : command) (r : ran)
| MadeDir (p : path)
| Copied (src dst : path).

Abbreviation trace := (list event).

Inductive panic_reason :=
| StaticDeprecated
| IncompatibleSettings
| PkgUnsupported
| PkgConfigFailed
| EnvUnset (var : string)
| NotText (p : path)
| NoCompiler
| XcodeSelectFailed
| UnknownIosTarget (target : string)
| ConfigureMissing
| CommandNotStarted (c : command)
| CommandFailed (c : command) (help : bool)
| MakeDirFailed (p : path)
| CopyFailed (p : path)
| ReadDirFailed (p : path)
| HeaderNotFound
| LibNotFound.

(** [pkg_config::Library] *)
Record library := Library { version : string; link_paths : list path; include_paths : list path }.

(** [walkdir::DirEntry]: its path, its file name, and whether it is a directory *)
Record dir_entry := DirEntry { e_path : path; e_name : string; e_is_dir : bool }.

Record config := Config {
  cfg_windows : bool;
  cfg_msvc : bool;
  cfg_pointer_width_64 : bool;
  feature_use_pkg_config : bool
}.

Record host := Host {
  h_env : string -> option string;
  h_temp_dir : path;
  h_pkg_config : trace -> string -> list event * option library;
  h_cc : option (path * string);
  h_run : trace -> command -> ran;
  h_canonicalize : trace -> path -> option path;
  h_make_dir : trace -> path -> bool;
  h_copy : trace -> path -> path -> bool;
  h_walk : path -> (dir_entry -> bool) -> list (option dir_entry);
  h_read_dir : trace -> path -> option (list (option string))
}.

Inductive answer (A : Type) : Type := Returns (a : A) | Panics (why : panic_reason).
Arguments Returns {A} a.
Arguments Panics {A} why.

Definition B (A : Type) : Type := trace -> trace * answer A.

Definition bret {A} (a : A) : B A := fun tr => (tr, Returns a).
Definition bbind {A C} (m : B A) (f : A -> B C) : B C := fun tr =>
  match m tr with
  | (tr, Returns a) => f a tr
  | (tr, Panics why) => (tr, Panics why)
  end.
Definition bpanic {A} (why : panic_reason) : B A := fun tr => (tr, Panics why).
Definition record (e : event) : B unit := fun tr => (tr ++ [e], Returns tt)%list.

Declare Scope build_scope.
Delimit Scope build_scope with build.
Notation "'let!' x := m 'in' k" := (bbind m (fun x => k))
  (at level 10, x name, m at level 200, k at level 200) : build_scope.
Notation "'let!' ' x := m 'in' k" := (bbind m (fun x => k))
  (at level 10, x pattern, m at level 200, k at level 200) : build_scope.
#[global] Open Scope build_scope.

Definition println (d : directive) : B unit := record (Printed d).

(** [for x in l { f(x) }] *)
Fixpoint foreach {A} (l : list A) (f : A -> B unit) : B unit :=
  match l with
  | [] => bret tt
  | x :: l => let! _ := f x in foreach l f
  end.

(** [option.unwrap()] *)
Definition unwrap {A} (why : panic_reason) (o : option A) : B A :=
  match o with Some a => bret a | None => bpanic why end.

(** [path.to_str().unwrap()] *)
Definition to_str (p : path) : B string := if is_text p then bret p else bpanic (NotText p).

Section Host.
Context (c : config) (h : host).

(** [env::var(k)]: an error when it is unset or not text *)
Definition env_var (k : string) : option string :=
  match h_env h k with Some v => if is_text v then Some v else None | None => None end.
Definition env_is_ok (k : string) : bool := bool_decide (is_Some (env_var k)).
Definition env_unwrap (k : string) : B string := unwrap (EnvUnset k) (env_var k).

(** Runs a command to its end; [Err] when it cannot be started. *)
Definition status (cmd : command) : B (bool * string) := fun tr =>
  let r := h_run h tr cmd in
  let tr := (tr ++ [RanCommand cmd r])%list in
  match r with
  | NotStarted => (tr, Panics (CommandNotStarted cmd))
  | Exited ok out => (tr, Returns (ok, out))
  end.

(** [pkg_config::Config::new().probe(name)]: the crate runs [pkg-config] and
    prints directives of its own, in the order it chooses, and reports what it
    found. *)
Definition probe (name : string) : B (option library) := fun tr =>
  let '(evs, found) := h_pkg_config h tr name in ((tr ++ evs)%list, Returns found).

Definition create_dir_all (p : path) : B unit := fun tr =>
  if h_make_dir h tr p then ((tr ++ [MadeDir p])%list, Returns tt) else (tr, Panics (MakeDirFailed p)).

Definition canonicalize (p : path) : B (option path) := fun tr => (tr, Returns (h_canonicalize h tr p)).

(** *** Paths *)

Definition is_sep (a : Ascii.ascii) : bool :=
  Ascii.eqb a "/"%char || (cfg_windows c && Ascii.eqb a "\"%char).

Definition main_sep : string := if cfg_windows c then "\" else "/".

Definition ends_with_sep (p : path) : bool :=
  ends_with "/"%char p || (cfg_windows c && ends_with "\"%char p).

Definition has_root (p : path) : bool :=
  match p with String a _ => is_sep a | EmptyString => false end.

(** On Windows, the drive [C:] a path may start with *)
Definition drive (p : path) : string :=
  if cfg_windows c then
    match p with
    | String d (String ":"%char _) => String d ":"
    | _ => EmptyString
    end
  else EmptyString.

(** [p.join(q)]: an absolute [q] replaces [p].  (The UNC and verbatim prefixes
    of Windows are not modelled.) *)
Definition join (p q : path) : path :=
  if negb (String.eqb (drive q) EmptyString) then q
  else if has_root q then drive p +:+ q
  else if String.eqb p EmptyString || ends_with_sep p || (cfg_windows c && String.eqb p (drive p))
  then p +:+ q
  else p +:+ main_sep +:+ q.

End Host.

(** ** libsodium-sys/build.rs *)

Module build.

Definition VERSION : string := "1.0.18".

(** What [match &*target] appends to [CFLAGS] and makes of [host_arg] *)
Definition ios_settings (target sdk_dir_ios sdk_dir_simulator : string) : option (string * string) :=
  let ios_simulator_version_min := "6.0.0" in
  let ios_version_min := "6.0.0" in
  if String.eqb target "aarch64-apple-ios" then
    Some (" -arch arm64" +:+ " -isysroot " +:+ sdk_dir_ios +:+
          " -mios-version-min=" +:+ ios_version_min +:+ " -fembed-bitcode",
          "--host=arm-apple-darwin10")
  else if String.eqb target "armv7-apple-ios" then
    Some (" -arch armv7" +:+ " -isysroot " +:+ sdk_dir_ios +:+
          " -mios-version-min=" +:+ ios_version_min +:+ " -mthumb",
          "--host=arm-apple-darwin10")
  else if String.eqb target "armv7s-apple-ios" then
    Some (" -arch armv7s" +:+ " -isysroot " +:+ sdk_dir_ios +:+
          " -mios-version-min=" +:+ ios_version_min +:+ " -mthumb",
          "--host=arm-apple-darwin10")
  else if String.eqb target "i386-apple-ios" then
    Some (" -arch i386" +:+ " -isysroot " +:+ sdk_dir_simulator +:+
          " -mios-simulator-version-min=" +:+ ios_simulator_version_min,
          "--host=i686-apple-darwin10")
  else if String.eqb target "x86_64-apple-ios" then
    Some (" -arch x86_64" +:+ " -isysroot " +:+ sdk_dir_simulator +:+
          " -mios-simulator-version-min=" +:+ ios_simulator_version_min,
          "--host=x86_64-apple-darwin10")
  else None.

Section Script.
Context (c : config) (h : host).

Definition find_libsodium_env : B unit :=
  let! lib_dir := env_unwrap h "SODIUM_LIB_DIR" in
  let! _ := println (LinkSearch lib_dir) in
  let mode := if env_is_ok h "SODIUM_SHARED" then "dylib" else "static" in
  let name := if cfg_msvc c then "libsodium" else "sodium" in
  let! _ := println (LinkLib mode name) in
  println (Warning (UnknownVersion VERSION)).

Definition find_libsodium_pkg : B unit :=
  if cfg_msvc c then bpanic PkgUnsupported
  else
    let! probed := probe h "libsodium" in
    match probed with
    | Some lib =>
      let! _ :=
        if negb (String.eqb (version lib) VERSION)
        then println (Warning (OtherVersion (version lib) VERSION)) else bret tt in
      let! _ := foreach (link_paths lib) (fun lib_dir =>
        let! s := to_str lib_dir in println (MetaLib s)) in
      foreach (include_paths lib) (fun include_dir =>
        let! s := to_str include_dir in println (MetaInclude s))
    | None => bpanic PkgConfigFailed
    end.

Definition get_crate_dir : B path := env_unwrap h "CARGO_MANIFEST_DIR".

Definition is_release_profile : B bool :=
  let! profile := env_unwrap h "PROFILE" in bret (String.eqb profile "release").

(** The variants of [get_lib_dir] for msvc and for mingw, 64 and 32 bits *)
Definition get_lib_dir : B path :=
  if cfg_msvc c then
    let! release := is_release_profile in
    let! dir := get_crate_dir in
    bret (join c dir
      (if cfg_pointer_width_64 c
       then if release then "msvc/x64/Release/v142/" else "msvc/x64/Debug/v142/"
       else if release then "msvc/Win32/Release/v142/" else "msvc/Win32/Debug/v142/"))
  else
    let! dir := get_crate_dir in
    bret (join c dir (if cfg_pointer_width_64 c then "mingw/win64/" else "mingw/win32/")).

(** The compiler, [CFLAGS], the [--host] argument, and whether this is a
    cross compilation. *)
Definition tool_settings (target : string) : B (string * string * string * bool) :=
  let! '(cc_path, cc_flags) := unwrap NoCompiler (h_cc h) in
  let! compiler := to_str cc_path in
  let! cflags := to_str cc_flags in
  let host_arg := "--host=" +:+ target in
  let! host := env_unwrap h "HOST" in
  let cross_compiling := negb (String.eqb target host) in
  if contains "-ios" target then
    let! '(ok, stdout) := status h (Command "xcode-select" ["-p"] [] None) in
    if negb ok then bpanic XcodeSelectFailed
    else
      let! xcode := to_str stdout in
      let xcode_dir := trim xcode in
      let! sdk_dir_simulator :=
        to_str (join c xcode_dir
          "Platforms/iPhoneSimulator.platform/Developer/SDKs/iPhoneSimulator.sdk") in
      let! sdk_dir_ios :=
        to_str (join c xcode_dir "Platforms/iPhoneOS.platform/Developer/SDKs/iPhoneOS.sdk") in
      match ios_settings target sdk_dir_ios sdk_dir_simulator with
      | Some (flags, host_arg) => bret (compiler, cflags +:+ flags, host_arg, true)
      | None => bpanic (UnknownIosTarget target)
      end
  else if contains "i686" target then
    bret (compiler +:+ " -m32 -maes", cflags +:+ " -march=i686", host_arg, cross_compiling)
  else bret (compiler, cflags, host_arg, cross_compiling).

(** Runs a command that has to succeed. *)
Definition must_run (cmd : command) (help : bool) : B unit :=
  let! '(ok, _) := status h cmd in
  if negb ok then bpanic (CommandFailed cmd help) else bret tt.

Definition configure_command (configure source_dir : path)
    (compiler cflags prefix_arg libdir_arg host_arg : string) : command :=
  Command configure
    ((if env_is_ok h "SODIUM_DISABLE_PIE" then ["--disable-pie"] else []) ++
     [prefix_arg; libdir_arg; host_arg; "--enable-shared=no"])
    ((if negb (String.eqb compiler EmptyString) then [("CC", compiler)] else []) ++
     (if negb (String.eqb cflags EmptyString) then [("CFLAGS", cflags)] else []))
    (Some source_dir).

Definition make_libsodium (target : string) (source_dir install_dir : path) : B path :=
  if cfg_windows c then get_lib_dir
  else
    let! '(compiler, cflags, host_arg, cross_compiling) := tool_settings target in
    let! install := to_str install_dir in
    let prefix_arg := "--prefix=" +:+ install in
    let libdir_arg := "--libdir=" +:+ install +:+ "/lib" in
    let! found := canonicalize h (join c source_dir "configure") in
    let! configure := unwrap ConfigureMissing found in
    let! _ := must_run (configure_command configure source_dir compiler cflags
                          prefix_arg libdir_arg host_arg) cross_compiling in
    let! jobs := env_unwrap h "NUM_JOBS" in
    let j_arg := "-j" +:+ jobs in
    let make_arg := if cross_compiling then "all" else "check" in
    let! _ := must_run (Command "make" [make_arg; j_arg] [("V", "1")] (Some source_dir))
                cross_compiling in
    let! _ := must_run (Command "make" ["install"] [] (Some source_dir)) false in
    bret (join c install_dir "lib").

(** Where the build happens: below [OUT_DIR], or below the temporary directory
    when that path has a space. *)
Definition build_dir (target profile : string) (out_dir : path) : B path :=
  let! s := to_str out_dir in
  if contains " " s then
    let out_dir := join c (join c (join c (h_temp_dir h) "libsodium-sys") target) profile in
    let! _ := println (Warning (FallbackDir out_dir)) in
    bret out_dir
  else bret out_dir.

Definition not_git (e : dir_entry) : bool := negb (String.eqb (e_name e) ".git").

(** One entry of the walk; those that could not be read were filtered out. *)
Definition copy_entry (out_dir : path) (entry : dir_entry) : B unit := fun tr =>
  let outpath := join c (join c out_dir "source") (e_path entry) in
  if e_is_dir entry then
    if h_make_dir h tr outpath then ((tr ++ [MadeDir outpath])%list, Returns tt)
    else (tr, Panics (CopyFailed outpath))
  else
    if h_copy h tr (e_path entry) outpath
    then ((tr ++ [Copied (e_path entry) outpath])%list, Returns tt)
    else (tr, Panics (CopyFailed outpath)).

Definition build_libsodium : B unit :=
  let! out_dir := env_unwrap h "OUT_DIR" in
  let! target := env_unwrap h "TARGET" in
  let! profile := env_unwrap h "PROFILE" in
  let! out_dir := build_dir target profile out_dir in
  let install_dir := join c out_dir "installed" in
  let source_dir := join c (join c out_dir "source") "libsodium" in
  let! _ := create_dir_all h install_dir in
  let! _ := create_dir_all h source_dir in
  let! _ := foreach (omap id (h_walk h "libsodium" not_git)) (copy_entry out_dir) in
  let! lib_dir := make_libsodium target source_dir install_dir in
  let! _ := println (LinkLib "static" (if contains "msvc" target then "libsodium" else "sodium")) in
  let! lib := to_str lib_dir in
  let! _ := println (LinkSearch lib) in
  let! include := to_str (join c source_dir "src/libsodium/include") in
  let! _ := println (MetaInclude include) in
  println (MetaLib lib).

Definition main : B unit :=
  let! _ := println (RerunIfEnvChanged "SODIUM_LIB_DIR") in
  let! _ := println (RerunIfEnvChanged "SODIUM_SHARED") in
  let! _ := println (RerunIfEnvChanged "SODIUM_USE_PKG_CONFIG") in
  let! _ := if negb (cfg_windows c) then println (RerunIfEnvChanged "SODIUM_DISABLE_PIE") else bret tt in
  if env_is_ok h "SODIUM_STATIC" then bpanic StaticDeprecated
  else
    let lib_dir_isset := env_is_ok h "SODIUM_LIB_DIR" in
    let use_pkg_isset :=
      if feature_use_pkg_config c then true else env_is_ok h "SODIUM_USE_PKG_CONFIG" in
    let shared_isset := env_is_ok h "SODIUM_SHARED" in
    if lib_dir_isset && use_pkg_isset then bpanic IncompatibleSettings
    else if lib_dir_isset then find_libsodium_env
    else if use_pkg_isset then
      let! _ := if shared_isset then println (Warning SharedNoEffectPkg) else bret tt in
      find_libsodium_pkg
    else
      let! _ := if shared_isset then println (Warning SharedNoEffectBuild) else bret tt in
      build_libsodium.

End Script.

End build.

(** ** testcrate/build.rs *)

Module testcrate.

Section Script.
Context (h : host).

(** [fs::read_dir(dir).unwrap().filter_map(Result::ok).find(named name).is_some()] *)
Definition dir_has (dir name : string) : B bool := fun tr =>
  match h_read_dir h tr dir with
  | Some entries => (tr, Returns (existsb (String.eqb name) (omap id entries)))
  | None => (tr, Panics (ReadDirFailed dir))
  end.

Definition main : B unit :=
  let! _ := println (RerunIfChanged "build.rs") in
  let! target := env_unwrap h "TARGET" in
  if env_is_ok h "SODIUM_LIB_DIR" then bret tt
  else
    let! include := env_unwrap h "DEP_SODIUM_INCLUDE" in
    let! header := dir_has include "sodium.h" in
    if negb header then bpanic HeaderNotFound
    else
      let! lib := env_unwrap h "DEP_SODIUM_LIB" in
      let file_name := if contains "msvc" target then "libsodium.lib" else "libsodium.a" in
      let! compiled_lib := dir_has lib file_name in
      if negb compiled_lib then bpanic LibNotFound else bret tt.

End Script.

End testcrate.

(** ** Reasoning about scripts *)

Section Triples.

(** From a trace where [P] holds, [m] returns in [Q] or panics in [E]. *)
Definition triple {A} (P : trace -> Prop) (m : B A) (Q : A -> trace -> Prop) (E : trace -> Prop) : Prop :=
  forall tr, P tr -> match m tr with (tr', Returns a) => Q a tr' | (tr', Panics _) => E tr' end.

Lemma triple_ret {A} (a : A) (Q : A -> trace -> Prop) E : triple (Q a) (bret a) Q E.
Proof. by intros tr. Qed.

Lemma triple_bind {A C} P (m : B A) (f : A -> B C) Q R E :
  triple P m Q E -> (forall a, triple (Q a) (f a) R E) -> triple P (bbind m f) R E.
Proof.
  intros Hm Hf tr Htr. unfold bbind. specialize (Hm tr Htr).
  destruct (m tr) as [tr' [a|why]]; [|done]. by apply Hf.
Qed.

Lemma triple_panic {A} (P E : trace -> Prop) why (Q : A -> trace -> Prop) :
  (forall tr, P tr -> E tr) -> triple P (bpanic why) Q E.
Proof. intros Hp tr Htr. by apply Hp. Qed.

Lemma triple_conseq {A} (P P' : trace -> Prop) (m : B A) (Q Q' : A -> trace -> Prop) (E E' : trace -> Prop) :
  triple P' m Q' E' -> (forall tr, P tr -> P' tr) -> (forall a tr, Q' a tr -> Q a tr) ->
  (forall tr, E' tr -> E tr) -> triple P m Q E.
Proof.
  intros Hm HP HQ HE tr Htr. specialize (Hm tr (HP _ Htr)). destruct (m tr) as [tr' [a|why]]; auto.
Qed.

Lemma triple_record P (Q : unit -> trace -> Prop) E e :
  (forall tr, P tr -> Q tt (tr ++ [e])%list) -> triple P (record e) Q E.
Proof. intros Hq tr Htr. by apply Hq. Qed.

Lemma triple_unwrap {A} (P : trace -> Prop) why (o : option A) (Q : A -> trace -> Prop) (E : trace -> Prop) :
  (forall tr, P tr -> match o with Some a => Q a tr | None => E tr end) -> triple P (unwrap why o) Q E.
Proof. intros Hq tr Htr. specialize (Hq tr Htr). by destruct o. Qed.

Lemma triple_pure {A} (phi : Prop) (P : trace -> Prop) (m : B A) Q E :
  (phi -> triple P m Q E) -> triple (fun tr => P tr /\ phi) m Q E.
Proof. intros Hm tr [Htr Hphi]. by apply Hm. Qed.

(** A loop keeps an invariant that may speak of the elements it has seen. *)
Lemma triple_foreach {A} (f : A -> B unit) (I : list A -> trace -> Prop) E l :
  (forall seen x, triple (I seen) (f x) (fun _ => I (seen ++ [x])%list) E) ->
  triple (I []) (foreach l f) (fun _ => I l) E.
Proof.
  intros Hf.
  assert (Hg : forall seen, triple (I seen) (foreach l f) (fun _ => I (seen ++ l)%list) E); [|apply Hg].
  induction l as [|x l IH]; intros seen; cbn [foreach].
  - rewrite app_nil_r. apply (triple_ret tt (fun _ => I seen)).
  - eapply triple_bind; [apply Hf|]. intros []. replace (seen ++ x :: l)%list with ((seen ++ [x]) ++ l)%list;
      [apply IH|]. by rewrite <- app_assoc.
Qed.

Lemma bret_bind {A C} (a : A) (f : A -> B C) : bbind (bret a) f = f a.
Proof. reflexivity. Qed.

(** A condition [P] that every event of [m] keeps. *)
Definition keeps {A} (P : trace -> Prop) (m : B A) : Prop := triple P m (fun _ => P) P.

Lemma build_keeps_bind {A C} P (m : B A) (f : A -> B C) : keeps P m -> (forall a, keeps P (f a)) -> keeps P (bbind m f).
Proof. apply triple_bind. Qed.
Lemma build_keeps_ret {A} P (a : A) : keeps P (bret a).
Proof. by intros tr. Qed.
Lemma build_keeps_panic {A} P why : keeps (A := A) P (bpanic why).
Proof. by intros tr. Qed.
Lemma build_keeps_unwrap {A} P why (o : option A) : keeps P (unwrap why o).
Proof. intros tr. by destruct o. Qed.
Lemma keeps_to_str P p : keeps P (to_str p).
Proof. intros tr. unfold to_str. by destruct (is_text p). Qed.
Lemma keeps_foreach {A} P (f : A -> B unit) l : (forall x, keeps P (f x)) -> keeps P (foreach l f).
Proof. intros Hf. apply (triple_foreach f (fun _ => P)). intros _ x. apply Hf. Qed.

End Triples.

Create HintDb prints discriminated.
#[export] Hint Resolve build_keeps_ret build_keeps_panic build_keeps_unwrap keeps_to_str : prints.

(** ** What is told to the linker *)

Definition is_link (e : event) : bool :=
  match e with Printed (LinkLib _ _) => true | Printed (LinkSearch _) => true | _ => false end.

(** Nothing was said about linking. *)
Definition quiet (tr : trace) : Prop := Forall (fun e => is_link e = false) tr.

Lemma quiet_snoc tr e : is_link e = false -> quiet tr -> quiet (tr ++ [e])%list.
Proof. intros. apply Forall_app. split; [done|]. by apply Forall_singleton. Qed.

(** The command was run and succeeded. *)
Definition succeeded (cmd : command) (e : event) : Prop :=
  exists out, e = RanCommand cmd (Exited true out).

Definition printed (d : directive) (e : event) : Prop := e = Printed d.

(** The trace is one where [Pre] held, and then events as in [ps]. *)
Definition trail (Pre : trace -> Prop) (ps : list (event -> Prop)) (tr : trace) : Prop :=
  exists pre l, Pre pre /\ Forall2 (fun P e => P e) ps l /\ tr = (pre ++ l)%list.

Lemma trail_nil (Pre : trace -> Prop) tr : Pre tr -> trail Pre [] tr.
Proof. intros Hp. exists tr, []. split; [done|]. split; [constructor|]. by rewrite app_nil_r. Qed.

Lemma trail_app Pre ps qs tr es :
  trail Pre ps tr -> Forall2 (fun P e => P e) qs es -> trail Pre (ps ++ qs)%list (tr ++ es)%list.
Proof.
  intros (pre & l & Hp & Hl & ->) He. exists pre, (l ++ es)%list. split; [done|].
  split; [by apply Forall2_app|]. by rewrite app_assoc.
Qed.

Lemma trail_snoc Pre ps (P : event -> Prop) tr e :
  trail Pre ps tr -> P e -> trail Pre (ps ++ [P])%list (tr ++ [e])%list.
Proof. intros Htr He. apply trail_app; [done|]. by constructor. Qed.

Section Linking.
Context (c : config) (h : host).
Hypothesis Hunix : cfg_windows c = false.
Import build.

Lemma join_unix p q : join c p q =
  if has_root c q then q
  else if String.eqb p EmptyString || ends_with "/"%char p then p +:+ q else p +:+ "/" +:+ q.
Proof.
  unfold join, drive, ends_with_sep, main_sep. rewrite Hunix.
  rewrite !andb_false_l, !orb_false_r. reflexivity.
Qed.

(** [p.join("x...")] for a name: its last character is the name's. *)
Lemma join_text p x q :
  byte_val (byte_of_ascii x) < 128 -> is_sep c x = false ->
  is_text (join c p (String x q)) = true -> is_text p = true.
Proof.
  intros Hx Hs. rewrite join_unix. unfold has_root. rewrite Hs.
  destruct (String.eqb p EmptyString || ends_with "/"%char p).
  - by apply is_text_app_inv.
  - by apply (is_text_app_inv p "/"%char).
Qed.

Lemma join_is_text p q : is_text p = true -> is_text q = true -> is_text (join c p q) = true.
Proof.
  intros Hp Hq. rewrite join_unix. destruct (has_root c q); [done|].
  destruct (_ || _); [by apply is_text_app|]. apply is_text_app; [done|]. by apply is_text_app.
Qed.

Lemma append_nonempty a b : b <> EmptyString -> String.eqb (a +:+ b) EmptyString = false.
Proof. intros Hb. destruct a; [by destruct b|done]. Qed.

Lemma is_sep_unix x : x <> "/"%char -> is_sep c x = false.
Proof. intros Hx. unfold is_sep. rewrite Hunix. cbn. rewrite orb_false_r. by apply Ascii.eqb_neq. Qed.

(** The directory the linker is told to search is the [--libdir] of the
    [configure] script. *)
Lemma join_lib out_dir :
  join c (join c out_dir "installed") "lib" = join c out_dir "installed" +:+ "/lib".
Proof.
  rewrite (join_unix _ "lib"). change (has_root c "lib") with (is_sep c "l"%char).
  rewrite is_sep_unix by done.
  assert (He : exists p, join c out_dir "installed" = p +:+ "installed").
  { rewrite join_unix. change (has_root c "installed") with (is_sep c "i"%char). rewrite is_sep_unix by done.
    destruct (_ || _); [by exists out_dir|]. exists (out_dir +:+ "/"). by rewrite string_app_assoc. }
  destruct He as [p ->]. by rewrite append_nonempty, ends_with_app.
Qed.

(** *** The steps of the build *)

(** The sources were copied below [out_dir]. *)
Definition ready (out_dir : path) (tr : trace) : Prop :=
  quiet tr /\
  forall e, Some e ∈ h_walk h "libsodium" not_git -> e_is_dir e = false ->
    Copied (e_path e) (join c (join c out_dir "source") (e_path e)) ∈ tr.

Lemma ready_snoc out_dir tr e : is_link e = false -> ready out_dir tr -> ready out_dir (tr ++ [e])%list.
Proof.
  intros He [Hq Hr]. split; [by apply quiet_snoc|]. intros x Hx Hd. apply elem_of_app. left. by apply Hr.
Qed.

Lemma status_triple P cmd (Q : bool * string -> trace -> Prop) E :
  (forall tr r, P tr -> match r with
    | NotStarted => E (tr ++ [RanCommand cmd r])%list
    | Exited ok out => Q (ok, out) (tr ++ [RanCommand cmd r])%list
    end) ->
  triple P (status h cmd) Q E.
Proof.
  intros Hq tr Htr. unfold status. specialize (Hq tr (h_run h tr cmd) Htr).
  by destruct (h_run h tr cmd).
Qed.

(** A command that must succeed leaves its success at the end of the trace. *)
Lemma must_run_triple Pre ps cmd help :
  (forall tr, trail Pre ps tr -> quiet tr) ->
  triple (trail Pre ps) (must_run h cmd help) (fun _ => trail Pre (ps ++ [succeeded cmd])%list) quiet.
Proof.
  intros Hq. unfold must_run. eapply triple_bind.
  - apply (status_triple _ _ (fun '(ok, _) tr =>
      if (ok : bool) then trail Pre (ps ++ [succeeded cmd])%list tr else quiet tr)).
    intros tr [|ok out] Htr; [apply quiet_snoc; auto|].
    destruct ok; [|apply quiet_snoc; auto]. apply trail_snoc; [done|]. by exists out.
  - intros [[] out]; cbn [negb]; [|by apply triple_panic].
    apply (triple_ret tt (fun _ => trail Pre (ps ++ [succeeded cmd])%list)).
Qed.

(** Not a cross compilation *)
Definition native (target : string) : Prop :=
  env_var h "HOST" = Some target /\ contains "-ios" target = false.

Lemma ready_quiet o tr : ready o tr -> quiet tr.
Proof. by intros [? ?]. Qed.

Lemma keeps_weaken {A} (P E : trace -> Prop) (m : B A) :
  keeps P m -> (forall tr, P tr -> E tr) -> triple P m (fun _ => P) E.
Proof. intros Hk He. by eapply triple_conseq. Qed.

Lemma tool_settings_triple o target :
  triple (ready o) (tool_settings c h target)
    (fun '(_, _, _, cross) tr => ready o tr /\ (cross = false <-> native target)) quiet.
Proof.
  pose proof (ready_quiet o) as Hq. unfold tool_settings.
  eapply triple_bind; [apply keeps_weaken; [apply build_keeps_unwrap|done]|]. intros [cc_path cc_flags].
  eapply triple_bind; [apply keeps_weaken; [apply keeps_to_str|done]|]. intros compiler.
  eapply triple_bind; [apply keeps_weaken; [apply keeps_to_str|done]|]. intros cflags.
  eapply triple_bind.
  { apply (triple_unwrap _ _ _ (fun host tr => ready o tr /\ env_var h "HOST" = Some host)).
    intros tr Htr. destruct (env_var h "HOST"); [done|by apply Hq]. }
  intros host. destruct (contains "-ios" target) eqn:Ei.
  - assert (Hn : true = false <-> native target) by (unfold native; split; [done|intros [_ ?]; congruence]).
    apply triple_pure. intros _.
    eapply triple_bind.
    { apply (status_triple _ _ (fun _ => ready o)). intros tr [|ok out] Htr; [apply quiet_snoc; auto|by apply ready_snoc]. }
    intros [ok out]. destruct ok; cbn [negb]; [|by apply triple_panic].
    eapply triple_bind; [apply keeps_weaken; [apply keeps_to_str|done]|]. intros xcode.
    eapply triple_bind; [apply keeps_weaken; [apply keeps_to_str|done]|]. intros sdk_sim.
    eapply triple_bind; [apply keeps_weaken; [apply keeps_to_str|done]|]. intros sdk_ios.
    destruct (ios_settings target sdk_ios sdk_sim) as [[flags host_arg]|]; [|by apply triple_panic].
    by intros tr Htr.
  - assert (Hn : env_var h "HOST" = Some host ->
                 (negb (String.eqb target host) = false <-> native target)).
    { intros Hh. unfold native. rewrite Hh, negb_false_iff, String.eqb_eq. naive_solver. }
    destruct (contains "i686" target); intros tr [Htr Hh]; (split; [done|by apply Hn]).
Qed.

(** The three commands of a successful build, in this order *)
Definition build_commands (configure source_dir : path) (compiler cflags install host_arg jobs : string)
    (cross : bool) : list command :=
  [configure_command h configure source_dir compiler cflags
     ("--prefix=" +:+ install) ("--libdir=" +:+ install +:+ "/lib") host_arg;
   Command "make" [if cross then "all" else "check"; "-j" +:+ jobs] [("V", "1")] (Some source_dir);
   Command "make" ["install"] [] (Some source_dir)].

Definition built (o : path) (target : string) (install source_dir : path) (tr : trace) : Prop :=
  exists configure compiler cflags host_arg jobs cross,
    trail (ready o) (succeeded <$> build_commands configure source_dir compiler cflags install host_arg jobs cross) tr /\
    (cross = false <-> native target).

Lemma trail_quiet o (cmds : list command) tr : trail (ready o) (succeeded <$> cmds) tr -> quiet tr.
Proof.
  intros (pre & l & [Hq _] & Hl & ->). apply Forall_app. split; [done|].
  remember (succeeded <$> cmds) as ps eqn:Hps. revert cmds Hps.
  induction Hl as [|P e ps l He Hl IH]; intros cmds Hps; constructor.
  - destruct cmds; [done|]. injection Hps as -> ?. by destruct He as [out ->].
  - destruct cmds; [done|]. injection Hps as ? ?. by eapply IH.
Qed.

Lemma make_libsodium_triple o target source_dir install_dir :
  triple (ready o) (make_libsodium c h target source_dir install_dir)
    (fun lib tr => lib = join c install_dir "lib" /\ is_text install_dir = true /\
                   built o target install_dir source_dir tr) quiet.
Proof.
  pose proof (ready_quiet o) as Hq. unfold make_libsodium. rewrite Hunix.
  eapply triple_bind; [apply tool_settings_triple|]. intros [[[compiler cflags] host_arg] cross].
  apply triple_pure. intros Hx.
  eapply triple_bind with (Q := fun i tr => ready o tr /\ i = install_dir /\ is_text install_dir = true).
  { unfold to_str. destruct (is_text install_dir) eqn:Ht; [by intros tr|by apply triple_panic]. }
  intros install. apply triple_pure. intros [Hi Ht]. subst install.
  eapply triple_bind with (Q := fun _ => ready o); [by intros tr|]. intros found.
  eapply triple_bind; [apply keeps_weaken; [apply build_keeps_unwrap|done]|]. intros configure.
  eapply triple_bind with (Q := fun _ => trail (ready o) [succeeded (configure_command h configure source_dir
    compiler cflags ("--prefix=" +:+ install_dir) ("--libdir=" +:+ install_dir +:+ "/lib") host_arg)]).
  { eapply triple_conseq; [apply (must_run_triple (ready o) [])|apply trail_nil|done|done].
    intros tr. apply (trail_quiet o []). }
  intros []. eapply triple_bind.
  { apply keeps_weaken; [apply build_keeps_unwrap|]. intros tr. apply (trail_quiet o [_]). }
  intros jobs. eapply triple_bind; [apply must_run_triple; intros tr; apply (trail_quiet o [_])|].
  intros []. eapply triple_bind; [apply must_run_triple; intros tr; apply (trail_quiet o [_; _])|].
  intros [] tr Htr. split; [done|]. split; [done|].
  exists configure, compiler, cflags, host_arg, jobs, cross. by split.
Qed.

Lemma copy_triple o :
  triple quiet (foreach (omap id (h_walk h "libsodium" not_git)) (copy_entry c h o)) (fun _ => ready o) quiet.
Proof.
  set (dst := fun e => join c (join c o "source") (e_path e)).
  eapply triple_conseq.
  - apply (triple_foreach _ (fun seen tr => quiet tr /\
      forall e, e ∈ seen -> e_is_dir e = false -> Copied (e_path e) (dst e) ∈ tr) quiet).
    intros seen x tr [Hq Hs]. unfold copy_entry. fold (dst x).
    assert (Hmore : forall ev, is_link ev = false -> (e_is_dir x = false -> ev = Copied (e_path x) (dst x)) ->
      quiet (tr ++ [ev])%list /\ forall e, e ∈ (seen ++ [x])%list -> e_is_dir e = false ->
        Copied (e_path e) (dst e) ∈ (tr ++ [ev])%list).
    { intros ev Hl Hev. split; [by apply quiet_snoc|]. intros e [He|He]%elem_of_app Hd; apply elem_of_app.
      - left. by apply Hs.
      - apply list_elem_of_singleton in He as ->. right. rewrite <- Hev by done. by left. }
    destruct (e_is_dir x) eqn:Ed.
    + destruct (h_make_dir h tr (dst x)); [|done]. by apply Hmore.
    + destruct (h_copy h tr (e_path x) (dst x)); [|done]. by apply Hmore.
  - intros tr Hq. split; [done|]. intros e He. by apply elem_of_nil in He.
  - intros [] tr [Hq Hs]. split; [done|]. intros e He Hd. apply Hs; [|done].
    apply list_elem_of_omap. by exists (Some e).
  - done.
Qed.

Lemma println_triple Pre ps d :
  triple (trail Pre ps) (println d) (fun _ => trail Pre (ps ++ [printed d])%list) quiet.
Proof. intros tr Htr. by apply trail_snoc. Qed.

(** Where the build happens *)
Definition chosen_dir (target profile out_dir : string) : path :=
  if contains " " out_dir
  then join c (join c (join c (h_temp_dir h) "libsodium-sys") target) profile else out_dir.

Definition link_directives (o : path) (target : string) : list directive :=
  let lib := join c o "installed" +:+ "/lib" in
  [LinkLib "static" (if contains "msvc" target then "libsodium" else "sodium");
   LinkSearch lib;
   MetaInclude (join c (join c (join c o "source") "libsodium") "src/libsodium/include");
   MetaLib lib].

(** The trace of a successful build: the sources are copied, then the three
    commands succeed, in their order, and then the directives are printed. *)
Definition built_and_linked (o : path) (target : string) (tr : trace) : Prop :=
  exists configure compiler cflags host_arg jobs cross,
    trail (ready o)
      ((succeeded <$> build_commands configure (join c (join c o "source") "libsodium") compiler cflags
         (join c o "installed") host_arg jobs cross) ++ (printed <$> link_directives o target))%list tr /\
    (cross = false <-> native target).

Lemma build_libsodium_triple :
  triple quiet (build_libsodium c h) (fun _ tr => exists out_dir target profile,
    env_var h "OUT_DIR" = Some out_dir /\ env_var h "TARGET" = Some target /\
    env_var h "PROFILE" = Some profile /\ is_text (chosen_dir target profile out_dir) = true /\
    built_and_linked (chosen_dir target profile out_dir) target tr) quiet.
Proof.
  assert (Henv : forall k, triple quiet (env_unwrap h k) (fun v tr => quiet tr /\ env_var h k = Some v) quiet).
  { intros k. apply triple_unwrap. intros tr Htr. by destruct (env_var h k). }
  unfold build_libsodium.
  eapply triple_bind; [apply Henv|]. intros out_dir. apply triple_pure. intros Hout.
  eapply triple_bind; [apply Henv|]. intros target. apply triple_pure. intros Htarget.
  eapply triple_bind; [apply Henv|]. intros profile. apply triple_pure. intros Hprofile.
  eapply triple_bind with (Q := fun o tr => quiet tr /\ o = chosen_dir target profile out_dir).
  { unfold build_dir, to_str, chosen_dir. destruct (is_text out_dir); [|by apply triple_panic].
    intros tr Htr. cbn. destruct (contains " " out_dir); [|done]. split; [by apply quiet_snoc|done]. }
  intros o. apply triple_pure. intros Ho. set (install_dir := join c o "installed").
  set (source_dir := join c (join c o "source") "libsodium").
  assert (Hmk : forall p, triple quiet (create_dir_all h p) (fun _ => quiet) quiet).
  { intros p tr Htr. unfold create_dir_all. destruct (h_make_dir h tr p); [by apply quiet_snoc|done]. }
  do 2 (eapply triple_bind; [apply Hmk|]; intros []).
  eapply triple_bind; [apply copy_triple|]. intros [].
  eapply triple_bind; [apply make_libsodium_triple|]. intros lib.
  intros tr (Hlib & Ht & configure & compiler & cflags & host_arg & jobs & cross & Htr & Hx).
  fold install_dir in Ht, Hlib.
  assert (Hto : is_text o = true).
  { apply (join_text o "i"%char "nstalled"); [done|by apply is_sep_unix|exact Ht]. }
  assert (Hlt : is_text lib = true) by (rewrite Hlib; by apply join_is_text).
  set (inc := join c source_dir "src/libsodium/include").
  assert (Hit : is_text inc = true) by (by repeat apply join_is_text).
  unfold bbind, println, record, to_str. rewrite Hlt. fold inc. rewrite Hit. cbn.
  exists out_dir, target, profile. rewrite <- Ho. split_and!; try done.
  exists configure, compiler, cflags, host_arg, jobs, cross. split; [|done].
  assert (Hl : lib = install_dir +:+ "/lib") by (rewrite Hlib; apply join_lib).
  rewrite Hl. fold source_dir install_dir inc.
  rewrite <- !app_assoc. apply trail_app; [done|]. by repeat constructor.
Qed.

(** Nothing selects another strategy than building from source. *)
Definition from_source : Prop :=
  env_is_ok h "SODIUM_STATIC" = false /\ env_is_ok h "SODIUM_LIB_DIR" = false /\
  feature_use_pkg_config c = false /\ env_is_ok h "SODIUM_USE_PKG_CONFIG" = false.

Lemma keeps_println (P : trace -> Prop) d :
  (forall tr, P tr -> P (tr ++ [Printed d])%list) -> keeps P (println d).
Proof. intros Hp tr Htr. by apply Hp. Qed.

Lemma from_source_triple P Q E :
  (forall tr d, is_link (Printed d) = false -> P tr -> P (tr ++ [Printed d])%list) ->
  from_source -> triple P (build_libsodium c h) Q E -> triple P (main c h) Q E.
Proof.
  intros Hp (H1 & H2 & H3 & H4) Hb. unfold main. rewrite H1, H2, H3, H4. cbn [andb].
  intros tr Htr. unfold println, record. cbn. rewrite Hunix. cbn.
  destruct (env_is_ok h "SODIUM_SHARED"); cbn; apply Hb; auto 10.
Qed.

End Linking.

#[export] Hint Extern 1 (keeps _ (bbind _ _)) => apply build_keeps_bind; [|intros] : prints.
#[export] Hint Extern 1 (keeps _ (foreach _ _)) => apply keeps_foreach; intros : prints.
#[export] Hint Extern 1 (keeps _ (if ?b then _ else _)) => destruct b : prints.

(** *** What a probed library makes the script print *)

(** Each path of the list with the directive that shows it *)
Definition shown_paths (lib : library) : list (directive * path) :=
  ((fun p => (MetaLib p, p)) <$> link_paths lib) ++ ((fun p => (MetaInclude p, p)) <$> include_paths lib).

(** The directives of [paths] were printed up to the first path that is not
    text, which is a panic. *)
Definition shows (pre : trace) (paths : list (directive * path)) (tr : trace) (a : answer unit) : Prop :=
  exists shown rest, paths = (shown ++ rest)%list /\
    Forall (fun dp => is_text dp.2 = true) shown /\
    tr = (pre ++ (Printed <$> shown.*1))%list /\
    match rest with
    | [] => a = Returns tt
    | (_, p) :: _ => is_text p = false /\ a = Panics (NotText p)
    end.

Lemma shows_foreach (mk : path -> directive) ps pre :
  let '(tr, a) := foreach ps (fun p => let! s := to_str p in println (mk s)) pre in
  shows pre ((fun p => (mk p, p)) <$> ps) tr a.
Proof.
  revert pre. induction ps as [|p ps IH]; intros pre; cbn [foreach fmap list_fmap].
  - exists [], []. split_and!; [done|constructor| |done]. by rewrite app_nil_r.
  - unfold bbind at 1, to_str. destruct (is_text p) eqn:Et.
    + cbn. specialize (IH (pre ++ [Printed (mk p)])%list).
      destruct (foreach _ _ _) as [tr a]. destruct IH as (shown & rest & Hs & Ht & -> & Ha).
      exists ((mk p, p) :: shown), rest. split_and!; [by cbn; f_equal|by constructor| |done].
      cbn. by rewrite <- app_assoc.
    + exists [], ((mk p, p) :: ((fun q => (mk q, q)) <$> ps)). cbn.
      split_and!; [done|constructor| |done|done]. by rewrite app_nil_r.
Qed.

(** A first group of paths shown to its end is followed by the second one. *)
Lemma shows_app pre paths paths' tr a (k : B unit) :
  shows pre paths tr a ->
  (forall tr, let '(tr', a') := k tr in shows tr paths' tr' a') ->
  let '(tr', a') := match a with Returns _ => k tr | Panics why => (tr, Panics why) end in
  shows pre (paths ++ paths')%list tr' a'.
Proof.
  intros (shown & rest & -> & Ht & Htr & Ha) Hk. destruct rest as [|[d p] rest].
  - subst a. specialize (Hk tr). destruct (k tr) as [tr' a'].
    destruct Hk as (shown' & rest' & -> & Ht' & -> & Ha').
    exists (shown ++ shown')%list, rest'. rewrite app_nil_r, Htr.
    split_and!; [by rewrite app_assoc|by apply Forall_app| |done].
    by rewrite !fmap_app, app_assoc.
  - destruct Ha as [Hp ->]. exists shown, ((d, p) :: rest ++ paths')%list.
    split_and!; [by rewrite <- app_assoc|done|done|done|done].
Qed.

Definition version_warning (lib : library) : list directive :=
  if String.eqb (version lib) build.VERSION then [] else [Warning (OtherVersion (version lib) build.VERSION)].

Lemma find_libsodium_pkg_spec c h pre :
  let '(tr, a) := build.find_libsodium_pkg c h pre in
  if cfg_msvc c then tr = pre /\ a = Panics PkgUnsupported
  else let '(evs, found) := h_pkg_config h pre "libsodium" in
    match found with
    | None => tr = (pre ++ evs)%list /\ a = Panics PkgConfigFailed
    | Some lib => shows (pre ++ evs ++ (Printed <$> version_warning lib))%list (shown_paths lib) tr a
    end.
Proof.
  unfold build.find_libsodium_pkg. destruct (cfg_msvc c); [done|].
  unfold bbind at 1, probe. destruct (h_pkg_config h pre "libsodium") as [evs [lib|]]; [|done].
  unfold bbind at 1.
  assert (Hw : (if negb (String.eqb (version lib) build.VERSION)
                then println (Warning (OtherVersion (version lib) build.VERSION)) else bret tt) (pre ++ evs)%list
             = ((pre ++ evs ++ (Printed <$> version_warning lib))%list, Returns tt)).
  { unfold version_warning. destruct (String.eqb _ _); cbn; unfold bret, println, record.
    - by rewrite app_nil_r.
    - by rewrite <- app_assoc. }
  rewrite Hw. unfold bbind at 1.
  pose proof (shows_foreach MetaLib (link_paths lib) (pre ++ evs ++ (Printed <$> version_warning lib))%list) as Hl.
  destruct (foreach (link_paths lib) _ _) as [tr a].
  apply (shows_app _ _ _ _ _ _ Hl (shows_foreach MetaInclude (include_paths lib))).
Qed.

(** *** Arguments of commands *)

Definition no_space (s : string) : Prop := contains " " s = false.

(** No command was given an argument with a space in it. *)
Definition spaceless (tr : trace) : Prop :=
  Forall (fun e => match e with RanCommand cmd _ => Forall no_space (cmd_args cmd) | _ => True end) tr.

Lemma no_space_app a b : no_space (a +:+ b) <-> no_space a /\ no_space b.
Proof. unfold no_space. rewrite contains_char_app. apply orb_false_iff. Qed.

Lemma spaceless_snoc tr e :
  match e with RanCommand cmd _ => Forall no_space (cmd_args cmd) | _ => True end ->
  spaceless tr -> spaceless (tr ++ [e])%list.
Proof. intros. apply Forall_app. split; [done|]. by apply Forall_singleton. Qed.

Section Spaces.
Context (c : config) (h : host).
Hypothesis Hunix : cfg_windows c = false.
Import build.

Lemma join_no_space p q : no_space p -> no_space q -> no_space (join c p q).
Proof.
  intros Hp Hq. rewrite join_unix by done. destruct (has_root c q); [done|].
  destruct (_ || _); rewrite ?no_space_app; done.
Qed.

Lemma keeps_spaceless_println d : keeps spaceless (println d).
Proof. intros tr Htr. by apply spaceless_snoc. Qed.

Lemma keeps_spaceless_must_run cmd help : Forall no_space (cmd_args cmd) -> keeps spaceless (must_run h cmd help).
Proof.
  intros Hc. apply build_keeps_bind; [|intros [[] ?]; auto with prints].
  apply status_triple. intros tr [|ok out] Htr; by apply spaceless_snoc.
Qed.

(** The [--host] argument comes from [TARGET]. *)
Lemma tool_settings_spaceless target :
  no_space target ->
  triple spaceless (tool_settings c h target)
    (fun '(_, _, host_arg, _) tr => spaceless tr /\ no_space host_arg) spaceless.
Proof.
  intros Ht. assert (Hh : no_space ("--host=" +:+ target)) by (by apply no_space_app).
  unfold tool_settings. eapply triple_bind; [apply build_keeps_unwrap|]. intros [cc_path cc_flags].
  eapply triple_bind; [apply keeps_to_str|]. intros compiler.
  eapply triple_bind; [apply keeps_to_str|]. intros cflags.
  eapply triple_bind; [apply build_keeps_unwrap|]. intros host.
  destruct (contains "-ios" target); [|by destruct (contains "i686" target); intros tr Htr].
  eapply triple_bind.
  { apply (status_triple _ _ _ (fun _ => spaceless)). intros tr [|ok out] Htr; apply spaceless_snoc;
      try done; by repeat constructor. }
  intros [[] out]; cbn [negb]; [|by apply triple_panic].
  eapply triple_bind; [apply keeps_to_str|]. intros xcode.
  eapply triple_bind; [apply keeps_to_str|]. intros sdk_sim.
  eapply triple_bind; [apply keeps_to_str|]. intros sdk_ios.
  destruct (ios_settings target sdk_ios sdk_sim) as [[flags host_arg]|] eqn:E; [|by apply triple_panic].
  intros tr Htr. split; [done|]. unfold ios_settings in E.
  repeat match type of E with (if ?b then _ else _) = _ => destruct b end; by simplify_eq.
Qed.

Lemma make_libsodium_spaceless target source_dir install_dir :
  no_space target -> no_space install_dir ->
  (forall jobs, env_var h "NUM_JOBS" = Some jobs -> no_space jobs) ->
  keeps spaceless (make_libsodium c h target source_dir install_dir).
Proof.
  intros Ht Hi Hj. unfold make_libsodium. rewrite Hunix.
  eapply triple_bind; [by apply tool_settings_spaceless|]. intros [[[compiler cflags] host_arg] cross].
  apply triple_pure. intros Hh. unfold to_str. destruct (is_text install_dir); [|by apply triple_panic].
  rewrite bret_bind.
  apply build_keeps_bind; [by intros tr|]. intros found. apply build_keeps_bind; [auto with prints|]. intros configure.
  apply build_keeps_bind; [apply keeps_spaceless_must_run|intros _].
  { unfold configure_command. cbn [cmd_args]. apply Forall_app. split.
    - destruct (env_is_ok h "SODIUM_DISABLE_PIE"); by repeat constructor.
    - repeat constructor; rewrite ?no_space_app; done. }
  eapply triple_bind with (Q := fun jobs tr => spaceless tr /\ no_space jobs).
  { apply triple_unwrap. intros tr Htr. destruct (env_var h "NUM_JOBS"); auto. }
  intros jobs. apply triple_pure. intros Hjobs.
  apply build_keeps_bind; [apply keeps_spaceless_must_run|intros _].
  { repeat constructor; [by destruct cross|by apply no_space_app]. }
  apply build_keeps_bind; [apply keeps_spaceless_must_run; by repeat constructor|intros _; apply build_keeps_ret].
Qed.

Lemma build_libsodium_spaceless :
  no_space (h_temp_dir h) ->
  (forall k v, k ∈ ["TARGET"; "PROFILE"; "NUM_JOBS"] -> env_var h k = Some v -> no_space v) ->
  keeps spaceless (build_libsodium c h).
Proof.
  intros Htmp Henv.
  assert (He : forall k, triple spaceless (env_unwrap h k)
    (fun v tr => spaceless tr /\ env_var h k = Some v) spaceless).
  { intros k. apply triple_unwrap. intros tr Htr. by destruct (env_var h k). }
  unfold build_libsodium.
  eapply triple_bind; [apply He|]. intros out_dir. apply triple_pure. intros _.
  eapply triple_bind; [apply He|]. intros target. apply triple_pure. intros Ht%Henv; [|set_solver].
  eapply triple_bind; [apply He|]. intros profile. apply triple_pure. intros Hp%Henv; [|set_solver].
  eapply triple_bind with (Q := fun o tr => spaceless tr /\ no_space o).
  { unfold build_dir, to_str. destruct (is_text out_dir); [|by apply triple_panic]. rewrite bret_bind.
    destruct (contains " " out_dir) eqn:E; [|by intros tr].
    intros tr Htr. split; [by apply spaceless_snoc|]. by repeat apply join_no_space. }
  intros o. apply triple_pure. intros Ho.
  assert (Hmk : forall p, keeps spaceless (create_dir_all h p)).
  { intros p tr Htr. unfold create_dir_all. destruct (h_make_dir h tr p); [by apply spaceless_snoc|done]. }
  do 2 (apply build_keeps_bind; [apply Hmk|intros _]).
  apply build_keeps_bind; [|intros _].
  { apply keeps_foreach. intros e tr Htr. unfold copy_entry.
    destruct (e_is_dir e); [destruct (h_make_dir h tr _)|destruct (h_copy h tr _ _)]; try done;
      by apply spaceless_snoc. }
  apply build_keeps_bind; [|intros lib_dir].
  { apply make_libsodium_spaceless; [done|by apply join_no_space|]. intros jobs Hj. eapply Henv; [|exact Hj]. set_solver. }
  repeat (apply build_keeps_bind; [first [apply keeps_spaceless_println|apply keeps_to_str]|intros]).
  apply keeps_spaceless_println.
Qed.

End Spaces.

(** The directives every run starts with *)
Definition reruns (c : config) : trace :=
  Printed <$> (RerunIfEnvChanged <$>
    (["SODIUM_LIB_DIR"; "SODIUM_SHARED"; "SODIUM_USE_PKG_CONFIG"] ++
     if cfg_windows c then [] else ["SODIUM_DISABLE_PIE"])%list).

Lemma main_start c h :
  build.main c h [] =
    let lib_dir := env_is_ok h "SODIUM_LIB_DIR" in
    let pkg := feature_use_pkg_config c || env_is_ok h "SODIUM_USE_PKG_CONFIG" in
    let warn w := if env_is_ok h "SODIUM_SHARED" then println (Warning w) else bret tt in
    if env_is_ok h "SODIUM_STATIC" then (reruns c, Panics StaticDeprecated)
    else if lib_dir && pkg then (reruns c, Panics IncompatibleSettings)
    else if lib_dir then build.find_libsodium_env c h (reruns c)
    else if pkg then bbind (warn SharedNoEffectPkg) (fun _ => build.find_libsodium_pkg c h) (reruns c)
    else bbind (warn SharedNoEffectBuild) (fun _ => build.build_libsodium c h) (reruns c).
Proof.
  unfold build.main, reruns, println, record, bbind.
  destruct (cfg_windows c), (env_is_ok h "SODIUM_STATIC"), (env_is_ok h "SODIUM_LIB_DIR"),
    (feature_use_pkg_config c), (env_is_ok h "SODIUM_USE_PKG_CONFIG"); reflexivity.
Qed.

(** ** A reference machine *)

Module RefHost.

(** A 64-bit Linux machine without the variables that select a strategy *)
Definition cfg : config := Config false false true false.

Definition env (k : string) : option string :=
  if String.eqb k "OUT_DIR" then Some "/work/my project/out"
  else if String.eqb k "TARGET" then Some "x86_64-unknown-linux-gnu"
  else if String.eqb k "HOST" then Some "x86_64-unknown-linux-gnu"
  else if String.eqb k "PROFILE" then Some "debug"
  else if String.eqb k "NUM_JOBS" then Some "8"
  else None.

Definition sources : list dir_entry :=
  [DirEntry "libsodium" "libsodium" true; DirEntry "libsodium/configure" "configure" false;
   DirEntry "libsodium/src/libsodium/include" "include" true;
   DirEntry "libsodium/src/libsodium/include/sodium.h" "sodium.h" false].

(** Every command succeeds, every file can be written, and directories list
    what was put there. *)
Definition host (env : string -> option string) : host := {|
  h_env := env;
  h_temp_dir := "/tmp";
  h_pkg_config _ name :=
    ([RanCommand (Command "pkg-config" ["--libs"; "--cflags"; name] [] None)
        (Exited true "-I/usr/include -lsodium");
      Printed (LinkLib "dylib" "sodium")],
     Some (Library "1.0.18" [] ["/usr/include"]));
  h_cc := Some ("cc", "-O2");
  h_run _ _ := Exited true EmptyString;
  h_canonicalize _ p := Some p;
  h_make_dir _ _ := true;
  h_copy _ _ _ := true;
  h_walk _ p := Some <$> List.filter p sources;
  h_read_dir _ _ := Some [Some "configure"; Some "sodium.h"; None; Some "libsodium.a"]
|}.

Definition out : path := "/tmp/libsodium-sys/x86_64-unknown-linux-gnu/debug".

(** What the package that depends on it sees *)
Definition dep_env (k : string) : option string :=
  if String.eqb k "DEP_SODIUM_INCLUDE" then Some (out +:+ "/source/libsodium/src/libsodium/include")
  else if String.eqb k "DEP_SODIUM_LIB" then Some (out +:+ "/installed/lib")
  else env k.

End RefHost.

(** ** Properties *)

(** C21. A build from source tells the linker only about what it installed: when
    the script returns, every source file was copied first, then [configure],
    [make check] ([make all] in a cross compilation) and [make install]
    succeeded, in this order, and then the directory to search is the very
    [--libdir] that was configured.  Whatever else happens (a variable that is
    missing, a command that fails or cannot be started, a file that cannot be
    copied, a path that is not text), the script panics before it has printed a
    directive about linking. *)
Theorem build_links_what_it_installed c h
    (Hunix : cfg_windows c = false) (Hsrc : from_source c h) :
  match build.main c h [] with
  | (tr, Returns _) => exists out_dir target profile,
      env_var h "OUT_DIR" = Some out_dir /\ env_var h "TARGET" = Some target /\
      env_var h "PROFILE" = Some profile /\
      built_and_linked c h (chosen_dir c h target profile out_dir) target tr
  | (tr, Panics _) => quiet tr
  end.
Proof.
  assert (H : triple quiet (build.main c h) (fun _ tr => exists out_dir target profile,
      env_var h "OUT_DIR" = Some out_dir /\ env_var h "TARGET" = Some target /\
      env_var h "PROFILE" = Some profile /\
      built_and_linked c h (chosen_dir c h target profile out_dir) target tr) quiet).
  { apply from_source_triple; [done|intros; by apply quiet_snoc|done|].
    eapply triple_conseq; [by apply build_libsodium_triple|done| |done]. naive_solver. }
  apply (H []). constructor.
Qed.

Lemma build_links_what_it_installed_witness :
  (build.main RefHost.cfg (RefHost.host RefHost.env) []).2 = Returns tt /\
  match build.main RefHost.cfg (RefHost.host RefHost.env) [] with
  | (tr, Returns _) => exists out_dir target profile,
      env_var (RefHost.host RefHost.env) "OUT_DIR" = Some out_dir /\
      env_var (RefHost.host RefHost.env) "TARGET" = Some target /\
      env_var (RefHost.host RefHost.env) "PROFILE" = Some profile /\
      built_and_linked RefHost.cfg (RefHost.host RefHost.env)
        (chosen_dir RefHost.cfg (RefHost.host RefHost.env) target profile out_dir) target tr
  | (tr, Panics _) => quiet tr
  end.
Proof.
  split; [vm_compute; reflexivity|].
  apply (build_links_what_it_installed RefHost.cfg (RefHost.host RefHost.env) eq_refl).
  repeat split; reflexivity.
Defined.

(** C39. Which strategy runs, and all it does.  After the directives every run
    starts with, [SODIUM_STATIC], or both a library directory and pkg-config, is
    a panic and nothing else.  With only a library directory the script cannot
    fail, and prints the directory and the library.  With pkg-config, what the
    crate of that name does comes next (it runs the program and prints the
    directives about linking); if it found the library, the script itself adds
    only a warning about another version than the tested one and the paths of
    the library, up to the first one that is not text.  Otherwise it builds from
    source.  [SODIUM_SHARED] selects the dynamic library of a library directory,
    and is answered by a warning elsewhere. *)
Theorem build_strategies c h :
  let lib_dir := env_is_ok h "SODIUM_LIB_DIR" in
  let pkg := feature_use_pkg_config c || env_is_ok h "SODIUM_USE_PKG_CONFIG" in
  let shared := env_is_ok h "SODIUM_SHARED" in
  let warned w := (reruns c ++ if shared then [Printed (Warning w)] else [])%list in
  let '(tr, a) := build.main c h [] in
  if env_is_ok h "SODIUM_STATIC" then tr = reruns c /\ a = Panics StaticDeprecated
  else if lib_dir && pkg then tr = reruns c /\ a = Panics IncompatibleSettings
  else if lib_dir then
    exists dir, env_var h "SODIUM_LIB_DIR" = Some dir /\ a = Returns tt /\
      tr = (reruns c ++ (Printed <$> [LinkSearch dir;
        LinkLib (if shared then "dylib" else "static") (if cfg_msvc c then "libsodium" else "sodium");
        Warning (UnknownVersion build.VERSION)]))%list
  else if pkg then
    let pre := warned SharedNoEffectPkg in
    if cfg_msvc c then tr = pre /\ a = Panics PkgUnsupported
    else let '(evs, found) := h_pkg_config h pre "libsodium" in
      match found with
      | None => tr = (pre ++ evs)%list /\ a = Panics PkgConfigFailed
      | Some lib => shows (pre ++ evs ++ (Printed <$> version_warning lib))%list (shown_paths lib) tr a
      end
  else (tr, a) = build.build_libsodium c h (warned SharedNoEffectBuild).
Proof.
  intros lib_dir pkg shared warned. rewrite main_start. fold lib_dir pkg shared. cbv zeta.
  assert (Hw : forall w, (if shared then println (Warning w) else bret tt) (reruns c) = (warned w, Returns tt)).
  { intros w. unfold warned. destruct shared; [done|]. by rewrite app_nil_r. }
  destruct (env_is_ok h "SODIUM_STATIC"); [done|]. destruct lib_dir eqn:El.
  - destruct pkg; cbn [andb orb]; [done|].
    unfold lib_dir, env_is_ok in El. apply bool_decide_eq_true in El as [dir Hdir].
    unfold build.find_libsodium_env, env_unwrap, bbind, println, record in *. rewrite Hdir in *. cbn in *.
    exists dir. split_and!; try done. by rewrite <- !app_assoc.
  - cbn [andb]. destruct pkg; unfold bbind at 1; rewrite Hw.
    + apply find_libsodium_pkg_spec.
    + by destruct (build.build_libsodium c h _).
Qed.

(** Two runs: a library directory, and pkg-config. *)
Lemma build_strategies_witness :
  let reruns := Printed <$> [RerunIfEnvChanged "SODIUM_LIB_DIR"; RerunIfEnvChanged "SODIUM_SHARED";
        RerunIfEnvChanged "SODIUM_USE_PKG_CONFIG"; RerunIfEnvChanged "SODIUM_DISABLE_PIE"] in
  build.main RefHost.cfg (RefHost.host (fun k =>
    if String.eqb k "SODIUM_LIB_DIR" then Some "/opt/sodium" else RefHost.env k)) [] =
    ((reruns ++ (Printed <$>
       [LinkSearch "/opt/sodium"; LinkLib "static" "sodium"; Warning (UnknownVersion "1.0.18")]))%list,
     Returns tt) /\
  build.main RefHost.cfg (RefHost.host (fun k =>
    if String.eqb k "SODIUM_USE_PKG_CONFIG" then Some "1" else RefHost.env k)) [] =
    ((reruns ++ (h_pkg_config (RefHost.host RefHost.env) [] "libsodium").1 ++
      [Printed (MetaInclude "/usr/include")])%list, Returns tt).
Proof. split; reflexivity. Qed.

(** The reason for the fallback directory, spaces in paths that libsodium's
    build cannot handle, is dealt with as long as the fallback itself has none:
    if the temporary directory and the variables [TARGET], [PROFILE] and
    [NUM_JOBS] have no space, no command the script runs has an argument with a
    space, whatever [OUT_DIR] is, and whether or not the script returns. *)
Theorem build_no_spaces c h
    (Hunix : cfg_windows c = false) (Hsrc : from_source c h) (Htmp : no_space (h_temp_dir h))
    (Henv : forall k v, k ∈ ["TARGET"; "PROFILE"; "NUM_JOBS"] -> env_var h k = Some v -> no_space v) :
  spaceless (build.main c h []).1.
Proof.
  assert (Hm : keeps spaceless (build.main c h)).
  { apply from_source_triple; [done|intros; by apply spaceless_snoc|done|].
    by apply build_libsodium_spaceless. }
  specialize (Hm [] (Forall_nil_2 _)). by destruct (build.main c h []) as [tr [|]].
Qed.

Lemma build_no_spaces_witness :
  contains " " "/work/my project/out" = true /\
  spaceless (build.main RefHost.cfg (RefHost.host RefHost.env) []).1.
Proof.
  split; [reflexivity|].
  apply (build_no_spaces RefHost.cfg (RefHost.host RefHost.env) eq_refl);
    [repeat split; reflexivity|reflexivity|].
  intros k v Hk Hv. repeat (apply elem_of_cons in Hk as [->|Hk]; [vm_compute in Hv; by simplify_eq|]).
  by apply elem_of_nil in Hk.
Defined.

(** The fallback is not checked again: with a space in the temporary directory,
    the directory handed to [configure] has a space. *)
Lemma fallback_unchecked c h target profile out_dir :
  contains " " out_dir = true -> contains " " (h_temp_dir h) = true -> cfg_windows c = false ->
  has_root c target = false -> has_root c profile = false ->
  contains " " (chosen_dir c h target profile out_dir) = true.
Proof.
  intros Ho Ht Hu Hr1 Hr2. unfold chosen_dir. rewrite Ho.
  assert (Hj : forall p q, has_root c q = false -> contains " " p = true -> contains " " (join c p q) = true).
  { intros p q Hq Hp. rewrite join_unix by done. rewrite Hq.
    destruct (_ || _); rewrite !contains_char_app, Hp; done. }
  do 3 (apply Hj; [try done|]); [|done]. cbn. unfold is_sep. by rewrite Hu.
Qed.

(** ** The package that depends on libsodium-sys *)

Section Dependent.
Context (c : config) (h h' : host).
Hypothesis Hunix : cfg_windows c = false.

(** The value of the last directive of a kind *)
Definition last_value (f : event -> option string) (tr : trace) : option string := last (omap f tr).
Definition meta_include (e : event) : option string :=
  match e with Printed (MetaInclude d) => Some d | _ => None end.
Definition meta_lib (e : event) : option string :=
  match e with Printed (MetaLib d) => Some d | _ => None end.

(** What cargo passes on to the build script of a package that depends on
    libsodium-sys, after [tr]. *)
Record cargo_passes (tr : trace) : Prop := {
  cp_target : h_env h' "TARGET" = h_env h "TARGET";
  cp_lib_dir : h_env h' "SODIUM_LIB_DIR" = h_env h "SODIUM_LIB_DIR";
  cp_include : h_env h' "DEP_SODIUM_INCLUDE" = last_value meta_include tr;
  cp_lib : h_env h' "DEP_SODIUM_LIB" = last_value meta_lib tr
}.

(** A name without separators *)
Definition is_name (s : string) : bool := negb (String.eqb s EmptyString) && negb (contains "/" s).

Definition has_file (dir name : string) : Prop :=
  forall tr, exists entries, h_read_dir h' tr dir = Some entries /\ Some name ∈ entries.

(** A copied file is in its directory, and what libsodium's own build documents:
    after [configure --libdir=dir] and [make install], the library is in [dir]. *)
Record files_after (tr : trace) : Prop := {
  fa_copied src dir name :
    Copied src (join c dir name) ∈ tr -> is_name name = true -> has_file dir name;
  fa_installed configure out dir source_dir out' :
    RanCommand configure (Exited true out) ∈ tr -> "--libdir=" +:+ dir ∈ cmd_args configure ->
    RanCommand (Command "make" ["install"] [] (Some source_dir)) (Exited true out') ∈ tr ->
    has_file dir "libsodium.a"
}.

Lemma dir_has_run dir name tr : has_file dir name -> testcrate.dir_has h' dir name tr = (tr, Returns true).
Proof.
  intros Hf. destruct (Hf tr) as (entries & Hr & Hin). unfold testcrate.dir_has. rewrite Hr.
  do 2 f_equal. apply existsb_exists. exists name. split; [|apply String.eqb_refl].
  apply list_elem_of_In, list_elem_of_omap. by exists (Some name).
Qed.

(** Joining a relative path in two steps *)
Lemma join_join p a b :
  has_root c a = false -> has_root c b = false -> a <> EmptyString -> ends_with "/"%char a = false ->
  join c (join c p a) b = join c p (a +:+ "/" +:+ b).
Proof.
  intros Ha Hb Hne Hend. rewrite (join_unix c Hunix _ b), Hb.
  assert (Hra : has_root c (a +:+ "/" +:+ b) = false) by (by destruct a).
  rewrite !(join_unix c Hunix p), Ha, Hra.
  destruct (String.eqb p EmptyString || ends_with "/"%char p).
  - rewrite append_nonempty, ends_with_app, Hend by done. cbn [orb]. by rewrite string_app_assoc.
  - rewrite append_nonempty by done. rewrite (ends_with_app _ p) by done.
    rewrite (ends_with_app _ "/"), Hend by done. cbn [orb]. by rewrite !string_app_assoc.
Qed.

(** The values of the last two directives of a successful build *)
Lemma built_metadata o target tr :
  built_and_linked c h o target tr ->
  last_value meta_include tr =
    Some (join c (join c (join c o "source") "libsodium") "src/libsodium/include") /\
  last_value meta_lib tr = Some (join c o "installed" +:+ "/lib").
Proof.
  intros (? & ? & ? & ? & ? & ? & (pre & l & _ & Hl & ->) & _).
  apply Forall2_app_inv_l in Hl as (l1 & l2 & _ & Hl2 & ->).
  unfold link_directives in Hl2. cbn in Hl2.
  repeat match goal with
  | H : Forall2 _ (_ :: _) _ |- _ => apply Forall2_cons_inv_l in H as (? & ? & ? & H & ->)
  | H : Forall2 _ [] _ |- _ => apply Forall2_nil_inv_l in H as ->
  | H : printed _ _ |- _ => unfold printed in H; subst
  end.
  unfold last_value. rewrite app_assoc, !omap_app. cbn. by rewrite !last_snoc.
Qed.

(** The commands of a successful build are in its trace. *)
Lemma trail_in Pre ps tr P : trail Pre ps tr -> P ∈ ps -> exists e, e ∈ tr /\ P e.
Proof.
  intros (pre & l & _ & Hl & ->) Hin.
  apply list_elem_of_lookup in Hin as [i Hi].
  destruct (Forall2_lookup_l _ _ _ _ _ Hl Hi) as (e & He & Hp). exists e. split; [|done].
  apply elem_of_app. right. by eapply list_elem_of_lookup_2.
Qed.

End Dependent.

(** The two build scripts fit together: after a build from source, the build
    script of a package that depends on libsodium-sys, which reads the metadata
    cargo passes on, finds [sodium.h] (it is among the sources that were copied)
    and the library where it looks for them, and succeeds. *)
Theorem testcrate_accepts_build c h h' tr target
    (Hunix : cfg_windows c = false) (Hsrc : from_source c h)
    (Hrun : build.main c h [] = (tr, Returns tt))
    (Htarget : env_var h "TARGET" = Some target) (Hmsvc : contains "msvc" target = false)
    (Hheader : Some (DirEntry "libsodium/src/libsodium/include/sodium.h" "sodium.h" false)
                 ∈ h_walk h "libsodium" build.not_git)
    (Hcargo : cargo_passes h h' tr) (Hfiles : files_after c h' tr) :
  testcrate.main h' [] = ([Printed (RerunIfChanged "build.rs")], Returns tt).
Proof.
  assert (Hb : triple quiet (build.main c h) (fun _ tr => exists o,
    is_text o = true /\ built_and_linked c h o target tr) quiet).
  { apply from_source_triple; [done|intros; by apply quiet_snoc|done|].
    eapply triple_conseq; [by apply build_libsodium_triple|done| |done].
    intros [] tr' (out_dir & target' & profile & _ & Ht' & _ & Ht & Hbl). simplify_eq. by eexists. }
  specialize (Hb [] (Forall_nil_2 _)). rewrite Hrun in Hb. destruct Hb as (o & Ho & Hb).
  destruct (built_metadata c h o target tr Hb) as [Hinc Hlib].
  destruct Hb as (configure & compiler & cflags & host_arg & jobs & cross & Htr & _).
  set (src := join c (join c o "source") "libsodium") in *. set (inc := join c src _) in *.
  set (lib := join c o "installed" +:+ "/lib") in *. destruct Hcargo as [Ht Hl Hi Hlb].
  assert (Hfh : has_file h' inc "sodium.h").
  { apply (fa_copied _ _ _ Hfiles "libsodium/src/libsodium/include/sodium.h"); [|done].
    destruct Htr as (pre & l & [_ Hr] & _ & ->). apply elem_of_app. left.
    unfold inc, src. specialize (Hr _ Hheader eq_refl). cbn [e_path] in Hr.
    rewrite join_join in Hr by (try done; by apply is_sep_unix).
    rewrite !join_join by (try done; by apply is_sep_unix). exact Hr. }
  assert (Hin : forall cmd, cmd ∈ build_commands h configure src compiler cflags (join c o "installed")
      host_arg jobs cross -> exists out, RanCommand cmd (Exited true out) ∈ tr).
  { intros cmd Hc. destruct (trail_in _ _ _ (succeeded cmd) Htr) as (e & He & out & ->); [|by exists out].
    apply elem_of_app. left. by apply list_elem_of_fmap_2. }
  assert (Hfl : has_file h' lib "libsodium.a").
  { destruct (Hin _ (list_elem_of_here _ _)) as [out Hconf].
    destruct (Hin (Command "make" ["install"] [] (Some src))) as [out' Hinst].
    { do 2 apply list_elem_of_further. apply list_elem_of_here. }
    eapply (fa_installed _ _ _ Hfiles _ _ _ _ _ Hconf); [|exact Hinst].
    cbn [cmd_args build.configure_command]. apply elem_of_app. right.
    apply list_elem_of_further, list_elem_of_here. }
  assert (Hv : forall k v, h_env h' k = Some v -> is_text v = true -> env_unwrap h' k = bret v).
  { intros k v Hk Hv. unfold env_unwrap, env_var. by rewrite Hk, Hv. }
  assert (Ht' : env_var h' "TARGET" = Some target) by (unfold env_var; by rewrite Ht).
  assert (Hld : env_is_ok h' "SODIUM_LIB_DIR" = false).
  { destruct Hsrc as (_ & Hl' & _). unfold env_is_ok, env_var in *. by rewrite Hl. }
  assert (Hit : is_text inc = true) by (by repeat apply join_is_text).
  assert (Hlt : is_text lib = true) by (apply is_text_app; [by apply join_is_text|done]).
  rewrite Hinc in Hi. rewrite Hlib in Hlb.
  assert (Hvt : env_unwrap h' "TARGET" = bret target) by (unfold env_unwrap; by rewrite Ht').
  unfold testcrate.main. rewrite Hvt, Hld, (Hv _ _ Hi Hit), (Hv _ _ Hlb Hlt).
  unfold bbind, bret, println, record. cbn [app]. rewrite Hmsvc.
  rewrite (dir_has_run h' inc "sodium.h") by done. cbn [negb].
  by rewrite (dir_has_run h' lib "libsodium.a").
Qed.

(** The last component of a path *)
Fixpoint base_name (p : path) : string :=
  if contains "/" p then match p with String _ p' => base_name p' | EmptyString => EmptyString end else p.

Lemma ends_with_contains p : ends_with "/"%char p = true -> contains "/" p = true.
Proof.
  induction p as [|a p IH]; [done|]. cbn [ends_with]. intros He.
  change (contains "/" (String a p)) with (String.prefix "/" (String a p) || contains "/" p).
  destruct p as [|b p]; [|by rewrite IH, orb_true_r].
  apply Ascii.eqb_eq in He as <-. reflexivity.
Qed.

Lemma base_name_app p name :
  is_name name = true -> p = EmptyString \/ ends_with "/"%char p = true -> base_name (p +:+ name) = name.
Proof.
  intros [_ Hn]%andb_true_iff. apply negb_true_iff in Hn.
  assert (Hb : base_name name = name) by (destruct name; cbn -[contains]; by rewrite ?Hn).
  induction p as [|a p IH]; [done|]. intros [|He]; [done|].
  pose proof (ends_with_contains _ He) as Hc. rewrite string_cons_app.
  cbn -[contains ends_with]. rewrite <- string_cons_app, contains_char_app, Hc. cbn [orb].
  apply IH. destruct p as [|b p]; [by left|by right].
Qed.

Lemma base_name_join c dir name :
  cfg_windows c = false -> is_name name = true -> base_name (join c dir name) = name.
Proof.
  intros Hc Hn. rewrite join_unix by done.
  assert (Hr : has_root c name = false).
  { apply andb_true_iff in Hn as [Hne Hs]. destruct name as [|a name]; [done|]. apply is_sep_unix; [done|].
    intros ->. destruct name; discriminate Hs. }
  rewrite Hr. destruct (String.eqb dir EmptyString || ends_with "/"%char dir) eqn:E.
  - apply base_name_app; [done|]. apply orb_true_iff in E as [E|E]; [left; by apply String.eqb_eq|by right].
  - rewrite <- string_app_assoc. apply base_name_app; [done|]. right. by rewrite ends_with_app.
Qed.

(** The files the reference machine copies *)
Lemma ref_copies src dst :
  Copied src dst ∈ (build.main RefHost.cfg (RefHost.host RefHost.env) []).1 ->
  dst = RefHost.out +:+ "/source/libsodium/configure" \/
  dst = RefHost.out +:+ "/source/libsodium/src/libsodium/include/sodium.h".
Proof.
  vm_compute. intros Hin.
  repeat (apply elem_of_cons in Hin as [E|Hin]; [try discriminate E; injection E as -> ->; tauto|]).
  by apply elem_of_nil in Hin.
Qed.

Lemma testcrate_accepts_build_witness :
  testcrate.main (RefHost.host RefHost.dep_env) [] = ([Printed (RerunIfChanged "build.rs")], Returns tt).
Proof.
  apply (testcrate_accepts_build RefHost.cfg (RefHost.host RefHost.env) (RefHost.host RefHost.dep_env)
    (build.main RefHost.cfg (RefHost.host RefHost.env) []).1 "x86_64-unknown-linux-gnu");
    [done|by repeat split|vm_compute; reflexivity|done|done| | |].
  - do 3 apply list_elem_of_further. apply list_elem_of_here.
  - split; vm_compute; reflexivity.
  - split.
    + intros src dir name Hin Hn tr. eexists. split; [reflexivity|].
      rewrite <- (base_name_join RefHost.cfg dir name eq_refl Hn).
      apply ref_copies in Hin as [-> | ->]; [|do 1 apply list_elem_of_further]; apply list_elem_of_here.
    + intros * _ _ _ tr. eexists. split; [reflexivity|].
      do 3 apply list_elem_of_further. apply list_elem_of_here.
Defined.
